(* ===== verification/_CoqProject ===== *)
-Q . S2P
Prelude.v
Pmm.v
KHeap.v
PageTable.v
Paging.v
Vm.v
Scheduler.v
Pcid.v
KString.v
Disk.v
Bytes.v
Part.v
Ns.v
Ramfs.v
Vfs.v
Fds.v
Clock.v
Mft.v
Fs.v
FsTree.v
FsSpec.v
FsData.v
FsOpen.v
FsVfs.v
Text.v
Pci.v
Timer.v
Vfile.v
Process.v
Sys.v
SysInv.v
Net.v
Input.v
StateGraph.v
NlParser.v
Console.v
Intent.v
Ui.v
Usb.v
Arch.v
CpuExc.v
ShellText.v
Shell.v
ShellProps.v
