(* ===== verification/Prelude.v ===== *)
(** * Plan 0 (OpenSYS) kernel: a verification library

    Plan 0 is a small x86-64 kernel: physical and virtual memory, a kernel
    heap, processes with a round-robin scheduler, a disk filesystem over a
    partition layer and an ATA driver, a RAM filesystem, virtual files, a
    descriptor layer that unites the three, and system calls on top.  This
    library translates the C code of these parts into executable Rocq
    definitions and proves what makes them correct, or, where the code does
    not do what it means to, what it does instead.

    ** How the parts fit together

    [memory.c] hands out page frames; [kheap.c] carves a fixed region into
    blocks; [paging.c] and [vm.c] build page tables out of frames and
    allocate their bookkeeping from the heap.  [process.c] and [scheduler.c]
    keep the process table and thread the ready queue through it; [switch.c]
    drives them from the timer.  [disk.c] talks to the drive, [part.c] and
    [partition_table.c] confine accesses to a partition, [fs.c] keeps its
    records and clusters there, [ramfs.c] keeps files in heap blocks and
    [vfile.c] prints kernel state on demand.  [vfs.c] routes paths to the
    three through mount points and descriptors, and [sys.c] exposes
    everything to processes.

    ** Files

    - [Prelude]: integers at their C width, bit notation, shared lemmas,
      the [zbool] and [if_all] tactics and the [plan0] hint database.
    - [Bytes]: byte-addressed memory ([gmap Z Z]), little-endian loads and
      stores, frames (which bytes a store may change).
    - [Pmm] (memory.c), [KHeap] (kheap.c), [PageTable], [Paging] (paging.c),
      [Vm] (process/vm.c), [Pcid] (the PCID part of switch.c).
    - [Scheduler] (scheduler.c, switch.c, the queue half of process.c),
      [Process] (the rest of process.c, elf.c), [Sys] (sys.c), [SysInv] (the
      descriptor invariant over whole runs of the kernel).
    - [KString] (kstring.c, path.c), [Text] (bounded printing), [Clock]
      (rtc.c), [Timer] (timer.c), [Pci] (pci.c).
    - [Disk] (disk.c over port I/O), [Part] (part.c, partition_table.c,
      volume.c).
    - [Ns] (ns.c): parsing and resolving resource names.
    - [Ramfs] (ramfs.c), [Vfs] (vfs.c), [Fds] (its reference counts),
      [Vfile] (vfile.c).
    - [Mft], [Fs] (fs.c), [FsTree], [FsSpec], [FsData] (its theorems),
      [FsVfs] (fs_vfs.c).
    - [Console] (vga.c, serial.c), [Input] (ps2_keyboard.c, hid.c, input.c),
      [Usb] (usb_host.c, ehci.c), [Net] (net.c, ip.c, icmp.c, tcp.c).
    - [StateGraph] (state_graph.c), [Intent] (intent_schema.c,
      intent_dispatcher.c), [NlParser] (nl_parser.c), [Ui] (ui_state.c,
      ui_command.c).
    - [FsOpen] (fs_open, fs_close and fs_readdir of fs.c, on what callers rely
      on), [ShellText] (the parts of shell.c that only compute on text),
      [Shell] (shell.c: every command, dispatch, redirection and the loop, in
      a state monad over the components above), [ShellProps] (what the
      commands do to the screen and to the filesystem).
    - [Arch] (pic.c, gdt.c, idt.c, tss.c, interrupt_handlers.c), [CpuExc]
      (cpu_exceptions.c).


    Each component's globals are a [Record], each function a [Definition]
    that takes and returns that record; definitions keep the C names.

    ** How C is rendered

    Integers are [Z], wrapped by [u8] ... [u64] and [i32] where the C type
    wraps.  Strings are lists of character codes without the terminator,
    buffers are lists or byte maps.  Pointers into arrays are indices,
    pointers into the heap are addresses.  [option] is used for two things
    only: a null pointer, and a run that does not return (a loop that is out
    of fuel, a hang, or a fault); each file says which.  Hardware is a class
    ([PortIO], [VfsBackend], ...) or a parameter, with its documented laws as
    a second class that an executable model instantiates.

    ** Fuel

    Loops that follow pointers take fuel; theorems state a bound that
    suffices (the length of the block list or queue, the depth of a path) and
    conclude that the function returns.  Where the code loops for ever the
    theorem says that no fuel is enough.

    ** What is shown

    - Memory: page frames are never shared between owners over whole client
      histories; [kmalloc], [kfree] and [krealloc] keep a well-formed heap and
      disjoint blocks; mappings translate as asked and disturb nothing else;
      copy-on-write keeps address spaces apart.
    - Processes: the linked ready queue refines a FIFO list; round robin
      reaches everyone; creating a process builds the frame it starts from;
      argument vectors are laid out as the ABI wants; under every sequence of
      system calls, switches and ticks each process owns its descriptor table
      and reference counts are exact.
    - Storage: sector I/O round-trips and stays inside its partition; the
      filesystem operations refine a tree of names and files; data written is
      read back; the RAM filesystem refines a map from names to contents.
    - Interfaces: name parsing accepts exactly its grammar; paths reach the
      longest mount point; pipes are FIFOs; virtual files print exactly their
      text within the buffer; PCI search finds the first match.
    - Devices: the console shows the last rows of what was written; the PS/2
      driver refines a queue of decoded keys; checksums are those of RFC 1071;
      USB transfers give back what they take; the interrupt controllers and
      the descriptor tables deliver every interrupt to its stub.
    - Interaction: the state graph is a tree with typed nodes; intents are
      carried out only when authorized; the phrase parser ignores case; the
      counters of the user interface are exact.
    - The shell: [read], [write], [append], [wc] and [grep] do on the screen
      and to a file what they promise; the history refines a log; the line
      editor shows the line it returns; [find] ends, but searches only seven
      directories; [mkdir] and [delete] refine the tree of names; [cd] and
      [pwd] never work; some redirected commands are refused; moving a file
      to a missing directory destroys it.  A line never needs more than two nested calls
      ([process_command_depth]); loops over files take fewer turns than the file has bytes.
    - Defects are theorems too: each says what the code does on inputs where
      that is not what it means to do.

    ** Not modelled

    Assembly (boot code, interrupt entry, [switch.asm]) and inline assembly
    beyond port access and CR3; the contents of embedded binaries
    ([programs.c], [user_bin.c]) and user programs; caches and the TLB other
    than PCID numbering; true concurrency (the kernel runs with one
    processor, interrupts appear as explicit steps).
    The start-up sequence of [kernel.c] is not modelled: the initialisation
    functions it calls are modelled with their components, each over its own
    view of the ports and of memory, and the views are not joined into one
    machine.
*)

From stdpp Require Export base numbers list strings gmap.

#[export] Set Default Goal Selector "!".
Global Open Scope Z_scope.

(** ** Machine integers

    C values are kept as [Z]; a value of an unsigned type of width [w] lies
    in [0, 2^w) and each operation that can leave that range is wrapped
    explicitly with one of the following. *)

Definition u8 (x : Z) : Z := x mod 2 ^ 8.
Definition u16 (x : Z) : Z := x mod 2 ^ 16.
Definition u32 (x : Z) : Z := x mod 2 ^ 32.
Definition u64 (x : Z) : Z := x mod 2 ^ 64.
(** Conversion to [int]: two's complement truncation to 32 bits. *)
Definition i32 (x : Z) : Z := (x + 2 ^ 31) mod 2 ^ 32 - 2 ^ 31.

Definition is_u8 (x : Z) : Prop := 0 <= x < 2 ^ 8.
Definition is_u16 (x : Z) : Prop := 0 <= x < 2 ^ 16.
Definition is_u32 (x : Z) : Prop := 0 <= x < 2 ^ 32.
Definition is_u64 (x : Z) : Prop := 0 <= x < 2 ^ 64.

(** [~(uint64_t)0]. *)
Definition U64_MAX : Z := 2 ^ 64 - 1.

Declare Scope plan0_scope.
Delimit Scope plan0_scope with plan0.
Notation "'len' l" := (Z.of_nat (length l)) (at level 10, only parsing) : plan0_scope.
Notation "x '.&' y" := (Z.land x y) (at level 40, left associativity) : plan0_scope.
Notation "x '.|' y" := (Z.lor x y) (at level 45, left associativity) : plan0_scope.
Notation "x '.<<' n" := (Z.shiftl x n) (at level 33, left associativity) : plan0_scope.
Notation "x '.>>' n" := (Z.shiftr x n) (at level 33, left associativity) : plan0_scope.
Global Open Scope plan0_scope.

(** Decidable tests on [Z] used by the models, turned into propositions. *)
Ltac zbool :=
  repeat match goal with
  | H : (_ <? _) = true |- _ => apply Z.ltb_lt in H
  | H : (_ <? _) = false |- _ => apply Z.ltb_ge in H
  | H : (_ <=? _) = true |- _ => apply Z.leb_le in H
  | H : (_ <=? _) = false |- _ => apply Z.leb_gt in H
  | H : (_ =? _) = true |- _ => apply Z.eqb_eq in H
  | H : (_ =? _) = false |- _ => apply Z.eqb_neq in H
  | H : (_ && _)%bool = true |- _ => apply andb_true_iff in H; destruct H
  | H : (_ && _)%bool = false |- _ => apply andb_false_iff in H
  | H : (_ || _)%bool = true |- _ => apply orb_true_iff in H
  | H : (_ || _)%bool = false |- _ => apply orb_false_iff in H; destruct H
  | H : negb _ = true |- _ => apply negb_true_iff in H
  | H : negb _ = false |- _ => apply negb_false_iff in H
  end.

(** Split on the boolean tests of a model's [if]s, converting each. *)
Ltac if_step :=
  match goal with
  | |- context [if ?b then _ else _] => destruct b eqn:?; zbool
  | H : context [if ?b then _ else _] |- _ => destruct b eqn:?; zbool
  end.
Ltac if_all := repeat if_step.

Create HintDb plan0 discriminated.
Create Rewrite HintDb widths.
Create Rewrite HintDb arr.

Section widths.
Lemma is_u8_wrap x : is_u8 (u8 x).
Proof. apply Z.mod_pos_bound. lia. Qed.
Lemma is_u16_wrap x : is_u16 (u16 x).
Proof. apply Z.mod_pos_bound. lia. Qed.
Lemma is_u32_wrap x : is_u32 (u32 x).
Proof. apply Z.mod_pos_bound. lia. Qed.
Lemma is_u64_wrap x : is_u64 (u64 x).
Proof. apply Z.mod_pos_bound. lia. Qed.

Lemma u8_id x : is_u8 x -> u8 x = x.
Proof. apply Z.mod_small. Qed.
Lemma u16_id x : is_u16 x -> u16 x = x.
Proof. apply Z.mod_small. Qed.
Lemma u32_id x : is_u32 x -> u32 x = x.
Proof. apply Z.mod_small. Qed.
Lemma u64_id x : is_u64 x -> u64 x = x.
Proof. apply Z.mod_small. Qed.
Lemma u64_add_u64 x y : u64 (u64 x + y) = u64 (x + y).
Proof. unfold u64. by rewrite Zplus_mod_idemp_l. Qed.
Lemma i32_id x : - 2 ^ 31 <= x < 2 ^ 31 -> i32 x = x.
Proof. unfold i32. intros. rewrite Z.mod_small; lia. Qed.
End widths.

#[export] Hint Resolve is_u8_wrap is_u16_wrap is_u32_wrap is_u64_wrap : plan0.
#[export] Hint Rewrite u8_id u16_id u32_id u64_id i32_id
  using (unfold is_u8, is_u16, is_u32, is_u64 in *; lia) : widths.

(** ** Single bits of a word *)

Section bits.
Implicit Types w k i : Z.

Lemma testbit_single k i : 0 <= k -> Z.testbit (1 .<< k) i = (i =? k).
Proof.
  intros Hk. destruct (Z.ltb_spec i 0) as [Hi|Hi].
  - rewrite Z.testbit_neg_r by lia. symmetry. apply Z.eqb_neq. lia.
  - rewrite Z.shiftl_spec by lia. destruct (Z.eqb_spec i k) as [->|Hne].
    + by rewrite Z.sub_diag.
    + destruct (Z.ltb_spec i k).
      * by rewrite Z.testbit_neg_r by lia.
      * apply Z.bits_above_log2; [lia|]. simpl. lia.
Qed.

Lemma land_single_eqb w k :
  0 <= k -> (w .& (1 .<< k) =? 0) = negb (Z.testbit w k).
Proof.
  intros Hk. destruct (Z.testbit w k) eqn:E; simpl.
  - apply Z.eqb_neq. intros H0. apply (f_equal (fun z => Z.testbit z k)) in H0.
    rewrite Z.land_spec, testbit_single, Z.eqb_refl, E, Z.bits_0 in H0; done.
  - apply Z.eqb_eq, Z.bits_inj_0. intros i.
    rewrite Z.land_spec, testbit_single by done.
    destruct (Z.eqb_spec i k) as [->|]; [by rewrite E|by rewrite andb_false_r].
Qed.

Lemma land_single_value w k :
  0 <= k -> w .& (1 .<< k) = if Z.testbit w k then 1 .<< k else 0.
Proof.
  intros Hk. apply Z.bits_inj'. intros i Hi.
  rewrite Z.land_spec, testbit_single by done.
  destruct (Z.testbit w k) eqn:E; rewrite ?testbit_single, ?Z.bits_0 by done;
    destruct (Z.eqb_spec i k) as [->|]; rewrite ?E, ?andb_false_r; done.
Qed.

Lemma testbit_lor_single w k i :
  0 <= k -> Z.testbit (w .| (1 .<< k)) i = ((i =? k) || Z.testbit w i)%bool.
Proof. intros. rewrite Z.lor_spec, testbit_single by done. apply orb_comm. Qed.

Lemma testbit_u64 x i : 0 <= i -> Z.testbit (u64 x) i = ((i <? 64) && Z.testbit x i)%bool.
Proof.
  intros Hi. unfold u64. destruct (Z.ltb_spec i 64); simpl.
  - by apply Z.mod_pow2_bits_low.
  - apply Z.mod_pow2_bits_high. lia.
Qed.

Lemma testbit_clear_single w k i :
  0 <= k -> 0 <= i < 64 ->
  Z.testbit (w .& u64 (Z.lnot (1 .<< k))) i = (negb (i =? k) && Z.testbit w i)%bool.
Proof.
  intros Hk Hi. rewrite Z.land_spec, testbit_u64, Z.lnot_spec, testbit_single by lia.
  rewrite (proj2 (Z.ltb_lt i 64)) by lia. apply andb_comm.
Qed.

Lemma u64_of_bits x : 0 <= x -> (forall i, 64 <= i -> Z.testbit x i = false) -> is_u64 x.
Proof.
  intros H0 Hb. split; [done|]. destruct (Z.ltb_spec x (2 ^ 64)); [done|].
  assert (Hl : 64 <= Z.log2 x) by (apply Z.log2_le_pow2; lia).
  specialize (Hb _ Hl). rewrite Z.bit_log2 in Hb by lia. done.
Qed.

Lemma is_u64_bit_high x i : is_u64 x -> 64 <= i -> Z.testbit x i = false.
Proof.
  intros Hx Hi. rewrite <- (u64_id x Hx), testbit_u64 by lia.
  by rewrite (proj2 (Z.ltb_ge i 64)).
Qed.

Lemma is_u64_lor w k : is_u64 w -> 0 <= k < 64 -> is_u64 (w .| (1 .<< k)).
Proof.
  intros Hw Hk. apply u64_of_bits.
  - apply Z.lor_nonneg. split; [apply Hw|]. apply Z.shiftl_nonneg. lia.
  - intros i Hi. rewrite testbit_lor_single, (is_u64_bit_high w i) by lia || done.
    rewrite orb_false_r. apply Z.eqb_neq. lia.
Qed.

Lemma is_u64_land w m : is_u64 w -> is_u64 (w .& m).
Proof.
  intros Hw. apply u64_of_bits.
  - apply Z.land_nonneg. left. apply Hw.
  - intros i Hi. by rewrite Z.land_spec, (is_u64_bit_high w i) by done.
Qed.

(** The union of two [n]-bit values has [n] bits. *)
Lemma lor_bound n x y : 0 <= n -> 0 <= x < 2 ^ n -> 0 <= y < 2 ^ n -> 0 <= x .| y < 2 ^ n.
Proof.
  intros Hn Hx Hy.
  assert (E : x .| y = (x .| y) mod 2 ^ n).
  { rewrite <- Z.land_ones by lia. rewrite Z.land_lor_distr_l, !Z.land_ones, !Z.mod_small by lia. done. }
  rewrite E. apply Z.mod_pos_bound. lia.
Qed.

Lemma testbit_U64_MAX i : 0 <= i < 64 -> Z.testbit U64_MAX i = true.
Proof. intros. change U64_MAX with (Z.ones 64). apply Z.ones_spec_low. lia. Qed.

(** [x & ~(2^k - 1)] rounds a 64-bit value down to a multiple of [2^k]. *)
Lemma land_align_mask x k :
  is_u64 x -> 0 <= k <= 64 -> x .& u64 (Z.lnot (2 ^ k - 1)) = x / 2 ^ k * 2 ^ k.
Proof.
  intros Hx Hk. replace (2 ^ k - 1) with (Z.ones k) by (rewrite Z.ones_equiv; lia).
  rewrite <- Z.shiftr_div_pow2, <- Z.shiftl_mul_pow2, <- Z.ldiff_ones_r by lia.
  apply Z.bits_inj'. intros i Hi. rewrite Z.land_spec, testbit_u64, Z.lnot_spec, Z.ldiff_spec by lia.
  destruct (Z.ltb_spec i 64); [done|]. by rewrite (is_u64_bit_high x i).
Qed.

Lemma U64_MAX_of_bits w :
  is_u64 w -> (forall i, 0 <= i < 64 -> Z.testbit w i = true) -> w = U64_MAX.
Proof.
  intros Hw Hb. apply Z.bits_inj'. intros i Hi.
  destruct (Z.ltb_spec i 64).
  - rewrite Hb, testbit_U64_MAX by lia. done.
  - rewrite (is_u64_bit_high w), is_u64_bit_high; done || lia.
Qed.
End bits.

(** ** Arrays indexed by [Z]

    [arr_get]/[arr_set] read and write a C array held as a list.  Reads out
    of range give the default, writes out of range change nothing; the
    components' invariants show that the indices they use are in range. *)

Definition arr_get {A} (d : A) (l : list A) (i : Z) : A := default d (l !! Z.to_nat i).
Definition arr_set {A} (l : list A) (i : Z) (x : A) : list A := <[Z.to_nat i := x]> l.

Section arrays.
Context {A : Type} (d : A).
Implicit Types (l : list A) (i j : Z).

Lemma arr_get_set_eq l i x : 0 <= i < len l -> arr_get d (arr_set l i x) i = x.
Proof.
  intros. unfold arr_get, arr_set. rewrite list_lookup_insert_eq; [done|lia].
Qed.
Lemma arr_get_set_ne l i j x :
  0 <= i -> 0 <= j -> i <> j -> arr_get d (arr_set l i x) j = arr_get d l j.
Proof. intros. unfold arr_get, arr_set. rewrite list_lookup_insert_ne; [done|lia]. Qed.
Lemma arr_get_set l i j x :
  0 <= i < len l -> 0 <= j ->
  arr_get d (arr_set l i x) j = if i =? j then x else arr_get d l j.
Proof.
  intros. destruct (Z.eqb_spec i j) as [->|]; [by apply arr_get_set_eq|].
  apply arr_get_set_ne; lia.
Qed.
Lemma length_arr_set l i x : length (arr_set l i x) = length l.
Proof. apply length_insert. Qed.
Lemma arr_get_lookup l i x : l !! Z.to_nat i = Some x -> arr_get d l i = x.
Proof. intros H. unfold arr_get. by rewrite H. Qed.
Lemma arr_lookup_get l i : 0 <= i < len l -> l !! Z.to_nat i = Some (arr_get d l i).
Proof.
  intros Hi. unfold arr_get. destruct (l !! Z.to_nat i) eqn:E; [done|].
  apply lookup_ge_None in E. lia.
Qed.
Lemma arr_get_Forall (P : A -> Prop) l i : P d -> Forall P l -> P (arr_get d l i).
Proof.
  intros Hd HP. unfold arr_get. destruct (l !! Z.to_nat i) eqn:E; [|done].
  simpl. by eapply Forall_lookup_1.
Qed.
Lemma Forall_arr_set (P : A -> Prop) l i x : P x -> Forall P l -> Forall P (arr_set l i x).
Proof. intros. by apply Forall_insert. Qed.
Lemma arr_get_replicate n x i :
  0 <= i < Z.of_nat n -> arr_get d (replicate n x) i = x.
Proof. intros. unfold arr_get. rewrite lookup_replicate_2; [done|lia]. Qed.
End arrays.

#[export] Hint Rewrite @length_arr_set : arr.

(** ** Counting and searching over an index range *)

Fixpoint countb {A} (f : A -> bool) (l : list A) : Z :=
  match l with
  | [] => 0
  | x :: l' => Z.b2z (f x) + countb f l'
  end.

(** [for (...) if (f x) return x;] *)
Fixpoint find_first {A} (f : A -> bool) (l : list A) : option A :=
  match l with
  | [] => None
  | x :: l' => if f x then Some x else find_first f l'
  end.

Section counting.
Context {A : Type}.
Implicit Types (f g : A -> bool) (l : list A).

Lemma countb_nonneg f l : 0 <= countb f l.
Proof. induction l; simpl; [lia|]. destruct (f a); simpl; lia. Qed.
Lemma countb_le_length f l : countb f l <= len l.
Proof. induction l; simpl; [lia|]. destruct (f a); simpl; lia. Qed.
Lemma countb_ext f g l : (forall x, x ∈ l -> f x = g x) -> countb f l = countb g l.
Proof.
  induction l as [|a l IH]; intros H; simpl; [done|].
  rewrite (H a), IH; [done| |left]. intros. apply H. by right.
Qed.
Lemma countb_none f l : (forall x, x ∈ l -> f x = false) -> countb f l = 0.
Proof.
  induction l as [|a l IH]; intros H; simpl; [done|].
  rewrite (H a), IH; [done| |left]. intros. apply H. by right.
Qed.
Lemma countb_pos f l : 0 < countb f l -> exists x, x ∈ l /\ f x = true.
Proof.
  induction l as [|a l IH]; simpl; [lia|]. destruct (f a) eqn:E.
  - intros _. exists a. split; [left|done].
  - simpl. intros H. destruct IH as (x & Hx & Hf); [lia|]. exists x. split; [by right|done].
Qed.
Lemma countb_in f l x : x ∈ l -> f x = true -> 0 < countb f l.
Proof.
  induction 1; simpl; intros Hf.
  - rewrite Hf. simpl. pose proof (countb_nonneg f l). lia.
  - destruct (f y); simpl; specialize (IHlist_elem_of Hf); lia.
Qed.
(** Flipping the test at exactly one element of a duplicate-free list
    changes the count by one. *)
Lemma countb_flip f g l x :
  NoDup l -> x ∈ l -> f x = true -> g x = false ->
  (forall y, y ∈ l -> y <> x -> f y = g y) -> countb f l = countb g l + 1.
Proof.
  intros Hnd Hin Hf Hg Hsame. induction Hnd as [|a l Ha Hnd IH]; [by apply elem_of_nil in Hin|].
  simpl. apply elem_of_cons in Hin as [->|Hin].
  - rewrite Hf, Hg. simpl. rewrite (countb_ext f g l); [lia|].
    intros y Hy. apply Hsame; [by right|]. by intros ->.
  - rewrite IH; [|done|].
    + rewrite (Hsame a); [lia|left|by intros ->].
    + intros y Hy. apply Hsame. by right.
Qed.

Lemma find_first_Some f l x : find_first f l = Some x -> x ∈ l /\ f x = true.
Proof.
  induction l as [|a l IH]; simpl; [done|]. destruct (f a) eqn:E; intros H.
  - simplify_eq. split; [left|done].
  - destruct (IH H). split; [by right|done].
Qed.
Lemma find_first_None f l : find_first f l = None <-> forall x, x ∈ l -> f x = false.
Proof.
  induction l as [|a l IH]; simpl.
  - split; [|done]. intros _ x Hx. by apply elem_of_nil in Hx.
  - destruct (f a) eqn:E; split; try done.
    + intros H. specialize (H a). rewrite H in E; [done|left].
    + intros H x Hx. apply elem_of_cons in Hx as [->|Hx]; [done|]. by apply IH.
    + intros H. apply IH. intros x Hx. apply H. by right.
Qed.
Lemma find_first_exists f l x : x ∈ l -> f x = true -> is_Some (find_first f l).
Proof.
  intros Hin Hf. destruct (find_first f l) eqn:E; [by eexists|].
  rewrite find_first_None in E. specialize (E x Hin). congruence.
Qed.
End counting.

Lemma find_first_app {A} (f : A -> bool) l1 l2 :
  find_first f (l1 ++ l2) =
  match find_first f l1 with Some x => Some x | None => find_first f l2 end.
Proof. induction l1 as [|a l1 IH]; simpl; [done|]. by destruct (f a). Qed.
Lemma find_first_fmap {A B} (f : B -> bool) (g : A -> B) (l : list A) :
  find_first f (g <$> l) = g <$> find_first (fun x => f (g x)) l.
Proof. induction l as [|x l IH]; [done|]. cbn [fmap list_fmap find_first]. destruct (f (g x)); [done|]. apply IH. Qed.

Lemma find_first_ext {A} (f g : A -> bool) l :
  (forall x, x ∈ l -> f x = g x) -> find_first f l = find_first g l.
Proof.
  induction l as [|a l IH]; intros H; simpl; [done|].
  rewrite (H a) by left. rewrite IH; [done|]. intros. apply H. by right.
Qed.

(** The first hit of a search over an ascending range is the least hit. *)
Lemma find_first_seqZ_least f m n x :
  find_first f (seqZ m n) = Some x ->
  m <= x < m + n /\ f x = true /\ (forall y, m <= y < x -> f y = false).
Proof.
  intros H. pose proof (find_first_Some _ _ _ H) as [Hin Hf].
  apply elem_of_seqZ in Hin. split; [done|]. split; [done|].
  revert H. replace (seqZ m n) with (seqZ m (x - m) ++ seqZ x (n - (x - m))).
  2:{ replace n with ((x - m) + (n - (x - m))) at 2 by lia.
      rewrite seqZ_app by lia. do 2 f_equal. lia. }
  intros H y Hy. destruct (f y) eqn:E; [|done]. exfalso.
  assert (Hy' : y ∈ seqZ m (x - m)) by (apply elem_of_seqZ; lia).
  revert H Hy' E. generalize (seqZ x (n - (x - m))) as l2.
  assert (Hlt : forall z, z ∈ seqZ m (x - m) -> z < x) by (intros z Hz; apply elem_of_seqZ in Hz; lia).
  revert Hlt. generalize (seqZ m (x - m)) as l1.
  induction l1 as [|a l1 IH]; intros Hlt l2 H Hy' E; [by apply elem_of_nil in Hy'|].
  simpl in H. destruct (f a) eqn:Ea.
  - simplify_eq. specialize (Hlt x). assert (x < x); [apply Hlt; left|lia].
  - apply elem_of_cons in Hy' as [->|Hy']; [congruence|].
    apply (IH (fun z Hz => Hlt z (proj2 (elem_of_cons _ _ _) (or_intror Hz))) l2); done.
Qed.

Lemma filter_ext_in {A} (P Q : A -> Prop) `{!forall x, Decision (P x), !forall x, Decision (Q x)} (l : list A) :
  (forall x, x ∈ l -> P x <-> Q x) -> filter P l = filter Q l.
Proof.
  induction l as [|a l IH]; intros Hpq; [done|]. rewrite !filter_cons, IH by (intros; apply Hpq; by right).
  destruct (decide (P a)) as [Hp|Hp], (decide (Q a)) as [Hq|Hq]; try done; exfalso.
  - apply Hq, Hpq; [left|done].
  - apply Hp, Hpq; [left|done].
Qed.

(** Invariants of a [for] loop that threads a state. *)
Lemma foldl_inv {A B} (I : A -> Prop) (f : A -> B -> A) (l : list B) (a : A) :
  I a -> (forall s x, x ∈ l -> I s -> I (f s x)) -> I (foldl f a l).
Proof.
  revert a. induction l as [|b l IH]; intros a Ha Hf; simpl; [done|].
  apply IH.
  - apply Hf; [left|done].
  - intros s x Hx. apply Hf. by right.
Qed.

(** ** C strings

    A [char] is its byte value; a C string is the list of the bytes before
    the terminating NUL.  [cstr] reads the string stored in a buffer. *)

Abbreviation cstring := (list Z) (only parsing).

Definition NUL : Z := 0.

Fixpoint cstr (buf : list Z) : cstring :=
  match buf with
  | [] => []
  | c :: buf' => if c =? NUL then [] else c :: cstr buf'
  end.

Fixpoint zs (s : string) : cstring :=
  match s with
  | EmptyString => []
  | String a s' => Z.of_N (Ascii.N_of_ascii a) :: zs s'
  end.

(** The character literal written as a one-character string. *)
Definition ch (s : string) : Z := hd 0 (zs s).

(** A well-formed C string has no embedded NUL. *)
Definition is_cstr (s : cstring) : Prop := Forall (fun c => 0 < c < 256) s.

(** [s[i]] of a C string: the terminator at [i = strlen(s)]. *)
Definition char_at (s : cstring) (i : Z) : Z := arr_get NUL s i.

Section cstrings.
Implicit Types s t : cstring.

Lemma is_cstr_app s t : is_cstr (s ++ t) <-> is_cstr s /\ is_cstr t.
Proof. apply Forall_app. Qed.
Lemma is_cstr_cons c s : is_cstr (c :: s) <-> 0 < c < 256 /\ is_cstr s.
Proof. unfold is_cstr. by rewrite Forall_cons. Qed.
Lemma cstr_terminated s rest : is_cstr s -> cstr (s ++ NUL :: rest) = s.
Proof.
  induction 1 as [|c s Hc Hs IH]; simpl; [done|].
  unfold NUL in *. destruct (Z.eqb_spec c 0); [lia|]. by rewrite IH.
Qed.
Lemma cstr_is_cstr buf : Forall (fun c => 0 <= c < 256) buf -> is_cstr (cstr buf).
Proof.
  induction 1 as [|c buf Hc Hb IH]; simpl; [constructor|].
  unfold NUL. destruct (Z.eqb_spec c 0); [constructor|]. constructor; [lia|done].
Qed.
End cstrings.
