(* ===== verification/Pmm.v ===== *)
(** * Physical memory manager (src/src/memory/memory.c)

    The bitmap page allocator, the boot-time initialisation from the
    Multiboot memory map, and the per-page reference counts used by
    copy-on-write.  The state is the file's static variables; the bitmap and
    the reference-count array are lists of words. *)

From S2P Require Import Prelude.

Definition PAGE_SIZE : Z := 4096.

Record pmm : Type := Pmm {
  pmm_bitmap : list Z;           (* uint64_t words, one bit per page *)
  pmm_bitmap_addr : Z;           (* the address pmm_bitmap points to *)
  pmm_bitmap_size : Z;           (* in words *)
  pmm_total_pages_count : Z;
  pmm_free_pages_count : Z;
  pmm_ref_counts : list Z;       (* uint32_t per page *)
  pmm_ref_start : Z;
  pmm_ref_end : Z
}.

Definition set_bitmap (bm : list Z) (free : Z) (s : pmm) : pmm :=
  Pmm bm (pmm_bitmap_addr s) (pmm_bitmap_size s) (pmm_total_pages_count s) free
      (pmm_ref_counts s) (pmm_ref_start s) (pmm_ref_end s).
Definition set_refs (r : list Z) (s : pmm) : pmm :=
  Pmm (pmm_bitmap s) (pmm_bitmap_addr s) (pmm_bitmap_size s) (pmm_total_pages_count s)
      (pmm_free_pages_count s) r (pmm_ref_start s) (pmm_ref_end s).

(** ** Bit operations on the bitmap *)

Definition bitmap_word (bm : list Z) (index : Z) : Z := arr_get 0 bm (index / 64).

Definition bitmap_set (bm : list Z) (index : Z) : list Z :=
  arr_set bm (index / 64) (bitmap_word bm index .| (1 .<< (index mod 64))).

Definition bitmap_clear (bm : list Z) (index : Z) : list Z :=
  arr_set bm (index / 64) (bitmap_word bm index .& u64 (Z.lnot (1 .<< (index mod 64)))).

(** The C function returns [int]: the 64-bit masked word is truncated. *)
Definition bitmap_test (bm : list Z) (index : Z) : Z :=
  i32 (bitmap_word bm index .& (1 .<< (index mod 64))).

(** ** Allocation and release of single pages *)

Fixpoint alloc_scan_bits (total w i : Z) (js : list Z) : option Z :=
  match js with
  | [] => None
  | j :: js' =>
      if w .& (1 .<< j) =? 0 then
        let page_index := u64 (i * 64 + j) in
        if total <=? page_index then alloc_scan_bits total w i js' else Some page_index
      else alloc_scan_bits total w i js'
  end.

Fixpoint alloc_scan (s : pmm) (ws : list Z) : option Z :=
  match ws with
  | [] => None
  | i :: ws' =>
      let w := arr_get 0 (pmm_bitmap s) i in
      if negb (w =? U64_MAX) then
        match alloc_scan_bits (pmm_total_pages_count s) w i (seqZ 0 64) with
        | Some p => Some p
        | None => alloc_scan s ws'
        end
      else alloc_scan s ws'
  end.

Definition pmm_alloc_page (s : pmm) : Z * pmm :=
  if pmm_free_pages_count s =? 0 then (0, s)
  else match alloc_scan s (seqZ 0 (pmm_bitmap_size s)) with
       | Some page_index =>
           (u64 (page_index * PAGE_SIZE),
            set_bitmap (bitmap_set (pmm_bitmap s) page_index)
                       (u64 (pmm_free_pages_count s - 1)) s)
       | None => (0, s)
       end.

Definition pmm_free_page (addr : Z) (s : pmm) : pmm :=
  let page := addr / PAGE_SIZE in
  if pmm_total_pages_count s <=? page then s
  else if bitmap_test (pmm_bitmap s) page =? 0 then s
  else set_bitmap (bitmap_clear (pmm_bitmap s) page) (u64 (pmm_free_pages_count s + 1)) s.

(** ** Ranges *)

Definition reserve_step (s : pmm) (page : Z) : pmm :=
  if bitmap_test (pmm_bitmap s) page =? 0 then
    set_bitmap (bitmap_set (pmm_bitmap s) page) (u64 (pmm_free_pages_count s - 1)) s
  else s.

Definition pmm_reserve_range (start length : Z) (s : pmm) : pmm :=
  let first_page := start / PAGE_SIZE in
  let last_page := u64 (start + length + PAGE_SIZE - 1) / PAGE_SIZE in
  foldl reserve_step s
    (seqZ first_page (Z.min last_page (pmm_total_pages_count s) - first_page)).

Definition free_range_step (s : pmm) (page : Z) : pmm :=
  let page_addr := u64 (page * PAGE_SIZE) in
  let bitmap_start := pmm_bitmap_addr s in
  let bitmap_end := u64 (bitmap_start + pmm_bitmap_size s * 8) in
  if (bitmap_start <=? page_addr) && (page_addr <? u64 (bitmap_end + PAGE_SIZE)) then s
  else if (pmm_ref_start s <=? page_addr) && (page_addr <? pmm_ref_end s) then s
  else if bitmap_test (pmm_bitmap s) page =? 0 then s
  else set_bitmap (bitmap_clear (pmm_bitmap s) page) (u64 (pmm_free_pages_count s + 1)) s.

Definition pmm_free_range (start length : Z) (s : pmm) : pmm :=
  let first_page0 := u64 (start + PAGE_SIZE - 1) / PAGE_SIZE in
  let last_page := u64 (start + length) / PAGE_SIZE in
  let kernel_end_page := pmm_bitmap_addr s / PAGE_SIZE in
  let first_page := if first_page0 <? kernel_end_page then kernel_end_page else first_page0 in
  foldl free_range_step s
    (seqZ first_page (Z.min last_page (pmm_total_pages_count s) - first_page)).

(** ** Initialisation from the Multiboot information *)

Record mmap_entry : Type := MmapEntry {
  me_base_low : Z; me_base_high : Z; me_length_low : Z; me_length_high : Z; me_type : Z
}.

(** The fields of the information block that [pmm_init] reads; [mb_mmap]
    are the entries visited by the [MMAP_ENTRY_NEXT] walk. *)
Record mboot_info : Type := MbootInfo {
  mb_flags : Z; mb_mem_upper : Z; mb_mmap : list mmap_entry
}.

Definition MBOOT_FLAG_MEM : Z := 1.
Definition MBOOT_FLAG_MMAP : Z := 64.
Definition MBOOT_MEM_AVAILABLE : Z := 1.

Definition entry_base (e : mmap_entry) : Z := u64 (me_base_high e .<< 32) .| me_base_low e.
Definition entry_len (e : mmap_entry) : Z := u64 (me_length_high e .<< 32) .| me_length_low e.

Definition max_addr_step (max_addr : Z) (e : mmap_entry) : Z :=
  if me_type e =? MBOOT_MEM_AVAILABLE then
    let top := u64 (entry_base e + entry_len e) in
    if (max_addr <? top) && (top <? 4294967296) then top else max_addr
  else max_addr.

Definition detect_total_mem (mbi : mboot_info) : Z :=
  let total_mem :=
    if negb (mb_flags mbi .& MBOOT_FLAG_MEM =? 0)
    then u64 ((mb_mem_upper mbi + 1024) * 1024) else 0 in
  let total_mem :=
    if negb (mb_flags mbi .& MBOOT_FLAG_MMAP =? 0)
    then foldl max_addr_step 0 (take 64 (mb_mmap mbi)) else total_mem in
  if (total_mem =? 0) || (536870912 <? total_mem) then 128 * 1024 * 1024 else total_mem.

Definition page_align_up (x : Z) : Z := u64 (x + PAGE_SIZE - 1) .& u64 (Z.lnot (PAGE_SIZE - 1)).

Definition free_entry (s : pmm) (e : mmap_entry) : pmm :=
  if me_type e =? MBOOT_MEM_AVAILABLE then pmm_free_range (entry_base e) (entry_len e) s else s.

(** [words0]/[refs0]: what the memory behind the two arrays holds at boot. *)
Definition pmm_init (kernel_end : Z) (mbi : mboot_info) (words0 refs0 : list Z) : pmm :=
  let bitmap_start := page_align_up kernel_end in
  let total_mem := detect_total_mem mbi in
  let total_pages := total_mem / PAGE_SIZE in
  let bitmap_size := (total_pages + 63) / 64 in
  let bitmap_bytes := bitmap_size * 8 in
  let ref_start := u64 (bitmap_start + page_align_up bitmap_bytes) in
  let ref_end := u64 (ref_start + page_align_up (total_pages * 4)) in
  let bitmap_limit := if 1048576 <? bitmap_size then 1048576 else bitmap_size in
  let words := replicate (Z.to_nat bitmap_limit) U64_MAX
                 ++ drop (Z.to_nat bitmap_limit) (take (Z.to_nat bitmap_size) words0) in
  let refs := replicate (Z.to_nat total_pages) 0 ++ drop (Z.to_nat total_pages) refs0 in
  let s0 := Pmm words bitmap_start bitmap_size total_pages 0 refs ref_start ref_end in
  if negb (mb_flags mbi .& MBOOT_FLAG_MMAP =? 0)
  then foldl free_entry s0 (mb_mmap mbi) else s0.

(** ** Statistics *)

Definition pmm_get_total (s : pmm) : Z := u64 (pmm_total_pages_count s * PAGE_SIZE).
Definition pmm_get_free (s : pmm) : Z := u64 (pmm_free_pages_count s * PAGE_SIZE).
Definition pmm_get_total_pages (s : pmm) : Z := pmm_total_pages_count s.
Definition pmm_get_free_pages (s : pmm) : Z := pmm_free_pages_count s.

(** The two fields of [memory_stats_t] that are filled in. *)
Definition memory_get_stats (s : pmm) : Z * Z :=
  (u64 (pmm_total_pages_count s * PAGE_SIZE) / (1024 * 1024),
   u64 (pmm_free_pages_count s * PAGE_SIZE) / (1024 * 1024)).

(** ** Reference counts *)

Definition pmm_ref_count (addr : Z) (s : pmm) : Z :=
  let page := addr / PAGE_SIZE in
  if pmm_total_pages_count s <=? page then 0 else i32 (arr_get 0 (pmm_ref_counts s) page).

Definition pmm_ref_inc (addr : Z) (s : pmm) : pmm :=
  let page := addr / PAGE_SIZE in
  if page <? pmm_total_pages_count s then
    set_refs (arr_set (pmm_ref_counts s) page (u32 (arr_get 0 (pmm_ref_counts s) page + 1))) s
  else s.

Definition pmm_ref_dec (addr : Z) (s : pmm) : Z * pmm :=
  let page := addr / PAGE_SIZE in
  if pmm_total_pages_count s <=? page then (-1, s)
  else if 0 <? arr_get 0 (pmm_ref_counts s) page then
    let c := arr_get 0 (pmm_ref_counts s) page - 1 in
    (i32 c, set_refs (arr_set (pmm_ref_counts s) page c) s)
  else (0, s).

Definition pmm_ref_init_range (start length : Z) (s : pmm) : pmm :=
  let page_start := start / PAGE_SIZE in
  let page_end := u64 (start + length + PAGE_SIZE - 1) / PAGE_SIZE in
  foldl (fun s page => set_refs (arr_set (pmm_ref_counts s) page 1) s) s
    (seqZ page_start (Z.min page_end (pmm_total_pages_count s) - page_start)).

(** ** The abstract view: which pages are in use *)

Definition page_used (bm : list Z) (p : Z) : bool := Z.testbit (bitmap_word bm p) (p mod 64).
Definition page_free (bm : list Z) (p : Z) : bool := negb (page_used bm p).
Definition free_count (s : pmm) : Z :=
  countb (page_free (pmm_bitmap s)) (seqZ 0 (pmm_total_pages_count s)).

(** Well-formed allocator state: the arrays cover the managed pages and the
    free counter agrees with the bitmap. *)
Record pmm_wf (s : pmm) : Prop := {
  wf_bitmap_len : len (pmm_bitmap s) = pmm_bitmap_size s;
  wf_words : Forall is_u64 (pmm_bitmap s);
  wf_total : 0 <= pmm_total_pages_count s <= 64 * pmm_bitmap_size s;
  wf_size_max : pmm_bitmap_size s < 2 ^ 40;
  wf_free : pmm_free_pages_count s = free_count s
}.

Section bitmap.
Implicit Types (bm : list Z) (p q : Z).

Lemma div64_bounds p n : 0 <= p < 64 * n -> 0 <= p / 64 < n.
Proof. intros. split; [apply Z.div_pos; lia|apply Z.div_lt_upper_bound; lia]. Qed.

Lemma mod64_bounds p : 0 <= p mod 64 < 64.
Proof. apply Z.mod_pos_bound. lia. Qed.

Lemma index_eq p q : p / 64 = q / 64 -> p mod 64 = q mod 64 -> p = q.
Proof. intros Hd Hm. rewrite (Z.div_mod p 64), (Z.div_mod q 64) by lia. congruence. Qed.

Lemma page_used_set bm p q :
  0 <= p < 64 * len bm -> 0 <= q ->
  page_used (bitmap_set bm p) q = ((q =? p) || page_used bm q)%bool.
Proof.
  intros Hp Hq. pose proof (div64_bounds _ _ Hp). pose proof (mod64_bounds p).
  assert (0 <= q / 64) by (apply Z.div_pos; lia).
  unfold page_used, bitmap_set, bitmap_word. rewrite arr_get_set by lia.
  destruct (Z.eqb_spec (p / 64) (q / 64)) as [E|E].
  - rewrite testbit_lor_single, E by lia. f_equal.
    destruct (Z.eqb_spec (q mod 64) (p mod 64)) as [E'|E'], (Z.eqb_spec q p); subst; try done.
    by pose proof (index_eq q p (eq_sym E) E').
  - destruct (Z.eqb_spec q p); [by subst|done].
Qed.

Lemma page_used_clear bm p q :
  0 <= p < 64 * len bm -> 0 <= q ->
  page_used (bitmap_clear bm p) q = (negb (q =? p) && page_used bm q)%bool.
Proof.
  intros Hp Hq. pose proof (div64_bounds _ _ Hp). pose proof (mod64_bounds p).
  pose proof (mod64_bounds q). assert (0 <= q / 64) by (apply Z.div_pos; lia).
  unfold page_used, bitmap_clear, bitmap_word. rewrite arr_get_set by lia.
  destruct (Z.eqb_spec (p / 64) (q / 64)) as [E|E].
  - rewrite testbit_clear_single, E by lia. f_equal. f_equal.
    destruct (Z.eqb_spec (q mod 64) (p mod 64)) as [E'|E'], (Z.eqb_spec q p); subst; try done.
    by pose proof (index_eq q p (eq_sym E) E').
  - destruct (Z.eqb_spec q p); [by subst|done].
Qed.

(** The truncation to [int] loses the bits of the upper half of a word. *)
Lemma bitmap_test_eqb bm p :
  (bitmap_test bm p =? 0) = negb ((p mod 64 <? 32) && page_used bm p)%bool.
Proof.
  pose proof (mod64_bounds p) as Hm. unfold bitmap_test, page_used.
  rewrite land_single_value by lia. set (k := p mod 64) in *.
  destruct (Z.testbit _ k); rewrite ?andb_true_r, ?andb_false_r; [|done].
  rewrite Z.shiftl_1_l. destruct (Z.ltb_spec k 32) as [Hk|Hk]; simpl.
  - apply Z.eqb_neq. unfold i32. destruct (Z.ltb_spec k 31).
    + assert (0 < 2 ^ k < 2 ^ 31) by (split; [lia|apply Z.pow_lt_mono_r; lia]).
      rewrite Z.mod_small; lia.
    + replace k with 31 by lia. done.
  - apply Z.eqb_eq. unfold i32. replace (2 ^ k) with (2 ^ (k - 32) * 2 ^ 32).
    + rewrite Z.add_comm, Z.mod_add by lia. rewrite Z.mod_small; lia.
    + rewrite <- Z.pow_add_r by lia. f_equal. lia.
Qed.

Lemma bitmap_test_nonzero bm p :
  bitmap_test bm p <> 0 <-> p mod 64 < 32 /\ page_used bm p = true.
Proof.
  rewrite <- Z.eqb_neq, bitmap_test_eqb, negb_false_iff, andb_true_iff, Z.ltb_lt. done.
Qed.

Lemma length_bitmap_set bm p : length (bitmap_set bm p) = length bm.
Proof. apply length_arr_set. Qed.
Lemma length_bitmap_clear bm p : length (bitmap_clear bm p) = length bm.
Proof. apply length_arr_set. Qed.
Lemma bitmap_word_u64 bm p : Forall is_u64 bm -> is_u64 (bitmap_word bm p).
Proof. intros. apply (arr_get_Forall 0 is_u64); [unfold is_u64; lia|done]. Qed.
Lemma bitmap_set_u64 bm p : Forall is_u64 bm -> Forall is_u64 (bitmap_set bm p).
Proof.
  intros. apply Forall_arr_set; [|done].
  apply is_u64_lor; [by apply bitmap_word_u64|apply mod64_bounds].
Qed.
Lemma bitmap_clear_u64 bm p : Forall is_u64 bm -> Forall is_u64 (bitmap_clear bm p).
Proof. intros. apply Forall_arr_set; [|done]. by apply is_u64_land, bitmap_word_u64. Qed.
End bitmap.

#[export] Hint Resolve bitmap_set_u64 bitmap_clear_u64 : plan0.

(** ** Preservation of well-formedness by the two bit updates *)

Section wf.
Implicit Types (s : pmm) (p q : Z).

Lemma wf_page_index s p :
  pmm_wf s -> 0 <= p < pmm_total_pages_count s -> 0 <= p < 64 * len (pmm_bitmap s).
Proof. intros [] Hp. lia. Qed.

Lemma free_count_bounds s : pmm_wf s -> 0 <= free_count s <= pmm_total_pages_count s.
Proof.
  intros Hwf. unfold free_count. split; [apply countb_nonneg|].
  etrans; [apply countb_le_length|]. rewrite length_seqZ. pose proof (wf_total s Hwf). lia.
Qed.

Definition mark_used p s : pmm :=
  set_bitmap (bitmap_set (pmm_bitmap s) p) (u64 (pmm_free_pages_count s - 1)) s.
Definition mark_free p s : pmm :=
  set_bitmap (bitmap_clear (pmm_bitmap s) p) (u64 (pmm_free_pages_count s + 1)) s.

Lemma free_count_mark_used s p :
  pmm_wf s -> 0 <= p < pmm_total_pages_count s -> page_used (pmm_bitmap s) p = false ->
  free_count s = free_count (mark_used p s) + 1.
Proof.
  intros Hwf Hp Hu. pose proof (wf_page_index _ _ Hwf Hp).
  apply (countb_flip _ _ _ p); unfold page_free; simpl.
  - apply NoDup_seqZ.
  - apply elem_of_seqZ. lia.
  - by rewrite Hu.
  - by rewrite page_used_set, Z.eqb_refl by lia.
  - intros q Hq%elem_of_seqZ Hne. by rewrite page_used_set, (proj2 (Z.eqb_neq q p)) by lia.
Qed.

Lemma free_count_mark_free s p :
  pmm_wf s -> 0 <= p < pmm_total_pages_count s -> page_used (pmm_bitmap s) p = true ->
  free_count (mark_free p s) = free_count s + 1.
Proof.
  intros Hwf Hp Hu. pose proof (wf_page_index _ _ Hwf Hp).
  apply (countb_flip _ _ _ p); unfold page_free; simpl.
  - apply NoDup_seqZ.
  - apply elem_of_seqZ. lia.
  - by rewrite page_used_clear, Z.eqb_refl by lia.
  - by rewrite Hu.
  - intros q Hq%elem_of_seqZ Hne. by rewrite page_used_clear, (proj2 (Z.eqb_neq q p)) by lia.
Qed.

Lemma mark_used_wf s p :
  pmm_wf s -> 0 <= p < pmm_total_pages_count s -> page_used (pmm_bitmap s) p = false ->
  pmm_wf (mark_used p s).
Proof.
  intros Hwf Hp Hu. pose proof (free_count_mark_used s p Hwf Hp Hu) as Hc.
  pose proof (free_count_bounds s Hwf).
  pose proof (countb_nonneg (page_free (pmm_bitmap (mark_used p s)))
    (seqZ 0 (pmm_total_pages_count s))) as Hpos. fold (free_count (mark_used p s)) in Hpos.
  destruct Hwf as [Hlen Hw Ht Hm Hf]. split; simpl; auto with plan0.
  - by rewrite length_bitmap_set.
  - rewrite u64_id; unfold is_u64, free_count in *; simpl in *; lia.
Qed.

Lemma mark_free_wf s p :
  pmm_wf s -> 0 <= p < pmm_total_pages_count s -> page_used (pmm_bitmap s) p = true ->
  pmm_wf (mark_free p s).
Proof.
  intros Hwf Hp Hu. pose proof (free_count_mark_free s p Hwf Hp Hu) as Hc.
  pose proof (free_count_bounds s Hwf).
  destruct Hwf as [Hlen Hw Ht Hm Hf]. split; simpl; auto with plan0.
  - by rewrite length_bitmap_clear.
  - rewrite u64_id; unfold is_u64, free_count in *; simpl in *; lia.
Qed.

Lemma mark_used_used s p q :
  pmm_wf s -> 0 <= p < pmm_total_pages_count s -> 0 <= q ->
  page_used (pmm_bitmap (mark_used p s)) q = ((q =? p) || page_used (pmm_bitmap s) q)%bool.
Proof. intros Hwf Hp Hq. apply page_used_set; [by apply wf_page_index|done]. Qed.

Lemma mark_free_used s p q :
  pmm_wf s -> 0 <= p < pmm_total_pages_count s -> 0 <= q ->
  page_used (pmm_bitmap (mark_free p s)) q = (negb (q =? p) && page_used (pmm_bitmap s) q)%bool.
Proof. intros Hwf Hp Hq. apply page_used_clear; [by apply wf_page_index|done]. Qed.
End wf.

(** ** The allocation scan is a search for the least free page *)

Section scan.
Definition alloc_hit (s : pmm) (p : Z) : bool :=
  (page_free (pmm_bitmap s) p && (p <? pmm_total_pages_count s))%bool.

Lemma word_index i j : 0 <= j < 64 -> (64 * i + j) / 64 = i /\ (64 * i + j) mod 64 = j.
Proof.
  intros Hj. rewrite (Z.add_comm (64 * i)), (Z.mul_comm 64).
  rewrite Z.div_add, Z.mod_add by lia. rewrite Z.div_small, Z.mod_small by lia. lia.
Qed.

Lemma alloc_scan_bits_spec s i j0 n :
  0 <= i < 2 ^ 40 -> 0 <= j0 -> 0 <= n -> j0 + n <= 64 ->
  alloc_scan_bits (pmm_total_pages_count s) (arr_get 0 (pmm_bitmap s) i) i (seqZ j0 n) =
  find_first (alloc_hit s) (seqZ (64 * i + j0) n).
Proof.
  intros Hi Hj Hn. revert j0 Hj. pattern n. apply natlike_ind; [done| |done].
  clear n Hn. intros n Hn IH j0 Hj0 Hle.
  rewrite !(seqZ_cons _ (Z.succ n)) by lia. simpl.
  rewrite Z.pred_succ, IH by lia.
  destruct (word_index i j0) as [Hd Hm]; [lia|].
  replace (64 * i + Z.succ j0) with (Z.succ (64 * i + j0)) by lia.
  assert (Hhit : alloc_hit s (64 * i + j0) = (negb (Z.testbit (arr_get 0 (pmm_bitmap s) i) j0)
    && (64 * i + j0 <? pmm_total_pages_count s))%bool).
  { unfold alloc_hit, page_free, page_used, bitmap_word. by rewrite Hd, Hm. }
  rewrite Hhit, land_single_eqb, u64_id by (unfold is_u64; lia).
  replace (i * 64 + j0) with (64 * i + j0) by lia.
  destruct (Z.testbit _ j0); simpl; [done|].
  destruct (Z.leb_spec (pmm_total_pages_count s) (64 * i + j0)),
    (Z.ltb_spec (64 * i + j0) (pmm_total_pages_count s)); done || lia.
Qed.

Lemma alloc_scan_spec s i n :
  pmm_wf s -> 0 <= i -> 0 <= n -> i + n <= pmm_bitmap_size s ->
  alloc_scan s (seqZ i n) = find_first (alloc_hit s) (seqZ (64 * i) (64 * n)).
Proof.
  intros Hwf Hi Hn. revert i Hi. pattern n. apply natlike_ind; [done| |done].
  clear n Hn. intros n Hn IH i Hi Hle.
  pose proof (wf_size_max s Hwf).
  rewrite (seqZ_cons i) by lia. cbn [alloc_scan]. rewrite Z.pred_succ, IH by lia.
  replace (64 * Z.succ n) with (64 + 64 * n) by lia.
  rewrite seqZ_app, find_first_app by lia.
  replace (64 * Z.succ i) with (64 * i + 64) by lia.
  assert (Hbits : alloc_scan_bits (pmm_total_pages_count s) (arr_get 0 (pmm_bitmap s) i) i
    (seqZ 0 64) = find_first (alloc_hit s) (seqZ (64 * i) 64)).
  { rewrite alloc_scan_bits_spec by lia. by rewrite Z.add_0_r. }
  destruct (Z.eqb_spec (arr_get 0 (pmm_bitmap s) i) U64_MAX) as [E|E];
    cbn [negb]; [|by rewrite Hbits].
  rewrite (proj2 (find_first_None (alloc_hit s) (seqZ (64 * i) 64))); [done|].
  intros p Hp%elem_of_seqZ. unfold alloc_hit, page_free, page_used, bitmap_word.
  destruct (word_index i (p - 64 * i)) as [Hd Hm]; [lia|].
  replace (64 * i + (p - 64 * i)) with p in Hd, Hm by lia.
  rewrite Hd, Hm, E, testbit_U64_MAX by lia. done.
Qed.
End scan.

(** ** What one allocation and one release do *)

Section single_page.
Implicit Types (s : pmm) (p q : Z).

(** Result of an allocation that succeeds with page [p]. *)
Definition alloc_ok s p (s' : pmm) : Prop :=
  0 <= p < pmm_total_pages_count s /\
  page_used (pmm_bitmap s) p = false /\
  (forall q, 0 <= q < p -> page_used (pmm_bitmap s) q = true) /\
  s' = mark_used p s.

Lemma wf_page_addr s p :
  pmm_wf s -> 0 <= p < pmm_total_pages_count s ->
  u64 (p * PAGE_SIZE) = p * PAGE_SIZE /\ p * PAGE_SIZE / PAGE_SIZE = p.
Proof.
  intros [] Hp. unfold PAGE_SIZE. split; [|apply Z.div_mul; lia].
  apply u64_id. unfold is_u64. lia.
Qed.

Lemma pmm_alloc_page_cases s :
  pmm_wf s ->
  (exists p, alloc_ok s p (pmm_alloc_page s).2 /\ (pmm_alloc_page s).1 = p * PAGE_SIZE) \/
  (pmm_alloc_page s = (0, s) /\
   forall q, 0 <= q < pmm_total_pages_count s -> page_used (pmm_bitmap s) q = true).
Proof.
  intros Hwf. pose proof (wf_total s Hwf) as Ht. pose proof (wf_free s Hwf) as Hf.
  unfold pmm_alloc_page. destruct (Z.eqb_spec (pmm_free_pages_count s) 0) as [E|E].
  { right. split; [done|]. intros q Hq. destruct (page_used (pmm_bitmap s) q) eqn:Eq; [done|].
    assert (0 < free_count s); [|lia]. apply (countb_in _ _ q).
    - apply elem_of_seqZ. lia.
    - unfold page_free. by rewrite Eq. }
  rewrite (alloc_scan_spec s 0) by (done || lia). rewrite Z.mul_0_r.
  destruct (find_first (alloc_hit s) _) as [p|] eqn:Es.
  - left. exists p. pose proof (find_first_seqZ_least _ _ _ _ Es) as (Hr & Hh & Hl).
    unfold alloc_hit in Hh. apply andb_true_iff in Hh as [Hh1 Hh2]. zbool.
    assert (Hp : 0 <= p < pmm_total_pages_count s) by lia. split; [split; [done|]; split|].
    + by apply negb_true_iff.
    + split; [|done]. intros q Hq. specialize (Hl q Hq). unfold alloc_hit in Hl.
      rewrite (proj2 (Z.ltb_lt q _)), andb_true_r in Hl by lia. by apply negb_false_iff.
    + apply (wf_page_addr s p Hwf Hp).
  - right. split; [done|]. intros q Hq. rewrite find_first_None in Es.
    specialize (Es q). rewrite elem_of_seqZ in Es. specialize (Es ltac:(lia)).
    unfold alloc_hit in Es. rewrite (proj2 (Z.ltb_lt q _)), andb_true_r in Es by lia.
    by apply negb_false_iff.
Qed.

Lemma alloc_ok_wf s p s' : pmm_wf s -> alloc_ok s p s' -> pmm_wf s'.
Proof. intros Hwf (Hp & Hu & _ & ->). by apply mark_used_wf. Qed.

(** A release takes effect exactly on pages in use whose bit lies in the
    lower half of its bitmap word. *)
Lemma pmm_free_page_cases s p :
  pmm_wf s -> 0 <= p < pmm_total_pages_count s ->
  pmm_free_page (p * PAGE_SIZE) s =
    if (page_used (pmm_bitmap s) p && (p mod 64 <? 32))%bool then mark_free p s else s.
Proof.
  intros Hwf Hp. unfold pmm_free_page. destruct (wf_page_addr s p Hwf Hp) as [_ ->].
  rewrite (proj2 (Z.leb_gt _ _)) by lia. rewrite bitmap_test_eqb, andb_comm.
  by destruct (page_used _ p && _)%bool.
Qed.

Lemma pmm_free_page_wf s a : pmm_wf s -> 0 <= a -> pmm_wf (pmm_free_page a s).
Proof.
  intros Hwf Ha. unfold pmm_free_page. if_all; try done.
  apply mark_free_wf; [done| |by apply bitmap_test_nonzero].
  split; [|done]. apply Z.div_pos; unfold PAGE_SIZE; lia.
Qed.
End single_page.

(** ** Which pages the allocator may hand out *)

Section ranges.
Implicit Types (s : pmm) (p q : Z).

(** Addresses of the memory the allocator itself lives in. *)
Definition bitmap_end s : Z := pmm_bitmap_addr s + pmm_bitmap_size s * 8.

(** A page the allocator may hand out: above the kernel image, outside its
    own arrays, and with its bit in the lower half of a bitmap word. *)
Definition allocatable s p : Prop :=
  pmm_bitmap_addr s <= p * PAGE_SIZE /\
  ~ (pmm_bitmap_addr s <= p * PAGE_SIZE < bitmap_end s) /\
  ~ (pmm_ref_start s <= p * PAGE_SIZE < pmm_ref_end s) /\
  p mod 64 < 32.

Definition free_allocatable s : Prop :=
  forall p, 0 <= p < pmm_total_pages_count s -> page_used (pmm_bitmap s) p = false ->
            allocatable s p.

(** The fields that no operation after initialisation changes. *)
Definition same_layout s s' : Prop :=
  pmm_bitmap_addr s' = pmm_bitmap_addr s /\ pmm_bitmap_size s' = pmm_bitmap_size s /\
  pmm_total_pages_count s' = pmm_total_pages_count s /\
  pmm_ref_start s' = pmm_ref_start s /\ pmm_ref_end s' = pmm_ref_end s.

Definition addr_ok s : Prop :=
  0 < pmm_bitmap_addr s <= 2 ^ 50 /\ pmm_bitmap_addr s mod PAGE_SIZE = 0.

Lemma allocatable_layout s s' p : same_layout s s' -> allocatable s p -> allocatable s' p.
Proof.
  intros (H1 & H2 & H3 & H4 & H5). unfold allocatable, bitmap_end.
  by rewrite H1, H2, H4, H5.
Qed.

Lemma mark_free_allocatable s p :
  pmm_wf s -> free_allocatable s -> 0 <= p < pmm_total_pages_count s -> allocatable s p ->
  free_allocatable (mark_free p s).
Proof.
  intros Hwf Hfree Hp Ha q Hq Hu. change (allocatable s q).
  change (pmm_total_pages_count _) with (pmm_total_pages_count s) in Hq.
  rewrite (mark_free_used s p q) in Hu by (done || lia).
  destruct (Z.eqb_spec q p) as [->|]; [done|]. apply Hfree; done.
Qed.

Lemma mark_used_allocatable s p :
  pmm_wf s -> free_allocatable s -> 0 <= p < pmm_total_pages_count s ->
  free_allocatable (mark_used p s).
Proof.
  intros Hwf Hfree Hp q Hq Hu. change (allocatable s q).
  change (pmm_total_pages_count _) with (pmm_total_pages_count s) in Hq.
  rewrite (mark_used_used s p q) in Hu by (done || lia).
  apply orb_false_iff in Hu as [_ Hu]. apply Hfree; done.
Qed.

Lemma free_range_step_inv s p :
  pmm_wf s -> addr_ok s -> free_allocatable s ->
  pmm_bitmap_addr s / PAGE_SIZE <= p < pmm_total_pages_count s ->
  pmm_wf (free_range_step s p) /\ free_allocatable (free_range_step s p) /\
  same_layout s (free_range_step s p).
Proof.
  intros Hwf [Haddr Hal] Hfree Hp.
  assert (Hp' : 0 <= p < pmm_total_pages_count s).
  { assert (0 <= pmm_bitmap_addr s / PAGE_SIZE) by (apply Z.div_pos; unfold PAGE_SIZE; lia). lia. }
  assert (Hge : pmm_bitmap_addr s <= p * PAGE_SIZE).
  { pose proof (Z.div_mod (pmm_bitmap_addr s) PAGE_SIZE). unfold PAGE_SIZE in *. lia. }
  unfold free_range_step. destruct (wf_page_addr s p Hwf Hp') as [-> _].
  pose proof (wf_total s Hwf). pose proof (wf_size_max s Hwf).
  rewrite !(u64_id (pmm_bitmap_addr s + _)) by (unfold is_u64; lia).
  rewrite u64_id by (unfold is_u64, PAGE_SIZE; lia).
  if_all; try (split; [done|]; split; [done|]; done).
  assert (Hbt : bitmap_test (pmm_bitmap s) p <> 0) by done.
  apply bitmap_test_nonzero in Hbt as [Hlow Hu].
  split; [by apply mark_free_wf|]. split; [|done].
  apply mark_free_allocatable; try done. unfold allocatable, bitmap_end. unfold PAGE_SIZE in *. lia.
Qed.

Lemma same_layout_trans s1 s2 s3 : same_layout s1 s2 -> same_layout s2 s3 -> same_layout s1 s3.
Proof. unfold same_layout. intuition congruence. Qed.

Lemma addr_ok_layout s s' : same_layout s s' -> addr_ok s -> addr_ok s'.
Proof. intros (H & _). unfold addr_ok. by rewrite H. Qed.

(** Everything [pmm_init] maintains while it frees the memory map. *)
Definition boot_inv s : Prop := pmm_wf s /\ addr_ok s /\ free_allocatable s.

Lemma pmm_free_range_inv s start length :
  boot_inv s -> boot_inv (pmm_free_range start length s) /\
  same_layout s (pmm_free_range start length s).
Proof.
  intros (Hwf & Ha & Hf). unfold pmm_free_range.
  set (kp := pmm_bitmap_addr s / PAGE_SIZE).
  match goal with |- context [foldl _ _ (seqZ ?a ?b)] => set (fp := a); set (n := b) end.
  assert (Hfp : kp <= fp) by (unfold fp; if_all; lia).
  cut ((fun s' => boot_inv s' /\ same_layout s s') (foldl free_range_step s (seqZ fp n))); [done|].
  apply foldl_inv; [done|].
  intros s' p Hp%elem_of_seqZ [(Hwf' & Ha' & Hf') Hl].
  destruct (free_range_step_inv s' p Hwf' Ha' Hf') as (H1 & H2 & H3).
  - destruct Hl as (E1 & _ & E2 & _). rewrite E1, E2. fold kp. unfold n in Hp. lia.
  - split; [|by eapply same_layout_trans]. split; [done|].
    split; [by apply (addr_ok_layout s')|done].
Qed.
End ranges.

(** ** Initialisation *)

Section init.
Implicit Types (s : pmm) (mbi : mboot_info).

Lemma max_addr_nonneg (es : list mmap_entry) m : 0 <= m -> 0 <= foldl max_addr_step m es.
Proof.
  intros Hm. apply (foldl_inv (fun m => 0 <= m)); [done|]. intros m' e _ Hm'.
  unfold max_addr_step. if_all; try done. apply is_u64_wrap.
Qed.

Lemma detect_total_mem_bounds mbi : 0 <= detect_total_mem mbi <= 536870912.
Proof.
  unfold detect_total_mem.
  set (m1 := if negb (mb_flags mbi .& MBOOT_FLAG_MEM =? 0) then _ else 0).
  assert (0 <= m1) by (unfold m1; if_all; [apply is_u64_wrap|lia]).
  set (m2 := if negb (mb_flags mbi .& MBOOT_FLAG_MMAP =? 0) then _ else m1).
  assert (0 <= m2) by (unfold m2; if_all; [apply max_addr_nonneg; lia|lia]).
  if_all; lia.
Qed.

Lemma page_align_up_spec x :
  0 <= x <= 2 ^ 60 -> x <= page_align_up x < x + PAGE_SIZE /\ page_align_up x mod PAGE_SIZE = 0.
Proof.
  intros Hx. unfold page_align_up. rewrite u64_id by (unfold is_u64, PAGE_SIZE; lia).
  change (PAGE_SIZE - 1) with (2 ^ 12 - 1). rewrite land_align_mask.
  - change (2 ^ 12) with PAGE_SIZE. rewrite Z.mod_mul by (unfold PAGE_SIZE; lia).
    pose proof (Z.div_mod (x + PAGE_SIZE - 1) PAGE_SIZE).
    pose proof (Z.mod_pos_bound (x + PAGE_SIZE - 1) PAGE_SIZE).
    unfold PAGE_SIZE in *. lia.
  - unfold is_u64, PAGE_SIZE. lia.
  - lia.
Qed.

Lemma page_used_all_ones n p :
  0 <= p < 64 * Z.of_nat n -> page_used (replicate n U64_MAX) p = true.
Proof.
  intros Hp. unfold page_used, bitmap_word.
  rewrite arr_get_replicate by (apply div64_bounds; done).
  apply testbit_U64_MAX, mod64_bounds.
Qed.

Lemma boot_state_inv kernel_end total words refs a b :
  0 < kernel_end <= 2 ^ 49 -> 0 <= total <= 131072 ->
  boot_inv (Pmm (replicate (Z.to_nat ((total + 63) / 64)) U64_MAX ++ words)
                (page_align_up kernel_end) ((total + 63) / 64) total 0 refs a b) \/ words <> [].
Proof.
  intros Hk Ht. destruct words as [|w words]; [left|by right]. rewrite app_nil_r.
  destruct (page_align_up_spec kernel_end) as [Hb Hm]; [lia|].
  assert (Hd : 0 <= (total + 63) / 64 <= 2048 /\ total <= 64 * ((total + 63) / 64)).
  { pose proof (Z.div_mod (total + 63) 64). pose proof (Z.mod_pos_bound (total + 63) 64). lia. }
  assert (Hused : forall p, 0 <= p < total ->
    page_used (replicate (Z.to_nat ((total + 63) / 64)) U64_MAX) p = true).
  { intros. apply page_used_all_ones. lia. }
  split; [split; simpl|split].
  - rewrite length_replicate. lia.
  - apply Forall_replicate. unfold is_u64, U64_MAX. lia.
  - lia.
  - lia.
  - unfold free_count. simpl. rewrite countb_none; [done|].
    intros p Hp%elem_of_seqZ. unfold page_free. by rewrite Hused by lia.
  - split; simpl; [unfold PAGE_SIZE in *; lia|done].
  - intros p Hp Hu. simpl in *. rewrite Hused in Hu by lia. done.
Qed.

Lemma pmm_init_inv kernel_end mbi words0 refs0 :
  0 < kernel_end <= 2 ^ 49 -> boot_inv (pmm_init kernel_end mbi words0 refs0).
Proof.
  intros Hk. pose proof (detect_total_mem_bounds mbi) as Hm.
  unfold pmm_init. set (total := detect_total_mem mbi / PAGE_SIZE).
  assert (Ht : 0 <= total <= 131072).
  { split; [apply Z.div_pos; unfold PAGE_SIZE; lia|].
    change 131072 with (536870912 / PAGE_SIZE).
    apply Z.div_le_mono; unfold PAGE_SIZE; lia. }
  assert (Hsz : (total + 63) / 64 <= 2048).
  { change 2048 with ((131072 + 63) / 64). apply Z.div_le_mono; lia. }
  rewrite (proj2 (Z.ltb_ge 1048576 _)) by lia. cbv zeta.
  rewrite drop_ge by (rewrite length_take; lia).
  match goal with |- context [foldl free_entry ?s0 _] => assert (Hs0 : boot_inv s0) end.
  { destruct (boot_state_inv kernel_end total []
      (replicate (Z.to_nat total) 0 ++ drop (Z.to_nat total) refs0)
      (u64 (page_align_up kernel_end + page_align_up ((total + 63) / 64 * 8)))
      (u64 (u64 (page_align_up kernel_end + page_align_up ((total + 63) / 64 * 8)) +
            page_align_up (total * 4)))); done. }
  if_all; try done. apply foldl_inv; [done|]. intros s e _ Hs. unfold free_entry.
  if_all; [by apply pmm_free_range_inv|done].
Qed.
End init.

(** ** Clients of the allocator

    [own] is the set of page addresses that have been handed out and not yet
    returned.  A client only returns what it owns; reference counting may
    happen at any point. *)

Inductive pmm_step : pmm * gset Z -> pmm * gset Z -> Prop :=
| step_alloc s own a s' :
    pmm_alloc_page s = (a, s') -> a <> 0 -> pmm_step (s, own) (s', {[a]} ∪ own)
| step_alloc_fail s own s' :
    pmm_alloc_page s = (0, s') -> pmm_step (s, own) (s', own)
| step_free s own a :
    a ∈ own -> pmm_step (s, own) (pmm_free_page a s, own ∖ {[a]})
| step_ref_inc s own a : pmm_step (s, own) (pmm_ref_inc a s, own)
| step_ref_dec s own a : pmm_step (s, own) ((pmm_ref_dec a s).2, own).

Section clients.
Implicit Types (s : pmm) (own : gset Z).

Definition owned_ok s own : Prop :=
  forall a, a ∈ own -> exists p, a = p * PAGE_SIZE /\ 0 <= p < pmm_total_pages_count s /\
                                 page_used (pmm_bitmap s) p = true /\ allocatable s p.

Definition client_inv (st : pmm * gset Z) : Prop := boot_inv st.1 /\ owned_ok st.1 st.2.

Lemma boot_inv_refs s r : boot_inv s -> boot_inv (set_refs r s).
Proof. intros ([] & Ha & Hf). split; [split; done|]. split; done. Qed.

Lemma alloc_client_inv s own a s' :
  client_inv (s, own) -> pmm_alloc_page s = (a, s') -> a <> 0 ->
  client_inv (s', {[a]} ∪ own) /\ (a ∉ own) /\ (exists p, a = p * PAGE_SIZE /\ allocatable s p).
Proof.
  intros [(Hwf & Ha & Hf) Hown] Halloc Hne. simpl in *.
  destruct (pmm_alloc_page_cases s Hwf) as [(p & Hok & Hp)|[E _]]; [|congruence].
  rewrite Halloc in Hok, Hp. simpl in *. subst a.
  pose proof (alloc_ok_wf s p s' Hwf Hok) as Hwf'.
  destruct Hok as (Hr & Hu & _ & ->). pose proof (Hf p Hr Hu) as Hal.
  assert (Hfresh : p * PAGE_SIZE ∉ own).
  { intros Hin. destruct (Hown _ Hin) as (q & Eq & _ & Huq & _).
    assert (p = q) as -> by (unfold PAGE_SIZE in *; lia). congruence. }
  split; [|split; [done|by exists p]]. split; [split; [done|split; [done|]]|].
  - by apply mark_used_allocatable.
  - intros b Hb. cbn [fst snd] in *. apply elem_of_union in Hb as [->%elem_of_singleton|Hb].
    + exists p. rewrite mark_used_used, Z.eqb_refl by (done || lia). done.
    + destruct (Hown b Hb) as (q & -> & Hq & Huq & Haq). exists q.
      rewrite mark_used_used, Huq, orb_true_r by (done || lia). done.
Qed.

Lemma free_client_inv s own a :
  client_inv (s, own) -> a ∈ own -> client_inv (pmm_free_page a s, own ∖ {[a]}).
Proof.
  intros [(Hwf & Ha & Hf) Hown] Hin. simpl in *.
  destruct (Hown a Hin) as (p & -> & Hp & Hu & Hal).
  rewrite pmm_free_page_cases, Hu by done. simpl.
  assert (Hrest : forall q, q * PAGE_SIZE ∈ own ∖ {[p * PAGE_SIZE]} -> (q =? p) = false).
  { intros q Hq. apply Z.eqb_neq. intros ->. set_solver. }
  if_all.
  - split; [split; [by apply mark_free_wf|split; [done|by apply mark_free_allocatable]]|].
    intros b Hb. cbn [fst snd] in *. destruct (Hown b) as (q & -> & Hq & Huq & Haq); [set_solver|].
    exists q. rewrite mark_free_used, Huq, Hrest by (done || lia). done.
  - split; [done|]. intros b Hb. apply Hown. set_solver.
Qed.

Lemma client_inv_step st st' : client_inv st -> pmm_step st st' -> client_inv st'.
Proof.
  intros Hinv Hstep. destruct Hstep as [s own a s' E Hne|s own s' E|s own a Hin|s own a|s own a].
  - by apply (alloc_client_inv s own a s').
  - destruct (pmm_alloc_page_cases s) as [(p & Hok & Hp)|[E' _]]; [apply Hinv| |].
    + rewrite E in Hok, Hp. simpl in *. exfalso.
      destruct Hinv as [(Hwf & [Ha _] & Hf) _]. destruct Hok as (Hr & Hu & _).
      destruct (Hf p Hr Hu) as (Hge & _). simpl in *. lia.
    + rewrite E in E'. by simplify_eq.
  - by apply free_client_inv.
  - destruct Hinv as [Hb Ho]. unfold pmm_ref_inc. if_all; [|done].
    split; [by apply boot_inv_refs|done].
  - destruct Hinv as [Hb Ho]. unfold pmm_ref_dec. if_all; try done.
    split; [by apply boot_inv_refs|done].
Qed.

(** The layout fixed at boot never changes. *)
Lemma step_layout st st' : pmm_step st st' -> same_layout st.1 st'.1.
Proof.
  destruct 1; simpl; unfold pmm_alloc_page, pmm_free_page, pmm_ref_inc, pmm_ref_dec in *;
    repeat case_match; simplify_eq; done.
Qed.

Lemma free_entries_layout es s : same_layout s (foldl free_entry s es).
Proof.
  apply (foldl_inv (same_layout s)); [done|]. intros s' e _ H. eapply same_layout_trans; [done|].
  unfold free_entry, pmm_free_range. if_step; [|done].
  apply (foldl_inv (same_layout s')); [done|]. intros s2 p _ H2. eapply same_layout_trans; [done|].
  unfold free_range_step. if_all; done.
Qed.

Lemma bitmap_addr_reachable kernel_end mbi w r st :
  rtc pmm_step (pmm_init kernel_end mbi w r, ∅) st ->
  pmm_bitmap_addr st.1 = page_align_up kernel_end.
Proof.
  apply (rtc_ind_r (fun st => pmm_bitmap_addr st.1 = page_align_up kernel_end)).
  - cbn [fst]. unfold pmm_init. if_step; [|done].
    match goal with |- context [foldl free_entry ?s ?es] =>
      destruct (free_entries_layout es s) as [-> _] end. done.
  - intros st1 st2 _ Hstep <-. apply (step_layout st1 st2 Hstep).
Qed.

Lemma client_inv_reachable kernel_end mbi w r st :
  0 < kernel_end <= 2 ^ 49 -> rtc pmm_step (pmm_init kernel_end mbi w r, ∅) st -> client_inv st.
Proof.
  intros Hk. apply (rtc_ind_r (fun st => client_inv st)).
  - split; [by apply pmm_init_inv|]. intros a Ha. set_solver.
  - intros. by eapply client_inv_step.
Qed.
End clients.

(** Reserving lower-half pages one after another. *)
Lemma reserve_pages_spec (n : Z) (s : pmm) (p : Z) :
  0 <= n -> pmm_wf s -> 0 <= p -> p + n <= pmm_total_pages_count s ->
  (forall q, p <= q < p + n -> q mod 64 < 32) ->
  let s' := foldl reserve_step s (seqZ p n) in
  pmm_wf s' /\
  forall q, 0 <= q -> page_used (pmm_bitmap s') q =
    (((p <=? q) && (q <? p + n)) || page_used (pmm_bitmap s) q)%bool.
Proof.
  intros Hn. revert s p. pattern n. apply natlike_ind; [| |done]; clear n Hn.
  - intros s p Hwf Hp _ _. simpl. split; [done|]. intros q Hq. rewrite Z.add_0_r.
    destruct (Z.leb_spec p q), (Z.ltb_spec q p); simpl; done || lia.
  - intros n Hn IH s p Hwf Hp Hle Hlow. rewrite seqZ_cons, Z.pred_succ by lia. cbn [foldl].
    assert (Hstep : pmm_wf (reserve_step s p) /\
      pmm_total_pages_count (reserve_step s p) = pmm_total_pages_count s /\
      forall q, 0 <= q -> page_used (pmm_bitmap (reserve_step s p)) q =
        ((q =? p) || page_used (pmm_bitmap s) q)%bool).
    { unfold reserve_step. rewrite bitmap_test_eqb, (proj2 (Z.ltb_lt _ 32)) by (apply Hlow; lia).
      cbn [andb]. destruct (page_used (pmm_bitmap s) p) eqn:E; cbn [negb].
      - split; [done|]. split; [done|]. intros q Hq. by destruct (Z.eqb_spec q p) as [->|].
      - split; [by apply mark_used_wf; [| lia|]|]. split; [done|].
        intros q Hq. apply mark_used_used; done || lia. }
    destruct Hstep as (Hwf1 & Ht1 & Hu1).
    destruct (IH (reserve_step s p) (Z.succ p)) as [Hwf2 Hu2]; try done; try lia.
    { intros q Hq. apply Hlow. lia. }
    split; [done|]. intros q Hq. rewrite Hu2, Hu1 by done.
    replace (Z.succ p + n) with (p + Z.succ n) by lia.
    destruct (Z.leb_spec (Z.succ p) q), (Z.leb_spec p q), (Z.eqb_spec q p),
      (Z.ltb_spec q (p + Z.succ n)); simpl; done || lia.
Qed.

(** ** Main results *)

Definition small_mbi : mboot_info := MbootInfo 64 0 [MmapEntry 0 0 (8 * 1024 * 1024) 0 1].
Abbreviation small_pmm := (pmm_init 1052672 small_mbi [] []).

(** [pmm_alloc_page] on a well-formed state returns the address of the
    lowest free page, marks exactly that page used and decrements the free
    counter; it returns 0 and changes nothing exactly when every managed page
    is in use.  In both cases the state stays well-formed. *)
Theorem pmm_alloc_page_correct (s : pmm) (Hwf : pmm_wf s) :
  let '(a, s') := pmm_alloc_page s in
  pmm_wf s' /\
  ((exists p, a = p * PAGE_SIZE /\ 0 <= p < pmm_total_pages_count s /\
      page_used (pmm_bitmap s) p = false /\
      (forall q, 0 <= q < p -> page_used (pmm_bitmap s) q = true) /\
      (forall q, 0 <= q -> page_used (pmm_bitmap s') q = ((q =? p) || page_used (pmm_bitmap s) q)%bool) /\
      pmm_free_pages_count s' = pmm_free_pages_count s - 1) \/
   (a = 0 /\ s' = s /\
      forall q, 0 <= q < pmm_total_pages_count s -> page_used (pmm_bitmap s) q = true)).
Proof.
  destruct (pmm_alloc_page s) as [a s'] eqn:E.
  destruct (pmm_alloc_page_cases s Hwf) as [(p & Hok & Hp)|[E' Hall]]; rewrite E in *; simpl in *.
  - split; [by eapply alloc_ok_wf|]. left. exists p. pose proof (alloc_ok_wf _ _ _ Hwf Hok) as Hwf'.
    destruct Hok as (Hr & Hu & Hl & ->). split; [done|]. do 3 (split; [done|]).
    split; [intros; by apply mark_used_used|].
    rewrite (wf_free _ Hwf'), (wf_free _ Hwf), (free_count_mark_used s p) by done. lia.
  - simplify_eq. split; [done|]. by right.
Qed.

Lemma pmm_alloc_page_correct_witness :
  pmm_wf small_pmm /\ (pmm_alloc_page small_pmm).1 = 260 * PAGE_SIZE /\
  exists p, (pmm_alloc_page small_pmm).1 = p * PAGE_SIZE /\ page_used (pmm_bitmap small_pmm) p = false.
Proof.
  assert (Hwf : pmm_wf small_pmm) by (apply pmm_init_inv; lia).
  split; [exact Hwf|]. split; [vm_compute; reflexivity|].
  pose proof (pmm_alloc_page_correct small_pmm Hwf) as H.
  destruct (pmm_alloc_page small_pmm) as [a s'] eqn:E.
  destruct H as [_ [(p & Hp & _ & Hu & _)|(Ha & _)]].
  - exists p. split; assumption.
  - exfalso. assert (Hz : (pmm_alloc_page small_pmm).1 = 260 * PAGE_SIZE) by (vm_compute; reflexivity).
    rewrite E in Hz. simpl in Hz. subst a. discriminate Hz.
Defined.

(** [C1] From boot on, and whatever interleaving of allocations, releases of
    owned pages and reference-count updates the clients perform, a successful
    [pmm_alloc_page] never hands out a page that is still owned, a page of
    the kernel image (below the bitmap), or a page of the allocator's own
    bitmap and reference-count array; the free counter always equals the
    number of clear bits. *)
Theorem pmm_clients_isolated (kernel_end : Z) (mbi : mboot_info) (words0 refs0 : list Z)
    (s s' : pmm) (own : gset Z) (a : Z)
    (Hk : 0 < kernel_end <= 2 ^ 49)
    (Hreach : rtc pmm_step (pmm_init kernel_end mbi words0 refs0, ∅) (s, own))
    (Halloc : pmm_alloc_page s = (a, s')) (Hne : a <> 0) :
  (a ∉ own) /\ kernel_end <= a /\
  ~ (pmm_bitmap_addr s <= a < bitmap_end s) /\ ~ (pmm_ref_start s <= a < pmm_ref_end s) /\
  pmm_free_pages_count s' = free_count s'.
Proof.
  pose proof (client_inv_reachable _ _ _ _ _ Hk Hreach) as Hinv.
  destruct (alloc_client_inv s own a s' Hinv Halloc Hne) as (Hinv' & Hf & p & -> & Hal).
  split; [done|]. destruct Hal as (H1 & H2 & H3 & _). split; [|split; [done|split; [done|]]].
  - enough (kernel_end <= pmm_bitmap_addr s) by lia.
    enough (pmm_bitmap_addr s = page_align_up kernel_end) as ->.
    { apply page_align_up_spec. lia. }
    by apply (bitmap_addr_reachable kernel_end mbi words0 refs0 (s, own)).
  - apply wf_free, Hinv'.
Qed.

Abbreviation small_pmm1 := ((pmm_alloc_page small_pmm).2).

Lemma pmm_clients_isolated_witness :
  (pmm_alloc_page small_pmm).1 = 260 * PAGE_SIZE /\
  (pmm_alloc_page small_pmm1).1 = 261 * PAGE_SIZE /\
  (261 * PAGE_SIZE ∉ ({[260 * PAGE_SIZE]} ∪ ∅ : gset Z)) /\ 1052672 <= 261 * PAGE_SIZE.
Proof.
  assert (Ha : (pmm_alloc_page small_pmm).1 = 260 * PAGE_SIZE) by (vm_compute; reflexivity).
  assert (Hb : (pmm_alloc_page small_pmm1).1 = 261 * PAGE_SIZE) by (vm_compute; reflexivity).
  split; [exact Ha|]. split; [exact Hb|].
  assert (E1 : pmm_alloc_page small_pmm = (260 * PAGE_SIZE, small_pmm1))
    by (rewrite <- Ha; apply surjective_pairing).
  assert (E2 : pmm_alloc_page small_pmm1 = (261 * PAGE_SIZE, (pmm_alloc_page small_pmm1).2))
    by (rewrite <- Hb; apply surjective_pairing).
  assert (Hr : rtc pmm_step (small_pmm, ∅) (small_pmm1, {[260 * PAGE_SIZE]} ∪ ∅)).
  { eapply rtc_l; [|apply rtc_refl]. apply step_alloc; [exact E1|discriminate]. }
  assert (Hk : 0 < 1052672 <= 2 ^ 49) by lia.
  assert (Hne : 261 * PAGE_SIZE <> 0) by discriminate.
  destruct (pmm_clients_isolated 1052672 small_mbi [] [] _ _ _ _ Hk Hr E2 Hne) as (Hn & Hge & _).
  split; [exact Hn|exact Hge].
Defined.

(** [C29] [bitmap_test] returns [int], so the 64-bit mask is truncated and the
    bits of the upper half of every bitmap word read as clear.  From boot on,
    a page whose number is 32..63 modulo 64 is therefore never released: it
    is in use in every reachable state, no allocation returns it and
    [pmm_free_page] on it changes nothing - half of the memory is lost. *)
Theorem pmm_upper_half_lost (kernel_end : Z) (mbi : mboot_info) (words0 refs0 : list Z)
    (s : pmm) (own : gset Z) (p : Z)
    (Hk : 0 < kernel_end <= 2 ^ 49)
    (Hreach : rtc pmm_step (pmm_init kernel_end mbi words0 refs0, ∅) (s, own))
    (Hp : 0 <= p < pmm_total_pages_count s) (Hhi : 32 <= p mod 64) :
  page_used (pmm_bitmap s) p = true /\ pmm_free_page (p * PAGE_SIZE) s = s /\
  ((pmm_alloc_page s).1 <> 0 -> (pmm_alloc_page s).1 <> p * PAGE_SIZE).
Proof.
  destruct (client_inv_reachable _ _ _ _ _ Hk Hreach) as [(Hwf & Ha & Hf) Hown]. simpl in *.
  assert (Hu : page_used (pmm_bitmap s) p = true).
  { destruct (page_used (pmm_bitmap s) p) eqn:E; [done|]. destruct (Hf p Hp E) as (_ & _ & _ & H). lia. }
  split; [done|]. split.
  - rewrite pmm_free_page_cases by done.
    by rewrite (proj2 (Z.ltb_ge _ 32)), andb_false_r by lia.
  - intros Hne. destruct (pmm_alloc_page_cases s Hwf) as [(q & Hok & ->)|[E0 _]];
      [|by rewrite E0 in Hne].
    intros E. assert (q = p) as -> by (unfold PAGE_SIZE in E; lia).
    destruct Hok as (_ & Hu' & _). congruence.
Qed.

Lemma pmm_upper_half_lost_witness :
  pmm_total_pages_count small_pmm = 2048 /\ pmm_free_page (300 * PAGE_SIZE) small_pmm = small_pmm.
Proof.
  assert (Ht : pmm_total_pages_count small_pmm = 2048) by (vm_compute; reflexivity).
  split; [exact Ht|].
  assert (Hk : 0 < 1052672 <= 2 ^ 49) by lia.
  assert (Hp : 0 <= 300 < pmm_total_pages_count small_pmm) by (rewrite Ht; lia).
  assert (Hh : 32 <= 300 mod 64) by (vm_compute; discriminate).
  exact (proj1 (proj2 (pmm_upper_half_lost 1052672 small_mbi [] [] small_pmm ∅ 300 Hk
    (rtc_refl pmm_step _) Hp Hh))).
Defined.

(** A 64-page machine with every page reserved. *)
Definition full_pmm : pmm := Pmm [U64_MAX] 4096 1 64 0 (replicate 64 0) 8192 12288.

(** The free counter drifts: [pmm_reserve_range] on an already reserved
    page of the upper half of a word decrements the counter although no bit
    changes.  On a machine whose 64 pages are all in use the counter wraps
    from 0 to 2^64 - 1, and the state is no longer well-formed. *)
Theorem pmm_reserve_range_drifts :
  let s' := pmm_reserve_range (34 * PAGE_SIZE) PAGE_SIZE full_pmm in
  pmm_wf full_pmm /\ pmm_free_pages_count full_pmm = 0 /\
  pmm_bitmap s' = pmm_bitmap full_pmm /\ pmm_free_pages_count s' = U64_MAX /\ ~ pmm_wf s'.
Proof.
  cbv zeta. split; [|split; [reflexivity|split; [reflexivity|split; [reflexivity|]]]].
  - split; simpl; try done. by repeat constructor.
  - intros [_ _ _ _ Hf]. vm_compute in Hf. discriminate Hf.
Qed.

(** Reserving a range of lower-half pages is exact: every page of the
    range becomes used, no other page changes, and the accounting stays
    correct. *)
Theorem pmm_reserve_range_low_correct (s : pmm) (p n : Z)
    (Hwf : pmm_wf s) (Hn : 0 < n) (Hr : 0 <= p /\ p + n <= pmm_total_pages_count s)
    (Hlow : forall q, p <= q < p + n -> q mod 64 < 32) :
  let s' := pmm_reserve_range (p * PAGE_SIZE) (n * PAGE_SIZE) s in
  pmm_wf s' /\
  forall q, 0 <= q -> page_used (pmm_bitmap s') q =
    (((p <=? q) && (q <? p + n)) || page_used (pmm_bitmap s) q)%bool.
Proof.
  assert (Hrange : pmm_reserve_range (p * PAGE_SIZE) (n * PAGE_SIZE) s = foldl reserve_step s (seqZ p n)).
  { unfold pmm_reserve_range. pose proof (wf_size_max s Hwf). pose proof (wf_total s Hwf).
    rewrite Z.div_mul by (unfold PAGE_SIZE; lia).
    rewrite u64_id by (unfold is_u64, PAGE_SIZE; lia).
    replace (p * PAGE_SIZE + n * PAGE_SIZE + PAGE_SIZE - 1)
      with ((PAGE_SIZE - 1) + (p + n) * PAGE_SIZE) by lia.
    rewrite Z.div_add, Z.div_small by (unfold PAGE_SIZE; lia). do 2 f_equal. lia. }
  cbv zeta. rewrite Hrange. clear Hrange.
  apply (reserve_pages_spec n s p); try done; lia.
Qed.

Lemma pmm_reserve_range_low_correct_witness :
  let s := Pmm [0] 4096 1 64 64 (replicate 64 0) 8192 12288 in
  pmm_wf (pmm_reserve_range (3 * PAGE_SIZE) (2 * PAGE_SIZE) s) /\
  page_used (pmm_bitmap (pmm_reserve_range (3 * PAGE_SIZE) (2 * PAGE_SIZE) s)) 4 = true.
Proof.
  intros s.
  assert (Hwf : pmm_wf s).
  { split; simpl.
    - reflexivity.
    - constructor; [unfold is_u64; lia|constructor].
    - lia.
    - lia.
    - reflexivity. }
  assert (Hr : 0 <= 3 /\ 3 + 2 <= pmm_total_pages_count s) by (simpl; lia).
  assert (Hlow : forall q, 3 <= q < 3 + 2 -> q mod 64 < 32).
  { intros q Hq. rewrite Z.mod_small; lia. }
  destruct (pmm_reserve_range_low_correct s 3 2 Hwf ltac:(lia) Hr Hlow) as [H1 H2].
  split; [exact H1|]. rewrite H2; [reflexivity|lia].
Defined.

(** Reference counts of a managed page: an increment followed by a
    decrement restores the state and reports the old count; decrementing a
    count of zero is a no-op reporting 0; outside the managed range nothing
    changes, the count reads 0 and a decrement reports -1. *)
Theorem pmm_ref_counting (s : pmm) (a c : Z)
    (Ha : 0 <= a) (Hlen : pmm_total_pages_count s <= len (pmm_ref_counts s))
    (Hc : arr_get 0 (pmm_ref_counts s) (a / PAGE_SIZE) = c) (Hb : 0 <= c < 2 ^ 31 - 1) :
  if a / PAGE_SIZE <? pmm_total_pages_count s then
    pmm_ref_count a s = c /\ pmm_ref_count a (pmm_ref_inc a s) = c + 1 /\
    pmm_ref_dec a (pmm_ref_inc a s) = (c, s) /\ (c = 0 -> pmm_ref_dec a s = (0, s))
  else pmm_ref_count a s = 0 /\ pmm_ref_inc a s = s /\ pmm_ref_dec a s = (-1, s).
Proof.
  assert (Hp : 0 <= a / PAGE_SIZE) by (apply Z.div_pos; unfold PAGE_SIZE; lia).
  unfold pmm_ref_count, pmm_ref_inc, pmm_ref_dec.
  destruct (Z.ltb_spec (a / PAGE_SIZE) (pmm_total_pages_count s)) as [Hlt|Hge];
    [rewrite (proj2 (Z.leb_gt _ _)) by lia|rewrite (proj2 (Z.leb_le _ _)) by lia; done].
  cbn [set_refs pmm_ref_counts pmm_total_pages_count].
  rewrite (proj2 (Z.leb_gt _ _)), !arr_get_set_eq, Hc by lia.
  rewrite (u32_id (c + 1)) by (unfold is_u32; lia). rewrite !i32_id by lia.
  rewrite (proj2 (Z.ltb_lt 0 (c + 1))) by lia.
  split; [done|]. split; [done|]. split.
  - f_equal; [lia|]. destruct s as [bm ad sz tot fr refs r1 r2]. unfold set_refs. cbn in *.
    f_equal. unfold arr_set. rewrite list_insert_insert_eq. apply list_insert_id.
    rewrite (arr_lookup_get 0) by lia. f_equal. lia.
  - intros ->. done.
Qed.

Lemma pmm_ref_counting_witness :
  let s := Pmm [U64_MAX] 4096 1 64 0 (replicate 64 1) 8192 12288 in
  pmm_ref_dec 8192 (pmm_ref_inc 8192 s) = (1, s).
Proof.
  intros s. assert (Hlen : pmm_total_pages_count s <= len (pmm_ref_counts s))
    by (vm_compute; discriminate).
  exact (proj1 (proj2 (proj2 (pmm_ref_counting s 8192 1 ltac:(lia) Hlen eq_refl ltac:(lia))))).
Defined.
