(* ===== verification/KHeap.v ===== *)
(** * Kernel heap (src/src/memory/kheap.c)

    The first-fit free-list allocator behind [kmalloc]/[kfree]/[krealloc].
    Block headers live in memory: [hdrs] maps the address of a header to its
    fields, and an address that never held a header reads as zeros.  The
    payload bytes are a separate map, used by [krealloc]'s copy.  Walks of
    the block list take fuel; [None] means that the walk did not end within
    it, and the theorems show which fuel is enough. *)

From S2P Require Import Prelude.

Record kheap_block : Type := KBlock {
  kb_next : Z; kb_size : Z; kb_flags : Z; kb_magic : Z
}.

Definition KHEAP_FREE : Z := 0.
Definition KHEAP_ALLOCATED : Z := 1.
Definition KHEAP_MAGIC : Z := 48879.   (* 0xBEEF *)
Definition sizeof_block : Z := 24.
Definition MIN_BLOCK_SIZE : Z := sizeof_block + 16.

Record kheap : Type := KHeap {
  hdrs : gmap Z kheap_block;
  heap_first : Z;
  bytes_used : Z;
  bytes_free : Z;
  payload : gmap Z Z
}.

Definition zero_block : kheap_block := KBlock 0 0 0 0.
Definition hdr (h : kheap) (a : Z) : kheap_block := default zero_block (hdrs h !! a).

Definition set_hdr (a : Z) (b : kheap_block) (h : kheap) : kheap :=
  KHeap (<[a := b]> (hdrs h)) (heap_first h) (bytes_used h) (bytes_free h) (payload h).
Definition add_used (d : Z) (h : kheap) : kheap :=
  KHeap (hdrs h) (heap_first h) (u64 (bytes_used h + d)) (bytes_free h) (payload h).
Definition add_free (d : Z) (h : kheap) : kheap :=
  KHeap (hdrs h) (heap_first h) (bytes_used h) (u64 (bytes_free h + d)) (payload h).
Definition set_payload (p : gmap Z Z) (h : kheap) : kheap :=
  KHeap (hdrs h) (heap_first h) (bytes_used h) (bytes_free h) p.

Definition is_alloc (b : kheap_block) : bool := negb (kb_flags b .& KHEAP_ALLOCATED =? 0).
Definition with_next (n : Z) (b : kheap_block) : kheap_block :=
  KBlock n (kb_size b) (kb_flags b) (kb_magic b).
Definition with_size (s : Z) (b : kheap_block) : kheap_block :=
  KBlock (kb_next b) s (kb_flags b) (kb_magic b).
Definition with_flags (f : Z) (b : kheap_block) : kheap_block :=
  KBlock (kb_next b) (kb_size b) f (kb_magic b).

Definition align16 (x : Z) : Z := u64 (x + 16 - 1) .& u64 (Z.lnot (16 - 1)).
Definition BLOCK_DATA (b : Z) : Z := u64 (b + sizeof_block).
Definition DATA_BLOCK (d : Z) : Z := u64 (d - sizeof_block).

(** The heap part of [kheap_init]; mapping the pages is [Paging.heap_map]. *)
Definition kheap_init (start size : Z) (mem : gmap Z Z) : kheap :=
  KHeap {[ start := KBlock 0 (u64 (size - sizeof_block)) KHEAP_FREE KHEAP_MAGIC ]}
        start 0 (u64 (size - sizeof_block)) mem.

Definition split_block (block size : Z) (h : kheap) : kheap :=
  let b := hdr h block in
  let remaining := u64 (kb_size b - size - sizeof_block) in
  if remaining <? MIN_BLOCK_SIZE then h
  else
    let new_block := u64 (block + sizeof_block + size) in
    let h := set_hdr new_block (KBlock (kb_next b) remaining KHEAP_FREE KHEAP_MAGIC) h in
    let h := set_hdr block (with_next new_block (with_size size (hdr h block))) h in
    add_free (- sizeof_block) h.

Fixpoint merge_loop (fuel : nat) (block : Z) (h : kheap) : option kheap :=
  match fuel with
  | O => None
  | S f =>
      if block =? 0 then Some h
      else
        let b := hdr h block in
        if kb_next b =? 0 then Some h
        else
          let n := hdr h (kb_next b) in
          let expected := u64 (block + sizeof_block + kb_size b) in
          if negb (is_alloc b) && negb (is_alloc n) && (kb_next b =? expected) then
            let h := set_hdr block
              (with_next (kb_next n)
                (with_size (u64 (kb_size b + (sizeof_block + kb_size n))) b)) h in
            merge_loop f block (add_free sizeof_block h)
          else merge_loop f (kb_next b) h
  end.

Definition merge_blocks (fuel : nat) (h : kheap) : option kheap :=
  merge_loop fuel (heap_first h) h.

Fixpoint kmalloc_walk (fuel : nat) (block size : Z) (h : kheap) : option (Z * kheap) :=
  match fuel with
  | O => None
  | S f =>
      if block =? 0 then Some (0, h)
      else
        let b := hdr h block in
        if negb (kb_magic b =? KHEAP_MAGIC) then Some (0, h)
        else if negb (is_alloc b) && (size <=? kb_size b) then
          let h := split_block block size h in
          let h := set_hdr block (with_flags KHEAP_ALLOCATED (hdr h block)) h in
          let got := kb_size (hdr h block) in
          Some (BLOCK_DATA block, add_free (- got) (add_used got h))
        else kmalloc_walk f (kb_next b) size h
  end.

Definition kmalloc (fuel : nat) (size : Z) (h : kheap) : option (Z * kheap) :=
  if size =? 0 then Some (0, h)
  else kmalloc_walk fuel (heap_first h) (align16 size) h.

Definition kfree (fuel : nat) (ptr : Z) (h : kheap) : option kheap :=
  if ptr =? 0 then Some h
  else
    let block := DATA_BLOCK ptr in
    let b := hdr h block in
    if negb (kb_magic b =? KHEAP_MAGIC) then Some h
    else if negb (is_alloc b) then Some h
    else
      let h := set_hdr block (with_flags KHEAP_FREE b) h in
      merge_blocks fuel (add_free (kb_size b) (add_used (- kb_size b) h)).

(** [dst[i] = src[i]] for [i < n], in ascending order. *)
Definition copy_bytes (dst src n : Z) (m : gmap Z Z) : gmap Z Z :=
  foldl (fun m i => <[u64 (dst + i) := default 0 (m !! u64 (src + i))]> m) m (seqZ 0 n).

Definition krealloc (fuel : nat) (ptr new_size : Z) (h : kheap) : option (Z * kheap) :=
  if new_size =? 0 then (h' ← kfree fuel ptr h; Some (0, h'))
  else if ptr =? 0 then kmalloc fuel new_size h
  else
    let block := DATA_BLOCK ptr in
    if negb (kb_magic (hdr h block) =? KHEAP_MAGIC) then Some (0, h)
    else if new_size <=? kb_size (hdr h block) then Some (ptr, h)
    else
      '(new_ptr, h1) ← kmalloc fuel new_size h;
      if new_ptr =? 0 then Some (0, h1)
      else
        let n := Z.min (kb_size (hdr h1 block)) new_size in
        h2 ← kfree fuel ptr (set_payload (copy_bytes new_ptr ptr n (payload h1)) h1);
        Some (new_ptr, h2).

Record kheap_stats : Type := KStats {
  st_total_size : Z; st_used_size : Z; st_free_blocks : Z; st_largest_free : Z;
  st_block_count : Z; st_allocated_blocks : Z
}.

Fixpoint stats_walk (fuel : nat) (block : Z) (h : kheap) (st : kheap_stats) : option kheap_stats :=
  match fuel with
  | O => None
  | S f =>
      let b := hdr h block in
      if (block =? 0) || negb (kb_magic b =? KHEAP_MAGIC) then Some st
      else
        let '(KStats t u fb lf bc ab) := st in
        let bc := u32 (bc + 1) in
        stats_walk f (kb_next b) h
          (if is_alloc b then KStats t u fb lf bc (u32 (ab + 1))
           else KStats t u (u64 (fb + 1)) (if lf <? kb_size b then kb_size b else lf) bc ab)
  end.

Definition kheap_get_stats (fuel : nat) (h : kheap) : option kheap_stats :=
  stats_walk fuel (heap_first h) h
    (KStats (u64 (bytes_used h + bytes_free h)) (bytes_used h) 0 0 0 0).

(** The state of [walk_blocks]: corruptions, allocated, largest_free. *)
Fixpoint walk_blocks_from (fuel : nat) (block : Z) (h : kheap) (acc : Z * Z * Z)
    : option (Z * Z * Z) :=
  match fuel with
  | O => None
  | S f =>
      if block =? 0 then Some acc
      else
        let b := hdr h block in
        let '(c, al, lf) := acc in
        if negb (kb_magic b =? KHEAP_MAGIC) then Some (u64 (c + 1), al, lf)
        else
          let c := if negb (kb_flags b =? KHEAP_FREE) && negb (kb_flags b =? KHEAP_ALLOCATED)
                   then u64 (c + 1) else c in
          let c := if negb (kb_next b =? 0) &&
                      negb (kb_next b =? u64 (block + sizeof_block + kb_size b))
                   then u64 (c + 1) else c in
          let '(al, lf) := if is_alloc b then (u64 (al + 1), lf)
                           else (al, if lf <? kb_size b then kb_size b else lf) in
          walk_blocks_from f (kb_next b) h (c, al, lf)
  end.

Definition walk_blocks (fuel : nat) (h : kheap) : option (Z * Z * Z) :=
  walk_blocks_from fuel (heap_first h) h (0, 0, 0).

Definition kheap_validate (fuel : nat) (h : kheap) : option Z :=
  '(c, _, _) ← walk_blocks fuel h; Some (i32 c).

Definition kheap_get_used (h : kheap) : Z := bytes_used h.
Definition kheap_get_free (h : kheap) : Z := bytes_free h.

(** ** Abstract view: the chain of blocks *)

Definition block_end (a : Z) (b : kheap_block) : Z := a + sizeof_block + kb_size b.

Definition block_ok (b : kheap_block) : Prop :=
  kb_magic b = KHEAP_MAGIC /\ (kb_flags b = KHEAP_FREE \/ kb_flags b = KHEAP_ALLOCATED) /\
  0 <= kb_size b.

(** [chain m a bs e]: the headers stored from [a] on are exactly [bs], each
    block starts where the previous one ends, and the last one ends at [e]. *)
Fixpoint chain (m : gmap Z kheap_block) (a : Z) (bs : list kheap_block) (e : Z) : Prop :=
  match bs with
  | [] => False
  | b :: bs' =>
      m !! a = Some b /\ block_ok b /\
      match bs' with
      | [] => kb_next b = 0 /\ block_end a b = e
      | _ => kb_next b = block_end a b /\ chain m (block_end a b) bs' e
      end
  end.

Definition size_if (p : kheap_block -> bool) (bs : list kheap_block) : Z :=
  foldr (fun b acc => (if p b then kb_size b else 0) + acc) 0 bs.

Definition free_block (b : kheap_block) : bool := negb (is_alloc b).

Record heap_wf (h : kheap) (bs : list kheap_block) (e : Z) : Prop := {
  hw_first : 0 < heap_first h;
  hw_end : e < 2 ^ 64;
  hw_chain : chain (hdrs h) (heap_first h) bs e;
  hw_used : bytes_used h = size_if is_alloc bs;
  hw_free : bytes_free h = size_if free_block bs
}.

(** The live allocations of a chain: payload address and size. *)
Fixpoint allocs (a : Z) (bs : list kheap_block) : list (Z * Z) :=
  match bs with
  | [] => []
  | b :: bs' =>
      (if is_alloc b then [(a + sizeof_block, kb_size b)] else []) ++ allocs (block_end a b) bs'
  end.

(** ** Segments and frames *)

(** A stretch of consecutive blocks, each linked to the next. *)
Fixpoint seg (m : gmap Z kheap_block) (a : Z) (bs : list kheap_block) : Prop :=
  match bs with
  | [] => True
  | b :: bs' =>
      m !! a = Some b /\ block_ok b /\ kb_next b = block_end a b /\ seg m (block_end a b) bs'
  end.

Definition span (bs : list kheap_block) : Z :=
  foldr (fun b acc => sizeof_block + kb_size b + acc) 0 bs.

Section chains.
Implicit Types (m : gmap Z kheap_block) (a e x : Z) (b : kheap_block) (bs : list kheap_block).

Lemma span_cons b bs : span (b :: bs) = sizeof_block + kb_size b + span bs.
Proof. done. Qed.

Lemma span_app bs1 bs2 : span (bs1 ++ bs2) = span bs1 + span bs2.
Proof. induction bs1 as [|b bs1 IH]; [done|]. cbn [app]. rewrite !span_cons, IH. lia. Qed.

Lemma size_if_cons p b bs : size_if p (b :: bs) = (if p b then kb_size b else 0) + size_if p bs.
Proof. done. Qed.

Lemma size_if_app p bs1 bs2 : size_if p (bs1 ++ bs2) = size_if p bs1 + size_if p bs2.
Proof. induction bs1 as [|b bs1 IH]; [done|]. cbn [app]. rewrite !size_if_cons, IH. lia. Qed.

Lemma seg_span_nonneg m a bs : seg m a bs -> 0 <= span bs.
Proof.
  revert a. induction bs as [|b bs IH]; intros a; [done|].
  intros (_ & (_ & _ & Hs) & _ & Hseg). rewrite span_cons. apply IH in Hseg.
  unfold sizeof_block. lia.
Qed.

Lemma chain_span m a bs e : chain m a bs e -> e = a + span bs /\ sizeof_block <= span bs.
Proof.
  revert a. induction bs as [|b bs IH]; intros a; [done|].
  intros (_ & (_ & _ & Hs) & H). rewrite span_cons. destruct bs as [|b' bs].
  - destruct H as [_ <-]. unfold block_end, sizeof_block in *. simpl. lia.
  - destruct H as [_ H]. apply IH in H. unfold block_end, sizeof_block in *. lia.
Qed.

Lemma chain_cons_cons m a b b' bs e :
  chain m a (b :: b' :: bs) e <->
  m !! a = Some b /\ block_ok b /\ kb_next b = block_end a b /\ chain m (block_end a b) (b' :: bs) e.
Proof. done. Qed.

Lemma chain_app m a bs1 b bs2 e :
  chain m a (bs1 ++ b :: bs2) e <-> seg m a bs1 /\ chain m (a + span bs1) (b :: bs2) e.
Proof.
  revert a. induction bs1 as [|c bs1 IH]; intros a; cbn [app seg].
  - rewrite Z.add_0_r. tauto.
  - assert (Hc : chain m a (c :: bs1 ++ b :: bs2) e <->
      m !! a = Some c /\ block_ok c /\ kb_next c = block_end a c /\
      chain m (block_end a c) (bs1 ++ b :: bs2) e) by (by destruct bs1).
    rewrite Hc, IH, span_cons. unfold block_end.
    replace (a + sizeof_block + kb_size c + span bs1)
      with (a + (sizeof_block + kb_size c + span bs1)) by lia. tauto.
Qed.

Lemma seg_app m a bs1 bs2 : seg m a (bs1 ++ bs2) <-> seg m a bs1 /\ seg m (a + span bs1) bs2.
Proof.
  revert a. induction bs1 as [|b bs1 IH]; intros a; cbn [app seg].
  - rewrite Z.add_0_r. tauto.
  - rewrite IH, span_cons. unfold block_end.
    replace (a + sizeof_block + kb_size b + span bs1)
      with (a + (sizeof_block + kb_size b + span bs1)) by lia. tauto.
Qed.

Lemma seg_insert m a bs x b :
  seg m a bs -> x < a \/ a + span bs <= x -> seg (<[x := b]> m) a bs.
Proof.
  revert a. induction bs as [|c bs IH]; intros a; [done|].
  intros (Hl & Hok & Hn & Hseg) Hx. rewrite span_cons in Hx.
  pose proof (seg_span_nonneg _ _ _ Hseg). destruct Hok as (? & ? & Hsz).
  unfold block_end, sizeof_block in *. split; [|split; [done|split; [done|]]].
  - rewrite lookup_insert_ne by lia. done.
  - apply IH; [done|]. unfold block_end, sizeof_block. lia.
Qed.

Lemma chain_insert m a bs e x b :
  chain m a bs e -> x < a \/ e <= x -> chain (<[x := b]> m) a bs e.
Proof.
  revert a. induction bs as [|c bs IH]; intros a; [done|].
  intros Hch Hx. pose proof (chain_span _ _ _ _ Hch) as [He Hs].
  destruct bs as [|c' bs].
  - destruct Hch as (Hl & Hok & Hn & He'). repeat split; try done; try apply Hok.
    rewrite lookup_insert_ne; [done|]. unfold sizeof_block in *. lia.
  - apply chain_cons_cons in Hch as (Hl & Hok & Hn & Hch). apply chain_cons_cons.
    assert (a < e) by (unfold sizeof_block in *; lia).
    split; [rewrite lookup_insert_ne by lia; done|]. split; [done|]. split; [done|].
    apply IH; [done|]. destruct Hok as (_ & _ & Hsz). unfold block_end, sizeof_block. lia.
Qed.

(** Replacing the block at the head of a chain. *)
Lemma chain_head_insert m a b b' bs e :
  chain m a (b :: bs) e -> block_ok b' -> kb_next b' = kb_next b -> kb_size b' = kb_size b ->
  chain (<[a := b']> m) a (b' :: bs) e.
Proof.
  intros Hch Hok Hn Hs. destruct bs as [|c bs].
  - destruct Hch as (_ & _ & Hn' & He). split; [apply lookup_insert_eq|]. split; [done|].
    unfold block_end in *. rewrite Hn, Hs. done.
  - apply chain_cons_cons in Hch as (_ & Hok' & Hn' & Hch). apply chain_cons_cons.
    split; [apply lookup_insert_eq|]. split; [done|].
    unfold block_end in *. rewrite Hn, Hs. split; [done|]. apply chain_insert; [done|].
    destruct Hok' as (_ & _ & Hsz). unfold sizeof_block. lia.
Qed.

Lemma chain_tail_span m a b bs e : chain m a (b :: bs) e -> 0 <= span bs.
Proof.
  destruct bs as [|c bs]; [done|]. intros Hch. apply chain_cons_cons in Hch as (_ & _ & _ & H).
  apply chain_span in H as [_ H]. unfold sizeof_block in H. lia.
Qed.

Lemma chain_lookup m a bs1 b bs2 e : chain m a (bs1 ++ b :: bs2) e -> m !! (a + span bs1) = Some b.
Proof. rewrite chain_app. by intros (_ & H & _). Qed.

Lemma seg_pos m a bs : 0 < a -> seg m a bs -> 0 < a + span bs.
Proof. intros Ha H%seg_span_nonneg. lia. Qed.

Lemma allocs_app a bs1 bs2 : allocs a (bs1 ++ bs2) = allocs a bs1 ++ allocs (a + span bs1) bs2.
Proof.
  revert a. induction bs1 as [|b bs1 IH]; intros a; cbn [app allocs].
  - by rewrite Z.add_0_r.
  - rewrite IH, span_cons, <- app_assoc. unfold block_end. do 3 f_equal. lia.
Qed.

Lemma alloc_flag b : block_ok b -> is_alloc b = (kb_flags b =? KHEAP_ALLOCATED).
Proof. intros (_ & [H|H] & _); unfold is_alloc; rewrite H; done. Qed.

Lemma is_alloc_A n s g : is_alloc (KBlock n s KHEAP_ALLOCATED g) = true.
Proof. done. Qed.
Lemma is_alloc_F n s g : is_alloc (KBlock n s KHEAP_FREE g) = false.
Proof. done. Qed.
Lemma free_block_A n s g : free_block (KBlock n s KHEAP_ALLOCATED g) = false.
Proof. done. Qed.
Lemma free_block_F n s g : free_block (KBlock n s KHEAP_FREE g) = true.
Proof. done. Qed.

Lemma size_if_bounds m a bs e p : chain m a bs e -> 0 <= size_if p bs <= span bs.
Proof.
  revert a. induction bs as [|b bs IH]; intros a; [done|].
  intros (_ & (_ & _ & Hs) & H). rewrite size_if_cons, span_cons. unfold sizeof_block.
  destruct bs as [|b' bs].
  - unfold size_if, span. simpl. destruct (p b); lia.
  - destruct H as [_ H%IH]. destruct (p b); lia.
Qed.
End chains.

(** ** Allocation *)

Section malloc.
Implicit Types (h : kheap) (a e sz : Z) (b : kheap_block) (bs : list kheap_block).

Definition fits sz b : bool := free_block b && (sz <=? kb_size b).

Lemma hdr_lookup h a b : hdrs h !! a = Some b -> hdr h a = b.
Proof. intros H. unfold hdr. by rewrite H. Qed.

(** The walk skips the blocks that do not fit. *)
Lemma kmalloc_walk_skip h k a sz bs :
  0 < a -> seg (hdrs h) a bs -> Forall (fun b => fits sz b = false) bs ->
  kmalloc_walk (length bs + k) a sz h = kmalloc_walk k (a + span bs) sz h.
Proof.
  intros Ha Hseg Hno. revert a Ha Hseg. induction Hno as [|b bs Hb Hno IH]; intros a Ha Hseg.
  - by rewrite Z.add_0_r.
  - destruct Hseg as (Hl & (Hmag & _ & Hs) & Hn & Hseg). cbn [length Nat.add kmalloc_walk].
    rewrite (proj2 (Z.eqb_neq a 0)), (hdr_lookup _ _ _ Hl), Hmag, Z.eqb_refl by lia. cbn [negb].
    unfold fits, free_block in Hb. rewrite Hb, Hn, IH, span_cons.
    + unfold block_end. f_equal. lia.
    + unfold block_end, sizeof_block. lia.
    + done.
Qed.

Lemma kmalloc_walk_none h a e sz bs k :
  0 < a -> chain (hdrs h) a bs e -> Forall (fun b => fits sz b = false) bs ->
  (length bs < k)%nat -> kmalloc_walk k a sz h = Some (0, h).
Proof.
  intros Ha Hch Hno. destruct bs as [|b bs _] using rev_ind; [done|].
  rewrite length_app. cbn [length]. intros Hk. apply Forall_app in Hno as [Hno Hb].
  apply Forall_cons in Hb as [Hb _]. apply chain_app in Hch as [Hseg Hch].
  replace k with (length bs + S (S (k - length bs - 2)))%nat by lia.
  rewrite kmalloc_walk_skip by done. pose proof (seg_pos _ _ _ Ha Hseg).
  destruct Hch as (Hl & (Hmag & _) & Hn & _). cbn [kmalloc_walk].
  rewrite (proj2 (Z.eqb_neq (a + span bs) 0)), (hdr_lookup _ _ _ Hl), Hmag, Z.eqb_refl by lia.
  cbn [negb]. unfold fits, free_block in Hb. by rewrite Hb, Hn.
Qed.

(** The blocks a fitting block at address [a] is turned into. *)
Definition carve a sz b : list kheap_block :=
  let rest := kb_size b - sz - sizeof_block in
  if rest <? MIN_BLOCK_SIZE then [with_flags KHEAP_ALLOCATED b]
  else [KBlock (a + sizeof_block + sz) sz KHEAP_ALLOCATED KHEAP_MAGIC;
        KBlock (kb_next b) rest KHEAP_FREE KHEAP_MAGIC].

(** What allocating from the fitting block [b] at [a] does to the heap. *)
Definition take_block a sz b h : kheap :=
  let rest := kb_size b - sz - sizeof_block in
  if rest <? MIN_BLOCK_SIZE then
    add_free (- kb_size b) (add_used (kb_size b)
      (set_hdr a (with_flags KHEAP_ALLOCATED b) h))
  else
    add_free (- sz) (add_used sz (set_hdr a (KBlock (a + sizeof_block + sz) sz KHEAP_ALLOCATED KHEAP_MAGIC)
      (add_free (- sizeof_block)
        (set_hdr a (KBlock (a + sizeof_block + sz) sz (kb_flags b) (kb_magic b))
          (set_hdr (a + sizeof_block + sz) (KBlock (kb_next b) rest KHEAP_FREE KHEAP_MAGIC) h))))).

Lemma kmalloc_walk_take h k a sz b :
  0 < a -> a + sizeof_block + kb_size b < 2 ^ 64 -> 0 < sz ->
  hdrs h !! a = Some b -> block_ok b -> fits sz b = true -> sz + sizeof_block <= kb_size b ->
  kmalloc_walk (S k) a sz h = Some (a + sizeof_block, take_block a sz b h).
Proof.
  intros Ha He Hsz Hl (Hmag & Hfl & Hs) Hfit Hroom. unfold sizeof_block in *.
  apply andb_true_iff in Hfit as [Hfree Hle]. unfold free_block in Hfree. cbn [kmalloc_walk].
  rewrite (proj2 (Z.eqb_neq a 0)), (hdr_lookup _ _ _ Hl), Hmag, Z.eqb_refl by lia. cbn [negb].
  rewrite Hfree, Hle. cbn [andb]. unfold BLOCK_DATA, split_block.
  rewrite (hdr_lookup _ _ _ Hl). unfold sizeof_block.
  rewrite (u64_id (a + 24)), (u64_id (kb_size b - sz - 24)), (u64_id (a + 24 + sz))
    by (unfold is_u64; lia).
  unfold take_block, sizeof_block. destruct (kb_size b - sz - 24 <? MIN_BLOCK_SIZE).
  - rewrite (hdr_lookup _ _ _ Hl).
    rewrite (hdr_lookup (set_hdr a (with_flags KHEAP_ALLOCATED b) h) a (with_flags KHEAP_ALLOCATED b))
      by apply lookup_insert_eq. done.
  - set (h1 := set_hdr (a + 24 + sz) _ h).
    rewrite (hdr_lookup h1 a b) by (unfold h1; simpl; rewrite lookup_insert_ne by lia; done).
    set (b1 := with_next (a + 24 + sz) (with_size sz b)). set (h2 := add_free (Z.opp 24) (set_hdr a b1 h1)).
    rewrite (hdr_lookup h2 a b1) by apply lookup_insert_eq.
    rewrite (hdr_lookup (set_hdr a (with_flags KHEAP_ALLOCATED b1) h2) a (with_flags KHEAP_ALLOCATED b1))
      by apply lookup_insert_eq.
    unfold h2, h1, b1, with_flags, with_next, with_size. cbn [kb_next kb_size kb_flags kb_magic].
    by rewrite Hmag.
Qed.
End malloc.

Section take.
Implicit Types (h : kheap) (a e sz : Z) (b : kheap_block) (bs : list kheap_block).

(** Splitting the head of a chain in two. *)
Lemma chain_head_split m a b bs e sz b1 b2 :
  chain m a (b :: bs) e -> block_ok b1 -> block_ok b2 ->
  kb_size b1 = sz -> kb_next b1 = a + sizeof_block + sz ->
  kb_size b2 = kb_size b - sz - sizeof_block -> kb_next b2 = kb_next b ->
  chain (<[a := b1]> (<[a + sizeof_block + sz := b2]> m)) a (b1 :: b2 :: bs) e.
Proof.
  intros Hch Hok1 Hok2 Hs1 Hn1 Hs2 Hn2.
  assert (0 <= sz) by (destruct Hok1 as (_ & _ & ?); lia).
  assert (0 <= kb_size b2) by apply Hok2. set (n := a + sizeof_block + sz) in *.
  assert (Hne : a <> n) by (unfold n, sizeof_block; lia).
  assert (Hend : block_end n b2 = block_end a b) by (unfold block_end, n; lia).
  apply chain_cons_cons. split; [apply lookup_insert_eq|]. split; [done|].
  replace (block_end a b1) with n by (unfold block_end, n; lia). split; [done|].
  rewrite insert_insert_ne by done.
  destruct bs as [|c bs].
  - destruct Hch as (_ & _ & Hn & He). split; [apply lookup_insert_eq|].
    split; [done|]. by rewrite Hend, Hn2.
  - apply chain_cons_cons in Hch as (_ & _ & Hn & Hch). apply chain_cons_cons.
    split; [apply lookup_insert_eq|]. split; [done|]. rewrite Hend, Hn2. split; [done|].
    assert (n < block_end a b /\ a < block_end a b) by (unfold block_end, n, sizeof_block in *; lia).
    apply chain_insert; [apply chain_insert; [done|lia]|lia].
Qed.

Lemma seg_below m a bs x b : seg m a bs -> x = a + span bs -> seg (<[x := b]> m) a bs.
Proof. intros H ->. apply seg_insert; [done|]. lia. Qed.

Lemma take_block_chain h bs1 b bs2 e a sz :
  chain (hdrs h) (heap_first h) (bs1 ++ b :: bs2) e -> a = heap_first h + span bs1 ->
  0 < sz -> fits sz b = true -> sz + sizeof_block <= kb_size b ->
  chain (hdrs (take_block a sz b h)) (heap_first h) (bs1 ++ carve a sz b ++ bs2) e.
Proof.
  intros Hch Ha Hsz Hfit Hroom. apply chain_app in Hch as [Hseg Hch]. rewrite <- Ha in Hch.
  assert (Hok : block_ok b) by apply Hch.
  unfold take_block, carve. destruct (Z.ltb_spec (kb_size b - sz - sizeof_block) MIN_BLOCK_SIZE) as [Hr|Hr].
  - apply chain_app. cbn [hdrs add_free add_used set_hdr]. rewrite <- Ha.
    split; [by apply seg_below|]. apply (chain_head_insert _ _ b); try done.
    split; [apply Hok|]. split; [by right|apply Hok].
  - cbn [hdrs add_free add_used set_hdr app]. rewrite insert_insert_eq.
    apply chain_app. rewrite <- Ha. split.
    + apply seg_below; [|done]. apply seg_insert; [done|]. unfold sizeof_block. lia.
    + unfold MIN_BLOCK_SIZE, sizeof_block in Hr.
      apply (chain_head_split _ _ b); try done; (split; [done|]); (split; [auto|]); simpl;
        unfold sizeof_block; lia.
Qed.

Lemma carve_sizes a sz b :
  fits sz b = true -> sz + sizeof_block <= kb_size b -> block_ok b ->
  exists got, sz <= got <= kb_size b /\
    size_if is_alloc (carve a sz b) = got /\
    (carve a sz b = [with_flags KHEAP_ALLOCATED b] /\ got = kb_size b /\
       size_if free_block (carve a sz b) = 0 \/
     got = sz /\ size_if free_block (carve a sz b) = kb_size b - sz - sizeof_block) /\
    span (carve a sz b) = span [b] /\
    forall x, allocs x (carve a sz b) = [(x + sizeof_block, got)].
Proof.
  intros Hfit Hroom Hok. unfold carve, MIN_BLOCK_SIZE, sizeof_block in *.
  destruct (Z.ltb_spec (kb_size b - sz - 24) (24 + 16)).
  - exists (kb_size b). split; [lia|].
    split; [exact (Z.add_0_r _)|]. split; [left; done|]. split; [done|]. intros x. done.
  - exists sz. split; [lia|]. split; [exact (Z.add_0_r _)|].
    split; [right; split; [done|]; exact (Z.add_0_r _)|].
    split; [cbn; unfold sizeof_block; lia|]. intros x. done.
Qed.

Lemma take_block_first a sz b h : heap_first (take_block a sz b h) = heap_first h.
Proof. unfold take_block. by destruct (_ <? _). Qed.

Lemma take_block_wf h bs1 b bs2 e a sz :
  heap_wf h (bs1 ++ b :: bs2) e -> a = heap_first h + span bs1 ->
  0 < sz -> fits sz b = true -> sz + sizeof_block <= kb_size b ->
  heap_wf (take_block a sz b h) (bs1 ++ carve a sz b ++ bs2) e.
Proof.
  intros [Hfirst Hend Hch Hused Hfree] Ha Hsz Hfit Hroom.
  pose proof (take_block_chain h bs1 b bs2 e a sz Hch Ha Hsz Hfit Hroom) as Hch'.
  apply andb_true_iff in Hfit as [Hfb _].
  assert (Hna : is_alloc b = false) by (unfold free_block in Hfb; by destruct (is_alloc b)).
  pose proof (size_if_bounds _ _ _ _ is_alloc Hch) as Hb1.
  pose proof (size_if_bounds _ _ _ _ free_block Hch) as Hb2.
  pose proof (chain_span _ _ _ _ Hch) as [Hes _].
  pose proof (size_if_bounds _ _ _ _ is_alloc Hch') as Hb3.
  pose proof (size_if_bounds _ _ _ _ free_block Hch') as Hb4.
  pose proof (chain_span _ _ _ _ Hch') as [Hes' _].
  split; rewrite ?take_block_first; try done; clear Hch Hch';
  unfold take_block, carve, with_flags in *;
    destruct (Z.ltb_spec (kb_size b - sz - sizeof_block) MIN_BLOCK_SIZE);
    cbn [bytes_used bytes_free add_used add_free set_hdr app] in *;
    rewrite ?size_if_app, ?size_if_cons in *; rewrite ?Hna, ?Hfb in *;
    rewrite ?is_alloc_A, ?free_block_A, ?is_alloc_F, ?free_block_F in *;
    cbn [kb_size with_flags] in *; unfold sizeof_block, MIN_BLOCK_SIZE in *;
    rewrite ?u64_add_u64; rewrite u64_id; unfold is_u64; lia.
Qed.
End take.

(** ** The live ranges of a chain do not overlap *)

Section ranges.
Implicit Types (h : kheap) (a e x : Z) (b : kheap_block) (bs : list kheap_block).

Definition apart (x y : Z * Z) : Prop := x.1 + x.2 <= y.1 \/ y.1 + y.2 <= x.1.

Lemma allocs_bounds m a bs e p s :
  chain m a bs e -> (p, s) ∈ allocs a bs -> a + sizeof_block <= p /\ 0 <= s /\ p + s <= e.
Proof.
  revert a. induction bs as [|b bs IH]; intros a; [done|]. intros Hch Hin.
  pose proof (chain_span _ _ _ _ Hch) as [He _]. cbn [allocs] in Hin.
  assert (Hs : 0 <= kb_size b) by apply Hch. rewrite span_cons in He.
  apply elem_of_app in Hin as [Hin|Hin].
  - destruct (is_alloc b); [|by apply elem_of_nil in Hin].
    apply list_elem_of_singleton in Hin. simplify_eq. destruct bs as [|b' bs].
    + unfold span in *. simpl in *. lia.
    + apply chain_cons_cons in Hch as (_ & _ & _ & Hch).
      apply chain_span in Hch as [He' Hsp]. unfold sizeof_block in *. lia.
  - destruct bs as [|b' bs]; [by apply elem_of_nil in Hin|].
    apply chain_cons_cons in Hch as (_ & _ & _ & Hch). apply (IH _ Hch) in Hin.
    unfold block_end, sizeof_block in *. lia.
Qed.

Lemma allocs_apart m a bs e : chain m a bs e -> ForallOrdPairs apart (allocs a bs).
Proof.
  revert a. induction bs as [|b bs IH]; intros a Hch; [constructor|]. cbn [allocs].
  destruct bs as [|b' bs].
  - destruct (is_alloc b); [repeat constructor|constructor].
  - apply chain_cons_cons in Hch as (_ & _ & _ & Hch). specialize (IH _ Hch).
    destruct (is_alloc b); [|done]. constructor; [|done].
    apply Forall_forall. intros [q s] Hq.
    pose proof (allocs_bounds _ _ _ _ _ _ Hch Hq). left. unfold block_end, sizeof_block in *. simpl. lia.
Qed.

Lemma ForallOrdPairs_mid {A} (R : A -> A -> Prop) (l1 : list A) (x : A) (l2 : list A) (y : A) :
  (forall u v, R u v -> R v u) -> ForallOrdPairs R (l1 ++ x :: l2) -> y ∈ l1 ++ l2 -> R x y.
Proof.
  intros Hsym. induction l1 as [|z l1 IH]; cbn [app]; intros HR Hy.
  - inversion HR as [|? ? Hall _]. subst. rewrite Forall_forall in Hall.
    by apply Hall.
  - inversion HR as [|? ? Hall HR']. subst. apply elem_of_cons in Hy as [->|Hy]; [|by apply IH].
    rewrite Forall_forall in Hall. apply Hsym, Hall, elem_of_app.
    right. left.
Qed.

Lemma apart_sym (x y : Z * Z) : apart x y -> apart y x.
Proof. unfold apart. tauto. Qed.

Lemma align16_spec n : 0 < n -> n + 16 <= 2 ^ 64 ->
  n <= align16 n < n + 16 /\ align16 n mod 16 = 0.
Proof.
  intros Hn Hb. unfold align16. rewrite u64_id by (unfold is_u64; lia).
  change (16 - 1) with (2 ^ 4 - 1). rewrite land_align_mask by (unfold is_u64; lia).
  change (2 ^ 4) with 16. rewrite Z.mod_mul by lia. split; [|done].
  pose proof (Z.div_mod (n + 16 - 1) 16). pose proof (Z.mod_pos_bound (n + 16 - 1) 16). lia.
Qed.

(** The first fitting block of a list. *)
Lemma fits_dec sz bs :
  Forall (fun b => fits sz b = false) bs \/
  exists bs1 b bs2, bs = bs1 ++ b :: bs2 /\ Forall (fun b => fits sz b = false) bs1 /\ fits sz b = true.
Proof.
  induction bs as [|b bs IH]; [by left|]. destruct (fits sz b) eqn:E.
  - right. by exists [], b, bs.
  - destruct IH as [IH|(bs1 & c & bs2 & -> & Hno & Hc)].
    + left. by constructor.
    + right. exists (b :: bs1), c, bs2. split; [done|]. split; [by constructor|done].
Qed.

(** No free block is too tight to be split for a request of [sz] bytes. *)
Definition roomy sz bs : Prop :=
  Forall (fun b => fits sz b = true -> sz + sizeof_block <= kb_size b) bs.

Lemma kmalloc_walk_first_fit h bs1 b bs2 e sz fuel :
  heap_wf h (bs1 ++ b :: bs2) e -> 0 < sz -> roomy sz (bs1 ++ b :: bs2) ->
  Forall (fun b => fits sz b = false) bs1 -> fits sz b = true -> (length bs1 < fuel)%nat ->
  kmalloc_walk fuel (heap_first h) sz h =
    Some (heap_first h + span bs1 + sizeof_block, take_block (heap_first h + span bs1) sz b h).
Proof.
  intros [Hfirst Hend Hch _ _] Hsz Hroomy Hno Hfit Hfuel.
  apply Forall_app in Hroomy as [_ Hroomy]. apply Forall_cons in Hroomy as [Hroomy _].
  pose proof (chain_span _ _ _ _ Hch) as [He _]. rewrite span_app, span_cons in He.
  apply chain_app in Hch as [Hseg Hch]. pose proof (chain_span _ _ _ _ Hch) as [He' Hsp].
  pose proof (chain_tail_span _ _ _ _ _ Hch) as Hlen.
  replace fuel with (length bs1 + S (fuel - length bs1 - 1))%nat by lia.
  rewrite kmalloc_walk_skip by done. destruct Hch as (Hl & Hok & _).
  apply kmalloc_walk_take; try done; [by eapply seg_pos|lia|by apply Hroomy].
Qed.
End ranges.

(** ** Coalescing *)

Section coalescing.
Implicit Types (h : kheap) (a e x : Z) (b c : kheap_block) (bs : list kheap_block).

Definition merged b c : kheap_block :=
  KBlock (kb_next c) (kb_size b + (sizeof_block + kb_size c)) (kb_flags b) (kb_magic b).

(** What one pass of [merge_blocks] makes of the chain [b :: bs]. *)
Fixpoint coalesce b bs : list kheap_block :=
  match bs with
  | [] => [b]
  | c :: bs' => if free_block b && free_block c then coalesce (merged b c) bs'
                else b :: coalesce c bs'
  end.

Lemma merged_free b c : free_block (merged b c) = free_block b.
Proof. done. Qed.

Lemma coalesce_cons b bs :
  exists d ds, coalesce b bs = d :: ds /\ (free_block b = free_block d).
Proof.
  revert b. induction bs as [|c bs IH]; intros b; cbn [coalesce].
  - by eexists _, _.
  - destruct (_ && _); [|by eexists _, _].
    destruct (IH (merged b c)) as (d & ds & -> & ?). by eexists _, _.
Qed.

Lemma chain_merge m a b c bs e :
  chain m a (b :: c :: bs) e -> chain (<[a := merged b c]> m) a (merged b c :: bs) e.
Proof.
  intros Hch. apply chain_cons_cons in Hch as (_ & (Hm & Hf & Hs) & Hn & Hch).
  assert (Hsc : 0 <= kb_size c) by apply Hch.
  assert (Hok : block_ok (merged b c))
    by (split; [done|]; split; [done|]; cbn [merged kb_size]; unfold sizeof_block; lia).
  assert (Hend : block_end (block_end a b) c = block_end a (merged b c))
    by (unfold block_end; cbn [merged kb_size]; lia).
  split; [apply lookup_insert_eq|]. split; [done|]. destruct bs as [|d bs].
  - destruct Hch as (_ & _ & Hn' & He). rewrite <- Hend. done.
  - apply chain_cons_cons in Hch as (_ & _ & Hn' & Hch). rewrite Hend in *. split; [done|].
    apply chain_insert; [done|]. unfold block_end. destruct Hok as (_ & _ & ?). unfold sizeof_block. lia.
Qed.

Lemma chain_next_nonzero m a b c bs e : 0 < a -> chain m a (b :: c :: bs) e -> kb_next b <> 0.
Proof.
  intros Ha Hch. apply chain_cons_cons in Hch as (_ & (_ & _ & Hs) & -> & _).
  unfold block_end, sizeof_block. lia.
Qed.

Record merge_post (h h' : kheap) (a e : Z) (bs bs' : list kheap_block) : Prop := {
  mp_chain : chain (hdrs h') a bs' e;
  mp_below : forall x, x < a -> hdrs h' !! x = hdrs h !! x;
  mp_first : heap_first h' = heap_first h;
  mp_used : bytes_used h' = bytes_used h;
  mp_payload : payload h' = payload h;
  mp_free : is_u64 (bytes_free h) ->
            bytes_free h' = u64 (bytes_free h + (size_if free_block bs' - size_if free_block bs))
}.

Lemma merge_loop_spec bs : forall h a b e fuel,
  0 < a -> e < 2 ^ 64 -> chain (hdrs h) a (b :: bs) e -> (length bs < fuel)%nat ->
  exists h', merge_loop fuel a h = Some h' /\ merge_post h h' a e (b :: bs) (coalesce b bs).
Proof.
  induction bs as [|c bs IH]; intros h a b e fuel Ha He Hch Hfuel;
    (destruct fuel as [|fuel]; [lia|]); cbn [merge_loop];
    rewrite (proj2 (Z.eqb_neq a 0)) by lia; rewrite (hdr_lookup h a b) by apply Hch.
  - destruct Hch as (Hl & Hok & Hn & Hend). rewrite Hn. exists h. split; [done|].
    split; try done. intros H. by rewrite Z.sub_diag, Z.add_0_r, u64_id.
  - pose proof (chain_next_nonzero _ _ _ _ _ _ Ha Hch) as Hn0.
    pose proof (chain_merge _ _ _ _ _ _ Hch) as Hmc.
    pose proof (chain_span _ _ _ _ Hch) as [Hsp _]. rewrite !span_cons in Hsp.
    pose proof Hch as Hch0. apply chain_cons_cons in Hch as (Hl & (Hmag & Hfl & Hs) & Hn & Hch).
    assert (Hbe : a < block_end a b) by (unfold block_end, sizeof_block; lia).
    pose proof (chain_span _ _ _ _ Hch) as [Hsp' Hsp2].
    assert (Hoc : block_ok c) by apply Hch. destruct Hoc as (_ & _ & Hsc).
    rewrite (proj2 (Z.eqb_neq _ 0)) by done. rewrite Hn.
    rewrite (hdr_lookup h _ c) by apply Hch.
    rewrite u64_id by (unfold is_u64, block_end, sizeof_block in *; lia).
    unfold block_end at 1. rewrite Z.eqb_refl, andb_true_r. fold (free_block b) (free_block c).
    cbn [coalesce]. destruct (free_block b && free_block c) eqn:Efree.
    + pose proof (chain_tail_span _ _ _ _ _ Hmc).
      rewrite (u64_id (kb_size b + _)) by (unfold is_u64, block_end, sizeof_block in *; lia).
      match goal with |- context [merge_loop fuel a ?H] => set (h1 := H) end.
      assert (Hc1 : chain (hdrs h1) a (merged b c :: bs) e) by exact Hmc.
      destruct (IH h1 a (merged b c) e fuel Ha He Hc1) as (h' & Hrun & [P1 P2 P3 P4 P5 P6]);
        [cbn [length] in Hfuel; lia|].
      exists h'. split; [done|]. split; try done.
      * intros x Hx. rewrite P2 by done. apply lookup_insert_ne. lia.
      * intros Hu. rewrite P6 by apply is_u64_wrap. cbn [h1 bytes_free add_free set_hdr].
        rewrite u64_add_u64, !size_if_cons, merged_free. apply andb_true_iff in Efree as [-> ->].
        cbn [merged kb_size]. f_equal. lia.
    + rewrite <- Hn. destruct (IH h (kb_next b) c e fuel) as (h' & Hrun & [P1 P2 P3 P4 P5 P6]);
        [lia|done|by rewrite Hn|cbn [length] in Hfuel; lia|].
      exists h'. split; [done|]. rewrite Hn in *. split; try done.
      * destruct (coalesce_cons c bs) as (d & ds & Hk & _). rewrite Hk in *. apply chain_cons_cons.
        split; [by rewrite P2|]. done.
      * intros x Hx. apply P2. lia.
      * intros Hu. rewrite P6 by done. rewrite (size_if_cons _ b (coalesce _ _)), (size_if_cons _ b).
        f_equal. lia.
Qed.

Fixpoint no_adjacent_free bs : Prop :=
  match bs with
  | [] => True
  | b :: bs' =>
      match bs' with c :: _ => free_block b && free_block c = false | [] => True end /\
      no_adjacent_free bs'
  end.

Lemma coalesce_no_adjacent b bs : no_adjacent_free (coalesce b bs).
Proof.
  revert b. induction bs as [|c bs IH]; intros b; cbn [coalesce]; [done|].
  destruct (free_block b && free_block c) eqn:E; [apply IH|]. split; [|apply IH].
  destruct (coalesce_cons c bs) as (d & ds & -> & <-). done.
Qed.

Lemma coalesce_allocs b bs : forall a, allocs a (coalesce b bs) = allocs a (b :: bs).
Proof.
  revert b. induction bs as [|c bs IH]; intros b a; cbn [coalesce]; [done|].
  destruct (free_block b && free_block c) eqn:E.
  - rewrite IH. apply andb_true_iff in E as [Eb Ec]. unfold free_block in *.
    apply negb_true_iff in Eb, Ec. cbn [allocs]. rewrite Eb, Ec.
    replace (is_alloc (merged b c)) with (is_alloc b) by done. rewrite Eb.
    cbn [app]. f_equal. unfold block_end. cbn [merged kb_size]. lia.
  - cbn [allocs]. by rewrite IH.
Qed.

Lemma coalesce_size_alloc b bs : size_if is_alloc (coalesce b bs) = size_if is_alloc (b :: bs).
Proof.
  revert b. induction bs as [|c bs IH]; intros b; cbn [coalesce]; [done|].
  destruct (free_block b && free_block c) eqn:E.
  - rewrite IH. apply andb_true_iff in E as [Eb Ec]. unfold free_block in *.
    apply negb_true_iff in Eb, Ec. rewrite !size_if_cons.
    replace (is_alloc (merged b c)) with (is_alloc b) by done. by rewrite Eb, Ec.
  - by rewrite (size_if_cons _ b), IH, (size_if_cons _ b).
Qed.

(** The pass over a whole well-formed heap whose counters are right. *)
Lemma merge_blocks_wf h b bs e fuel :
  heap_wf h (b :: bs) e -> (length bs < fuel)%nat ->
  exists h', merge_blocks fuel h = Some h' /\ heap_wf h' (coalesce b bs) e /\
    heap_first h' = heap_first h /\ bytes_used h' = bytes_used h /\ payload h' = payload h.
Proof.
  intros [Hfirst Hend Hch Hused Hfree] Hfuel.
  destruct (merge_loop_spec bs h (heap_first h) b e fuel Hfirst Hend Hch Hfuel)
    as (h' & Hrun & [P1 P2 P3 P4 P5 P6]).
  exists h'. split; [done|]. split; [|done].
  pose proof (size_if_bounds _ _ _ _ free_block Hch).
  pose proof (size_if_bounds _ _ _ _ free_block P1).
  pose proof (chain_span _ _ _ _ Hch) as [? _]. pose proof (chain_span _ _ _ _ P1) as [? _].
  split; rewrite ?P3; try done.
  - by rewrite P4, coalesce_size_alloc.
  - rewrite P6 by (unfold is_u64; lia). rewrite u64_id by (unfold is_u64; lia). lia.
Qed.
End coalescing.

(** ** Freeing *)

Section freeing.
Implicit Types (h : kheap) (a e x : Z) (b c : kheap_block) (bs : list kheap_block).

Lemma allocs_split a bs p s :
  (p, s) ∈ allocs a bs ->
  exists bs1 b bs2, bs = bs1 ++ b :: bs2 /\ is_alloc b = true /\
    p = a + span bs1 + sizeof_block /\ s = kb_size b.
Proof.
  revert a. induction bs as [|b bs IH]; intros a; cbn [allocs]; intros Hin.
  - by apply elem_of_nil in Hin.
  - apply elem_of_app in Hin as [Hin|Hin].
    + destruct (is_alloc b) eqn:E; [|by apply elem_of_nil in Hin].
      apply list_elem_of_singleton in Hin. simplify_eq.
      exists [], b, bs. split; [done|]. split; [done|]. unfold span. simpl. split; [lia|done].
    + apply IH in Hin as (bs1 & c & bs2 & -> & Hc & -> & ->).
      exists (b :: bs1), c, bs2. split; [done|]. split; [done|]. rewrite span_cons.
      unfold block_end. split; [lia|done].
Qed.

(** Marking an allocated block free keeps the heap well formed. *)
Lemma header_free_wf h bs1 b bs2 e a :
  heap_wf h (bs1 ++ b :: bs2) e -> a = heap_first h + span bs1 -> is_alloc b = true ->
  heap_wf (add_free (kb_size b) (add_used (- kb_size b) (set_hdr a (with_flags KHEAP_FREE b) h)))
          (bs1 ++ with_flags KHEAP_FREE b :: bs2) e.
Proof.
  intros [Hfirst Hend Hch Hused Hfree] Ha Hal.
  assert (Hch' : chain (<[a := with_flags KHEAP_FREE b]> (hdrs h)) (heap_first h)
    (bs1 ++ with_flags KHEAP_FREE b :: bs2) e).
  { apply chain_app in Hch as [Hseg Hch]. rewrite <- Ha in Hch. apply chain_app. rewrite <- Ha.
    split; [by apply seg_below|]. assert (Hok : block_ok b) by apply Hch.
    apply (chain_head_insert _ _ b); try done. split; [apply Hok|]. split; [by left|apply Hok]. }
  pose proof (size_if_bounds _ _ _ _ is_alloc Hch) as Hb1.
  pose proof (size_if_bounds _ _ _ _ is_alloc Hch') as Hb3.
  pose proof (size_if_bounds _ _ _ _ free_block Hch') as Hb4.
  pose proof (chain_span _ _ _ _ Hch) as [Hes _]. pose proof (chain_span _ _ _ _ Hch') as [Hes' _].
  assert (Hfb : free_block b = false) by (unfold free_block; by rewrite Hal).
  split; try done; clear Hch Hch';
    cbn [bytes_used bytes_free add_used add_free set_hdr]; unfold with_flags in *;
    rewrite ?size_if_app, ?size_if_cons in *; rewrite ?Hal, ?Hfb in *;
    rewrite ?is_alloc_F, ?free_block_F in *; cbn [kb_size] in *;
    rewrite u64_id; unfold is_u64; lia.
Qed.

Lemma kfree_unfold h bs1 b bs2 e fuel p :
  heap_wf h (bs1 ++ b :: bs2) e -> is_alloc b = true ->
  p = heap_first h + span bs1 + sizeof_block ->
  kfree fuel p h = merge_blocks fuel
    (add_free (kb_size b) (add_used (- kb_size b)
      (set_hdr (heap_first h + span bs1) (with_flags KHEAP_FREE b) h))).
Proof.
  intros [Hfirst Hend Hch _ _] Hal ->.
  pose proof (chain_span _ _ _ _ Hch) as [He _]. rewrite span_app, span_cons in He.
  apply chain_app in Hch as [Hseg Hch]. pose proof (seg_span_nonneg _ _ _ Hseg).
  pose proof (chain_tail_span _ _ _ _ _ Hch). assert (Hok : block_ok b) by apply Hch.
  destruct Hok as (Hmag & _ & Hs). unfold kfree, DATA_BLOCK.
  rewrite (proj2 (Z.eqb_neq _ 0)) by (unfold sizeof_block; lia).
  rewrite u64_id by (unfold is_u64, sizeof_block in *; lia).
  rewrite Z.add_simpl_r. rewrite (hdr_lookup h _ b) by apply Hch.
  by rewrite Hmag, Z.eqb_refl, Hal.
Qed.

Lemma no_free_run bs a : no_adjacent_free bs -> allocs a bs = [] -> (length bs <= 1)%nat.
Proof.
  destruct bs as [|b [|c bs]]; cbn [length]; [lia..|]. intros [H _] Hal. exfalso.
  cbn [allocs] in Hal. apply app_eq_nil in Hal as [H1 H2]. apply app_eq_nil in H2 as [H2 _].
  unfold free_block in H. by destruct (is_alloc b), (is_alloc c).
Qed.
End freeing.

(** ** What the allocator's entry points do *)

Section specs.
Lemma kmalloc_spec h bs e n fuel :
  heap_wf h bs e -> 0 < n -> n + 16 <= 2 ^ 64 -> roomy (align16 n) bs ->
  (length bs < fuel)%nat ->
  exists p h', kmalloc fuel n h = Some (p, h') /\
    ((p = 0 /\ h' = h /\ Forall (fun b => free_block b = true -> kb_size b < align16 n) bs) \/
     exists got bs', heap_wf h' bs' e /\ heap_first h' = heap_first h /\ payload h' = payload h /\
       (length bs' <= S (length bs))%nat /\ n <= got /\
       heap_first h + sizeof_block <= p /\ p + got <= e /\
       allocs (heap_first h) bs' ≡ₚ (p, got) :: allocs (heap_first h) bs /\
       Forall (apart (p, got)) (allocs (heap_first h) bs)).
Proof.
  intros Hwf Hn Hn16 Hroomy Hfuel. destruct (align16_spec n Hn Hn16) as [Hal _].
  unfold kmalloc. rewrite (proj2 (Z.eqb_neq n 0)) by lia.
  destruct (fits_dec (align16 n) bs) as [Hno|(bs1 & b & bs2 & -> & Hno & Hfit)].
  - exists 0, h. split; [apply (kmalloc_walk_none _ _ e _ bs); try done; apply Hwf|].
    left. split; [done|]. split; [done|]. apply (Forall_impl _ _ _ Hno).
    intros b Hb Hf. unfold fits in Hb. rewrite Hf in Hb. simpl in Hb. zbool. lia.
  - rewrite length_app in Hfuel. cbn [length] in Hfuel.
    eexists _, _. split; [apply (kmalloc_walk_first_fit h bs1 b bs2 e); done || lia|]. right.
    apply Forall_app in Hroomy as [_ Hroomy]. apply Forall_cons in Hroomy as [Hroom _].
    specialize (Hroom Hfit).
    assert (Hok : block_ok b) by (destruct Hwf as [_ _ Hch _ _]; apply chain_app in Hch; apply Hch).
    set (a := heap_first h + span bs1).
    pose proof (take_block_wf h bs1 b bs2 e a (align16 n) Hwf eq_refl ltac:(lia) Hfit Hroom) as Hwf'.
    destruct (carve_sizes a _ b Hfit Hroom Hok) as (got & Hgot & _ & _ & Hsp & Hallocs).
    exists got, (bs1 ++ carve a (align16 n) b ++ bs2).
    assert (Ha1 : allocs (heap_first h) (bs1 ++ carve a (align16 n) b ++ bs2) =
      allocs (heap_first h) bs1 ++ (a + sizeof_block, got) :: allocs (a + span [b]) bs2)
      by (by rewrite !allocs_app, Hallocs, Hsp).
    assert (Ha2 : allocs (heap_first h) (bs1 ++ b :: bs2) =
      allocs (heap_first h) bs1 ++ allocs (a + span [b]) bs2).
    { change (b :: bs2) with ([b] ++ bs2). rewrite !allocs_app. f_equal. fold a.
      apply andb_true_iff in Hfit as [Hf _]. unfold free_block in Hf. cbn [allocs].
      by destruct (is_alloc b). }
    pose proof (hw_chain _ _ _ Hwf') as Hch1. rewrite take_block_first in Hch1.
    pose proof (allocs_bounds _ _ _ _ (a + sizeof_block) got Hch1) as Hbnd.
    pose proof (allocs_apart _ _ _ _ Hch1) as Hap. rewrite Ha1 in Hbnd, Hap |- *. rewrite Ha2.
    split; [done|]. split; [apply take_block_first|].
    split; [unfold take_block; by destruct (_ <? _)|].
    split; [rewrite !length_app; unfold carve; destruct (_ <? _); cbn [length]; lia|].
    assert (Hin : (a + sizeof_block, got) ∈ allocs (heap_first h) bs1 ++
      (a + sizeof_block, got) :: allocs (a + span [b]) bs2) by (apply elem_of_app; right; left).
    specialize (Hbnd Hin). split; [lia|]. split; [lia|]. split; [lia|].
    split; [by rewrite Permutation_middle|]. apply Forall_forall. intros y Hy.
    by apply (ForallOrdPairs_mid apart _ _ _ _ apart_sym Hap).
Qed.

Lemma kfree_spec h bs e p s fuel :
  heap_wf h bs e -> (p, s) ∈ allocs (heap_first h) bs -> (length bs <= fuel)%nat ->
  exists h' bs', kfree fuel p h = Some h' /\ heap_wf h' bs' e /\ heap_first h' = heap_first h /\
    allocs (heap_first h) bs ≡ₚ (p, s) :: allocs (heap_first h) bs' /\
    bytes_used h' = bytes_used h - s /\ no_adjacent_free bs' /\ payload h' = payload h /\
    (allocs (heap_first h) bs' = [] -> exists b, bs' = [b] /\ kb_size b = e - heap_first h - sizeof_block).
Proof.
  intros Hwf Hin Hfuel. destruct (allocs_split _ _ _ _ Hin) as (bs1 & b & bs2 & -> & Hal & Hp & ->).
  rewrite (kfree_unfold h bs1 b bs2 e fuel p Hwf Hal Hp).
  pose proof (header_free_wf h bs1 b bs2 e _ Hwf eq_refl Hal) as Hwf1.
  set (h1 := add_free _ _) in *. rewrite length_app in Hfuel. cbn [length] in Hfuel.
  assert (Hc : exists c cs, bs1 ++ with_flags KHEAP_FREE b :: bs2 = c :: cs)
    by (destruct bs1; by eexists _, _). destruct Hc as (c & cs & Hc).
  assert (Hl : length (c :: cs) = (length bs1 + S (length bs2))%nat) by (rewrite <- Hc, length_app; done).
  rewrite Hc in Hwf1. cbn [length] in Hl.
  destruct (merge_blocks_wf h1 c cs e fuel Hwf1) as (h' & Hrun & Hwf' & Hff & Huse & Hpay); [lia|].
  exists h', (coalesce c cs). split; [done|]. split; [done|]. split; [done|].
  assert (Hall : allocs (heap_first h) (bs1 ++ b :: bs2) ≡ₚ
    (p, kb_size b) :: allocs (heap_first h) (coalesce c cs)).
  { rewrite coalesce_allocs, <- Hc, !allocs_app. cbn [allocs].
    unfold with_flags. rewrite Hal, is_alloc_F, <- Hp. unfold block_end. cbn [kb_size app].
    by rewrite Permutation_middle. }
  split; [done|]. split.
  { destruct Hwf1 as [_ _ _ Hu1 _], Hwf as [_ _ _ Hu _]. rewrite Huse, Hu1, Hu, <- Hc.
    rewrite !size_if_app, !size_if_cons, Hal. unfold with_flags. rewrite is_alloc_F. lia. }
  split; [apply coalesce_no_adjacent|]. split; [done|]. intros Hnone.
  pose proof (no_free_run _ _ (coalesce_no_adjacent c cs) Hnone) as Hone.
  destruct Hwf' as [_ _ Hch _ _]. destruct (coalesce c cs) as [|d [|d' ds]]; cbn [length] in Hone; [done| |lia].
  exists d. split; [done|]. apply chain_span in Hch as [Hsp _]. unfold span in Hsp. simpl in Hsp.
  rewrite Hff in Hsp. cbn [heap_first h1 add_free add_used set_hdr] in Hsp. lia.
Qed.

Lemma kheap_init_wf start size mem :
  0 < start -> sizeof_block <= size -> start + size < 2 ^ 64 ->
  heap_wf (kheap_init start size mem)
    [KBlock 0 (size - sizeof_block) KHEAP_FREE KHEAP_MAGIC] (start + size).
Proof.
  intros Hs Hsz Hend. unfold kheap_init, sizeof_block in *.
  rewrite u64_id by (unfold is_u64; lia). split; try done.
  - split; [apply lookup_insert_eq|]. split.
    + split; [done|]. split; [by left|]. cbn [kb_size]. lia.
    + split; [done|]. unfold block_end, sizeof_block. cbn [kb_size heap_first]. lia.
  - exact (eq_sym (Z.add_0_r _)).
Qed.
End specs.

(** ** Walks over the block list *)

Section walks.
Implicit Types (h : kheap) (a e : Z) (b : kheap_block) (bs : list kheap_block).

Lemma walk_blocks_seg h k a bs c al lf :
  0 < a -> a + span bs < 2 ^ 64 -> seg (hdrs h) a bs ->
  exists al' lf', walk_blocks_from (length bs + k) a h (c, al, lf) =
    walk_blocks_from k (a + span bs) h (c, al', lf').
Proof.
  revert a al lf. induction bs as [|b bs IH]; intros a al lf Ha He Hseg.
  - rewrite Z.add_0_r. by eexists _, _.
  - destruct Hseg as (Hl & (Hm & Hf & Hs) & Hn & Hseg). rewrite span_cons in He |- *.
    pose proof (seg_span_nonneg _ _ _ Hseg). cbn [length Nat.add walk_blocks_from].
    rewrite (proj2 (Z.eqb_neq a 0)), (hdr_lookup _ _ _ Hl), Hm, Z.eqb_refl, Hn by lia. cbn [negb].
    rewrite (u64_id (a + sizeof_block + kb_size b)) by (unfold is_u64, sizeof_block in *; lia). fold (block_end a b).
    rewrite Z.eqb_refl, andb_false_r.
    replace (negb (kb_flags b =? KHEAP_FREE) && negb (kb_flags b =? KHEAP_ALLOCATED)) with false
      by (destruct Hf as [-> | ->]; done).
    destruct (if is_alloc b then _ else _) as [al1 lf1].
    replace (a + (sizeof_block + kb_size b + span bs)) with (block_end a b + span bs)
      by (unfold block_end; lia).
    apply IH; [|unfold block_end; lia|done]. unfold block_end, sizeof_block. lia.
Qed.

Lemma walk_blocks_chain h bs e fuel :
  heap_wf h bs e -> (length bs < fuel)%nat ->
  exists al lf, walk_blocks fuel h = Some (0, al, lf).
Proof.
  intros [Hfirst Hend Hch _ _] Hfuel. unfold walk_blocks.
  destruct bs as [|b bs _] using rev_ind; [done|].
  pose proof (chain_span _ _ _ _ Hch) as [Hes _]. rewrite span_app in Hes.
  rewrite length_app in Hfuel. cbn [length] in Hfuel. apply chain_app in Hch as [Hseg Hch].
  pose proof (chain_span _ _ _ _ Hch) as [_ Hsp]. pose proof (seg_span_nonneg _ _ _ Hseg).
  replace fuel with (length bs + S (S (fuel - length bs - 2)))%nat by lia.
  destruct (walk_blocks_seg h (S (S (fuel - length bs - 2))) (heap_first h) bs 0 0 0)
    as (al & lf & ->); try done; [unfold sizeof_block in *; lia|].
  destruct Hch as (Hl & (Hm & Hf & _) & Hn & _). cbn [walk_blocks_from].
  rewrite (proj2 (Z.eqb_neq (heap_first h + span bs) 0)) by lia.
  rewrite (hdr_lookup _ _ _ Hl), Hm, Hn. cbn [Z.eqb negb andb].
  replace (negb (kb_flags b =? KHEAP_FREE) && negb (kb_flags b =? KHEAP_ALLOCATED)) with false
    by (destruct Hf as [-> | ->]; done).
  rewrite Z.eqb_refl. cbn [negb]. destruct (if is_alloc b then _ else _) as [al1 lf1].
  by eexists _, _.
Qed.

(** The header an exact fit leaves in place of its successor's: a free block
    that is its own successor. *)
Definition loop_block a : kheap_block := KBlock a (2 ^ 64 - sizeof_block) KHEAP_FREE KHEAP_MAGIC.

Lemma walk_blocks_stuck h a fuel acc :
  0 < a < 2 ^ 64 -> hdr h a = loop_block a -> walk_blocks_from fuel a h acc = None.
Proof.
  intros Ha Hh. revert acc. induction fuel as [|f IH]; intros [[c al] lf]; cbn [walk_blocks_from]; [done|].
  rewrite (proj2 (Z.eqb_neq a 0)), Hh by lia. cbn [loop_block kb_magic kb_next kb_flags kb_size].
  rewrite Z.eqb_refl. cbn [negb]. apply IH.
Qed.

Lemma walk_blocks_seg_stuck h bs : forall a fuel acc,
  0 < a -> seg (hdrs h) a bs ->
  (forall f acc, walk_blocks_from f (a + span bs) h acc = None) ->
  walk_blocks_from fuel a h acc = None.
Proof.
  induction bs as [|b bs IH]; intros a fuel acc Ha Hseg Hend.
  - rewrite Z.add_0_r in Hend. apply Hend.
  - destruct Hseg as (Hl & (Hm & _ & Hs) & Hn & Hseg). destruct fuel as [|f]; [done|].
    cbn [walk_blocks_from]. rewrite (proj2 (Z.eqb_neq a 0)) by lia. destruct acc as [[c al] lf].
    rewrite (hdr_lookup _ _ _ Hl), Hm, Z.eqb_refl. cbn [negb].
    destruct (if is_alloc b then _ else _) as [al1 lf1]. rewrite Hn. apply IH.
    + unfold block_end, sizeof_block. lia.
    + done.
    + intros f' acc'. rewrite span_cons in Hend. unfold block_end.
      replace (a + sizeof_block + kb_size b + span bs)
        with (a + (sizeof_block + kb_size b + span bs)) by lia. apply Hend.
Qed.

(** Merging a free block with a free successor that is its own successor and
    whose size makes the addition wrap around to the same size never ends. *)
Lemma merge_loop_stuck a n fuel : forall h,
  a <> 0 -> n <> 0 ->
  free_block (hdr h a) = true -> kb_next (hdr h a) = n -> u64 (a + sizeof_block + kb_size (hdr h a)) = n ->
  free_block (hdr h n) = true -> kb_next (hdr h n) = n ->
  u64 (kb_size (hdr h a) + (sizeof_block + kb_size (hdr h n))) = kb_size (hdr h a) ->
  merge_loop fuel a h = None.
Proof.
  induction fuel as [|f IH]; intros h Ha Hn Hfa Hna Hexp Hfn Hnn Hsz; cbn [merge_loop]; [done|].
  rewrite (proj2 (Z.eqb_neq a 0)), Hna, (proj2 (Z.eqb_neq n 0)) by done.
  unfold free_block in Hfa, Hfn. rewrite Hfa, Hfn, Hexp, Z.eqb_refl. cbn [andb]. rewrite Hnn, Hsz.
  assert (Hsame : forall x, hdr (add_free sizeof_block
    (set_hdr a (with_next n (with_size (kb_size (hdr h a)) (hdr h a))) h)) x = hdr h x).
  { intros x. unfold hdr at 1. cbn [add_free set_hdr hdrs]. destruct (decide (a = x)) as [<-|Hne].
    - rewrite lookup_insert_eq. cbn [default]. unfold with_next, with_size.
      cbn [kb_next kb_size kb_flags kb_magic]. by destruct (hdr h a); simpl in Hna; subst.
    - by rewrite lookup_insert_ne. }
  apply IH; rewrite ?Hsame; done.
Qed.

(** Taking a free block of exactly the rounded size: the room left for a
    second block, computed as [size - size - 24], wraps around. *)
Lemma kmalloc_walk_exact h k a b sz :
  0 < a -> block_end a b < 2 ^ 64 -> 0 < sz -> hdrs h !! a = Some b -> block_ok b ->
  free_block b = true -> kb_size b = sz -> kb_next b = block_end a b ->
  exists h', kmalloc_walk (S k) a sz h = Some (a + sizeof_block, h') /\
    heap_first h' = heap_first h /\
    hdrs h' = <[a := with_flags KHEAP_ALLOCATED b]>
                (<[block_end a b := loop_block (block_end a b)]> (hdrs h)).
Proof.
  intros Ha He Hsz Hl (Hm & _ & Hs) Hfree Heq Hn. unfold free_block in Hfree. cbn [kmalloc_walk].
  rewrite (proj2 (Z.eqb_neq a 0)), (hdr_lookup _ _ _ Hl), Hm, Z.eqb_refl, Hfree by lia. cbn [negb].
  rewrite (proj2 (Z.leb_le sz (kb_size b))) by lia. cbn [andb]. eexists.
  unfold BLOCK_DATA. rewrite u64_id by (unfold is_u64, block_end, sizeof_block in *; lia).
  split; [done|]. unfold split_block. rewrite (hdr_lookup _ _ _ Hl), Heq.
  replace (u64 (sz - sz - sizeof_block)) with (2 ^ 64 - sizeof_block)
    by (rewrite Z.sub_diag; reflexivity).
  replace (2 ^ 64 - sizeof_block <? MIN_BLOCK_SIZE) with false by reflexivity.
  rewrite u64_id by (unfold is_u64, block_end, sizeof_block in *; lia).
  rewrite Hn. replace (a + sizeof_block + sz) with (block_end a b) by (unfold block_end; lia).
  fold (loop_block (block_end a b)). set (h1 := set_hdr (block_end a b) _ h).
  assert (Hne : block_end a b <> a) by (unfold block_end, sizeof_block; lia).
  rewrite (hdr_lookup h1 a b) by (unfold h1; cbn [set_hdr hdrs]; by rewrite lookup_insert_ne).
  set (b1 := with_next (block_end a b) (with_size sz b)).
  assert (b1 = b) as -> by (unfold b1, with_next, with_size; rewrite <- Hn, <- Heq; by destruct b).
  set (h2 := add_free (- sizeof_block) (set_hdr a b h1)).
  rewrite (hdr_lookup h2 a b) by apply lookup_insert_eq.
  split; [done|]. cbn [hdrs add_free add_used set_hdr h2 h1]. by rewrite insert_insert_eq.
Qed.
End walks.

(** ** Reallocation *)

Section realloc.
Implicit Types (h : kheap) (bs : list kheap_block) (m : gmap Z Z).

Definition byte_at m (a : Z) : Z := default 0 (m !! a).

Lemma copy_bytes_spec dst src n m :
  0 <= n -> 0 <= dst -> dst + n < 2 ^ 64 -> 0 <= src -> src + n < 2 ^ 64 ->
  apart (dst, n) (src, n) ->
  forall x, byte_at (copy_bytes dst src n m) x =
    if (dst <=? x) && (x <? dst + n) then byte_at m (src + (x - dst)) else byte_at m x.
Proof.
  intros Hn. pattern n. apply natlike_ind; [| |done].
  - intros _ _ _ _ _ x. rewrite Z.add_0_r. destruct (_ && _) eqn:E; [zbool; lia|done].
  - clear n Hn. intros n Hn IH Hd He Hs Hes Hap x. unfold apart in *. cbn [fst snd] in *.
    unfold copy_bytes. rewrite <- Z.add_1_r, seqZ_app by lia. rewrite foldl_app.
    fold (copy_bytes dst src n m). rewrite Z.add_0_l. cbn [foldl seqZ fmap].
    replace (seqZ n 1) with [n] by (unfold seqZ; simpl; f_equal; lia). cbn [foldl].
    rewrite !u64_id by (unfold is_u64; lia). fold (byte_at (copy_bytes dst src n m) (src + n)).
    unfold byte_at at 1. destruct (decide (dst + n = x)) as [<-|Hne].
    + rewrite lookup_insert_eq. cbn [default]. rewrite IH by lia.
      rewrite (proj2 (Z.leb_le dst (dst + n))), (proj2 (Z.ltb_lt (dst + n) (dst + (n + 1)))) by lia.
      cbn [andb]. replace (src + (dst + n - dst)) with (src + n) by lia.
      destruct (_ && _) eqn:E; [zbool; lia|done].
    + rewrite lookup_insert_ne by done. fold (byte_at (copy_bytes dst src n m) x). rewrite IH by lia.
      destruct (_ && _) eqn:E1; destruct ((dst <=? x) && (x <? dst + (n + 1))) eqn:E2; zbool; try lia; done.
Qed.

Lemma heap_wf_set_payload m h bs e : heap_wf h bs e -> heap_wf (set_payload m h) bs e.
Proof. by intros []. Qed.

(** The header in front of a live allocation. *)
Lemma alloc_header h bs e p s :
  heap_wf h bs e -> (p, s) ∈ allocs (heap_first h) bs ->
  0 < p - sizeof_block /\ p < 2 ^ 64 /\ DATA_BLOCK p = p - sizeof_block /\
  kb_size (hdr h (DATA_BLOCK p)) = s /\ kb_magic (hdr h (DATA_BLOCK p)) = KHEAP_MAGIC.
Proof.
  intros [Hfirst Hend Hch _ _] Hin. pose proof (allocs_bounds _ _ _ _ _ _ Hch Hin) as Hb.
  apply allocs_split in Hin as (bs1 & b & bs2 & -> & Hal & -> & ->).
  apply chain_app in Hch as [Hseg Hch]. pose proof (seg_pos _ _ _ Hfirst Hseg).
  unfold DATA_BLOCK, sizeof_block in *. rewrite u64_id by (unfold is_u64; lia).
  rewrite Z.add_simpl_r, (hdr_lookup h _ b) by apply Hch. repeat split; try lia. apply Hch.
Qed.

End realloc.

Module Correct.

(** [C2] On a well-formed heap in which no free block is too tight to be
    split for the rounded request, [kmalloc] ends within one more step than
    there are blocks; it either returns 0, changing nothing, and then no free
    block is large enough, or it returns the payload of a new block of at
    least the requested size, inside the heap, apart from every live
    allocation, which all stay live and unmoved; the heap stays well formed. *)
Theorem kmalloc_correct h bs e n fuel :
  heap_wf h bs e -> 0 < n -> n + 16 <= 2 ^ 64 -> roomy (align16 n) bs ->
  (length bs < fuel)%nat ->
  exists p h', kmalloc fuel n h = Some (p, h') /\
    ((p = 0 /\ h' = h /\ Forall (fun b => free_block b = true -> kb_size b < align16 n) bs) \/
     exists got bs', heap_wf h' bs' e /\ heap_first h' = heap_first h /\ n <= got /\
       heap_first h + sizeof_block <= p /\ p + got <= e /\
       allocs (heap_first h) bs' ≡ₚ (p, got) :: allocs (heap_first h) bs /\
       Forall (apart (p, got)) (allocs (heap_first h) bs)).
Proof.
  intros Hwf Hn Hn16 Hroomy Hfuel.
  destruct (kmalloc_spec h bs e n fuel) as (p & h' & Hrun & Hres); try done.
  exists p, h'. split; [done|]. destruct Hres as [Hres|(got & bs' & Hres)]; [by left|right].
  exists got, bs'. tauto.
Qed.

(** [C8] Freeing a live allocation ends within as many steps as there are
    blocks, keeps the heap well formed, removes exactly that allocation from
    the live ones and its size from the used bytes, leaves no two adjacent
    free blocks, and when nothing is live any more the heap is a single free
    block again. *)
Theorem kfree_correct h bs e p s fuel :
  heap_wf h bs e -> (p, s) ∈ allocs (heap_first h) bs -> (length bs <= fuel)%nat ->
  exists h' bs', kfree fuel p h = Some h' /\ heap_wf h' bs' e /\ heap_first h' = heap_first h /\
    allocs (heap_first h) bs ≡ₚ (p, s) :: allocs (heap_first h) bs' /\
    bytes_used h' = bytes_used h - s /\ no_adjacent_free bs' /\ payload h' = payload h /\
    (allocs (heap_first h) bs' = [] -> exists b, bs' = [b] /\ kb_size b = e - heap_first h - sizeof_block).
Proof. apply kfree_spec. Qed.

(** Growing a live allocation with [krealloc] either fails, changing
    nothing, or moves it: the old allocation is gone, the new one has at least
    the new size and starts with the old contents, every other live allocation
    stays, with its contents, and the heap stays well formed. *)
Theorem krealloc_grow_correct h bs e p s n fuel :
  heap_wf h bs e -> (p, s) ∈ allocs (heap_first h) bs -> s < n -> n + 16 <= 2 ^ 64 ->
  roomy (align16 n) bs -> (S (length bs) < fuel)%nat ->
  exists q h', krealloc fuel p n h = Some (q, h') /\
    ((q = 0 /\ h' = h) \/
     exists got bs' others, heap_wf h' bs' e /\ n <= got /\
       allocs (heap_first h) bs ≡ₚ (p, s) :: others /\
       allocs (heap_first h') bs' ≡ₚ (q, got) :: others /\
       (forall i, 0 <= i < s -> byte_at (payload h') (q + i) = byte_at (payload h) (p + i)) /\
       Forall (fun r => forall i, 0 <= i < r.2 ->
                byte_at (payload h') (r.1 + i) = byte_at (payload h) (r.1 + i)) others).
Proof.
  intros Hwf Hin Hsn Hn16 Hroomy Hfuel.
  destruct (alloc_header _ _ _ _ _ Hwf Hin) as (Hp0 & Hp64 & Hdb & Hsize & Hmag).
  pose proof (allocs_bounds _ _ _ _ _ _ (hw_chain _ _ _ Hwf) Hin) as (_ & Hs0 & Hpe).
  unfold krealloc. rewrite (proj2 (Z.eqb_neq n 0)), (proj2 (Z.eqb_neq p 0)) by (unfold sizeof_block in *; lia).
  rewrite Hmag, Z.eqb_refl, Hsize, (proj2 (Z.leb_gt n s)) by lia. cbn [negb].
  destruct (kmalloc_spec h bs e n fuel) as (q & h1 & Hrun & Hres); try done; [lia..|].
  exists q. rewrite Hrun. cbn [mbind option_bind].
  destruct Hres as [(-> & -> & _)|(got & bs1 & Hwf1 & Hf1 & Hpay & Hlen & Hgot & Hq1 & Hq2 & Hperm & Hap)].
  { exists h. split; [done|]. by left. }
  rewrite (proj2 (Z.eqb_neq q 0)) by (destruct Hwf; unfold sizeof_block in *; lia).
  assert (Hin1 : (p, s) ∈ allocs (heap_first h1) bs1) by (rewrite Hf1, Hperm; by right).
  destruct (alloc_header _ _ _ _ _ Hwf1 Hin1) as (_ & _ & _ & Hsize1 & _). rewrite Hsize1, Z.min_l by lia.
  set (h2 := set_payload _ h1).
  destruct (kfree_spec h2 bs1 e p s fuel) as (h' & bs' & Hfree & Hwf' & Hf' & Hperm' & _ & _ & Hpay' & _);
    [by apply heap_wf_set_payload|done|lia|].
  rewrite Hfree. cbn [mbind option_bind]. exists h'. split; [done|]. right.
  assert (Hq0 : 0 <= q) by (destruct Hwf; unfold sizeof_block in *; lia). assert (He : e < 2 ^ 64) by apply Hwf.
  rewrite Forall_forall in Hap. pose proof (Hap _ Hin) as Happ. unfold apart in Happ. cbn [fst snd] in Happ.
  assert (Hbytes : forall x, byte_at (payload h') x = if (q <=? x) && (x <? q + s)
    then byte_at (payload h) (p + (x - q)) else byte_at (payload h) x).
  { intros x. rewrite Hpay'. cbn [payload h2 set_payload]. rewrite Hpay.
    apply copy_bytes_spec; unfold apart; cbn [fst snd]; unfold sizeof_block in *; lia. }
  change (heap_first h2) with (heap_first h1) in *. rewrite Hf1 in *.
  apply elem_of_Permutation in Hin as [others Hoth]. exists got, bs', others.
  split; [done|]. split; [lia|]. split; [done|]. split.
  { rewrite Hf'. apply (Permutation_cons_inv (a := (p, s))). rewrite <- Hperm', Hperm, Hoth. apply perm_swap. }
  split.
  - intros i Hi. rewrite Hbytes. destruct (_ && _) eqn:E; [f_equal; lia|zbool; lia].
  - apply Forall_forall. intros [r t] Hr i Hi. cbn [fst snd] in *.
    assert (Hrin : (r, t) ∈ allocs (heap_first h) bs) by (rewrite Hoth; by right).
    pose proof (Hap _ Hrin) as Hrap. unfold apart in Hrap. cbn [fst snd] in Hrap.
    rewrite Hbytes. destruct (_ && _) eqn:E; [zbool; lia|done].
Qed.

(** The integrity check reports no corruption on a well-formed heap and
    ends within one more step than there are blocks. *)
Theorem kheap_validate_wf h bs e fuel :
  heap_wf h bs e -> (length bs < fuel)%nat -> kheap_validate fuel h = Some 0.
Proof.
  intros Hwf Hfuel. unfold kheap_validate.
  destruct (walk_blocks_chain h bs e fuel Hwf Hfuel) as (al & lf & ->). done.
Qed.

(** When the first free block that is large enough has exactly the
    rounded size, [kmalloc] overwrites the header of the block behind it,
    allocated or not, with a free header that is its own successor and whose
    size is 2^64 - 24; the integrity check then never returns. *)
Theorem kmalloc_exact_fit_corrupts h bs1 b c bs2 e n fuel :
  heap_wf h (bs1 ++ b :: c :: bs2) e -> 0 < n -> n + 16 <= 2 ^ 64 ->
  Forall (fun b => fits (align16 n) b = false) bs1 ->
  free_block b = true -> kb_size b = align16 n -> (length bs1 < fuel)%nat ->
  exists h' a', kmalloc fuel n h = Some (heap_first h + span bs1 + sizeof_block, h') /\
    a' = block_end (heap_first h + span bs1) b /\ hdrs h !! a' = Some c /\
    hdr h' a' = KBlock a' (2 ^ 64 - sizeof_block) KHEAP_FREE KHEAP_MAGIC /\
    forall k, kheap_validate k h' = None.
Proof.
  intros [Hfirst Hend Hch _ _] Hn Hn16 Hno Hfree Hsz Hfuel.
  destruct (align16_spec n Hn Hn16) as [Hal _]. unfold kmalloc.
  rewrite (proj2 (Z.eqb_neq n 0)) by lia. apply chain_app in Hch as [Hseg Hch].
  replace fuel with (length bs1 + S (fuel - length bs1 - 1))%nat by lia.
  rewrite kmalloc_walk_skip by done. pose proof (seg_pos _ _ _ Hfirst Hseg) as Hpos.
  set (a := heap_first h + span bs1) in *. apply chain_cons_cons in Hch as (Hl & Hok & Hnx & Hch).
  pose proof (chain_span _ _ _ _ Hch) as [Hes Hsp]. assert (0 <= kb_size b) by apply Hok.
  assert (Hbe : a < block_end a b < 2 ^ 64) by (unfold block_end, sizeof_block in *; lia).
  destruct (kmalloc_walk_exact h (fuel - length bs1 - 1) a b (align16 n))
    as (h' & Hrun & Hf' & Hh'); try done; [lia..|].
  exists h', (block_end a b). split; [done|]. split; [done|]. split; [apply Hch|].
  assert (Hloop : hdr h' (block_end a b) = loop_block (block_end a b)).
  { apply hdr_lookup. rewrite Hh', lookup_insert_ne by lia. apply lookup_insert_eq. }
  split; [done|]. intros k. unfold kheap_validate, walk_blocks.
  rewrite (walk_blocks_seg_stuck h' (bs1 ++ [with_flags KHEAP_ALLOCATED b])); try done.
  - by rewrite Hf'.
  - rewrite Hf', Hh'. apply seg_app. split.
    + apply seg_insert; [apply seg_insert; [done|]|]; lia.
    + fold a. split; [apply lookup_insert_eq|]. split; [|done]. split; [apply Hok|]. split; [by right|apply Hok].
  - intros f acc. rewrite Hf', span_app. unfold span at 2. cbn [foldr with_flags kb_size].
    replace (heap_first h + (span bs1 + (sizeof_block + kb_size b + 0))) with (block_end a b)
      by (unfold block_end, a; lia). apply walk_blocks_stuck; [lia|done].
Qed.

(** Two allocations of 16 bytes, the first one freed and its space requested
    again: the pointers returned by the four requests and the heap before the
    last one. *)
Definition reuse_run : option (Z * Z * Z * Z * kheap) :=
  '(p1, h1) ← kmalloc 9 16 (kheap_init 65536 4096 ∅);
  '(p2, h2) ← kmalloc 9 16 h1;
  h3 ← kfree 9 p1 h2;
  '(p3, h4) ← kmalloc 9 16 h3;
  '(p4, _) ← kmalloc 9 16 h4;
  Some (p1, p2, p3, p4, h4).

(** Reusing a freed block of the same size ends in a double allocation:
    the fourth request of [reuse_run] returns the second pointer, which was
    never freed, and freeing the third pointer instead never returns. *)
Theorem kmalloc_reuse_double_allocation :
  exists h4, reuse_run = Some (65560, 65600, 65560, 65600, h4) /\
    forall fuel, kfree fuel 65560 h4 = None.
Proof.
  eexists. split; [vm_compute; reflexivity|]. intros fuel. unfold kfree.
  match goal with |- context [merge_blocks fuel ?H] => set (h5 := H) end.
  replace (merge_blocks fuel h5) with (@None kheap); [reflexivity|].
  unfold merge_blocks. change (heap_first h5) with 65536. symmetry.
  apply (merge_loop_stuck 65536 65576 fuel h5); vm_compute; first [reflexivity|discriminate].
Qed.
End Correct.

(** ** Witnesses *)

Module Examples.
Abbreviation h0 := (kheap_init 65536 4096 ∅).
Abbreviation b0 := (KBlock 0 4072 KHEAP_FREE KHEAP_MAGIC).

Lemma h0_wf : heap_wf h0 [b0] 69632.
Proof. apply (kheap_init_wf 65536 4096 ∅); unfold sizeof_block; lia. Qed.

(** The heap after one allocation of 16 bytes. *)
Abbreviation h1 := (take_block 65536 16 b0 h0).
Lemma h1_wf : heap_wf h1 (carve 65536 16 b0) 69632.
Proof. apply (take_block_wf h0 [] b0 [] 69632 65536 16 h0_wf); reflexivity || done. Qed.

Lemma roomy_h1 n : 16 < n -> n <= 4008 - 24 -> roomy n (carve 65536 16 b0).
Proof.
  intros. unfold roomy, carve. cbn. repeat constructor; unfold fits; cbn; intros; unfold sizeof_block; [done|lia].
Qed.

Lemma kmalloc_correct_witness : exists p h', kmalloc 2 100 h0 = Some (p, h').
Proof.
  destruct (Correct.kmalloc_correct h0 [b0] 69632 100 2) as (p & h' & H & _);
    [apply h0_wf|lia|lia| |simpl; lia|by exists p, h'].
  repeat constructor. intros _. vm_compute. discriminate.
Defined.

Lemma kfree_correct_witness : exists h', kfree 2 65560 h1 = Some h' /\ bytes_used h' = bytes_used h1 - 16.
Proof.
  destruct (Correct.kfree_correct h1 (carve 65536 16 b0) 69632 65560 16 2)
    as (h' & bs' & H & _ & _ & _ & Hu & _); [apply h1_wf| |simpl; lia|by exists h'].
  left.
Defined.

Lemma krealloc_grow_correct_witness : exists q h', krealloc 4 65560 100 h1 = Some (q, h').
Proof.
  destruct (Correct.krealloc_grow_correct h1 (carve 65536 16 b0) 69632 65560 16 100 4)
    as (q & h' & H & _); [apply h1_wf| |lia|lia| |simpl; lia|by exists q, h'].
  - left.
  - apply roomy_h1; vm_compute; done.
Defined.

Lemma kheap_validate_wf_witness : kheap_validate 3 h1 = Some 0.
Proof. apply (Correct.kheap_validate_wf h1 (carve 65536 16 b0) 69632); [apply h1_wf|simpl; lia]. Defined.

Abbreviation fit_free := (KBlock 65576 16 KHEAP_FREE KHEAP_MAGIC).
Abbreviation fit_next := (KBlock 0 100 KHEAP_ALLOCATED KHEAP_MAGIC).
Abbreviation h_fit := (KHeap {[65536 := fit_free; 65576 := fit_next]} 65536 100 16 ∅).
Lemma h_fit_wf : heap_wf h_fit [fit_free; fit_next] 65700.
Proof. repeat split; try (by vm_compute); [by left|by right]. Qed.

Lemma kmalloc_exact_fit_corrupts_witness :
  exists h', kmalloc 1 16 h_fit = Some (65560, h') /\ forall k, kheap_validate k h' = None.
Proof.
  destruct (Correct.kmalloc_exact_fit_corrupts h_fit [] fit_free fit_next [] 65700 16 1)
    as (h' & a' & H & _ & _ & _ & Hv); [apply h_fit_wf|lia|lia|done..|simpl; lia|by exists h'].
Defined.
End Examples.
