(* ===== verification/PageTable.v ===== *)
(** * Four-level page tables in physical memory

    What paging.c and vm.c share: physical memory as 64-bit words, page-table
    entries, the walk of the four levels, and the invariant of the tables
    (every present entry leads to a table of the next level that no other
    entry leads to).  Both components build tables from pages they get from
    the physical allocator, whose promise to them is the class
    [PageAllocator]; [Pmm]'s bitmap allocator is its instance. *)

From S2P Require Import Prelude Pmm.

(** ** Memory and entries *)

Abbreviation phys_mem := (gmap Z Z).

(** [table[i]] for a table of [uint64_t] at physical address [t]. *)
Definition rd (m : phys_mem) (t i : Z) : Z := default 0 (m !! (t + 8 * i)).
Definition wr (m : phys_mem) (t i v : Z) : phys_mem := <[t + 8 * i := v]> m.

(** [for (i = 0; i < 512; i++) table[i] = 0;] *)
Definition clear_table (m : phys_mem) (t : Z) : phys_mem :=
  foldl (fun m i => wr m t i 0) m (seqZ 0 512).

(** The words of a page, and a page filled from a buffer. *)
Definition page_words (m : phys_mem) (a : Z) : list Z := (fun i => rd m a i) <$> seqZ 0 512.
Definition fill_page (m : phys_mem) (a : Z) (buf : list Z) : phys_mem :=
  foldl (fun m i => wr m a i (arr_get 0 buf i)) m (seqZ 0 512).

Definition PAGE_PRESENT : Z := 1.
Definition PAGE_WRITABLE : Z := 2.
Definition PAGE_USER : Z := 4.
Definition PAGE_HUGE : Z := 128.

(** [0x000FFFFFFFFFF000] *)
Definition ADDR_MASK : Z := Z.ones 40 .<< 12.
Definition pte_addr (e : Z) : Z := e .& ADDR_MASK.
Definition present (e : Z) : bool := negb (e .& PAGE_PRESENT =? 0).
Definition huge (e : Z) : bool := negb (e .& PAGE_HUGE =? 0).

(** The index of [v] into a table of level [n]: PML4 is level 4, PT level 1. *)
Definition idx (n : nat) (v : Z) : Z := (v .>> (12 + 9 * (Z.of_nat n - 1))) .& 511.

Definition is_page (a : Z) : Prop := 0 < a < 2 ^ 52 /\ a mod 4096 = 0.

(** ** The allocator interface *)

Class PageAllocator (A : Type) : Type := {
  pa_alloc : A -> Z * A;
  pa_inv : A -> Prop;
  pa_used : A -> Z -> Prop;
  pa_alloc_inv s : pa_inv s -> pa_inv (pa_alloc s).2;
  pa_alloc_keeps s a : pa_inv s -> pa_used s a -> pa_used (pa_alloc s).2 a;
  pa_alloc_fresh s : pa_inv s -> (pa_alloc s).1 <> 0 ->
    is_page (pa_alloc s).1 /\ ~ pa_used s (pa_alloc s).1 /\ pa_used (pa_alloc s).2 (pa_alloc s).1
}.

(** The bitmap allocator of memory.c keeps the promise, for a machine whose
    pages have addresses below 2^52. *)
Section pmm_instance.
Definition pmm_inv52 (s : pmm) : Prop := pmm_wf s /\ pmm_total_pages_count s <= 2 ^ 40.
Definition pmm_used (s : pmm) (a : Z) : Prop :=
  0 <= a /\ page_used (pmm_bitmap s) (a / PAGE_SIZE) = true.

Lemma pmm_alloc_inv52 s : pmm_inv52 s -> pmm_inv52 (pmm_alloc_page s).2.
Proof.
  intros [Hwf Ht]. destruct (pmm_alloc_page_cases s Hwf) as [(p & Hok & _)|[-> _]]; [|done].
  split; [by apply (alloc_ok_wf s p)|]. by destruct Hok as (_ & _ & _ & ->).
Qed.

Lemma pmm_alloc_keeps s a : pmm_inv52 s -> pmm_used s a -> pmm_used (pmm_alloc_page s).2 a.
Proof.
  intros [Hwf Ht] [Ha Hu]. destruct (pmm_alloc_page_cases s Hwf) as [(p & Hok & _)|[-> _]]; [|done].
  destruct Hok as (Hp & _ & _ & ->). split; [done|].
  rewrite mark_used_used; [|done..|apply Z.div_pos; unfold PAGE_SIZE; lia].
  by rewrite Hu, orb_true_r.
Qed.

Lemma pmm_alloc_fresh s : pmm_inv52 s -> (pmm_alloc_page s).1 <> 0 ->
  is_page (pmm_alloc_page s).1 /\ ~ pmm_used s (pmm_alloc_page s).1 /\
  pmm_used (pmm_alloc_page s).2 (pmm_alloc_page s).1.
Proof.
  intros [Hwf Ht] Hne. destruct (pmm_alloc_page_cases s Hwf) as [(p & Hok & Ha)|[E _]];
    [|by rewrite E in Hne].
  rewrite Ha in *. destruct Hok as (Hp & Hu & _ & ->). destruct (wf_page_addr s p Hwf Hp) as [_ Hdiv].
  split; [|split].
  - unfold is_page, PAGE_SIZE in *. split; [lia|]. apply Z.mod_mul. lia.
  - unfold pmm_used. rewrite Hdiv, Hu. by intros [_ ?].
  - unfold pmm_used. rewrite Hdiv. split; [unfold PAGE_SIZE; lia|].
    rewrite mark_used_used by (done || lia). by rewrite Z.eqb_refl.
Qed.

#[export] Instance pmm_page_allocator : PageAllocator pmm := {|
  pa_alloc := pmm_alloc_page; pa_inv := pmm_inv52; pa_used := pmm_used;
  pa_alloc_inv := pmm_alloc_inv52; pa_alloc_keeps := pmm_alloc_keeps;
  pa_alloc_fresh := pmm_alloc_fresh
|}.
End pmm_instance.

(** ** Words of tables *)

Section words.
Implicit Types (m : phys_mem) (t i e : Z).

Lemma word_inj t i t' i' :
  is_page t -> is_page t' -> 0 <= i < 512 -> 0 <= i' < 512 ->
  t + 8 * i = t' + 8 * i' -> t = t' /\ i = i'.
Proof.
  intros [_ Ht] [_ Ht'] Hi Hi' H. pose proof (Z.div_mod t 4096) as E1.
  pose proof (Z.div_mod t' 4096) as E2. lia.
Qed.

Lemma rd_wr_eq m t i e : rd (wr m t i e) t i = e.
Proof. unfold rd, wr. by rewrite lookup_insert_eq. Qed.

Lemma rd_wr_ne m t i e t' i' :
  is_page t -> is_page t' -> 0 <= i < 512 -> 0 <= i' < 512 -> t <> t' \/ i <> i' ->
  rd (wr m t i e) t' i' = rd m t' i'.
Proof.
  intros Ht Ht' Hi Hi' Hne. unfold rd, wr. rewrite lookup_insert_ne; [done|].
  intros H. destruct (word_inj t i t' i'); try done. tauto.
Qed.

Lemma rd_fill_page m a buf t i :
  is_page a -> is_page t -> 0 <= i < 512 ->
  rd (fill_page m a buf) t i = if a =? t then arr_get 0 buf i else rd m t i.
Proof.
  intros Ha Ht Hi. unfold fill_page.
  assert (Hgen : forall l m, (forall j, j ∈ l -> 0 <= j < 512) ->
    rd (foldl (fun m i => wr m a i (arr_get 0 buf i)) m l) t i =
    if (a =? t) && bool_decide (i ∈ l) then arr_get 0 buf i else rd m t i).
  { induction l as [|j l IH]; intros m' Hl; cbn [foldl].
    - rewrite andb_comm. by rewrite bool_decide_false by apply not_elem_of_nil.
    - rewrite IH by (intros j' Hj'; apply Hl; by right).
      assert (0 <= j < 512) by (apply Hl; left). destruct (Z.eqb_spec a t) as [<-|Hne]; cbn [andb].
      + destruct (decide (j = i)) as [<-|Hne].
        * rewrite rd_wr_eq. rewrite (bool_decide_true (j ∈ j :: l)) by left. by destruct (bool_decide _).
        * rewrite rd_wr_ne by tauto. rewrite (bool_decide_ext (i ∈ j :: l) (i ∈ l)); [done|].
          rewrite elem_of_cons. split; [intros [?|?]; [congruence|done]|by right].
      + apply rd_wr_ne; tauto. }
  rewrite Hgen by (intros j Hj; apply elem_of_seqZ in Hj; lia).
  rewrite bool_decide_true by (apply elem_of_seqZ; lia). by rewrite andb_true_r.
Qed.

Lemma rd_clear m t t' i' :
  is_page t -> is_page t' -> 0 <= i' < 512 ->
  rd (clear_table m t) t' i' = if t =? t' then 0 else rd m t' i'.
Proof. apply (rd_fill_page m t []). Qed.

Lemma idx_bounds n v : 0 <= idx n v < 512.
Proof.
  unfold idx. change 511 with (Z.ones 9). rewrite Z.land_ones by lia. apply Z.mod_pos_bound. lia.
Qed.

Lemma present_bit e : present e = Z.testbit e 0.
Proof. unfold present. change PAGE_PRESENT with (1 .<< 0). rewrite land_single_eqb by lia. apply negb_involutive. Qed.

Lemma huge_bit e : huge e = Z.testbit e 7.
Proof. unfold huge. change PAGE_HUGE with (1 .<< 7). rewrite land_single_eqb by lia. apply negb_involutive. Qed.

Definition is_frame (a : Z) : Prop := 0 <= a < 2 ^ 52 /\ a mod 4096 = 0.

Lemma page_frame a : is_page a -> is_frame a.
Proof. intros [? ?]. split; [lia|done]. Qed.

Lemma mask_frame a : is_frame a -> a .& ADDR_MASK = a.
Proof.
  intros [Ha Hm]. pose proof (Z.div_mod a 4096) as E.
  assert (Hq : a = (a / 4096) .<< 12) by (rewrite Z.shiftl_mul_pow2 by lia; change (2 ^ 12) with 4096; lia).
  rewrite Hq. unfold ADDR_MASK. rewrite <- Z.shiftl_land, Z.land_ones by lia.
  rewrite Z.mod_small by lia. done.
Qed.

Lemma frame_bit_low a i : is_frame a -> 0 <= i < 12 -> Z.testbit a i = false.
Proof.
  intros [Ha Hm] Hi. pose proof (Z.div_mod a 4096) as E.
  replace a with ((a / 4096) .<< 12) by (rewrite Z.shiftl_mul_pow2 by lia; change (2 ^ 12) with 4096; lia).
  apply Z.shiftl_spec_low. lia.
Qed.

(** An entry made of a page address and flag bits outside the address field. *)
Lemma pte_addr_make a f : is_frame a -> f .& ADDR_MASK = 0 -> pte_addr (a .| f) = a.
Proof. intros Ha Hf. unfold pte_addr. by rewrite Z.land_lor_distr_l, mask_frame, Hf, Z.lor_0_r. Qed.

Lemma low_flags_mask f : 0 <= f < 4096 -> f .& ADDR_MASK = 0.
Proof.
  intros Hf. apply Z.bits_inj'. intros i Hi. rewrite Z.land_spec, Z.bits_0. unfold ADDR_MASK.
  destruct (Z.ltb_spec i 12).
  - by rewrite Z.shiftl_spec_low, andb_false_r by lia.
  - replace f with (f mod 2 ^ 12) by (apply Z.mod_small; lia).
    by rewrite Z.mod_pow2_bits_high by lia.
Qed.
End words.

(** ** The walk and the table invariant *)

(** The entry that a walk for [v] from the table [t] of level [n] ends at: its
    table, index and level (2 for a huge page); [None] when an entry on the
    way is not present. *)
Fixpoint walk (n : nat) (m : phys_mem) (t v : Z) : option (Z * Z * nat) :=
  match n with
  | O => None
  | S n' =>
      let i := idx n v in
      match n' with
      | O => Some (t, i, n)
      | S n'' =>
          let e := rd m t i in
          if bool_decide (n'' = 0%nat) && huge e then Some (t, i, n)
          else if present e then walk n' m (pte_addr e) v else None
      end
  end.

Section tables.
(** PML4 entries below [hi] are tracked: all 512 for the kernel's own tables,
    256 for the user half of an address space. *)
Context (hi : Z).
Implicit Types (m : phys_mem) (lvl : gmap Z nat) (t i e v : Z).

Definition tracked lvl t (k : nat) i : Prop :=
  lvl !! t = Some k /\ 0 <= i < 512 /\ (k = 4%nat -> i < hi).

(** A tracked entry that leads to a table. *)
Definition links m lvl t k i : Prop :=
  tracked lvl t k i /\ (2 <= k)%nat /\ present (rd m t i) = true /\
  ~ (k = 2%nat /\ huge (rd m t i) = true).

Record pt_inv m lvl : Prop := {
  pi_page t k : lvl !! t = Some k -> is_page t /\ (1 <= k <= 4)%nat;
  pi_child t k i : links m lvl t k i -> lvl !! pte_addr (rd m t i) = Some (pred k);
  pi_huge t i : tracked lvl t 2 i -> huge (rd m t i) = true -> present (rd m t i) = true;
  pi_inj t k i t' k' i' : links m lvl t k i -> links m lvl t' k' i' ->
    pte_addr (rd m t i) = pte_addr (rd m t' i') -> t = t' /\ i = i'
}.

(** Hang a cleared table [r] under the non-present entry [(t, i)]. *)
Definition link m t i r e : phys_mem := wr (clear_table m r) t i e.

Context (m : phys_mem) (lvl : gmap Z nat) (Hinv : pt_inv m lvl).

Lemma tracked_user n v t : lvl !! t = Some n -> (n = 4%nat -> idx 4 v < hi) -> tracked lvl t n (idx n v).
Proof. intros Ht Hv. split; [done|]. split; [apply idx_bounds|]. intros ->. by apply Hv. Qed.

Section link.
Context (t i r e : Z) (k : nat).
Hypothesis (Htr : tracked lvl t k i) (Hk : (2 <= k)%nat) (Hnp : present (rd m t i) = false)
  (Hr : is_page r) (Hfresh : lvl !! r = None)
  (He : present e = true) (Hnh : huge e = false) (Hea : pte_addr e = r).

Lemma link_page : is_page t.
Proof. apply (pi_page _ _ Hinv t k). apply Htr. Qed.

Lemma link_ne : r <> t.
Proof. intros ->. destruct Htr as [H _]. congruence. Qed.

Lemma rd_link_old t' k' i' :
  lvl !! t' = Some k' -> 0 <= i' < 512 ->
  rd (link m t i r e) t' i' = if bool_decide (t = t' /\ i = i') then e else rd m t' i'.
Proof.
  intros Ht' Hi'. destruct (pi_page _ _ Hinv _ _ Ht') as [Hp' _]. pose proof link_page as Hp.
  destruct Htr as (_ & Hi & _). unfold link. case_bool_decide as E.
  - destruct E as [<- <-]. apply rd_wr_eq.
  - rewrite rd_wr_ne by (try done; destruct (decide (t = t')); subst; tauto).
    rewrite rd_clear by done. destruct (Z.eqb_spec r t'); [congruence|done].
Qed.

Lemma rd_link_new i' : 0 <= i' < 512 -> rd (link m t i r e) r i' = 0.
Proof.
  intros Hi'. pose proof link_page. pose proof link_ne. destruct Htr as (_ & Hi & _).
  unfold link. rewrite rd_wr_ne by (try done; left; congruence).
  rewrite rd_clear, Z.eqb_refl by done. done.
Qed.

Lemma rd_link_at : rd (link m t i r e) t i = e.
Proof. apply rd_wr_eq. Qed.

(** A linked entry of the new tables is the new one or an old one. *)
Lemma links_link t' k' i' :
  links (link m t i r e) (<[r := pred k]> lvl) t' k' i' ->
  (t' = t /\ i' = i /\ k' = k /\ rd (link m t i r e) t' i' = e) \/
  (links m lvl t' k' i' /\ rd (link m t i r e) t' i' = rd m t' i').
Proof.
  intros ((Hl & Hi' & Hhi) & Hk' & Hpr & Hhu). destruct (decide (t' = r)) as [->|Hne].
  - rewrite rd_link_new in Hpr by done. done.
  - rewrite lookup_insert_ne in Hl by done. rewrite (rd_link_old t' k' i') in Hpr, Hhu |- * by done.
    case_bool_decide as E.
    + destruct E as [-> ->]. left. destruct Htr as [Hl' _]. split; [done|]. split; [done|].
      split; [congruence|done].
    + right. done.
Qed.

Lemma link_inv : pt_inv (link m t i r e) (<[r := pred k]> lvl).
Proof.
  assert (Hk4 : (k <= 4)%nat) by (apply (pi_page _ _ Hinv t k), Htr). split.
  - intros t' k'. destruct (decide (r = t')) as [<-|Hne].
    + rewrite lookup_insert_eq. intros [= <-]. split; [done|lia].
    + rewrite lookup_insert_ne by done. apply (pi_page _ _ Hinv).
  - intros t' k' i' Hl. destruct (links_link t' k' i' Hl) as [(-> & -> & -> & ->)|[Hold ->]].
    + rewrite Hea. apply lookup_insert_eq.
    + pose proof (pi_child _ _ Hinv _ _ _ Hold) as Hc.
      rewrite lookup_insert_ne; [done|]. congruence.
  - intros t' i' (Hl & Hi' & Hhi). destruct (decide (r = t')) as [<-|Hne].
    + rewrite rd_link_new by done. done.
    + rewrite lookup_insert_ne in Hl by done. rewrite (rd_link_old t' 2 i') by done.
      case_bool_decide; [congruence|]. by apply (pi_huge _ _ Hinv).
  - intros t' k' i' t'' k'' i'' H1 H2.
    destruct (links_link _ _ _ H1) as [(-> & -> & -> & ->)|[O1 ->]],
      (links_link _ _ _ H2) as [(-> & -> & -> & ->)|[O2 ->]]; intros Heq.
    + done.
    + rewrite Hea in Heq. pose proof (pi_child _ _ Hinv _ _ _ O2). congruence.
    + rewrite Hea in Heq. pose proof (pi_child _ _ Hinv _ _ _ O1). congruence.
    + by apply (pi_inj _ _ Hinv _ _ _ _ _ _ O1 O2).
Qed.

(** Walks that ended before end at the same entry; walks that did not may now
    end at an entry that is 0. *)
Lemma walk_link n t' v :
  lvl !! t' = Some n -> (n = 4%nat -> idx 4 v < hi) ->
  walk n (link m t i r e) t' v = walk n m t' v \/
  (walk n m t' v = None /\
   forall t1 i1 n1, walk n (link m t i r e) t' v = Some (t1, i1, n1) ->
     n1 = 1%nat /\ rd (link m t i r e) t1 i1 = 0).
Proof.
  revert t'. induction n as [|n IH]; intros t' Ht' Hv; [by left|].
  pose proof (tracked_user _ _ _ Ht' Hv) as Htr'.
  destruct n as [|n]; [by left|]. cbn [walk]. rewrite (rd_link_old t' (S (S n))) by (done || apply idx_bounds).
  destruct (bool_decide (t = t' /\ i = idx (S (S n)) v)) eqn:E.
  - apply bool_decide_eq_true in E as [<- Hi]. right. pose proof Htr as [Htk Htr2].
    assert (Hkn : k = S (S n)) by congruence. rewrite <- Hi, Hnp, Hnh, He, andb_false_r, Hea.
    assert (Hh : bool_decide (n = 0%nat) && huge (rd m t i) = false).
    { destruct n as [|n]; [|done]. destruct (huge (rd m t i)) eqn:Eh; [|apply andb_false_r].
      assert (present (rd m t i) = true) by (apply (pi_huge _ _ Hinv t i); [by rewrite <- Hkn in *|done]). congruence. }
    rewrite Hh. split; [done|]. intros t1 i1 n1. destruct n as [|n]; cbn [walk].
    + intros [= <- <- <-]. split; [done|]. apply rd_link_new, idx_bounds.
    + rewrite rd_link_new by apply idx_bounds. by rewrite andb_false_r.
  - destruct (bool_decide (n = 0%nat) && huge (rd m t' (idx (S (S n)) v))) eqn:Eh; [by left|].
    destruct (present (rd m t' (idx (S (S n)) v))) eqn:Ep; [|by left].
    apply IH; [|intros Hn; exfalso; destruct (pi_page _ _ Hinv _ _ Ht'); lia].
    apply (pi_child _ _ Hinv _ (S (S n))).
    split; [done|]. split; [lia|]. split; [done|]. intros [Hn2 Hhu]. rewrite Hhu, bool_decide_true in Eh by lia. done.
Qed.
End link.

(** The entry a walk ends at lies in a tracked table of that level. *)
Lemma walk_end n t v t1 i1 k :
  lvl !! t = Some n -> (n = 4%nat -> idx 4 v < hi) -> walk n m t v = Some (t1, i1, k) ->
  lvl !! t1 = Some k /\ i1 = idx k v /\ (k <= n)%nat /\ (k = 1%nat \/ k = 2%nat /\ huge (rd m t1 i1) = true).
Proof.
  revert t. induction n as [|n IH]; intros t Ht Hv; [done|]. cbn [walk]. destruct n as [|n].
  - intros [= <- <- <-]. split; [done|]. split; [done|]. split; [lia|]. by left.
  - destruct (bool_decide (n = 0%nat) && huge _) eqn:Eh.
    + intros [= <- <- <-]. apply andb_true_iff in Eh as [E1 E2]. apply bool_decide_eq_true in E1. subst.
      split; [done|]. split; [done|]. split; [lia|]. by right.
    + destruct (present _) eqn:Ep; [|done]. intros Hw. destruct (pi_page _ _ Hinv _ _ Ht) as [_ Hn4].
      apply IH in Hw as (H1 & H2 & H3 & H4); [|  |lia].
      { split; [done|]. split; [done|]. split; [lia|done]. }
      apply (pi_child _ _ Hinv _ (S (S n))). split; [by apply tracked_user|]. split; [lia|].
      split; [done|]. intros [Hn2 Hhu]. by rewrite Hhu, bool_decide_true in Eh by lia.
Qed.

(** One step of a walk that goes on below level [n]. *)
Lemma walk_step n t v t1 i1 k :
  lvl !! t = Some (S n) -> (S n = 4%nat -> idx 4 v < hi) -> walk (S n) m t v = Some (t1, i1, k) ->
  k = S n /\ t1 = t \/
  (k <= n)%nat /\ links m lvl t (S n) (idx (S n) v) /\
  walk n m (pte_addr (rd m t (idx (S n) v))) v = Some (t1, i1, k).
Proof.
  intros Ht Hv Hw. cbn [walk] in Hw. destruct n as [|n]; [naive_solver|].
  destruct (bool_decide (n = 0%nat) && huge _) eqn:Eh; [naive_solver|].
  destruct (present _) eqn:Ep; [|done]. right. destruct (pi_page _ _ Hinv _ _ Ht) as [_ Hn4].
  assert (Hl : links m lvl t (S (S n)) (idx (S (S n)) v)).
  { split; [by apply tracked_user|]. split; [lia|]. split; [done|].
    intros [Hn2 Hhu]. by rewrite Hhu, bool_decide_true in Eh by lia. }
  pose proof (pi_child _ _ Hinv _ _ _ Hl) as Hc.
  apply walk_end in Hw as Hwe; [|done|lia]. destruct Hwe as (_ & _ & Hle & _). done.
Qed.

(** Two walks that end in the same table started in the same table and
    followed the same indices. *)
Lemma walk_inj n t v t' v' t1 i1 i1' k :
  lvl !! t = Some n -> lvl !! t' = Some n ->
  (n = 4%nat -> idx 4 v < hi) -> (n = 4%nat -> idx 4 v' < hi) ->
  walk n m t v = Some (t1, i1, k) -> walk n m t' v' = Some (t1, i1', k) ->
  t = t' /\ forall j, (k < j <= n)%nat -> idx j v = idx j v'.
Proof.
  revert t t'. induction n as [|n IH]; intros t t' Ht Ht' Hv Hv' Hw Hw'; [done|].
  destruct (pi_page _ _ Hinv _ _ Ht) as [_ Hn4].
  destruct (walk_step _ _ _ _ _ _ Ht Hv Hw) as [[-> ->]|(Hk & Hl & Hw1)],
    (walk_step _ _ _ _ _ _ Ht' Hv' Hw') as [[E E']|(Hk' & Hl' & Hw1')]; try lia.
  - split; [done|lia].
  - apply (IH _ _ (pi_child _ _ Hinv _ _ _ Hl) (pi_child _ _ Hinv _ _ _ Hl')) in Hw1 as [Heq Hidx];
      [|lia..|done].
    destruct (pi_inj _ _ Hinv _ _ _ _ _ _ Hl Hl' Heq) as [-> Hi]. split; [done|].
    intros j Hj. destruct (decide (j = S n)) as [->|]; [done|]. apply Hidx. lia.
Qed.

Lemma walk_links n t v :
  (1 <= n)%nat -> links m lvl t (S n) (idx (S n) v) ->
  walk (S n) m t v = walk n m (pte_addr (rd m t (idx (S n) v))) v.
Proof.
  intros Hn (_ & _ & Hp & Hh). cbn [walk]. destruct n as [|n]; [lia|].
  destruct (bool_decide (n = 0%nat) && huge _) eqn:E.
  - apply andb_true_iff in E as [E1 E2]. apply bool_decide_eq_true in E1. subst. tauto.
  - by rewrite Hp.
Qed.

(** *** Writing entries that lead to no table *)

Lemma leaf_write_rd t k i e t' k' i' :
  tracked lvl t k i -> lvl !! t' = Some k' -> 0 <= i' < 512 ->
  rd (wr m t i e) t' i' = if bool_decide (t = t' /\ i = i') then e else rd m t' i'.
Proof.
  intros (Ht & Hi & _) Ht' Hi'. destruct (pi_page _ _ Hinv _ _ Ht), (pi_page _ _ Hinv _ _ Ht').
  case_bool_decide as E; [destruct E as [<- <-]; apply rd_wr_eq|].
  apply rd_wr_ne; try done. destruct (decide (t = t')); subst; tauto.
Qed.

(** An entry of a page table proper, or a huge entry of a page directory. *)
Definition leaf_entry (k : nat) e : Prop :=
  k = 1%nat \/ k = 2%nat /\ huge e = true /\ present e = true.

Lemma leaf_write_links t k i e t' k' i' :
  tracked lvl t k i -> leaf_entry k e ->
  links (wr m t i e) lvl t' k' i' -> links m lvl t' k' i' /\ rd (wr m t i e) t' i' = rd m t' i'.
Proof.
  intros Htr Hle ((Ht' & Hi' & Hhi) & Hk' & Hp & Hh).
  rewrite (leaf_write_rd t k i e t' k' i') in Hp, Hh |- * by done. case_bool_decide as E; [|done].
  destruct E as [<- <-]. exfalso. assert (k' = k) as -> by (destruct Htr; congruence).
  destruct Hle as [->|(-> & Hhu & _)]; [lia|tauto].
Qed.

Lemma leaf_write_inv t k i e : tracked lvl t k i -> leaf_entry k e -> pt_inv (wr m t i e) lvl.
Proof.
  intros Htr Hle. split.
  - apply (pi_page _ _ Hinv).
  - intros t' k' i' Hl. destruct (leaf_write_links _ _ _ _ _ _ _ Htr Hle Hl) as [Hl' ->].
    by apply (pi_child _ _ Hinv).
  - intros t' i' Htr' Hh. rewrite (leaf_write_rd t k i e t' 2 i') in Hh |- * by (done || apply Htr').
    case_bool_decide as E; [|by apply (pi_huge _ _ Hinv)]. destruct E as [<- <-].
    destruct Hle as [->|(-> & _ & ?)]; [|done]. destruct Htr, Htr'; congruence.
  - intros t' k' i' t'' k'' i'' H1 H2.
    destruct (leaf_write_links _ _ _ _ _ _ _ Htr Hle H1) as [H1' ->].
    destruct (leaf_write_links _ _ _ _ _ _ _ Htr Hle H2) as [H2' ->].
    by apply (pi_inj _ _ Hinv _ _ _ _ _ _ H1' H2').
Qed.

(** Writing a page-table entry leaves every walk as it was. *)
Lemma walk_leaf_write t i e n t' v :
  tracked lvl t 1 i -> lvl !! t' = Some n -> (n = 4%nat -> idx 4 v < hi) ->
  walk n (wr m t i e) t' v = walk n m t' v.
Proof.
  intros Htr. revert t'. induction n as [|n IH]; intros t' Ht' Hv; [done|]. cbn [walk].
  destruct n as [|n]; [done|]. destruct (pi_page _ _ Hinv _ _ Ht') as [_ Hn4].
  rewrite (leaf_write_rd t 1 i e t' (S (S n))) by (done || apply idx_bounds).
  rewrite (bool_decide_false (t = t' /\ i = _)) by (intros [-> _]; destruct Htr; congruence).
  destruct (bool_decide (n = 0%nat) && huge _) eqn:Eh; [done|].
  destruct (present _) eqn:Ep; [|done]. apply IH; [|lia]. apply (pi_child _ _ Hinv _ (S (S n))).
  split; [by apply tracked_user|]. split; [lia|]. split; [done|].
  intros [Hn2 Hhu]. by rewrite Hhu, bool_decide_true in Eh by lia.
Qed.

(** Writing a huge entry changes exactly the walks that pass through it. *)
Lemma walk_huge_write t i e n t' v :
  tracked lvl t 2 i -> huge e = true -> present e = true ->
  lvl !! t' = Some n -> (n = 4%nat -> idx 4 v < hi) -> (2 <= n)%nat ->
  walk n (wr m t i e) t' v = walk n m t' v \/ walk n (wr m t i e) t' v = Some (t, i, 2%nat).
Proof.
  intros Htr Hh Hp. revert t'. induction n as [|n IH]; intros t' Ht' Hv Hn2; [lia|]. cbn [walk].
  destruct n as [|n]; [lia|]. destruct (pi_page _ _ Hinv _ _ Ht') as [_ Hn4].
  rewrite (leaf_write_rd t 2 i e t' (S (S n))) by (done || apply idx_bounds).
  destruct (bool_decide (t = t' /\ i = idx (S (S n)) v)) eqn:E.
  - apply bool_decide_eq_true in E as [<- <-]. destruct Htr as [Htk _].
    assert (n = 0%nat) as -> by (rewrite Ht' in Htk; injection Htk; lia). right.
    by rewrite bool_decide_true, Hh by done.
  - destruct (bool_decide (n = 0%nat) && huge (rd m t' (idx (S (S n)) v))) eqn:Eh; [by left|].
    destruct (present (rd m t' (idx (S (S n)) v))) eqn:Ep; [|by left].
    destruct n as [|n]; [by left|]. apply IH; [|lia..].
    apply (pi_child _ _ Hinv _ (S (S (S n)))). split; [by apply tracked_user|]. split; [lia|].
    split; [done|]. intros [? _]. lia.
Qed.
End tables.

(** ** Virtual page numbers *)

(** The bits of a virtual address that index the tables of level [lo] up: the
    4 KiB page number for level 1, the 2 MiB page number for level 2. *)
Definition page_from (lo : nat) (v : Z) : Z :=
  (v .>> (12 + 9 * (Z.of_nat lo - 1))) .& Z.ones (9 * (5 - Z.of_nat lo)).
Definition vpn (v : Z) : Z := page_from 1 v.
Definition huge_vpn (v : Z) : Z := page_from 2 v.

Lemma testbit_idx n v b : (1 <= n)%nat -> 0 <= b ->
  Z.testbit (idx n v) b = (b <? 9) && Z.testbit v (12 + 9 * (Z.of_nat n - 1) + b).
Proof.
  intros Hn Hb. unfold idx. change 511 with (Z.ones 9). rewrite Z.land_spec, Z.shiftr_spec by lia.
  rewrite Z.add_comm. destruct (Z.ltb_spec b 9).
  - rewrite Z.ones_spec_low by lia. apply andb_true_r.
  - rewrite Z.ones_spec_high by lia. apply andb_false_r.
Qed.

Lemma testbit_page_from lo v b : (1 <= lo <= 4)%nat -> 0 <= b ->
  Z.testbit (page_from lo v) b =
    (b <? 9 * (5 - Z.of_nat lo)) && Z.testbit v (12 + 9 * (Z.of_nat lo - 1) + b).
Proof.
  intros Hlo Hb. unfold page_from. rewrite Z.land_spec, Z.shiftr_spec, (Z.add_comm b) by lia.
  destruct (Z.ltb_spec b (9 * (5 - Z.of_nat lo))).
  - rewrite Z.ones_spec_low by lia. apply andb_true_r.
  - rewrite Z.ones_spec_high by lia. apply andb_false_r.
Qed.

Lemma idx_page_from lo v v' : (1 <= lo <= 4)%nat ->
  (forall j, (lo <= j <= 4)%nat -> idx j v = idx j v') <-> page_from lo v = page_from lo v'.
Proof.
  intros Hlo. split.
  - intros H. apply Z.bits_inj'. intros b Hb. rewrite !testbit_page_from by done.
    destruct (Z.ltb_spec b (9 * (5 - Z.of_nat lo))) as [Hlt|]; [|done]. cbn [andb].
    pose proof (Z.div_mod b 9) as Hd. pose proof (Z.mod_pos_bound b 9) as Hm.
    assert (Hq : 0 <= b / 9 < 5 - Z.of_nat lo)
      by (split; [apply Z.div_pos|apply Z.div_lt_upper_bound]; lia).
    specialize (H (lo + Z.to_nat (b / 9))%nat ltac:(lia)).
    apply (f_equal (fun z => Z.testbit z (b mod 9))) in H. rewrite !testbit_idx in H by lia.
    rewrite (proj2 (Z.ltb_lt (b mod 9) 9)) in H by lia. cbn [andb] in H.
    replace (12 + 9 * (Z.of_nat (lo + Z.to_nat (b / 9)) - 1) + b mod 9)
      with (12 + 9 * (Z.of_nat lo - 1) + b) in H by lia. done.
  - intros H j Hj. apply Z.bits_inj'. intros b Hb. rewrite !testbit_idx by lia.
    destruct (Z.ltb_spec b 9) as [Hlt|]; [|done]. cbn [andb].
    apply (f_equal (fun z => Z.testbit z (9 * (Z.of_nat j - Z.of_nat lo) + b))) in H.
    rewrite !testbit_page_from in H by lia.
    rewrite (proj2 (Z.ltb_lt (9 * (Z.of_nat j - Z.of_nat lo) + b) _)) in H by lia. cbn [andb] in H.
    replace (12 + 9 * (Z.of_nat lo - 1) + (9 * (Z.of_nat j - Z.of_nat lo) + b))
      with (12 + 9 * (Z.of_nat j - 1) + b) in H by lia. done.
Qed.

Lemma idx_vpn v v' : (forall j, (1 <= j <= 4)%nat -> idx j v = idx j v') <-> vpn v = vpn v'.
Proof. apply idx_page_from. lia. Qed.
Lemma idx_huge_vpn v v' : (forall j, (2 <= j <= 4)%nat -> idx j v = idx j v') <-> huge_vpn v = huge_vpn v'.
Proof. apply idx_page_from. lia. Qed.

(** [0xFFFFFFFFFFFFF000] *)
Definition PAGE_MASK : Z := u64 (Z.lnot (2 ^ 12 - 1)).

Lemma page_mask_idx v n : is_u64 v -> (1 <= n <= 4)%nat -> idx n (v .& PAGE_MASK) = idx n v.
Proof.
  intros Hv Hn. apply Z.bits_inj'. intros b Hb. rewrite !testbit_idx by lia.
  destruct (Z.ltb_spec b 9); [|done]. cbn [andb]. unfold PAGE_MASK.
  rewrite Z.land_spec, testbit_u64, Z.lnot_spec by lia.
  change (2 ^ 12 - 1) with (Z.ones 12). rewrite Z.ones_spec_high by lia.
  rewrite (proj2 (Z.ltb_lt _ 64)) by lia. apply andb_true_r.
Qed.

(** ** Writes outside the tables *)

(** Memory that agrees on every table has the same tables and walks. *)
Section frame.
Context (hi : Z) (m m' : phys_mem) (lvl : gmap Z nat).
Hypothesis (Hrd : forall t k i, lvl !! t = Some k -> 0 <= i < 512 -> rd m' t i = rd m t i).

Lemma frame_links t k i : links hi m' lvl t k i <-> links hi m lvl t k i.
Proof.
  unfold links, tracked. split; intros ((H1 & H2 & H3) & H4 & H5).
  - by rewrite (Hrd t k i) in H5 by done.
  - by rewrite (Hrd t k i) by done.
Qed.

Lemma frame_pt_inv : pt_inv hi m lvl -> pt_inv hi m' lvl.
Proof.
  intros [P C G J]. split; [done| | |].
  - intros t k i Hl%frame_links. pose proof Hl as ((H1 & H2 & _) & _).
    rewrite (Hrd t k i) by done. by apply C.
  - intros t i (H1 & H2 & H3). rewrite (Hrd t 2 i) by done. by apply G.
  - intros t k i t' k' i' Hl%frame_links Hl'%frame_links.
    pose proof Hl as ((H1 & H2 & _) & _). pose proof Hl' as ((H1' & H2' & _) & _).
    rewrite (Hrd t k i), (Hrd t' k' i') by done. by apply J with k k'.
Qed.

Lemma frame_walk n t v :
  pt_inv hi m lvl -> lvl !! t = Some n -> (n = 4%nat -> idx 4 v < hi) ->
  walk n m' t v = walk n m t v.
Proof.
  intros Hinv. revert t. induction n as [|n IH]; intros t Ht Hv; [done|]. cbn [walk].
  destruct n as [|n]; [done|]. rewrite (Hrd t (S (S n))) by (done || apply idx_bounds).
  destruct (bool_decide (n = 0%nat) && huge _) eqn:Eh; [done|].
  destruct (present _) eqn:Ep; [|done]. destruct (pi_page _ _ _ Hinv _ _ Ht) as [_ Hn4].
  apply IH; [|lia]. apply (pi_child _ _ _ Hinv _ (S (S n))). split; [by apply tracked_user|].
  split; [lia|]. split; [done|]. intros [Hn2 Hhu]. by rewrite Hhu, bool_decide_true in Eh by lia.
Qed.
End frame.
