(* ===== verification/Paging.v ===== *)
(** * Kernel paging (src/src/memory/paging.c)

    The kernel's page tables over the physical memory and the allocator
    interface of [PageTable].  The TLB is not modelled: [invlpg] and
    [load_cr3] have no counterpart, and the CPU state that [paging_init]
    reads (CR4.PAE and CR3) is an argument. *)

From S2P Require Import Prelude Pmm PageTable.

Record paging (A : Type) : Type := Paging {
  pg_mem : phys_mem;
  pml4 : Z;
  pg_alloc : A
}.
Arguments Paging {A} _ _ _.
Arguments pg_mem {A} _.
Arguments pml4 {A} _.
Arguments pg_alloc {A} _.

Section ops.
Context {A : Type} `{PageAllocator A}.
Implicit Types (s : paging A) (vaddr paddr flags : Z).

Definition set_mem m s : paging A := Paging m (pml4 s) (pg_alloc s).
Definition set_alloc a s : paging A := Paging (pg_mem s) (pml4 s) a.

Definition get_or_create_table (parent index flags : Z) s : Z * paging A :=
  let e := rd (pg_mem s) parent index in
  if present e then (pte_addr e, s)
  else
    let '(page, a) := pa_alloc (pg_alloc s) in
    let s := set_alloc a s in
    if page =? 0 then (0, s)
    else
      let m := clear_table (pg_mem s) page in
      (page, set_mem (wr m parent index (page .| flags .| PAGE_PRESENT .| PAGE_WRITABLE)) s).

Definition paging_map vaddr paddr flags s : paging A :=
  let vaddr := vaddr .& PAGE_MASK in
  let paddr := paddr .& PAGE_MASK in
  let '(pdpt, s) := get_or_create_table (pml4 s) (idx 4 vaddr) flags s in
  if pdpt =? 0 then s else
  let '(pd, s) := get_or_create_table pdpt (idx 3 vaddr) flags s in
  if pd =? 0 then s else
  let '(pt, s) := get_or_create_table pd (idx 2 vaddr) flags s in
  if pt =? 0 then s else
  set_mem (wr (pg_mem s) pt (idx 1 vaddr) (paddr .| flags .| PAGE_PRESENT)) s.

Definition paging_map_huge vaddr paddr flags s : paging A :=
  let vaddr := vaddr .& PAGE_MASK in
  let paddr := paddr .& PAGE_MASK in
  let '(pdpt, s) := get_or_create_table (pml4 s) (idx 4 vaddr) flags s in
  if pdpt =? 0 then s else
  let '(pd, s) := get_or_create_table pdpt (idx 3 vaddr) flags s in
  if pd =? 0 then s else
  set_mem (wr (pg_mem s) pd (idx 2 vaddr) (paddr .| flags .| PAGE_PRESENT .| PAGE_HUGE)) s.

Definition paging_get_physical vaddr s : Z :=
  let m := pg_mem s in
  let offset := vaddr .& 4095 in
  let e4 := rd m (pml4 s) (idx 4 vaddr) in
  if negb (present e4) then 0 else
  let e3 := rd m (pte_addr e4) (idx 3 vaddr) in
  if negb (present e3) then 0 else
  let e2 := rd m (pte_addr e3) (idx 2 vaddr) in
  if huge e2 then u64 ((e2 .& u64 (Z.lnot (2 ^ 21 - 1))) + (vaddr .& (2 ^ 21 - 1)))
  else if negb (present e2) then 0 else
  let e1 := rd m (pte_addr e2) (idx 1 vaddr) in
  if negb (present e1) then 0 else u64 (pte_addr e1 + offset).

Definition paging_alloc vaddr flags s : Z * paging A :=
  let '(phys, a) := pa_alloc (pg_alloc s) in
  let s := set_alloc a s in
  if phys =? 0 then (0, s) else (vaddr, paging_map vaddr phys flags s).

(** The page-mapping loop of [kheap_init] for a heap of [size] bytes. *)
Definition heap_map_step s (addr : Z) : paging A :=
  let '(phys, a) := pa_alloc (pg_alloc s) in
  let s := set_alloc a s in
  if phys =? 0 then s else paging_map addr phys PAGE_WRITABLE s.
Definition heap_map (start size : Z) s : paging A :=
  foldl heap_map_step s ((fun i => start + i * 4096) <$> seqZ 0 ((size + 4095) / 4096)).

(** [paging_init]: [pae] is CR4.PAE, [cr3] the boot page tables' address and
    [total_phys] what [pmm_get_total] returns. *)
Definition boot_identity (boot_pd total_phys : Z) (m : phys_mem) : phys_mem :=
  let identity_limit := if total_phys <? 2 ^ 32 then total_phys else 2 ^ 32 in
  foldl (fun m addr => wr m boot_pd (idx 2 addr) (addr .| PAGE_WRITABLE .| PAGE_PRESENT .| PAGE_HUGE))
        m ((fun i => 4194304 + i * 2097152) <$>
             seqZ 0 ((identity_limit - 4194304 + 2097151) / 2097152)).

Definition identity_step s (addr : Z) : paging A := paging_map_huge addr addr PAGE_WRITABLE s.

Definition KERNEL_BASE : Z := 2 ^ 64 - 2 ^ 31.

Definition paging_init (pae : bool) (cr3 total_phys : Z) s : paging A :=
  if negb pae then s else
  let boot_pml4 := if negb (cr3 .& 4095 =? 0) then cr3 .& ADDR_MASK else cr3 in
  let m := pg_mem s in
  if negb (present (rd m boot_pml4 0)) then s else
  let boot_pdpt := pte_addr (rd m boot_pml4 0) in
  if negb (present (rd m boot_pdpt 0)) then s else
  let boot_pd := pte_addr (rd m boot_pdpt 0) in
  let s := set_mem (boot_identity boot_pd total_phys m) s in
  let '(p, a) := pa_alloc (pg_alloc s) in
  let s := Paging (pg_mem s) p a in
  if p =? 0 then s else
  let s := set_mem (clear_table (pg_mem s) p) s in
  let s := foldl identity_step s ((fun i => i * 2097152) <$> seqZ 0 2048) in
  paging_map_huge KERNEL_BASE 0 PAGE_WRITABLE s.

Record paging_stats : Type := PagingStats { ps_total_pages : Z; ps_free_pages : Z }.
End ops.

Definition paging_get_stats (s : pmm) : paging_stats :=
  let '(total_mb, free_mb) := memory_get_stats s in
  PagingStats (u64 (total_mb * 256)) (u64 (free_mb * 256)).

(** ** The kernel's tables stay a tree *)

Section inv.
Context {A : Type} `{PageAllocator A}.
Implicit Types (s : paging A) (lvl : gmap Z nat) (v p flags : Z).

Record paging_inv s lvl : Prop := {
  gi_tables : pt_inv 512 (pg_mem s) lvl;
  gi_alloc : pa_inv (pg_alloc s);
  gi_root : lvl !! pml4 s = Some 4%nat;
  gi_used t k : lvl !! t = Some k -> pa_used (pg_alloc s) t
}.

Lemma get_physical_walk v s :
  paging_get_physical v s =
    match walk 4 (pg_mem s) (pml4 s) v with
    | None => 0
    | Some (t, i, 1%nat) => if present (rd (pg_mem s) t i) then u64 (pte_addr (rd (pg_mem s) t i) + (v .& 4095)) else 0
    | Some (t, i, _) => u64 ((rd (pg_mem s) t i .& u64 (Z.lnot (2 ^ 21 - 1))) + (v .& (2 ^ 21 - 1)))
    end.
Proof.
  unfold paging_get_physical. cbn [walk].
  rewrite (bool_decide_false (2%nat = 0%nat)), (bool_decide_false (1%nat = 0%nat)),
    (bool_decide_true (0%nat = 0%nat)) by done. cbn [andb].
  destruct (present (rd _ (pml4 s) _)); [|done]. cbn [negb]. destruct (present (rd _ (pte_addr _) (idx 3 v))); [|done].
  cbn [negb].
  destruct (huge _); [done|]. destruct (present (rd _ (pte_addr _) (idx 2 v))); [|done]. cbn [negb].
  by destruct (present _).
Qed.

(** The entry [get_or_create_table] installs. *)
Lemma table_entry r flags :
  is_page r -> 0 <= flags < 128 ->
  let e := r .| flags .| PAGE_PRESENT .| PAGE_WRITABLE in
  present e = true /\ huge e = false /\ pte_addr e = r.
Proof.
  intros Hr Hf. cbn zeta. rewrite present_bit, huge_bit, !Z.lor_spec.
  rewrite (frame_bit_low r 7) by first [lia | by apply page_frame].
  replace (Z.testbit flags 7) with false.
  2:{ symmetry. replace flags with (flags mod 2 ^ 7) by (apply Z.mod_small; lia).
      apply Z.mod_pow2_bits_high. lia. }
  split; [by rewrite orb_true_r|]. split; [done|].
  rewrite <- !Z.lor_assoc. apply pte_addr_make; [by apply page_frame|].
  apply low_flags_mask. apply (lor_bound 12); [lia..|].
  split; [done|reflexivity].
Qed.

(** Successive requests to the allocator. *)
Definition asks (a a' : A) : Prop := a' = (pa_alloc a).2.

(** Asked again and again from the state it has in [s], the allocator runs
    out of pages. *)
Definition runs_out s : Prop := exists a, rtc asks (pg_alloc s) a /\ (pa_alloc a).1 = 0.

(** What every table-building step keeps: the invariant, the root, and the
    translation of every address; no walk newly ends at a huge entry. *)
Record keeps s lvl s' lvl' : Prop := {
  kp_inv : paging_inv s' lvl';
  kp_mono : lvl ⊆ lvl';
  kp_root : pml4 s' = pml4 s;
  kp_phys v : paging_get_physical v s' = paging_get_physical v s;
  kp_huge v t i : walk 4 (pg_mem s') (pml4 s) v = Some (t, i, 2%nat) ->
                  walk 4 (pg_mem s) (pml4 s) v = Some (t, i, 2%nat);
  kp_asks : rtc asks (pg_alloc s) (pg_alloc s')
}.

Lemma keeps_trans s1 l1 s2 l2 s3 l3 : keeps s1 l1 s2 l2 -> keeps s2 l2 s3 l3 -> keeps s1 l1 s3 l3.
Proof.
  intros [I1 M1 R1 P1 H1 A1] [I2 M2 R2 P2 H2 A2]. split; [done|by etrans|congruence| | |by etrans].
  - intros v. by rewrite P2, P1.
  - intros v t i Hw. apply H1. rewrite R1 in H2. by apply H2.
Qed.

Lemma runs_out_later s l s' l' : keeps s l s' l' -> runs_out s' -> runs_out s.
Proof. intros Hk (a & Ha & H0). exists a. split; [|done]. etrans; [apply Hk|done]. Qed.

Lemma alloc_keeps s lvl :
  paging_inv s lvl -> keeps s lvl (set_alloc (pa_alloc (pg_alloc s)).2 s) lvl.
Proof.
  intros [Ht Ha Hr Hu]. split; try done; [|by apply rtc_once]. split; try done.
  - by apply pa_alloc_inv.
  - intros t k Hk. apply pa_alloc_keeps; [done|]. by apply (Hu t k).
Qed.

(** Tables and entries found on the way: [r] is the table of the next level
    under entry [i] of [t]. *)
Definition child_of s lvl t k i r : Prop :=
  links 512 (pg_mem s) lvl t k i /\ pte_addr (rd (pg_mem s) t i) = r /\ r <> 0 /\
  lvl !! r = Some (pred k).

(** Hanging a freshly allocated table under a non-present entry. *)
Lemma link_keeps s lvl t k i r e :
  paging_inv s lvl -> tracked 512 lvl t k i -> (2 <= k)%nat ->
  present (rd (pg_mem s) t i) = false -> pa_alloc (pg_alloc s) = (r, (pa_alloc (pg_alloc s)).2) ->
  r <> 0 -> present e = true -> huge e = false -> pte_addr e = r ->
  keeps s lvl (set_mem (link (pg_mem s) t i r e) (set_alloc (pa_alloc (pg_alloc s)).2 s))
    (<[r := pred k]> lvl) /\
  lvl !! r = None /\ is_page r.
Proof.
  intros Hinv Htr Hk Ep Ea Hr0 He1 He2 He3. pose proof Hinv as [Ht Ha Hr Hu].
  pose proof (alloc_keeps s lvl Hinv) as Hka. pose proof (pa_alloc_fresh (pg_alloc s) Ha) as Hfresh.
  destruct (pa_alloc (pg_alloc s)) as [r' a]. injection Ea as ->. cbn [fst snd] in *.
  destruct (Hfresh Hr0) as (Hpage & Hnu & Hru).
  assert (Hnone : lvl !! r = None).
  { destruct (lvl !! r) eqn:E; [|done]. destruct Hnu. by apply (Hu r n). }
  split; [|done].
  assert (Hlk : forall v, walk 4 (link (pg_mem s) t i r e) (pml4 s) v = walk 4 (pg_mem s) (pml4 s) v \/
   (walk 4 (pg_mem s) (pml4 s) v = None /\ forall t1 i1 n1,
      walk 4 (link (pg_mem s) t i r e) (pml4 s) v = Some (t1, i1, n1) ->
      n1 = 1%nat /\ rd (link (pg_mem s) t i r e) t1 i1 = 0)).
  { intros v. apply (walk_link 512 _ lvl Ht t i r e k); try done. intros _. apply idx_bounds. }
  split; [|by apply insert_subseteq|done| | |apply Hka].
  - split; [by apply (link_inv 512 _ lvl Ht)|apply Hka| |].
    + cbn [pml4 set_mem set_alloc]. rewrite lookup_insert_ne by congruence. done.
    + intros t' k'. destruct (decide (r = t')) as [<-|Hne]; [done|].
      rewrite lookup_insert_ne by done. apply Hka.
  - intros v. rewrite !get_physical_walk. cbn [pg_mem pml4 set_mem set_alloc].
    destruct (Hlk v) as [E|[-> Hz]].
    + rewrite E. destruct (walk 4 (pg_mem s) (pml4 s) v) as [[[t1 i1] n1]|] eqn:Ew; [|done].
      apply (walk_end 512 _ _ Ht) in Ew as (H1 & -> & _ & H4); [|done|intros; apply idx_bounds].
      rewrite (rd_link_old 512 _ _ Ht t i r e k Htr Ep Hpage Hnone He3 t1 n1) by (done || apply idx_bounds).
      case_bool_decide as Eq; [|done]. destruct Eq as [<- Hi]. destruct Htr as [Htk Htr2].
      assert (n1 = k) as -> by congruence. rewrite <- Hi in *. exfalso.
      destruct H4 as [->|[-> Hhu]]; [lia|]. rewrite (pi_huge _ _ _ Ht t i) in Ep; done.
    + destruct (walk 4 (link _ _ _ _ _) (pml4 s) v) as [[[t1 i1] n1]|]; [|done].
      destruct (Hz t1 i1 n1 eq_refl) as [-> ->]. done.
  - intros v t1 i1. cbn [pg_mem set_mem]. intros Hw. destruct (Hlk v) as [E|[_ Hz]]; [congruence|].
    destruct (Hz _ _ _ Hw). done.
Qed.

Lemma get_or_create_table_spec s lvl t k i flags :
  paging_inv s lvl -> tracked 512 lvl t k i -> (2 <= k)%nat ->
  ~ (k = 2%nat /\ huge (rd (pg_mem s) t i) = true) -> 0 <= flags < 128 ->
  exists r s' lvl', get_or_create_table t i flags s = (r, s') /\ keeps s lvl s' lvl' /\
    (forall t' k' i', lvl !! t' = Some k' -> 0 <= i' < 512 -> t' <> t ->
       rd (pg_mem s') t' i' = rd (pg_mem s) t' i') /\
    (child_of s' lvl' t k i r \/ r = 0 /\ runs_out s).
Proof.
  intros Hinv Htr Hk Hnh Hf. pose proof (gi_tables _ _ Hinv) as Ht. unfold get_or_create_table.
  destruct (present (rd (pg_mem s) t i)) eqn:Ep.
  { exists (pte_addr (rd (pg_mem s) t i)), s, lvl. split; [done|]. split; [by split|].
    split; [done|]. left. assert (Hl : links 512 (pg_mem s) lvl t k i) by done.
    pose proof (pi_child _ _ _ Ht _ _ _ Hl) as Hc. split; [done|]. split; [done|]. split; [|done].
    apply (pi_page _ _ _ Ht) in Hc as [[? _] _]. lia. }
  pose proof (link_keeps s lvl t k i) as Hlink. pose proof (alloc_keeps s lvl Hinv) as Hka.
  pose proof (pa_alloc_fresh (pg_alloc s) (gi_alloc _ _ Hinv)) as Hfresh.
  destruct (pa_alloc (pg_alloc s)) as [r a] eqn:Ea. cbn [fst snd] in *.
  destruct (Z.eqb_spec r 0) as [->|Hr0].
  { eexists 0, _, lvl. split; [done|]. split; [done|]. split; [done|]. right.
    split; [done|]. exists (pg_alloc s). by rewrite Ea. }
  destruct (table_entry r flags (proj1 (Hfresh Hr0)) Hf) as (He1 & He2 & He3).
  cbn [pg_mem set_alloc]. set (e := r .| _ .| _ .| _) in *. fold (link (pg_mem s) t i r e).
  destruct (Hlink r e) as (Hkeep & Hnone & Hpage); try done.
  eexists r, _, (<[r := pred k]> lvl). split; [done|]. split; [done|]. split.
  - intros t' k' i' Ht' Hi' Hne. cbn [pg_mem set_mem].
    rewrite (rd_link_old 512 _ _ Ht t i r e k Htr Ep Hpage Hnone He3 t' k') by done.
    rewrite bool_decide_false by (by intros [-> _]). done.
  - left. unfold child_of. cbn [pg_mem set_mem]. rewrite rd_link_at. split; [|split; [done|split; [done|]]].
    + split; [|rewrite rd_link_at; split; [done|]; split; [done|]; rewrite He2; by intros [_ ?]].
      destruct Htr as (H1 & H2 & H3). split; [|done]. rewrite lookup_insert_ne by congruence. done.
    + apply lookup_insert_eq.
Qed.

(** The entries for [v] in the PML4 and in its PDPT lead to [pd]. *)
Definition descends s lvl v pd : Prop := exists pdpt,
  child_of s lvl (pml4 s) 4 (idx 4 v) pdpt /\ child_of s lvl pdpt 3 (idx 3 v) pd.

Lemma descends_walk s lvl v pd :
  descends s lvl v pd -> walk 4 (pg_mem s) (pml4 s) v = walk 2 (pg_mem s) pd v.
Proof.
  intros (pdpt & (Hl1 & Ha1 & _) & (Hl2 & Ha2 & _)).
  rewrite (walk_links 512 _ lvl 3) by (done || lia). rewrite Ha1.
  rewrite (walk_links 512 _ lvl 2) by (done || lia). by rewrite Ha2.
Qed.

Lemma child_frame s lvl s' lvl' t k i r :
  child_of s lvl t k i r -> lvl ⊆ lvl' -> rd (pg_mem s') t i = rd (pg_mem s) t i ->
  child_of s' lvl' t k i r.
Proof.
  intros (((H1 & H2) & H3) & H4 & H5 & H6) Hsub Hrd. unfold child_of, links, tracked. rewrite Hrd.
  split; [split; [split; [by apply (lookup_weaken lvl)|done]|done]|].
  split; [done|]. split; [done|]. by apply (lookup_weaken lvl).
Qed.

(** The part that [paging_map] and [paging_map_huge] share: down to the page
    directory of [v]. *)
Lemma path_to_pd s lvl v flags :
  paging_inv s lvl -> 0 <= flags < 128 ->
  exists pdpt s1, get_or_create_table (pml4 s) (idx 4 v) flags s = (pdpt, s1) /\
  (pdpt = 0 /\ (exists lvl', keeps s lvl s1 lvl') /\ runs_out s \/
   pdpt <> 0 /\ exists pd s2 lvl', get_or_create_table pdpt (idx 3 v) flags s1 = (pd, s2) /\
     keeps s lvl s2 lvl' /\
     (pd = 0 /\ runs_out s \/ pd <> 0 /\ lvl' !! pd = Some 2%nat /\ descends s2 lvl' v pd)).
Proof.
  intros Hinv Hf. assert (Htr4 : tracked 512 lvl (pml4 s) 4 (idx 4 v)).
  { split; [apply Hinv|]. split; [apply idx_bounds|]. intros _. apply idx_bounds. }
  destruct (get_or_create_table_spec s lvl (pml4 s) 4 (idx 4 v) flags)
    as (pdpt & s1 & l1 & Hg1 & Hk1 & _ & Hc1); try done; [lia|lia|].
  exists pdpt, s1. split; [done|].
  destruct Hc1 as [Hc1|[-> Hoom]]; [right|by left; eauto]. pose proof Hc1 as (_ & _ & Hn1 & Hv1).
  split; [done|]. assert (Htr3 : tracked 512 l1 pdpt 3 (idx 3 v)) by (split; [done|]; split; [apply idx_bounds|lia]).
  destruct (get_or_create_table_spec s1 l1 pdpt 3 (idx 3 v) flags)
    as (pd & s2 & l2 & Hg2 & Hk2 & Hfr2 & Hc2); try done; [apply Hk1|lia|lia|].
  exists pd, s2, l2. split; [done|]. split; [by eapply keeps_trans|].
  destruct Hc2 as [Hc2|[-> Hoom]]; [right|left; split; [done|]; by apply (runs_out_later _ _ _ _ Hk1)]. pose proof Hc2 as (_ & _ & Hn2 & Hv2).
  split; [done|]. split; [done|]. exists pdpt. split; [|done].
  assert (Hr1 : l1 !! pml4 s = Some 4%nat) by (apply (lookup_weaken lvl); [apply Hinv|apply Hk1]).
  rewrite (kp_root _ _ _ _ Hk2), (kp_root _ _ _ _ Hk1).
  apply (child_frame s1 l1); [done|apply Hk2|]. apply (Hfr2 _ 4%nat); [done|apply idx_bounds|].
  intros E. rewrite <- E, Hr1 in Hv1. done.
Qed.

(** *** Masks *)

Lemma page_mask_frame p : is_frame p -> p .& PAGE_MASK = p.
Proof.
  intros [Hp Hm]. unfold PAGE_MASK. rewrite land_align_mask by (unfold is_u64; lia).
  change (2 ^ 12) with 4096. pose proof (Z.div_mod p 4096). lia.
Qed.

Lemma leaf_bits p flags :
  is_frame p -> 0 <= flags < 4096 ->
  present (p .| flags .| PAGE_PRESENT) = true /\ pte_addr (p .| flags .| PAGE_PRESENT) = p.
Proof.
  intros Hp Hf. split; [by rewrite present_bit, Z.lor_spec, orb_true_r|].
  rewrite <- Z.lor_assoc. apply pte_addr_make; [done|]. apply low_flags_mask.
  apply (lor_bound 12); [lia|lia|]. by split.
Qed.

Lemma offset_bounds v : 0 <= v .& 4095 < 4096.
Proof. change 4095 with (Z.ones 12). rewrite Z.land_ones by lia. apply Z.mod_pos_bound. lia. Qed.

(** The virtual address is not covered by a huge page. *)
Definition no_huge s v : Prop := forall t i, walk 4 (pg_mem s) (pml4 s) v <> Some (t, i, 2%nat).

(** Writing the entry that the walk for [v] ends at. *)
Lemma leaf_written s0 s lvl v pt p flags :
  paging_inv s lvl -> tracked 512 lvl pt 1 (idx 1 v) -> is_frame p -> 0 <= flags < 128 ->
  (forall v', paging_get_physical v' s = paging_get_physical v' s0) ->
  walk 4 (pg_mem s) (pml4 s) v = Some (pt, idx 1 v, 1%nat) ->
  forall v', paging_get_physical v'
      (set_mem (wr (pg_mem s) pt (idx 1 v) (p .| flags .| PAGE_PRESENT)) s) =
    if vpn v' =? vpn v then p + (v' .& 4095) else paging_get_physical v' s0.
Proof.
  intros Hinv Htr Hp Hf Hsame Hw v'. rewrite <- Hsame, !get_physical_walk. cbn [pg_mem pml4 set_mem].
  pose proof (gi_tables _ _ Hinv) as Ht. pose proof (gi_root _ _ Hinv) as Hr.
  destruct (leaf_bits p flags Hp) as [Hpr Had]; [lia|]. pose proof (offset_bounds v') as Ho.
  rewrite (walk_leaf_write 512 _ lvl Ht) by (done || intros; apply idx_bounds).
  destruct (Z.eqb_spec (vpn v') (vpn v)) as [Hvpn|Hvpn].
  - pose proof (proj2 (idx_vpn v' v) Hvpn) as Hidx.
    assert (Hwv : walk 4 (pg_mem s) (pml4 s) v' = walk 4 (pg_mem s) (pml4 s) v)
      by (cbn [walk]; rewrite !Hidx by lia; done).
    rewrite Hwv, Hw, rd_wr_eq, Hpr, Had. apply u64_id. unfold is_u64. destruct Hp as [? _]. lia.
  - destruct (walk 4 (pg_mem s) (pml4 s) v') as [[[t1 i1] n1]|] eqn:Ew; [|done].
    pose proof (walk_end 512 _ _ Ht _ _ _ _ _ _ Hr (fun _ => proj2 (idx_bounds 4 v')) Ew) as (Hl1 & -> & _ & _).
    rewrite (leaf_write_rd 512 _ _ Ht pt 1 (idx 1 v) _ t1 n1) by (done || apply idx_bounds).
    case_bool_decide as E; [|done]. destruct E as [<- Hi]. destruct Htr as [Htk _].
    assert (n1 = 1%nat) as -> by congruence. exfalso. apply Hvpn, idx_vpn. intros j Hj.
    destruct (decide (j = 1%nat)) as [->|]; [done|].
    apply (walk_inj 512 _ _ Ht 4 (pml4 s) v' (pml4 s) v pt (idx 1 v') (idx 1 v) 1 Hr Hr); try done; [..|lia];
      intros _; apply idx_bounds.
Qed.

Lemma paging_map_spec s lvl v p flags :
  paging_inv s lvl -> is_u64 v -> is_frame p -> 0 <= flags < 128 -> no_huge s v ->
  exists lvl', paging_inv (paging_map v p flags s) lvl' /\ lvl ⊆ lvl' /\
    ((forall v', paging_get_physical v' (paging_map v p flags s) = paging_get_physical v' s) /\
       runs_out s \/
     forall v', paging_get_physical v' (paging_map v p flags s) =
       if vpn v' =? vpn v then p + (v' .& 4095) else paging_get_physical v' s).
Proof.
  intros Hinv Hv Hp Hf Hnh. unfold paging_map. rewrite !page_mask_idx by (done || lia).
  rewrite page_mask_frame by done.
  destruct (path_to_pd s lvl v flags Hinv Hf) as
    (pdpt & s1 & -> & [(-> & (l1 & Hk1) & Hoom)|(Hn1 & pd & s2 & l2 & Hg2 & Hk2 & Hc2)]).
  { exists l1. split; [apply Hk1|]. split; [apply Hk1|]. left. split; [apply Hk1|done]. }
  rewrite (proj2 (Z.eqb_neq pdpt 0)), Hg2 by done.
  destruct Hc2 as [(-> & Hoom)|(Hn2 & Hv2 & Hd2)].
  { exists l2. split; [apply Hk2|]. split; [apply Hk2|]. left. split; [apply Hk2|done]. }
  rewrite (proj2 (Z.eqb_neq pd 0)) by done. pose proof (kp_inv _ _ _ _ Hk2) as Hi2.
  assert (Htr2 : tracked 512 l2 pd 2 (idx 2 v)) by (split; [done|]; split; [apply idx_bounds|lia]).
  destruct (get_or_create_table_spec s2 l2 pd 2 (idx 2 v) flags)
    as (pt & s3 & l3 & -> & Hk3 & Hfr3 & Hc3); try done.
  { intros [_ Hhu]. apply (Hnh pd (idx 2 v)), (kp_huge _ _ _ _ Hk2).
    rewrite <- (kp_root _ _ _ _ Hk2), (descends_walk _ _ _ _ Hd2). cbn [walk].
    by rewrite Hhu, bool_decide_true. }
  pose proof (keeps_trans _ _ _ _ _ _ Hk2 Hk3) as Hk.
  destruct Hc3 as [(Hl3 & Ha3 & Hn3 & Hv3)|[-> Hoom]].
  2:{ exists l3. split; [apply Hk|]. split; [apply Hk|]. left.
      split; [apply Hk|]. by apply (runs_out_later _ _ _ _ Hk2). }
  rewrite (proj2 (Z.eqb_neq pt 0)) by done. pose proof (kp_inv _ _ _ _ Hk) as Hi3.
  pose proof (gi_tables _ _ Hi3) as Ht3.
  assert (Htr1 : tracked 512 l3 pt 1 (idx 1 v)) by (split; [done|]; split; [apply idx_bounds|lia]).
  exists l3. split; [|split; [apply Hk|right]].
  { split; [|apply Hi3|apply Hi3|apply Hi3]. apply (leaf_write_inv 512 _ _ Ht3 _ 1); [done|by left]. }
  apply (leaf_written s s3 l3 v pt p flags); try done.
  - intros v'. apply Hk.
  - rewrite (descends_walk s3 l3 v pd).
    + rewrite (walk_links 512 _ l3 1) by (done || lia). by rewrite Ha3.
    + destruct Hd2 as (pdpt' & Hc4 & Hc3). pose proof Hc4 as (_ & _ & _ & Hp3).
      exists pdpt'. rewrite (kp_root _ _ _ _ Hk3).
      assert (forall t k i r, child_of s2 l2 t k i r -> k <> 2%nat -> child_of s3 l3 t k i r) as Hup.
      { intros t k i r Hc Hk0. apply (child_frame s2 l2); [done|apply Hk3|].
        destruct Hc as (((Hlt & Hi & _) & _) & _). apply (Hfr3 t k); [done|done|]. intros ->. congruence. }
      split; by apply Hup.
Qed.

(** *** Huge pages *)

(** A 2 MiB page frame. *)
Definition is_huge_frame p : Prop := 0 <= p < 2 ^ 52 /\ p mod 2 ^ 21 = 0.

Lemma huge_frame p : is_huge_frame p -> is_frame p.
Proof.
  intros [Hp Hm]. split; [done|]. apply Z.mod_divide; [lia|]. apply Z.mod_divide in Hm; [|lia].
  etrans; [|exact Hm]. by exists 512.
Qed.

Lemma huge_bits p flags :
  is_huge_frame p -> 0 <= flags < 128 ->
  let e := p .| flags .| PAGE_PRESENT .| PAGE_HUGE in
  present e = true /\ huge e = true /\ e .& u64 (Z.lnot (2 ^ 21 - 1)) = p.
Proof.
  intros Hp Hf. cbn zeta. rewrite present_bit, huge_bit.
  split; [by rewrite !Z.lor_spec, !orb_true_r|]. split; [by rewrite !Z.lor_spec, !orb_true_r|].
  destruct Hp as [Hp Hm]. rewrite <- !Z.lor_assoc.
  assert (Hb : 0 <= flags .| (PAGE_PRESENT .| PAGE_HUGE) < 2 ^ 21)
    by (apply (lor_bound 21); [lia|lia|by split]).
  set (f := flags .| _) in *. rewrite Z.land_lor_distr_l.
  rewrite !land_align_mask by (unfold is_u64; lia). rewrite (Z.div_small f), Z.lor_0_r by lia.
  pose proof (Z.div_mod p (2 ^ 21)). lia.
Qed.

Lemma huge_offset_bounds v : 0 <= v .& (2 ^ 21 - 1) < 2 ^ 21.
Proof.
  change (2 ^ 21 - 1) with (Z.ones 21). rewrite Z.land_ones by lia. apply Z.mod_pos_bound. lia.
Qed.

Lemma huge_written s0 s lvl v pd p flags :
  paging_inv s lvl -> lvl !! pd = Some 2%nat -> is_huge_frame p -> 0 <= flags < 128 ->
  (forall v', paging_get_physical v' s = paging_get_physical v' s0) ->
  descends s lvl v pd ->
  forall v', paging_get_physical v'
      (set_mem (wr (pg_mem s) pd (idx 2 v) (p .| flags .| PAGE_PRESENT .| PAGE_HUGE)) s) =
    if huge_vpn v' =? huge_vpn v then p + (v' .& (2 ^ 21 - 1)) else paging_get_physical v' s0.
Proof.
  intros Hinv Hpd Hp Hf Hsame Hd v'. rewrite <- Hsame, !get_physical_walk.
  pose proof (gi_tables _ _ Hinv) as Ht. pose proof (gi_root _ _ Hinv) as Hr.
  assert (Htr : tracked 512 lvl pd 2 (idx 2 v)) by (split; [done|]; split; [apply idx_bounds|lia]).
  destruct (huge_bits p flags Hp Hf) as (Hpr & Hhu & Had). set (e := p .| _ .| _ .| _) in *.
  pose proof (leaf_write_inv 512 _ _ Ht pd 2 (idx 2 v) e Htr (or_intror (conj eq_refl (conj Hhu Hpr)))) as Ht'.
  set (s' := set_mem (wr (pg_mem s) pd (idx 2 v) e) s).
  assert (Hd' : descends s' lvl v pd).
  { destruct Hd as (pdpt & Hc4 & Hc3). exists pdpt.
    assert (Hup : forall t k i r, child_of s lvl t k i r -> k <> 2%nat -> child_of s' lvl t k i r).
    { intros t k i r Hc Hk. apply (child_frame s lvl); [done|done|].
      destruct Hc as (((H1 & H2 & _) & _) & _). cbn [pg_mem set_mem s'].
      rewrite (leaf_write_rd 512 _ _ Ht pd 2 _ _ _ k) by done.
      rewrite bool_decide_false by (intros [-> _]; congruence). done. }
    split; by apply Hup. }
  assert (Hw : walk 4 (pg_mem s') (pml4 s') v = Some (pd, idx 2 v, 2%nat)).
  { rewrite (descends_walk _ _ _ _ Hd'). cbn [walk pg_mem set_mem s'].
    by rewrite rd_wr_eq, Hhu, bool_decide_true. }
  cbn [pg_mem pml4 set_mem s'] in *.
  destruct (Z.eqb_spec (huge_vpn v') (huge_vpn v)) as [Hvpn|Hvpn].
  - pose proof (proj2 (idx_huge_vpn v' v) Hvpn) as Hidx.
    assert (Hwv : walk 4 (wr (pg_mem s) pd (idx 2 v) e) (pml4 s) v' = Some (pd, idx 2 v, 2%nat)).
    { revert Hw. cbn [walk]. rewrite (Hidx 4%nat), (Hidx 3%nat), (Hidx 2%nat) by lia. rewrite (bool_decide_true (0%nat = 0%nat)) by done.
      rewrite (bool_decide_false (2%nat = 0%nat)), (bool_decide_false (1%nat = 0%nat)) by done. cbn [andb].
      repeat match goal with |- context [if ?b then _ else _] => destruct b end; first [done|by intros [=]]. }
    rewrite Hwv, rd_wr_eq, Had. apply u64_id. pose proof (huge_offset_bounds v'). unfold is_u64.
    destruct Hp as [? _]. lia.
  - assert (Hno : walk 4 (wr (pg_mem s) pd (idx 2 v) e) (pml4 s) v' <> Some (pd, idx 2 v, 2%nat)).
    { intros Hw'. apply Hvpn, idx_huge_vpn. intros j Hj.
      pose proof (walk_end 512 _ _ Ht' _ _ _ _ _ _ Hr (fun _ => proj2 (idx_bounds 4 v')) Hw') as (_ & Hi & _ & _).
      destruct (decide (j = 2%nat)) as [->|]; [done|].
      apply (walk_inj 512 _ _ Ht' 4 (pml4 s) v' (pml4 s) v pd (idx 2 v) (idx 2 v) 2 Hr Hr); try done; [..|lia];
        intros _; apply idx_bounds. }
    destruct (walk_huge_write 512 _ _ Ht pd (idx 2 v) e 4 (pml4 s) v') as [E|E]; try done; [intros _; apply idx_bounds|lia|].
    rewrite E in *. destruct (walk 4 (pg_mem s) (pml4 s) v') as [[[t1 i1] n1]|] eqn:Ew; [|done].
    pose proof (walk_end 512 _ _ Ht _ _ _ _ _ _ Hr (fun _ => proj2 (idx_bounds 4 v')) Ew) as (Hl1 & -> & _ & _).
    rewrite (leaf_write_rd 512 _ _ Ht pd 2 (idx 2 v) _ t1 n1) by (done || apply idx_bounds).
    case_bool_decide as Eq; [|done]. destruct Eq as [<- Hi]. rewrite <- Hi in Hno.
    assert (n1 = 2%nat) as -> by congruence. done.
Qed.

Lemma paging_map_huge_spec s lvl v p flags :
  paging_inv s lvl -> is_u64 v -> is_huge_frame p -> 0 <= flags < 128 ->
  exists lvl', paging_inv (paging_map_huge v p flags s) lvl' /\
    rtc asks (pg_alloc s) (pg_alloc (paging_map_huge v p flags s)) /\
    ((forall v', paging_get_physical v' (paging_map_huge v p flags s) = paging_get_physical v' s) /\
       runs_out s \/
     forall v', paging_get_physical v' (paging_map_huge v p flags s) =
       if huge_vpn v' =? huge_vpn v then p + (v' .& (2 ^ 21 - 1)) else paging_get_physical v' s).
Proof.
  intros Hinv Hv Hp Hf. unfold paging_map_huge. rewrite !page_mask_idx by (done || lia).
  rewrite page_mask_frame by by apply huge_frame.
  destruct (path_to_pd s lvl v flags Hinv Hf) as
    (pdpt & s1 & -> & [(-> & (l1 & Hk1) & Hoom)|(Hn1 & pd & s2 & l2 & Hg2 & Hk2 & Hc2)]).
  { exists l1. split; [apply Hk1|]. split; [apply Hk1|]. left. split; [apply Hk1|done]. }
  rewrite (proj2 (Z.eqb_neq pdpt 0)), Hg2 by done.
  destruct Hc2 as [(-> & Hoom)|(Hn2 & Hv2 & Hd2)].
  { exists l2. split; [apply Hk2|]. split; [apply Hk2|]. left. split; [apply Hk2|done]. }
  rewrite (proj2 (Z.eqb_neq pd 0)) by done. pose proof (kp_inv _ _ _ _ Hk2) as Hi2.
  pose proof (huge_bits p flags Hp Hf) as (Hpr & Hhu & _).
  exists l2. split; [|split; [apply Hk2|right]].
  - split; [|apply Hi2|apply Hi2|apply Hi2]. apply (leaf_write_inv 512 _ _ (gi_tables _ _ Hi2) _ 2).
    + split; [done|]. split; [apply idx_bounds|lia].
    + by right.
  - apply (huge_written s s2 l2); try done. intros v'. apply Hk2.
Qed.

(** *** Building the identity map *)

(** A lone empty PML4. *)
Lemma empty_root_inv m root a :
  pa_inv a -> is_page root -> pa_used a root ->
  let s := Paging (clear_table m root) root a in
  paging_inv s {[root := 4%nat]} /\ forall v, paging_get_physical v s = 0.
Proof.
  intros Ha Hp Hu. cbn zeta.
  assert (Hz : forall i, 0 <= i < 512 -> rd (clear_table m root) root i = 0)
    by (intros i Hi; by rewrite rd_clear, Z.eqb_refl).
  assert (Hl : forall t k i, ~ links 512 (clear_table m root) {[root := 4%nat]} t k i).
  { intros t k i ((Ht & Hi & _) & _ & Hpr & _). apply lookup_singleton_Some in Ht as [<- _].
    by rewrite Hz in Hpr. }
  split.
  - split; cbn [pg_mem pg_alloc pml4]; try done.
    + split.
      * intros t k [<- <-]%lookup_singleton_Some. split; [done|lia].
      * intros t k i []%Hl.
      * intros t i (Ht & _). by apply lookup_singleton_Some in Ht as [_ ?].
      * intros t k i t' k' i' []%Hl.
    + apply lookup_singleton_eq.
    + by intros t k [<- _]%lookup_singleton_Some.
  - intros v. unfold paging_get_physical. cbn [pg_mem pml4]. by rewrite Hz by apply idx_bounds.
Qed.

Lemma huge_vpn_small v : 0 <= v < 2 ^ 48 -> huge_vpn v = v / 2 ^ 21.
Proof.
  intros Hv. unfold huge_vpn, page_from.
  change (12 + 9 * (Z.of_nat 2 - 1)) with 21. change (9 * (5 - Z.of_nat 2)) with 27.
  rewrite Z.land_ones, Z.shiftr_div_pow2 by lia. apply Z.mod_small.
  split; [apply Z.div_pos; lia|]. apply Z.div_lt_upper_bound; lia.
Qed.

Lemma huge_vpn_offset v o : v mod 2 ^ 21 = 0 -> 0 <= o < 2 ^ 21 -> huge_vpn (v + o) = huge_vpn v.
Proof.
  intros Hv Ho. unfold huge_vpn, page_from. change (12 + 9 * (Z.of_nat 2 - 1)) with 21.
  rewrite !Z.shiftr_div_pow2 by lia. f_equal. pose proof (Z.div_mod v (2 ^ 21)).
  symmetry. apply (Z.div_unique _ _ _ o); lia.
Qed.

Record identity_upto s0 (n : Z) s : Prop := {
  iu_inv : exists lvl, paging_inv s lvl;
  iu_asks : rtc asks (pg_alloc s0) (pg_alloc s);
  iu_safe v : 0 <= v < 2 ^ 48 -> paging_get_physical v s = 0 \/ paging_get_physical v s = v;
  iu_done v : ~ runs_out s0 -> 0 <= v < n * 2 ^ 21 -> paging_get_physical v s = v
}.

Lemma identity_step_upto s0 n s :
  0 <= n < 2048 -> identity_upto s0 n s -> identity_upto s0 (n + 1) (identity_step s (n * 2097152)).
Proof.
  intros Hn [[lvl Hinv] Hasks Hsafe Hdone]. change 2097152 with (2 ^ 21). unfold identity_step.
  destruct (paging_map_huge_spec s lvl (n * 2 ^ 21) (n * 2 ^ 21) PAGE_WRITABLE) as (l' & Hi' & Ha' & Hres); try done.
  { unfold is_u64. lia. }
  { split; [lia|]. apply Z.mod_mul. lia. }
  split; [by exists l'|by etrans| |].
  - intros v Hv. destruct Hres as [[-> _]| ->]; [by apply Hsafe|].
    rewrite !huge_vpn_small, Z.div_mul by lia. destruct (Z.eqb_spec (v / 2 ^ 21) n); [right|by apply Hsafe].
    change (2 ^ 21 - 1) with (Z.ones 21). rewrite Z.land_ones by lia. pose proof (Z.div_mod v (2 ^ 21)). lia.
  - intros v Hro Hv. destruct Hres as [[_ Hro']| ->].
    + destruct Hro. destruct Hro' as (a & H1 & H2). exists a. split; [by etrans|done].
    + rewrite !huge_vpn_small, Z.div_mul by lia. destruct (Z.eqb_spec (v / 2 ^ 21) n) as [E|E].
      * change (2 ^ 21 - 1) with (Z.ones 21). rewrite Z.land_ones by lia. pose proof (Z.div_mod v (2 ^ 21)). lia.
      * apply Hdone; [done|]. pose proof (Z.div_mod v (2 ^ 21)). pose proof (Z.mod_pos_bound v (2 ^ 21)). lia.
Qed.

Lemma identity_loop s0 n s :
  0 <= n <= 2048 -> identity_upto s0 0 s ->
  identity_upto s0 n (foldl identity_step s ((fun i => i * 2097152) <$> seqZ 0 n)).
Proof.
  intros [Hn0 Hn] H0. revert Hn. pattern n. apply natlike_ind; [|intros k Hk IH|].
  - done.
  - intros Hle. rewrite <- Z.add_1_r, seqZ_app, fmap_app, foldl_app by lia. rewrite Z.add_0_l.
    replace (seqZ k 1) with [k] by (unfold seqZ; simpl; f_equal; lia). cbn [fmap list_fmap foldl].
    apply identity_step_upto; [lia|]. apply IH. lia.
  - done.
Qed.
End inv.

(** ** Properties *)

Section props.
Context {A : Type} `{PageAllocator A}.
Implicit Types (s : paging A) (lvl : gmap Z nat) (v p flags : Z).


(** [paging_init] with PAE on, boot tables in place and a page for the
    PML4 leaves well-formed tables in which every lower-half address is
    unmapped or mapped to itself, every address below 4 GiB is mapped to
    itself and the kernel's 2 MiB window at -2 GiB is mapped to physical 0,
    the last two unless the allocator runs out of pages. *)
Theorem paging_init_identity s cr3 total_phys :
  let boot_pml4 := if negb (cr3 .& 4095 =? 0) then cr3 .& ADDR_MASK else cr3 in
  let e4 := rd (pg_mem s) boot_pml4 0 in
  pa_inv (pg_alloc s) -> present e4 = true -> present (rd (pg_mem s) (pte_addr e4) 0) = true ->
  (pa_alloc (pg_alloc s)).1 <> 0 ->
  let s' := paging_init true cr3 total_phys s in
  (exists lvl, paging_inv s' lvl) /\
  (forall v, 0 <= v < 2 ^ 47 -> paging_get_physical v s' = 0 \/ paging_get_physical v s' = v) /\
  (~ runs_out s ->
     (forall v, 0 <= v < 2 ^ 32 -> paging_get_physical v s' = v) /\
     (forall o, 0 <= o < 2 ^ 21 -> paging_get_physical (KERNEL_BASE + o) s' = o)).
Proof.
  cbn zeta. intros Ha He4 He3 Hroot. unfold paging_init. cbn [negb]. rewrite He4, He3. cbn [negb].
  cbn [pg_alloc set_mem]. pose proof (pa_alloc_inv _ Ha) as Ha'.
  destruct (pa_alloc_fresh _ Ha Hroot) as (Hpage & _ & Hused).
  destruct (pa_alloc (pg_alloc s)) as [p a] eqn:Ealloc. cbn [fst snd] in *.
  rewrite (proj2 (Z.eqb_neq p 0)) by done. unfold set_mem at 1. cbn [pg_mem pml4 pg_alloc].
  match goal with |- context [clear_table ?M p] => set (m := M) end.
  destruct (empty_root_inv m p a Ha' Hpage Hused) as [Hinv0 Hz].
  set (s0 := Paging (clear_table m p) p a) in *.
  assert (Hup : identity_upto s 0 s0).
  { split; [by exists {[p := 4%nat]}| |by intros v _; left|intros v _ Hv; lia].
    apply rtc_once. unfold asks. by rewrite Ealloc. }
  pose proof (identity_loop s 2048 s0 ltac:(lia) Hup) as [[lvl Hinv] Hasks Hsafe Hdone].
  set (s1 := foldl identity_step s0 _) in *.
  destruct (paging_map_huge_spec s1 lvl KERNEL_BASE 0 PAGE_WRITABLE) as (l' & Hi' & _ & Hres); try done.
  split; [by exists l'|]. split.
  - intros v Hv. destruct Hres as [[-> _]| ->]; [apply Hsafe; lia|].
    rewrite huge_vpn_small by lia. change (huge_vpn KERNEL_BASE) with ((2 ^ 48 - 2 ^ 31) / 2 ^ 21).
    destruct (Z.eqb_spec (v / 2 ^ 21) ((2 ^ 48 - 2 ^ 31) / 2 ^ 21)) as [E|_]; [|apply Hsafe; lia].
    assert (Hle : v / 2 ^ 21 <= 2 ^ 47 / 2 ^ 21) by (apply Z.div_le_mono; lia).
    rewrite E in Hle. by vm_compute in Hle.
  - intros Hro. destruct Hres as [[_ Hro']|Hres].
    { destruct Hro. destruct Hro' as (a' & H1 & H2). exists a'. split; [by etrans|done]. }
    split.
    + intros v Hv. rewrite Hres, huge_vpn_small by lia.
      change (huge_vpn KERNEL_BASE) with ((2 ^ 48 - 2 ^ 31) / 2 ^ 21).
      destruct (Z.eqb_spec (v / 2 ^ 21) ((2 ^ 48 - 2 ^ 31) / 2 ^ 21)) as [E|_]; [|apply Hdone; [done|lia]].
      assert (Hle : v / 2 ^ 21 <= 2 ^ 32 / 2 ^ 21) by (apply Z.div_le_mono; lia).
      rewrite E in Hle. by vm_compute in Hle.
    + intros o Ho. rewrite Hres, huge_vpn_offset, Z.eqb_refl by done || reflexivity.
      change (2 ^ 21 - 1) with (Z.ones 21). rewrite Z.land_ones by lia. unfold KERNEL_BASE.
      replace (2 ^ 64 - 2 ^ 31 + o) with (o + (2 ^ 43 - 2 ^ 10) * 2 ^ 21) by lia.
      rewrite Z.mod_add, Z.mod_small by lia. done.
Qed.

(** Mapping a 4 KiB page over a huge page does not map it: the entry of
    the huge page is taken for a table, the new entry is written into the
    physical memory the huge page maps, and the address still translates
    through the huge page. *)
Theorem paging_map_over_huge s lvl v p flags pd i :
  paging_inv s lvl -> is_u64 v ->
  walk 4 (pg_mem s) (pml4 s) v = Some (pd, i, 2%nat) ->
  let base := pte_addr (rd (pg_mem s) pd i) in
  is_page base -> lvl !! base = None ->
  paging_map v p flags s =
    set_mem (wr (pg_mem s) base (idx 1 v) ((p .& PAGE_MASK) .| flags .| PAGE_PRESENT)) s /\
  paging_get_physical v (paging_map v p flags s) = paging_get_physical v s.
Proof.
  cbn zeta. intros Hinv Hv Hw Hb Hout. pose proof (gi_tables _ _ Hinv) as Ht.
  pose proof (gi_root _ _ Hinv) as Hr4. assert (Hb4 : forall v, idx 4 v < 512) by (intros; apply idx_bounds).
  destruct (walk_step 512 _ _ Ht 3 _ _ _ _ _ Hr4 (fun _ => Hb4 v) Hw) as [[? _]|(_ & Hl4 & Hw3)]; [done|].
  pose proof (pi_child _ _ _ Ht _ _ _ Hl4) as Hr3. cbn [pred] in Hr3.
  destruct (walk_step 512 _ _ Ht 2 _ _ _ _ _ Hr3 ltac:(lia) Hw3) as [[? _]|(_ & Hl3 & Hw2)]; [done|].
  pose proof (pi_child _ _ _ Ht _ _ _ Hl3) as Hr2. cbn [pred] in Hr2.
  destruct (walk_end 512 _ _ Ht 2 _ _ _ _ _ Hr2 ltac:(lia) Hw2) as (Hpd & -> & _ & [?|[_ Hhu]]); [done|].
  destruct (walk_step 512 _ _ Ht 1 _ _ _ _ _ Hr2 ltac:(lia) Hw2) as [[_ ->]|(? & _)]; [|lia].
  assert (Hpr2 : present (rd (pg_mem s) (pte_addr (rd (pg_mem s) (pte_addr (rd (pg_mem s) (pml4 s) (idx 4 v))) (idx 3 v))) (idx 2 v)) = true).
  { apply (pi_huge _ _ _ Ht); [|done]. split; [done|]. split; [apply idx_bounds|lia]. }
  assert (Hmap : forall t k j, links 512 (pg_mem s) lvl t k j -> get_or_create_table t j flags s = (pte_addr (rd (pg_mem s) t j), s)).
  { intros t k j (_ & _ & Hp & _). unfold get_or_create_table. by rewrite Hp. }
  assert (Hnz : forall t k, lvl !! t = Some k -> (t =? 0) = false).
  { intros t k [[? _] _]%(pi_page _ _ _ Ht). apply Z.eqb_neq. lia. }
  unfold paging_map. rewrite !page_mask_idx by (done || lia).
  rewrite (Hmap _ _ _ Hl4), (Hnz _ _ Hr3), (Hmap _ _ _ Hl3), (Hnz _ _ Hr2).
  unfold get_or_create_table. rewrite Hpr2. rewrite (proj2 (Z.eqb_neq _ 0)) by (destruct Hb as [? _]; lia).
  split; [done|]. unfold paging_get_physical. cbn [pg_mem pml4 set_mem].
  assert (Hrd : forall t k j x, lvl !! t = Some k -> 0 <= j < 512 ->
    rd (wr (pg_mem s) (pte_addr (rd (pg_mem s) (pte_addr (rd (pg_mem s) (pte_addr (rd (pg_mem s) (pml4 s) (idx 4 v))) (idx 3 v))) (idx 2 v))) (idx 1 v) x) t j = rd (pg_mem s) t j).
  { intros t k j x Hk Hj. apply rd_wr_ne; [done|by apply (pi_page _ _ _ Ht t k)|apply idx_bounds|done|].
    left. intros E. rewrite E in Hout. congruence. }
  rewrite (Hrd _ _ _ _ Hr4), (Hrd _ _ _ _ Hr3), (Hrd _ _ _ _ Hr2) by apply idx_bounds. by rewrite Hhu.
Qed.
End props.

(** ** Witnesses *)

(** A machine with a lone empty PML4 and 64 pages of memory, and the boot
    loader's tables. *)
Module Examples.
Abbreviation small1 := (Pmm [3] 0 1 64 62 [] 0 0).
Lemma small1_inv : pmm_inv52 small1.
Proof.
  split; [split|]; cbn [pmm_bitmap pmm_bitmap_size pmm_total_pages_count pmm_free_pages_count].
  - reflexivity.
  - repeat constructor; lia.
  - lia.
  - lia.
  - vm_compute. reflexivity.
  - lia.
Qed.

Abbreviation root_state := (Paging (clear_table ∅ 4096) 4096 small1).
Lemma root_inv : paging_inv root_state {[4096 := 4%nat]} /\ forall v, paging_get_physical v root_state = 0.
Proof.
  apply (empty_root_inv ∅ 4096 small1).
  - apply small1_inv.
  - by split.
  - by split.
Qed.


(** The boot loader's PML4, PDPT and PD at 8192, 12288 and 16384. *)
Abbreviation boot_state := (Paging {[8192 := 12288 + 3; 12288 := 16384 + 3]} 0 (Pmm [31] 0 1 64 59 [] 0 0)).
Lemma boot_alloc_inv : pmm_inv52 (Pmm [31] 0 1 64 59 [] 0 0).
Proof.
  split; [split|]; cbn [pmm_bitmap pmm_bitmap_size pmm_total_pages_count pmm_free_pages_count].
  - reflexivity.
  - repeat constructor; lia.
  - lia.
  - lia.
  - vm_compute. reflexivity.
  - lia.
Qed.

Lemma paging_init_identity_witness :
  paging_get_physical 4096 (paging_init true 8192 262144 boot_state) = 0 \/
  paging_get_physical 4096 (paging_init true 8192 262144 boot_state) = 4096.
Proof.
  destruct (paging_init_identity boot_state 8192 262144) as (_ & Hsafe & _).
  - apply boot_alloc_inv.
  - vm_compute. reflexivity.
  - vm_compute. reflexivity.
  - vm_compute. discriminate.
  - apply Hsafe. lia.
Defined.

Abbreviation huge_state := (paging_map_huge 4194304 4194304 PAGE_WRITABLE root_state).

Lemma paging_map_over_huge_witness :
  paging_get_physical 4198400 (paging_map 4198400 32768 PAGE_WRITABLE huge_state) =
  paging_get_physical 4198400 huge_state.
Proof.
  destruct (paging_map_huge_spec root_state {[4096 := 4%nat]} 4194304 4194304 PAGE_WRITABLE)
    as (l & Hl & _).
  - apply root_inv.
  - unfold is_u64. lia.
  - by split.
  - by split.
  - apply (paging_map_over_huge huge_state l 4198400 32768 PAGE_WRITABLE 12288 2).
    + exact Hl.
    + unfold is_u64. lia.
    + vm_compute. reflexivity.
    + vm_compute. repeat split; discriminate.
    + match goal with |- l !! ?b = None => destruct (l !! b) as [k|] eqn:E; [|reflexivity] end.
      apply (gi_used _ _ Hl) in E. exfalso. revert E. vm_compute. intros [_ E]. discriminate.
Defined.
End Examples.
