(* ===== verification/Vm.v ===== *)
(** * Address spaces (src/src/process/vm.c)

    User address spaces over the shared physical memory: page-table
    construction, mapping, cloning for [fork] with copy-on-write, and the
    copy-on-write fault.  An address space structure lives on the kernel heap;
    [spaces] maps its address to its fields.  Entries are words of physical
    memory addressed as in [PageTable]; [get_pte] returns the address of the
    entry, 0 being the null pointer.  The processor's view of a page is its
    entry: reads and writes through a virtual address go to the frame the
    entry names, and the TLB is not modelled. *)

From S2P Require Import Prelude Pmm KHeap PageTable.

Definition VM_FLAG_PRESENT : Z := 1.
Definition VM_FLAG_WRITABLE : Z := 2.
Definition VM_FLAG_USER : Z := 4.
Definition VM_FLAG_COW : Z := 512.

Record vm_space : Type := VmSpace {
  vs_pml4 : Z;
  code_start : Z; code_end : Z;
  data_start : Z; data_end : Z;
  heap_start : Z; heap_end : Z;
  stack_top : Z; stack_bottom : Z
}.

Record vmm : Type := Vmm {
  vmem : phys_mem;
  vpmm : pmm;
  vheap : kheap;
  spaces : gmap Z vm_space;
  kernel_pml4 : Z
}.

Definition set_vmem m (s : vmm) : vmm := Vmm m (vpmm s) (vheap s) (spaces s) (kernel_pml4 s).
Definition set_vpmm p (s : vmm) : vmm := Vmm (vmem s) p (vheap s) (spaces s) (kernel_pml4 s).
Definition set_vheap h (s : vmm) : vmm := Vmm (vmem s) (vpmm s) h (spaces s) (kernel_pml4 s).
Definition set_spaces x (s : vmm) : vmm := Vmm (vmem s) (vpmm s) (vheap s) x (kernel_pml4 s).

(** [*p] and [*p = v] for a [uint64_t*]. *)
Definition ld (m : phys_mem) (p : Z) : Z := default 0 (m !! p).
Definition st (m : phys_mem) (p v : Z) : phys_mem := <[p := v]> m.

Definition TABLE_FLAGS : Z := VM_FLAG_PRESENT .| VM_FLAG_WRITABLE .| VM_FLAG_USER.

(** One level of [get_pte]: the table the entry leads to, made if missing. *)
Definition pte_level (create : bool) (table i : Z) (s : vmm) : option (Z * vmm) :=
  let e := rd (vmem s) table i in
  if negb (present e) then
    if negb create then None
    else
      let '(new_table, p) := pmm_alloc_page (vpmm s) in
      let m := wr (clear_table (vmem s) new_table) table i (new_table .| TABLE_FLAGS) in
      Some (pte_addr (rd m table i), set_vmem m (set_vpmm p s))
  else Some (pte_addr e, s).

Definition get_pte (pml4 virt : Z) (create : bool) (s : vmm) : Z * vmm :=
  match pte_level create pml4 (idx 4 virt) s with
  | None => (0, s)
  | Some (pdpt, s) =>
      match pte_level create pdpt (idx 3 virt) s with
      | None => (0, s)
      | Some (pd, s) =>
          match pte_level create pd (idx 2 virt) s with
          | None => (0, s)
          | Some (pt, s) => (pt + 8 * idx 1 virt, s)
          end
      end
  end.

Definition vm_map_page (space : vm_space) (virt phys flags : Z) (s : vmm) : Z * vmm :=
  let '(pte, s) := get_pte (vs_pml4 space) virt true s in
  if pte =? 0 then (-1, s)
  else (0, set_vmem (st (vmem s) pte ((phys .& ADDR_MASK) .| flags .| VM_FLAG_PRESENT)) s).

Definition vm_unmap_page (space : vm_space) (virt : Z) (s : vmm) : Z * vmm :=
  let '(pte, s) := get_pte (vs_pml4 space) virt false s in
  if (pte =? 0) || negb (present (ld (vmem s) pte)) then (-1, s)
  else (0, set_vmem (st (vmem s) pte 0) s).

Definition vm_get_physical (space : vm_space) (virt : Z) (s : vmm) : Z :=
  let '(pte, s) := get_pte (vs_pml4 space) virt false s in
  if (pte =? 0) || negb (present (ld (vmem s) pte)) then 0
  else ld (vmem s) pte .& ADDR_MASK.

(** [kmalloc(sizeof(vm_space_t))] and [kfree]. *)
Definition sizeof_vm_space : Z := 72.

Definition vm_create_space (fuel : nat) (s : vmm) : option (Z * vmm) :=
  '(space, h) ← kmalloc fuel sizeof_vm_space (vheap s);
  let s := set_vheap h s in
  if space =? 0 then Some (0, s)
  else
    let '(pml4, p) := pmm_alloc_page (vpmm s) in
    let s := set_vpmm p s in
    if pml4 =? 0 then
      h ← kfree fuel space (vheap s);
      Some (0, set_vheap h s)
    else
      let m := clear_table (vmem s) pml4 in
      let m := foldl (fun m i => wr m pml4 i (rd m (kernel_pml4 s) i)) m (seqZ 256 256) in
      let user_max := 2 ^ 47 - 1 in
      Some (space, set_spaces (<[space := VmSpace pml4 4194304 4194304 8388608 8388608
                                   268435456 268435456 user_max user_max]> (spaces s))
                     (set_vmem m s)).

(** The frees of [vm_destroy_space], level by level. *)
Definition destroy_pte (pt : Z) (s : vmm) (l : Z) : vmm :=
  let pte := rd (vmem s) pt l in
  if present pte then
    let phys := pte .& ADDR_MASK in
    let '(r, p) := pmm_ref_dec phys (vpmm s) in
    set_vpmm (if r =? 0 then pmm_free_page phys p else p) s
  else s.

Definition destroy_level (below : Z -> vmm -> vmm) (table : Z) (s : vmm) (i : Z) : vmm :=
  let e := rd (vmem s) table i in
  if present e then
    let t := e .& ADDR_MASK in
    let s := below t s in
    set_vpmm (pmm_free_page t (vpmm s)) s
  else s.

Definition destroy_pt (pt : Z) (s : vmm) : vmm := foldl (destroy_pte pt) s (seqZ 0 512).
Definition destroy_pd (pd : Z) (s : vmm) : vmm := foldl (destroy_level destroy_pt pd) s (seqZ 0 512).
Definition destroy_pdpt (pdpt : Z) (s : vmm) : vmm := foldl (destroy_level destroy_pd pdpt) s (seqZ 0 512).

Definition vm_destroy_space (fuel : nat) (space : Z) (s : vmm) : option vmm :=
  if space =? 0 then Some s
  else
    sp ← spaces s !! space;
    let pml4 := vs_pml4 sp in
    let s := foldl (destroy_level destroy_pdpt pml4) s (seqZ 0 256) in
    let s := set_vpmm (pmm_free_page pml4 (vpmm s)) s in
    h ← kfree fuel space (vheap s);
    Some (set_spaces (delete space (spaces s)) (set_vheap h s)).

(** The copy loops of [vm_clone_space].  A loop that jumps to [fail] yields
    [false]. *)
Fixpoint try_loop {S} (f : Z -> S -> S * bool) (l : list Z) (s : S) : S * bool :=
  match l with
  | [] => (s, true)
  | i :: l' => let '(s, ok) := f i s in if ok then try_loop f l' s else (s, false)
  end.

Definition clone_pte (src_pt dst_pt : Z) (s : vmm) (l : Z) : vmm :=
  let pte := rd (vmem s) src_pt l in
  if negb (present pte) then s
  else
    let phys := pte .& ADDR_MASK in
    let wu := VM_FLAG_WRITABLE .| VM_FLAG_USER in
    let '(pte, s) :=
      if pte .& wu =? wu then
        let p := if pmm_ref_count phys (vpmm s) =? 1 then pmm_ref_inc phys (vpmm s) else vpmm s in
        let p := pmm_ref_inc phys p in
        let pte := (pte .& u64 (Z.lnot VM_FLAG_WRITABLE)) .| VM_FLAG_COW in
        (pte, set_vmem (wr (vmem s) src_pt l pte) (set_vpmm p s))
      else (pte, s) in
    set_vmem (wr (vmem s) dst_pt l pte) s.

Definition clone_pt (src_pt dst_pt : Z) (s : vmm) : vmm * bool :=
  (foldl (clone_pte src_pt dst_pt) s (seqZ 0 512), true).

(** One entry of a table above the page tables: allocate and clear the
    destination's table, fill it, then link it. *)
Definition clone_level (below : Z -> Z -> vmm -> vmm * bool) (src dst : Z) (i : Z) (s : vmm)
    : vmm * bool :=
  let e := rd (vmem s) src i in
  if negb (present e) then (s, true)
  else
    let src' := e .& ADDR_MASK in
    let '(dst', p) := pmm_alloc_page (vpmm s) in
    let s := set_vpmm p s in
    if dst' =? 0 then (s, false)
    else
      let '(s, ok) := below src' dst' (set_vmem (clear_table (vmem s) dst') s) in
      if ok then (set_vmem (wr (vmem s) dst i (dst' .| TABLE_FLAGS)) s, true) else (s, false).

Definition clone_pd (src dst : Z) (s : vmm) : vmm * bool :=
  try_loop (clone_level clone_pt src dst) (seqZ 0 512) s.
Definition clone_pdpt (src dst : Z) (s : vmm) : vmm * bool :=
  try_loop (clone_level clone_pd src dst) (seqZ 0 512) s.

Definition vm_clone_space (fuel : nat) (src : Z) (s : vmm) : option (Z * vmm) :=
  sp ← spaces s !! src;
  '(dst, s) ← vm_create_space fuel s;
  if dst =? 0 then Some (0, s)
  else
    dp ← spaces s !! dst;
    let '(s, ok) := try_loop (clone_level clone_pdpt (vs_pml4 sp) (vs_pml4 dp)) (seqZ 0 256) s in
    if ok then
      Some (dst, set_spaces (<[dst := VmSpace (vs_pml4 dp) (code_start sp) (code_end sp)
              (data_start sp) (data_end sp) (heap_start sp) (heap_end sp)
              (stack_top sp) (stack_bottom sp)]> (spaces s)) s)
    else
      s ← vm_destroy_space fuel dst s;
      Some (0, s).

Definition set_heap_end (v : Z) (sp : vm_space) : vm_space :=
  VmSpace (vs_pml4 sp) (code_start sp) (code_end sp) (data_start sp) (data_end sp)
          (heap_start sp) v (stack_top sp) (stack_bottom sp).

(** [false]: out of pages, or the mapping failed. *)
Definition alloc_one (sp : vm_space) (start flags : Z) (i : Z) (s : vmm) : vmm * bool :=
  let '(phys, p) := pmm_alloc_page (vpmm s) in
  let s := set_vpmm p s in
  if phys =? 0 then (s, false)
  else
    let '(r, s) := vm_map_page sp (u64 (start + i * 4096)) phys flags s in
    if r <? 0 then (set_vpmm (pmm_free_page phys (vpmm s)) s, false) else (s, true).

Definition vm_alloc_pages (space count flags : Z) (s : vmm) : option (Z * vmm) :=
  sp ← spaces s !! space;
  let start := heap_end sp in
  let '(s, ok) := try_loop (alloc_one sp start flags) (seqZ 0 count) s in
  if ok then
    Some (start, set_spaces (<[space := set_heap_end (u64 (start + u64 (count * 4096))) sp]> (spaces s)) s)
  else Some (0, s).

Definition free_one (sp : vm_space) (addr : Z) (s : vmm) (i : Z) : vmm :=
  let phys := vm_get_physical sp (u64 (addr + i * 4096)) s in
  let '(_, s) := vm_unmap_page sp (u64 (addr + i * 4096)) s in
  if phys =? 0 then s else set_vpmm (pmm_free_page phys (vpmm s)) s.

Definition vm_free_pages (sp : vm_space) (virt count : Z) (s : vmm) : vmm :=
  foldl (free_one sp virt) s (seqZ 0 count).

Definition vm_init (cr3 : Z) (s : vmm) : vmm :=
  Vmm (vmem s) (vpmm s) (vheap s) (spaces s) cr3.

(** [space] is the current process's address space, [None] when there is no
    current process or it has none. *)
Definition vm_handle_cow_fault (space : option vm_space) (fault_addr err_code : Z) (s : vmm) : Z * vmm :=
  if negb (err_code .& 3 =? 3) then (-1, s)
  else match space with
  | None => (-1, s)
  | Some sp =>
      let aligned_addr := fault_addr .& u64 (Z.lnot 4095) in
      let '(pte, s) := get_pte (vs_pml4 sp) aligned_addr false s in
      if (pte =? 0) || negb (present (ld (vmem s) pte)) then (-1, s)
      else
        let e := ld (vmem s) pte in
        if e .& VM_FLAG_COW =? 0 then (-1, s)
        else
          let old_phys := e .& ADDR_MASK in
          if pmm_ref_count old_phys (vpmm s) <=? 1 then
            (0, set_vmem (st (vmem s) pte
                   ((e .& u64 (Z.lnot VM_FLAG_COW)) .| VM_FLAG_WRITABLE)) s)
          else
            let '(new_phys, p) := pmm_alloc_page (vpmm s) in
            let s := set_vpmm p s in
            if new_phys =? 0 then (-1, s)
            else
              let tmp := page_words (vmem s) old_phys in
              let m := st (vmem s) pte ((new_phys .& ADDR_MASK) .| VM_FLAG_PRESENT
                                          .| VM_FLAG_USER .| VM_FLAG_WRITABLE) in
              let m := fill_page m new_phys tmp in
              (0, set_vmem m (set_vpmm (pmm_ref_dec old_phys p).2 s))
  end.

(** ** Well-formed address spaces *)

Section inv.
Implicit Types (s : vmm) (lvl : gmap Z nat) (v : Z) (sp : vm_space).

Record vm_inv s lvl : Prop := {
  vi_tables : pt_inv 256 (vmem s) lvl;
  vi_pmm : pmm_inv52 (vpmm s);
  vi_used t k : lvl !! t = Some k -> pmm_used (vpmm s) t;
  vi_plain t i : lvl !! t = Some 2%nat -> 0 <= i < 512 -> huge (rd (vmem s) t i) = false
}.

(** The frame that the walk for [v] finds, 0 when there is none. *)
Definition xlate (m : phys_mem) (root v : Z) : Z :=
  match walk 4 m root v with
  | None => 0
  | Some (t, i, _) => if present (rd m t i) then pte_addr (rd m t i) else 0
  end.

(** At least [n] more pages can be allocated, none of them page 0. *)
Definition avail (n : Z) (p : pmm) : Prop :=
  pmm_inv52 p /\ pmm_used p 0 /\ n <= pmm_free_pages_count p.

Lemma avail_alloc n p : 0 <= n -> avail (n + 1) p ->
  (pmm_alloc_page p).1 <> 0 /\ avail n (pmm_alloc_page p).2.
Proof.
  intros Hn (Hinv & H0 & Hf). pose proof (pmm_alloc_inv52 p Hinv) as Hinv'.
  pose proof (pmm_alloc_keeps p 0 Hinv H0) as H0'. destruct Hinv as [Hwf Ht].
  destruct (pmm_alloc_page_cases p Hwf) as [(q & Hok & Ha)|[E Hall]].
  - destruct Hok as (Hq & Hu & _ & E2). split.
    + rewrite Ha. unfold PAGE_SIZE. assert (q <> 0); [|lia]. intros ->. destruct H0 as [_ H0].
      change (0 / PAGE_SIZE) with 0 in H0. congruence.
    + split; [done|]. split; [done|]. rewrite E2. cbn [mark_used set_bitmap pmm_free_pages_count].
      pose proof (free_count_bounds p Hwf). pose proof (wf_free p Hwf). pose proof (wf_total p Hwf).
      pose proof (wf_size_max p Hwf). rewrite u64_id; [lia|]. unfold is_u64. lia.
  - exfalso. rewrite (wf_free p Hwf) in Hf. unfold free_count in Hf.
    rewrite countb_none in Hf; [lia|]. intros x Hx%elem_of_seqZ. unfold page_free. rewrite Hall by lia. done.
Qed.

Lemma plain_walk_end s lvl root v t i n :
  vm_inv s lvl -> lvl !! root = Some 4%nat -> idx 4 v < 256 ->
  walk 4 (vmem s) root v = Some (t, i, n) -> n = 1%nat /\ lvl !! t = Some 1%nat /\ i = idx 1 v.
Proof.
  intros Hinv Hr Hv Hw.
  destruct (walk_end 256 _ _ (vi_tables _ _ Hinv) _ _ _ _ _ _ Hr (fun _ => Hv) Hw) as (Hl & -> & _ & [->|[-> Hh]]); [done|].
  by rewrite (vi_plain _ _ Hinv) in Hh by (done || apply idx_bounds).
Qed.

Lemma get_pte_false s lvl root v :
  vm_inv s lvl -> lvl !! root = Some 4%nat -> idx 4 v < 256 ->
  get_pte root v false s =
    (match walk 4 (vmem s) root v with Some (t, i, _) => t + 8 * i | None => 0 end, s).
Proof.
  intros Hinv Hr Hv. pose proof (vi_tables _ _ Hinv) as Ht. unfold get_pte, pte_level. cbn [negb].
  assert (Hstep : forall n t, (1 <= n)%nat -> lvl !! t = Some (S n) -> present (rd (vmem s) t (idx (S n) v)) = true ->
    (S n = 4%nat -> idx 4 v < 256) ->
    links 256 (vmem s) lvl t (S n) (idx (S n) v)).
  { intros n t Hn Hl Hp H4. split; [by apply tracked_user|]. split; [lia|]. split; [done|].
    intros [E Hh]. rewrite (vi_plain _ _ Hinv) in Hh; [done|by rewrite Hl, E|apply idx_bounds]. }
  destruct (present (rd (vmem s) root (idx 4 v))) eqn:E4; cbn [negb].
  2:{ cbn [walk]. by rewrite E4. }
  pose proof (Hstep 3%nat _ ltac:(lia) Hr E4 (fun _ => Hv)) as L4. pose proof (pi_child _ _ _ Ht _ _ _ L4) as R3.
  rewrite (walk_links 256 _ lvl 3) by (done || lia). cbn [pred] in R3.
  destruct (present (rd (vmem s) _ (idx 3 v))) eqn:E3; cbn [negb].
  2:{ cbn [walk]. by rewrite E3. }
  pose proof (Hstep 2%nat _ ltac:(lia) R3 E3 ltac:(lia)) as L3. pose proof (pi_child _ _ _ Ht _ _ _ L3) as R2.
  rewrite (walk_links 256 _ lvl 2) by (done || lia). cbn [pred] in R2.
  destruct (present (rd (vmem s) _ (idx 2 v))) eqn:E2; cbn [negb].
  2:{ cbn [walk]. rewrite E2. by rewrite (vi_plain _ _ Hinv), andb_false_r by (done || apply idx_bounds). }
  pose proof (Hstep 1%nat _ ltac:(lia) R2 E2 ltac:(lia)) as L2.
  rewrite (walk_links 256 _ lvl 1) by (done || lia). done.
Qed.

Lemma pt_addr_nonzero s lvl t k i : vm_inv s lvl -> lvl !! t = Some k -> 0 <= i -> (t + 8 * i =? 0) = false.
Proof.
  intros Hinv Hl Hi. destruct (pi_page _ _ _ (vi_tables _ _ Hinv) _ _ Hl) as [[? _] _].
  apply Z.eqb_neq. lia.
Qed.

Lemma vm_get_physical_xlate s lvl sp v :
  vm_inv s lvl -> lvl !! vs_pml4 sp = Some 4%nat -> idx 4 v < 256 ->
  vm_get_physical sp v s = xlate (vmem s) (vs_pml4 sp) v.
Proof.
  intros Hinv Hr Hv. unfold vm_get_physical, xlate. rewrite (get_pte_false s lvl) by done.
  destruct (walk 4 _ _ v) as [[[t i] n]|] eqn:Ew; [|done].
  destruct (plain_walk_end s lvl _ _ _ _ _ Hinv Hr Hv Ew) as (-> & Hl & ->).
  rewrite (pt_addr_nonzero s lvl t 1) by (done || apply idx_bounds). cbn [orb].
  change (ld (vmem s) (t + 8 * idx 1 v)) with (rd (vmem s) t (idx 1 v)).
  by destruct (present _).
Qed.
End inv.

Section mapping.
Implicit Types (s : vmm) (lvl : gmap Z nat) (v : Z) (sp : vm_space).

(** The tables grow, translations do not change. *)
Record grows s lvl s' lvl' : Prop := {
  gr_inv : vm_inv s' lvl';
  gr_mono : lvl ⊆ lvl';
  gr_xlate root v : lvl !! root = Some 4%nat -> idx 4 v < 256 ->
    xlate (vmem s') root v = xlate (vmem s) root v
}.

Lemma grows_refl s lvl : vm_inv s lvl -> grows s lvl s lvl.
Proof. by split. Qed.

Lemma grows_trans s1 l1 s2 l2 s3 l3 : grows s1 l1 s2 l2 -> grows s2 l2 s3 l3 -> grows s1 l1 s3 l3.
Proof.
  intros [I1 M1 X1] [I2 M2 X2]. split; [done|by etrans|]. intros root v Hr Hv.
  rewrite X2, X1; try done. by apply (lookup_weaken l1).
Qed.

Lemma table_flags_entry r : is_page r ->
  present (r .| TABLE_FLAGS) = true /\ huge (r .| TABLE_FLAGS) = false /\ pte_addr (r .| TABLE_FLAGS) = r.
Proof.
  intros Hr. rewrite present_bit, huge_bit, !Z.lor_spec.
  rewrite (frame_bit_low r 7) by first [lia | by apply page_frame].
  split; [by rewrite orb_true_r|]. split; [done|].
  apply pte_addr_make; [by apply page_frame|]. by apply low_flags_mask.
Qed.

(** An entry linked to the table [r] of the next level. *)
Definition leads s lvl t k i r : Prop :=
  links 256 (vmem s) lvl t k i /\ pte_addr (rd (vmem s) t i) = r /\ lvl !! r = Some (pred k).

Lemma leads_frame s lvl s' lvl' t k i r :
  leads s lvl t k i r -> lvl ⊆ lvl' -> rd (vmem s') t i = rd (vmem s) t i -> leads s' lvl' t k i r.
Proof.
  intros (((H1 & H2) & H3) & H4 & H5) Hsub Hrd. unfold leads, links, tracked. rewrite Hrd.
  split; [split; [split; [by apply (lookup_weaken lvl)|done]|done]|].
  split; [done|]. by apply (lookup_weaken lvl).
Qed.

Lemma link_grows s lvl t k i r :
  vm_inv s lvl -> tracked 256 lvl t k i -> (2 <= k)%nat -> present (rd (vmem s) t i) = false ->
  (pmm_alloc_page (vpmm s)).1 = r -> r <> 0 ->
  grows s lvl (set_vmem (link (vmem s) t i r (r .| TABLE_FLAGS)) (set_vpmm (pmm_alloc_page (vpmm s)).2 s))
    (<[r := pred k]> lvl) /\ is_page r /\ lvl !! r = None.
Proof.
  intros [Ht Hp Hu Hpl] Htr Hk Ep Er Hr0. pose proof (pmm_alloc_fresh _ Hp) as Hfresh.
  rewrite Er in Hfresh. destruct (Hfresh Hr0) as (Hpage & Hnu & Hru).
  assert (Hnone : lvl !! r = None).
  { destruct (lvl !! r) eqn:E; [|done]. destruct Hnu. by apply (Hu r n). }
  destruct (table_flags_entry r Hpage) as (He1 & He2 & He3). set (e := r .| TABLE_FLAGS) in *.
  split; [|done]. split; [|by apply insert_subseteq|].
  - split; cbn [vmem vpmm set_vmem set_vpmm].
    + by apply (link_inv 256 _ lvl Ht).
    + by apply pmm_alloc_inv52.
    + intros t' k'. destruct (decide (r = t')) as [<-|Hne]; [done|].
      rewrite lookup_insert_ne by done. intros Hl. apply pmm_alloc_keeps; [done|]. by apply (Hu t' k').
    + intros t' i' Hl Hi'. destruct (decide (r = t')) as [<-|Hne].
      * rewrite (rd_link_new 256 _ _ Ht t i r e k); done.
      * rewrite lookup_insert_ne in Hl by done.
        rewrite (rd_link_old 256 _ _ Ht t i r e k Htr Ep Hpage Hnone He3 t' 2) by done.
        case_bool_decide; [done|]. by apply Hpl.
  - intros root v Hr Hv. unfold xlate. cbn [vmem set_vmem].
    destruct (walk_link 256 _ lvl Ht t i r e k Htr Hk Ep Hpage Hnone He1 He2 He3 4 root v Hr (fun _ => Hv))
      as [E|[-> Hz]].
    + rewrite E. destruct (walk 4 (vmem s) root v) as [[[t1 i1] n1]|] eqn:Ew; [|done].
      destruct (plain_walk_end s lvl root v t1 i1 n1) as (-> & Hl1 & ->); [by split|done..|].
      rewrite (rd_link_old 256 _ _ Ht t i r e k Htr Ep Hpage Hnone He3 t1 1) by (done || apply idx_bounds).
      rewrite bool_decide_false; [done|]. intros [<- _]. destruct Htr. assert (k = 1%nat) by congruence. lia.
    + destruct (walk 4 (link _ _ _ _ _) root v) as [[[t1 i1] n1]|]; [|done].
      by destruct (Hz t1 i1 n1 eq_refl) as [_ ->].
Qed.

Lemma pte_level_spec n s lvl t k i :
  vm_inv s lvl -> tracked 256 lvl t k i -> (2 <= k)%nat -> 0 <= n -> avail (n + 1) (vpmm s) ->
  exists r s' lvl', pte_level true t i s = Some (r, s') /\ grows s lvl s' lvl' /\
    avail n (vpmm s') /\ leads s' lvl' t k i r /\
    (forall t' k' i', lvl !! t' = Some k' -> 0 <= i' < 512 -> t' <> t ->
       rd (vmem s') t' i' = rd (vmem s) t' i').
Proof.
  intros Hinv Htr Hk Hn Hav. pose proof (vi_tables _ _ Hinv) as Ht. unfold pte_level.
  destruct (present (rd (vmem s) t i)) eqn:Ep; cbn [negb].
  { eexists _, s, lvl. split; [done|]. split; [by apply grows_refl|].
    split; [destruct Hav as (? & ? & ?); split; [done|]; split; [done|lia]|].
    assert (Hl : links 256 (vmem s) lvl t k i).
    { split; [done|]. split; [done|]. split; [done|]. intros [-> Hh]. destruct Htr as (H1 & H2 & _).
      by rewrite (vi_plain _ _ Hinv) in Hh. }
    split; [|done]. split; [done|]. split; [done|]. by apply (pi_child _ _ _ Ht). }
  destruct (avail_alloc n (vpmm s) Hn Hav) as [Hr0 Hav'].
  pose proof (link_grows s lvl t k i _ Hinv Htr Hk Ep eq_refl Hr0) as (Hgr & Hpage & Hnone).
  destruct (pmm_alloc_page (vpmm s)) as [r p]. cbn [fst snd] in *.
  destruct (table_flags_entry r Hpage) as (He1 & He2 & He3).
  fold (link (vmem s) t i r (r .| TABLE_FLAGS)). rewrite rd_link_at, He3.
  eexists r, _, (<[r := pred k]> lvl). split; [done|]. split; [done|]. split; [done|]. split.
  - split; [|cbn [vmem set_vmem]; rewrite rd_link_at; split; [done|apply lookup_insert_eq]].
    destruct Htr as (H1 & H2 & H3). split; [split; [rewrite lookup_insert_ne by congruence; done|done]|].
    cbn [vmem set_vmem]. rewrite rd_link_at. split; [done|]. split; [done|]. rewrite He2. by intros [_ ?].
  - intros t' k' i' Ht' Hi' Hne. cbn [vmem set_vmem].
    rewrite (rd_link_old 256 _ _ Ht t i r _ k Htr Ep Hpage Hnone He3 t' k') by done.
    rewrite bool_decide_false by (by intros [-> _]). done.
Qed.

Lemma get_pte_true s lvl root v :
  vm_inv s lvl -> avail 3 (vpmm s) -> lvl !! root = Some 4%nat -> idx 4 v < 256 ->
  exists pt s' lvl', get_pte root v true s = (pt + 8 * idx 1 v, s') /\ grows s lvl s' lvl' /\
    lvl' !! pt = Some 1%nat /\ walk 4 (vmem s') root v = Some (pt, idx 1 v, 1%nat).
Proof.
  intros Hinv Hav Hr Hv. unfold get_pte.
  destruct (pte_level_spec 2 s lvl root 4 (idx 4 v)) as (pdpt & s1 & l1 & -> & G1 & A1 & L1 & _);
    [done|split; [done|]; split; [apply idx_bounds|done]|lia..|done|].
  assert (T3 : tracked 256 l1 pdpt 3 (idx 3 v)) by (split; [apply L1|]; split; [apply idx_bounds|lia]).
  destruct (pte_level_spec 1 s1 l1 pdpt 3 (idx 3 v)) as (pd & s2 & l2 & -> & G2 & A2 & L2 & F2);
    [apply G1|done|lia..|done|].
  assert (T2 : tracked 256 l2 pd 2 (idx 2 v)) by (split; [apply L2|]; split; [apply idx_bounds|lia]).
  destruct (pte_level_spec 0 s2 l2 pd 2 (idx 2 v)) as (pt & s3 & l3 & -> & G3 & A3 & L3 & F3);
    [apply G2|done|lia..|done|].
  exists pt, s3, l3. split; [done|]. split; [eapply grows_trans; [done|]; by eapply grows_trans|].
  split; [apply L3|].
  assert (Hr1 : l1 !! root = Some 4%nat) by (apply (lookup_weaken lvl); [done|apply G1]).
  assert (Hr2 : l2 !! root = Some 4%nat) by (apply (lookup_weaken l1); [done|apply G2]).
  assert (Hp2 : l2 !! pdpt = Some 3%nat) by (apply (lookup_weaken l1); [apply T3|apply G2]).
  assert (L1' : leads s3 l3 root 4 (idx 4 v) pdpt).
  { apply (leads_frame s2 l2); [apply (leads_frame s1 l1); [done|apply G2|]|apply G3|].
    - apply (F2 _ 4%nat); [done|apply idx_bounds|]. intros ->. destruct T3. congruence.
    - apply (F3 _ 4%nat); [done|apply idx_bounds|]. intros ->. destruct T2. congruence. }
  assert (L2' : leads s3 l3 pdpt 3 (idx 3 v) pd).
  { apply (leads_frame s2 l2); [done|apply G3|].
    apply (F3 _ 3%nat); [done|apply idx_bounds|]. intros ->. destruct T2. congruence. }
  destruct L1' as (K1 & E1 & _), L2' as (K2 & E2 & _), L3 as (K3 & E3 & _).
  rewrite (walk_links 256 _ l3 3), E1, (walk_links 256 _ l3 2), E2, (walk_links 256 _ l3 1), E3
    by (done || lia). done.
Qed.

(** Storing an entry at the end of a walk: what it does to translations. *)
Lemma store_xlate s lvl root v pt e :
  vm_inv s lvl -> lvl !! root = Some 4%nat -> idx 4 v < 256 ->
  walk 4 (vmem s) root v = Some (pt, idx 1 v, 1%nat) -> lvl !! pt = Some 1%nat ->
  let s' := set_vmem (st (vmem s) (pt + 8 * idx 1 v) e) s in
  vm_inv s' lvl /\
  forall root' v', lvl !! root' = Some 4%nat -> idx 4 v' < 256 ->
    xlate (vmem s') root' v' =
      if (root' =? root) && (vpn v' =? vpn v) then (if present e then pte_addr e else 0)
      else xlate (vmem s) root' v'.
Proof.
  intros Hinv Hr Hv Hw Hpt. pose proof (vi_tables _ _ Hinv) as Ht. cbn zeta.
  change (st (vmem s) (pt + 8 * idx 1 v) e) with (wr (vmem s) pt (idx 1 v) e).
  assert (Htr : tracked 256 lvl pt 1 (idx 1 v)) by (split; [done|]; split; [apply idx_bounds|lia]).
  split.
  - split; cbn [vmem vpmm set_vmem]; [|apply Hinv|apply Hinv|].
    + apply (leaf_write_inv 256 _ _ Ht _ 1); [done|by left].
    + intros t i Hl Hi. rewrite (leaf_write_rd 256 _ _ Ht pt 1 (idx 1 v) e t 2) by done.
      rewrite bool_decide_false by (intros [-> _]; congruence). by apply (vi_plain _ _ Hinv).
  - intros root' v' Hr' Hv'. unfold xlate. cbn [vmem set_vmem].
    rewrite (walk_leaf_write 256 _ lvl Ht) by done.
    destruct (Z.eqb_spec root' root) as [->|Hroot], (Z.eqb_spec (vpn v') (vpn v)) as [Hvpn|Hvpn]; cbn [andb].
    1: { assert (Hwv : walk 4 (vmem s) root v' = walk 4 (vmem s) root v)
          by (cbn [walk]; rewrite !(proj2 (idx_vpn v' v) Hvpn) by lia; done).
        by rewrite Hwv, Hw, rd_wr_eq. }
    all: destruct (walk 4 (vmem s) _ v') as [[[t1 i1] n1]|] eqn:Ew; [|done].
    all: destruct (plain_walk_end s lvl _ _ _ _ _ Hinv Hr' Hv' Ew) as (-> & Hl1 & ->).
    all: rewrite (leaf_write_rd 256 _ _ Ht pt 1 (idx 1 v) e t1 1) by (done || apply idx_bounds).
    all: rewrite bool_decide_false; [done|]; intros [<- Hi].
    all: destruct (walk_inj 256 _ _ Ht 4 _ _ _ _ _ _ _ _ Hr' Hr (fun _ => Hv') (fun _ => Hv) Ew Hw) as [Heq Hidx].
    all: try done.
    apply Hvpn, idx_vpn. intros j Hj. destruct (decide (j = 1%nat)) as [->|]; [done|]. apply Hidx. lia.
Qed.
End mapping.

(** ** Copy-on-write *)

Section cow.
Implicit Types (s : vmm) (lvl : gmap Z nat) (v : Z) (sp : vm_space).

(** Memory outside the tables may change freely. *)
Lemma vm_inv_frame s s' lvl :
  vm_inv s lvl -> vpmm s' = vpmm s ->
  (forall t k i, lvl !! t = Some k -> 0 <= i < 512 -> rd (vmem s') t i = rd (vmem s) t i) ->
  vm_inv s' lvl /\ forall root v, lvl !! root = Some 4%nat -> idx 4 v < 256 ->
    xlate (vmem s') root v = xlate (vmem s) root v.
Proof.
  intros Hinv Hp Hrd. pose proof (vi_tables _ _ Hinv) as Ht. split.
  - split; rewrite ?Hp; try apply Hinv.
    + by apply (frame_pt_inv 256 (vmem s)).
    + intros t i Hl Hi. rewrite (Hrd t 2%nat i) by done. by apply Hinv.
  - intros root v Hr Hv. unfold xlate. rewrite (frame_walk 256 (vmem s) _ lvl Hrd) by done.
    destruct (walk 4 (vmem s) root v) as [[[t1 i1] n1]|] eqn:Ew; [|done].
    destruct (plain_walk_end s lvl _ _ _ _ _ Hinv Hr Hv Ew) as (-> & Hl1 & ->).
    by rewrite (Hrd t1 1%nat) by (done || apply idx_bounds).
Qed.

Lemma vm_inv_pmm s p lvl :
  vm_inv s lvl -> pmm_inv52 p -> (forall t, pmm_used (vpmm s) t -> pmm_used p t) -> vm_inv (set_vpmm p s) lvl.
Proof. intros [] Hp Hu. split; try done. intros t k Hl. by apply Hu, (vi_used0 t k). Qed.

Lemma aligned_walk v root m : is_u64 v -> walk 4 m root (v .& u64 (Z.lnot 4095)) = walk 4 m root v.
Proof.
  intros Hv. change (u64 (Z.lnot 4095)) with PAGE_MASK. cbn [walk].
  rewrite !page_mask_idx by (done || lia). done.
Qed.

Lemma ref_dec_pages a p : pmm_bitmap (pmm_ref_dec a p).2 = pmm_bitmap p /\
  (pmm_wf p -> pmm_wf (pmm_ref_dec a p).2) /\
  pmm_total_pages_count (pmm_ref_dec a p).2 = pmm_total_pages_count p.
Proof.
  unfold pmm_ref_dec. destruct (_ <=? _); [done|]. destruct (0 <? _); [|done]. cbn [snd set_refs].
  split; [done|]. split; [|done]. by intros [].
Qed.
End cow.

(** ** Properties *)

Section props.
Implicit Types (s : vmm) (lvl : gmap Z nat) (v : Z) (sp : vm_space).

(** [C9] With pages left for tables, [vm_map_page] at a user address succeeds;
    afterwards that page of that address space translates to the frame, and
    every other user page of every address space translates as before. *)
Theorem vm_map_page_correct s lvl sp v phys flags :
  vm_inv s lvl -> avail 3 (vpmm s) -> lvl !! vs_pml4 sp = Some 4%nat -> idx 4 v < 256 ->
  flags .& ADDR_MASK = 0 ->
  exists s' lvl', vm_map_page sp v phys flags s = (0, s') /\ vm_inv s' lvl' /\
    forall sp' v', lvl !! vs_pml4 sp' = Some 4%nat -> idx 4 v' < 256 ->
      vm_get_physical sp' v' s' =
        if (vs_pml4 sp' =? vs_pml4 sp) && (vpn v' =? vpn v) then phys .& ADDR_MASK
        else vm_get_physical sp' v' s.
Proof.
  intros Hinv Hav Hr Hv Hfl. unfold vm_map_page.
  destruct (get_pte_true s lvl (vs_pml4 sp) v Hinv Hav Hr Hv) as (pt & s1 & l1 & -> & [I1 M1 X1] & Hpt & Hw).
  rewrite (pt_addr_nonzero s1 l1 pt 1) by (done || apply idx_bounds).
  assert (Hr1 : l1 !! vs_pml4 sp = Some 4%nat) by by apply (lookup_weaken lvl).
  set (e := (phys .& ADDR_MASK) .| flags .| VM_FLAG_PRESENT).
  destruct (store_xlate s1 l1 (vs_pml4 sp) v pt e I1 Hr1 Hv Hw Hpt) as [I2 X2].
  eexists _, l1. split; [done|]. split; [done|]. intros sp' v' Hr' Hv'.
  assert (Hr1' : l1 !! vs_pml4 sp' = Some 4%nat) by by apply (lookup_weaken lvl).
  rewrite (vm_get_physical_xlate _ l1), (vm_get_physical_xlate s lvl) by done.
  rewrite X2 by done. destruct (_ && _) eqn:E; [|by apply X1].
  assert (present e = true) as -> by (unfold e; by rewrite present_bit, Z.lor_spec, orb_true_r).
  unfold pte_addr, e. rewrite !Z.land_lor_distr_l, Hfl, <- Z.land_assoc, Z.land_diag.
  change (VM_FLAG_PRESENT .& ADDR_MASK) with 0. by rewrite !Z.lor_0_r.
Qed.

(** [vm_unmap_page] on a mapped user page succeeds and makes exactly that
    page of that address space unmapped; on an unmapped one it returns -1 and
    changes nothing. *)
Theorem vm_unmap_page_correct s lvl sp v :
  vm_inv s lvl -> lvl !! vs_pml4 sp = Some 4%nat -> idx 4 v < 256 ->
  (vm_unmap_page sp v s = (-1, s) /\ vm_get_physical sp v s = 0) \/
  exists s', vm_unmap_page sp v s = (0, s') /\ vm_inv s' lvl /\
    forall sp' v', lvl !! vs_pml4 sp' = Some 4%nat -> idx 4 v' < 256 ->
      vm_get_physical sp' v' s' =
        if (vs_pml4 sp' =? vs_pml4 sp) && (vpn v' =? vpn v) then 0 else vm_get_physical sp' v' s.
Proof.
  intros Hinv Hr Hv. unfold vm_unmap_page. unfold vm_get_physical at 1.
  rewrite (get_pte_false s lvl) by done.
  destruct (walk 4 (vmem s) (vs_pml4 sp) v) as [[[t i] n]|] eqn:Ew; [|by left].
  destruct (plain_walk_end s lvl _ _ _ _ _ Hinv Hr Hv Ew) as (-> & Hl & ->).
  rewrite (pt_addr_nonzero s lvl t 1) by (done || apply idx_bounds). cbn [orb].
  destruct (present (ld (vmem s) (t + 8 * idx 1 v))) eqn:Ep; cbn [negb]; [right|by left].
  destruct (store_xlate s lvl (vs_pml4 sp) v t 0 Hinv Hr Hv Ew Hl) as [I2 X2].
  eexists. split; [done|]. split; [done|]. intros sp' v' Hr' Hv'.
  rewrite (vm_get_physical_xlate _ lvl), (vm_get_physical_xlate s lvl) by done. by apply X2.
Qed.

(** A page filled with the words of another reads as that page. *)
Lemma page_words_filled m m0 new old : is_page new -> page_words (fill_page m new (page_words m0 old)) new = page_words m0 old.
Proof.
  intros Hn. apply list_fmap_ext. intros k x Hx. apply lookup_seqZ in Hx as [-> Hk]. rewrite rd_fill_page, Z.eqb_refl by (done || lia).
  unfold page_words, arr_get. rewrite list_lookup_fmap, (proj2 (lookup_seqZ 0 512 _ (0 + Z.of_nat k))) by (split; lia). done.
Qed.
Lemma page_words_other m new ws old : is_page new -> is_page old -> new <> old -> page_words (fill_page m new ws) old = page_words m old.
Proof.
  intros Hn Ho Hne. apply list_fmap_ext. intros k x Hx. apply lookup_seqZ in Hx as [-> Hk]. rewrite rd_fill_page by (done || lia).
  by rewrite (proj2 (Z.eqb_neq new old)).
Qed.

End props.

(** ** Forking and copy-on-write *)

(** A machine with 64 pages, of which pages 0 and 1 (the kernel's PML4) are in
    use and no page has a reference count, and an empty kernel heap. *)
Definition fork_boot : vmm :=
  Vmm ∅ (Pmm [3] 0 1 64 62 (replicate 64 0) 0 0) (kheap_init 1048576 4096 ∅) ∅ 4096.

(** A process allocates one page and forks; the child then writes to the page,
    and afterwards the parent's address space is destroyed. *)
Record fork_outcome : Type := ForkOutcome {
  fo_fault : Z;               (* what the fault handler returns in the child *)
  fo_parent : Z; fo_child : Z;   (* the frame each maps at the page after it *)
  fo_child_writable : bool;
  fo_child_after : Z;         (* the child's frame after the parent is gone *)
  fo_frame_used : bool        (* is that frame still allocated then? *)
}.

Definition fork_run : option fork_outcome :=
  '(parent, s) ← vm_create_space 9 fork_boot;
  '(virt, s) ← vm_alloc_pages parent 1 (VM_FLAG_WRITABLE .| VM_FLAG_USER) s;
  '(child, s) ← vm_clone_space 9 parent s;
  psp ← spaces s !! parent;
  csp ← spaces s !! child;
  let '(r, s1) := vm_handle_cow_fault (Some csp) virt 3 s in
  s2 ← vm_destroy_space 9 parent s1;
  let frame := vm_get_physical csp virt s2 in
  Some (ForkOutcome r (vm_get_physical psp virt s1) (vm_get_physical csp virt s1)
          (negb (ld (vmem s1) (get_pte (vs_pml4 csp) virt false s1).1 .& VM_FLAG_WRITABLE =? 0))
          frame (page_used (pmm_bitmap (vpmm s2)) (frame / PAGE_SIZE))).

(** [fork] does not separate the address spaces: the clone of a page that
    has no reference count yet is counted once, so the child's first write
    fault makes the parent's own frame (12288) writable in the child instead
    of copying it; and when the parent's space is then destroyed the frame is
    given back to the allocator although the child still maps it. *)
Theorem vm_fork_shares_written_page :
  fork_run = Some (ForkOutcome 0 12288 12288 true 12288 false).
Proof. vm_compute. reflexivity. Qed.

(** ** Witnesses *)

(** One address space with its PML4 at 8192 and the page at address 0 mapped,
    copy-on-write, to the frame 24576, which has two references. *)
Module Examples.
Abbreviation mem1 := ({[8192 := 12295; 12288 := 16391; 16384 := 20487; 20480 := 25093]} : phys_mem).
Abbreviation lvl1 := ({[8192 := 4%nat; 12288 := 3%nat; 16384 := 2%nat; 20480 := 1%nat]} : gmap Z nat).
Abbreviation pmm1 := (Pmm [127] 0 1 64 57 [0; 0; 0; 0; 0; 0; 2] 0 0).
Abbreviation sp1 := (VmSpace 8192 0 0 0 0 0 0 0 0).
Abbreviation s1 := (Vmm mem1 pmm1 (kheap_init 1048576 4096 ∅) ∅ 4096).

Lemma lvl1_cases t k : lvl1 !! t = Some k ->
  (t = 8192 /\ k = 4%nat) \/ (t = 12288 /\ k = 3%nat) \/ (t = 16384 /\ k = 2%nat) \/ (t = 20480 /\ k = 1%nat).
Proof.
  rewrite !lookup_insert_Some, lookup_singleton_Some.
  intros [[<- <-]|[_ [[<- <-]|[_ [[<- <-]|[_ [<- <-]]]]]]]; tauto.
Qed.

Lemma mem1_zero t k i : lvl1 !! t = Some k -> 0 <= i < 512 -> i <> 0 -> rd mem1 t i = 0.
Proof.
  intros Hl Hi Hne. unfold rd. apply lvl1_cases in Hl as [[-> _]|[[-> _]|[[-> _]|[-> _]]]];
    rewrite !lookup_insert_ne by lia; by rewrite lookup_singleton_ne by lia.
Qed.

Lemma mem1_links t k i : links 256 mem1 lvl1 t k i ->
  i = 0 /\ ((t = 8192 /\ k = 4%nat) \/ (t = 12288 /\ k = 3%nat) \/ (t = 16384 /\ k = 2%nat)).
Proof.
  intros ((Hl & Hi & _) & Hk & Hp & _). destruct (decide (i = 0)) as [->|Hne].
  - split; [done|]. apply lvl1_cases in Hl as [?|[?|[?|[-> ->]]]]; [tauto..|lia].
  - by rewrite (mem1_zero t k i) in Hp.
Qed.

Lemma s1_inv : vm_inv s1 lvl1.
Proof.
  split; cbn [vmem vpmm].
  - split.
    + intros t k Hl. unfold is_page. apply lvl1_cases in Hl as [[-> ->]|[[-> ->]|[[-> ->]|[-> ->]]]];
        (split; [split; [lia|reflexivity]|lia]).
    + intros t k i [-> [[-> ->]|[[-> ->]|[-> ->]]]]%mem1_links; vm_compute; reflexivity.
    + intros t i (Hl & Hi & _). destruct (decide (i = 0)) as [->|Hne].
      * by apply lvl1_cases in Hl as [[_ ?]|[[_ ?]|[[-> _]|[_ ?]]]].
      * by rewrite (mem1_zero t 2 i).
    + intros t k i t' k' i' [-> [[-> ->]|[[-> ->]|[-> ->]]]]%mem1_links
        [-> [[-> ->]|[[-> ->]|[-> ->]]]]%mem1_links; intros E; vm_compute in E; first [done|discriminate].
  - split; [split|]; cbn [pmm_bitmap pmm_bitmap_size pmm_total_pages_count pmm_free_pages_count];
      [reflexivity|repeat constructor; lia|lia|lia|vm_compute; reflexivity|lia].
  - intros t k [[-> _]|[[-> _]|[[-> _]|[-> _]]]]%lvl1_cases; (split; [lia|vm_compute; reflexivity]).
  - intros t i Hl Hi. destruct (decide (i = 0)) as [->|Hne].
    + by apply lvl1_cases in Hl as [[_ ?]|[[_ ?]|[[-> _]|[_ ?]]]].
    + by rewrite (mem1_zero t 2 i).
Qed.

Lemma avail1 n : n <= 57 -> avail n pmm1.
Proof. intros. split; [apply s1_inv|]. split; [|done]. split; [lia|]. vm_compute. reflexivity. Qed.

Lemma vm_map_page_correct_witness :
  exists s', vm_map_page sp1 4096 28672 7 s1 = (0, s') /\ vm_get_physical sp1 4096 s' = 28672.
Proof.
  destruct (vm_map_page_correct s1 lvl1 sp1 4096 28672 7) as (s' & l' & Hm & _ & Hx).
  - apply s1_inv.
  - by apply avail1.
  - reflexivity.
  - reflexivity.
  - reflexivity.
  - exists s'. split; [done|]. by rewrite Hx.
Defined.

Lemma vm_unmap_page_correct_witness :
  vm_unmap_page sp1 0 s1 = (-1, s1) \/ exists s', vm_unmap_page sp1 0 s1 = (0, s').
Proof.
  destruct (vm_unmap_page_correct s1 lvl1 sp1 0) as [[H _]|(s' & H & _)].
  - apply s1_inv.
  - reflexivity.
  - reflexivity.
  - by left.
  - right. by exists s'.
Defined.

End Examples.
