(* ===== verification/Scheduler.v ===== *)
(** * Process table and round-robin scheduler
      (src/src/process/scheduler.c, src/src/process/process.c, src/src/kernel/switch.c)

    The process table is a list of process control blocks and a [process_t*]
    is an index into it ([None] is the null pointer), so the doubly linked
    ready queue threads through the table as in the code.  The abstract view
    of the queue is a FIFO list of indices.  [context_switch] itself is
    assembly: the model records which process is current afterwards. *)

From S2P Require Import Prelude.

Inductive process_state : Type :=
  | PROC_STATE_UNUSED | PROC_STATE_READY | PROC_STATE_RUNNING
  | PROC_STATE_BLOCKED | PROC_STATE_ZOMBIE.

#[export] Instance process_state_eq_dec : EqDecision process_state.
Proof. solve_decision. Defined.

Definition MAX_PROCESSES : nat := 64.
Definition PROCESS_NAME_LEN : Z := 32.
Definition TIME_SLICE_MS : Z := 10.

(** The registers of [cpu_context_t] that the kernel's C code sets. *)
Record cpu_context : Type := CpuContext {
  cx_rsp : Z; cx_rip : Z; cx_cs : Z; cx_ss : Z; cx_rflags : Z; cx_rdi : Z; cx_rsi : Z
}.

Abbreviation pptr := (option nat).

Record process : Type := Process {
  p_pid : Z;
  p_name : cstring;
  p_state : process_state;
  p_context : cpu_context;
  p_kernel_stack : Z;
  p_kernel_stack_top : Z;
  p_user_stack_top : Z;
  p_vm : Z;
  p_fd_table : Z;
  p_wake_time : Z;
  p_priority : Z;
  p_cpu_time : Z;
  p_exit_code : Z;
  p_next : pptr;
  p_prev : pptr
}.

Definition set_pid x '(Process _ nm st c ks kt us vm fd wt pr ct ec nx pv) :=
  Process x nm st c ks kt us vm fd wt pr ct ec nx pv.
Definition set_name x '(Process pd _ st c ks kt us vm fd wt pr ct ec nx pv) :=
  Process pd x st c ks kt us vm fd wt pr ct ec nx pv.
Definition set_state x '(Process pd nm _ c ks kt us vm fd wt pr ct ec nx pv) :=
  Process pd nm x c ks kt us vm fd wt pr ct ec nx pv.
Definition set_context x '(Process pd nm st _ ks kt us vm fd wt pr ct ec nx pv) :=
  Process pd nm st x ks kt us vm fd wt pr ct ec nx pv.
Definition set_kstack x y '(Process pd nm st c _ _ us vm fd wt pr ct ec nx pv) :=
  Process pd nm st c x y us vm fd wt pr ct ec nx pv.
Definition set_vm x '(Process pd nm st c ks kt us _ fd wt pr ct ec nx pv) :=
  Process pd nm st c ks kt us x fd wt pr ct ec nx pv.
Definition set_fd_table x '(Process pd nm st c ks kt us vm _ wt pr ct ec nx pv) :=
  Process pd nm st c ks kt us vm x wt pr ct ec nx pv.
Definition set_wake_time x '(Process pd nm st c ks kt us vm fd _ pr ct ec nx pv) :=
  Process pd nm st c ks kt us vm fd x pr ct ec nx pv.
Definition set_priority x '(Process pd nm st c ks kt us vm fd wt _ ct ec nx pv) :=
  Process pd nm st c ks kt us vm fd wt x ct ec nx pv.
Definition set_cpu_time x '(Process pd nm st c ks kt us vm fd wt pr _ ec nx pv) :=
  Process pd nm st c ks kt us vm fd wt pr x ec nx pv.
Definition set_next x '(Process pd nm st c ks kt us vm fd wt pr ct ec _ pv) :=
  Process pd nm st c ks kt us vm fd wt pr ct ec x pv.
Definition set_prev x '(Process pd nm st c ks kt us vm fd wt pr ct ec nx _) :=
  Process pd nm st c ks kt us vm fd wt pr ct ec nx x.
Definition set_rsp x p :=
  let '(CpuContext _ rip cs ss fl di si) := p_context p in
  set_context (CpuContext x rip cs ss fl di si) p.

Definition zero_context : cpu_context := CpuContext 0 0 0 0 0 0 0.
Definition unused_process : process :=
  Process 0 [] PROC_STATE_UNUSED zero_context 0 0 0 0 0 0 0 0 0 None None.

(** The kernel's scheduling state. *)
Record sched : Type := Sched {
  process_table : list process;
  next_pid : Z;
  ready_queue : pptr;
  ready_queue_tail : pptr;
  current_process : pptr;
  schedule_needed : bool;
  time_slice_counter : Z
}.

Implicit Types (s : sched) (p q i : nat).

Definition get (s : sched) (p : nat) : process := default unused_process (process_table s !! p).
Definition upd (p : nat) (f : process -> process) s : sched :=
  Sched (alter f p (process_table s)) (next_pid s) (ready_queue s) (ready_queue_tail s)
        (current_process s) (schedule_needed s) (time_slice_counter s).
Definition upd_ptr (x : pptr) (f : process -> process) s : sched :=
  match x with Some p => upd p f s | None => s end.
Definition set_head x s : sched :=
  Sched (process_table s) (next_pid s) x (ready_queue_tail s) (current_process s)
        (schedule_needed s) (time_slice_counter s).
Definition set_tail x s : sched :=
  Sched (process_table s) (next_pid s) (ready_queue s) x (current_process s)
        (schedule_needed s) (time_slice_counter s).
Definition set_current x s : sched :=
  Sched (process_table s) (next_pid s) (ready_queue s) (ready_queue_tail s) x
        (schedule_needed s) (time_slice_counter s).
Definition set_needed x s : sched :=
  Sched (process_table s) (next_pid s) (ready_queue s) (ready_queue_tail s)
        (current_process s) x (time_slice_counter s).
Definition set_slice x s : sched :=
  Sched (process_table s) (next_pid s) (ready_queue s) (ready_queue_tail s)
        (current_process s) (schedule_needed s) x.
Definition set_next_pid x s : sched :=
  Sched (process_table s) x (ready_queue s) (ready_queue_tail s)
        (current_process s) (schedule_needed s) (time_slice_counter s).

(** ** scheduler.c *)

Definition scheduler_init s : sched :=
  set_needed false (set_current None (set_tail None (set_head None s))).

Definition scheduler_add (proc : nat) s : sched :=
  let s := upd proc (set_next None) s in
  let s := upd proc (set_prev (ready_queue_tail s)) s in
  let s := match ready_queue_tail s with
           | Some t => upd t (set_next (Some proc)) s
           | None => set_head (Some proc) s
           end in
  let s := set_tail (Some proc) s in
  upd proc (set_state PROC_STATE_READY) s.

Definition scheduler_remove (proc : nat) s : sched :=
  let s := match p_prev (get s proc) with
           | Some a => upd a (set_next (p_next (get s proc))) s
           | None => set_head (p_next (get s proc)) s
           end in
  let s := match p_next (get s proc) with
           | Some b => upd b (set_prev (p_prev (get s proc))) s
           | None => set_tail (p_prev (get s proc)) s
           end in
  upd proc (set_state PROC_STATE_ZOMBIE) s.

Definition scheduler_pick s : pptr * sched :=
  match ready_queue s with
  | None => (None, s)
  | Some proc =>
      let s := set_head (p_next (get s proc)) s in
      let s := match ready_queue s with
               | Some h => upd h (set_prev None) s
               | None => set_tail None s
               end in
      (Some proc, s)
  end.

Definition scheduler_reschedule s : sched := set_needed true s.
Definition scheduler_needs_reschedule s : bool := schedule_needed s.
Definition scheduler_clear_reschedule s : sched := set_needed false s.

Definition scheduler_tick s : sched :=
  match current_process s with
  | None => s
  | Some c =>
      let s := set_slice (time_slice_counter s + 1) s in
      if TIME_SLICE_MS <=? time_slice_counter s then
        let s := set_slice 0 s in
        let s := upd c (fun pr => set_cpu_time (u64 (p_cpu_time pr + TIME_SLICE_MS)) pr) s in
        set_needed true s
      else s
  end.

(** [None]: the queue did not end within the fuel. *)
Fixpoint count_from (fuel : nat) (x : pptr) (count : Z) s : option Z :=
  match fuel with
  | O => None
  | S f => match x with
           | None => Some count
           | Some p => count_from f (p_next (get s p)) (count + 1) s
           end
  end.
Definition scheduler_runnable_count (fuel : nat) s : option Z := count_from fuel (ready_queue s) 0 s.

Definition process_current s : pptr := current_process s.

Definition scheduler_set_current (x : pptr) s : sched :=
  upd_ptr x (set_state PROC_STATE_RUNNING) (set_current x s).

(** ** process.c: the part that works on the table and the queue *)

Definition alloc_process s : pptr :=
  find_first (fun i => bool_decide (p_state (get s i) = PROC_STATE_UNUSED)) (seq 0 MAX_PROCESSES).

Definition process_get (pid : Z) s : pptr :=
  find_first (fun i => (p_pid (get s i) =? pid) &&
                       negb (bool_decide (p_state (get s i) = PROC_STATE_UNUSED)))
             (seq 0 MAX_PROCESSES).

Definition process_get_by_index (i : Z) : pptr :=
  if (0 <=? i) && (i <? Z.of_nat MAX_PROCESSES) then Some (Z.to_nat i) else None.

Definition process_get_count s : Z :=
  countb (fun i => negb (bool_decide (p_state (get s i) = PROC_STATE_UNUSED))) (seq 0 MAX_PROCESSES).

Definition process_block s : sched :=
  scheduler_reschedule (upd_ptr (process_current s) (set_state PROC_STATE_BLOCKED) s).

Definition process_wake (x : pptr) s : sched :=
  match x with
  | Some p =>
      if bool_decide (p_state (get s p) = PROC_STATE_BLOCKED)
      then scheduler_add p (upd p (set_state PROC_STATE_READY) s) else s
  | None => s
  end.

(** [now] is [timer_get_ms()]. *)
Definition process_sleep (now ms : Z) s : sched :=
  match process_current s with
  | Some p =>
      scheduler_reschedule
        (upd p (set_state PROC_STATE_BLOCKED) (upd p (set_wake_time (u64 (now + ms))) s))
  | None => s
  end.

Definition process_yield s : sched := scheduler_reschedule s.

Definition process_current_vm s : Z :=
  match process_current s with Some p => p_vm (get s p) | None => 0 end.

Definition check_sleeper (now : Z) s i : sched :=
  if bool_decide (p_state (get s i) = PROC_STATE_BLOCKED) &&
     (0 <? p_wake_time (get s i)) && (p_wake_time (get s i) <=? now)
  then scheduler_add i (upd i (set_state PROC_STATE_READY) (upd i (set_wake_time 0) s))
  else s.
Definition process_check_sleepers (now : Z) s : sched :=
  foldl (check_sleeper now) s (seq 0 MAX_PROCESSES).

(** ** switch.c *)

Definition switch_schedule (now : Z) s : sched :=
  let s := process_check_sleepers now s in
  let current := process_current s in
  let '(next, s) := scheduler_pick s in
  match next, current with
  | None, None => s
  | None, Some _ => scheduler_clear_reschedule s
  | Some n, None => scheduler_clear_reschedule (scheduler_set_current (Some n) s)
  | Some n, Some c =>
      let s := if bool_decide (p_state (get s c) = PROC_STATE_RUNNING)
               then scheduler_add c (upd c (set_state PROC_STATE_READY) s) else s in
      scheduler_clear_reschedule (scheduler_set_current (Some n) s)
  end.

(** [rsp] is the stack pointer at the point of the switch.  [None] when
    counting the queue does not end within [fuel]. *)
Definition switch_timer_tick (fuel : nat) (rsp : Z) s : option sched :=
  let s := scheduler_tick s in
  let current := process_current s in
  s ← (match current with
       | Some _ => Some s
       | None => n ← scheduler_runnable_count fuel s;
                 Some (if 0 <? n then scheduler_reschedule s else s)
       end);
  if negb (scheduler_needs_reschedule s) then Some s
  else
    let '(next, s) := scheduler_pick s in
    match next, current with
    | None, _ => Some (scheduler_clear_reschedule s)
    | Some n, None => Some (scheduler_clear_reschedule (scheduler_set_current (Some n) s))
    | Some n, Some c =>
        let s := upd c (set_rsp rsp) s in
        let s := scheduler_add c (upd c (set_state PROC_STATE_READY) s) in
        Some (scheduler_clear_reschedule (scheduler_set_current (Some n) s))
    end.

Definition schedule := switch_schedule.
Definition scheduler_timer_tick := switch_timer_tick.

(** ** The ready queue as a FIFO list *)

Definition in_table s p : Prop := (p < length (process_table s))%nat.

(** [dseg s pv ps hd nx lst]: following [next] from [hd], the processes [ps]
    in this order, up to the pointer [nx]; the first one's [prev] is [pv] and
    [lst] is the last one ([pv] when there is none). *)
Fixpoint dseg s (pv : pptr) (ps : list nat) (hd nx lst : pptr) : Prop :=
  match ps with
  | [] => hd = nx /\ lst = pv
  | p :: ps' =>
      hd = Some p /\ in_table s p /\ p_prev (get s p) = pv /\
      dseg s (Some p) ps' (p_next (get s p)) nx lst
  end.

Definition queue_rep s (ps : list nat) : Prop :=
  dseg s None ps (ready_queue s) None (ready_queue_tail s) /\ NoDup ps.

Section fifo.
Implicit Types (ps : list nat) (f : process -> process).

Lemma get_upd_eq s p f : in_table s p -> get (upd p f s) p = f (get s p).
Proof.
  intros Hp. unfold get, upd. cbn [process_table]. rewrite list_lookup_alter_eq.
  destruct (process_table s !! p) eqn:E; [done|]. apply lookup_ge_None in E. unfold in_table in Hp. lia.
Qed.
Lemma get_upd_ne s p q f : p <> q -> get (upd p f s) q = get s q.
Proof. intros Hne. unfold get, upd. cbn [process_table]. by rewrite list_lookup_alter_ne. Qed.
Lemma in_table_upd s p q f : in_table (upd p f s) q <-> in_table s q.
Proof. unfold in_table, upd. cbn [process_table]. by rewrite length_alter. Qed.

#[export] Instance in_table_dec s p : Decision (in_table s p).
Proof. unfold in_table. apply _. Defined.

Lemma get_upd_cases s p i f :
  get (upd p f s) i = get s i \/ (p = i /\ in_table s i /\ get (upd p f s) i = f (get s i)).
Proof.
  destruct (decide (p = i)) as [->|Hne]; [|left; by apply get_upd_ne].
  destruct (decide (in_table s i)) as [Hin|Hout]; [right; by rewrite get_upd_eq|left].
  unfold get, upd. cbn [process_table]. rewrite list_lookup_alter_eq.
  unfold in_table in Hout. by rewrite lookup_ge_None_2 by lia.
Qed.

(** A queue segment only depends on the links of its members. *)
Lemma dseg_ext s s' pv ps hd nx lst :
  (forall p, p ∈ ps -> in_table s p -> in_table s' p /\ p_next (get s' p) = p_next (get s p) /\
                    p_prev (get s' p) = p_prev (get s p)) ->
  dseg s pv ps hd nx lst -> dseg s' pv ps hd nx lst.
Proof.
  revert pv hd. induction ps as [|p ps IH]; intros pv hd Hext; [done|].
  intros (-> & Hp & Hpv & Hseg). destruct (Hext p) as (Hp' & Hn & Hv); [left|done|].
  split; [done|]. split; [done|]. split; [congruence|]. rewrite Hn. apply IH; [|done].
  intros p' Hin. apply Hext. by right.
Qed.

Lemma dseg_app s pv ps1 ps2 hd nx lst :
  dseg s pv (ps1 ++ ps2) hd nx lst <->
  exists h m, dseg s pv ps1 hd h m /\ dseg s m ps2 h nx lst.
Proof.
  revert pv hd. induction ps1 as [|p ps1 IH]; intros pv hd; cbn [app dseg].
  - split; [intros H; by exists hd, pv|]. by intros (h & m & [-> ->] & H).
  - split.
    + intros (-> & Hp & Hpv & (h & m & H1 & H2)%IH). by exists h, m.
    + intros (h & m & (-> & Hp & Hpv & H1) & H2). split; [done|]. split; [done|]. split; [done|].
      apply IH. by exists h, m.
Qed.

(** Updates outside a segment, or of fields other than the links. *)
Lemma dseg_upd_out s pv ps hd nx lst p f :
  p ∉ ps -> dseg s pv ps hd nx lst -> dseg (upd p f s) pv ps hd nx lst.
Proof.
  intros Hp. apply dseg_ext. intros q Hq Hin. rewrite in_table_upd, get_upd_ne by (by intros ->). done.
Qed.
Lemma dseg_upd_links s pv ps hd nx lst p f :
  (forall x, p_next (f x) = p_next x /\ p_prev (f x) = p_prev x) ->
  dseg s pv ps hd nx lst -> dseg (upd p f s) pv ps hd nx lst.
Proof.
  intros Hf. apply dseg_ext. intros q Hq Hin. rewrite in_table_upd. split; [done|].
  destruct (decide (p = q)) as [->|]; [|by rewrite get_upd_ne]. by rewrite get_upd_eq.
Qed.

Lemma dseg_set_last s pv ps a hd nx nx' lst :
  a ∉ ps -> dseg s pv (ps ++ [a]) hd nx lst ->
  dseg (upd a (set_next nx') s) pv (ps ++ [a]) hd nx' lst.
Proof.
  intros Ha (h & m & H1 & (-> & Hin & Hpv & [Hn ->]))%dseg_app. apply dseg_app.
  exists (Some a), m. split; [by apply dseg_upd_out|]. cbn [dseg]. rewrite in_table_upd, get_upd_eq by done.
  split; [done|]. split; [done|]. split; [by destruct (get s a)|]. split; [by destruct (get s a)|done].
Qed.

Lemma dseg_set_first s pv pv' b ps hd nx lst :
  b ∉ ps -> dseg s pv (b :: ps) hd nx lst -> dseg (upd b (set_prev pv') s) pv' (b :: ps) hd nx lst.
Proof.
  intros Hb (-> & Hin & Hpv & H). split; [done|]. rewrite in_table_upd, get_upd_eq by done.
  split; [done|]. split; [by destruct (get s b)|].
  replace (p_next (set_prev pv' (get s b))) with (p_next (get s b)) by (by destruct (get s b)).
  by apply dseg_upd_out.
Qed.

Lemma set_state_links st x : p_next (set_state st x) = p_next x /\ p_prev (set_state st x) = p_prev x.
Proof. by destruct x. Qed.

Lemma NoDup_snoc {A} (l : list A) x : NoDup l -> x ∉ l -> NoDup (l ++ [x]).
Proof.
  intros Hl Hx. apply NoDup_app. split; [done|]. split; [|apply NoDup_singleton].
  intros y Hy ->%list_elem_of_singleton. done.
Qed.

Lemma scheduler_add_rep s ps p :
  queue_rep s ps -> in_table s p -> p ∉ ps -> queue_rep (scheduler_add p s) (ps ++ [p]).
Proof.
  intros [Hseg Hnd] Hp Hout. split; [|by apply NoDup_snoc].
  unfold scheduler_add.
  set (s2 := upd p (set_prev (ready_queue_tail (upd p (set_next None) s))) (upd p (set_next None) s)).
  change (ready_queue_tail s2) with (ready_queue_tail s).
  match goal with |- dseg (upd p _ ?S) _ _ _ _ _ => set (s3 := S) end.
  apply dseg_upd_links; [apply set_state_links|]. change (ready_queue (upd _ _ s3)) with (ready_queue s3).
  change (ready_queue_tail (upd _ _ s3)) with (Some p).
  assert (Hg : get s2 p = set_prev (ready_queue_tail s) (set_next None (get s p))).
  { unfold s2. rewrite !get_upd_eq; [done|done|]. by rewrite in_table_upd. }
  assert (Hin2 : in_table s2 p) by (unfold s2; by rewrite !in_table_upd).
  assert (Hseg2 : dseg s2 None ps (ready_queue s) None (ready_queue_tail s))
    by (unfold s2; by repeat apply dseg_upd_out).
  unfold s3.
  destruct ps as [|a ps _] using rev_ind.
  - destruct Hseg as [Hh Ht]. rewrite Ht. cbn [app dseg ready_queue set_tail set_head].
    split; [done|]. split; [done|]. change (get (set_tail _ (set_head _ s2)) p) with (get s2 p).
    rewrite Hg, Ht. by destruct (get s p).
  - assert (Hl : ready_queue_tail s = Some a) by (apply dseg_app in Hseg as (h & m & _ & (_ & _ & _ & _ & ->)); done).
    rewrite Hl in *. cbn [ready_queue set_tail upd].
    assert (Hap : a <> p) by (intros ->; apply Hout, elem_of_app; right; left).
    assert (Hana : a ∉ ps) by (apply NoDup_app in Hnd as (_ & H & _); intros Ha; apply (H a Ha); left).
    apply dseg_app. exists (Some p), (Some a). split.
    + apply (dseg_set_last _ _ _ _ _ _ (Some p)) in Hseg2; [|done].
      by apply (dseg_ext (upd a (set_next (Some p)) s2)).
    + cbn [dseg]. split; [done|].
      change (get (set_tail (Some p) (upd a (set_next (Some p)) s2)) p) with (get (upd a (set_next (Some p)) s2) p).
      rewrite get_upd_ne by done. rewrite Hg. split; [by apply in_table_upd|]. by destruct (get s p).
Qed.

Lemma scheduler_pick_rep s ps :
  queue_rep s ps ->
  match ps with
  | [] => scheduler_pick s = (None, s)
  | p :: ps' => (scheduler_pick s).1 = Some p /\ queue_rep (scheduler_pick s).2 ps' /\ in_table s p
  end.
Proof.
  intros [Hseg Hnd]. unfold scheduler_pick. destruct ps as [|p ps].
  - destruct Hseg as [-> _]. done.
  - destruct Hseg as (-> & Hp & Hpv & Hseg). apply NoDup_cons in Hnd as [Hout Hnd].
    cbn [ready_queue set_head fst snd]. split; [done|]. split; [|done]. split; [|done].
    destruct ps as [|b ps].
    + destruct Hseg as [Hn Ht]. rewrite Hn. done.
    + pose proof Hseg as (Hn & _). rewrite Hn in *. cbn [ready_queue ready_queue_tail upd set_head].
      apply NoDup_cons in Hnd as [Hb _]. apply (dseg_set_first (set_head (Some b) s) (Some p)); [done|]. by apply (dseg_ext s).
Qed.

(** Forgetting fields other than the process table. *)
Lemma dseg_table s s' pv ps hd nx lst :
  process_table s' = process_table s -> dseg s pv ps hd nx lst -> dseg s' pv ps hd nx lst.
Proof. intros E. apply dseg_ext. intros p _ Hp. unfold in_table, get in *. by rewrite E. Qed.

Lemma scheduler_remove_rep s ps1 p ps2 :
  queue_rep s (ps1 ++ p :: ps2) -> queue_rep (scheduler_remove p s) (ps1 ++ ps2).
Proof.
  intros [Hseg Hnd]. apply NoDup_app in Hnd as (Hnd1 & Hdis & [Hp2 Hnd2]%NoDup_cons).
  assert (Hp1 : p ∉ ps1) by (intros H; apply (Hdis p H); left).
  assert (Hd12 : forall x, x ∈ ps1 -> x ∉ ps2) by (intros x Hx Hx2; apply (Hdis x Hx); by right).
  split; [|by apply NoDup_app].
  apply dseg_app in Hseg as (h & m & H1 & (-> & Hin & Hpv & H2)).
  unfold scheduler_remove. rewrite Hpv. set (nx := p_next (get s p)) in *.
  set (s1 := match m with Some a => upd a (set_next nx) s | None => set_head nx s end).
  assert (Hg1 : get s1 p = get s p).
  { unfold s1. destruct m as [a|]; [|done]. apply get_upd_ne. intros ->.
    destruct ps1 as [|a ps1 _] using rev_ind; [by destruct H1|].
    apply dseg_app in H1 as (h & m & _ & (_ & _ & _ & _ & [= <-])).
    apply Hp1, elem_of_app. right. left. }
  fold nx in Hg1. rewrite Hg1, Hpv. fold nx.
  set (s2 := match nx with Some b => upd b (set_prev m) s1 | None => set_tail m s1 end).
  apply dseg_upd_links; [apply set_state_links|].
  change (ready_queue (upd p _ s2)) with (ready_queue s2).
  change (ready_queue_tail (upd p _ s2)) with (ready_queue_tail s2).
  (* the front part, its last member now followed by [nx] *)
  assert (F1 : dseg s1 None ps1 (ready_queue s1) nx m /\ dseg s1 (Some p) ps2 nx None (ready_queue_tail s)).
  { destruct ps1 as [|a ps1 _] using rev_ind.
    - destruct H1 as [Hh ->]. unfold s1. split; [done|]. by apply (dseg_table s).
    - assert (m = Some a) as ->
        by (apply dseg_app in H1 as (? & ? & _ & (_ & _ & _ & _ & ->)); done).
      apply NoDup_app in Hnd1 as (_ & Ha & _). unfold s1. cbn [ready_queue upd]. split.
      + apply (dseg_set_last _ _ _ _ _ (Some p)); [|done]. intros Hin'. apply (Ha a Hin'). left.
      + apply dseg_upd_out; [|done]. apply Hd12, elem_of_app. right. left. }
  destruct F1 as [F1 F2]. apply dseg_app. exists nx, m.
  destruct ps2 as [|b ps2].
  - destruct F2 as [F2 F3]. unfold s2. rewrite F2 in *. cbn [ready_queue set_tail]. split; [|done].
    by apply (dseg_table s1).
  - pose proof F2 as (Hb & _). unfold s2. rewrite Hb in F1, F2 |- *.
    change (ready_queue (upd b _ s1)) with (ready_queue s1).
    change (ready_queue_tail (upd b _ s1)) with (ready_queue_tail s1).
    assert (ready_queue_tail s1 = ready_queue_tail s) as -> by (unfold s1; by destruct m).
    apply NoDup_cons in Hnd2 as [Hb2 _]. split.
    + apply dseg_upd_out; [|done]. intros Hx. apply (Hd12 b Hx). left.
    + by apply (dseg_set_first s1 (Some p)).
Qed.

Lemma count_from_dseg s pv ps hd c fuel lst :
  dseg s pv ps hd None lst -> (length ps < fuel)%nat -> count_from fuel hd c s = Some (c + len ps).
Proof.
  revert pv hd c fuel. induction ps as [|p ps IH]; intros pv hd c [|fuel]; cbn [length count_from]; try lia.
  - intros [-> _] _. f_equal. lia.
  - intros (-> & _ & _ & H) Hf. rewrite (IH (Some p) _ _ fuel H) by lia. f_equal. lia.
Qed.
End fifo.

(** ** Sequences of queue operations *)

Inductive qop : Type := QAdd (p : nat) | QRemove (p : nat) | QPick.

(** The abstract queue; [None] when an operation is used outside its
    contract: adding a queued process or removing one that is not queued. *)
Definition fifo_step (o : qop) (q : list nat) : option (list nat * pptr) :=
  match o with
  | QAdd p => if bool_decide (p ∈ q) || (MAX_PROCESSES <=? p)%nat then None else Some (q ++ [p], None)
  | QRemove p => if bool_decide (p ∈ q) then Some (filter (.≠ p) q, None) else None
  | QPick => match q with [] => Some ([], None) | p :: q' => Some (q', Some p) end
  end.

Definition sched_step (o : qop) (s : sched) : sched * pptr :=
  match o with
  | QAdd p => (scheduler_add p s, None)
  | QRemove p => (scheduler_remove p s, None)
  | QPick => let '(r, s) := scheduler_pick s in (s, r)
  end.

Fixpoint fifo_run (os : list qop) (q : list nat) : option (list nat * list pptr) :=
  match os with
  | [] => Some (q, [])
  | o :: os' => '(q', r) ← fifo_step o q; '(q'', rs) ← fifo_run os' q'; Some (q'', r :: rs)
  end.

Fixpoint sched_run (os : list qop) (s : sched) : sched * list pptr :=
  match os with
  | [] => (s, [])
  | o :: os' => let '(s', r) := sched_step o s in
                let '(s'', rs) := sched_run os' s' in (s'', r :: rs)
  end.

Section refinement.
Lemma length_table_add p s : length (process_table (scheduler_add p s)) = length (process_table s).
Proof.
  unfold scheduler_add. destruct (ready_queue_tail _); cbn [process_table upd set_tail set_head];
    by rewrite !length_alter.
Qed.
Lemma length_table_remove p s : length (process_table (scheduler_remove p s)) = length (process_table s).
Proof.
  unfold scheduler_remove. destruct (p_prev _); destruct (p_next _);
    cbn [process_table upd set_tail set_head]; by rewrite !length_alter.
Qed.
Lemma length_table_pick s : length (process_table (scheduler_pick s).2) = length (process_table s).
Proof.
  unfold scheduler_pick. destruct (ready_queue s); [|done]. cbn [snd].
  destruct (ready_queue (set_head _ s)); [|done]. cbn [process_table upd set_head]. by rewrite length_alter.
Qed.

Lemma filter_ne_mid (p : nat) l1 l2 : p ∉ l1 -> p ∉ l2 -> filter (.≠ p) (l1 ++ p :: l2) = l1 ++ l2.
Proof.
  assert (Hid : forall l : list nat, p ∉ l -> filter (.≠ p) l = l).
  { induction l as [|x l IH]; [done|]. intros [Hx Hl]%not_elem_of_cons.
    rewrite filter_cons_True by done. by rewrite IH. }
  intros H1 H2. rewrite filter_app, filter_cons_False by (by intros []). by rewrite !Hid.
Qed.

Lemma sched_step_refines o s (q q' : list nat) r :
  queue_rep s q -> length (process_table s) = MAX_PROCESSES -> fifo_step o q = Some (q', r) ->
  queue_rep (sched_step o s).1 q' /\ (sched_step o s).2 = r /\
  length (process_table (sched_step o s).1) = MAX_PROCESSES.
Proof.
  intros Hrep Hlen Hstep. destruct o as [p|p|]; cbn [fifo_step sched_step fst snd] in *.
  - destruct (bool_decide (p ∈ q)) eqn:E; [done|]. apply bool_decide_eq_false in E. cbn [orb] in Hstep.
    destruct (MAX_PROCESSES <=? p)%nat eqn:Ep; [done|]. apply Nat.leb_gt in Ep. simplify_eq.
    split; [|split; [done|by rewrite length_table_add]].
    apply scheduler_add_rep; [done| |done]. unfold in_table. by rewrite Hlen.
  - case_bool_decide as E; [|done]. simplify_eq. split; [|split; [done|by rewrite length_table_remove]].
    apply list_elem_of_split in E as (l1 & l2 & ->).
    pose proof Hrep as [_ Hnd]. apply NoDup_app in Hnd as (_ & Hd & [H2 _]%NoDup_cons).
    assert (H1 : p ∉ l1) by (intros H; apply (Hd p H); left).
    rewrite filter_ne_mid by done. by apply scheduler_remove_rep.
  - pose proof (scheduler_pick_rep s q Hrep) as Hpick. pose proof (length_table_pick s) as Hl.
    destruct (scheduler_pick s) as [x s']. cbn [fst snd] in *.
    destruct q as [|p q]; simplify_eq; [done|]. destruct Hpick as (-> & Hq & _). by rewrite Hl.
Qed.
End refinement.

(** ** Round robin *)

Section round_robin.
Implicit Types (ps : list nat).

(** No blocked process is due to wake up. *)
Definition due (now : Z) s i : bool :=
  bool_decide (p_state (get s i) = PROC_STATE_BLOCKED) &&
  (0 <? p_wake_time (get s i)) && (p_wake_time (get s i) <=? now).
Definition no_sleepers (now : Z) s : Prop := forall i, due now s i = false.

Lemma check_sleepers_id now s : no_sleepers now s -> process_check_sleepers now s = s.
Proof.
  intros Hns. unfold process_check_sleepers. induction (seq 0 MAX_PROCESSES) as [|i l IH]; [done|].
  cbn [foldl]. unfold check_sleeper at 2. fold (due now s i). rewrite Hns. done.
Qed.

(** What an operation on the queue may do to a process: change links, and
    make it ready or running. *)
Definition mild s s' : Prop := forall i,
  p_wake_time (get s' i) = p_wake_time (get s i) /\
  (p_state (get s' i) = p_state (get s i) \/
   p_state (get s' i) = PROC_STATE_READY \/ p_state (get s' i) = PROC_STATE_RUNNING).

Lemma mild_refl s : mild s s.
Proof. intros i. auto. Qed.
Lemma mild_same s s' : process_table s' = process_table s -> mild s s'.
Proof. intros E i. unfold get. rewrite E. auto. Qed.
Lemma mild_trans s1 s2 s3 : mild s1 s2 -> mild s2 s3 -> mild s1 s3.
Proof. intros H1 H2 i. destruct (H1 i) as [E1 S1], (H2 i) as [E2 S2]. split; [congruence|]. intuition congruence. Qed.
Lemma mild_upd s p f :
  (forall x, p_wake_time (f x) = p_wake_time x /\ (p_state (f x) = p_state x \/
     p_state (f x) = PROC_STATE_READY \/ p_state (f x) = PROC_STATE_RUNNING)) -> mild s (upd p f s).
Proof.
  intros Hf i. destruct (get_upd_cases s p i f) as [->|(_ & _ & ->)]; [auto|apply Hf].
Qed.
Lemma mild_sleepers now s s' : mild s s' -> no_sleepers now s -> no_sleepers now s'.
Proof.
  intros Hm Hns i. specialize (Hns i). destruct (Hm i) as [Hw Hs]. unfold due in *. rewrite Hw.
  destruct Hs as [->|[->| ->]]; done.
Qed.

Ltac mild_fields := apply mild_upd; intros []; cbn; auto.

Lemma mild_add p s : mild s (scheduler_add p s).
Proof.
  unfold scheduler_add. eapply mild_trans; [|mild_fields].
  set (s2 := upd p _ (upd p _ s)). apply (mild_trans _ s2).
  - unfold s2. eapply mild_trans; mild_fields.
  - destruct (ready_queue_tail s2) as [t|]; [|by apply mild_same].
    apply (mild_trans _ (upd t (set_next (Some p)) s2)); [mild_fields|by apply mild_same].
Qed.
Lemma mild_pick s : mild s (scheduler_pick s).2.
Proof.
  unfold scheduler_pick. destruct (ready_queue s); [|apply mild_refl]. cbn [snd].
  destruct (ready_queue _); [|by apply mild_same]. eapply mild_trans; [|mild_fields]. by apply mild_same.
Qed.

(** Links only matter for the queue. *)
Lemma queue_rep_upd s ps p f :
  (forall x, p_next (f x) = p_next x /\ p_prev (f x) = p_prev x) -> queue_rep s ps -> queue_rep (upd p f s) ps.
Proof. intros Hf [Hseg Hnd]. split; [|done]. by apply dseg_upd_links. Qed.
Lemma queue_rep_table s s' ps :
  process_table s' = process_table s -> ready_queue s' = ready_queue s ->
  ready_queue_tail s' = ready_queue_tail s -> queue_rep s ps -> queue_rep s' ps.
Proof. intros Et Eh El [Hseg Hnd]. split; [|done]. rewrite Eh, El. by apply (dseg_table s). Qed.

Lemma pick_get_state s i : p_state (get (scheduler_pick s).2 i) = p_state (get s i).
Proof.
  unfold scheduler_pick. destruct (ready_queue s); [|done]. cbn [snd].
  destruct (ready_queue (set_head _ s)) as [h|]; [|done].
  set (s1 := set_head _ s). destruct (get_upd_cases s1 h i (set_prev None)) as [->|(_ & _ & ->)]; [done|].
  change (get s i) with (get s1 i). by destruct (get s1 i).
Qed.

(** Putting [c] at the back and running [n], as both switch functions do. *)
Lemma hand_over s ps n c :
  queue_rep s ps -> in_table s n -> in_table s c -> c ∉ ps -> n ∉ ps -> n <> c ->
  let s' := scheduler_clear_reschedule
              (scheduler_set_current (Some n) (scheduler_add c (upd c (set_state PROC_STATE_READY) s))) in
  queue_rep s' (ps ++ [c]) /\ current_process s' = Some n /\ schedule_needed s' = false /\
  p_state (get s' n) = PROC_STATE_RUNNING /\ p_state (get s' c) = PROC_STATE_READY /\
  mild s s' /\ length (process_table s') = length (process_table s).
Proof.
  intros Hrep Hn Hc Hcp Hnp Hne. cbn zeta.
  set (s1 := upd c (set_state PROC_STATE_READY) s).
  assert (Hrep1 : queue_rep s1 ps) by (apply queue_rep_upd; [apply set_state_links|done]).
  assert (Hrep2 : queue_rep (scheduler_add c s1) (ps ++ [c]))
    by (apply scheduler_add_rep; [done|by apply in_table_upd|done]).
  set (s2 := scheduler_add c s1) in *.
  assert (Hl2 : length (process_table s2) = length (process_table s))
    by (unfold s2; rewrite length_table_add; unfold s1; cbn [process_table upd]; by rewrite length_alter).
  unfold scheduler_clear_reschedule, scheduler_set_current. cbn [upd_ptr].
  set (s3 := upd n (set_state PROC_STATE_RUNNING) (set_current (Some n) s2)).
  assert (Hn2 : in_table (set_current (Some n) s2) n) by (unfold in_table in *; cbn [process_table set_current]; by rewrite Hl2).
  split; [|split; [done|split; [done|split; [|split; [|split]]]]].
  - apply (queue_rep_table s3); [done..|]. apply queue_rep_upd; [apply set_state_links|].
    by apply (queue_rep_table s2).
  - change (get (set_needed false s3) n) with (get s3 n). unfold s3. rewrite get_upd_eq by done.
    by destruct (get _ n).
  - change (get (set_needed false s3) c) with (get s3 c). unfold s3. rewrite get_upd_ne by done.
    change (get (set_current (Some n) s2) c) with (get s2 c). unfold s2, scheduler_add.
    rewrite get_upd_eq; [by destruct (get _ c)|].
    unfold in_table in *. destruct (ready_queue_tail _); cbn [process_table set_tail set_head upd];
      rewrite !length_alter; unfold s1; cbn [process_table upd]; by rewrite length_alter.
  - apply (mild_trans _ s1); [unfold s1; mild_fields|]. apply (mild_trans _ s2); [apply mild_add|].
    apply (mild_trans _ (set_current (Some n) s2)); [by apply mild_same|].
    apply (mild_trans _ s3); [unfold s3; mild_fields|by apply mild_same].
  - cbn [process_table set_needed s3 upd]. rewrite length_alter. done.
Qed.

(** The picture between two switches: [c] runs, [ps] wait in this order. *)
Record running (now : Z) s c ps : Prop := {
  rn_queue : queue_rep s ps;
  rn_current : current_process s = Some c;
  rn_out : c ∉ ps;
  rn_in : in_table s c;
  rn_state : p_state (get s c) = PROC_STATE_RUNNING;
  rn_awake : no_sleepers now s
}.

Lemma switch_rotates now s c p ps :
  running now s c (p :: ps) -> running now (switch_schedule now s) p (ps ++ [c]).
Proof.
  intros [Hq Hc Hout Hin Hst Hns]. unfold switch_schedule. rewrite check_sleepers_id by done.
  pose proof (scheduler_pick_rep s _ Hq) as (Hp & Hq' & Hpin).
  pose proof (pick_get_state s c) as Hst'. pose proof (mild_pick s) as Hm. pose proof (length_table_pick s) as Hl.
  destruct (scheduler_pick s) as [x s1]. cbn [fst snd] in *. subst x. unfold process_current. rewrite Hc, Hst', Hst.
  rewrite bool_decide_true by done. apply not_elem_of_cons in Hout as [Hcp Hcps].
  destruct Hq as [_ Hnd]. apply NoDup_cons in Hnd as [Hpps _].
  destruct (hand_over s1 ps p c) as (H1 & H2 & H3 & H4 & H5 & H6 & H7); try done;
    [unfold in_table in *; by rewrite Hl..|].
  split; try done.
  - intros [|Hx%list_elem_of_singleton]%elem_of_app; [done|]. by subst.
  - unfold in_table in *. by rewrite H7, Hl.
  - apply (mild_sleepers now s1); [done|]. by apply (mild_sleepers now s).
Qed.

Lemma switch_iter now k : forall s c ps1 p ps2,
  length ps1 = k -> running now s c (ps1 ++ p :: ps2) ->
  current_process (Nat.iter (S k) (switch_schedule now) s) = Some p.
Proof.
  induction k as [|k IH]; intros s c [|a ps1] p ps2 Hlen Hrun; try done.
  - by apply switch_rotates, rn_current in Hrun.
  - cbn [app] in Hrun. apply switch_rotates in Hrun. rewrite <- app_assoc in Hrun. cbn [app] in Hrun.
    rewrite Nat.iter_succ_r. apply (IH _ a ps1 p (ps2 ++ [c])); [by injection Hlen|done].
Qed.

(** A tick only accounts time. *)
Lemma scheduler_tick_same s ps :
  queue_rep s ps ->
  queue_rep (scheduler_tick s) ps /\ current_process (scheduler_tick s) = current_process s /\
  (schedule_needed s = true -> schedule_needed (scheduler_tick s) = true) /\
  length (process_table (scheduler_tick s)) = length (process_table s).
Proof.
  intros Hq. unfold scheduler_tick. destruct (current_process s) as [c|] eqn:Hc; [|by rewrite Hc].
  destruct (_ <=? _); [|split; [by apply (queue_rep_table s)|done]]. cbn [process_table set_needed upd set_slice]. rewrite length_alter.
  split; [|done]. match goal with |- queue_rep (set_needed true (upd c ?f ?x)) _ =>
    apply (queue_rep_table (upd c f x)); [done..|]; apply queue_rep_upd; [by intros []|] end.
  by apply (queue_rep_table s).
Qed.

(** ** Waking sleepers *)

Lemma upd_links_data s p f j :
  (forall x, p_state (f x) = p_state x /\ p_wake_time (f x) = p_wake_time x) ->
  p_state (get (upd p f s) j) = p_state (get s j) /\ p_wake_time (get (upd p f s) j) = p_wake_time (get s j).
Proof. intros Hf. destruct (get_upd_cases s p j f) as [->|(_ & _ & ->)]; [done|apply Hf]. Qed.

Lemma add_data i s j :
  in_table s i ->
  p_state (get (scheduler_add i s) j) = (if decide (i = j) then PROC_STATE_READY else p_state (get s j)) /\
  p_wake_time (get (scheduler_add i s) j) = p_wake_time (get s j).
Proof.
  intros Hi. unfold scheduler_add. set (s2 := upd i _ (upd i _ s)).
  match goal with |- context [get (upd i (set_state PROC_STATE_READY) ?x) j] => set (s3 := x) end.
  assert (H2 : p_state (get s2 j) = p_state (get s j) /\ p_wake_time (get s2 j) = p_wake_time (get s j)).
  { unfold s2. destruct (upd_links_data (upd i (set_next None) s) i (set_prev (ready_queue_tail (upd i (set_next None) s))) j)
      as [-> ->]; [by intros []|]. apply upd_links_data. by intros []. }
  assert (H3 : p_state (get s3 j) = p_state (get s2 j) /\ p_wake_time (get s3 j) = p_wake_time (get s2 j)).
  { unfold s3. destruct (ready_queue_tail s2) as [t|]; [|done].
    change (get (set_tail (Some i) ?x) j) with (get x j). apply upd_links_data. by intros []. }
  assert (Hi3 : in_table s3 i).
  { unfold s3, in_table in *. destruct (ready_queue_tail s2); cbn [process_table set_tail set_head upd s2];
      by rewrite !length_alter. }
  destruct (decide (i = j)) as [<-|Hne].
  - rewrite get_upd_eq by done. destruct H2, H3. split; [by destruct (get s3 i)|].
    replace (p_wake_time (set_state PROC_STATE_READY (get s3 i))) with (p_wake_time (get s3 i))
      by (by destruct (get s3 i)). congruence.
  - rewrite get_upd_ne by done. destruct H2, H3. split; congruence.
Qed.

(** One step of the loop. *)
Lemma check_sleeper_step now s ps i :
  queue_rep s ps -> in_table s i -> (due now s i = true -> i ∉ ps) ->
  let s' := check_sleeper now s i in
  queue_rep s' (ps ++ if due now s i then [i] else []) /\
  length (process_table s') = length (process_table s) /\
  forall j, p_state (get s' j) = (if decide (i = j) then if due now s i then PROC_STATE_READY else p_state (get s j)
                                 else p_state (get s j)) /\
            p_wake_time (get s' j) = (if decide (i = j) then if due now s i then 0 else p_wake_time (get s j)
                                     else p_wake_time (get s j)).
Proof.
  intros Hq Hi Hout. cbn zeta. unfold check_sleeper. fold (due now s i).
  destruct (due now s i) eqn:E.
  - set (s1 := upd i (set_state PROC_STATE_READY) (upd i (set_wake_time 0) s)).
    assert (Hi1 : in_table s1 i) by (unfold s1; by rewrite !in_table_upd).
    split; [|split].
    + apply scheduler_add_rep; [|done|by apply Hout].
      unfold s1. apply queue_rep_upd; [apply set_state_links|]. apply queue_rep_upd; [by intros []|done].
    + rewrite length_table_add. unfold s1. cbn [process_table upd]. by rewrite !length_alter.
    + intros j. destruct (add_data i s1 j Hi1) as [-> ->]. destruct (decide (i = j)) as [<-|Hne].
      * unfold s1. rewrite get_upd_eq by (by rewrite in_table_upd). rewrite get_upd_eq by done.
        by destruct (get s i).
      * unfold s1. by rewrite !get_upd_ne.
  - rewrite app_nil_r. split; [done|]. split; [done|]. intros j. by destruct (decide (i = j)).
Qed.

Lemma check_sleepers_loop now l : forall s ps,
  NoDup l -> (forall i, i ∈ l -> in_table s i) -> queue_rep s ps ->
  (forall i, due now s i = true -> i ∉ ps) ->
  let s' := foldl (check_sleeper now) s l in
  queue_rep s' (ps ++ filter (fun i => due now s i = true) l) /\
  forall i, p_state (get s' i) = (if bool_decide (i ∈ l) && due now s i then PROC_STATE_READY else p_state (get s i)) /\
            p_wake_time (get s' i) = (if bool_decide (i ∈ l) && due now s i then 0 else p_wake_time (get s i)).
Proof.
  induction l as [|i l IH]; intros s ps Hnd Hin Hq Hout; cbn [foldl].
  - split; [by rewrite app_nil_r|]. done.
  - apply NoDup_cons in Hnd as [Hil Hnd].
    destruct (check_sleeper_step now s ps i Hq) as (H1 & H2 & H3); [apply Hin; left|apply Hout|].
    set (s1 := check_sleeper now s i) in *.
    assert (Hdue : forall j, i <> j -> due now s1 j = due now s j).
    { intros j Hj. unfold due. destruct (H3 j) as [-> ->]. by destruct (decide (i = j)). }
    assert (Hdi : due now s1 i = false).
    { destruct (due now s i) eqn:E; [|unfold due in *; destruct (H3 i) as [-> ->]; by destruct (decide (i = i))].
      unfold due. destruct (H3 i) as [-> _]. by destruct (decide (i = i)). }
    destruct (IH s1 (ps ++ if due now s i then [i] else [])) as [H4 H5]; try done.
    + intros j Hj. unfold in_table in *. rewrite H2. apply Hin. by right.
    + intros j Hj. destruct (decide (i = j)) as [<-|Hne]; [congruence|]. rewrite Hdue in Hj by done.
      intros [|Hx]%elem_of_app; [by apply (Hout j)|]. destruct (due now s i); [|by apply elem_of_nil in Hx].
      by apply list_elem_of_singleton in Hx.
    + split.
      * rewrite filter_cons. replace (filter (fun j => due now s j = true) l) with (filter (fun j => due now s1 j = true) l).
        2:{ apply filter_ext_in. intros j Hj. rewrite Hdue; [done|]. by intros ->. }
        rewrite <- app_assoc in H4. by destruct (due now s i).
      * intros j. destruct (H5 j) as [-> ->], (H3 j) as [-> ->]. destruct (decide (i = j)) as [<-|Hne].
        -- rewrite Hdi, andb_false_r, (bool_decide_true (i ∈ i :: l)) by left. done.
        -- rewrite Hdue by done. rewrite (bool_decide_ext (j ∈ i :: l) (j ∈ l)); [done|].
           rewrite elem_of_cons. split; [intros [?|?]; [congruence|done]|by right].
Qed.
End round_robin.

(** ** Properties *)

Section props.
Implicit Types (ps : list nat).

(** [C3] The linked ready queue implements a FIFO queue: any sequence of
    additions of unqueued processes, removals of queued ones and picks returns
    what the list returns and leaves a queue that represents the list; the
    runnable count is the list's length. *)
Theorem scheduler_refines_fifo (os : list qop) s (l l' : list nat) (rs : list pptr) fuel :
  queue_rep s l -> length (process_table s) = MAX_PROCESSES -> fifo_run os l = Some (l', rs) ->
  (length l' < fuel)%nat ->
  queue_rep (sched_run os s).1 l' /\ (sched_run os s).2 = rs /\
  scheduler_runnable_count fuel (sched_run os s).1 = Some (len l').
Proof.
  intros Hrep Hlen Hrun Hfuel.
  assert (H : queue_rep (sched_run os s).1 l' /\ (sched_run os s).2 = rs).
  { revert s l rs Hrep Hlen Hrun. induction os as [|o os IH]; intros s l rs Hrep Hlen Hrun; cbn [fifo_run sched_run] in *.
    - by simplify_eq.
    - destruct (fifo_step o l) as [[l1 r]|] eqn:E1; [|done]. cbn [mbind option_bind] in Hrun.
      destruct (fifo_run os l1) as [[l2 rs1]|] eqn:E2; [|done]. cbn [mbind option_bind] in Hrun. simplify_eq.
      destruct (sched_step_refines o s l l1 r Hrep Hlen E1) as (H1 & H2 & H3).
      destruct (sched_step o s) as [s1 r1]. cbn [fst snd] in *. subst r1.
      destruct (IH s1 l1 rs1 H1 H3 E2) as [H4 H5].
      destruct (sched_run os s1) as [s2 rs2]. cbn [fst snd] in *. by subst. }
  destruct H as [Hq Hr]. split; [done|]. split; [done|].
  destruct Hq as [Hseg _]. unfold scheduler_runnable_count.
  rewrite (count_from_dseg _ _ _ _ _ _ _ Hseg Hfuel). done.
Qed.

(** [C31] Round robin: with a running process and no sleeper due, the process
    at position [k] of the ready queue is the current one after exactly [k + 1]
    calls of [switch_schedule]. *)
Theorem switch_schedule_round_robin now s c ps k p :
  running now s c ps -> ps !! k = Some p ->
  current_process (Nat.iter (S k) (switch_schedule now) s) = Some p.
Proof.
  intros Hrun Hk. apply list_elem_of_split_length in Hk as (ps1 & ps2 & -> & ->).
  by apply (switch_iter now _ s c ps1 p ps2).
Qed.

(** The timer tick puts the current process back into the ready queue
    whatever its state: a process that has blocked, gone to sleep or exited is
    made ready again, while [switch_schedule] leaves it out of the queue. *)
Theorem timer_tick_requeues_blocked fuel rsp now s c p ps :
  queue_rep s (p :: ps) -> current_process s = Some c -> in_table s c -> c ∉ p :: ps ->
  schedule_needed s = true -> p_state (get s c) <> PROC_STATE_RUNNING -> no_sleepers now s ->
  (exists s', switch_timer_tick fuel rsp s = Some s' /\ queue_rep s' (ps ++ [c]) /\
     current_process s' = Some p /\ p_state (get s' c) = PROC_STATE_READY) /\
  (queue_rep (switch_schedule now s) ps /\ current_process (switch_schedule now s) = Some p /\
   p_state (get (switch_schedule now s) c) = p_state (get s c)).
Proof.
  intros Hq Hc Hin Hout Hneed Hst Hns. apply not_elem_of_cons in Hout as [Hcp Hcps].
  assert (Hpps : p ∉ ps) by (destruct Hq as [_ Hnd]; by apply NoDup_cons in Hnd as [? _]). split.
  - destruct (scheduler_tick_same s (p :: ps) Hq) as (Hq1 & Hc1 & Hn1 & Hl1). unfold switch_timer_tick.
    set (s1 := scheduler_tick s) in *. unfold process_current, scheduler_needs_reschedule.
    rewrite Hc1, Hc. cbn [mbind option_bind]. rewrite (Hn1 Hneed). cbn [negb].
    pose proof (scheduler_pick_rep s1 _ Hq1) as (Hp & Hq2 & Hpin). pose proof (length_table_pick s1) as Hl2.
    destruct (scheduler_pick s1) as [x s2]. cbn [fst snd] in *. subst x.
    set (s3 := upd c (set_rsp rsp) s2).
    destruct (hand_over s3 ps p c) as (H1 & H2 & H3 & H4 & H5 & _); try done.
    + apply queue_rep_upd; [|done]. by intros [? ? ? [] ? ? ? ? ? ? ? ? ? ? ?].
    + unfold s3. rewrite in_table_upd. unfold in_table in *. congruence.
    + unfold s3. rewrite in_table_upd. unfold in_table in *. congruence.
    + by eexists.
  - unfold switch_schedule. rewrite check_sleepers_id by done.
    pose proof (scheduler_pick_rep s _ Hq) as (Hp & Hq2 & Hpin). pose proof (pick_get_state s c) as Hst2.
    destruct (scheduler_pick s) as [x s2]. cbn [fst snd] in *. subst x. unfold process_current. rewrite Hc, Hst2.
    rewrite bool_decide_false by done. unfold scheduler_clear_reschedule, scheduler_set_current. cbn [upd_ptr].
    split; [|split; [done|]].
    + apply (queue_rep_table (upd p (set_state PROC_STATE_RUNNING) (set_current (Some p) s2))); [done..|].
      apply queue_rep_upd; [apply set_state_links|]. by apply (queue_rep_table s2).
    + change (get (set_needed false ?a) c) with (get a c). by rewrite get_upd_ne.
Qed.

(** [process_check_sleepers] wakes exactly the blocked processes whose
    wake-up time has come: they are queued in table order behind the ready
    ones, ready and without a wake-up time; every other process keeps its
    state. *)
Theorem check_sleepers_correct now s ps :
  queue_rep s ps -> length (process_table s) = MAX_PROCESSES ->
  (forall i, due now s i = true -> i ∉ ps) ->
  let s' := process_check_sleepers now s in
  queue_rep s' (ps ++ filter (fun i => due now s i = true) (seq 0 MAX_PROCESSES)) /\
  forall i, (i < MAX_PROCESSES)%nat ->
    p_state (get s' i) = (if due now s i then PROC_STATE_READY else p_state (get s i)) /\
    p_wake_time (get s' i) = (if due now s i then 0 else p_wake_time (get s i)).
Proof.
  intros Hq Hlen Hout. cbn zeta. unfold process_check_sleepers.
  destruct (check_sleepers_loop now (seq 0 MAX_PROCESSES) s ps) as [H1 H2]; [apply NoDup_seq| |done..|].
  - intros i Hi%elem_of_seq. unfold in_table. lia.
  - split; [done|]. intros i Hi. destruct (H2 i) as [-> ->].
    rewrite bool_decide_true by (apply elem_of_seq; lia). done.
Qed.
End props.

(** ** A wake-up before the switch *)

Lemma count_stuck s p c fuel : p_next (get s p) = Some p -> count_from fuel (Some p) c s = None.
Proof.
  intros Hp. revert c. induction fuel as [|f IH]; intros c; [done|]. cbn [count_from]. rewrite Hp. apply IH.
Qed.

(** Process 0 runs, process 1 is ready. *)
Definition two_processes : sched :=
  scheduler_set_current (Some 0%nat)
    (scheduler_add 1 (Sched (replicate MAX_PROCESSES unused_process) 3 None None None false 0)).

(** A process that blocks and is woken before the timer tick has switched
    away from it is queued twice: after the tick it is its own successor in
    the ready queue, and walking the queue never ends. *)
Theorem wake_before_switch_breaks_queue :
  exists s', switch_timer_tick 9 0 (process_wake (Some 0%nat) (process_block two_processes)) = Some s' /\
    ready_queue s' = Some 0%nat /\ p_next (get s' 0) = Some 0%nat /\
    forall fuel, scheduler_runnable_count fuel s' = None.
Proof.
  eexists. split; [vm_compute; reflexivity|]. split; [vm_compute; reflexivity|].
  split; [vm_compute; reflexivity|]. intros fuel. unfold scheduler_runnable_count.
  apply count_stuck. vm_compute. reflexivity.
Qed.

(** ** Witnesses *)

Module Examples.
Lemma empty_queue : queue_rep (Sched (replicate MAX_PROCESSES unused_process) 3 None None None false 0) [].
Proof. split; [done|constructor]. Qed.

Lemma two_queue : queue_rep two_processes [1%nat].
Proof. split; [vm_compute; repeat split; lia|apply NoDup_singleton]. Qed.

Lemma two_awake now : no_sleepers now two_processes.
Proof.
  set (s0 := Sched (replicate MAX_PROCESSES unused_process) 3 None None None false 0).
  assert (H0 : no_sleepers now s0).
  { intros i. unfold due, get. cbn [process_table s0].
    destruct (replicate MAX_PROCESSES unused_process !! i) eqn:E; [|done].
    by apply lookup_replicate_1 in E as [-> _]. }
  apply (mild_sleepers now (set_current (Some 0%nat) (scheduler_add 1 s0))).
  - apply mild_upd. intros []. cbn. auto.
  - apply (mild_sleepers now (scheduler_add 1 s0)); [by apply mild_same|].
    apply (mild_sleepers now s0); [apply mild_add|done].
Qed.

Lemma scheduler_refines_fifo_witness :
  (sched_run [QAdd 3; QAdd 5; QPick; QRemove 5; QPick] two_processes).2 =
  [None; None; Some 1%nat; None; Some 3%nat].
Proof.
  destruct (scheduler_refines_fifo [QAdd 3; QAdd 5; QPick; QRemove 5; QPick] two_processes [1%nat] []
    [None; None; Some 1%nat; None; Some 3%nat] 1) as (_ & H & _).
  - apply two_queue.
  - reflexivity.
  - vm_compute. reflexivity.
  - apply Nat.lt_0_1.
  - exact H.
Defined.

Lemma switch_schedule_round_robin_witness :
  current_process (Nat.iter 1 (switch_schedule 0) two_processes) = Some 1%nat.
Proof.
  apply (switch_schedule_round_robin 0 two_processes 0 [1%nat] 0 1); [|reflexivity].
  split; [apply two_queue|reflexivity| | |reflexivity|apply two_awake].
  - by intros [[=]|Hx%elem_of_nil]%elem_of_cons.
  - vm_compute. lia.
Defined.

Lemma timer_tick_requeues_blocked_witness :
  exists s', switch_timer_tick 9 0 (process_block two_processes) = Some s' /\ p_state (get s' 0) = PROC_STATE_READY.
Proof.
  destruct (timer_tick_requeues_blocked 9 0 0 (process_block two_processes) 0 1 [])
    as ((s' & H & _ & _ & Hs) & _).
  - apply (queue_rep_table (upd 0 (set_state PROC_STATE_BLOCKED) two_processes)); [reflexivity..|].
    apply queue_rep_upd; [apply set_state_links|]. apply two_queue.
  - reflexivity.
  - vm_compute. lia.
  - by intros [[=]|Hx%elem_of_nil]%elem_of_cons.
  - reflexivity.
  - by vm_compute.
  - intros i. destruct (decide (i = 0%nat)) as [->|Hne]; [reflexivity|].
    change (due 0 (process_block two_processes) i)
      with (due 0 (upd 0 (set_state PROC_STATE_BLOCKED) two_processes) i).
    unfold due. rewrite get_upd_ne by done. apply (two_awake 0 i).
  - by exists s'.
Defined.

Lemma check_sleepers_correct_witness :
  queue_rep (process_check_sleepers 7 two_processes)
    ([1%nat] ++ filter (fun i => due 7 two_processes i = true) (seq 0 MAX_PROCESSES)).
Proof.
  destruct (check_sleepers_correct 7 two_processes [1%nat]) as [H _].
  - apply two_queue.
  - reflexivity.
  - intros i Hi. by rewrite two_awake in Hi.
  - exact H.
Defined.
End Examples.
