(* ===== verification/Pcid.v ===== *)
(** * Process-context identifiers (src/src/kernel/switch.c)

    The bitmap allocator of PCIDs.  [init_pcid_system] and
    [check_pcid_support] are assembly; the second one's answer is an argument. *)

From S2P Require Import Prelude Pmm.

Definition PCID_MAX : Z := 4096.

Record pcid : Type := Pcid { pcid_bitmap : list Z; pcid_initialized : bool }.

Definition pcid_word (bm : list Z) (i : Z) : Z := arr_get 0 bm (i / 64).

Definition pcid_allocator_init (s : pcid) : pcid :=
  let bm := foldl (fun bm i => arr_set bm i 0) (pcid_bitmap s) (seqZ 0 (PCID_MAX / 64)) in
  Pcid (arr_set bm 0 (arr_get 0 bm 0 .| 1)) true.

Definition pcid_free_at (bm : list Z) (i : Z) : bool := pcid_word bm i .& (1 .<< (i mod 64)) =? 0.

Definition pcid_alloc (s : pcid) : Z * pcid :=
  let s := if pcid_initialized s then s else pcid_allocator_init s in
  match find_first (pcid_free_at (pcid_bitmap s)) (seqZ 1 (PCID_MAX - 1)) with
  | Some i => (u16 i, Pcid (arr_set (pcid_bitmap s) (i / 64)
                              (pcid_word (pcid_bitmap s) i .| (1 .<< (i mod 64)))) true)
  | None => (0, s)
  end.

Definition pcid_free (p : Z) (s : pcid) : pcid :=
  if (p =? 0) || (PCID_MAX <=? p) then s
  else Pcid (arr_set (pcid_bitmap s) (p / 64)
               (pcid_word (pcid_bitmap s) p .& u64 (Z.lnot (1 .<< (p mod 64))))) (pcid_initialized s).

Definition init_pcid_system_c (supported : bool) (s : pcid) : Z * pcid :=
  if supported then (0, pcid_allocator_init s) else (-1, s).

(** ** Correctness *)

Section pcids.
Implicit Types (s : pcid).

Definition in_use s (i : Z) : bool := page_used (pcid_bitmap s) i.

Record pcid_wf s : Prop := {
  pw_len : len (pcid_bitmap s) = 64;
  pw_init : pcid_initialized s = true;
  pw_zero : in_use s 0 = true
}.

Lemma pcid_free_at_used s i : pcid_free_at (pcid_bitmap s) i = negb (in_use s i).
Proof.
  unfold pcid_free_at, in_use, page_used. apply land_single_eqb. apply mod64_bounds.
Qed.

(** The two updates are [Pmm]'s bitmap updates. *)
Lemma in_use_set s i j b :
  len (pcid_bitmap s) = 64 -> 0 <= i < 4096 -> 0 <= j ->
  in_use (Pcid (arr_set (pcid_bitmap s) (i / 64) (pcid_word (pcid_bitmap s) i .| (1 .<< (i mod 64)))) b) j =
  ((j =? i) || in_use s j)%bool.
Proof. intros Hl Hi Hj. apply (page_used_set (pcid_bitmap s) i j); lia. Qed.

Lemma in_use_clear s i j b :
  len (pcid_bitmap s) = 64 -> 0 <= i < 4096 -> 0 <= j ->
  in_use (Pcid (arr_set (pcid_bitmap s) (i / 64)
    (pcid_word (pcid_bitmap s) i .& u64 (Z.lnot (1 .<< (i mod 64))))) b) j = (negb (j =? i) && in_use s j)%bool.
Proof. intros Hl Hi Hj. apply (page_used_clear (pcid_bitmap s) i j); lia. Qed.

(** On an initialised allocator, [pcid_alloc] returns the lowest PCID that
    is not in use, marks exactly it, and freeing it restores the set in use;
    it returns 0, changing nothing, exactly when all 4095 are in use. *)
Theorem pcid_alloc_free s :
  pcid_wf s ->
  (pcid_alloc s = (0, s) /\ forall i, 1 <= i < 4096 -> in_use s i = true) \/
  exists p s', pcid_alloc s = (p, s') /\ 1 <= p < 4096 /\ in_use s p = false /\
    (forall i, 1 <= i < p -> in_use s i = true) /\ pcid_wf s' /\
    (forall i, 0 <= i -> in_use s' i = ((i =? p) || in_use s i)%bool) /\
    pcid_wf (pcid_free p s') /\ (forall i, 0 <= i -> in_use (pcid_free p s') i = in_use s i).
Proof.
  intros [Hlen Hinit Hz]. unfold pcid_alloc. rewrite Hinit. unfold PCID_MAX.
  destruct (find_first _ _) as [p|] eqn:E.
  - right. apply find_first_seqZ_least in E as (Hp & Hfree & Hlow).
    rewrite pcid_free_at_used in Hfree. apply negb_true_iff in Hfree.
    eexists p, _. rewrite u16_id by (unfold is_u16; lia). split; [done|]. split; [lia|]. split; [done|].
    match goal with |- _ /\ pcid_wf ?S /\ _ => set (s' := S) end.
    assert (Hset : forall i, 0 <= i -> in_use s' i = ((i =? p) || in_use s i)%bool)
      by (intros i Hi; apply in_use_set; lia).
    assert (Hl' : len (pcid_bitmap s') = 64) by (unfold s'; cbn [pcid_bitmap]; rewrite length_arr_set; done).
    assert (Hcl : forall i, 0 <= i -> in_use (pcid_free p s') i = in_use s i).
    { intros i Hi. unfold pcid_free, PCID_MAX.
      rewrite (proj2 (Z.eqb_neq p 0)), (proj2 (Z.leb_gt 4096 p)) by lia. cbn [orb].
      rewrite in_use_clear, Hset by (done || lia). destruct (Z.eqb_spec i p) as [->|]; [by rewrite Hfree|done]. }
    split; [|split; [|split; [done|split; [|done]]]].
    + intros i Hi. specialize (Hlow i). rewrite pcid_free_at_used in Hlow. apply negb_false_iff, Hlow. lia.
    + split; [done|done|]. rewrite Hset, Hz by lia. apply orb_true_r.
    + split; [|unfold pcid_free; by destruct (_ || _)|by rewrite Hcl].
      unfold pcid_free. destruct (_ || _); [done|]. cbn [pcid_bitmap]. by rewrite length_arr_set.
  - left. split; [by destruct s|]. intros i Hi. rewrite find_first_None in E. specialize (E i).
    rewrite pcid_free_at_used in E. apply negb_false_iff, E, elem_of_seqZ. lia.
Qed.

Lemma pcid_alloc_free_witness :
  exists p s', pcid_alloc (pcid_allocator_init (Pcid (replicate 64 0) false)) = (p, s').
Proof.
  destruct (pcid_alloc_free (pcid_allocator_init (Pcid (replicate 64 0) false))) as [[H _]|(p & s' & H & _)].
  - split; reflexivity.
  - by eexists _, _.
  - by exists p, s'.
Defined.
End pcids.
