(* ===== verification/KString.v ===== *)
(** * Kernel strings and paths (src/src/kernel/kstring.c, src/src/fs/path.c)

    A [const char*] argument is the C string it points to; a function that
    fills a buffer returns the string it leaves there. *)

From S2P Require Import Prelude.

Definition k_strlen (s : cstring) : Z := len s.

Fixpoint k_strcmp (a b : cstring) : Z :=
  match a, b with
  | x :: a', y :: b' => if x =? y then k_strcmp a' b' else x - y
  | x :: _, [] => x
  | [], y :: _ => - y
  | [], [] => 0
  end.

Fixpoint k_strncmp (a b : cstring) (n : nat) {struct n} : Z :=
  match n with
  | O => 0
  | S n' =>
      match a, b with
      | x :: a', y :: b' => if x =? y then k_strncmp a' b' n' else x - y
      | x :: _, [] => x
      | [], y :: _ => - y
      | [], [] => 0
      end
  end.

Definition k_memcpy (dst src : list Z) (n : nat) : list Z := take n src ++ drop n dst.

Definition k_strcpy (src : cstring) : cstring := src.

(** The inner loop of [k_strstr]: does the rest of the needle match here? *)
Fixpoint match_here (h n : cstring) {struct n} : bool :=
  match n, h with
  | [], _ => true
  | y :: n', x :: h' => (x =? y) && match_here h' n'
  | _ :: _, [] => false
  end.

(** The result is the suffix of the haystack it points to. *)
Fixpoint strstr_from (haystack needle : cstring) : option cstring :=
  match haystack with
  | [] => None
  | _ :: h' => if match_here haystack needle then Some haystack else strstr_from h' needle
  end.
Definition k_strstr (haystack needle : cstring) : option cstring :=
  match needle with [] => Some haystack | _ => strstr_from haystack needle end.

Definition SPACE : Z := 32.
Fixpoint skip_spaces (s : cstring) : cstring :=
  match s with c :: s' => if c =? SPACE then skip_spaces s' else s | [] => [] end.
(** [while (end > s && *end == ' ') *end-- = 0;]: the first character stays. *)
Fixpoint drop_trailing (rs : cstring) : cstring :=
  match rs with
  | [] => []
  | c :: rs' => match rs' with [] => [c] | _ => if c =? SPACE then drop_trailing rs' else rs end
  end.
Definition k_trim (s : cstring) : cstring := rev (drop_trailing (rev (skip_spaces s))).

(** path.c: the string left in [out] and the result; a null or empty name
    leaves [out] alone. *)
Definition resolve_path (name : cstring) : option cstring :=
  match name with
  | [] => None
  | c :: _ => Some (if c =? ch "/" then take 255 name else ch "/" :: take 254 name)
  end.

(** ** Properties of the string functions *)

Section kstring.
Implicit Types s t a b h n : cstring.

Lemma k_strcmp_eq a b : is_cstr a -> is_cstr b -> k_strcmp a b = 0 <-> a = b.
Proof.
  intros Ha. revert b. induction Ha as [|x a Hx Ha IH]; intros [|y b] Hb; cbn [k_strcmp].
  - by split.
  - apply is_cstr_cons in Hb as [? _]. split; [lia|done].
  - split; [lia|done].
  - apply is_cstr_cons in Hb as [? Hb]. destruct (Z.eqb_spec x y) as [->|Hne].
    + rewrite IH by done. split; congruence.
    + split; [lia|]. intros [= ? ?]. done.
Qed.

Lemma k_strncmp_prefix a b :
  is_cstr a -> is_cstr b -> k_strncmp a b (length b) = 0 <-> b `prefix_of` a.
Proof.
  intros Ha Hb. revert a Ha. induction Hb as [|y b Hy Hb IH]; intros a Ha; cbn [length k_strncmp].
  - split; [|done]. intros _. apply prefix_nil.
  - destruct Ha as [|x a Hx Ha].
    + split; [lia|]. intros [k Hk]. done.
    + destruct (Z.eqb_spec x y) as [->|Hne].
      * rewrite IH by done. split; [apply prefix_cons|]. apply prefix_cons_inv_2.
      * split; [lia|]. intros Hp. by apply prefix_cons_inv_1 in Hp.
Qed.

Lemma match_here_prefix h n : match_here h n = true <-> n `prefix_of` h.
Proof.
  revert h. induction n as [|y n IH]; intros h; cbn [match_here].
  - split; [|done]. intros _. apply prefix_nil.
  - destruct h as [|x h].
    + split; [done|]. by intros [k Hk].
    + rewrite andb_true_iff, IH, Z.eqb_eq. split.
      * intros [-> Hp]. by apply prefix_cons.
      * intros Hp. split; [by apply prefix_cons_inv_1 in Hp|by apply prefix_cons_inv_2 in Hp].
Qed.

(** [k_strstr] finds the first occurrence: the result is the suffix of
    the haystack that starts there, and it is null exactly when the needle
    does not occur. *)
Theorem k_strstr_correct h n :
  match k_strstr h n with
  | Some r => exists pre, h = pre ++ r /\ n `prefix_of` r /\
                forall pre' r', h = pre' ++ r' -> n `prefix_of` r' -> (length pre <= length pre')%nat
  | None => forall pre r, h = pre ++ r -> ~ n `prefix_of` r
  end.
Proof.
  unfold k_strstr. destruct n as [|y n].
  { exists []. split; [done|]. split; [apply prefix_nil|]. intros. simpl. lia. }
  set (nd := y :: n). induction h as [|x h IH]; cbn [strstr_from].
  - intros pre r Hp [k Hk]. by destruct pre, r.
  - destruct (match_here (x :: h) nd) eqn:E.
    + apply match_here_prefix in E. exists []. split; [done|]. split; [done|]. intros. simpl. lia.
    + assert (Hno : ~ nd `prefix_of` x :: h) by (intros H; apply match_here_prefix in H; congruence).
      destruct (strstr_from h nd) as [r|].
      * destruct IH as (pre & -> & Hpre & Hmin). exists (x :: pre). split; [done|]. split; [done|].
        intros [|z pre'] r' Heq Hr'; cbn [app length] in *; [by subst|].
        injection Heq as _ Heq. specialize (Hmin pre' r' Heq Hr'). lia.
      * intros [|z pre] r Heq Hr; cbn [app] in *; [by subst|]. injection Heq as _ Heq. by apply (IH pre r).
Qed.

(** [resolve_path] always yields an absolute path of at most 255
    characters: the name itself when it is absolute, otherwise the name behind
    a slash, in both cases cut off at 255 characters. *)
Theorem resolve_path_correct name :
  match resolve_path name with
  | None => name = []
  | Some out => hd 0 out = ch "/" /\ len out <= 255 /\
      out = take 255 (if bool_decide (hd 0 name = ch "/") then name else ch "/" :: name)
  end.
Proof.
  destruct name as [|c name]; cbn [resolve_path]; [done|]. cbn [hd]. destruct (Z.eqb_spec c (ch "/")) as [->|Hne].
  - rewrite bool_decide_true by done. split; [done|]. split; [rewrite length_take; lia|done].
  - rewrite bool_decide_false by done. split; [done|].
    split; [cbn [length]; rewrite length_take; lia|done].
Qed.

Lemma skip_spaces_head s : hd 0 (skip_spaces s) <> SPACE.
Proof.
  induction s as [|c s IH]; cbn [skip_spaces]; [done|]. destruct (Z.eqb_spec c SPACE); [done|]. done.
Qed.
End kstring.
