(* ===== verification/Disk.v ===== *)
(** * ATA disk driver (src/src/drivers/disk.c)

    The driver talks to the drive through I/O ports.  The drive is hardware,
    so its reaction to port accesses is the class [PortIO], a parameter of
    every definition; [AtaModel] at the end is an instance, a drive that
    holds sectors, used for the witnesses. *)

From S2P Require Import Prelude.

Class PortIO (D : Type) : Type := {
  inb : Z -> D -> Z * D;
  outb : Z -> Z -> D -> D;
  inw : Z -> D -> Z * D;
  outw : Z -> Z -> D -> D;
  io_wait : D -> D
}.

Definition ATA_DATA : Z := 496.          (* 0x1F0 *)
Definition ATA_COUNT : Z := 498.
Definition ATA_LBA_LOW : Z := 499.
Definition ATA_LBA_MID : Z := 500.
Definition ATA_LBA_HIGH : Z := 501.
Definition ATA_DRIVE : Z := 502.
Definition ATA_STATUS : Z := 503.
Definition ATA_COMMAND : Z := 503.
Definition ATA_CONTROL : Z := 1014.      (* 0x3F6 *)
Definition ATA_DRIVE_MASTER : Z := 224.  (* 0xE0 *)
Definition ATA_CMD_READ : Z := 32.
Definition ATA_CMD_WRITE : Z := 48.
Definition ATA_CMD_IDENTIFY : Z := 236.
Definition ATA_STATUS_ERR : Z := 1.
Definition ATA_STATUS_DRQ : Z := 8.
Definition ATA_STATUS_DF : Z := 32.
Definition ATA_STATUS_BSY : Z := 128.
Definition ATA_SECTOR_SIZE : Z := 512.

Record disk_info : Type := DiskInfo {
  lba_sectors : Z;
  lba48_sectors : Z;
  di_model : list Z;
  di_serial : list Z
}.

Record disk (D : Type) : Type := Disk {
  dev : D;
  info : disk_info;
  disk_initialized : bool;
  disk_is_ssd_cached : bool
}.
Arguments Disk {D} _ _ _ _.
Arguments dev {D} _.
Arguments info {D} _.
Arguments disk_initialized {D} _.
Arguments disk_is_ssd_cached {D} _.

Section driver.
Context {D : Type} `{PortIO D}.
Implicit Types (d : D) (s : disk D).

Definition set_dev d s : disk D := Disk d (info s) (disk_initialized s) (disk_is_ssd_cached s).

Definition flag (status mask : Z) : bool := negb (status .& mask =? 0).

(** [while (timeout--)] with a test on the status register. *)
Fixpoint poll (ok : Z -> bool) (timeout : nat) d : Z * D :=
  match timeout with
  | O => (-1, d)
  | S t => let '(status, d) := inb ATA_STATUS d in if ok status then (0, d) else poll ok t d
  end.

Definition TIMEOUT : nat := Z.to_nat 100000.

Definition wait_ready d : Z * D := poll (fun st => negb (flag st ATA_STATUS_BSY)) TIMEOUT d.
Definition wait_data d : Z * D :=
  poll (fun st => negb (flag st ATA_STATUS_BSY) && flag st ATA_STATUS_DRQ) TIMEOUT d.

Definition ata_reset d : D :=
  let d := io_wait (outb ATA_CONTROL 4 d) in
  let d := io_wait (outb ATA_CONTROL 0 d) in
  (wait_ready d).2.

Fixpoint read_words (n : nat) d : list Z * D :=
  match n with
  | O => ([], d)
  | S n' => let '(w, d) := inw ATA_DATA d in let '(ws, d) := read_words n' d in (w :: ws, d)
  end.
Definition read_data d : list Z * D := read_words 256 d.
Definition write_data (buffer : list Z) d : D :=
  foldl (fun d w => outw ATA_DATA w d) d (take 256 buffer).

(** The loop of [disk_init] that waits for the drive to answer. *)
Fixpoint await_identify (spins : nat) d : option Z * D :=
  match spins with
  | O => (None, d)
  | S n =>
      let '(status, d) := inb ATA_STATUS d in
      if status =? 0 then (None, d)
      else if negb (flag status ATA_STATUS_BSY) then (Some status, d)
      else await_identify n d
  end.

Definition word (ws : list Z) (i : Z) : Z := arr_get 0 ws i.
(** Byte-swapped identification strings. *)
Definition swapped (ws : list Z) (first n : Z) : list Z :=
  mjoin ((fun i => [u8 (word ws (first + i) .>> 8); word ws (first + i) .& 255]) <$> seqZ 0 n).

Definition disk_init s : Z * disk D :=
  let d := ata_reset (dev s) in
  let d := io_wait (outb ATA_DRIVE ATA_DRIVE_MASTER d) in
  let d := io_wait (outb ATA_COMMAND ATA_CMD_IDENTIFY d) in
  match await_identify TIMEOUT d with
  | (None, d) => (-1, set_dev d s)
  | (Some status, d) =>
      if flag status (ATA_STATUS_ERR .| ATA_STATUS_DF) then (-1, set_dev d s)
      else
        let '(identify, d) := read_data d in
        let lba := u32 (word identify 61 .<< 16) .| word identify 60 in
        let lba48 := (word identify 103 .<< 48) .| (word identify 102 .<< 32)
                       .| (word identify 101 .<< 16) .| word identify 100 in
        (0, Disk d (DiskInfo lba lba48 (swapped identify 27 20) (swapped identify 10 10))
              true (word identify 217 =? 1))
  end.

Definition select_lba (lba count command : Z) d : D :=
  let d := outb ATA_DRIVE (ATA_DRIVE_MASTER .| ((lba .>> 24) .& 15)) d in
  let d := outb ATA_COUNT (if count =? 256 then 0 else u8 count) d in
  let d := outb ATA_LBA_LOW (lba .& 255) d in
  let d := outb ATA_LBA_MID ((lba .>> 8) .& 255) d in
  let d := outb ATA_LBA_HIGH ((lba .>> 16) .& 255) d in
  outb ATA_COMMAND command d.

(** The words stored in the buffer so far, the result, and the drive. *)
Fixpoint read_sectors (n : nat) d : list Z * Z * D :=
  match n with
  | O => ([], 0, d)
  | S n' =>
      let '(r, d) := wait_data d in
      if r <? 0 then ([], -1, d)
      else
        let '(ws, d) := read_data d in
        let '(rest, r, d) := read_sectors n' d in
        (ws ++ rest, r, d)
  end.

Definition disk_read (lba count : Z) s : list Z * Z * disk D :=
  if (count =? 0) || (256 <? count) then ([], -1, s)
  else if 2 ^ 28 - 1 <? lba then ([], -1, s)
  else
    let '(r, d) := wait_ready (dev s) in
    if r <? 0 then ([], -1, set_dev d s)
    else
      let '(ws, r, d) := read_sectors (Z.to_nat count) (select_lba lba count ATA_CMD_READ d) in
      (ws, r, set_dev d s).

Fixpoint write_sectors (n : nat) (buffer : list Z) d : Z * D :=
  match n with
  | O => (0, d)
  | S n' =>
      let '(r, d) := wait_ready d in
      if r <? 0 then (-1, d)
      else write_sectors n' (drop 256 buffer) (write_data buffer d)
  end.

Definition disk_write (lba count : Z) (buffer : list Z) s : Z * disk D :=
  if (count =? 0) || (256 <? count) then (-1, s)
  else if 2 ^ 28 - 1 <? lba then (-1, s)
  else
    let '(r, d) := wait_ready (dev s) in
    if r <? 0 then (-1, set_dev d s)
    else
      let '(r, d) := write_sectors (Z.to_nat count) buffer (select_lba lba count ATA_CMD_WRITE d) in
      (r, set_dev d s).

Definition disk_get_size s : Z :=
  if negb (lba48_sectors (info s) =? 0) then u64 (lba48_sectors (info s) * ATA_SECTOR_SIZE)
  else u32 (lba_sectors (info s) * ATA_SECTOR_SIZE).

Definition disk_is_ready s : bool := disk_initialized s.
Definition disk_is_ssd s : Z :=
  if negb (disk_initialized s) then -1 else Z.b2z (disk_is_ssd_cached s).
Definition disk_get_info s : disk_info := info s.
End driver.

(** ** A drive

    A drive that is always ready: it decodes the address registers when a
    command arrives, delivers the sectors of a read word by word, and stores
    the words of a write sector by sector. *)
Module AtaModel.
Record ata : Type := Ata {
  platter : gmap Z (list Z);
  r_drive : Z; r_count : Z; r_low : Z; r_mid : Z; r_high : Z;
  pending : list Z;               (* words still to be read *)
  w_lba : Z; w_words : list Z     (* sector being written *)
}.

Definition sector (a : ata) (lba : Z) : list Z := default (replicate 256 0) (platter a !! lba).

Definition reg_lba (a : ata) : Z :=
  r_low a + 2 ^ 8 * r_mid a + 2 ^ 16 * r_high a + 2 ^ 24 * (r_drive a .& 15).
Definition reg_count (a : ata) : nat := if r_count a =? 0 then 256%nat else Z.to_nat (r_count a).

Definition run_command (c : Z) (a : ata) : ata :=
  let '(Ata p dr ct lo mi hi _ wl ww) := a in
  if c =? ATA_CMD_READ then
    Ata p dr ct lo mi hi (mjoin (sector a <$> seqZ (reg_lba a) (Z.of_nat (reg_count a)))) wl ww
  else if c =? ATA_CMD_WRITE then Ata p dr ct lo mi hi [] (reg_lba a) []
  else a.

Definition ata_outb (port v : Z) (a : ata) : ata :=
  let '(Ata p dr ct lo mi hi pe wl ww) := a in
  if port =? ATA_DRIVE then Ata p v ct lo mi hi pe wl ww
  else if port =? ATA_COUNT then Ata p dr v lo mi hi pe wl ww
  else if port =? ATA_LBA_LOW then Ata p dr ct v mi hi pe wl ww
  else if port =? ATA_LBA_MID then Ata p dr ct lo v hi pe wl ww
  else if port =? ATA_LBA_HIGH then Ata p dr ct lo mi v pe wl ww
  else if port =? ATA_COMMAND then run_command v a
  else a.

Definition ata_inw (port : Z) (a : ata) : Z * ata :=
  let '(Ata p dr ct lo mi hi pe wl ww) := a in
  match pe with
  | w :: pe' => (w, Ata p dr ct lo mi hi pe' wl ww)
  | [] => (0, a)
  end.

Definition ata_outw (port v : Z) (a : ata) : ata :=
  let '(Ata p dr ct lo mi hi pe wl ww) := a in
  let ww := ww ++ [v] in
  if (length ww =? 256)%nat then Ata (<[wl := ww]> p) dr ct lo mi hi pe (wl + 1) []
  else Ata p dr ct lo mi hi pe wl ww.

#[export] Instance ata_ports : PortIO ata := {|
  inb _ a := (72, a);   (* RDY and DRQ *)
  outb := ata_outb; inw := ata_inw; outw := ata_outw; io_wait a := a
|}.

Lemma poll_now (ok : Z -> bool) n (a : ata) : ok 72 = true -> (0 < n)%nat -> poll ok n a = (0, a).
Proof. intros Hok Hn. destruct n as [|n]; [lia|]. cbn [poll inb ata_ports]. by rewrite Hok. Qed.
Lemma timeout_pos : (0 < TIMEOUT)%nat.
Proof. unfold TIMEOUT. lia. Qed.
Lemma wait_ready_now a : wait_ready a = (0, a).
Proof. apply poll_now; [done|apply timeout_pos]. Qed.
Lemma wait_data_now a : wait_data a = (0, a).
Proof. apply poll_now; [done|apply timeout_pos]. Qed.

(** The registers that [select_lba] sets decode to the address. *)
Lemma select_decodes lba count c (a : ata) :
  0 <= lba < 2 ^ 28 -> 1 <= count <= 256 ->
  let a' := select_lba lba count c a in
  exists b, a' = run_command c b /\ platter b = platter a /\ reg_lba b = lba /\
    reg_count b = Z.to_nat count.
Proof.
  intros Hl Hc. destruct a as [p dr ct lo mi hi pe wl ww]. cbn zeta. unfold select_lba. cbn [outb ata_ports].
  unfold ata_outb. cbn [Z.eqb ATA_DRIVE ATA_COUNT ATA_LBA_LOW ATA_LBA_MID ATA_LBA_HIGH ATA_COMMAND Pos.eqb].
  eexists. split; [done|]. split; [done|]. split.
  - unfold reg_lba. cbn [r_low r_mid r_high r_drive]. unfold ATA_DRIVE_MASTER.
    rewrite Z.land_lor_distr_l. change (224 .& 15) with 0. rewrite Z.lor_0_l, <- Z.land_assoc.
    change (15 .& 15) with (Z.ones 4). change 255 with (Z.ones 8). change 15 with (Z.ones 4).
    rewrite !Z.land_ones, !Z.shiftr_div_pow2 by lia.
    pose proof (Z.div_mod lba (2 ^ 8)). pose proof (Z.div_mod (lba / 2 ^ 8) (2 ^ 8)).
    pose proof (Z.div_mod (lba / 2 ^ 16) (2 ^ 8)).
    assert (E1 : lba / 2 ^ 8 / 2 ^ 8 = lba / 2 ^ 16) by (rewrite Z.div_div by lia; done).
    assert (E2 : lba / 2 ^ 16 / 2 ^ 8 = lba / 2 ^ 24) by (rewrite Z.div_div by lia; done).
    assert (E3 : (lba / 2 ^ 24) mod 2 ^ 4 = lba / 2 ^ 24)
      by (apply Z.mod_small; split; [apply Z.div_pos|apply Z.div_lt_upper_bound]; lia).
    lia.
  - unfold reg_count. cbn [r_count]. destruct (Z.eqb_spec count 256) as [->|Hne]; [done|].
    rewrite u8_id by (unfold is_u8; lia). destruct (Z.eqb_spec count 0); [lia|done].
Qed.

Lemma read_words_pending n (a : ata) :
  (n <= length (pending a))%nat ->
  exists a', read_words n a = (take n (pending a), a') /\ pending a' = drop n (pending a) /\ platter a' = platter a.
Proof.
  revert a. induction n as [|n IH]; intros a Hn; cbn [read_words].
  - exists a. by rewrite drop_0.
  - destruct a as [p dr ct lo mi hi [|w pe] wl ww]; cbn [pending length] in Hn; [lia|].
    cbn [inw ata_ports ata_inw]. destruct (IH (Ata p dr ct lo mi hi pe wl ww)) as (a' & -> & Hp & Hpl); [cbn [pending]; lia|].
    exists a'. done.
Qed.

Lemma read_sectors_pending n (a : ata) :
  (256 * n <= length (pending a))%nat ->
  exists a', read_sectors n a = (take (256 * n) (pending a), 0, a') /\ platter a' = platter a.
Proof.
  revert a. induction n as [|n IH]; intros a Hn; cbn [read_sectors].
  - exists a. by rewrite Nat.mul_0_r.
  - rewrite wait_data_now. change (0 <? 0) with false. cbn iota. unfold read_data.
    destruct (read_words_pending 256 a) as (a1 & -> & Hp & Hpl); [lia|].
    destruct (IH a1) as (a2 & -> & Hpl2); [rewrite Hp, length_drop; lia|].
    exists a2. split; [|congruence]. rewrite Hp. do 2 f_equal.
    replace (256 * S n)%nat with (256 + 256 * n)%nat by lia. apply take_take_drop.
Qed.

Lemma write_words l : forall p dr ct lo mi hi pe wl ww,
  (length ww + length l <= 256)%nat -> l <> [] ->
  foldl (fun d w => outw ATA_DATA w d) (Ata p dr ct lo mi hi pe wl ww) l =
  if (length ww + length l =? 256)%nat then Ata (<[wl := ww ++ l]> p) dr ct lo mi hi pe (wl + 1) []
  else Ata p dr ct lo mi hi pe wl (ww ++ l).
Proof.
  induction l as [|w l IH]; intros p dr ct lo mi hi pe wl ww Hl Hne; [done|]. cbn [foldl outw ata_ports ata_outw].
  rewrite length_app. cbn [length] in *. destruct l as [|w' l].
  - cbn [foldl length]. by replace (length ww + 1 =? 256)%nat with (length ww + 1 =? 256)%nat by done.
  - rewrite (proj2 (Nat.eqb_neq (length ww + 1) 256)) by (cbn [length] in Hl; lia).
    rewrite IH; [|rewrite length_app; cbn [length] in *; lia|done].
    rewrite length_app, <- app_assoc. cbn [length app] in *.
    by replace (length ww + 1 + S (length l))%nat with (length ww + S (S (length l)))%nat by lia.
Qed.

(** What a finished write leaves on the platter. *)
Fixpoint store (n : nat) (lba : Z) (buf : list Z) (p : gmap Z (list Z)) : gmap Z (list Z) :=
  match n with O => p | S n' => store n' (lba + 1) (drop 256 buf) (<[lba := take 256 buf]> p) end.

Lemma write_sectors_store n : forall buf p dr ct lo mi hi pe wl,
  length buf = (256 * n)%nat ->
  exists a', write_sectors n buf (Ata p dr ct lo mi hi pe wl []) = (0, a') /\ platter a' = store n wl buf p.
Proof.
  induction n as [|n IH]; intros buf p dr ct lo mi hi pe wl Hlen; cbn [write_sectors store]; [by eexists|].
  rewrite wait_ready_now. change (0 <? 0) with false. cbn iota. unfold write_data.
  assert (Ht : length (take 256 buf) = 256%nat) by (rewrite length_take; lia).
  rewrite write_words; [|cbn [length]; lia|intros E; rewrite E in Ht; done].
  cbn [length app]. rewrite Ht. change (0 + 256 =? 256)%nat with true. cbn iota.
  apply IH. rewrite length_drop. lia.
Qed.

Lemma store_lookup n : forall lba buf p x,
  store n lba buf p !! x =
  if bool_decide (lba <= x < lba + Z.of_nat n) then Some (take 256 (drop (256 * Z.to_nat (x - lba)) buf)) else p !! x.
Proof.
  induction n as [|n IH]; intros lba buf p x; cbn [store].
  - rewrite bool_decide_false by lia. done.
  - rewrite IH. destruct (decide (x = lba)) as [->|Hne].
    + rewrite bool_decide_false, lookup_insert_eq by lia. rewrite bool_decide_true by lia.
      by rewrite Z.sub_diag, drop_0.
    + destruct (decide (lba + 1 <= x < lba + 1 + Z.of_nat n)).
      * rewrite !bool_decide_true by lia. rewrite drop_drop. do 2 f_equal. f_equal. lia.
      * rewrite !bool_decide_false by lia. by rewrite lookup_insert_ne.
Qed.

Lemma chunks_join (n : nat) : forall (f : Z -> list Z) (lba : Z) (buf : list Z),
  (forall j, (j < n)%nat -> f (lba + Z.of_nat j) = take 256 (drop (256 * j) buf)) ->
  mjoin (f <$> seqZ lba (Z.of_nat n)) = take (256 * n) buf.
Proof.
  induction n as [|n IH]; intros f lba buf Hf.
  - by rewrite Nat.mul_0_r.
  - rewrite seqZ_cons by lia. replace (Z.pred (Z.of_nat (S n))) with (Z.of_nat n) by lia.
    rewrite fmap_cons.
    change (mjoin (f lba :: (f <$> seqZ (Z.succ lba) (Z.of_nat n))))
      with (f lba ++ mjoin (f <$> seqZ (Z.succ lba) (Z.of_nat n))).
    rewrite (IH f (Z.succ lba) (drop 256 buf)).
    + replace (f lba) with (take 256 buf) by (rewrite <- (Z.add_0_r lba); symmetry; apply (Hf 0%nat); lia).
      replace (256 * S n)%nat with (256 + 256 * n)%nat by lia. apply take_take_drop.
    + intros j Hj. rewrite drop_drop. replace (256 + 256 * j)%nat with (256 * S j)%nat by lia.
      rewrite <- Hf by lia. f_equal. lia.
Qed.


End AtaModel.

(** The size of a drive without 48-bit addressing is computed in 32 bits: it
    is always below 4 GiB, whatever the number of sectors. *)
Lemma disk_get_size_lba28_wraps {D} (s : disk D) :
  lba48_sectors (info s) = 0 -> disk_get_size s = (lba_sectors (info s) * 512) mod 2 ^ 32.
Proof. intros E. unfold disk_get_size. by rewrite E. Qed.
