(* ===== verification/Bytes.v ===== *)
(** * Bytes in kernel memory

    Storing and loading byte sequences and little-endian fields in the
    payload memory of the kernel heap. *)

From S2P Require Import Prelude KHeap.

Fixpoint store_bytes (p : Z) (bs : list Z) (m : gmap Z Z) : gmap Z Z :=
  match bs with [] => m | b :: bs' => store_bytes (p + 1) bs' (<[p := b]> m) end.
Definition load_bytes (m : gmap Z Z) (p n : Z) : list Z := (fun i => byte_at m (p + i)) <$> seqZ 0 n.
(** A little-endian field of [n] bytes. *)
Definition load_le (m : gmap Z Z) (p n : Z) : Z :=
  foldr (fun b acc => b + 256 * acc) 0 (load_bytes m p n).
Fixpoint le_bytes (n : nat) (v : Z) : list Z :=
  match n with O => [] | S n' => v mod 256 :: le_bytes n' (v / 256) end.
Definition store_le (p n v : Z) (m : gmap Z Z) : gmap Z Z := store_bytes p (le_bytes (Z.to_nat n) v) m.

Section bytes.
Implicit Types (m : gmap Z Z) (bs : list Z).

Lemma store_bytes_at bs : forall p m x,
  byte_at (store_bytes p bs m) x =
  if (p <=? x) && (x <? p + len bs) then arr_get 0 bs (x - p) else byte_at m x.
Proof.
  induction bs as [|b bs IH]; intros p m x; cbn [store_bytes length].
  - destruct (_ && _) eqn:E; [zbool; lia|done].
  - rewrite IH. unfold byte_at at 1. destruct (decide (x = p)) as [->|Hne].
    + rewrite lookup_insert_eq. cbn [default].
      destruct ((p + 1 <=? p) && _) eqn:E1; [zbool; lia|].
      rewrite Z.leb_refl, (proj2 (Z.ltb_lt p (p + Z.of_nat (S (length bs))))) by lia. by rewrite Z.sub_diag.
    + rewrite lookup_insert_ne by done. fold (byte_at m x).
      destruct (Z.leb_spec (p + 1) x), (Z.leb_spec p x), (Z.ltb_spec x (p + 1 + len bs)),
        (Z.ltb_spec x (p + Z.of_nat (S (length bs)))); cbn [andb]; try lia; try done.
      unfold arr_get. replace (Z.to_nat (x - p)) with (S (Z.to_nat (x - (p + 1)))) by lia. done.
Qed.

(** Memory holds bytes. *)
Definition byte_mem m : Prop := forall a, 0 <= byte_at m a < 256.

Lemma le_bounds bs : Forall (fun b => 0 <= b < 256) bs ->
  0 <= foldr (fun b acc => b + 256 * acc) 0 bs < 256 ^ len bs.
Proof.
  induction 1 as [|b l Hb Hl IH]; cbn [foldr length]; [lia|].
  replace (Z.of_nat (S (length l))) with (Z.succ (len l)) by lia. rewrite Z.pow_succ_r by lia. lia.
Qed.

Lemma load_le_bounds m p n : byte_mem m -> 0 <= n -> 0 <= load_le m p n < 256 ^ n.
Proof.
  intros Hm Hn. unfold load_le. pose proof (le_bounds (load_bytes m p n)) as Hb.
  unfold load_bytes in *. rewrite length_fmap, length_seqZ, Z2Nat.id in Hb by done.
  apply Hb, Forall_fmap, Forall_forall. intros i _. apply Hm.
Qed.

Lemma byte_mem_store p bs : Forall (fun b => 0 <= b < 256) bs -> byte_mem (store_bytes p bs ∅).
Proof.
  intros Hbs a. rewrite store_bytes_at. destruct (_ && _); [|vm_compute; split; [done|reflexivity]].
  unfold arr_get. destruct (bs !! _) as [b|] eqn:E; cbn [default]; [|lia].
  by apply (Forall_lookup_1 _ _ _ _ Hbs) in E.
Qed.

(** ** Reading back *)

Lemma load_bytes_ext m m' p p' n :
  (forall i, 0 <= i < n -> byte_at m (p + i) = byte_at m' (p' + i)) -> load_bytes m p n = load_bytes m' p' n.
Proof.
  intros H. apply list_fmap_ext. intros k i Hk. apply list_elem_of_lookup_2, elem_of_seqZ in Hk. apply H. lia.
Qed.

Lemma load_bytes_app m p n k :
  0 <= n -> 0 <= k -> load_bytes m p (n + k) = load_bytes m p n ++ load_bytes m (p + n) k.
Proof.
  intros Hn Hk. unfold load_bytes. rewrite seqZ_app, fmap_app by done. f_equal.
  apply list_eq. intros j. rewrite !list_lookup_fmap. rewrite Z.add_0_l.
  destruct (decide (Z.of_nat j < k)).
  - rewrite !lookup_seqZ_lt by lia. cbn [fmap option_fmap option_map]. do 2 f_equal. lia.
  - rewrite !lookup_seqZ_ge by lia. done.
Qed.

Lemma length_load_bytes m p n : 0 <= n -> len (load_bytes m p n) = n.
Proof. intros. unfold load_bytes. rewrite length_fmap, length_seqZ. lia. Qed.

Lemma load_stored data m p : load_bytes (store_bytes p data m) p (len data) = data.
Proof.
  apply list_eq. intros j. unfold load_bytes. rewrite list_lookup_fmap. destruct (decide (j < length data)%nat).
  - rewrite lookup_seqZ_lt by lia. cbn [fmap option_fmap option_map]. rewrite store_bytes_at.
    rewrite (proj2 (Z.leb_le _ _)), (proj2 (Z.ltb_lt _ _)) by lia. cbn [andb].
    destruct (lookup_lt_is_Some_2 data j) as [x Hx]; [done|]. unfold arr_get.
    replace (Z.to_nat _) with j by lia. by rewrite Hx.
  - rewrite lookup_seqZ_ge by lia. symmetry. apply lookup_ge_None. lia.
Qed.

Lemma length_le_bytes n v : length (le_bytes n v) = n.
Proof. revert v. induction n as [|n IH]; intros v; cbn [le_bytes length]; [done|by rewrite IH]. Qed.

Lemma le_bytes_range n v : Forall (fun b => 0 <= b < 256) (le_bytes n v).
Proof. revert v. induction n as [|n IH]; intros v; [constructor|]. constructor; [by apply Z.mod_pos_bound|apply IH]. Qed.

Lemma le_bytes_value n : forall v,
  foldr (fun b acc => b + 256 * acc) 0 (le_bytes n v) = v mod 256 ^ Z.of_nat n.
Proof.
  induction n as [|n IH]; intros v; cbn [le_bytes foldr]; [by rewrite Z.mod_1_r|].
  rewrite IH, Nat2Z.inj_succ, Z.pow_succ_r by lia. rewrite Z.rem_mul_r; lia.
Qed.

(** ** Frames

    [frame p n m m']: only bytes in [[p, p + n)] differ. *)

Definition frame (p n : Z) m m' : Prop := forall x, ~ (p <= x < p + n) -> byte_at m' x = byte_at m x.

Lemma frame_refl p n m : frame p n m m.
Proof. done. Qed.
Lemma frame_trans p n m1 m2 m3 : frame p n m1 m2 -> frame p n m2 m3 -> frame p n m1 m3.
Proof. intros H1 H2 x Hx. by rewrite H2, H1. Qed.
Lemma frame_weaken p n q k m m' : frame q k m m' -> p <= q -> q + k <= p + n -> frame p n m m'.
Proof. intros H1 Hp Hn x Hx. apply H1. lia. Qed.
Lemma frame_empty p n q k m m' : frame q k m m' -> k <= 0 -> frame p n m m'.
Proof. intros H1 Hk x Hx. apply H1. lia. Qed.

Lemma frame_store_bytes p bs m : frame p (len bs) m (store_bytes p bs m).
Proof. intros x Hx. rewrite store_bytes_at. destruct (_ && _) eqn:E; [zbool; lia|done]. Qed.
Lemma frame_store_le p n v m : 0 <= n -> frame p n m (store_le p n v m).
Proof.
  intros Hn. unfold store_le. pose proof (frame_store_bytes p (le_bytes (Z.to_nat n) v) m) as H.
  rewrite length_le_bytes, Z2Nat.id in H; done.
Qed.

Lemma load_bytes_frame p n q k m m' :
  frame q k m m' -> p + n <= q \/ q + k <= p \/ n <= 0 -> load_bytes m' p n = load_bytes m p n.
Proof. intros H1 Hd. apply load_bytes_ext. intros i Hi. apply H1. lia. Qed.
Lemma load_le_frame p n q k m m' :
  frame q k m m' -> p + n <= q \/ q + k <= p \/ n <= 0 -> load_le m' p n = load_le m p n.
Proof. intros H1 Hd. unfold load_le. by erewrite load_bytes_frame by done. Qed.

Lemma load_le_store_eq p n v m : 0 <= n -> load_le (store_le p n v m) p n = v mod 256 ^ n.
Proof.
  intros Hn. unfold load_le, store_le. pose proof (load_stored (le_bytes (Z.to_nat n) v) m p) as H.
  rewrite length_le_bytes, Z2Nat.id in H by done. by rewrite H, le_bytes_value, Z2Nat.id.
Qed.
Lemma load_le_store_ne p n q k v m :
  0 <= k -> p + n <= q \/ q + k <= p \/ n <= 0 -> load_le (store_le q k v m) p n = load_le m p n.
Proof. intros Hk Hd. eapply load_le_frame; [by apply frame_store_le|done]. Qed.

Lemma byte_mem_store_bytes p bs m :
  byte_mem m -> Forall (fun b => 0 <= b < 256) bs -> byte_mem (store_bytes p bs m).
Proof.
  intros Hm Hbs a. rewrite store_bytes_at. destruct (_ && _); [|apply Hm].
  apply (arr_get_Forall 0 (fun b => 0 <= b < 256)); [lia|done].
Qed.
Lemma byte_mem_store_le p n v m : byte_mem m -> byte_mem (store_le p n v m).
Proof. intros Hm. apply byte_mem_store_bytes; [done|apply le_bytes_range]. Qed.
Lemma load_bytes_range m p n : byte_mem m -> Forall (fun b => 0 <= b < 256) (load_bytes m p n).
Proof. intros Hm. apply Forall_fmap, Forall_forall. intros i _. apply Hm. Qed.

End bytes.
