(* ===== verification/Part.v ===== *)
(** * Partitions (src/src/drivers/partition_table.c, part.c, src/src/fs/volume.c)

    The GPT reader, the partition layer over the disk driver, and the volume
    binding.  The header and the entry array live in kernel-heap memory: they
    are read from disk into the bytes at the address [kmalloc] returned and
    decoded from there. *)

From S2P Require Import Prelude KHeap Bytes Disk.

Definition GPT_HEADER_LBA : Z := 1.
Definition GPT_MAX_PARTITIONS : Z := 128.
Definition GPT_TYPE_UNUSED : list Z := replicate 16 0.
Definition GPT_TYPE_EFI_SYSTEM : list Z := [193; 42; 115; 40; 129; 28; 16; 70; 176; 134; 75; 84; 121; 152; 77; 131].
Definition GPT_TYPE_LINUX_FS : list Z := [175; 61; 198; 15; 131; 132; 114; 71; 142; 121; 61; 105; 216; 71; 125; 228].
Definition GPT_TYPE_LINUX_SWAP : list Z := [97; 87; 198; 6; 129; 28; 16; 70; 176; 134; 75; 84; 121; 152; 77; 131].
Definition GPT_TYPE_FAT32 : list Z := [227; 175; 46; 235; 93; 243; 70; 71; 157; 20; 165; 67; 81; 92; 200; 176].

(** ** Bytes in memory *)

Definition bytes_of (ws : list Z) : list Z := mjoin ((fun w => [w .& 255; (w .>> 8) .& 255]) <$> ws).
Record gpt_entry : Type := GptEntry {
  type_guid : list Z; start_lba : Z; end_lba : Z; name : list Z
}.
Definition load_entry (m : gmap Z Z) (p : Z) : gpt_entry :=
  GptEntry (load_bytes m p 16) (load_le m (p + 32) 8) (load_le m (p + 40) 8)
           ((fun i => load_le m (p + 56 + 2 * i) 2) <$> seqZ 0 36).

Record part (D : Type) : Type := Part {
  pdisk : disk D;
  pheap : kheap;
  gpt_header : Z;          (* address, 0 before the first read *)
  gpt_entries : Z;
  partition_count : Z;
  allocated_entries : Z;
  part_ready : bool
}.
Arguments Part {D} _ _ _ _ _ _ _.
Arguments pdisk {D} _.
Arguments pheap {D} _.
Arguments gpt_header {D} _.
Arguments gpt_entries {D} _.
Arguments partition_count {D} _.
Arguments allocated_entries {D} _.
Arguments part_ready {D} _.

Section gpt.
Context {D : Type} `{PortIO D}.
Implicit Types (s : part D).

Definition set_pdisk d s : part D :=
  Part d (pheap s) (gpt_header s) (gpt_entries s) (partition_count s) (allocated_entries s) (part_ready s).
Definition set_pheap h s : part D :=
  Part (pdisk s) h (gpt_header s) (gpt_entries s) (partition_count s) (allocated_entries s) (part_ready s).
Definition set_header p s : part D :=
  Part (pdisk s) (pheap s) p (gpt_entries s) (partition_count s) (allocated_entries s) (part_ready s).
Definition set_entries p s : part D :=
  Part (pdisk s) (pheap s) (gpt_header s) p (partition_count s) (allocated_entries s) (part_ready s).
Definition set_count n s : part D :=
  Part (pdisk s) (pheap s) (gpt_header s) (gpt_entries s) n (allocated_entries s) (part_ready s).
Definition set_allocated n s : part D :=
  Part (pdisk s) (pheap s) (gpt_header s) (gpt_entries s) (partition_count s) n (part_ready s).
Definition set_ready b s : part D :=
  Part (pdisk s) (pheap s) (gpt_header s) (gpt_entries s) (partition_count s) (allocated_entries s) b.

Definition mem_of s : gmap Z Z := payload (pheap s).

(** [disk_read] into kernel memory at [p]. *)
Definition disk_read_to (lba count p : Z) s : Z * part D :=
  let '(ws, r, d) := disk_read lba count (pdisk s) in
  (r, set_pheap (set_payload (store_bytes p (bytes_of ws) (mem_of s)) (pheap s)) (set_pdisk d s)).

Definition guid_equal (a b : list Z) : bool := bool_decide (a = b).

Definition gpt_signature_valid (sig : list Z) : bool :=
  bool_decide (sig = [69; 70; 73; 32; 80; 65; 82; 84]).

(** The entry array's buffer, allocated anew when the table has grown. *)
Definition ensure_entries (fuel : nat) (count size : Z) s : option (Z * part D) :=
  if (gpt_entries s =? 0) || (allocated_entries s <? count) then
    s ← (if gpt_entries s =? 0 then Some s
         else h ← kfree fuel (gpt_entries s) (pheap s); Some (set_pheap h s));
    '(p, h) ← kmalloc fuel size (pheap s);
    let s := set_entries p (set_pheap h s) in
    if p =? 0 then Some (-1, set_allocated 0 (set_count 0 s))
    else Some (0, set_allocated count s)
  else Some (0, s).

Definition gpt_read_header (fuel : nat) s : option (Z * part D) :=
  s ← (if gpt_header s =? 0 then
         '(p, h) ← kmalloc fuel ATA_SECTOR_SIZE (pheap s); Some (set_header p (set_pheap h s))
       else Some s);
  if gpt_header s =? 0 then Some (-1, s)
  else
    let '(r, s) := disk_read_to GPT_HEADER_LBA 1 (gpt_header s) s in
    if r <? 0 then Some (-1, s)
    else
      let hdr := gpt_header s in
      let entry_array_lba := load_le (mem_of s) (hdr + 72) 8 in
      let entry_count := load_le (mem_of s) (hdr + 80) 4 in
      let entry_size := load_le (mem_of s) (hdr + 84) 4 in
      if negb (gpt_signature_valid (load_bytes (mem_of s) hdr 8)) then Some (-1, s)
      else if negb (entry_size =? 128) then Some (-1, s)
      else if (entry_count =? 0) || (GPT_MAX_PARTITIONS <? entry_count) then Some (-1, s)
      else if (entry_array_lba =? 0) || (16777215 <? entry_array_lba) then Some (-1, s)
      else
        let s := set_count entry_count s in
        let entry_array_size := entry_count * entry_size in
        let entry_sectors := (entry_array_size + ATA_SECTOR_SIZE - 1) / ATA_SECTOR_SIZE in
        '(r, s) ← ensure_entries fuel entry_count entry_array_size s;
        if r <? 0 then Some (-1, s)
        else
          let '(r, s) := disk_read_to entry_array_lba entry_sectors (gpt_entries s) s in
          Some (if r <? 0 then -1 else 0, s).

Definition gpt_init := gpt_read_header.

Definition gpt_get_partition_count s : Z := partition_count s.
Definition gpt_list_partitions s : Z := partition_count s.

Definition entry_at s (index : Z) : gpt_entry := load_entry (mem_of s) (gpt_entries s + 128 * index).

Definition gpt_get_partition (index : Z) s : option gpt_entry :=
  if partition_count s <=? index then None
  else if guid_equal (type_guid (entry_at s index)) GPT_TYPE_UNUSED then None
  else Some (entry_at s index).

Definition gpt_find_by_type (guid : list Z) s : Z :=
  default (-1) (find_first (fun i => guid_equal (type_guid (entry_at s i)) guid) (seqZ 0 (partition_count s))).

Definition gpt_get_partition_size (index : Z) s : Z :=
  match gpt_get_partition index s with
  | None => 0
  | Some e => u64 ((end_lba e - start_lba e + 1) * ATA_SECTOR_SIZE)
  end.

(** The bytes copied to [buffer] on success. *)
Definition gpt_read_partition (fuel : nat) (index offset size : Z) s : option (option (list Z) * part D) :=
  match gpt_get_partition index s with
  | None => Some (None, s)
  | Some e =>
      let lba := u64 (start_lba e + offset / ATA_SECTOR_SIZE) in
      let offset_in_sector := offset mod ATA_SECTOR_SIZE in
      let sectors := u32 (size + offset_in_sector + ATA_SECTOR_SIZE - 1) / ATA_SECTOR_SIZE in
      '(temp, h) ← kmalloc fuel (u32 (sectors * ATA_SECTOR_SIZE)) (pheap s);
      let s := set_pheap h s in
      if temp =? 0 then Some (None, s)
      else
        let '(r, s) := disk_read_to (u32 lba) sectors temp s in
        let out := load_bytes (mem_of s) (temp + offset_in_sector) size in
        h ← kfree fuel temp (pheap s);
        Some (if r <? 0 then None else Some out, set_pheap h s)
  end.

(** ** part.c *)

Inductive partition_type : Type :=
  | PARTITION_TYPE_UNUSED | PARTITION_TYPE_EFI_SYSTEM | PARTITION_TYPE_BIOS_BOOT
  | PARTITION_TYPE_FS_DATA | PARTITION_TYPE_LINUX_SWAP | PARTITION_TYPE_LINUX_DATA.

Record part_info : Type := PartInfo {
  partition_number : Z; pi_type : partition_type; pi_start_lba : Z; size_sectors : Z;
  filesystem_type : Z; pi_label : cstring
}.

Definition part_is_ready s : bool := part_ready s.

Definition part_storage_device s : option cstring :=
  if negb (part_ready s) || negb (disk_is_ready (pdisk s)) then None
  else Some (if disk_is_ssd (pdisk s) =? 1 then zs "ssd" else zs "hdd").

Definition part_init (fuel : nat) s : option (part D) :=
  let s := set_ready false s in
  let '(r, s) := if disk_is_ready (pdisk s) then (0, s)
                 else let '(r, d) := disk_init (pdisk s) in (r, set_pdisk d s) in
  if r <? 0 then Some s
  else
    '(r, s) ← gpt_init fuel s;
    Some (if r <? 0 then s else set_ready true s).

Definition part_classify_type (guid : list Z) : partition_type :=
  if guid_equal GPT_TYPE_EFI_SYSTEM guid then PARTITION_TYPE_EFI_SYSTEM
  else if guid_equal GPT_TYPE_LINUX_SWAP guid then PARTITION_TYPE_LINUX_SWAP
  else if guid_equal GPT_TYPE_LINUX_FS guid then PARTITION_TYPE_LINUX_DATA
  else PARTITION_TYPE_FS_DATA.

(** The label up to the first NUL, characters above 127 replaced. *)
Fixpoint label_of (name : list Z) : cstring :=
  match name with
  | [] => []
  | c :: name' => if c =? 0 then [] else (if c <? 128 then c else ch "?") :: label_of name'
  end.

Definition part_get_info (num : Z) s : option part_info :=
  if negb (part_ready s) || (num <? 0) then None
  else match gpt_get_partition num s with
  | None => None
  | Some e =>
      if end_lba e <? start_lba e then None
      else Some (PartInfo num (part_classify_type (type_guid e)) (start_lba e)
                   (u64 (end_lba e - start_lba e + 1)) 0 (label_of (name e)))
  end.

(** [for (i = 0; i < total && out < max_count; i++)] *)
Fixpoint list_loop (todo : list Z) (max_count : Z) (acc : list part_info) s : list part_info :=
  match todo with
  | [] => acc
  | i :: todo' =>
      if len acc <? max_count then
        list_loop todo' max_count (match part_get_info i s with Some x => acc ++ [x] | None => acc end) s
      else acc
  end.
Definition part_list_partitions (max_count : Z) s : option (list part_info) :=
  if negb (part_ready s) || (max_count <=? 0) then None
  else Some (list_loop (seqZ 0 (gpt_list_partitions s)) max_count [] s).

Definition part_translate (num rel sectors : Z) s : option Z :=
  if negb (part_ready s) || (sectors =? 0) || (256 <? sectors) then None
  else match gpt_get_partition (u32 num) s with
  | None => None
  | Some e =>
      if end_lba e <? start_lba e then None
      else
        let part_sectors := u64 (end_lba e - start_lba e + 1) in
        if part_sectors <=? rel then None
        else if part_sectors - rel <? sectors then None
        else
          let abs := u64 (start_lba e + rel) in
          if 2 ^ 28 - 1 <? abs then None else Some (u32 abs)
  end.

Definition part_read_sectors (num rel sectors : Z) s : list Z * Z * part D :=
  match part_translate num rel sectors s with
  | None => ([], -1, s)
  | Some abs => let '(ws, r, d) := disk_read abs (u32 sectors) (pdisk s) in (ws, r, set_pdisk d s)
  end.

Definition part_write_sectors (num rel : Z) (buffer : list Z) (sectors : Z) s : Z * part D :=
  match part_translate num rel sectors s with
  | None => (-1, s)
  | Some abs => let '(r, d) := disk_write abs (u32 sectors) buffer (pdisk s) in (r, set_pdisk d s)
  end.

Definition part_get_disk_info s : option disk_info :=
  if negb (disk_is_ready (pdisk s)) then None else Some (disk_get_info (pdisk s)).

(** ** volume.c *)

Record volume : Type := Volume { vol_base : Z; vol_sectors : Z }.

Definition volume_use_partition (num : Z) s (v : volume) : Z * volume :=
  match part_list_partitions 16 s with
  | None => (-1, v)
  | Some l =>
      if (num <? 1) || (len l <? num) then (-1, v)
      else match l !! Z.to_nat (num - 1) with
           | Some i => (0, Volume (pi_start_lba i) (size_sectors i))
           | None => (-1, v)
           end
  end.
Definition volume_use_whole_disk (v : volume) : volume := Volume 0 0.
Definition volume_base_lba (v : volume) : Z := vol_base v.
Definition volume_sectors (v : volume) : Z := vol_sectors v.
End gpt.

(** ** Properties *)

Section bytes.
Implicit Types (m : gmap Z Z) (bs : list Z).

Lemma length_bytes_of ws : length (bytes_of ws) = (2 * length ws)%nat.
Proof.
  unfold bytes_of. induction ws as [|w ws IH]; [done|]. rewrite fmap_cons.
  change (mjoin (?a :: ?l)) with (a ++ mjoin l). rewrite length_app, IH. cbn [length]. lia.
Qed.

Lemma bytes_of_bounds ws : Forall (fun b => 0 <= b < 256) (bytes_of ws).
Proof.
  unfold bytes_of. apply Forall_join, Forall_fmap, Forall_forall. intros w _.
  change 255 with (Z.ones 8). cbn [compose]. rewrite !Z.land_ones by lia.
  pose proof (Z.mod_pos_bound w (2 ^ 8)). pose proof (Z.mod_pos_bound (w .>> 8) (2 ^ 8)).
  repeat constructor; lia.
Qed.

(** A field that lies inside freshly stored bytes. *)
Lemma load_le_stored_bounds m p ws o n : 0 <= o -> 0 <= n -> o + n <= 2 * len ws ->
  0 <= load_le (store_bytes p (bytes_of ws) m) (p + o) n < 256 ^ n.
Proof.
  intros Ho Hn Hle. unfold load_le.
  pose proof (le_bounds (load_bytes (store_bytes p (bytes_of ws) m) (p + o) n)) as Hb.
  unfold load_bytes in *. rewrite length_fmap, length_seqZ, Z2Nat.id in Hb by done.
  apply Hb, Forall_fmap, Forall_forall. intros i [Hi1 Hi2]%elem_of_seqZ. cbn [compose].
  rewrite store_bytes_at, length_bytes_of, (proj2 (Z.leb_le _ _)), (proj2 (Z.ltb_lt _ _)) by lia. cbn [andb].
  unfold arr_get. destruct (lookup_lt_is_Some_2 (bytes_of ws) (Z.to_nat (p + o + i - p))) as [b Hb'].
  { rewrite length_bytes_of. lia. }
  rewrite Hb'. cbn [default]. by apply (Forall_lookup_1 _ _ _ _ (bytes_of_bounds ws)) in Hb'.
Qed.
End bytes.

Section props.
Context {D : Type} `{PortIO D}.
Implicit Types (s : part D).

Lemma entry_lbas s i : byte_mem (mem_of s) ->
  is_u64 (start_lba (entry_at s i)) /\ is_u64 (end_lba (entry_at s i)).
Proof.
  intros Hm. unfold is_u64. change (2 ^ 64) with (256 ^ 8).
  split; (apply load_le_bounds; [done|lia]).
Qed.

(** [C15] Partition-relative disk access never leaves the partition: a read or
    write is refused without touching the disk, or it is exactly the disk
    access of 1 to 256 sectors at the partition's start plus the offset, all
    of them inside the partition. *)
Theorem part_io_in_partition num rel sectors s :
  byte_mem (mem_of s) -> 0 <= rel -> 0 <= sectors ->
  (part_read_sectors num rel sectors s = ([], -1, s) /\
   forall buf, part_write_sectors num rel buf sectors s = (-1, s)) \/
  exists e, gpt_get_partition (u32 num) s = Some e /\
    1 <= sectors <= 256 /\ start_lba e <= start_lba e + rel /\
    start_lba e + rel + sectors <= end_lba e + 1 /\ start_lba e + rel < 2 ^ 28 /\
    part_read_sectors num rel sectors s =
      (let '(ws, r, d) := disk_read (start_lba e + rel) sectors (pdisk s) in (ws, r, set_pdisk d s)) /\
    forall buf, part_write_sectors num rel buf sectors s =
      (let '(r, d) := disk_write (start_lba e + rel) sectors buf (pdisk s) in (r, set_pdisk d s)).
Proof.
  intros Hm Hrel Hsec. unfold part_read_sectors, part_write_sectors.
  destruct (part_translate num rel sectors s) as [abs|] eqn:E; [right|by left].
  unfold part_translate in E. destruct (_ || _ || _) eqn:E0; [done|]. zbool.
  destruct (gpt_get_partition (u32 num) s) as [e|] eqn:Eg; [|done]. exists e.
  assert (Hu : is_u64 (start_lba e) /\ is_u64 (end_lba e)).
  { unfold gpt_get_partition in Eg. destruct (_ <=? _); [done|]. destruct (guid_equal _ _); [done|].
    simplify_eq. by apply entry_lbas. }
  destruct Hu as [Hs He]. unfold is_u64 in *.
  destruct (end_lba e <? start_lba e) eqn:E1; [done|]. zbool.
  assert (Hps : u64 (end_lba e - start_lba e + 1) <= end_lba e - start_lba e + 1).
  { unfold u64. apply Z.mod_le; lia. }
  destruct (_ <=? rel) eqn:E2; [done|]. destruct (_ <? sectors) eqn:E3; [done|]. zbool.
  rewrite u64_id in E by (unfold is_u64; lia). destruct (_ <? start_lba e + rel) eqn:E4; [done|]. zbool.
  injection E as <-. rewrite !u32_id by (unfold is_u32; lia).
  repeat split; try lia; done.
Qed.

(** A successful read of [n] sectors stores all their words. *)
Lemma read_words_length n (d : D) : length (read_words n d).1 = n.
Proof.
  revert d. induction n as [|n IH]; intros d; cbn [read_words]; [done|].
  destruct (inw ATA_DATA d) as [w d1]. specialize (IH d1). destruct (read_words n d1) as [ws d2].
  cbn [fst length] in *. by rewrite IH.
Qed.

Lemma read_sectors_length n : forall (d : D) ws d',
  read_sectors n d = (ws, 0, d') -> length ws = (256 * n)%nat.
Proof.
  induction n as [|n IH]; intros d ws d'; cbn [read_sectors].
  - intros [= <- _]. done.
  - destruct (wait_data d) as [r d1]. destruct (r <? 0); [done|].
    pose proof (read_words_length 256 d1) as Hl. unfold read_data.
    destruct (read_words 256 d1) as [ws1 d2]. destruct (read_sectors n d2) as [[rest r'] d3] eqn:E.
    intros [= <- -> <-]. apply IH in E. rewrite length_app. cbn [fst] in Hl. lia.
Qed.

Lemma disk_read_length lba count (d : disk D) ws d' :
  0 <= count -> disk_read lba count d = (ws, 0, d') -> 1 <= count <= 256 /\ len ws = 256 * count.
Proof.
  intros Hc. unfold disk_read. destruct (_ || _) eqn:E0; [done|]. destruct (_ <? lba); [done|]. zbool.
  destruct (wait_ready (dev d)) as [r d1]. destruct (r <? 0); [done|].
  destruct (read_sectors _ _) as [[ws1 r1] d2] eqn:E. intros [= -> -> <-].
  apply read_sectors_length in E. lia.
Qed.

Lemma disk_read_result lba count (d : disk D) ws r d' :
  disk_read lba count d = (ws, r, d') -> r = 0 \/ r = -1.
Proof.
  assert (Hrs : forall n (d : D) ws r d', read_sectors n d = (ws, r, d') -> r = 0 \/ r = -1).
  { clear. induction n as [|n IH]; intros d ws r d'; cbn [read_sectors]; [intros [= _ <- _]; auto|].
    destruct (wait_data d) as [r1 d1]. destruct (r1 <? 0); [intros [= _ <- _]; auto|].
    destruct (read_data d1) as [ws1 d2]. destruct (read_sectors n d2) as [[rest r'] d3] eqn:E.
    intros [= _ <- _]. by apply IH in E. }
  unfold disk_read. destruct (_ || _); [intros [= _ <- _]; auto|]. destruct (_ <? lba); [intros [= _ <- _]; auto|].
  destruct (wait_ready (dev d)) as [r1 d1]. destruct (r1 <? 0); [intros [= _ <- _]; auto|].
  destruct (read_sectors _ _) as [[ws1 r2] d2] eqn:E. intros [= _ <- _]. by apply Hrs in E.
Qed.

Lemma disk_read_ok lba count (d : disk D) ws r d' :
  0 <= count -> disk_read lba count d = (ws, r, d') -> (r <? 0) = false ->
  1 <= count <= 256 /\ len ws = 256 * count.
Proof.
  intros Hc E Hr. destruct (disk_read_result _ _ _ _ _ _ E) as [-> | ->]; [|done]. by eapply disk_read_length.
Qed.

(** A buffer allocated by [ensure_entries] has the size asked for. *)
Lemma ensure_entries_fresh fuel count size s r s' :
  gpt_entries s = 0 -> ensure_entries fuel count size s = Some (r, s') -> (r <? 0) = false ->
  exists h h', kmalloc fuel size h = Some (gpt_entries s', h') /\ partition_count s' = partition_count s.
Proof.
  intros H0 He Hr. unfold ensure_entries in He. rewrite H0 in He. cbn [Z.eqb orb mbind option_bind] in He.
  apply bind_Some in He as ([p h] & Hk & He). destruct (p =? 0); simplify_eq/=.
  by exists (pheap s), h.
Qed.

Lemma sectors_nonneg c : 0 <= c -> 0 <= (c * 128 + ATA_SECTOR_SIZE - 1) / ATA_SECTOR_SIZE.
Proof. intros. unfold ATA_SECTOR_SIZE. apply Z.div_pos; lia. Qed.

(** The buffer for the partition entries is too small whenever their
    number is not a multiple of four: after the first successful read of such
    a table, memory behind the allocation of 128 bytes per entry has been
    overwritten with disk contents. *)
Theorem gpt_entries_overflow fuel s s' :
  gpt_read_header fuel s = Some (0, s') -> gpt_entries s = 0 -> partition_count s' mod 4 <> 0 ->
  exists h h' data, kmalloc fuel (128 * partition_count s') h = Some (gpt_entries s', h') /\
    128 * partition_count s' < len data /\
    forall i, 0 <= i < len data -> byte_at (mem_of s') (gpt_entries s' + i) = arr_get 0 data i.
Proof.
  intros Hrun Hfresh Hmod. unfold gpt_read_header in Hrun.
  apply bind_Some in Hrun as (s1 & Hs1 & Hrun).
  assert (Hf1 : gpt_entries s1 = 0).
  { destruct (gpt_header s =? 0); [|by simplify_eq]. apply bind_Some in Hs1 as ([p h] & _ & Hs1). by simplify_eq. }
  clear Hs1. destruct (gpt_header s1 =? 0); [by simplify_eq|]. unfold disk_read_to at 1 in Hrun.
  destruct (disk_read GPT_HEADER_LBA 1 (pdisk s1)) as [[ws1 r1] d1] eqn:Ed1.
  destruct (r1 <? 0) eqn:Er1; [by simplify_eq|]. apply disk_read_ok in Ed1 as [_ Hlen1]; [|lia|done].
  pose proof (load_le_stored_bounds (mem_of s1) (gpt_header s1) ws1 80 4
    ltac:(lia) ltac:(lia) ltac:(lia)) as Hc.
  match type of Hrun with context [set_pheap ?x ?y] => set (s2 := set_pheap x y) in Hrun end.
  assert (Hf2 : gpt_entries s2 = 0) by done.
  change (store_bytes _ _ _) with (mem_of s2) in Hc. change (gpt_header s1) with (gpt_header s2) in Hc. clearbody s2.
  repeat match type of Hrun with (if ?b then _ else _) = _ => destruct b eqn:?; [by simplify_eq|] end. zbool.
  set (c := load_le (mem_of s2) (gpt_header s2 + 80) 4) in *.
  set (esz := load_le (mem_of s2) (gpt_header s2 + 84) 4) in *. assert (Esize : esz = 128) by done.
  clearbody c esz. subst esz.
  apply bind_Some in Hrun as ([r3 s3] & Hens & Hrun).
  destruct (r3 <? 0) eqn:Er3; [by simplify_eq|].
  destruct (ensure_entries_fresh _ _ _ _ _ _ (Hf2 : gpt_entries (set_count c s2) = 0) Hens Er3) as (h & h' & Hk & Hcnt).
  cbn [partition_count set_count] in Hcnt. unfold disk_read_to in Hrun.
  destruct (disk_read _ _ (pdisk s3)) as [[ws4 r4] d4] eqn:Ed.
  destruct (r4 <? 0) eqn:Er4; [by simplify_eq|]. injection Hrun as <-.
  cbn [partition_count set_pheap set_pdisk gpt_entries] in *. rewrite Hcnt in *. replace (128 * c) with (c * 128) by lia.
  set (n := (c * 128 + ATA_SECTOR_SIZE - 1) / ATA_SECTOR_SIZE) in *.
  destruct (disk_read_ok _ _ _ _ _ _ (sectors_nonneg c ltac:(lia)) Ed Er4) as [_ Hlen].
  assert (Hbytes : len (bytes_of ws4) = 512 * n) by (rewrite length_bytes_of; lia).
  exists h, h', (bytes_of ws4). split; [done|]. split.
  - rewrite Hbytes. unfold n, ATA_SECTOR_SIZE in *. pose proof (Z.div_mod (c * 128 + 512 - 1) 512).
    pose proof (Z.mod_pos_bound (c * 128 + 512 - 1) 512). pose proof (Z.div_mod c 4).
    pose proof (Z.mod_pos_bound c 4). lia.
  - intros i Hi. cbn [mem_of pheap payload set_payload set_pheap]. rewrite store_bytes_at.
    rewrite (proj2 (Z.leb_le _ _)), (proj2 (Z.ltb_lt _ _)) by lia. cbn [andb]. f_equal. lia.
Qed.
End props.

(** ** Witnesses *)

Module Examples.
Import AtaModel.

(** One Linux partition on sectors 2048 to 4095, its entry at address 4096. *)
Abbreviation entry_bytes := (GPT_TYPE_LINUX_FS ++ replicate 16 0 ++ [0; 8; 0; 0; 0; 0; 0; 0; 255; 15] ++ replicate 86 0).
Abbreviation no_info := (DiskInfo 0 0 [] []).
Abbreviation s_one := (Part (Disk (Ata ∅ 0 0 0 0 0 [] 0 []) no_info true false)
  (KHeap ∅ 0 0 0 (store_bytes 4096 entry_bytes ∅)) 0 4096 1 1 true).

Lemma part_io_in_partition_witness :
  byte_mem (mem_of s_one) /\
  exists e, gpt_get_partition (u32 0) s_one = Some e /\ start_lba e + 7 + 8 <= end_lba e + 1.
Proof.
  assert (Hm : byte_mem (mem_of s_one)).
  { apply byte_mem_store. repeat (apply Forall_app; split); try (apply Forall_replicate; lia);
      repeat (constructor; [lia|]); constructor. }
  split; [done|].
  destruct (part_io_in_partition 0 7 8 s_one Hm) as [[_ Hw]|(e & H1 & _ & _ & H2 & _)]; [lia|lia| |by exists e].
  exfalso. specialize (Hw []). apply (f_equal fst) in Hw. vm_compute in Hw. discriminate.
Defined.

(** A disk whose partition table announces one entry. *)
Abbreviation gpt_sector := ([17989; 8265; 16720; 21586] ++ replicate 32 0 ++ [2; 0; 0; 0; 1; 0; 128; 0] ++ replicate 212 0).
Abbreviation s_disk := (Part (Disk (Ata {[1 := gpt_sector]} 0 0 0 0 0 [] 0 []) no_info true false)
  (kheap_init 65536 65536 ∅) 0 0 0 0 false).

Lemma gpt_entries_overflow_witness :
  exists (s' : part ata) h h' (data : list Z), kmalloc 8 128 h = Some (gpt_entries s', h') /\ 128 < len data.
Proof.
  assert (Hok : match gpt_read_header 8 s_disk with Some (r, s) => (r, partition_count s) | None => (1, 0) end = (0, 1))
    by (vm_compute; reflexivity).
  destruct (gpt_read_header 8 s_disk) as [[r s']|] eqn:E; [|done].
  injection Hok as Hr Hc. subst r.
  destruct (gpt_entries_overflow 8 s_disk s' E) as (h & h' & data & H1 & H2 & _);
    [reflexivity|rewrite Hc; discriminate|].
  rewrite Hc in H1, H2. exists s', h, h', data. split; [exact H1|exact H2].
Defined.
End Examples.
