(* ===== verification/Ns.v ===== *)
(** * Resource namespace (src/src/fs/ns.c)

    Normalisation, the path grammar, alias expansion, classification of
    canonical paths, the self-description and the translation of namespace
    paths to filesystem paths. *)

From S2P Require Import Prelude KString Pmm Disk Part.

Definition NS_MAX_PATH : Z := 256.
Definition NS_MAX_DEPTH : Z := 16.
Definition SLASH : Z := 47.
Definition DOT : Z := 46.

Inductive ns_kind : Type :=
  | NS_ROOT | NS_STORAGE_DEVICE | NS_PARTITION | NS_PARTITIONS_DIR | NS_MEMORY_RAM | NS_CPU | NS_HWINFO
  | NS_HARDWARE_DIR | NS_SYSTEM_DIR | NS_SYSTEM_NODE | NS_DEV_DIR | NS_DEV_SHIM | NS_USER_STORE | NS_UNRESOLVED.
#[global] Instance ns_kind_eq_dec : EqDecision ns_kind.
Proof. solve_decision. Defined.

Record ns_resource : Type := NsResource {
  kind : ns_kind; domain : Z; part_index : Z; device : option cstring; canonical : cstring
}.

(** ** Normalisation and grammar *)

Definition lower (c : Z) : Z := if (ch "A" <=? c) && (c <=? ch "Z") then c - ch "A" + ch "a" else c.

(** Trailing slashes are dropped, working from the end. *)
Fixpoint drop_slashes (rs : cstring) : cstring :=
  match rs with c :: rs' => if c =? SLASH then drop_slashes rs' else rs | [] => [] end.

Definition ns_normalize (path : cstring) : option cstring :=
  if NS_MAX_PATH - 1 <? len path then None
  else Some (rev (drop_slashes (rev (lower <$> path)))).

Definition is_digit (c : Z) : bool := (ch "0" <=? c) && (c <=? ch "9").
Definition valid_char (c : Z) : bool :=
  ((ch "a" <=? c) && (c <=? ch "z")) || is_digit c || (c =? ch "-") || (c =? ch "_") || (c =? DOT).

(** The loop of [ns_parse_valid] from the third character on. *)
Fixpoint parse_loop (s : cstring) (depth comp_len : Z) (nondot : bool) : bool :=
  let component := negb (comp_len =? 0) && nondot && negb (NS_MAX_DEPTH <? depth + 1) in
  match s with
  | [] => component
  | c :: s' =>
      if c =? SLASH then component && parse_loop s' (depth + 1) 0 false
      else if valid_char c then parse_loop s' depth (comp_len + 1) (nondot || negb (c =? DOT))
      else false
  end.

Definition parse_norm (norm : cstring) : bool :=
  match norm with
  | [] => false
  | [d] => is_digit d
  | d :: c :: s => is_digit d && (c =? SLASH) && parse_loop s 0 0 false
  end.
Definition ns_parse_valid (path : cstring) : bool :=
  match ns_normalize path with Some norm => parse_norm norm | None => false end.

Fixpoint split_from (cur s : cstring) : list cstring :=
  match s with
  | [] => [rev cur]
  | c :: s' =>
      if c =? SLASH then rev cur :: match s' with [] => [] | _ => split_from [] s' end
      else split_from (c :: cur) s'
  end.
Definition ns_split (buf : cstring) (max : Z) : list cstring :=
  match buf with [] => [] | _ => take (Z.to_nat max) (split_from [] buf) end.

(** ** Aliases *)

Definition ns_aliases : list (cstring * cstring) :=
  [(zs "0/hmr", zs "0/hardware/memory/ram");
   (zs "0/hsh", zs "0/hardware/storage/hdd");
   (zs "0/hss", zs "0/hardware/storage/ssd")].

Definition alias_matches (work : cstring) (a : cstring * cstring) : bool :=
  let slen := k_strlen a.1 in
  (k_strncmp work a.1 (Z.to_nat slen) =? 0) && ((char_at work slen =? NUL) || (char_at work slen =? SLASH)).

(** The passes of [ns_canonical]; [None] when the result does not fit. *)
Fixpoint expand (passes : nat) (work : cstring) : option cstring :=
  match passes with
  | O => Some work
  | S p =>
      match find_first (alias_matches work) ns_aliases with
      | None => Some work
      | Some a =>
          let rest := drop (length a.1) work in
          if NS_MAX_PATH <=? k_strlen a.2 + k_strlen rest then None else expand p (a.2 ++ rest)
      end
  end.

Definition ns_canonical (path : cstring) (max : Z) : option cstring :=
  work ← ns_normalize path;
  if negb (ns_parse_valid work) then None
  else
    work ← expand 8 work;
    if max <=? k_strlen work then None else Some work.

(** ** Classification *)

(** [None] on an overlong, empty or non-numeric index, or 0. *)
Fixpoint parse_digits (s : cstring) (v : Z) : option Z :=
  match s with
  | [] => Some v
  | c :: s' =>
      if negb (is_digit c) then None
      else let v := v * 10 + (c - ch "0") in if 1000000 <? v then None else parse_digits s' v
  end.
Definition parse_index (s : cstring) : option Z :=
  match s with
  | [] => None
  | _ => v ← parse_digits s 0; if v <? 1 then None else Some v
  end.

Definition streq (a : cstring) (b : string) : bool := k_strcmp a (zs b) =? 0.

(** The result code of [ns_resolve] and the resource it fills in. *)
Definition classify {D} (canon : cstring) (s : part D) : Z * ns_resource :=
  let comps := ns_split canon NS_MAX_DEPTH in
  let n := len comps in
  let comp i := arr_get [] comps i in
  let dom := char_at (comp 0) 0 - ch "0" in
  let found k idx dev := (0, NsResource k dom idx dev canon) in
  let unresolved := (-2, NsResource NS_UNRESOLVED dom (-1) None canon) in
  if n =? 1 then found NS_ROOT (-1) None
  else if streq (comp 1) "hardware" then
    if n =? 2 then found NS_HARDWARE_DIR (-1) None
    else if streq (comp 2) "memory" then
      if n =? 3 then found NS_HARDWARE_DIR (-1) None
      else if (n =? 4) && streq (comp 3) "ram" then found NS_MEMORY_RAM (-1) None
      else if (n =? 4) && streq (comp 3) "info" then found NS_HWINFO (-1) None
      else unresolved
    else if streq (comp 2) "storage" then
      if n =? 3 then found NS_HARDWARE_DIR (-1) None
      else
        let dev := if streq (comp 3) "hdd" then Some (zs "hdd")
                   else if streq (comp 3) "ssd" then Some (zs "ssd") else None in
        match dev, part_storage_device s with
        | Some d, Some owner =>
            if negb (k_strcmp d owner =? 0) then unresolved
            else if n =? 4 then found NS_STORAGE_DEVICE (-1) dev
            else if streq (comp 4) "partitions" then
              if n =? 5 then found NS_PARTITIONS_DIR (-1) dev
              else match parse_index (comp 5) with
                   | None => unresolved
                   | Some idx => found NS_PARTITION idx dev
                   end
            else unresolved
        | _, _ => unresolved
        end
    else if streq (comp 2) "cpu" then
      if n =? 3 then found NS_CPU (-1) None
      else if (n =? 4) && streq (comp 3) "id" then found NS_HWINFO (-1) None
      else unresolved
    else if (n =? 3) && (streq (comp 2) "platform" || streq (comp 2) "pci") then found NS_HWINFO (-1) None
    else unresolved
  else if streq (comp 1) "system" then
    if n =? 2 then found NS_SYSTEM_DIR (-1) None else found NS_SYSTEM_NODE (-1) None
  else if streq (comp 1) "dev" then
    if n =? 2 then found NS_DEV_DIR (-1) None else found NS_DEV_SHIM (-1) None
  else if streq (comp 1) "user" then found NS_USER_STORE (-1) None
  else unresolved.

Definition ns_resolve {D} (path : cstring) (s : part D) : Z * option ns_resource :=
  match ns_canonical path NS_MAX_PATH with
  | None => (-1, None)
  | Some canon => let '(rc, r) := classify canon s in (rc, Some r)
  end.

(** ** Self-description *)

Definition kind_name (k : ns_kind) : string :=
  match k with
  | NS_ROOT => "machine root"
  | NS_STORAGE_DEVICE => "storage device"
  | NS_PARTITION => "partition"
  | NS_PARTITIONS_DIR => "partition table"
  | NS_MEMORY_RAM => "system memory"
  | NS_CPU => "processor"
  | NS_HWINFO => "hardware information"
  | NS_HARDWARE_DIR => "hardware category"
  | NS_SYSTEM_DIR => "system category"
  | NS_SYSTEM_NODE => "system resource"
  | NS_DEV_DIR => "device shims"
  | NS_DEV_SHIM => "device"
  | NS_USER_STORE => "user storage"
  | NS_UNRESOLVED => "unknown"
  end.

Definition NEWLINE : Z := 10.
Definition nl : cstring := [NEWLINE].

(** The text in the buffer so far, at most [max - 1] characters. *)
Definition dput (max : Z) (d s : cstring) : cstring := d ++ take (Z.to_nat (max - 1 - len d)) s.

Section describe.
(** The digits are written up to the last element of a local array whose
    terminating NUL is never stored: [junk v] is the string that happens to
    follow them on the stack. *)
Context (junk : Z -> cstring) (max : Z) {D : Type}.

Fixpoint digits (fuel : nat) (v : Z) (acc : cstring) : cstring :=
  match fuel with
  | O => acc
  | S f => if v =? 0 then acc else digits f (v / 10) (ch "0" + v mod 10 :: acc)
  end.
Definition dput_dec (d : cstring) (v : Z) : cstring :=
  if v =? 0 then dput max d (zs "0") else dput max d (digits 23 v [] ++ junk v).

Fixpoint describe_alias_loop (aliases : list (cstring * cstring)) (p d : cstring) : cstring :=
  match aliases with
  | [] => d
  | a :: rest =>
      if k_strcmp p a.1 =? 0 then dput max (dput max (dput max d (zs "canonical: ")) a.2) nl
      else describe_alias_loop rest p
             (if k_strcmp p a.2 =? 0 then dput max (dput max (dput max d (zs "alias: ")) a.1) nl else d)
  end.
Definition describe_alias_link (d p : cstring) : cstring := describe_alias_loop ns_aliases p d.

Definition describe_storage_facts (d : cstring) (s : part D) : cstring :=
  if negb (disk_is_ready (pdisk s)) then dput max d (zs "backend: none attached" ++ nl)
  else
    let d := dput max d (zs "backend: ATA primary master, ") in
    let d := dput_dec d (disk_get_size (pdisk s) / (1024 * 1024)) in
    let d := dput max d (zs " MB" ++ nl) in
    if part_is_ready s then
      let count := match part_list_partitions 16 s with Some l => len l | None => 0 end in
      dput max (dput_dec d count) (zs " partition(s) detected" ++ nl)
    else dput max d (zs "no GPT partition table" ++ nl).

Definition describe_partition (d : cstring) (idx : Z) (s : part D) : cstring :=
  let d := dput max (dput_dec (dput max d (zs "index: ")) idx) nl in
  if part_is_ready s then
    match part_list_partitions 16 s ≫= (fun l => l !! Z.to_nat (idx - 1)) with
    | Some info =>
        let d := dput_dec (dput max d (zs "start lba: ")) (pi_start_lba info) in
        let d := dput_dec (dput max d (nl ++ zs "size kb: ")) (size_sectors info / 2) in
        let d := dput max d (nl ++ zs "label: ") in
        let d := dput max d (match pi_label info with [] => zs "(none)" | l => l end) in
        dput max d (nl ++ zs "backend: partition-relative block I/O" ++ nl)
    | None => dput max d (zs "state: not present on device" ++ nl)
    end
  else dput max d (zs "backend: unavailable (no GPT)" ++ nl).

Definition ns_describe (path : cstring) (s : part D) (mem : pmm) : Z * cstring :=
  match ns_resolve path s with
  | (rc, Some r) =>
      if rc <? 0 then (rc, [])
      else
        let d := dput max (dput max [] (zs "path: ")) (canonical r) in
        let d := dput max (dput max d (nl ++ zs "kind: ")) (zs (kind_name (kind r))) in
        let d := dput max (dput_dec (dput max d (nl ++ zs "domain: ")) (u64 (domain r))) nl in
        let d := describe_alias_link d (canonical r) in
        (0, match kind r with
            | NS_STORAGE_DEVICE | NS_PARTITIONS_DIR => describe_storage_facts d s
            | NS_PARTITION => describe_partition d (part_index r) s
            | NS_MEMORY_RAM =>
                let d := dput_dec (dput max d (zs "total mb: ")) (pmm_get_total mem / (1024 * 1024)) in
                let d := dput_dec (dput max d (nl ++ zs "free mb: ")) (pmm_get_free mem / (1024 * 1024)) in
                dput max d nl
            | NS_USER_STORE => dput max d (zs "binding: boot policy (first available storage volume)" ++ nl)
            | _ => d
            end)
  | (rc, None) => (rc, [])
  end.
End describe.

(** ** Translation to filesystem paths *)

Definition NS_FS_OK : Z := 0.
Definition NS_FS_NOT_NS : Z := 1.
Definition NS_FS_EPARSE : Z := -1.
Definition NS_FS_EUNKNOWN : Z := -2.
Definition NS_FS_EVOLUME : Z := -3.
Definition NS_FS_EKIND : Z := -4.

(** One component and the slash behind it. *)
Fixpoint skip_component (s : cstring) : cstring :=
  match s with [] => [] | c :: s' => if c =? SLASH then s' else skip_component s' end.
Definition skip_components (s : cstring) (n : nat) : cstring := Nat.iter n skip_component s.

Section translate.
Context {D : Type}.

(** Only the mounted volume is file-addressable. *)
Definition bound_partition (idx : Z) (s : part D) (v : volume) : bool :=
  match part_list_partitions 16 s ≫= (fun l => l !! Z.to_nat (idx - 1)) with
  | Some info => (pi_start_lba info =? volume_base_lba v) && negb (volume_base_lba v =? 0)
  | None => false
  end.

Definition ns_to_fs_path (input : cstring) (max : Z) (s : part D) (v : volume) : Z * cstring :=
  if max =? 0 then (NS_FS_EPARSE, [])
  else if negb (is_digit (char_at input 0)) || negb (char_at input 1 =? SLASH) then (NS_FS_NOT_NS, [])
  else
    match ns_resolve input s with
    | (rc, Some r) =>
        if rc =? -2 then (NS_FS_EUNKNOWN, [])
        else
          let finish tail :=
            if i32 max <? k_strlen tail + 2 then (NS_FS_EPARSE, []) else (NS_FS_OK, SLASH :: tail) in
          match kind r with
          | NS_PARTITION =>
              if bound_partition (part_index r) s v then finish (skip_components (canonical r) 6)
              else (NS_FS_EVOLUME, [])
          | NS_USER_STORE => finish (skip_components (canonical r) 2)
          | NS_SYSTEM_NODE | NS_DEV_SHIM | NS_HWINFO | NS_MEMORY_RAM | NS_CPU => finish (canonical r)
          | _ => (NS_FS_EKIND, [])
          end
    | (_, None) => (NS_FS_EPARSE, [])
    end.
End translate.

(** ** The grammar *)

(** [digit ( '/' component )*] *)
Definition tail_of (comps : list cstring) : cstring := mjoin ((fun c => SLASH :: c) <$> comps).
Definition path_of (d : Z) (comps : list cstring) : cstring := d :: tail_of comps.
(** Not empty, legal characters only, and not dots only. *)
Definition component (c : cstring) : Prop :=
  c <> [] /\ Forall (fun x => valid_char x = true) c /\ Exists (fun x => x <> DOT) c.

Section grammar.
Lemma tail_of_cons c comps : tail_of (c :: comps) = SLASH :: c ++ tail_of comps.
Proof. done. Qed.

Lemma valid_not_slash x : valid_char x = true -> x <> SLASH.
Proof. intros H ->. done. Qed.

Lemma valid_lower x : valid_char x = true -> lower x = x.
Proof.
  unfold valid_char, is_digit, lower, DOT. change (ch "A") with 65. change (ch "Z") with 90.
  change (ch "a") with 97. change (ch "z") with 122. change (ch "0") with 48. change (ch "9") with 57.
  change (ch "-") with 45. change (ch "_") with 95. intros Hv.
  destruct ((65 <=? x) && (x <=? 90)) eqn:E; [|done]. exfalso. zbool. repeat (destruct Hv as [Hv|Hv]; zbool); lia.
Qed.

(** What the loop accepts after [comp_len] characters of a component. *)
Lemma parse_loop_spec s : forall depth n nondot, 0 <= n -> 0 <= depth ->
  parse_loop s depth n nondot = true <->
  exists first comps, s = first ++ tail_of comps /\ Forall (fun x => valid_char x = true) first /\
    (0 < n \/ first <> []) /\ (nondot = true \/ Exists (fun x => x <> DOT) first) /\
    Forall component comps /\ depth + 1 + len comps <= NS_MAX_DEPTH.
Proof.
  induction s as [|c s IH]; intros depth n nondot Hn Hd; cbn [parse_loop].
  - split.
    + intros Hc. zbool. exists [], []. split; [done|]. split; [constructor|]. split; [left; lia|].
      split; [by left|]. split; [constructor|]. cbn [length]. lia.
    + intros (first & comps & Heq & _ & Hfirst & Hnd & _ & Hlen). symmetry in Heq. apply app_eq_nil in Heq as [-> Ht].
      destruct comps as [|c comps]; [|by rewrite tail_of_cons in Ht]. cbn [length] in Hlen.
      destruct Hfirst as [?|?]; [|done]. destruct Hnd as [->|Hnd]; [|by apply Exists_nil in Hnd].
      rewrite (proj2 (Z.eqb_neq n 0)), (proj2 (Z.ltb_ge _ _)) by lia. done.
  - destruct (Z.eqb_spec c SLASH) as [->|Hc].
    + rewrite andb_true_iff, IH by lia. split.
      * intros [Hcomp (first & comps & -> & Hv & Hne & Hdot & Hall & Hlen)]. zbool.
        exists [], (first :: comps). split; [done|]. split; [constructor|]. split; [left; lia|]. split; [by left|].
        split; [|cbn [length]; lia]. constructor; [|done]. split; [by destruct Hne as [?|?]; [lia|]|].
        split; [done|]. by destruct Hdot as [?|?].
      * intros (first & comps & Heq & Hv & Hne & Hdot & Hall & Hlen). destruct first as [|x first].
        2:{ exfalso. cbn in Heq. injection Heq as <- _. apply Forall_cons in Hv as [Hv _]. by apply valid_not_slash in Hv. }
        destruct comps as [|c comps]; [done|]. rewrite tail_of_cons in Heq. injection Heq as ->.
        apply Forall_cons in Hall as [(Hc1 & Hc2 & Hc3) Hall]. cbn [length] in Hlen. destruct Hne as [Hne|Hne]; [|done].
        destruct Hdot as [->|Hdot]; [|by apply Exists_nil in Hdot]. split.
        -- rewrite (proj2 (Z.eqb_neq n 0)), (proj2 (Z.ltb_ge _ _)) by lia. done.
        -- exists c, comps. split; [done|]. split; [done|]. split; [by right|]. split; [by right|]. split; [done|lia].
    + destruct (valid_char c) eqn:Ev.
      * rewrite IH by lia. split.
        -- intros (first & comps & -> & Hv & _ & Hdot & Hall & Hlen). exists (c :: first), comps.
           split; [done|]. split; [by constructor|]. split; [by right|]. split; [|done].
           destruct Hdot as [Hdot|Hdot]; [|by right; apply Exists_cons_tl]. apply orb_true_iff in Hdot as [->|Hdot]; [by left|].
           right. apply Exists_cons_hd. by zbool.
        -- intros (first & comps & Heq & Hv & _ & Hdot & Hall & Hlen). destruct first as [|x first].
           { destruct comps as [|y comps]; [done|]. rewrite tail_of_cons in Heq. injection Heq as ? _. done. }
           cbn [app] in Heq. injection Heq as <- ->. apply Forall_cons in Hv as [_ Hv]. exists first, comps.
           split; [done|]. split; [done|]. split; [left; lia|]. split; [|done].
           destruct Hdot as [->|Hdot]; [by left|]. apply Exists_cons in Hdot as [Hdot|Hdot]; [|by right].
           left. rewrite (proj2 (Z.eqb_neq c DOT)) by done. apply orb_true_r.
      * split; [done|]. intros (first & comps & Heq & Hv & _). exfalso. destruct first as [|x first].
        { destruct comps as [|y comps]; [done|]. rewrite tail_of_cons in Heq. injection Heq as ? _. done. }
        cbn [app] in Heq. injection Heq as <- _. apply Forall_cons in Hv as [Hv _]. congruence.
Qed.

Lemma parse_norm_spec s : parse_norm s = true <->
  exists d comps, s = path_of d comps /\ is_digit d = true /\ Forall component comps /\ len comps <= NS_MAX_DEPTH.
Proof.
  unfold path_of. destruct s as [|d [|c s]]; cbn [parse_norm].
  - split; [done|]. by intros (d & comps & ? & _).
  - split.
    + intros Hd. by exists d, [].
    + intros (d' & comps & [= <- _] & Hd & _). done.
  - rewrite !andb_true_iff, Z.eqb_eq, parse_loop_spec by lia. split.
    + intros [[Hd ->] (first & comps & -> & Hv & Hne & Hdot & Hall & Hlen)]. exists d, (first :: comps).
      split; [done|]. split; [done|]. split; [|cbn [length]; lia]. constructor; [|done].
      split; [by destruct Hne as [?|?]; [lia|]|]. split; [done|]. by destruct Hdot as [?|?].
    + intros (d' & comps & Heq & Hd & Hall & Hlen). destruct comps as [|c' comps]; [done|].
      rewrite tail_of_cons in Heq. injection Heq as <- -> ->. apply Forall_cons in Hall as [(H1 & H2 & H3) Hall].
      cbn [length] in Hlen. split; [done|]. exists c', comps. split; [done|]. split; [done|]. split; [by right|].
      split; [by right|]. split; [done|lia].
Qed.

(** Stripping the trailing slashes. *)
Definition strip (s : cstring) : cstring := rev (drop_slashes (rev s)).

Lemma rev_replicate {A} k (x : A) : rev (replicate k x) = replicate k x.
Proof.
  induction k as [|k IH]; [done|]. cbn [replicate rev]. rewrite IH. by rewrite <- replicate_cons_app.
Qed.

Lemma strip_app s k : last s <> Some SLASH -> strip (s ++ replicate k SLASH) = s.
Proof.
  intros Hl. unfold strip. rewrite rev_app_distr, rev_replicate.
  induction k as [|k IH]; cbn [replicate app drop_slashes]; [|done].
  destruct (rev s) as [|c r] eqn:E.
  - cbn. rewrite <- (rev_involutive s), E. done.
  - cbn [drop_slashes]. destruct (Z.eqb_spec c SLASH) as [->|_].
    + exfalso. apply Hl. rewrite <- (rev_involutive s), E. cbn [rev]. by rewrite last_snoc.
    + rewrite <- E. apply rev_involutive.
Qed.

Lemma strip_inv s : exists k, s = strip s ++ replicate k SLASH.
Proof.
  assert (H : forall r, exists k, rev r = rev (drop_slashes r) ++ replicate k SLASH).
  { induction r as [|c r [k Hk]]; [by exists 0%nat|]. cbn [drop_slashes]. destruct (Z.eqb_spec c SLASH) as [->|_].
    - exists (S k). cbn [rev]. rewrite Hk, <- app_assoc. by rewrite <- replicate_cons_app.
    - exists 0%nat. by rewrite app_nil_r. }
  destruct (H (rev s)) as [k Hk]. exists k. by rewrite rev_involutive in Hk.
Qed.

Lemma strip_last s : last (strip s) <> Some SLASH.
Proof.
  unfold strip. generalize (rev s) as r. induction r as [|c r IH]; [done|]. cbn [drop_slashes].
  destruct (Z.eqb_spec c SLASH) as [->|Hc]; [done|]. cbn [rev]. rewrite last_snoc. congruence.
Qed.

Lemma component_last c : component c -> last c <> Some SLASH /\ last c <> None.
Proof.
  intros (Hne & Hv & _). destruct c as [|x c _] using rev_ind; [done|]. rewrite last_snoc. split; [|done].
  apply Forall_app in Hv as [_ Hv]. apply Forall_cons in Hv as [Hv _]. intros [= ->]. done.
Qed.

Lemma path_last d comps : is_digit d = true -> Forall component comps -> last (path_of d comps) <> Some SLASH.
Proof.
  intros Hd Hall. unfold path_of. destruct comps as [|c comps _] using rev_ind.
  - cbn. intros [= ->]. done.
  - apply Forall_app in Hall as [_ Hc]. apply Forall_cons in Hc as [Hc _]. destruct (component_last c Hc) as [H1 H2].
    unfold tail_of. rewrite fmap_app, join_app. cbn. rewrite app_nil_r, app_comm_cons, last_app.
    rewrite last_cons. by destruct (last c).
Qed.

Lemma digit_lower d : is_digit d = true -> lower d = d.
Proof. intros Hd. apply valid_lower. unfold valid_char. rewrite Hd. by rewrite orb_true_r. Qed.

Lemma tail_lower comps : Forall component comps -> lower <$> tail_of comps = tail_of comps.
Proof.
  induction 1 as [|c comps (_ & Hv & _) _ IH]; [done|]. rewrite tail_of_cons, fmap_cons, fmap_app, IH.
  change (lower SLASH) with SLASH. do 2 f_equal. induction Hv as [|x c Hx _ IH2]; [done|].
  rewrite fmap_cons, IH2, valid_lower; done.
Qed.

Lemma path_lower d comps : is_digit d = true -> Forall component comps -> lower <$> path_of d comps = path_of d comps.
Proof. intros Hd Hall. unfold path_of. by rewrite fmap_cons, digit_lower, tail_lower. Qed.

(** Paths of the grammar are in normal form. *)
Lemma normalize_path d comps : is_digit d = true -> Forall component comps -> len (path_of d comps) <= 255 ->
  ns_normalize (path_of d comps) = Some (path_of d comps).
Proof.
  intros Hd Hall Hlen. unfold ns_normalize, NS_MAX_PATH. rewrite (proj2 (Z.ltb_ge _ _)), path_lower by (done || lia).
  f_equal. rewrite <- (strip_app (path_of d comps) 0) at 2 by by apply path_last. by rewrite app_nil_r.
Qed.

End grammar.

(** ** Aliases are pure renames *)

Section aliases.
Context {D : Type}.
Implicit Types (a : cstring * cstring) (comps : list cstring).

Lemma component_zs (x : string) : (match zs x with [] => false | _ => true end) && forallb valid_char (zs x) &&
  existsb (fun c => negb (c =? DOT)) (zs x) = true -> component (zs x).
Proof.
  intros H. apply andb_true_iff in H as [H H3]. apply andb_true_iff in H as [H1 H2]. split; [|split].
  - intros E. by rewrite E in H1.
  - apply Forall_forall. intros c Hc. rewrite forallb_forall in H2. apply H2. by apply list_elem_of_In.
  - apply existsb_exists in H3 as (c & Hc & Hd). apply Exists_exists. exists c. split; [by apply list_elem_of_In|]. by zbool.
Qed.

(** Both columns of the alias table are paths of the grammar. *)
Lemma alias_paths a : a ∈ ns_aliases -> exists c1 cs2, a.1 = path_of (ch "0") [c1] /\ a.2 = path_of (ch "0") cs2 /\
  component c1 /\ Forall component cs2 /\ length cs2 = 3%nat.
Proof.
  intros Ha. unfold ns_aliases in Ha. repeat (apply elem_of_cons in Ha as [->|Ha]); [..|by apply elem_of_nil in Ha].
  - exists (zs "hmr"), [zs "hardware"; zs "memory"; zs "ram"]. repeat (split; [done|]).
    split; [by apply component_zs|]. split; [|done]. repeat (constructor; [by apply component_zs|]). constructor.
  - exists (zs "hsh"), [zs "hardware"; zs "storage"; zs "hdd"]. repeat (split; [done|]).
    split; [by apply component_zs|]. split; [|done]. repeat (constructor; [by apply component_zs|]). constructor.
  - exists (zs "hss"), [zs "hardware"; zs "storage"; zs "ssd"]. repeat (split; [done|]).
    split; [by apply component_zs|]. split; [|done]. repeat (constructor; [by apply component_zs|]). constructor.
Qed.

Lemma path_of_app d cs1 cs2 : path_of d cs1 ++ tail_of cs2 = path_of d (cs1 ++ cs2).
Proof. unfold path_of, tail_of. rewrite fmap_app, join_app. done. Qed.

Lemma alias_hit a comps : a ∈ ns_aliases -> find_first (alias_matches (a.1 ++ tail_of comps)) ns_aliases = Some a.
Proof.
  intros Ha. unfold ns_aliases in Ha. repeat (apply elem_of_cons in Ha as [->|Ha]); [..|by apply elem_of_nil in Ha];
    destruct comps; reflexivity.
Qed.

Lemma canonical_no_alias a comps : a ∈ ns_aliases -> find_first (alias_matches (a.2 ++ tail_of comps)) ns_aliases = None.
Proof.
  intros Ha. unfold ns_aliases in Ha. repeat (apply elem_of_cons in Ha as [->|Ha]); [..|by apply elem_of_nil in Ha];
    reflexivity.
Qed.

Lemma tail_of_inj cs : Forall component cs -> forall cs', Forall component cs' -> tail_of cs = tail_of cs' -> cs = cs'.
Proof.
  assert (Hsplit : forall c c' ds ds', Forall (fun x => valid_char x = true) c -> Forall (fun x => valid_char x = true) c' ->
    c ++ tail_of ds = c' ++ tail_of ds' -> c = c' /\ tail_of ds = tail_of ds').
  { induction c as [|x c IH]; intros [|y c'] ds ds' Hc Hc' Heq.
    - done.
    - exfalso. apply Forall_cons in Hc' as [Hy _]. destruct ds; [done|]. rewrite tail_of_cons in Heq.
      cbn [app] in Heq. injection Heq as <- _. done.
    - exfalso. apply Forall_cons in Hc as [Hx _]. destruct ds'; [done|]. rewrite tail_of_cons in Heq.
      cbn [app] in Heq. injection Heq as -> _. done.
    - apply Forall_cons in Hc as [_ Hc], Hc' as [_ Hc']. cbn [app] in Heq. injection Heq as -> Heq.
      destruct (IH _ _ _ Hc Hc' Heq) as [-> ?]. done. }
  induction 1 as [|c cs (_ & Hc & _) _ IH]; intros [|c' cs'] Hall Heq; [done|by rewrite tail_of_cons in Heq..|].
  apply Forall_cons in Hall as [(_ & Hc' & _) Hall]. rewrite !tail_of_cons in Heq. injection Heq as Heq.
  destruct (Hsplit _ _ _ _ Hc Hc' Heq) as [-> Ht]. f_equal. by apply IH.
Qed.

Lemma expand_S p work : expand (S p) work =
  match find_first (alias_matches work) ns_aliases with
  | None => Some work
  | Some a => let rest := drop (length a.1) work in
      if NS_MAX_PATH <=? k_strlen a.2 + k_strlen rest then None else expand p (a.2 ++ rest)
  end.
Proof. done. Qed.

(** A path of the grammar, normalised and checked. *)
Lemma canonical_path d comps max : is_digit d = true -> Forall component comps -> len (path_of d comps) <= 255 ->
  ns_canonical (path_of d comps) max =
  if len comps <=? 16 then work ← expand 8 (path_of d comps); (if max <=? k_strlen work then None else Some work) else None.
Proof.
  intros Hd Hall Hlen. unfold ns_canonical, ns_parse_valid. rewrite !normalize_path by done. cbn [mbind option_bind].
  rewrite normalize_path by done.
  assert (Hv : parse_norm (path_of d comps) = (len comps <=? 16)); [|rewrite Hv; by destruct (_ <=? 16)].
  destruct (Z.leb_spec (len comps) 16) as [Hle|Hgt].
  - apply parse_norm_spec. by exists d, comps.
  - destruct (parse_norm (path_of d comps)) eqn:Hv; [|done]. exfalso.
    apply parse_norm_spec in Hv as (d' & cs & Heq & _ & Hc & Hl). injection Heq as _ Heq.
    apply tail_of_inj in Heq; [|done..]. subst. unfold NS_MAX_DEPTH in Hl. lia.
Qed.

(** A short alias and the path it stands for name the same resource, for
    every continuation of up to 13 components.  With 14 or 15 the alias still
    resolves, to a canonical path that is itself rejected as too deep. *)
Theorem ns_alias_spellings a comps (s : part D) :
  a ∈ ns_aliases -> Forall component comps -> len (a.2 ++ tail_of comps) <= 255 -> len comps <= 15 ->
  (len comps <= 13 -> ns_resolve (a.1 ++ tail_of comps) s = ns_resolve (a.2 ++ tail_of comps) s) /\
  (14 <= len comps -> ns_resolve (a.2 ++ tail_of comps) s = (-1, None) /\
     exists rc r, ns_resolve (a.1 ++ tail_of comps) s = (rc, Some r) /\ canonical r = a.2 ++ tail_of comps).
Proof.
  intros Ha Hall Hlen Hdepth. destruct (alias_paths a Ha) as (c1 & cs2 & E1 & E2 & Hc1 & Hcs2 & Hl2).
  assert (Hshort : (length a.1 <= length a.2)%nat).
  { unfold ns_aliases in Ha. repeat (apply elem_of_cons in Ha as [->|Ha]); [cbn; lia..|by apply elem_of_nil in Ha]. }
  assert (Hno : expand 8 (a.2 ++ tail_of comps) = Some (a.2 ++ tail_of comps)).
  { by rewrite (expand_S 7), canonical_no_alias. }
  rewrite length_app in Hlen.
  assert (Hcanon : ns_canonical (a.1 ++ tail_of comps) NS_MAX_PATH = Some (a.2 ++ tail_of comps)).
  { rewrite E1, path_of_app, canonical_path; [|done|by constructor|rewrite <- path_of_app, <- E1, length_app; lia].
    cbn [app length]. rewrite (proj2 (Z.leb_le _ _)) by lia. change (c1 :: comps) with ([c1] ++ comps).
    rewrite <- path_of_app, <- E1, (expand_S 7), alias_hit by done. cbn zeta.
    rewrite drop_app_length. unfold k_strlen, NS_MAX_PATH. rewrite (proj2 (Z.leb_gt _ _)) by lia.
    assert (Hno7 : expand 7 (a.2 ++ tail_of comps) = Some (a.2 ++ tail_of comps))
      by (by rewrite (expand_S 6), canonical_no_alias).
    rewrite Hno7. cbn [mbind option_bind]. rewrite length_app, (proj2 (Z.leb_gt _ _)) by lia. done. }
  assert (Hself : ns_canonical (a.2 ++ tail_of comps) NS_MAX_PATH =
    if len comps <=? 13 then Some (a.2 ++ tail_of comps) else None).
  { rewrite E2, path_of_app, canonical_path; [|done|by apply Forall_app|rewrite <- path_of_app, <- E2, length_app; lia].
    rewrite length_app, Hl2, <- path_of_app, <- E2, Hno. cbn [mbind option_bind]. unfold k_strlen, NS_MAX_PATH.
    rewrite length_app, (proj2 (Z.leb_gt 256 _)) by lia.
    destruct (Z.leb_spec (len comps) 13), (Z.leb_spec (Z.of_nat (3 + length comps)) 16); done || lia. }
  unfold ns_resolve. rewrite Hcanon, Hself. split; intros Hd.
  - by rewrite (proj2 (Z.leb_le (len comps) 13)) by done.
  - rewrite (proj2 (Z.leb_gt (len comps) 13)) by lia. split; [done|].
    assert (Hcl : canonical (classify (a.2 ++ tail_of comps) s).2 = a.2 ++ tail_of comps).
    { unfold classify. repeat match goal with |- context [if ?b then _ else _] => destruct b end; try done;
        repeat match goal with |- context [match ?x with _ => _ end] => destruct x end; done. }
    destruct (classify _ s) as [rc r]. by exists rc, r.
Qed.
End aliases.

Lemma ns_alias_spellings_witness :
  ns_resolve (zs "0/hsh/partitions/1") Part.Examples.s_one =
  ns_resolve (zs "0/hardware/storage/hdd/partitions/1") Part.Examples.s_one.
Proof.
  apply (ns_alias_spellings (zs "0/hsh", zs "0/hardware/storage/hdd") [zs "partitions"; zs "1"] Part.Examples.s_one).
  - right. left.
  - repeat (constructor; [by apply component_zs|]). constructor.
  - vm_compute. discriminate.
  - vm_compute. discriminate.
  - vm_compute. discriminate.
Defined.
