(* ===== verification/Ramfs.v ===== *)
(** * RAM filesystem (src/src/fs/ramfs.c)

    A table of 64 slots, each a flat name and a buffer on the kernel heap that
    doubles when a write does not fit. *)

From S2P Require Import Prelude KHeap Bytes.

Definition MAX_FILES : Z := 64.
Definition MAX_FILENAME : Z := 32.
Definition RAMFS_TOTAL_CAPACITY : Z := 1048576.

Record ramfile : Type := RamFile {
  rf_name : cstring;       (* the string in the name array *)
  rf_data : Z;             (* buffer address, 0 when none *)
  rf_size : Z;
  rf_capacity : Z;
  rf_dir : bool;
  rf_in_use : bool
}.

Record ramfs : Type := Ramfs {
  files : list ramfile;
  fs_initialized : bool;
  rheap : kheap
}.

Definition no_file : ramfile := RamFile [] 0 0 0 false false.
Definition file (s : ramfs) (i : Z) : ramfile := arr_get no_file (files s) i.
Definition set_file (i : Z) (f : ramfile) (s : ramfs) : ramfs :=
  Ramfs (arr_set (files s) i f) (fs_initialized s) (rheap s).
Definition set_rheap (h : kheap) (s : ramfs) : ramfs := Ramfs (files s) (fs_initialized s) h.
Definition with_name (n : cstring) (f : ramfile) : ramfile :=
  RamFile n (rf_data f) (rf_size f) (rf_capacity f) (rf_dir f) (rf_in_use f).
Definition with_buffer (p cap : Z) (f : ramfile) : ramfile :=
  RamFile (rf_name f) p (rf_size f) cap (rf_dir f) (rf_in_use f).
Definition with_rsize (n : Z) (f : ramfile) : ramfile :=
  RamFile (rf_name f) (rf_data f) n (rf_capacity f) (rf_dir f) (rf_in_use f).

Definition ramfs_init (s : ramfs) : ramfs :=
  let cleared := (fun f => RamFile (rf_name f) 0 0 0 false false) <$> files s in
  Ramfs (arr_set cleared 0 (RamFile [ch "/"] 0 0 0 true true)) true (rheap s).

(** The search for a free slot in [ramfs_create] and [ramfs_mkdir]. *)
Definition free_slot (s : ramfs) : option Z :=
  find_first (fun i => negb (rf_in_use (file s i))) (seqZ 1 (MAX_FILES - 1)).

Definition short_name (name : cstring) : cstring := take (Z.to_nat (MAX_FILENAME - 1)) name.

Definition ramfs_create (fuel : nat) (name : cstring) (s : ramfs) : option (Z * ramfs) :=
  if negb (fs_initialized s) then Some (-1, s)
  else match free_slot s with
  | None => Some (-1, s)
  | Some slot =>
      let f := with_name (short_name name) (file s slot) in
      '(p, h) ← kmalloc fuel 256 (rheap s);
      let s := set_rheap h s in
      if p =? 0 then Some (-1, set_file slot (with_buffer 0 (rf_capacity f) f) s)
      else Some (slot, set_file slot (RamFile (rf_name f) p 0 256 false true) s)
  end.

(** The capacity of the slot's previous file is kept. *)
Definition ramfs_mkdir (name : cstring) (s : ramfs) : Z * ramfs :=
  if negb (fs_initialized s) then (-1, s)
  else match free_slot s with
  | None => (-1, s)
  | Some slot => (0, set_file slot (RamFile (short_name name) 0 0 (rf_capacity (file s slot)) true true) s)
  end.

(** The comparison loop of [ramfs_find]. *)
Fixpoint name_match (a b : cstring) : bool :=
  match a, b with
  | x :: a', y :: b' => if x =? y then name_match a' b' else false
  | [], [] => true
  | _, _ => false
  end.

Definition ramfs_find (name : cstring) (s : ramfs) : Z :=
  if negb (fs_initialized s) then -1
  else default (-1)
    (find_first (fun i => rf_in_use (file s i) && name_match name (rf_name (file s i))) (seqZ 0 MAX_FILES)).

Definition ramfs_delete (fuel : nat) (name : cstring) (s : ramfs) : option (Z * ramfs) :=
  let idx := ramfs_find name s in
  if idx <? 0 then Some (-1, s)
  else
    let f := file s idx in
    s ← (if rf_data f =? 0 then Some s
         else h ← kfree fuel (rf_data f) (rheap s); Some (set_rheap h s));
    Some (0, set_file idx (RamFile (rf_name f) (rf_data f) (rf_size f) (rf_capacity f) (rf_dir f) false) s).

Definition bad_fd (fd : Z) (s : ramfs) : bool :=
  (fd <? 0) || (MAX_FILES <=? fd) || negb (rf_in_use (file s fd)).

(** One turn of the growth loop; [false] when the allocation failed. *)
Definition grow_step (fuel : nat) (fd : Z) (s : ramfs) : option (bool * ramfs) :=
  let f := file s fd in
  let new_cap := u32 (rf_capacity f * 2) in
  '(p, h) ← kmalloc fuel new_cap (rheap s);
  if p =? 0 then Some (false, set_rheap h s)
  else
    let h := set_payload (copy_bytes p (rf_data f) (rf_size f) (payload h)) h in
    h ← (if rf_data f =? 0 then Some h else kfree fuel (rf_data f) h);
    Some (true, set_file fd (with_buffer p new_cap f) (set_rheap h s)).

Definition fits_in (fd size : Z) (s : ramfs) : bool :=
  u32 (rf_size (file s fd) + size) <=? rf_capacity (file s fd).

Fixpoint grow (k fuel : nat) (fd size : Z) (s : ramfs) : option (bool * ramfs) :=
  match k with
  | O => None
  | S k' =>
      if fits_in fd size s then Some (true, s)
      else
        '(ok, s1) ← grow_step fuel fd s;
        if (ok : bool) then grow k' fuel fd size s1 else Some (false, s1)
  end.

(** A 32-bit capacity doubled 32 times is 0, for which [kmalloc] fails. *)
Definition GROW_TURNS : nat := 34.

Definition write_payload (base pos : Z) (data : list Z) (m : gmap Z Z) : gmap Z Z :=
  foldl (fun m i => <[base + u32 (pos + i) := arr_get 0 data i]> m) m (seqZ 0 (len data)).

Definition ramfs_write (fuel : nat) (fd : Z) (data : list Z) (s : ramfs) : option (Z * ramfs) :=
  let size := len data in
  if bad_fd fd s then Some (-1, s)
  else
    '(ok, s) ← grow GROW_TURNS fuel fd size s;
    if negb ok then Some (-1, s)
    else
      let f := file s fd in
      let h := set_payload (write_payload (rf_data f) (rf_size f) data (payload (rheap s))) (rheap s) in
      Some (i32 size, set_file fd (with_rsize (u32 (rf_size f + size)) f) (set_rheap h s)).

(** The bytes stored in the caller's buffer and the result. *)
Definition ramfs_read (fd size offset : Z) (s : ramfs) : list Z * Z :=
  if bad_fd fd s then ([], -1)
  else
    let f := file s fd in
    if rf_size f <=? offset then ([], 0)
    else
      let to_read := if rf_size f <? u32 (offset + size) then u32 (rf_size f - offset) else size in
      ((fun i => byte_at (payload (rheap s)) (rf_data f + u32 (offset + i))) <$> seqZ 0 to_read, i32 to_read).

Definition ramfs_size (fd : Z) (s : ramfs) : Z := if bad_fd fd s then 0 else rf_size (file s fd).
Definition ramfs_is_dir (fd : Z) (s : ramfs) : bool :=
  if (fd <? 0) || (MAX_FILES <=? fd) then false else rf_dir (file s fd).
Definition ramfs_name (fd : Z) (s : ramfs) : option cstring :=
  if (fd <? 0) || (MAX_FILES <=? fd) then None else Some (rf_name (file s fd)).

(** The arguments of the successive callbacks. *)
Definition ramfs_list (s : ramfs) : list (cstring * bool * Z) :=
  (fun f => (rf_name f, rf_dir f, rf_size f)) <$> filter (fun f => rf_in_use f = true) (files s).

Definition ramfs_get_file_count (s : ramfs) : Z := countb rf_in_use (files s).

Record ramfs_stats : Type := RamfsStats {
  total_capacity : Z; used_bytes : Z; free_bytes : Z; allocated_bytes : Z; file_count : Z; dir_count : Z
}.

Definition ramfs_get_stats (s : ramfs) : ramfs_stats :=
  let sum g := foldl (fun acc f => if rf_in_use f && negb (rf_dir f) then u64 (acc + g f) else acc) 0 (files s) in
  let used := sum rf_size in
  RamfsStats RAMFS_TOTAL_CAPACITY used
    (if used <? RAMFS_TOTAL_CAPACITY then RAMFS_TOTAL_CAPACITY - used else 0) (sum rf_capacity)
    (countb rf_in_use (files s)) (countb (fun f => rf_in_use f && rf_dir f) (files s)).

(** ** Abstract view

    A table of optional entries, each a name, a kind and its contents. *)

Record afile : Type := AFile { a_name : cstring; a_dir : bool; a_data : list Z }.
Definition atable : Type := list (option afile).

Definition contents (m : gmap Z Z) (f : ramfile) : list Z := load_bytes m (rf_data f) (rf_size f).
Definition abs_file (m : gmap Z Z) (f : ramfile) : option afile :=
  if rf_in_use f then Some (AFile (rf_name f) (rf_dir f) (contents m f)) else None.
Definition abs (s : ramfs) : atable := abs_file (payload (rheap s)) <$> files s.

Inductive fs_op : Type :=
  | OpCreate (name : cstring)
  | OpMkdir (name : cstring)
  | OpDelete (name : cstring)
  | OpWrite (fd : Z) (data : list Z).

Definition run_op (fuel : nat) (op : fs_op) (s : ramfs) : option (Z * ramfs) :=
  match op with
  | OpCreate n => ramfs_create fuel n s
  | OpMkdir n => Some (ramfs_mkdir n s)
  | OpDelete n => ramfs_delete fuel n s
  | OpWrite fd d => ramfs_write fuel fd d s
  end.

Definition a_free (t : atable) (i : Z) : bool := match arr_get None t i with None => true | Some _ => false end.
Definition a_free_slot (t : atable) : option Z := find_first (a_free t) (seqZ 1 63).
Definition a_named (n : cstring) (t : atable) (i : Z) : bool :=
  match arr_get None t i with Some f => bool_decide (n = a_name f) | None => false end.
Definition a_find (n : cstring) (t : atable) : option Z := find_first (a_named n t) (seqZ 0 64).

(** What each operation may do; [nomem n]: no free block can hold [n] bytes. *)
Inductive spec_op (nomem : Z -> Prop) : fs_op -> atable -> Z -> atable -> Prop :=
  | sp_create n t i : a_free_slot t = Some i ->
      spec_op nomem (OpCreate n) t i (arr_set t i (Some (AFile (take 31 n) false [])))
  | sp_create_full n t : a_free_slot t = None \/ nomem 256 -> spec_op nomem (OpCreate n) t (-1) t
  | sp_mkdir n t i : a_free_slot t = Some i ->
      spec_op nomem (OpMkdir n) t 0 (arr_set t i (Some (AFile (take 31 n) true [])))
  | sp_mkdir_full n t : a_free_slot t = None -> spec_op nomem (OpMkdir n) t (-1) t
  | sp_delete n t i : a_find n t = Some i -> spec_op nomem (OpDelete n) t 0 (arr_set t i None)
  | sp_delete_none n t : a_find n t = None -> spec_op nomem (OpDelete n) t (-1) t
  | sp_write fd d t n c : 0 <= fd < 64 -> arr_get None t fd = Some (AFile n false c) ->
      spec_op nomem (OpWrite fd d) t (len d) (arr_set t fd (Some (AFile n false (c ++ d))))
  | sp_write_full fd d t n c k : 0 <= fd < 64 -> arr_get None t fd = Some (AFile n false c) ->
      nomem k \/ 2 ^ 31 < len c + len d -> k <= 2 * (len c + len d) ->
      spec_op nomem (OpWrite fd d) t (-1) t
  | sp_write_bad fd d t : (fd < 0 \/ 64 <= fd \/ arr_get None t fd = None) ->
      spec_op nomem (OpWrite fd d) t (-1) t.

(** ** Invariant *)

Section invariant.
Implicit Types (s : ramfs) (f : ramfile) (bs : list kheap_block) (e : Z).

Definition regular f : Prop := rf_in_use f = true /\ rf_dir f = false.

(** The buffer of a regular file is a live allocation of its capacity; a
    directory has none. *)
Definition file_ok (h : kheap) bs f : Prop :=
  if rf_dir f then rf_data f = 0 /\ rf_size f = 0
  else 0 <= rf_size f <= rf_capacity f /\ (exists k, 8 <= k <= 31 /\ rf_capacity f = 2 ^ k) /\
       exists got, (rf_data f, got) ∈ allocs (heap_first h) bs /\ rf_capacity f <= got.

Record ramfs_inv s bs e : Prop := {
  ri_init : fs_initialized s = true;
  ri_len : length (files s) = 64%nat;
  ri_heap : heap_wf (rheap s) bs e;
  ri_file : forall i f, files s !! i = Some f -> rf_in_use f = true -> file_ok (rheap s) bs f;
  ri_apart : forall i j f g, files s !! i = Some f -> files s !! j = Some g -> i <> j ->
    regular f -> regular g -> rf_data f <> rf_data g
}.
End invariant.

(** ** Lemmas *)

Section memory.
Implicit Types (m : gmap Z Z).

Lemma write_payload_store base pos data m :
  0 <= pos -> pos + len data <= 2 ^ 32 -> write_payload base pos data m = store_bytes (base + pos) data m.
Proof.
  intros Hp Hd. unfold write_payload.
  assert (E : forall k l q m, 0 <= k -> pos + k + len l <= 2 ^ 32 -> q = base + pos + k ->
    drop (Z.to_nat k) data = l ->
    foldl (fun m i => <[base + u32 (pos + i) := arr_get 0 data i]> m) m (seqZ k (len l)) = store_bytes q l m).
  { clear m. intros k l. revert k. induction l as [|b l IH]; intros k q m Hk Hl -> Hdr; [done|].
    cbn [length] in *. rewrite seqZ_cons by lia. cbn [foldl store_bytes].
    replace (Z.pred (Z.of_nat (S (length l)))) with (len l) by lia. rewrite u32_id by (unfold is_u32; lia).
    assert (Hb : arr_get 0 data k = b).
    { unfold arr_get. replace (data !! Z.to_nat k) with (Some b); [done|].
      rewrite <- (Nat.add_0_r (Z.to_nat k)), <- lookup_drop, Hdr. done. }
    rewrite Hb, Z.add_assoc. apply IH; [lia..|].
    replace (Z.to_nat (Z.succ k)) with (Z.to_nat k + 1)%nat by lia. by rewrite <- drop_drop, Hdr. }
  apply E; [lia..|]. by rewrite drop_0.
Qed.
End memory.

Section heap_facts.
Lemma chain_length m a bs e : chain m a bs e -> sizeof_block * len bs <= e - a.
Proof.
  revert a. induction bs as [|b bs IH]; intros a Hch; [done|].
  assert (Hs : 0 <= kb_size b) by apply Hch. destruct bs as [|c bs].
  - destruct Hch as (_ & _ & _ & <-). cbn [length]. unfold block_end, sizeof_block. lia.
  - apply chain_cons_cons in Hch as (_ & _ & _ & Hch). apply IH in Hch.
    unfold block_end, sizeof_block in *. cbn [length] in *. lia.
Qed.

Lemma chain_det m a bs e bs' e' : 0 < a -> chain m a bs e -> chain m a bs' e' -> bs = bs'.
Proof.
  revert a bs'. induction bs as [|b bs IH]; intros a bs' Ha Hch Hch'; [done|].
  destruct bs' as [|b' bs']; [done|].
  assert (b = b') as <- by (destruct Hch as (H1 & _), Hch' as (H2 & _); congruence).
  assert (Hs : 0 <= kb_size b) by apply Hch.
  assert (Hpos : 0 < block_end a b) by (unfold block_end, sizeof_block; lia). f_equal.
  destruct bs as [|c bs], bs' as [|c' bs']; [done| | |].
  - destruct Hch as (_ & _ & Hn & _), Hch' as (_ & _ & Hn' & _). lia.
  - destruct Hch as (_ & _ & Hn & _), Hch' as (_ & _ & Hn' & _). lia.
  - apply chain_cons_cons in Hch as (_ & _ & _ & Hch), Hch' as (_ & _ & _ & Hch').
    by apply (IH (block_end a b)).
Qed.

Lemma allocs_apart_ne h bs e p s q t :
  heap_wf h bs e -> (p, s) ∈ allocs (heap_first h) bs -> (q, t) ∈ allocs (heap_first h) bs -> p <> q ->
  apart (p, s) (q, t).
Proof.
  intros Hwf Hp Hq Hne. apply list_elem_of_split in Hp as (l1 & l2 & Hl).
  pose proof (allocs_apart _ _ _ _ (hw_chain _ _ _ Hwf)) as Hap. rewrite Hl in Hap, Hq.
  apply (ForallOrdPairs_mid apart l1 _ l2 _ apart_sym Hap).
  apply elem_of_app in Hq as [Hq|Hq]; [by apply elem_of_app; left|].
  apply elem_of_cons in Hq as [Hq|Hq]; [by simplify_eq|by apply elem_of_app; right].
Qed.
End heap_facts.

Section views.
Implicit Types (s : ramfs) (f g : ramfile) (bs : list kheap_block) (e : Z).

Lemma abs_get s i : arr_get None (abs s) i = abs_file (payload (rheap s)) (file s i).
Proof.
  unfold arr_get, file, abs, arr_get. rewrite list_lookup_fmap. by destruct (files s !! Z.to_nat i).
Qed.

Lemma free_slot_abs s : free_slot s = a_free_slot (abs s).
Proof.
  apply find_first_ext. intros i _. unfold a_free. rewrite abs_get. unfold abs_file. by destruct (rf_in_use _).
Qed.

Lemma name_match_eq a b : name_match a b = bool_decide (a = b).
Proof.
  revert b. induction a as [|x a IH]; intros [|y b]; cbn [name_match]; try (by rewrite bool_decide_false); [done|].
  destruct (Z.eqb_spec x y) as [->|Hne].
  - rewrite IH. apply bool_decide_ext. split; [by intros ->|by intros [= ->]].
  - rewrite bool_decide_false; [done|]. by intros [= ->].
Qed.

Lemma ramfs_find_abs s n : fs_initialized s = true -> ramfs_find n s = default (-1) (a_find n (abs s)).
Proof.
  intros Hi. unfold ramfs_find. rewrite Hi. cbn [negb]. f_equal. apply find_first_ext. intros i _.
  unfold a_named. rewrite abs_get, name_match_eq. unfold abs_file. by destruct (rf_in_use _).
Qed.

Lemma file_lookup s bs e i : ramfs_inv s bs e -> 0 <= i < 64 -> files s !! Z.to_nat i = Some (file s i).
Proof. intros Hinv Hi. apply arr_lookup_get. rewrite (ri_len _ _ _ Hinv). lia. Qed.

Lemma contents_dir m f h bs : file_ok h bs f -> rf_dir f = true -> contents m f = [].
Proof. unfold file_ok, contents. intros H Hd. rewrite Hd in H. by destruct H as [_ ->]. Qed.

(** Replacing slot [i] and the heap, where the other files keep their
    allocations and their bytes. *)
Definition frame s i bs bs' (h' : kheap) f' : Prop :=
  forall j g, files s !! j = Some g -> j <> Z.to_nat i -> regular g ->
    (forall got, (rf_data g, got) ∈ allocs (heap_first (rheap s)) bs ->
       (rf_data g, got) ∈ allocs (heap_first (rheap s)) bs') /\
    (regular f' -> rf_data g <> rf_data f') /\
    (forall x, rf_data g <= x < rf_data g + rf_size g -> byte_at (payload h') x = byte_at (payload (rheap s)) x).

Lemma update_inv s bs e i f' h' bs' :
  ramfs_inv s bs e -> 0 <= i < 64 -> heap_wf h' bs' e -> heap_first h' = heap_first (rheap s) ->
  (rf_in_use f' = true -> file_ok h' bs' f') -> frame s i bs bs' h' f' ->
  ramfs_inv (set_file i f' (set_rheap h' s)) bs' e.
Proof.
  intros [Hi Hl Hw Hf Ha] Hr Hw' Hfst Hok Hfr. split; try done.
  - cbn [files set_file set_rheap]. by rewrite length_arr_set.
  - intros j g Hg Hu. cbn [files set_file set_rheap rheap] in *. unfold arr_set in Hg.
    apply list_lookup_insert_Some in Hg as [(<- & <- & _)|[Hne Hg]]; [by apply Hok|].
    specialize (Hf j g Hg Hu). unfold file_ok in *. destruct (rf_dir g) eqn:Ed; [done|].
    destruct Hf as (H1 & H2 & got & H3 & H4). split; [done|]. split; [done|]. exists got. split; [|done].
    rewrite Hfst. by apply (Hfr j g).
  - intros j k g1 g2 H1 H2 Hjk R1 R2. cbn [files set_file set_rheap] in *. unfold arr_set in *.
    apply list_lookup_insert_Some in H1 as [(<- & <- & _)|[Hne1 H1]],
      H2 as [(<- & <- & _)|[Hne2 H2]]; [done| | |by eapply Ha].
    + apply not_eq_sym. by apply (Hfr k g2).
    + by apply (Hfr j g1).
Qed.

Lemma update_abs s bs e i f' h' bs' :
  ramfs_inv s bs e -> 0 <= i < 64 -> frame s i bs bs' h' f' ->
  abs (set_file i f' (set_rheap h' s)) = arr_set (abs s) i (abs_file (payload h') f').
Proof.
  intros [Hi Hl Hw Hf Ha] Hr Hfr. unfold abs. cbn [files set_file set_rheap rheap]. unfold arr_set.
  apply list_eq. intros j. rewrite list_lookup_fmap. destruct (decide (j = Z.to_nat i)) as [->|Hne].
  - rewrite !list_lookup_insert_eq; [done|rewrite length_fmap; lia|lia].
  - rewrite !list_lookup_insert_ne, list_lookup_fmap by done.
    destruct (files s !! j) as [g|] eqn:Hg; [|done]. cbn [fmap option_fmap option_map]. f_equal. unfold abs_file.
    destruct (rf_in_use g) eqn:Hu; [|done]. do 2 f_equal. specialize (Hf j g Hg Hu).
    destruct (rf_dir g) eqn:Hd; [by rewrite !(contents_dir _ g _ _ Hf Hd)|].
    destruct (Hfr j g Hg Hne (conj Hu Hd)) as (_ & _ & Hb). apply load_bytes_ext. intros k Hk. apply Hb. lia.
Qed.

(** Nothing changes when the slot is put back as it is. *)
Lemma abs_same s i f : abs_file (payload (rheap s)) f = abs_file (payload (rheap s)) (file s i) ->
  0 <= i -> arr_set (abs s) i (abs_file (payload (rheap s)) f) = abs s.
Proof.
  intros E Hi. apply list_insert_id'. intros Hlt. rewrite E, <- abs_get. apply arr_lookup_get. lia.
Qed.
End views.

(** ** Growth *)

Definition nomem (s : ramfs) (n : Z) : Prop :=
  exists bs e, heap_wf (rheap s) bs e /\
    Forall (fun b => free_block b = true -> kb_size b < align16 n) bs.

(** No free block is too tight to be split for [n] bytes. *)
Definition roomy_heap (h : kheap) (n : Z) : Prop :=
  exists bs e, heap_wf h bs e /\ roomy (align16 n) bs.

Fixpoint grow_safe (k fuel : nat) (fd size : Z) (s : ramfs) : Prop :=
  match k with
  | O => True
  | S k' =>
      if fits_in fd size s then True
      else roomy_heap (rheap s) (u32 (rf_capacity (file s fd) * 2)) /\
           match grow_step fuel fd s with Some (true, s') => grow_safe k' fuel fd size s' | _ => True end
  end.

Section growth.
Implicit Types (s : ramfs) (f g : ramfile) (bs : list kheap_block) (e : Z).

Lemma roomy_heap_inv h n bs e : heap_wf h bs e -> roomy_heap h n -> roomy (align16 n) bs.
Proof.
  intros Hw (bs' & e' & Hw' & Hr). by rewrite (chain_det _ _ _ _ _ _ (hw_first _ _ _ Hw) (hw_chain _ _ _ Hw) (hw_chain _ _ _ Hw')).
Qed.

Lemma regular_alloc s bs e j f : ramfs_inv s bs e -> files s !! j = Some f -> regular f ->
  exists got, (rf_data f, got) ∈ allocs (heap_first (rheap s)) bs /\
    0 <= rf_size f <= rf_capacity f /\ 256 <= rf_capacity f <= got /\
    heap_first (rheap s) + sizeof_block <= rf_data f /\ rf_data f + got <= e.
Proof.
  intros Hinv Hf [Hu Hd]. pose proof (ri_file _ _ _ Hinv j f Hf Hu) as Hok. unfold file_ok in Hok. rewrite Hd in Hok.
  destruct Hok as (Hs & (k & Hk & Hc) & got & Hin & Hg). exists got. split; [done|]. split; [done|].
  pose proof (allocs_bounds _ _ _ _ _ _ (hw_chain _ _ _ (ri_heap _ _ _ Hinv)) Hin).
  assert (2 ^ 8 <= 2 ^ k) by (apply Z.pow_le_mono_r; lia). lia.
Qed.

Lemma length_fuel s bs e fuel : ramfs_inv s bs e -> e - heap_first (rheap s) < sizeof_block * Z.of_nat fuel ->
  (length bs < fuel)%nat.
Proof.
  intros Hinv Hf. pose proof (chain_length _ _ _ _ (hw_chain _ _ _ (ri_heap _ _ _ Hinv))).
  unfold sizeof_block in *. lia.
Qed.

Lemma double_cap k : 8 <= k <= 31 -> u32 (2 ^ k * 2) = if k =? 31 then 0 else 2 ^ (k + 1).
Proof.
  intros Hk. destruct (Z.eqb_spec k 31) as [->|]; [done|]. rewrite Z.pow_add_r by lia. change (2 ^ 1) with 2.
  apply u32_id. unfold is_u32. assert (2 ^ k <= 2 ^ 30) by (apply Z.pow_le_mono_r; lia).
  assert (0 < 2 ^ k) by (apply Z.pow_pos_nonneg; lia). lia.
Qed.

(** One successful turn: the buffer has moved, and nothing else is visible. *)
Lemma grow_step_spec fuel fd s bs e f k :
  ramfs_inv s bs e -> 0 <= fd < 64 -> file s fd = f -> regular f -> 8 <= k < 31 -> rf_capacity f = 2 ^ k ->
  e - heap_first (rheap s) < sizeof_block * Z.of_nat fuel - sizeof_block -> roomy_heap (rheap s) (2 ^ (k + 1)) ->
  (grow_step fuel fd s = Some (false, s) /\ nomem s (2 ^ (k + 1))) \/
  exists p s' bs', grow_step fuel fd s = Some (true, s') /\ ramfs_inv s' bs' e /\
    heap_first (rheap s') = heap_first (rheap s) /\ abs s' = abs s /\ file s' fd = with_buffer p (2 ^ (k + 1)) f.
Proof.
  intros Hinv Hfd Hf Hreg Hk Hcap Hfuel Hroom. pose proof (ri_heap _ _ _ Hinv) as Hwf.
  pose proof (file_lookup _ _ _ fd Hinv Hfd) as Hlk. rewrite Hf in Hlk.
  destruct (regular_alloc _ _ _ _ _ Hinv Hlk Hreg) as (got & Hin & Hsz & Hc & Hlo & Hhi).
  assert (Hlen : (S (length bs) < fuel)%nat).
  { pose proof (chain_length _ _ _ _ (hw_chain _ _ _ Hwf)). unfold sizeof_block in *. lia. }
  assert (Hpow : 2 ^ 9 <= 2 ^ (k + 1) <= 2 ^ 31) by (split; apply Z.pow_le_mono_r; lia).
  assert (Hdbl : 2 ^ (k + 1) = 2 ^ k * 2) by (by rewrite Z.pow_add_r by lia).
  unfold grow_step. rewrite Hf, Hcap, double_cap by lia. rewrite (proj2 (Z.eqb_neq k 31)) by lia.
  destruct (kmalloc_spec (rheap s) bs e (2 ^ (k + 1)) fuel Hwf) as (p & h1 & Hrun & Hres);
    [lia|lia|by apply (roomy_heap_inv _ _ _ _ Hwf)|lia|].
  rewrite Hrun. cbn [mbind option_bind].
  destruct Hres as [(-> & -> & Hno)|(got1 & bs1 & Hwf1 & Hf1 & Hpay & Hl1 & Hg1 & Hp1 & Hp2 & Hperm & Hap)].
  { left. split; [by destruct s|]. by exists bs, e. }
  right. assert (Hfirst : 0 < heap_first (rheap s)) by apply Hwf. assert (He : e < 2 ^ 64) by apply Hwf.
  rewrite (proj2 (Z.eqb_neq p 0)), (proj2 (Z.eqb_neq (rf_data f) 0)) by (unfold sizeof_block in *; lia).
  set (h2 := set_payload _ h1).
  assert (Hin1 : (rf_data f, got) ∈ allocs (heap_first h1) bs1) by (rewrite Hf1, Hperm; by right).
  destruct (kfree_spec h2 bs1 e (rf_data f) got fuel) as (h' & bs' & Hfree & Hwf' & Hf' & Hperm' & _ & _ & Hpay' & _);
    [by apply heap_wf_set_payload|done|lia|].
  rewrite Hfree. cbn [mbind option_bind]. rewrite Forall_forall in Hap.
  pose proof (Hap _ Hin) as Hapf. unfold apart in Hapf. cbn [fst snd] in Hapf.
  assert (Hbytes : forall x, byte_at (payload h') x = if (p <=? x) && (x <? p + rf_size f)
    then byte_at (payload (rheap s)) (rf_data f + (x - p)) else byte_at (payload (rheap s)) x).
  { intros x. rewrite Hpay'. cbn [payload h2 set_payload]. rewrite Hpay.
    apply copy_bytes_spec; unfold apart; cbn [fst snd]; unfold sizeof_block in *; lia. }
  change (heap_first h2) with (heap_first h1) in *. rewrite Hf1 in *.
  set (f' := with_buffer p (2 ^ (k + 1)) f).
  assert (Hnew : (p, got1) ∈ allocs (heap_first (rheap s)) bs').
  { assert (Hx : (p, got1) ∈ allocs (heap_first (rheap s)) bs1) by (rewrite Hperm; left).
    rewrite Hperm' in Hx. apply elem_of_cons in Hx as [Hx|Hx]; [|done]. exfalso. simplify_eq. lia. }
  assert (Hfr : frame s fd bs bs' h' f').
  { intros j g Hg Hj Hrg. destruct (regular_alloc _ _ _ _ _ Hinv Hg Hrg) as (gg & Hgin & Hgs & Hgc & _).
    assert (Hne : rf_data g <> rf_data f) by by apply (ri_apart _ _ _ Hinv j (Z.to_nat fd)).
    pose proof (Hap _ Hgin) as Hapg. unfold apart in Hapg. cbn [fst snd] in Hapg. split; [|split].
    - intros q Hq. assert (Hx : (rf_data g, q) ∈ allocs (heap_first (rheap s)) bs1) by (rewrite Hperm; by right).
      rewrite Hperm' in Hx. apply elem_of_cons in Hx as [Hx|Hx]; [by simplify_eq|done].
    - intros _. cbn [rf_data f' with_buffer]. lia.
    - intros x Hx. rewrite Hbytes. destruct (_ && _) eqn:E; [zbool; lia|done]. }
  exists p, (set_file fd f' (set_rheap h' s)), bs'. split; [done|]. split; [|split; [done|split]].
  - apply (update_inv s bs e); try done. intros _. unfold file_ok. destruct Hreg as [_ Hd].
    unfold f'. cbn [rf_dir with_buffer rf_size rf_capacity rf_data]. rewrite Hd. split; [|split; [exists (k + 1); lia|]].
    + lia.
    + exists got1. rewrite Hf'. done.
  - rewrite (update_abs s bs e fd f' h' bs' Hinv Hfd Hfr).
    replace (abs_file (payload h') f') with (abs_file (payload (rheap s)) f).
    + apply abs_same; [by rewrite Hf|lia].
    + unfold abs_file, contents, f'. cbn [rf_in_use rf_name rf_dir with_buffer rf_data rf_size]. destruct (rf_in_use f); [|done].
      do 2 f_equal. apply load_bytes_ext. intros i Hi. rewrite Hbytes.
      rewrite (proj2 (Z.leb_le _ _)), (proj2 (Z.ltb_lt _ _)) by lia. cbn [andb]. f_equal. lia.
  - unfold file. cbn [files set_file set_rheap]. rewrite arr_get_set_eq; [done|]. rewrite (ri_len _ _ _ Hinv). lia.
Qed.

(** The whole loop, when the final size fits in 32 bits. *)
Lemma grow_spec t : forall fuel fd size s bs e f k,
  ramfs_inv s bs e -> 0 <= fd < 64 -> file s fd = f -> regular f -> 8 <= k <= 31 -> rf_capacity f = 2 ^ k ->
  e - heap_first (rheap s) < sizeof_block * Z.of_nat fuel - sizeof_block ->
  31 - k < Z.of_nat t -> 0 <= size -> rf_size f + size < 2 ^ 32 -> grow_safe t fuel fd size s ->
  exists ok s' bs' p c, grow t fuel fd size s = Some (ok, s') /\ ramfs_inv s' bs' e /\ abs s' = abs s /\
    file s' fd = with_buffer p c f /\
    (if ok : bool then rf_size f + size <= c
     else exists n, (nomem s' n \/ 2 ^ 31 < rf_size f + size) /\ n <= 2 * (rf_size f + size)).
Proof.
  induction t as [|t IH]; intros fuel fd size s bs e f k Hinv Hfd Hf Hreg Hk Hcap Hfuel Ht Hs0 Hs Hsafe; [lia|].
  pose proof (file_lookup _ _ _ fd Hinv Hfd) as Hlk. rewrite Hf in Hlk.
  destruct (regular_alloc _ _ _ _ _ Hinv Hlk Hreg) as (got & _ & Hsz & _).
  assert (Hself : f = with_buffer (rf_data f) (rf_capacity f) f) by by destruct f.
  cbn [grow grow_safe] in *. unfold fits_in in *. rewrite Hf in *. rewrite u32_id in * by (unfold is_u32; lia).
  destruct (rf_size f + size <=? rf_capacity f) eqn:Efit; zbool.
  { exists true, s, bs, (rf_data f), (rf_capacity f). rewrite <- Hself. done. }
  destruct Hsafe as [Hroom Hsafe]. rewrite Hcap, double_cap in Hroom by lia.
  destruct (Z.eqb_spec k 31) as [->|Hk31].
  - unfold grow_step. rewrite Hf, Hcap. change (u32 (2 ^ 31 * 2)) with 0. cbn [kmalloc Z.eqb mbind option_bind].
    exists false, s, bs, (rf_data f), (rf_capacity f). rewrite <- Hself, Hcap in *.
    split; [by destruct s|]. split; [done|]. split; [done|]. split; [done|]. exists 0. lia.
  - destruct (grow_step_spec fuel fd s bs e f k) as [[-> Hno]|(p & s1 & bs1 & Hrun & Hinv1 & Hf1 & Habs & Hfile)];
      try done; [lia| |].
    + cbn [mbind option_bind]. exists false, s, bs, (rf_data f), (rf_capacity f). rewrite <- Hself.
      split; [done|]. split; [done|]. split; [done|]. split; [done|].
      exists (2 ^ (k + 1)). split; [by left|]. rewrite Z.pow_add_r, <- Hcap by lia. lia.
    + rewrite Hrun in Hsafe |- *. cbn [mbind option_bind].
      destruct (IH fuel fd size s1 bs1 e (with_buffer p (2 ^ (k + 1)) f) (k + 1))
        as (ok & s2 & bs2 & q & c & -> & Hinv2 & Habs2 & Hfile2 & Hok); try done; [lia|by rewrite Hf1|lia|].
      exists ok, s2, bs2, q, c. split; [done|]. split; [done|]. split; [congruence|]. split; [by rewrite Hfile2|].
      done.
Qed.
End growth.

(** ** Refinement *)

Section operations.
Implicit Types (s : ramfs) (f g : ramfile) (bs : list kheap_block) (e : Z).

(** The conditions under which the operations work: allocations do not meet
    a free block that is too tight to split, writes go to regular files, are
    shorter than 2^31 bytes and keep the file below 2^32 bytes. *)
Definition op_safe (fuel : nat) (op : fs_op) s : Prop :=
  match op with
  | OpCreate _ => roomy_heap (rheap s) 256
  | OpWrite fd d =>
      rf_dir (file s fd) = false /\ len d < 2 ^ 31 /\ rf_size (file s fd) + len d < 2 ^ 32 /\
      grow_safe GROW_TURNS fuel fd (len d) s
  | _ => True
  end.

Lemma free_slot_range s i : free_slot s = Some i -> 0 <= i < 64 /\ rf_in_use (file s i) = false.
Proof.
  intros H. apply find_first_Some in H as [Hi Hf]. apply elem_of_seqZ in Hi. unfold MAX_FILES in Hi.
  apply negb_true_iff in Hf. split; [lia|done].
Qed.

(** A slot that is not in use may change in any way. *)
Lemma frame_payload s bs e i h' f' :
  payload h' = payload (rheap s) -> ~ regular f' -> ramfs_inv s bs e -> frame s i bs bs h' f'.
Proof. intros Hp Hr _ j g Hg Hj Hreg. split; [done|]. split; [done|]. intros x _. by rewrite Hp. Qed.

Lemma create_refines fuel n s bs e :
  ramfs_inv s bs e -> e - heap_first (rheap s) < sizeof_block * Z.of_nat fuel -> roomy_heap (rheap s) 256 ->
  exists r s' bs', ramfs_create fuel n s = Some (r, s') /\ ramfs_inv s' bs' e /\
    spec_op (nomem s') (OpCreate n) (abs s) r (abs s').
Proof.
  intros Hinv Hfuel Hroom. pose proof (ri_heap _ _ _ Hinv) as Hwf. unfold ramfs_create.
  rewrite (ri_init _ _ _ Hinv). cbn [negb]. rewrite free_slot_abs.
  destruct (a_free_slot (abs s)) as [i|] eqn:Efree.
  2:{ exists (-1), s, bs. split; [done|]. split; [done|]. apply sp_create_full. by left. }
  pose proof Efree as Hi. rewrite <- free_slot_abs in Hi. apply free_slot_range in Hi as [Hi Hun].
  destruct (kmalloc_spec (rheap s) bs e 256 fuel Hwf) as (p & h1 & Hrun & Hres);
    [lia|lia|by apply (roomy_heap_inv _ _ _ _ Hwf)|by eapply length_fuel|].
  rewrite Hrun. cbn [mbind option_bind].
  destruct Hres as [(-> & -> & Hno)|(got & bs1 & Hwf1 & Hf1 & Hpay & _ & Hg & Hp1 & _ & Hperm & Hap)].
  - exists (-1). eexists _, bs. split; [done|].
    set (f' := with_buffer _ _ _). assert (Hr : ~ regular f') by (intros [Hr _]; cbn in Hr; congruence).
    assert (Hfr : frame s i bs bs (rheap s) f') by by apply (frame_payload s bs e).
    split; [apply (update_inv s bs e); try done; intros Hu; cbn in Hu; congruence|].
    rewrite (update_abs s bs e i f' (rheap s) bs Hinv Hi Hfr), abs_same; [|unfold abs_file, f'; cbn [rf_in_use with_buffer with_name]; by rewrite Hun|lia].
    apply sp_create_full. right. by exists bs, e.
  - rewrite (proj2 (Z.eqb_neq p 0)) by (destruct Hwf; unfold sizeof_block in *; lia).
    exists i. eexists _, bs1. split; [done|]. set (f' := RamFile _ _ _ _ _ _).
    assert (Hfr : frame s i bs bs1 h1 f').
    { intros j g Hg' Hj Hreg. destruct (regular_alloc _ _ _ _ _ Hinv Hg' Hreg) as (gg & Hgin & _ & Hgc & _).
      rewrite Forall_forall in Hap. specialize (Hap _ Hgin). unfold apart in Hap. cbn [fst snd] in Hap.
      split; [intros q Hq; rewrite Hperm; by right|]. split; [intros _; cbn; lia|]. intros x _. by rewrite Hpay. }
    split.
    + apply (update_inv s bs e); try done. intros _. unfold file_ok, f'. cbn [rf_dir rf_size rf_capacity rf_data].
      split; [lia|]. split; [exists 8; lia|]. exists got. rewrite Hf1, Hperm. split; [left|lia].
    + rewrite (update_abs s bs e i f' h1 bs1 Hinv Hi Hfr). by apply sp_create.
Qed.

Lemma mkdir_refines n s bs e :
  ramfs_inv s bs e -> exists r s', ramfs_mkdir n s = (r, s') /\ ramfs_inv s' bs e /\
    spec_op (nomem s') (OpMkdir n) (abs s) r (abs s').
Proof.
  intros Hinv. unfold ramfs_mkdir. rewrite (ri_init _ _ _ Hinv). cbn [negb]. rewrite free_slot_abs.
  destruct (a_free_slot (abs s)) as [i|] eqn:Efree; [|exists (-1), s; repeat split; try apply Hinv; by apply sp_mkdir_full].
  pose proof Efree as Hi. rewrite <- free_slot_abs in Hi. apply free_slot_range in Hi as [Hi Hun].
  eexists _, _. split; [done|]. set (f' := RamFile _ _ _ _ _ _).
  assert (Hfr : frame s i bs bs (rheap s) f') by (apply (frame_payload s bs e); [done|by intros [_ ?]|done]).
  replace (set_file i f' s) with (set_file i f' (set_rheap (rheap s) s)) by (by destruct s).
  split; [apply (update_inv s bs e); try done; apply Hinv|].
  rewrite (update_abs s bs e i f' (rheap s) bs Hinv Hi Hfr). by apply sp_mkdir.
Qed.

Lemma a_find_range n s i : a_find n (abs s) = Some i -> 0 <= i < 64 /\ rf_in_use (file s i) = true.
Proof.
  intros H. apply find_first_Some in H as [Hi Hf]. apply elem_of_seqZ in Hi. split; [lia|].
  unfold a_named in Hf. rewrite abs_get in Hf. unfold abs_file in Hf. by destruct (rf_in_use _).
Qed.

Lemma delete_refines fuel n s bs e :
  ramfs_inv s bs e -> e - heap_first (rheap s) < sizeof_block * Z.of_nat fuel ->
  exists r s' bs', ramfs_delete fuel n s = Some (r, s') /\ ramfs_inv s' bs' e /\
    spec_op (nomem s') (OpDelete n) (abs s) r (abs s').
Proof.
  intros Hinv Hfuel. unfold ramfs_delete. rewrite (ramfs_find_abs _ _ (ri_init _ _ _ Hinv)).
  destruct (a_find n (abs s)) as [i|] eqn:Efind; cbn [default].
  2:{ exists (-1), s, bs. split; [done|]. split; [done|]. by apply sp_delete_none. }
  destruct (a_find_range _ _ _ Efind) as [Hi Hu]. unfold id. rewrite (proj2 (Z.ltb_ge i 0)) by lia.
  set (f := file s i) in *. set (f' := RamFile _ _ _ _ _ _). assert (Hr : ~ regular f') by by intros [? _].
  pose proof (file_lookup _ _ _ i Hinv Hi) as Hlk. fold f in Hlk.
  destruct (rf_dir f) eqn:Ed.
  - pose proof (ri_file _ _ _ Hinv _ _ Hlk Hu) as Hok. unfold file_ok in Hok. rewrite Ed in Hok.
    destruct Hok as [H0 _]. rewrite H0. cbn [Z.eqb mbind option_bind].
    assert (Hfr : frame s i bs bs (rheap s) f') by by apply (frame_payload s bs e).
    exists 0, (set_file i f' (set_rheap (rheap s) s)), bs. split; [by destruct s|]. split.
    + apply (update_inv s bs e); try done. apply Hinv.
    + rewrite (update_abs s bs e i f' (rheap s) bs Hinv Hi Hfr). by apply sp_delete.
  - destruct (regular_alloc _ _ _ _ _ Hinv Hlk (conj Hu Ed)) as (got & Hin & _ & Hc & Hlo & _).
    pose proof (ri_heap _ _ _ Hinv) as Hwf.
    rewrite (proj2 (Z.eqb_neq (rf_data f) 0)) by (destruct Hwf; unfold sizeof_block in *; lia).
    destruct (kfree_spec (rheap s) bs e (rf_data f) got fuel)
      as (h' & bs' & Hfree & Hwf' & Hf' & Hperm & _ & _ & Hpay & _); [done|done| |].
    { pose proof (length_fuel _ _ _ _ Hinv Hfuel). lia. }
    rewrite Hfree. cbn [mbind option_bind].
    assert (Hfr : frame s i bs bs' h' f').
    { intros j g Hg Hj Hreg. split; [|split; [done|intros x _; by rewrite Hpay]]. intros q Hq.
      rewrite Hperm in Hq. apply elem_of_cons in Hq as [Hq|Hq]; [|done]. exfalso. injection Hq as Hq _.
      by apply (ri_apart _ _ _ Hinv j (Z.to_nat i) g f). }
    exists 0, (set_file i f' (set_rheap h' s)), bs'. split; [done|]. split.
    + by apply (update_inv s bs e).
    + rewrite (update_abs s bs e i f' h' bs' Hinv Hi Hfr). by apply sp_delete.
Qed.

(** Appending within the capacity. *)
Lemma append_refines fd s bs e f d :
  ramfs_inv s bs e -> 0 <= fd < 64 -> file s fd = f -> regular f -> rf_size f + len d <= rf_capacity f ->
  let h' := set_payload (write_payload (rf_data f) (rf_size f) d (payload (rheap s))) (rheap s) in
  let s' := set_file fd (with_rsize (u32 (rf_size f + len d)) f) (set_rheap h' s) in
  ramfs_inv s' bs e /\
  abs s' = arr_set (abs s) fd (Some (AFile (rf_name f) false (contents (payload (rheap s)) f ++ d))).
Proof.
  intros Hinv Hfd Hf Hreg Hfit h' s'. pose proof (file_lookup _ _ _ fd Hinv Hfd) as Hlk. rewrite Hf in Hlk.
  destruct (regular_alloc _ _ _ _ _ Hinv Hlk Hreg) as (got & Hin & Hsz & Hc & Hlo & Hhi).
  pose proof (ri_file _ _ _ Hinv _ _ Hlk (proj1 Hreg)) as Hok. unfold file_ok in Hok.
  destruct Hreg as [Hu Hd]. rewrite Hd in Hok. destruct Hok as (_ & (k & Hk & Hcap) & _).
  assert (Hlt : rf_capacity f <= 2 ^ 31) by (rewrite Hcap; apply Z.pow_le_mono_r; lia).
  assert (Hpay : forall x, byte_at (payload h') x =
    if (rf_data f + rf_size f <=? x) && (x <? rf_data f + rf_size f + len d)
    then arr_get 0 d (x - (rf_data f + rf_size f)) else byte_at (payload (rheap s)) x).
  { intros x. cbn [payload h' set_payload]. rewrite write_payload_store by lia. apply store_bytes_at. }
  assert (Hsize : u32 (rf_size f + len d) = rf_size f + len d) by (apply u32_id; unfold is_u32; lia).
  assert (Hfr : frame s fd bs bs h' (with_rsize (u32 (rf_size f + len d)) f)).
  { intros j g Hg Hj Hrg. destruct (regular_alloc _ _ _ _ _ Hinv Hg Hrg) as (gg & Hgin & Hgs & Hgc & _).
    assert (Hne : rf_data g <> rf_data f) by by apply (ri_apart _ _ _ Hinv j (Z.to_nat fd)).
    pose proof (allocs_apart_ne _ _ _ _ _ _ _ (ri_heap _ _ _ Hinv) Hin Hgin (not_eq_sym Hne)) as Hap.
    unfold apart in Hap. cbn [fst snd] in Hap. split; [done|]. split; [done|]. intros x Hx. rewrite Hpay.
    destruct (_ && _) eqn:E; [zbool; lia|done]. }
  split.
  - apply (update_inv s bs e); try done; [apply heap_wf_set_payload, Hinv|]. intros _.
    unfold file_ok, with_rsize. cbn [rf_dir rf_size rf_capacity rf_data]. rewrite Hd, Hsize.
    split; [lia|]. split; [by exists k|]. exists got. split; [done|lia].
  - unfold s'. rewrite (update_abs s bs e fd _ h' bs Hinv Hfd Hfr). f_equal.
    unfold abs_file, with_rsize. cbn [rf_in_use rf_name rf_dir]. rewrite Hu, Hd. do 2 f_equal.
    unfold contents. cbn [rf_data rf_size]. rewrite Hsize, load_bytes_app by lia. f_equal.
    + apply load_bytes_ext. intros i Hi. rewrite Hpay. destruct (_ && _) eqn:E; [zbool; lia|done].
    + cbn [payload h' set_payload]. rewrite write_payload_store by lia. apply load_stored.
Qed.

Lemma write_refines fuel fd d s bs e :
  ramfs_inv s bs e -> e - heap_first (rheap s) < sizeof_block * Z.of_nat fuel - sizeof_block ->
  op_safe fuel (OpWrite fd d) s ->
  exists r s' bs', ramfs_write fuel fd d s = Some (r, s') /\ ramfs_inv s' bs' e /\
    spec_op (nomem s') (OpWrite fd d) (abs s) r (abs s').
Proof.
  intros Hinv Hfuel (Hdir & Hd31 & Hsum & Hsafe). unfold ramfs_write, bad_fd.
  destruct ((fd <? 0) || (MAX_FILES <=? fd) || negb (rf_in_use (file s fd))) eqn:Ebad.
  { exists (-1), s, bs. split; [done|]. split; [done|]. apply sp_write_bad. unfold MAX_FILES in Ebad.
    rewrite abs_get. unfold abs_file. zbool. destruct Ebad as [Ebad|Ebad]; [zbool; lia|]. zbool. rewrite Ebad. auto. }
  unfold MAX_FILES in Ebad. zbool. set (f := file s fd) in *.
  assert (Hreg : regular f) by done. assert (Hfd : 0 <= fd < 64) by lia.
  pose proof (file_lookup _ _ _ fd Hinv Hfd) as Hlk.
  pose proof (ri_file _ _ _ Hinv _ _ Hlk (proj1 Hreg)) as Hok. unfold file_ok in Hok. fold f in Hok.
  rewrite Hdir in Hok. destruct Hok as (_ & (k & Hk & Hcap) & _).
  destruct (grow_spec GROW_TURNS fuel fd (len d) s bs e f k)
    as (ok & s1 & bs1 & p & c & -> & Hinv1 & Habs & Hfile & Hok); try done; [unfold GROW_TURNS; lia|lia|].
  assert (Hget : arr_get None (abs s) fd = Some (AFile (rf_name f) false (contents (payload (rheap s)) f))).
  { rewrite abs_get. unfold abs_file. fold f. by rewrite (proj1 Hreg), Hdir. }
  assert (Hlen : len (contents (payload (rheap s)) f) = rf_size f).
  { apply length_load_bytes. destruct (regular_alloc _ _ _ _ _ Hinv Hlk Hreg) as (? & _ & Hs & _). fold f in Hs. lia. }
  cbn [mbind option_bind]. destruct ok; cbn [negb].
  - rewrite Hfile. cbn [rf_data rf_size with_buffer].
    destruct (append_refines fd s1 bs1 e (with_buffer p c f) d Hinv1 Hfd Hfile) as [Hi2 Ha2]; [done|done|].
    cbn [rf_data rf_size with_buffer rf_name] in Hi2, Ha2. eexists _, _, bs1. split; [done|]. split; [exact Hi2|].
    rewrite Ha2, Habs, i32_id by lia.
    assert (Hc1 : contents (payload (rheap s1)) (with_buffer p c f) = contents (payload (rheap s)) f).
    { assert (E : arr_get None (abs s1) fd = arr_get None (abs s) fd) by by rewrite Habs.
      rewrite Hget, abs_get, Hfile in E. unfold abs_file in E. cbn [rf_in_use rf_name rf_dir with_buffer] in E.
      rewrite (proj1 Hreg), Hdir in E. by injection E. }
    rewrite Hc1. by apply sp_write.
  - destruct Hok as (n & Hn & Hn'). exists (-1), s1, bs1. split; [done|]. split; [done|]. rewrite Habs.
    apply (sp_write_full _ fd d _ (rf_name f) (contents (payload (rheap s)) f) n); rewrite ?Hlen; done || lia.
Qed.

(** ** Reading *)

Definition a_read (fd size off : Z) (t : atable) : list Z * Z :=
  match (if (fd <? 0) || (64 <=? fd) then None else arr_get None t fd) with
  | None => ([], -1)
  | Some f => let out := take (Z.to_nat size) (drop (Z.to_nat off) (a_data f)) in (out, len out)
  end.

Lemma read_abs fd size off s bs e :
  ramfs_inv s bs e -> 0 <= size < 2 ^ 31 -> 0 <= off < 2 ^ 32 -> off + size < 2 ^ 32 ->
  ramfs_read fd size off s = a_read fd size off (abs s).
Proof.
  intros Hinv Hs Ho Hso. unfold ramfs_read, a_read, bad_fd. rewrite abs_get. unfold abs_file, MAX_FILES.
  destruct ((fd <? 0) || (64 <=? fd)) eqn:E; cbn [orb]; [done|]. zbool.
  destruct (rf_in_use (file s fd)) eqn:Hu; cbn [negb]; [|done]. set (f := file s fd) in *.
  assert (Hfd : 0 <= fd < 64) by lia. pose proof (file_lookup _ _ _ fd Hinv Hfd) as Hlk. fold f in Hlk.
  assert (Hsz : 0 <= rf_size f < 2 ^ 32).
  { pose proof (ri_file _ _ _ Hinv _ _ Hlk Hu) as Hok. unfold file_ok in Hok.
    destruct (rf_dir f); [lia|]. destruct Hok as (H1 & (k & Hk & Hc) & _).
    assert (2 ^ k <= 2 ^ 31) by (apply Z.pow_le_mono_r; lia). lia. }
  cbn [a_data]. pose proof (length_load_bytes (payload (rheap s)) (rf_data f) (rf_size f) ltac:(lia)) as Hl.
  fold (contents (payload (rheap s)) f) in Hl. destruct (Z.leb_spec (rf_size f) off) as [Hge|Hlt].
  { rewrite drop_ge by lia. by rewrite take_nil. }
  rewrite !u32_id by (unfold is_u32; lia).
  set (n := if rf_size f <? off + size then rf_size f - off else size).
  assert (Hn : 0 <= n < 2 ^ 31 /\ n = Z.min size (rf_size f - off)) by (unfold n; if_all; lia).
  rewrite i32_id by lia. f_equal; [|rewrite length_take, length_drop; lia].
  apply list_eq. intros j. rewrite list_lookup_fmap. destruct (decide (Z.of_nat j < n)).
  - rewrite lookup_seqZ_lt, lookup_take_lt, lookup_drop by lia. unfold contents, load_bytes.
    rewrite list_lookup_fmap, lookup_seqZ_lt by lia. cbn [fmap option_fmap option_map].
    rewrite u32_id by (unfold is_u32; lia). do 2 f_equal. lia.
  - rewrite lookup_seqZ_ge by lia. symmetry. apply lookup_ge_None. rewrite length_take, length_drop. lia.
Qed.

End operations.

(** ** Witness *)

Module Examples.
(** A file with a 256-byte buffer, holding one byte, on a heap of 4 KiB. *)
Abbreviation blocks := [KBlock 65816 256 KHEAP_ALLOCATED KHEAP_MAGIC; KBlock 0 3792 KHEAP_FREE KHEAP_MAGIC].
Abbreviation heap1 := (KHeap {[65536 := KBlock 65816 256 KHEAP_ALLOCATED KHEAP_MAGIC;
  65816 := KBlock 0 3792 KHEAP_FREE KHEAP_MAGIC]} 65536 256 3792 {[65560 := 7]}).
Abbreviation s1 := (Ramfs (RamFile [ch "/"] 0 0 0 true true :: RamFile (zs "a.txt") 65560 1 256 false true
  :: replicate 62 no_file) true heap1).

Lemma heap1_wf : heap_wf heap1 blocks 69632.
Proof. repeat split; try (by vm_compute); by (left + right). Qed.

Lemma example_inv : ramfs_inv s1 blocks 69632.
Proof.
  split; [done|done|apply heap1_wf| |].
  - intros [|[|i]] f Hf Hu; cbn -[replicate] in Hf; [by simplify_eq| |].
    + injection Hf as <-. split; [cbn; lia|]. split; [by exists 8|]. exists 256. split; [left|cbn; lia].
    + apply lookup_replicate in Hf as [-> _]. done.
  - intros [|[|i]] [|[|j]] f g Hf Hg Hne [Hu Hd] [Hu' Hd']; cbn -[replicate] in Hf, Hg; try done; try (by simplify_eq);
      (apply lookup_replicate in Hf as [-> _] || apply lookup_replicate in Hg as [-> _]); done.
Qed.

End Examples.
