(* ===== verification/Vfs.v ===== *)
(** * Virtual filesystem layer (src/src/fs/vfs.c)

    Mount table, node pool, descriptor tables, pipes, the console device and
    the adapters to the RAM filesystem and to the virtual files.  The virtual
    files (vfile.c) and a filesystem mounted from outside (fs_vfs.c) are the
    class [VfsBackend]; a virtual file may itself use the layer, so its
    operations act on the whole state, and generating its text may not
    return ([None]).  Vfile.v gives the instance for vfile.c. *)

From S2P Require Import Prelude KHeap KString Ramfs.

Definition MAX_VFS_NODES : Z := 128.
Definition VFS_MAX_FDS : Z := 32.
Definition VFS_MAX_MOUNTS : Z := 8.
Definition VFS_MAX_PATH : Z := 256.
Definition VFS_TYPE_FILE : Z := 1.
Definition VFS_TYPE_DEVICE : Z := 3.
Definition VFS_TYPE_PIPE_READ : Z := 4.
Definition VFS_TYPE_PIPE_WRITE : Z := 5.
Definition VFS_O_RDONLY : Z := 0.
Definition VFS_O_WRONLY : Z := 1.
Definition VFS_O_CREAT : Z := 4.
Definition VFS_SEEK_SET : Z := 0.
Definition VFS_SEEK_CUR : Z := 1.
Definition VFS_SEEK_END : Z := 2.
Definition VFILE_VFS_OPEN_MAX : Z := 8.
Definition VFS_PIPE_BUF_SIZE : Z := 4096.
Definition VFS_MAX_PIPES : Z := 16.
Definition sizeof_fd_table : Z := 264.

(** The operation tables; [mounted_ops] is one registered from outside. *)
Inductive vfs_ops : Type :=
  | ramfs_vfs_ops | vfile_vfs_ops | pipe_read_vfs_ops | pipe_write_vfs_ops | console_vfs_ops | mounted_ops.

Record vfs_mount : Type := VfsMount { m_path : cstring; m_ops : option vfs_ops; m_active : bool }.
Record vfs_node : Type := VfsNode {
  n_type : Z; internal_fd : Z; n_ops : option vfs_ops; n_offset : Z; n_size : Z; ref_count : Z; n_flags : Z
}.
(** Slots hold node indices. *)
Record fd_table : Type := FdTable { fds : list (option Z); t_count : Z }.
Record vfile_open_slot : Type := VfileOpen { vo_path : cstring; vo_used : bool }.
Record vfs_pipe_t : Type := VfsPipe {
  p_buf : list Z; p_head : Z; p_tail : Z; p_count : Z; readers : Z; writers : Z; pipe_in_use : bool
}.

(** [cur_proc] is the descriptor table of the current process, [Some 0] when it
    has none yet and [None] when no process is current. *)
Record vfs (E : Type) : Type := Vfs {
  mounts : list vfs_mount;
  node_pool : list vfs_node;
  fd_tables : gmap Z fd_table;
  cur_proc : option Z;
  vfile_opens : list vfile_open_slot;
  pipes : list vfs_pipe_t;
  console : list Z;
  rfs : ramfs;
  env : E
}.
Arguments Vfs {E}.
Arguments mounts {E}.
Arguments node_pool {E}.
Arguments fd_tables {E}.
Arguments cur_proc {E}.
Arguments vfile_opens {E}.
Arguments pipes {E}.
Arguments console {E}.
Arguments rfs {E}.
Arguments env {E}.

Section setters.
Context {E : Type}.
Implicit Types (s : vfs E).
Definition set_mounts (x : list vfs_mount) s : vfs E :=
  Vfs x (node_pool s) (fd_tables s) (cur_proc s) (vfile_opens s) (pipes s) (console s) (rfs s) (env s).
Definition set_node_pool (x : list vfs_node) s : vfs E :=
  Vfs (mounts s) x (fd_tables s) (cur_proc s) (vfile_opens s) (pipes s) (console s) (rfs s) (env s).
Definition set_fd_tables (x : gmap Z fd_table) s : vfs E :=
  Vfs (mounts s) (node_pool s) x (cur_proc s) (vfile_opens s) (pipes s) (console s) (rfs s) (env s).
Definition set_cur_proc (x : option Z) s : vfs E :=
  Vfs (mounts s) (node_pool s) (fd_tables s) x (vfile_opens s) (pipes s) (console s) (rfs s) (env s).
Definition set_vfile_opens (x : list vfile_open_slot) s : vfs E :=
  Vfs (mounts s) (node_pool s) (fd_tables s) (cur_proc s) x (pipes s) (console s) (rfs s) (env s).
Definition set_pipes (x : list vfs_pipe_t) s : vfs E :=
  Vfs (mounts s) (node_pool s) (fd_tables s) (cur_proc s) (vfile_opens s) x (console s) (rfs s) (env s).
Definition set_console (x : list Z) s : vfs E :=
  Vfs (mounts s) (node_pool s) (fd_tables s) (cur_proc s) (vfile_opens s) (pipes s) x (rfs s) (env s).
Definition set_rfs (x : ramfs) s : vfs E :=
  Vfs (mounts s) (node_pool s) (fd_tables s) (cur_proc s) (vfile_opens s) (pipes s) (console s) x (env s).
Definition set_env (x : E) s : vfs E :=
  Vfs (mounts s) (node_pool s) (fd_tables s) (cur_proc s) (vfile_opens s) (pipes s) (console s) (rfs s) x.
End setters.

Definition no_node : vfs_node := VfsNode 0 0 None 0 0 0 0.
Definition no_pipe : vfs_pipe_t := VfsPipe [] 0 0 0 0 0 false.
Definition no_table : fd_table := FdTable [] 0.
(** Stands for the address of the static table. *)
Definition kernel_fd_table : Z := -1.

Class VfsBackend (E : Type) : Type := {
  vfile_exists : cstring -> vfs E -> bool;
  vfile_read : cstring -> vfs E -> option (list Z * Z * vfs E);
  vfile_write : cstring -> list Z -> vfs E -> Z * vfs E;
  mnt_open : cstring -> Z -> E -> Z * E;
  mnt_close : Z -> E -> Z * E;
  mnt_read : Z -> Z -> Z -> E -> list Z * Z * E;
  mnt_write : Z -> list Z -> E -> Z * E;
  mnt_mkdir : cstring -> E -> Z * E;
  mnt_unlink : cstring -> E -> Z * E;
  mnt_list : E -> list (cstring * bool * Z);
  mnt_size : Z -> E -> Z
}.

Section layer.
Context {E : Type} `{VfsBackend E} (fuel : nat).
Implicit Types (s : vfs E).

Definition node s (n : Z) : vfs_node := arr_get no_node (node_pool s) n.
Definition set_node (n : Z) (x : vfs_node) s : vfs E := set_node_pool (arr_set (node_pool s) n x) s.
Definition table s (t : Z) : fd_table := default no_table (fd_tables s !! t).
Definition set_table (t : Z) (x : fd_table) s : vfs E := set_fd_tables (<[t := x]> (fd_tables s)) s.
Definition pipe s (i : Z) : vfs_pipe_t := arr_get no_pipe (pipes s) i.
Definition set_pipe (i : Z) (p : vfs_pipe_t) s : vfs E := set_pipes (arr_set (pipes s) i p) s.
Definition with_ref (r : Z) (x : vfs_node) : vfs_node :=
  VfsNode (n_type x) (internal_fd x) (n_ops x) (n_offset x) (n_size x) r (n_flags x).
Definition with_offset (o sz : Z) (x : vfs_node) : vfs_node :=
  VfsNode (n_type x) (internal_fd x) (n_ops x) o sz (ref_count x) (n_flags x).

Definition get_current_fd_table s : Z :=
  match cur_proc s with
  | Some t => if t =? 0 then kernel_fd_table else t
  | None => kernel_fd_table
  end.

(** ** Virtual file adapter *)

Definition vfile_slot s (i : Z) : vfile_open_slot := arr_get (VfileOpen [] false) (vfile_opens s) i.

Definition vfile_vfs_open (path : cstring) (flags : Z) s : Z * vfs E :=
  if negb (flags .& VFS_O_CREAT =? 0) then (-1, s)
  else if negb (vfile_exists path s) then (-1, s)
  else match find_first (fun i => negb (vo_used (vfile_slot s i))) (seqZ 0 VFILE_VFS_OPEN_MAX) with
  | Some i => (i, set_vfile_opens (arr_set (vfile_opens s) i
                    (VfileOpen (take (Z.to_nat (VFS_MAX_PATH - 1)) path) true)) s)
  | None => (-1, s)
  end.

Definition vfile_vfs_close (ifd : Z) s : Z * vfs E :=
  if (ifd <? 0) || (VFILE_VFS_OPEN_MAX <=? ifd) then (-1, s)
  else (0, set_vfile_opens (arr_set (vfile_opens s) ifd (VfileOpen (vo_path (vfile_slot s ifd)) false)) s).

Definition vfile_bad (ifd : Z) s : bool :=
  (ifd <? 0) || (VFILE_VFS_OPEN_MAX <=? ifd) || negb (vo_used (vfile_slot s ifd)).

Definition vfile_vfs_read (ifd size offset : Z) s : option (list Z * Z * vfs E) :=
  if vfile_bad ifd s then Some ([], -1, s)
  else
    '(scratch, total, s) ← vfile_read (vo_path (vfile_slot s ifd)) s;
    if total <? 0 then Some ([], -1, s)
    else if total <=? offset then Some ([], 0, s)
    else
      let avail := total - offset in
      let n := if size <? avail then size else avail in
      Some (take (Z.to_nat n) (drop (Z.to_nat offset) scratch), i32 n, s).

Definition vfile_vfs_write (ifd : Z) (buf : list Z) s : Z * vfs E :=
  if vfile_bad ifd s then (-1, s) else vfile_write (vo_path (vfile_slot s ifd)) buf s.

Definition self_fd_prefix : cstring := zs "/0/system/self/fd/".

Definition vfile_vfs_size (ifd : Z) s : option (Z * vfs E) :=
  if vfile_bad ifd s then Some (0, s)
  else
    let path := vo_path (vfile_slot s ifd) in
    if k_strncmp path self_fd_prefix (Z.to_nat (k_strlen self_fd_prefix)) =? 0 then Some (0, s)
    else
      '(_, total, s) ← vfile_read path s;
      Some (if total <? 0 then 0 else total, s).

(** ** Mount lookup *)

Definition root_mount (m : vfs_mount) : bool := m_active m && bool_decide (m_path m = [ch "/"]).

(** One candidate of the longest-prefix search: [best] and [best_len] so far. *)
Definition prefix_step (path : cstring) (acc : option vfs_mount * Z) (m : vfs_mount) : option vfs_mount * Z :=
  let '(best, best_len) := acc in
  if negb (m_active m) then acc
  else
    let n := k_strlen (m_path m) in
    if n <? best_len then acc
    else if negb (k_strncmp path (m_path m) (Z.to_nat n) =? 0) then acc
    else if (1 <? n) && negb (char_at path n =? 0) && negb (char_at path n =? ch "/") then acc
    else (Some m, n).

Definition find_mount (path : cstring) s : option vfs_mount :=
  if negb (char_at path 0 =? ch "/") then find_first root_mount (mounts s)
  else (foldl (prefix_step path) (None, 0) (mounts s)).1.

Definition find_ops (path : cstring) s : option vfs_ops :=
  m ← find_mount path s; Some (default vfile_vfs_ops (m_ops m)).

(** ** Node pool *)

Definition alloc_node s : option Z * vfs E :=
  match find_first (fun i => (ref_count (node s i) =? 0) && bool_decide (n_ops (node s i) = None))
          (seqZ 0 MAX_VFS_NODES) with
  | Some i => (Some i, set_node i (with_ref 1 (node s i)) s)
  | None => (None, s)
  end.

Definition free_node (n : Z) s : vfs E := set_node n (VfsNode 0 (-1) None 0 0 0 0) s.

(** ** RAM filesystem adapter *)

Fixpoint ramfs_strip_slash (path : cstring) : cstring :=
  match path with c :: path' => if c =? ch "/" then ramfs_strip_slash path' else path | [] => [] end.

Definition ramfs_vfs_open (path : cstring) (flags : Z) s : option (Z * vfs E) :=
  let name := ramfs_strip_slash path in
  match name with
  | [] => Some (-1, s)
  | _ =>
      let fd := ramfs_find name (rfs s) in
      if negb (flags .& VFS_O_CREAT =? 0) && (fd <? 0) then
        '(fd, r) ← ramfs_create fuel name (rfs s); Some (fd, set_rfs r s)
      else Some (fd, s)
  end.

Definition ramfs_vfs_read (ifd size offset : Z) s : list Z * Z := ramfs_read ifd (u32 size) (u32 offset) (rfs s).
Definition ramfs_vfs_write (ifd : Z) (buf : list Z) s : option (Z * vfs E) :=
  '(r, f) ← ramfs_write fuel ifd (take (Z.to_nat (u32 (len buf))) buf) (rfs s); Some (r, set_rfs f s).
Definition ramfs_vfs_mkdir (path : cstring) s : Z * vfs E :=
  let '(r, f) := ramfs_mkdir (ramfs_strip_slash path) (rfs s) in (r, set_rfs f s).
Definition ramfs_vfs_unlink (path : cstring) s : option (Z * vfs E) :=
  '(r, f) ← ramfs_delete fuel (ramfs_strip_slash path) (rfs s); Some (r, set_rfs f s).
Definition ramfs_vfs_list s : list (cstring * bool * Z) := ramfs_list (rfs s).
Definition ramfs_vfs_size (ifd : Z) s : Z := i32 (ramfs_size ifd (rfs s)).

(** ** Pipes *)

Definition pipe_alloc_index s : option Z :=
  find_first (fun i => negb (pipe_in_use (pipe s i))) (seqZ 0 VFS_MAX_PIPES).

Definition pipe_bad (i : Z) s : bool := (i <? 0) || (VFS_MAX_PIPES <=? i) || negb (pipe_in_use (pipe s i)).

(** Reading and writing one ring buffer. *)
Definition ring_read (size : Z) (p : vfs_pipe_t) : list Z * vfs_pipe_t :=
  let n := if size <? p_count p then size else p_count p in
  ((fun i => arr_get 0 (p_buf p) ((p_tail p + i) mod VFS_PIPE_BUF_SIZE)) <$> seqZ 0 n,
   VfsPipe (p_buf p) (p_head p) ((p_tail p + n) mod VFS_PIPE_BUF_SIZE) (p_count p - n)
     (readers p) (writers p) (pipe_in_use p)).

Definition ring_store (buf : list Z) (head n : Z) (src : list Z) : list Z :=
  foldl (fun b i => arr_set b ((head + i) mod VFS_PIPE_BUF_SIZE) (arr_get 0 src i)) buf (seqZ 0 n).

Definition ring_write (src : list Z) (p : vfs_pipe_t) : Z * vfs_pipe_t :=
  let space := VFS_PIPE_BUF_SIZE - p_count p in
  let n := if space <? len src then space else len src in
  (n, VfsPipe (ring_store (p_buf p) (p_head p) n src) ((p_head p + n) mod VFS_PIPE_BUF_SIZE) (p_tail p)
        (p_count p + n) (readers p) (writers p) (pipe_in_use p)).

Definition pipe_vfs_read (i size : Z) s : list Z * Z * vfs E :=
  if pipe_bad i s then ([], -1, s)
  else if size =? 0 then ([], 0, s)
  else if p_count (pipe s i) =? 0 then ([], 0, s)
  else let '(out, p) := ring_read size (pipe s i) in (out, len out, set_pipe i p s).

Definition pipe_vfs_write (i : Z) (buf : list Z) s : Z * vfs E :=
  if pipe_bad i s then (-1, s)
  else if len buf =? 0 then (0, s)
  else if VFS_PIPE_BUF_SIZE <=? p_count (pipe s i) then (0, s)
  else let '(n, p) := ring_write buf (pipe s i) in (n, set_pipe i p s).

Definition set_ends (r w : Z) (p : vfs_pipe_t) : vfs_pipe_t :=
  VfsPipe (p_buf p) (p_head p) (p_tail p) (p_count p) r w (pipe_in_use p && negb ((r <=? 0) && (w <=? 0))).

Definition pipe_vfs_close_read (i : Z) s : Z * vfs E :=
  if pipe_bad i s then (-1, s)
  else (0, set_pipe i (set_ends (readers (pipe s i) - 1) (writers (pipe s i)) (pipe s i)) s).
Definition pipe_vfs_close_write (i : Z) s : Z * vfs E :=
  if pipe_bad i s then (-1, s)
  else (0, set_pipe i (set_ends (readers (pipe s i)) (writers (pipe s i) - 1) (pipe s i)) s).

(** ** Console *)

Definition console_vfs_read (ifd size offset : Z) s : list Z * Z := ([], 0).
Definition console_vfs_write (ifd : Z) (buf : list Z) s : Z * vfs E := (i32 (len buf), set_console (console s ++ buf) s).

(** ** Dispatch through an operation table; [None]: the entry is NULL *)

Definition ops_open (o : vfs_ops) : option (cstring -> Z -> vfs E -> option (Z * vfs E)) :=
  match o with
  | ramfs_vfs_ops => Some ramfs_vfs_open
  | vfile_vfs_ops => Some (fun p f s => Some (vfile_vfs_open p f s))
  | mounted_ops => Some (fun p f s => let '(r, e) := mnt_open p f (env s) in Some (r, set_env e s))
  | _ => None
  end.
Definition ops_close (o : vfs_ops) : option (Z -> vfs E -> Z * vfs E) :=
  match o with
  | ramfs_vfs_ops => Some (fun _ s => (0, s))
  | vfile_vfs_ops => Some vfile_vfs_close
  | pipe_read_vfs_ops => Some pipe_vfs_close_read
  | pipe_write_vfs_ops => Some pipe_vfs_close_write
  | mounted_ops => Some (fun i s => let '(r, e) := mnt_close i (env s) in (r, set_env e s))
  | console_vfs_ops => None
  end.
Definition ops_read (o : vfs_ops) : option (Z -> Z -> Z -> vfs E -> option (list Z * Z * vfs E)) :=
  match o with
  | ramfs_vfs_ops => Some (fun i n off s => Some (ramfs_vfs_read i n off s, s))
  | vfile_vfs_ops => Some vfile_vfs_read
  | pipe_read_vfs_ops => Some (fun i n _ s => Some (pipe_vfs_read i n s))
  | console_vfs_ops => Some (fun i n off s => Some (console_vfs_read i n off s, s))
  | mounted_ops => Some (fun i n off s => let '(out, r, e) := mnt_read i n off (env s) in Some (out, r, set_env e s))
  | pipe_write_vfs_ops => None
  end.
Definition ops_write (o : vfs_ops) : option (Z -> list Z -> vfs E -> option (Z * vfs E)) :=
  match o with
  | ramfs_vfs_ops => Some ramfs_vfs_write
  | vfile_vfs_ops => Some (fun i b s => Some (vfile_vfs_write i b s))
  | pipe_write_vfs_ops => Some (fun i b s => Some (pipe_vfs_write i b s))
  | console_vfs_ops => Some (fun i b s => Some (console_vfs_write i b s))
  | mounted_ops => Some (fun i b s => let '(r, e) := mnt_write i b (env s) in Some (r, set_env e s))
  | pipe_read_vfs_ops => None
  end.
Definition ops_mkdir (o : vfs_ops) : option (cstring -> vfs E -> Z * vfs E) :=
  match o with
  | ramfs_vfs_ops => Some ramfs_vfs_mkdir
  | mounted_ops => Some (fun p s => let '(r, e) := mnt_mkdir p (env s) in (r, set_env e s))
  | _ => None
  end.
Definition ops_unlink (o : vfs_ops) : option (cstring -> vfs E -> option (Z * vfs E)) :=
  match o with
  | ramfs_vfs_ops => Some ramfs_vfs_unlink
  | mounted_ops => Some (fun p s => let '(r, e) := mnt_unlink p (env s) in Some (r, set_env e s))
  | _ => None
  end.
Definition ops_list (o : vfs_ops) : option (vfs E -> list (cstring * bool * Z)) :=
  match o with
  | ramfs_vfs_ops => Some ramfs_vfs_list
  | mounted_ops => Some (fun s => mnt_list (env s))
  | _ => None
  end.
Definition ops_size (o : vfs_ops) : option (Z -> vfs E -> option (Z * vfs E)) :=
  match o with
  | ramfs_vfs_ops => Some (fun i s => Some (ramfs_vfs_size i s, s))
  | vfile_vfs_ops => Some vfile_vfs_size
  | mounted_ops => Some (fun i s => Some (mnt_size i (env s), s))
  | _ => None
  end.

(** ** Descriptor tables *)

Definition slot (t fd : Z) s : option Z := arr_get None (fds (table s t)) fd.
Definition put_slot (t fd : Z) (x : option Z) (d : Z) s : vfs E :=
  set_table t (FdTable (arr_set (fds (table s t)) fd x) (t_count (table s t) + d)) s.
Definition add_ref (n d : Z) s : vfs E := set_node n (with_ref (ref_count (node s n) + d) (node s n)) s.

Definition fd_table_alloc (t n : Z) s : Z * vfs E :=
  match find_first (fun i => bool_decide (slot t i s = None)) (seqZ 0 VFS_MAX_FDS) with
  | Some i => (i, add_ref n 1 (put_slot t i (Some n) 1 s))
  | None => (-1, s)
  end.

Definition fd_table_get (t fd : Z) s : option Z :=
  if (fd <? 0) || (VFS_MAX_FDS <=? fd) then None else slot t fd s.

(** Drops one reference to a node; the last one closes it. *)
Definition drop_ref (n : Z) s : vfs E :=
  let s := add_ref n (-1) s in
  if ref_count (node s n) <=? 0 then
    let s := match n_ops (node s n) with
             | Some o => match ops_close o with
                         | Some close => (close (internal_fd (node s n)) s).2
                         | None => s
                         end
             | None => s
             end in
    free_node n s
  else s.

Definition fd_table_close (t fd : Z) s : Z * vfs E :=
  match fd_table_get t fd s with
  | None => (-1, s)
  | Some n => (0, put_slot t fd None (-1) (drop_ref n s))
  end.

Definition empty_table : fd_table := FdTable (replicate (Z.to_nat VFS_MAX_FDS) None) 0.

Fixpoint install_std (t : Z) (todo : list Z) s : vfs E :=
  match todo with
  | [] => s
  | fd :: todo' =>
      match alloc_node s with
      | (None, s) => s
      | (Some n, s) =>
          let s := set_node n (VfsNode VFS_TYPE_DEVICE fd (Some console_vfs_ops) 0 0 1
                     (if fd =? 0 then VFS_O_RDONLY else VFS_O_WRONLY)) s in
          install_std t todo' (put_slot t fd (Some n) 1 s)
      end
  end.
Definition fd_table_install_std (t : Z) s : vfs E := install_std t [0; 1; 2] s.

Definition vheap s : kheap := rheap (rfs s).
Definition set_vheap (h : kheap) s : vfs E := set_rfs (set_rheap h (rfs s)) s.

Definition fd_table_create s : option (Z * vfs E) :=
  '(p, h) ← kmalloc fuel sizeof_fd_table (vheap s);
  let s := set_vheap h s in
  if p =? 0 then Some (0, s)
  else Some (p, fd_table_install_std p (set_table p empty_table s)).

Definition destroy_slot (t : Z) s (fd : Z) : vfs E :=
  match slot t fd s with
  | None => s
  | Some n => put_slot t fd None 0 (drop_ref n s)
  end.
Definition drop_slots (t : Z) s : vfs E := foldl (destroy_slot t) s (seqZ 0 VFS_MAX_FDS).
Definition fd_table_destroy (t : Z) s : option (vfs E) :=
  if t =? 0 then Some s
  else
    let s := drop_slots t s in
    h ← kfree fuel t (vheap s);
    Some (set_fd_tables (delete t (fd_tables s)) (set_vheap h s)).

Definition clone_slot (src dst : Z) s (fd : Z) : vfs E :=
  match slot src fd s with
  | None => s
  | Some n => add_ref n 1 (put_slot dst fd (Some n) 1 s)
  end.
Definition fd_table_clone (src : Z) s : option (Z * vfs E) :=
  '(p, h) ← kmalloc fuel sizeof_fd_table (vheap s);
  let s := set_vheap h s in
  if p =? 0 then Some (0, s)
  else Some (p, foldl (clone_slot src p) (set_table p empty_table s) (seqZ 0 VFS_MAX_FDS)).

(** ** The interface *)

Definition vfs_pipe s : Z * option (Z * Z) * vfs E :=
  match pipe_alloc_index s with
  | None => (-1, None, s)
  | Some idx =>
      let s := set_pipe idx (VfsPipe (p_buf (pipe s idx)) 0 0 0 1 1 true) s in
      let unuse s := let p := pipe s idx in
        set_pipe idx (VfsPipe (p_buf p) (p_head p) (p_tail p) (p_count p) (readers p) (writers p) false) s in
      let '(r, s) := alloc_node s in
      let '(w, s) := alloc_node s in
      match r, w with
      | Some rn, Some wn =>
          let s := set_node rn (VfsNode VFS_TYPE_PIPE_READ idx (Some pipe_read_vfs_ops) 0 VFS_PIPE_BUF_SIZE 0 VFS_O_RDONLY) s in
          let s := set_node wn (VfsNode VFS_TYPE_PIPE_WRITE idx (Some pipe_write_vfs_ops) 0 VFS_PIPE_BUF_SIZE 0 VFS_O_WRONLY) s in
          let t := get_current_fd_table s in
          let '(f0, s) := fd_table_alloc t rn s in
          let '(f1, s) := fd_table_alloc t wn s in
          if (f0 <? 0) || (f1 <? 0) then
            let s := if 0 <=? f0 then (fd_table_close t f0 s).2 else s in
            let s := if 0 <=? f1 then (fd_table_close t f1 s).2 else s in
            (-1, Some (f0, f1), unuse s)
          else (0, Some (f0, f1), s)
      | _, _ =>
          let s := unuse s in
          let s := match r with Some n => free_node n s | None => s end in
          let s := match w with Some n => free_node n s | None => s end in
          (-1, None, s)
      end
  end.

Definition mount_at (path : cstring) (m : vfs_mount) : bool := m_active m && (k_strcmp (m_path m) path =? 0).

Fixpoint remount (path : cstring) (ops : option vfs_ops) (ms : list vfs_mount) : option (list vfs_mount) :=
  match ms with
  | [] => None
  | m :: ms' =>
      if mount_at path m then Some (VfsMount (m_path m) ops (m_active m) :: ms')
      else ms'' ← remount path ops ms'; Some (m :: ms'')
  end.

Definition vfs_mount_at (path : cstring) (ops : option vfs_ops) s : vfs E :=
  match remount path ops (mounts s) with
  | Some ms => set_mounts ms s
  | None =>
      if VFS_MAX_MOUNTS <=? len (mounts s) then s
      else set_mounts (mounts s ++ [VfsMount (take (Z.to_nat (VFS_MAX_PATH - 1)) path) ops true]) s
  end.

Definition vfs_init s : vfs E :=
  let s := set_node_pool ((fun x => VfsNode (n_type x) (-1) None (n_offset x) (n_size x) 0 (n_flags x)) <$> node_pool s) s in
  let s := set_table kernel_fd_table empty_table s in
  let s := vfs_mount_at [ch "/"] (Some ramfs_vfs_ops) (set_mounts [] s) in
  fd_table_install_std kernel_fd_table s.

(** The table of the current process, created on its first open. *)
Definition open_table s : option (Z * vfs E) :=
  match cur_proc s with
  | None => Some (kernel_fd_table, s)
  | Some t =>
      if negb (t =? 0) then Some (t, s)
      else '(p, s) ← fd_table_create s; Some (p, if p =? 0 then s else set_cur_proc (Some p) s)
  end.

(** The first half of [vfs_open]: the opened file and its node; -1 on failure. *)
Definition open_node (path : cstring) (flags : Z) s : option (Z * vfs E) :=
  match find_ops path s with
  | None => Some (-1, s)
  | Some o =>
      match ops_open o with
      | None => Some (-1, s)
      | Some open =>
          '(ifd, s) ← open path flags s;
          if ifd <? 0 then Some (-1, s)
          else match alloc_node s with
          | (None, s) => Some (-1, match ops_close o with Some close => (close ifd s).2 | None => s end)
          | (Some n, s) =>
              '(sz, s) ← match ops_size o with Some size => size ifd s | None => Some (0, s) end;
              Some (n, set_node n (VfsNode VFS_TYPE_FILE ifd (Some o) 0 (u64 sz) 0 (flags .& 3)) s)
          end
      end
  end.

Definition vfs_open (path : cstring) (flags : Z) s : option (Z * vfs E) :=
  '(n, s) ← open_node path flags s;
  if n <? 0 then Some (-1, s)
  else
    '(t, s) ← open_table s;
    if t =? 0 then Some (-1, free_node n s)
    else
      let '(fd, s) := fd_table_alloc t n s in
      if fd <? 0 then Some (-1, free_node n s) else Some (fd, s).

Definition vfs_close (fd : Z) s : Z * vfs E := fd_table_close (get_current_fd_table s) fd s.

Definition vfs_read (fd size : Z) s : option (list Z * Z * vfs E) :=
  match fd_table_get (get_current_fd_table s) fd s with
  | None => Some ([], -1, s)
  | Some n =>
      match n_ops (node s n) ≫= ops_read with
      | None => Some ([], -1, s)
      | Some read =>
          if n_flags (node s n) .& 3 =? VFS_O_WRONLY then Some ([], -1, s)
          else
            '(out, r, s) ← read (internal_fd (node s n)) size (n_offset (node s n)) s;
            let x := node s n in
            Some (out, r, if 0 <? r then set_node n (with_offset (u64 (n_offset x + r)) (n_size x) x) s else s)
      end
  end.

Definition vfs_write (fd : Z) (buf : list Z) s : option (Z * vfs E) :=
  match fd_table_get (get_current_fd_table s) fd s with
  | None => Some (-1, s)
  | Some n =>
      match n_ops (node s n) ≫= ops_write with
      | None => Some (-1, s)
      | Some write =>
          if n_flags (node s n) .& 3 =? VFS_O_RDONLY then Some (-1, s)
          else
            '(r, s) ← write (internal_fd (node s n)) buf s;
            let x := node s n in
            let off := u64 (n_offset x + r) in
            Some (r, if 0 <? r then set_node n (with_offset off (if n_size x <? off then off else n_size x) x) s else s)
      end
  end.

Definition vfs_dup (fd : Z) s : Z * vfs E :=
  let t := get_current_fd_table s in
  match fd_table_get t fd s with
  | None => (-1, s)
  | Some n => fd_table_alloc t n s
  end.

Definition vfs_dup2 (oldfd newfd : Z) s : Z * vfs E :=
  let t := get_current_fd_table s in
  if (oldfd <? 0) || (newfd <? 0) || (VFS_MAX_FDS <=? oldfd) || (VFS_MAX_FDS <=? newfd) then (-1, s)
  else if oldfd =? newfd then (newfd, s)
  else match fd_table_get t oldfd s with
  | None => (-1, s)
  | Some n =>
      let s := match slot t newfd s with Some _ => (fd_table_close t newfd s).2 | None => s end in
      (newfd, add_ref n 1 (put_slot t newfd (Some n) 1 s))
  end.

Definition vfs_seek (fd whence offset : Z) s : Z * vfs E :=
  match fd_table_get (get_current_fd_table s) fd s with
  | None => (-1, s)
  | Some n =>
      let x := node s n in
      let go off := (i32 off, set_node n (with_offset off (n_size x) x) s) in
      if whence =? VFS_SEEK_SET then go (u64 offset)
      else if whence =? VFS_SEEK_CUR then go (u64 (n_offset x + offset))
      else if whence =? VFS_SEEK_END then go (u64 (n_size x + offset))
      else (-1, s)
  end.

Definition vfs_mkdir (path : cstring) s : Z * vfs E :=
  match find_ops path s ≫= ops_mkdir with Some mkdir => mkdir path s | None => (-1, s) end.
Definition vfs_unlink (path : cstring) s : option (Z * vfs E) :=
  match find_ops path s ≫= ops_unlink with Some unlink => unlink path s | None => Some (-1, s) end.
(** [None]: the first mount has no operations and the code dereferences NULL. *)
Definition vfs_list s : option (list (cstring * bool * Z)) :=
  match mounts s with
  | [] => Some []
  | m :: _ =>
      if negb (m_active m) then Some []
      else o ← m_ops m; Some (match ops_list o with Some f => f s | None => [] end)
  end.

Definition vfs_mount_count s : Z := countb m_active (mounts s).
Definition vfs_get_mount (index : Z) s : option cstring :=
  if index <? 0 then None
  else take (Z.to_nat (VFS_MAX_PATH - 1)) ∘ m_path <$>
         (filter (fun m => m_active m = true) (mounts s) !! Z.to_nat index).
Definition vfs_fd_count s : Z := t_count (table s (get_current_fd_table s)).
Definition vfs_fd_info (fd : Z) s : option (Z * Z) :=
  n ← fd_table_get (get_current_fd_table s) fd s; Some (n_type (node s n), n_size (node s n)).
End layer.

(** ** Pipes are queues *)

Section ring.
Implicit Types (p : vfs_pipe_t).

(** The buffered bytes, oldest first. *)
Definition ring_bytes p : list Z :=
  (fun i => arr_get 0 (p_buf p) ((p_tail p + i) mod VFS_PIPE_BUF_SIZE)) <$> seqZ 0 (p_count p).

Record ring_ok p : Prop := {
  ro_buf : len (p_buf p) = VFS_PIPE_BUF_SIZE;
  ro_tail : 0 <= p_tail p < VFS_PIPE_BUF_SIZE;
  ro_count : 0 <= p_count p <= VFS_PIPE_BUF_SIZE;
  ro_head : p_head p = (p_tail p + p_count p) mod VFS_PIPE_BUF_SIZE
}.

Lemma fmap_seqZ_take (f : Z -> Z) n k : 0 <= k <= n -> f <$> seqZ 0 k = take (Z.to_nat k) (f <$> seqZ 0 n).
Proof.
  intros Hk. replace n with (k + (n - k)) by lia. rewrite seqZ_app, fmap_app by lia.
  rewrite take_app_length'; [done|]. rewrite length_fmap, length_seqZ. done.
Qed.

Lemma fmap_seqZ_drop (f : Z -> Z) n k :
  0 <= k <= n -> (fun i => f (k + i)) <$> seqZ 0 (n - k) = drop (Z.to_nat k) (f <$> seqZ 0 n).
Proof.
  intros Hk. replace n with (k + (n - k)) at 2 by lia. rewrite seqZ_app, fmap_app by lia.
  rewrite drop_app_length' by (rewrite length_fmap, length_seqZ; done).
  apply list_eq. intros j. rewrite !list_lookup_fmap. destruct (decide (Z.of_nat j < n - k)).
  - rewrite !lookup_seqZ_lt by lia. cbn [fmap option_fmap option_map]. by do 2 f_equal.
  - rewrite !lookup_seqZ_ge by lia. done.
Qed.

Lemma length_ring_bytes p : ring_ok p -> len (ring_bytes p) = p_count p.
Proof. intros []. unfold ring_bytes. rewrite length_fmap, length_seqZ. lia. Qed.

Lemma ring_read_spec size p out p' : ring_ok p -> 0 <= size -> ring_read size p = (out, p') ->
  out = take (Z.to_nat size) (ring_bytes p) /\ ring_bytes p' = drop (Z.to_nat size) (ring_bytes p) /\ ring_ok p'.
Proof.
  intros Hok Hs. pose proof (length_ring_bytes p Hok) as Hlen. destruct Hok as [Hb Ht Hc Hh]. unfold ring_read.
  set (n := if size <? p_count p then size else p_count p). intros [= <- <-].
  assert (Hn : 0 <= n <= p_count p /\ n = Z.min size (p_count p)) by (unfold n; if_all; lia). clearbody n.
  assert (E : take (Z.to_nat size) (ring_bytes p) = take (Z.to_nat n) (ring_bytes p) /\
              drop (Z.to_nat size) (ring_bytes p) = drop (Z.to_nat n) (ring_bytes p)).
  { destruct (decide (size <= p_count p)); [by replace n with size by lia|].
    rewrite !take_ge, !drop_ge by lia. done. }
  destruct E as [-> ->]. split; [apply fmap_seqZ_take; lia|]. split.
  - unfold ring_bytes at 2. rewrite <- fmap_seqZ_drop by lia. unfold ring_bytes. cbn [p_buf p_tail p_count].
    apply list_fmap_ext. intros j x _. f_equal. rewrite Zplus_mod_idemp_l. f_equal. lia.
  - split; cbn [p_buf p_tail p_count p_head]; [done|apply Z.mod_pos_bound; done|lia|].
    rewrite Hh, Zplus_mod_idemp_l. f_equal. lia.
Qed.

Lemma ring_store_at n : 0 <= n <= VFS_PIPE_BUF_SIZE -> forall buf head src, len buf = VFS_PIPE_BUF_SIZE ->
  len (ring_store buf head n src) = VFS_PIPE_BUF_SIZE /\
  forall x, 0 <= x < VFS_PIPE_BUF_SIZE ->
    arr_get 0 (ring_store buf head n src) x =
      if (x - head) mod VFS_PIPE_BUF_SIZE <? n then arr_get 0 src ((x - head) mod VFS_PIPE_BUF_SIZE)
      else arr_get 0 buf x.
Proof.
  intros Hn. destruct Hn as [Hn Hle]. revert Hle. pattern n. apply natlike_ind; [| |done].
  - intros _ buf head src Hb. split; [done|]. intros x Hx.
    pose proof (Z.mod_pos_bound (x - head) VFS_PIPE_BUF_SIZE). destruct (Z.ltb_spec ((x - head) mod VFS_PIPE_BUF_SIZE) 0); [|done].
    unfold VFS_PIPE_BUF_SIZE in *. lia.
  - clear n Hn. intros n Hn IH Hle buf head src Hb. destruct (IH ltac:(lia) buf head src Hb) as [Hl Hx].
    unfold ring_store in *. rewrite <- Z.add_1_r, seqZ_app, foldl_app by lia. rewrite Z.add_0_l.
    replace (seqZ n 1) with [n] by (unfold seqZ; simpl; f_equal; lia). cbn [foldl].
    set (b := foldl _ buf (seqZ 0 n)) in *. split; [by rewrite length_arr_set|]. intros x Hx0.
    assert (Hpos : 0 <= (head + n) mod VFS_PIPE_BUF_SIZE < VFS_PIPE_BUF_SIZE) by by apply Z.mod_pos_bound.
    rewrite arr_get_set by lia. destruct (Z.eqb_spec ((head + n) mod VFS_PIPE_BUF_SIZE) x) as [<-|Hne].
    + assert (E : ((head + n) mod VFS_PIPE_BUF_SIZE - head) mod VFS_PIPE_BUF_SIZE = n).
      { rewrite Zminus_mod_idemp_l. replace (head + n - head) with n by lia. apply Z.mod_small. lia. }
      rewrite E, (proj2 (Z.ltb_lt n (n + 1))) by lia. done.
    + rewrite Hx by done. assert ((x - head) mod VFS_PIPE_BUF_SIZE <> n).
      { intros E. apply Hne. rewrite <- E, Zplus_mod_idemp_r. replace (head + (x - head)) with x by lia. by apply Z.mod_small. }
      if_all; try done; lia.
Qed.

Lemma ring_write_spec src p n p' : ring_ok p -> ring_write src p = (n, p') ->
  n = Z.min (len src) (VFS_PIPE_BUF_SIZE - p_count p) /\
  ring_bytes p' = ring_bytes p ++ take (Z.to_nat n) src /\ ring_ok p'.
Proof.
  intros [Hb Ht Hc Hh]. unfold ring_write. set (k := if _ <? len src then _ else _). intros [= <- <-].
  assert (Hk : 0 <= k /\ k = Z.min (len src) (VFS_PIPE_BUF_SIZE - p_count p)) by (unfold k; if_all; lia). clearbody k.
  split; [lia|]. destruct (ring_store_at k ltac:(lia) (p_buf p) (p_head p) src Hb) as [Hl Hx]. split.
  - unfold ring_bytes. cbn [p_buf p_tail p_count]. rewrite seqZ_app, fmap_app by lia. f_equal.
    + apply list_fmap_ext. intros j i Hj. apply list_elem_of_lookup_2, elem_of_seqZ in Hj.
      rewrite Hx by by apply Z.mod_pos_bound.
      assert (E : ((p_tail p + i) mod VFS_PIPE_BUF_SIZE - p_head p) mod VFS_PIPE_BUF_SIZE = i - p_count p + VFS_PIPE_BUF_SIZE \/ k = 0).
      { destruct (decide (k = 0)); [by right|left]. rewrite Hh, Zminus_mod_idemp_l, Zminus_mod_idemp_r.
        replace (p_tail p + i - (p_tail p + p_count p)) with (i - p_count p) by lia.
        rewrite <- (Z_mod_plus_full _ 1). apply Z.mod_small. lia. }
      pose proof (Z.mod_pos_bound ((p_tail p + i) mod VFS_PIPE_BUF_SIZE - p_head p) VFS_PIPE_BUF_SIZE ltac:(done)).
      destruct E as [E|E]; if_all; try done; lia.
    + apply list_eq. intros j. rewrite list_lookup_fmap. destruct (decide (Z.of_nat j < k)) as [Hj|Hj].
      * rewrite lookup_seqZ_lt, lookup_take_lt by lia. cbn [fmap option_fmap option_map].
        rewrite Hx by by apply Z.mod_pos_bound.
        rewrite Hh, Zminus_mod_idemp_l, Zminus_mod_idemp_r.
        replace (p_tail p + (0 + p_count p + Z.of_nat j) - (p_tail p + p_count p)) with (Z.of_nat j) by lia.
        rewrite Z.mod_small by lia. rewrite (proj2 (Z.ltb_lt (Z.of_nat j) k)) by done. unfold arr_get.
        rewrite Nat2Z.id. destruct (lookup_lt_is_Some_2 src j) as [y ->]; [lia|done].
      * rewrite lookup_seqZ_ge by lia. symmetry. apply lookup_ge_None. rewrite length_take. lia.
  - split; cbn [p_buf p_tail p_count p_head]; [done|done|lia|]. rewrite Hh, Zplus_mod_idemp_l. f_equal. lia.
Qed.
End ring.

Section pipe_queue.
Context {E : Type} `{VfsBackend E}.
Implicit Types (s : vfs E).

Inductive pipe_op : Type := PRead (size : Z) | PWrite (buf : list Z).

(** A sequence of reads and writes on one pipe: the bytes the writes
    accepted and the bytes the reads delivered. *)
Fixpoint run_pipe (i : Z) (ops : list pipe_op) s : list Z * list Z * vfs E :=
  match ops with
  | [] => ([], [], s)
  | PRead n :: ops' =>
      let '(out, _, s) := pipe_vfs_read i n s in
      let '(acc, del, s) := run_pipe i ops' s in
      (acc, out ++ del, s)
  | PWrite b :: ops' =>
      let '(r, s) := pipe_vfs_write i b s in
      let '(acc, del, s) := run_pipe i ops' s in
      (take (Z.to_nat r) b ++ acc, del, s)
  end.

Definition pipe_live (i : Z) s : Prop :=
  0 <= i < VFS_MAX_PIPES /\ len (pipes s) = VFS_MAX_PIPES /\ pipe_in_use (pipe s i) = true /\ ring_ok (pipe s i).
Definition content (i : Z) s : list Z := ring_bytes (pipe s i).

Lemma pipe_set_pipe i p s : pipe_live i s -> pipe (set_pipe i p s) i = p.
Proof. intros (Hi & Hl & _). unfold pipe, set_pipe. cbn [pipes set_pipes]. apply arr_get_set_eq. lia. Qed.

Lemma pipe_live_set i p s : pipe_live i s -> ring_ok p -> pipe_in_use p = true -> pipe_live i (set_pipe i p s).
Proof.
  intros Hl Hok Hu. pose proof (pipe_set_pipe i p s Hl) as E1. destruct Hl as (Hi & Hl & _). split; [done|].
  split; [unfold set_pipe; cbn [pipes set_pipes]; by rewrite length_arr_set|]. by rewrite E1.
Qed.

Lemma pipe_live_ok i s : pipe_live i s -> pipe_bad i s = false.
Proof.
  intros (Hi & _ & Hu & _). unfold pipe_bad. rewrite Hu, (proj2 (Z.ltb_ge i 0)), (proj2 (Z.leb_gt _ _)) by lia. done.
Qed.

Lemma pipe_read_spec i n s : pipe_live i s -> 0 <= n ->
  exists s', pipe_vfs_read i n s =
    (take (Z.to_nat n) (content i s), Z.min n (len (content i s)), s') /\
    content i s' = drop (Z.to_nat n) (content i s) /\ pipe_live i s'.
Proof.
  intros Hl Hn. pose proof (length_ring_bytes _ (proj2 (proj2 (proj2 Hl)))) as Hlen. fold (content i s) in Hlen.
  assert (Hc : 0 <= p_count (pipe s i)) by apply Hl.
  unfold pipe_vfs_read. rewrite (pipe_live_ok _ _ Hl). destruct (Z.eqb_spec n 0) as [->|Hn0].
  { exists s. rewrite Z.min_l, drop_0 by lia. done. }
  destruct (Z.eqb_spec (p_count (pipe s i)) 0) as [E0|E0].
  { exists s. assert (content i s = []) as -> by (apply length_zero_iff_nil; lia).
    rewrite take_nil, drop_nil, Z.min_r by (cbn [length]; lia). done. }
  destruct (ring_read n (pipe s i)) as [out p'] eqn:Er.
  assert (Hu : pipe_in_use p' = true) by (unfold ring_read in Er; simplify_eq/=; apply Hl).
  destruct (ring_read_spec _ _ _ _ (proj2 (proj2 (proj2 Hl))) Hn Er) as (-> & Hb & Hok).
  exists (set_pipe i p' s). rewrite length_take. fold (content i s). split; [repeat f_equal; lia|].
  split; [unfold content at 1; by rewrite pipe_set_pipe|by apply pipe_live_set].
Qed.

Lemma pipe_write_spec i b s : pipe_live i s ->
  exists s', pipe_vfs_write i b s = (Z.min (len b) (VFS_PIPE_BUF_SIZE - len (content i s)), s') /\
    content i s' = content i s ++ take (Z.to_nat (Z.min (len b) (VFS_PIPE_BUF_SIZE - len (content i s)))) b /\
    pipe_live i s'.
Proof.
  intros Hl. pose proof (length_ring_bytes _ (proj2 (proj2 (proj2 Hl)))) as Hlen. fold (content i s) in Hlen.
  assert (Hc : 0 <= p_count (pipe s i) <= VFS_PIPE_BUF_SIZE) by apply Hl.
  unfold pipe_vfs_write. rewrite (pipe_live_ok _ _ Hl). destruct (Z.eqb_spec (len b) 0) as [E0|E0].
  { exists s. rewrite E0, Z.min_l, take_0, app_nil_r by lia. done. }
  destruct (Z.leb_spec VFS_PIPE_BUF_SIZE (p_count (pipe s i))).
  { exists s. rewrite Z.min_r by lia. replace (VFS_PIPE_BUF_SIZE - len (content i s)) with 0 by lia.
    rewrite take_0, app_nil_r. done. }
  destruct (ring_write b (pipe s i)) as [n p'] eqn:Er.
  assert (Hu : pipe_in_use p' = true) by (unfold ring_write in Er; simplify_eq/=; apply Hl).
  destruct (ring_write_spec _ _ _ _ (proj2 (proj2 (proj2 Hl))) Er) as (Hn & Hb & Hok).
  rewrite Hlen, <- Hn. exists (set_pipe i p' s). split; [done|].
  split; [unfold content at 1; by rewrite pipe_set_pipe|by apply pipe_live_set].
Qed.

(** [C10] A pipe is a queue of bytes of capacity 4096: under every sequence of
    reads and writes, what was buffered followed by what the writes accepted
    equals what the reads delivered followed by what is buffered now, and at
    every point a write accepts as much of its data as there is room for and
    a read delivers as much as is buffered, up to the size asked. *)
Theorem pipe_fifo i ops s :
  pipe_live i s -> Forall (fun o => match o with PRead n => 0 <= n | PWrite _ => True end) ops ->
  exists acc del s', run_pipe i ops s = (acc, del, s') /\ pipe_live i s' /\
    content i s ++ acc = del ++ content i s' /\
    (forall b, (pipe_vfs_write i b s').1 = Z.min (len b) (4096 - len (content i s'))) /\
    (forall n, 0 <= n -> (pipe_vfs_read i n s').1 = (take (Z.to_nat n) (content i s'), Z.min n (len (content i s')))).
Proof.
  intros Hl Hops. revert s Hl. induction Hops as [|o ops Ho _ IH]; intros s Hl.
  - exists [], [], s. split; [done|]. split; [done|]. split; [by rewrite app_nil_r|]. split.
    + intros b. by destruct (pipe_write_spec i b s Hl) as (s' & -> & _).
    + intros n Hn. by destruct (pipe_read_spec i n s Hl Hn) as (s' & -> & _).
  - destruct o as [n|b]; cbn [run_pipe].
    + destruct (pipe_read_spec i n s Hl Ho) as (s1 & -> & Hc & Hl1).
      destruct (IH s1 Hl1) as (acc & del & s2 & -> & Hl2 & Hq & Hrest). eexists acc, _, s2.
      split; [done|]. split; [done|]. split; [|done]. rewrite <- app_assoc, <- Hq, Hc, app_assoc.
      by rewrite take_drop.
    + destruct (pipe_write_spec i b s Hl) as (s1 & -> & Hc & Hl1).
      destruct (IH s1 Hl1) as (acc & del & s2 & -> & Hl2 & Hq & Hrest). eexists _, del, s2.
      split; [done|]. split; [done|]. split; [|done]. by rewrite <- Hq, Hc, app_assoc.
Qed.
End pipe_queue.

(** ** Routing *)

Section routing.
Context {E : Type} `{VfsBackend E}.
Implicit Types (s : vfs E) (m : vfs_mount) (path : cstring).

(** A mount covers an absolute path when its mountpoint is a prefix that
    ends at a component boundary; the root covers everything. *)
Definition covers path m : Prop :=
  m_active m = true /\ m_path m `prefix_of` path /\
  (len (m_path m) <= 1 \/ char_at path (len (m_path m)) = 0 \/ char_at path (len (m_path m)) = ch "/").

Lemma prefix_step_spec path acc m : is_cstr path -> is_cstr (m_path m) ->
  (prefix_step path acc m = (Some m, len (m_path m)) /\ covers path m /\ acc.2 <= len (m_path m)) \/
  (prefix_step path acc m = acc /\ (covers path m -> len (m_path m) < acc.2)).
Proof.
  intros Hp Hm. destruct acc as [b n]. unfold prefix_step, covers, k_strlen. cbn [snd].
  destruct (m_active m); cbn [negb]; [|right; split; [done|]; by intros [? _]].
  destruct (Z.ltb_spec (len (m_path m)) n); [by right|]. rewrite Nat2Z.id.
  destruct (Z.eqb_spec (k_strncmp path (m_path m) (length (m_path m))) 0) as [E0|E0]; cbn [negb].
  - apply k_strncmp_prefix in E0; [|done..].
    destruct (1 <? _) eqn:E1, (_ =? 0) eqn:E2, (_ =? ch "/") eqn:E3; cbn [andb negb]; zbool;
      try (left; split; [done|]; split; [|lia]; split; [done|]; split; [done|]; auto; lia).
    right. split; [done|]. intros (_ & _ & [?|[?|?]]); lia.
  - right. split; [done|]. intros (_ & Hpre & _). apply k_strncmp_prefix in Hpre; done.
Qed.

Lemma prefix_fold path ms : is_cstr path -> Forall (fun m => is_cstr (m_path m)) ms ->
  match foldl (prefix_step path) (None, 0) ms with
  | (Some m, n) => n = len (m_path m) /\ m ∈ ms /\ covers path m /\
                   forall m', m' ∈ ms -> covers path m' -> len (m_path m') <= n
  | (None, n) => n = 0 /\ forall m', m' ∈ ms -> ~ covers path m'
  end.
Proof.
  intros Hp Hms. induction ms as [|m ms IH] using rev_ind; cbn [foldl].
  - split; [done|]. intros m' Hm'. by apply elem_of_nil in Hm'.
  - apply Forall_app in Hms as [Hms Hm]. apply Forall_cons in Hm as [Hm _]. specialize (IH Hms).
    rewrite foldl_app. cbn [foldl]. set (acc := foldl _ _ ms) in *. clearbody acc.
    destruct (prefix_step_spec path acc m Hp Hm) as [(-> & Hc & Hle)|(-> & Hno)]; destruct acc as [[b|] n]; cbn [snd] in *.
    + destruct IH as (-> & _ & _ & Hmax). split; [done|]. split; [apply elem_of_app; right; left|]. split; [done|].
      intros m' [Hin|Hin]%elem_of_app Hc'; [specialize (Hmax m' Hin Hc'); lia|]. by apply list_elem_of_singleton in Hin as ->.
    + destruct IH as (-> & Hnone). split; [done|]. split; [apply elem_of_app; right; left|]. split; [done|].
      intros m' [Hin|Hin]%elem_of_app Hc'; [by destruct (Hnone m' Hin)|]. by apply list_elem_of_singleton in Hin as ->.
    + destruct IH as (-> & Hin & Hc & Hmax). split; [done|]. split; [apply elem_of_app; by left|]. split; [done|].
      intros m' [Hin'|Hin']%elem_of_app Hc'; [by apply Hmax|]. apply list_elem_of_singleton in Hin' as ->.
      specialize (Hno Hc'). lia.
    + destruct IH as (-> & Hnone). split; [done|].
      intros m' [Hin'|Hin']%elem_of_app Hc'; [by apply (Hnone m')|]. apply list_elem_of_singleton in Hin' as ->.
      specialize (Hno Hc'). lia.
Qed.

(** [C16] An absolute path is routed to an active mount whose mountpoint covers
    it and no covering mountpoint is longer; a path that no mount covers is
    refused; a mount without operations stands for the virtual files. *)
Theorem find_ops_longest path s :
  is_cstr path -> char_at path 0 = ch "/" -> Forall (fun m => is_cstr (m_path m)) (mounts s) ->
  match find_ops path s with
  | Some o => exists m, m ∈ mounts s /\ covers path m /\ o = default vfile_vfs_ops (m_ops m) /\
      forall m', m' ∈ mounts s -> covers path m' -> len (m_path m') <= len (m_path m)
  | None => forall m, m ∈ mounts s -> ~ covers path m
  end.
Proof.
  intros Hp Habs Hms. unfold find_ops, find_mount. rewrite Habs, Z.eqb_refl. cbn [negb].
  pose proof (prefix_fold path (mounts s) Hp Hms) as Hf.
  destruct (foldl _ _ _) as [[m|] n]; cbn [fst mbind option_bind].
  - destruct Hf as (-> & Hin & Hc & Hmax). by exists m.
  - apply Hf.
Qed.

End routing.

Abbreviation two_mounts := (Vfs [VfsMount (zs "/") (Some ramfs_vfs_ops) true; VfsMount (zs "/0") None true] [] ∅ None [] [] []
  (Ramfs [] false (KHeap ∅ 0 0 0 ∅)) tt).
Lemma find_ops_longest_witness :
  exists m : vfs_mount, m ∈ mounts two_mounts /\ covers (zs "/0/system/uptime") m /\
    vfile_vfs_ops = default vfile_vfs_ops (m_ops m).
Proof.
  assert (Hp : is_cstr (zs "/0/system/uptime")) by (repeat (constructor; [vm_compute; split; reflexivity|]); constructor).
  assert (Hms : Forall (fun m => is_cstr (m_path m)) (mounts two_mounts))
    by (repeat (constructor; [repeat (constructor; [vm_compute; split; reflexivity|]); constructor|]); constructor).
  pose proof (find_ops_longest (zs "/0/system/uptime") two_mounts Hp eq_refl Hms) as Hf.
  change (find_ops (zs "/0/system/uptime") two_mounts) with (Some vfile_vfs_ops) in Hf.
  destruct Hf as (m & H1 & H2 & H3 & _). by exists m.
Defined.
