(* ===== verification/Fds.v ===== *)
(** * Descriptors and reference counts

    The invariant of the descriptor tables of vfs.c: a node's reference count
    is the number of descriptors that refer to it, over the tables of all
    processes, and every call of the layer keeps it so. *)

From S2P Require Import Prelude KHeap Ramfs Vfs.

(** Number of slots of a table, and of all tables, that hold node [n]. *)
Definition occ (n : Z) (x : fd_table) : Z := countb (fun y => bool_decide (y = Some n)) (fds x).
Definition refs (n : Z) (m : gmap Z fd_table) : Z := map_fold (fun _ x acc => occ n x + acc) 0 m.
Definition occupied (x : fd_table) : Z := countb (fun y => bool_decide (y <> None)) (fds x).

Section counting.
Lemma countb_set {A} (f : A -> bool) (d : A) l i x : 0 <= i < len l ->
  countb f (arr_set l i x) = countb f l - Z.b2z (f (arr_get d l i)) + Z.b2z (f x).
Proof.
  unfold arr_set, arr_get. intros Hi. remember (Z.to_nat i) as k eqn:Ek. assert (Hk : (k < length l)%nat) by lia.
  clear Ek Hi i. revert k Hk. induction l as [|a l IH]; intros k Hk; [cbn in Hk; lia|].
  destruct k as [|k].
  - change (<[0%nat := x]> (a :: l)) with (x :: l). change (default d ((a :: l) !! 0%nat)) with a. cbn [countb]. lia.
  - change (<[S k := x]> (a :: l)) with (a :: <[k := x]> l).
    change (default d ((a :: l) !! S k)) with (default d (l !! k)). cbn [countb]. rewrite IH by (cbn in Hk; lia). lia.
Qed.

Lemma refs_insert n m t x : refs n (<[t := x]> m) = refs n m - occ n (default no_table (m !! t)) + occ n x.
Proof.
  assert (Hfresh : forall m x, m !! t = None -> refs n (<[t := x]> m) = occ n x + refs n m).
  { intros m' x' Hm. unfold refs. rewrite map_fold_insert_L; [done| |done]. intros. lia. }
  destruct (m !! t) as [y|] eqn:E; cbn [default].
  - rewrite <- (insert_delete_id m t y E) at 2. rewrite <- insert_delete_eq.
    rewrite !Hfresh by apply lookup_delete_eq. unfold id. lia.
  - rewrite Hfresh by done. cbn. lia.
Qed.

Lemma refs_nonneg n m : 0 <= refs n m.
Proof.
  unfold refs. apply (map_fold_weak_ind (fun r _ => 0 <= r)); [lia|]. intros t x m' r _ Hr.
  pose proof (countb_nonneg (fun y => bool_decide (y = Some n)) (fds x)). unfold occ. lia.
Qed.

Lemma refs_delete n m t x : m !! t = Some x -> occ n x = 0 -> refs n (delete t m) = refs n m.
Proof.
  intros E H0. rewrite <- (insert_delete_id m t x E) at 2. rewrite refs_insert, lookup_delete_eq, H0. cbn. lia.
Qed.

Lemma refs_slot n m t x i : m !! t = Some x -> fds x !! i = Some (Some n) -> 0 < refs n m.
Proof.
  intros E Hi. rewrite <- (insert_delete_id m t x E), refs_insert, lookup_delete_eq.
  pose proof (refs_nonneg n (delete t m)).
  assert (0 < occ n x).
  { apply (countb_in _ _ (Some n)); [by eapply list_elem_of_lookup_2|by apply bool_decide_eq_true]. }
  cbn. lia.
Qed.
End counting.

Section invariant.
Context {E : Type} `{VfsBackend E}.
Implicit Types (s : vfs E) (t n : Z) (x : fd_table).

(** [ex] is a table exempt from the count (one that is being destroyed). *)
Record fd_inv (ex : option Z) s : Prop := {
  fi_pool : len (node_pool s) = MAX_VFS_NODES;
  fi_len : forall t x, fd_tables s !! t = Some x -> len (fds x) = VFS_MAX_FDS;
  fi_count : forall t x, fd_tables s !! t = Some x -> ex <> Some t -> t_count x = occupied x;
  fi_range : forall t x i n, fd_tables s !! t = Some x -> fds x !! i = Some (Some n) -> 0 <= n < MAX_VFS_NODES;
  fi_live : forall n, 0 <= n < MAX_VFS_NODES -> 0 < refs n (fd_tables s) -> n_ops (node s n) <> None;
  fi_refs : forall n, 0 <= n < MAX_VFS_NODES -> ref_count (node s n) = refs n (fd_tables s);
  fi_kernel : is_Some (fd_tables s !! kernel_fd_table);
  fi_zero : fd_tables s !! 0 = None;
  fi_cur : forall t, cur_proc s = Some t -> t <> 0 -> t <> kernel_fd_table /\ is_Some (fd_tables s !! t)
}.

(** States that agree on everything the invariant looks at. *)
Record same_fds s s' : Prop := {
  sf_tables : fd_tables s' = fd_tables s;
  sf_cur : cur_proc s' = cur_proc s;
  sf_len : length (node_pool s') = length (node_pool s);
  sf_ref : forall n, 0 <= n < MAX_VFS_NODES -> ref_count (node s' n) = ref_count (node s n);
  sf_ops : forall n, 0 <= n < MAX_VFS_NODES -> n_ops (node s' n) = n_ops (node s n)
}.

#[global] Instance same_fds_preorder : PreOrder same_fds.
Proof.
  split; [done|]. intros s1 s2 s3 [A1 A2 A3 A4 A5] [B1 B2 B3 B4 B5]. split; try congruence.
  - intros n Hn. by rewrite B4, A4.
  - intros n Hn. by rewrite B5, A5.
Qed.

Lemma fd_inv_same ex s s' : same_fds s s' -> fd_inv ex s -> fd_inv ex s'.
Proof.
  intros [A1 A2 A3 A4 A5] [B1 B2 B3 B4 B5 B6 B7 B8 B9].
  split; rewrite ?A1, ?A2; try done; try lia.
  - intros n Hn. rewrite A5 by done. by apply B5.
  - intros n Hn. rewrite A4 by done. by apply B6.
Qed.

#[global] Instance fd_inv_proper ex : Proper (same_fds ==> impl) (fd_inv ex).
Proof. intros s s' Hs Hi. by eapply fd_inv_same. Qed.

Lemma node_set_eq n y s : len (node_pool s) = MAX_VFS_NODES -> 0 <= n < MAX_VFS_NODES -> node (set_node n y s) n = y.
Proof. intros Hl Hn. unfold node, set_node. cbn [node_pool set_node_pool]. apply arr_get_set_eq. lia. Qed.
Lemma node_set_ne n m y s : 0 <= n -> 0 <= m -> n <> m -> node (set_node n y s) m = node s m.
Proof. intros. unfold node, set_node. cbn [node_pool set_node_pool]. apply arr_get_set_ne; lia. Qed.

Definition held (y : option Z) n : Z := Z.b2z (bool_decide (y = Some n)).

(** Replacing one slot, with the reference counts adjusted accordingly. *)
Lemma slot_update ex s s' t x fd y c :
  fd_inv ex s -> fd_tables s !! t = Some x -> 0 <= fd < VFS_MAX_FDS ->
  fd_tables s' = <[t := FdTable (arr_set (fds x) fd y) c]> (fd_tables s) ->
  cur_proc s' = cur_proc s -> length (node_pool s') = length (node_pool s) ->
  (ex <> Some t -> c = t_count x - Z.b2z (bool_decide (arr_get None (fds x) fd <> None)) + Z.b2z (bool_decide (y <> None))) ->
  (forall n, y = Some n -> 0 <= n < MAX_VFS_NODES /\ n_ops (node s' n) <> None) ->
  (forall n, 0 <= n < MAX_VFS_NODES ->
     ref_count (node s' n) = ref_count (node s n) - held (arr_get None (fds x) fd) n + held y n /\
     (n_ops (node s' n) = None -> n_ops (node s n) = None \/ ref_count (node s' n) = 0)) ->
  fd_inv ex s'.
Proof.
  intros [B1 B2 B3 B4 B5 B6 B7 B8 B9] Ht Hfd HT HC HL Hcount Hy Hn.
  pose proof (B2 _ _ Ht) as Hlen.
  assert (Hrefs : forall n, refs n (fd_tables s') = refs n (fd_tables s) - held (arr_get None (fds x) fd) n + held y n).
  { intros n. rewrite HT, refs_insert, Ht. cbn [default]. unfold id, occ. cbn [fds].
    rewrite (countb_set _ None) by lia. unfold held. lia. }
  split; rewrite ?HC; try lia.
  - rewrite HT. intros t' x' [[<- <-]|[_ Hx]]%lookup_insert_Some; [|by eapply B2]. cbn [fds]. by rewrite length_arr_set.
  - rewrite HT. intros t' x' [[<- <-]|[_ Hx]]%lookup_insert_Some He; [|by eapply B3]. cbn [t_count].
    rewrite (Hcount He), (B3 _ _ Ht He). unfold occupied. cbn [fds]. by rewrite (countb_set _ None) by lia.
  - rewrite HT. intros t' x' i n [[<- <-]|[_ Hx]]%lookup_insert_Some Hi; [|by eapply B4]. cbn [fds] in Hi.
    unfold arr_set in Hi. apply list_lookup_insert_Some in Hi as [(_ & -> & _)|[_ Hi]]; [by apply Hy|by eapply B4].
  - intros n Hr Hpos Hnone. destruct (Hn n Hr) as [Href Hops]. destruct (Hops Hnone) as [Hold|H0].
    + destruct (decide (0 < refs n (fd_tables s))) as [Hp|Hp]; [by apply (B5 n Hr Hp)|].
      rewrite Hrefs in Hpos. destruct (decide (y = Some n)) as [->|Hyn]; [by destruct (Hy n eq_refl)|].
      unfold held in Hpos. rewrite (bool_decide_eq_false_2 (y = Some n)) in Hpos by done.
      destruct (bool_decide (arr_get _ _ _ = _)); cbn [Z.b2z] in Hpos; lia.
    + rewrite Href, B6 in H0 by done. rewrite Hrefs in Hpos. lia.
  - intros n Hr. destruct (Hn n Hr) as [-> _]. by rewrite Hrefs, B6.
  - rewrite HT. apply lookup_insert_is_Some'. by right.
  - rewrite HT, lookup_insert_ne; [done|]. intros ->. congruence.
  - rewrite HT. intros t' Ht' Hz. destruct (B9 t' Ht' Hz). split; [done|]. apply lookup_insert_is_Some'. by right.
Qed.
End invariant.

(** What the layer relies on in the virtual files: they use the layer only
    through reads and writes, which move no descriptor. *)
Class VfsBackendOk (E : Type) `{VfsBackend E} : Prop := {
  vfile_read_same : forall p (s : vfs E) out r s', vfile_read p s = Some (out, r, s') -> same_fds s s';
  vfile_write_same : forall p b (s : vfs E) r s', vfile_write p b s = (r, s') -> same_fds s s'
}.

Section operations.
Context {E : Type} `{VfsBackendOk E} (fuel : nat).
Implicit Types (s : vfs E) (t n : Z) (x : fd_table).

Lemma ops_close_same o close i s : ops_close o = Some close -> same_fds s (close i s).2.
Proof.
  destruct o; cbn [ops_close]; intros [= <-]; cbn [snd]; try done.
  - unfold vfile_vfs_close. by destruct (_ || _).
  - unfold pipe_vfs_close_read. by destruct (pipe_bad _ _).
  - unfold pipe_vfs_close_write. by destruct (pipe_bad _ _).
  - by destruct (mnt_close _ _).
Qed.

Lemma ops_open_same o open p f s r s' : ops_open fuel o = Some open -> open p f s = Some (r, s') -> same_fds s s'.
Proof.
  destruct o; cbn [ops_open]; intros [= <-].
  - unfold ramfs_vfs_open. intros Ho. destruct (ramfs_strip_slash p); [by simplify_eq|].
    destruct (_ && _); [|by simplify_eq]. apply bind_Some in Ho as ([? ?] & _ & Ho). by simplify_eq.
  - intros Ho. injection Ho as Ho. unfold vfile_vfs_open in Ho. do 2 (destruct (negb _); [by simplify_eq|]).
    destruct (find_first _ _); by simplify_eq.
  - destruct (mnt_open _ _ _). intros Ho. by simplify_eq.
Qed.

Lemma ops_size_same o size i s r s' : ops_size o = Some size -> size i s = Some (r, s') -> same_fds s s'.
Proof.
  destruct o; cbn [ops_size]; intros [= <-]; [intros Ho; by simplify_eq| |intros Ho; by simplify_eq].
  unfold vfile_vfs_size. destruct (vfile_bad _ _); [intros Ho; by simplify_eq|].
  destruct (_ =? 0); [intros Ho; by simplify_eq|].
  intros Ho. apply bind_Some in Ho as ([[out n] s1] & E1 & Ho). simplify_eq. by eapply vfile_read_same.
Qed.

Lemma ops_read_same o read i n off s out r s' :
  ops_read o = Some read -> read i n off s = Some (out, r, s') -> same_fds s s'.
Proof.
  destruct o; cbn [ops_read]; intros [= <-]; try (intros Ho; by simplify_eq).
  - unfold vfile_vfs_read. destruct (vfile_bad _ _); [intros Ho; by simplify_eq|].
    intros Ho. apply bind_Some in Ho as ([[b k] s1] & E1 & Ho). apply vfile_read_same in E1.
    destruct (k <? 0); [by simplify_eq|]. destruct (k <=? off); by simplify_eq.
  - unfold pipe_vfs_read. destruct (pipe_bad _ _); [intros Ho; by simplify_eq|].
    destruct (n =? 0); [intros Ho; by simplify_eq|]. destruct (_ =? 0); [intros Ho; by simplify_eq|].
    destruct (ring_read _ _). intros Ho. by simplify_eq.
  - destruct (mnt_read _ _ _ _) as [[? ?] ?]. intros Ho. by simplify_eq.
Qed.

Lemma ops_write_same o write i b s r s' :
  ops_write fuel o = Some write -> write i b s = Some (r, s') -> same_fds s s'.
Proof.
  destruct o; cbn [ops_write]; intros [= <-].
  - unfold ramfs_vfs_write. intros Ho. apply bind_Some in Ho as ([? ?] & _ & Ho). by simplify_eq.
  - intros Ho. injection Ho as Ho. unfold vfile_vfs_write in Ho. destruct (vfile_bad _ _); [by simplify_eq|].
    by eapply vfile_write_same.
  - intros Ho. injection Ho as Ho. unfold pipe_vfs_write in Ho. destruct (pipe_bad _ _); [by simplify_eq|].
    destruct (_ =? 0); [by simplify_eq|]. destruct (_ <=? _); [by simplify_eq|].
    destruct (ring_write _ _). by simplify_eq.
  - unfold console_vfs_write. intros Ho. by simplify_eq.
  - destruct (mnt_write _ _ _). intros Ho. by simplify_eq.
Qed.

(** Changing a node but not its reference count or operations. *)
Lemma set_node_same n y s : len (node_pool s) = MAX_VFS_NODES -> 0 <= n < MAX_VFS_NODES ->
  ref_count y = ref_count (node s n) -> n_ops y = n_ops (node s n) -> same_fds s (set_node n y s).
Proof.
  intros Hl Hn Hr Ho. split; [done|done|apply length_arr_set| |]; intros m Hm;
    (destruct (decide (n = m)) as [<-|Hne]; [by rewrite node_set_eq|by rewrite node_set_ne by lia]).
Qed.

(** The same whatever the index. *)
Lemma set_node_keeps n y s : ref_count y = ref_count (node s n) -> n_ops y = n_ops (node s n) -> same_fds s (set_node n y s).
Proof.
  intros Hr Ho. split; [done|done|apply length_arr_set| |]; intros m Hm; unfold node, arr_get, set_node, arr_set in *;
    cbn [node_pool set_node_pool];
    (destruct (decide (Z.to_nat n = Z.to_nat m)) as [Heq|Hne]; [|by rewrite list_lookup_insert_ne]);
    rewrite <- Heq; (destruct (decide (Z.to_nat n < length (node_pool s))%nat);
      [by rewrite list_lookup_insert_eq|by rewrite list_insert_ge by lia]).
Qed.

Lemma vfs_read_same fd size s out r s' : vfs_read fd size s = Some (out, r, s') -> same_fds s s'.
Proof.
  unfold vfs_read. destruct (fd_table_get _ fd s) as [n|]; [|intros Hrun; by simplify_eq].
  destruct (n_ops (node s n)) as [o|]; cbn [mbind option_bind]; [|intros Hrun; by simplify_eq].
  destruct (ops_read o) as [read|] eqn:Er; [|intros Hrun; by simplify_eq].
  destruct (_ =? VFS_O_WRONLY); [intros Hrun; by simplify_eq|].
  intros Hrun. apply bind_Some in Hrun as ([[b k] s1] & E1 & Hrun). apply (ops_read_same o read) in E1; [|done].
  injection Hrun as <- <- <-. destruct (0 <? k); [|done]. etransitivity; [exact E1|]. by apply set_node_keeps.
Qed.

(** A node without references may change its operations. *)
Lemma set_idle_node ex n y s : fd_inv ex s -> 0 <= n < MAX_VFS_NODES -> ref_count (node s n) = 0 -> ref_count y = 0 ->
  fd_inv ex (set_node n y s).
Proof.
  intros [B1 B2 B3 B4 B5 B6 B7 B8 B9] Hn Hz Hy. split; try done.
  - unfold set_node. cbn [node_pool set_node_pool]. by rewrite length_arr_set.
  - intros m Hm Hp. cbn [fd_tables set_node set_node_pool] in Hp. destruct (decide (n = m)) as [<-|Hne].
    + rewrite <- B6, Hz in Hp by done. lia.
    + rewrite node_set_ne by lia. by apply B5.
  - intros m Hm. cbn [fd_tables set_node set_node_pool]. destruct (decide (n = m)) as [<-|Hne].
    + by rewrite node_set_eq, Hy, <- B6, Hz.
    + rewrite node_set_ne by lia. by apply B6.
Qed.

Lemma alloc_node_spec s n s' : alloc_node s = (Some n, s') ->
  0 <= n < MAX_VFS_NODES /\ ref_count (node s n) = 0 /\ n_ops (node s n) = None /\ s' = set_node n (with_ref 1 (node s n)) s.
Proof.
  unfold alloc_node. destruct (find_first _ _) as [i|] eqn:E0; [|done]. intros [= <- <-].
  apply find_first_Some in E0 as [Hi Hf]. apply elem_of_seqZ in Hi. zbool.
  split; [lia|]. split; [done|]. split; [by eapply bool_decide_eq_true_1|done].
Qed.

Lemma set_node_twice n y z s : set_node n y (set_node n z s) = set_node n y s.
Proof. unfold set_node, arr_set. cbn [node_pool set_node_pool]. by rewrite list_insert_insert_eq. Qed.

Lemma drop_ref_view n s : len (node_pool s) = MAX_VFS_NODES -> 0 <= n < MAX_VFS_NODES ->
  let s' := drop_ref n s in
  fd_tables s' = fd_tables s /\ cur_proc s' = cur_proc s /\ length (node_pool s') = length (node_pool s) /\
  (forall m, 0 <= m < MAX_VFS_NODES -> n <> m -> ref_count (node s' m) = ref_count (node s m) /\ n_ops (node s' m) = n_ops (node s m)) /\
  if ref_count (node s n) <=? 1 then ref_count (node s' n) = 0 /\ n_ops (node s' n) = None
  else ref_count (node s' n) = ref_count (node s n) - 1 /\ n_ops (node s' n) = n_ops (node s n).
Proof.
  intros Hl Hn. unfold drop_ref. set (s1 := add_ref n (-1) s).
  assert (H1 : node s1 n = with_ref (ref_count (node s n) + -1) (node s n)) by by apply node_set_eq.
  assert (Hl1 : length (node_pool s1) = length (node_pool s)) by apply length_arr_set.
  assert (Hne1 : forall m, 0 <= m -> n <> m -> node s1 m = node s m) by (intros; apply node_set_ne; lia).
  rewrite H1. cbn [ref_count with_ref]. replace (ref_count (node s n) + -1 <=? 0) with (ref_count (node s n) <=? 1)
    by (destruct (Z.leb_spec (ref_count (node s n)) 1), (Z.leb_spec (ref_count (node s n) + -1) 0); done || lia).
  destruct (ref_count (node s n) <=? 1) eqn:Er.
  - set (s2 := match _ with Some _ => _ | None => _ end).
    assert (Hs2 : same_fds s1 s2).
    { unfold s2. cbn [n_ops with_ref]. destruct (n_ops (node s n)) as [o|]; [|done].
      destruct (ops_close o) as [close|] eqn:Ec; [|done]. by apply (ops_close_same o). }
    clearbody s2. destruct Hs2 as [A1 A2 A3 A4 A5]. unfold free_node. cbn [fd_tables cur_proc set_node set_node_pool node_pool].
    split; [done|]. split; [done|]. split; [rewrite length_arr_set; lia|]. rewrite node_set_eq by (lia || done). split; [|done].
    intros m Hm Hne. rewrite node_set_ne by lia. rewrite A4, A5, Hne1 by lia. done.
  - split; [done|]. split; [done|]. split; [done|]. split; [|rewrite H1; split; [cbn [ref_count with_ref]; lia|done]].
    intros m Hm Hne. by rewrite Hne1 by lia.
Qed.

(** An occupied slot refers to a node that is counted. *)
Lemma slot_node ex t fd n s : fd_inv ex s -> slot t fd s = Some n -> 0 <= fd < VFS_MAX_FDS ->
  exists x, fd_tables s !! t = Some x /\ table s t = x /\ arr_get None (fds x) fd = Some n /\
    0 <= n < MAX_VFS_NODES /\ 1 <= ref_count (node s n) /\ n_ops (node s n) <> None.
Proof.
  intros Hinv Hs Hfd. unfold slot, table in *. destruct (fd_tables s !! t) as [x|] eqn:Et; cbn [default] in *.
  - unfold id in *. exists x. unfold arr_get in *. destruct (fds x !! Z.to_nat fd) as [y|] eqn:Ef; cbn in Hs; [|done]. subst y.
    pose proof (fi_range _ _ Hinv _ _ _ _ Et Ef) as Hn. pose proof (refs_slot n _ _ _ _ Et Ef) as Hr.
    rewrite (fi_refs _ _ Hinv n Hn). split; [done|]. split; [done|]. split; [done|]. split; [done|]. split; [lia|].
    by apply (fi_live _ _ Hinv).
  - done.
Qed.

Lemma fd_table_get_slot t fd s n : fd_table_get t fd s = Some n -> slot t fd s = Some n /\ 0 <= fd < VFS_MAX_FDS.
Proof. unfold fd_table_get. destruct (_ || _) eqn:E0; [done|]. zbool. intros. split; [done|lia]. Qed.

Lemma held_self n : held (Some n) n = 1.
Proof. unfold held. by rewrite bool_decide_eq_true_2. Qed.
Lemma held_other y n : y <> Some n -> held y n = 0.
Proof. intros. unfold held. by rewrite bool_decide_eq_false_2. Qed.

Lemma drop_slot_inv ex t fd n d s : fd_inv ex s -> slot t fd s = Some n -> 0 <= fd < VFS_MAX_FDS ->
  (ex <> Some t -> d = -1) -> fd_inv ex (put_slot t fd None d (drop_ref n s)).
Proof.
  intros Hinv Hs Hfd Hd. destruct (slot_node _ _ _ _ _ Hinv Hs Hfd) as (x & Ht & Htab & Hg & Hn & Hr & _).
  destruct (drop_ref_view n s (fi_pool _ _ Hinv) Hn) as (V1 & V2 & V3 & V4 & V5).
  assert (Htab' : table (drop_ref n s) t = x) by (unfold table; by rewrite V1, Ht).
  eapply (slot_update ex s _ t x fd None _ Hinv Ht Hfd).
  - unfold put_slot, set_table. cbn [fd_tables set_fd_tables]. rewrite Htab', V1. done.
  - done.
  - done.
  - intros He. rewrite Hg, (Hd He). cbn. lia.
  - done.
  - intros m Hm. unfold put_slot, set_table. change (node (set_fd_tables _ (drop_ref n s)) m) with (node (drop_ref n s) m).
    rewrite Hg, (held_other None) by done. destruct (decide (n = m)) as [<-|Hne].
    + rewrite held_self. destruct (_ <=? 1) eqn:E1; zbool; destruct V5 as [-> ->]; split; try lia; auto.
    + rewrite held_other by congruence. destruct (V4 m Hm Hne) as [-> ->]. split; [lia|auto].
Qed.

Lemma close_inv ex t fd s : fd_inv ex s -> ex <> Some t -> fd_inv ex (fd_table_close t fd s).2.
Proof.
  intros Hinv He. unfold fd_table_close. destruct (fd_table_get t fd s) as [n|] eqn:Eg; [|done].
  apply fd_table_get_slot in Eg as [Hs Hfd]. by apply drop_slot_inv.
Qed.

(** Filling a free slot with a node that has operations. *)
Lemma fill_slot_inv t fd n s : fd_inv None s -> is_Some (fd_tables s !! t) -> slot t fd s = None ->
  0 <= fd < VFS_MAX_FDS -> 0 <= n < MAX_VFS_NODES -> n_ops (node s n) <> None ->
  fd_inv None (add_ref n 1 (put_slot t fd (Some n) 1 s)).
Proof.
  intros Hinv [x Ht] Hs Hfd Hn Ho. pose proof (fi_pool _ _ Hinv) as Hl.
  assert (Htab : table s t = x) by (unfold table; by rewrite Ht).
  unfold slot in Hs. rewrite Htab in Hs. set (s1 := put_slot t fd (Some n) 1 s).
  assert (Hnode : forall m, node s1 m = node s m) by done.
  assert (Hself : node (add_ref n 1 s1) n = with_ref (ref_count (node s n) + 1) (node s n)) by by apply node_set_eq.
  eapply (slot_update None s _ t x fd (Some n) _ Hinv Ht Hfd).
  - unfold add_ref, s1, put_slot, set_table. cbn [fd_tables set_fd_tables set_node set_node_pool]. by rewrite Htab.
  - done.
  - apply length_arr_set.
  - intros _. rewrite Hs. cbn. lia.
  - intros m [= <-]. by rewrite Hself.
  - intros m Hm. rewrite Hs, (held_other None) by done. destruct (decide (n = m)) as [<-|Hne].
    + rewrite held_self, Hself. cbn [ref_count n_ops with_ref]. split; [lia|auto].
    + rewrite held_other by congruence. unfold add_ref. rewrite node_set_ne by lia. rewrite Hnode. split; [lia|auto].
Qed.

Lemma alloc_inv t n s : fd_inv None s -> is_Some (fd_tables s !! t) -> 0 <= n < MAX_VFS_NODES ->
  n_ops (node s n) <> None -> fd_inv None (fd_table_alloc t n s).2.
Proof.
  intros Hinv Ht Hn Ho. unfold fd_table_alloc. destruct (find_first _ _) as [i|] eqn:Ef; [|done].
  apply find_first_Some in Ef as [Hi Hs]. apply elem_of_seqZ in Hi. apply bool_decide_eq_true in Hs.
  by apply fill_slot_inv.
Qed.

(** The standard descriptors of a table whose first slots are free. *)
Lemma install_std_inv t todo : NoDup todo -> forall s, fd_inv None s -> is_Some (fd_tables s !! t) ->
  Forall (fun fd => 0 <= fd < VFS_MAX_FDS /\ slot t fd s = None) todo -> fd_inv None (install_std t todo s).
Proof.
  induction 1 as [|fd todo Hfd _ IH]; intros s Hinv Ht Hall; cbn [install_std]; [done|].
  apply Forall_cons in Hall as [[Hr Hs] Hall]. destruct (alloc_node s) as [[n|] s1] eqn:Ea.
  2:{ unfold alloc_node in Ea. destruct (find_first _ _); [done|]. by injection Ea as <-. }
  destruct (alloc_node_spec _ _ _ Ea) as (Hn & Hz & _ & ->). rewrite set_node_twice.
  set (y := VfsNode _ _ _ _ _ 1 _). destruct Ht as [x Ht].
  assert (Htab : table s t = x) by (unfold table; by rewrite Ht).
  unfold slot in Hs. rewrite Htab in Hs. pose proof (fi_pool _ _ Hinv) as Hl. apply IH.
  - eapply (slot_update None s _ t x fd (Some n) _ Hinv Ht Hr).
    + unfold put_slot, set_table. cbn [fd_tables set_fd_tables set_node set_node_pool].
      change (table (set_node n y s) t) with (table s t). by rewrite Htab.
    + done.
    + apply length_arr_set.
    + intros _. rewrite Hs. cbn. lia.
    + intros m [= <-]. change (node (put_slot t fd (Some n) 1 (set_node n y s)) n) with (node (set_node n y s) n).
      by rewrite node_set_eq.
    + intros m Hm. change (node (put_slot t fd (Some n) 1 (set_node n y s)) m) with (node (set_node n y s) m).
      rewrite Hs, (held_other None) by done. destruct (decide (n = m)) as [<-|Hne].
      * rewrite held_self, node_set_eq by done. cbn [ref_count n_ops y]. split; [lia|done].
      * rewrite held_other, node_set_ne by (congruence || lia). split; [lia|auto].
  - unfold put_slot, set_table. cbn [fd_tables set_fd_tables]. rewrite lookup_insert_eq. by eexists.
  - apply Forall_forall. intros fd' Hin. rewrite Forall_forall in Hall. destruct (Hall fd' Hin) as [Hr' Hs'].
    split; [done|]. unfold slot, put_slot, set_table, table in *. cbn [fd_tables set_fd_tables set_node set_node_pool].
    rewrite lookup_insert_eq. cbn [default]. unfold id. cbn [fds]. rewrite arr_get_set_ne; [done|lia|lia|congruence].
Qed.

Lemma current_table ex s : fd_inv ex s -> is_Some (fd_tables s !! get_current_fd_table s).
Proof.
  intros Hinv. unfold get_current_fd_table. destruct (cur_proc s) as [t|] eqn:Ec; [|apply Hinv].
  destruct (Z.eqb_spec t 0); [apply Hinv|]. by apply (fi_cur _ _ Hinv).
Qed.

Lemma new_table_inv p s : fd_inv None s -> fd_tables s !! p = None -> p <> 0 -> fd_inv None (set_table p empty_table s).
Proof.
  intros [B1 B2 B3 B4 B5 B6 B7 B8 B9] Hp Hz.
  assert (Hr : forall n, refs n (fd_tables (set_table p empty_table s)) = refs n (fd_tables s)).
  { intros n. unfold set_table. cbn [fd_tables set_fd_tables]. rewrite refs_insert, Hp. change (occ n (default no_table None)) with 0. change (occ n empty_table) with 0. lia. }
  unfold set_table in *. split; cbn [fd_tables set_fd_tables cur_proc] in *; try done.
  - intros t x [[<- <-]|[_ Hx]]%lookup_insert_Some; [done|by eapply B2].
  - intros t x [[<- <-]|[_ Hx]]%lookup_insert_Some He; [done|by eapply B3].
  - intros t x i n [[<- <-]|[_ Hx]]%lookup_insert_Some Hi; [|by eapply B4].
    cbn [fds empty_table] in Hi. by apply lookup_replicate in Hi as [? _].
  - intros n. rewrite Hr. apply B5.
  - intros n. rewrite Hr. apply B6.
  - apply lookup_insert_is_Some'. by right.
  - rewrite lookup_insert_ne by congruence. done.
  - intros t Ht Hz'. destruct (B9 t Ht Hz'). split; [done|]. apply lookup_insert_is_Some'. by right.
Qed.

(** Installing the standard descriptors leaves nodes in use alone. *)
Lemma install_std_frame t todo : forall s,
  let s' := install_std t todo s in
  cur_proc s' = cur_proc s /\ (forall t', is_Some (fd_tables s !! t') -> is_Some (fd_tables s' !! t')) /\
  (forall m, 0 <= m -> n_ops (node s m) <> None -> node s' m = node s m).
Proof.
  induction todo as [|fd todo IH]; intros s; cbn [install_std]; [done|].
  destruct (alloc_node s) as [[n|] s1] eqn:Ea.
  - destruct (alloc_node_spec _ _ _ Ea) as (Hn & _ & Ho & ->). rewrite set_node_twice.
    set (y := VfsNode _ _ _ _ _ 1 _). set (s2 := put_slot t fd (Some n) 1 (set_node n y s)).
    destruct (IH s2) as (C1 & C2 & C3). split; [done|]. split.
    + intros t' Ht'. apply C2. apply lookup_insert_is_Some'. by right.
    + intros m Hm Hom. assert (Hne : n <> m) by congruence.
      assert (E2 : node s2 m = node s m) by (apply node_set_ne; lia). rewrite C3; [done|done|by rewrite E2].
  - unfold alloc_node in Ea. destruct (find_first _ _); [done|]. by injection Ea as <-.
Qed.

(** The allocator hands out no address at which a descriptor table lives. *)
Definition fresh_table s : Prop :=
  forall p h, kmalloc fuel sizeof_fd_table (vheap s) = Some (p, h) -> fd_tables s !! p = None.

Lemma create_inv s p s' : fd_inv None s -> fresh_table s -> fd_table_create fuel s = Some (p, s') ->
  fd_inv None s' /\ cur_proc s' = cur_proc s /\ (p <> 0 -> p <> kernel_fd_table /\ is_Some (fd_tables s' !! p)) /\
  (forall m, 0 <= m -> n_ops (node s m) <> None -> node s' m = node s m).
Proof.
  intros Hinv Hfresh Hrun. unfold fd_table_create in Hrun. apply bind_Some in Hrun as ([q h] & Hk & Hrun).
  specialize (Hfresh _ _ Hk). assert (Hs : fd_inv None (set_vheap h s)) by by apply (fd_inv_same None s).
  destruct (Z.eqb_spec q 0) as [->|Hq]; simplify_eq; [done|].
  pose proof (new_table_inv p (set_vheap h s) Hs Hfresh Hq) as Hnew.
  set (s1 := set_table p empty_table (set_vheap h s)) in *. unfold fd_table_install_std.
  destruct (install_std_frame p [0; 1; 2] s1) as (C1 & C2 & C3). split; [|split; [done|split; [|done]]].
  - apply install_std_inv; [|done|by eexists; apply lookup_insert_eq|].
    + by apply (bool_decide_eq_true_1 (NoDup [0; 1; 2])).
    + assert (Hslot : forall fd, slot p fd s1 = arr_get None (fds empty_table) fd).
      { intros fd. unfold slot, table, s1. cbn [fd_tables set_table set_fd_tables]. by rewrite lookup_insert_eq. }
      repeat (apply Forall_cons; split; [by rewrite Hslot|]). constructor.
  - intros _. split; [intros ->; destruct (fi_kernel _ _ Hinv) as [x Hx]; congruence|].
    apply C2. eexists. apply lookup_insert_eq.
Qed.

Lemma set_cur_inv ex c s : fd_inv ex s ->
  (forall t, c = Some t -> t <> 0 -> t <> kernel_fd_table /\ is_Some (fd_tables s !! t)) -> fd_inv ex (set_cur_proc c s).
Proof. intros [B1 B2 B3 B4 B5 B6 B7 B8 B9] Hc. by split. Qed.

(** What [fd_table_alloc] leaves alone. *)
Lemma alloc_frame t n s : len (node_pool s) = MAX_VFS_NODES -> 0 <= n < MAX_VFS_NODES ->
  let '(fd, s') := fd_table_alloc t n s in
  cur_proc s' = cur_proc s /\ (fd < 0 -> s' = s) /\
  (forall t', is_Some (fd_tables s !! t') -> is_Some (fd_tables s' !! t')) /\
  (forall m, 0 <= m -> n_ops (node s' m) = n_ops (node s m)).
Proof.
  intros Hl Hn. unfold fd_table_alloc. destruct (find_first _ _) as [i|] eqn:Ef; [|done].
  apply find_first_Some in Ef as [Hi _]. apply elem_of_seqZ in Hi. split; [done|]. split; [lia|]. split.
  - intros t' Ht'. apply lookup_insert_is_Some'. by right.
  - intros m Hm. unfold add_ref. destruct (decide (n = m)) as [<-|Hne]; [by rewrite node_set_eq|].
    by rewrite node_set_ne by lia.
Qed.

Lemma slot_put t fd y d s fd' : 0 <= fd < VFS_MAX_FDS -> 0 <= fd' -> len (fds (table s t)) = VFS_MAX_FDS ->
  slot t fd' (put_slot t fd y d s) = if fd =? fd' then y else slot t fd' s.
Proof.
  intros Hfd Hfd' Hl. unfold slot, put_slot. set (x := table s t) in *. unfold table, set_table. cbn [fd_tables set_fd_tables].
  rewrite lookup_insert_eq. cbn [default]. unfold id. cbn [fds]. rewrite arr_get_set by lia. done.
Qed.

Lemma table_len ex t s : fd_inv ex s -> is_Some (fd_tables s !! t) -> len (fds (table s t)) = VFS_MAX_FDS.
Proof. intros Hinv [x Hx]. unfold table. rewrite Hx. cbn. by apply (fi_len _ _ Hinv t). Qed.

Lemma clone_inv src dst l : NoDup l -> forall s, fd_inv None s -> is_Some (fd_tables s !! dst) ->
  Forall (fun fd => 0 <= fd < VFS_MAX_FDS /\ slot dst fd s = None) l ->
  fd_inv None (foldl (clone_slot src dst) s l).
Proof.
  induction 1 as [|fd l Hfd _ IH]; intros s Hinv Hd Hall; cbn [foldl]; [done|].
  apply Forall_cons in Hall as [[Hr Hs] Hall]. unfold clone_slot at 2.
  destruct (slot src fd s) as [n|] eqn:Es; [|by apply IH].
  destruct (slot_node _ _ _ _ _ Hinv Es Hr) as (x & _ & _ & _ & Hn & _ & Ho). apply IH.
  - by apply fill_slot_inv.
  - apply lookup_insert_is_Some'. by left.
  - apply Forall_forall. intros fd' Hin. rewrite Forall_forall in Hall. destruct (Hall fd' Hin) as [Hr' Hs'].
    split; [done|]. change (slot dst fd' (add_ref n 1 (put_slot dst fd (Some n) 1 s)))
      with (slot dst fd' (put_slot dst fd (Some n) 1 s)).
    rewrite slot_put; [|done|lia|by eapply table_len]. rewrite (proj2 (Z.eqb_neq fd fd')); [done|congruence].
Qed.

Lemma fd_table_clone_inv src s p s' : fd_inv None s -> fresh_table s -> fd_table_clone fuel src s = Some (p, s') ->
  fd_inv None s'.
Proof.
  intros Hinv Hfresh Hrun. unfold fd_table_clone in Hrun. apply bind_Some in Hrun as ([q h] & Hk & Hrun).
  specialize (Hfresh _ _ Hk). assert (Hs : fd_inv None (set_vheap h s)) by by apply (fd_inv_same None s).
  destruct (Z.eqb_spec q 0) as [->|Hq]; simplify_eq; [done|]. apply clone_inv.
  - apply NoDup_seqZ.
  - by apply new_table_inv.
  - eexists. apply lookup_insert_eq.
  - apply Forall_forall. intros fd Hfd%elem_of_seqZ. split; [lia|]. unfold slot, table, set_table. cbn [fd_tables set_fd_tables].
    rewrite lookup_insert_eq. cbn [default]. unfold id, empty_table. cbn [fds]. apply arr_get_replicate.
    unfold VFS_MAX_FDS in *. lia.
Qed.

(** Emptying a table slot by slot. *)
Lemma destroy_slots t l : forall s, fd_inv (Some t) s -> is_Some (fd_tables s !! t) ->
  Forall (fun fd => 0 <= fd < VFS_MAX_FDS) l ->
  let s' := foldl (destroy_slot t) s l in
  fd_inv (Some t) s' /\ cur_proc s' = cur_proc s /\ is_Some (fd_tables s' !! t) /\
  (forall fd, 0 <= fd < VFS_MAX_FDS -> fd ∈ l \/ slot t fd s = None -> slot t fd s' = None).
Proof.
  induction l as [|fd l IH]; intros s Hinv Ht Hall; cbn [foldl].
  { split; [done|]. split; [done|]. split; [done|]. intros fd _ [Hin|Hn]; [by apply elem_of_nil in Hin|done]. }
  apply Forall_cons in Hall as [Hr Hall].
  assert (Hstep : fd_inv (Some t) (destroy_slot t s fd) /\ cur_proc (destroy_slot t s fd) = cur_proc s /\
    is_Some (fd_tables (destroy_slot t s fd) !! t) /\
    forall fd', 0 <= fd' < VFS_MAX_FDS -> fd' = fd \/ slot t fd' s = None -> slot t fd' (destroy_slot t s fd) = None).
  { unfold destroy_slot. destruct (slot t fd s) as [n|] eqn:Es.
    - destruct (slot_node _ _ _ _ _ Hinv Es Hr) as (x & Hx & _ & _ & Hn & _).
      destruct (drop_ref_view n s (fi_pool _ _ Hinv) Hn) as (V1 & V2 & _).
      split; [by apply drop_slot_inv|]. split; [done|]. split; [apply lookup_insert_is_Some'; by left|].
      intros fd' Hfd' Hor. assert (Hsl : forall f, slot t f (drop_ref n s) = slot t f s) by (intros; unfold slot, table; by rewrite V1).
      rewrite slot_put; [|done|lia|unfold table; rewrite V1, Hx; by apply (fi_len _ _ Hinv t)].
      destruct (Z.eqb_spec fd fd'); [done|]. rewrite Hsl. destruct Hor; [congruence|done].
    - split; [done|]. split; [done|]. split; [done|]. intros fd' _ [->|?]; done. }
  destruct Hstep as (S1 & S2 & S3 & S4). destruct (IH _ S1 S3 Hall) as (D1 & D2 & D3 & D4).
  split; [done|]. split; [congruence|]. split; [done|]. intros fd' Hfd' Hor. apply D4; [done|].
  destruct (decide (fd' ∈ l)); [by left|right]. apply S4; [done|].
  destruct Hor as [Hin|?]; [|by right]. apply elem_of_cons in Hin as [->|?]; [by left|done].
Qed.

(** Removing a table whose slots are all free. *)
Lemma remove_table_inv s t h : fd_inv (Some t) s -> t <> 0 -> t <> kernel_fd_table -> is_Some (fd_tables s !! t) ->
  (forall fd, 0 <= fd < VFS_MAX_FDS -> slot t fd s = None) ->
  fd_inv None (set_cur_proc (Some 0) (set_fd_tables (delete t (fd_tables s)) (set_vheap h s))).
Proof.
  intros D1 Hz Hk [x Hx] Hfree.
  assert (Hnone : forall y, y ∈ fds x -> y = None).
  { intros y [i Hi]%list_elem_of_lookup_1. pose proof (lookup_lt_Some _ _ _ Hi).
    pose proof (fi_len _ _ D1 _ _ Hx) as Hl. specialize (Hfree (Z.of_nat i)). unfold slot, table in Hfree. rewrite Hx in Hfree.
    cbn [default] in Hfree. unfold id, arr_get in Hfree. rewrite Nat2Z.id, Hi in Hfree. apply Hfree. lia. }
  assert (Hocc : forall n, occ n x = 0).
  { intros n. apply countb_none. intros y Hy. by rewrite (Hnone y Hy). }
  assert (Hr : forall n, refs n (delete t (fd_tables s)) = refs n (fd_tables s)) by (intros n; by eapply refs_delete).
  destruct D1 as [B1 B2 B3 B4 B5 B6 B7 B8 B9]. unfold set_vheap.
  split; cbn [fd_tables cur_proc set_cur_proc set_fd_tables set_rfs node_pool]; try done.
  - intros t' x' [_ Hx']%lookup_delete_Some. by eapply B2.
  - intros t' x' [Hne Hx']%lookup_delete_Some _. apply (B3 t'); [done|congruence].
  - intros t' x' i n [_ Hx']%lookup_delete_Some. by eapply B4.
  - intros n. rewrite Hr. apply B5.
  - intros n. rewrite Hr. apply B6.
  - by rewrite lookup_delete_ne.
  - by rewrite lookup_delete_ne.
  - intros t' [= <-]. done.
Qed.

Lemma drop_slots_inv t s : fd_inv None s -> is_Some (fd_tables s !! t) ->
  fd_inv (Some t) (drop_slots t s) /\ is_Some (fd_tables (drop_slots t s) !! t) /\
  (forall fd, 0 <= fd < VFS_MAX_FDS -> slot t fd (drop_slots t s) = None).
Proof.
  intros Hinv Ht. assert (Hex : fd_inv (Some t) s) by (destruct Hinv; by split; eauto).
  destruct (destroy_slots t (seqZ 0 VFS_MAX_FDS) s Hex Ht) as (D1 & _ & D3 & D4).
  { apply Forall_forall. intros fd Hfd%elem_of_seqZ. lia. }
  split; [exact D1|]. split; [exact D3|]. intros fd Hfd. apply D4; [done|]. left. apply elem_of_seqZ. lia.
Qed.

(** [process_exit]: the table of the current process is destroyed. *)
Lemma exit_inv s t s' : fd_inv None s -> cur_proc s = Some t -> t <> 0 -> fd_table_destroy fuel t s = Some s' ->
  fd_inv None (set_cur_proc (Some 0) s').
Proof.
  intros Hinv Hc Hz Hrun. destruct (fi_cur _ _ Hinv t Hc Hz) as [Hk Ht].
  destruct (drop_slots_inv t s Hinv Ht) as (D1 & D2 & D3). unfold fd_table_destroy in Hrun.
  rewrite (proj2 (Z.eqb_neq t 0)) in Hrun by done. cbn zeta in Hrun. generalize dependent (drop_slots t s).
  intros s1 Hrun D1 D2 D3. apply bind_Some in Hrun as (h & _ & [= <-]). by apply remove_table_inv.
Qed.

Lemma set_node_comm n m y z s : 0 <= n -> 0 <= m -> n <> m -> set_node n y (set_node m z s) = set_node m z (set_node n y s).
Proof.
  intros. unfold set_node, arr_set, set_node_pool. cbn. f_equal. apply list_insert_insert_ne. lia.
Qed.

(** Two idle nodes get their operations. *)
Lemma set_idle_pair rn wn y z s : fd_inv None s -> 0 <= rn < MAX_VFS_NODES -> 0 <= wn < MAX_VFS_NODES -> rn <> wn ->
  ref_count (node s rn) = 0 -> ref_count (node s wn) = 0 -> ref_count y = 0 -> ref_count z = 0 ->
  fd_inv None (set_node wn z (set_node rn y s)).
Proof.
  intros Hinv Hr Hw Hne H1 H2 Hy Hz. apply set_idle_node; try done; [by apply set_idle_node|].
  by rewrite node_set_ne by lia.
Qed.

(** The descriptors of both ends; one that cannot be placed undoes the other. *)
Lemma pipe_ends_inv rn wn s : fd_inv None s -> 0 <= rn < MAX_VFS_NODES -> 0 <= wn < MAX_VFS_NODES ->
  n_ops (node s rn) <> None -> n_ops (node s wn) <> None ->
  let t := get_current_fd_table s in
  let '(f0, s1) := fd_table_alloc t rn s in
  let '(f1, s2) := fd_table_alloc t wn s1 in
  fd_inv None s2 /\
  fd_inv None (let s := if 0 <=? f0 then (fd_table_close t f0 s2).2 else s2 in
               if 0 <=? f1 then (fd_table_close t f1 s).2 else s).
Proof.
  intros Hinv Hr Hw Ho1 Ho2 t. pose proof (current_table _ _ Hinv) as Ht.
  pose proof (alloc_inv t rn s Hinv Ht Hr Ho1) as I1.
  pose proof (alloc_frame t rn s (fi_pool _ _ Hinv) Hr) as F1. destruct (fd_table_alloc t rn s) as [f0 s1].
  destruct F1 as (_ & _ & F1 & F2). cbn [snd] in I1.
  assert (I2 : fd_inv None (fd_table_alloc t wn s1).2) by (apply alloc_inv; [done|by apply F1|done|rewrite F2; [done|lia]]).
  destruct (fd_table_alloc t wn s1) as [f1 s2]. cbn [snd] in I2. split; [done|]. cbn zeta.
  destruct (0 <=? f0), (0 <=? f1); repeat (apply close_inv; [|done]); done.
Qed.

Lemma set_pipe_inv i p s : fd_inv None s -> fd_inv None (set_pipe i p s).
Proof. by apply fd_inv_same. Qed.

Lemma vfs_pipe_inv s r f s' : fd_inv None s -> vfs_pipe s = (r, f, s') -> fd_inv None s'.
Proof.
  intros Hinv. unfold vfs_pipe. destruct (pipe_alloc_index s) as [idx|]; [|intros Hrun; by simplify_eq].
  set (s0 := set_pipe idx _ s). assert (I0 : fd_inv None s0) by by apply (fd_inv_same None s).
  clearbody s0. clear Hinv. destruct (alloc_node s0) as [[rn|] s1] eqn:Er.
  - destruct (alloc_node_spec _ _ _ Er) as (Hrn & Hr0 & _ & ->).
    destruct (alloc_node (set_node rn _ s0)) as [[wn|] s2] eqn:Ew.
    + destruct (alloc_node_spec _ _ _ Ew) as (Hwn & Hw0 & _ & ->).
      assert (Hne : rn <> wn) by (intros <-; by rewrite node_set_eq in Hw0 by (apply I0 || done)).
      rewrite node_set_ne in Hw0 by lia. rewrite (node_set_ne rn wn) by lia.
      assert (Hpair : forall y z u v, set_node wn z (set_node rn y (set_node wn v (set_node rn u s0))) =
        set_node wn z (set_node rn y s0)).
      { intros y z u v. by rewrite (set_node_comm rn wn), !set_node_twice by lia. }
      cbn zeta. rewrite Hpair.
      set (y := VfsNode VFS_TYPE_PIPE_READ _ _ _ _ _ _). set (z := VfsNode VFS_TYPE_PIPE_WRITE _ _ _ _ _ _).
      pose proof (set_idle_pair rn wn y z s0 I0 Hrn Hwn Hne Hr0 Hw0 eq_refl eq_refl) as I3.
      set (s3 := set_node wn z (set_node rn y s0)) in *.
      assert (Ho1 : n_ops (node s3 rn) <> None) by (unfold s3; by rewrite node_set_ne, node_set_eq by (lia || apply I0 || done)).
      assert (Ho2 : n_ops (node s3 wn) <> None).
      { unfold s3. rewrite node_set_eq; [done| |done]. unfold set_node. cbn [node_pool set_node_pool].
        rewrite length_arr_set. apply I0. }
      pose proof (pipe_ends_inv rn wn s3 I3 Hrn Hwn Ho1 Ho2) as Hends. cbn zeta in Hends.
      destruct (fd_table_alloc _ rn s3) as [f0 s4], (fd_table_alloc _ wn s4) as [f1 s5]. destruct Hends as [G1 G2].
      destruct (_ || _); intros Hrun; simplify_eq; [|done]. by apply set_pipe_inv.
    + intros Hrun. unfold alloc_node in Ew. destruct (find_first _ _); [done|]. simplify_eq.
      apply (fd_inv_same None (set_node rn (VfsNode 0 (-1) None 0 0 0 0) s0)); [|by apply set_idle_node].
      unfold free_node, set_pipe. change (set_node rn ?y (set_pipes ?p (set_node rn ?z s0)))
        with (set_pipes p (set_node rn y (set_node rn z s0))). by rewrite set_node_twice.
  - assert (s1 = s0) as -> by (unfold alloc_node in Er; destruct (find_first _ _); [done|by injection Er]).
    rewrite Er. intros Hrun. simplify_eq. by apply set_pipe_inv.
Qed.

(** Overwriting a node in states that agree elsewhere. *)
Lemma set_node_agree n y z s s' : len (node_pool s) = MAX_VFS_NODES -> 0 <= n < MAX_VFS_NODES ->
  same_fds (set_node n z s) s' -> same_fds (set_node n y s) (set_node n y s').
Proof.
  intros Hl Hn [A1 A2 A3 A4 A5]. unfold set_node in A3. cbn [node_pool set_node_pool] in A3. rewrite length_arr_set in A3.
  split; [done|done| | |].
  - unfold set_node. cbn [node_pool set_node_pool]. by rewrite !length_arr_set.
  - intros m Hm. destruct (decide (n = m)) as [<-|Hne]; [by rewrite !node_set_eq by (lia || done)|].
    rewrite !node_set_ne by lia. rewrite A4, node_set_ne by lia. done.
  - intros m Hm. destruct (decide (n = m)) as [<-|Hne]; [by rewrite !node_set_eq by (lia || done)|].
    rewrite !node_set_ne by lia. rewrite A5, node_set_ne by lia. done.
Qed.

Lemma open_table_inv s t s' : fd_inv None s -> fresh_table s -> open_table fuel s = Some (t, s') ->
  fd_inv None s' /\ (t <> 0 -> is_Some (fd_tables s' !! t)) /\
  (forall m, 0 <= m -> n_ops (node s m) <> None -> node s' m = node s m).
Proof.
  intros Hinv Hfresh. unfold open_table. destruct (cur_proc s) as [c|] eqn:Ec.
  2:{ intros [= <- <-]. split; [done|]. split; [intros _; apply Hinv|done]. }
  destruct (Z.eqb_spec c 0) as [->|Hc]; cbn [negb].
  - intros Hrun. apply bind_Some in Hrun as ([p s1] & Hcr & Hrun). injection Hrun as <- <-.
    destruct (create_inv s p s1 Hinv Hfresh Hcr) as (C1 & C2 & C3 & C4).
    destruct (Z.eqb_spec p 0) as [->|Hp]; [done|]. split; [|split; [by intros; apply C3|done]].
    apply set_cur_inv; [done|]. intros t [= <-]. apply C3.
  - intros [= <- <-]. split; [done|]. split; [|done]. intros _. by apply (fi_cur _ _ Hinv).
Qed.

Lemma open_node_inv path flags s n s' : fd_inv None s -> open_node fuel path flags s = Some (n, s') ->
  fd_inv None s' /\ (n = -1 \/ (0 <= n < MAX_VFS_NODES /\ n_ops (node s' n) <> None /\ ref_count (node s' n) = 0)).
Proof.
  intros Hinv. unfold open_node. destruct (find_ops path s) as [o|]; [|intros Hrun; simplify_eq; auto].
  destruct (ops_open fuel o) as [open|] eqn:Eo; [|intros Hrun; simplify_eq; auto].
  intros Hrun. apply bind_Some in Hrun as ([ifd s1] & Hop & Hrun). pose proof (ops_open_same _ _ _ _ _ _ _ Eo Hop) as S1.
  pose proof (fd_inv_same None s s1 S1 Hinv) as I1. destruct (ifd <? 0); [simplify_eq; auto|].
  destruct (alloc_node s1) as [[m|] s2] eqn:Ea.
  2:{ unfold alloc_node in Ea. destruct (find_first _ _); [done|]. simplify_eq. split; [|by left].
      destruct (ops_close o) as [close|] eqn:Ec; [|done]. eapply fd_inv_same; [by apply (ops_close_same o)|done]. }
  destruct (alloc_node_spec _ _ _ Ea) as (Hn & Hz & _ & ->). clear Ea.
  apply bind_Some in Hrun as ([sz s3] & Esz & Hrun).
  assert (S3 : same_fds (set_node m (with_ref 1 (node s1 m)) s1) s3).
  { destruct (ops_size o) as [size|] eqn:Es; [by apply (ops_size_same o size ifd _ sz)|by simplify_eq]. }
  set (y := VfsNode _ _ _ _ _ 0 _) in Hrun. injection Hrun as <- <-.
  pose proof (set_node_agree m y _ s1 s3 (fi_pool _ _ I1) Hn S3) as S4.
  assert (I4 : fd_inv None (set_node m y s3)) by (eapply fd_inv_same; [exact S4|by apply set_idle_node]).
  split; [done|]. right. split; [done|]. rewrite node_set_eq; [done| |done].
  pose proof (fi_pool _ _ I4) as Hl. unfold set_node in Hl. cbn [node_pool set_node_pool] in Hl.
  by rewrite length_arr_set in Hl.
Qed.

(** When the call creates the table of a process, its address is fresh. *)
Definition open_fresh (path : cstring) (flags : Z) s : Prop :=
  match open_node fuel path flags s with
  | Some (n, s') => 0 <= n -> fresh_table s'
  | None => True
  end.

Lemma vfs_open_inv path flags s r s' : fd_inv None s -> open_fresh path flags s ->
  vfs_open fuel path flags s = Some (r, s') -> fd_inv None s'.
Proof.
  intros Hinv Hfresh Hrun. unfold vfs_open in Hrun. apply bind_Some in Hrun as ([n s1] & Hop & Hrun).
  unfold open_fresh in Hfresh. rewrite Hop in Hfresh. destruct (open_node_inv _ _ _ _ _ Hinv Hop) as [I1 Hn].
  destruct (Z.ltb_spec n 0) as [Hlt|Hge]; [by simplify_eq|]. destruct Hn as [->|(Hn & Ho & Hz)]; [lia|].
  apply bind_Some in Hrun as ([t s5] & Hot & Hrun).
  destruct (open_table_inv _ _ _ I1 (Hfresh Hge) Hot) as (I5 & Ht & Hnode).
  assert (Hn5 : node s5 n = node s1 n) by (apply Hnode; [lia|done]).
  assert (Ifree : fd_inv None (free_node n s5)) by (apply set_idle_node; try done; by rewrite Hn5).
  destruct (Z.eqb_spec t 0) as [->|Htz]; [by simplify_eq|].
  assert (I6 : fd_inv None (fd_table_alloc t n s5).2) by (apply alloc_inv; [done|by apply Ht|done|by rewrite Hn5]).
  pose proof (alloc_frame t n s5 (fi_pool _ _ I5) Hn) as F6.
  destruct (fd_table_alloc t n s5) as [fd s6]. destruct F6 as (_ & Hneg & _ & _).
  destruct (Z.ltb_spec fd 0) as [Hlt|_]; simplify_eq; [by rewrite (Hneg Hlt)|done].
Qed.

Lemma vfs_read_inv fd size s out r s' : fd_inv None s -> vfs_read fd size s = Some (out, r, s') -> fd_inv None s'.
Proof.
  intros Hinv. unfold vfs_read. destruct (fd_table_get _ fd s) as [n|] eqn:Eg; [|intros Hrun; by simplify_eq].
  apply fd_table_get_slot in Eg as [Hs Hfd]. destruct (slot_node _ _ _ _ _ Hinv Hs Hfd) as (x & _ & _ & _ & Hn & _).
  destruct (n_ops (node s n)) as [o|] eqn:Eo; cbn [mbind option_bind]; [|intros Hrun; by simplify_eq].
  destruct (ops_read o) as [read|] eqn:Er; [|intros Hrun; by simplify_eq].
  destruct (_ =? VFS_O_WRONLY); [intros Hrun; by simplify_eq|].
  intros Hrun. apply bind_Some in Hrun as ([[b k] s1] & E1 & Hrun). apply (ops_read_same o read) in E1; [|done].
  pose proof (fd_inv_same _ _ _ E1 Hinv) as I1. injection Hrun as <- <- <-. destruct (0 <? k); [|exact I1].
  eapply fd_inv_same; [|exact I1]. by apply set_node_same; [apply I1| | |].
Qed.

Lemma vfs_write_inv fd buf s r s' : fd_inv None s -> vfs_write fuel fd buf s = Some (r, s') -> fd_inv None s'.
Proof.
  intros Hinv. unfold vfs_write. destruct (fd_table_get _ fd s) as [n|] eqn:Eg; [|intros Hrun; by simplify_eq].
  apply fd_table_get_slot in Eg as [Hs Hfd]. destruct (slot_node _ _ _ _ _ Hinv Hs Hfd) as (x & _ & _ & _ & Hn & _).
  destruct (n_ops (node s n)) as [o|] eqn:Eo; cbn [mbind option_bind]; [|intros Hrun; by simplify_eq].
  destruct (ops_write fuel o) as [write|] eqn:Er; [|intros Hrun; by simplify_eq].
  destruct (_ =? VFS_O_RDONLY); [intros Hrun; by simplify_eq|].
  destruct (write _ buf s) as [[k s1]|] eqn:E1; [|done]. apply (ops_write_same o write) in E1; [|done].
  pose proof (fd_inv_same _ _ _ E1 Hinv) as I1. intros [= <- <-]. destruct (0 <? k); [|exact I1].
  eapply fd_inv_same; [|exact I1]. by apply set_node_same; [apply I1| | |].
Qed.

Lemma vfs_seek_inv fd whence off s : fd_inv None s -> fd_inv None (vfs_seek fd whence off s).2.
Proof.
  intros Hinv. unfold vfs_seek. destruct (fd_table_get _ fd s) as [n|] eqn:Eg; [|done].
  apply fd_table_get_slot in Eg as [Hs Hfd]. destruct (slot_node _ _ _ _ _ Hinv Hs Hfd) as (x & _ & _ & _ & Hn & _).
  assert (Hgo : forall o z, fd_inv None (set_node n (with_offset o z (node s n)) s)).
  { intros o z. eapply fd_inv_same; [|exact Hinv]. by apply set_node_same; [apply Hinv| | |]. }
  do 3 (destruct (_ =? _); [apply Hgo|]). done.
Qed.

Lemma vfs_dup_inv fd s : fd_inv None s -> fd_inv None (vfs_dup fd s).2.
Proof.
  intros Hinv. unfold vfs_dup. destruct (fd_table_get _ fd s) as [n|] eqn:Eg; [|done].
  apply fd_table_get_slot in Eg as [Hs Hfd]. destruct (slot_node _ _ _ _ _ Hinv Hs Hfd) as (x & _ & _ & _ & Hn & _ & Ho).
  apply alloc_inv; try done. by eapply current_table.
Qed.

Lemma vfs_dup2_inv oldfd newfd s : fd_inv None s -> fd_inv None (vfs_dup2 oldfd newfd s).2.
Proof.
  intros Hinv. unfold vfs_dup2. set (t := get_current_fd_table s). destruct (_ || _) eqn:Eb; [done|]. zbool.
  destruct (Z.eqb_spec oldfd newfd) as [|Hne]; [done|]. destruct (fd_table_get t oldfd s) as [n|] eqn:Eg; [|done].
  apply fd_table_get_slot in Eg as [Hs Hfd]. assert (Hnew : 0 <= newfd < VFS_MAX_FDS) by lia.
  pose proof (current_table _ _ Hinv) as Ht. fold t in Ht. destruct (slot_node _ _ _ _ _ Hinv Hs Hfd) as (x & _ & _ & _ & Hn & _ & Ho).
  destruct (slot t newfd s) as [m|] eqn:Em; cbn [snd]; [|by apply fill_slot_inv].
  pose proof (close_inv None t newfd s Hinv) as I1. unfold fd_table_close in *.
  assert (Hget : fd_table_get t newfd s = Some m).
  { unfold fd_table_get. by rewrite (proj2 (Z.ltb_ge newfd 0)), (proj2 (Z.leb_gt VFS_MAX_FDS newfd)) by lia. }
  rewrite Hget in *. cbn [snd] in *. specialize (I1 ltac:(done)).
  destruct (slot_node _ _ _ _ _ Hinv Em Hnew) as (x' & Hx' & _ & _ & Hm & _).
  destruct (drop_ref_view m s (fi_pool _ _ Hinv) Hm) as (V1 & _).
  assert (Hl : len (fds (table (drop_ref m s) t)) = VFS_MAX_FDS) by (unfold table; rewrite V1, Hx'; by apply (fi_len _ _ Hinv t)).
  assert (Hslots : forall f, slot t f (drop_ref m s) = slot t f s) by (intros; unfold slot, table; by rewrite V1).
  assert (Hold : slot t oldfd (put_slot t newfd None (-1) (drop_ref m s)) = Some n).
  { rewrite slot_put, Hslots by (lia || done). by rewrite (proj2 (Z.eqb_neq newfd oldfd)) by done. }
  destruct (slot_node _ _ _ _ _ I1 Hold Hfd) as (x'' & Hx'' & _ & _ & _ & _ & Ho').
  apply fill_slot_inv; try done. rewrite slot_put, Z.eqb_refl by (lia || done). done.
Qed.

(** ** Reachable states *)

Inductive call : Type :=
  | COpen (path : cstring) (flags : Z)
  | CClose (fd : Z)
  | CRead (fd size : Z)
  | CWrite (fd : Z) (buf : list Z)
  | CDup (fd : Z)
  | CDup2 (oldfd newfd : Z)
  | CSeek (fd whence offset : Z)
  | CPipe
  | CClone                      (* [fd_table_clone] of the current table *)
  | CExit                       (* [process_exit]: the current table is destroyed *)
  | CSwitch (c : option Z).     (* another process becomes current *)

Definition run_call (c : call) s : option (vfs E) :=
  match c with
  | COpen p f => snd <$> vfs_open fuel p f s
  | CClose fd => Some (vfs_close fd s).2
  | CRead fd n => snd <$> vfs_read fd n s
  | CWrite fd b => snd <$> vfs_write fuel fd b s
  | CDup fd => Some (vfs_dup fd s).2
  | CDup2 a b => Some (vfs_dup2 a b s).2
  | CSeek fd w o => Some (vfs_seek fd w o s).2
  | CPipe => Some (vfs_pipe s).2
  | CClone => snd <$> fd_table_clone fuel (get_current_fd_table s) s
  | CExit => match cur_proc s with Some t => set_cur_proc (Some 0) <$> fd_table_destroy fuel t s | None => Some s end
  | CSwitch c => Some (set_cur_proc c s)
  end.

(** New tables get fresh addresses, and only existing tables become current. *)
Definition call_ok (c : call) s : Prop :=
  match c with
  | COpen p f => open_fresh p f s
  | CClone => fresh_table s
  | CExit => cur_proc s <> Some 0
  | CSwitch c => forall t, c = Some t -> t <> 0 -> t <> kernel_fd_table /\ is_Some (fd_tables s !! t)
  | _ => True
  end.

Lemma run_call_inv c s s' : fd_inv None s -> call_ok c s -> run_call c s = Some s' -> fd_inv None s'.
Proof.
  intros Hinv Hok Hrun. destruct c as [p f|fd|fd n|fd b|fd|a b|fd w o| | | |c]; cbn [run_call call_ok] in *;
    try (injection Hrun as <-).
  - apply fmap_Some in Hrun as ([r s1] & Hrun & ->). by eapply vfs_open_inv.
  - by apply close_inv.
  - apply fmap_Some in Hrun as ([[out r] s1] & Hrun & ->). by eapply vfs_read_inv.
  - apply fmap_Some in Hrun as ([r s1] & Hrun & ->). by eapply vfs_write_inv.
  - by apply vfs_dup_inv.
  - by apply vfs_dup2_inv.
  - by apply vfs_seek_inv.
  - destruct (vfs_pipe s) as [[r f] s1] eqn:E1. by eapply vfs_pipe_inv.
  - apply fmap_Some in Hrun as ([r s1] & Hrun & ->). by eapply fd_table_clone_inv.
  - destruct (cur_proc s) as [t|] eqn:Ec; [|by injection Hrun as <-].
    apply fmap_Some in Hrun as (s1 & Hrun & ->). apply (exit_inv s t); [done|done|congruence|done].
  - by apply set_cur_inv.
Qed.

(** The layer right after boot: no table, no process. *)
Definition boot s : Prop := len (node_pool s) = MAX_VFS_NODES /\ fd_tables s = ∅ /\ cur_proc s = None.

Lemma vfs_mount_same path ops s : same_fds s (vfs_mount_at path ops s).
Proof. unfold vfs_mount_at. destruct (remount _ _ _); [done|]. by destruct (_ <=? _). Qed.

Lemma vfs_init_inv s : boot s -> fd_inv None (vfs_init s).
Proof.
  intros (Hl & Ht & Hc). unfold vfs_init, fd_table_install_std.
  set (pool := _ <$> node_pool s). set (s1 := set_table kernel_fd_table empty_table (set_node_pool pool s)).
  set (s2 := vfs_mount_at _ _ _).
  assert (S2 : same_fds s1 s2) by (unfold s2; etransitivity; [|apply vfs_mount_same]; done).
  assert (Hnode : forall n, ref_count (node s1 n) = 0).
  { intros n. unfold node, arr_get. cbn [node_pool s1 set_table set_fd_tables set_node_pool]. unfold pool.
    rewrite list_lookup_fmap. by destruct (node_pool s !! Z.to_nat n). }
  assert (Htabs : fd_tables s1 = {[kernel_fd_table := empty_table]}).
  { unfold s1, set_table. cbn [fd_tables set_fd_tables set_node_pool]. by rewrite Ht. }
  assert (Hrefs : forall n, refs n (fd_tables s1) = 0).
  { intros n. rewrite Htabs. unfold refs. by rewrite map_fold_singleton. }
  assert (I1 : fd_inv None s1).
  { split; try done.
    - cbn [node_pool s1 set_table set_fd_tables set_node_pool]. unfold pool. by rewrite length_fmap.
    - intros t x Hx. rewrite Htabs in Hx. by apply lookup_singleton_Some in Hx as [<- <-].
    - intros t x Hx. rewrite Htabs in Hx. by apply lookup_singleton_Some in Hx as [<- <-].
    - intros t x i n Hx Hi. rewrite Htabs in Hx. apply lookup_singleton_Some in Hx as [<- <-]. cbn [fds empty_table] in Hi. by apply lookup_replicate in Hi as [? _].
    - intros n _ Hp. rewrite Hrefs in Hp. lia.
    - intros n _. by rewrite Hnode, Hrefs.
    - rewrite Htabs. eexists. apply lookup_singleton_eq.
    - by rewrite Htabs.
    - intros t Hct. cbn [cur_proc s1 set_table set_fd_tables set_node_pool] in Hct. congruence. }
  pose proof (fd_inv_same _ _ _ S2 I1) as I2. apply install_std_inv; [|done|apply I2|].
  - by apply (bool_decide_eq_true_1 (NoDup [0; 1; 2])).
  - assert (Hslot : forall fd, slot kernel_fd_table fd s2 = arr_get None (fds empty_table) fd).
    { intros fd. unfold slot, table. by rewrite (sf_tables _ _ S2), Htabs, lookup_singleton_eq. }
    repeat (apply Forall_cons; split; [by rewrite Hslot|]). constructor.
Qed.

Inductive reachable : vfs E -> Prop :=
  | reach_boot s : boot s -> reachable (vfs_init s)
  | reach_call c s s' : reachable s -> call_ok c s -> run_call c s = Some s' -> reachable s'.

End operations.

(** ** Witness *)

Module Examples.
(** No virtual files and nothing mounted. *)
#[export] Instance no_backend : VfsBackend unit := {|
  vfile_exists _ _ := false; vfile_read _ s := Some ([], -1, s); vfile_write _ _ s := (-1, s);
  mnt_open _ _ e := (-1, e); mnt_close _ e := (-1, e); mnt_read _ _ _ e := ([], -1, e); mnt_write _ _ e := (-1, e);
  mnt_mkdir _ e := (-1, e); mnt_unlink _ e := (-1, e); mnt_list _ := []; mnt_size _ _ := 0
|}.
#[export] Instance no_backend_ok : VfsBackendOk unit.
Proof.
  split.
  - intros p s out r s' [= _ _ <-]. done.
  - intros p b s r s' [= _ <-]. done.
Qed.

Abbreviation off := (Vfs [] (replicate 128 no_node) ∅ None (replicate 8 (VfileOpen [] false))
  (replicate 16 (VfsPipe (replicate 4096 0) 0 0 0 0 0 false)) [] (Ramfs [] false (KHeap ∅ 0 0 0 ∅)) tt).


Lemma pipe_fifo_witness :
  exists acc del s', run_pipe 0 [PWrite [1; 2; 3]; PRead 2; PWrite [4]] (vfs_pipe (vfs_init off)).2 = (acc, del, s') /\
    acc = del ++ content 0 s'.
Proof.
  destruct (pipe_fifo 0 [PWrite [1; 2; 3]; PRead 2; PWrite [4]] (vfs_pipe (vfs_init off)).2)
    as (acc & del & s' & Hrun & _ & Hq & _).
  - split; [vm_compute; split; [discriminate|reflexivity]|]. split; [vm_compute; reflexivity|].
    split; [vm_compute; reflexivity|]. split; vm_compute; first [reflexivity|split; first [reflexivity|discriminate]].
  - repeat constructor. lia.
  - exists acc, del, s'. split; [exact Hrun|]. rewrite <- Hq. reflexivity.
Defined.
End Examples.
