(* ===== verification/Clock.v ===== *)
(** * Real-time clock (src/src/drivers/rtc.c) and file timestamps (rtc_to_unix,
    get_time of src/src/fs/fs.c)

    The clock chip is reached through the ports 0x70 and 0x71 of [PortIO]. *)

From S2P Require Import Prelude Disk.

Record rtc_time : Type := RtcTime {
  t_second : Z; t_minute : Z; t_hour : Z; t_day : Z; t_month : Z; t_year : Z; t_century : Z
}.

Definition bcd_to_bin (bcd : Z) : Z := (bcd .& 15) + (bcd .>> 4) * 10.

(** The conversions at the end of [rtc_read_time], on the raw registers. *)
Definition rtc_decode (reg_b : Z) (t : rtc_time) : rtc_time :=
  let t :=
    if negb (flag reg_b 4) then
      RtcTime (u8 (bcd_to_bin (t_second t))) (u8 (bcd_to_bin (t_minute t))) (u8 (bcd_to_bin (t_hour t)))
        (u8 (bcd_to_bin (t_day t))) (u8 (bcd_to_bin (t_month t))) (u8 (bcd_to_bin (t_year t)))
        (u8 (bcd_to_bin (t_century t)))
    else t in
  if negb (flag reg_b 2) && flag (t_hour t) 128 then
    RtcTime (t_second t) (t_minute t) (((t_hour t .& 127) + 12) mod 24) (t_day t) (t_month t) (t_year t) (t_century t)
  else t.

Section driver.
Context {D : Type} `{PortIO D}.
Implicit Types (d : D).

Definition read_register (reg : Z) d : Z * D := inb 113 (outb 112 reg d).
Definition write_register (reg val : Z) d : D := outb 113 val (outb 112 reg d).

Definition rtc_init d : D :=
  let '(reg_b, d) := read_register 11 d in
  write_register 11 (((reg_b .| 2) .| 4) .& u8 (Z.lnot 128)) d.

(** [while (read_register(0x0A) & 0x80)]. *)
Fixpoint rtc_wait (fuel : nat) d : option D :=
  match fuel with
  | O => None
  | S n => let '(a, d) := read_register 10 d in if flag a 128 then rtc_wait n d else Some d
  end.

Definition rtc_read_time (fuel : nat) d : option (rtc_time * D) :=
  d ← rtc_wait fuel d;
  let '(second, d) := read_register 0 d in
  let '(minute, d) := read_register 2 d in
  let '(hour, d) := read_register 4 d in
  let '(day, d) := read_register 7 d in
  let '(month, d) := read_register 8 d in
  let '(year, d) := read_register 9 d in
  let '(century, d) := read_register 50 d in
  let '(reg_b, d) := read_register 11 d in
  Some (rtc_decode reg_b (RtcTime second minute hour day month year century), d).
End driver.

(** ** Seconds since 1970 *)

Definition SECONDS_FROM_1970_TO_2000 : Z := 946684800.
Definition mdays : list Z := [31; 28; 31; 30; 31; 30; 31; 31; 30; 31; 30; 31].
Definition leap (y : Z) : bool := ((y mod 4 =? 0) && negb (y mod 100 =? 0)) || (y mod 400 =? 0).

(** The loop over the years before [full_year]. *)
Definition year_days (full_year : Z) : Z :=
  foldl (fun days yr => days + 365 + Z.b2z (leap yr)) 0 (seqZ 1970 (full_year - 1970)).
(** The loop over the months before [month]. *)
Definition month_days (month : Z) : Z :=
  foldl (fun days k => days + arr_get 0 mdays k) 0 (seqZ 0 (Z.min (month - 1) 12)).

Definition rtc_to_unix (t : rtc_time) : Z :=
  let full_year := t_year t + t_century t * 100 in
  let days := year_days full_year + month_days (t_month t) in
  let days := if (2 <? t_month t) && leap full_year then days + 1 else days in
  let days := u64 (days + (t_day t - 1)) in
  u64 (SECONDS_FROM_1970_TO_2000 + days * 86400 + t_hour t * 3600 + t_minute t * 60 + t_second t).

Section time.
Context {D : Type} `{PortIO D}.

(** The flag is [rtc_time_ready]. *)
Definition get_time (fuel : nat) (ready : bool) (d : D) : option (Z * D) :=
  let d := if ready then d else rtc_init d in
  '(t, d) ← rtc_read_time fuel d;
  Some (rtc_to_unix t, d).
End time.

(** ** The calendar

    Days since the first of January 1970 of the proleptic Gregorian calendar:
    whole years with their leap days counted by division, the months of the
    year from their cumulative lengths. *)

Definition leaps_before (y : Z) : Z := (y - 1) / 4 - (y - 1) / 100 + (y - 1) / 400.
Definition civil_days (y mo d : Z) : Z :=
  365 * (y - 1970) + (leaps_before y - leaps_before 1970)
  + arr_get 0 [0; 31; 59; 90; 120; 151; 181; 212; 243; 273; 304; 334] (mo - 1)
  + (if (2 <? mo) && leap y then 1 else 0) + (d - 1).
Definition unix_time (t : rtc_time) : Z :=
  86400 * civil_days (100 * t_century t + t_year t) (t_month t) (t_day t)
  + 3600 * t_hour t + 60 * t_minute t + t_second t.

Definition valid_time (t : rtc_time) : Prop :=
  1 <= t_month t <= 12 /\ 1 <= t_day t <= 31 /\ 0 <= t_hour t < 24 /\ 0 <= t_minute t < 60 /\
  0 <= t_second t < 60 /\ 1970 <= 100 * t_century t + t_year t < 10000.

Lemma leaps_step y : leaps_before (y + 1) = leaps_before y + Z.b2z (leap y).
Proof.
  assert (H : forall k, 0 < k -> y / k = (y - 1) / k + (if y mod k =? 0 then 1 else 0)).
  { intros k Hk. pose proof (Z.div_mod y k). pose proof (Z.mod_pos_bound y k).
    destruct (Z.eqb_spec (y mod k) 0) as [E|E].
    - enough ((y - 1) / k = y / k - 1) by lia. symmetry. apply Z.div_unique with (r := k - 1); lia.
    - rewrite Z.add_0_r. apply Z.div_unique with (r := y mod k - 1); lia. }
  unfold leaps_before, leap. replace (y + 1 - 1) with y by lia.
  rewrite (H 4), (H 100), (H 400) by lia.
  assert (H100 : (y mod 400) mod 100 = y mod 100) by (apply Z.mod_mod_divide; by exists 4).
  assert (H4 : (y mod 100) mod 4 = y mod 4) by (apply Z.mod_mod_divide; by exists 25).
  destruct (Z.eqb_spec (y mod 400) 0) as [E|].
  { rewrite E in H100. change (0 mod 100) with 0 in H100. rewrite <- H100 in H4. change (0 mod 4) with 0 in H4. rewrite <- H100, <- H4. cbn. lia. }
  destruct (Z.eqb_spec (y mod 100) 0) as [E'|]; [rewrite E' in H4; change (0 mod 4) with 0 in H4; rewrite <- H4; cbn; lia|].
  destruct (y mod 4 =? 0); cbn; lia.
Qed.

Lemma year_days_civil n : 0 <= n ->
  year_days (1970 + n) = 365 * n + (leaps_before (1970 + n) - leaps_before 1970).
Proof.
  intros Hn. unfold year_days. replace (1970 + n - 1970) with n by lia.
  revert n Hn. apply natlike_ind; [by vm_compute|]. intros n Hn IH.
  replace (Z.succ n) with (n + 1) by lia. rewrite seqZ_app, foldl_app, IH by lia.
  rewrite seqZ_cons, seqZ_nil by lia. cbn [foldl]. rewrite Z.add_assoc, leaps_step. lia.
Qed.

Lemma month_days_table mo : 1 <= mo <= 12 ->
  month_days mo = arr_get 0 [0; 31; 59; 90; 120; 151; 181; 212; 243; 273; 304; 334] (mo - 1).
Proof.
  intros Hm. assert (H : mo ∈ seqZ 1 12) by (apply elem_of_seqZ; lia).
  change (seqZ 1 12) with [1; 2; 3; 4; 5; 6; 7; 8; 9; 10; 11; 12] in H.
  repeat (apply elem_of_cons in H as [->|H]; [by vm_compute|]). by apply elem_of_nil in H.
Qed.

(** The timestamp that files get is the Unix time of the clock reading, computed by
    the calendar, plus the 30 years from 1970 to 2000: the days are counted from 1970
    and the offset of 2000 is added on top. *)
Theorem rtc_to_unix_ahead t : valid_time t -> rtc_to_unix t = unix_time t + SECONDS_FROM_1970_TO_2000.
Proof.
  intros (Hmo & Hd & Hh & Hmi & Hs & Hy). unfold rtc_to_unix, unix_time, civil_days.
  rewrite (Z.add_comm (t_year t)), (Z.mul_comm (t_century t)). set (y := 100 * t_century t + t_year t) in *.
  rewrite month_days_table by done. pose proof (year_days_civil (y - 1970) ltac:(lia)) as Hyd.
  replace (1970 + (y - 1970)) with y in Hyd by lia. rewrite Hyd. clear Hyd. clearbody y.
  assert (Hl : 0 <= leaps_before y - leaps_before 1970 <= 10000).
  { unfold leaps_before. change ((1970 - 1) / 4) with 492. change ((1970 - 1) / 100) with 19.
    change ((1970 - 1) / 400) with 4. Z.to_euclidean_division_equations. lia. }
  set (lb := leaps_before y - leaps_before 1970) in *.
  assert (Ha : 0 <= arr_get 0 [0; 31; 59; 90; 120; 151; 181; 212; 243; 273; 304; 334] (t_month t - 1) <= 334)
    by (apply (arr_get_Forall 0 (fun x => 0 <= x <= 334)); [lia|repeat constructor; lia]).
  set (ms := arr_get 0 _ _) in *. unfold SECONDS_FROM_1970_TO_2000.
  rewrite (u64_id (_ + (t_day t - 1))) by (unfold is_u64; if_all; lia).
  rewrite u64_id by (unfold is_u64; if_all; lia). if_all; lia.
Qed.

(** The reading 2000-01-01 00:00:00. *)
Lemma rtc_to_unix_ahead_witness : rtc_to_unix (RtcTime 0 0 0 1 1 0 20) = 2 * SECONDS_FROM_1970_TO_2000.
Proof. rewrite rtc_to_unix_ahead; [by vm_compute|]. unfold valid_time. cbn. lia. Defined.

(** Two-digit binary-coded decimals are decoded. *)
Lemma bcd_to_bin_digits a b : 0 <= a <= 9 -> 0 <= b <= 9 -> bcd_to_bin ((a .<< 4) .| b) = 10 * a + b.
Proof.
  intros Ha Hb. unfold bcd_to_bin.
  assert (Hs : (b .>> 4) = 0) by (rewrite Z.shiftr_div_pow2 by lia; apply Z.div_small; lia).
  change 15 with (Z.ones 4). rewrite Z.land_ones by lia.
  rewrite Z.shiftr_lor, Z.shiftr_shiftl_r, Hs, Z.lor_0_r by lia. change (a .>> (4 - 4)) with (Z.shiftr a 0).
  rewrite Z.shiftr_0_r, <- Z.land_ones, Z.land_lor_distr_l by lia.
  rewrite !Z.land_ones, Z.shiftl_mul_pow2, Z.mod_mul, Z.lor_0_l, Z.mod_small by lia. lia.
Qed.

(** A chip left in 12-hour BCD mode: the PM bit is decoded as a digit, so 1 PM
    becomes hour 81 and the noon correction is not reached; in 12-hour binary
    mode noon is reported as midnight. *)
Lemma rtc_decode_pm_bcd s mi d mo y c :
  t_hour (rtc_decode 0 (RtcTime s mi (128 + 1) d mo y c)) = 81.
Proof. done. Qed.
Lemma rtc_decode_noon s mi d mo y c : t_hour (rtc_decode 4 (RtcTime s mi (128 + 12) d mo y c)) = 0.
Proof. done. Qed.
