(* ===== verification/Mft.v ===== *)
(** * Master file table entries (src/include/fs.h and the entry helpers of
    src/src/fs/fs.c)

    An entry is 4096 bytes of kernel memory: a header, then attributes up to
    an end marker.  The helpers work on the bytes in place, so they are
    functions of the memory; an address is a number and 0 the null pointer. *)

From S2P Require Import Prelude KHeap Bytes.

Abbreviation mem := (gmap Z Z).

(** ** Struct fields: offset and size in bytes *)

Record field : Type := Field { f_off : Z; f_size : Z }.
Definition rd (m : mem) (p : Z) (f : field) : Z := load_le m (p + f_off f) (f_size f).
Definition wr (p : Z) (f : field) (v : Z) (m : mem) : mem := store_le (p + f_off f) (f_size f) v m.

(* fs_boot_sector_t *)
Definition bs_magic : field := Field 0 4.
Definition bs_version : field := Field 4 4.
Definition bs_total_sectors : field := Field 8 8.
Definition bs_sectors_per_cluster : field := Field 16 4.
Definition bs_mft_start : field := Field 20 4.
Definition bs_mft_size : field := Field 24 4.
Definition bs_mft_entry_size : field := Field 28 4.
Definition bs_data_start : field := Field 32 4.
Definition bs_total_clusters : field := Field 36 8.
Definition bs_signature : field := Field 502 2.
(* mft_header_t *)
Definition mh_magic : field := Field 0 4.
Definition mh_seq_attr_offset : field := Field 4 2.
Definition mh_flags : field := Field 6 2.
Definition mh_used_size : field := Field 8 4.
Definition mh_alloc_size : field := Field 12 4.
Definition mh_base_record : field := Field 16 8.
Definition mh_next_attr_id : field := Field 24 2.
Definition mh_mft_number : field := Field 28 4.
Definition sizeof_mft_header : Z := 32.
(* attr_header_t *)
Definition at_type : field := Field 0 4.
Definition at_length : field := Field 4 4.
Definition at_non_resident : field := Field 8 1.
Definition at_name_length : field := Field 9 1.
Definition at_name_offset : field := Field 10 2.
Definition at_flags : field := Field 12 2.
Definition at_instance : field := Field 14 2.
Definition sizeof_attr_header : Z := 16.
(* attr_filename_t *)
Definition fn_parent_mft : field := Field 0 8.
Definition fn_create_time : field := Field 8 8.
Definition fn_modify_time : field := Field 16 8.
Definition fn_access_time : field := Field 24 8.
Definition fn_alloc_size : field := Field 32 8.
Definition fn_real_size : field := Field 40 8.
Definition fn_flags : field := Field 48 4.
Definition fn_reparse : field := Field 52 4.
Definition fn_filename_length : field := Field 56 1.
Definition fn_filename_type : field := Field 57 1.
Definition fn_filename : Z := 58.
Definition sizeof_attr_filename : Z := 313.
(* attr_nonresident_t *)
Definition nr_start_vcn : field := Field 0 8.
Definition nr_last_vcn : field := Field 8 8.
Definition nr_run_offset : field := Field 16 2.
Definition nr_comp_unit_size : field := Field 18 2.
Definition nr_reserved : field := Field 20 4.
Definition nr_allocated_size : field := Field 24 8.
Definition nr_real_size : field := Field 32 8.
Definition nr_initialized_size : field := Field 40 8.
Definition sizeof_attr_nonresident : Z := 48.
(* data_run_t *)
Definition dr_start_cluster : field := Field 0 8.
Definition dr_length : field := Field 8 8.
Definition sizeof_data_run : Z := 16.
(* index_entry_t *)
Definition ie_mft_ref : field := Field 0 8.
Definition ie_length : field := Field 8 2.
Definition ie_attr_type : field := Field 10 2.
Definition ie_flags : field := Field 12 2.
Definition ie_reserved : field := Field 14 2.
Definition ie_filename : Z := 16.
Definition sizeof_index_entry : Z := 329.
(* index_root_t *)
Definition ir_attr_type : field := Field 0 4.
Definition ir_collation_rule : field := Field 4 4.
Definition ir_index_alloc_size : field := Field 8 4.
Definition ir_clusters_per_index : field := Field 12 1.
Definition sizeof_index_root : Z := 16.

Definition FS_SECTOR_SIZE : Z := 512.
Definition FS_CLUSTER_SIZE : Z := 4096.
Definition FS_SECTORS_PER_CLUSTER : Z := 8.
Definition FS_MAGIC : Z := 1312902224.      (* 0x4E414C50 *)
Definition FS_VERSION : Z := 65536.
Definition MFT_ENTRY_SIZE : Z := 4096.
Definition MAX_FILENAME_LEN : Z := 255.
Definition ATTR_FILENAME : Z := 48.
Definition ATTR_DATA : Z := 128.
Definition ATTR_INDEX_ROOT : Z := 144.
Definition ATTR_END : Z := 4294967295.
Definition MFT_FLAG_IN_USE : Z := 1.
Definition MFT_FLAG_DIRECTORY : Z := 2.
Definition MFT_FLAG_READONLY : Z := 4.
Definition MFT_ROOT : Z := 5.
Definition MFT_FIRST_USER : Z := 16.
Definition MFT_RECORD_MAGIC : Z := 1162627398.  (* "FILE" *)

Definition has_flag (x mask : Z) : bool := negb (x .& mask =? 0).

(** ** Attributes *)

(** The walk of [find_attr]; a turn moves at least 16 bytes inside a window of
    4096. *)
Fixpoint find_attr_walk (fuel : nat) (m : mem) (ptr end_ attr_type : Z) : option Z :=
  match fuel with
  | O => None
  | S n =>
      if ptr + sizeof_attr_header <=? end_ then
        let ty := rd m ptr at_type in
        if (ty =? ATTR_END) || (ty =? attr_type) then Some (if ty =? attr_type then ptr else 0)
        else
          let l := rd m ptr at_length in
          if l <? sizeof_attr_header then Some 0
          else if end_ <? ptr + l then Some 0
          else find_attr_walk n m (ptr + l) end_ attr_type
      else Some 0
  end.
Definition ATTR_TURNS : nat := 257.

Definition find_attr (m : mem) (entry attr_type : Z) : option Z :=
  let off := rd m entry mh_seq_attr_offset in
  let used := rd m entry mh_used_size in
  if (off <? sizeof_mft_header) || (MFT_ENTRY_SIZE <=? off) then Some 0
  else if (used <? sizeof_mft_header) || (MFT_ENTRY_SIZE <? used) then Some 0
  else find_attr_walk ATTR_TURNS m (entry + off) (entry + used) attr_type.

Definition find_attr_payload (m : mem) (entry attr_type : Z) : option Z :=
  attr ← find_attr m entry attr_type;
  Some (if attr =? 0 then 0 else attr + sizeof_attr_header).

Definition nonresident_run_count (m : mem) (attr nr : Z) : Z :=
  if rd m nr nr_run_offset <? sizeof_attr_header + sizeof_attr_nonresident then 0
  else if rd m attr at_length <=? rd m nr nr_run_offset then 0
  else (rd m attr at_length - rd m nr nr_run_offset) / sizeof_data_run.

(** The end marker written at [p] and [used_size] moved just past it. *)
Definition place_end (entry p : Z) (m : mem) : mem :=
  let m := wr p at_type ATTR_END m in
  let m := wr p at_length 8 m in
  wr entry mh_used_size (u32 (p + 8 - entry)) m.

(** The header of a resident attribute without a name at [base]. *)
Definition attr_init (entry base ty size : Z) (m : mem) : mem :=
  let m := wr base at_type ty m in
  let m := wr base at_length (sizeof_attr_header + size) m in
  let m := wr base at_non_resident 0 m in
  let m := wr base at_name_length 0 m in
  let m := wr base at_name_offset 0 m in
  let m := wr base at_flags 0 m in
  let id := rd m entry mh_next_attr_id in
  let m := wr entry mh_next_attr_id (id + 1) m in
  let m := wr base at_instance id m in
  place_end entry (base + rd m base at_length) m.

Definition add_index_root_attr (entry : Z) (m : mem) : mem :=
  let base := entry + rd m entry mh_used_size - 8 in
  let ir := base + sizeof_attr_header in
  let m := wr ir ir_attr_type ATTR_FILENAME m in
  let m := wr ir ir_collation_rule 0 m in
  let m := wr ir ir_index_alloc_size FS_CLUSTER_SIZE m in
  let m := wr ir ir_clusters_per_index 1 m in
  attr_init entry base ATTR_INDEX_ROOT sizeof_index_root m.

Definition init_mft_entry (entry mft_num flags : Z) (m : mem) : mem :=
  let m := wr entry mh_magic MFT_RECORD_MAGIC m in
  let m := wr entry mh_seq_attr_offset sizeof_mft_header m in
  let m := wr entry mh_flags (flags .| MFT_FLAG_IN_USE) m in
  let m := wr entry mh_used_size sizeof_mft_header m in
  let m := wr entry mh_alloc_size MFT_ENTRY_SIZE m in
  let m := wr entry mh_base_record 0 m in
  let m := wr entry mh_next_attr_id 0 m in
  let m := wr entry mh_mft_number (u32 mft_num) m in
  let end_attr := entry + rd m entry mh_used_size in
  let m := wr end_attr at_type ATTR_END m in
  let m := wr end_attr at_length 8 m in
  wr entry mh_used_size (rd m entry mh_used_size + 8) m.

(** The stores of a filename record at [fn] that [add_filename_attr] and
    [add_dir_entry] share; [now] is the clock reading. *)
Definition fill_filename (fn parent now : Z) (m : mem) : mem :=
  let m := wr fn fn_parent_mft parent m in
  let m := wr fn fn_create_time now m in
  let m := wr fn fn_modify_time (rd m fn fn_create_time) m in
  let m := wr fn fn_access_time (rd m fn fn_create_time) m in
  let m := wr fn fn_alloc_size 0 m in
  let m := wr fn fn_real_size 0 m in
  wr fn fn_flags 0 m.
Definition set_filename (fn : Z) (name : cstring) (m : mem) : mem :=
  store_bytes (fn + fn_filename) name (wr fn fn_filename_length (len name) m).

(** The characters of a name that are kept. *)
Definition clip_name (name : cstring) : cstring := take (Z.to_nat MAX_FILENAME_LEN) name.

Definition add_filename_attr (entry : Z) (name : cstring) (parent now : Z) (m : mem) : mem :=
  let base := entry + rd m entry mh_used_size - 8 in
  let fn := base + sizeof_attr_header in
  let m := fill_filename fn parent now m in
  let m := set_filename fn (clip_name name) m in
  let m := wr fn fn_filename_type 0 m in
  attr_init entry base ATTR_FILENAME sizeof_attr_filename m.

(** ** The directory index *)

(** The walk of [add_dir_entry]: the insertion point, or [None] when the child
    is indexed already; the last entry loses its flag. *)
Fixpoint dir_walk (fuel : nat) (m : mem) (last walk_end child insert : Z) : option (option Z * mem) :=
  match fuel with
  | O => None
  | S n =>
      if (last + sizeof_index_entry <=? walk_end) && (sizeof_index_entry <=? rd m last ie_length) then
        if has_flag (rd m last ie_flags) 1 then
          if rd m last ie_mft_ref =? child then Some (None, m)
          else Some (Some (last + rd m last ie_length),
                     wr last ie_flags (rd m last ie_flags .& u16 (Z.lnot 1)) m)
        else dir_walk n m (last + rd m last ie_length) walk_end child (last + rd m last ie_length)
      else Some (Some insert, m)
  end.
(** Entries take 329 bytes of a window of 4096. *)
Definition INDEX_TURNS : nat := 14.

(** The insertion point of [add_dir_entry], [None] when it returns early. *)
Definition dir_insertion (parent_dir child : Z) (m : mem) : option (option (Z * Z) * mem) :=
  index_attr ← find_attr m parent_dir ATTR_INDEX_ROOT;
  if index_attr =? 0 then Some (None, m)
  else
    let last := index_attr + sizeof_attr_header + sizeof_index_root in
    let slot_end := parent_dir + MFT_ENTRY_SIZE in
    let walk_end := Z.min (index_attr + rd m index_attr at_length) slot_end in
    if walk_end <? last then Some (None, m)
    else
      '(ins, m) ← dir_walk INDEX_TURNS m last walk_end child last;
      match ins with
      | None => Some (None, m)
      | Some insert =>
          if slot_end <? insert + sizeof_index_entry + sizeof_attr_header then Some (None, m)
          else Some (Some (index_attr, insert), m)
      end.

(** The new entry at [insert]. *)
Definition dir_insert (parent_dir child index_attr insert now : Z) (name : cstring) (m : mem) : mem :=
  let m := wr insert ie_mft_ref child m in
  let m := wr insert ie_length sizeof_index_entry m in
  let m := wr insert ie_attr_type ATTR_FILENAME m in
  let m := wr insert ie_flags 1 m in
  let m := wr insert ie_reserved 0 m in
  let fn := insert + ie_filename in
  let m := fill_filename fn (rd m parent_dir mh_mft_number) now m in
  let m := wr fn fn_reparse 0 m in
  let m := wr fn fn_filename_type 0 m in
  let m := set_filename fn (clip_name name) m in
  let m := wr index_attr at_length (rd m index_attr at_length + sizeof_index_entry) m in
  place_end parent_dir (insert + sizeof_index_entry) m.

(** No clamp to the slot here. *)
Fixpoint index_find_walk (fuel : nat) (m : mem) (e end_ child : Z) : option Z :=
  match fuel with
  | O => None
  | S n =>
      if e + sizeof_index_entry <=? end_ then
        if rd m e ie_mft_ref =? child then Some e
        else if has_flag (rd m e ie_flags) 1 then Some 0
        else if rd m e ie_length <? sizeof_index_entry then Some 0
        else index_find_walk n m (e + rd m e ie_length) end_ child
      else Some 0
  end.
Definition find_index_entry (fuel : nat) (m : mem) (dir child : Z) : option Z :=
  index_attr ← find_attr m dir ATTR_INDEX_ROOT;
  if index_attr =? 0 then Some 0
  else index_find_walk fuel m (index_attr + sizeof_attr_header + sizeof_index_root)
         (index_attr + rd m index_attr at_length) child.

Definition mark_last (prev : Z) (m : mem) : mem :=
  if prev =? 0 then m else wr prev ie_flags (rd m prev ie_flags .| 1) m.

Fixpoint index_remove_walk (fuel : nat) (m : mem) (index_attr e end_ prev child : Z) : option mem :=
  match fuel with
  | O => None
  | S n =>
      if e + sizeof_index_entry <=? end_ then
        let l := rd m e ie_length in
        if rd m e ie_mft_ref =? child then
          if (l <? sizeof_index_entry) || (end_ <? e + l) then
            Some (mark_last prev (wr index_attr at_length (u32 (e - index_attr)) m))
          else
            let m := copy_bytes e (e + l) (u32 (end_ - (e + l))) m in
            Some (mark_last prev (wr index_attr at_length (rd m index_attr at_length - l) m))
        else if has_flag (rd m e ie_flags) 1 then Some m
        else if l <? sizeof_index_entry then Some m
        else index_remove_walk n m index_attr (e + l) end_ e child
      else Some m
  end.
Definition remove_index_entry (dir child : Z) (m : mem) : option mem :=
  index_attr ← find_attr m dir ATTR_INDEX_ROOT;
  if index_attr =? 0 then Some m
  else
    let end_ := Z.min (index_attr + rd m index_attr at_length) (dir + MFT_ENTRY_SIZE) in
    index_remove_walk INDEX_TURNS m index_attr (index_attr + sizeof_attr_header + sizeof_index_root) end_ 0 child.

(** ** The walks stay in the slot *)

Section bounds.
Implicit Types (m : mem) (entry p : Z).

(** Two memories agree on the [n] bytes at [p]. *)
Definition agree p n m m' : Prop := forall x, p <= x < p + n -> byte_at m x = byte_at m' x.

Lemma rd_agree p n m m' q f : agree p n m m' -> p <= q + f_off f -> q + f_off f + f_size f <= p + n -> rd m q f = rd m' q f.
Proof. intros Ha H1 H2. unfold rd, load_le. f_equal. apply load_bytes_ext. intros i Hi. apply Ha. lia. Qed.

Lemma find_attr_walk_window m m' ty end_ base n : forall fuel ptr,
  agree base n m m' -> base <= ptr -> end_ <= base + n -> end_ - ptr < 16 * Z.of_nat fuel -> (0 < fuel)%nat ->
  exists r, find_attr_walk fuel m ptr end_ ty = Some r /\ find_attr_walk fuel m' ptr end_ ty = Some r /\
    (r = 0 \/ ptr <= r /\ r + sizeof_attr_header <= end_ /\ rd m r at_type = ty).
Proof.
  unfold sizeof_attr_header. induction fuel as [|fuel IH]; intros ptr Ha Hb He Hf Hpos; [lia|].
  cbn [find_attr_walk]. unfold sizeof_attr_header. destruct (Z.leb_spec (ptr + 16) end_); [|by exists 0; eauto].
  rewrite <- (rd_agree base n m m' ptr at_type), <- (rd_agree base n m m' ptr at_length) by (done || cbn; lia).
  destruct (_ || _) eqn:Et.
  - eexists. split; [done|]. split; [done|]. destruct (Z.eqb_spec (rd m ptr at_type) ty); [right|by left].
    split; [lia|]. by split; [lia|].
  - if_step; [by exists 0; eauto|]. if_step; [by exists 0; eauto|].
    destruct (IH (ptr + rd m ptr at_length)) as (r & Hr1 & Hr2 & Hr3); [done|lia..|].
    exists r. split; [exact Hr1|]. split; [exact Hr2|]. destruct Hr3 as [->|(Hr3 & Hr4 & Hr5)]; [by left|right].
    split; [lia|done].
Qed.

Definition attr_in_slot m entry ty r : Prop :=
  r = 0 \/ entry + sizeof_mft_header <= r /\ r + sizeof_attr_header <= entry + rd m entry mh_used_size /\
    rd m entry mh_used_size <= MFT_ENTRY_SIZE /\ rd m r at_type = ty.

Lemma find_attr_window m m' entry ty : agree entry MFT_ENTRY_SIZE m m' ->
  exists r, find_attr m entry ty = Some r /\ find_attr m' entry ty = Some r /\ attr_in_slot m entry ty r.
Proof.
  intros Ha. unfold find_attr, attr_in_slot, MFT_ENTRY_SIZE, sizeof_mft_header in *.
  rewrite <- !(rd_agree entry 4096 m m' entry) by (done || cbn; lia).
  if_step; [by exists 0; eauto|]. if_step; [by exists 0; eauto|].
  edestruct (find_attr_walk_window m m' ty (entry + rd m entry mh_used_size) entry 4096 ATTR_TURNS
    (entry + rd m entry mh_seq_attr_offset)) as (r & Hr1 & Hr2 & Hr3); [done|lia| | | |].
  - lia.
  - change (Z.of_nat ATTR_TURNS) with 257. lia.
  - unfold ATTR_TURNS. lia.
  - exists r. split; [exact Hr1|]. split; [exact Hr2|]. destruct Hr3 as [->|(Hr3 & Hr4 & Hr5)]; [by left|right].
    split; [lia|]. split; [lia|]. by split; [lia|].
Qed.

Lemma find_attr_slot m entry ty : exists r, find_attr m entry ty = Some r /\ attr_in_slot m entry ty r.
Proof. destruct (find_attr_window m m entry ty) as (r & H1 & _ & H2); [done|]. by exists r. Qed.

(** [changes P m m']: only bytes at addresses in [P] differ. *)
Definition changes (P : Z -> Prop) m m' : Prop := forall x, ~ P x -> byte_at m' x = byte_at m x.

Lemma changes_refl P m : changes P m m.
Proof. done. Qed.
Lemma changes_trans P m1 m2 m3 : changes P m1 m2 -> changes P m2 m3 -> changes P m1 m3.
Proof. intros H1 H2 x Hx. by rewrite H2, H1. Qed.
Lemma changes_weaken (P Q : Z -> Prop) m m' : changes Q m m' -> (forall x, Q x -> P x) -> changes P m m'.
Proof. intros H1 HQ x Hx. apply H1. auto. Qed.
Lemma frame_changes (P : Z -> Prop) q k m m' :
  frame q k m m' -> (forall x, q <= x < q + k -> P x) -> changes P m m'.
Proof. intros H1 HQ x Hx. apply H1. auto. Qed.
Lemma changes_wr (P : Z -> Prop) p f v m :
  0 <= f_size f -> (forall x, p + f_off f <= x < p + f_off f + f_size f -> P x) -> changes P m (wr p f v m).
Proof. intros Hf HP. eapply frame_changes; [by apply frame_store_le|done]. Qed.
Lemma changes_store (P : Z -> Prop) p bs m :
  (forall x, p <= x < p + len bs -> P x) -> changes P m (store_bytes p bs m).
Proof. intros HP. eapply frame_changes; [apply frame_store_bytes|done]. Qed.

Lemma rd_changes (P : Z -> Prop) m m' p f :
  changes P m m' -> (forall x, p + f_off f <= x < p + f_off f + f_size f -> ~ P x) -> rd m' p f = rd m p f.
Proof. intros Hc HP. unfold rd, load_le. f_equal. apply load_bytes_ext. intros i Hi. apply Hc, HP. lia. Qed.
Lemma load_bytes_changes (P : Z -> Prop) m m' p n :
  changes P m m' -> (forall x, p <= x < p + n -> ~ P x) -> load_bytes m' p n = load_bytes m p n.
Proof. intros Hc HP. apply load_bytes_ext. intros i Hi. apply Hc, HP. lia. Qed.

Lemma fld_wr_eq p f v m : 0 <= f_size f -> rd (wr p f v m) p f = v mod 256 ^ f_size f.
Proof. apply load_le_store_eq. Qed.
Lemma fld_wr_ne p f q g v m : 0 <= f_size g ->
  p + f_off f + f_size f <= q + f_off g \/ q + f_off g + f_size g <= p + f_off f ->
  rd (wr q g v m) p f = rd m p f.
Proof. intros Hg Hd. apply load_le_store_ne; [done|lia]. Qed.
Lemma rd_store_ne p f q bs m : p + f_off f + f_size f <= q \/ q + len bs <= p + f_off f ->
  rd (store_bytes q bs m) p f = rd m p f.
Proof. intros Hd. eapply load_le_frame; [apply frame_store_bytes|lia]. Qed.

Lemma changes_copy (P : Z -> Prop) dst src n m :
  0 <= dst -> dst + n <= 2 ^ 64 -> (forall x, dst <= x < dst + n -> P x) -> changes P m (copy_bytes dst src n m).
Proof.
  intros Hd Hn HP. unfold copy_bytes.
  apply (foldl_inv (changes P m)); [apply changes_refl|].
  intros m' i Hi Hm' x Hx. apply elem_of_seqZ in Hi. rewrite <- (Hm' x Hx). unfold byte_at.
  rewrite lookup_insert_ne; [done|]. rewrite u64_id by (unfold is_u64; lia). intros <-. apply Hx, HP. lia.
Qed.

End bounds.

(** Splits a chain of stores into its steps; what is left are the address
    ranges. *)
Ltac fields := cbv [f_off f_size bs_magic bs_version bs_total_sectors bs_sectors_per_cluster bs_mft_start bs_mft_size
  bs_mft_entry_size bs_data_start bs_total_clusters bs_signature mh_magic mh_seq_attr_offset mh_flags
  mh_used_size mh_alloc_size mh_base_record mh_next_attr_id mh_mft_number at_type at_length
  at_non_resident at_name_length at_name_offset at_flags at_instance fn_parent_mft fn_create_time
  fn_modify_time fn_access_time fn_alloc_size fn_real_size fn_flags fn_reparse fn_filename_length
  fn_filename_type nr_start_vcn nr_last_vcn nr_run_offset nr_comp_unit_size nr_reserved
  nr_allocated_size nr_real_size nr_initialized_size dr_start_cluster dr_length ie_mft_ref ie_length
  ie_attr_type ie_flags ie_reserved ir_attr_type ir_collation_rule ir_index_alloc_size
  ir_clusters_per_index] in *.
Ltac range := fields; unfold sizeof_mft_header, sizeof_attr_header, sizeof_attr_filename,
  sizeof_attr_nonresident, sizeof_data_run, sizeof_index_entry, sizeof_index_root, fn_filename, ie_filename,
  MFT_ENTRY_SIZE, FS_CLUSTER_SIZE, MAX_FILENAME_LEN in *; lia.
Ltac changes_step :=
  match goal with
  | |- changes _ ?m ?m => apply changes_refl
  | |- changes ?P ?m (wr ?q ?f ?v ?m') =>
      apply (changes_trans P m m'); [|apply changes_wr; [done|fields; intros ? ?]]
  | |- changes ?P ?m (store_bytes ?q ?bs ?m') =>
      apply (changes_trans P m m'); [|apply changes_store; intros ? ?]
  | |- changes ?P ?m (if ?b then _ else _) => destruct b eqn:?; zbool
  end.

Section index.
Implicit Types (m : mem).

(** Addresses of the slot of [e] from [a] on. *)
Definition from (a e : Z) (x : Z) : Prop := a <= x < e + MFT_ENTRY_SIZE.
Definition size_field (e : Z) (x : Z) : Prop := e + 8 <= x < e + 12.

Lemma changes_fill_filename (P : Z -> Prop) fn parent now m :
  (forall x, fn <= x < fn + 58 -> P x) -> changes P m (fill_filename fn parent now m).
Proof. intros HP. unfold fill_filename. cbv zeta. repeat changes_step; apply HP; range. Qed.
Lemma changes_set_filename (P : Z -> Prop) fn name m :
  (forall x, fn <= x < fn + 58 + len name -> P x) -> changes P m (set_filename fn name m).
Proof. intros HP. unfold set_filename. repeat changes_step; apply HP; range. Qed.
Lemma changes_place_end (P : Z -> Prop) entry p m :
  (forall x, p <= x < p + 8 -> P x) -> (forall x, size_field entry x -> P x) ->
  changes P m (place_end entry p m).
Proof.
  intros HP HQ. unfold place_end. cbv zeta. repeat changes_step; [apply HP; range..|apply HQ; unfold size_field; range].
Qed.
Lemma clip_name_length name : len (clip_name name) <= 255.
Proof. unfold clip_name, MAX_FILENAME_LEN. rewrite length_take. lia. Qed.

Lemma dir_walk_spec m slot a child end_ : forall fuel last insert,
  a <= last -> end_ <= slot + MFT_ENTRY_SIZE -> a <= insert ->
  end_ - last < 329 * Z.of_nat fuel -> (0 < fuel)%nat ->
  exists ins m', dir_walk fuel m last end_ child insert = Some (ins, m') /\ changes (from a slot) m m' /\
    forall i, ins = Some i -> a <= i.
Proof.
  induction fuel as [|fuel IH]; intros last insert Ha He Hi Hf Hpos; [lia|].
  cbn [dir_walk]. unfold sizeof_index_entry. destruct (_ && _) eqn:Et; zbool.
  - destruct (has_flag _ 1); [destruct (_ =? child)|].
    + exists None, m. split; [done|]. by split; [apply changes_refl|].
    + do 2 eexists. split; [done|]. split.
      * apply changes_wr; [done|]. intros x Hx. unfold from. range.
      * intros i [= <-]. lia.
    + apply IH; lia.
  - exists (Some insert), m. split; [done|]. split; [apply changes_refl|]. by intros i [= <-].
Qed.

Lemma find_attr_cases m e ty :
  find_attr m e ty = Some 0 \/
  exists a, a <> 0 /\ find_attr m e ty = Some a /\ e + 32 <= a /\ a + 16 <= e + rd m e mh_used_size /\
    rd m e mh_used_size <= 4096 /\ rd m a at_type = ty.
Proof.
  destruct (find_attr_slot m e ty) as (r & Hr & [->|Hin]); [by left|].
  destruct (decide (r = 0)) as [->|Hne]; [by left|right]. by exists r.
Qed.

(** The insertion point is after the index header and leaves room in the slot. *)
Lemma dir_insertion_spec m slot child :
  exists ins m', dir_insertion slot child m = Some (ins, m') /\
    (ins = None /\ find_attr m slot ATTR_INDEX_ROOT = Some 0 /\ m' = m \/
     exists a, find_attr m slot ATTR_INDEX_ROOT = Some a /\ slot + 32 <= a /\
       changes (from (a + 32) slot) m m' /\
       forall b i, ins = Some (b, i) -> b = a /\ a + 32 <= i /\ i + 345 <= slot + 4096).
Proof.
  unfold dir_insertion. destruct (find_attr_cases m slot ATTR_INDEX_ROOT) as [Hf|(a & Hne & Hf & Ha & Hu & _ & _)].
  { rewrite Hf. cbn [mbind option_bind]. exists None, m. split; [done|]. by left. }
  rewrite Hf. cbn [mbind option_bind]. destruct (Z.eqb_spec a 0); [done|]. unfold sizeof_attr_header, sizeof_index_root, MFT_ENTRY_SIZE.
  destruct (Z.ltb_spec (Z.min (a + rd m a at_length) (slot + 4096)) (a + 16 + 16)).
  { exists None, m. split; [done|]. right. exists a. split; [done|]. split; [done|]. by split; [apply changes_refl|]. }
  destruct (dir_walk_spec m slot (a + 32) child (Z.min (a + rd m a at_length) (slot + 4096)) INDEX_TURNS (a + 16 + 16) (a + 16 + 16))
    as (ins & m' & Hw & Hc & Hi); [lia|range|lia|change (Z.of_nat INDEX_TURNS) with 14; lia|unfold INDEX_TURNS; lia|].
  rewrite Hw. cbn [mbind option_bind].
  destruct ins as [i|].
  - unfold sizeof_index_entry. destruct (Z.ltb_spec (slot + 4096) (i + 329 + 16)).
    + exists None, m'. split; [done|]. right. exists a. split; [done|]. split; [done|]. by split.
    + exists (Some (a, i)), m'. split; [done|]. right. exists a. split; [done|]. split; [done|]. split; [done|].
      intros b i' [= <- <-]. split; [done|]. split; [by apply Hi|lia].
  - exists None, m'. split; [done|]. right. exists a. split; [done|]. split; [done|]. by split.
Qed.

Lemma dir_insert_changes slot child a i now name m :
  a + 32 <= i -> i + 345 <= slot + 4096 ->
  changes (fun x => from (a + 4) slot x \/ size_field slot x) m (dir_insert slot child a i now name m).
Proof.
  intros Hi He. unfold dir_insert. cbv zeta. pose proof (clip_name_length name) as Hn.
  eapply changes_trans; [|apply changes_place_end].
  2: { intros x Hx. left. unfold from. range. }
  2: { intros x Hx. by right. }
  changes_step; [|left; unfold from; range].
  eapply changes_trans; [|apply changes_set_filename; intros x Hx; left; unfold from; range].
  do 2 (changes_step; [|left; unfold from; range]).
  eapply changes_trans; [|apply changes_fill_filename; intros x Hx; left; unfold from; range].
  repeat (changes_step; [|left; unfold from; range]). apply changes_refl.
Qed.

Lemma mark_last_changes slot a prev end_ m :
  prev = 0 \/ a <= prev /\ prev + 329 <= end_ -> end_ <= slot + 4096 ->
  changes (from a slot) m (mark_last prev m).
Proof.
  intros Hp He. unfold mark_last. repeat changes_step. unfold from. range.
Qed.

Lemma index_remove_walk_spec m slot a child end_ : 0 <= slot <= a -> slot + 4096 <= 2 ^ 64 -> end_ <= slot + 4096 ->
  a + 16 <= slot + 4096 ->
  forall fuel e prev, a + 32 <= e -> prev = 0 \/ a + 4 <= prev /\ prev + 329 <= end_ ->
  end_ - e < 329 * Z.of_nat fuel -> (0 < fuel)%nat ->
  exists m', index_remove_walk fuel m a e end_ prev child = Some m' /\ changes (from (a + 4) slot) m m'.
Proof.
  intros Ha Hs He Hae. induction fuel as [|fuel IH]; intros e prev Hb Hp Hf Hpos; [lia|].
  cbn [index_remove_walk]. unfold sizeof_index_entry.
  destruct (Z.leb_spec (e + 329) end_); [|by exists m; split; [|apply changes_refl]].
  destruct (_ =? child).
  - destruct (_ || _) eqn:El; zbool.
    + eexists. split; [done|]. eapply changes_trans; [|by eapply mark_last_changes].
      changes_step; [apply changes_refl|]. unfold from. range.
    + eexists. split; [done|]. eapply changes_trans; [|by eapply mark_last_changes].
      changes_step; [|unfold from; range].
      rewrite u32_id by (unfold is_u32; lia). apply changes_copy; [lia..|]. intros x Hx. unfold from. range.
  - if_step; [by exists m; split; [|apply changes_refl]|]. if_step; [by exists m; split; [|apply changes_refl]|].
    apply IH; [lia| |lia..]. right. lia.
Qed.

Lemma remove_index_entry_spec m slot child : 0 <= slot -> slot + 4096 <= 2 ^ 64 ->
  exists m', remove_index_entry slot child m = Some m' /\
    (find_attr m slot ATTR_INDEX_ROOT = Some 0 /\ m' = m \/
     exists a, find_attr m slot ATTR_INDEX_ROOT = Some a /\ slot + 32 <= a /\ changes (from (a + 4) slot) m m').
Proof.
  intros Hs He. unfold remove_index_entry.
  destruct (find_attr_cases m slot ATTR_INDEX_ROOT) as [Hf|(a & Hne & Hf & Ha & Hu & Hus & _)].
  { rewrite Hf. cbn [mbind option_bind]. exists m. split; [done|]. by left. }
  rewrite Hf. cbn [mbind option_bind]. destruct (Z.eqb_spec a 0); [done|].
  unfold sizeof_attr_header, sizeof_index_root, MFT_ENTRY_SIZE.
  edestruct (index_remove_walk_spec m slot a child (Z.min (a + rd m a at_length) (slot + 4096)))
    as (m' & Hw & Hc); [..|exists m'; split; [exact Hw|right; exists a; done]];
    [lia..|by left|change (Z.of_nat INDEX_TURNS) with 14; lia|unfold INDEX_TURNS; lia].
Qed.

End index.

(** [C32] On any bytes, an image prepared to attack included, [find_attr] returns (the 257
    turns of the walk are enough), never looks outside the 4096 bytes of the entry (the
    result is the same in any memory that agrees on them), and returns null or the address
    of a header of the requested type that lies whole between the entry's header and its
    used size. *)
Theorem find_attr_in_slot (m m' : mem) entry ty : agree entry MFT_ENTRY_SIZE m m' ->
  exists r, find_attr m entry ty = Some r /\ find_attr m' entry ty = Some r /\ attr_in_slot m entry ty r.
Proof. apply find_attr_window. Qed.

(** An entry of zeros and one with stray bytes outside. *)
Lemma find_attr_in_slot_witness :
  exists r, find_attr ∅ 8192 ATTR_DATA = Some r /\ find_attr (<[100 := 7]> ∅) 8192 ATTR_DATA = Some r /\
    attr_in_slot ∅ 8192 ATTR_DATA r.
Proof.
  apply find_attr_in_slot. intros x Hx. unfold byte_at. rewrite lookup_insert_ne; [done|]. unfold MFT_ENTRY_SIZE in Hx. lia.
Defined.

(** The whole of [add_dir_entry] for a clock reading [now]. *)
Definition add_dir_entry_at (slot child now : Z) (name : cstring) (m : mem) : option mem :=
  '(ins, m) ← dir_insertion slot child m;
  Some (match ins with Some (a, i) => dir_insert slot child a i now name m | None => m end).

(** On any bytes, adding an entry to a directory index and removing one return, and
    change bytes of the directory's own 4096-byte slot only. *)
Theorem index_updates_in_slot (m : mem) slot child now name : 0 <= slot -> slot + 4096 <= 2 ^ 64 ->
  (exists m', add_dir_entry_at slot child now name m = Some m' /\ frame slot MFT_ENTRY_SIZE m m') /\
  (exists m', remove_index_entry slot child m = Some m' /\ frame slot MFT_ENTRY_SIZE m m').
Proof.
  intros Hs He. split.
  - unfold add_dir_entry_at. destruct (dir_insertion_spec m slot child) as (ins & m1 & -> & Hc). cbn [mbind option_bind].
    eexists. split; [done|]. destruct Hc as [(-> & _ & ->)|(a & _ & Ha & Hc & Hi)]; [done|].
    assert (H1 : frame slot MFT_ENTRY_SIZE m m1).
    { intros x Hx. apply Hc. unfold from. range. }
    destruct ins as [[b i]|]; [|done]. destruct (Hi b i) as (-> & Hi1 & Hi2); [done|].
    eapply frame_trans; [done|]. intros x Hx. apply (dir_insert_changes slot child a i now name m1 Hi1 Hi2).
    unfold from, size_field. range.
  - destruct (remove_index_entry_spec m slot child Hs He) as (m' & -> & Hc). exists m'. split; [done|].
    destruct Hc as [[_ ->]|(a & _ & Ha & Hc)]; [done|]. intros x Hx. apply Hc. unfold from. range.
Qed.

Lemma index_updates_in_slot_witness :
  exists m', remove_index_entry 8192 20 ∅ = Some m' /\ frame 8192 MFT_ENTRY_SIZE ∅ m'.
Proof. apply (index_updates_in_slot ∅ 8192 20 0 []); lia. Defined.
