(* ===== verification/Fs.v ===== *)
(** * The disk filesystem (src/src/fs/fs.c)

    The boot sector, the master file table and the cluster bitmap are blocks
    of the kernel heap; a file handle is a block too.  The operations run in a
    state monad whose [None] is a run without a defined result: a loop that
    takes more turns than [fuel], or a path that overruns the 256-byte stack
    buffer of its caller. *)

From S2P Require Import Prelude KHeap Bytes Disk Part Clock Mft.

Record fs (D : Type) : Type := Fs {
  fheap : kheap;
  fdisk : disk D;
  fvol : volume;
  boot_sector : Z;
  mft_zone : Z;
  cluster_bitmap : Z;
  rtc_time_ready : bool
}.
Arguments Fs {D} _ _ _ _ _ _ _.
Arguments fheap {D} _.
Arguments fdisk {D} _.
Arguments fvol {D} _.
Arguments boot_sector {D} _.
Arguments mft_zone {D} _.
Arguments cluster_bitmap {D} _.
Arguments rtc_time_ready {D} _.

(* fs_file_t *)
Definition ff_mft_number : field := Field 0 8.
Definition ff_position : field := Field 8 8.
Definition ff_size : field := Field 16 8.
Definition ff_mode : field := Field 24 1.
Definition sizeof_file : Z := 32.

(** [(uint64_t)-1]. *)
Definition NOT_FOUND : Z := U64_MAX.
Definition i64 (x : Z) : Z := (x + 2 ^ 63) mod 2 ^ 64 - 2 ^ 63.

(** 16-bit words as the drive takes them, from bytes. *)
Fixpoint words_of (bs : list Z) : list Z :=
  match bs with a :: b :: rest => a + 256 * b :: words_of rest | [a] => [a] | [] => [] end.

(** ** The monad *)

Definition FsM (D A : Type) : Type := fs D -> option (A * fs D).
#[export] Instance fsm_ret {D} : MRet (FsM D) := fun A x s => Some (x, s).
#[export] Instance fsm_bind {D} : MBind (FsM D) := fun A B k m s => '(x, s) ← m s; k x s.

Section ops.
Context {D : Type} `{PortIO D} (fuel : nat).
Implicit Types (s : fs D) (m : mem).

Definition fmem s : mem := payload (fheap s).
Definition set_heap (h : kheap) s : fs D :=
  Fs h (fdisk s) (fvol s) (boot_sector s) (mft_zone s) (cluster_bitmap s) (rtc_time_ready s).
Definition set_disk (d : disk D) s : fs D :=
  Fs (fheap s) d (fvol s) (boot_sector s) (mft_zone s) (cluster_bitmap s) (rtc_time_ready s).
Definition set_mem (m : mem) s : fs D := set_heap (set_payload m (fheap s)) s.

Definition gets {A} (f : fs D -> A) : FsM D A := fun s => Some (f s, s).
Definition putm (f : fs D -> fs D) : FsM D unit := fun s => Some ((), f s).
Definition lift {A} (o : option A) : FsM D A := fun s => x ← o; Some (x, s).
(** Loads and stores in kernel memory. *)
Definition ld (p : Z) (f : field) : FsM D Z := gets (fun s => rd (fmem s) p f).
Definition upd (f : mem -> mem) : FsM D unit := putm (fun s => set_mem (f (fmem s)) s).
Definition st (p : Z) (f : field) (v : Z) : FsM D unit := upd (wr p f v).
Definition attr_of (entry ty : Z) : FsM D Z := fun s => x ← find_attr (fmem s) entry ty; Some (x, s).
Definition payload_of (entry ty : Z) : FsM D Z := fun s => x ← find_attr_payload (fmem s) entry ty; Some (x, s).

Definition malloc (size : Z) : FsM D Z := fun s => '(p, h) ← kmalloc fuel size (fheap s); Some (p, set_heap h s).
Definition free (p : Z) : FsM D unit := fun s => h ← kfree fuel p (fheap s); Some ((), set_heap h s).

Definition now : FsM D Z := fun s =>
  '(t, d) ← get_time fuel (rtc_time_ready s) (dev (fdisk s));
  Some (t, Fs (fheap s) (set_dev d (fdisk s)) (fvol s) (boot_sector s) (mft_zone s) (cluster_bitmap s) true).

(** ** Clusters *)

Definition total_clusters s : Z := rd (fmem s) (boot_sector s) bs_total_clusters.
Definition mft_size s : Z := rd (fmem s) (boot_sector s) bs_mft_size.

Definition cluster_lba s (cluster : Z) : Z :=
  u32 (u64 (volume_base_lba (fvol s) + cluster * FS_SECTORS_PER_CLUSTER + rd (fmem s) (boot_sector s) bs_data_start)).

(** The bytes delivered into the buffer and the result. *)
Definition read_cluster (cluster : Z) : FsM D (list Z * Z) := fun s =>
  let '(ws, r, d) := disk_read (cluster_lba s cluster) FS_SECTORS_PER_CLUSTER (fdisk s) in
  Some ((bytes_of ws, r), set_disk d s).
Definition write_cluster (cluster : Z) (buffer : list Z) : FsM D Z := fun s =>
  let '(r, d) := disk_write (cluster_lba s cluster) FS_SECTORS_PER_CLUSTER (words_of buffer) (fdisk s) in
  Some (r, set_disk d s).

Definition mft_cluster s (entry_num : Z) : Z := u64 (rd (fmem s) (boot_sector s) bs_mft_start + entry_num).
(** Both transfer the 4096 bytes at [buffer] in kernel memory. *)
Definition read_mft_entry (entry_num buffer : Z) : FsM D Z :=
  c ← gets (fun s => mft_cluster s entry_num);
  '(bs, r) ← read_cluster c;
  upd (store_bytes buffer bs);;
  mret r.
Definition write_mft_entry (entry_num buffer : Z) : FsM D Z :=
  c ← gets (fun s => mft_cluster s entry_num);
  bytes ← gets (fun s => load_bytes (fmem s) buffer MFT_ENTRY_SIZE);
  write_cluster c bytes.

Definition bitmap_byte s (i : Z) : Z := byte_at (fmem s) (cluster_bitmap s + i / 8).
Definition cluster_used s (i : Z) : bool := has_flag (bitmap_byte s i) (1 .<< (i mod 8)).

Definition alloc_cluster : FsM D Z := fun s =>
  match find_first (fun i => negb (cluster_used s i)) (seqZ 0 (total_clusters s)) with
  | Some i => Some (i, set_mem (<[cluster_bitmap s + i / 8 := u8 (bitmap_byte s i .| (1 .<< (i mod 8)))]> (fmem s)) s)
  | None => Some (NOT_FOUND, s)
  end.

(** [cluster_bitmap[cluster / 8] &= ~(1 << cluster % 8)] within the bitmap. *)
Definition free_cluster (cluster : Z) : FsM D unit := putm (fun s =>
  if cluster / 8 <? u64 (total_clusters s + 7) / 8 then
    set_mem (<[cluster_bitmap s + cluster / 8 := u8 (bitmap_byte s cluster .& Z.lnot (1 .<< (cluster mod 8)))]> (fmem s)) s
  else s).

(** ** Entries *)

Definition mft_addr s (n : Z) : Z := u64 (mft_zone s + n * MFT_ENTRY_SIZE).
Definition entry_of (n : Z) : FsM D Z := gets (fun s => mft_addr s n).
Definition user_entries s : list Z := seqZ MFT_FIRST_USER (mft_size s - MFT_FIRST_USER).
Definition in_use s (n : Z) : bool := has_flag (rd (fmem s) (mft_addr s n) mh_flags) MFT_FLAG_IN_USE.

Definition alloc_mft_entry : FsM D Z :=
  gets (fun s => default NOT_FOUND (find_first (fun i => negb (in_use s i)) (user_entries s))).

Definition add_dir_entry (parent_dir child : Z) (name : cstring) : FsM D unit := fun s =>
  '(ins, m) ← dir_insertion parent_dir child (fmem s);
  match ins with
  | None => Some ((), set_mem m s)
  | Some (index_attr, insert) =>
      (t ← now; upd (dir_insert parent_dir child index_attr insert t name)) (set_mem m s)
  end.

Definition add_filename (entry : Z) (name : cstring) (parent : Z) : FsM D unit :=
  t ← now; upd (add_filename_attr entry name parent t).

Definition drop_index_entry (dir child : Z) : FsM D unit := fun s =>
  m ← remove_index_entry dir child (fmem s); Some ((), set_mem m s).

(** A loop over indices that may return early. *)
Fixpoint for_each (l : list Z) (body : Z -> FsM D unit) : FsM D unit :=
  match l with [] => mret () | i :: l' => body i;; for_each l' body end.

(** ** Format and mount *)

Definition fs_format (disk_size : Z) : FsM D Z :=
  disk_size ← gets (fun s =>
    if 0 <? volume_sectors (fvol s) then Z.min disk_size (u64 (volume_sectors (fvol s) * FS_SECTOR_SIZE)) else disk_size);
  b ← malloc FS_SECTOR_SIZE;
  putm (fun s => Fs (fheap s) (fdisk s) (fvol s) b (mft_zone s) (cluster_bitmap s) (rtc_time_ready s));;
  if b =? 0 then mret (-1) else
  st b bs_magic FS_MAGIC;;
  st b bs_version FS_VERSION;;
  st b bs_total_sectors (disk_size / FS_SECTOR_SIZE);;
  st b bs_sectors_per_cluster FS_SECTORS_PER_CLUSTER;;
  st b bs_mft_start 8;;
  st b bs_mft_size 128;;
  st b bs_mft_entry_size MFT_ENTRY_SIZE;;
  start ← ld b bs_mft_start;
  n ← ld b bs_mft_size;
  st b bs_data_start (start + n);;
  sectors ← ld b bs_total_sectors;
  data ← ld b bs_data_start;
  st b bs_total_clusters (u64 (sectors - data) / FS_SECTORS_PER_CLUSTER);;
  st b bs_signature 43605;;
  z ← malloc (u32 (n * MFT_ENTRY_SIZE));
  putm (fun s => Fs (fheap s) (fdisk s) (fvol s) (boot_sector s) z (cluster_bitmap s) (rtc_time_ready s));;
  if z =? 0 then mret (-1) else
  total ← gets total_clusters;
  c ← malloc (u64 (total + 7) / 8);
  putm (fun s => Fs (fheap s) (fdisk s) (fvol s) (boot_sector s) (mft_zone s) c (rtc_time_ready s));;
  if c =? 0 then mret (-1) else
  for_each (seqZ 0 n) (fun i =>
    e ← entry_of i;
    st e mh_magic 0;;
    st e mh_flags 0);;
  root ← entry_of MFT_ROOT;
  upd (init_mft_entry root MFT_ROOT MFT_FLAG_DIRECTORY);;
  add_filename root [] MFT_ROOT;;
  upd (add_index_root_attr root);;
  ready ← gets (fun s => disk_is_ready (fdisk s));
  (if (ready : bool) then
    (fun s =>
      let '(_, d) := disk_write (u32 (volume_base_lba (fvol s))) 1
                       (words_of (load_bytes (fmem s) (boot_sector s) FS_SECTOR_SIZE)) (fdisk s) in
      Some ((), set_disk d s));;
    for_each (seqZ 0 n) (fun i => e ← entry_of i; write_mft_entry i e;; mret ())
  else mret ());;
  mret 0.

(** The checks of [fs_mount] on the boot sector read from the disk. *)
Definition bad_geometry (m : mem) (b : Z) : bool :=
  negb (rd m b bs_magic =? FS_MAGIC)
  || (rd m b bs_mft_size =? 0) || (4096 <? rd m b bs_mft_size)
  || (64 * 1024 * 1024 <? rd m b bs_mft_size * MFT_ENTRY_SIZE)
  || (rd m b bs_total_clusters =? 0) || (4 * 1024 * 1024 <? rd m b bs_total_clusters)
  || ((rd m b bs_total_sectors <=? rd m b bs_data_start) && negb (rd m b bs_total_sectors =? 0)).

Definition fs_mount : FsM D Z :=
  b ← malloc FS_SECTOR_SIZE;
  putm (fun s => Fs (fheap s) (fdisk s) (fvol s) b (mft_zone s) (cluster_bitmap s) (rtc_time_ready s));;
  if b =? 0 then mret (-1) else
  r ← (fun s =>
    let '(ws, r, d) := disk_read (u32 (volume_base_lba (fvol s))) 1 (fdisk s) in
    Some (r, set_mem (store_bytes b (bytes_of ws) (fmem s)) (set_disk d s)));
  if r <? 0 then mret (-1) else
  bad ← gets (fun s => bad_geometry (fmem s) b);
  if (bad : bool) then mret (-1) else
  n ← gets mft_size;
  z ← malloc (n * MFT_ENTRY_SIZE);
  putm (fun s => Fs (fheap s) (fdisk s) (fvol s) (boot_sector s) z (cluster_bitmap s) (rtc_time_ready s));;
  if z =? 0 then mret (-1) else
  upd (store_bytes z (replicate (Z.to_nat (n * MFT_ENTRY_SIZE)) 0));;
  for_each (seqZ 0 n) (fun i => e ← entry_of i; read_mft_entry i e;; mret ());;
  total ← gets total_clusters;
  c ← malloc ((total + 7) / 8);
  putm (fun s => Fs (fheap s) (fdisk s) (fvol s) (boot_sector s) (mft_zone s) c (rtc_time_ready s));;
  if c =? 0 then mret (-1) else
  upd (store_bytes c (replicate (Z.to_nat ((total + 7) / 8)) 0));;
  mret 0.

(** ** Paths *)

(** The characters the inner loop of [find_file] takes: up to a slash, at most
    254 of them. *)
Fixpoint take_component (room : nat) (ptr : cstring) : cstring * cstring :=
  match room, ptr with
  | S k, c :: ptr' => if c =? ch "/" then ([], ptr) else let '(comp, rest) := take_component k ptr' in (c :: comp, rest)
  | _, _ => ([], ptr)
  end.
Definition skip_slash (ptr : cstring) : cstring :=
  match ptr with c :: ptr' => if c =? ch "/" then ptr' else ptr | [] => [] end.

(** The name comparison loop. *)
Fixpoint same_prefix (a b : cstring) : bool :=
  match a, b with x :: a', y :: b' => if x =? y then same_prefix a' b' else false | _, _ => true end.

Definition child_matches (current : Z) (comp : cstring) s (i : Z) : option bool :=
  if negb (in_use s i) then Some false
  else
    fn ← find_attr_payload (fmem s) (mft_addr s i) ATTR_FILENAME;
    if fn =? 0 then Some false
    else if rd (fmem s) fn fn_parent_mft =? current then
      let name := load_bytes (fmem s) (fn + fn_filename) (rd (fmem s) fn fn_filename_length) in
      Some (same_prefix comp name && (len comp =? rd (fmem s) fn fn_filename_length))
    else Some false.

Fixpoint search_children (l : list Z) (current : Z) (comp : cstring) s : option (option Z) :=
  match l with
  | [] => Some None
  | i :: l' =>
      b ← child_matches current comp s i;
      if (b : bool) then Some (Some i) else search_children l' current comp s
  end.

(** Every turn consumes a character of the path. *)
Fixpoint find_loop (turns : nat) (ptr : cstring) (current : Z) s : option Z :=
  match turns with
  | O => None
  | S k =>
      match ptr with
      | [] => Some current
      | _ =>
          let '(comp, rest) := take_component (Z.to_nat (MAX_FILENAME_LEN - 1)) ptr in
          let rest := skip_slash rest in
          match comp with
          | [] => find_loop k rest current s
          | _ =>
              fn ← find_attr_payload (fmem s) (mft_addr s current) ATTR_FILENAME;
              if fn =? 0 then Some NOT_FOUND
              else
                found ← search_children (user_entries s) current comp s;
                match found with Some i => find_loop k rest i s | None => Some NOT_FOUND end
          end
      end
  end.

Definition find_file_in (path : cstring) s : option Z :=
  match path with
  | c :: ptr => if c =? ch "/" then find_loop (S (length ptr)) ptr MFT_ROOT s else Some NOT_FOUND
  | [] => Some NOT_FOUND
  end.
Definition find_file (path : cstring) : FsM D Z := fun s => i ← find_file_in path s; Some (i, s).

(** The offset of the last slash, 0 when there is none. *)
Definition last_slash (path : cstring) : Z :=
  foldl (fun acc i => if char_at path i =? ch "/" then i else acc) 0 (seqZ 0 (len path)).
Definition base_name (path : cstring) : cstring := drop (Z.to_nat (last_slash path + 1)) path.
(** The directory part as [fs_open] and [fs_mkdir] copy it into a buffer of
    256 bytes, without a bound; the name after the slash of an empty path
    would be read past its end. *)
Definition parent_path (path : cstring) : option cstring :=
  let n := last_slash path in
  if len path =? 0 then None
  else if n =? 0 then Some [ch "/"]
  else if n <? 256 then Some (take (Z.to_nat n) path)
  else None.

(** The new entry, its name and its place in the parent's index, written back. *)
Definition create_entry (path : cstring) (flags : Z) (mft_num parent_mft : Z) : FsM D (Z * Z) :=
  entry ← entry_of mft_num;
  upd (init_mft_entry entry mft_num flags);;
  add_filename entry (base_name path) parent_mft;;
  (if flags =? MFT_FLAG_DIRECTORY then upd (add_index_root_attr entry) else mret ());;
  parent ← entry_of parent_mft;
  add_dir_entry parent mft_num (base_name path);;
  mret (entry, parent).

(** The creating branch of [fs_open]. *)
Definition open_create (path : cstring) : FsM D Z :=
  mft_num ← alloc_mft_entry;
  if mft_num =? NOT_FOUND then mret NOT_FOUND else
  dir ← lift (parent_path path);
  parent_mft ← find_file dir;
  if parent_mft =? NOT_FOUND then mret NOT_FOUND else
  '(entry, parent) ← create_entry path 0 mft_num parent_mft;
  write_mft_entry mft_num entry;;
  write_mft_entry parent_mft parent;;
  mret mft_num.

(** The handle's address, 0 on failure. *)
Definition fs_open (path : cstring) (mode : Z) : FsM D Z :=
  found ← find_file path;
  mft_num ← (if (found =? NOT_FOUND) && negb (mode =? 0) then open_create path else mret found);
  if mft_num =? NOT_FOUND then mret 0 else
  existing ← entry_of mft_num;
  flags ← ld existing mh_flags;
  if negb (mode =? 0) && has_flag flags MFT_FLAG_READONLY then mret 0 else
  file ← malloc sizeof_file;
  if file =? 0 then mret 0 else
  st file ff_mft_number mft_num;;
  st file ff_position 0;;
  st file ff_mode (u8 mode);;
  entry ← entry_of mft_num;
  fn ← payload_of entry ATTR_FILENAME;
  (if negb (fn =? 0) then size ← ld fn fn_real_size; st file ff_size size else st file ff_size 0);;
  st file ff_position 0;;
  mret file.

Definition fs_close (file : Z) : FsM D Z :=
  (if negb (file =? 0) then free file else mret ());; mret 0.

(** ** Truncate and seek *)

(** The number of runs that [fs_truncate] and [fs_unlink] visit. *)
Definition bounded_runs m (data_attr nr : Z) : Z :=
  let num_runs := nonresident_run_count m data_attr nr in
  let span := u64 (u64 (rd m nr nr_last_vcn - rd m nr nr_start_vcn) + 1) in
  if (rd m nr nr_start_vcn <=? rd m nr nr_last_vcn) && (span <? num_runs) then span else num_runs.

Definition run_at (runs i : Z) : Z := runs + i * sizeof_data_run.

(** Frees the clusters after the first [keep], stopping at a run longer than
    the volume. *)
Fixpoint free_runs (l : list Z) (runs keep seen : Z) : FsM D unit :=
  match l with
  | [] => mret ()
  | i :: l' =>
      n ← ld (run_at runs i) dr_length;
      total ← gets total_clusters;
      if total <? n then mret ()
      else
        start ← ld (run_at runs i) dr_start_cluster;
        for_each (seqZ 0 n) (fun j =>
          if keep <=? seen + j then free_cluster (u64 (start + j)) else mret ());;
        free_runs l' runs keep (seen + n)
  end.

Definition set_size_and_time (entry size : Z) : FsM D unit :=
  fn ← payload_of entry ATTR_FILENAME;
  if negb (fn =? 0) then
    st fn fn_real_size size;;
    t ← now;
    st fn fn_modify_time t
  else mret ().

Definition fs_truncate (file size : Z) : FsM D Z :=
  if file =? 0 then mret (-1) else
  cur ← ld file ff_size;
  if cur <=? size then mret 0 else
  num ← ld file ff_mft_number;
  entry ← entry_of num;
  data_attr ← attr_of entry ATTR_DATA;
  (if negb (data_attr =? 0) then
    non_resident ← ld data_attr at_non_resident;
    if negb (non_resident =? 0) then
      let nr := data_attr + sizeof_attr_header in
      ro ← ld nr nr_run_offset;
      num_runs ← gets (fun s => bounded_runs (fmem s) data_attr nr);
      free_runs (seqZ 0 num_runs) (data_attr + ro) (u64 (size + FS_CLUSTER_SIZE - 1) / FS_CLUSTER_SIZE) 0;;
      st nr nr_real_size size;;
      st nr nr_initialized_size size
    else st data_attr at_length (sizeof_attr_header + u32 size)
  else mret ());;
  set_size_and_time entry size;;
  st file ff_size size;;
  pos ← ld file ff_position;
  (if size <? pos then st file ff_position size else mret ());;
  write_mft_entry num entry;;
  mret 0.

Definition fs_seek (file offset whence : Z) : FsM D Z :=
  if file =? 0 then mret (-1) else
  position ← ld file ff_position;
  size ← ld file ff_size;
  let seek base :=
    let pos := i64 (base + offset) in
    let pos := if pos <? 0 then 0 else pos in
    let pos := if size <? pos then i64 size else pos in
    st file ff_position (u64 pos);;
    mret 0 in
  if whence =? 0 then seek 0
  else if whence =? 1 then seek (i64 position)
  else if whence =? 2 then seek (i64 size)
  else mret (-1).

(** ** Read *)

(** The loop over data clusters: bytes so far, offset in the first cluster.
    [cluster_buf] is a stack buffer; what [disk_read] does not fill of it keeps
    what the stack held. *)
Context (stack : list Z).
Definition filled (bs buf : list Z) : list Z := bs ++ drop (length bs) buf.
Definition slice (buf : list Z) (off n : Z) : list Z := take (Z.to_nat n) (drop (Z.to_nat off) buf).

Fixpoint read_runs (l : list Z) (runs avail real position size off : Z) (acc : list Z) : FsM D (list Z) :=
  match l with
  | [] => mret acc
  | i :: l' =>
      if size <=? len acc then mret acc
      else
        cluster ← ld (run_at runs i) dr_start_cluster;
        let to_read := FS_CLUSTER_SIZE - off in
        let to_read := if (i =? avail - 1) && (position <? real) then Z.min to_read (real - position) else to_read in
        let to_read := Z.min to_read (size - len acc) in
        '(bs, _) ← read_cluster cluster;
        read_runs l' runs avail real position size 0 (acc ++ slice (filled bs stack) off to_read)
  end.

(** The bytes stored in the caller's buffer; the result is their number. *)
Definition fs_read (file size : Z) : FsM D (list Z) :=
  if (file =? 0) || (size =? 0) then mret [] else
  num ← ld file ff_mft_number;
  position ← ld file ff_position;
  entry ← entry_of num;
  data_attr ← attr_of entry ATTR_DATA;
  if data_attr =? 0 then mret [] else
  non_resident ← ld data_attr at_non_resident;
  if negb (non_resident =? 0) then
    let nr := data_attr + sizeof_attr_header in
    ro ← ld nr nr_run_offset;
    allocated ← ld nr nr_allocated_size;
    real ← ld nr nr_real_size;
    max_runs ← gets (fun s => nonresident_run_count (fmem s) data_attr nr);
    let avail := Z.min (allocated / FS_CLUSTER_SIZE) max_runs in
    let start := position / FS_CLUSTER_SIZE in
    bytes ← read_runs (seqZ start (avail - start)) (data_attr + ro) avail real position size (position mod FS_CLUSTER_SIZE) [];
    st file ff_position (u64 (position + len bytes));;
    mret bytes
  else
    length ← ld data_attr at_length;
    if length <? sizeof_attr_header then mret [] else
    let attr_off := u32 (data_attr - entry) in
    let data_size := length - sizeof_attr_header in
    let data_size := if MFT_ENTRY_SIZE <? attr_off + sizeof_attr_header + data_size
                     then u32 (MFT_ENTRY_SIZE - attr_off - sizeof_attr_header) else data_size in
    if data_size <=? position then mret [] else
    let to_read := if data_size <? u64 (position + size) then data_size - position else size in
    bytes ← gets (fun s => load_bytes (fmem s) (data_attr + sizeof_attr_header + position) to_read);
    st file ff_position (u64 (position + to_read));;
    mret bytes.

(** ** Write *)

(** The new data attribute over the end marker; the [else] of the size test. *)
Definition create_data_attr (entry size : Z) : FsM D Z :=
  used ← ld entry mh_used_size;
  let available := u64 (u32 (MFT_ENTRY_SIZE - used) - sizeof_attr_header - 8) in
  let data_attr := entry + used - 8 in
  st data_attr at_type ATTR_DATA;;
  (if available <? size then
    st data_attr at_non_resident 1;;
    st data_attr at_length (sizeof_attr_header + sizeof_attr_nonresident);;
    let nr := data_attr + sizeof_attr_header in
    st nr nr_start_vcn 0;;
    st nr nr_last_vcn 0;;
    st nr nr_run_offset (sizeof_attr_header + sizeof_attr_nonresident);;
    st nr nr_comp_unit_size 0;;
    st nr nr_reserved 0;;
    st nr nr_allocated_size 0;;
    st nr nr_real_size 0;;
    st nr nr_initialized_size 0;;
    l ← ld data_attr at_length;
    upd (place_end entry (data_attr + l))
  else
    st data_attr at_non_resident 0;;
    st data_attr at_length sizeof_attr_header;;
    upd (place_end entry (data_attr + sizeof_attr_header)));;
  mret data_attr.

Definition find_or_create_data (entry size : Z) : FsM D Z :=
  found ← attr_of entry ATTR_DATA;
  if found =? 0 then create_data_attr entry size else mret found.

(** Fresh clusters appended to the run array until [upto] runs, a full volume
    stops it; the number of runs. *)
Fixpoint extend_runs (turns : nat) (runs allocated : Z) : FsM D Z :=
  match turns with
  | O => mret allocated
  | S k =>
      c ← alloc_cluster;
      if c =? NOT_FOUND then mret allocated
      else
        st (run_at runs allocated) dr_start_cluster c;;
        st (run_at runs allocated) dr_length 1;;
        extend_runs k runs (allocated + 1)
  end.

(** Bytes of [buf] over [old] at [off]. *)
Definition patch (old : list Z) (off : Z) (buf : list Z) : list Z :=
  take (Z.to_nat off) old ++ buf ++ drop (Z.to_nat off + length buf) old.

(** The cluster loop of the non-resident branch, from run 0. *)
Fixpoint write_runs (l : list Z) (runs position : Z) (data : list Z) (written : Z) : FsM D Z :=
  match l with
  | [] => mret written
  | i :: l' =>
      if len data <=? written then mret written
      else
        cluster ← ld (run_at runs i) dr_start_cluster;
        let off := if i =? position / FS_CLUSTER_SIZE then position mod FS_CLUSTER_SIZE else 0 in
        let to_write := Z.min (FS_CLUSTER_SIZE - off) (len data - written) in
        old ← (if (0 <? off) || (to_write <? FS_CLUSTER_SIZE) then
                 '(bs, _) ← read_cluster cluster; mret (filled bs stack)
               else mret stack);
        write_cluster cluster (patch old off (slice data written to_write));;
        write_runs l' runs position data (written + to_write)
  end.

Definition write_nonresident (file entry data_attr : Z) (data : list Z) : FsM D Z :=
  let nr := data_attr + sizeof_attr_header in
  let size := len data in
  position ← ld file ff_position;
  let needed := u64 (position + size + FS_CLUSTER_SIZE - 1) / FS_CLUSTER_SIZE in
  ro ← ld nr nr_run_offset;
  let runs := data_attr + ro in
  max_runs ← gets (fun s => nonresident_run_count (fmem s) data_attr nr);
  allocated_size ← ld nr nr_allocated_size;
  (if (0 <? allocated_size) && (max_runs <? allocated_size / FS_CLUSTER_SIZE)
   then st nr nr_allocated_size (max_runs * FS_CLUSTER_SIZE) else mret ());;
  let have := if 0 <? allocated_size then Z.min (allocated_size / FS_CLUSTER_SIZE) max_runs else 0 in
  allocated ← extend_runs (Z.to_nat (Z.min needed max_runs - have)) runs have;
  written ← write_runs (seqZ 0 needed) runs position data 0;
  ro ← ld nr nr_run_offset;
  st data_attr at_length (ro + u32 (allocated * sizeof_data_run));;
  l ← ld data_attr at_length;
  upd (place_end entry (data_attr + l));;
  st nr nr_allocated_size (u64 (allocated * FS_CLUSTER_SIZE));;
  st nr nr_real_size (u64 (position + written));;
  st nr nr_initialized_size (u64 (position + written));;
  st nr nr_last_vcn (u64 (allocated - 1));;
  st file ff_position (u64 (position + written));;
  st file ff_size (u64 (position + written));;
  set_size_and_time entry (u64 (position + written));;
  num ← ld file ff_mft_number;
  write_mft_entry num entry;;
  mret written.

(** The overlay loop of the conversion; a turn writes at least a byte. *)
Fixpoint overlay_runs (turns : nat) (runs position allocated : Z) (data : list Z) (written : Z) : FsM D Z :=
  match turns with
  | O => lift None
  | S k =>
      if len data <=? written then mret written
      else
        let idx := u64 (position + written) / FS_CLUSTER_SIZE in
        if allocated <=? idx then mret written
        else
          cluster ← ld (run_at runs idx) dr_start_cluster;
          let off := u64 (position + written) mod FS_CLUSTER_SIZE in
          let to_write := Z.min (FS_CLUSTER_SIZE - off) (len data - written) in
          '(bs, _) ← read_cluster cluster;
          write_cluster cluster (patch (filled bs stack) off (slice data written to_write));;
          overlay_runs k runs position allocated data (written + to_write)
  end.

(** Resident data that no longer fits moves to clusters. *)
Definition convert_nonresident (file entry data_attr : Z) (data : list Z) : FsM D Z :=
  let nr := data_attr + sizeof_attr_header in
  let size := len data in
  position ← ld file ff_position;
  length ← ld data_attr at_length;
  let existing := if sizeof_attr_header <? length then length - sizeof_attr_header else 0 in
  let attr_off := data_attr - entry in
  let existing := if MFT_ENTRY_SIZE <? attr_off + sizeof_attr_header + existing
                  then u64 (MFT_ENTRY_SIZE - attr_off - sizeof_attr_header) else existing in
  saved ← gets (fun s => load_bytes (fmem s) nr existing);
  let total_end := Z.max (u64 (position + size)) existing in
  let needed := Z.max 1 (u64 (total_end + FS_CLUSTER_SIZE - 1) / FS_CLUSTER_SIZE) in
  let new_len := u32 (sizeof_attr_header + sizeof_attr_nonresident + u32 (needed * sizeof_data_run)) in
  st data_attr at_non_resident 1;;
  st data_attr at_length new_len;;
  st nr nr_start_vcn 0;;
  st nr nr_last_vcn (needed - 1);;
  st nr nr_run_offset (sizeof_attr_header + sizeof_attr_nonresident);;
  st nr nr_comp_unit_size 0;;
  st nr nr_reserved 0;;
  st nr nr_allocated_size 0;;
  st nr nr_real_size 0;;
  st nr nr_initialized_size 0;;
  ro ← ld nr nr_run_offset;
  let runs := data_attr + ro in
  allocated ← extend_runs (Z.to_nat needed) runs 0;
  if allocated =? 0 then mret 0 else
  for_each (seqZ 0 allocated) (fun i =>
    cluster ← ld (run_at runs i) dr_start_cluster;
    let chunk := slice saved (i * FS_CLUSTER_SIZE) FS_CLUSTER_SIZE in
    write_cluster cluster (patch (replicate (Z.to_nat FS_CLUSTER_SIZE) 0) 0 chunk);;
    mret ());;
  written ← overlay_runs (S (Z.to_nat size)) runs position allocated data 0;
  st nr nr_allocated_size (u64 (allocated * FS_CLUSTER_SIZE));;
  st nr nr_real_size (Z.max (u64 (position + written)) existing);;
  st nr nr_initialized_size (Z.max (u64 (position + written)) existing);;
  st file ff_position (u64 (position + written));;
  st file ff_size (u64 (position + written));;
  set_size_and_time entry (u64 (position + written));;
  upd (place_end entry (data_attr + new_len));;
  num ← ld file ff_mft_number;
  write_mft_entry num entry;;
  mret written.

Definition write_resident (file entry data_attr : Z) (data : list Z) : FsM D Z :=
  let size := len data in
  position ← ld file ff_position;
  upd (store_bytes (data_attr + sizeof_attr_header + position) data);;
  st file ff_position (u64 (position + size));;
  st file ff_size (u64 (position + size));;
  st data_attr at_length (u64 (sizeof_attr_header + u64 (position + size)));;
  set_size_and_time entry (u64 (position + size));;
  num ← ld file ff_mft_number;
  write_mft_entry num entry;;
  mret size.

Definition fs_write (file : Z) (data : list Z) : FsM D Z :=
  let size := len data in
  if (file =? 0) || (size =? 0) then mret 0 else
  mode ← ld file ff_mode;
  (if mode =? 2 then sz ← ld file ff_size; st file ff_position sz else mret ());;
  num ← ld file ff_mft_number;
  entry ← entry_of num;
  data_attr ← find_or_create_data entry size;
  non_resident ← ld data_attr at_non_resident;
  if negb (non_resident =? 0) then write_nonresident file entry data_attr data
  else
    position ← ld file ff_position;
    used ← ld entry mh_used_size;
    if u32 (MFT_ENTRY_SIZE - used) <? u64 (position + size) then convert_nonresident file entry data_attr data
    else write_resident file entry data_attr data.

(** ** Space and statistics *)

Definition free_clusters s : Z := countb (fun i => negb (cluster_used s i)) (seqZ 0 (total_clusters s)).
Definition fs_get_free_space s : Z := u64 (free_clusters s * FS_CLUSTER_SIZE).
Definition fs_get_total_space s : Z := u64 (total_clusters s * FS_CLUSTER_SIZE).

Record fs_stats : Type := FsStats {
  fst_total_bytes : Z; fst_free_bytes : Z; fst_used_bytes : Z; fst_file_count : Z; fst_dir_count : Z
}.
Definition is_dir_entry s (n : Z) : bool := has_flag (rd (fmem s) (mft_addr s n) mh_flags) MFT_FLAG_DIRECTORY.
Definition fs_get_stats s : option fs_stats :=
  if (boot_sector s =? 0) || (mft_zone s =? 0) then None
  else
    let total := u64 (total_clusters s * FS_CLUSTER_SIZE) in
    let freeb := u64 (free_clusters s * FS_CLUSTER_SIZE) in
    Some (FsStats total freeb (u64 (total - freeb))
            (countb (fun i => in_use s i && negb (is_dir_entry s i)) (user_entries s))
            (countb (fun i => in_use s i && is_dir_entry s i) (user_entries s))).

(** ** Directories and names *)

Definition fs_mkdir (path : cstring) : FsM D Z :=
  if len path =? 0 then mret (-1) else
  mft_num ← alloc_mft_entry;
  if mft_num =? NOT_FOUND then mret (-1) else
  dir ← lift (parent_path path);
  parent_mft ← find_file dir;
  if parent_mft =? NOT_FOUND then mret (-1) else
  '(entry, parent) ← create_entry path MFT_FLAG_DIRECTORY mft_num parent_mft;
  r ← write_mft_entry mft_num entry;
  if r <? 0 then mret (-1) else
  r ← write_mft_entry parent_mft parent;
  mret (if r <? 0 then -1 else 0).

(** Some entry in use names [dir] as its parent. *)
Fixpoint has_child (l : list Z) (dir : Z) s : option bool :=
  match l with
  | [] => Some false
  | i :: l' =>
      if negb (in_use s i) then has_child l' dir s
      else
        fn ← find_attr_payload (fmem s) (mft_addr s i) ATTR_FILENAME;
        if negb (fn =? 0) && (rd (fmem s) fn fn_parent_mft =? dir) then Some true else has_child l' dir s
  end.

(** Removes the entry from its parent's index and writes the parent. *)
Definition unlink_from_parent (entry mft_num : Z) : FsM D unit :=
  fn ← payload_of entry ATTR_FILENAME;
  if fn =? 0 then mret () else
  parent_mft ← ld fn fn_parent_mft;
  n ← gets mft_size;
  if negb (parent_mft =? NOT_FOUND) && (parent_mft <? n) then
    parent ← entry_of parent_mft;
    drop_index_entry parent mft_num;;
    write_mft_entry parent_mft parent;;
    mret ()
  else mret ().

Definition clear_entry (entry mft_num : Z) : FsM D Z :=
  st entry mh_magic 0;;
  st entry mh_flags 0;;
  st entry mh_used_size 0;;
  r ← write_mft_entry mft_num entry;
  mret (if r <? 0 then -1 else 0).

Definition fs_rmdir (path : cstring) : FsM D Z :=
  if len path =? 0 then mret (-1) else
  mft_num ← find_file path;
  if mft_num =? NOT_FOUND then mret (-1) else
  entry ← entry_of mft_num;
  flags ← ld entry mh_flags;
  if negb (has_flag flags MFT_FLAG_DIRECTORY) then mret (-1) else
  if has_flag flags MFT_FLAG_READONLY then mret (-1) else
  busy ← (fun s => b ← has_child (user_entries s) mft_num s; Some (b, s));
  if (busy : bool) then mret (-1) else
  unlink_from_parent entry mft_num;;
  clear_entry entry mft_num.

Definition fs_unlink (path : cstring) : FsM D Z :=
  if len path =? 0 then mret (-1) else
  mft_num ← find_file path;
  if mft_num =? NOT_FOUND then mret (-1) else
  entry ← entry_of mft_num;
  flags ← ld entry mh_flags;
  if has_flag flags MFT_FLAG_READONLY then mret (-1) else
  if has_flag flags MFT_FLAG_DIRECTORY then mret (-1) else
  data_attr ← attr_of entry ATTR_DATA;
  (if negb (data_attr =? 0) then
    non_resident ← ld data_attr at_non_resident;
    if negb (non_resident =? 0) then
      let nr := data_attr + sizeof_attr_header in
      ro ← ld nr nr_run_offset;
      num_runs ← gets (fun s => bounded_runs (fmem s) data_attr nr);
      free_runs (seqZ 0 num_runs) (data_attr + ro) 0 0
    else mret ()
  else mret ());;
  unlink_from_parent entry mft_num;;
  clear_entry entry mft_num.

(** The directory part as [fs_rename] copies it: at most 254 characters, the
    terminator at the full length. *)
Definition rename_parent (path : cstring) : option cstring :=
  let n := last_slash path in
  if n =? 0 then Some [ch "/"]
  else if n <? 256 then Some (cstr (filled (take (Z.to_nat (Z.min n 254)) path) (take (Z.to_nat n) stack)))
  else None.

Definition fs_rename (old_path new_path : cstring) : FsM D Z :=
  if negb ((char_at old_path 0 =? ch "/") && (char_at new_path 0 =? ch "/")) then mret (-1) else
  mft_num ← find_file old_path;
  if mft_num =? NOT_FOUND then mret (-1) else
  let new_name := base_name new_path in
  if len new_name =? 0 then mret (-1) else
  dir ← lift (rename_parent new_path);
  new_parent ← find_file dir;
  if new_parent =? NOT_FOUND then mret (-1) else
  existing ← find_file new_path;
  if negb (existing =? NOT_FOUND) then mret (-1) else
  entry ← entry_of mft_num;
  fn ← payload_of entry ATTR_FILENAME;
  if fn =? 0 then mret (-1) else
  old_parent ← ld fn fn_parent_mft;
  upd (set_filename fn (clip_name new_name));;
  st fn fn_parent_mft new_parent;;
  t ← now;
  st fn fn_modify_time t;;
  write_mft_entry mft_num entry;;
  (if old_parent =? new_parent then
    parent ← entry_of old_parent;
    ie ← (fun s => x ← find_index_entry fuel (fmem s) parent mft_num; Some (x, s));
    if negb (ie =? 0) then
      upd (set_filename (ie + ie_filename) (clip_name new_name));;
      write_mft_entry old_parent parent;;
      mret ()
    else mret ()
  else
    oldp ← entry_of old_parent;
    drop_index_entry oldp mft_num;;
    write_mft_entry old_parent oldp;;
    newp ← entry_of new_parent;
    add_dir_entry newp mft_num new_name;;
    write_mft_entry new_parent newp;;
    mret ());;
  mret 0.

Definition fs_set_readonly (path : cstring) (ro : Z) : FsM D Z :=
  if len path =? 0 then mret (-1) else
  mft_num ← find_file path;
  if mft_num =? NOT_FOUND then mret (-1) else
  entry ← entry_of mft_num;
  flags ← ld entry mh_flags;
  st entry mh_flags (if negb (ro =? 0) then flags .| MFT_FLAG_READONLY else flags .& u16 (Z.lnot MFT_FLAG_READONLY));;
  r ← write_mft_entry mft_num entry;
  mret (if r <? 0 then -1 else 0).

(** The flag test shared by [fs_is_readonly] and [fs_is_directory]. *)
Definition test_flag (mask : Z) (path : cstring) : FsM D Z :=
  if len path =? 0 then mret (-1) else
  mft_num ← find_file path;
  if mft_num =? NOT_FOUND then mret (-1) else
  entry ← entry_of mft_num;
  flags ← ld entry mh_flags;
  mret (if has_flag flags mask then 1 else 0).
Definition fs_is_readonly : cstring -> FsM D Z := test_flag MFT_FLAG_READONLY.
Definition fs_is_directory : cstring -> FsM D Z := test_flag MFT_FLAG_DIRECTORY.

(** The bytes of the filename record copied out. *)
Definition fs_stat (path : cstring) : FsM D (option (list Z)) :=
  if len path =? 0 then mret None else
  mft_num ← find_file path;
  if mft_num =? NOT_FOUND then mret None else
  entry ← entry_of mft_num;
  fn ← payload_of entry ATTR_FILENAME;
  if fn =? 0 then mret None else
  bytes ← gets (fun s => load_bytes (fmem s) fn sizeof_attr_filename);
  mret (Some bytes).

(** ** Listing: the arguments of the successive callbacks *)

Definition stored_name m (fn : Z) : cstring := cstr (load_bytes m (fn + fn_filename) (rd m fn fn_filename_length)).
Definition dir_flag s (entry : Z) : Z := rd (fmem s) entry mh_flags .& MFT_FLAG_DIRECTORY.

Fixpoint list_children (l : list Z) (dir : Z) s : option (list (cstring * Z * Z)) :=
  match l with
  | [] => Some []
  | i :: l' =>
      here ← (if negb (in_use s i) then Some []
              else
                fn ← find_attr_payload (fmem s) (mft_addr s i) ATTR_FILENAME;
                if fn =? 0 then Some []
                else if rd (fmem s) fn fn_parent_mft =? dir then
                  Some [(stored_name (fmem s) fn, dir_flag s (mft_addr s i), u32 (rd (fmem s) fn fn_real_size))]
                else Some []);
      rest ← list_children l' dir s;
      Some (here ++ rest)
  end.

(** One index entry at [ptr]. *)
Definition index_line (ptr : Z) s : option (list (cstring * Z * Z)) :=
  let ref := rd (fmem s) ptr ie_mft_ref in
  let fn := ptr + ie_filename in
  if (MFT_FIRST_USER <=? ref) && (ref <? mft_size s) && in_use s ref then
    ffn ← find_attr_payload (fmem s) (mft_addr s ref) ATTR_FILENAME;
    Some [(stored_name (fmem s) fn, dir_flag s (mft_addr s ref),
           u32 (rd (fmem s) (if ffn =? 0 then fn else ffn) fn_real_size))]
  else Some [].
Fixpoint list_index (turns : nat) (ptr end_ : Z) s : option (list (cstring * Z * Z)) :=
  match turns with
  | O => None
  | S k =>
      if ptr + sizeof_index_entry <=? end_ then
        if rd (fmem s) ptr ie_length <? sizeof_index_entry then Some []
        else
          here ← index_line ptr s;
          if has_flag (rd (fmem s) ptr ie_flags) 1 then Some here
          else rest ← list_index k (ptr + rd (fmem s) ptr ie_length) end_ s; Some (here ++ rest)
      else Some []
  end.

(** [None] inside: the path does not resolve. *)
Definition fs_readdir (path : cstring) s : option (option (list (cstring * Z * Z))) :=
  dir_mft ← find_file_in path s;
  if dir_mft =? NOT_FOUND then Some None else
  let dir_entry := mft_addr s dir_mft in
  index_attr ← find_attr (fmem s) dir_entry ATTR_INDEX_ROOT;
  lines ← (if index_attr =? 0 then list_children (user_entries s) dir_mft s
           else list_index INDEX_TURNS (index_attr + sizeof_attr_header + sizeof_index_root)
                  (Z.min (index_attr + rd (fmem s) index_attr at_length) (dir_entry + MFT_ENTRY_SIZE)) s);
  Some (Some lines).

End ops.
