(* ===== verification/FsTree.v ===== *)
(** * The disk filesystem as a tree of names

    The abstract view of the master file table: a table of optional nodes, each
    with its parent, name and kind.  Path lookup and the operations that make,
    remove, rename and protect entries are shown to act on it as specified,
    whatever else the entries and the directory indexes hold. *)

From S2P Require Import Prelude KHeap Bytes Disk Part Clock Mft Fs.

(** ** Entries as this filesystem lays them out

    The filename attribute comes first, right after the header. *)

Definition entry_ok (m : mem) (e : Z) : Prop :=
  rd m e mh_seq_attr_offset = 32 /\ 369 <= rd m e mh_used_size <= 4096 /\
  rd m (e + 32) at_type = ATTR_FILENAME /\ rd m (e + 32) at_length = 329 /\
  rd m (e + 48) fn_filename_length <= 255.

Section entries.
Implicit Types (m : mem) (e : Z).

Lemma find_attr_turn n m ptr end_ ty :
  find_attr_walk (S n) m ptr end_ ty =
  if ptr + sizeof_attr_header <=? end_ then
    if (rd m ptr at_type =? ATTR_END) || (rd m ptr at_type =? ty) then Some (if rd m ptr at_type =? ty then ptr else 0)
    else if rd m ptr at_length <? sizeof_attr_header then Some 0
    else if end_ <? ptr + rd m ptr at_length then Some 0
    else find_attr_walk n m (ptr + rd m ptr at_length) end_ ty
  else Some 0.
Proof. done. Qed.

Lemma find_filename m e : 0 <= e -> entry_ok m e -> find_attr m e ATTR_FILENAME = Some (e + 32).
Proof.
  intros He (Ho & Hu & Ht & Hl & _). unfold find_attr. rewrite Ho. unfold sizeof_mft_header, MFT_ENTRY_SIZE.
  destruct (_ || _) eqn:E; [zbool; lia|]. clear E. destruct (_ || _) eqn:E; [zbool; lia|].
  change ATTR_TURNS with (S 256). rewrite find_attr_turn. unfold sizeof_attr_header. rewrite Ht, Z.eqb_refl, orb_true_r.
  destruct (Z.leb_spec (e + 32 + 16) (e + rd m e mh_used_size)); [done|lia].
Qed.

Lemma find_filename_payload m e : 0 <= e -> entry_ok m e -> find_attr_payload m e ATTR_FILENAME = Some (e + 48).
Proof.
  intros He Hok. unfold find_attr_payload. rewrite find_filename by done. cbn [mbind option_bind].
  destruct (Z.eqb_spec (e + 32) 0); [lia|]. unfold sizeof_attr_header. f_equal. lia.
Qed.

(** The search for another attribute goes on after the filename. *)
Lemma find_after_filename m e ty : entry_ok m e -> ty <> ATTR_FILENAME ->
  find_attr m e ty = find_attr_walk 256 m (e + 361) (e + rd m e mh_used_size) ty.
Proof.
  intros (Ho & Hu & Ht & Hl & _) Hty. unfold find_attr. rewrite Ho. unfold sizeof_mft_header, MFT_ENTRY_SIZE.
  destruct (_ || _) eqn:E; [zbool; lia|]. clear E. destruct (_ || _) eqn:E; [zbool; lia|].
  change ATTR_TURNS with (S 256). rewrite find_attr_turn, Ht, Hl. unfold sizeof_attr_header.
  rewrite (proj2 (Z.leb_le (e + 32 + 16) (e + rd m e mh_used_size))) by lia.
  rewrite (proj2 (Z.eqb_neq ATTR_FILENAME ty)) by congruence. change (ATTR_FILENAME =? ATTR_END) with false.
  cbn [orb]. destruct (Z.ltb_spec 329 16); [lia|].
  destruct (Z.ltb_spec (e + rd m e mh_used_size) (e + 32 + 329)); [lia|]. f_equal. lia.
Qed.
Lemma find_other m e ty : entry_ok m e -> ty <> ATTR_FILENAME ->
  find_attr m e ty = Some 0 \/
  exists a, a <> 0 /\ find_attr m e ty = Some a /\ e + 361 <= a /\ a + 16 <= e + 4096 /\ rd m a at_type = ty.
Proof.
  intros Hok Hty. rewrite find_after_filename by done. pose proof Hok as (_ & Hu & _).
  edestruct (find_attr_walk_window m m ty (e + rd m e mh_used_size) e 4096 256 (e + 361))
    as (r & Hr & _ & Hin); [done|lia..|]. rewrite Hr.
  destruct Hin as [->|(Hr1 & Hr2 & Hr3)]; [by left|]. destruct (decide (r = 0)) as [->|Hne]; [by left|right].
  unfold sizeof_attr_header in *. exists r. split; [done|]. split; [done|]. split; [lia|]. split; [lia|done].
Qed.
End entries.

(** Reads through chains of stores. *)
Ltac rd_simp :=
  repeat first
    [ rewrite fld_wr_eq by done
    | rewrite fld_wr_ne by (done || range)
    | rewrite rd_store_ne by range ].

Section fresh.
Implicit Types (m : mem) (e : Z).

Lemma init_entry_fields m e num flags :
  let m' := init_mft_entry e num flags m in
  rd m' e mh_seq_attr_offset = 32 /\ rd m' e mh_used_size = 40 /\
  rd m' e mh_flags = (flags .| MFT_FLAG_IN_USE) mod 2 ^ 16 /\ rd m' e mh_next_attr_id = 0.
Proof.
  cbv zeta. unfold init_mft_entry. cbv zeta.
  match goal with |- context [wr (e + rd ?x e mh_used_size) at_type _ _] =>
    assert (Hu : rd x e mh_used_size = 32) by (rd_simp; done); rewrite Hu end.
  repeat split; rd_simp; done.
Qed.

Lemma init_entry_changes m e num flags : changes (from e e) m (init_mft_entry e num flags m).
Proof.
  unfold init_mft_entry. cbv zeta.
  match goal with |- context [wr (e + rd ?x e mh_used_size) at_type _ _] =>
    assert (Hu : rd x e mh_used_size = 32) by (rd_simp; done); rewrite Hu end.
  repeat changes_step; unfold from; range.
Qed.

Lemma attr_init_fields m e base ty size : e + 32 <= base -> 0 <= size <= 4096 -> base + 16 + size + 8 <= e + 4096 -> 0 <= ty < 2 ^ 32 ->
  let m' := attr_init e base ty size m in
  rd m' e mh_seq_attr_offset = rd m e mh_seq_attr_offset /\ rd m' e mh_flags = rd m e mh_flags /\
  rd m' e mh_used_size = base + 16 + size + 8 - e /\ rd m' base at_type = ty /\ rd m' base at_length = 16 + size.
Proof.
  intros Hb Hs He Hty. cbv zeta. unfold attr_init, place_end. cbv zeta. unfold sizeof_attr_header.
  match goal with |- context [base + rd ?x base at_length] =>
    assert (Hl : rd x base at_length = 16 + size) by (rd_simp; apply Z.mod_small; cbn; lia); rewrite Hl end.
  repeat split; rd_simp; try done.
  - rewrite (Z.mod_small (u32 _)), u32_id by (unfold u32, is_u32; cbn; lia || apply Z.mod_pos_bound; lia). lia.
  - apply Z.mod_small. cbn. lia.
  - apply Z.mod_small. cbn. lia.
Qed.

Definition attr_touched (e base size x : Z) : Prop :=
  base <= x < base + 16 \/ base + 16 + size <= x < base + 24 + size \/ e + 8 <= x < e + 12 \/ e + 24 <= x < e + 26.
Lemma attr_init_changes m e base ty size : e + 32 <= base -> 0 <= size <= 4096 ->
  changes (attr_touched e base size) m (attr_init e base ty size m).
Proof.
  intros Hb Hs. unfold attr_init, place_end. cbv zeta. unfold sizeof_attr_header.
  match goal with |- context [base + rd ?x base at_length] =>
    assert (Hl : rd x base at_length = 16 + size) by (rd_simp; apply Z.mod_small; cbn; lia); rewrite Hl end.
  repeat changes_step; unfold attr_touched; range.
Qed.

Lemma set_filename_fields m fn name : len name <= 255 ->
  rd (set_filename fn name m) fn fn_filename_length = len name /\
  load_bytes (set_filename fn name m) (fn + fn_filename) (len name) = name.
Proof.
  intros Hn. unfold set_filename. split; [|apply load_stored]. rd_simp. apply Z.mod_small. cbn. lia.
Qed.

Lemma add_filename_fields m e name parent t : rd m e mh_used_size = 40 -> rd m e mh_seq_attr_offset = 32 ->
  0 <= parent < 2 ^ 64 ->
  let m' := add_filename_attr e name parent t m in
  entry_ok m' e /\ rd m' e mh_used_size = 369 /\ rd m' e mh_flags = rd m e mh_flags /\
  rd m' (e + 48) fn_parent_mft = parent /\ rd m' (e + 48) fn_filename_length = len (clip_name name) /\
  load_bytes m' (e + 48 + fn_filename) (len (clip_name name)) = clip_name name /\ changes (from e e) m m'.
Proof.
  intros Hu Ho Hp. cbv zeta. unfold add_filename_attr. rewrite Hu. pose proof (clip_name_length name) as Hn.
  replace (e + 40 - 8) with (e + 32) by lia. unfold sizeof_attr_header. replace (e + 32 + 16) with (e + 48) by lia.
  set (m1 := fill_filename (e + 48) parent t m). set (m2 := set_filename (e + 48) (clip_name name) m1).
  set (m3 := wr (e + 48) fn_filename_type 0 m2).
  assert (Hc1 : changes (from (e + 48) e) m m1) by (apply changes_fill_filename; intros x Hx; unfold from; range).
  assert (Hc2 : changes (from (e + 104) e) m1 m2).
  { unfold m2, set_filename. repeat changes_step; unfold from; range. }
  assert (Hc3 : changes (fun x => x = e + 105) m2 m3) by (apply changes_wr; [done|intros x Hx; range]).
  destruct (set_filename_fields m1 (e + 48) (clip_name name) Hn) as [Hfl Hfn]. fold m2 in Hfl, Hfn.
  assert (Hpar : rd m1 (e + 48) fn_parent_mft = parent).
  { unfold m1, fill_filename. cbv zeta. rd_simp. by apply Z.mod_small. }
  assert (Hc : changes (from (e + 48) e) m m3).
  { eapply changes_trans; [exact Hc1|]. eapply changes_trans; [eapply changes_weaken; [exact Hc2|]|eapply changes_weaken; [exact Hc3|]];
      intros x Hx; unfold from in *; range. }
  clearbody m1 m2 m3.
  assert (Hai : changes (attr_touched e (e + 32) 313) m3 (attr_init e (e + 32) ATTR_FILENAME sizeof_attr_filename m3))
    by (apply attr_init_changes; unfold sizeof_attr_filename; lia).
  destruct (attr_init_fields m3 e (e + 32) ATTR_FILENAME sizeof_attr_filename) as (F1 & F2 & F3 & F4 & F5);
    [lia|unfold sizeof_attr_filename; lia..|done|].
  set (m' := attr_init _ _ _ _ _) in *. clearbody m'. unfold sizeof_attr_filename in *.
  rewrite (rd_changes _ _ _ _ _ Hc) in F1 by (intros x Hx; unfold from; range).
  rewrite (rd_changes _ _ _ _ _ Hc) in F2 by (intros x Hx; unfold from; range).
  assert (Hlen : rd m' (e + 48) fn_filename_length = len (clip_name name)).
  { rewrite (rd_changes _ _ _ _ _ Hai) by (intros x Hx; unfold attr_touched; range).
    by rewrite (rd_changes _ _ _ _ _ Hc3) by (intros x Hx; range). }
  split; [|split; [|split; [|split; [|split; [|split]]]]].
  - unfold entry_ok. rewrite F1, F3, F4, F5, Hlen. repeat split; lia || done.
  - rewrite F3. lia.
  - done.
  - rewrite (rd_changes _ _ _ _ _ Hai) by (intros x Hx; unfold attr_touched; range).
    rewrite (rd_changes _ _ _ _ _ Hc3) by (intros x Hx; range).
    by rewrite (rd_changes _ _ _ _ _ Hc2) by (intros x Hx; unfold from; range).
  - done.
  - rewrite (load_bytes_changes _ _ _ _ _ Hai) by (intros x Hx; unfold attr_touched; range).
    by rewrite (load_bytes_changes _ _ _ _ _ Hc3) by (intros x Hx; range).
  - eapply changes_trans; [eapply changes_weaken; [exact Hc|]|eapply changes_weaken; [exact Hai|]];
      intros x Hx; unfold from, attr_touched in *; range.
Qed.

(** The index root goes after the filename and leaves it alone. *)
Lemma add_index_root_fields m e : rd m e mh_used_size = 369 ->
  let m' := add_index_root_attr e m in
  rd m' e mh_used_size = 401 /\ changes (fun x => from (e + 361) e x \/ size_field e x \/ e + 24 <= x < e + 26) m m'.
Proof.
  intros Hu. cbv zeta. unfold add_index_root_attr. rewrite Hu. cbv zeta.
  replace (e + 369 - 8) with (e + 361) by lia. unfold sizeof_index_root.
  match goal with |- context [attr_init e _ _ _ ?x] => set (m1 := x) end.
  assert (Hc : changes (from (e + 361) e) m m1) by (unfold m1; repeat changes_step; unfold from; range).
  clearbody m1. destruct (attr_init_fields m1 e (e + 361) ATTR_INDEX_ROOT 16) as (_ & _ & F3 & _ & _); [lia..|done|].
  split; [rewrite F3; lia|].
  eapply changes_trans; [eapply changes_weaken; [exact Hc|by left]|].
  eapply changes_weaken; [apply attr_init_changes; lia|].
  intros x Hx. unfold from, size_field, attr_touched in *. range.
Qed.
End fresh.

(** ** The tree *)

Record node : Type := Node { nd_parent : Z; nd_name : cstring; nd_dir : bool; nd_ro : bool }.
Definition ftree : Type := list (option node).

(** Whether entry [i] is a child of [cur] called [comp]. *)
Definition t_is_child (t : ftree) (cur : Z) (comp : cstring) (i : Z) : bool :=
  match arr_get None t i with
  | Some nd => (nd_parent nd =? cur) && bool_decide (comp = nd_name nd)
  | None => false
  end.
Definition t_user (t : ftree) : list Z := seqZ MFT_FIRST_USER (len t - MFT_FIRST_USER).
Definition t_child (t : ftree) (cur : Z) (comp : cstring) : option Z := find_first (t_is_child t cur comp) (t_user t).
Fixpoint t_walk (t : ftree) (cur : Z) (comps : list cstring) : option Z :=
  match comps with
  | [] => Some cur
  | c :: cs => i ← t_child t cur c; t_walk t i cs
  end.
Definition t_free (t : ftree) : option Z :=
  find_first (fun i => match arr_get None t i with None => true | Some _ => false end) (t_user t).

(** The components of a path: empty ones are skipped, and a name of more than
    254 characters counts as several. *)
Fixpoint split_path (turns : nat) (ptr : cstring) : list cstring :=
  match turns with
  | O => []
  | S k =>
      match ptr with
      | [] => []
      | _ =>
          let '(comp, rest) := take_component (Z.to_nat (MAX_FILENAME_LEN - 1)) ptr in
          match comp with [] => split_path k (skip_slash rest) | _ => comp :: split_path k (skip_slash rest) end
      end
  end.
Definition t_find (t : ftree) (path : cstring) : option Z :=
  match path with
  | c :: ptr => if c =? ch "/" then t_walk t MFT_ROOT (split_path (length ptr) ptr) else None
  | [] => None
  end.

Section view.
Context {D : Type}.
Implicit Types (s : fs D) (m : mem).

Definition node_at s (i : Z) : option node :=
  let e := mft_addr s i in
  if in_use s i then
    Some (Node (rd (fmem s) (e + 48) fn_parent_mft)
            (load_bytes (fmem s) (e + 48 + fn_filename) (rd (fmem s) (e + 48) fn_filename_length))
            (has_flag (rd (fmem s) e mh_flags) MFT_FLAG_DIRECTORY)
            (has_flag (rd (fmem s) e mh_flags) MFT_FLAG_READONLY))
  else None.
Definition tree s : ftree := node_at s <$> seqZ 0 (mft_size s).

(** The slot of entry [i]. *)
Definition slot s (i x : Z) : Prop := mft_zone s + i * 4096 <= x < mft_zone s + i * 4096 + 4096.
Definition bitmap_bytes s : Z := (total_clusters s + 7) / 8.

Definition root_ok s : Prop := in_use s MFT_ROOT = true /\ is_dir_entry s MFT_ROOT = true.

Record fs_ok s : Prop := {
  ok_size : 16 <= mft_size s <= 4096;
  ok_zone : 0 < mft_zone s /\ mft_zone s + mft_size s * 4096 <= 2 ^ 64;
  ok_boot : boot_sector s + 512 <= mft_zone s \/ mft_zone s + mft_size s * 4096 <= boot_sector s;
  ok_total : 0 <= total_clusters s < 2 ^ 60;
  ok_bitmap : apart (cluster_bitmap s, bitmap_bytes s) (mft_zone s, mft_size s * 4096);
  ok_bitmap_boot : apart (cluster_bitmap s, bitmap_bytes s) (boot_sector s, 512);
  ok_root : root_ok s;
  ok_entries : forall i, 0 <= i < mft_size s -> in_use s i = true -> entry_ok (fmem s) (mft_addr s i)
}.

(** Memory that is neither of the table nor of the boot sector. *)
Definition outside s (x : Z) : Prop :=
  (x < mft_zone s \/ mft_zone s + mft_size s * 4096 <= x) /\ (x < boot_sector s \/ boot_sector s + 512 <= x).

(** What an operation may touch besides the entries it is about: the part of
    an entry after its filename, its size field, and memory outside. *)
Definition soft s (x : Z) : Prop :=
  outside s x \/
  exists i, 0 <= i < mft_size s /\
    (from (mft_zone s + i * 4096 + 361) (mft_zone s + i * 4096) x \/ size_field (mft_zone s + i * 4096) x).

(** A run that touches only those and the slots of the entries in [hard], and
    keeps the sizes of the other entries in use in bounds. *)
Record step (hard : Z -> Prop) s s' : Prop := {
  st_boot : boot_sector s' = boot_sector s;
  st_zone : mft_zone s' = mft_zone s;
  st_bitmap : cluster_bitmap s' = cluster_bitmap s;
  st_heap : fheap s' = set_payload (fmem s') (fheap s);
  st_changes : changes (fun x => soft s x \/ exists i, 0 <= i < mft_size s /\ hard i /\ slot s i x) (fmem s) (fmem s');
  st_sizes : forall i, 0 <= i < mft_size s -> ~ hard i -> in_use s i = true ->
    369 <= rd (fmem s) (mft_zone s + i * 4096) mh_used_size <= 4096 ->
    369 <= rd (fmem s') (mft_zone s + i * 4096) mh_used_size <= 4096
}.

Lemma mft_addr_ok s i : fs_ok s -> 0 <= i < mft_size s -> mft_addr s i = mft_zone s + i * 4096.
Proof. intros Hok Hi. pose proof (ok_zone s Hok). unfold mft_addr, MFT_ENTRY_SIZE. apply u64_id. unfold is_u64. lia. Qed.

Lemma step_boot_field hard s s' f : fs_ok s -> step hard s s' -> 0 <= f_off f -> f_off f + f_size f <= 512 ->
  rd (fmem s') (boot_sector s') f = rd (fmem s) (boot_sector s) f.
Proof.
  intros Hok Hst H1 H2. rewrite (st_boot _ _ _ Hst). apply (rd_changes _ _ _ _ _ (st_changes _ _ _ Hst)).
  pose proof (ok_boot s Hok) as Hb.
  intros x Hx [[Hs|(i & Hi & Hs)]|(i & Hi & _ & Hs)]; unfold outside, slot, from, size_field, MFT_ENTRY_SIZE in *; lia.
Qed.
Lemma step_mft_size hard s s' : fs_ok s -> step hard s s' -> mft_size s' = mft_size s.
Proof. intros Hok Hst. by apply (step_boot_field hard). Qed.
Lemma step_total hard s s' : fs_ok s -> step hard s s' -> total_clusters s' = total_clusters s.
Proof. intros Hok Hst. by apply (step_boot_field hard). Qed.

Lemma step_addr hard s s' i : step hard s s' -> mft_addr s' i = mft_addr s i.
Proof. intros Hst. unfold mft_addr. by rewrite (st_zone _ _ _ Hst). Qed.

(** Bytes of an entry outside the soft part. *)
Lemma step_kept hard s s' i x : fs_ok s -> step hard s s' -> 0 <= i < mft_size s -> ~ hard i ->
  slot s i x -> x < mft_zone s + i * 4096 + 361 -> ~ size_field (mft_zone s + i * 4096) x ->
  byte_at (fmem s') x = byte_at (fmem s) x.
Proof.
  intros Hok Hst Hi Hh Hx Hlo Hsz. apply (st_changes _ _ _ Hst).
  intros [[Hs|(j & Hj & Hs)]|(j & Hj & Hhj & Hs)]; unfold outside, slot, from, size_field, MFT_ENTRY_SIZE in *.
  - lia.
  - assert (i = j) as <- by lia. lia.
  - assert (i = j) as <- by lia. done.
Qed.

Lemma step_rd hard s s' i p f : fs_ok s -> step hard s s' -> 0 <= i < mft_size s -> ~ hard i ->
  mft_zone s + i * 4096 <= p + f_off f -> p + f_off f + f_size f <= mft_zone s + i * 4096 + 361 ->
  p + f_off f + f_size f <= mft_zone s + i * 4096 + 8 \/ mft_zone s + i * 4096 + 12 <= p + f_off f ->
  rd (fmem s') p f = rd (fmem s) p f.
Proof.
  intros Hok Hst Hi Hh H1 H2 H3. unfold rd, load_le. f_equal. apply load_bytes_ext. intros k Hk.
  eapply step_kept; [done..| | |]; unfold slot, size_field; lia.
Qed.

Lemma step_in_use hard s s' i : fs_ok s -> step hard s s' -> 0 <= i < mft_size s -> ~ hard i ->
  rd (fmem s') (mft_addr s' i) mh_flags = rd (fmem s) (mft_addr s i) mh_flags.
Proof.
  intros Hok Hst Hi Hh. rewrite (step_addr _ _ _ _ Hst), mft_addr_ok by done.
  eapply step_rd; [done..| | |]; range.
Qed.

Lemma step_root (hard : Z -> Prop) s s' : fs_ok s -> step hard s s' -> ~ hard MFT_ROOT -> root_ok s'.
Proof.
  intros Hok Hst Hh. pose proof (ok_root s Hok) as Hr. unfold root_ok, in_use, is_dir_entry in *.
  rewrite (step_in_use hard s s'); [done..|pose proof (ok_size s Hok); unfold MFT_ROOT; lia|done].
Qed.

Lemma step_entry_ok hard s s' i : fs_ok s -> step hard s s' -> 0 <= i < mft_size s -> ~ hard i ->
  in_use s i = true -> entry_ok (fmem s') (mft_addr s' i).
Proof.
  intros Hok Hst Hi Hh Hu. pose proof (ok_entries s Hok i Hi Hu) as (H1 & H2 & H3 & H4 & H5).
  rewrite (step_addr _ _ _ _ Hst). rewrite mft_addr_ok in * by done. unfold entry_ok.
  rewrite !(step_rd hard s s' i _ mh_seq_attr_offset), !(step_rd hard s s' i _ at_type), !(step_rd hard s s' i _ at_length),
    !(step_rd hard s s' i _ fn_filename_length) by (done || range).
  repeat split; try done; by apply (st_sizes _ _ _ Hst).
Qed.

Lemma step_node hard s s' i : fs_ok s -> step hard s s' -> 0 <= i < mft_size s -> ~ hard i -> node_at s' i = node_at s i.
Proof.
  intros Hok Hst Hi Hh. unfold node_at, in_use. rewrite (step_in_use hard s s' i) by done.
  destruct (has_flag _ _) eqn:Hu; [|done]. pose proof (ok_entries s Hok i Hi Hu) as (H1 & H2 & H3 & H4 & H5).
  rewrite (step_addr _ _ _ _ Hst). rewrite mft_addr_ok in * by done.
  rewrite (step_rd hard s s' i _ fn_parent_mft), (step_rd hard s s' i _ fn_filename_length) by (done || range).
  do 2 f_equal. apply load_bytes_ext. intros k Hk. eapply step_kept; [done..| | |]; unfold slot, size_field; range.
Qed.

Lemma step_refl hard s : step hard s s.
Proof. split; try done. by destruct s as [[] ? ? ? ? ? ?]. Qed.

Lemma step_weaken (hard hard' : Z -> Prop) s s' : step hard s s' -> (forall i, hard i -> hard' i) -> step hard' s s'.
Proof.
  intros [H1 H2 H3 H4 H5 H6] Hh. split; [done..| |].
  - eapply changes_weaken; [done|]. intros x [Hx|(i & Hi & Hj & Hx)]; [by left|right; exists i; auto].
  - intros i Hi Hn. apply H6; auto.
Qed.

Lemma step_soft hard s s' x : fs_ok s -> step hard s s' -> soft s' x -> soft s x.
Proof.
  intros Hok Hst. unfold soft, outside. rewrite (st_boot _ _ _ Hst), (st_zone _ _ _ Hst).
  by rewrite (step_mft_size _ _ _ Hok Hst).
Qed.

Lemma step_trans hard s1 s2 s3 : fs_ok s1 -> step hard s1 s2 -> step hard s2 s3 -> step hard s1 s3.
Proof.
  intros Hok H12 H23. pose proof (step_mft_size _ _ _ Hok H12) as Hn. split.
  - by rewrite (st_boot _ _ _ H23), (st_boot _ _ _ H12).
  - by rewrite (st_zone _ _ _ H23), (st_zone _ _ _ H12).
  - by rewrite (st_bitmap _ _ _ H23), (st_bitmap _ _ _ H12).
  - by rewrite (st_heap _ _ _ H23), (st_heap _ _ _ H12).
  - eapply changes_trans; [apply H12|]. eapply changes_weaken; [apply H23|].
    intros x [Hx|(i & Hi & Hh & Hx)]; [left; by eapply step_soft|right]. exists i.
    unfold slot in *. by rewrite (st_zone _ _ _ H12), Hn in *.
  - intros i Hi Hh Hu Hsz. rewrite <- (st_zone _ _ _ H12). apply (st_sizes _ _ _ H23); [lia|done| |].
    + unfold in_use. by rewrite (step_in_use hard s1 s2 i).
    + rewrite (st_zone _ _ _ H12). by apply (st_sizes _ _ _ H12).
Qed.

(** Entries that are not touched stay as they are; the others are for the
    operation to account for. *)
Lemma step_ok hard s s' : fs_ok s -> step hard s s' ->
  (forall i, 0 <= i < mft_size s -> hard i -> in_use s' i = true -> entry_ok (fmem s') (mft_addr s' i)) ->
  (forall i, hard i \/ ~ hard i) ->
  root_ok s' -> fs_ok s'.
Proof.
  intros Hok Hst Hh Hdec Hr. pose proof (step_mft_size _ _ _ Hok Hst) as Hn. pose proof (step_total _ _ _ Hok Hst) as Ht.
  pose proof Hok as [O1 O2 O3 O4 O5 O6 O7 O8].
  split; unfold bitmap_bytes in *; rewrite ?Hn, ?Ht, ?(st_zone _ _ _ Hst), ?(st_boot _ _ _ Hst), ?(st_bitmap _ _ _ Hst); try done.
  intros i Hi Hu. destruct (Hdec i) as [Hhi|Hhi]; [by apply Hh|].
  apply (step_entry_ok hard s s' i); try done. unfold in_use in *. by rewrite <- (step_in_use hard s s' i).
Qed.

Lemma tree_length s : fs_ok s -> len (tree s) = mft_size s.
Proof. intros Hok. pose proof (ok_size s Hok). unfold tree. rewrite length_fmap, length_seqZ. lia. Qed.
Lemma tree_get s i : 0 <= i < mft_size s -> arr_get None (tree s) i = node_at s i.
Proof.
  intros Hi. unfold arr_get, tree. rewrite list_lookup_fmap, lookup_seqZ_lt by lia.
  cbn [fmap option_fmap option_map default]. unfold id. f_equal. lia.
Qed.
Lemma tree_user s : fs_ok s -> t_user (tree s) = user_entries s.
Proof. intros Hok. unfold t_user, user_entries. by rewrite tree_length. Qed.

(** A step that rewrites entry [i] only. *)
Lemma step_tree_set s s' i : fs_ok s -> step (eq i) s s' -> 0 <= i < mft_size s ->
  tree s' = arr_set (tree s) i (node_at s' i).
Proof.
  intros Hok Hst Hi. pose proof (step_mft_size _ _ _ Hok Hst) as Hn.
  apply list_eq. intros k. unfold tree, arr_set. rewrite list_lookup_fmap, Hn.
  destruct (decide (Z.of_nat k < mft_size s)) as [Hk|Hk].
  - rewrite lookup_seqZ_lt by done. cbn [fmap option_fmap option_map]. destruct (decide (k = Z.to_nat i)) as [->|Hne].
    + rewrite list_lookup_insert_eq by (rewrite length_fmap, length_seqZ; lia). do 2 f_equal. lia.
    + rewrite list_lookup_insert_ne, list_lookup_fmap, lookup_seqZ_lt by done. cbn [fmap option_fmap option_map].
      f_equal. apply (step_node (eq i)); [done..|lia|lia].
  - rewrite lookup_seqZ_ge by lia. cbn [fmap option_fmap option_map]. symmetry. apply lookup_ge_None.
    rewrite length_insert, length_fmap, length_seqZ. lia.
Qed.
Lemma step_tree_same s s' : fs_ok s -> step (fun _ => False) s s' -> tree s' = tree s.
Proof.
  intros Hok Hst. unfold tree. rewrite (step_mft_size _ _ _ Hok Hst). apply list_fmap_ext.
  intros k i Hk. apply list_elem_of_lookup_2, elem_of_seqZ in Hk. apply (step_node (fun _ => False)); [done..|lia|auto].
Qed.
End view.

(** ** Path lookup *)

Section lookup.
Context {D : Type}.
Implicit Types (s : fs D).

Lemma same_prefix_refl a : same_prefix a a = true.
Proof. induction a as [|x a IH]; cbn [same_prefix]; [done|]. by rewrite Z.eqb_refl. Qed.
Lemma same_prefix_eq a : forall b, length a = length b -> same_prefix a b = true -> a = b.
Proof.
  induction a as [|x a IH]; intros [|y b]; cbn [same_prefix length]; intros Hl Hp; try done.
  destruct (Z.eqb_spec x y) as [->|]; [|done]. f_equal. apply IH; [lia|done].
Qed.
Lemma name_test comp m p n : comp <> [] ->
  (same_prefix comp (load_bytes m p n) && (len comp =? n)) = bool_decide (comp = load_bytes m p n).
Proof.
  intros Hne. apply eq_bool_prop_intro. rewrite andb_True, bool_decide_spec, !Is_true_true. split.
  - intros [Hp Hn]. zbool. apply same_prefix_eq; [|done]. pose proof (length_load_bytes m p n). lia.
  - intros ->. split; [apply same_prefix_refl|]. apply Z.eqb_eq.
    destruct (decide (0 <= n)); [by apply length_load_bytes|]. exfalso. apply Hne.
    unfold load_bytes. by rewrite seqZ_nil by lia.
Qed.

Lemma child_matches_spec s cur comp i : fs_ok s -> 0 <= i < mft_size s -> comp <> [] ->
  child_matches cur comp s i = Some (t_is_child (tree s) cur comp i).
Proof.
  intros Hok Hi Hc. unfold child_matches, t_is_child. rewrite tree_get by done. unfold node_at.
  destruct (in_use s i) eqn:Hu; cbn [negb]; [|done].
  pose proof (ok_entries s Hok i Hi Hu) as He. rewrite mft_addr_ok in * by done. pose proof (ok_zone s Hok).
  rewrite find_filename_payload by (done || lia). cbn [mbind option_bind nd_parent nd_name].
  destruct (Z.eqb_spec (mft_zone s + i * 4096 + 48) 0); [lia|].
  destruct (_ =? cur); [|done]. cbn [andb]. by rewrite name_test.
Qed.

Lemma search_children_spec s cur comp l : fs_ok s -> comp <> [] -> (forall i, i ∈ l -> 0 <= i < mft_size s) ->
  search_children l cur comp s = Some (find_first (t_is_child (tree s) cur comp) l).
Proof.
  intros Hok Hc. induction l as [|i l IH]; intros Hl; cbn [search_children find_first]; [done|].
  rewrite child_matches_spec; [|done|apply Hl; left|done]. cbn [mbind option_bind].
  destruct (t_is_child _ _ _ i); [done|]. apply IH. intros j Hj. apply Hl. by right.
Qed.

Lemma user_range s i : i ∈ user_entries s -> 16 <= i < mft_size s.
Proof. unfold user_entries, MFT_FIRST_USER. intros Hi%elem_of_seqZ. lia. Qed.

Lemma t_child_in_use s cur comp i : fs_ok s -> t_child (tree s) cur comp = Some i ->
  16 <= i < mft_size s /\ in_use s i = true.
Proof.
  intros Hok Hc. unfold t_child in Hc. rewrite tree_user in Hc by done. apply find_first_Some in Hc as [Hi Hc].
  apply user_range in Hi. split; [done|]. unfold t_is_child in Hc. rewrite tree_get in Hc by lia.
  unfold node_at in Hc. by destruct (in_use s i).
Qed.

Lemma take_component_length room : forall ptr comp rest,
  take_component room ptr = (comp, rest) -> (length ptr = length comp + length rest)%nat.
Proof.
  induction room as [|k IH]; intros [|c ptr] comp rest; cbn [take_component]; intros Hc; simplify_eq; cbn [length]; try lia.
  destruct (c =? ch "/"); simplify_eq; cbn [length]; [lia|].
  destruct (take_component k ptr) as [c' r'] eqn:E. apply IH in E. simplify_eq. cbn [length]. lia.
Qed.
Lemma take_component_cons k c ptr : take_component (S k) (c :: ptr) =
  if c =? ch "/" then ([], c :: ptr) else let '(comp, rest) := take_component k ptr in (c :: comp, rest).
Proof. done. Qed.
(** A turn of the loop consumes something. *)
Lemma turn_shrinks ptr comp rest : ptr <> [] -> take_component 254 ptr = (comp, rest) ->
  (length (skip_slash rest) < length ptr)%nat.
Proof.
  intros Hne Hc. pose proof (take_component_length _ _ _ _ Hc) as Hl.
  destruct comp as [|c comp].
  - cbn [length] in Hl. destruct ptr as [|c ptr]; [done|]. change 254%nat with (S 253) in Hc.
    rewrite take_component_cons in Hc. destruct (c =? ch "/") eqn:E.
    + simplify_eq. cbn [skip_slash]. rewrite E. cbn [length]. lia.
    + revert Hc. by destruct (take_component 253 ptr).
  - cbn [length] in Hl. destruct rest as [|d rest]; cbn [skip_slash]; [cbn [length]; lia|].
    destruct (d =? ch "/"); cbn [length] in *; lia.
Qed.

Lemma find_loop_spec s : fs_ok s -> forall k ptr turns cur, (length ptr <= k)%nat -> (length ptr < turns)%nat ->
  0 <= cur < mft_size s -> in_use s cur = true ->
  find_loop turns ptr cur s = Some (default NOT_FOUND (t_walk (tree s) cur (split_path k ptr))).
Proof.
  intros Hok. induction k as [|k IH]; intros ptr turns cur Hk Ht Hc Hu; (destruct turns as [|turns]; [lia|]).
  { destruct ptr; [done|cbn [length] in Hk; lia]. }
  destruct ptr as [|c0 ptr0]; [done|]. cbn [find_loop split_path]. change (Z.to_nat (MAX_FILENAME_LEN - 1)) with 254%nat.
  destruct (take_component 254 (c0 :: ptr0)) as [comp rest] eqn:Etk.
  pose proof (turn_shrinks (c0 :: ptr0) comp rest ltac:(done) Etk) as Hsh.
  destruct comp as [|c comp]; [apply IH; [lia..|done|done]|].
  pose proof (ok_entries s Hok cur Hc Hu) as He. rewrite mft_addr_ok in * by done. pose proof (ok_zone s Hok).
  rewrite find_filename_payload by (done || lia). cbn [mbind option_bind].
  destruct (Z.eqb_spec (mft_zone s + cur * 4096 + 48) 0); [lia|].
  rewrite search_children_spec; [|done|done|intros i Hi; apply user_range in Hi; lia]. cbn [mbind option_bind t_walk].
  rewrite <- tree_user by done. change (find_first _ (t_user _)) with (t_child (tree s) cur (c :: comp)).
  destruct (t_child (tree s) cur (c :: comp)) as [i|] eqn:Eti; [|done]. apply t_child_in_use in Eti as [Hi Hui]; [|done].
  cbn [mbind option_bind]. apply IH; [lia..|done].
Qed.

Lemma find_file_tree s path : fs_ok s -> find_file_in path s = Some (default NOT_FOUND (t_find (tree s) path)).
Proof.
  intros Hok. unfold find_file_in, t_find. destruct path as [|c ptr]; [done|]. destruct (c =? ch "/"); [|done].
  pose proof (ok_size s Hok). apply find_loop_spec; [done|lia..| |apply (proj1 (ok_root s Hok))]. unfold MFT_ROOT. lia.
Qed.

Lemma t_walk_in_use s cur comps i : fs_ok s -> 0 <= cur < mft_size s -> in_use s cur = true ->
  t_walk (tree s) cur comps = Some i -> 0 <= i < mft_size s /\ in_use s i = true.
Proof.
  intros Hok. revert cur. induction comps as [|c cs IH]; intros cur Hc Hu; cbn [t_walk]; [by intros [= <-]|].
  intros Hw. apply bind_Some in Hw as (j & Hj & Hw). apply t_child_in_use in Hj as [Hj Huj]; [|done].
  apply (IH j); [lia|done..].
Qed.
Lemma t_find_in_use s path i : fs_ok s -> t_find (tree s) path = Some i -> 0 <= i < mft_size s /\ in_use s i = true.
Proof.
  intros Hok. unfold t_find. destruct path as [|c ptr]; [done|]. destruct (c =? ch "/"); [|done].
  pose proof (ok_size s Hok). apply t_walk_in_use; [done|unfold MFT_ROOT; lia|apply (proj1 (ok_root s Hok))].
Qed.

Lemma found_index s path i : fs_ok s -> t_find (tree s) path = Some i -> (i =? NOT_FOUND) = false.
Proof.
  intros Hok Hf. apply t_find_in_use in Hf as [Hi _]; [|done]. pose proof (ok_size s Hok).
  apply Z.eqb_neq. unfold NOT_FOUND, U64_MAX. lia.
Qed.

Lemma t_free_spec s : fs_ok s ->
  find_first (fun i => negb (in_use s i)) (user_entries s) = t_free (tree s).
Proof.
  intros Hok. unfold t_free. rewrite tree_user by done. apply find_first_ext. intros i Hi.
  apply user_range in Hi. rewrite tree_get by lia. unfold node_at. by destruct (in_use s i).
Qed.
End lookup.

(** ** Steps of the operations *)

Section steps.
Context {D : Type} `{PortIO D} (fuel : nat).
(** The clock answers within the fuel. *)
Context (clock : forall ready (d : D), is_Some (get_time fuel ready d)).
Implicit Types (s : fs D) (m : mem).

Definition none (_ : Z) : Prop := False.

(** A run that changes no memory. *)
Lemma step_device hard s s' : fheap s' = fheap s -> boot_sector s' = boot_sector s -> mft_zone s' = mft_zone s ->
  cluster_bitmap s' = cluster_bitmap s -> step hard s s'.
Proof.
  intros Hh Hb Hz Hc. assert (Hm : fmem s' = fmem s) by (unfold fmem; by rewrite Hh).
  split; [done..| | |]; rewrite Hm.
  - rewrite Hh. unfold fmem. by destruct (fheap s).
  - apply changes_refl.
  - done.
Qed.

Lemma other_slot s i j x : fs_ok s -> i <> j -> slot s i x -> ~ slot s j x.
Proof. unfold slot. lia. Qed.

Lemma step_entry_soft hard s p m' : fs_ok s -> 0 <= p < mft_size s ->
  changes (fun x => from (mft_zone s + p * 4096 + 361) (mft_zone s + p * 4096) x \/ size_field (mft_zone s + p * 4096) x)
    (fmem s) m' ->
  (369 <= rd (fmem s) (mft_zone s + p * 4096) mh_used_size <= 4096 ->
   369 <= rd m' (mft_zone s + p * 4096) mh_used_size <= 4096) ->
  step hard s (set_mem m' s).
Proof.
  intros Hok Hp Hc Hsz. split; try done.
  - eapply changes_weaken; [exact Hc|]. intros x Hx. left. right. by exists p.
  - intros i Hi _ Hu Hin. change (fmem (set_mem m' s)) with m'. destruct (decide (i = p)) as [->|Hne]; [by apply Hsz|].
    rewrite (rd_changes _ _ _ _ _ Hc); [done|]. intros x Hx [Hx'|Hx']; unfold from, size_field in *; range.
Qed.

Lemma step_outside hard s m' : fs_ok s -> changes (outside s) (fmem s) m' -> step hard s (set_mem m' s).
Proof.
  intros Hok Hc. split; try done.
  - eapply changes_weaken; [exact Hc|]. intros x Hx. left. by left.
  - intros i Hi _ Hu Hin. change (fmem (set_mem m' s)) with m'. rewrite (rd_changes _ _ _ _ _ Hc); [done|].
    intros x Hx Hx'. unfold outside in Hx'. range.
Qed.

Lemma bitmap_outside s x : fs_ok s -> cluster_bitmap s <= x < cluster_bitmap s + bitmap_bytes s -> outside s x.
Proof.
  intros Hok Hx. pose proof (ok_bitmap s Hok) as Hb. pose proof (ok_bitmap_boot s Hok) as Hbb.
  unfold apart, outside in *. cbn [fst snd] in *. lia.
Qed.

Lemma step_hard s i s' : fs_ok s -> 0 <= i < mft_size s ->
  boot_sector s' = boot_sector s -> mft_zone s' = mft_zone s -> cluster_bitmap s' = cluster_bitmap s ->
  fheap s' = set_payload (fmem s') (fheap s) -> changes (slot s i) (fmem s) (fmem s') -> step (eq i) s s'.
Proof.
  intros Hok Hi Hb Hz Hbm Hh Hc. split; try done.
  - eapply changes_weaken; [exact Hc|]. intros x Hx. right. by exists i.
  - intros j Hj Hne Hu Hin. rewrite (rd_changes _ _ _ _ _ Hc); [done|].
    intros x Hx Hx'. unfold slot in *. range.
Qed.

Lemma none_ok s s' : fs_ok s -> step none s s' -> fs_ok s'.
Proof.
  intros Hok Hst. apply (step_ok none s s'); [done|done|by intros ? ? []|intros i; right; by intros []|].
  apply (step_root none s s'); [done..|by intros []].
Qed.
Lemma none_hard hard s s' : step none s s' -> step hard s s'.
Proof. intros Hst. by apply (step_weaken none). Qed.

Lemma now_runs s : exists t s', now fuel s = Some (t, s') /\ step none s s' /\ fheap s' = fheap s.
Proof.
  destruct (clock (rtc_time_ready s) (dev (fdisk s))) as [[t d] Ht]. unfold now. rewrite Ht. cbn [mbind option_bind].
  do 2 eexists. split; [done|]. split; [by apply step_device|done].
Qed.

Lemma write_mft_runs s n p : exists r s', write_mft_entry n p s = Some (r, s') /\ step none s s' /\ fheap s' = fheap s.
Proof.
  unfold write_mft_entry, gets, write_cluster, mbind, fsm_bind. cbn [mbind option_bind].
  destruct (disk_write _ _ _ _) as [r d]. do 2 eexists. split; [done|]. split; [by apply step_device|done].
Qed.

Lemma add_dir_entry_runs s p child name : fs_ok s -> 0 <= p < mft_size s -> in_use s p = true ->
  exists s', add_dir_entry fuel (mft_addr s p) child name s = Some ((), s') /\ step none s s'.
Proof.
  intros Hok Hp Hu. pose proof (ok_entries s Hok p Hp Hu) as He. unfold add_dir_entry.
  rewrite mft_addr_ok in * by done. set (e := mft_zone s + p * 4096) in *.
  destruct (dir_insertion_spec (fmem s) e child) as (ins & m1 & Hins & Hc). rewrite Hins. cbn [mbind option_bind].
  destruct Hc as [(-> & _ & ->)|(a & Hf & Ha & Hc & Hi)].
  { eexists. split; [done|]. apply (step_entry_soft _ _ p); try done. }
  assert (Ha' : e + 361 <= a).
  { destruct (find_other (fmem s) e ATTR_INDEX_ROOT He ltac:(done)) as [Hz|(b & _ & Hb & Hb' & _)]; [|congruence].
    assert (a = 0) as -> by congruence. pose proof (ok_zone s Hok). lia. }
  assert (H1 : step none s (set_mem m1 s)).
  { apply (step_entry_soft _ _ p); [done..| |].
    - eapply changes_weaken; [exact Hc|]. intros x Hx. left. unfold from in *. fold e. lia.
    - fold e. rewrite (rd_changes _ _ _ _ _ Hc); [done|]. intros x Hx Hx'. unfold from in *. range. }
  destruct ins as [[b i]|]; [|by eexists]. destruct (Hi b i ltac:(done)) as (-> & Hi1 & Hi2).
  destruct (now_runs (set_mem m1 s)) as (t & s2 & Hn & Hs2 & Hh). unfold mbind, fsm_bind. rewrite Hn. cbn [mbind option_bind].
  unfold upd, putm. eexists. split; [done|]. assert (Hok1 : fs_ok (set_mem m1 s)) by by eapply none_ok.
  assert (H2 : step none s s2) by by eapply step_trans. eapply step_trans; [done|exact H2|].
  assert (Hm2 : fmem s2 = m1) by (unfold fmem; by rewrite Hh).
  assert (Hok2 : fs_ok s2) by by eapply none_ok. pose proof (st_zone _ _ _ H2) as Hz. fold e in Hz.
  rewrite Hm2. apply (step_entry_soft _ _ p); [done|by rewrite (step_mft_size _ _ _ Hok H2)| |]; rewrite Hz, Hm2; fold e.
  - eapply changes_weaken; [apply dir_insert_changes; done|]. intros x [Hx|Hx]; [left|by right]. unfold from in *. lia.
  - intros _. unfold dir_insert, place_end. cbv zeta. rewrite fld_wr_eq by done. unfold sizeof_index_entry.
    rewrite Z.mod_small, u32_id by (unfold u32, is_u32; cbn; first [lia|apply Z.mod_pos_bound; lia]). lia.
Qed.

Lemma drop_index_entry_runs s p child : fs_ok s -> 0 <= p < mft_size s -> in_use s p = true ->
  exists s', drop_index_entry (mft_addr s p) child s = Some ((), s') /\ step none s s'.
Proof.
  intros Hok Hp Hu. pose proof (ok_entries s Hok p Hp Hu) as He. pose proof (ok_zone s Hok) as Hzz. unfold drop_index_entry.
  rewrite mft_addr_ok in * by done. set (e := mft_zone s + p * 4096) in *.
  destruct (remove_index_entry_spec (fmem s) e child) as (m1 & Hm & Hc); [lia..|]. rewrite Hm. cbn [mbind option_bind].
  eexists. split; [done|]. destruct Hc as [[_ ->]|(a & Hf & Ha & Hc)]; [by apply (step_entry_soft _ _ p)|].
  assert (Ha' : e + 361 <= a).
  { destruct (find_other (fmem s) e ATTR_INDEX_ROOT He ltac:(done)) as [Hz|(b & _ & Hb & Hb' & _)]; [|congruence].
    assert (a = 0) as -> by congruence. lia. }
  apply (step_entry_soft _ _ p); [done..| |]; fold e.
  - eapply changes_weaken; [exact Hc|]. intros x Hx. left. unfold from in *. lia.
  - rewrite (rd_changes _ _ _ _ _ Hc); [done|]. intros x Hx Hx'. unfold from in *. range.
Qed.

(** Running the monad one command at a time. *)
Lemma bind_run {A B} (c : FsM D A) (k : A -> FsM D B) s a s' : c s = Some (a, s') -> (c ≫= k) s = k a s'.
Proof. intros Hc. unfold mbind, fsm_bind. by rewrite Hc. Qed.
Lemma bind_gets {A B} (f : fs D -> A) (k : A -> FsM D B) s : (gets f ≫= k) s = k (f s) s.
Proof. done. Qed.
Lemma bind_ld {B} p f (k : Z -> FsM D B) s : (ld p f ≫= k) s = k (rd (fmem s) p f) s.
Proof. done. Qed.
Lemma bind_entry_of {B} n (k : Z -> FsM D B) s : (entry_of n ≫= k) s = k (mft_addr s n) s.
Proof. done. Qed.
Lemma bind_upd {B} f (k : unit -> FsM D B) s : (upd f ≫= k) s = k () (set_mem (f (fmem s)) s).
Proof. done. Qed.
Lemma bind_mret {A B} (a : A) (k : A -> FsM D B) s : ((mret a : FsM D A) ≫= k) s = k a s.
Proof. done. Qed.
Lemma bind_find {B} path (k : Z -> FsM D B) s : fs_ok s ->
  (find_file path ≫= k) s = k (default NOT_FOUND (t_find (tree s) path)) s.
Proof. intros Hok. apply bind_run. unfold find_file. by rewrite find_file_tree. Qed.
Lemma bind_alloc {B} (k : Z -> FsM D B) s : fs_ok s ->
  (alloc_mft_entry ≫= k) s = k (default NOT_FOUND (t_free (tree s))) s.
Proof. intros Hok. unfold alloc_mft_entry. rewrite bind_gets. by rewrite t_free_spec. Qed.

Lemma for_each_none (body : Z -> FsM D unit) l : forall s,
  (forall i s, i ∈ l -> fs_ok s -> exists s', body i s = Some ((), s') /\ step none s s') ->
  fs_ok s -> exists s', for_each l body s = Some ((), s') /\ step none s s'.
Proof.
  induction l as [|i l IH]; intros s Hb Hok; cbn [for_each]; [by eexists; split; [|apply step_refl]|].
  destruct (Hb i s) as (s1 & H1 & Hs1); [left|done|]. rewrite (bind_run _ _ _ _ _ H1).
  destruct (IH s1) as (s2 & H2 & Hs2); [|by eapply none_ok|].
  - intros j s' Hj. apply Hb. by right.
  - exists s2. split; [done|]. by eapply step_trans.
Qed.

Lemma free_cluster_step c s : 0 <= c -> fs_ok s -> exists s', free_cluster c s = Some ((), s') /\ step none s s'.
Proof.
  intros Hc Hok. unfold free_cluster, putm. eexists. split; [done|]. pose proof (ok_total s Hok).
  rewrite u64_id by (unfold is_u64; lia). destruct (Z.ltb_spec (c / 8) ((total_clusters s + 7) / 8)); [|apply step_refl].
  apply step_outside; [done|]. intros x Hx. unfold byte_at. rewrite lookup_insert_ne; [done|].
  intros <-. apply Hx, bitmap_outside; [done|]. unfold bitmap_bytes. pose proof (Z.div_pos c 8). lia.
Qed.

Lemma free_runs_step l runs keep : forall seen s, fs_ok s ->
  exists s', free_runs l runs keep seen s = Some ((), s') /\ step none s s'.
Proof.
  induction l as [|i l IH]; intros seen s Hok; cbn [free_runs]; [by eexists; split; [|apply step_refl]|].
  rewrite bind_ld, bind_gets. destruct (_ <? _); [by eexists; split; [|apply step_refl]|]. rewrite bind_ld.
  match goal with |- context [for_each ?l ?b] => destruct (for_each_none b l s) as (s1 & H1 & Hs1); [|done|] end.
  - intros j s1 Hj Hok1. destruct (_ <=? _); [|by eexists; split; [|apply step_refl]].
    apply free_cluster_step; [|done]. apply is_u64_wrap.
  - rewrite (bind_run _ _ _ _ _ H1). destruct (IH (seen + rd (fmem s) (run_at runs i) dr_length) s1) as (s2 & H2 & Hs2).
    + by eapply none_ok.
    + exists s2. split; [done|]. by eapply step_trans.
Qed.

(** The memory of a fresh entry. *)
Lemma fresh_entry_fields m e num flags name parent t : flags = 0 \/ flags = MFT_FLAG_DIRECTORY -> 0 <= parent < 2 ^ 64 ->
  let m1 := add_filename_attr e name parent t (init_mft_entry e num flags m) in
  let m' := if flags =? MFT_FLAG_DIRECTORY then add_index_root_attr e m1 else m1 in
  changes (from e e) m m' /\ entry_ok m' e /\ rd m' e mh_flags = flags .| MFT_FLAG_IN_USE /\
  rd m' (e + 48) fn_parent_mft = parent /\ rd m' (e + 48) fn_filename_length = len (clip_name name) /\
  load_bytes m' (e + 48 + fn_filename) (len (clip_name name)) = clip_name name.
Proof.
  intros Hfl Hp. cbv zeta. pose proof (clip_name_length name) as Hn.
  destruct (init_entry_fields m e num flags) as (I1 & I2 & I3 & _). pose proof (init_entry_changes m e num flags) as Ic.
  set (m0 := init_mft_entry e num flags m) in *. clearbody m0.
  destruct (add_filename_fields m0 e name parent t I2 I1 Hp) as (A1 & A2 & A3 & A4 & A5 & A6 & A7).
  set (m1 := add_filename_attr e name parent t m0) in *. clearbody m1. rewrite I3 in A3.
  assert (Hf : (flags .| MFT_FLAG_IN_USE) mod 2 ^ 16 = flags .| MFT_FLAG_IN_USE) by (by destruct Hfl as [-> | ->]).
  rewrite Hf in A3. assert (Hc1 : changes (from e e) m m1) by by eapply changes_trans.
  destruct (flags =? MFT_FLAG_DIRECTORY); [|done].
  destruct (add_index_root_fields m1 e A2) as [R1 R2]. set (m2 := add_index_root_attr e m1) in *. clearbody m2.
  assert (Hk : forall p f, e <= p + f_off f -> p + f_off f + f_size f <= e + 361 ->
    p + f_off f + f_size f <= e + 8 \/ e + 26 <= p + f_off f -> rd m2 p f = rd m1 p f).
  { intros p f H1 H2 H3. apply (rd_changes _ _ _ _ _ R2). intros x Hx [Hx'|[Hx'|Hx']]; unfold from, size_field in *; range. }
  split; [|split; [|split; [|split; [|split]]]].
  - eapply changes_trans; [exact Hc1|]. eapply changes_weaken; [exact R2|].
    intros x [Hx|[Hx|Hx]]; unfold from, size_field in *; range.
  - destruct A1 as (B1 & B2 & B3 & B4 & B5). unfold entry_ok. rewrite R1, !Hk by range. repeat split; lia || done.
  - by rewrite Hk by range.
  - by rewrite Hk by range.
  - by rewrite Hk by range.
  - rewrite (load_bytes_changes _ _ _ _ _ R2); [done|]. intros x Hx [Hx'|[Hx'|Hx']]; unfold from, size_field in *; range.
Qed.

Lemma node_at_fields s i parent name flags : in_use s i = true ->
  rd (fmem s) (mft_addr s i) mh_flags = flags .| MFT_FLAG_IN_USE -> flags = 0 \/ flags = MFT_FLAG_DIRECTORY ->
  rd (fmem s) (mft_addr s i + 48) fn_parent_mft = parent ->
  rd (fmem s) (mft_addr s i + 48) fn_filename_length = len name ->
  load_bytes (fmem s) (mft_addr s i + 48 + fn_filename) (len name) = name ->
  node_at s i = Some (Node parent name (flags =? MFT_FLAG_DIRECTORY) false).
Proof.
  intros Hu Hf Hfl Hp Hl Hn. unfold node_at. rewrite Hu, Hf, Hp, Hl, Hn. by destruct Hfl as [-> | ->].
Qed.

Lemma set_payload_twice m m' h : set_payload m (set_payload m' h) = set_payload m h.
Proof. done. Qed.

(** A fresh entry [i] under [parent]. *)
Lemma create_entry_runs s path flags i parent : fs_ok s -> 16 <= i < mft_size s -> in_use s i = false ->
  0 <= parent < mft_size s -> in_use s parent = true -> flags = 0 \/ flags = MFT_FLAG_DIRECTORY ->
  exists s', create_entry fuel path flags i parent s = Some ((mft_addr s i, mft_addr s parent), s') /\
    step (eq i) s s' /\ fs_ok s' /\
    node_at s' i = Some (Node parent (clip_name (base_name path)) (flags =? MFT_FLAG_DIRECTORY) false).
Proof.
  intros Hok Hi Hu Hp Hup Hfl. unfold create_entry. pose proof (ok_size s Hok) as Hsz.
  assert (Hp64 : 0 <= parent < 2 ^ 64) by lia.
  rewrite bind_entry_of, bind_upd. unfold add_filename.
  set (s1 := set_mem (init_mft_entry (mft_addr s i) i flags (fmem s)) s).
  destruct (now_runs s1) as (t & s2 & Ht & Hs2 & Hh2).
  set (s3 := set_mem (add_filename_attr (mft_addr s i) (base_name path) parent t (fmem s2)) s2).
  assert (E2 : (t ← now fuel; upd (add_filename_attr (mft_addr s i) (base_name path) parent t)) s1 = Some ((), s3)).
  { by rewrite (bind_run _ _ _ _ _ Ht). }
  rewrite (bind_run _ _ _ _ _ E2). assert (Hm2 : fmem s2 = fmem s1) by (unfold fmem; by rewrite Hh2).
  set (s4 := if flags =? MFT_FLAG_DIRECTORY then set_mem (add_index_root_attr (mft_addr s i) (fmem s3)) s3 else s3).
  assert (E4 : (if flags =? MFT_FLAG_DIRECTORY then upd (add_index_root_attr (mft_addr s i)) else mret ()) s3 = Some ((), s4))
    by (unfold s4; by destruct (flags =? MFT_FLAG_DIRECTORY)).
  rewrite (bind_run _ _ _ _ _ E4).
  pose proof (fresh_entry_fields (fmem s) (mft_addr s i) i flags (base_name path) parent t Hfl Hp64) as HF.
  cbv zeta in HF.
  assert (Hm4 : fmem s4 = if flags =? MFT_FLAG_DIRECTORY then
     add_index_root_attr (mft_addr s i) (add_filename_attr (mft_addr s i) (base_name path) parent t (init_mft_entry (mft_addr s i) i flags (fmem s)))
     else add_filename_attr (mft_addr s i) (base_name path) parent t (init_mft_entry (mft_addr s i) i flags (fmem s))).
  { unfold s4, s3. rewrite Hm2. by destruct (flags =? MFT_FLAG_DIRECTORY). }
  rewrite <- Hm4 in HF. destruct HF as (F1 & F2 & F3 & F4 & F5 & F6).
  assert (Hst : step (eq i) s s4).
  { pose proof Hs2 as [P1 P2 P3 _ _ _].
    apply step_hard; [done|lia|..].
    - unfold s4. by destruct (flags =? MFT_FLAG_DIRECTORY).
    - unfold s4. by destruct (flags =? MFT_FLAG_DIRECTORY).
    - unfold s4. by destruct (flags =? MFT_FLAG_DIRECTORY).
    - assert (Hg : forall m, fheap (set_mem m s2) = set_payload m (fheap s)).
      { intros m. change (fheap (set_mem m s2)) with (set_payload m (fheap s2)). rewrite Hh2. apply set_payload_twice. }
      assert (Hg' : exists m, s4 = set_mem m s2) by (unfold s4, s3; destruct (flags =? MFT_FLAG_DIRECTORY); by eexists).
      clearbody s4. destruct Hg' as [m ->]. apply Hg.
    - eapply changes_weaken; [exact F1|]. rewrite mft_addr_ok by (done || lia). intros x Hx. unfold from, slot in *. range. }
  assert (Hz4 : forall k, mft_addr s4 k = mft_addr s k) by (intros k; by apply (step_addr (eq i))).
  assert (Hu4 : in_use s4 i = true) by (unfold in_use; rewrite Hz4, F3; by destruct Hfl as [-> | ->]).
  assert (Hne : i <> parent) by congruence.
  assert (Hok4 : fs_ok s4).
  { apply (step_ok (eq i) s s4); [done|done| | |].
    - intros k _ <- _. by rewrite Hz4.
    - intros k. destruct (decide (i = k)); auto.
    - apply (step_root (eq i) s s4); [done..|]. unfold MFT_ROOT. lia. }
  clearbody s4. rewrite bind_entry_of, !Hz4, <- (Hz4 parent).
  destruct (add_dir_entry_runs s4 parent i (base_name path) Hok4) as (s5 & E5 & Hs5).
  - by rewrite (step_mft_size _ _ _ Hok Hst).
  - unfold in_use. by rewrite (step_in_use (eq i) s s4).
  - rewrite (bind_run _ _ _ _ _ E5), (Hz4 parent). eexists. split; [done|]. split; [|split].
    + eapply step_trans; [done|exact Hst|by apply none_hard].
    + by eapply none_ok.
    + rewrite (step_node none s4 s5); [|done|done|rewrite (step_mft_size _ _ _ Hok Hst); lia|by intros []].
      apply node_at_fields; try done; by rewrite Hz4.
Qed.

End steps.
