(* ===== verification/FsSpec.v ===== *)
(** * What the filesystem operations do to the tree of names

    The abstract operations on the table of nodes and the theorem that the
    operations of fs.c implement them. *)

From S2P Require Import Prelude KHeap Bytes Disk Part Clock Mft Fs FsTree.

(** ** Specification *)

Inductive fop : Type :=
  | OCreate (path : cstring)            (* the creating branch of fs_open *)
  | OMkdir (path : cstring)
  | OUnlink (path : cstring)
  | ORmdir (path : cstring)
  | OSetReadonly (path : cstring) (ro : Z).

Definition t_has_child (t : ftree) (dir : Z) : bool :=
  existsb (fun j => match arr_get None t j with Some nd => nd_parent nd =? dir | None => false end) (t_user t).

(** [tree_spec op t r t']: [op] may return [r] and leave the tree [t'].  The
    result of the last write to the disk decides between 0 and -1 once the
    tree has changed. *)
Inductive tree_spec : fop -> ftree -> Z -> ftree -> Prop :=
  | ts_create path dir t i p : t_free t = Some i -> parent_path path = Some dir -> t_find t dir = Some p ->
      tree_spec (OCreate path) t i (arr_set t i (Some (Node p (clip_name (base_name path)) false false)))
  | ts_create_fail path dir t : parent_path path = Some dir -> t_free t = None \/ t_find t dir = None ->
      tree_spec (OCreate path) t NOT_FOUND t
  | ts_mkdir path dir t i p r : t_free t = Some i -> parent_path path = Some dir -> t_find t dir = Some p ->
      r = 0 \/ r = -1 ->
      tree_spec (OMkdir path) t r (arr_set t i (Some (Node p (clip_name (base_name path)) true false)))
  | ts_mkdir_fail path dir t : parent_path path = Some dir -> t_free t = None \/ t_find t dir = None ->
      tree_spec (OMkdir path) t (-1) t
  | ts_unlink path t i p n r : t_find t path = Some i -> arr_get None t i = Some (Node p n false false) ->
      r = 0 \/ r = -1 -> tree_spec (OUnlink path) t r (arr_set t i None)
  | ts_unlink_fail path t :
      (forall i p n, t_find t path = Some i -> arr_get None t i <> Some (Node p n false false)) ->
      tree_spec (OUnlink path) t (-1) t
  | ts_rmdir path t i p n r : t_find t path = Some i -> arr_get None t i = Some (Node p n true false) ->
      t_has_child t i = false -> r = 0 \/ r = -1 -> tree_spec (ORmdir path) t r (arr_set t i None)
  | ts_rmdir_fail path t :
      (forall i p n, t_find t path = Some i -> arr_get None t i = Some (Node p n true false) -> t_has_child t i = true) ->
      tree_spec (ORmdir path) t (-1) t
  | ts_readonly path ro t i p n d o r : t_find t path = Some i -> arr_get None t i = Some (Node p n d o) ->
      r = 0 \/ r = -1 -> tree_spec (OSetReadonly path ro) t r (arr_set t i (Some (Node p n d (negb (ro =? 0)))))
  | ts_readonly_fail path ro t : t_find t path = None -> tree_spec (OSetReadonly path ro) t (-1) t.

Definition run_fop {D} `{PortIO D} (fuel : nat) (op : fop) : FsM D Z :=
  match op with
  | OCreate path => open_create fuel path
  | OMkdir path => fs_mkdir fuel path
  | OUnlink path => fs_unlink path
  | ORmdir path => fs_rmdir path
  | OSetReadonly path ro => fs_set_readonly path ro
  end.

(** New names are given by a path whose directory part fits the buffer of the
    caller, and the root directory is not removed. *)
Definition fop_pre {D} (s : fs D) (op : fop) : Prop :=
  match op with
  | OCreate path | OMkdir path => is_Some (parent_path path)
  | ORmdir path => t_find (tree s) path <> Some MFT_ROOT
  | _ => True
  end.

Section refinement.
Context {D : Type} `{PortIO D} (fuel : nat).
Context (clock : forall ready (d : D), is_Some (get_time fuel ready d)).
Implicit Types (s : fs D).

Definition refines (op : fop) s : Prop :=
  exists r s', run_fop fuel op s = Some (r, s') /\ fs_ok s' /\ tree_spec op (tree s) r (tree s').

Lemma t_free_in_use s i : fs_ok s -> t_free (tree s) = Some i -> 16 <= i < mft_size s /\ in_use s i = false.
Proof.
  intros Hok Hf. unfold t_free in Hf. rewrite tree_user in Hf by done. apply find_first_Some in Hf as [Hi Hf].
  apply user_range in Hi. split; [done|]. rewrite tree_get in Hf by lia. unfold node_at in Hf. by destruct (in_use s i).
Qed.
Lemma free_index s i : fs_ok s -> t_free (tree s) = Some i -> (i =? NOT_FOUND) = false.
Proof.
  intros Hok Hf. apply t_free_in_use in Hf as [Hi _]; [|done]. pose proof (ok_size s Hok).
  apply Z.eqb_neq. unfold NOT_FOUND, U64_MAX. lia.
Qed.

Lemma bind_lift {A B} (x : A) (k : A -> FsM D B) s : (lift (Some x) ≫= k) s = k x s.
Proof. done. Qed.

(** The tree after a fresh entry and two writes to the disk. *)
Lemma create_entry_tree s path flags i p : fs_ok s -> t_free (tree s) = Some i -> 0 <= p < mft_size s -> in_use s p = true ->
  flags = 0 \/ flags = MFT_FLAG_DIRECTORY ->
  exists s', create_entry fuel path flags i p s = Some ((mft_addr s i, mft_addr s p), s') /\ fs_ok s' /\
    tree s' = arr_set (tree s) i (Some (Node p (clip_name (base_name path)) (flags =? MFT_FLAG_DIRECTORY) false)).
Proof.
  intros Hok Hf Hp Hup Hfl. apply t_free_in_use in Hf as [Hi Hu]; [|done].
  destruct (create_entry_runs fuel clock s path flags i p Hok Hi Hu Hp Hup Hfl) as (s' & E & Hst & Hok' & Hn).
  exists s'. split; [done|]. split; [done|]. rewrite <- Hn. apply step_tree_set; [done..|lia].
Qed.

Lemma none_tree s s' : fs_ok s -> step none s s' -> fs_ok s' /\ tree s' = tree s.
Proof. intros Hok Hst. split; [by eapply none_ok|by apply step_tree_same]. Qed.

Lemma open_create_refines path s : fs_ok s -> is_Some (parent_path path) -> refines (OCreate path) s.
Proof.
  intros Hok [dir Hdir]. unfold refines. cbn [run_fop]. unfold open_create. rewrite bind_alloc by done.
  destruct (t_free (tree s)) as [i|] eqn:Hf; cbn [default]; unfold id.
  2: { rewrite Z.eqb_refl. do 2 eexists. split; [done|]. split; [done|]. eapply ts_create_fail; eauto. }
  rewrite (free_index _ _ Hok Hf), Hdir, bind_lift, bind_find by done.
  destruct (t_find (tree s) dir) as [p|] eqn:Hp; cbn [default]; unfold id.
  2: { rewrite Z.eqb_refl. do 2 eexists. split; [done|]. split; [done|]. eapply ts_create_fail; eauto. }
  rewrite (found_index _ _ _ Hok Hp). destruct (t_find_in_use _ _ _ Hok Hp) as [Hpr Hup].
  destruct (create_entry_tree s path 0 i p Hok Hf Hpr Hup) as (s1 & E1 & Hok1 & Ht1); [by left|].
  rewrite (bind_run _ _ _ _ _ E1).
  destruct (write_mft_runs s1 i (mft_addr s i)) as (r2 & s2 & E2 & Hs2 & _). rewrite (bind_run _ _ _ _ _ E2).
  destruct (write_mft_runs s2 p (mft_addr s p)) as (r3 & s3 & E3 & Hs3 & _). rewrite (bind_run _ _ _ _ _ E3).
  destruct (none_tree _ _ Hok1 Hs2) as [Hok2 Ht2]. destruct (none_tree _ _ Hok2 Hs3) as [Hok3 Ht3].
  do 2 eexists. split; [done|]. split; [done|]. rewrite Ht3, Ht2, Ht1. by eapply ts_create.
Qed.

Lemma parent_path_nonempty path : is_Some (parent_path path) -> (len path =? 0) = false.
Proof. unfold parent_path. destruct (len path =? 0); [by intros []|done]. Qed.

Lemma fs_mkdir_refines path s : fs_ok s -> is_Some (parent_path path) -> refines (OMkdir path) s.
Proof.
  intros Hok Hpp. unfold refines. cbn [run_fop]. unfold fs_mkdir. rewrite (parent_path_nonempty path Hpp).
  destruct Hpp as [dir Hdir]. rewrite bind_alloc by done.
  destruct (t_free (tree s)) as [i|] eqn:Hf; cbn [default]; unfold id.
  2: { rewrite Z.eqb_refl. do 2 eexists. split; [done|]. split; [done|]. eapply ts_mkdir_fail; eauto. }
  rewrite (free_index _ _ Hok Hf), Hdir, bind_lift, bind_find by done.
  destruct (t_find (tree s) dir) as [p|] eqn:Hp; cbn [default]; unfold id.
  2: { rewrite Z.eqb_refl. do 2 eexists. split; [done|]. split; [done|]. eapply ts_mkdir_fail; eauto. }
  rewrite (found_index _ _ _ Hok Hp). destruct (t_find_in_use _ _ _ Hok Hp) as [Hpr Hup].
  destruct (create_entry_tree s path MFT_FLAG_DIRECTORY i p Hok Hf Hpr Hup) as (s1 & E1 & Hok1 & Ht1); [by right|].
  rewrite (bind_run _ _ _ _ _ E1).
  destruct (write_mft_runs s1 i (mft_addr s i)) as (r2 & s2 & E2 & Hs2 & _). rewrite (bind_run _ _ _ _ _ E2).
  destruct (none_tree _ _ Hok1 Hs2) as [Hok2 Ht2]. destruct (r2 <? 0).
  { do 2 eexists. split; [done|]. split; [done|]. rewrite Ht2, Ht1. eapply ts_mkdir; eauto. }
  destruct (write_mft_runs s2 p (mft_addr s p)) as (r3 & s3 & E3 & Hs3 & _). rewrite (bind_run _ _ _ _ _ E3).
  destruct (none_tree _ _ Hok2 Hs3) as [Hok3 Ht3].
  do 2 eexists. split; [done|]. split; [done|]. rewrite Ht3, Ht2, Ht1. eapply ts_mkdir; eauto. destruct (r3 <? 0); auto.
Qed.

(** What a resolved path leads to. *)
Lemma t_walk_parent s comps : forall cur i, fs_ok s -> 0 <= cur < mft_size s -> in_use s cur = true ->
  t_walk (tree s) cur comps = Some i -> i = cur /\ comps = [] \/
  exists nd, node_at s i = Some nd /\ 16 <= i /\ 0 <= nd_parent nd < mft_size s /\ in_use s (nd_parent nd) = true.
Proof.
  induction comps as [|c cs IH]; intros cur i Hok Hc Hu; cbn [t_walk]; [intros [= <-]; by left|].
  intros Hw. apply bind_Some in Hw as (j & Hj & Hw). right.
  pose proof (t_child_in_use _ _ _ _ Hok Hj) as [Hjr Huj]. destruct (IH j i) as [[-> ->]|Hr]; [done|lia|done..| |done].
  unfold t_child in Hj. apply find_first_Some in Hj as [_ Hj]. unfold t_is_child in Hj. rewrite tree_get in Hj by lia.
  destruct (node_at s j) as [nd|]; [|done]. zbool. exists nd. split; [done|]. split; [lia|]. by subst cur.
Qed.
Lemma t_find_parent s path i : fs_ok s -> t_find (tree s) path = Some i -> i = MFT_ROOT \/
  exists nd, node_at s i = Some nd /\ 16 <= i /\ 0 <= nd_parent nd < mft_size s /\ in_use s (nd_parent nd) = true.
Proof.
  intros Hok Hf. unfold t_find in Hf. destruct path as [|c ptr]; [done|]. destruct (c =? ch "/"); [|done].
  pose proof (ok_size s Hok). apply t_walk_parent in Hf as [[-> _]|Hr]; [by left|by right|done|unfold MFT_ROOT; lia|].
  apply (ok_root s Hok).
Qed.

Lemma node_parent_field s i nd : node_at s i = Some nd ->
  in_use s i = true /\ rd (fmem s) (mft_addr s i + 48) fn_parent_mft = nd_parent nd /\
  has_flag (rd (fmem s) (mft_addr s i) mh_flags) MFT_FLAG_DIRECTORY = nd_dir nd /\
  has_flag (rd (fmem s) (mft_addr s i) mh_flags) MFT_FLAG_READONLY = nd_ro nd.
Proof. unfold node_at. destruct (in_use s i); [|done]. by intros [= <-]. Qed.

Lemma unlink_from_parent_runs s i nd : fs_ok s -> 0 <= i < mft_size s -> node_at s i = Some nd ->
  0 <= nd_parent nd < mft_size s -> in_use s (nd_parent nd) = true ->
  exists s', unlink_from_parent (mft_addr s i) i s = Some ((), s') /\ step none s s'.
Proof.
  intros Hok Hi Hn Hp Hup. destruct (node_parent_field _ _ _ Hn) as (Hu & Hpf & _).
  pose proof (ok_entries s Hok i Hi Hu) as He. pose proof (ok_zone s Hok). pose proof (ok_size s Hok).
  assert (Hpos : 0 < mft_addr s i) by (rewrite mft_addr_ok by done; lia). unfold unlink_from_parent, payload_of.
  assert (E1 : (fun s0 : fs D => x ← find_attr_payload (fmem s0) (mft_addr s i) ATTR_FILENAME; Some (x, s0)) s
               = Some (mft_addr s i + 48, s)).
  { by rewrite find_filename_payload by (done || lia). }
  rewrite (bind_run _ _ _ _ _ E1). destruct (Z.eqb_spec (mft_addr s i + 48) 0); [lia|]. rewrite bind_ld, bind_gets, Hpf.
  rewrite (proj2 (Z.eqb_neq (nd_parent nd) NOT_FOUND)) by (unfold NOT_FOUND, U64_MAX; lia).
  rewrite (proj2 (Z.ltb_lt (nd_parent nd) (mft_size s))) by lia. cbn [negb andb]. rewrite bind_entry_of.
  destruct (drop_index_entry_runs s (nd_parent nd) i Hok Hp Hup) as (s1 & E2 & Hs1). rewrite (bind_run _ _ _ _ _ E2).
  destruct (write_mft_runs s1 (nd_parent nd) (mft_addr s (nd_parent nd))) as (r & s2 & E3 & Hs2 & _).
  rewrite (bind_run _ _ _ _ _ E3). eexists. split; [done|]. by eapply step_trans.
Qed.

(** A store into one entry, then its write to the disk. *)
Lemma rewrite_entry s i m' : fs_ok s -> 0 <= i < mft_size s -> changes (slot s i) (fmem s) m' -> i <> MFT_ROOT ->
  (in_use (set_mem m' s) i = true -> entry_ok m' (mft_addr s i)) ->
  fs_ok (set_mem m' s) /\ tree (set_mem m' s) = arr_set (tree s) i (node_at (set_mem m' s) i).
Proof.
  intros Hok Hi Hc Hr He. assert (Hst : step (eq i) s (set_mem m' s)) by by apply step_hard. split.
  - apply (step_ok (eq i) s); [done|done| | |].
    + intros k _ <- Hu. by apply He.
    + intros k. destruct (decide (i = k)); auto.
    + by apply (step_root (eq i) s).
  - by apply step_tree_set.
Qed.

Lemma clear_entry_runs s i : fs_ok s -> 0 <= i < mft_size s -> i <> MFT_ROOT ->
  exists r s', clear_entry (mft_addr s i) i s = Some (r, s') /\ fs_ok s' /\ tree s' = arr_set (tree s) i None /\ (r = 0 \/ r = -1).
Proof.
  intros Hok Hi Hr. unfold clear_entry, st. rewrite !bind_upd.
  set (m' := wr (mft_addr s i) mh_used_size 0 (wr (mft_addr s i) mh_flags 0 (wr (mft_addr s i) mh_magic 0 (fmem s)))).
  match goal with |- context [(write_mft_entry i _ ≫= _) ?x] => change x with (set_mem m' s) end.
  assert (Hfl : rd m' (mft_addr s i) mh_flags = 0) by (unfold m'; rd_simp; done).
  assert (Hu : in_use (set_mem m' s) i = false).
  { unfold in_use. change (fmem (set_mem m' s)) with m'. change (mft_addr (set_mem m' s) i) with (mft_addr s i). by rewrite Hfl. }
  assert (Hc : changes (slot s i) (fmem s) m').
  { unfold m'. rewrite mft_addr_ok by done. repeat changes_step; unfold slot; range. }
  clearbody m'. destruct (rewrite_entry s i m' Hok Hi Hc Hr) as [Hok' Ht]; [by rewrite Hu|].
  unfold node_at in Ht. rewrite Hu in Ht.
  destruct (write_mft_runs (set_mem m' s) i (mft_addr s i)) as (r & s2 & E & Hs2 & _). rewrite (bind_run _ _ _ _ _ E).
  destruct (none_tree _ _ Hok' Hs2) as [Hok2 Ht2]. do 2 eexists. split; [done|]. split; [done|]. split; [by rewrite Ht2|].
  destruct (r <? 0); auto.
Qed.

Lemma found_node s path i : fs_ok s -> t_find (tree s) path = Some i ->
  0 <= i < mft_size s /\ exists nd, node_at s i = Some nd /\ arr_get None (tree s) i = Some nd.
Proof.
  intros Hok Hf. destruct (t_find_in_use _ _ _ Hok Hf) as [Hi Hu]. split; [done|]. rewrite tree_get by done.
  unfold node_at. rewrite Hu. eexists. by split.
Qed.

(** The path, when it is empty, resolves to nothing. *)
Lemma t_find_empty t path : (len path =? 0) = true -> t_find t path = None.
Proof. destruct path; [done|]. intros Hl. zbool. cbn [length] in Hl. lia. Qed.

Lemma unlink_data_runs s (data_attr : Z) : fs_ok s ->
  exists s', (if negb (data_attr =? 0) then
    non_resident ← ld data_attr at_non_resident;
    if negb (non_resident =? 0) then
      let nr := data_attr + sizeof_attr_header in
      ro ← ld nr nr_run_offset;
      num_runs ← gets (fun s => bounded_runs (fmem s) data_attr nr);
      free_runs (seqZ 0 num_runs) (data_attr + ro) 0 0
    else mret ()
  else mret ()) s = Some ((), s') /\ step none s s'.
Proof.
  intros Hok. destruct (negb (data_attr =? 0)); [|by eexists; split; [|apply step_refl]].
  rewrite bind_ld. destruct (negb _); [|by eexists; split; [|apply step_refl]]. cbv zeta.
  rewrite bind_ld, bind_gets. by apply free_runs_step.
Qed.

Lemma none_node s s' i : fs_ok s -> step none s s' -> 0 <= i < mft_size s -> node_at s' i = node_at s i.
Proof. intros Hok Hst Hi. apply (step_node none); [done..|by intros []]. Qed.

(** Removal of a resolved entry from its parent, then of the entry. *)
Lemma remove_runs s i nd : fs_ok s -> 16 <= i < mft_size s -> node_at s i = Some nd ->
  0 <= nd_parent nd < mft_size s -> in_use s (nd_parent nd) = true ->
  exists r s', (unlink_from_parent (mft_addr s i) i;; clear_entry (mft_addr s i) i) s = Some (r, s') /\ fs_ok s' /\
    tree s' = arr_set (tree s) i None /\ (r = 0 \/ r = -1).
Proof.
  intros Hok Hi Hn Hp Hup. destruct (unlink_from_parent_runs s i nd) as (s1 & E1 & Hs1); [done|lia|done..|].
  rewrite (bind_run _ _ _ _ _ E1). destruct (none_tree _ _ Hok Hs1) as [Hok1 Ht1].
  rewrite <- (step_addr _ _ _ i Hs1). rewrite <- Ht1. apply clear_entry_runs; [done|rewrite (step_mft_size _ _ _ Hok Hs1); lia|unfold MFT_ROOT; lia].
Qed.

Lemma unlink_refines path s : fs_ok s -> refines (OUnlink path) s.
Proof.
  intros Hok. unfold refines. cbn [run_fop]. unfold fs_unlink.
  destruct (len path =? 0) eqn:Hl.
  { do 2 eexists. split; [done|]. split; [done|]. apply ts_unlink_fail. intros i p n. by rewrite t_find_empty. }
  rewrite bind_find by done. destruct (t_find (tree s) path) as [i|] eqn:Hf; cbn [default]; unfold id.
  2: { rewrite Z.eqb_refl. do 2 eexists. split; [done|]. split; [done|]. apply ts_unlink_fail. congruence. }
  rewrite (found_index _ _ _ Hok Hf), bind_entry_of, bind_ld. destruct (found_node _ _ _ Hok Hf) as (Hi & nd & Hn & Ht).
  destruct (node_parent_field _ _ _ Hn) as (Hu & _ & -> & ->). destruct nd as [p n d o]. cbn [nd_dir nd_ro].
  destruct o.
  { do 2 eexists. split; [done|]. split; [done|]. apply ts_unlink_fail. congruence. }
  destruct d.
  { do 2 eexists. split; [done|]. split; [done|]. apply ts_unlink_fail. congruence. }
  destruct (t_find_parent _ _ _ Hok Hf) as [->|(nd & Hn' & Hi16 & Hp & Hup)].
  { exfalso. pose proof (ok_root s Hok) as [_ Hd]. destruct (node_parent_field _ _ _ Hn) as (_ & _ & Hd' & _).
    unfold is_dir_entry in Hd. cbn [nd_dir] in Hd'. congruence. }
  rewrite Hn in Hn'. injection Hn' as <-.
  destruct (find_attr_slot (fmem s) (mft_addr s i) ATTR_DATA) as (a & Ha & _).
  assert (E1 : attr_of (mft_addr s i) ATTR_DATA s = Some (a, s)) by (unfold attr_of; by rewrite Ha).
  rewrite (bind_run _ _ _ _ _ E1). destruct (unlink_data_runs s a Hok) as (s1 & E2 & Hs1). rewrite (bind_run _ _ _ _ _ E2).
  destruct (none_tree _ _ Hok Hs1) as [Hok1 Ht1]. rewrite <- (step_addr _ _ _ i Hs1).
  destruct (remove_runs s1 i (Node p n false false)) as (r & s2 & E3 & Hok2 & Ht2 & Hr);
    [done|rewrite (step_mft_size _ _ _ Hok Hs1); lia|by rewrite (none_node s s1) by done|
     by rewrite (step_mft_size _ _ _ Hok Hs1)| |].
  { unfold in_use. by rewrite (step_in_use none s s1) by (done || by intros []). }
  exists r, s2. split; [done|]. split; [done|]. rewrite Ht2, Ht1. eapply ts_unlink; done.
Qed.

Lemma has_child_spec s dir l : fs_ok s -> (forall i, i ∈ l -> 0 <= i < mft_size s) ->
  has_child l dir s =
  Some (existsb (fun j => match arr_get None (tree s) j with Some nd => nd_parent nd =? dir | None => false end) l).
Proof.
  intros Hok. induction l as [|i l IH]; intros Hl; cbn [has_child existsb]; [done|].
  assert (Hi : 0 <= i < mft_size s) by (apply Hl; left). rewrite IH by (intros j Hj; apply Hl; by right).
  rewrite tree_get by done. unfold node_at. destruct (in_use s i) eqn:Hu; cbn [negb]; [|done].
  pose proof (ok_entries s Hok i Hi Hu) as He. rewrite mft_addr_ok in * by done. pose proof (ok_zone s Hok).
  rewrite find_filename_payload by (done || lia). cbn [mbind option_bind nd_parent].
  destruct (Z.eqb_spec (mft_zone s + i * 4096 + 48) 0); [lia|]. cbn [negb andb]. by destruct (_ =? dir).
Qed.

Lemma rmdir_refines path s : fs_ok s -> t_find (tree s) path <> Some MFT_ROOT -> refines (ORmdir path) s.
Proof.
  intros Hok Hroot. unfold refines. cbn [run_fop]. unfold fs_rmdir.
  destruct (len path =? 0) eqn:Hl.
  { do 2 eexists. split; [done|]. split; [done|]. apply ts_rmdir_fail. intros i p n. by rewrite t_find_empty. }
  rewrite bind_find by done. destruct (t_find (tree s) path) as [i|] eqn:Hf; cbn [default]; unfold id.
  2: { rewrite Z.eqb_refl. do 2 eexists. split; [done|]. split; [done|]. apply ts_rmdir_fail. congruence. }
  rewrite (found_index _ _ _ Hok Hf), bind_entry_of, bind_ld. destruct (found_node _ _ _ Hok Hf) as (Hi & nd & Hn & Ht).
  destruct (node_parent_field _ _ _ Hn) as (Hu & _ & -> & ->). destruct nd as [p n d o]. cbn [nd_dir nd_ro].
  destruct d; cbn [negb].
  2: { do 2 eexists. split; [done|]. split; [done|]. apply ts_rmdir_fail. congruence. }
  destruct o.
  { do 2 eexists. split; [done|]. split; [done|]. apply ts_rmdir_fail. congruence. }
  assert (E1 : (fun s0 : fs D => b ← has_child (user_entries s0) i s0; Some (b, s0)) s = Some (t_has_child (tree s) i, s)).
  { unfold t_has_child. rewrite tree_user, has_child_spec; [done|done| |done]. intros j Hj. apply user_range in Hj. lia. }
  rewrite (bind_run _ _ _ _ _ E1). destruct (t_has_child (tree s) i) eqn:Hch.
  { do 2 eexists. split; [done|]. split; [done|]. apply ts_rmdir_fail. congruence. }
  destruct (t_find_parent _ _ _ Hok Hf) as [->|(nd & Hn' & Hi16 & Hp & Hup)]; [done|].
  rewrite Hn in Hn'. injection Hn' as <-.
  destruct (remove_runs s i (Node p n true false)) as (r & s2 & E3 & Hok2 & Ht2 & Hr); [done|lia|done..|].
  exists r, s2. split; [done|]. split; [done|]. rewrite Ht2. eapply ts_rmdir; done.
Qed.

Lemma has_flag_bit x k : 0 <= k -> has_flag x (1 .<< k) = Z.testbit x k.
Proof. intros Hk. unfold has_flag. rewrite land_single_eqb by done. apply negb_involutive. Qed.

(** Setting or clearing the read-only bit of a 16-bit field leaves the other
    flags. *)
Lemma readonly_flags x (ro : bool) k : 0 <= k <= 2 ->
  has_flag ((if ro then x .| MFT_FLAG_READONLY else x .& u16 (Z.lnot MFT_FLAG_READONLY)) mod 2 ^ 16) (1 .<< k) =
  if k =? 2 then ro else has_flag x (1 .<< k).
Proof.
  intros Hk. rewrite !has_flag_bit, Z.mod_pow2_bits_low by lia.
  change MFT_FLAG_READONLY with (1 .<< 2). change (u16 (Z.lnot (1 .<< 2))) with 65531.
  destruct ro.
  - rewrite Z.lor_spec, testbit_single by lia. destruct (k =? 2); [apply orb_true_r|apply orb_false_r].
  - rewrite Z.land_spec. assert (k = 0 \/ k = 1 \/ k = 2) as [-> | [-> | ->]] by lia;
      cbn [Z.eqb]; [apply andb_true_r|apply andb_true_r|apply andb_false_r].
Qed.

Lemma readonly_refines path ro s : fs_ok s -> refines (OSetReadonly path ro) s.
Proof.
  intros Hok. unfold refines. cbn [run_fop]. unfold fs_set_readonly.
  destruct (len path =? 0) eqn:Hl.
  { do 2 eexists. split; [done|]. split; [done|]. apply ts_readonly_fail. by apply t_find_empty. }
  rewrite bind_find by done. destruct (t_find (tree s) path) as [i|] eqn:Hf; cbn [default]; unfold id.
  2: { rewrite Z.eqb_refl. do 2 eexists. split; [done|]. split; [done|]. by apply ts_readonly_fail. }
  rewrite (found_index _ _ _ Hok Hf), bind_entry_of, bind_ld. destruct (found_node _ _ _ Hok Hf) as (Hi & nd & Hn & Ht).
  unfold st. rewrite bind_upd. set (e := mft_addr s i). set (x := rd (fmem s) e mh_flags).
  set (m' := wr e mh_flags _ (fmem s)).
  assert (Hfl : forall k, 0 <= k <= 2 -> has_flag (rd m' e mh_flags) (1 .<< k) =
    if k =? 2 then negb (ro =? 0) else has_flag x (1 .<< k)).
  { intros k Hk. unfold m'. rewrite fld_wr_eq by done. by apply readonly_flags. }
  assert (Hc : changes (fun a => e + 6 <= a < e + 8) (fmem s) m') by (apply changes_wr; [done|intros a Ha; range]).
  assert (Hst : step (eq i) s (set_mem m' s)).
  { apply step_hard; try done. eapply changes_weaken; [exact Hc|]. intros a Ha. unfold e, slot in *.
    rewrite mft_addr_ok in Ha by done. lia. }
  clearbody m'. destruct (t_find_in_use _ _ _ Hok Hf) as [_ Hu].
  assert (Hin : in_use (set_mem m' s) i = true).
  { unfold in_use. change (has_flag (rd m' e mh_flags) (1 .<< 0) = true). rewrite Hfl by lia. exact Hu. }
  assert (Hkeep : forall p f, e + 8 <= p + f_off f \/ p + f_off f + f_size f <= e + 6 -> rd m' p f = rd (fmem s) p f).
  { intros p f Hd. apply (rd_changes _ _ _ _ _ Hc). intros a Ha Ha'. lia. }
  assert (Hok' : fs_ok (set_mem m' s)).
  { apply (step_ok (eq i) s); [done|done| | |].
    - intros k _ <- _. change (entry_ok m' e). destruct (ok_entries s Hok i Hi Hu) as (A1 & A2 & A3 & A4 & A5). fold e in A1, A2, A3, A4, A5.
      unfold entry_ok. rewrite !Hkeep by range. done.
    - intros k. destruct (decide (i = k)); auto.
    - destruct (decide (i = MFT_ROOT)) as [->|Hne]; [|by apply (step_root (eq i) s)]. split; [done|].
      unfold is_dir_entry. change (has_flag (rd m' e mh_flags) (1 .<< 1) = true). rewrite Hfl by lia. apply (ok_root s Hok). }
  assert (Hnode : node_at (set_mem m' s) i = Some (Node (nd_parent nd) (nd_name nd) (nd_dir nd) (negb (ro =? 0)))).
  { unfold node_at in *. rewrite Hin. rewrite Hu in Hn. injection Hn as <-. cbn [nd_parent nd_name nd_dir].
    change (mft_addr (set_mem m' s) i) with e. change (fmem (set_mem m' s)) with m'. fold e.
    rewrite !Hkeep by range. do 2 f_equal.
    - apply (load_bytes_changes _ _ _ _ _ Hc). intros a Ha Ha'. range.
    - change MFT_FLAG_DIRECTORY with (1 .<< 1). by rewrite Hfl by lia.
    - change MFT_FLAG_READONLY with (1 .<< 2). by rewrite Hfl by lia. }
  destruct (write_mft_runs (set_mem m' s) i e) as (r & s2 & E & Hs2 & _). rewrite (bind_run _ _ _ _ _ E).
  destruct (none_tree _ _ Hok' Hs2) as [Hok2 Ht2]. do 2 eexists. split; [done|]. split; [done|].
  rewrite Ht2, (step_tree_set s (set_mem m' s) i), Hnode by done. destruct nd as [p n d o].
  eapply ts_readonly; [done|done|]. destruct (r <? 0); auto.
Qed.


End refinement.

(** ** A formatted volume *)

Module Examples.
(** A device that accepts every command and answers at once. *)
#[export] Instance quiet_ports : PortIO unit := {|
  inb port d := (if port =? ATA_STATUS then 72 else 0, d);
  outb _ _ d := d; inw _ d := (0, d); outw _ _ d := d; io_wait d := d
|}.

Lemma quiet_clock ready (d : unit) : is_Some (get_time 5 ready d).
Proof. by destruct ready, d; vm_compute; eexists. Qed.

Definition quiet_disk : disk unit := Disk () (DiskInfo 0 0 [] []) false false.
Definition blank : fs unit := Fs (kheap_init 65536 1000000 ∅) quiet_disk (Volume 0 0) 0 0 0 false.
(** The state after a program, [blank] when it does not return. *)
Definition after {A} (c : FsM unit A) : fs unit := match c blank with Some (_, s) => s | None => blank end.
(** A volume of 1 MB, formatted. *)
Definition formatted : fs unit := after (fs_format 5 1048576).

(** The conditions of [fs_ok], decided. *)
Definition entry_okb (m : mem) (e : Z) : bool :=
  (rd m e mh_seq_attr_offset =? 32) && (369 <=? rd m e mh_used_size) && (rd m e mh_used_size <=? 4096)
  && (rd m (e + 32) at_type =? ATTR_FILENAME) && (rd m (e + 32) at_length =? 329)
  && (rd m (e + 48) fn_filename_length <=? 255).
Definition fs_okb (s : fs unit) : bool :=
  (16 <=? mft_size s) && (mft_size s <=? 4096) && (0 <? mft_zone s) && (mft_zone s + mft_size s * 4096 <=? 2 ^ 64)
  && (boot_sector s + 512 <=? mft_zone s) && (0 <=? total_clusters s) && (total_clusters s <? 2 ^ 60)
  && (mft_zone s + mft_size s * 4096 <=? cluster_bitmap s) && in_use s MFT_ROOT && is_dir_entry s MFT_ROOT
  && forallb (fun i => negb (in_use s i) || entry_okb (fmem s) (mft_addr s i)) (seqZ 0 (mft_size s)).
Lemma fs_okb_sound s : fs_okb s = true -> fs_ok s.
Proof.
  unfold fs_okb. intros Hb. repeat (apply andb_true_iff in Hb as [Hb ?]). zbool.
  split; unfold apart, root_ok; cbn [fst snd]; try lia; [done|].
  intros i Hi Hu. match goal with H : forallb _ _ = true |- _ => rewrite forallb_forall in H; specialize (H i) end.
  rewrite Hu in H. unfold entry_okb in H. cbn [negb orb] in H.
  assert (Hin : In i (seqZ 0 (mft_size s))) by (apply list_elem_of_In, elem_of_seqZ; lia).
  specialize (H Hin). repeat (apply andb_true_iff in H as [H ?]). zbool. unfold entry_ok. lia.
Qed.

Lemma formatted_ok : fs_ok formatted.
Proof. apply fs_okb_sound. by vm_compute. Qed.

End Examples.
