(* ===== verification/FsData.v ===== *)
(** * File contents in the table (src/src/fs/fs.c: fs_write, fs_seek, fs_read)

    Small files keep their bytes in their own entry.  The behaviour of writes,
    seeks and reads on such a file is given on the sequence of its bytes; what
    happens to a first write that does not fit is shown after it. *)

From S2P Require Import Prelude KHeap Bytes Disk Part Clock Mft Fs FsTree FsSpec.

Section data.
Context {D : Type} `{PortIO D} (fuel : nat) (stack : list Z).
Context (clock : forall ready (d : D), is_Some (get_time fuel ready d)).
Implicit Types (s : fs D) (m : mem).

(** The entry at [e] holds the bytes [c]: none yet, or in a resident attribute
    after the filename. *)
Definition holds m (e : Z) (c : list Z) : Prop :=
  rd m e mh_used_size = 369 /\ c = [] \/
  rd m e mh_used_size = 385 /\ rd m (e + 361) at_type = ATTR_DATA /\ rd m (e + 361) at_length = 16 + len c /\
  rd m (e + 361) at_non_resident = 0 /\ load_bytes m (e + 377) (len c) = c /\ len c <= 3711.

Record open_file s (f i p : Z) (c : list Z) (mode : Z) : Prop := {
  of_entry : 0 <= i < mft_size s;
  of_used : in_use s i = true;
  of_addr : 0 < f;
  of_zone : apart (f, sizeof_file) (mft_zone s, mft_size s * 4096);
  of_boot : apart (f, sizeof_file) (boot_sector s, 512);
  of_number : rd (fmem s) f ff_mft_number = i;
  of_position : rd (fmem s) f ff_position = p;
  of_size : rd (fmem s) f ff_size = len c;
  of_mode : rd (fmem s) f ff_mode = mode;
  of_bounds : 0 <= p <= len c;
  of_holds : holds (fmem s) (mft_zone s + i * 4096) c;
  of_real : rd (fmem s) (mft_zone s + i * 4096 + 48) fn_real_size = len c
}.

Lemma holds_length m e c : holds m e c -> len c <= 3711.
Proof. intros [[_ ->]|(_ & _ & _ & _ & _ & Hl)]; [cbn [length]; lia|done]. Qed.

Lemma find_data_none m e : entry_ok m e -> rd m e mh_used_size = 369 -> find_attr m e ATTR_DATA = Some 0.
Proof.
  intros He Hu. rewrite find_after_filename, Hu by done. change 256%nat with (S 255). rewrite find_attr_turn.
  unfold sizeof_attr_header. destruct (Z.leb_spec (e + 361 + 16) (e + 369)); [lia|done].
Qed.
Lemma find_data_first m e : entry_ok m e -> 377 <= rd m e mh_used_size -> rd m (e + 361) at_type = ATTR_DATA ->
  find_attr m e ATTR_DATA = Some (e + 361).
Proof.
  intros He Hu Ht. rewrite find_after_filename by done. change 256%nat with (S 255). rewrite find_attr_turn, Ht, Z.eqb_refl, orb_true_r.
  unfold sizeof_attr_header. destruct (Z.leb_spec (e + 361 + 16) (e + rd m e mh_used_size)); [done|lia].
Qed.

(** Where things are, as the arithmetic needs them. *)
Lemma open_file_places s f i p c mode : fs_ok s -> open_file s f i p c mode ->
  mft_addr s i = mft_zone s + i * 4096 /\ 0 < mft_zone s + i * 4096 /\
  (f + 32 <= mft_zone s + i * 4096 \/ mft_zone s + i * 4096 + 4096 <= f).
Proof.
  intros Hok [O1 O2 O3 O4 O5 _ _ _ _ _ _ _]. pose proof (ok_zone s Hok). unfold apart, sizeof_file in *. cbn [fst snd] in *.
  rewrite mft_addr_ok by done. lia.
Qed.

(** A run that keeps the pointers and changes the handle and the part of the
    entry after its filename record, keeping the size in bounds. *)
Lemma file_step s s' f i p c mode : fs_ok s -> open_file s f i p c mode ->
  boot_sector s' = boot_sector s -> mft_zone s' = mft_zone s -> cluster_bitmap s' = cluster_bitmap s ->
  fheap s' = set_payload (fmem s') (fheap s) ->
  changes (fun x => f <= x < f + 32 \/ slot s i x) (fmem s) (fmem s') ->
  step (eq i) s s'.
Proof.
  intros Hok Hof Hb Hz Hbm Hh Hc. destruct Hof as [O1 O2 O3 O4 O5 _ _ _ _ _ _ _].
  unfold apart, sizeof_file in O4, O5. cbn [fst snd] in O4, O5. split; try done.
  - eapply changes_weaken; [exact Hc|]. intros x [Hx|Hx]; [left; left; unfold outside; lia|right; by exists i].
  - intros j Hj Hne Hu Hin. rewrite (rd_changes _ _ _ _ _ Hc); [done|]. intros x Hx [Hx'|Hx']; unfold slot in *; range.
Qed.

Lemma set_size_runs s e size : 0 < e -> entry_ok (fmem s) e ->
  exists t s', set_size_and_time fuel e size s = Some ((), s') /\
    fheap s' = set_payload (wr (e + 48) fn_modify_time t (wr (e + 48) fn_real_size size (fmem s))) (fheap s) /\
    boot_sector s' = boot_sector s /\ mft_zone s' = mft_zone s /\ cluster_bitmap s' = cluster_bitmap s.
Proof.
  intros He Hok. unfold set_size_and_time.
  assert (E1 : payload_of e ATTR_FILENAME s = Some (e + 48, s)) by (unfold payload_of; by rewrite find_filename_payload by (done || lia)).
  rewrite (bind_run _ _ _ _ _ E1). destruct (Z.eqb_spec (e + 48) 0); [lia|]. cbn [negb]. unfold st. rewrite bind_upd.
  set (s1 := set_mem _ s). destruct (now_runs fuel clock s1) as (t & s2 & E2 & [P1 P2 P3 _ _ _] & Hh).
  rewrite (bind_run _ _ _ _ _ E2). do 2 eexists. split; [done|].
  assert (Hm : fmem s2 = fmem s1) by (unfold fmem; by rewrite Hh).
  change (fheap (set_mem (wr (e + 48) fn_modify_time t (fmem s2)) s2)) with
    (set_payload (wr (e + 48) fn_modify_time t (fmem s2)) (fheap s2)). rewrite Hm, Hh. done.
Qed.

Lemma load_bytes_take m q k n : 0 <= k <= n -> take (Z.to_nat k) (load_bytes m q n) = load_bytes m q k.
Proof.
  intros Hk. replace n with (k + (n - k)) by lia. rewrite load_bytes_app by lia. apply take_app_length'.
  pose proof (length_load_bytes m q k). lia.
Qed.
Lemma load_bytes_drop m q k n : 0 <= k <= n -> drop (Z.to_nat k) (load_bytes m q n) = load_bytes m (q + k) (n - k).
Proof.
  intros Hk. replace n with (k + (n - k)) at 1 by lia. rewrite load_bytes_app by lia. apply drop_app_length'.
  pose proof (length_load_bytes m q k). lia.
Qed.
Lemma load_over m q (p : Z) c d : load_bytes m q (len c) = c -> 0 <= p <= len c ->
  load_bytes (store_bytes (q + p) d m) q (p + len d) = take (Z.to_nat p) c ++ d.
Proof.
  intros Hc Hp. rewrite load_bytes_app, load_stored by lia. f_equal.
  rewrite (load_bytes_frame q p (q + p) (len d) m) by (apply frame_store_bytes || lia).
  rewrite <- Hc at 1. by rewrite load_bytes_take.
Qed.

(** The stores of a write of [d] at [p]. *)
Definition written m (e f p t : Z) (d : list Z) : mem :=
  let n := p + len d in
  wr (e + 48) fn_modify_time t (wr (e + 48) fn_real_size n
    (wr (e + 361) at_length (16 + n) (wr f ff_size n (wr f ff_position n (store_bytes (e + 377 + p) d m))))).

Lemma written_fields m e f p t c d :
  f + 32 <= e \/ e + 4096 <= f -> 0 <= p <= len c -> p + len d <= 3711 -> load_bytes m (e + 377) (len c) = c ->
  let m' := written m e f p t d in
  rd m' f ff_mft_number = rd m f ff_mft_number /\ rd m' f ff_position = p + len d /\ rd m' f ff_size = p + len d /\
  rd m' f ff_mode = rd m f ff_mode /\ rd m' e mh_used_size = rd m e mh_used_size /\
  rd m' (e + 361) at_type = rd m (e + 361) at_type /\ rd m' (e + 361) at_length = 16 + (p + len d) /\
  rd m' (e + 361) at_non_resident = rd m (e + 361) at_non_resident /\
  rd m' (e + 48) fn_real_size = p + len d /\
  load_bytes m' (e + 377) (p + len d) = take (Z.to_nat p) c ++ d.
Proof.
  intros Hd Hp Hn Hc. cbv zeta. unfold written. cbv zeta.
  split; [|split; [|split; [|split; [|split; [|split; [|split; [|split; [|split]]]]]]]].
  1-9: unfold ff_mft_number, ff_position, ff_size, ff_mode in *; rd_simp; try done; apply Z.mod_small; cbn; lia.
  rewrite <- (load_over m (e + 377) p c d Hc Hp).
  match goal with |- load_bytes ?m' _ _ = load_bytes ?m1 _ _ =>
    apply (load_bytes_changes (fun x => f <= x < f + 32 \/ e + 48 <= x < e + 377) m1 m') end.
  - unfold ff_position, ff_size. repeat changes_step; range.
  - intros x Hx [Hx'|Hx']; lia.
Qed.

Lemma written_changes m e f p t d : 0 <= p -> p + len d <= 3711 ->
  changes (fun x => f <= x < f + 32 \/ from (e + 48) e x) m (written m e f p t d).
Proof.
  intros Hp Hn. unfold written, ff_position, ff_size. cbv zeta. repeat changes_step; unfold from; range.
Qed.

Lemma written_entry_ok m e f p t d : f + 32 <= e \/ e + 4096 <= f -> 0 <= p -> p + len d <= 3711 ->
  entry_ok m e -> entry_ok (written m e f p t d) e.
Proof.
  intros Hd Hp Hn (H1 & H2 & H3 & H4 & H5). unfold entry_ok, written, ff_position, ff_size. cbv zeta.
  repeat split; rd_simp; done || lia.
Qed.

(** The attribute that a first, small write makes. *)
Definition attr_made m (e : Z) : mem :=
  place_end e (e + 377) (wr (e + 361) at_length 16 (wr (e + 361) at_non_resident 0 (wr (e + 361) at_type ATTR_DATA m))).

Lemma create_data_attr_small s e size : rd (fmem s) e mh_used_size = 369 -> size <= 3703 ->
  create_data_attr e size s = Some (e + 361, set_mem (attr_made (fmem s) e) s).
Proof.
  intros Hu Hs. unfold create_data_attr. rewrite bind_ld, Hu.
  change (u64 (u32 (MFT_ENTRY_SIZE - 369) - sizeof_attr_header - 8)) with 3703. replace (e + 369 - 8) with (e + 361) by lia.
  unfold st. rewrite bind_upd. destruct (Z.ltb_spec 3703 size); [lia|].
  unfold attr_made. unfold sizeof_attr_header. replace (e + 377) with (e + 361 + 16) by lia. done.
Qed.

Lemma attr_made_fields m e :
  let m' := attr_made m e in
  rd m' e mh_used_size = 385 /\ rd m' (e + 361) at_type = ATTR_DATA /\ rd m' (e + 361) at_length = 16 /\
  rd m' (e + 361) at_non_resident = 0 /\
  changes (fun x => from (e + 361) e x \/ size_field e x) m m'.
Proof.
  cbv zeta. unfold attr_made, place_end. cbv zeta. repeat split; rd_simp; try done.
  - replace (e + 377 + 8 - e) with 385 by lia. done.
  - repeat changes_step; unfold from, size_field; range.
Qed.

(** The position a write starts at. *)
Definition write_position (mode p : Z) (c : list Z) : Z := if mode =? 2 then len c else p.

Lemma set_position s f i p c mode o : fs_ok s -> open_file s f i p c mode -> 0 <= o <= len c ->
  let s' := set_mem (wr f ff_position o (fmem s)) s in step none s s' /\ open_file s' f i o c mode.
Proof.
  intros Hok Hof Ho. cbv zeta. pose proof (open_file_places _ _ _ _ _ _ Hok Hof) as (Ha & Hpos & Hd).
  pose proof Hof as [O1 O2 O3 O4 O5 O6 O7 O8 O9 O10 O11 O12]. pose proof (holds_length _ _ _ O11) as Hl.
  set (m' := wr f ff_position o (fmem s)).
  assert (Hc : changes (fun x => f + 8 <= x < f + 16) (fmem s) m') by (apply changes_wr; [done|intros x Hx; unfold ff_position in Hx; range]).
  assert (Hst : step none s (set_mem m' s)).
  { apply step_outside; [done|]. eapply changes_weaken; [exact Hc|]. intros x Hx.
    unfold apart, outside, sizeof_file in *. cbn [fst snd] in *. lia. }
  split; [done|]. pose proof (step_mft_size _ _ _ Hok Hst) as Hn. split; rewrite ?Hn; try done.
  - unfold in_use. by rewrite (step_in_use none s) by (done || by intros []).
  - change (rd m' f ff_mft_number = i). rewrite <- O6. apply (rd_changes _ _ _ _ _ Hc). unfold ff_mft_number. intros x Hx. range.
  - change (rd m' f ff_position = o). unfold m'. rewrite fld_wr_eq by done. apply Z.mod_small. cbn. lia.
  - change (rd m' f ff_size = len c). rewrite <- O8. apply (rd_changes _ _ _ _ _ Hc). unfold ff_size. intros x Hx. range.
  - change (rd m' f ff_mode = mode). rewrite <- O9. apply (rd_changes _ _ _ _ _ Hc). unfold ff_mode. intros x Hx. range.
  - change (holds m' (mft_zone s + i * 4096) c). unfold holds in *.
    rewrite !(rd_changes _ _ m' _ _ Hc) by (intros x Hx; range).
    rewrite (load_bytes_changes _ _ m' _ _ Hc) by (intros x Hx; lia). done.
  - change (rd m' (mft_zone s + i * 4096 + 48) fn_real_size = len c). rewrite <- O12. apply (rd_changes _ _ _ _ _ Hc). intros x Hx. range.
Qed.

Lemma open_file_mode s f i p c mode : fs_ok s -> open_file s f i p c mode ->
  exists s', (if mode =? 2 then sz ← ld f ff_size; st f ff_position sz else mret ()) s = Some ((), s') /\
    step none s s' /\ open_file s' f i (write_position mode p c) c mode /\
    rd (fmem s') (mft_zone s + i * 4096) mh_used_size = rd (fmem s) (mft_zone s + i * 4096) mh_used_size.
Proof.
  intros Hok Hof. unfold write_position. destruct (mode =? 2); [|by eexists; split; [|split; [apply step_refl|]]].
  rewrite bind_ld, (of_size _ _ _ _ _ _ Hof). eexists. split; [done|].
  pose proof (open_file_places _ _ _ _ _ _ Hok Hof) as (_ & _ & Hd).
  edestruct (set_position s f i p c mode (len c)) as [S1 S2]; [done..|lia|]. split; [exact S1|]. split; [exact S2|].
  unfold st, upd, putm. cbn [fmem]. unfold ff_position. apply fld_wr_ne; [done|range].
Qed.

(** After [written], the file is open on the new bytes. *)
Lemma written_open s s' f i p c d t mode : fs_ok s -> open_file s f i p c mode ->
  rd (fmem s) (mft_zone s + i * 4096) mh_used_size = 385 ->
  p + len d <= 3711 -> 0 < len d ->
  boot_sector s' = boot_sector s -> mft_zone s' = mft_zone s -> cluster_bitmap s' = cluster_bitmap s ->
  fheap s' = set_payload (written (fmem s) (mft_zone s + i * 4096) f p t d) (fheap s) ->
  step (eq i) s s' /\ fs_ok s' /\ open_file s' f i (p + len d) (take (Z.to_nat p) c ++ d) mode /\ node_at s' i = node_at s i.
Proof.
  intros Hok Hof Hu Hn Hd0 Hb Hz Hbm Hh. set (e := mft_zone s + i * 4096) in *.
  pose proof (open_file_places _ _ _ _ _ _ Hok Hof) as (Ha & Hpos & Hd). fold e in Ha, Hpos, Hd.
  assert (Hm : fmem s' = written (fmem s) e f p t d) by (unfold fmem; by rewrite Hh).
  pose proof Hof as [O1 O2 O3 O4 O5 O6 O7 O8 O9 O10 O11 O12]. fold e in O11.
  destruct O11 as [[Hu' _]|(_ & R2 & R3 & R4 & R5 & R6)]; [lia|].
  destruct (written_fields (fmem s) e f p t c d Hd O10 Hn R5) as (W1 & W2 & W3 & W4 & W5 & W6 & W7 & W8 & W10 & W9).
  pose proof (written_changes (fmem s) e f p t d ltac:(lia) Hn) as Hc.
  pose proof (ok_entries s Hok i O1 O2) as He. rewrite Ha in He.
  assert (He' : entry_ok (fmem s') e) by (rewrite Hm; apply written_entry_ok; done || lia).
  rewrite <- Hm in W1, W2, W3, W4, W5, W6, W7, W8, W9, W10, Hc.
  assert (Hst : step (eq i) s s').
  { eapply file_step; [done..|by rewrite Hh, Hm|]. eapply changes_weaken; [exact Hc|].
    intros x [Hx|Hx]; [by left|right]. unfold from, slot, MFT_ENTRY_SIZE in *. fold e. lia. }
  assert (Hflags : rd (fmem s') e mh_flags = rd (fmem s) e mh_flags).
  { apply (rd_changes _ _ _ _ _ Hc). intros x Hx [Hx'|Hx']; unfold from in *; range. }
  assert (Ha' : mft_addr s' i = e) by (by rewrite (step_addr _ _ _ _ Hst)).
  assert (Huse : in_use s' i = true) by (unfold in_use in *; by rewrite Ha', Hflags, <- Ha).
  assert (Hok' : fs_ok s').
  { apply (step_ok (eq i) s s' Hok Hst).
    - intros k _ <- _. by rewrite Ha'.
    - intros k. destruct (decide (i = k)); auto.
    - destruct (decide (i = MFT_ROOT)) as [->|]; [|by apply (step_root (eq i) s)].
      pose proof (ok_root s Hok) as [_ Hdir]. split; [done|]. unfold is_dir_entry in *. by rewrite Ha', Hflags, <- Ha. }
  pose proof (step_mft_size _ _ _ Hok Hst) as Hns. assert (Hlen : len (take (Z.to_nat p) c ++ d) = p + len d) by (rewrite length_app, length_take; lia).
  split; [done|]. split; [done|]. split.
  - split; rewrite ?Hns, ?Hz, ?Hb; try done; try lia; try (by rewrite ?Hlen).
    fold e. right. rewrite W5, W6, W7, W8, Hlen. repeat split; done || lia.
  - unfold node_at. rewrite Huse, O2, Ha', Ha, Hflags.
    assert (Hk : forall g, f_off g + f_size g <= 16 \/ 48 <= f_off g /\ f_off g + f_size g <= 313 ->
      0 <= f_off g -> rd (fmem s') (e + 48) g = rd (fmem s) (e + 48) g).
    { intros g Hg Hg0. rewrite Hm. unfold written, ff_position, ff_size. cbv zeta. rd_simp. done. }
    rewrite !Hk by range. do 2 f_equal. rewrite Hm. unfold written, ff_position, ff_size. cbv zeta.
    destruct He as (_ & _ & _ & _ & Hfl).
    match goal with |- load_bytes ?m' _ _ = _ => apply (load_bytes_changes (fun x => f <= x < f + 32 \/ e + 48 <= x < e + 104 \/ e + 361 <= x < e + 4096) _ m') end.
    + repeat changes_step; range.
    + intros x Hx [Hx'|[Hx'|Hx']]; range.
Qed.

Lemma made_open s f i p mode : fs_ok s -> open_file s f i p [] mode ->
  let s' := set_mem (attr_made (fmem s) (mft_zone s + i * 4096)) s in
  step none s s' /\ open_file s' f i p [] mode /\ rd (fmem s') (mft_zone s + i * 4096) mh_used_size = 385.
Proof.
  intros Hok Hof. cbv zeta. set (e := mft_zone s + i * 4096).
  pose proof (open_file_places _ _ _ _ _ _ Hok Hof) as (Ha & Hpos & Hd). fold e in Ha, Hpos, Hd.
  destruct (attr_made_fields (fmem s) e) as (M1 & M2 & M3 & M4 & Mc). set (m' := attr_made (fmem s) e) in *. clearbody m'.
  assert (Hst : step none s (set_mem m' s)).
  { destruct Hof as [O1 _ _ _ _ _ _ _ _ _ _ _]. apply (step_entry_soft _ _ i); [done|done|exact Mc|]. intros _. change (369 <= rd m' e mh_used_size <= 4096). rewrite M1. lia. }
  split; [done|]. split; [|done]. pose proof (step_mft_size _ _ _ Hok Hst) as Hn.
  pose proof Hof as [O1 O2 O3 O4 O5 O6 O7 O8 O9 O10 O11 O12].
  assert (Hk : forall g, 0 <= f_off g -> f_off g + f_size g <= 32 -> rd m' f g = rd (fmem s) f g).
  { intros g H1 H2. apply (rd_changes _ _ _ _ _ Mc). intros x Hx [Hx'|Hx']; unfold from, size_field in *; range. }
  split; rewrite ?Hn; try done; change (fmem (set_mem m' s)) with m'; rewrite ?Hk by (unfold ff_mft_number, ff_position, ff_size, ff_mode; cbn; lia); try done.
  - unfold in_use. by rewrite (step_in_use none s) by (done || by intros []).
  - change (holds m' e []). right. by rewrite M1, M2, M3, M4.
  - change (rd m' (e + 48) fn_real_size = Z.of_nat 0). change (Z.of_nat 0) with (len ([] : list Z)). rewrite <- O12. apply (rd_changes _ _ _ _ _ Mc). intros x Hx [Hx'|Hx']; unfold from, size_field in *; range.
Qed.

(** The write on a file with a resident attribute. *)
Lemma write_resident_runs s f i p c d mode : fs_ok s -> open_file s f i p c mode ->
  rd (fmem s) (mft_zone s + i * 4096) mh_used_size = 385 -> p + len d <= 3711 -> 0 < len d ->
  exists s', write_resident fuel f (mft_addr s i) (mft_zone s + i * 4096 + 361) d s = Some (len d, s') /\
    step (eq i) s s' /\ fs_ok s' /\ open_file s' f i (p + len d) (take (Z.to_nat p) c ++ d) mode /\ node_at s' i = node_at s i.
Proof.
  intros Hok Hof Hu Hn Hd0. pose proof (open_file_places _ _ _ _ _ _ Hok Hof) as (Ha & Hpos & Hd). rewrite Ha.
  set (e := mft_zone s + i * 4096) in *. pose proof Hof as [O1 O2 O3 O4 O5 O6 O7 O8 O9 O10 O11 O12].
  unfold write_resident. rewrite bind_ld, O7. cbv zeta. unfold st. rewrite !bind_upd.
  rewrite (u64_id (p + len d)), (u64_id (sizeof_attr_header + (p + len d))) by (unfold is_u64, sizeof_attr_header; lia).
  unfold sizeof_attr_header. replace (e + 361 + 16 + p) with (e + 377 + p) by lia.
  set (m1 := wr (e + 361) at_length (16 + (p + len d)) (wr f ff_size (p + len d) (wr f ff_position (p + len d)
    (store_bytes (e + 377 + p) d (fmem s))))).
  match goal with |- context [(set_size_and_time fuel e _ ≫= _) ?x] => change x with (set_mem m1 s) end.
  assert (He1 : entry_ok m1 e).
  { pose proof (ok_entries s Hok i O1 O2) as (A1 & A2 & A3 & A4 & A5). rewrite Ha in A1, A2, A3, A4, A5. unfold m1, entry_ok, ff_position, ff_size.
    repeat split; rd_simp; try done; lia. }
  destruct (set_size_runs (set_mem m1 s) e (p + len d) Hpos He1) as (t & s2 & E2 & Hh2 & P1 & P2 & P3).
  rewrite (bind_run _ _ _ _ _ E2), bind_ld.
  assert (Hh : fheap s2 = set_payload (written (fmem s) e f p t d) (fheap s)) by (rewrite Hh2; done).
  destruct (written_open s s2 f i p c d t mode Hok Hof Hu Hn Hd0 P1 P2 P3 Hh) as (S1 & S2 & S3 & S4).
  destruct (write_mft_runs s2 (rd (fmem s2) f ff_mft_number) e) as (r & s3 & E3 & S5 & Hh3). rewrite (bind_run _ _ _ _ _ E3).
  pose proof (step_mft_size _ _ _ S2 S5) as Hn3. destruct S5 as [Q1 Q2 Q3 Q4 Q5 Q6].
  assert (S5 : step none s2 s3) by done. assert (Hm3 : fmem s3 = fmem s2) by (unfold fmem; by rewrite Hh3).
  eexists. split; [done|]. split; [by eapply step_trans; [|done|apply none_hard]|]. split; [by eapply none_ok|]. split.
  - destruct S3 as [B1 B2 B3 B4 B5 B6 B7 B8 B9 B10 B11 B12]. split; rewrite ?Hn3, ?Hm3, ?Q1, ?Q2; try done.
    unfold in_use. by rewrite (step_in_use none s2) by (done || by intros []).
  - rewrite (step_node none s2 s3) by (done || (by intros []) || by rewrite (step_mft_size _ _ _ Hok S1)). done.
Qed.

Lemma step_node_set s s' i : fs_ok s -> step (eq i) s s' -> 0 <= i < mft_size s -> node_at s' i = node_at s i -> tree s' = tree s.
Proof.
  intros Hok Hst Hi Hn. rewrite (step_tree_set s s' i), Hn by done. apply list_insert_id.
  rewrite <- (tree_get s i) by done. apply arr_lookup_get. by rewrite tree_length.
Qed.

Lemma fs_write_runs s f i p c d mode : fs_ok s -> open_file s f i p c mode -> 0 < len d ->
  write_position mode p c + len d <= 3703 ->
  exists s', fs_write fuel stack f d s = Some (len d, s') /\ fs_ok s' /\ (tree s' = tree s /\ step (eq i) s s') /\
    open_file s' f i (write_position mode p c + len d) (take (Z.to_nat (write_position mode p c)) c ++ d) mode.
Proof.
  intros Hok Hof Hd0 Hn. unfold fs_write. pose proof (of_addr _ _ _ _ _ _ Hof) as Hf.
  destruct (Z.eqb_spec f 0); [lia|]. destruct (Z.eqb_spec (len d) 0); [lia|]. cbn [orb].
  rewrite bind_ld, (of_mode _ _ _ _ _ _ Hof).
  destruct (open_file_mode s f i p c mode Hok Hof) as (s1 & E1 & S1 & Hof1 & _). rewrite (bind_run _ _ _ _ _ E1).
  set (q := write_position mode p c) in *. clearbody q. pose proof (of_bounds _ _ _ _ _ _ Hof1). pose proof (none_ok _ _ Hok S1) as Hok1.
  rewrite bind_ld, (of_number _ _ _ _ _ _ Hof1), bind_entry_of.
  pose proof (open_file_places _ _ _ _ _ _ Hok1 Hof1) as (Ha & Hpos & _).
  pose proof (of_entry _ _ _ _ _ _ Hof1) as Hi. pose proof (of_used _ _ _ _ _ _ Hof1) as Hu.
  pose proof (ok_entries s1 Hok1 i Hi Hu) as He.
  assert (Hmain : exists s2, find_or_create_data (mft_addr s1 i) (len d) s1 =
      Some (mft_zone s1 + i * 4096 + 361, s2) /\ step none s1 s2 /\ open_file s2 f i q c mode /\
      rd (fmem s2) (mft_zone s1 + i * 4096) mh_used_size = 385).
  { unfold find_or_create_data. rewrite Ha in *. destruct (of_holds _ _ _ _ _ _ Hof1) as [[Hus ->]|(Hus & Hty & _)].
    - assert (E2 : attr_of (mft_zone s1 + i * 4096) ATTR_DATA s1 = Some (0, s1)) by (unfold attr_of; by rewrite find_data_none).
      rewrite (bind_run _ _ _ _ _ E2). cbn [Z.eqb]. rewrite (create_data_attr_small s1 _ (len d) Hus) by lia.
      destruct (made_open s1 f i q mode Hok1 Hof1) as (S2 & Hof2 & Hus2). by eexists.
    - assert (E2 : attr_of (mft_zone s1 + i * 4096) ATTR_DATA s1 = Some (mft_zone s1 + i * 4096 + 361, s1))
        by (unfold attr_of; by rewrite find_data_first by (done || lia)).
      rewrite (bind_run _ _ _ _ _ E2). destruct (Z.eqb_spec (mft_zone s1 + i * 4096 + 361) 0); [lia|].
      eexists. split; [done|]. split; [apply step_refl|done]. }
  destruct Hmain as (s2 & E2 & S2 & Hof2 & Hus2).
  rewrite (bind_run _ _ _ _ _ E2). pose proof (none_ok _ _ Hok1 S2) as Hok2. pose proof (st_zone _ _ _ S2) as Hz.
  destruct (of_holds _ _ _ _ _ _ Hof2) as [[Hx _]|(_ & _ & _ & Hnr & _)]; [rewrite Hz in Hx; lia|]. rewrite Hz in Hnr.
  rewrite bind_ld, Hnr. cbn [Z.eqb negb]. rewrite bind_ld, (of_position _ _ _ _ _ _ Hof2), bind_ld, Ha, Hus2.
  change (u32 (MFT_ENTRY_SIZE - 385)) with 3711. pose proof (of_bounds _ _ _ _ _ _ Hof2).
  rewrite u64_id by (unfold is_u64; lia). destruct (Z.ltb_spec 3711 (q + len d)); [lia|].
  rewrite <- Hz in Hus2. destruct (write_resident_runs s2 f i q c d mode Hok2 Hof2 Hus2) as (s3 & E3 & S3 & Hok3 & Hof3 & Hn3); [lia..|].
  rewrite (step_addr _ _ _ _ S2), Ha, Hz in E3. exists s3. split; [done|]. split; [done|]. split; [|done]. split.
  2: { eapply step_trans; [exact Hok|by apply none_hard|]. eapply step_trans; [exact Hok1|by apply none_hard|exact S3]. }
  rewrite (step_node_set s2 s3 i), (step_tree_same s1 s2), (step_tree_same s s1) by (done || by rewrite (step_mft_size _ _ _ Hok1 S2)). done.
Qed.

Lemma i64_id x : 0 <= x < 2 ^ 63 -> i64 x = x.
Proof. intros Hx. unfold i64. rewrite Z.mod_small by lia. lia. Qed.

Lemma fs_seek_runs s f i p c mode o : fs_ok s -> open_file s f i p c mode -> 0 <= o <= len c ->
  exists s', fs_seek f o 0 s = Some (0, s') /\ fs_ok s' /\ (tree s' = tree s /\ step none s s') /\ open_file s' f i o c mode.
Proof.
  intros Hok Hof Ho. unfold fs_seek. pose proof (of_addr _ _ _ _ _ _ Hof). destruct (Z.eqb_spec f 0); [lia|].
  rewrite !bind_ld, (of_size _ _ _ _ _ _ Hof). cbv zeta. cbn [Z.eqb]. pose proof (holds_length _ _ _ (of_holds _ _ _ _ _ _ Hof)).
  rewrite Z.add_0_l, i64_id by lia. destruct (Z.ltb_spec o 0); [lia|]. destruct (Z.ltb_spec (len c) o); [lia|].
  rewrite u64_id by (unfold is_u64; lia). destruct (set_position s f i p c mode o Hok Hof Ho) as [S1 Hof1].
  eexists. split; [done|]. split; [by eapply none_ok|]. split; [split; [by apply step_tree_same|done]|done].
Qed.

Lemma fs_read_runs s f i p c mode n : fs_ok s -> open_file s f i p c mode -> 0 < n < 2 ^ 63 ->
  exists s', fs_read stack f n s = Some (take (Z.to_nat n) (drop (Z.to_nat p) c), s') /\ fs_ok s' /\ (tree s' = tree s /\ step none s s') /\
    open_file s' f i (Z.min (p + n) (len c)) c mode.
Proof.
  intros Hok Hof Hn. unfold fs_read. pose proof (of_addr _ _ _ _ _ _ Hof). destruct (Z.eqb_spec f 0); [lia|].
  destruct (Z.eqb_spec n 0); [lia|]. cbn [orb].
  rewrite !bind_ld, (of_number _ _ _ _ _ _ Hof), (of_position _ _ _ _ _ _ Hof), bind_entry_of.
  pose proof (open_file_places _ _ _ _ _ _ Hok Hof) as (Ha & Hpos & _). pose proof (of_entry _ _ _ _ _ _ Hof) as Hi.
  pose proof (ok_entries s Hok i Hi (of_used _ _ _ _ _ _ Hof)) as He. pose proof (of_bounds _ _ _ _ _ _ Hof) as Hp.
  pose proof (set_position s f i p c mode (Z.min (p + n) (len c)) Hok Hof ltac:(lia)) as [S1 Hof1].
  rewrite Ha in *. set (e := mft_zone s + i * 4096) in *.
  destruct (of_holds _ _ _ _ _ _ Hof) as [[Hus ->]|(Hus & Hty & Hlen & Hnr & Hld & Hl)]; fold e in Hus.
  - assert (E2 : attr_of e ATTR_DATA s = Some (0, s)) by (unfold attr_of; by rewrite find_data_none).
    rewrite (bind_run _ _ _ _ _ E2). cbn [length] in *. replace (Z.min (p + n) (Z.of_nat 0)) with p by lia.
    exists s. split; [by destruct (Z.to_nat p), (Z.to_nat n)|]. split; [done|]. split; [split; [done|apply step_refl]|done].
  - fold e in Hty, Hlen, Hnr, Hld.
    assert (E2 : attr_of e ATTR_DATA s = Some (e + 361, s)) by (unfold attr_of; by rewrite find_data_first by (done || lia)).
    rewrite (bind_run _ _ _ _ _ E2). destruct (Z.eqb_spec (e + 361) 0); [lia|].
    rewrite bind_ld, Hnr. cbn [Z.eqb negb]. rewrite bind_ld, Hlen. unfold sizeof_attr_header, MFT_ENTRY_SIZE.
    destruct (Z.ltb_spec (16 + len c) 16); [lia|]. replace (e + 361 - e) with 361 by lia. change (u32 361) with 361.
    replace (16 + len c - 16) with (len c) by lia. destruct (Z.ltb_spec 4096 (361 + 16 + len c)); [lia|].
    rewrite (u64_id (p + n)) by (unfold is_u64; lia).
    destruct (Z.leb_spec (len c) p).
    + replace (Z.min (p + n) (len c)) with p in * by lia. exists s. rewrite (drop_ge c) by lia. split; [by destruct (Z.to_nat n)|]. split; [done|]. split; [split; [done|apply step_refl]|done].
    + rewrite bind_gets. set (k := if len c <? p + n then len c - p else n).
      assert (Hk : p + k = Z.min (p + n) (len c)) by (unfold k; if_all; lia). unfold st. rewrite bind_upd.
      rewrite u64_id, Hk by (unfold is_u64; lia).
      assert (Hb : load_bytes (fmem s) (e + 361 + 16 + p) k = take (Z.to_nat n) (drop (Z.to_nat p) c)).
      { rewrite <- Hld, load_bytes_drop by lia. replace (e + 361 + 16 + p) with (e + 377 + p) by lia.
        destruct (decide (n <= len c - p)); [rewrite load_bytes_take by lia; f_equal; lia|].
        rewrite take_ge; [f_equal; lia|]. pose proof (length_load_bytes (fmem s) (e + 377 + p) (len c - p)). lia. }
      rewrite Hb. eexists. split; [done|]. split; [by eapply none_ok|]. split; [split; [by apply step_tree_same|done]|done].
Qed.

(** [C14] A file whose bytes [c] fit its table entry: a write of [d] (at the position, or at
    the end in append mode) stores all of [d] and leaves the bytes of [c] before the write
    followed by [d]; after a seek to any offset in it a read returns exactly the bytes from
    there, at most [n] of them; the tree of names does not change. *)
Theorem fs_write_seek_read s f i p c d mode o n : fs_ok s -> open_file s f i p c mode ->
  0 < len d -> write_position mode p c + len d <= 3703 -> 0 < n < 2 ^ 63 ->
  let c' := take (Z.to_nat (write_position mode p c)) c ++ d in 0 <= o <= len c' ->
  exists s1 s2 s3, fs_write fuel stack f d s = Some (len d, s1) /\ fs_seek f o 0 s1 = Some (0, s2) /\
    fs_read stack f n s2 = Some (take (Z.to_nat n) (drop (Z.to_nat o) c'), s3) /\
    fs_ok s3 /\ tree s3 = tree s /\ open_file s3 f i (Z.min (o + n) (len c')) c' mode.
Proof.
  intros Hok Hof Hd Hn Hrn c' Ho.
  destruct (fs_write_runs s f i p c d mode Hok Hof Hd Hn) as (s1 & E1 & Hok1 & [Ht1 _] & Hof1). fold c' in Hof1.
  destruct (fs_seek_runs s1 f i _ c' mode o Hok1 Hof1 Ho) as (s2 & E2 & Hok2 & [Ht2 _] & Hof2).
  destruct (fs_read_runs s2 f i o c' mode n Hok2 Hof2 Hrn) as (s3 & E3 & Hok3 & [Ht3 _] & Hof3).
  exists s1, s2, s3. split; [done|]. split; [done|]. split; [done|]. split; [done|]. split; [congruence|done].
Qed.

(** ** A first write that does not fit *)

(** The attribute that a first, large write makes, without runs. *)
Definition large_attr m (e : Z) : mem :=
  let nr := e + 377 in
  place_end e (e + 425)
    (wr nr nr_initialized_size 0 (wr nr nr_real_size 0 (wr nr nr_allocated_size 0 (wr nr nr_reserved 0
      (wr nr nr_comp_unit_size 0 (wr nr nr_run_offset 64 (wr nr nr_last_vcn 0 (wr nr nr_start_vcn 0
        (wr (e + 361) at_length 64 (wr (e + 361) at_non_resident 1 (wr (e + 361) at_type ATTR_DATA m))))))))))).

Lemma create_data_attr_large s e size : rd (fmem s) e mh_used_size = 369 -> 3703 < size ->
  create_data_attr e size s = Some (e + 361, set_mem (large_attr (fmem s) e) s).
Proof.
  intros Hu Hs. unfold create_data_attr. rewrite bind_ld, Hu.
  change (u64 (u32 (MFT_ENTRY_SIZE - 369) - sizeof_attr_header - 8)) with 3703. replace (e + 369 - 8) with (e + 361) by lia.
  destruct (Z.ltb_spec 3703 size); [|lia]. unfold st. rewrite bind_upd. cbv zeta.
  unfold sizeof_attr_header. replace (e + 361 + 16) with (e + 377) by lia.
  set (m1 := wr (e + 377) nr_initialized_size 0 (wr (e + 377) nr_real_size 0 (wr (e + 377) nr_allocated_size 0 (wr (e + 377) nr_reserved 0
      (wr (e + 377) nr_comp_unit_size 0 (wr (e + 377) nr_run_offset 64 (wr (e + 377) nr_last_vcn 0 (wr (e + 377) nr_start_vcn 0
        (wr (e + 361) at_length 64 (wr (e + 361) at_non_resident 1 (wr (e + 361) at_type ATTR_DATA (fmem s)))))))))))).
  assert (Hl : rd m1 (e + 361) at_length = 64) by (unfold m1; rd_simp; done).
  unfold large_attr. cbv zeta. fold m1. replace (e + 425) with (e + 361 + rd m1 (e + 361) at_length) by lia. done.
Qed.

Lemma large_attr_fields m e :
  let m' := large_attr m e in
  rd m' e mh_used_size = 433 /\ rd m' (e + 361) at_type = ATTR_DATA /\ rd m' (e + 361) at_length = 64 /\
  rd m' (e + 361) at_non_resident = 1 /\ rd m' (e + 377) nr_run_offset = 64 /\ rd m' (e + 377) nr_allocated_size = 0 /\
  changes (fun x => from (e + 361) e x \/ size_field e x) m m'.
Proof.
  cbv zeta. unfold large_attr, place_end. cbv zeta. repeat split; rd_simp; try done.
  - replace (e + 425 + 8 - e) with 433 by lia. done.
  - repeat changes_step; unfold from, size_field; range.
Qed.

(** The cluster loop reports every byte as written, whatever the run array
    holds. *)
Definition same_memory s s' : Prop :=
  fheap s' = fheap s /\ boot_sector s' = boot_sector s /\ mft_zone s' = mft_zone s /\ cluster_bitmap s' = cluster_bitmap s.
Lemma same_memory_trans s1 s2 s3 : same_memory s1 s2 -> same_memory s2 s3 -> same_memory s1 s3.
Proof. unfold same_memory. intros (A1 & A2 & A3 & A4) (-> & -> & -> & ->). done. Qed.
Lemma read_cluster_runs c s : exists b s', read_cluster c s = Some (b, s') /\ same_memory s s'.
Proof. unfold read_cluster. destruct (disk_read _ _ _) as [[ws r] d]. by do 2 eexists. Qed.
Lemma write_cluster_runs c buf s : exists r s', write_cluster c buf s = Some (r, s') /\ same_memory s s'.
Proof. unfold write_cluster. destruct (disk_write _ _ _ _) as [r d]. by do 2 eexists. Qed.

Lemma write_runs_all runs d k : forall i s, 0 <= i ->
  exists s', write_runs stack (seqZ i (Z.of_nat k)) runs 0 d (Z.min (4096 * i) (len d)) s =
    Some (Z.min (4096 * (i + Z.of_nat k)) (len d), s') /\ same_memory s s'.
Proof.
  induction k as [|k IH]; intros i s Hi.
  { rewrite seqZ_nil by lia. exists s. rewrite Z.add_0_r. done. }
  rewrite seqZ_cons by lia. replace (Z.pred (Z.of_nat (S k))) with (Z.of_nat k) by lia. cbn [write_runs].
  destruct (Z.leb_spec (len d) (Z.min (4096 * i) (len d))).
  { exists s. split; [|done]. unfold mret, fsm_ret. do 2 f_equal. lia. }
  rewrite bind_ld. change (0 / FS_CLUSTER_SIZE) with 0. change (0 mod FS_CLUSTER_SIZE) with 0.
  replace (if i =? 0 then 0 else 0) with 0 by (by destruct (i =? 0)). unfold FS_CLUSTER_SIZE. rewrite Z.sub_0_r.
  set (w := Z.min 4096 (len d - Z.min (4096 * i) (len d))).
  set (cl := rd _ _ dr_start_cluster).
  assert (Hold : exists old s1, (if (0 <? 0) || (w <? 4096) then
      '(bs, _) ← read_cluster cl; mret (filled bs stack) else mret stack) s = Some (old, s1) /\ same_memory s s1).
  { cbn [orb]. change (0 <? 0) with false. cbn [orb]. destruct (w <? 4096); [|by do 2 eexists].
    destruct (read_cluster_runs cl s) as ([bs r] & s1 & E1 & M1). rewrite (bind_run _ _ _ _ _ E1). by do 2 eexists. }
  destruct Hold as (old & s1 & E1 & M1). rewrite (bind_run _ _ _ _ _ E1).
  destruct (write_cluster_runs cl (patch old 0 (slice d (Z.min (4096 * i) (len d)) w)) s1) as (r & s2 & E2 & M2).
  rewrite (bind_run _ _ _ _ _ E2).
  destruct (IH (Z.succ i) s2) as (s3 & E3 & M3); [lia|]. exists s3.
  replace (Z.min (4096 * i) (len d) + w) with (Z.min (4096 * Z.succ i) (len d)) by (unfold w; lia).
  split; [rewrite E3; do 2 f_equal; lia|]. eapply same_memory_trans; [done|]. by eapply same_memory_trans.
Qed.

(** The memory after the large write. *)
Definition large_written m (e f t n : Z) : mem :=
  wr (e + 48) fn_modify_time t (wr (e + 48) fn_real_size n (wr f ff_size n (wr f ff_position n
    (wr (e + 377) nr_last_vcn (u64 (0 - 1)) (wr (e + 377) nr_initialized_size n (wr (e + 377) nr_real_size n
      (wr (e + 377) nr_allocated_size 0 (place_end e (e + 425) (wr (e + 361) at_length 64 (large_attr m e)))))))))).

Lemma large_written_fields m e f t n : f + 32 <= e \/ e + 4096 <= f -> 0 <= n < 2 ^ 63 -> entry_ok m e ->
  let m' := large_written m e f t n in
  entry_ok m' e /\ rd m' f ff_mft_number = rd m f ff_mft_number /\ rd m' f ff_position = n /\ rd m' f ff_size = n /\
  377 <= rd m' e mh_used_size /\ rd m' (e + 361) at_type = ATTR_DATA /\ rd m' (e + 361) at_non_resident = 1 /\
  rd m' (e + 377) nr_allocated_size = 0.
Proof.
  intros Hd Hn He. cbv zeta. unfold large_written. destruct (large_attr_fields m e) as (L1 & L2 & L3 & L4 & L5 & L6 & Lc).
  set (m1 := large_attr m e) in *. clearbody m1.
  assert (Hk : forall p g, e <= p + f_off g -> p + f_off g + f_size g <= e + 361 ->
    p + f_off g + f_size g <= e + 8 \/ e + 12 <= p + f_off g -> rd m1 p g = rd m p g).
  { intros p g H1 H2 H3. apply (rd_changes _ _ _ _ _ Lc). intros x Hx [Hx'|Hx']; unfold from, size_field in *; range. }
  assert (Hkf : rd m1 f ff_mft_number = rd m f ff_mft_number).
  { apply (rd_changes _ _ _ _ _ Lc). unfold ff_mft_number. intros x Hx [Hx'|Hx']; unfold from, size_field in *; range. }
  destruct He as (A1 & A2 & A3 & A4 & A5). unfold place_end, entry_ok, ff_position, ff_size, ff_mft_number in *. cbv zeta.
  replace (e + 425 + 8 - e) with 433 by lia. change (u32 433) with 433.
  repeat split; rd_simp; rewrite ?Hk by range; try done; try (apply Z.mod_small; cbn; lia).
Qed.

Lemma large_write_runs s m f e d : fmem s = large_attr m e -> entry_ok m e -> 0 < e -> f + 32 <= e \/ e + 4096 <= f ->
  rd m f ff_position = 0 -> 0 < len d < 2 ^ 32 ->
  exists t s', write_nonresident fuel stack f e (e + 361) d s = Some (len d, s') /\
    fmem s' = large_written m e f t (len d) /\ boot_sector s' = boot_sector s /\ mft_zone s' = mft_zone s /\ cluster_bitmap s' = cluster_bitmap s.
Proof.
  intros Hm He Hpos Hdis Hp Hd. destruct (large_attr_fields m e) as (L1 & L2 & L3 & L4 & L5 & L6 & Lc).
  assert (Hp' : rd (fmem s) f ff_position = 0).
  { rewrite Hm, <- Hp. apply (rd_changes _ _ _ _ _ Lc). unfold ff_position. intros x Hx [Hx'|Hx']; unfold from, size_field in *; range. }
  unfold write_nonresident. cbv zeta. unfold sizeof_attr_header. replace (e + 361 + 16) with (e + 377) by lia.
  rewrite !bind_ld, Hp'. rewrite bind_gets, !bind_ld. unfold nonresident_run_count. rewrite Hm, L3, L5, L6.
  change (if 64 <? sizeof_attr_header + sizeof_attr_nonresident then 0
          else if 64 <=? 64 then 0 else (64 - 64) / sizeof_data_run) with 0.
  change (0 <? 0) with false. cbn [andb]. rewrite bind_mret, Z.add_0_l, u64_id by (unfold is_u64, FS_CLUSTER_SIZE; lia).
  unfold FS_CLUSTER_SIZE. set (N := (len d + 4096 - 1) / 4096).
  assert (HN : 0 <= N /\ len d <= 4096 * N) by (unfold N; Z.to_euclidean_division_equations; lia). clearbody N.
  replace (Z.to_nat (Z.min N 0 - 0)) with 0%nat by lia. cbn [extend_runs]. rewrite bind_mret.
  destruct (write_runs_all (e + 361 + 64) d (Z.to_nat N) 0 s ltac:(lia)) as (s1 & E1 & M1 & M2 & M3 & M4).
  replace (Z.min (4096 * 0) (len d)) with 0 in E1 by lia. rewrite Z2Nat.id in E1 by lia.
  replace (Z.min (4096 * (0 + N)) (len d)) with (len d) in E1 by lia. rewrite (bind_run _ _ _ _ _ E1).
  assert (Hm1 : fmem s1 = large_attr m e) by (unfold fmem in *; congruence).
  rewrite bind_ld, Hm1, L5. change (u32 (0 * sizeof_data_run)) with 0. unfold st. rewrite bind_upd, bind_ld. rewrite Hm1.
  change (64 + 0) with 64. change (u64 (0 * 4096)) with 0. rewrite Z.add_0_l, u64_id by (unfold is_u64; lia).
  assert (Hl2 : forall x, rd (wr (e + 361) at_length 64 x) (e + 361) at_length = 64) by (intros x; rd_simp; done).
  change (fmem (set_mem (wr (e + 361) at_length 64 (large_attr m e)) s1)) with (wr (e + 361) at_length 64 (large_attr m e)).
  rewrite Hl2. replace (e + 361 + 64) with (e + 425) by lia. rewrite !bind_upd.
  set (m2 := wr f ff_size (len d) (wr f ff_position (len d)
    (wr (e + 377) nr_last_vcn (u64 (0 - 1)) (wr (e + 377) nr_initialized_size (len d) (wr (e + 377) nr_real_size (len d)
      (wr (e + 377) nr_allocated_size 0 (place_end e (e + 425) (wr (e + 361) at_length 64 (large_attr m e))))))))).
  match goal with |- context [(set_size_and_time fuel e _ ≫= _) ?x] => change x with (set_mem m2 s1) end.
  assert (He2 : entry_ok m2 e).
  { destruct (large_written_fields m e f 0 (len d) Hdis ltac:(lia) He) as ((W1 & W2 & W3 & W4 & W5) & _).
    unfold large_written in W1, W2, W3, W4, W5. fold m2 in W1, W2, W3, W4, W5.
    rewrite !fld_wr_ne in W1, W2, W3, W4, W5 by (done || range). done. }
  destruct (set_size_runs (set_mem m2 s1) e (len d) Hpos He2) as (t & s3 & E3 & Hh3 & P1 & P2 & P3).
  rewrite (bind_run _ _ _ _ _ E3), bind_ld.
  destruct (write_mft_runs s3 (rd (fmem s3) f ff_mft_number) e) as (r & s4 & E4 & [Q1 Q2 Q3 _ _ _] & Hh4).
  rewrite (bind_run _ _ _ _ _ E4). exists t, s4. split; [done|].
  assert (Hm4 : fmem s4 = large_written m e f t (len d)) by (unfold fmem; by rewrite Hh4, Hh3).
  split; [done|]. change (boot_sector (set_mem m2 s1)) with (boot_sector s1) in P1.
  change (mft_zone (set_mem m2 s1)) with (mft_zone s1) in P2. change (cluster_bitmap (set_mem m2 s1)) with (cluster_bitmap s1) in P3.
  split; [congruence|]. split; congruence.
Qed.

(** A read from the start of a non-resident attribute without clusters. *)
Lemma read_nothing s f i n e : 0 < e -> 0 < f -> f + 32 <= e \/ e + 4096 <= f -> mft_addr s i = e -> entry_ok (fmem s) e ->
  rd (fmem s) f ff_mft_number = i -> 0 <= rd (fmem s) f ff_size < 2 ^ 63 -> 377 <= rd (fmem s) e mh_used_size ->
  rd (fmem s) (e + 361) at_type = ATTR_DATA -> rd (fmem s) (e + 361) at_non_resident = 1 ->
  rd (fmem s) (e + 377) nr_allocated_size = 0 ->
  exists s2 s3, fs_seek f 0 0 s = Some (0, s2) /\ fs_read stack f n s2 = Some ([], s3).
Proof.
  intros Hpos Hf Hdis Ha He Hnum Hsz Hu Hty Hnr Hal. unfold fs_seek. destruct (Z.eqb_spec f 0); [lia|].
  rewrite !bind_ld. cbv zeta. cbn [Z.eqb]. change (i64 (0 + 0)) with 0. change (0 <? 0) with false. cbv iota.
  destruct (Z.ltb_spec (rd (fmem s) f ff_size) 0); [lia|]. change (u64 0) with 0.
  set (m' := wr f ff_position 0 (fmem s)). exists (set_mem m' s).
  assert (Hk : forall p g, e <= p + f_off g -> p + f_off g + f_size g <= e + 4096 -> rd m' p g = rd (fmem s) p g).
  { intros p g H1 H2. unfold m', ff_position. apply fld_wr_ne; [done|range]. }
  assert (Hnum' : rd m' f ff_mft_number = i) by (rewrite <- Hnum; unfold m', ff_position, ff_mft_number; apply fld_wr_ne; [done|range]).
  assert (Hpos' : rd m' f ff_position = 0) by (unfold m'; rewrite fld_wr_eq; done).
  assert (He' : entry_ok m' e).
  { destruct He as (A1 & A2 & A3 & A4 & A5). unfold entry_ok. rewrite !Hk by range. done. }
  unfold fs_read. destruct (Z.eqb_spec f 0); [lia|]. destruct (n =? 0) eqn:Hn0; cbn [orb]; [by eexists; split|].
  rewrite !bind_ld. change (fmem (set_mem m' s)) with m'. rewrite Hnum', Hpos', bind_entry_of.
  change (mft_addr (set_mem m' s) i) with (mft_addr s i). rewrite Ha.
  assert (E : attr_of e ATTR_DATA (set_mem m' s) = Some (e + 361, set_mem m' s)).
  { unfold attr_of. change (fmem (set_mem m' s)) with m'. by rewrite find_data_first by (done || rewrite !Hk by range; done). }
  rewrite (bind_run _ _ _ _ _ E). destruct (Z.eqb_spec (e + 361) 0); [lia|]. rewrite bind_ld.
  change (fmem (set_mem m' s)) with m'. rewrite Hk, Hnr by range. cbn [Z.eqb negb]. cbv zeta.
  unfold sizeof_attr_header. replace (e + 361 + 16) with (e + 377) by lia. rewrite !bind_ld, bind_gets.
  change (fmem (set_mem m' s)) with m'. rewrite (Hk (e + 377) nr_allocated_size), Hal by range.
  change (0 / FS_CLUSTER_SIZE) with 0. rewrite seqZ_nil by lia. cbn [read_runs]. rewrite bind_mret. by eexists.
Qed.

(** A first write to a file that is too large for its table entry reports that all its
    bytes were written, and a read of any length from the start then returns nothing: the
    run array of the new attribute has room for no run, so no cluster is ever allocated
    (and the bytes went to clusters named by whatever follows the attribute). *)
Theorem fs_first_large_write_lost s f i p mode d n : fs_ok s -> open_file s f i p [] mode ->
  rd (fmem s) (mft_zone s + i * 4096) mh_used_size = 369 -> 3703 < len d < 2 ^ 32 -> 0 < n ->
  exists s1 s2 s3, fs_write fuel stack f d s = Some (len d, s1) /\ fs_seek f 0 0 s1 = Some (0, s2) /\
    fs_read stack f n s2 = Some ([], s3).
Proof.
  intros Hok Hof Hus Hd0 Hn. unfold fs_write. pose proof (of_addr _ _ _ _ _ _ Hof) as Hf.
  destruct (Z.eqb_spec f 0); [lia|]. destruct (Z.eqb_spec (len d) 0); [lia|]. cbn [orb].
  rewrite bind_ld, (of_mode _ _ _ _ _ _ Hof).
  destruct (open_file_mode s f i p [] mode Hok Hof) as (s1 & E1 & S1 & Hof1 & Hus1). rewrite (bind_run _ _ _ _ _ E1).
  assert (Hq : write_position mode p [] = 0) by (pose proof (of_bounds _ _ _ _ _ _ Hof); unfold write_position; cbn [length] in *; if_all; lia).
  rewrite Hq in Hof1. rewrite Hus, <- (st_zone _ _ _ S1) in Hus1. pose proof (none_ok _ _ Hok S1) as Hok1.
  rewrite bind_ld, (of_number _ _ _ _ _ _ Hof1), bind_entry_of.
  pose proof (open_file_places _ _ _ _ _ _ Hok1 Hof1) as (Ha & Hpos & Hdis).
  pose proof (of_entry _ _ _ _ _ _ Hof1) as Hi. pose proof (ok_entries s1 Hok1 i Hi (of_used _ _ _ _ _ _ Hof1)) as He.
  rewrite Ha in *. set (e := mft_zone s1 + i * 4096) in *.
  assert (E2 : find_or_create_data e (len d) s1 = Some (e + 361, set_mem (large_attr (fmem s1) e) s1)).
  { unfold find_or_create_data. assert (E : attr_of e ATTR_DATA s1 = Some (0, s1)) by (unfold attr_of; by rewrite find_data_none).
    rewrite (bind_run _ _ _ _ _ E). apply create_data_attr_large; [done|lia]. }
  rewrite (bind_run _ _ _ _ _ E2). destruct (large_attr_fields (fmem s1) e) as (L1 & L2 & L3 & L4 & L5 & L6 & Lc).
  rewrite bind_ld. change (fmem (set_mem ?m s1)) with m. rewrite L4. cbn [Z.eqb negb].
  destruct (large_write_runs (set_mem (large_attr (fmem s1) e) s1) (fmem s1) f e d) as (t & s3 & E3 & Hm3 & P1 & P2 & P3);
    [done|done|done|done|apply (of_position _ _ _ _ _ _ Hof1)|lia|].
  rewrite E3. exists s3. change (mft_zone (set_mem _ s1)) with (mft_zone s1) in P2.
  destruct (large_written_fields (fmem s1) e f t (len d) Hdis ltac:(lia) He) as (W1 & W2 & W3 & W4 & W5 & W6 & W7 & W8).
  rewrite <- Hm3 in W1, W2, W3, W4, W5, W6, W7, W8. pose proof (of_number _ _ _ _ _ _ Hof1) as Hnum.
  destruct (read_nothing s3 f i n e) as (s4 & s5 & E4 & E5); try done; [|by rewrite W2|rewrite W4; lia|by exists s4, s5].
  rewrite <- Ha. unfold mft_addr. by rewrite P2.
Qed.

End data.

(** ** Clusters and the table *)

Section clusters.
Context {D : Type} `{PortIO D}.
Implicit Types (s : fs D).

Lemma u8_testbit x k : 0 <= k < 8 -> Z.testbit (u8 x) k = Z.testbit x k.
Proof. intros Hk. unfold u8. apply Z.mod_pow2_bits_low. lia. Qed.

(** The bitmap after the bit of [i] is set. *)
Lemma mark_used s i : fs_ok s -> 0 <= i < total_clusters s ->
  let s' := set_mem (<[cluster_bitmap s + i / 8 := u8 (bitmap_byte s i .| (1 .<< (i mod 8)))]> (fmem s)) s in
  step none s s' /\ cluster_used s' i = true /\ forall j, 0 <= j -> j <> i -> cluster_used s' j = cluster_used s j.
Proof.
  intros Hok Hi. cbv zeta. set (m' := <[_ := _]> (fmem s)).
  assert (Hb : forall j, bitmap_byte (set_mem m' s) j =
    if j / 8 =? i / 8 then u8 (bitmap_byte s i .| (1 .<< (i mod 8))) else bitmap_byte s j).
  { intros j. unfold bitmap_byte at 1. change (fmem (set_mem m' s)) with m'. change (cluster_bitmap (set_mem m' s)) with (cluster_bitmap s).
    unfold m', byte_at. destruct (Z.eqb_spec (j / 8) (i / 8)) as [->|Hne].
    - by rewrite lookup_insert_eq.
    - rewrite lookup_insert_ne by lia. done. }
  assert (Hm : forall x, 0 <= x mod 8 < 8) by (intros x; by apply Z.mod_pos_bound).
  split; [|split].
  - apply step_outside; [done|]. intros x Hx. unfold m', byte_at. rewrite lookup_insert_ne; [done|].
    intros <-. apply Hx, bitmap_outside; [done|]. unfold bitmap_bytes. Z.to_euclidean_division_equations. lia.
  - unfold cluster_used. rewrite has_flag_bit, Hb, Z.eqb_refl by apply Hm.
    rewrite u8_testbit, Z.lor_spec, testbit_single, Z.eqb_refl by apply Hm. apply orb_true_r.
  - intros j Hj Hne. unfold cluster_used. rewrite !has_flag_bit, Hb by apply Hm.
    destruct (Z.eqb_spec (j / 8) (i / 8)) as [He|]; [|done].
    rewrite u8_testbit, Z.lor_spec, testbit_single by apply Hm. unfold bitmap_byte. rewrite He.
    destruct (Z.eqb_spec (j mod 8) (i mod 8)); [|apply orb_false_r].
    pose proof (Z.div_mod j 8). pose proof (Z.div_mod i 8). lia.
Qed.

Lemma alloc_cluster_runs s i : fs_ok s -> 0 <= i < total_clusters s ->
  (forall j, 0 <= j < i -> cluster_used s j = true) -> cluster_used s i = false ->
  exists s', alloc_cluster s = Some (i, s') /\ step none s s' /\ cluster_used s' i = true /\
    forall j, 0 <= j -> j <> i -> cluster_used s' j = cluster_used s j.
Proof.
  intros Hok Hi Hlow Hfree. unfold alloc_cluster.
  destruct (find_first (fun k => negb (cluster_used s k)) (seqZ 0 (total_clusters s))) as [k|] eqn:E.
  - assert (k = i) as ->.
    { destruct (find_first_seqZ_least _ _ _ _ E) as (Hk & Hf & Hleast).
      destruct (Z.lt_trichotomy k i) as [Hlt|[Heq|Hgt]]; [|done|].
      - rewrite (Hlow k) in Hf by lia. done.
      - specialize (Hleast i ltac:(lia)). by rewrite Hfree in Hleast. }
    eexists. split; [done|]. by apply mark_used.
  - exfalso. rewrite find_first_None in E. specialize (E i). rewrite Hfree in E. discriminate E. apply elem_of_seqZ. lia.
Qed.

(** The clusters that hold the table are not reserved: when the clusters before the one
    of entry [n] are taken and that one is not, the next cluster handed out for file data
    is the home of entry [n] itself, so the data and the entry are written to the same
    sectors. *)
Theorem alloc_cluster_hands_out_table s n : fs_ok s -> 0 <= n < mft_size s ->
  0 <= mft_cluster s n < total_clusters s ->
  (forall j, 0 <= j < mft_cluster s n -> cluster_used s j = true) -> cluster_used s (mft_cluster s n) = false ->
  exists s', alloc_cluster s = Some (mft_cluster s n, s') /\
    forall p, let bytes := load_bytes (fmem s') p MFT_ENTRY_SIZE in
      write_cluster (mft_cluster s n) bytes s' = write_mft_entry n p s'.
Proof.
  intros Hok Hn Hc Hlow Hfree. destruct (alloc_cluster_runs s _ Hok Hc Hlow Hfree) as (s' & E & Hst & _).
  exists s'. split; [done|]. intros p. cbv zeta. unfold write_mft_entry. rewrite !bind_gets. f_equal.
  unfold mft_cluster. by rewrite (step_boot_field _ _ _ bs_mft_start Hok Hst).
Qed.
End clusters.

(** ** A file on a formatted volume *)

Module Examples.
Import FsSpec.Examples.

(** The state after creating /a for writing, and its handle. *)
Definition one_file : fs unit := after (fs_format 5 1048576;; fs_open 5 (zs "/a") 1).
Abbreviation handle := 590464.

Lemma one_file_ok : fs_ok one_file.
Proof. apply fs_okb_sound. by vm_compute. Qed.
Lemma one_file_open : open_file one_file handle 16 0 [] 1.
Proof.
  split.
  - vm_compute. split; [discriminate|reflexivity].
  - by vm_compute.
  - done.
  - right. vm_compute. discriminate.
  - right. vm_compute. discriminate.
  - by vm_compute.
  - by vm_compute.
  - by vm_compute.
  - by vm_compute.
  - done.
  - left. split; [by vm_compute|done].
  - by vm_compute.
Qed.

(** Three bytes written, the last two read. *)
Lemma fs_write_seek_read_witness :
  exists s1 s2 s3, fs_write 5 [] handle [65; 66; 67] one_file = Some (3, s1) /\ fs_seek handle 1 0 s1 = Some (0, s2) /\
    fs_read [] handle 10 s2 = Some ([66; 67], s3).
Proof.
  destruct (fs_write_seek_read 5 [] quiet_clock one_file handle 16 0 [] [65; 66; 67] 1 1 10 one_file_ok one_file_open)
    as (s1 & s2 & s3 & E1 & E2 & E3 & _); [done|by vm_compute|done|by vm_compute|]. exists s1, s2, s3.
  split; [exact E1|]. split; [exact E2|exact E3].
Defined.

Lemma fs_first_large_write_lost_witness :
  exists s1 s2 s3, fs_write 5 [] handle (replicate (Z.to_nat 5000) 7) one_file = Some (5000, s1) /\
    fs_seek handle 0 0 s1 = Some (0, s2) /\ fs_read [] handle 5000 s2 = Some ([], s3).
Proof.
  assert (Hl : len (replicate (Z.to_nat 5000) 7) = 5000) by (rewrite length_replicate; lia).
  destruct (fs_first_large_write_lost 5 [] quiet_clock one_file handle 16 0 1 (replicate (Z.to_nat 5000) 7) 5000 one_file_ok one_file_open)
    as (s1 & s2 & s3 & E1 & E2 & E3); [by vm_compute|lia|done|]. rewrite Hl in E1. exists s1, s2, s3.
  split; [exact E1|]. split; [exact E2|exact E3].
Defined.

(** Thirteen clusters taken on a fresh volume: the next is the root directory's. *)
Definition thirteen : fs unit := after (fs_format 5 1048576;; for_each (seqZ 0 13) (fun _ => alloc_cluster;; mret ())).
Lemma thirteen_ok : fs_ok thirteen.
Proof. apply fs_okb_sound. by vm_compute. Qed.
Lemma alloc_cluster_hands_out_table_witness :
  mft_cluster thirteen MFT_ROOT = 13 /\ exists s', alloc_cluster thirteen = Some (13, s').
Proof.
  assert (E : mft_cluster thirteen MFT_ROOT = 13) by by vm_compute. split; [exact E|].
  destruct (alloc_cluster_hands_out_table thirteen MFT_ROOT thirteen_ok) as (s' & E' & _).
  - vm_compute. split; [discriminate|reflexivity].
  - vm_compute. split; [discriminate|reflexivity].
  - rewrite E. intros j Hj. assert (Hin : j ∈ seqZ 0 13) by (apply elem_of_seqZ; lia).
    change (seqZ 0 13) with [0; 1; 2; 3; 4; 5; 6; 7; 8; 9; 10; 11; 12] in Hin.
    repeat (apply elem_of_cons in Hin as [->|Hin]; [by vm_compute|]). exfalso. by apply elem_of_nil in Hin.
  - by vm_compute.
  - rewrite E in E'. exists s'. exact E'.
Defined.

(** What a program returns on a blank disk. *)
Definition result {A} (c : FsM unit A) : option A := match c blank with Some (x, _) => Some x | None => None end.

(** Deleting the second of three files hides the third from the listing: the
    entry before the removed one is marked last. *)
Lemma unlink_hides_next :
  result (fs_format 5 1048576;; fs_open 20 (zs "/a") 1;; fs_open 20 (zs "/b") 1;; fs_open 20 (zs "/c") 1;;
          fs_unlink (zs "/b");;
          found ← find_file (zs "/c"); lines ← gets (fs_readdir (zs "/")); mret (found, lines)) =
  Some (18, Some (Some [(zs "a", 0, 0)])).
Proof. by vm_compute. Qed.

(** Removing the root directory of an empty volume succeeds, and no path
    resolves any more. *)
Lemma rmdir_root_destroys :
  result (fs_format 5 1048576;; r ← fs_rmdir (zs "/"); fs_open 20 (zs "/a") 1;; i ← find_file (zs "/a"); mret (r, i)) =
  Some (0, NOT_FOUND).
Proof. by vm_compute. Qed.

(** A name without a leading slash loses its first character. *)
Lemma open_relative_drops_character :
  result (fs_format 5 1048576;; fs_open 20 (zs "notes") 1;; a ← find_file (zs "/notes"); b ← find_file (zs "/otes"); mret (a, b)) =
  Some (NOT_FOUND, 16).
Proof. by vm_compute. Qed.

(** The same directory can be made twice, and a file can be made under a file. *)
Lemma mkdir_twice :
  result (fs_format 5 1048576;; a ← fs_mkdir 20 (zs "/d"); b ← fs_mkdir 20 (zs "/d"); mret (a, b)) = Some (0, 0).
Proof. by vm_compute. Qed.
Lemma file_under_file :
  result (fs_format 5 1048576;; fs_open 20 (zs "/f") 1;; fs_open 20 (zs "/f/g") 1;; find_file (zs "/f/g")) = Some 17.
Proof. by vm_compute. Qed.
End Examples.
