(* ===== verification/FsOpen.v ===== *)
(** * Opening and closing files, listing directories (src/src/fs/fs.c: fs_open, fs_close, fs_readdir)

    A handle is a block of the kernel heap; the allocator's guarantees keep
    it apart from the table of the filesystem, which lives in the same heap. *)

From S2P Require Import Prelude KHeap Bytes Disk Part Clock Mft Fs FsTree FsSpec FsData.

Section opening.
Context {D : Type} `{PortIO D} (fuel : nat) (stack : list Z).
Context (clock : forall ready (d : D), is_Some (get_time fuel ready d)).
Implicit Types (s : fs D) (bs : list kheap_block).

(** Entry [i] holds the bytes [c] and records their number. *)
Record file_holds s (i : Z) (c : list Z) : Prop := {
  fh_entry : 0 <= i < mft_size s;
  fh_used : in_use s i = true;
  fh_bytes : holds (fmem s) (mft_zone s + i * 4096) c;
  fh_real : rd (fmem s) (mft_zone s + i * 4096 + 48) fn_real_size = len c
}.
(** The heap is well formed and owns the table and the boot sector. *)
Record fs_heap s bs (e : Z) : Prop := {
  hp_wf : heap_wf (fheap s) bs e;
  hp_zone : exists z, mft_size s * 4096 <= z /\ (mft_zone s, z) ∈ allocs (heap_first (fheap s)) bs;
  hp_boot : exists b, 512 <= b /\ (boot_sector s, b) ∈ allocs (heap_first (fheap s)) bs
}.
(** There is room for a handle. *)
Record room_for_handle s bs : Prop := {
  rh_roomy : roomy (align16 sizeof_file) bs;
  rh_free : Exists (fun b => free_block b = true /\ align16 sizeof_file <= kb_size b) bs;
  rh_fuel : (S (length bs) < fuel)%nat
}.

Lemma heap_wf_payload m h bs e : heap_wf h bs e -> heap_wf (set_payload m h) bs e.
Proof. by intros []. Qed.
Lemma open_file_holds s f i p c mode : open_file s f i p c mode -> file_holds s i c.
Proof. by intros []. Qed.
Lemma step_fs_heap hard s s' bs e : fs_ok s -> step hard s s' -> fs_heap s bs e -> fs_heap s' bs e.
Proof.
  intros Hok Hst [Hwf (z & Hz & Hzin) (b & Hb & Hbin)]. pose proof (step_mft_size _ _ _ Hok Hst) as Hn.
  assert (Hf : heap_first (fheap s') = heap_first (fheap s)) by (rewrite (st_heap _ _ _ Hst); by destruct (fheap s)).
  split.
  - rewrite (st_heap _ _ _ Hst). by apply heap_wf_payload.
  - exists z. rewrite Hn, Hf, (st_zone _ _ _ Hst). done.
  - exists b. rewrite Hf, (st_boot _ _ _ Hst). done.
Qed.

(** The stores into a fresh handle. *)
Definition handle_stores (f i mode size : Z) (m : mem) : mem :=
  wr f ff_position 0 (wr f ff_size size (wr f ff_mode (u8 mode) (wr f ff_position 0 (wr f ff_mft_number i m)))).

(** A handle from the allocator: apart from the table and the boot sector,
    which stay allocated. *)
Record fresh_handle s bs e (f got : Z) (h : kheap) (bs' : list kheap_block) : Prop := {
  fr_pos : 0 < f;
  fr_mem : fmem (set_heap h s) = fmem s;
  fr_wf : heap_wf h bs' e;
  fr_first : heap_first h = heap_first (fheap s);
  fr_allocs : allocs (heap_first (fheap s)) bs' ≡ₚ (f, got) :: allocs (heap_first (fheap s)) bs;
  fr_length : (length bs' <= S (length bs))%nat;
  fr_zone : apart (f, sizeof_file) (mft_zone s, mft_size s * 4096);
  fr_boot : apart (f, sizeof_file) (boot_sector s, 512)
}.
Lemma malloc_handle s bs e : fs_heap s bs e -> room_for_handle s bs ->
  exists f got h bs', malloc fuel sizeof_file s = Some (f, set_heap h s) /\ fresh_handle s bs e f got h bs'.
Proof.
  intros [Hwf (z & Hz & Hzin) (b & Hb & Hbin)] [Hroomy Hfree Hfuel].
  destruct (kmalloc_spec (fheap s) bs e sizeof_file fuel Hwf) as (f & h & Ek & Hk); [unfold sizeof_file; lia..|done|lia|].
  destruct Hk as [(-> & _ & Hno)|(got & bs' & Hwf' & Hfst & Hpay & Hlen & Hgot & Hlow & _ & Hperm & Hap)].
  { exfalso. apply Exists_exists in Hfree as (x & Hx & Hxf & Hxs). pose proof (proj1 (Forall_forall _ _) Hno x Hx Hxf). lia. }
  exists f, got, h, bs'. split; [unfold malloc; by rewrite Ek|].
  pose proof (proj1 (Forall_forall _ _) Hap _ Hzin) as Hzap. pose proof (proj1 (Forall_forall _ _) Hap _ Hbin) as Hbap.
  pose proof (hw_first _ _ _ Hwf). split; try done; unfold apart, sizeof_file, sizeof_block in *; cbn [fst snd] in *; lia.
Qed.

(** The stores change the handle only. *)
Lemma handle_changes f i mode size (m : mem) : changes (fun x => f <= x < f + 32) m (handle_stores f i mode size m).
Proof. unfold handle_stores, ff_mft_number, ff_position, ff_mode, ff_size. repeat changes_step; range. Qed.
(** With the handle filled in, the file is open. *)
Lemma handle_opened s bs e f got h bs' i c mode : fs_ok s -> file_holds s i c -> fs_heap s bs e -> fresh_handle s bs e f got h bs' -> is_u8 mode ->
  let s' := set_mem (handle_stores f i mode (len c) (fmem s)) (set_heap h s) in
  fs_ok s' /\ tree s' = tree s /\ open_file s' f i 0 c mode /\ fs_heap s' bs' e.
Proof.
  intros Hok [Hi Hu Hbytes Hreal] [Hwf (z & Hz & Hzin) (b & Hb & Hbin)] [Hf0 Hm0 Hwf' Hfst Hperm Hlen Hapz Hapb] Hmode s'.
  assert (Hm : fmem s' = handle_stores f i mode (len c) (fmem s)) by done. pose proof (handle_changes f i mode (len c) (fmem s)) as Hc. rewrite <- Hm in Hc.
  set (en := mft_zone s + i * 4096) in *. pose proof (ok_zone s Hok) as Hzone.
  assert (Hdis : f + 32 <= en \/ en + 4096 <= f) by (unfold apart, sizeof_file, en in *; cbn [fst snd] in *; lia).
  set (sm := set_mem (fmem s') s).
  assert (Hst : step none s sm).
  { apply step_outside; [done|]. eapply changes_weaken; [exact Hc|]. intros x Hx. unfold outside, apart, sizeof_file in *. cbn [fst snd] in *. lia. }
  assert (Hns : mft_size s' = mft_size s) by exact (step_mft_size _ _ _ Hok Hst).
  assert (Hfst' : heap_first (fheap s') = heap_first (fheap s)) by exact Hfst.
  split; [pose proof (none_ok _ _ Hok Hst) as [K1 K2 K3 K4 K5 K6 K7 K8]; by split|].
  split; [change (tree s') with (tree sm); by apply step_tree_same|]. split.
  - pose proof (holds_length _ _ _ Hbytes) as Hl. unfold is_u8 in Hmode.
    split; rewrite ?Hns; try done; rewrite ?Hm; unfold handle_stores, ff_mft_number, ff_position, ff_mode, ff_size.
    + change (in_use s' i) with (in_use sm i). unfold in_use. by rewrite (step_in_use none s) by (done || by intros []).
    + rd_simp. apply Z.mod_small. pose proof (ok_size s Hok). cbn. lia.
    + rd_simp. done.
    + rd_simp. apply Z.mod_small. cbn. lia.
    + rd_simp. rewrite u8_id by done. apply Z.mod_small. cbn. lia.
    + lia.
    + change (holds (fmem s') en c). unfold holds in *. rewrite !(rd_changes _ _ (fmem s') _ _ Hc) by (intros x Hx; range).
      rewrite (load_bytes_changes _ _ (fmem s') _ _ Hc) by (intros x Hx; lia). done.
    + change (rd (fmem s') (en + 48) fn_real_size = len c). rewrite (rd_changes _ _ (fmem s') _ _ Hc); [done|intros x Hx; range].
  - split; [by destruct Hwf'| |].
    + exists z. rewrite Hns, Hfst'. split; [done|]. rewrite Hperm. by right.
    + exists b. rewrite Hfst'. split; [done|]. rewrite Hperm. by right.
Qed.

Lemma fs_open_opens s path i c mode bs e : fs_ok s -> t_find (tree s) path = Some i -> file_holds s i c ->
  fs_heap s bs e -> room_for_handle s bs -> is_u8 mode ->
  (mode <> 0 -> forall nd, arr_get None (tree s) i = Some nd -> nd_ro nd = false) ->
  exists f s' bs' got, fs_open fuel path mode s = Some (f, s') /\ fs_ok s' /\ tree s' = tree s /\ open_file s' f i 0 c mode /\
    fs_heap s' bs' e /\ (f, got) ∈ allocs (heap_first (fheap s')) bs' /\ (length bs' < fuel)%nat.
Proof.
  intros Hok Hfind Hholds Hheap Hroom Hmode Hro. unfold fs_open. rewrite bind_find, Hfind by done. cbn [default]. unfold id.
  rewrite (found_index _ _ _ Hok Hfind). cbn [andb]. rewrite bind_mret, (found_index _ _ _ Hok Hfind), bind_entry_of, bind_ld.
  destruct (found_node _ _ _ Hok Hfind) as (_ & nd & Hn & Ht). destruct (node_parent_field _ _ _ Hn) as (_ & _ & _ & ->).
  assert (Hop : negb (mode =? 0) && nd_ro nd = false) by (destruct (Z.eqb_spec mode 0); [done|by rewrite (Hro ltac:(done) nd Ht)]). rewrite Hop.
  destruct (malloc_handle s bs e Hheap Hroom) as (f & got & h & bs' & Em & Hfr). rewrite (bind_run _ _ _ _ _ Em).
  pose proof (handle_opened s bs e f got h bs' i c mode Hok Hholds Hheap Hfr Hmode) as (Hok2 & Ht2 & Hof2 & Hheap2).
  destruct Hfr as [Hf0 Hm0 _ Hfst Hperm Hlen Hapz _]. destruct Hholds as [Hi Hu _ Hreal].
  destruct (Z.eqb_spec f 0); [lia|]. unfold st. rewrite !bind_upd, bind_entry_of.
  match goal with |- context [(payload_of (mft_addr ?x i) _ ≫= _) ?y] => set (s1 := y); change x with s1 end.
  set (m1 := wr f ff_mode (u8 mode) (wr f ff_position 0 (wr f ff_mft_number i (fmem s)))).
  assert (Hm1 : fmem s1 = m1) by (unfold s1, m1; cbn; by rewrite Hm0).
  set (en := mft_zone s + i * 4096) in *. pose proof (ok_zone s Hok) as Hzone.
  assert (Ha1 : mft_addr s1 i = en) by (change (mft_addr s1 i) with (mft_addr s i); by apply mft_addr_ok).
  assert (Hdis : f + 32 <= en \/ en + 4096 <= f) by (unfold apart, sizeof_file, en in *; cbn [fst snd] in *; lia).
  assert (Hc1 : changes (fun x => f <= x < f + 32) (fmem s) m1) by (unfold m1, ff_mft_number, ff_position, ff_mode; repeat changes_step; range).
  pose proof (ok_entries s Hok i Hi Hu) as He. rewrite mft_addr_ok in He by done. fold en in He.
  assert (He1 : entry_ok m1 en).
  { destruct He as (A1 & A2 & A3 & A4 & A5). unfold entry_ok. rewrite !(rd_changes _ _ m1 _ _ Hc1) by (intros x Hx; range). done. }
  assert (Ep : payload_of (mft_addr s1 i) ATTR_FILENAME s1 = Some (en + 48, s1)).
  { unfold payload_of. rewrite Ha1, Hm1, find_filename_payload by (done || lia). done. }
  rewrite (bind_run _ _ _ _ _ Ep). destruct (Z.eqb_spec (en + 48) 0); [lia|]. cbn [negb].
  match goal with |- context [(?a ≫= ?k) s1] => assert (Ew : a s1 = Some ((), set_mem (wr f ff_size (len c) m1) s1)) end.
  { rewrite bind_ld, Hm1, (rd_changes _ _ m1 _ _ Hc1), Hreal by (intros x Hx; range). unfold upd, putm. by rewrite Hm1. }
  rewrite (bind_run _ _ _ _ _ Ew), bind_upd. eexists f, _, bs', got. split; [reflexivity|]. split; [exact Hok2|]. split; [exact Ht2|]. split; [exact Hof2|]. split; [exact Hheap2|].
  split; [|destruct Hroom; lia]. change (heap_first (fheap _)) with (heap_first h). rewrite Hfst, Hperm. by left.
Qed.

Lemma fs_close_closes s f got i c bs e : fs_ok s -> fs_heap s bs e -> (f, got) ∈ allocs (heap_first (fheap s)) bs -> (length bs <= fuel)%nat ->
  file_holds s i c -> 0 < f ->
  exists s', fs_close fuel f s = Some (0, s') /\ fs_ok s' /\ tree s' = tree s /\ file_holds s' i c.
Proof.
  intros Hok [Hwf _ _] Hin Hfuel [F1 F2 F3 F4] Hf. unfold fs_close. destruct (Z.eqb_spec f 0); [lia|]. cbn [negb].
  destruct (kfree_spec (fheap s) bs e f got fuel Hwf Hin Hfuel) as (h & bs' & Ek & Hwf' & Hfst & _ & _ & _ & Hpay & _).
  assert (Em : free fuel f s = Some ((), set_heap h s)) by (unfold free; by rewrite Ek). rewrite (bind_run _ _ _ _ _ Em).
  set (s2 := set_heap h s). exists s2. split; [done|].
  assert (Hm : fmem s2 = fmem s) by exact Hpay.
  assert (Hn : forall k, mft_addr s2 k = mft_addr s k) by done.
  assert (Hsz : mft_size s2 = mft_size s) by (unfold mft_size; by rewrite Hm).
  assert (Huse : forall k, in_use s2 k = in_use s k) by (intros k; unfold in_use; by rewrite Hm).
  assert (Htree : tree s2 = tree s) by (unfold tree; rewrite Hsz; apply list_fmap_ext; intros ? k _; unfold node_at; by rewrite Huse, Hm).
  split; [|split; [done|]].
  - destruct Hok as [K1 K2 K3 K4 K5 K6 K7 K8].
    split; unfold bitmap_bytes, total_clusters, root_ok, is_dir_entry in *; rewrite ?Hsz, ?Huse, ?Hm; try done.
    intros k Hk Hku. rewrite ?Huse in Hku. rewrite ?Hm. by apply K8.
  - split; rewrite ?Hsz, ?Huse, ?Hm; done.
Qed.
End opening.

(** ** Listing always returns *)

Section listing.
Context {D : Type} `{PortIO D}.
Implicit Types (s : fs D).
Lemma find_payload_returns m e ty : is_Some (find_attr_payload m e ty).
Proof. unfold find_attr_payload. destruct (find_attr_slot m e ty) as (r & -> & _). cbn [mbind option_bind]. by destruct (r =? 0). Qed.
Lemma list_children_returns l dir s : is_Some (list_children l dir s).
Proof.
  induction l as [|i l [rest IH]]; [done|]. cbn [list_children]. rewrite IH.
  destruct (in_use s i); cbn [negb mbind option_bind]; [|done]. destruct (find_payload_returns (fmem s) (mft_addr s i) ATTR_FILENAME) as [fn ->].
  cbn [mbind option_bind]. destruct (fn =? 0); [done|]. by destruct (_ =? dir).
Qed.
Lemma index_line_returns ptr s : is_Some (index_line ptr s).
Proof.
  unfold index_line. cbv zeta. destruct (_ && in_use s _); [|done].
  match goal with |- context [find_attr_payload ?m ?e ?t] => destruct (find_payload_returns m e t) as [ffn ->] end. done.
Qed.
(** The 14 turns that [INDEX_TURNS] allows are enough for the 329-byte entries of a slot. *)
Lemma list_index_returns n : forall ptr end_ s, (0 < n)%nat -> end_ - ptr < sizeof_index_entry * Z.of_nat n -> is_Some (list_index n ptr end_ s).
Proof.
  unfold sizeof_index_entry in *. induction n as [|n IH]; intros ptr end_ s Hpos Hn; [lia|]. cbn [list_index]. unfold sizeof_index_entry.
  destruct (Z.leb_spec (ptr + 329) end_); [|done]. destruct (Z.ltb_spec (rd (fmem s) ptr ie_length) 329); [done|].
  destruct (index_line_returns ptr s) as [here ->]. cbn [mbind option_bind]. destruct (has_flag _ 1); [done|].
  destruct (IH (ptr + rd (fmem s) ptr ie_length) end_ s) as [rest ->]; [lia|lia|done].
Qed.
Lemma fs_readdir_returns path s : fs_ok s -> is_Some (fs_readdir path s).
Proof.
  intros Hok. unfold fs_readdir. rewrite find_file_tree by done. cbn [mbind option_bind]. set (dir := default _ _). destruct (dir =? NOT_FOUND); [done|].
  destruct (find_attr_slot (fmem s) (mft_addr s dir) ATTR_INDEX_ROOT) as (r & -> & Hr). cbn [mbind option_bind].
  destruct (Z.eqb_spec r 0) as [|Hnz]; [by destruct (list_children_returns (user_entries s) dir s) as [l ->]|].
  destruct Hr as [|(H1 & H2 & H3 & _)]; [done|].
  match goal with |- context [list_index ?n ?a ?b s] => destruct (list_index_returns n a b s) as [l ->]; [unfold INDEX_TURNS; lia| |done] end.
  unfold INDEX_TURNS, sizeof_index_entry, sizeof_attr_header, sizeof_index_root, sizeof_mft_header, MFT_ENTRY_SIZE in *. lia.
Qed.

(** ** The root and the read-only flag *)

Lemma t_walk_not_root (t : ftree) comps : forall cur, comps <> [] -> t_walk t cur comps <> Some MFT_ROOT.
Proof.
  induction comps as [|c cs IH]; intros cur Hne; [done|]. cbn [t_walk]. intros Hw. apply bind_Some in Hw as (j & Hj & Hw).
  destruct cs as [|c' cs]; [|by apply (IH j) in Hw]. cbn in Hw. injection Hw as ->. unfold t_child in Hj. apply find_first_Some in Hj as [Hj _].
  apply elem_of_seqZ in Hj. unfold MFT_FIRST_USER, MFT_ROOT in *. lia.
Qed.
Lemma t_find_root (t t' : ftree) path : t_find t path = Some MFT_ROOT -> t_find t' path = Some MFT_ROOT.
Proof.
  unfold t_find. destruct path as [|c ptr]; [done|]. destruct (c =? ch "/"); [|done]. destruct (split_path (length ptr) ptr) as [|x cs]; [done|].
  intros Hw. by apply t_walk_not_root in Hw.
Qed.
(** What [fs_is_readonly] and [fs_is_directory] return. *)
Definition tree_flag (get : node -> bool) (t : ftree) (path : cstring) : Z :=
  match t_find t path ≫= arr_get None t with Some nd => Z.b2z (get nd) | None => -1 end.
Definition ro_flag : ftree -> cstring -> Z := tree_flag nd_ro.
Lemma test_flag_tree mask get path s : fs_ok s ->
  (forall i nd, node_at s i = Some nd -> has_flag (rd (fmem s) (mft_addr s i) mh_flags) mask = get nd) ->
  test_flag mask path s = Some (tree_flag get (tree s) path, s).
Proof.
  intros Hok Hget. unfold test_flag, tree_flag. destruct (len path =? 0) eqn:El; [by rewrite (t_find_empty _ _ El)|].
  rewrite bind_find by done. destruct (t_find (tree s) path) as [i|] eqn:Ef; cbn [default]; unfold id; [|done].
  rewrite (found_index _ _ _ Hok Ef), bind_entry_of, bind_ld. destruct (found_node _ _ _ Hok Ef) as (_ & nd & Hn & Ht).
  rewrite (Hget _ _ Hn). cbn [mbind option_bind]. rewrite Ht. by destruct (get nd).
Qed.
Lemma is_readonly_flag path s : fs_ok s -> fs_is_readonly path s = Some (ro_flag (tree s) path, s).
Proof. intros Hok. apply test_flag_tree; [done|]. intros i nd Hn. apply (node_parent_field _ _ _ Hn). Qed.
Lemma is_directory_flag path s : fs_ok s -> fs_is_directory path s = Some (tree_flag nd_dir (tree s) path, s).
Proof. intros Hok. apply test_flag_tree; [done|]. intros i nd Hn. apply (node_parent_field _ _ _ Hn). Qed.
End listing.
