(* ===== verification/FsVfs.v ===== *)
(** * Adapter from the descriptor layer to the disk filesystem
    (src/src/fs/fs_vfs.c)

    Eight slots map the internal descriptors of the mount table to file
    handles. *)

From S2P Require Import Prelude KHeap Bytes Ramfs Vfs Disk Part Clock Mft Fs FsTree FsSpec FsData.

Definition FS_VFS_OPEN_MAX : Z := 8.
Definition VFS_O_RDWR : Z := 2.
Definition VFS_O_TRUNC : Z := 8.

Record fs_vfs (D : Type) : Type := FsVfs {
  vf_fs : fs D;
  fs_vfs_handles : list Z;
  fs_vfs_handle_used : list bool
}.
Arguments FsVfs {D} _ _ _.
Arguments vf_fs {D} _.
Arguments fs_vfs_handles {D} _.
Arguments fs_vfs_handle_used {D} _.

Section adapter.
Context {D : Type} `{PortIO D} (fuel : nat) (stack : list Z).
Implicit Types (v : fs_vfs D).

Definition on_fs {A} (c : FsM D A) v : option (A * fs_vfs D) :=
  '(x, s) ← c (vf_fs v); Some (x, FsVfs s (fs_vfs_handles v) (fs_vfs_handle_used v)).
Definition slot_used v (i : Z) : bool := arr_get false (fs_vfs_handle_used v) i.
Definition slot_handle v (i : Z) : Z := arr_get 0 (fs_vfs_handles v) i.
Definition bad_slot v (fd : Z) : bool := (fd <? 0) || (FS_VFS_OPEN_MAX <=? fd) || negb (slot_used v fd).

Definition fs_vfs_open (path : cstring) (flags : Z) v : option (Z * fs_vfs D) :=
  let access := flags .& 3 in
  let mode := if (access =? VFS_O_WRONLY) || (access =? VFS_O_RDWR) || has_flag flags VFS_O_CREAT then 1 else 0 in
  '(f, v) ← on_fs (fs_open fuel path mode) v;
  if f =? 0 then Some (-1, v) else
  '(_, v) ← on_fs (if has_flag flags VFS_O_TRUNC then fs_truncate fuel f 0;; fs_seek f 0 0 else mret 0) v;
  match find_first (fun i => negb (slot_used v i)) (seqZ 0 FS_VFS_OPEN_MAX) with
  | Some i => Some (i, FsVfs (vf_fs v) (arr_set (fs_vfs_handles v) i f) (arr_set (fs_vfs_handle_used v) i true))
  | None => '(_, v) ← on_fs (fs_close fuel f) v; Some (-1, v)
  end.

Definition fs_vfs_close (fd : Z) v : option (Z * fs_vfs D) :=
  if bad_slot v fd then Some (-1, v) else
  '(_, v) ← on_fs (fs_close fuel (slot_handle v fd)) v;
  Some (0, FsVfs (vf_fs v) (fs_vfs_handles v) (arr_set (fs_vfs_handle_used v) fd false)).

(** The bytes stored in the caller's buffer and the result. *)
Definition fs_vfs_read (fd size offset : Z) v : option (list Z * Z * fs_vfs D) :=
  if bad_slot v fd then Some ([], -1, v) else
  let f := slot_handle v fd in
  '(r, v) ← on_fs (fs_seek f (i64 offset) 0) v;
  if r <? 0 then Some ([], -1, v) else
  '(bytes, v) ← on_fs (fs_read stack f size) v;
  Some (bytes, i32 (len bytes), v).

Definition fs_vfs_write (fd : Z) (data : list Z) v : option (Z * fs_vfs D) :=
  if bad_slot v fd then Some (-1, v) else
  '(r, v) ← on_fs (fs_write fuel stack (slot_handle v fd) data) v;
  Some (i32 r, v).

Definition fs_vfs_size (fd : Z) v : Z :=
  if bad_slot v fd then 0 else i32 (rd (fmem (vf_fs v)) (slot_handle v fd) ff_size).

Definition fs_vfs_mkdir (path : cstring) v : option (Z * fs_vfs D) := on_fs (fs_mkdir fuel path) v.
Definition fs_vfs_unlink (path : cstring) v : option (Z * fs_vfs D) := on_fs (fs_unlink path) v.
Definition fs_vfs_list v : option (option (list (cstring * Z * Z))) := fs_readdir [ch "/"] (vf_fs v).

(** ** Reading and writing through a slot *)

Context (clock : forall ready (d : D), is_Some (get_time fuel ready d)).

(** Slot [fd] is open on entry [i] with the bytes [c]. *)
Definition slot_open v (fd i p : Z) (c : list Z) (mode : Z) : Prop :=
  bad_slot v fd = false /\ fs_ok (vf_fs v) /\ open_file (vf_fs v) (slot_handle v fd) i p c mode.

Lemma on_fs_run {A} (c : FsM D A) v x s : c (vf_fs v) = Some (x, s) ->
  on_fs c v = Some (x, FsVfs s (fs_vfs_handles v) (fs_vfs_handle_used v)).
Proof. intros Hc. unfold on_fs. by rewrite Hc. Qed.

Lemma fs_vfs_write_spec v fd i p c mode d : slot_open v fd i p c mode -> 0 < len d ->
  write_position mode p c + len d <= 3703 ->
  exists v', fs_vfs_write fd d v = Some (len d, v') /\
    slot_open v' fd i (write_position mode p c + len d) (take (Z.to_nat (write_position mode p c)) c ++ d) mode.
Proof.
  intros (Hb & Hok & Hof) Hd Hn. unfold fs_vfs_write. rewrite Hb.
  destruct (fs_write_runs fuel stack clock (vf_fs v) _ i p c d mode Hok Hof Hd Hn) as (s & E & Hok' & _ & Hof').
  rewrite (on_fs_run _ _ _ _ E). cbn [mbind option_bind]. pose proof (of_bounds _ _ _ _ _ _ Hof).
  rewrite i32_id by (unfold write_position in Hn; if_all; lia). eexists. split; [done|]. by split.
Qed.

Lemma fs_vfs_read_spec v fd i p c mode o n : slot_open v fd i p c mode -> 0 <= o <= len c -> 0 < n < 2 ^ 63 ->
  exists v', fs_vfs_read fd n o v =
    Some (take (Z.to_nat n) (drop (Z.to_nat o) c), len (take (Z.to_nat n) (drop (Z.to_nat o) c)), v') /\
    slot_open v' fd i (Z.min (o + n) (len c)) c mode.
Proof.
  intros (Hb & Hok & Hof) Ho Hn. unfold fs_vfs_read. rewrite Hb. pose proof (holds_length _ _ _ (of_holds _ _ _ _ _ _ Hof)).
  rewrite i64_id by lia.
  destruct (fs_seek_runs (vf_fs v) _ i p c mode o Hok Hof Ho) as (s1 & E1 & Hok1 & _ & Hof1).
  rewrite (on_fs_run _ _ _ _ E1). cbn [mbind option_bind Z.ltb Z.compare].
  destruct (fs_read_runs stack s1 _ i o c mode n Hok1 Hof1 Hn) as (s2 & E2 & Hok2 & _ & Hof2).
  erewrite on_fs_run by exact E2. cbn [mbind option_bind].
  rewrite i32_id by (rewrite length_take, length_drop; lia). eexists. split; [done|]. by split.
Qed.
End adapter.
