(* ===== verification/Text.v ===== *)
(** * Bounded text output (the helpers of src/src/fs/vfile.c)

    The generators of virtual files print into a caller's buffer of [max]
    bytes with [append_str], [append_dec], [append_hex] and single stores.  The
    buffer is a memory addressed from its first byte; offsets from [max] on
    are the bytes after the buffer.  A generator is the list of its print
    calls ([piece]); [run] performs them. *)

From S2P Require Import Prelude KHeap Bytes.

(** ** Numbers *)

(** [while (n > 0) { tmp[len++] = '0' + n % 10; n /= 10; }]: least digit first. *)
Fixpoint digits_rev (fuel : nat) (n : Z) : list Z :=
  match fuel with
  | O => []
  | S k => if 0 <? n then ch "0" + n mod 10 :: digits_rev k (n / 10) else []
  end.

(** [tmp] has 21 bytes; a 64-bit number has at most 20 digits. *)
Definition DEC_TURNS : nat := 20.
Definition put_dec (n : Z) : list Z := if n =? 0 then [ch "0"] else rev (digits_rev DEC_TURNS n).

Definition hex_digit (nibble : Z) : Z := if nibble <? 10 then ch "0" + nibble else ch "a" + nibble - 10.
Definition nibble_at (n i : Z) : Z := (n .>> i) .& 15.
Definition hex_shifts : list Z := [28; 24; 20; 16; 12; 8; 4; 0].
Definition hex8 (n : Z) : list Z := (fun i => hex_digit (nibble_at n i)) <$> hex_shifts.

(** ** Appending: [base] is the position of the buffer handed to the helper *)

Definition append_str (b : gmap Z Z) (base max : Z) (src : cstring) : gmap Z Z * Z :=
  let n := Z.min (len src) (u64 (max - 1)) in
  (store_bytes base (take (Z.to_nat n) src) b, n).

(** Returns the number of digits, whether or not they fitted. *)
Definition append_dec (b : gmap Z Z) (base max n : Z) : gmap Z Z * Z :=
  let tmp := put_dec n in
  let k := Z.min (len tmp) (u64 (max - 1)) in
  (store_bytes base (take (Z.to_nat k) tmp) b, len tmp).

Definition hex_step (base max n : Z) (acc : gmap Z Z * Z) (i : Z) : gmap Z Z * Z :=
  let '(b, pos) := acc in
  if pos <? i32 max then (<[base + pos := hex_digit (nibble_at n i)]> b, pos + 1) else (b, pos).
Definition append_hex (b : gmap Z Z) (base max n : Z) : gmap Z Z * Z :=
  foldl (hex_step base max n) (<[base + 1 := ch "x"]> (<[base := ch "0"]> b), 2) hex_shifts.

(** ** Generators *)

Inductive piece : Type :=
  | Str (s : cstring)      (* pos += append_str(buf + pos, max - pos, s) *)
  | Dec (n : Z)            (* pos += append_dec(buf + pos, max - pos, n) *)
  | Hex (n : Z)            (* pos += append_hex(buf + pos, max - pos, n) *)
  | Chr (c : Z)            (* buf[pos++] = c *)
  | Pad (c k : Z).         (* k times: if (pos < max - 1) buf[pos++] = c *)

Definition pad_step (max c : Z) (acc : gmap Z Z * Z) (_ : Z) : gmap Z Z * Z :=
  let '(b, pos) := acc in if pos <? u64 (max - 1) then (<[pos := c]> b, pos + 1) else (b, pos).

Definition run_piece (max : Z) (acc : gmap Z Z * Z) (p : piece) : gmap Z Z * Z :=
  let '(b, pos) := acc in
  let left := u64 (max - pos) in
  match p with
  | Str s => let '(b, k) := append_str b pos left s in (b, pos + k)
  | Dec n => let '(b, k) := append_dec b pos left n in (b, pos + k)
  | Hex n => let '(b, k) := append_hex b pos left n in (b, pos + k)
  | Chr c => (<[pos := c]> b, pos + 1)
  | Pad c k => foldl (pad_step max c) (b, pos) (seqZ 0 k)
  end.
Definition run (max : Z) (l : list piece) (b : gmap Z Z) : gmap Z Z * Z := foldl (run_piece max) (b, 0) l.

(** ** The text a generator means to print *)

Definition piece_text (p : piece) : list Z :=
  match p with
  | Str s => s
  | Dec n => put_dec n
  | Hex n => zs "0x" ++ hex8 n
  | Chr c => [c]
  | Pad c k => replicate (Z.to_nat k) c
  end.
Fixpoint text (l : list piece) : list Z :=
  match l with [] => [] | p :: l' => piece_text p ++ text l' end.

Section text.
Implicit Types (b : gmap Z Z) (l : list piece).

Lemma text_app l1 l2 : text (l1 ++ l2) = text l1 ++ text l2.
Proof. induction l1 as [|p l1 IH]; cbn [text app]; [done|by rewrite IH, app_assoc]. Qed.

Lemma store_bytes_app xs ys : forall p b, store_bytes p (xs ++ ys) b = store_bytes (p + len xs) ys (store_bytes p xs b).
Proof.
  induction xs as [|x xs IH]; intros p b; cbn [store_bytes app length]; [by rewrite Z.add_0_r|].
  rewrite IH. f_equal. lia.
Qed.

Lemma append_str_fits b base max s : len s < max -> max < 2 ^ 63 -> append_str b base max s = (store_bytes base s b, len s).
Proof.
  intros H1 H2. unfold append_str. rewrite u64_id by (unfold is_u64; lia). rewrite Z.min_l, Nat2Z.id, firstn_all by lia. done.
Qed.

Lemma append_dec_fits b base max n : len (put_dec n) < max -> max < 2 ^ 63 ->
  append_dec b base max n = (store_bytes base (put_dec n) b, len (put_dec n)).
Proof.
  intros H1 H2. unfold append_dec. rewrite u64_id by (unfold is_u64; lia). rewrite Z.min_l, Nat2Z.id, firstn_all by lia. done.
Qed.

Lemma append_hex_fits b base max n : 10 <= max < 2 ^ 31 ->
  append_hex b base max n = (store_bytes base (zs "0x" ++ hex8 n) b, 10).
Proof.
  intros Hm. unfold append_hex, hex_shifts, hex8, hex_step. rewrite !i32_id by lia. cbn [foldl].
  repeat (rewrite (proj2 (Z.ltb_lt _ max)) by lia). f_equal.
  cbn [fmap list_fmap hex_shifts zs app store_bytes]. unfold ch. cbn [zs hd]. by rewrite <- !Z.add_assoc.
Qed.

Lemma pad_fits max c k b pos : 0 <= pos -> pos + Z.max k 0 < max -> max < 2 ^ 63 ->
  foldl (pad_step max c) (b, pos) (seqZ 0 k) = (store_bytes pos (replicate (Z.to_nat k) c) b, pos + Z.max k 0).
Proof.
  intros Hp Hk Hm. unfold seqZ. generalize 0%nat at 1 as i.
  assert (Hn : Z.max k 0 = Z.of_nat (Z.to_nat k)) by lia. rewrite Hn in *. clear Hn.
  generalize dependent pos. revert b. induction (Z.to_nat k) as [|n IH]; intros b pos Hp Hk i.
  - cbn. by rewrite Z.add_0_r.
  - cbn [seq fmap list_fmap foldl pad_step replicate store_bytes].
    rewrite u64_id by (unfold is_u64; lia). rewrite (proj2 (Z.ltb_lt pos (max - 1))) by lia.
    rewrite IH by lia. f_equal. lia.
Qed.

Lemma run_piece_text max p b pos : 0 <= pos -> pos + len (piece_text p) < max -> max < 2 ^ 31 ->
  run_piece max (b, pos) p = (store_bytes pos (piece_text p) b, pos + len (piece_text p)).
Proof.
  intros Hp Hl Hm. unfold run_piece. rewrite u64_id by (unfold is_u64; lia). destruct p as [s|n|n|c|c k]; cbn [piece_text] in *.
  - by rewrite append_str_fits by lia.
  - by rewrite append_dec_fits by lia.
  - change (len (zs "0x" ++ hex8 n)) with 10 in *. by rewrite append_hex_fits by lia.
  - done.
  - rewrite length_replicate in *. rewrite pad_fits by lia. f_equal. lia.
Qed.

Lemma run_from_text max l : forall b pos, 0 <= pos -> pos + len (text l) < max -> max < 2 ^ 31 ->
  foldl (run_piece max) (b, pos) l = (store_bytes pos (text l) b, pos + len (text l)).
Proof.
  induction l as [|p l IH]; intros b pos Hp Hl Hm; cbn [foldl text] in *; [cbn; by rewrite Z.add_0_r|].
  rewrite length_app in Hl. rewrite run_piece_text by lia. rewrite IH by lia.
  rewrite store_bytes_app, length_app. f_equal. lia.
Qed.

(** A text that leaves room for one byte is printed in full, and nothing else
    is written. *)
Lemma run_text max l b : len (text l) < max -> max < 2 ^ 31 -> run max l b = (store_bytes 0 (text l) b, len (text l)).
Proof. intros Hl Hm. unfold run. by rewrite run_from_text. Qed.

(** ** Decimal numbers *)

(** The value a decimal text denotes. *)
Definition dec_value (ds : list Z) : Z := foldl (fun v d => 10 * v + (d - ch "0")) 0 ds.

Lemma foldl_rev {A B} (f : A -> B -> A) a (xs : list B) : foldl f a (rev xs) = foldr (fun x acc => f acc x) a xs.
Proof. induction xs as [|x xs IH]; cbn [rev foldr]; [done|]. by rewrite foldl_app, IH. Qed.

Lemma digits_rev_value fuel : forall n, 0 <= n < 10 ^ Z.of_nat fuel ->
  foldr (fun d v => 10 * v + (d - ch "0")) 0 (digits_rev fuel n) = n.
Proof.
  induction fuel as [|k IH]; intros n Hn; cbn [digits_rev]; [cbn in *; lia|].
  destruct (Z.ltb_spec 0 n) as [Hp|Hp]; cbn [foldr]; [|lia].
  rewrite IH; [pose proof (Z.div_mod n 10); lia|].
  rewrite Nat2Z.inj_succ, Z.pow_succ_r in Hn by lia.
  split; [apply Z.div_pos; lia|apply Z.div_lt_upper_bound; lia].
Qed.

Lemma digits_rev_range fuel : forall n, Forall (fun d => ch "0" <= d <= ch "9") (digits_rev fuel n).
Proof.
  induction fuel as [|k IH]; intros n; cbn [digits_rev]; [constructor|]. destruct (0 <? n); [|constructor].
  constructor; [|apply IH]. pose proof (Z.mod_pos_bound n 10 ltac:(lia)). change (ch "9") with (ch "0" + 9). lia.
Qed.

Lemma length_digits_rev fuel : forall n, (length (digits_rev fuel n) <= fuel)%nat.
Proof. induction fuel as [|k IH]; intros n; cbn [digits_rev length]; [lia|]. destruct (0 <? n); cbn [length]; [|lia]. specialize (IH (n / 10)). lia. Qed.

Lemma length_put_dec n : 0 <= len (put_dec n) <= 20.
Proof.
  unfold put_dec. destruct (n =? 0); [cbn; lia|]. rewrite length_rev. pose proof (length_digits_rev DEC_TURNS n).
  unfold DEC_TURNS in *. lia.
Qed.

Lemma length_digits_rev_lt fuel : forall n k, n < 10 ^ Z.of_nat k -> (length (digits_rev fuel n) <= k)%nat.
Proof.
  induction fuel as [|f IH]; intros n k Hn; cbn [digits_rev length]; [lia|]. destruct (Z.ltb_spec 0 n); cbn [length]; [|lia].
  destruct k as [|k]; [cbn in Hn; lia|]. rewrite Nat2Z.inj_succ, Z.pow_succ_r in Hn by lia.
  specialize (IH (n / 10) k ltac:(apply Z.div_lt_upper_bound; lia)). lia.
Qed.
Lemma length_put_dec_lt n k : (0 < k)%nat -> n < 10 ^ Z.of_nat k -> len (put_dec n) <= Z.of_nat k.
Proof.
  intros Hk Hn. unfold put_dec. destruct (n =? 0); [cbn; lia|]. rewrite length_rev.
  pose proof (length_digits_rev_lt DEC_TURNS n k Hn). lia.
Qed.

(** Printing a 64-bit number and reading the digits gives the number back. *)
Lemma put_dec_value n : is_u64 n -> dec_value (put_dec n) = n /\ Forall (fun d => ch "0" <= d <= ch "9") (put_dec n).
Proof.
  intros Hn. unfold put_dec, dec_value. destruct (Z.eqb_spec n 0) as [->|Hz].
  - split; [done|]. constructor; [|constructor]. vm_compute. split; discriminate.
  - split.
    + rewrite foldl_rev. apply digits_rev_value.
      unfold is_u64, DEC_TURNS in *. change (10 ^ Z.of_nat 20) with 100000000000000000000. lia.
    + apply Forall_rev, digits_rev_range.
Qed.

(** ** Lengths of texts *)

Lemma text_flat_map_bound {A} (f : A -> list piece) c (xs : list A) :
  (forall x, x ∈ xs -> len (text (f x)) <= c) -> len (text (concat (f <$> xs))) <= c * len xs.
Proof.
  induction xs as [|x xs IH]; intros Hf; [cbn; lia|].
  change (concat (f <$> x :: xs)) with (f x ++ concat (f <$> xs)). rewrite text_app, length_app.
  pose proof (Hf x ltac:(left)). assert (len (text (concat (f <$> xs))) <= c * len xs) by (apply IH; intros y Hy; apply Hf; by right).
  cbn [length]. lia.
Qed.
End text.

(** Bounds the length of a text whose pieces are written out. *)
Ltac text_length :=
  repeat (rewrite ?text_app; cbn [text piece_text]); rewrite ?length_app;
  repeat match goal with |- context [put_dec ?n] => pose proof (length_put_dec n); generalize dependent (put_dec n); intros end;
  repeat match goal with |- context [length (zs ?s)] => let n := eval vm_compute in (length (zs s)) in change (length (zs s)) with n end;
  cbn [length]; rewrite ?length_replicate; try lia.
