(* ===== verification/Pci.v ===== *)
(** * PCI configuration space (src/src/drivers/pci.c)

    Configuration space is reached through the 32-bit ports 0xCF8 and 0xCFC.
    [ConfigModel] is a bus whose address port latches and whose data port
    reads and writes the addressed dword. *)

From S2P Require Import Prelude.

Class PortIO32 (D : Type) : Type := {
  inl : Z -> D -> Z * D;
  outl : Z -> Z -> D -> D
}.

Definition PCI_CONFIG_ADDRESS : Z := 3320.   (* 0xCF8 *)
Definition PCI_CONFIG_DATA : Z := 3324.      (* 0xCFC *)
Definition PCI_VENDOR_ID : Z := 0.
Definition PCI_DEVICE_ID : Z := 2.
Definition PCI_PROG_IF : Z := 9.
Definition PCI_SUBCLASS : Z := 10.
Definition PCI_CLASS : Z := 11.
Definition PCI_HEADER_TYPE : Z := 14.
Definition PCI_BAR0 : Z := 16.

Definition pci_make_addr (bus device func offset : Z) : Z :=
  2 ^ 31 .| (bus .<< 16) .| (device .<< 11) .| (func .<< 8) .| (offset .& 252).

Section driver.
Context {D : Type} `{PortIO32 D}.
Implicit Types (d : D) (bus device func offset : Z).

Definition pci_read_dword bus device func offset d : Z * D :=
  inl PCI_CONFIG_DATA (outl PCI_CONFIG_ADDRESS (pci_make_addr bus device func offset) d).
Definition pci_read_word bus device func offset d : Z * D :=
  let '(dword, d) := pci_read_dword bus device func (offset .& 252) d in
  ((dword .>> ((offset .& 2) * 8)) .& 65535, d).
Definition pci_read_byte bus device func offset d : Z * D :=
  let '(dword, d) := pci_read_dword bus device func (offset .& 252) d in
  ((dword .>> ((offset .& 3) * 8)) .& 255, d).
Definition pci_write_dword bus device func offset (value : Z) d : D :=
  outl PCI_CONFIG_DATA value (outl PCI_CONFIG_ADDRESS (pci_make_addr bus device func offset) d).

Definition pci_device_exists bus device func d : bool * D :=
  let '(vendor, d) := pci_read_word bus device func PCI_VENDOR_ID d in (negb (vendor =? 65535), d).

(** The loop over the functions of one device: the function found. *)
Fixpoint find_func (cls sub prog bus device : Z) (funcs : list Z) d : option Z * D :=
  match funcs with
  | [] => (None, d)
  | func :: funcs' =>
      let '(present, d) := pci_device_exists bus device func d in
      if negb present then
        if func =? 0 then (None, d) else find_func cls sub prog bus device funcs' d
      else
        let '(c, d) := pci_read_byte bus device func PCI_CLASS d in
        let '(s, d) := pci_read_byte bus device func PCI_SUBCLASS d in
        let '(p, d) := pci_read_byte bus device func PCI_PROG_IF d in
        if (c =? cls) && (s =? sub) && (p =? prog) then (Some func, d)
        else if func =? 0 then
          let '(header_type, d) := pci_read_byte bus device 0 PCI_HEADER_TYPE d in
          if header_type .& 128 =? 0 then (None, d) else find_func cls sub prog bus device funcs' d
        else find_func cls sub prog bus device funcs' d
  end.

Definition FUNCS : list Z := seqZ 0 8.
Fixpoint find_dev (cls sub prog bus : Z) (devs : list Z) d : option (Z * Z) * D :=
  match devs with
  | [] => (None, d)
  | device :: devs' =>
      let '(r, d) := find_func cls sub prog bus device FUNCS d in
      match r with Some func => (Some (device, func), d) | None => find_dev cls sub prog bus devs' d end
  end.
Fixpoint find_bus (cls sub prog : Z) (buses : list Z) d : option (Z * Z * Z) * D :=
  match buses with
  | [] => (None, d)
  | bus :: buses' =>
      let '(r, d) := find_dev cls sub prog bus (seqZ 0 32) d in
      match r with Some (device, func) => (Some (bus, device, func), d) | None => find_bus cls sub prog buses' d end
  end.
(** [None] is the result -1. *)
Definition pci_find_device (cls sub prog : Z) d : option (Z * Z * Z) * D := find_bus cls sub prog (seqZ 0 256) d.

Definition pci_get_io_bar bus device func (bar_index : Z) d : Z * D :=
  let '(bar, d) := pci_read_dword bus device func (u8 (PCI_BAR0 + bar_index * 4)) d in
  (if bar .& 1 =? 0 then 0 else u16 (bar .& 65532), d).
End driver.

(** ** On a bus that decodes the two ports *)

Module ConfigModel.

(** The latched address and the dword at each configuration address. *)
Record pci_bus : Type := PciBus { latch : Z; config : Z -> Z }.

#[export] Instance bus_ports : PortIO32 pci_bus := {
  inl port b := ((if port =? PCI_CONFIG_DATA then config b (latch b) else 0), b);
  outl port v b :=
    if port =? PCI_CONFIG_ADDRESS then PciBus v (config b)
    else if port =? PCI_CONFIG_DATA then PciBus (latch b) (fun a => if a =? latch b then v else config b a)
    else b
}.

Section bus.
Implicit Types (b : pci_bus) (f : Z -> Z) (bus device func : Z).

(** Fields of a function's configuration space. *)
Definition dword f bus device func (off : Z) : Z := f (pci_make_addr bus device func off).
Definition field16 f bus device func (off : Z) : Z := (dword f bus device func (off .& 252) .>> ((off .& 2) * 8)) .& 65535.
Definition field8 f bus device func (off : Z) : Z := (dword f bus device func (off .& 252) .>> ((off .& 3) * 8)) .& 255.
Definition exists_at f bus device func : bool := negb (field16 f bus device func PCI_VENDOR_ID =? 65535).
Definition is_class f (cls sub prog : Z) bus device func : bool :=
  (field8 f bus device func PCI_CLASS =? cls) && (field8 f bus device func PCI_SUBCLASS =? sub) &&
  (field8 f bus device func PCI_PROG_IF =? prog).
(** A function other than 0 counts only on a device whose function 0 exists
    and says it has several functions. *)
Definition reachable_func f bus device func : bool :=
  exists_at f bus device func &&
  ((func =? 0) || (exists_at f bus device 0 && negb (field8 f bus device 0 PCI_HEADER_TYPE .& 128 =? 0))).
Definition candidate f (cls sub prog : Z) (x : Z * Z * Z) : bool :=
  let '(bus, device, func) := x in reachable_func f bus device func && is_class f cls sub prog bus device func.

Lemma read_dword_model bus device func off b :
  pci_read_dword bus device func off b = (dword (config b) bus device func off, PciBus (pci_make_addr bus device func off) (config b)).
Proof. done. Qed.

Lemma read_word_model bus device func off b : exists l,
  pci_read_word bus device func off b = (field16 (config b) bus device func off, PciBus l (config b)).
Proof. eexists. unfold pci_read_word. rewrite read_dword_model. done. Qed.
Lemma read_byte_model bus device func off b : exists l,
  pci_read_byte bus device func off b = (field8 (config b) bus device func off, PciBus l (config b)).
Proof. eexists. unfold pci_read_byte. rewrite read_dword_model. done. Qed.
Lemma exists_model bus device func b : exists l,
  pci_device_exists bus device func b = (exists_at (config b) bus device func, PciBus l (config b)).
Proof. unfold pci_device_exists. destruct (read_word_model bus device func PCI_VENDOR_ID b) as [l ->]. by exists l. Qed.

(** Later functions of a device that has several of them. *)
Lemma find_func_rest cls sub prog bus device : forall funcs b, Forall (fun x => 0 < x) funcs -> exists l,
  find_func cls sub prog bus device funcs b =
    (find_first (fun x => exists_at (config b) bus device x && is_class (config b) cls sub prog bus device x) funcs,
     PciBus l (config b)).
Proof.
  induction funcs as [|x funcs IH]; intros b Hx; cbn [find_func find_first]; [by exists (latch b); destruct b|].
  apply Forall_cons in Hx as [Hx Hxs]. destruct (exists_model bus device x b) as [l0 ->].
  rewrite (proj2 (Z.eqb_neq x 0)) by lia. destruct (exists_at (config b) bus device x); cbn [negb andb].
  2:{ destruct (IH (PciBus l0 (config b)) Hxs) as [l ->]. by exists l. }
  destruct (read_byte_model bus device x PCI_CLASS (PciBus l0 (config b))) as [l1 ->].
  destruct (read_byte_model bus device x PCI_SUBCLASS (PciBus l1 (config b))) as [l2 E2]. cbn [config] in *. rewrite E2.
  destruct (read_byte_model bus device x PCI_PROG_IF (PciBus l2 (config b))) as [l3 E3]. cbn [config] in *. rewrite E3.
  fold (is_class (config b) cls sub prog bus device x). destruct (is_class _ _ _ _ _ _ x); [by exists l3|].
  destruct (IH (PciBus l3 (config b)) Hxs) as [l ->]. by exists l.
Qed.

Lemma find_func_model cls sub prog bus device b : exists l,
  find_func cls sub prog bus device FUNCS b =
    (find_first (fun x => candidate (config b) cls sub prog (bus, device, x)) FUNCS, PciBus l (config b)).
Proof.
  change FUNCS with (0 :: seqZ 1 7). assert (Hpos : Forall (fun x => 0 < x) (seqZ 1 7)).
  { apply Forall_forall. intros x Hx. apply elem_of_seqZ in Hx. lia. }
  cbn [find_func]. destruct (exists_model bus device 0 b) as [l0 ->]. cbn [find_first]. unfold candidate, reachable_func.
  rewrite Z.eqb_refl, orb_true_l, andb_true_r. destruct (exists_at (config b) bus device 0) eqn:E0; cbn [negb andb].
  2:{ exists l0. f_equal. symmetry. apply find_first_None. intros x Hx. apply elem_of_seqZ in Hx.
      rewrite (proj2 (Z.eqb_neq x 0)) by lia. cbn [orb]. by rewrite andb_false_r. }
  destruct (read_byte_model bus device 0 PCI_CLASS (PciBus l0 (config b))) as [l1 ->].
  destruct (read_byte_model bus device 0 PCI_SUBCLASS (PciBus l1 (config b))) as [l2 E2]. cbn [config] in *. rewrite E2.
  destruct (read_byte_model bus device 0 PCI_PROG_IF (PciBus l2 (config b))) as [l3 E3]. cbn [config] in *. rewrite E3.
  fold (is_class (config b) cls sub prog bus device 0). destruct (is_class _ _ _ _ _ _ 0); [by exists l3|].
  destruct (read_byte_model bus device 0 PCI_HEADER_TYPE (PciBus l3 (config b))) as [l4 E4]. cbn [config] in *. rewrite E4.
  destruct (field8 (config b) bus device 0 PCI_HEADER_TYPE .& 128 =? 0) eqn:Eh; cbn [negb].
  - exists l4. f_equal. symmetry. apply find_first_None. intros x Hx. apply elem_of_seqZ in Hx.
    rewrite (proj2 (Z.eqb_neq x 0)) by lia. cbn [orb]. by rewrite andb_false_r.
  - destruct (find_func_rest cls sub prog bus device (seqZ 1 7) (PciBus l4 (config b)) Hpos) as [l ->]. exists l. f_equal.
    apply find_first_ext. intros x Hx. rewrite orb_true_r, andb_true_r. done.
Qed.

(** All addresses in the order of the search. *)
Definition all_funcs (buses devs : list Z) : list (Z * Z * Z) :=
  concat ((fun bus => concat ((fun device => (fun func => (bus, device, func)) <$> FUNCS) <$> devs)) <$> buses).

Lemma find_dev_model cls sub prog bus : forall devs b, exists l,
  find_dev cls sub prog bus devs b =
    ((fun x : Z * Z * Z => (x.1.2, x.2)) <$> find_first (candidate (config b) cls sub prog)
        (concat ((fun device => (fun func => (bus, device, func)) <$> FUNCS) <$> devs)), PciBus l (config b)).
Proof.
  induction devs as [|device devs IH]; intros b; [by exists (latch b); destruct b|]. cbn [find_dev].
  destruct (find_func_model cls sub prog bus device b) as [l0 ->].
  change (concat ((fun device => (fun func => (bus, device, func)) <$> FUNCS) <$> device :: devs)) with
    (((fun func => (bus, device, func)) <$> FUNCS) ++ concat ((fun device => (fun func => (bus, device, func)) <$> FUNCS) <$> devs)).
  rewrite find_first_app, find_first_fmap. destruct (find_first _ FUNCS) as [func|]; [by exists l0|].
  destruct (IH (PciBus l0 (config b))) as [l ->]. by exists l.
Qed.

Lemma find_bus_model cls sub prog : forall buses b, exists l,
  find_bus cls sub prog buses b =
    (find_first (candidate (config b) cls sub prog) (all_funcs buses (seqZ 0 32)), PciBus l (config b)).
Proof.
  unfold all_funcs. induction buses as [|bus buses IH]; intros b; [by exists (latch b); destruct b|]. cbn [find_bus].
  destruct (find_dev_model cls sub prog bus (seqZ 0 32) b) as [l0 ->].
  set (row := fun bus => concat ((fun device => (fun func => (bus, device, func)) <$> FUNCS) <$> seqZ 0 32)) in *.
  change (concat (row <$> bus :: buses)) with (row bus ++ concat (row <$> buses)). rewrite find_first_app.
  fold (row bus). destruct (find_first _ (row bus)) as [[[bus' device] func]|] eqn:E; cbn [fmap option_fmap option_map fst snd].
  - exists l0. do 3 f_equal. apply find_first_Some in E as [Hin _]. unfold row in Hin.
    apply list_elem_of_In, in_concat in Hin as (l & Hl & Hx). apply list_elem_of_In, list_elem_of_fmap in Hl as (y & -> & _).
    apply list_elem_of_In, list_elem_of_fmap in Hx as (z & ? & _). by simplify_eq.
  - destruct (IH (PciBus l0 (config b))) as [l ->]. by exists l.
Qed.

(** The [k]-th address of the search. *)
Definition nth_func (k : Z) : Z * Z * Z := (k / 256, k / 8 mod 32, k mod 8).

Lemma nth_func_split bus k : 0 <= k < 256 -> nth_func (256 * bus + k) = (bus, k / 8, k mod 8).
Proof.
  intros Hk. unfold nth_func. replace (256 * bus + k) with (bus * 256 + k) by lia.
  rewrite (Z.div_add_l bus 256), (Z.div_small k 256) by lia.
  replace (bus * 256 + k) with (bus * 32 * 8 + k) by lia. rewrite (Z.div_add_l (bus * 32) 8) by lia.
  rewrite (Z.add_comm (bus * 32)), Z_mod_plus_full, (Z.add_comm _ k), Z_mod_plus_full, (Z.mod_small (k / 8)).
  - f_equal. f_equal. lia.
  - split; [apply Z.div_pos; lia|apply Z.div_lt_upper_bound; lia].
Qed.

Lemma all_funcs_order n : 0 <= n -> all_funcs (seqZ 0 n) (seqZ 0 32) = nth_func <$> seqZ 0 (256 * n).
Proof.
  intros Hn. pattern n. apply natlike_ind; [done| |done]. clear n Hn. intros n Hn IH. unfold all_funcs in *.
  rewrite <- Z.add_1_r, seqZ_app, fmap_app, concat_app, IH by lia.
  replace (256 * (n + 1)) with (256 * n + 256) by lia. rewrite seqZ_app, fmap_app by lia. f_equal.
  replace (seqZ (0 + n) 1) with [n] by (unfold seqZ; cbn; f_equal; lia).
  transitivity ((fun k => (n, k / 8, k mod 8)) <$> seqZ 0 256); [vm_compute; reflexivity|].
  rewrite <- (Z.add_0_r (0 + 256 * n)), <- fmap_add_seqZ, <- list_fmap_compose. apply list_fmap_ext. intros i k Hk.
  apply list_elem_of_lookup_2, elem_of_seqZ in Hk. cbn [compose]. symmetry. rewrite Z.add_0_l. apply nth_func_split. lia.
Qed.

(** The search for a device returns the first function, in the order of
    bus, device and function number, that exists, is function 0 or belongs
    to a device whose function 0 says it has several functions, and has the
    class asked for; it reports failure exactly when there is none; and the
    configuration space is left as it was. *)
Theorem pci_find_device_first cls sub prog b : exists r l,
  pci_find_device cls sub prog b = (r, PciBus l (config b)) /\
  match r with
  | Some x => exists k, x = nth_func k /\ 0 <= k < 65536 /\ candidate (config b) cls sub prog x = true /\
                forall j, 0 <= j < k -> candidate (config b) cls sub prog (nth_func j) = false
  | None => forall bus device func, 0 <= bus < 256 -> 0 <= device < 32 -> 0 <= func < 8 ->
              candidate (config b) cls sub prog (bus, device, func) = false
  end.
Proof.
  destruct (find_bus_model cls sub prog (seqZ 0 256) b) as [l El]. eexists _, l. split; [exact El|].
  rewrite all_funcs_order, find_first_fmap by lia. change (256 * 256) with 65536. destruct (find_first _ (seqZ 0 65536)) as [k|] eqn:E; cbn [fmap option_fmap option_map].
  - apply find_first_seqZ_least in E as (Hk & Hc & Hlow). exists k. split; [done|]. split; [lia|]. split; [done|].
    intros j Hj. apply Hlow. lia.
  - intros bus device func Hb Hd Hf. rewrite find_first_None in E.
    specialize (E (bus * 256 + device * 8 + func)). cbv beta in E.
    assert (En : nth_func (bus * 256 + device * 8 + func) = (bus, device, func)).
    { replace (bus * 256 + device * 8 + func) with (256 * bus + (device * 8 + func)) by lia. rewrite nth_func_split by lia.
      rewrite (Z.div_add_l device 8), (Z.div_small func 8), (Z.add_comm _ func), Z_mod_plus_full, Z.mod_small by lia. f_equal. f_equal. lia. }
    rewrite En in E. apply E, elem_of_seqZ. lia.
Qed.
End bus.
End ConfigModel.
