(* ===== verification/Timer.v ===== *)
(** * Interval timer (src/src/arch/timer.c)

    [system_ticks] counts the interrupts of channel 0, one per millisecond.
    While a sleeping caller waits, interrupts arrive: the model takes the
    sequence of interrupts that end its [hlt]s, [true] for the timer's. *)

From S2P Require Import Prelude Disk.

Definition PIT_CHANNEL0 : Z := 64.
Definition PIT_COMMAND : Z := 67.
Definition PIT_FREQ : Z := 1193182.
Definition TARGET_FREQ : Z := 1000.

Definition timer_handler (ticks : Z) : Z := u64 (ticks + 1).

Definition timer_init {D} `{PortIO D} (d : D) : Z * D :=
  let divisor := PIT_FREQ / TARGET_FREQ in
  let d := outb PIT_COMMAND 54 d in
  let d := outb PIT_CHANNEL0 (divisor .& 255) d in
  let d := outb PIT_CHANNEL0 ((divisor .>> 8) .& 255) d in
  (0, d).

Definition timer_get_ticks (ticks : Z) : Z := ticks.
Definition timer_get_ms (ticks : Z) : Z := ticks.

(** [None]: still asleep when the interrupts run out. *)
Fixpoint sleep_until (target : Z) (irqs : list bool) (ticks : Z) : option Z :=
  if ticks <? target then
    match irqs with
    | [] => None
    | i :: irqs' => sleep_until target irqs' (if i then timer_handler ticks else ticks)
    end
  else Some ticks.
Definition timer_sleep (ms : Z) (irqs : list bool) (ticks : Z) : option Z := sleep_until (u64 (ticks + ms)) irqs ticks.
(** The busy variant spins on [pause] instead of [hlt]. *)
Definition timer_sleep_busy (ms : Z) (irqs : list bool) (ticks : Z) : option Z := sleep_until (u64 (ticks + ms)) irqs ticks.

(** Enough timer interrupts end the sleep exactly at its target. *)
Lemma sleep_until_ends target : forall irqs ticks, is_u64 ticks -> target < 2 ^ 64 -> ticks <= target ->
  target - ticks <= countb id irqs -> sleep_until target irqs ticks = Some target.
Proof.
  induction irqs as [|i irqs IH]; intros ticks Ht Htg Hle Hc; cbn [sleep_until countb] in *.
  - rewrite (proj2 (Z.ltb_ge ticks target)) by lia. f_equal. lia.
  - destruct (Z.ltb_spec ticks target); [|f_equal; lia]. unfold timer_handler, is_u64, id in *. destruct i; cbn [Z.b2z] in *.
    + rewrite u64_id by (unfold is_u64; lia). apply IH; lia.
    + apply IH; lia.
Qed.
Lemma timer_sleep_ends ms irqs ticks : is_u64 ticks -> 0 <= ms -> ticks + ms < 2 ^ 64 -> ms <= countb id irqs ->
  timer_sleep ms irqs ticks = Some (ticks + ms).
Proof.
  intros Ht Hm Hlt Hc. unfold timer_sleep. unfold is_u64 in Ht. rewrite u64_id by (unfold is_u64; lia). by apply sleep_until_ends; lia || done.
Qed.
