(* ===== verification/Vfile.v ===== *)
(** * Virtual files (src/src/fs/vfile.c)

    Files under /0 whose contents are printed when they are read.  The
    module's state is the registry of entries, the host name, the interrupt
    counters and the scratch buffer of the descriptor layer; what it reports
    on (ticks, physical memory, processes, heap, mounts, descriptors, ports)
    is the rest of the kernel's state.  Registered callbacks are the tags
    [read_fn], [write_fn] and [list_fn]. *)

From S2P Require Import Prelude Pmm KHeap Scheduler KString Disk Bytes Ramfs Vfs Clock Timer Pci Text Fds.

Definition VFILE_MAX_ENTRIES : Z := 48.
Definition VFILE_MAX_CONTENT : Z := 2048.
Definition VFILE_NUM_IRQS : Z := 16.
Definition HOSTNAME_SIZE : Z := 64.
Definition VFS_TYPE_DIR : Z := 2.

Inductive read_fn : Type :=
  | gen_processes_fn | gen_datetime_fn | gen_version_fn | gen_timer_fn | gen_stat_fn | gen_interrupts_fn | gen_mounts_fn
  | gen_heap_fn | gen_hostname_fn | gen_kernel_name_fn | gen_kernel_version_fn | gen_kernel_arch_fn | gen_uptime_fn
  | gen_self_pid_fn | gen_self_name_fn | gen_self_status_fn | gen_self_fdinfo_fn | gen_memory_fn | gen_meminfo_fn
  | gen_cpu_fn | gen_cpuid_fn | gen_platform_fn | gen_devices_fn | gen_null_fn | gen_zero_fn | gen_console_fn.
Inductive write_fn : Type := write_hostname_fn | write_null_fn | write_zero_fn | write_console_fn.
Inductive list_fn : Type :=
  | list_root_fn | list_ns_root_fn | list_system_fn | list_sys_kernel_fn | list_sys_runtime_fn | list_proc_self_fn
  | list_self_fd_fn | list_hardware_fn | list_hw_memory_fn | list_dev_fn.

Record vfile_entry : Type := VfileEntry {
  e_path : cstring; is_dir : bool; e_read : option read_fn; e_write : option write_fn; e_list : option list_fn
}.

#[export] Instance read_fn_eq_dec : EqDecision read_fn.
Proof. solve_decision. Defined.
#[export] Instance write_fn_eq_dec : EqDecision write_fn.
Proof. solve_decision. Defined.
#[export] Instance list_fn_eq_dec : EqDecision list_fn.
Proof. solve_decision. Defined.
#[export] Instance vfile_entry_eq_dec : EqDecision vfile_entry.
Proof. solve_decision. Defined.

(** The entries that [reg_file], [reg_file_rw] and [reg_dir] fill in. *)
Definition reg_file (path : string) (f : read_fn) : vfile_entry := VfileEntry (zs path) false (Some f) None None.
Definition reg_file_rw (path : string) (f : read_fn) (w : write_fn) : vfile_entry := VfileEntry (zs path) false (Some f) (Some w) None.
Definition reg_dir (path : string) (f : list_fn) : vfile_entry := VfileEntry (zs path) true None None (Some f).

(** The registrations of [vfile_init], in order. *)
Definition vfile_tree : list vfile_entry :=
  [reg_dir "/" list_root_fn; reg_dir "/0" list_ns_root_fn; reg_dir "/0/system" list_system_fn;
   reg_dir "/0/system/kernel" list_sys_kernel_fn; reg_dir "/0/system/runtime" list_sys_runtime_fn;
   reg_dir "/0/system/self" list_proc_self_fn; reg_dir "/0/system/self/fd" list_self_fd_fn;
   reg_dir "/0/hardware" list_hardware_fn; reg_dir "/0/hardware/memory" list_hw_memory_fn; reg_dir "/0/dev" list_dev_fn;
   reg_file "/0/system/processes" gen_processes_fn; reg_file "/0/system/time" gen_datetime_fn;
   reg_file "/0/system/version" gen_version_fn; reg_file "/0/system/timer" gen_timer_fn;
   reg_file "/0/system/stat" gen_stat_fn; reg_file "/0/system/interrupts" gen_interrupts_fn;
   reg_file "/0/system/mounts" gen_mounts_fn; reg_file "/0/system/heap" gen_heap_fn;
   reg_file_rw "/0/system/hostname" gen_hostname_fn write_hostname_fn;
   reg_file "/0/system/kernel/name" gen_kernel_name_fn; reg_file "/0/system/kernel/version" gen_kernel_version_fn;
   reg_file "/0/system/kernel/arch" gen_kernel_arch_fn; reg_file "/0/system/runtime/uptime" gen_uptime_fn;
   reg_file "/0/system/self/pid" gen_self_pid_fn; reg_file "/0/system/self/name" gen_self_name_fn;
   reg_file "/0/system/self/status" gen_self_status_fn; reg_file "/0/system/self/fdinfo" gen_self_fdinfo_fn;
   reg_file "/0/hardware/memory/ram" gen_memory_fn; reg_file "/0/hardware/memory/info" gen_meminfo_fn;
   reg_file "/0/hardware/cpu" gen_cpu_fn; reg_file "/0/hardware/cpu-id" gen_cpuid_fn;
   reg_file "/0/hardware/platform" gen_platform_fn; reg_file "/0/hardware/pci" gen_devices_fn;
   reg_file_rw "/0/dev/null" gen_null_fn write_null_fn; reg_file_rw "/0/dev/zero" gen_zero_fn write_zero_fn;
   reg_file_rw "/0/dev/console" gen_console_fn write_console_fn].

(** The filesystem behind a mount registered from outside. *)
Class MountedOps (M : Type) : Type := {
  mo_open : cstring -> Z -> M -> Z * M;
  mo_close : Z -> M -> Z * M;
  mo_read : Z -> Z -> Z -> M -> list Z * Z * M;
  mo_write : Z -> list Z -> M -> Z * M;
  mo_mkdir : cstring -> M -> Z * M;
  mo_unlink : cstring -> M -> Z * M;
  mo_list : M -> list (cstring * bool * Z);
  mo_size : Z -> M -> Z
}.

(** [entry_count] is the length of [entries]. *)
Record sysenv (D M : Type) : Type := SysEnv {
  entries : list vfile_entry;
  hostname_buf : list Z;
  irq_counts : list Z;
  vfile_scratch : gmap Z Z;
  system_ticks : Z;
  physmem : pmm;
  procs : sched;
  ports : D;
  mounted : M
}.
Arguments SysEnv {D M}.
Arguments entries {D M}.
Arguments hostname_buf {D M}.
Arguments irq_counts {D M}.
Arguments vfile_scratch {D M}.
Arguments system_ticks {D M}.
Arguments physmem {D M}.
Arguments procs {D M}.
Arguments ports {D M}.
Arguments mounted {D M}.

(** What a callback leaves in the caller's buffer: nothing and -1, the text
    of its print calls, [max - 1] zeros, or the bytes read through another
    descriptor with that read's result. *)
Inductive generated : Type :=
  | Failed
  | Printed (l : list piece)
  | Zeros
  | Through (out : list Z) (r : Z).

Definition deliver (max : Z) (b : gmap Z Z) (g : generated) : gmap Z Z * Z :=
  match g with
  | Failed => (b, -1)
  | Printed l => run max l b
  | Zeros => (store_bytes 0 (replicate (Z.to_nat (i32 max - 1)) 0) b, i32 max - 1)
  | Through out r => (store_bytes 0 out b, r)
  end.

Section generators.
Context {D M : Type} `{PortIO D} `{PortIO32 D}.
(** Turns of the loops that may not return, and the processor's CPUID leaves
    (eax, ebx, ecx, edx). *)
Context (fuel : nat) (cpuid : Z -> Z * Z * Z * Z).
Abbreviation kernel := (vfs (sysenv D M)).
Implicit Types (s : kernel) (e : sysenv D M).

Definition set_entries x e : sysenv D M :=
  SysEnv x (hostname_buf e) (irq_counts e) (vfile_scratch e) (system_ticks e) (physmem e) (procs e) (ports e) (mounted e).
Definition set_hostname x e : sysenv D M :=
  SysEnv (entries e) x (irq_counts e) (vfile_scratch e) (system_ticks e) (physmem e) (procs e) (ports e) (mounted e).
Definition set_irq_counts x e : sysenv D M :=
  SysEnv (entries e) (hostname_buf e) x (vfile_scratch e) (system_ticks e) (physmem e) (procs e) (ports e) (mounted e).
Definition set_scratch x e : sysenv D M :=
  SysEnv (entries e) (hostname_buf e) (irq_counts e) x (system_ticks e) (physmem e) (procs e) (ports e) (mounted e).
Definition set_ports x e : sysenv D M :=
  SysEnv (entries e) (hostname_buf e) (irq_counts e) (vfile_scratch e) (system_ticks e) (physmem e) (procs e) x (mounted e).
Definition set_mounted x e : sysenv D M :=
  SysEnv (entries e) (hostname_buf e) (irq_counts e) (vfile_scratch e) (system_ticks e) (physmem e) (procs e) (ports e) x.

Definition vfile_irq_tick (irq : Z) e : sysenv D M :=
  if (0 <=? irq) && (irq <? VFILE_NUM_IRQS)
  then set_irq_counts (arr_set (irq_counts e) irq (u64 (arr_get 0 (irq_counts e) irq + 1))) e
  else e.

(** ** Read callbacks *)

Definition Lit (x : string) : piece := Str (zs x).
Definition nl : piece := Chr 10.

Definition gen_uptime e : list piece :=
  let ticks := timer_get_ticks (system_ticks e) in
  let seconds := ticks / 1000 in
  let minutes := seconds / 60 in
  let hours := minutes / 60 in
  [Chr (ch "U"); Lit "ptime: "; Dec hours; Lit "h "; Dec (minutes mod 60); Lit "m "; Dec (seconds mod 60); Str (zs "s" ++ [10]);
   Chr (ch "T"); Lit "otal seconds: "; Dec seconds; Str [10]].

Definition gen_memory e : list piece :=
  let total := pmm_get_total (physmem e) in
  let free := pmm_get_free (physmem e) in
  let used := u64 (total - free) in
  [Lit "Total RAM: "; Dec (total / (1024 * 1024)); Str (zs " MB" ++ [10]);
   Lit "Free RAM:  "; Dec (free / (1024 * 1024)); Str (zs " MB" ++ [10]);
   Lit "Used RAM:  "; Dec (used / (1024 * 1024)); Str (zs " MB" ++ [10]);
   Lit "Free pages: "; Dec (pmm_get_free_pages (physmem e)); Str [10]].

(** The string in a buffer filled from 32-bit registers. *)
Definition reg_string (regs : list Z) : cstring := cstr (concat (le_bytes 4 <$> regs)).
Definition hex_chars (n : Z) : list piece := Chr <$> hex8 n.

Definition gen_cpu : list piece :=
  let '(_, ebx, ecx, edx) := cpuid 0 in
  let leaf n := let '(a, b, c, d) := cpuid n in [a; b; c; d] in
  let brand := leaf 2147483650 ++ leaf 2147483651 ++ leaf 2147483652 in
  let '(_, _, _, features) := cpuid 1 in
  [Lit "Vendor:     "; Str (reg_string [ebx; edx; ecx]); Str [10]; Lit "Brand:      "; Str (reg_string brand); Str [10];
   Lit "Features:   0x"] ++ hex_chars features ++ [nl].

Definition process_row (p : process) : list piece :=
  [Dec (p_pid p); Lit "  "; Str (p_name p); Pad 32 (14 - k_strlen (p_name p));
   Str (if bool_decide (p_state p = PROC_STATE_RUNNING) then zs "running" else zs "other"); Str [10]].
(** The processes of the table that are in use. *)
Definition used_procs (t : sched) : list process :=
  filter (fun p => p_state p <> PROC_STATE_UNUSED) (get t <$> seq 0 MAX_PROCESSES).
Definition gen_processes e : list piece :=
  [Str (zs "PID  Name            State" ++ [10]); Str (zs "---  --------------  -------" ++ [10])] ++
  concat (process_row <$> used_procs (procs e)).

Definition two_digits (n : Z) : list piece := (if n <? 10 then [Chr (ch "0")] else []) ++ [Dec n].
Definition datetime_pieces (t : rtc_time) : list piece :=
  [Lit "Date: "; Dec (t_century t); Dec (t_year t); Chr (ch "-")] ++ two_digits (t_month t) ++ [Chr (ch "-")] ++
  two_digits (t_day t) ++ [Str [10]; Lit "Time: "] ++ two_digits (t_hour t) ++ [Chr (ch ":")] ++
  two_digits (t_minute t) ++ [Chr (ch ":")] ++ two_digits (t_second t) ++ [Str [10]].
Definition gen_datetime e : option (list piece * sysenv D M) :=
  '(t, d) ← rtc_read_time fuel (ports e); Some (datetime_pieces t, set_ports d e).

Definition gen_version : list piece := [Str (zs "Plan 0 v0.4.1" ++ [10])].
Definition gen_hostname e : list piece := [Str (cstr (hostname_buf e)); nl].

Definition gen_stat e : list piece :=
  [Lit "cpu "; Dec 0; Chr 32; Dec 0; Chr 32; Dec 0; Chr 32; Dec (timer_get_ticks (system_ticks e)); Chr 32; Dec 0; Chr 32;
   Dec 0; Chr 32; Dec 0; Chr 32; Dec 0; Str [10]; Str (zs "btime 0" ++ [10]); Lit "processes ";
   Dec (len (used_procs (procs e))); Str [10]].

Definition gen_heap s : option (list piece) :=
  st ← kheap_get_stats fuel (vheap s);
  corruptions ← kheap_validate fuel (vheap s);
  Some ([Lit "Heap total:   "; Dec (st_total_size st); Str (zs " bytes" ++ [10]);
         Lit "Heap used:    "; Dec (st_used_size st); Str (zs " bytes" ++ [10]);
         Lit "Heap free:    "; Dec (u64 (st_total_size st - st_used_size st)); Str (zs " bytes" ++ [10]);
         Lit "Blocks:       "; Dec (st_block_count st); Str [10];
         Lit "Allocated:    "; Dec (st_allocated_blocks st); Str (zs " blocks" ++ [10]);
         Lit "Free blocks:  "; Dec (st_free_blocks st); Str [10];
         Lit "Largest free: "; Dec (st_largest_free st); Str (zs " bytes" ++ [10]);
         Lit "Integrity:    "] ++
        (if corruptions =? 0 then [Str (zs "OK" ++ [10])]
         else [Lit "CORRUPT ("; Dec (u64 corruptions); Str (zs " issues)" ++ [10])])).

Definition irq_names : list cstring :=
  [zs "timer"; zs "keyboard"; zs "cascade"; zs "serial2"; zs "serial1"; zs "parallel2"; zs "floppy"; zs "parallel1";
   zs "rtc"; zs "free"; zs "free"; zs "free"; zs "ps2_mouse"; zs "fpu"; zs "ide_primary"; zs "ide_secondary"].
Definition irq_row e (i : Z) : list piece :=
  (if i <? 10 then [Chr 32] else []) ++
  [Dec i; Lit "  "; Dec (arr_get 0 (irq_counts e) i); Lit "  "; Str (arr_get [] irq_names i); Str [10]].
Definition gen_interrupts e : list piece :=
  [Str (zs "IRQ  Count  Name" ++ [10]); Str (zs "---  -----  ----" ++ [10])] ++ concat (irq_row e <$> seqZ 0 VFILE_NUM_IRQS).

(** The path is copied under the guard of [Pad]; the fill is not guarded. *)
Definition mount_row s (i : Z) : list piece :=
  match vfs_get_mount i s with
  | None => []
  | Some mpath =>
      if k_strcmp mpath (zs "/") =? 0 then [Str (zs "ramfs         /        ramfs" ++ [10])]
      else [Lit "vfile         "] ++ ((fun c => Pad c 1) <$> mpath) ++ replicate (Z.to_nat (7 - k_strlen mpath)) (Chr 32) ++
           [Str (zs "  virtual" ++ [10])]
  end.
Definition gen_mounts s : list piece :=
  [Str (zs "Filesystem    Mount    Type" ++ [10]); Str (zs "------------  -------  ----" ++ [10])] ++
  (if vfs_mount_count s <=? 0 then [Str (zs "(none)" ++ [10])] else []) ++
  concat (mount_row s <$> seqZ 0 (vfs_mount_count s)).

Definition current e : option process := get (procs e) <$> process_current (procs e).
Definition gen_self_pid e : list piece :=
  [match current e with Some p => Dec (p_pid p) | None => Lit "0" end; nl].
Definition gen_self_name e : list piece :=
  [Str (match current e with Some p => p_name p | None => zs "kernel" end); nl].
Definition state_name (st : process_state) : cstring :=
  match st with
  | PROC_STATE_RUNNING => zs "running" | PROC_STATE_READY => zs "ready" | PROC_STATE_BLOCKED => zs "blocked"
  | PROC_STATE_ZOMBIE => zs "zombie" | PROC_STATE_UNUSED => zs "unused"
  end.
Definition gen_self_status e : list piece :=
  match current e with
  | Some p =>
      [Lit "Name:    "; Str (p_name p); nl; Lit "PID:     "; Dec (p_pid p); nl; Lit "State:   "; Str (state_name (p_state p)); nl;
       Lit "Priority:"; Chr 32; Dec (p_priority p); nl; Lit "CPU time:"; Chr 32; Dec (p_cpu_time p); Str (zs " ms" ++ [10])]
  | None =>
      [Lit "Name:    "; Lit "kernel"; nl; Lit "PID:     "; Chr (ch "0"); nl; Lit "State:   "; Lit "kernel"; nl;
       Lit "Priority:"; Lit " 0"; nl; Lit "CPU time:"; Lit " 0"; Str (zs " ms" ++ [10])]
  end.

Definition fd_type_name (type : Z) : cstring :=
  if type =? VFS_TYPE_FILE then zs "file"
  else if type =? VFS_TYPE_DIR then zs "dir"
  else if type =? VFS_TYPE_DEVICE then zs "device"
  else if type =? VFS_TYPE_PIPE_READ then zs "pipe-r"
  else if type =? VFS_TYPE_PIPE_WRITE then zs "pipe-w"
  else zs "unknown".
Definition fd_row s (fd : Z) : list piece :=
  match vfs_fd_info fd s with
  | None => []
  | Some (type, size) =>
      (if fd <? 10 then [Chr 32] else []) ++
      [Dec fd; Lit "  "; Str (fd_type_name type); Pad 32 (9 - k_strlen (fd_type_name type)); Lit "  "; Dec size; nl]
  end.
Definition gen_self_fdinfo s : list piece :=
  [Str (zs "fd  Type       Size" ++ [10]); Str (zs "--  ---------  ----" ++ [10])] ++ concat (fd_row s <$> seqZ 0 VFS_MAX_FDS).

(** ** The PCI table: the loop threads the ports through its reads *)

Definition device_row (bus dev func vendor device class_code subclass : Z) : list piece :=
  (if bus <? 10 then [Chr 32] else []) ++ (if bus <? 100 then [Chr 32] else []) ++ [Dec bus; Lit "  "] ++
  (if dev <? 10 then [Chr 32] else []) ++ [Dec dev; Lit "  "; Dec func] ++
  (if func <? 10 then [Chr 32; Chr 32; Chr 32] else [Chr 32; Chr 32]) ++
  [Lit "  "; Hex vendor; Lit "  "; Hex device; Lit "  "; Hex class_code; Lit "  "; Hex subclass; nl].

Fixpoint func_rows (bus dev : Z) (funcs : list Z) (d : D) : list (list piece) * D :=
  match funcs with
  | [] => ([], d)
  | func :: funcs' =>
      let '(present, d) := pci_device_exists bus dev func d in
      if negb present then func_rows bus dev funcs' d
      else
        let '(vendor, d) := pci_read_word bus dev func PCI_VENDOR_ID d in
        let '(device, d) := pci_read_word bus dev func PCI_DEVICE_ID d in
        let '(class_code, d) := pci_read_byte bus dev func PCI_CLASS d in
        let '(subclass, d) := pci_read_byte bus dev func PCI_SUBCLASS d in
        let '(rest, d) := func_rows bus dev funcs' d in
        ((if vendor =? 65535 then [] else [device_row bus dev func vendor device class_code subclass]) ++ rest, d)
  end.
Fixpoint dev_rows (slots : list (Z * Z)) (d : D) : list (list piece) * D :=
  match slots with
  | [] => ([], d)
  | (bus, dev) :: slots' =>
      let '(present, d) := pci_device_exists bus dev 0 d in
      if negb present then dev_rows slots' d
      else
        let '(header_type, d) := pci_read_byte bus dev 0 PCI_HEADER_TYPE d in
        let funcs := if header_type .& 128 =? 0 then 1 else 8 in
        let '(rows, d) := func_rows bus dev (seqZ 0 funcs) d in
        let '(rest, d) := dev_rows slots' d in
        (rows ++ rest, d)
  end.
Definition all_slots : list (Z * Z) := concat ((fun bus => (fun dev => (bus, dev)) <$> seqZ 0 32) <$> seqZ 0 256).
Definition gen_devices e : list piece * sysenv D M :=
  let '(rows, d) := dev_rows all_slots (ports e) in
  ([Str (zs "Bus  Dev  Func  Vendor    Device    Class  Sub" ++ [10]);
    Str (zs "---  ---  ----  --------  --------  -----  ---" ++ [10])] ++ concat rows, set_ports d e).

Definition gen_kernel_version : list piece := [Str (zs "0.4.1" ++ [10])].
Definition gen_kernel_name : list piece := [Str (zs "Plan 0" ++ [10])].
Definition gen_kernel_arch : list piece := [Str (zs "x86_64" ++ [10])].
Definition gen_cpuid : list piece :=
  let '(eax, ebx, ecx, edx) := cpuid 0 in
  [Str (zs "CPUID leaf 0:" ++ [10]); Lit "  EAX = 0x"] ++ hex_chars eax ++ [nl; Lit "  EBX = 0x"] ++ hex_chars ebx ++
  [nl; Lit "  ECX = 0x"] ++ hex_chars ecx ++ [nl; Lit "  EDX = 0x"] ++ hex_chars edx ++ [nl].
Definition gen_meminfo e : list piece :=
  [Lit "MemTotal:  "; Dec (pmm_get_total (physmem e)); Str (zs " bytes" ++ [10]);
   Lit "MemFree:   "; Dec (pmm_get_free (physmem e)); Str (zs " bytes" ++ [10]);
   Lit "PagesFree: "; Dec (pmm_get_free_pages (physmem e)); Str [10]; Lit "PageSize:  "; Dec 4096; Str [10]].
Definition gen_timer e : list piece :=
  [Lit "ticks: "; Dec (timer_get_ticks (system_ticks e)); Str ([10] ++ zs "ms:     ");
   Dec (timer_get_ms (system_ticks e)); Str [10]].
Definition gen_platform : list piece :=
  [Str (zs "Platform:   PC/AT compatible" ++ [10]); Str (zs "Arch:       x86_64" ++ [10]);
   Str (zs "Mode:       64-bit long mode" ++ [10]); Str (zs "Paging:     4-level (PML4)" ++ [10])].
Definition gen_console : list piece :=
  [Str (zs "Plan 0 console" ++ [10]); Str (zs "Write to this file to display text." ++ [10])].

(** Calling a registered read callback. *)
Definition call_read (f : read_fn) s : option (generated * kernel) :=
  let e := env s in
  let printed l := Some (Printed l, s) in
  match f with
  | gen_processes_fn => printed (gen_processes e)
  | gen_datetime_fn => '(l, e) ← gen_datetime e; Some (Printed l, set_env e s)
  | gen_version_fn => printed gen_version
  | gen_timer_fn => printed (gen_timer e)
  | gen_stat_fn => printed (gen_stat e)
  | gen_interrupts_fn => printed (gen_interrupts e)
  | gen_mounts_fn => printed (gen_mounts s)
  | gen_heap_fn => l ← gen_heap s; printed l
  | gen_hostname_fn => printed (gen_hostname e)
  | gen_kernel_name_fn => printed gen_kernel_name
  | gen_kernel_version_fn => printed gen_kernel_version
  | gen_kernel_arch_fn => printed gen_kernel_arch
  | gen_uptime_fn => printed (gen_uptime e)
  | gen_self_pid_fn => printed (gen_self_pid e)
  | gen_self_name_fn => printed (gen_self_name e)
  | gen_self_status_fn => printed (gen_self_status e)
  | gen_self_fdinfo_fn => printed (gen_self_fdinfo s)
  | gen_memory_fn => printed (gen_memory e)
  | gen_meminfo_fn => printed (gen_meminfo e)
  | gen_cpu_fn => printed gen_cpu
  | gen_cpuid_fn => printed gen_cpuid
  | gen_platform_fn => printed gen_platform
  | gen_devices_fn => let '(l, e) := gen_devices e in Some (Printed l, set_env e s)
  | gen_null_fn => printed []
  | gen_zero_fn => Some (Zeros, s)
  | gen_console_fn => printed gen_console
  end.

(** ** Write callbacks *)

(** [while (n > 0 && (data[n-1] is a line end)) n--], on the reversed data. *)
Fixpoint drop_line_ends (rs : list Z) : list Z :=
  match rs with c :: rs' => if (c =? 10) || (c =? 13) then drop_line_ends rs' else rs | [] => [] end.
Definition write_hostname (data : list Z) e : Z * sysenv D M :=
  let kept := rev (drop_line_ends (rev data)) in
  let n := if HOSTNAME_SIZE <=? len kept then HOSTNAME_SIZE - 1 else len kept in
  (n, set_hostname (take (Z.to_nat n) kept ++ [0] ++ drop (Z.to_nat (n + 1)) (hostname_buf e)) e).

Definition call_write (f : write_fn) (data : list Z) s : Z * kernel :=
  match f with
  | write_hostname_fn => let '(n, e) := write_hostname data (env s) in (n, set_env e s)
  | write_null_fn | write_zero_fn => (i32 (len data), s)
  | write_console_fn => (i32 (len data), set_console (console s ++ data) s)
  end.

(** ** Listings *)

Abbreviation listing := (list (cstring * bool * Z)).
Definition ls_file (name : string) : cstring * bool * Z := (zs name, false, 0).
Definition ls_dir (name : string) : cstring * bool * Z := (zs name, true, 0).

Definition list_vfile_dir (prefix : cstring) (xs : list vfile_entry) : listing :=
  concat ((fun x : vfile_entry =>
    if is_dir x then []
    else if negb (k_strncmp (e_path x) prefix (Z.to_nat (k_strlen prefix)) =? 0) then []
    else
      let name := drop (length prefix) (e_path x) in
      if bool_decide (name = []) then []
      else if existsb (fun c => c =? ch "/") name then []
      else [(name, false, 0)]) <$> xs).

Definition list_self_fd s : listing :=
  concat ((fun fd => match vfs_fd_info fd s with
                     | None => []
                     | Some _ => [(if fd =? 0 then [ch "0"] else rev (digits_rev 8 fd), false, 0)]
                     end) <$> seqZ 0 VFS_MAX_FDS).

Definition call_list (f : list_fn) s : listing :=
  let xs := entries (env s) in
  match f with
  | list_root_fn => [ls_dir "0"]
  | list_ns_root_fn => [ls_dir "system"; ls_dir "hardware"; ls_dir "dev"]
  | list_system_fn => list_vfile_dir (zs "/0/system/") xs ++ [ls_dir "kernel"; ls_dir "runtime"; ls_dir "self"]
  | list_sys_kernel_fn => list_vfile_dir (zs "/0/system/kernel/") xs
  | list_sys_runtime_fn => list_vfile_dir (zs "/0/system/runtime/") xs
  | list_proc_self_fn => [ls_file "pid"; ls_file "name"; ls_file "status"; ls_dir "fd"; ls_file "fdinfo"]
  | list_self_fd_fn => list_self_fd s
  | list_hardware_fn => list_vfile_dir (zs "/0/hardware/") xs ++ [ls_dir "memory"]
  | list_hw_memory_fn => list_vfile_dir (zs "/0/hardware/memory/") xs
  | list_dev_fn => [ls_file "null"; ls_file "zero"; ls_file "console"]
  end.

(** ** Registration *)

(** [reg_file], [reg_file_rw] and [reg_dir] append an entry while there is room. *)
Definition register (x : vfile_entry) e : sysenv D M :=
  if VFILE_MAX_ENTRIES <=? len (entries e) then e else set_entries (entries e ++ [x]) e.
(** [vfs_mount("/0", 0)] registers the tree without operations of its own. *)
Definition vfile_init s : kernel :=
  let s := set_env (set_irq_counts (replicate (Z.to_nat VFILE_NUM_IRQS) 0) (set_entries [] (env s))) s in
  let s := vfs_mount_at (zs "/0") None s in
  set_env (foldl (fun e x => register x e) (env s) vfile_tree) s.

(** ** The interface *)

Definition path_is (path : cstring) (x : vfile_entry) : bool := k_strcmp (e_path x) path =? 0.
Definition is_self_fd (path : cstring) : bool := k_strncmp path self_fd_prefix (Z.to_nat (k_strlen self_fd_prefix)) =? 0.
Definition find_entry (path : cstring) e : option vfile_entry :=
  find_first (fun x => negb (is_dir x) && path_is path x) (entries e).
Definition find_dir_entry (path : cstring) e : option vfile_entry :=
  find_first (fun x => is_dir x && path_is path x) (entries e).

Definition vfile_is_virtual (path : cstring) e : bool := existsb (path_is path) (entries e).
Definition vfile_exists_at (path : cstring) e : bool := bool_decide (is_Some (find_entry path e)) || is_self_fd path.
Definition vfile_is_writable (path : cstring) e : bool :=
  match find_entry path e with Some x => bool_decide (is_Some (e_write x)) | None => false end.
(** [None] is the result -1. *)
Definition vfile_list (path : cstring) s : option listing :=
  x ← find_dir_entry path (env s); f ← e_list x; Some (call_list f s).
Definition vfile_write_to (path : cstring) (data : list Z) s : Z * kernel :=
  match find_entry path (env s) ≫= e_write with Some f => call_write f data s | None => (-1, s) end.

(** The descriptor number at the end of a path: [None] when a digit is
    missing, a character is not a digit or the number is out of range. *)
Fixpoint parse_fd (fd : Z) (digits : bool) (num : cstring) : option Z :=
  match num with
  | c :: num' =>
      if (ch "0" <=? c) && (c <=? ch "9") then
        let fd := fd * 10 + (c - ch "0") in
        if 9 * VFS_MAX_FDS <? fd then None else parse_fd fd true num'
      else None
  | [] => if digits && (fd <? VFS_MAX_FDS) then Some fd else None
  end.

(** Reads through a descriptor; [read] is the layer's [vfs_read], or nothing
    once [self_fd_depth] reached its limit. *)
Definition gen_self_fd_path (read : option (Z -> Z -> kernel -> option (list Z * Z * kernel))) (max : Z) (path : cstring) s
    : option (generated * kernel) :=
  match parse_fd 0 false (drop (length self_fd_prefix) path) with
  | None => Some (Failed, s)
  | Some fd =>
      match read with
      | None => Some (Failed, s)
      | Some vfs_read => '(out, r, s) ← vfs_read fd max s; Some (Through out r, s)
      end
  end.

Definition vfile_generate (read : option (Z -> Z -> kernel -> option (list Z * Z * kernel))) (max : Z) (path : cstring) s
    : option (generated * kernel) :=
  match find_entry path (env s) with
  | Some x => match e_read x with Some f => call_read f s | None => Some (Failed, s) end
  | None => if is_self_fd path then gen_self_fd_path read max path s else Some (Failed, s)
  end.

(** [vfile_read(path, vfile_scratch, sizeof(vfile_scratch))]: the bytes up to
    the result and the result. *)
Definition vfile_read_scratch (read : option (Z -> Z -> kernel -> option (list Z * Z * kernel))) (path : cstring) s
    : option (list Z * Z * kernel) :=
  '(g, s) ← vfile_generate read VFILE_MAX_CONTENT path s;
  let '(b, r) := deliver VFILE_MAX_CONTENT (vfile_scratch (env s)) g in
  Some (load_bytes b 0 r, r, set_env (set_scratch b (env s)) s).
End generators.

(** ** The virtual files as a backend of the descriptor layer

    [self_fd_depth] limits how often a read may go through a descriptor that
    is itself a path under /0/system/self/fd; [n] is what is left of it. *)

Section backend.
Context {D M : Type} `{PortIO D} `{PortIO32 D} `{MountedOps M} (fuel : nat) (cpuid : Z -> Z * Z * Z * Z).

Definition backend_with (read : option (Z -> Z -> vfs (sysenv D M) -> option (list Z * Z * vfs (sysenv D M)))) : VfsBackend (sysenv D M) := {|
  vfile_exists path s := vfile_exists_at path (env s);
  vfile_read := vfile_read_scratch fuel cpuid read;
  vfile_write := vfile_write_to;
  mnt_open p f e := let '(r, m) := mo_open p f (mounted e) in (r, set_mounted m e);
  mnt_close i e := let '(r, m) := mo_close i (mounted e) in (r, set_mounted m e);
  mnt_read i n off e := let '(out, r, m) := mo_read i n off (mounted e) in (out, r, set_mounted m e);
  mnt_write i b e := let '(r, m) := mo_write i b (mounted e) in (r, set_mounted m e);
  mnt_mkdir p e := let '(r, m) := mo_mkdir p (mounted e) in (r, set_mounted m e);
  mnt_unlink p e := let '(r, m) := mo_unlink p (mounted e) in (r, set_mounted m e);
  mnt_list e := mo_list (mounted e);
  mnt_size i e := mo_size i (mounted e)
|}.

Fixpoint backend_at (n : nat) : VfsBackend (sysenv D M) :=
  backend_with (match n with O => None | S n' => Some (@vfs_read _ (backend_at n')) end).

Lemma call_read_same f (s : vfs (sysenv D M)) g s' : call_read fuel cpuid f s = Some (g, s') -> same_fds s s'.
Proof.
  destruct f; cbn [call_read]; try (intros Ho; by simplify_eq).
  - intros Ho. apply bind_Some in Ho as ([l e] & _ & Ho). by simplify_eq.
  - intros Ho. apply bind_Some in Ho as (l & _ & Ho). by simplify_eq.
  - destruct (gen_devices (env s)) as [l e]. intros Ho. by simplify_eq.
Qed.

Lemma generate_same read max path (s : vfs (sysenv D M)) g s' :
  (forall rd fd n (s : vfs (sysenv D M)) out r s', read = Some rd -> rd fd n s = Some (out, r, s') -> same_fds s s') ->
  vfile_generate fuel cpuid read max path s = Some (g, s') -> same_fds s s'.
Proof.
  intros Hread. unfold vfile_generate. destruct (find_entry path (env s)) as [x|].
  - destruct (e_read x) as [f|]; [apply call_read_same|intros Ho; by simplify_eq].
  - destruct (is_self_fd path); [|intros Ho; by simplify_eq]. unfold gen_self_fd_path.
    destruct (parse_fd _ _ _) as [fd|]; [|intros Ho; by simplify_eq].
    destruct read as [rd|]; [|intros Ho; by simplify_eq]. intros Ho. apply bind_Some in Ho as ([[out r] s1] & E1 & Ho).
    simplify_eq. by eapply Hread.
Qed.

(** The virtual files use the layer as its invariant asks. *)
Lemma backend_at_ok n : @VfsBackendOk (sysenv D M) (backend_at n).
Proof.
  induction n as [|n IH]; (split; [intros p s out r s' Hrun|intros p b s r s' Hrun]); cbn [backend_at] in Hrun;
    unfold backend_with in Hrun; cbn [vfile_read vfile_write] in Hrun.
  1, 3: unfold vfile_read_scratch in Hrun; apply bind_Some in Hrun as ([g s1] & Hg & Hrun);
        destruct (deliver _ _ g) as [m k]; simplify_eq; (etransitivity; [eapply generate_same; [|exact Hg]|done]).
  - done.
  - intros rd fd k t o q t' [= <-] Hr. by apply (@vfs_read_same _ (backend_at n) IH) in Hr.
  - unfold vfile_write_to in Hrun. destruct (_ ≫= e_write) as [[]|]; cbn [call_write] in Hrun; try by simplify_eq.
    destruct (write_hostname b (env s)). by simplify_eq.
  - unfold vfile_write_to in Hrun. destruct (_ ≫= e_write) as [[]|]; cbn [call_write] in Hrun; try by simplify_eq.
    destruct (write_hostname b (env s)). by simplify_eq.
Qed.

Definition SELF_FD_DEPTH : nat := 2.
#[export] Instance vfile_backend : VfsBackend (sysenv D M) := backend_at SELF_FD_DEPTH.
#[export] Instance vfile_backend_ok : VfsBackendOk (sysenv D M) := backend_at_ok SELF_FD_DEPTH.
End backend.

(** ** The texts fit the buffer *)

Section bounds.
Context {D M : Type} `{PortIO D} `{PortIO32 D} (fuel : nat) (cpuid : Z -> Z * Z * Z * Z).
Abbreviation kernel := (vfs (sysenv D M)).
Implicit Types (s : kernel) (e : sysenv D M).

(** What a callback's text depends on is small enough: at most 39 processes
    in use and 30 PCI functions, names and paths within their buffers. *)
Definition name_ok (p : process) : Prop := len (p_name p) <= 31 /\ is_u32 (p_pid p).
Definition roomy (f : read_fn) s : Prop :=
  match f with
  | gen_processes_fn => Forall name_ok (used_procs (procs (env s))) /\ len (used_procs (procs (env s))) <= 39
  | gen_devices_fn => len (dev_rows all_slots (ports (env s))).1 <= 30
  | gen_hostname_fn => len (hostname_buf (env s)) <= HOSTNAME_SIZE
  | gen_mounts_fn => vfs_mount_count s <= VFS_MAX_MOUNTS /\ Forall (fun m => len (m_path m) <= 220) (mounts s)
  | gen_self_name_fn | gen_self_status_fn => forall p, current (env s) = Some p -> name_ok p
  | _ => True
  end.

Lemma length_cstr buf : len (cstr buf) <= len buf.
Proof. induction buf as [|c buf IH]; cbn [cstr length]; [lia|]. destruct (c =? NUL); cbn [length]; lia. Qed.

Lemma length_reg_string regs : len (reg_string regs) <= 4 * len regs.
Proof.
  unfold reg_string. etransitivity; [apply length_cstr|]. induction regs as [|x regs IH]; [cbn; lia|].
  change (concat (le_bytes 4 <$> x :: regs)) with (le_bytes 4 x ++ concat (le_bytes 4 <$> regs)).
  rewrite length_app, length_le_bytes. cbn [length]. lia.
Qed.

Lemma text_hex_chars n : text (hex_chars n) = hex8 n.
Proof. unfold hex_chars. induction (hex8 n) as [|c l IH]; [done|]. cbn [fmap list_fmap text piece_text app]. by f_equal. Qed.
Lemma length_hex8 n : length (hex8 n) = 8%nat.
Proof. done. Qed.

Lemma process_row_length p : name_ok p -> len (text (process_row p)) <= 51.
Proof.
  intros [Hn Hp]. unfold process_row, Lit, k_strlen. pose proof (length_put_dec_lt (p_pid p) 10 ltac:(lia)) as Hd.
  unfold is_u32 in Hp. specialize (Hd ltac:(change (10 ^ Z.of_nat 10) with 10000000000; lia)).
  assert (Hst : len (if bool_decide (p_state p = PROC_STATE_RUNNING) then zs "running" else zs "other") <= 7)
    by (destruct (bool_decide _); vm_compute; discriminate).
  cbn [text piece_text]. revert Hd Hst. generalize (put_dec (p_pid p)) as ds.
  generalize (if bool_decide (p_state p = PROC_STATE_RUNNING) then zs "running" else zs "other") as nm. intros. rewrite !length_app, length_replicate. change (length (zs "  ")) with 2%nat. cbn [length]. lia.
Qed.

Lemma irq_row_length e i : len (text (irq_row e i)) <= 59.
Proof.
  assert (Hn : len (arr_get [] irq_names i) <= 13).
  { apply (arr_get_Forall [] (fun x => len x <= 13)); [cbn; lia|]. repeat (constructor; [vm_compute; discriminate|]). constructor. }
  unfold irq_row, Lit. rewrite text_app, length_app.
  assert (Hsp : len (text (if i <? 10 then [Chr 32] else [])) <= 1) by (destruct (i <? 10); vm_compute; discriminate).
  revert Hn. generalize (arr_get [] irq_names i) as nm. intros. text_length.
Qed.

Lemma fd_row_length s fd : len (text (fd_row s fd)) <= 55.
Proof.
  unfold fd_row, Lit, nl. destruct (vfs_fd_info fd s) as [[type size]|]; [|cbn; lia]. rewrite text_app, length_app.
  assert (Hsp : len (text (if fd <? 10 then [Chr 32] else [])) <= 1) by (destruct (fd <? 10); vm_compute; discriminate).
  assert (Hn : len (fd_type_name type) <= 7) by (unfold fd_type_name; repeat (destruct (_ =? _)); vm_compute; discriminate).
  unfold k_strlen. revert Hn. generalize (fd_type_name type) as nm. intros. text_length.
Qed.

Lemma two_digits_length n : len (text (two_digits n)) <= 21.
Proof. unfold two_digits. rewrite text_app, length_app. pose proof (length_put_dec n). destruct (n <? 10); text_length. Qed.

Lemma mount_row_length s i : Forall (fun m => len (m_path m) <= 220) (mounts s) -> len (text (mount_row s i)) <= 244.
Proof.
  intros Hm. unfold mount_row, Lit, vfs_get_mount, k_strlen. destruct (i <? 0); [cbn; lia|].
  destruct (filter _ (mounts s) !! Z.to_nat i) as [m|] eqn:Em; cbn [fmap option_fmap option_map]; [|cbn; lia].
  apply list_elem_of_lookup_2, list_elem_of_filter in Em as [_ Em]. rewrite Forall_forall in Hm. specialize (Hm m Em).
  cbn [compose]. set (q := take _ (m_path m)). assert (Hq : len q <= 220) by (unfold q; rewrite length_take; lia). clearbody q.
  destruct (_ =? 0); [vm_compute; discriminate|].
  assert (Hp : forall x : list Z, length (text ((fun c => Pad c 1) <$> x)) = length x)
    by (induction x as [|c x IH]; [done|]; cbn [fmap list_fmap text piece_text]; rewrite length_app; cbn; by f_equal).
  assert (Hr : forall n, length (text (replicate n (Chr 32))) = n) by (induction n as [|n IH]; [done|]; cbn; by f_equal).
  rewrite !text_app, !length_app, Hp, Hr. text_length.
Qed.

Lemma device_row_length bus dev func vendor device cls sub : bus < 1000 -> dev < 100 -> func < 10 ->
  len (text (device_row bus dev func vendor device cls sub)) <= 65.
Proof.
  intros Hb Hd Hf. unfold device_row, Lit, nl.
  pose proof (length_put_dec_lt bus 3 ltac:(lia) Hb). pose proof (length_put_dec_lt dev 2 ltac:(lia) Hd).
  pose proof (length_put_dec_lt func 1 ltac:(lia) Hf).
  rewrite (proj2 (Z.ltb_lt func 10)) by done.
  destruct (bus <? 10), (bus <? 100), (dev <? 10); rewrite !text_app; cbn [text piece_text]; rewrite !length_app, !length_hex8;
    change (length (zs "  ")) with 2%nat; change (length (zs "0x")) with 2%nat; cbn [length]; lia.
Qed.

(** Every row of the PCI table is short. *)
Lemma func_rows_short bus dev : bus < 1000 -> dev < 100 -> forall funcs (d : D), Forall (fun x => x < 10) funcs ->
  Forall (fun row => len (text row) <= 65) (func_rows bus dev funcs d).1.
Proof.
  intros Hb Hd. induction funcs as [|func funcs IH]; intros d Hf; cbn [func_rows]; [constructor|].
  apply Forall_cons in Hf as [Hx Hf]. destruct (pci_device_exists bus dev func d) as [[|] d1]; cbn [negb]; [|by apply IH].
  destruct (pci_read_word bus dev func PCI_VENDOR_ID d1) as [v d2], (pci_read_word bus dev func PCI_DEVICE_ID d2) as [dv d3],
    (pci_read_byte bus dev func PCI_CLASS d3) as [c d4], (pci_read_byte bus dev func PCI_SUBCLASS d4) as [sb d5].
  specialize (IH d5 Hf). destruct (func_rows bus dev funcs d5) as [rest d6]. cbn [fst] in *.
  apply Forall_app. split; [|done]. destruct (v =? 65535); constructor; [|constructor]. by apply device_row_length.
Qed.
Lemma dev_rows_short : forall slots (d : D), Forall (fun x : Z * Z => x.1 < 1000 /\ x.2 < 100) slots ->
  Forall (fun row => len (text row) <= 65) (dev_rows slots d).1.
Proof.
  induction slots as [|[bus dev] slots IH]; intros d Hs; cbn [dev_rows]; [constructor|].
  apply Forall_cons in Hs as [[Hb Hd] Hs]. destruct (pci_device_exists bus dev 0 d) as [[|] d1]; cbn [negb]; [|by apply IH].
  destruct (pci_read_byte bus dev 0 PCI_HEADER_TYPE d1) as [h d2]. set (k := if _ =? 0 then 1 else 8).
  assert (Hk : Forall (fun x => x < 10) (seqZ 0 k)).
  { apply Forall_forall. intros x Hx. apply elem_of_seqZ in Hx. unfold k in Hx. destruct (_ =? 0); lia. }
  pose proof (func_rows_short bus dev Hb Hd (seqZ 0 k) d2 Hk) as Hrows.
  destruct (func_rows bus dev (seqZ 0 k) d2) as [rows d3]. specialize (IH d3 Hs). destruct (dev_rows slots d3) as [rest d4].
  cbn [fst] in *. by apply Forall_app.
Qed.
Lemma all_slots_range : Forall (fun x : Z * Z => x.1 < 1000 /\ x.2 < 100) all_slots.
Proof.
  apply Forall_concat, Forall_fmap, Forall_forall. intros bus Hb. apply elem_of_seqZ in Hb. cbn.
  apply Forall_fmap, Forall_forall. intros dev Hd. apply elem_of_seqZ in Hd. cbn. lia.
Qed.

Lemma rows_length c (rows : list (list piece)) : Forall (fun row => len (text row) <= c) rows ->
  len (text (concat rows)) <= c * len rows.
Proof.
  intros Hr. rewrite <- (list_fmap_id rows) at 1. apply text_flat_map_bound. by rewrite Forall_forall in Hr.
Qed.

(** The contents a callback means to deliver. *)
Definition contents (g : generated) : list Z :=
  match g with
  | Printed l => text l
  | Zeros => replicate (Z.to_nat (VFILE_MAX_CONTENT - 1)) 0
  | _ => []
  end.

Lemma gen_devices_short e l e' : gen_devices e = (l, e') -> len (dev_rows all_slots (ports e)).1 <= 30 -> len (text l) < 2048.
Proof.
  unfold gen_devices. pose proof (dev_rows_short all_slots (ports e) all_slots_range) as Hs.
  destruct (dev_rows all_slots (ports e)) as [rows d]. cbn [fst] in *. intros [= <- _] Hk. apply rows_length in Hs. text_length.
Qed.

Ltac table rows n := rewrite text_app, length_app;
  match goal with |- context [text (concat (?f <$> ?xs))] =>
    let H := fresh in assert (H : len (text (concat (f <$> xs))) <= n * len xs) by (apply text_flat_map_bound; rows) end.

Lemma call_read_short f s g s' : roomy f s -> call_read fuel cpuid f s = Some (g, s') ->
  (exists l, g = Printed l) /\ len (contents g) < VFILE_MAX_CONTENT \/ g = Zeros.
Proof.
  unfold VFILE_MAX_CONTENT. destruct f; cbn [roomy call_read]; intros Hroom Hrun;
    try (injection Hrun as <- <-; left; split; [by eexists|]; cbn [contents]).
  - destruct Hroom as [Hn Hk]. unfold gen_processes. rewrite Forall_forall in Hn.
    table ltac:(intros x Hx; apply process_row_length; by apply Hn) 51. change (length (text [Str _; Str _])) with 56%nat. lia.
  - apply bind_Some in Hrun as ([l e] & Hl & Hrun). simplify_eq. left. split; [by eexists|]. cbn [contents].
    unfold gen_datetime in Hl. apply bind_Some in Hl as ([t d] & _ & Hl). simplify_eq. unfold datetime_pieces, Lit.
    rewrite !text_app, !length_app. pose proof (two_digits_length (t_month t)). pose proof (two_digits_length (t_day t)).
    pose proof (two_digits_length (t_hour t)). pose proof (two_digits_length (t_minute t)). pose proof (two_digits_length (t_second t)).
    pose proof (length_put_dec (t_century t)). pose proof (length_put_dec (t_year t)). cbn [text piece_text]. rewrite !length_app.
    change (length (zs "Date: ")) with 6%nat. change (length (zs "Time: ")) with 6%nat. cbn [length]. lia.
  - vm_compute. reflexivity.
  - unfold gen_timer, Lit. text_length.
  - unfold gen_stat, Lit. text_length.
  - unfold gen_interrupts. table ltac:(intros x Hx; apply irq_row_length) 59. rewrite length_seqZ in *.
    change (length (text [Str _; Str _])) with 34%nat. unfold VFILE_NUM_IRQS in *. lia.
  - destruct Hroom as [Hc Hm]. unfold gen_mounts. rewrite (text_app [_; _]), length_app.
    table ltac:(intros x Hx; by apply mount_row_length) 244. rewrite length_seqZ in *.
    change (length (text [Str _; Str _])) with 56%nat. unfold VFS_MAX_MOUNTS in *.
    destruct (Z.leb_spec (vfs_mount_count s) 0); [change (length (text [Str (zs "(none)" ++ [10])])) with 7%nat|cbn [text length]]; lia.
  - apply bind_Some in Hrun as (l & Hl & Hrun). simplify_eq. left. split; [by eexists|]. cbn [contents].
    unfold gen_heap in Hl. apply bind_Some in Hl as (st & _ & Hl). apply bind_Some in Hl as (c & _ & Hl). injection Hl as <-.
    unfold Lit. destruct (c =? 0); text_length.
  - unfold gen_hostname, Lit, nl. pose proof (length_cstr (hostname_buf (env s))). unfold HOSTNAME_SIZE in *. text_length.
  - vm_compute. reflexivity.
  - vm_compute. reflexivity.
  - vm_compute. reflexivity.
  - unfold gen_uptime, Lit. text_length.
  - unfold gen_self_pid, Lit, nl. destruct (current (env s)); text_length.
  - unfold gen_self_name, nl. destruct (current (env s)) as [p|]; [destruct (Hroom p eq_refl); text_length|vm_compute; reflexivity].
  - unfold gen_self_status, Lit, nl. destruct (current (env s)) as [p|]; [|vm_compute; reflexivity]. destruct (Hroom p eq_refl).
    assert (len (state_name (p_state p)) <= 7) by (destruct (p_state p); vm_compute; discriminate). text_length.
  - unfold gen_self_fdinfo. table ltac:(intros x Hx; apply fd_row_length) 55. rewrite length_seqZ in *.
    change (length (text [Str _; Str _])) with 40%nat. unfold VFS_MAX_FDS in *. lia.
  - unfold gen_memory, Lit. text_length.
  - unfold gen_meminfo, Lit. text_length.
  - unfold gen_cpu, Lit, nl. destruct (cpuid 0) as [[[a b] c] d]. destruct (cpuid 1) as [[[a1 b1] c1] d1].
    destruct (cpuid 2147483650) as [[[? ?] ?] ?], (cpuid 2147483651) as [[[? ?] ?] ?], (cpuid 2147483652) as [[[? ?] ?] ?].
    rewrite !text_app, text_hex_chars, !length_app, length_hex8. pose proof (length_reg_string [b; d; c]) as L1. cbn [app].
    match goal with |- context [reg_string (?x :: ?r :: ?y :: ?z)] => pose proof (length_reg_string (x :: r :: y :: z)) as L2; lazymatch z with [] => fail | _ => idtac end end.
    cbn [length] in L1, L2. cbn [text piece_text]. rewrite !length_app. text_length.
  - unfold gen_cpuid, Lit, nl. destruct (cpuid 0) as [[[a b] c] d].
    rewrite !text_app, !text_hex_chars, !length_app, !length_hex8. text_length.
  - vm_compute. reflexivity.
  - destruct (gen_devices (env s)) as [l e] eqn:El. injection Hrun as <- <-. left. split; [by eexists|]. cbn [contents].
    by apply (gen_devices_short _ _ _ El).
  - vm_compute. reflexivity.
  - injection Hrun as <- <-. by right.
  - vm_compute. reflexivity.
Qed.

(** Reading a registered virtual file whose subject is not too large
    (39 processes, 30 PCI functions, 8 mounts) puts exactly the printed text,
    shorter than the 2048 bytes of the scratch buffer, at the start of the
    buffer, changes no other byte, and returns its length. *)
Theorem vfile_read_prints read path x f s g s1 :
  find_entry path (env s) = Some x -> e_read x = Some f -> roomy f s -> call_read fuel cpuid f s = Some (g, s1) ->
  len (contents g) < VFILE_MAX_CONTENT /\
  vfile_read_scratch fuel cpuid read path s =
    Some (contents g, len (contents g),
          set_env (set_scratch (store_bytes 0 (contents g) (vfile_scratch (env s1))) (env s1)) s1).
Proof.
  intros Hf Hx Hroom Hrun. unfold vfile_read_scratch, vfile_generate. rewrite Hf, Hx, Hrun. cbn [mbind option_bind].
  destruct (call_read_short f s g s1 Hroom Hrun) as [[[l ->] Hl]| ->]; cbn [deliver contents] in *.
  - split; [done|]. rewrite run_text by (done || (unfold VFILE_MAX_CONTENT; lia)). by rewrite load_stored.
  - change (i32 VFILE_MAX_CONTENT - 1) with (VFILE_MAX_CONTENT - 1). rewrite length_replicate.
    split; [unfold VFILE_MAX_CONTENT; lia|].
    pose proof (load_stored (replicate (Z.to_nat (VFILE_MAX_CONTENT - 1)) 0) (vfile_scratch (env s1)) 0) as E.
    rewrite length_replicate, Z2Nat.id in E by (unfold VFILE_MAX_CONTENT; lia).
    rewrite Z2Nat.id by (unfold VFILE_MAX_CONTENT; lia). by rewrite E.
Qed.

(** ** The host name *)

Lemma drop_line_ends_suffix rs : exists cut, rs = cut ++ drop_line_ends rs /\ Forall (fun c => c = 10 \/ c = 13) cut.
Proof.
  induction rs as [|c rs IH]; [by exists []|]. cbn [drop_line_ends]. destruct (_ || _) eqn:E.
  - destruct IH as (cut & Hc & Hf). exists (c :: cut). split; [cbn; by f_equal|]. constructor; [zbool; lia|done].
  - by exists [].
Qed.

(** Writing a name to 0/system/hostname and reading the file gives the
    name without its trailing line ends, cut to 63 characters, and a line
    end; the result of the write is the number of characters kept. *)
Theorem hostname_roundtrip read path x s data :
  find_entry path (env s) = Some x -> e_read x = Some gen_hostname_fn -> e_write x = Some write_hostname_fn ->
  is_cstr data -> len (hostname_buf (env s)) = HOSTNAME_SIZE ->
  exists ends s1 s2, let kept := rev (drop_line_ends (rev data)) in let name := take 63 kept in
    data = kept ++ ends /\ Forall (fun c => c = 10 \/ c = 13) ends /\
    vfile_write_to path data s = (len name, s1) /\ len (hostname_buf (env s1)) = HOSTNAME_SIZE /\
    vfile_read_scratch fuel cpuid read path s1 = Some (name ++ [10], len name + 1, s2).
Proof.
  intros Hf Hr Hw Hd Hl. destruct (drop_line_ends_suffix (rev data)) as (cut & Hcut & Hends).
  exists (rev cut). set (kept := rev (drop_line_ends (rev data))).
  assert (Hk : data = kept ++ rev cut) by (unfold kept; rewrite <- rev_app_distr, <- Hcut; by rewrite rev_involutive).
  set (n := if HOSTNAME_SIZE <=? len kept then HOSTNAME_SIZE - 1 else len kept).
  assert (Hn : take (Z.to_nat n) kept = take 63 kept /\ n = len (take 63 kept)).
  { unfold n, HOSTNAME_SIZE. rewrite length_take. destruct (Z.leb_spec 64 (len kept)); [split; [done|lia]|].
    rewrite Nat2Z.id, firstn_all, take_ge by lia. split; [done|lia]. }
  destruct Hn as [Ht Hn]. set (buf := take 63 kept ++ [0] ++ drop (Z.to_nat (n + 1)) (hostname_buf (env s))).
  set (s1 := set_env (set_hostname buf (env s)) s). eexists s1, _. cbv zeta. fold kept.
  assert (Hbuf : len buf = HOSTNAME_SIZE).
  { unfold buf. rewrite !length_app, length_drop. cbn [length]. assert (len (take 63 kept) <= 63) by (rewrite length_take; lia).
    unfold HOSTNAME_SIZE in *. lia. }
  assert (Hc : cstr buf = take 63 kept).
  { apply cstr_terminated. rewrite Hk in Hd. apply is_cstr_app in Hd as [Hd _]. by apply Forall_take. }
  split; [done|]. split; [by apply Forall_rev|]. split; [|split; [done|]].
  - unfold vfile_write_to. rewrite Hf. cbn [mbind option_bind]. rewrite Hw. cbn [call_write]. unfold write_hostname. fold kept.
    fold n. rewrite Ht, <- Hn. done.
  - unfold vfile_read_scratch, vfile_generate. change (find_entry path (env s1)) with (find_entry path (env s)). rewrite Hf, Hr.
    cbn [call_read mbind option_bind deliver]. unfold gen_hostname, nl. cbn [env hostname_buf s1 set_env set_hostname]. rewrite Hc.
    assert (Hlen : len (take 63 kept) <= 63) by (rewrite length_take; lia).
    rewrite run_text by (cbn [text piece_text]; rewrite ?length_app; cbn [length]; unfold VFILE_MAX_CONTENT; lia).
    rewrite load_stored. cbn [text piece_text]. rewrite app_nil_r, length_app. cbn [length]. repeat f_equal. lia.
Qed.
End bounds.

(** ** The tree and its listings *)

Section registry.
Context {D M : Type}.
Implicit Types (s : vfs (sysenv D M)).

Lemma register_all s xs : len xs <= VFILE_MAX_ENTRIES ->
  entries (foldl (fun e x => register x e) (set_entries [] (env s)) xs) = xs.
Proof.
  intros Hl. assert (Hgo : forall ys e, len (entries e) + len ys <= VFILE_MAX_ENTRIES ->
    entries (foldl (fun e x => register x e) (e : sysenv D M) ys) = entries e ++ ys).
  { induction ys as [|y ys IH]; intros e He; cbn [foldl]; [by rewrite app_nil_r|]. cbn [length] in He. unfold register at 2.
    rewrite (proj2 (Z.leb_gt _ _)) by lia. rewrite IH by (cbn [entries set_entries]; rewrite length_app; cbn [length]; lia).
    cbn [entries set_entries]. by rewrite <- app_assoc. }
  rewrite Hgo; done.
Qed.

Lemma env_mount path o s : env (vfs_mount_at path o s) = env s.
Proof. unfold vfs_mount_at. destruct (remount _ _ _); [done|]. by destruct (_ <=? _). Qed.

(** All registrations fit the table. *)
Lemma vfile_init_entries s : entries (env (vfile_init s)) = vfile_tree.
Proof.
  unfold vfile_init. cbn [env set_env]. rewrite env_mount. cbn [env set_env].
  change (set_irq_counts ?c (set_entries [] ?e)) with (set_entries [] (set_irq_counts c e)).
  apply (register_all (set_env (set_irq_counts (replicate (Z.to_nat VFILE_NUM_IRQS) 0) (env s)) s)). vm_compute. discriminate.
Qed.

(** The name of [path] in the directory [parent], when it lies directly in it. *)
Definition child_base (parent path : cstring) : option cstring :=
  let prefix := (if bool_decide (parent = zs "/") then [] else parent) ++ zs "/" in
  let base := drop (length prefix) path in
  if bool_decide (take (length prefix) path = prefix) && bool_decide (base <> []) && negb (existsb (fun c => c =? ch "/") base)
  then Some base else None.
Definition children (parent : cstring) : list (cstring * bool * Z) :=
  omap (fun y => (fun b => (b, is_dir y, 0)) <$> child_base parent (e_path y)) vfile_tree.

Definition same_members (l1 l2 : list (cstring * bool * Z)) : bool :=
  forallb (fun a => bool_decide (a ∈ l2)) l1 && forallb (fun a => bool_decide (a ∈ l1)) l2.
Lemma same_members_spec l1 l2 : same_members l1 l2 = true -> forall a, a ∈ l1 <-> a ∈ l2.
Proof.
  unfold same_members. intros [H1 H2]%andb_true_iff a. rewrite forallb_forall in H1, H2.
  split; intros Ha; [specialize (H1 a)|specialize (H2 a)]; by eapply bool_decide_eq_true_1, H1 || eapply bool_decide_eq_true_1, H2;
    apply list_elem_of_In.
Qed.

Lemma static_listings s : entries (env s) = vfile_tree ->
  Forall (fun x => is_dir x = true -> e_path x <> zs "/0/system/self/fd" ->
    exists l, vfile_list (e_path x) s = Some l /\ same_members l (children (e_path x)) = true) vfile_tree.
Proof.
  intros He. unfold vfile_list, find_dir_entry, call_list. rewrite He.
  repeat (constructor; [intros Hd Hne; first [by vm_compute in Hd|by destruct (Hne eq_refl)|eexists; split; [vm_compute; reflexivity|vm_compute; reflexivity]]|]).
  constructor.
Qed.

(** After initialisation the listing of every registered directory
    (other than the one of open descriptors) contains exactly the registered
    files and directories that lie directly in it, each with its kind. *)
Theorem vfile_listing_complete s x :
  x ∈ entries (env (vfile_init s)) -> is_dir x = true -> e_path x <> zs "/0/system/self/fd" ->
  exists l, vfile_list (e_path x) (vfile_init s) = Some l /\
    forall name d size, (name, d, size) ∈ l <->
      size = 0 /\ exists y, y ∈ entries (env (vfile_init s)) /\ is_dir y = d /\ child_base (e_path x) (e_path y) = Some name.
Proof.
  rewrite vfile_init_entries. intros Hx Hd Hne.
  pose proof (static_listings (vfile_init s) (vfile_init_entries s)) as Hall. rewrite Forall_forall in Hall.
  destruct (Hall x Hx Hd Hne) as (l & Hl & Hs). exists l. split; [done|]. intros name d size.
  rewrite (same_members_spec _ _ Hs). unfold children. rewrite list_elem_of_omap. split.
  - intros (y & Hy & Ey). destruct (child_base _ _) as [b|] eqn:Eb; [|done]. cbn in Ey. simplify_eq. split; [done|]. by exists y.
  - intros (-> & y & Hy & <- & Eb). exists y. split; [done|]. by rewrite Eb.
Qed.
End registry.

(** ** Descriptors that lead to descriptors *)

Section self_fd.
Context {D M : Type} `{PortIO D} `{PortIO32 D} `{MountedOps M} (fuel : nat) (cpuid : Z -> Z * Z * Z * Z).
Implicit Types (s : vfs (sysenv D M)).

(** Descriptor [fd] of the current table is open for reading on the virtual
    file of descriptor [fd']. *)
Definition leads_to s (fd fd' : Z) : Prop := exists n,
  fd_table_get (get_current_fd_table s) fd s = Some n /\ n_ops (node s n) = Some vfile_vfs_ops /\
  n_flags (node s n) .& 3 <> VFS_O_WRONLY /\ vfile_bad (internal_fd (node s n)) s = false /\
  let path := vo_path (vfile_slot s (internal_fd (node s n))) in
  find_entry path (env s) = None /\ is_self_fd path = true /\ parse_fd 0 false (drop (length self_fd_prefix) path) = Some fd'.

(** A self-path read that fails leaves the state alone. *)
Lemma rescratch s : set_env (set_scratch (vfile_scratch (env s)) (env s)) s = s.
Proof. by destruct s as [? ? ? ? ? ? ? ? []]. Qed.

Lemma read_leads_to (C : Z -> Prop) s : (forall fd, C fd -> exists fd', leads_to s fd fd' /\ C fd') ->
  forall n fd size, C fd -> @vfs_read _ (backend_at fuel cpuid n) fd size s = Some ([], -1, s).
Proof.
  intros HC. induction n as [|n IH]; intros fd size Hfd; destruct (HC fd Hfd) as (fd' & (k & Hg & Ho & Hfl & Hbad & Hf & Hp & Hparse) & HC');
    unfold vfs_read; rewrite Hg, Ho; cbn [mbind option_bind ops_read]; rewrite (proj2 (Z.eqb_neq _ _)) by done;
    unfold vfile_vfs_read; rewrite Hbad; cbn [vfile_read backend_at backend_with];
    unfold vfile_read_scratch, vfile_generate; rewrite Hf, Hp; unfold gen_self_fd_path; rewrite Hparse;
    [|rewrite (IH fd' VFILE_MAX_CONTENT HC')]; cbn [mbind option_bind deliver store_bytes]; by rewrite rescratch.
Qed.

(** Reading a descriptor that leads only to other descriptors of the same
    kind, in a circle of any length, returns -1 and changes nothing. *)
Theorem self_fd_circle_ends (C : Z -> Prop) s fd size :
  (forall fd, C fd -> exists fd', leads_to s fd fd' /\ C fd') -> C fd ->
  @vfs_read _ (vfile_backend fuel cpuid) fd size s = Some ([], -1, s).
Proof. intros HC Hfd. by apply (read_leads_to C). Qed.
End self_fd.

(** ** Examples *)

Module Examples.
(** A machine without devices. *)
#[export] Instance no_ports : PortIO unit := {|
  inb _ d := (0, d); outb _ _ d := d; inw _ d := (0, d); outw _ _ d := d; io_wait d := d |}.
#[export] Instance no_ports32 : PortIO32 unit := {| inl _ d := (2 ^ 32 - 1, d); outl _ _ d := d |}.
#[export] Instance no_mount : MountedOps unit := {|
  mo_open _ _ m := (-1, m); mo_close _ m := (-1, m); mo_read _ _ _ m := ([], -1, m); mo_write _ _ m := (-1, m);
  mo_mkdir _ m := (-1, m); mo_unlink _ m := (-1, m); mo_list _ := []; mo_size _ _ := 0 |}.
Definition no_cpuid (_ : Z) : Z * Z * Z * Z := (0, 0, 0, 0).

Definition machine (t : sched) : vfs (sysenv unit unit) :=
  vfile_init (vfs_init (Vfs [] (replicate 128 no_node) ∅ None (replicate 8 (VfileOpen [] false))
    (replicate 16 no_pipe) [] (Ramfs [] false (KHeap ∅ 0 0 0 ∅))
    (SysEnv [] (zs "plan0" ++ replicate 59 0) [] ∅ 0 (Pmm [] 0 0 0 0 [] 0 0) t tt tt))).

Definition idle_sched : sched := Sched (replicate 64 unused_process) 1 None None None false 0.
Abbreviation idle := (machine idle_sched).

Lemma vfile_read_prints_witness :
  exists s', vfile_read_scratch 10 no_cpuid None (zs "/0/system/version") idle = Some (zs "Plan 0 v0.4.1" ++ [10], 14, s').
Proof.
  destruct (vfile_read_prints 10 no_cpuid None (zs "/0/system/version") (reg_file "/0/system/version" gen_version_fn)
    gen_version_fn idle (Printed gen_version) idle) as [_ E].
  - vm_compute. reflexivity.
  - reflexivity.
  - exact I.
  - reflexivity.
  - eexists. etransitivity; [exact E|]. reflexivity.
Defined.

Lemma hostname_roundtrip_witness :
  exists s1 s2, vfile_write_to (zs "/0/system/hostname") (zs "box" ++ [10]) idle = (3, s1) /\
    vfile_read_scratch 10 no_cpuid None (zs "/0/system/hostname") s1 = Some (zs "box" ++ [10], 4, s2).
Proof.
  destruct (hostname_roundtrip 10 no_cpuid None (zs "/0/system/hostname")
    (reg_file_rw "/0/system/hostname" gen_hostname_fn write_hostname_fn) idle (zs "box" ++ [10]))
    as (ends & s1 & s2 & _ & _ & Hw & _ & Hr).
  - vm_compute. reflexivity.
  - reflexivity.
  - reflexivity.
  - repeat (constructor; [vm_compute; split; reflexivity|]). constructor.
  - vm_compute. reflexivity.
  - exists s1, s2. split; [exact Hw|exact Hr].
Defined.

Lemma vfile_listing_complete_witness :
  exists l, vfile_list (zs "/0/hardware") idle = Some l /\ (zs "memory", true, 0) ∈ l.
Proof.
  destruct (vfile_listing_complete (vfs_init (Vfs [] (replicate 128 no_node) ∅ None (replicate 8 (VfileOpen [] false))
    (replicate 16 no_pipe) [] (Ramfs [] false (KHeap ∅ 0 0 0 ∅))
    (SysEnv [] (zs "plan0" ++ replicate 59 0) [] ∅ 0 (Pmm [] 0 0 0 0 [] 0 0) idle_sched tt tt)))
    (reg_dir "/0/hardware" list_hardware_fn)) as (l & Hl & Hm).
  - rewrite vfile_init_entries. apply (bool_decide_eq_true_1 _). vm_compute. reflexivity.
  - reflexivity.
  - discriminate.
  - exists l. split; [exact Hl|]. apply Hm. split; [reflexivity|]. exists (reg_dir "/0/hardware/memory" list_hw_memory_fn).
    rewrite vfile_init_entries. split; [apply (bool_decide_eq_true_1 _); vm_compute; reflexivity|]. split; [reflexivity|].
    vm_compute. reflexivity.
Defined.

(** Descriptor 3 opened on the virtual file of descriptor 3. *)
Definition looped : vfs (sysenv unit unit) :=
  match @vfs_open _ (vfile_backend 10 no_cpuid) 10 (zs "/0/system/self/fd/3") VFS_O_RDONLY idle with
  | Some (_, s) => s
  | None => idle
  end.
Lemma self_fd_circle_ends_witness : @vfs_read _ (vfile_backend 10 no_cpuid) 3 100 looped = Some ([], -1, looped).
Proof.
  apply (self_fd_circle_ends 10 no_cpuid (fun fd => fd = 3)); [|reflexivity]. intros fd ->. exists 3. split; [|reflexivity].
  exists 3. split; [vm_compute; reflexivity|]. split; [vm_compute; reflexivity|]. split; [vm_compute; discriminate|].
  split; [vm_compute; reflexivity|]. split; [vm_compute; reflexivity|]. split; vm_compute; reflexivity.
Defined.

(** A full table of processes with names of 31 characters. *)
Definition crowd : sched :=
  Sched ((fun i => Process i (replicate 31 (ch "a")) PROC_STATE_READY zero_context 0 0 0 0 0 0 0 0 0 None None) <$> seqZ 1 64)
    65 None None None false 0.

(** The result is [n] and bytes after the buffer were overwritten. *)
Definition overran (n : Z) (x : option (list Z * Z * vfs (sysenv unit unit))) : bool :=
  match x with
  | Some (_, r, s') => (r =? n) && forallb (fun i => negb (byte_at (vfile_scratch (env s')) i =? 0)) (seqZ 2100 30)
  | None => false
  end.
Lemma overran_spec n x (s : vfs (sysenv unit unit)) : overran n x = true -> vfile_scratch (env s) = ∅ ->
  exists out r s', x = Some (out, r, s') /\ r = n /\ (forall i, 2100 <= i < 2130 -> byte_at (vfile_scratch (env s')) i <> 0) /\
    (forall i, byte_at (vfile_scratch (env s)) i = 0).
Proof.
  intros Hc He. destruct x as [[[out r] s']|]; [|discriminate].
  exists out, r, s'. split; [reflexivity|]. apply andb_true_iff in Hc as [Hr Hall]. split; [by apply Z.eqb_eq|]. split.
  - intros i Hi. rewrite forallb_forall in Hall. specialize (Hall i). rewrite <- list_elem_of_In, elem_of_seqZ in Hall.
    specialize (Hall ltac:(lia)). by apply negb_true_iff, Z.eqb_neq in Hall.
  - intros i. unfold byte_at. rewrite He. by rewrite lookup_empty.
Qed.

(** With a full process table of processes with the longest names, reading
    the virtual file of processes prints past the 2048 bytes of the scratch
    buffer: once the digits of a number did not fit, the rest of the table is
    written without any bound. *)
Theorem gen_processes_overflows :
  exists out r s', vfile_read_scratch 10 no_cpuid None (zs "/0/system/processes") (machine crowd) = Some (out, r, s') /\
    r = 2662 /\ (forall i, 2100 <= i < 2130 -> byte_at (vfile_scratch (env s')) i <> 0) /\
    (forall i, byte_at (vfile_scratch (env (machine crowd))) i = 0).
Proof. apply overran_spec; vm_compute; reflexivity. Qed.
End Examples.
