(* ===== verification/Process.v ===== *)
(** * Creating and ending processes (src/src/process/process.c,
      src/src/kernel/elf.c)

    The kernel's state: the scheduler's table and queue, address spaces over
    physical memory, the descriptor layer, the page-table root in CR3 and the
    TSS stack pointer.  The kernel heap is the one inside the descriptor
    layer's RAM filesystem; it is handed to the address-space functions for
    the time of the call.  A kernel stack is a heap block.  Supervisor
    accesses to user addresses go through the tables of CR3 and ignore the
    writable bit (CR0.WP is clear); [None] is a page fault the kernel does not
    survive, or a loop that did not end within the fuel.  The addresses of
    [idle_process_func] and [process_wrapper] are parameters. *)

From S2P Require Import Prelude Pmm KHeap PageTable Vm Scheduler KString Bytes Ramfs Vfs Fds.

Definition STACK_SIZE : Z := 16384.
Definition USER_STACK : Z := 2 ^ 47 - 1.

Record kern (E : Type) : Type := Kern {
  ksched : sched;
  kvm : vmm;
  kvfs : vfs E;
  cr3 : Z;
  rsp0 : Z;
  idle_process : pptr
}.
Arguments Kern {E}.
Arguments ksched {E}.
Arguments kvm {E}.
Arguments kvfs {E}.
Arguments cr3 {E}.
Arguments rsp0 {E}.
Arguments idle_process {E}.

Definition set_user_stack x '(Process pd nm st c ks kt _ vm fd wt pr ct ec nx pv) :=
  Process pd nm st c ks kt x vm fd wt pr ct ec nx pv.
Definition set_exit_code x '(Process pd nm st c ks kt us vm fd wt pr ct _ nx pv) :=
  Process pd nm st c ks kt us vm fd wt pr ct x nx pv.

Section process.
Context {E : Type} `{VfsBackend E} (fuel : nat) (idle_process_func process_wrapper : Z).
Abbreviation kernel := (kern E).
Implicit Types (k : kernel).

Definition set_ksched x k : kernel := Kern x (kvm k) (kvfs k) (cr3 k) (rsp0 k) (idle_process k).
Definition set_kvm x k : kernel := Kern (ksched k) x (kvfs k) (cr3 k) (rsp0 k) (idle_process k).
Definition set_kvfs x k : kernel := Kern (ksched k) (kvm k) x (cr3 k) (rsp0 k) (idle_process k).
Definition set_cr3 x k : kernel := Kern (ksched k) (kvm k) (kvfs k) x (rsp0 k) (idle_process k).
Definition set_rsp0 x k : kernel := Kern (ksched k) (kvm k) (kvfs k) (cr3 k) x (idle_process k).
Definition set_idle x k : kernel := Kern (ksched k) (kvm k) (kvfs k) (cr3 k) (rsp0 k) x.
Definition upd_proc (p : nat) (f : process -> process) k : kernel := set_ksched (upd p f (ksched k)) k.

Definition heap k : kheap := Vfs.vheap (kvfs k).
Definition set_heap h k : kernel := set_kvfs (Vfs.set_vheap h (kvfs k)) k.
Definition on_heap {A} (f : kheap -> option (A * kheap)) k : option (A * kernel) :=
  '(x, h) ← f (heap k); Some (x, set_heap h k).
(** Address-space functions work on the same heap. *)
Definition on_vm {A} (f : vmm -> option (A * vmm)) k : option (A * kernel) :=
  '(x, v) ← f (Vm.set_vheap (heap k) (kvm k)); Some (x, set_heap (Vm.vheap v) (set_kvm v k)).
Definition kfree_at k (p : Z) : option kernel := h ← kfree fuel p (heap k); Some (set_heap h k).
Definition destroy_space k (p : Z) : option kernel := '(_, k) ← on_vm (fun v => v ← vm_destroy_space fuel p v; Some ((), v)) k; Some k.
Definition current_vm k : Z := process_current_vm (ksched k).

(** ** Memory seen through CR3 *)

Definition ldb (m : phys_mem) (p : Z) : Z := (ld m (p - p mod 8) .>> (8 * (p mod 8))) .& 255.
Definition stb (m : phys_mem) (p b : Z) : phys_mem :=
  let w := p - p mod 8 in
  let sh := 8 * (p mod 8) in
  st m w ((ld m w .& u64 (Z.lnot (255 .<< sh))) .| (u8 b .<< sh)).
Definition user_addr k (v : Z) : option Z :=
  let frame := xlate (vmem (kvm k)) (cr3 k) v in if frame =? 0 then None else Some (frame + v mod 4096).
Definition user_load k (v : Z) : option Z := p ← user_addr k v; Some (ldb (vmem (kvm k)) p).
Definition user_store (v b : Z) k : option kernel :=
  p ← user_addr k v; Some (set_kvm (set_vmem (stb (vmem (kvm k)) p b) (kvm k)) k).
Fixpoint user_store_bytes (v : Z) (bs : list Z) k : option kernel :=
  match bs with [] => Some k | b :: bs' => k ← user_store v b k; user_store_bytes (u64 (v + 1)) bs' k end.
Definition user_store64 (v x : Z) k : option kernel := user_store_bytes v (le_bytes 8 x) k.

Definition vm_switch_space (space : Z) k : option kernel :=
  sp ← spaces (kvm k) !! space; Some (set_cr3 (vs_pml4 sp) k).
Definition tss_set_rsp0 (x : Z) k : kernel := set_rsp0 x k.

(** ** Kernel stacks: [*--stack = v] for each [v] in turn *)

Fixpoint push (stack : Z) (vs : list Z) (m : gmap Z Z) : Z * gmap Z Z :=
  match vs with [] => (stack, m) | v :: vs' => push (stack - 8) vs' (store_le (stack - 8) 8 v m) end.
Definition push_frame (stack : Z) (vs : list Z) k : Z * kernel :=
  let '(sp, m) := push stack vs (payload (heap k)) in (sp, set_heap (set_payload m (heap k)) k).

Definition process_init k : option kernel :=
  let clear p := set_fd_table 0 (set_pid 0 (set_state PROC_STATE_UNUSED p)) in
  let s := ksched k in
  let s := Sched (clear <$> process_table s) 1 (ready_queue s) (ready_queue_tail s) (current_process s) (schedule_needed s)
             (time_slice_counter s) in
  i ← alloc_process s;
  let k := set_idle (Some i) (set_ksched s k) in
  let k := upd_proc i (set_state PROC_STATE_READY ∘ set_name (zs "idle") ∘ set_pid 1) (set_ksched (set_next_pid 2 (ksched k)) k) in
  '(stack, k) ← on_heap (kmalloc fuel STACK_SIZE) k;
  let top := u64 (stack + STACK_SIZE) in
  let k := upd_proc i (set_kstack stack top) k in
  let ctx c := CpuContext top idle_process_func 8 16 514 (cx_rdi c) (cx_rsi c) in
  let k := upd_proc i (fun p => set_context (ctx (p_context p)) p) k in
  Some (set_ksched (scheduler_add i (scheduler_init (ksched k))) k).

(** The stack frame that [process_create] builds, in the order of the pushes:
    SS, RSP, RFLAGS, CS, RIP, then the registers from RAX to R15. *)
Definition thread_frame (top entry arg : Z) : list Z :=
  [16; top; 514; 8; process_wrapper; 0; 0; 0; 0; arg; entry; 0; 0; 0; 0; 0; 0; 0; 0; 0].

Definition process_create (name : cstring) (entry arg : Z) k : option (Z * kernel) :=
  match alloc_process (ksched k) with
  | None => Some (0, k)
  | Some i =>
      '(stack, k) ← on_heap (kmalloc fuel STACK_SIZE) k;
      if stack =? 0 then Some (0, upd_proc i (fun p => set_kstack 0 (p_kernel_stack_top p) p) k)
      else
        let top := u64 (stack + STACK_SIZE) in
        let pid := next_pid (ksched k) in
        let k := set_ksched (set_next_pid (u64 (pid + 1)) (ksched k)) k in
        let k := upd_proc i (set_fd_table 0 ∘ set_wake_time 0 ∘ set_cpu_time 0 ∘ set_priority 0 ∘ set_state PROC_STATE_READY ∘
                             set_name (take (Z.to_nat (PROCESS_NAME_LEN - 1)) name) ∘ set_pid pid ∘ set_kstack stack top) k in
        let '(sp, k) := push_frame top (thread_frame top entry arg) k in
        let k := upd_proc i (set_vm 0 ∘ set_context (CpuContext sp process_wrapper 8 16 514 entry arg)) k in
        Some (pid, set_ksched (scheduler_add i (ksched k)) k)
  end.

(** [process_exit] up to the loop it never leaves. *)
Definition process_exit k : option kernel :=
  match process_current (ksched k) with
  | None => Some k
  | Some c =>
      let fd := p_fd_table (get (ksched k) c) in
      k ← (if fd =? 0 then Some k
           else v ← fd_table_destroy fuel fd (set_cur_proc (Some fd) (kvfs k)); Some (upd_proc c (set_fd_table 0) (set_kvfs v k)));
      Some (upd_proc c (set_state PROC_STATE_ZOMBIE) k)
  end.

(** ** elf.c *)

Definition ELF_MAGIC : Z := 1179403647.   (* 0x464C457F *)
Definition sizeof_elf_header : Z := 64.
Definition PT_LOAD : Z := 1.

Section elf_fields.
Context (m : gmap Z Z) (data : Z).
Definition e_class : Z := byte_at m (data + 4).
Definition e_data : Z := byte_at m (data + 5).
Definition e_type : Z := load_le m (data + 16) 2.
Definition e_machine : Z := load_le m (data + 18) 2.
Definition e_entry : Z := load_le m (data + 24) 8.
Definition e_phoff : Z := load_le m (data + 32) 8.
Definition e_phentsize : Z := load_le m (data + 54) 2.
Definition e_phnum : Z := load_le m (data + 56) 2.
End elf_fields.
Definition ph_type (m : gmap Z Z) (ph : Z) : Z := load_le m ph 4.
Definition ph_flags (m : gmap Z Z) (ph : Z) : Z := load_le m (ph + 4) 4.
Definition ph_offset (m : gmap Z Z) (ph : Z) : Z := load_le m (ph + 8) 8.
Definition ph_vaddr (m : gmap Z Z) (ph : Z) : Z := load_le m (ph + 16) 8.
Definition ph_filesz (m : gmap Z Z) (ph : Z) : Z := load_le m (ph + 32) 8.
Definition ph_memsz (m : gmap Z Z) (ph : Z) : Z := load_le m (ph + 40) 8.

Definition elf_validate (m : gmap Z Z) (data : Z) : Z :=
  if negb (load_le m data 4 =? ELF_MAGIC) then -1
  else if negb (e_class m data =? 2) then -1
  else if negb (e_data m data =? 1) then -1
  else if negb (e_type m data =? 2) then -1
  else if negb (e_machine m data =? 62) then -1
  else 0.

(** [for (p = 0; p < pages; p++)]: [false] when no page is left. *)
Fixpoint map_segment (n : nat) (sp : vm_space) (start flags p pages : Z) k : option (bool * kernel) :=
  if pages <=? p then Some (true, k)
  else match n with
  | O => None
  | S n' =>
      let '(phys, pm) := pmm_alloc_page (vpmm (kvm k)) in
      let k := set_kvm (set_vpmm pm (kvm k)) k in
      if phys =? 0 then Some (false, k)
      else
        let '(_, v) := vm_map_page sp (u64 (start + p * PAGE_SIZE)) phys flags (kvm k) in
        map_segment n' sp start flags (p + 1) pages (set_kvm v k)
  end.
(** Zeroes the pages from [addr] up to [end_]. *)
Fixpoint zero_segment (n : nat) (addr end_ : Z) k : option kernel :=
  if end_ <=? addr then Some k
  else match n with
  | O => None
  | S n' => k ← user_store_bytes addr (replicate 4096 0) k; zero_segment n' (u64 (addr + PAGE_SIZE)) end_ k
  end.
Fixpoint copy_segment (n : nat) (dst src j filesz : Z) k : option kernel :=
  if filesz <=? j then Some k
  else match n with
  | O => None
  | S n' => k ← user_store (u64 (dst + j)) (byte_at (payload (heap k)) (src + j)) k; copy_segment n' dst src (j + 1) filesz k
  end.

(** One program header: the new [max_addr], or [None] when memory ran out. *)
Definition load_segment (space data ph max_addr : Z) k : option (option Z * kernel) :=
  let m := payload (heap k) in
  if negb (ph_type m ph =? PT_LOAD) then Some (Some max_addr, k)
  else
    let start := ph_vaddr m ph in
    let end_ := u64 (start + ph_memsz m ph) in
    let start := start .& u64 (Z.lnot 4095) in
    let end_ := u64 (end_ + 4095) .& u64 (Z.lnot 4095) in
    let pages := u64 (end_ - start) / PAGE_SIZE in
    let flags := (VM_FLAG_USER .| VM_FLAG_PRESENT) .| (if ph_flags m ph .& 2 =? 0 then 0 else VM_FLAG_WRITABLE) in
    sp ← spaces (kvm k) !! space;
    '(ok, k) ← map_segment fuel sp start flags 0 pages k;
    if negb ok then Some (None, k)
    else
      k ← zero_segment fuel start end_ k;
      k ← copy_segment fuel (ph_vaddr m ph) (data + ph_offset m ph) 0 (ph_filesz m ph) k;
      Some (Some (Z.max end_ max_addr), k).

Fixpoint load_segments (space data : Z) (todo : list Z) (max_addr : Z) k : option (option Z * kernel) :=
  match todo with
  | [] => Some (Some max_addr, k)
  | i :: todo' =>
      let m := payload (heap k) in
      '(r, k) ← load_segment space data (data + e_phoff m data + i * e_phentsize m data) max_addr k;
      match r with None => Some (None, k) | Some max_addr => load_segments space data todo' max_addr k end
  end.

(** The entry point and the end of the loaded segments; [None] is -1. *)
Definition elf_load (data size : Z) k : option (option (Z * Z) * kernel) :=
  let m := payload (heap k) in
  if (data =? 0) || (size <? sizeof_elf_header) then Some (None, k)
  else if elf_validate m data <? 0 then Some (None, k)
  else
    let space := current_vm k in
    if space =? 0 then Some (None, k)
    else
      '(r, k) ← load_segments space data (seqZ 0 (e_phnum m data)) 0 k;
      Some (match r with Some max_addr => Some (e_entry m data, max_addr) | None => None end, k).

(** ** User processes *)

(** The 16 pages of the user stack: [false] when memory ran out. *)
Fixpoint map_stack (space : Z) (todo : list Z) k : option (bool * kernel) :=
  match todo with
  | [] => Some (true, k)
  | i :: todo' =>
      let '(phys, pm) := pmm_alloc_page (vpmm (kvm k)) in
      let k := set_kvm (set_vpmm pm (kvm k)) k in
      if phys =? 0 then Some (false, k)
      else
        sp ← spaces (kvm k) !! space;
        let '(_, v) := vm_map_page sp (USER_STACK - i * PAGE_SIZE) phys (VM_FLAG_USER .| VM_FLAG_PRESENT .| VM_FLAG_WRITABLE) (kvm k) in
        map_stack space todo' (set_kvm v k)
  end.

(** Where the strings go: each below the previous one. *)
Fixpoint arg_strings (str_top : Z) (argv : list cstring) : list (Z * list Z) * Z :=
  match argv with
  | [] => ([], str_top)
  | a :: argv' =>
      let str_top := str_top - (k_strlen a + 1) in
      let '(ws, low) := arg_strings str_top argv' in ((str_top, a ++ [0]) :: ws, low)
  end.
(** The pointers, from the last argument to the first, upwards from [str_top]. *)
Fixpoint arg_pointers (ptrs str_top : Z) (i : Z) (rargv : list cstring) : list (Z * list Z) :=
  match rargv with
  | [] => []
  | a :: rargv' => (ptrs + 8 * i, le_bytes 8 str_top) :: arg_pointers ptrs (str_top + (k_strlen a + 1)) (i - 1) rargv'
  end.
(** Every store [process_create_user] makes on the user stack, in order, and
    the final stack pointer. *)
Definition arg_stores (ustack : Z) (argv : list cstring) : list (Z * list Z) * Z :=
  let '(strings, low) := arg_strings ustack argv in
  let argc := len argv in
  let ptrs := low - (argc + 1) * 8 in
  let sp := ptrs - 8 in
  (strings ++ [(ptrs + 8 * argc, le_bytes 8 0)] ++ arg_pointers ptrs low (argc - 1) (rev argv) ++ [(sp, le_bytes 8 argc)], sp).

Fixpoint user_stores (ws : list (Z * list Z)) k : option kernel :=
  match ws with [] => Some k | (v, bs) :: ws' => k ← user_store_bytes v bs k; user_stores ws' k end.

Definition process_create_user (name : cstring) (data size : Z) (argv : list cstring) k : option (Z * kernel) :=
  match alloc_process (ksched k) with
  | None => Some (0, k)
  | Some i =>
      '(stack, k) ← on_heap (kmalloc fuel STACK_SIZE) k;
      if stack =? 0 then Some (0, upd_proc i (fun p => set_kstack 0 (p_kernel_stack_top p) p) k)
      else
        let top := u64 (stack + STACK_SIZE) in
        let k := upd_proc i (set_kstack stack top) k in
        '(space, k) ← on_vm (vm_create_space fuel) k;
        let k := upd_proc i (set_vm space) k in
        if space =? 0 then k ← kfree_at k stack; Some (0, k)
        else
          '(ok, k) ← map_stack space (seqZ 0 16) k;
          if negb ok then k ← kfree_at k stack; k ← destroy_space k space; Some (0, k)
          else
            let k := upd_proc i (set_user_stack USER_STACK) k in
            let old_space := current_vm k in
            k ← vm_switch_space space k;
            '(info, k) ← elf_load data size k;
            k ← (if old_space =? 0 then Some k else vm_switch_space old_space k);
            match info with
            | None => k ← kfree_at k stack; k ← destroy_space k space; Some (0, k)
            | Some (entry, _) =>
                let pid := next_pid (ksched k) in
                let k := set_ksched (set_next_pid (u64 (pid + 1)) (ksched k)) k in
                let k := upd_proc i (set_fd_table 0 ∘ set_exit_code 0 ∘ set_cpu_time 0 ∘ set_priority 0 ∘ set_state PROC_STATE_READY ∘
                                     set_name (take (Z.to_nat (PROCESS_NAME_LEN - 1)) name) ∘ set_pid pid) k in
                let '(ws, final_rsp) := arg_stores USER_STACK (take 32 argv) in
                k ← user_stores ws k;
                let '(sp, k) := push_frame top ([35; final_rsp; 514; 27; entry] ++ replicate 15 0) k in
                let ctx c := CpuContext sp (cx_rip c) 8 16 514 (cx_rdi c) (cx_rsi c) in
                let k := upd_proc i (fun p => set_context (ctx (p_context p)) p) k in
                let k := tss_set_rsp0 top k in
                Some (pid, set_ksched (scheduler_add i (ksched k)) k)
            end
  end.
End process.

(** ** Kernel threads *)

Section frames.
Implicit Types (m : gmap Z Z).

(** The pushed words lie below the start, the first one highest; nothing else
    is written. *)
Lemma push_spec vs : forall stack m, let '(sp, m') := push stack vs m in
  sp = stack - 8 * len vs /\ Bytes.frame sp (8 * len vs) m m' /\
  forall j v, vs !! j = Some v -> load_le m' (stack - 8 * (Z.of_nat j + 1)) 8 = u64 v.
Proof.
  induction vs as [|v vs IH]; intros stack m; cbn [push length].
  - split; [lia|]. split; [apply frame_refl|]. intros j v. by rewrite lookup_nil.
  - specialize (IH (stack - 8) (store_le (stack - 8) 8 v m)). destruct (push _ vs _) as [sp m'].
    destruct IH as (-> & Hf & Hw). split; [lia|]. split.
    + eapply frame_trans.
      * eapply frame_weaken; [apply (frame_store_le (stack - 8) 8 v m); lia|lia|lia].
      * eapply frame_weaken; [exact Hf|lia|lia].
    + intros [|j] w Hj; cbn in Hj.
      * injection Hj as <-. rewrite (load_le_frame _ _ _ _ _ _ Hf) by lia.
        replace (stack - 8 * (Z.of_nat 0 + 1)) with (stack - 8) by lia. by rewrite load_le_store_eq by lia.
      * replace (stack - 8 * (Z.of_nat (S j) + 1)) with (stack - 8 - 8 * (Z.of_nat j + 1)) by lia. by apply Hw.
Qed.
End frames.

(** A process without its queue links. *)
Definition unlinked (p : process) : process := set_next None (set_prev None p).

Section links.
Implicit Types (s : sched).

Lemma unlinked_upd s p f j : (forall x, unlinked (f x) = unlinked x) -> unlinked (get (upd p f s) j) = unlinked (get s j).
Proof. intros Hf. destruct (get_upd_cases s p j f) as [->|(_ & _ & ->)]; [done|apply Hf]. Qed.

Lemma unlinked_state x y st : unlinked x = unlinked y -> unlinked (set_state st x) = unlinked (set_state st y).
Proof. destruct x, y. unfold unlinked. cbn. intros E0. injection E0 as -> -> _ -> -> -> -> -> -> -> -> -> ->. done. Qed.

(** Queueing a process changes links and makes it ready, nothing else. *)
Lemma add_unlinked i s j : in_table s i ->
  unlinked (get (scheduler_add i s) j) = unlinked (if decide (i = j) then set_state PROC_STATE_READY (get s j) else get s j).
Proof.
  intros Hi. unfold scheduler_add. set (s2 := upd i _ (upd i _ s)).
  match goal with |- context [get (upd i (set_state PROC_STATE_READY) ?x) j] => set (s3 := x) end.
  assert (H2 : unlinked (get s2 j) = unlinked (get s j)).
  { unfold s2. rewrite unlinked_upd by by intros []. by rewrite unlinked_upd by by intros []. }
  assert (H3 : unlinked (get s3 j) = unlinked (get s2 j)).
  { unfold s3. destruct (ready_queue_tail s2) as [t|]; [|done].
    change (get (set_tail (Some i) ?x) j) with (get x j). by rewrite unlinked_upd by by intros []. }
  assert (Hi3 : in_table s3 i).
  { unfold s3, in_table in *. destruct (ready_queue_tail s2); cbn [process_table set_tail set_head upd s2]; by rewrite !length_alter. }
  destruct (decide (i = j)) as [<-|Hne].
  - rewrite get_upd_eq by done. apply unlinked_state. congruence.
  - rewrite get_upd_ne by done. congruence.
Qed.

Lemma queue_rep_upd_out s ps p f : p ∉ ps -> queue_rep s ps -> queue_rep (upd p f s) ps.
Proof. intros Hp [Hseg Hnd]. split; [by apply dseg_upd_out|done]. Qed.

Lemma alloc_process_spec s i : alloc_process s = Some i -> (i < MAX_PROCESSES)%nat /\ p_state (get s i) = PROC_STATE_UNUSED.
Proof.
  intros Ha. apply find_first_Some in Ha as [Hin Hst]. apply elem_of_seq in Hin. split; [lia|]. by apply bool_decide_eq_true_1 in Hst.
Qed.
End links.

Section create.
Context {E : Type} `{VfsBackend E} (fuel : nat) (idle_process_func process_wrapper : Z).
Implicit Types (k : kern E).

(** What [process_create] needs: a well-formed ready queue of processes in use
    and a heap without too-tight free blocks. *)
Record create_pre k (ps : list nat) (bs : list kheap_block) (e : Z) : Prop := {
  cp_queue : queue_rep (ksched k) ps;
  cp_used : forall p, p ∈ ps -> p_state (get (ksched k) p) <> PROC_STATE_UNUSED;
  cp_table : length (process_table (ksched k)) = MAX_PROCESSES;
  cp_heap : heap_wf (heap k) bs e;
  cp_roomy : KHeap.roomy (align16 STACK_SIZE) bs;
  cp_fuel : (length bs < fuel)%nat
}.

(** The process as [process_create] leaves it. *)
Definition new_thread (name : cstring) (entry arg pid stack : Z) (p : process) : process :=
  Process pid (take 31 name) PROC_STATE_READY
    (CpuContext (stack + STACK_SIZE - 160) process_wrapper 8 16 514 entry arg) stack (stack + STACK_SIZE) (p_user_stack_top p)
    0 0 0 0 0 (p_exit_code p) (p_next p) (p_prev p).

End create.

(** ** The arguments of a user process *)

Section arguments.
Implicit Types (m : gmap Z Z) (ws : list (Z * list Z)) (argv : list cstring).

(** The stores on a byte memory. *)
Definition apply_stores ws m : gmap Z Z := foldl (fun m w => store_bytes w.1 w.2 m) m ws.

(** Each store ends where the one before begins, from [hi] down to [lo]. *)
Fixpoint descending (hi : Z) ws (lo : Z) : Prop :=
  match ws with [] => hi = lo | w :: ws' => w.1 + len w.2 = hi /\ descending w.1 ws' lo end.

Lemma descending_app hi mid lo ws1 ws2 : descending hi ws1 mid -> descending mid ws2 lo -> descending hi (ws1 ++ ws2) lo.
Proof. revert hi. induction ws1 as [|w ws1 IH]; intros hi; cbn [descending app]; [by intros ->|]. intros [? ?] ?. split; [done|by apply IH]. Qed.

Lemma descending_le ws : forall hi lo, descending hi ws lo -> lo <= hi.
Proof. induction ws as [|w ws IH]; intros hi lo; cbn [descending]; [by intros ->|]. intros [? Hd]. apply IH in Hd. lia. Qed.

(** Such stores do not overlap: each one can be read back afterwards. *)
Lemma apply_descending ws : forall hi lo m, descending hi ws lo ->
  Bytes.frame lo (hi - lo) m (apply_stores ws m) /\
  forall v bs, (v, bs) ∈ ws -> load_bytes (apply_stores ws m) v (len bs) = bs.
Proof.
  induction ws as [|[v bs] ws IH]; intros hi lo m Hd; cbn [apply_stores foldl].
  - split; [apply frame_refl|]. intros v bs Hin. by apply elem_of_nil in Hin.
  - destruct Hd as [Hv Hd]. cbn [fst snd] in *. pose proof (descending_le _ _ _ Hd).
    destruct (IH v lo (store_bytes v bs m) Hd) as [Hf Hr]. fold (apply_stores ws (store_bytes v bs m)). split.
    + eapply frame_trans; [eapply frame_weaken; [apply (frame_store_bytes v bs m)|lia|lia]|].
      eapply frame_weaken; [exact Hf|lia|lia].
    + intros v' bs' [E0|Hin]%elem_of_cons; [|by apply Hr]. injection E0 as -> ->.
      rewrite (load_bytes_frame _ _ _ _ _ _ Hf) by lia. apply load_stored.
Qed.

(** The bytes the strings take, terminators included. *)
Definition total argv : Z := foldr (fun a n => len a + 1 + n) 0 argv.

Lemma total_app a1 a2 : total (a1 ++ a2) = total a1 + total a2.
Proof. induction a1 as [|a a1 IH]; [done|]. change (total ((a :: a1) ++ a2)) with (len a + 1 + total (a1 ++ a2)). change (total (a :: a1)) with (len a + 1 + total a1). lia. Qed.
Lemma total_rev argv : total (rev argv) = total argv.
Proof. induction argv as [|a argv IH]; cbn [rev]; [done|]. rewrite total_app, IH. change (total (a :: argv)) with (len a + 1 + total argv). change (total [a]) with (len a + 1 + 0). lia. Qed.
Lemma total_nonneg argv : 0 <= total argv.
Proof. induction argv as [|a argv IH]; [done|]. change (total (a :: argv)) with (len a + 1 + total argv). lia. Qed.

Lemma arg_strings_spec argv : forall top, exists ws, arg_strings top argv = (ws, top - total argv) /\
  descending top ws (top - total argv) /\
  forall i a, argv !! i = Some a -> (top - total (take (S i) argv), a ++ [0]) ∈ ws.
Proof.
  induction argv as [|a argv IH]; intros top; cbn [arg_strings].
  - exists []. change (total []) with 0. rewrite Z.sub_0_r. done.
  - change (total (a :: argv)) with (len a + 1 + total argv). unfold k_strlen. destruct (IH (top - (len a + 1))) as (ws & -> & Hd & Hin).
    replace (top - (len a + 1) - total argv) with (top - (len a + 1 + total argv)) in * by lia.
    eexists. split; [done|]. split; [split; [cbn; rewrite length_app; cbn [length]; lia|exact Hd]|].
    intros [|i] b Hb; cbn in Hb.
    + injection Hb as <-. change (total (take 1 (a :: argv))) with (len a + 1 + 0). rewrite Z.add_0_r. left.
    + right. specialize (Hin i b Hb). change (total (take (S (S i)) (a :: argv))) with (len a + 1 + total (take (S i) argv)).
      by replace (top - (len a + 1 + total (take (S i) argv))) with (top - (len a + 1) - total (take (S i) argv)) by lia.
Qed.

Lemma arg_pointers_spec ptrs rargv : forall str,
  descending (ptrs + 8 * len rargv) (arg_pointers ptrs str (len rargv - 1) rargv) ptrs /\
  forall j a, rargv !! j = Some a ->
    (ptrs + 8 * (len rargv - 1 - Z.of_nat j), le_bytes 8 (str + total (take j rargv))) ∈ arg_pointers ptrs str (len rargv - 1) rargv.
Proof.
  induction rargv as [|a rargv IH]; intros str; [split; [cbn; lia|by intros j a; rewrite lookup_nil]|].
  cbn [arg_pointers length]. replace (Z.of_nat (S (length rargv)) - 1) with (len rargv) by lia.
  destruct (IH (str + (k_strlen a + 1))) as [Hd Hin]. split.
  - split; [cbn [fst snd]; rewrite length_le_bytes; lia|]. cbn [fst]. exact Hd.
  - intros [|j] b Hb; cbn in Hb.
    + change (total (take 0 (a :: rargv))) with 0. rewrite Z.add_0_r. replace (len rargv - Z.of_nat 0) with (len rargv) by lia. left.
    + right. specialize (Hin j b Hb). change (total (take (S j) (a :: rargv))) with (len a + 1 + total (take j rargv)). unfold k_strlen in Hin.
      replace (str + (len a + 1 + total (take j rargv))) with (str + (len a + 1) + total (take j rargv)) by lia.
      by replace (len rargv - Z.of_nat (S j)) with (len rargv - 1 - Z.of_nat j) by lia.
Qed.

Lemma load_le_word m p x : load_bytes m p 8 = le_bytes 8 x -> load_le m p 8 = u64 x.
Proof. intros E0. unfold load_le. rewrite E0, le_bytes_value. done. Qed.

(** The stores that build the arguments of a user process: at the final
    stack pointer lies the number of arguments, above it the pointers to the
    arguments in order and a null pointer; each pointer is the address of a
    copy of its argument with its terminator; and nothing outside the range
    from the stack pointer to the top of the stack is written. *)
Theorem arg_layout_correct ustack argv m :
  ustack < 2 ^ 64 -> 0 <= ustack - total argv - 8 * (len argv + 2) ->
  let '(ws, sp) := arg_stores ustack argv in
  let m' := apply_stores ws m in
  sp = ustack - total argv - 8 * (len argv + 2) /\
  load_le m' sp 8 = len argv /\ load_le m' (sp + 8 + 8 * len argv) 8 = 0 /\
  (forall i a, argv !! i = Some a ->
     let p := load_le m' (sp + 8 + 8 * Z.of_nat i) 8 in
     load_bytes m' p (len a + 1) = a ++ [0] /\ sp + 8 * (len argv + 2) <= p /\ p + len a + 1 <= ustack) /\
  Bytes.frame sp (ustack - sp) m m'.
Proof.
  intros Hu Hlow. unfold arg_stores. destruct (arg_strings_spec argv ustack) as (strs & -> & Hds & Hs).
  set (low := ustack - total argv) in *. set (ptrs := low - (len argv + 1) * 8).
  destruct (arg_pointers_spec ptrs (rev argv) low) as [Hdp Hp]. rewrite length_rev in Hdp, Hp.
  set (pws := arg_pointers _ _ _ _) in *. cbv zeta. pose proof (total_nonneg argv).
  assert (Hd : descending ustack (strs ++ [(ptrs + 8 * len argv, le_bytes 8 0)] ++ pws ++ [(ptrs - 8, le_bytes 8 (len argv))]) (ptrs - 8)).
  { eapply descending_app; [exact Hds|]. split; [cbn [fst snd]; rewrite length_le_bytes; unfold ptrs; lia|]. cbn [fst].
    apply (descending_app _ ptrs _ pws [_]); [exact Hdp|]. split; [cbn [fst snd]; rewrite length_le_bytes; lia|done]. }
  destruct (apply_descending _ _ _ m Hd) as [Hf Hr]. set (m' := apply_stores _ m) in *.
  assert (Hw : forall p x, (p, le_bytes 8 x) ∈ strs ++ [(ptrs + 8 * len argv, le_bytes 8 0)] ++ pws ++ [(ptrs - 8, le_bytes 8 (len argv))] ->
    load_le m' p 8 = u64 x).
  { intros p x Hin. apply load_le_word. pose proof (Hr _ _ Hin) as E0. by rewrite length_le_bytes in E0. }
  split; [unfold ptrs, low; lia|]. split.
  { rewrite (Hw _ (len argv)); [apply u64_id; unfold is_u64, low in *; lia|]. rewrite !elem_of_app. do 3 right. left. }
  split. { rewrite (Hw _ 0); [done|]. rewrite !elem_of_app. right. left. replace (ptrs - 8 + 8 + 8 * len argv) with (ptrs + 8 * len argv) by lia. left. }
  split; [|exact Hf]. intros i a Ha. pose proof (lookup_lt_Some _ _ _ Ha) as Hi.
  assert (Htot : total argv = total (take (S i) argv) + total (drop (S i) argv)) by (by rewrite <- total_app, take_drop).
  pose proof (total_nonneg (drop (S i) argv)). pose proof (total_nonneg (take (S i) argv)).
  assert (Hrev : rev argv !! (length argv - S i)%nat = Some a).
  { rewrite rev_alt. change (rev_append argv []) with (reverse argv). rewrite reverse_lookup by lia. by replace (length argv - S (length argv - S i))%nat with i by lia. }
  pose proof (Hp _ _ Hrev) as Hpin.
  assert (Hpos : low + total (take (length argv - S i) (rev argv)) = ustack - total (take (S i) argv)).
  { rewrite firstn_rev, total_rev. replace (length argv - (length argv - S i))%nat with (S i) by lia.
    unfold low. lia. }
  assert (Hload : load_le m' (ptrs - 8 + 8 + 8 * Z.of_nat i) 8 = ustack - total (take (S i) argv)).
  { rewrite (Hw _ (ustack - total (take (S i) argv))).
    - apply u64_id. unfold is_u64, low in *. lia.
    - rewrite !elem_of_app. right. right. left. rewrite <- Hpos.
      by replace (ptrs - 8 + 8 + 8 * Z.of_nat i) with (ptrs + 8 * (len argv - 1 - Z.of_nat (length argv - S i))) by lia. }
  rewrite Hload. pose proof (Hr _ _ (proj2 (elem_of_app _ _ _) (or_introl (Hs i a Ha)))) as E0.
  rewrite length_app in E0. cbn [length] in E0. replace (Z.of_nat (length a + 1)) with (len a + 1) in E0 by lia. split; [exact E0|].
  split; [unfold ptrs, low; lia|]. rewrite (take_S_r _ _ _ Ha), total_app. change (total [a]) with (len a + 1 + 0).
  pose proof (total_nonneg (take i argv)). lia.
Qed.
End arguments.

(** ** Loading a program from a kernel thread *)

Section kernel_thread.
Context {E : Type} `{VfsBackend E} (fuel : nat).
Implicit Types (k : kern E).

Lemma on_heap_sched {A} (f : kheap -> option (A * kheap)) k x k' : on_heap f k = Some (x, k') ->
  ksched k' = ksched k /\ cr3 k' = cr3 k /\ kvm k' = kvm k.
Proof. unfold on_heap. intros Hr. apply bind_Some in Hr as ([y h] & _ & Hr). by simplify_eq. Qed.
Lemma on_vm_sched {A} (f : vmm -> option (A * vmm)) k x k' : on_vm f k = Some (x, k') -> ksched k' = ksched k /\ cr3 k' = cr3 k.
Proof. unfold on_vm. intros Hr. apply bind_Some in Hr as ([y v] & _ & Hr). by simplify_eq. Qed.
Lemma kfree_at_sched k p k' : kfree_at fuel k p = Some k' -> ksched k' = ksched k /\ cr3 k' = cr3 k /\ kvm k' = kvm k.
Proof. unfold kfree_at. intros Hr. apply bind_Some in Hr as (h & _ & Hr). by simplify_eq. Qed.
Lemma destroy_space_sched k p k' : destroy_space fuel k p = Some k' -> p <> 0 ->
  ksched k' = ksched k /\ cr3 k' = cr3 k /\ spaces (kvm k') !! p = None.
Proof.
  unfold destroy_space, on_vm. intros Hr Hp. apply bind_Some in Hr as ([u k1] & Hv & Hr). apply (inj Some) in Hr. subst k1.
  apply bind_Some in Hv as ([u1 v] & Hv & Hr). injection Hr as <- <-. apply bind_Some in Hv as (v1 & Hv & Hr). injection Hr as <- <-.
  split; [done|]. split; [done|]. cbn [kvm set_heap set_kvfs set_kvm]. unfold vm_destroy_space in Hv.
  rewrite (proj2 (Z.eqb_neq p 0)) in Hv by done. apply bind_Some in Hv as (sp & _ & Hv). apply bind_Some in Hv as (h & _ & Hv).
  apply (inj Some) in Hv. subst v1. cbn [spaces set_spaces]. apply lookup_delete_eq.
Qed.
Lemma map_stack_sched space todo : forall k ok k', map_stack space todo k = Some (ok, k') -> ksched k' = ksched k /\ cr3 k' = cr3 k.
Proof.
  induction todo as [|i todo IH]; intros k ok k'; cbn [map_stack]; [intros Hr; by simplify_eq|].
  destruct (pmm_alloc_page _) as [phys pm]. destruct (phys =? 0); [intros Hr; by simplify_eq|].
  intros Hr. apply bind_Some in Hr as (sp & _ & Hr). destruct (vm_map_page _ _ _ _ _) as [q v]. by apply IH in Hr.
Qed.

(** The caller has no address space of its own. *)
Definition kernel_caller k : Prop :=
  match process_current (ksched k) with
  | Some c => p_vm (get (ksched k) c) = 0 /\ p_state (get (ksched k) c) <> PROC_STATE_UNUSED
  | None => True
  end.

(** Creating a user process from a kernel thread fails for every program:
    the loader maps the program into the caller's address space, of which
    there is none.  The call reports failure; when it got as far as the
    loader, CR3 is left on the page table of the address space it has just
    destroyed. *)
Theorem create_user_from_kernel_thread name data size argv k r k' :
  kernel_caller k -> process_create_user fuel name data size argv k = Some (r, k') ->
  r = 0 /\ next_pid (ksched k') = next_pid (ksched k) /\
  (cr3 k' = cr3 k \/ exists k1 space sp, spaces (kvm k1) !! space = Some sp /\ cr3 k' = vs_pml4 sp /\ spaces (kvm k') !! space = None).
Proof.
  intros Hc. unfold process_create_user. destruct (alloc_process (ksched k)) as [i|] eqn:Ea; [|intros Hr; simplify_eq; auto].
  destruct (alloc_process_spec _ _ Ea) as [_ Hst].
  intros Hr. apply bind_Some in Hr as ([stack k1] & Hk1 & Hr). apply on_heap_sched in Hk1 as (S1 & C1 & _).
  destruct (stack =? 0). { simplify_eq. cbn [ksched upd_proc set_ksched cr3 next_pid upd]. rewrite S1, C1. auto. }
  apply bind_Some in Hr as ([space k2] & Hk2 & Hr). apply on_vm_sched in Hk2 as (S2 & C2). cbn [ksched upd_proc set_ksched cr3] in S2, C2.
  destruct (Z.eqb_spec space 0) as [->|Hsp].
  { apply bind_Some in Hr as (k3 & Hk3 & Hr). apply kfree_at_sched in Hk3 as (S3 & C3 & _). simplify_eq.
    rewrite S3, C3. cbn [ksched upd_proc set_ksched cr3 next_pid upd]. rewrite S2, C2. cbn [next_pid upd]. rewrite S1, C1. auto. }
  apply bind_Some in Hr as ([ok k3] & Hk3 & Hr). apply map_stack_sched in Hk3 as (S3 & C3). cbn [ksched upd_proc set_ksched cr3] in S3, C3.
  destruct ok; cbn [negb] in Hr.
  2:{ apply bind_Some in Hr as (k4 & Hk4 & Hr). apply bind_Some in Hr as (k5 & Hk5 & Hr). simplify_eq.
      apply kfree_at_sched in Hk4 as (S4 & C4 & _). apply destroy_space_sched in Hk5 as (S5 & C5 & _); [|done].
      rewrite S5, C5, S4, C4, S3, C3. cbn [next_pid upd]. rewrite S2, C2. cbn [next_pid upd]. rewrite S1, C1. auto. }
  set (k4 := upd_proc i (set_user_stack USER_STACK) k3) in Hr.
  assert (Hvm : current_vm k4 = 0).
  { unfold current_vm, process_current_vm, kernel_caller in *. unfold k4. cbn [ksched upd_proc set_ksched].
    rewrite S3, S2, S1. unfold process_current in *. cbn [current_process upd].
    destruct (current_process (ksched k)) as [c|]; [|done]. destruct Hc as [Hc1 Hc2].
    assert (i <> c) by (intros <-; exact (Hc2 Hst)). by rewrite !get_upd_ne by done. }
  rewrite Hvm, Z.eqb_refl in Hr. apply bind_Some in Hr as (k5 & Hk5 & Hr). unfold vm_switch_space in Hk5.
  apply bind_Some in Hk5 as (sp & Hspace & Hk5). injection Hk5 as <-.
  apply bind_Some in Hr as ([info k6] & Hk6 & Hr).
  assert (Hload : info = None /\ k6 = set_cr3 (vs_pml4 sp) k4).
  { unfold elf_load in Hk6. change (current_vm (set_cr3 ?a ?b)) with (current_vm b) in Hk6. rewrite Hvm, Z.eqb_refl in Hk6.
    destruct (_ || _); [by simplify_eq|]. destruct (_ <? 0); by simplify_eq. }
  destruct Hload as [-> ->]. apply bind_Some in Hr as (k7 & [= <-] & Hr).
  apply bind_Some in Hr as (k8 & Hk8 & Hr). apply bind_Some in Hr as (k9 & Hk9 & Hr). injection Hr as <- <-.
  apply kfree_at_sched in Hk8 as (S8 & C8 & _). apply destroy_space_sched in Hk9 as (S9 & C9 & Hgone); [|done].
  split; [done|]. split.
  - rewrite S9, S8. unfold k4. cbn [ksched upd_proc set_ksched set_cr3 next_pid upd]. rewrite S3. cbn [next_pid upd]. rewrite S2. cbn [next_pid upd]. by rewrite S1.
  - right. exists k4, space, sp. split; [done|]. split; [by rewrite C9, C8|done].
Qed.
End kernel_thread.

(** ** Witnesses *)

Module Examples.
Import Fds.Examples.

Lemma bool_some {A} (o : option A) : match o with Some _ => true | None => false end = true -> exists x, o = Some x.
Proof. destruct o; [eauto|done]. Qed.

Abbreviation frames := (Pmm [7] 0 1 64 61 (replicate 64 0) 0 0).
Abbreviation space0 := (Vmm ∅ frames (KHeap ∅ 0 0 0 ∅) ∅ 8192).
Abbreviation heap0 := (kheap_init 1048576 65536 ∅).
Abbreviation vfs0 := (Vfs [] (replicate 128 no_node) ∅ None (replicate 8 (VfileOpen [] false))
  (replicate 16 (VfsPipe (replicate 4096 0) 0 0 0 0 0 false)) [] (Ramfs [] false heap0) tt).
Abbreviation sched0 := (Sched (replicate MAX_PROCESSES unused_process) 1 None None None false 0).
(** A machine without processes, 61 free page frames and 64 KiB of heap. *)
Definition boot0 : kern unit := Kern sched0 space0 vfs0 8192 0 None.

Lemma boot0_pre : create_pre 4 boot0 [] [KBlock 0 (65536 - sizeof_block) KHEAP_FREE KHEAP_MAGIC] (1048576 + 65536).
Proof.
  split.
  - split; [done|constructor].
  - intros p Hp. by apply elem_of_nil in Hp.
  - done.
  - apply (kheap_init_wf 1048576 65536 ∅); unfold sizeof_block; lia.
  - constructor; [|constructor]. intros _. vm_compute. discriminate.
  - cbn. lia.
Qed.


Lemma arg_layout_correct_witness :
  let '(ws, sp) := arg_stores 1000 [zs "ls"; zs "-l"] in load_le (apply_stores ws ∅) sp 8 = 2 /\ sp = 962.
Proof.
  pose proof (arg_layout_correct 1000 [zs "ls"; zs "-l"] ∅) as H. destruct (arg_stores 1000 [zs "ls"; zs "-l"]) as [ws sp].
  destruct H as (Hsp & Hn & _).
  - lia.
  - vm_compute. discriminate.
  - split; [exact Hn|]. rewrite Hsp. reflexivity.
Defined.

Lemma create_user_from_kernel_thread_witness :
  exists r k', process_create_user 9 (zs "sh") 4096 100 [] boot0 = Some (r, k') /\ r = 0 /\ next_pid (ksched k') = 1.
Proof.
  destruct (bool_some (process_create_user 9 (zs "sh") 4096 100 [] boot0)) as [[r k'] Hrun]; [vm_compute; reflexivity|].
  exists r, k'. split; [exact Hrun|].
  destruct (create_user_from_kernel_thread 9 (zs "sh") 4096 100 [] boot0 r k' I Hrun) as (Hr & Hn & _). split; [exact Hr|exact Hn].
Defined.
End Examples.
