(* ===== verification/Sys.v ===== *)
(** * System calls (src/src/kernel/sys.c)

    The handler of the system call interrupt.  Pointers that a process passes
    are user addresses, read and written through the current page tables
    ([None] is a page fault); a buffer that is written to a file is read in
    full first.  [now] is [timer_get_ms()].  The descriptor layer learns the
    current process's table from the process table and a table it creates is
    recorded there. *)

From S2P Require Import Prelude Pmm KHeap PageTable Vm Scheduler KString Bytes Ramfs Vfs Process.

(** A call returns a value to its caller or never returns to it. *)
Inductive outcome : Type := Ret (r : Z) | Halts.

Section sys.
Context {E : Type} `{VfsBackend E} (fuel : nat) (process_wrapper now : Z).
Abbreviation kernel := (kern E).
Implicit Types (k : kernel).

Definition cur k : pptr := process_current (ksched k).
Definition cur_table k : option Z := p_fd_table ∘ get (ksched k) <$> cur k.
Definition on_vfs {A} (f : vfs E -> option (A * vfs E)) k : option (A * kernel) :=
  '(x, v) ← f (set_cur_proc (cur_table k) (kvfs k));
  let k := set_kvfs v k in
  Some (x, match cur k, cur_proc v with Some c, Some t => upd_proc c (set_fd_table t) k | _, _ => k end).

Fixpoint user_load_bytes (v : Z) (n : nat) k : option (list Z) :=
  match n with O => Some [] | S n' => b ← user_load k v; bs ← user_load_bytes (u64 (v + 1)) n' k; Some (b :: bs) end.
(** The string at a user address. *)
Fixpoint user_string (n : nat) (v : Z) k : option cstring :=
  match n with
  | O => None
  | S n' => c ← user_load k v; if c =? 0 then Some [] else s ← user_string n' (u64 (v + 1)) k; Some (c :: s)
  end.

(** Results of the calls that return [int], before the conversion to 64 bits. *)
Definition result (r : Z) k : option (Z * kernel) := Some (r, k).

Definition sys_exit k : option (Z * kernel) :=
  result 0 (match cur k with
            | Some c => set_ksched (scheduler_reschedule (upd c (set_state PROC_STATE_ZOMBIE) (ksched k))) k
            | None => k
            end).

Definition sys_read (fd buf count : Z) k : option (Z * kernel) :=
  if fd <? 0 then result (-1) k
  else
    '(out, r, k) ← on_vfs (vfs_read fd count) k;
    k ← user_store_bytes buf out k;
    result r k.

Definition sys_write (fd buf count : Z) k : option (Z * kernel) :=
  data ← user_load_bytes buf (Z.to_nat count) k;
  if (fd =? 1) || (fd =? 2) then result count (set_kvfs (set_console (console (kvfs k) ++ data) (kvfs k)) k)
  else on_vfs (vfs_write fuel fd data) k.

Definition sys_yield k : option (Z * kernel) := result 0 (set_ksched (process_yield (ksched k)) k).
Definition sys_sleep (ms : Z) k : option (Z * kernel) := result 0 (set_ksched (process_sleep now ms (ksched k)) k).
Definition sys_getpid k : option (Z * kernel) :=
  result (match cur k with Some c => p_pid (get (ksched k) c) | None => 0 end) k.

Definition sys_open (name : Z) k : option (Z * kernel) :=
  if name =? 0 then result (-1) k
  else path ← user_string fuel name k; on_vfs (vfs_open fuel path VFS_O_RDONLY) k.

Definition sys_close (fd : Z) k : option (Z * kernel) :=
  match cur_table k with
  | None => result (-1) k
  | Some t =>
      if t =? 0 then result (-1) k
      else if (fd <? 0) || (VFS_MAX_FDS <=? fd) then result (-1) k
      else if bool_decide (slot t fd (kvfs k) = None) then result (-1) k
      else
        '(r, k) ← on_vfs (fun v => Some (fd_table_close t fd v)) k;
        result (if r <? 0 then -1 else 0) k
  end.

Definition child_name (name : cstring) : cstring := take (Z.to_nat (PROCESS_NAME_LEN - 7)) name ++ zs "_child".
Definition sys_fork k : option (Z * kernel) :=
  match cur k with
  | None => result (-1) k
  | Some parent =>
      '(child_pid, k) ← process_create fuel process_wrapper (child_name (p_name (get (ksched k) parent))) 0 0 k;
      if child_pid =? 0 then result (-1) k
      else
        child ← process_get child_pid (ksched k);
        '(child_vm, k) ← on_vm (vm_clone_space fuel (p_vm (get (ksched k) parent))) k;
        if child_vm =? 0 then result (-1) k
        else result (p_pid (get (ksched k) child)) (upd_proc child (set_vm child_vm) k)
  end.

Definition is_blank (c : Z) : bool := (c =? 32) || (c =? 9).
(** The pointers of [argv]: each is the rest of the command line from the
    start of a word on. *)
Fixpoint exec_argv (n : nat) (in_word : bool) (p : cstring) : list cstring :=
  match p with
  | [] => []
  | c :: p' =>
      if is_blank c then exec_argv n false p'
      else if in_word then exec_argv n true p'
      else match n with O => [] | S n' => p :: exec_argv n' true p' end
  end.
(** The first word, at most 255 characters. *)
Fixpoint first_word (n : nat) (p : cstring) : cstring :=
  match n, p with S n', c :: p' => if is_blank c then [] else c :: first_word n' p' | _, _ => [] end.

Definition sys_exec (path : Z) k : option (outcome * kernel) :=
  if path =? 0 then Some (Ret (-1), k)
  else match cur k with
  | None => Some (Ret (-1), k)
  | Some proc =>
      line ← user_string fuel path k;
      let fd := ramfs_find (first_word 255 line) (rfs (kvfs k)) in
      if fd <? 0 then Some (Ret (-1), k)
      else
        let file_size := ramfs_size fd (rfs (kvfs k)) in
        if file_size =? 0 then Some (Ret (-1), k)
        else
          '(elf_data, k) ← on_heap (kmalloc fuel file_size) k;
          if elf_data =? 0 then Some (Ret (-1), k)
          else
            let '(bytes, read_bytes) := ramfs_read fd file_size 0 (rfs (kvfs k)) in
            let k := set_heap (set_payload (store_bytes elf_data bytes (payload (heap k))) (heap k)) k in
            if (read_bytes <? 0) || negb (u32 read_bytes =? file_size) then
              k ← kfree_at fuel k elf_data; Some (Ret (-1), k)
            else
              '(new_pid, k) ← process_create_user fuel (p_name (get (ksched k) proc)) elf_data file_size (exec_argv 32 false line) k;
              k ← kfree_at fuel k elf_data;
              if new_pid =? 0 then Some (Ret (-1), k)
              else k ← process_exit fuel k; Some (Halts, k)
  end.

Definition is_child (parent : nat) k (i : nat) : bool :=
  bool_decide (p_state (get (ksched k) i) = PROC_STATE_ZOMBIE) && negb (bool_decide (i = parent)).
Definition sys_wait (status : Z) k : option (Z * kernel) :=
  match cur k with
  | None => result (-1) k
  | Some parent =>
      match find_first (is_child parent k) (seq 0 MAX_PROCESSES) with
      | Some i =>
          let child := get (ksched k) i in
          k ← (if status =? 0 then Some k else user_store_bytes status (le_bytes 4 (p_exit_code child)) k);
          result (p_pid child) (upd_proc i (set_pid 0 ∘ set_state PROC_STATE_UNUSED) k)
      | None => result (-1) (set_ksched (process_yield (ksched k)) k)
      end
  end.

Definition sys_kill (pid : Z) k : option (Z * kernel) :=
  match process_get pid (ksched k) with
  | None => result (-1) k
  | Some p => result 0 (upd_proc p (set_state PROC_STATE_ZOMBIE) k)
  end.

(** The address space of the current process, when it has one. *)
Definition own_space k : option Z := match cur k with Some c => let v := p_vm (get (ksched k) c) in if v =? 0 then None else Some v | None => None end.

Definition sys_brk (addr : Z) k : option (Z * kernel) :=
  match own_space k with
  | None => result (-1) k
  | Some v =>
      sp ← spaces (kvm k) !! v;
      if addr =? 0 then result (heap_end sp) k
      else if heap_start sp <? addr then
        result addr (set_kvm (set_spaces (<[v := set_heap_end addr sp]> (spaces (kvm k))) (kvm k)) k)
      else result (-1) k
  end.
Definition page_count (size : Z) : Z := u64 (u64 (size + PAGE_SIZE) - 1) / PAGE_SIZE.
Definition sys_mmap (addr size flags : Z) k : option (Z * kernel) :=
  match own_space k with
  | None => result (-1) k
  | Some v =>
      if size =? 0 then result (-1) k
      else '(virt, k) ← on_vm (vm_alloc_pages v (page_count size) flags) k; result (if virt =? 0 then -1 else virt) k
  end.
Definition sys_munmap (addr size : Z) k : option (Z * kernel) :=
  match own_space k with
  | None => result (-1) k
  | Some v =>
      if size =? 0 then result (-1) k
      else
        sp ← spaces (kvm k) !! v;
        result 0 (set_kvm (vm_free_pages sp addr (page_count size) (kvm k)) k)
  end.

Definition sys_pipe (fds : Z) k : option (Z * kernel) :=
  if fds =? 0 then result (-1) k
  else
    '(r, ends, k) ← on_vfs (fun v => Some (vfs_pipe v)) k;
    k ← (match ends with
         | Some (f0, f1) => k ← user_store_bytes fds (le_bytes 4 f0) k; user_store_bytes (u64 (fds + 4)) (le_bytes 4 f1) k
         | None => Some k
         end);
    result r k.
Definition sys_dup (fd : Z) k : option (Z * kernel) := on_vfs (fun v => Some (vfs_dup fd v)) k.
Definition sys_dup2 (oldfd newfd : Z) k : option (Z * kernel) := on_vfs (fun v => Some (vfs_dup2 oldfd newfd v)) k.

Definition as_int (r : option (Z * kernel)) : option (outcome * kernel) := '(r, k) ← r; Some (Ret (u64 (i32 r)), k).
Definition as_u64 (r : option (Z * kernel)) : option (outcome * kernel) := '(r, k) ← r; Some (Ret (u64 r), k).

Definition syscall_handler (num a1 a2 a3 : Z) k : option (outcome * kernel) :=
  match num with
  | 0 => as_int (sys_exit k)
  | 1 => as_int (sys_read (i32 a1) a2 (u32 a3) k)
  | 2 => as_int (sys_write (i32 a1) a2 (u32 a3) k)
  | 3 => as_int (sys_open a1 k)
  | 4 => as_int (sys_close (i32 a1) k)
  | 5 => as_int (sys_fork k)
  | 6 => '(o, k) ← sys_exec a1 k; Some (match o with Ret r => Ret (u64 (i32 r)) | Halts => Halts end, k)
  | 7 => as_int (sys_wait a1 k)
  | 8 => as_int (sys_yield k)
  | 9 => as_int (sys_sleep a1 k)
  | 10 => as_int (sys_getpid k)
  | 11 => as_int (sys_kill a1 k)
  | 12 => as_u64 (sys_brk a1 k)
  | 13 => as_u64 (sys_mmap a1 a2 a3 k)
  | 14 => as_u64 (sys_munmap a1 a2 k)
  | 15 => as_int (sys_pipe a1 k)
  | 16 => as_int (sys_dup (i32 a1) k)
  | 17 => as_int (sys_dup2 (i32 a1) (i32 a2) k)
  | _ => Some (Ret U64_MAX, k)
  end.
End sys.
