(* ===== verification/SysInv.v ===== *)
(** * The descriptor invariant across system calls

    [Fds] shows that each call of the descriptor layer keeps its reference
    counts exact.  Here the layer is composed with the process table and the
    system calls: every process owns its table, and no system call, context
    switch or timer tick breaks that. *)

From S2P Require Import Prelude Pmm KHeap PageTable Vm Scheduler KString Bytes Ramfs Vfs Fds Process Sys.

(** ** Scheduling does not touch descriptor tables *)

Section tables.
Implicit Types (s : sched).

Definition fdt s (i : nat) : Z := p_fd_table (get s i).
(** Every process keeps its table. *)
Definition same_fdt s s' : Prop := forall i, fdt s' i = fdt s i.

#[export] Instance same_fdt_preorder : PreOrder same_fdt.
Proof. split; [done|]. intros s1 s2 s3 H1 H2 i. by rewrite H2, H1. Qed.

Lemma fdt_upd s p f : (forall x, p_fd_table (f x) = p_fd_table x) -> same_fdt s (upd p f s).
Proof. intros Hf i. unfold fdt. destruct (get_upd_cases s p i f) as [->|(_ & _ & ->)]; [done|apply Hf]. Qed.
Lemma fdt_upd_ptr s x f : (forall y, p_fd_table (f y) = p_fd_table y) -> same_fdt s (upd_ptr x f s).
Proof. intros Hf. destruct x; [by apply fdt_upd|done]. Qed.

Ltac fdt_step := first
  [ apply fdt_upd; by intros [] | apply fdt_upd; by intros [? ? ? []] | apply fdt_upd_ptr; by intros [] ].

Lemma fdt_set_tail x s : same_fdt s (set_tail x s).
Proof. done. Qed.
Lemma fdt_add p s : same_fdt s (scheduler_add p s).
Proof.
  unfold scheduler_add. etransitivity; [|fdt_step]. etransitivity; [|apply fdt_set_tail].
  set (s2 := upd p _ (upd p _ s)). assert (same_fdt s s2) as -> by (unfold s2; etransitivity; [|fdt_step]; fdt_step).
  destruct (ready_queue_tail s2); [fdt_step|done].
Qed.
Lemma fdt_pick s : same_fdt s (scheduler_pick s).2.
Proof.
  unfold scheduler_pick. destruct (ready_queue s) as [p|]; [|done]. cbn [snd]. destruct (ready_queue _) as [h|]; [|done].
  intros i. change (fdt s i) with (fdt (set_head (p_next (get s p)) s) i). revert i. fdt_step.
Qed.
Lemma fdt_set_current x s : same_fdt s (scheduler_set_current x s).
Proof. unfold scheduler_set_current. intros i. change (fdt s i) with (fdt (set_current x s) i). revert i. fdt_step. Qed.

Lemma fdt_sleepers now l : forall s, same_fdt s (foldl (check_sleeper now) s l).
Proof.
  induction l as [|i l IH]; intros s; [done|]. cbn [foldl]. etransitivity; [|apply IH]. unfold check_sleeper.
  destruct (_ && _); [|done]. etransitivity; [|apply fdt_add]. etransitivity; [|fdt_step]. fdt_step.
Qed.

Lemma fdt_check_sleepers now s : same_fdt s (process_check_sleepers now s).
Proof. apply fdt_sleepers. Qed.
Lemma fdt_clear s : same_fdt s (scheduler_clear_reschedule s).
Proof. done. Qed.

Lemma fdt_switch now s : same_fdt s (switch_schedule now s).
Proof.
  unfold switch_schedule. etransitivity; [apply (fdt_check_sleepers now)|]. set (s1 := process_check_sleepers now s). pose proof (fdt_pick s1) as Hp.
  destruct (scheduler_pick s1) as [n s2]. cbn [snd] in Hp. etransitivity; [exact Hp|].
  destruct n as [n|], (process_current s1) as [c|]; try done.
  - etransitivity; [|apply fdt_clear]. etransitivity; [|apply fdt_set_current].
    destruct (bool_decide _); [|done]. etransitivity; [|apply fdt_add]. fdt_step.
  - etransitivity; [|apply fdt_clear]. apply fdt_set_current.
Qed.

Lemma fdt_tick s : same_fdt s (scheduler_tick s).
Proof.
  unfold scheduler_tick. destruct (current_process s) as [c|]; [|done]. destruct (_ <=? _); [|done].
  intros i. change (fdt (set_needed true ?x) i) with (fdt x i).
  change (fdt s i) with (fdt (set_slice 0 (set_slice (time_slice_counter s + 1) s)) i). revert i. fdt_step.
Qed.

Lemma fdt_timer fuel rsp s s' : switch_timer_tick fuel rsp s = Some s' -> same_fdt s s'.
Proof.
  unfold switch_timer_tick. intros Hr. etransitivity; [apply fdt_tick|]. set (s1 := scheduler_tick s) in *.
  apply bind_Some in Hr as (s2 & H2 & Hr).
  assert (H12 : same_fdt s1 s2).
  { destruct (process_current s1); [by simplify_eq|]. apply bind_Some in H2 as (n & _ & H2). simplify_eq. by destruct (_ <? _). }
  etransitivity; [exact H12|]. destruct (negb _); [by simplify_eq|]. pose proof (fdt_pick s2) as Hp.
  destruct (scheduler_pick s2) as [n s3]. cbn [snd] in Hp. etransitivity; [exact Hp|].
  destruct n as [n|], (process_current s1) as [c|]; apply (inj Some) in Hr; subst s'; try done.
  - etransitivity; [|apply fdt_clear]. etransitivity; [|apply fdt_set_current]. etransitivity; [|apply fdt_add].
    etransitivity; [|fdt_step]. fdt_step.
  - etransitivity; [|apply fdt_clear]. apply fdt_set_current.
Qed.
End tables.

(** ** What the descriptor calls do to the set of tables *)

Section growth.
Context {E : Type} `{HB : VfsBackend E} `{!VfsBackendOk E} (fuel : nat).
Implicit Types (s : vfs E).

(** No table disappears and the same process stays current. *)
Definition grows s s' : Prop :=
  cur_proc s' = cur_proc s /\ forall t, is_Some (fd_tables s !! t) -> is_Some (fd_tables s' !! t).

#[export] Instance grows_preorder : PreOrder grows.
Proof. split; [by split|]. intros s1 s2 s3 [A1 A2] [B1 B2]. split; [congruence|auto]. Qed.

Lemma grows_same s s' : same_fds s s' -> grows s s'.
Proof. intros [A1 A2 _ _ _]. split; [done|]. by rewrite A1. Qed.
Lemma grows_put t fd x d s : grows s (put_slot t fd x d s).
Proof. split; [done|]. intros t' Ht. apply lookup_insert_is_Some'. by right. Qed.
Lemma grows_node n y s : grows s (set_node n y s).
Proof. by split. Qed.
Lemma grows_alloc_node s : grows s (alloc_node s).2.
Proof. unfold alloc_node. by destruct (find_first _ _). Qed.
Lemma grows_alloc t n s : grows s (fd_table_alloc t n s).2.
Proof. unfold fd_table_alloc. destruct (find_first _ _); [|done]. etransitivity; [apply grows_put|apply grows_node]. Qed.
Lemma grows_drop n s : grows s (drop_ref n s).
Proof.
  unfold drop_ref. etransitivity; [apply (grows_node n (with_ref (ref_count (node s n) + -1) (node s n)))|].
  fold (add_ref n (-1) s). set (s1 := add_ref n (-1) s). destruct (_ <=? 0); [|done]. etransitivity; [|apply grows_node].
  destruct (n_ops _) as [o|]; [|done]. destruct (ops_close o) as [close|] eqn:Ec; [|done]. by apply grows_same, (ops_close_same o).
Qed.
Lemma grows_close t fd s : grows s (fd_table_close t fd s).2.
Proof. unfold fd_table_close. destruct (fd_table_get t fd s); [|done]. etransitivity; [apply grows_drop|apply grows_put]. Qed.
Lemma grows_dup fd s : grows s (vfs_dup fd s).2.
Proof. unfold vfs_dup. destruct (fd_table_get _ _ _); [|done]. apply grows_alloc. Qed.
Lemma grows_dup2 a b s : grows s (vfs_dup2 a b s).2.
Proof.
  unfold vfs_dup2. destruct (_ || _); [done|]. destruct (_ =? _); [done|]. destruct (fd_table_get _ _ _) as [n|]; [|done].
  cbn [snd]. etransitivity; [|apply grows_node]. etransitivity; [|apply grows_put].
  destruct (slot _ _ _); [apply grows_close|done].
Qed.
Lemma grows_pipe s : grows s (vfs_pipe s).2.
Proof.
  unfold vfs_pipe. destruct (pipe_alloc_index s) as [idx|]; [|done]. set (s0 := set_pipe idx _ s).
  pose proof (grows_alloc_node s0) as G1. destruct (alloc_node s0) as [r s1].
  pose proof (grows_alloc_node s1) as G2. destruct (alloc_node s1) as [w s2]. cbn [snd] in *.
  assert (grows s s2) as -> by (etransitivity; [|exact G2]; exact G1). clear G1 G2 s0.
  destruct r as [rn|], w as [wn|]; [|by split..]. set (s3 := set_node wn _ _).
  assert (grows s2 s3) as -> by by split. set (t := get_current_fd_table s3).
  pose proof (grows_alloc t rn s3) as G4. destruct (fd_table_alloc t rn s3) as [f0 s4]. cbn [snd] in G4.
  pose proof (grows_alloc t wn s4) as G5. destruct (fd_table_alloc t wn s4) as [f1 s5]. cbn [snd] in G5.
  rewrite G4, G5. clear. destruct (_ || _); [|done]. cbn [snd].
  assert (forall b t f s, grows s (if 0 <=? b then (fd_table_close t f s).2 else s)) as Hc
    by (intros b t' f s; destruct (0 <=? b); [apply grows_close|done]).
  rewrite (Hc f0 t f0 s5) at 1. set (s6 := if 0 <=? f0 then _ else _). rewrite (Hc f1 t f1 s6) at 1. by split.
Qed.
Lemma grows_open_node path flags s n s' : open_node fuel path flags s = Some (n, s') -> grows s s'.
Proof.
  unfold open_node. destruct (find_ops path s) as [o|]; [|intros Hr; by simplify_eq].
  destruct (ops_open fuel o) as [open|] eqn:Eo; [|intros Hr; by simplify_eq].
  intros Hr. apply bind_Some in Hr as ([ifd s1] & Hop & Hr). rewrite (grows_same _ _ (ops_open_same _ _ _ _ _ _ _ _ Eo Hop)).
  destruct (ifd <? 0); [by simplify_eq|]. pose proof (grows_alloc_node s1) as G2.
  destruct (alloc_node s1) as [[m|] s2]; cbn [snd] in G2; rewrite G2.
  - apply bind_Some in Hr as ([sz s3] & Esz & Hr). injection Hr as <- <-. etransitivity; [|apply grows_node].
    destruct (ops_size o) as [size|] eqn:Es; [|by simplify_eq]. apply grows_same. by apply (ops_size_same o size ifd _ sz).
  - injection Hr as <- <-. destruct (ops_close o) as [close|] eqn:Ec; [|done]. by apply grows_same, (ops_close_same o).
Qed.

Lemma grows_write fd buf s r s' : vfs_write fuel fd buf s = Some (r, s') -> grows s s'.
Proof.
  unfold vfs_write. destruct (fd_table_get _ fd s) as [n|]; [|intros Hr; by simplify_eq].
  destruct (n_ops (node s n)) as [o|]; cbn [mbind option_bind]; [|intros Hr; by simplify_eq].
  destruct (ops_write fuel o) as [write|] eqn:Ew; [|intros Hr; by simplify_eq]. destruct (_ =? _); [intros Hr; by simplify_eq|].
  intros Hr. apply bind_Some in Hr as ([k s1] & E1 & Hr). apply (ops_write_same fuel o write) in E1; [|done].
  injection Hr as <- <-. rewrite (grows_same _ _ E1). by destruct (0 <? k).
Qed.

(** Opening a file can also create the table of the current process. *)
Definition grows_or_creates s s' : Prop :=
  grows s s' \/
  cur_proc s = Some 0 /\ exists p, cur_proc s' = Some p /\ p <> kernel_fd_table /\ fd_tables s !! p = None /\
    forall t, is_Some (fd_tables s !! t) \/ t = p -> is_Some (fd_tables s' !! t).

Lemma open_creates path flags s r s' : fd_inv None s -> open_fresh fuel path flags s ->
  vfs_open fuel path flags s = Some (r, s') -> grows_or_creates s s'.
Proof.
  intros Hinv Hfresh Hr. unfold vfs_open in Hr. apply bind_Some in Hr as ([n s1] & Hop & Hr).
  pose proof (grows_open_node _ _ _ _ _ Hop) as G1. unfold open_fresh in Hfresh. rewrite Hop in Hfresh.
  destruct (open_node_inv fuel _ _ _ _ _ Hinv Hop) as [I1 _].
  destruct (Z.ltb_spec n 0) as [Hlt|Hge]; [simplify_eq; by left|]. specialize (Hfresh Hge).
  apply bind_Some in Hr as ([t s2] & Hot & Hr).
  assert (G3 : grows s2 s').
  { destruct (t =? 0); [simplify_eq; by split|]. pose proof (grows_alloc t n s2) as G. destruct (fd_table_alloc t n s2) as [fd s3].
    cbn [snd] in G. destruct (fd <? 0); simplify_eq; [|done]. rewrite G. by split. }
  unfold open_table in Hot. destruct (cur_proc s1) as [c|] eqn:Ec; [|simplify_eq; left; by rewrite G1].
  destruct (Z.eqb_spec c 0) as [->|Hc]; cbn [negb] in Hot; [|simplify_eq; left; by rewrite G1].
  apply bind_Some in Hot as ([p s3] & Hcr & Hot). injection Hot as <- <-.
  destruct (create_inv fuel s1 p s3 I1 Hfresh Hcr) as (_ & C2 & C3 & _).
  assert (G4 : forall t', is_Some (fd_tables s1 !! t') -> is_Some (fd_tables s3 !! t')).
  { unfold fd_table_create in Hcr. apply bind_Some in Hcr as ([q h] & _ & Hcr). destruct (q =? 0); [by simplify_eq|]. injection Hcr as <- <-.
    intros t' Ht'. apply (install_std_frame q [0; 1; 2] (set_table q empty_table (set_vheap h s1))). apply lookup_insert_is_Some'. by right. }
  destruct (Z.eqb_spec p 0) as [->|Hp].
  - left. rewrite G1. rewrite <- G3. split; [done|exact G4].
  - right. destruct G1 as [H1 H2], G3 as [H3 H4]. split; [congruence|]. exists p. split; [done|].
    destruct (C3 Hp) as [Hk Hl]. split; [done|]. split.
    + unfold fd_table_create in Hcr. apply bind_Some in Hcr as ([q h] & Hk' & Hcr). specialize (Hfresh _ _ Hk').
      destruct (q =? 0); simplify_eq. apply eq_None_not_Some. intros Hs%H2. rewrite Hfresh in Hs. by destruct Hs.
    + intros t [Ht| ->]; apply H4; cbn [fd_tables set_cur_proc]; auto.
Qed.
End growth.

(** ** The kernel *)

Section kernel.
Context {E : Type} `{HB : VfsBackend E} `{HO : !VfsBackendOk E} (fuel : nat) (process_wrapper now : Z).
Implicit Types (k : kern E).

(** The descriptor layer without its notion of a current process. *)
Definition layer k : vfs E := set_cur_proc None (kvfs k).

(** The descriptor invariant; every table a process refers to is live and is
    not the kernel's; no two processes refer to the same one. *)
Record kinv k : Prop := {
  ki_fds : fd_inv None (layer k);
  ki_live : forall i, fdt (ksched k) i <> 0 ->
    fdt (ksched k) i <> kernel_fd_table /\ is_Some (fd_tables (kvfs k) !! fdt (ksched k) i);
  ki_own : forall i j, i <> j -> fdt (ksched k) i <> 0 -> fdt (ksched k) i <> fdt (ksched k) j
}.

(** Steps that leave the layer alone and at most clear table pointers. *)
Record keeps k k' : Prop := {
  kp_fds : same_fds (layer k) (layer k');
  kp_table : forall i, fdt (ksched k') i = fdt (ksched k) i \/ fdt (ksched k') i = 0
}.

#[export] Instance keeps_preorder : PreOrder keeps.
Proof.
  split; [split; [done|by left]|]. intros k1 k2 k3 [A1 A2] [B1 B2]. split; [by etransitivity|].
  intros i. destruct (B2 i) as [->|]; [apply A2|by right].
Qed.

Lemma keeps_kinv k k' : keeps k k' -> kinv k -> kinv k'.
Proof.
  intros [A1 A2] [B1 B2 B3]. pose proof (sf_tables _ _ A1 : fd_tables (kvfs k') = fd_tables (kvfs k)) as Ht. split.
  - by eapply fd_inv_same.
  - intros i Hi. rewrite Ht. destruct (A2 i) as [E0|]; [|done]. rewrite E0 in *. by apply B2.
  - intros i j Hne Hi. destruct (A2 i) as [E1|]; [|done]. rewrite E1 in *. destruct (A2 j) as [->| ->]; [by apply B3|done].
Qed.

Lemma keeps_sched s k : same_fdt (ksched k) s -> keeps k (set_ksched s k).
Proof. intros Hs. split; [done|]. intros i. left. apply Hs. Qed.
Lemma keeps_upd p f k : (forall x, p_fd_table (f x) = p_fd_table x \/ p_fd_table (f x) = 0) -> keeps k (upd_proc p f k).
Proof.
  intros Hf. split; [done|]. intros i. cbn [ksched upd_proc set_ksched]. unfold fdt.
  destruct (get_upd_cases (ksched k) p i f) as [->|(_ & _ & ->)]; [by left|apply Hf].
Qed.
Lemma keeps_fields k k' : kvfs k' = kvfs k -> process_table (ksched k') = process_table (ksched k) -> keeps k k'.
Proof. intros Hv Ht. split; [by unfold layer; rewrite Hv|]. intros i. left. unfold fdt, get. by rewrite Ht. Qed.
Lemma keeps_heap h k : keeps k (set_heap h k).
Proof. by split; [|left]. Qed.
Lemma keeps_on_heap {A} (f : kheap -> option (A * kheap)) k x k' : on_heap f k = Some (x, k') -> keeps k k'.
Proof. unfold on_heap. intros Hr. apply bind_Some in Hr as ([y h] & _ & Hr). injection Hr as <- <-. apply keeps_heap. Qed.
Lemma keeps_on_vm {A} (f : vmm -> option (A * vmm)) k x k' : on_vm f k = Some (x, k') -> keeps k k'.
Proof. unfold on_vm. intros Hr. apply bind_Some in Hr as ([y h] & _ & Hr). injection Hr as <- <-. by split; [|left]. Qed.
Lemma keeps_kfree k p k' : kfree_at fuel k p = Some k' -> keeps k k'.
Proof. unfold kfree_at. intros Hr. apply bind_Some in Hr as (h & _ & Hr). injection Hr as <-. apply keeps_heap. Qed.
Lemma keeps_destroy k p k' : destroy_space fuel k p = Some k' -> keeps k k'.
Proof. unfold destroy_space. intros Hr. apply bind_Some in Hr as ([u k1] & Hv & Hr). injection Hr as <-. by eapply keeps_on_vm. Qed.
Lemma keeps_push top vs k : keeps k (push_frame top vs k).2.
Proof. unfold push_frame. destruct (push _ _ _). apply keeps_heap. Qed.
Lemma keeps_add p k : keeps k (set_ksched (scheduler_add p (ksched k)) k).
Proof. apply keeps_sched, fdt_add. Qed.

Lemma keeps_user_stores bs : forall v k k', user_store_bytes v bs k = Some k' -> keeps k k'.
Proof.
  induction bs as [|b bs IH]; intros v k k'; cbn [user_store_bytes]; [intros Hr; by simplify_eq|].
  intros Hr. apply bind_Some in Hr as (k1 & H1 & Hr). unfold user_store in H1. apply bind_Some in H1 as (p & _ & H1). injection H1 as <-.
  apply IH in Hr. rewrite <- Hr. by apply keeps_fields.
Qed.
Lemma keeps_user_store v b k k' : user_store v b k = Some k' -> keeps k k'.
Proof. unfold user_store. intros Hr. apply bind_Some in Hr as (p & _ & Hr). injection Hr as <-. by apply keeps_fields. Qed.

Lemma keeps_map_segment n sp start flags pages : forall p k ok k',
  map_segment n sp start flags p pages k = Some (ok, k') -> keeps k k'.
Proof.
  induction n as [|n IH]; intros p k ok k'; cbn [map_segment]; destruct (_ <=? _); try (intros Hr; by simplify_eq).
  destruct (pmm_alloc_page _) as [phys pm]. destruct (phys =? 0); [intros Hr; simplify_eq; by apply keeps_fields|].
  destruct (vm_map_page _ _ _ _ _) as [q v]. intros Hr%IH. rewrite <- Hr. by apply keeps_fields.
Qed.
Lemma keeps_zero n end_ : forall addr k k', zero_segment n addr end_ k = Some k' -> keeps k k'.
Proof.
  induction n as [|n IH]; intros addr k k'; cbn [zero_segment]; destruct (_ <=? _); try (intros Hr; by simplify_eq).
  intros Hr. apply bind_Some in Hr as (k1 & H1 & Hr). apply keeps_user_stores in H1. apply IH in Hr. by rewrite H1, Hr.
Qed.
Lemma keeps_copy n dst src filesz : forall j k k', copy_segment n dst src j filesz k = Some k' -> keeps k k'.
Proof.
  induction n as [|n IH]; intros j k k'; cbn [copy_segment]; destruct (_ <=? _); try (intros Hr; by simplify_eq).
  intros Hr. apply bind_Some in Hr as (k1 & H1 & Hr). apply keeps_user_store in H1. apply IH in Hr. by rewrite H1, Hr.
Qed.
Lemma keeps_segment space data ph mx k r k' : load_segment fuel space data ph mx k = Some (r, k') -> keeps k k'.
Proof.
  unfold load_segment. cbv zeta. destruct (negb _); [intros Hr; by simplify_eq|].
  intros Hr. apply bind_Some in Hr as (sp & _ & Hr). apply bind_Some in Hr as ([ok k1] & H1 & Hr).
  apply keeps_map_segment in H1. rewrite H1. destruct (negb ok); [by simplify_eq|].
  apply bind_Some in Hr as (k2 & H2 & Hr). apply keeps_zero in H2. rewrite H2.
  apply bind_Some in Hr as (k3 & H3 & Hr). apply keeps_copy in H3. rewrite H3. by simplify_eq.
Qed.
Lemma keeps_segments space data todo : forall mx k r k', load_segments fuel space data todo mx k = Some (r, k') -> keeps k k'.
Proof.
  induction todo as [|i todo IH]; intros mx k r k'; cbn [load_segments]; [intros Hr; by simplify_eq|].
  intros Hr. apply bind_Some in Hr as ([[m|] k1] & H1 & Hr); apply keeps_segment in H1; rewrite H1; [by eapply IH|by simplify_eq].
Qed.
Lemma keeps_elf data size k r k' : elf_load fuel data size k = Some (r, k') -> keeps k k'.
Proof.
  unfold elf_load. cbv zeta. destruct (_ || _); [intros Hr; by simplify_eq|]. destruct (_ <? 0); [intros Hr; by simplify_eq|].
  destruct (_ =? 0); [intros Hr; by simplify_eq|]. intros Hr. apply bind_Some in Hr as ([x k1] & H1 & Hr).
  apply keeps_segments in H1. rewrite H1. by simplify_eq.
Qed.
Lemma keeps_map_stack space todo : forall k ok k', map_stack space todo k = Some (ok, k') -> keeps k k'.
Proof.
  induction todo as [|i todo IH]; intros k ok k'; cbn [map_stack]; [intros Hr; by simplify_eq|].
  destruct (pmm_alloc_page _) as [phys pm]. destruct (phys =? 0); [intros Hr; simplify_eq; by apply keeps_fields|].
  intros Hr. apply bind_Some in Hr as (sp & _ & Hr). destruct (vm_map_page _ _ _ _ _) as [q v]. apply IH in Hr. rewrite <- Hr. by apply keeps_fields.
Qed.
Lemma keeps_arg_stores ws : forall k k', user_stores ws k = Some k' -> keeps k k'.
Proof.
  induction ws as [|[v bs] ws IH]; intros k k'; cbn [user_stores]; [intros Hr; by simplify_eq|].
  intros Hr. apply bind_Some in Hr as (k1 & H1 & Hr). apply keeps_user_stores in H1. apply IH in Hr. by rewrite H1, Hr.
Qed.
Lemma keeps_switch_space sp k k' : vm_switch_space sp k = Some k' -> keeps k k'.
Proof. unfold vm_switch_space. intros Hr. apply bind_Some in Hr as (x & _ & Hr). injection Hr as <-. by apply keeps_fields. Qed.

Lemma keeps_rsp0 x k : keeps k (tss_set_rsp0 x k).
Proof. by apply keeps_fields. Qed.

Ltac keeps_proc := apply keeps_upd; intros []; cbn; auto.

Lemma keeps_create name entry arg k r k' : process_create fuel process_wrapper name entry arg k = Some (r, k') -> keeps k k'.
Proof.
  unfold process_create. destruct (alloc_process _) as [i|]; [|intros Hr; by simplify_eq].
  intros Hr. apply bind_Some in Hr as ([stack k1] & H1 & Hr). apply keeps_on_heap in H1. rewrite H1. clear H1.
  destruct (stack =? 0); [injection Hr as <- <-; keeps_proc|]. cbv zeta in Hr.
  match type of Hr with context [push_frame ?t ?vs ?kk] => pose proof (keeps_push t vs kk) as Hp; destruct (push_frame t vs kk) as [sp k2] end.
  cbn [snd] in Hp. apply (inj Some) in Hr. apply (inj2 pair) in Hr as [<- <-]. etransitivity; [|apply keeps_add]. etransitivity; [|keeps_proc].
  rewrite <- Hp. etransitivity; [|keeps_proc]. by apply keeps_fields.
Qed.

Lemma keeps_create_user name data size argv k r k' : process_create_user fuel name data size argv k = Some (r, k') -> keeps k k'.
Proof.
  unfold process_create_user. destruct (alloc_process _) as [i|]; [|intros Hr; by simplify_eq].
  intros Hr. apply bind_Some in Hr as ([stack k1] & H1 & Hr). apply keeps_on_heap in H1. rewrite H1. clear H1.
  destruct (stack =? 0); [injection Hr as <- <-; keeps_proc|]. apply bind_Some in Hr as ([space k2] & H2 & Hr).
  apply keeps_on_vm in H2. etransitivity; [etransitivity; [|exact H2]; keeps_proc|]. clear H2.
  etransitivity; [apply (keeps_upd i (set_vm space)); intros []; cbn; auto|]. set (k3 := upd_proc i (set_vm space) k2) in *.
  destruct (space =? 0).
  { apply bind_Some in Hr as (k4 & H4 & Hr). injection Hr as <- <-. by apply keeps_kfree in H4. }
  apply bind_Some in Hr as ([ok k4] & H4 & Hr). apply keeps_map_stack in H4. rewrite H4. clear H4. destruct (negb ok).
  { apply bind_Some in Hr as (k5 & H5 & Hr). apply keeps_kfree in H5. rewrite H5. apply bind_Some in Hr as (k6 & H6 & Hr).
    injection Hr as <- <-. by apply keeps_destroy in H6. }
  etransitivity; [apply (keeps_upd i (set_user_stack USER_STACK)); intros []; cbn; auto|]. set (k5 := upd_proc i _ k4) in *.
  apply bind_Some in Hr as (k6 & H6 & Hr). apply keeps_switch_space in H6. rewrite H6. clear H6.
  apply bind_Some in Hr as ([info k7] & H7 & Hr). apply keeps_elf in H7. rewrite H7. clear H7.
  apply bind_Some in Hr as (k8 & H8 & Hr). assert (keeps k7 k8) as ->.
  { destruct (_ =? 0); [by simplify_eq|]. by apply keeps_switch_space in H8. }
  clear H8. destruct info as [[entry mx]|].
  2:{ apply bind_Some in Hr as (k9 & H9 & Hr). apply keeps_kfree in H9. rewrite H9. apply bind_Some in Hr as (k10 & H10 & Hr).
      injection Hr as <- <-. by apply keeps_destroy in H10. }
  destruct (arg_stores _ _) as [ws rsp]. apply bind_Some in Hr as (k9 & H9 & Hr). apply keeps_arg_stores in H9.
  match type of Hr with context [push_frame ?t ?vs ?kk] => pose proof (keeps_push t vs kk) as Hp; destruct (push_frame t vs kk) as [sp k10] end.
  cbn [snd] in Hp. apply (inj Some) in Hr. apply (inj2 pair) in Hr as [<- <-]. etransitivity; [|apply keeps_add]. etransitivity; [|apply keeps_rsp0].
  etransitivity; [|keeps_proc]. rewrite <- Hp, <- H9. etransitivity; [|keeps_proc]. by apply keeps_fields.
Qed.

(** The descriptor calls, made by the current process. *)
Lemma on_vfs_kinv {A} (f : vfs E -> option (A * vfs E)) k x k' : kinv k ->
  (forall v y v', fd_inv None v -> v = set_cur_proc (cur_table k) (kvfs k) -> f v = Some (y, v') -> fd_inv None v' /\ grows_or_creates v v') ->
  on_vfs f k = Some (x, k') -> kinv k'.
Proof.
  intros [B1 B2 B3] Hf Hr. unfold on_vfs in Hr. apply bind_Some in Hr as ([y v'] & Hv & Hr). injection Hr as -> <-.
  set (v := set_cur_proc (cur_table k) (kvfs k)) in *.
  assert (Hinv : fd_inv None v).
  { apply (set_cur_inv None (cur_table k) (layer k)); [done|]. intros t Ht Hz. unfold cur_table in Ht.
    apply fmap_Some in Ht as (c & _ & ->). by apply (B2 c). }
  destruct (Hf v x v' Hinv eq_refl Hv) as [Hi Hg]. clear Hf Hv.
  assert (Hl : forall s, layer (set_kvfs v' s) = set_cur_proc None v') by done.
  assert (Hup : forall c t, layer (upd_proc c (set_fd_table t) (set_kvfs v' k)) = set_cur_proc None v') by done.
  assert (Hi' : fd_inv None (set_cur_proc None v')) by by apply set_cur_inv.
  change (cur (set_kvfs v' k)) with (cur k). unfold cur_table in v.
  destruct (cur k) as [c|] eqn:Ec; cbn [fmap option_fmap option_map] in v.
  2:{ destruct Hg as [[_ G2]|[G1 _]]; [|done]. split; [done| |done]. intros i Hi0. destruct (B2 i Hi0). split; [done|by apply G2]. }
  assert (Hc : cur_proc v = Some (fdt (ksched k) c)) by done.
  destruct Hg as [[G1 G2]|(G1 & p & G2 & G3 & G4 & G5)].
  - rewrite G1, Hc. assert (Hs : same_fdt (ksched k) (upd c (set_fd_table (fdt (ksched k) c)) (ksched k))).
    { intros i. unfold fdt. destruct (get_upd_cases (ksched k) c i (set_fd_table (p_fd_table (get (ksched k) c)))) as [->|(<- & _ & ->)]; [done|].
      by destruct (get (ksched k) c). }
    split; [done| |]; cbn [ksched upd_proc set_ksched set_kvfs kvfs].
    + intros i Hz. rewrite Hs in *. destruct (B2 i Hz). split; [done|by apply G2].
    + intros i j Hne Hz. rewrite !Hs in *. by apply B3.
  - rewrite G2. assert (Hp : p <> 0).
    { intros ->. destruct (fi_zero _ _ Hi'). specialize (G5 0 (or_intror eq_refl)). destruct G5 as [z Hz]. pose proof (fi_zero _ _ Hi). congruence. }
    assert (Hcase : forall i, (i <> c /\ fdt (upd c (set_fd_table p) (ksched k)) i = fdt (ksched k) i) \/
                              (i = c /\ (fdt (upd c (set_fd_table p) (ksched k)) i = p \/ fdt (upd c (set_fd_table p) (ksched k)) i = 0))).
    { intros i. destruct (decide (i = c)) as [->|Hne].
      - right. split; [done|]. unfold fdt. destruct (get_upd_cases (ksched k) c c (set_fd_table p)) as [->|(_ & _ & ->)].
        + right. rewrite Hc in G1. by injection G1.
        + left. by destruct (get (ksched k) c).
      - left. split; [done|]. unfold fdt. by rewrite get_upd_ne by congruence. }
    assert (Hnew : forall i, fdt (ksched k) i <> p).
    { intros i Hip. destruct (B2 i ltac:(congruence)) as [_ Hs]. rewrite Hip in Hs. change (fd_tables (kvfs k)) with (fd_tables v) in Hs. rewrite G4 in Hs. by destruct Hs. }
    split; [done| |]; cbn [ksched upd_proc set_ksched set_kvfs kvfs].
    + intros i Hz. destruct (Hcase i) as [[_ E0]|[_ [E0|E0]]]; rewrite E0 in *; [|by split; [|apply G5; right]|done].
      destruct (B2 i Hz). split; [done|apply G5; by left].
    + intros i j Hne Hz. destruct (Hcase i) as [[_ Ei]|[Ei' [Ei|Ei]]], (Hcase j) as [[_ Ej]|[Ej' [Ej|Ej]]]; rewrite Ei, Ej in *; try congruence.
      by apply B3.
Qed.

Lemma destroy_keeps t t' s s' : fd_table_destroy fuel t s = Some s' -> t' <> t -> is_Some (fd_tables s !! t') -> is_Some (fd_tables s' !! t').
Proof.
  unfold fd_table_destroy. intros Hr Hne Ht. destruct (t =? 0); [by simplify_eq|].
  assert (G : forall l s, grows s (foldl (destroy_slot t) s l)).
  { clear. induction l as [|fd l IH]; intros s; [done|]. cbn [foldl]. rewrite <- IH. unfold destroy_slot.
    destruct (slot t fd s); [|done]. etransitivity; [apply grows_drop|apply grows_put]. }
  cbv zeta in Hr. assert (grows s (drop_slots t s)) as [_ G2] by apply G.
  revert Hr G2. generalize (drop_slots t s). intros s1 Hr G2. apply bind_Some in Hr as (h & _ & Hr). injection Hr as <-.
  cbn [fd_tables set_fd_tables]. rewrite lookup_delete_ne by congruence. by apply G2.
Qed.

(** [process_exit] destroys a table no other process refers to. *)
Lemma exit_kinv k k' : kinv k -> process_exit fuel k = Some k' -> kinv k'.
Proof.
  intros Hk0 Hr. pose proof Hk0 as [B1 B2 B3]. unfold process_exit in Hr. destruct (process_current (ksched k)) as [c|]; [|by simplify_eq].
  apply bind_Some in Hr as (k1 & H1 & Hr). injection Hr as <-.
  apply (keeps_kinv k1); [keeps_proc|]. fold (fdt (ksched k) c) in H1.
  destruct (Z.eqb_spec (fdt (ksched k) c) 0) as [Hz|Hz]; [by simplify_eq|].
  apply bind_Some in H1 as (v & Hd & H1). injection H1 as <-. set (t := fdt (ksched k) c) in *.
  destruct (B2 c Hz) as [Hk Hl].
  assert (Hinv : fd_inv None (set_cur_proc (Some t) (kvfs k))).
  { apply (set_cur_inv None (Some t) (layer k)); [done|]. by intros ? [= <-]. }
  pose proof (exit_inv fuel _ t v Hinv eq_refl Hz Hd) as Hi.
  assert (Hsame : forall i, i <> c -> fdt (upd c (set_fd_table 0) (ksched k)) i = fdt (ksched k) i)
    by (intros i Hne; unfold fdt; by rewrite get_upd_ne by congruence).
  assert (Hzero : fdt (upd c (set_fd_table 0) (ksched k)) c = 0).
  { unfold fdt. destruct (get_upd_cases (ksched k) c c (set_fd_table 0)) as [E0|(_ & _ & ->)]; [|by destruct (get _ c)].
    unfold t, fdt, get in Hz. unfold get, upd. cbn [process_table]. rewrite list_lookup_alter_eq.
    destruct (process_table (ksched k) !! c); [by destruct p|done]. }
  split; cbn [ksched upd_proc set_ksched set_kvfs kvfs].
  - exact (set_cur_inv None None _ Hi ltac:(done)).
  - intros i Hi0. destruct (decide (i = c)) as [->|Hne]; [done|]. rewrite Hsame in * by done. destruct (B2 i Hi0) as [Hk' Hl'].
    split; [done|]. apply (destroy_keeps t _ _ _ Hd); [|done]. by apply B3.
  - intros i j Hne Hi0. destruct (decide (i = c)) as [->|Hic]; [done|]. rewrite Hsame in * by done.
    destruct (decide (j = c)) as [->|Hjc]; [by rewrite Hzero|]. rewrite Hsame by done. by apply B3.
Qed.

Lemma same_creates (v v' : vfs E) : fd_inv None v -> same_fds v v' -> fd_inv None v' /\ grows_or_creates v v'.
Proof. intros Hi Hs. split; [by eapply fd_inv_same|left; by apply grows_same]. Qed.

(** Whether the table that the call may create is new memory. *)
Definition open_ok (num a1 : Z) k : Prop :=
  num = 3 -> forall path, user_string fuel a1 k = Some path ->
    open_fresh fuel path VFS_O_RDONLY (set_cur_proc (cur_table k) (kvfs k)).

Lemma read_kinv fd buf n k r k' : kinv k -> sys_read fd buf n k = Some (r, k') -> kinv k'.
Proof.
  intros Hk. unfold sys_read, result. destruct (fd <? 0); [intros Hr; by simplify_eq|]. intros Hr.
  apply bind_Some in Hr as ([[out q] k1] & H1 & Hr). apply bind_Some in Hr as (k2 & H2 & Hr). injection Hr as <- <-.
  apply keeps_user_stores in H2. apply (keeps_kinv _ _ H2). revert H1. apply on_vfs_kinv; [done|].
  intros v [o y] v' Hi _ Hv. apply same_creates; [done|]. by eapply vfs_read_same.
Qed.
Lemma write_kinv fd buf n k r k' : kinv k -> sys_write fuel fd buf n k = Some (r, k') -> kinv k'.
Proof.
  intros Hk. unfold sys_write, result. intros Hr. apply bind_Some in Hr as (data & _ & Hr).
  destruct (_ || _); [injection Hr as <- <-; apply (keeps_kinv k); [split; [by split|by left]|done]|].
  revert Hr. apply on_vfs_kinv; [done|]. intros v y v' Hi _ Hv. split; [by eapply vfs_write_inv|].
  left. by eapply grows_write.
Qed.
Lemma open_kinv a1 k r k' : kinv k -> open_ok 3 a1 k -> sys_open fuel a1 k = Some (r, k') -> kinv k'.
Proof.
  intros Hk Ho. unfold sys_open, result. destruct (a1 =? 0); [intros Hr; by simplify_eq|]. intros Hr.
  apply bind_Some in Hr as (path & Hp & Hr). specialize (Ho eq_refl path Hp). revert Hr. apply on_vfs_kinv; [done|].
  intros v y v' Hi -> Hv. split; [by eapply vfs_open_inv|by eapply open_creates].
Qed.
Lemma close_kinv fd k r k' : kinv k -> sys_close fd k = Some (r, k') -> kinv k'.
Proof.
  intros Hk. unfold sys_close, result. destruct (cur_table k) as [t|]; [|intros Hr; by simplify_eq].
  destruct (t =? 0); [intros Hr; by simplify_eq|]. destruct (_ || _); [intros Hr; by simplify_eq|].
  destruct (bool_decide _); [intros Hr; by simplify_eq|]. intros Hr. apply bind_Some in Hr as ([q k1] & H1 & Hr).
  injection Hr as <- <-. revert H1. apply on_vfs_kinv; [done|]. intros v y v' Hi _ [= Hv].
  pose proof (close_inv None t fd v Hi ltac:(done)). pose proof (grows_close t fd v). rewrite Hv in *. split; [done|by left].
Qed.
Lemma call_kinv {A} (f : vfs E -> A * vfs E) k x k' :
  (forall v, fd_inv None v -> fd_inv None (f v).2) -> (forall v, grows v (f v).2) ->
  kinv k -> on_vfs (fun v => Some (f v)) k = Some (x, k') -> kinv k'.
Proof.
  intros Hf Hg Hk. apply on_vfs_kinv; [done|]. intros v y v' Hi _ [= Hv]. specialize (Hf v Hi). specialize (Hg v).
  rewrite Hv in *. split; [done|by left].
Qed.
Lemma pipe_kinv a1 k r k' : kinv k -> sys_pipe a1 k = Some (r, k') -> kinv k'.
Proof.
  intros Hk. unfold sys_pipe, result. destruct (a1 =? 0); [intros Hr; by simplify_eq|]. intros Hr.
  apply bind_Some in Hr as ([[q ends] k1] & H1 & Hr). apply bind_Some in Hr as (k2 & H2 & Hr). injection Hr as <- <-.
  apply (keeps_kinv k1).
  - destruct ends as [[f0 f1]|]; [|by simplify_eq]. apply bind_Some in H2 as (k3 & H3 & H2).
    apply keeps_user_stores in H2, H3. by rewrite H3, H2.
  - revert H1. apply call_kinv; [|apply grows_pipe|done]. intros v Hi. destruct (vfs_pipe v) as [[y e] v'] eqn:Ev. by eapply vfs_pipe_inv.
Qed.
Lemma fork_kinv k r k' : kinv k -> sys_fork fuel process_wrapper k = Some (r, k') -> kinv k'.
Proof.
  intros Hk. unfold sys_fork, result. destruct (cur k) as [c|]; [|intros Hr; by simplify_eq]. intros Hr.
  apply bind_Some in Hr as ([pid k1] & H1 & Hr). apply keeps_create in H1. apply (keeps_kinv _ _ H1) in Hk.
  destruct (pid =? 0); [by simplify_eq|]. apply bind_Some in Hr as (child & _ & Hr). apply bind_Some in Hr as ([vm k2] & H2 & Hr).
  apply keeps_on_vm in H2. apply (keeps_kinv _ _ H2) in Hk. destruct (vm =? 0); [by simplify_eq|]. injection Hr as <- <-.
  revert Hk. apply keeps_kinv. keeps_proc.
Qed.
Lemma exec_kinv a1 k o k' : kinv k -> sys_exec fuel a1 k = Some (o, k') -> kinv k'.
Proof.
  intros Hk. unfold sys_exec. destruct (a1 =? 0); [intros Hr; by simplify_eq|]. destruct (cur k) as [c|]; [|intros Hr; by simplify_eq].
  intros Hr. apply bind_Some in Hr as (line & _ & Hr). destruct (_ <? 0); [by simplify_eq|]. destruct (_ =? 0); [by simplify_eq|].
  apply bind_Some in Hr as ([elf k1] & H1 & Hr). apply keeps_on_heap in H1. apply (keeps_kinv _ _ H1) in Hk.
  destruct (elf =? 0); [by simplify_eq|]. destruct (ramfs_read _ _ _ _) as [bytes n].
  set (k2 := set_heap _ k1) in Hr. assert (Hk2 : kinv k2) by (apply (keeps_kinv k1); [apply keeps_heap|done]). destruct (_ || _).
  { apply bind_Some in Hr as (k3 & H3 & Hr). injection Hr as <- <-. apply keeps_kfree in H3. by apply (keeps_kinv _ _ H3). }
  apply bind_Some in Hr as ([pid k3] & H3 & Hr). apply keeps_create_user in H3. apply (keeps_kinv _ _ H3) in Hk2.
  apply bind_Some in Hr as (k4 & H4 & Hr). apply keeps_kfree in H4. apply (keeps_kinv _ _ H4) in Hk2.
  destruct (pid =? 0); [by simplify_eq|]. apply bind_Some in Hr as (k5 & H5 & Hr). injection Hr as <- <-. by eapply exit_kinv.
Qed.

Lemma wait_keeps status k r k' : sys_wait status k = Some (r, k') -> keeps k k'.
Proof.
  unfold sys_wait, result. destruct (cur k) as [c|]; [|intros Hr; by simplify_eq]. destruct (find_first _ _) as [i|].
  - intros Hr. apply bind_Some in Hr as (k1 & H1 & Hr). injection Hr as <- <-. etransitivity; [|keeps_proc].
    destruct (status =? 0); [by simplify_eq|]. by apply keeps_user_stores in H1.
  - intros Hr. injection Hr as <- <-. by apply keeps_sched.
Qed.
Lemma space_keeps num a1 a2 a3 k o k' : num = 12 \/ num = 13 \/ num = 14 ->
  syscall_handler fuel process_wrapper now num a1 a2 a3 k = Some (o, k') -> keeps k k'.
Proof.
  intros Hn. unfold syscall_handler, as_u64, sys_brk, sys_mmap, sys_munmap, result. destruct Hn as [->|[->| ->]];
    intros Hr; apply bind_Some in Hr as ([q k1] & H1 & Hr); injection Hr as <- <-; destruct (own_space k) as [v|]; try by simplify_eq.
  - apply bind_Some in H1 as (sp & _ & H1). destruct (a1 =? 0); [by simplify_eq|].
    destruct (_ <? _); injection H1 as <- <-; [by apply keeps_fields|done].
  - destruct (a2 =? 0); [by simplify_eq|]. apply bind_Some in H1 as ([x k2] & H2 & H1). injection H1 as <- <-. by apply keeps_on_vm in H2.
  - destruct (a2 =? 0); [by simplify_eq|]. apply bind_Some in H1 as (sp & _ & H1). injection H1 as <- <-. by apply keeps_fields.
Qed.
Lemma simple_keeps num a1 a2 a3 k o k' : num = 0 \/ num = 7 \/ num = 8 \/ num = 9 \/ num = 10 \/ num = 11 ->
  syscall_handler fuel process_wrapper now num a1 a2 a3 k = Some (o, k') -> keeps k k'.
Proof.
  intros Hn. unfold syscall_handler, as_int. destruct Hn as [->|[->|[->|[->|[->| ->]]]]];
    intros Hr; apply bind_Some in Hr as ([q k1] & H1 & Hr); injection Hr as <- <-.
  - unfold sys_exit, result in H1. injection H1 as <- <-. destruct (cur k) as [c|]; [|done].
    apply keeps_sched. intros i. exact (fdt_upd (ksched k) c (set_state PROC_STATE_ZOMBIE) ltac:(by intros []) i).
  - by eapply wait_keeps.
  - unfold sys_yield, result in H1. injection H1 as <- <-. by apply keeps_sched.
  - unfold sys_sleep, result in H1. injection H1 as <- <-. apply keeps_sched. unfold process_sleep.
    destruct (process_current (ksched k)) as [c|]; [|done]. set (w := upd c (set_wake_time _) (ksched k)).
    intros i. change (fdt (scheduler_reschedule ?x) i) with (fdt x i).
    rewrite (fdt_upd w c (set_state PROC_STATE_BLOCKED) ltac:(by intros [])). by apply fdt_upd; intros [].
  - unfold sys_getpid, result in H1. by injection H1 as <- <-.
  - unfold sys_kill, result in H1. destruct (process_get _ _); injection H1 as <- <-; [|done]. keeps_proc.
Qed.

(** The call returned: its result [q] and kernel state. *)
Ltac returned Hr := apply bind_Some in Hr as ([q k1] & H1 & Hr); injection Hr as <- <-.

Lemma syscall_kinv num a1 a2 a3 k o k' : kinv k -> open_ok num a1 k ->
  syscall_handler fuel process_wrapper now num a1 a2 a3 k = Some (o, k') -> kinv k'.
Proof.
  intros Hk Ho Hr.
  destruct (decide (num = 0 \/ num = 7 \/ num = 8 \/ num = 9 \/ num = 10 \/ num = 11)) as [Hn|Hn1];
    [by apply (keeps_kinv _ _ (simple_keeps _ _ _ _ _ _ _ Hn Hr))|].
  destruct (decide (num = 12 \/ num = 13 \/ num = 14)) as [Hn|Hn2]; [by apply (keeps_kinv _ _ (space_keeps _ _ _ _ _ _ _ Hn Hr))|].
  unfold syscall_handler, as_int in Hr.
  destruct (decide (num = 1)) as [->|?]; [apply bind_Some in Hr as ([q k1] & H1 & Hr); injection Hr as <- <-; by eapply read_kinv|].
  destruct (decide (num = 2)) as [->|?]; [apply bind_Some in Hr as ([q k1] & H1 & Hr); injection Hr as <- <-; by eapply write_kinv|].
  destruct (decide (num = 3)) as [->|?]; [apply bind_Some in Hr as ([q k1] & H1 & Hr); injection Hr as <- <-; by eapply open_kinv|].
  destruct (decide (num = 4)) as [->|?]; [apply bind_Some in Hr as ([q k1] & H1 & Hr); injection Hr as <- <-; by eapply close_kinv|].
  destruct (decide (num = 5)) as [->|?]; [apply bind_Some in Hr as ([q k1] & H1 & Hr); injection Hr as <- <-; by eapply fork_kinv|].
  destruct (decide (num = 6)) as [->|?]; [apply bind_Some in Hr as ([q k1] & H1 & Hr); injection Hr as <- <-; by eapply exec_kinv|].
  destruct (decide (num = 15)) as [->|?]; [apply bind_Some in Hr as ([q k1] & H1 & Hr); injection Hr as <- <-; by eapply pipe_kinv|].
  destruct (decide (num = 16)) as [->|?].
  { returned Hr. revert H1. apply call_kinv; [|apply grows_dup|done]. intros v. apply vfs_dup_inv. }
  destruct (decide (num = 17)) as [->|?].
  { returned Hr. revert H1. apply call_kinv; [|apply grows_dup2|done]. intros v. apply vfs_dup2_inv. }
  assert (Hd : k' = k); [|by subst]. revert Hr. destruct num as [|p|p]; [lia| |by intros [= _ <-]].
  do 5 (destruct p as [p|p|]; try lia; try by intros [= _ <-]).
Qed.

(** Every kernel state: after boot, any sequence of system calls of whatever
    processes are current, context switches and timer ticks. *)
Inductive kreach : kern E -> Prop :=
  | kr_boot k s : boot s -> kvfs k = vfs_init s -> (forall i, fdt (ksched k) i = 0) -> kreach k
  | kr_call k num a1 a2 a3 o k' : kreach k -> open_ok num a1 k ->
      syscall_handler fuel process_wrapper now num a1 a2 a3 k = Some (o, k') -> kreach k'
  | kr_switch k ms : kreach k -> kreach (set_ksched (switch_schedule ms (ksched k)) k)
  | kr_tick k rsp s : kreach k -> switch_timer_tick fuel rsp (ksched k) = Some s -> kreach (set_ksched s k).

Lemma kreach_kinv k : kreach k -> kinv k.
Proof.
  induction 1 as [k s Hb Hv Ht|k num a1 a2 a3 o k' _ IH Hok Hr|k ms _ IH|k rsp s _ IH Hr].
  - pose proof (vfs_init_inv s Hb) as Hi. split; [|intros i; by rewrite Ht|intros i j _; by rewrite Ht].
    unfold layer. rewrite Hv. by apply set_cur_inv.
  - by eapply syscall_kinv.
  - apply (keeps_kinv k); [apply keeps_sched, fdt_switch|done].
  - apply (keeps_kinv k); [by eapply keeps_sched, fdt_timer|done].
Qed.

End kernel.

(** ** Killing a process *)

Section kill.
Context {E : Type} `{VfsBackend E}.
Implicit Types (k : kern E).

(** [sys_kill] reports success but leaves a process that waits in the
    ready queue in the queue: when its turn comes it runs again. *)
Theorem sys_kill_does_not_stop now pid p c ps k r k' :
  process_get pid (ksched k) = Some p -> running now (ksched k) c (p :: ps) -> sys_kill pid k = Some (r, k') ->
  r = 0 /\ p_state (get (ksched k') p) = PROC_STATE_ZOMBIE /\
  let s := switch_schedule now (ksched k') in current_process s = Some p /\ p_state (get s p) = PROC_STATE_RUNNING.
Proof.
  intros Hp Hrun Hr. unfold sys_kill in Hr. rewrite Hp in Hr. injection Hr as <- <-. pose proof Hrun as [Hq Hc Hout Hin Hst Hns].
  assert (Hpin : in_table (ksched k) p) by (destruct Hq as [(_ & Hq & _) _]; exact Hq).
  split; [done|]. cbn [ksched upd_proc set_ksched]. split; [rewrite get_upd_eq by done; by destruct (get _ p)|].
  assert (Hne : p <> c) by (intros ->; apply Hout; left).
  assert (Hrun' : running now (upd p (set_state PROC_STATE_ZOMBIE) (ksched k)) c (p :: ps)).
  { split; [apply queue_rep_upd; [by intros []|done]|done|done|by apply in_table_upd|by rewrite get_upd_ne|].
    intros i. specialize (Hns i). unfold due in *. destruct (get_upd_cases (ksched k) p i (set_state PROC_STATE_ZOMBIE)) as [->|(_ & _ & ->)]; [done|].
    by destruct (get (ksched k) i). }
  apply switch_rotates in Hrun'. split; [apply Hrun'|apply Hrun'].
Qed.
End kill.

(** ** Witnesses *)

Module Examples.
Import Fds.Examples Process.Examples.
Definition kernel0 : kern unit := Kern sched0 space0 (vfs_init vfs0) 8192 0 None.

Lemma kernel0_reach : kreach 9 0 0 kernel0.
Proof.
  apply (kr_boot 9 0 0 kernel0 vfs0); [done|done|]. intros i. unfold fdt, get. cbn [process_table kernel0 ksched].
  destruct (replicate MAX_PROCESSES unused_process !! i) eqn:E0; [|done]. by apply lookup_replicate_1 in E0 as [-> _].
Qed.


(** Process 0 runs with pid 1, process 1 waits with pid 2. *)
Definition sched2 : sched := upd 1 (set_pid 2) (upd 0 (set_pid 1) two_processes).
Definition kernel2 : kern unit := Kern sched2 space0 vfs0 8192 0 None.

Lemma sys_kill_does_not_stop_witness :
  exists r k', sys_kill 2 kernel2 = Some (r, k') /\ current_process (switch_schedule 0 (ksched k')) = Some 1%nat.
Proof.
  exists 0, (upd_proc 1 (set_state PROC_STATE_ZOMBIE) kernel2). split; [reflexivity|].
  apply (sys_kill_does_not_stop 0 2 1 0 [] kernel2 0).
  - vm_compute. reflexivity.
  - split.
    + do 2 (apply queue_rep_upd; [by intros []|]). apply Scheduler.Examples.two_queue.
    + reflexivity.
    + intros Hin. apply list_elem_of_singleton in Hin. discriminate.
    + vm_compute. lia.
    + vm_compute. reflexivity.
    + apply (mild_sleepers 0 two_processes); [|apply Scheduler.Examples.two_awake].
      apply (mild_trans _ (upd 0 (set_pid 1) two_processes)); apply mild_upd; intros []; cbn; auto.
  - reflexivity.
Defined.

(** Killing a queued process, waiting for it and creating a new one reuses a
    slot that is still in the ready queue: it becomes its own successor, and
    walking the queue never ends. *)
Theorem kill_wait_create_breaks_queue :
  exists k', ('(_, k) ← sys_kill 2 kernel2; '(_, k) ← sys_wait 0 k; '(_, k) ← process_create 9 7 (zs "new") 1 2 k; Some k) = Some k' /\
    forall fuel, scheduler_runnable_count fuel (ksched k') = None.
Proof.
  set (run := '(_, k) ← sys_kill 2 kernel2; _). destruct (bool_some run) as [k' Hk]; [vm_compute; reflexivity|].
  exists k'. split; [exact Hk|].
  assert (Hl : (fun k => ready_queue (ksched k) = Some 1%nat /\ p_next (get (ksched k) 1) = Some 1%nat) k').
  { assert (Hb : (k ← run; Some (bool_decide (ready_queue (ksched k) = Some 1%nat /\ p_next (get (ksched k) 1) = Some 1%nat))) = Some true)
      by (vm_compute; reflexivity).
    rewrite Hk in Hb. cbn [mbind option_bind] in Hb. apply (inj Some) in Hb. by apply bool_decide_eq_true_1 in Hb. }
  destruct Hl as [Hq Hn]. intros fuel. unfold scheduler_runnable_count. rewrite Hq. by apply count_stuck.
Qed.
End Examples.
