(* ===== verification/Net.v ===== *)
(** * Network: src/src/net/ip.c, icmp.c, tcp.c and src/src/drivers/net.c

    A packet is the list of its bytes.  [None] as the result of a packet
    handler is a read outside the packet; as the result of a driver function
    it is a device that never becomes ready within the fuel.  The adapter's
    registers are reached through ports; its buffers are page frames, whose
    bytes are the memory [net_mem].  Messages to the console are left out. *)

From S2P Require Import Prelude Pmm KHeap Bytes Disk Pci.

(** ** Checksums (ip.c, icmp.c) *)

(** [while (sum >> 16) sum = (sum & 0xFFFF) + (sum >> 16)]. *)
Fixpoint fold_carry (n : nat) (sum : Z) : option Z :=
  if sum .>> 16 =? 0 then Some sum
  else match n with O => None | S n' => fold_carry n' (u32 ((sum .& 65535) + (sum .>> 16))) end.

(** The 16-bit word at index [i] of a little-endian machine. *)
Definition word16 (data : list Z) (i : Z) : Z := arr_get 0 data (2 * i) + 256 * arr_get 0 data (2 * i + 1).

Fixpoint sum_words (n : nat) (data : list Z) (todo : list Z) (sum : Z) : option Z :=
  match todo with
  | [] => Some sum
  | i :: todo' => sum ← fold_carry n (u32 (sum + word16 data i)); sum_words n data todo' sum
  end.

(** The sum before the complement; [n] bounds the carry loop. *)
Definition checksum_sum (n : nat) (data : list Z) (size : Z) : option Z :=
  sum ← sum_words n data (seqZ 0 (size / 2)) 0;
  let sum := if size .& 1 =? 0 then sum else u32 (sum + (arr_get 0 data (size - 1) .<< 8)) in
  fold_carry n sum.

Definition ip_checksum16 (n : nat) (data : list Z) (size : Z) : option Z :=
  sum ← checksum_sum n data size; Some (u32 (Z.lnot sum) .& 65535).
Definition icmp_checksum (n : nat) (data : list Z) (size : Z) : option Z :=
  sum ← checksum_sum n data size; Some (u16 (u32 (Z.lnot sum))).

(** ** ICMP (icmp.c) *)

Definition ICMP_ECHO_REPLY : Z := 0.
Definition ICMP_ECHO : Z := 8.
Definition NET_PROTO_ICMP : Z := 1.
Definition NET_PROTO_TCP : Z := 6.
Definition NET_PROTO_UDP : Z := 17.
Definition sizeof_ipv4_header : Z := 20.
Definition sizeof_icmp_header : Z := 8.

Record ping : Type := Ping { ping_reply_received : Z; ping_reply_seq : Z }.

Definition icmp_ping_start (seq : Z) : ping := Ping 0 seq.
Definition icmp_ping_has_reply (p : ping) : Z := ping_reply_received p.

Section request.
Context (dst : list Z) (id seq : Z).
(** The header fields in memory order, with the given checksums. *)
Definition dst_field : Z :=
  (arr_get 0 dst 0 .<< 24) .| (arr_get 0 dst 1 .<< 16) .| (arr_get 0 dst 2 .<< 8) .| arr_get 0 dst 3.
Definition ip_header (checksum : Z) : list Z :=
  [69; 0] ++ le_bytes 2 (20 + 8) ++ le_bytes 2 0 ++ le_bytes 2 0 ++ [64; NET_PROTO_ICMP] ++ le_bytes 2 checksum ++
  le_bytes 4 0 ++ le_bytes 4 dst_field.
Definition icmp_header (checksum : Z) : list Z :=
  [ICMP_ECHO; 0] ++ le_bytes 2 checksum ++ le_bytes 2 id ++ le_bytes 2 seq.
(** The 28 bytes handed to [net_send_packet]. *)
Definition echo_request (n : nat) : option (list Z) :=
  c1 ← ip_checksum16 n (ip_header 0) 20;
  c2 ← icmp_checksum n (icmp_header 0) 8;
  Some (ip_header c1 ++ icmp_header c2).
End request.

(** [data] from [off] on is the payload, [size] its claimed length. *)
Definition icmp_handle_packet (data : list Z) (off size : Z) (p : ping) : option (Z * ping) :=
  if size <? sizeof_icmp_header then Some (-1, p)
  else
    type ← data !! Z.to_nat off;
    if type =? ICMP_ECHO_REPLY then
      if negb (ping_reply_received p =? 0) then Some (0, p)
      else
        lo ← data !! Z.to_nat (off + 6); hi ← data !! Z.to_nat (off + 7);
        Some (0, if lo + 256 * hi =? ping_reply_seq p then Ping 1 (ping_reply_seq p) else p)
    else Some (-1, p).

(** ** IP dispatch (ip.c) *)

(** [size] is the length the caller gives. *)
Definition net_handle_packet (data : list Z) (size : Z) (p : ping) : option ping :=
  if size <? sizeof_ipv4_header then Some p
  else
    version_ihl ← data !! 0%nat;
    if negb (version_ihl .>> 4 =? 4) then Some p
    else
      let header := (version_ihl .& 15) * 4 in
      proto ← data !! 9%nat;
      if proto =? NET_PROTO_ICMP then snd <$> icmp_handle_packet data header (u16 (size - header)) p
      else Some p.

(** ** TCP (tcp.c): not implemented, every call fails *)

Definition tcp_connect (dst : list Z) (port : Z) : Z := -1.
Definition tcp_send (sock : Z) (data : list Z) : Z := -1.
Definition tcp_recv (sock size : Z) : Z := -1.

(** ** The RTL8139 driver (net.c) *)

Definition RTL8139_VENDOR : Z := 4332.   (* 0x10EC *)
Definition RTL8139_DEVICE : Z := 33081.  (* 0x8139 *)
Definition RTL_MAC : Z := 0.
Definition RTL_TXSTATUS0 : Z := 16.
Definition RTL_TXADDR0 : Z := 32.
Definition RTL_RXBUF : Z := 48.
Definition RTL_COMMAND : Z := 55.
Definition RTL_CAPR : Z := 56.
Definition RTL_IMR : Z := 60.
Definition RTL_ISR : Z := 62.
Definition RTL_TCR : Z := 64.
Definition RTL_RCR : Z := 68.
Definition RTL_CMD_RESET : Z := 16.
Definition RTL_CMD_RX : Z := 14.
Definition RTL_CMD_TX : Z := 4.
Definition RTL_RCR_WRAP : Z := 1 .<< 7.
Definition RTL_RCR_ACCEPT_ALL : Z := (1 .<< 4) .| (1 .<< 3).
Definition RTL_RX_BUF_SIZE : Z := 8192.
Definition PCI_COMMAND : Z := 4.
Definition PCI_CMD_IO_SPACE : Z := 1.
Definition PCI_CMD_BUS_MASTER : Z := 4.
Definition PCI_BAR1 : Z := 20.

Section driver.
Context {D : Type} `{PortIO D} `{PortIO32 D} (fuel : nat).

Record nic : Type := Nic {
  nic_dev : D;
  nic_pmm : pmm;
  net_mem : gmap Z Z;
  rtl_io_base : Z;
  rtl_rx_phys : Z;
  rtl_tx_idx : Z;
  rtl_tx_phys : list Z;
  local_mac : list Z
}.
Implicit Types (s : nic) (d : D).
Definition set_nic_dev d s := Nic d (nic_pmm s) (net_mem s) (rtl_io_base s) (rtl_rx_phys s) (rtl_tx_idx s) (rtl_tx_phys s) (local_mac s).
Definition set_nic_pmm x s := Nic (nic_dev s) x (net_mem s) (rtl_io_base s) (rtl_rx_phys s) (rtl_tx_idx s) (rtl_tx_phys s) (local_mac s).
Definition set_net_mem x s := Nic (nic_dev s) (nic_pmm s) x (rtl_io_base s) (rtl_rx_phys s) (rtl_tx_idx s) (rtl_tx_phys s) (local_mac s).
Definition set_io_base x s := Nic (nic_dev s) (nic_pmm s) (net_mem s) x (rtl_rx_phys s) (rtl_tx_idx s) (rtl_tx_phys s) (local_mac s).
Definition set_rx_phys x s := Nic (nic_dev s) (nic_pmm s) (net_mem s) (rtl_io_base s) x (rtl_tx_idx s) (rtl_tx_phys s) (local_mac s).
Definition set_tx_idx x s := Nic (nic_dev s) (nic_pmm s) (net_mem s) (rtl_io_base s) (rtl_rx_phys s) x (rtl_tx_phys s) (local_mac s).
Definition set_tx_phys x s := Nic (nic_dev s) (nic_pmm s) (net_mem s) (rtl_io_base s) (rtl_rx_phys s) (rtl_tx_idx s) x (local_mac s).
Definition set_mac x s := Nic (nic_dev s) (nic_pmm s) (net_mem s) (rtl_io_base s) (rtl_rx_phys s) (rtl_tx_idx s) (rtl_tx_phys s) x.

(** The probe: every function of every device of every bus, in order. *)
Fixpoint probe (todo : list (Z * Z * Z)) d : option (Z * Z * Z) * D :=
  match todo with
  | [] => (None, d)
  | (bus, dev, func) :: todo' =>
      let '(vendor, d) := pci_read_word bus dev func PCI_VENDOR_ID d in
      let '(device, d) := pci_read_word bus dev func PCI_DEVICE_ID d in
      if (vendor =? RTL8139_VENDOR) && (device =? RTL8139_DEVICE) then (Some (bus, dev, func), d) else probe todo' d
  end.
Definition all_functions : list (Z * Z * Z) :=
  bus ← seqZ 0 256; dev ← seqZ 0 32; func ← seqZ 0 8; [(bus, dev, func)].

Fixpoint wait_reset (n : nat) (port : Z) d : option D :=
  let '(v, d) := inb port d in
  if v .& RTL_CMD_RESET =? 0 then Some d else match n with O => None | S n' => wait_reset n' port d end.
Fixpoint read_mac (base : Z) (todo : list Z) d : list Z * D :=
  match todo with
  | [] => ([], d)
  | i :: todo' => let '(b, d) := inb (u16 (base + RTL_MAC + i)) d in let '(bs, d) := read_mac base todo' d in (b :: bs, d)
  end.
(** The transmit buffers: [false] when memory ran out. *)
Fixpoint alloc_tx (todo : list Z) s : bool * nic :=
  match todo with
  | [] => (true, s)
  | i :: todo' =>
      let '(p, pm) := pmm_alloc_page (nic_pmm s) in
      let s := set_tx_phys (arr_set (rtl_tx_phys s) i p) (set_nic_pmm pm s) in
      if p =? 0 then (false, s) else alloc_tx todo' s
  end.

Definition net_drv_init s : option (Z * nic) :=
  let '(found, d) := probe all_functions (nic_dev s) in
  let s := set_nic_dev d s in
  match found with
  | None => Some (-1, s)
  | Some (bus, dev, func) =>
      let '(cmd, d) := pci_read_word bus dev func PCI_COMMAND (nic_dev s) in
      let d := pci_write_dword bus dev func PCI_COMMAND (cmd .| (PCI_CMD_IO_SPACE .| PCI_CMD_BUS_MASTER)) d in
      let '(base, d) := pci_get_io_bar bus dev func 0 d in
      let s := set_io_base base (set_nic_dev d s) in
      let '(ok, s) :=
        if base =? 0 then
          let '(bar1, d) := pci_read_dword bus dev func PCI_BAR1 (nic_dev s) in
          let s := set_nic_dev d s in
          if bar1 .& 1 =? 0 then (false, s) else (true, set_io_base (u16 (bar1 .& 65532)) s)
        else (true, s) in
      if negb ok then Some (-1, s)
      else
        let base := rtl_io_base s in
        d ← wait_reset fuel (u16 (RTL_COMMAND + base)) (outb (u16 (RTL_COMMAND + base)) RTL_CMD_RESET (nic_dev s));
        let '(mac, d) := read_mac base (seqZ 0 6) d in
        let s := set_mac mac (set_nic_dev d s) in
        let '(rx, pm) := pmm_alloc_page (nic_pmm s) in
        let s := set_rx_phys rx (set_nic_pmm pm s) in
        if rx =? 0 then Some (-1, s)
        else
          let '(ok, s) := alloc_tx (seqZ 0 4) s in
          if negb ok then Some (-1, s)
          else
            let d := outl (u16 (base + RTL_RXBUF)) (u32 rx) (nic_dev s) in
            let d := outw (u16 (base + RTL_IMR)) 65535 d in
            let d := outl (u16 (base + RTL_TCR)) 50331648 d in
            let d := outl (u16 (base + RTL_RCR)) (RTL_RCR_ACCEPT_ALL .| RTL_RCR_WRAP .| 15) d in
            let d := outb (u16 (base + RTL_COMMAND)) (RTL_CMD_RX .| RTL_CMD_TX) d in
            Some (0, set_nic_dev d s)
  end.
Definition net_init := net_drv_init.
Definition net_drv_get_mac s : list Z := local_mac s.
Definition net_get_mac := net_drv_get_mac.

Fixpoint wait_tx (n : nat) (port : Z) d : option D :=
  let '(v, d) := inl port d in
  if v .& 32768 =? 0 then match n with O => None | S n' => wait_tx n' port d end else Some d.

Definition net_drv_send (data : list Z) (size : Z) s : option (Z * nic) :=
  if rtl_io_base s =? 0 then Some (-1, s)
  else
    let size := if 1536 <? size then 1536 else size in
    let i := rtl_tx_idx s in
    d ← wait_tx fuel (u16 (rtl_io_base s + RTL_TXSTATUS0 + i * 4)) (nic_dev s);
    let phys := arr_get 0 (rtl_tx_phys s) i in
    let s := set_net_mem (store_bytes phys (take (Z.to_nat size) data) (net_mem s)) s in
    let d := outl (u16 (rtl_io_base s + RTL_TXADDR0 + i * 4)) (u32 phys) d in
    let d := outl (u16 (rtl_io_base s + RTL_TXSTATUS0 + i * 4)) size d in
    Some (size, set_tx_idx ((i + 1) .& 3) (set_nic_dev d s)).
Definition net_send_packet := net_drv_send.
Definition icmp_send_echo_request (dst : list Z) (id seq : Z) s : option (Z * nic) :=
  packet ← echo_request dst id seq fuel; net_send_packet packet 28 s.

(** The copy loop: the bytes it writes from the start of the buffer on. *)
Fixpoint recv_copy (n : nat) (m : gmap Z Z) (ring src remaining : Z) : option (list Z) :=
  if remaining =? 0 then Some []
  else match n with
  | O => None
  | S n' =>
      let chunk := if RTL_RX_BUF_SIZE <? src + remaining then u16 (RTL_RX_BUF_SIZE - src) else remaining in
      rest ← recv_copy n' m ring ((src + chunk) mod RTL_RX_BUF_SIZE) (u16 (remaining - chunk));
      Some (load_bytes m (ring + src) chunk ++ rest)
  end.

(** The result, the bytes written to the buffer and the new state. *)
Definition net_drv_recv (buf_null : bool) (size : Z) s : option (Z * list Z * nic) :=
  if (rtl_io_base s =? 0) || buf_null || (size =? 0) then Some (0, [], s)
  else
    let '(isr, d) := inw (u16 (rtl_io_base s + RTL_ISR)) (nic_dev s) in
    let s := set_nic_dev d s in
    if isr .& 1 =? 0 then Some (0, [], s)
    else
      let '(capr, d) := inw (u16 (rtl_io_base s + RTL_CAPR)) (nic_dev s) in
      let s := set_nic_dev d s in
      let capr := capr .& 16380 in
      let ring := rtl_rx_phys s in
      let rx_status := load_le (net_mem s) (ring + capr) 4 in
      let rx_len_raw := load_le (net_mem s) (ring + capr + 4) 4 in
      if rx_status .& 1 =? 0 then Some (0, [], s)
      else
        let pkt_len := u16 (rx_len_raw .& 16383) in
        if pkt_len <? 4 then Some (0, [], s)
        else
          let data_offset := u16 (capr + 4) in
          let copy_len := if size <? pkt_len - 4 then size else pkt_len - 4 in
          out ← recv_copy fuel (net_mem s) ring data_offset copy_len;
          let next_capr := u16 (capr + pkt_len + 4) in
          let next_capr := if RTL_RX_BUF_SIZE <=? next_capr then u16 (next_capr - RTL_RX_BUF_SIZE) else next_capr in
          let d := outw (u16 (rtl_io_base s + RTL_CAPR)) next_capr (nic_dev s) in
          let d := outw (u16 (rtl_io_base s + RTL_ISR)) (isr .| 1) d in
          Some (copy_len, out, set_nic_dev d s).
Definition net_recv_packet := net_drv_recv.
End driver.
Arguments nic : clear implicits.

Lemma lor_shift n x y : 0 <= n -> 0 <= y < 2 ^ n -> (x .<< n) .| y = x * 2 ^ n + y.
Proof.
  intros Hn Hy. rewrite <- Z.shiftl_mul_pow2 by done.
  assert (Hl : (x .<< n) .& y = 0).
  { apply Z.bits_inj'. intros i Hi. rewrite Z.land_spec, Z.bits_0. destruct (Z.ltb_spec i n).
    - by rewrite Z.shiftl_spec_low by lia.
    - rewrite <- (Z.mod_small y (2 ^ n)) by done. rewrite Z.mod_pow2_bits_high by lia. apply andb_false_r. }
  rewrite Z.add_nocarry_lxor by done. by rewrite Z.lxor_lor.
Qed.

(** Every byte of a list of known bytes is in range. *)
Ltac u8s := repeat (apply Forall_cons; split; [first [assumption|unfold is_u8, NET_PROTO_ICMP, ICMP_ECHO in *; lia]|]); apply Forall_nil; exact I.

(** ** Checksums are the one's complement sum *)

Section checksums.
Implicit Types (data ws : list Z).

(** The representative of [t] modulo 65535 that repeated folding reaches:
    between 1 and 65535, or 0 for 0. *)
Definition norm (t : Z) : Z := if t =? 0 then 0 else 1 + (t - 1) mod 65535.

Lemma norm_range t : 0 <= t -> 0 <= norm t < 65536.
Proof. intros. unfold norm. destruct (Z.eqb_spec t 0); [lia|]. pose proof (Z.mod_pos_bound (t - 1) 65535). lia. Qed.
Lemma norm_small t : 0 <= t < 65536 -> norm t = t.
Proof. intros. unfold norm. destruct (Z.eqb_spec t 0); [lia|]. rewrite Z.mod_small; lia. Qed.
Lemma norm_step t : 65536 <= t -> norm (t mod 65536 + t / 65536) = norm t.
Proof.
  intros Ht. unfold norm. pose proof (Z.div_mod t 65536 ltac:(lia)). pose proof (Z.mod_pos_bound t 65536 ltac:(lia)).
  assert (1 <= t / 65536) by (apply Z.div_le_lower_bound; lia).
  rewrite !(proj2 (Z.eqb_neq _ _)) by lia. f_equal.
  replace (t - 1) with (t mod 65536 + t / 65536 - 1 + t / 65536 * 65535) by lia. by rewrite Z.mod_add.
Qed.
Lemma norm_add s x : 0 <= s -> 0 <= x -> norm (norm s + x) = norm (s + x).
Proof.
  intros Hs Hx. unfold norm. destruct (Z.eqb_spec s 0) as [->|Hz]; [done|].
  pose proof (Z.mod_pos_bound (s - 1) 65535 ltac:(lia)). rewrite !(proj2 (Z.eqb_neq _ _)) by lia. f_equal.
  replace (1 + (s - 1) mod 65535 + x - 1) with ((s - 1) mod 65535 + x) by lia. rewrite Z.add_mod_idemp_l by lia. f_equal. lia.
Qed.

Lemma fold_carry_spec n t : (3 <= n)%nat -> is_u32 t -> fold_carry n t = Some (norm t).
Proof.
  intros Hn Ht. unfold is_u32 in Ht.
  assert (Hstep : forall n t, 0 <= t < 2 ^ 32 -> fold_carry (S n) t = if t <? 65536 then Some t else fold_carry n (t mod 65536 + t / 65536)).
  { clear. intros n t Ht. cbn [fold_carry]. rewrite Z.shiftr_div_pow2 by lia. change (2 ^ 16) with 65536.
    destruct (Z.ltb_spec t 65536); [rewrite Z.div_small by lia; done|]. rewrite (proj2 (Z.eqb_neq _ _)).
    - f_equal. change 65535 with (Z.ones 16) at 1. rewrite Z.land_ones by lia. apply u32_id. unfold is_u32.
      pose proof (Z.mod_pos_bound t 65536 ltac:(lia)). assert (0 <= t / 65536 < 65536) by (split; [apply Z.div_pos; lia|apply Z.div_lt_upper_bound; lia]). lia.
    - assert (1 <= t / 65536) by (apply Z.div_le_lower_bound; lia). lia. }
  destruct n as [|[|[|n]]]; try lia. rewrite Hstep by lia.
  destruct (Z.ltb_spec t 65536); [rewrite norm_small by lia; done|]. rewrite <- (norm_step t) by lia.
  pose proof (Z.mod_pos_bound t 65536 ltac:(lia)). assert (0 <= t / 65536 < 65536) by (split; [apply Z.div_pos; lia|apply Z.div_lt_upper_bound; lia]).
  set (t1 := t mod 65536 + t / 65536) in *. rewrite Hstep by lia.
  destruct (Z.ltb_spec t1 65536); [rewrite norm_small by lia; done|]. rewrite <- (norm_step t1) by lia.
  assert (t1 / 65536 = 1) as -> by (symmetry; apply (Z.div_unique t1 65536 1 (t1 - 65536)); lia).
  assert (t1 mod 65536 = t1 - 65536) as -> by (symmetry; apply (Z.mod_unique t1 65536 1); lia).
  rewrite Hstep by lia. rewrite (proj2 (Z.ltb_lt _ _)) by lia. rewrite norm_small by lia. done.
Qed.

(** The plain sum of the words of the data. *)
Fixpoint total data : Z := match data with a :: b :: data' => a + 256 * b + total data' | _ => 0 end.

Definition bytes data : Prop := Forall is_u8 data.

Lemma bytes_get data i : bytes data -> is_u8 (arr_get 0 data i).
Proof. intros. by apply arr_get_Forall. Qed.

Lemma sum_words_spec n data todo : (3 <= n)%nat -> bytes data -> forall s, 0 <= s < 65536 ->
  sum_words n data todo s = Some (norm (s + foldr (fun i t => word16 data i + t) 0 todo)).
Proof.
  intros Hn Hb. induction todo as [|i todo IH]; intros s Hs; cbn [sum_words foldr].
  - rewrite Z.add_0_r, norm_small by lia. done.
  - pose proof (bytes_get data (2 * i) Hb) as H1. pose proof (bytes_get data (2 * i + 1) Hb) as H2. unfold is_u8 in *.
    assert (Hw : 0 <= word16 data i < 65536) by (unfold word16; lia).
    assert (Hpos : forall l, 0 <= foldr (fun i t => word16 data i + t) 0 l).
    { clear -Hb. induction l as [|j l IH]; cbn; [lia|]. pose proof (bytes_get data (2 * j) Hb). pose proof (bytes_get data (2 * j + 1) Hb). unfold is_u8, word16 in *. lia. }
    rewrite u32_id by (unfold is_u32; lia). rewrite fold_carry_spec by (done || (unfold is_u32; lia)). cbn [mbind option_bind].
    rewrite IH by (apply norm_range; lia). rewrite norm_add by (lia || auto). do 2 f_equal. lia.
Qed.

Lemma word16_cons a b data i : 0 <= i -> word16 (a :: b :: data) (i + 1) = word16 data i.
Proof.
  intros Hi. unfold word16, arr_get. replace (Z.to_nat (2 * (i + 1))) with (S (S (Z.to_nat (2 * i)))) by lia.
  by replace (Z.to_nat (2 * (i + 1) + 1)) with (S (S (Z.to_nat (2 * i + 1)))) by lia.
Qed.

Lemma words_total n : forall data, (2 * n <= length data)%nat ->
  foldr (fun i t => word16 data i + t) 0 (seqZ 0 (Z.of_nat n)) = total (take (2 * n) data).
Proof.
  induction n as [|n IH]; intros data Hl; [done|].
  destruct data as [|a [|b data]]; cbn [length] in Hl; try lia.
  replace (take (2 * S n) (a :: b :: data)) with (a :: b :: take (2 * n) data)
    by (replace (2 * S n)%nat with (S (S (2 * n))) by lia; done).
  cbn [total]. rewrite <- IH by lia. rewrite seqZ_cons by lia. cbn [foldr].
  change (Z.succ 0) with (1 + 0). replace (Z.pred (Z.of_nat (S n))) with (Z.of_nat n) by lia.
  rewrite <- (fmap_add_seqZ 1 0).
  assert (Hf : forall l, Forall (fun i => 0 <= i) l ->
    foldr (fun i t => word16 (a :: b :: data) i + t) 0 (Z.add 1 <$> l) = foldr (fun i t => word16 data i + t) 0 l).
  { clear. induction l as [|i l IH]; intros Hl; [done|]. apply Forall_cons in Hl as [Hi Hl]. cbn. rewrite IH by done.
    replace (1 + i) with (i + 1) by lia. by rewrite word16_cons. }
  rewrite Hf by (apply Forall_forall; intros i Hi%elem_of_seqZ; lia).
  assert (word16 (a :: b :: data) 0 = a + 256 * b) as -> by done. lia.
Qed.

Lemma words_nonneg data : bytes data -> 0 <= total data.
Proof.
  revert data. fix IH 1. intros [|a [|b data]]; cbn [total]; [lia|lia|].
  intros [Ha [Hb Hd]%Forall_cons]%Forall_cons. specialize (IH data Hd). unfold is_u8 in *. lia.
Qed.

Lemma total_app_even k : forall d e, length d = (2 * k)%nat -> total (d ++ e) = total d + total e.
Proof.
  induction k as [|k IH]; intros d e Hl; [by destruct d|].
  destruct d as [|a [|b d]]; cbn [length] in Hl; try lia. cbn [total app]. rewrite IH by lia. lia.
Qed.

Lemma checksum_even n data k : (3 <= n)%nat -> bytes data -> length data = (2 * k)%nat ->
  checksum_sum n data (len data) = Some (norm (total data)).
Proof.
  intros Hn Hb Hl. unfold checksum_sum. rewrite (sum_words_spec n data _ Hn Hb 0) by lia. cbn [mbind option_bind].
  rewrite Z.add_0_l. replace (len data / 2) with (Z.of_nat k) by (apply (Z.div_unique _ 2 _ 0); lia).
  rewrite words_total by lia. rewrite take_ge by lia. pose proof (norm_range _ (words_nonneg data Hb)) as Hr.
  change 1 with (Z.ones 1). rewrite Z.land_ones by lia. change (2 ^ 1) with 2.
  replace (len data mod 2) with 0 by (apply (Z.mod_unique _ 2 (Z.of_nat k)); lia). cbn [Z.eqb].
  rewrite fold_carry_spec by (done || (unfold is_u32; lia)). by rewrite norm_small.
Qed.

Lemma checksum_odd n d b k : (3 <= n)%nat -> bytes (d ++ [b]) -> length d = (2 * k)%nat ->
  checksum_sum n (d ++ [b]) (len (d ++ [b])) = Some (norm (total d + 256 * b)).
Proof.
  intros Hn Hb Hl. unfold checksum_sum. rewrite (sum_words_spec n _ _ Hn Hb 0) by lia. cbn [mbind option_bind].
  apply Forall_app in Hb as [Hd Hb]. apply Forall_cons in Hb as [Hb _]. unfold is_u8 in Hb.
  rewrite length_app. cbn [length]. rewrite Z.add_0_l. replace (Z.of_nat (length d + 1) / 2) with (Z.of_nat k) by (apply (Z.div_unique _ 2 _ 1); lia).
  rewrite words_total by (rewrite length_app; lia). rewrite <- Hl, take_app_length. pose proof (norm_range _ (words_nonneg d Hd)) as Hr.
  change 1 with (Z.ones 1) at 1. rewrite Z.land_ones by lia. change (2 ^ 1) with 2.
  replace (Z.of_nat (length d + 1) mod 2) with 1 by (apply (Z.mod_unique _ 2 (Z.of_nat k)); lia). cbn [Z.eqb].
  replace (Z.of_nat (length d + 1) - 1) with (len d) by lia.
  assert (arr_get 0 (d ++ [b]) (len d) = b) as ->
    by (unfold arr_get; rewrite Nat2Z.id, lookup_app_r, Nat.sub_diag by lia; done).
  rewrite Z.shiftl_mul_pow2 by lia. change (2 ^ 8) with 256. rewrite u32_id by (unfold is_u32; lia).
  rewrite fold_carry_spec by (done || (unfold is_u32; lia)). pose proof (words_nonneg d Hd).
  rewrite norm_add by lia. do 3 f_equal. lia.
Qed.

Lemma complement16 x : 0 <= x < 65536 -> u32 (Z.lnot x) .& 65535 = 65535 - x.
Proof.
  intros Hx. change 65535 with (Z.ones 16) at 1. rewrite Z.land_ones by lia. unfold u32. unfold Z.lnot.
  rewrite <- Z.sub_1_r. replace (- x - 1) with (65535 - x + -1 * 65536) by lia. symmetry.
  apply (Z.mod_unique _ _ 65535); [left; lia|]. assert (((65535 - x + -1 * 65536) mod 2 ^ 32) = 65535 - x + 65535 * 65536) as ->; [|lia].
  symmetry. apply (Z.mod_unique _ _ (-1)); lia.
Qed.
Lemma complement16' x : 0 <= x < 65536 -> u16 (u32 (Z.lnot x)) = 65535 - x.
Proof. intros Hx. rewrite <- (complement16 x Hx). change 65535 with (Z.ones 16). by rewrite Z.land_ones by lia. Qed.

(** Both files compute the same checksum. *)
Lemma icmp_checksum_ip n data size : icmp_checksum n data size = ip_checksum16 n data size.
Proof.
  unfold icmp_checksum, ip_checksum16. destruct (checksum_sum n data size); cbn [mbind option_bind]; [|done].
  do 2 f_equal. change 65535 with (Z.ones 16). by rewrite Z.land_ones by lia.
Qed.

(** One's complement addition of 16-bit words (RFC 1071). *)
Definition ones_add (x y : Z) : Z := (x + y) mod 65536 + (x + y) / 65536.
Fixpoint words data : list Z := match data with a :: b :: data' => (a + 256 * b) :: words data' | _ => [] end.

Lemma ones_add_norm x y : 0 <= x < 65536 -> 0 <= y < 65536 -> ones_add x y = norm (x + y).
Proof.
  intros Hx Hy. unfold ones_add. destruct (Z.ltb_spec (x + y) 65536).
  - rewrite norm_small, Z.mod_small, Z.div_small by lia. lia.
  - rewrite <- norm_step by lia. assert ((x + y) / 65536 = 1) as -> by (symmetry; apply (Z.div_unique _ 65536 1 (x + y - 65536)); lia).
    assert ((x + y) mod 65536 = x + y - 65536) as -> by (symmetry; apply (Z.mod_unique _ 65536 1); lia). rewrite norm_small by lia. done.
Qed.

Lemma ones_sum_total : forall data s, bytes data -> 0 <= s < 65536 -> foldl ones_add s (words data) = norm (s + total data).
Proof.
  fix IH 1. intros [|a [|b data]] s Hb Hs; cbn [words total foldl]; [by rewrite Z.add_0_r, norm_small..|].
  apply Forall_cons in Hb as [Ha [Hb Hd]%Forall_cons]. unfold is_u8 in *. pose proof (words_nonneg data Hd).
  rewrite ones_add_norm by lia. rewrite (IH data) by (done || (apply norm_range; lia)). rewrite norm_add by lia. f_equal. lia.
Qed.

Lemma ip_checksum_even n data k : (3 <= n)%nat -> bytes data -> length data = (2 * k)%nat ->
  ip_checksum16 n data (len data) = Some (65535 - norm (total data)).
Proof.
  intros Hn Hb Hl. unfold ip_checksum16. rewrite (checksum_even n data k) by done. cbn [mbind option_bind].
  by rewrite complement16 by (apply norm_range, words_nonneg; done).
Qed.

(** A field of two bytes that holds the checksum of the rest makes the whole
    check out. *)
Lemma checksum_verifies n pre post j k c : (3 <= n)%nat -> bytes pre -> bytes post ->
  length pre = (2 * j)%nat -> length post = (2 * k)%nat ->
  ip_checksum16 n (pre ++ le_bytes 2 0 ++ post) (len (pre ++ le_bytes 2 0 ++ post)) = Some c ->
  ip_checksum16 n (pre ++ le_bytes 2 c ++ post) (len (pre ++ le_bytes 2 c ++ post)) = Some 0.
Proof.
  intros Hn Hb1 Hb2 Hl1 Hl2.
  assert (Hw : forall v, bytes (pre ++ le_bytes 2 v ++ post)).
  { intros v. apply Forall_app; split; [done|]. apply Forall_app; split; [|done]. eapply Forall_impl; [apply le_bytes_range|]. unfold is_u8. lia. }
  assert (Hl : forall v, length (pre ++ le_bytes 2 v ++ post) = (2 * (j + 1 + k))%nat).
  { intros v. rewrite !length_app, length_le_bytes. lia. }
  assert (Ht : forall v, 0 <= v < 65536 -> total (pre ++ le_bytes 2 v ++ post) = total pre + v + total post).
  { intros v Hv. rewrite (total_app_even j), (total_app_even 1) by done. cbn [le_bytes total].
    pose proof (Z.div_mod v 256 ltac:(lia)). rewrite (Z.mod_small (v / 256) 256); [lia|].
    split; [apply Z.div_pos; lia|apply Z.div_lt_upper_bound; lia]. }
  rewrite (ip_checksum_even n _ (j + 1 + k)) by auto. rewrite Ht by lia. intros [= <-].
  pose proof (words_nonneg _ Hb1). pose proof (words_nonneg _ Hb2). set (t := total pre + 0 + total post).
  pose proof (norm_range t ltac:(lia)). rewrite (ip_checksum_even n _ (j + 1 + k)) by auto. rewrite Ht by lia. do 2 f_equal.
  enough (norm (total pre + (65535 - norm t) + total post) = 65535) by lia.
  unfold norm at 1. unfold norm in *. destruct (Z.eqb_spec t 0) as [Hz|Hz].
  - rewrite (proj2 (Z.eqb_neq _ _)) by lia. replace (total pre + (65535 - 0) + total post - 1) with 65534 by lia. done.
  - rewrite (proj2 (Z.eqb_neq _ _)) by lia. pose proof (Z.div_mod (t - 1) 65535 ltac:(lia)).
    replace (total pre + (65535 - (1 + (t - 1) mod 65535)) + total post - 1) with (65534 + (t - 1) / 65535 * 65535) by lia.
    rewrite Z.mod_add by lia. done.
Qed.
End checksums.

(** [C23] On data of even length the checksum loops return within three carry
    folds, and the result is the complement of the one's complement sum of
    the 16-bit words (RFC 1071). *)
Theorem ip_checksum_rfc1071 n data k : (3 <= n)%nat -> bytes data -> length data = (2 * k)%nat ->
  ip_checksum16 n data (len data) = Some (65535 - foldl ones_add 0 (words data)) /\
  icmp_checksum n data (len data) = ip_checksum16 n data (len data).
Proof.
  intros Hn Hb Hl. rewrite icmp_checksum_ip. split; [|done]. rewrite (ip_checksum_even n data k) by done.
  by rewrite ones_sum_total by done.
Qed.

(** On data of odd length the last byte is taken as the high half of a word:
    the checksum is that of the data with a zero byte before the last one,
    where RFC 1071 asks for a zero byte after it. *)
Theorem ip_checksum_odd_swapped n d b k : (3 <= n)%nat -> bytes (d ++ [b]) -> length d = (2 * k)%nat ->
  ip_checksum16 n (d ++ [b]) (len (d ++ [b])) = ip_checksum16 n (d ++ [0; b]) (len (d ++ [0; b])).
Proof.
  intros Hn Hb Hl. pose proof Hb as [Hd [Hb' _]%Forall_cons]%Forall_app.
  assert (Hb2 : bytes (d ++ [0; b])) by (apply Forall_app; split; [done|]; u8s).
  rewrite (ip_checksum_even n (d ++ [0; b]) (S k)) by (done || (rewrite length_app; cbn; lia)).
  unfold ip_checksum16. rewrite (checksum_odd n d b k) by done. cbn [mbind option_bind].
  rewrite (total_app_even k) by done. cbn [total]. rewrite !Z.add_0_l, Z.add_0_r.
  pose proof (words_nonneg d Hd). unfold is_u8 in Hb'. by rewrite complement16 by (apply norm_range; lia).
Qed.

Section request.
Implicit Types (dst : list Z).

Lemma le_bytes_u8 n v : bytes (le_bytes n v).
Proof. eapply Forall_impl; [apply le_bytes_range|]. unfold is_u8. lia. Qed.

Lemma ip_header_bytes dst c : bytes (ip_header dst c).
Proof.
  unfold ip_header. repeat (apply Forall_app; split); try apply le_bytes_u8; u8s.
Qed.
Lemma icmp_header_bytes id seq c : bytes (icmp_header id seq c).
Proof.
  unfold icmp_header. repeat (apply Forall_app; split); try apply le_bytes_u8; u8s.
Qed.

Lemma dst_reversed dst : bytes dst -> length dst = 4%nat -> le_bytes 4 (dst_field dst) = rev dst.
Proof.
  intros Hd Hl. destruct dst as [|a [|b [|c [|d [|]]]]]; try done.
  repeat (apply Forall_cons in Hd as [? Hd]). unfold is_u8 in *.
  assert (dst_field [a; b; c; d] = ((a * 256 + b) * 256 + c) * 256 + d) as ->.
  { unfold dst_field. change (arr_get 0 [a; b; c; d] 0) with a. change (arr_get 0 [a; b; c; d] 1) with b.
    change (arr_get 0 [a; b; c; d] 2) with c. change (arr_get 0 [a; b; c; d] 3) with d.
    rewrite <- !Z.lor_assoc. assert (Hc : (c .<< 8) .| d = c * 256 + d) by (apply lor_shift; lia). rewrite Hc.
    rewrite (lor_shift 16 b) by lia. rewrite (lor_shift 24 a) by lia. lia. }
  cbn [le_bytes rev app]. set (x := _ * 256 + d).
  assert (Hstep : forall h l, 0 <= l < 256 -> (h * 256 + l) mod 256 = l /\ (h * 256 + l) / 256 = h).
  { intros h l Hl'. split; [symmetry; apply (Z.mod_unique _ _ h); lia|symmetry; apply (Z.div_unique _ _ _ l); lia]. }
  unfold x. rewrite !(proj2 (Hstep _ d ltac:(lia))), !(proj1 (Hstep _ d ltac:(lia))).
  rewrite !(proj2 (Hstep _ c ltac:(lia))), !(proj1 (Hstep _ c ltac:(lia))).
  rewrite !(proj2 (Hstep _ b ltac:(lia))), !(proj1 (Hstep _ b ltac:(lia))). by rewrite Z.mod_small by lia.
Qed.

(** [icmp_send_echo_request] always builds a packet of 28 bytes whose IP
    header and ICMP message both have a valid checksum.  The address it
    carries is not the destination but the destination with its four bytes
    reversed, and the length field, read in network order, is 7168. *)
Theorem echo_request_packet dst id seq n : (3 <= n)%nat -> bytes dst -> length dst = 4%nat ->
  exists packet, echo_request dst id seq n = Some packet /\ length packet = 28%nat /\ bytes packet /\
    ip_checksum16 n (take 20 packet) 20 = Some 0 /\ icmp_checksum n (drop 20 packet) 8 = Some 0 /\
    take 4 (drop 16 packet) = rev dst /\ take 2 (drop 2 packet) = [28; 0].
Proof.
  intros Hn Hd Hl. unfold echo_request.
  assert (Hip : forall c, length (ip_header dst c) = 20%nat) by done.
  assert (Hic : forall c, length (icmp_header id seq c) = 8%nat) by done.
  pose proof (ip_checksum_even n (ip_header dst 0) 10 Hn (ip_header_bytes dst 0) (Hip 0)) as E1.
  pose proof (ip_checksum_even n (icmp_header id seq 0) 4 Hn (icmp_header_bytes id seq 0) (Hic 0)) as E2.
  rewrite <- icmp_checksum_ip in E2. rewrite Hip in E1. rewrite Hic in E2.
  change (Z.of_nat 20) with 20 in E1. change (Z.of_nat 8) with 8 in E2. rewrite E1, E2. cbn [mbind option_bind].
  set (c1 := 65535 - norm (total (ip_header dst 0))) in *. set (c2 := 65535 - norm (total (icmp_header id seq 0))) in *.
  eexists. split; [done|]. split; [by rewrite length_app, Hip, Hic|].
  split; [apply Forall_app; split; [apply ip_header_bytes|apply icmp_header_bytes]|].
  rewrite take_app_length' by done. rewrite drop_app_length' by done. split; [|split; [|split]].
  - pose proof (checksum_verifies n ([69; 0] ++ le_bytes 2 (20 + 8) ++ le_bytes 2 0 ++ le_bytes 2 0 ++ [64; NET_PROTO_ICMP])
      (le_bytes 4 0 ++ le_bytes 4 (dst_field dst)) 5 4 c1 Hn) as Hv. rewrite <- !app_assoc in Hv.
    apply Hv; try done.
    + repeat (apply Forall_app; split); try apply le_bytes_u8; u8s.
    + apply Forall_app; split; apply le_bytes_u8.
  - rewrite icmp_checksum_ip. rewrite icmp_checksum_ip in E2.
    pose proof (checksum_verifies n [ICMP_ECHO; 0] (le_bytes 2 id ++ le_bytes 2 seq) 1 2 c2 Hn) as Hv.
    apply Hv; try done.
    + u8s.
    + apply Forall_app; split; apply le_bytes_u8.
  - rewrite drop_app_le by (rewrite Hip; lia). rewrite take_app_le by (rewrite length_drop, Hip; lia).
    change (take 4 (drop 16 (ip_header dst c1))) with (le_bytes 4 (dst_field dst)).
    apply dst_reversed; done.
  - done.
Qed.
End request.

(** ** Handling packets *)

Section packets.
Implicit Types (data : list Z) (p : ping).

Definition byte data (i : Z) : Z := arr_get 0 data i.
(** The length of the IP header, from its first byte. *)
Definition header_len data : Z := (byte data 0 .& 15) * 4.
(** A packet whose header fits into it. *)
Definition header_fits data : Prop := bytes data /\ 20 <= len data < 65536 /\ header_len data <= len data.
(** An echo reply with the given sequence number. *)
Definition is_reply (seq : Z) data : bool :=
  let h := header_len data in
  (byte data 0 .>> 4 =? 4) && (byte data 9 =? NET_PROTO_ICMP) && (h + 8 <=? len data) && (byte data h =? ICMP_ECHO_REPLY) &&
  (byte data (h + 6) + 256 * byte data (h + 7) =? seq).

Lemma byte_lookup data i : 0 <= i < len data -> data !! Z.to_nat i = Some (byte data i).
Proof. intros. by apply arr_lookup_get. Qed.

Lemma header_len_range data : bytes data -> 0 <= header_len data <= 60.
Proof.
  intros Hb. unfold header_len. change 15 with (Z.ones 4). rewrite Z.land_ones by lia.
  pose proof (Z.mod_pos_bound (byte data 0) (2 ^ 4) ltac:(lia)). lia.
Qed.

Lemma handle_packet_spec data p : header_fits data ->
  net_handle_packet data (len data) p =
  Some (if (ping_reply_received p =? 0) && is_reply (ping_reply_seq p) data then Ping 1 (ping_reply_seq p) else p).
Proof.
  intros (Hb & Hl & Hh). pose proof (header_len_range data Hb) as Hr. unfold net_handle_packet, is_reply, sizeof_ipv4_header.
  rewrite (proj2 (Z.ltb_ge _ _)) by lia.
  change (data !! 0%nat) with (data !! Z.to_nat 0). change (data !! 9%nat) with (data !! Z.to_nat 9).
  rewrite !byte_lookup by lia. cbn [mbind option_bind]. fold (header_len data).
  destruct (_ .>> 4 =? 4); cbn [negb andb]; [|by rewrite andb_false_r].
  destruct (_ =? NET_PROTO_ICMP); cbn [andb]; [|by rewrite andb_false_r]. rewrite u16_id by (unfold is_u16; lia).
  unfold icmp_handle_packet, sizeof_icmp_header. destruct (Z.ltb_spec (len data - header_len data) 8).
  { rewrite (proj2 (Z.leb_gt _ _)) by lia. cbn [andb]. by rewrite andb_false_r. }
  rewrite (proj2 (Z.leb_le (_ + 8) _)) by lia. cbn [andb]. rewrite !byte_lookup by lia. cbn [mbind option_bind].
  destruct (_ =? ICMP_ECHO_REPLY); cbn [andb]; [|by rewrite andb_false_r].
  destruct (ping_reply_received p =? 0); cbn [negb andb fmap option_fmap option_map snd]; [|done].
  by destruct (_ =? ping_reply_seq p).
Qed.

(** The packets that arrive, in order. *)
Fixpoint handle_all (packets : list (list Z)) p : option ping :=
  match packets with [] => Some p | d :: ds => p ← net_handle_packet d (len d) p; handle_all ds p end.

Lemma handle_all_spec packets : forall p, Forall header_fits packets ->
  ping_reply_received p = 0 \/ ping_reply_received p = 1 ->
  handle_all packets p = Some (if (ping_reply_received p =? 0) && existsb (is_reply (ping_reply_seq p)) packets
                               then Ping 1 (ping_reply_seq p) else p).
Proof.
  induction packets as [|d ds IH]; intros p Hp Hrec; cbn [handle_all existsb]; [by rewrite andb_false_r|].
  apply Forall_cons in Hp as [Hd Hp]. rewrite handle_packet_spec by done. cbn [mbind option_bind].
  destruct (ping_reply_received p =? 0) eqn:E0; cbn [andb].
  - destruct (is_reply _ d) eqn:E1; cbn [orb]; rewrite IH by (done || (right; done)); [done|]. by rewrite E0.
  - rewrite IH by done. by rewrite E0.
Qed.

(** After [icmp_ping_start], for every sequence of packets whose IP header
    fits into the packet: the handlers never read outside a packet, and
    [icmp_ping_has_reply] is 1 exactly when one of them is an echo reply with
    the sequence number asked for. *)
Theorem ping_answered seq packets : Forall header_fits packets ->
  exists p, handle_all packets (icmp_ping_start seq) = Some p /\
    (icmp_ping_has_reply p = 1 <-> exists d, d ∈ packets /\ is_reply seq d = true).
Proof.
  intros Hp. rewrite handle_all_spec by (done || by left). cbn [ping_reply_received ping_reply_seq icmp_ping_start].
  eexists. split; [done|]. rewrite Z.eqb_refl. cbn [andb]. destruct (existsb (is_reply seq) packets) eqn:E0.
  - apply existsb_exists in E0 as (d & Hin & Hr). split; [|done]. intros _. exists d. split; [by apply list_elem_of_In|done].
  - split; [done|]. intros (d & Hin & Hr). apply list_elem_of_In in Hin.
    assert (existsb (is_reply seq) packets = true) by (apply existsb_exists; by exists d). congruence.
Qed.

(** A packet whose header length points past its end: the length of the
    payload wraps and the ICMP handler reads outside the packet. *)
Theorem short_packet_overread data p : bytes data -> 20 <= len data < header_len data ->
  byte data 0 .>> 4 = 4 -> byte data 9 = NET_PROTO_ICMP -> net_handle_packet data (len data) p = None.
Proof.
  intros Hb Hl Hv Hp. pose proof (header_len_range data Hb) as Hr. unfold net_handle_packet, sizeof_ipv4_header.
  rewrite (proj2 (Z.ltb_ge _ _)) by lia.
  change (data !! 0%nat) with (data !! Z.to_nat 0). change (data !! 9%nat) with (data !! Z.to_nat 9).
  rewrite !byte_lookup by lia. cbn [mbind option_bind]. fold (header_len data). rewrite Hv, Hp, !Z.eqb_refl. cbn [negb].
  unfold icmp_handle_packet, sizeof_icmp_header.
  assert (u16 (len data - header_len data) = len data - header_len data + 65536) as ->
    by (unfold u16; symmetry; apply (Z.mod_unique _ _ (-1)); lia).
  rewrite (proj2 (Z.ltb_ge _ _)) by lia. by rewrite (lookup_ge_None_2 _ (Z.to_nat (header_len data))) by lia.
Qed.
End packets.

(** ** Receiving from the ring *)

Section ring.
Implicit Types (m : gmap Z Z).

(** The bytes of the ring from an offset on, wrapping at its end. *)
Definition ring_bytes m (ring off n : Z) : list Z := (fun i => byte_at m (ring + (off + i) mod RTL_RX_BUF_SIZE)) <$> seqZ 0 n.

Lemma ring_bytes_app m ring off n k : 0 <= n -> 0 <= k ->
  ring_bytes m ring off (n + k) = ring_bytes m ring off n ++ ring_bytes m ring (off + n) k.
Proof.
  intros Hn Hk. unfold ring_bytes. rewrite seqZ_app by lia. rewrite fmap_app. f_equal.
  replace (0 + n) with (n + 0) by lia. rewrite <- fmap_add_seqZ, <- list_fmap_compose.
  apply list_fmap_ext. intros i x _. cbn. do 3 f_equal. lia.
Qed.
Lemma ring_bytes_load m ring off n : 0 <= off -> off + n <= RTL_RX_BUF_SIZE -> ring_bytes m ring off n = load_bytes m (ring + off) n.
Proof.
  intros Ho Hn. unfold ring_bytes, load_bytes. apply list_fmap_ext. intros i x Hx%list_elem_of_lookup_2%elem_of_seqZ.
  rewrite Z.mod_small by lia. f_equal. lia.
Qed.
Lemma ring_bytes_wrap m ring off n : ring_bytes m ring (off mod RTL_RX_BUF_SIZE) n = ring_bytes m ring off n.
Proof.
  unfold ring_bytes. apply list_fmap_ext. intros i x _. by rewrite Z.add_mod_idemp_l by done.
Qed.
Lemma ring_bytes_length m ring off n : 0 <= n -> len (ring_bytes m ring off n) = n.
Proof. intros. unfold ring_bytes. rewrite length_fmap, length_seqZ. lia. Qed.

(** From an offset inside the ring the copy loop ends and copies what it is
    asked for, wrapping at the end of the ring. *)
Lemma recv_copy_in m ring n : forall src remaining, 0 <= src <= RTL_RX_BUF_SIZE -> 0 <= remaining < 65536 ->
  (src + remaining) / RTL_RX_BUF_SIZE < Z.of_nat n ->
  recv_copy n m ring src remaining = Some (ring_bytes m ring src remaining).
Proof.
  unfold RTL_RX_BUF_SIZE. induction n as [|n IH]; intros src remaining Hs Hr Hn; cbn [recv_copy].
  - assert (0 <= (src + remaining) / 8192) by (apply Z.div_pos; lia). lia.
  - destruct (Z.eqb_spec remaining 0) as [->|Hz]; [done|]. unfold RTL_RX_BUF_SIZE. destruct (Z.ltb_spec 8192 (src + remaining)).
    + rewrite u16_id by (unfold is_u16; lia). replace (src + (8192 - src)) with (1 * 8192) by lia. rewrite Z.mod_mul by lia.
      rewrite u16_id by (unfold is_u16; lia). rewrite IH; [|lia|lia|].
      * cbn [mbind option_bind]. f_equal. replace remaining with ((8192 - src) + (remaining - (8192 - src))) at 2 by lia.
        rewrite ring_bytes_app by lia. rewrite (ring_bytes_load m ring src) by (unfold RTL_RX_BUF_SIZE; lia). f_equal.
        replace (src + (8192 - src)) with 8192 by lia. by rewrite <- (ring_bytes_wrap m ring 8192).
      * replace (src + remaining) with (0 + (remaining - (8192 - src)) + 1 * 8192) in Hn by lia. rewrite Z.div_add in Hn by lia. lia.
    + rewrite Z.sub_diag. change (u16 0) with 0.
      destruct n; cbn [recv_copy Z.eqb mbind option_bind]; rewrite app_nil_r, ring_bytes_load by (unfold RTL_RX_BUF_SIZE; lia); done.
Qed.

(** From an offset past the end of the ring the first chunk wraps around 2^16. *)
Lemma recv_copy_out m ring n src remaining : RTL_RX_BUF_SIZE < src <= 16384 -> 0 < remaining < 16384 -> (9 <= n)%nat ->
  exists out, recv_copy n m ring src remaining = Some out /\ 57344 <= len out.
Proof.
  unfold RTL_RX_BUF_SIZE. intros Hs Hr Hn. destruct n as [|n]; [lia|]. cbn [recv_copy]. unfold RTL_RX_BUF_SIZE.
  rewrite (proj2 (Z.eqb_neq remaining 0)) by lia. rewrite (proj2 (Z.ltb_lt _ _)) by lia.
  assert (u16 (8192 - src) = 73728 - src) as -> by (unfold u16; symmetry; apply (Z.mod_unique _ _ (-1)); lia).
  replace (src + (73728 - src)) with (9 * 8192) by lia. rewrite Z.mod_mul by lia.
  pose proof (is_u16_wrap (remaining - (73728 - src))) as Hw. unfold is_u16 in Hw.
  rewrite recv_copy_in; [|unfold RTL_RX_BUF_SIZE; lia|lia|].
  - cbn [mbind option_bind]. eexists. split; [done|]. rewrite length_app, Nat2Z.inj_add, length_load_bytes by lia. lia.
  - apply Z.div_lt_upper_bound; [done|]. unfold RTL_RX_BUF_SIZE. lia.
Qed.
End ring.

Section receive.
Context {D : Type} `{PortIO D} `{PortIO32 D} (fuel : nat).
Implicit Types (s : nic D).

(** What the driver reads from the device: the interrupt status, and the
    offset of the packet in the ring. *)
Definition recv_isr s : Z * D := inw (u16 (rtl_io_base s + RTL_ISR)) (nic_dev s).
Definition recv_capr s : Z := (inw (u16 (rtl_io_base s + RTL_CAPR)) (recv_isr s).2).1 .& 16380.
(** A packet is there, its header says so, and it has this many bytes. *)
Definition recv_len s : Z := load_le (net_mem s) (rtl_rx_phys s + recv_capr s + 4) 4 .& 16383.
Definition recv_ready s : bool :=
  negb (rtl_io_base s =? 0) && negb ((recv_isr s).1 .& 1 =? 0) &&
  negb (load_le (net_mem s) (rtl_rx_phys s + recv_capr s) 4 .& 1 =? 0) && (4 <=? recv_len s).

Lemma land_bound x n : 0 <= n -> 0 <= x .& Z.ones n < 2 ^ n.
Proof. intros. rewrite Z.land_ones by done. apply Z.mod_pos_bound. lia. Qed.
Lemma recv_len_range s : 0 <= recv_len s < 16384.
Proof. apply (land_bound _ 14). lia. Qed.
Lemma recv_capr_range s : 0 <= recv_capr s <= 16380.
Proof.
  unfold recv_capr. set (x := (inw _ _).1). assert (x .& 16380 = x .& Z.ones 14 .& 16380) as -> by (rewrite <- Z.land_assoc; done).
  pose proof (land_bound x 14 ltac:(lia)). set (y := x .& Z.ones 14) in *. split; [apply Z.land_nonneg; lia|].
  assert (Hb : y .& 16380 = y - y mod 4).
  { change 16380 with (Z.ones 14 - Z.ones 2). replace (Z.ones 14 - Z.ones 2) with (Z.ldiff (Z.ones 14) (Z.ones 2)) by done.
    assert (y .& Z.ldiff (Z.ones 14) (Z.ones 2) = Z.ldiff (y .& Z.ones 14) (Z.ones 2)) as ->.
    { apply Z.bits_inj'. intros i Hi. rewrite Z.land_spec, !Z.ldiff_spec, Z.land_spec. by rewrite andb_assoc. }
    rewrite Z.land_ones, Z.mod_small by lia. rewrite Z.ldiff_ones_r by lia. rewrite Z.shiftr_div_pow2, Z.shiftl_mul_pow2 by lia.
    change (2 ^ 2) with 4. pose proof (Z.div_mod y 4 ltac:(lia)). lia. }
  rewrite Hb. pose proof (Z.div_mod y 4 ltac:(lia)). pose proof (Z.mod_pos_bound y 4 ltac:(lia)). lia.
Qed.

Lemma recv_unfold size s : 0 < size -> recv_ready s = true ->
  let copy_len := if size <? recv_len s - 4 then size else recv_len s - 4 in
  forall out, recv_copy fuel (net_mem s) (rtl_rx_phys s) (recv_capr s + 4) copy_len = Some out ->
  exists s', net_drv_recv fuel false size s = Some (copy_len, out, s').
Proof.
  intros Hs Hr copy_len out Hout. unfold recv_ready in Hr. zbool. unfold net_drv_recv.
  pose proof (recv_len_range s) as Hlen. pose proof (recv_capr_range s) as Hcapr. unfold copy_len in *. clear copy_len.
  rewrite (proj2 (Z.eqb_neq (rtl_io_base s) 0)), (proj2 (Z.eqb_neq size 0)) by lia. cbn [orb].
  unfold recv_len, recv_capr in *. change (inw (u16 (rtl_io_base s + RTL_ISR)) (nic_dev s)) with (recv_isr s).
  destruct (recv_isr s) as [isr d]. cbn [fst snd] in *. rewrite (proj2 (Z.eqb_neq (isr .& 1) 0)) by done.
  change (nic_dev (set_nic_dev d s)) with d. change (rtl_io_base (set_nic_dev d s)) with (rtl_io_base s).
  destruct (inw _ d) as [capr d2]. cbn [fst] in *. cbn [rtl_rx_phys net_mem set_nic_dev].
  rewrite (proj2 (Z.eqb_neq (_ .& 1) 0)) by done. rewrite (u16_id (_ .& 16383)) by (unfold is_u16; lia).
  rewrite (proj2 (Z.ltb_ge _ 4)) by done. rewrite (u16_id (_ .& 16380 + 4)) by (unfold is_u16; lia). rewrite Hout. cbn [mbind option_bind]. eauto.
Qed.

(** Receiving a packet whose offset lies inside the 8 KiB ring returns at
    most the size of the buffer, and exactly that many bytes are written:
    the packet's, taken around the end of the ring. *)
Theorem recv_within size s : (4 <= fuel)%nat -> 0 < size -> recv_ready s = true -> recv_capr s + 4 <= RTL_RX_BUF_SIZE ->
  exists out s', net_drv_recv fuel false size s = Some (Z.min size (recv_len s - 4), out, s') /\
    out = ring_bytes (net_mem s) (rtl_rx_phys s) (recv_capr s + 4) (Z.min size (recv_len s - 4)) /\ len out <= size.
Proof.
  intros Hf Hs Hr Hc. pose proof (recv_len_range s). pose proof (recv_capr_range s).
  assert (4 <= recv_len s) by (unfold recv_ready in Hr; zbool; lia).
  destruct (recv_unfold size s Hs Hr (ring_bytes (net_mem s) (rtl_rx_phys s) (recv_capr s + 4) (Z.min size (recv_len s - 4)))) as [s' Hs'].
  { replace (if size <? recv_len s - 4 then size else recv_len s - 4) with (Z.min size (recv_len s - 4))
      by (destruct (Z.ltb_spec size (recv_len s - 4)); lia).
    apply recv_copy_in; [lia|lia|]. apply Z.div_lt_upper_bound; [done|]. unfold RTL_RX_BUF_SIZE in *. lia. }
  eexists _, s'. replace (if size <? recv_len s - 4 then size else recv_len s - 4) with (Z.min size (recv_len s - 4)) in Hs'
    by (destruct (Z.ltb_spec size (recv_len s - 4)); lia).
  split; [exact Hs'|]. split; [done|]. rewrite ring_bytes_length by lia. lia.
Qed.

(** The offset is masked to 16 KiB, twice the ring: when it lies in the
    upper half, receiving a packet with any data writes at least 57344 bytes
    to the buffer, whatever its size. *)
Theorem recv_overruns size s : (9 <= fuel)%nat -> 0 < size -> recv_ready s = true -> 4 < recv_len s ->
  RTL_RX_BUF_SIZE < recv_capr s + 4 ->
  exists r out s', net_drv_recv fuel false size s = Some (r, out, s') /\ r <= size /\ 57344 <= len out.
Proof.
  intros Hf Hs Hr Hl Hc. pose proof (recv_len_range s). pose proof (recv_capr_range s).
  set (n := if size <? recv_len s - 4 then size else recv_len s - 4).
  assert (Hn : 0 < n < 16384 /\ n <= size) by (unfold n; destruct (Z.ltb_spec size (recv_len s - 4)); lia).
  destruct (recv_copy_out (net_mem s) (rtl_rx_phys s) fuel (recv_capr s + 4) n) as (out & Hout & Hlen); [lia|lia|done|].
  destruct (recv_unfold size s Hs Hr out Hout) as [s' Hs']. exists n, out, s'. split; [exact Hs'|]. split; [lia|done].
Qed.
End receive.

(** ** Witnesses *)

Module Examples.
(** A device whose registers read as constants. *)
#[export] Instance const_ports : PortIO (Z -> Z) := {|
  inb p f := (f p, f); outb _ _ f := f; inw p f := (f p, f); outw _ _ f := f; io_wait f := f |}.
#[export] Instance const_ports32 : PortIO32 (Z -> Z) := {| inl p f := (f p, f); outl _ _ f := f |}.

(** A packet of 10 bytes of data waits at the given offset. *)
Definition regs (capr port : Z) : Z := if port =? 4096 + RTL_ISR then 1 else if port =? 4096 + RTL_CAPR then capr else 0.
Definition card (capr : Z) : nic (Z -> Z) :=
  Nic (regs capr) (Pmm [0] 0 1 0 0 [] 0 0) (store_le (65536 + capr) 4 1 (store_le (65536 + capr + 4) 4 14 ∅)) 4096 65536 0 [] [].

Lemma ip_checksum_rfc1071_witness : ip_checksum16 3 [1; 2; 3; 4] 4 = Some (65535 - foldl ones_add 0 [513; 1027]).
Proof.
  apply (ip_checksum_rfc1071 3 [1; 2; 3; 4] 2).
  - apply le_n.
  - apply (bool_decide_eq_true_1 (Forall (fun x => 0 <= x < 2 ^ 8) [1; 2; 3; 4])). vm_compute. reflexivity.
  - reflexivity.
Defined.

Lemma echo_request_packet_witness : exists packet, echo_request [10; 0; 2; 2] 1 7 3 = Some packet /\ take 4 (drop 16 packet) = [2; 2; 0; 10].
Proof.
  destruct (echo_request_packet [10; 0; 2; 2] 1 7 3) as (packet & Hp & _ & _ & _ & _ & Hd & _).
  - apply le_n.
  - apply (bool_decide_eq_true_1 (Forall (fun x => 0 <= x < 2 ^ 8) [10; 0; 2; 2])). vm_compute. reflexivity.
  - reflexivity.
  - exists packet. split; [exact Hp|exact Hd].
Defined.

(** An IP packet with an echo reply of sequence number 7. *)
Definition reply : list Z := [69; 0; 0; 28; 0; 0; 0; 0; 64; 1; 0; 0; 0; 0; 0; 0; 0; 0; 0; 0; 0; 0; 0; 0; 1; 0; 7; 0].
Lemma ping_answered_witness : exists p, handle_all [reply] (icmp_ping_start 7) = Some p /\ icmp_ping_has_reply p = 1.
Proof.
  destruct (ping_answered 7 [reply]) as (p & Hp & Hr).
  - apply Forall_cons. split; [|apply Forall_nil; exact I]. split.
    + apply (bool_decide_eq_true_1 (Forall (fun x => 0 <= x < 2 ^ 8) reply)). vm_compute. reflexivity.
    + split; [split; vm_compute; [discriminate|reflexivity]|vm_compute; discriminate].
  - exists p. split; [exact Hp|]. apply Hr. exists reply. split; [left|vm_compute; reflexivity].
Defined.

Lemma recv_within_witness : exists out s', net_drv_recv 4 false 100 (card 16) = Some (10, out, s') /\ length out = 10%nat.
Proof.
  destruct (recv_within 4 100 (card 16)) as (out & s' & Hr & Ho & _).
  - apply le_n.
  - reflexivity.
  - vm_compute. reflexivity.
  - vm_compute. discriminate.
  - exists out, s'. split; [exact Hr|]. rewrite Ho. vm_compute. reflexivity.
Defined.

Lemma recv_overruns_witness : exists r out s', net_drv_recv 9 false 100 (card 16368) = Some (r, out, s') /\ r <= 100 /\ 57344 <= len out.
Proof.
  apply (recv_overruns 9 100 (card 16368)).
  - apply le_n.
  - reflexivity.
  - vm_compute. reflexivity.
  - vm_compute. reflexivity.
  - vm_compute. reflexivity.
Defined.
End Examples.
