(* ===== verification/Input.v ===== *)
(** * Keyboard input: src/src/drivers/ps2_keyboard.c, hid.c and input.c

    Both keyboard drivers keep typed characters in a ring buffer, [key_ring];
    the input layer reads the USB keyboard first.  The PS/2 controller is
    reached through ports, the USB keyboard through the transfers of the host
    controller driver, the class [UsbOps].  [None] is a wait that does not
    end within the fuel. *)

From S2P Require Import Prelude Disk KString.

(** ** The ring buffer of both drivers *)

Record key_ring : Type := KeyRing { key_buffer : list Z; key_head : Z; key_tail : Z }.

Section ring.
Context (KEY_BUFFER_SIZE : Z).
Implicit Types (r : key_ring).

Definition buffer_put (c : Z) r : key_ring :=
  let next := (key_head r + 1) mod KEY_BUFFER_SIZE in
  if next =? key_tail r then r else KeyRing (arr_set (key_buffer r) (key_head r) c) next (key_tail r).
Definition ring_has_key r : bool := negb (key_head r =? key_tail r).
Definition ring_getc r : Z * key_ring :=
  (arr_get 0 (key_buffer r) (key_tail r), KeyRing (key_buffer r) (key_head r) ((key_tail r + 1) mod KEY_BUFFER_SIZE)).
End ring.

(** ** ps2_keyboard.c *)

Module Ps2.
Definition KEY_BUFFER_SIZE : Z := 256.
Definition SCAN_CODE_COUNT : Z := 128.
Definition PS2_DATA_PORT : Z := 96.      (* 0x60 *)
Definition PS2_STATUS_PORT : Z := 100.   (* 0x64 *)
Definition PS2_COMMAND_PORT : Z := 100.
Definition PS2_CMD_READ_CONFIG : Z := 32.
Definition PS2_CMD_WRITE_CONFIG : Z := 96.
Definition PS2_CMD_TEST_PORT1 : Z := 171.
Definition PS2_CMD_RESET : Z := 255.
Definition PS2_STATUS_OUTPUT_FULL : Z := 1.
Definition PS2_STATUS_INPUT_FULL : Z := 2.
Definition PS2_CONFIG_PORT1_IRQ : Z := 1.
Definition PS2_CONFIG_PORT2_IRQ : Z := 2.
Definition PS2_CONFIG_TRANSLATION : Z := 64.

Definition sc1_to_ascii : list Z :=
  [0; 27] ++ zs "1234567890-=" ++ [8; 9] ++ zs "qwertyuiop[]" ++ [10; 0] ++ zs "asdfghjkl;'`" ++ [0] ++ zs "\zxcvbnm,./" ++
  [0; 42; 0; 32] ++ replicate 70 0.
Definition sc1_to_ascii_shift : list Z :=
  [0; 27] ++ zs "!@#$%^&*()_+" ++ [8; 9] ++ zs "QWERTYUIOP{}" ++ [10; 0] ++ zs "ASDFGHJKL:" ++ [34] ++ zs "~" ++ [0] ++ zs "|ZXCVBNM<>?" ++
  [0; 42; 0; 32] ++ replicate 70 0.

(** The modifier state. *)
Record mods : Type := Mods { shift_pressed : bool; ext_pending : bool; ctrl_pressed : bool; alt_pressed : bool; caps_lock : bool }.
Definition set_shift x '(Mods _ e c a l) := Mods x e c a l.
Definition set_ext x '(Mods s _ c a l) := Mods s x c a l.
Definition set_ctrl x '(Mods s e _ a l) := Mods s e x a l.
Definition set_alt x '(Mods s e c _ l) := Mods s e c x l.
Definition set_caps x '(Mods s e c a _) := Mods s e c a x.

Section driver.
Context {D : Type} `{PortIO D} (fuel : nat).

Record ps2 : Type := Ps2State { kdev : D; ring : key_ring; kmods : mods; ps2_initialized : bool }.
Implicit Types (s : ps2) (d : D).
Definition set_kdev d s := Ps2State d (ring s) (kmods s) (ps2_initialized s).
Definition set_ring r s := Ps2State (kdev s) r (kmods s) (ps2_initialized s).
Definition set_kmods m s := Ps2State (kdev s) (ring s) m (ps2_initialized s).

(** The waits give up after 100000 tries; [false] is the result -1. *)
Fixpoint wait_status (n : nat) (ready : Z -> bool) d : bool * D :=
  match n with
  | O => (false, d)
  | S n' => let '(st, d) := inb PS2_STATUS_PORT d in if ready st then (true, d) else wait_status n' ready d
  end.
Definition ps2_wait_output d : bool * D := wait_status (Z.to_nat 100000) (fun st => negb (st .& PS2_STATUS_OUTPUT_FULL =? 0)) d.
Definition ps2_wait_input d : bool * D := wait_status (Z.to_nat 100000) (fun st => st .& PS2_STATUS_INPUT_FULL =? 0) d.
Definition ps2_write_command (cmd : Z) d : D := let '(_, d) := ps2_wait_input d in outb PS2_COMMAND_PORT cmd d.
Definition ps2_write_data (data : Z) d : D := let '(_, d) := ps2_wait_input d in outb PS2_DATA_PORT data d.
Definition ps2_read_data d : Z * D := let '(_, d) := ps2_wait_output d in inb PS2_DATA_PORT d.

(** [while (status & OUTPUT_FULL) inb(data)]. *)
Fixpoint flush_output (n : nat) d : option D :=
  let '(st, d) := inb PS2_STATUS_PORT d in
  if st .& PS2_STATUS_OUTPUT_FULL =? 0 then Some d
  else match n with O => None | S n' => flush_output n' (inb PS2_DATA_PORT d).2 end.
(** The wait for the answer to the reset command. *)
Fixpoint await_reset (n : nat) d : D :=
  match n with
  | O => d
  | S n' =>
      let '(st, d) := inb PS2_STATUS_PORT d in
      if st .& PS2_STATUS_OUTPUT_FULL =? 0 then await_reset n' d
      else
        let '(resp, d) := inb PS2_DATA_PORT d in
        if resp =? 250 then d
        else await_reset n' (if resp =? 254 then ps2_write_data PS2_CMD_RESET d else d)
  end.

Definition ps2_keyboard_init s : option (Z * ps2) :=
  d ← flush_output fuel (kdev s);
  let d := ps2_write_command 167 (ps2_write_command 173 d) in
  d ← flush_output fuel d;
  let '(config, d) := ps2_read_data (ps2_write_command PS2_CMD_READ_CONFIG d) in
  let config := config .& u8 (Z.lnot (PS2_CONFIG_PORT1_IRQ .| PS2_CONFIG_PORT2_IRQ)) .& u8 (Z.lnot PS2_CONFIG_TRANSLATION) in
  let d := ps2_write_data config (ps2_write_command PS2_CMD_WRITE_CONFIG d) in
  let '(_, d) := ps2_read_data (ps2_write_command 170 d) in
  let d := ps2_write_command 174 d in
  let '(port_test, d) := ps2_read_data (ps2_write_command PS2_CMD_TEST_PORT1 d) in
  if negb (port_test =? 0) then Some (-1, set_kdev d s)
  else
    let d := await_reset (Z.to_nat 100000) (ps2_write_data PS2_CMD_RESET d) in
    let '(config, d) := ps2_read_data (ps2_write_command PS2_CMD_READ_CONFIG d) in
    let config := ((config .| PS2_CONFIG_PORT1_IRQ) .& u8 (Z.lnot PS2_CONFIG_PORT2_IRQ)) .| PS2_CONFIG_TRANSLATION in
    let d := ps2_write_data config (ps2_write_command PS2_CMD_WRITE_CONFIG d) in
    d ← flush_output fuel d;
    Some (0, Ps2State d (KeyRing (key_buffer (ring s)) 0 0) (Mods false (ext_pending (kmods s)) false false false) true).

Definition ps2_keyboard_has_key s : bool := ring_has_key (ring s).
Definition ps2_keyboard_getc s : Z * ps2 :=
  if negb (ps2_initialized s) then (0, s)
  else if key_head (ring s) =? key_tail (ring s) then (0, s)
  else let '(c, r) := ring_getc KEY_BUFFER_SIZE (ring s) in (c, set_ring r s).

Definition put (c : Z) s : ps2 := set_ring (buffer_put KEY_BUFFER_SIZE c (ring s)) s.
Definition on_mods (f : mods -> mods) s : ps2 := set_kmods (f (kmods s)) s.

(** The handler once it has read a scan code. *)
Definition handle_scancode (scancode : Z) s : ps2 :=
  let m := kmods s in
  if scancode =? 224 then on_mods (set_ext true) s
  else if negb (scancode .& 128 =? 0) then
    if ext_pending m then on_mods (set_ext false) s
    else
      let released := scancode .& 127 in
      let s := if (released =? 42) || (released =? 54) then on_mods (set_shift false) s else s in
      let s := if released =? 29 then on_mods (set_ctrl false) s else s in
      if released =? 56 then on_mods (set_alt false) s else s
  else if ext_pending m then
    let s := on_mods (set_ext false) s in
    if scancode =? 72 then put 1 s else if scancode =? 80 then put 2 s else s
  else if (scancode =? 42) || (scancode =? 54) then on_mods (set_shift true) s
  else if scancode =? 29 then on_mods (set_ctrl true) s
  else if scancode =? 56 then on_mods (set_alt true) s
  else if scancode =? 58 then on_mods (set_caps (negb (caps_lock m))) s
  else if scancode <? SCAN_CODE_COUNT then
    let c := arr_get 0 (if shift_pressed m then sc1_to_ascii_shift else sc1_to_ascii) scancode in
    let c := if caps_lock m && (ch "a" <=? c) && (c <=? ch "z") then c - ch "a" + ch "A"
             else if caps_lock m && (ch "A" <=? c) && (c <=? ch "Z") then c - ch "A" + ch "a"
             else c in
    if ctrl_pressed m && ((c =? ch "c") || (c =? ch "C")) then put 3 s
    else if c =? 0 then s else put c s
  else s.

Definition ps2_keyboard_handler s : ps2 :=
  let '(st, d) := inb PS2_STATUS_PORT (kdev s) in
  let s := set_kdev d s in
  if st .& PS2_STATUS_OUTPUT_FULL =? 0 then s
  else let '(scancode, d) := inb PS2_DATA_PORT (kdev s) in handle_scancode scancode (set_kdev d s).

(** [hlt] returns at the next interrupt; [irqs] are the handlers' effects on
    the state, in order.  [None]: no key came. *)
Fixpoint ps2_keyboard_getc_block (irqs : list (ps2 -> ps2)) s : option (Z * ps2) :=
  if ps2_keyboard_has_key s then Some (ps2_keyboard_getc s)
  else match irqs with [] => None | f :: irqs' => ps2_keyboard_getc_block irqs' (f s) end.
End driver.
Arguments ps2 : clear implicits.
End Ps2.

(** ** hid.c *)

Record usb_device : Type := UsbDevice {
  ud_address : Z; ud_speed : Z; ud_config : Z; ud_interface : Z; ud_vendor_id : Z; ud_product_id : Z;
  ud_class : Z; ud_subclass : Z; ud_protocol : Z; ud_max_packet_size : Z; ud_endpoints : Z;
  ud_endpoint_in : Z; ud_endpoint_out : Z
}.
Record usb_request : Type := UsbRequest { rq_type : Z; rq_request : Z; rq_value : Z; rq_index : Z; rq_length : Z }.

(** What the keyboard driver uses of the host controller driver: transfers
    give the result code and the bytes received. *)
Class UsbOps (U : Type) : Type := {
  usb_init : U -> option (Z * U);
  usb_enumerate : U -> option (Z * U);
  usb_find_device : Z -> U -> option usb_device;
  usb_interrupt_transfer : usb_device -> Z -> Z -> U -> option (Z * list Z * U);
  usb_control_transfer : usb_device -> usb_request -> list Z -> U -> option (Z * list Z * U)
}.

Module Hid.
Definition KEY_BUFFER_SIZE : Z := 64.
Definition HID_MOD_LSHIFT : Z := 2.
Definition HID_MOD_RSHIFT : Z := 32.
Definition USB_ENDPOINT_IN : Z := 128.
Definition HID_REQ_SET_REPORT : Z := 9.
Definition sizeof_report : Z := 8.

Definition hid_keyboard_us : list Z :=
  [0; 0; 0; 0] ++ zs "abcdefghijklmnopqrstuvwxyz1234567890" ++ [10; 27; 8; 9; 32] ++ zs "-=[]\#;'`,./" ++ replicate 199 0.
Definition hid_keyboard_us_shift : list Z :=
  [0; 0; 0; 0] ++ zs "ABCDEFGHIJKLMNOPQRSTUVWXYZ!@#$%^&*()" ++ [10; 27; 8; 9; 32] ++ zs "_+{}|~:" ++ [34] ++ zs "~<>?" ++ replicate 199 0.

Definition hid_to_ascii (hid_code modifiers : Z) : Z :=
  if negb (modifiers .& (HID_MOD_LSHIFT .| HID_MOD_RSHIFT) =? 0) then arr_get 0 hid_keyboard_us_shift hid_code
  else arr_get 0 hid_keyboard_us hid_code.

Section driver.
Context {U : Type} `{UsbOps U} (fuel : nat).

Record hid : Type := HidState {
  usb : U;
  ring : key_ring;
  current_modifiers : Z;
  keyboard_leds : Z;
  prev_keys : list Z;
  keyboard_dev : option usb_device
}.
Implicit Types (s : hid).
Definition set_usb x s := HidState x (ring s) (current_modifiers s) (keyboard_leds s) (prev_keys s) (keyboard_dev s).
Definition set_ring x s := HidState (usb s) x (current_modifiers s) (keyboard_leds s) (prev_keys s) (keyboard_dev s).

Definition hid_keyboard_init s : Z * hid :=
  match usb_find_device 3 (usb s) with
  | None => (-1, HidState (usb s) (ring s) (current_modifiers s) (keyboard_leds s) (prev_keys s) None)
  | Some dev => (0, HidState (usb s) (KeyRing (key_buffer (ring s)) 0 0) 0 (keyboard_leds s) (prev_keys s) (Some dev))
  end.

(** The loop over the keys of a report. *)
Definition report_key (modifiers : Z) (prev : list Z) (r : key_ring) (k : Z) : key_ring :=
  if k =? 0 then r
  else if existsb (Z.eqb k) prev then r
  else let c := hid_to_ascii k modifiers in if c =? 0 then r else buffer_put KEY_BUFFER_SIZE c r.
(** A report: modifiers, a reserved byte and six keys. *)
Definition process_report (report : list Z) s : hid :=
  let modifiers := arr_get 0 report 0 in
  let keys := take 6 (drop 2 report) in
  HidState (usb s) (foldl (report_key modifiers (prev_keys s)) (ring s) keys) modifiers (keyboard_leds s) keys (keyboard_dev s).

Definition hid_keyboard_poll s : option (Z * hid) :=
  match keyboard_dev s with
  | None => Some (-1, s)
  | Some dev =>
      '(r, report, u) ← usb_interrupt_transfer dev (u8 (USB_ENDPOINT_IN .| ud_endpoint_in dev)) sizeof_report (usb s);
      let s := set_usb u s in
      Some (if r =? sizeof_report then (1, process_report report s) else (0, s))
  end.

Definition hid_keyboard_has_key s : bool := ring_has_key (ring s).
Fixpoint poll_until (n : nat) s : option hid :=
  if hid_keyboard_has_key s then Some s
  else match n with O => None | S n' => '(_, s) ← hid_keyboard_poll s; poll_until n' s end.
Definition hid_keyboard_getc s : option (Z * hid) :=
  s ← poll_until fuel s;
  let '(c, r) := ring_getc KEY_BUFFER_SIZE (ring s) in Some (c, set_ring r s).
Definition hid_keyboard_get_modifiers s : Z := current_modifiers s.

Definition hid_keyboard_set_leds (leds : Z) s : option hid :=
  let s := HidState (usb s) (ring s) (current_modifiers s) leds (prev_keys s) (keyboard_dev s) in
  match keyboard_dev s with
  | None => Some s
  | Some dev => '(_, _, u) ← usb_control_transfer dev (UsbRequest 33 HID_REQ_SET_REPORT 512 (ud_interface dev) 1) [leds .& 7] (usb s); Some (set_usb u s)
  end.
End driver.
Arguments hid : clear implicits.
End Hid.

(** ** input.c *)

Inductive input_device_type : Type := INPUT_DEVICE_PS2_KEYBOARD | INPUT_DEVICE_USB_HID | INPUT_DEVICE_MOUSE | INPUT_DEVICE_TOUCHSCREEN.
Inductive input_event_type : Type := INPUT_EVENT_KEY_PRESS | INPUT_EVENT_KEY_RELEASE | INPUT_EVENT_MOUSE_CLICK | INPUT_EVENT_MOUSE_MOVE | INPUT_EVENT_MOUSE_SCROLL.
Record input_event : Type := InputEvent {
  device_type : input_device_type; event_type : input_event_type; key_code : Z; ev_x : Z; ev_y : Z; timestamp : Z }.

Section input.
Context {D U : Type} `{PortIO D} `{UsbOps U} (fuel : nat).

Record input : Type := Input { ps2 : Ps2.ps2 D; hid : Hid.hid U; ps2_active : bool; hid_active : bool }.
Implicit Types (s : input).
Definition set_ps2 x s := Input x (hid s) (ps2_active s) (hid_active s).
Definition set_hid x s := Input (ps2 s) x (ps2_active s) (hid_active s).

Definition input_init s : option (Z * input) :=
  '(r, k) ← Ps2.ps2_keyboard_init fuel (ps2 s);
  let active := r =? 0 in
  '(r, u) ← usb_init (Hid.usb (hid s));
  let h := Hid.set_usb u (hid s) in
  '(h, hactive) ← (if r =? 0 then
      '(_, u) ← usb_enumerate (Hid.usb h);
      let '(r, h) := Hid.hid_keyboard_init (Hid.set_usb u h) in
      Some (h, if r =? 0 then true else hid_active s)
    else Some (h, hid_active s));
  Some ((if active || hactive then 1 else 0), Input k h active hactive).

Definition hid_ready s : bool := hid_active s && Hid.hid_keyboard_has_key (hid s).
Definition ps2_ready s : bool := ps2_active s && Ps2.ps2_keyboard_has_key (ps2 s).
Definition input_has_event s : bool := hid_ready s || ps2_ready s.

Definition input_get_event s : option (input_event * input) :=
  if hid_ready s then
    '(c, h) ← Hid.hid_keyboard_getc fuel (hid s);
    Some (InputEvent INPUT_DEVICE_USB_HID INPUT_EVENT_KEY_PRESS (u32 c) 0 0 0, set_hid h s)
  else if ps2_ready s then
    let '(c, k) := Ps2.ps2_keyboard_getc (ps2 s) in
    Some (InputEvent INPUT_DEVICE_PS2_KEYBOARD INPUT_EVENT_KEY_PRESS (u32 c) 0 0 0, set_ps2 k s)
  else Some (InputEvent INPUT_DEVICE_PS2_KEYBOARD INPUT_EVENT_KEY_PRESS 0 0 0 0, s).

Fixpoint flush_ps2 (n : nat) s : option input :=
  if ps2_ready s then match n with O => None | S n' => flush_ps2 n' (set_ps2 (Ps2.ps2_keyboard_getc (ps2 s)).2 s) end else Some s.
Fixpoint flush_hid (n : nat) s : option input :=
  if hid_ready s then match n with O => None | S n' => '(_, h) ← Hid.hid_keyboard_getc fuel (hid s); flush_hid n' (set_hid h s) end else Some s.
Definition input_flush_events s : option input := s ← flush_ps2 fuel s; flush_hid fuel s.

Definition input_register_device (t : input_device_type) : Z := -1.
Definition input_unregister_device (t : input_device_type) : Z := -1.
Definition keyboard_init s : option (Z * input) := '(_, s) ← input_init s; Some (0, s).
Definition keyboard_has_key s : bool := input_has_event s.
Definition keyboard_getc s : option (Z * input) :=
  if hid_ready s then '(c, h) ← Hid.hid_keyboard_getc fuel (hid s); Some (c, set_hid h s)
  else if ps2_ready s then let '(c, k) := Ps2.ps2_keyboard_getc (ps2 s) in Some (c, set_ps2 k s)
  else Some (0, s).

Definition mouse_init : Z := -1.
Definition mouse_has_event : Z := 0.
Definition mouse_get_event : input_event := InputEvent INPUT_DEVICE_MOUSE INPUT_EVENT_MOUSE_MOVE 0 0 0 0.
End input.
Arguments input : clear implicits.

(** ** The ring is a bounded queue *)

Section ring_queue.
Context (size : Z) (Hsize : 0 < size).
Implicit Types (r : key_ring) (q : list Z).

Record ring_rep r q : Prop := {
  rr_buf : len (key_buffer r) = size;
  rr_tail : 0 <= key_tail r < size;
  rr_room : len q < size;
  rr_head : key_head r = (key_tail r + len q) mod size;
  rr_get : forall i c, q !! i = Some c -> arr_get 0 (key_buffer r) ((key_tail r + Z.of_nat i) mod size) = c
}.

(** Distinct positions of the queue are distinct slots. *)
Lemma slot_ne t i j : 0 <= i < size -> 0 <= j < size -> i <> j -> (t + i) mod size <> (t + j) mod size.
Proof.
  intros Hi Hj Hne E. assert (H : (i - j) mod size = 0).
  { replace (i - j) with ((t + i) - (t + j)) by lia. rewrite Zminus_mod, E, Z.sub_diag. by apply Z.mod_0_l; lia. }
  apply Z.mod_divide in H as [k Hk]; [|lia]. assert (k = 0) by nia. lia.
Qed.

Lemma ring_empty r : len (key_buffer r) = size -> key_tail r = 0 -> key_head r = 0 -> ring_rep r [].
Proof. intros Hb Ht Hh. split; [done|lia|cbn; lia|rewrite Hh, Ht; cbn; by rewrite Z.mod_0_l by lia|done]. Qed.

Lemma ring_has_key_rep r q : ring_rep r q -> ring_has_key r = negb (bool_decide (q = [])).
Proof.
  intros [_ Ht Hr Hh _]. unfold ring_has_key. f_equal. apply eq_bool_prop_intro. rewrite bool_decide_spec.
  rewrite Is_true_true, Z.eqb_eq, Hh. split.
  - intros E. destruct q as [|c q]; [done|]. exfalso.
    apply (slot_ne (key_tail r) (len (c :: q)) 0); [lia|lia|cbn; lia|]. by rewrite E, Z.add_0_r, Z.mod_small.
  - intros ->. cbn. by rewrite Z.add_0_r, Z.mod_small.
Qed.

(** Putting a character into a full ring drops it. *)
Lemma buffer_put_rep c r q : ring_rep r q ->
  ring_rep (buffer_put size c r) (if len q <? size - 1 then q ++ [c] else q).
Proof.
  intros Hr. pose proof Hr as [Hb Ht Hroom Hh Hg]. unfold buffer_put.
  assert (Hnext : (key_head r + 1) mod size = (key_tail r + (len q + 1)) mod size)
    by (rewrite Hh, Z.add_mod_idemp_l by lia; f_equal; lia).
  rewrite Hnext. destruct (Z.ltb_spec (len q) (size - 1)) as [Hlt|Hge].
  - rewrite (proj2 (Z.eqb_neq _ _)).
    2:{ intros E. apply (slot_ne (key_tail r) (len q + 1) 0); [lia|lia|lia|]. by rewrite E, Z.add_0_r, Z.mod_small. }
    pose proof (Z.mod_pos_bound (key_tail r + len q) size Hsize).
    split; cbn [key_buffer key_head key_tail]; [by rewrite length_arr_set|done|rewrite length_app; cbn; lia| |].
    + rewrite length_app. cbn [length]. f_equal. lia.
    + intros i x Hi. pose proof (lookup_lt_Some _ _ _ Hi) as Hl. rewrite length_app in Hl. cbn [length] in Hl.
      pose proof (Z.mod_pos_bound (key_tail r + Z.of_nat i) size Hsize). rewrite Hh.
      destruct (decide (i = length q)) as [->|Hne].
      * rewrite lookup_app_r, Nat.sub_diag in Hi by lia. injection Hi as <-. by rewrite arr_get_set_eq by lia.
      * rewrite lookup_app_l in Hi by lia. rewrite arr_get_set_ne; [by apply Hg|lia|lia|]. apply slot_ne; lia.
  - replace (len q + 1) with (1 * size) by lia. rewrite Z.mod_add, Z.mod_small, Z.eqb_refl by lia. done.
Qed.

Lemma ring_getc_rep r c q : ring_rep r (c :: q) -> (ring_getc size r).1 = c /\ ring_rep (ring_getc size r).2 q.
Proof.
  intros [Hb Ht Hroom Hh Hg]. unfold ring_getc. cbn [fst snd]. cbn [length] in *. split.
  - rewrite <- (Hg 0%nat c eq_refl). by rewrite Z.add_0_r, Z.mod_small.
  - split; cbn [key_buffer key_head key_tail]; [done|by apply Z.mod_pos_bound|lia| |].
    + rewrite Hh, Z.add_mod_idemp_l by lia. f_equal. lia.
    + intros i x Hi. rewrite Z.add_mod_idemp_l by lia. rewrite <- (Hg (S i) x Hi). do 2 f_equal. lia.
Qed.
End ring_queue.

(** ** The PS/2 driver *)

Module Ps2Spec.
Import Ps2.

(** What a scan code means, given the modifiers: the new modifiers and the
    character typed, if any. *)
Definition letter_case (flip : bool) (c : Z) : Z :=
  if flip && (ch "a" <=? c) && (c <=? ch "z") then c - 32
  else if flip && (ch "A" <=? c) && (c <=? ch "Z") then c + 32 else c.
Definition is_shift (k : Z) : bool := (k =? 42) || (k =? 54).
Definition release (k : Z) (m : mods) : mods :=
  Mods (shift_pressed m && negb (is_shift k)) (ext_pending m) (ctrl_pressed m && negb (k =? 29)) (alt_pressed m && negb (k =? 56)) (caps_lock m).
Definition character (k : Z) (m : mods) : option Z :=
  let c := letter_case (caps_lock m) (arr_get 0 (if shift_pressed m then sc1_to_ascii_shift else sc1_to_ascii) k) in
  if ctrl_pressed m && ((c =? ch "c") || (c =? ch "C")) then Some 3 else if c =? 0 then None else Some c.
Definition press (k : Z) (m : mods) : mods * option Z :=
  if is_shift k then (set_shift true m, None)
  else if k =? 29 then (set_ctrl true m, None)
  else if k =? 56 then (set_alt true m, None)
  else if k =? 58 then (set_caps (negb (caps_lock m)) m, None)
  else (m, character k m).
Definition extended (k : Z) : option Z := if k =? 72 then Some 1 else if k =? 80 then Some 2 else None.
Definition decode (m : mods) (scancode : Z) : mods * option Z :=
  if scancode =? 224 then (set_ext true m, None)
  else if ext_pending m then (set_ext false m, if scancode <? 128 then extended scancode else None)
  else if scancode <? 128 then press scancode m
  else (release (scancode - 128) m, None).

(** The keyboard as a client sees it: modifiers and a queue of at most 255
    characters. *)
Inductive event : Type := Scan (scancode : Z) | Getc.
Definition abstract_step (e : event) '((m, q) : mods * list Z) : (mods * list Z) * option Z :=
  match e with
  | Scan sc =>
      let '(m, c) := decode m sc in
      ((m, match c with Some c => if len q <? 255 then q ++ [c] else q | None => q end), None)
  | Getc => match q with c :: q' => ((m, q'), Some c) | [] => ((m, []), Some 0) end
  end.

Section refinement.
Context {D : Type}.
Implicit Types (s : ps2 D).

Definition concrete_step (e : event) s : ps2 D * option Z :=
  match e with
  | Scan sc => (handle_scancode sc s, None)
  | Getc => let '(c, s) := ps2_keyboard_getc s in (s, Some c)
  end.

Record keyboard_rep s (m : mods) (q : list Z) : Prop := {
  kr_init : ps2_initialized s = true;
  kr_mods : kmods s = m;
  kr_ring : ring_rep KEY_BUFFER_SIZE (ring s) q
}.

Lemma put_rep c s m q : keyboard_rep s m q -> keyboard_rep (put c s) m (if len q <? 255 then q ++ [c] else q).
Proof. intros [Hi Hm Hr]. split; [done|done|]. by apply (buffer_put_rep 256). Qed.
Lemma on_mods_rep f s m q : keyboard_rep s m q -> keyboard_rep (on_mods f s) (f m) q.
Proof. intros [Hi Hm Hr]. split; [done|cbn; by rewrite Hm|done]. Qed.

Lemma land_high sc : 0 <= sc < 256 -> (sc .& 128 =? 0) = (sc <? 128) /\ (128 <= sc -> sc .& 127 = sc - 128).
Proof.
  intros Hs. split.
  - assert (Hall : forallb (fun x => Bool.eqb (x .& 128 =? 0) (x <? 128)) (seqZ 0 256) = true) by (vm_compute; reflexivity).
    rewrite forallb_forall in Hall. apply eqb_prop, Hall, list_elem_of_In, elem_of_seqZ. lia.
  - intros H. change 127 with (Z.ones 7). rewrite Z.land_ones by lia. symmetry. apply (Z.mod_unique _ _ 1); lia.
Qed.

Lemma character_rep k s m q : keyboard_rep s m q ->
  keyboard_rep
    (let c := arr_get 0 (if shift_pressed m then sc1_to_ascii_shift else sc1_to_ascii) k in
     let c := if caps_lock m && (ch "a" <=? c) && (c <=? ch "z") then c - ch "a" + ch "A"
              else if caps_lock m && (ch "A" <=? c) && (c <=? ch "Z") then c - ch "A" + ch "a"
              else c in
     if ctrl_pressed m && ((c =? ch "c") || (c =? ch "C")) then put 3 s else if c =? 0 then s else put c s)
    m (match character k m with Some c => if len q <? 255 then q ++ [c] else q | None => q end).
Proof.
  intros Hr. unfold character, letter_case. set (c := arr_get 0 _ k). change (ch "a") with 97. change (ch "A") with 65.
  replace (c - 97 + 65) with (c - 32) by lia. replace (c - 65 + 97) with (c + 32) by lia. cbv zeta.
  set (d := if caps_lock m && _ && _ then _ else _). destruct (ctrl_pressed m && _); [by apply put_rep|].
  destruct (d =? 0); [done|by apply put_rep].
Qed.

Lemma scan_rep sc s m q : 0 <= sc < 256 -> keyboard_rep s m q ->
  keyboard_rep (handle_scancode sc s) (decode m sc).1
    (match (decode m sc).2 with Some c => if len q <? 255 then q ++ [c] else q | None => q end).
Proof.
  intros Hs Hr. pose proof (kr_mods _ _ _ Hr) as Hm. destruct (land_high sc Hs) as [H1 H2].
  unfold handle_scancode, decode. rewrite Hm, H1. cbv zeta. destruct (sc =? 224); [by apply on_mods_rep|].
  destruct (ext_pending m) eqn:Ee.
  - destruct (sc <? 128); cbn [negb fst snd]; [|by apply on_mods_rep]. unfold extended.
    pose proof (on_mods_rep (set_ext false) s m q Hr) as Hr1. destruct (sc =? 72); [by apply put_rep|]. destruct (sc =? 80); [by apply put_rep|done].
  - destruct (Z.ltb_spec sc 128) as [Hlt|Hge]; cbn [negb].
    + unfold press, is_shift. destruct (_ || _); [by apply on_mods_rep|]. destruct (sc =? 29); [by apply on_mods_rep|].
      destruct (sc =? 56); [by apply on_mods_rep|]. destruct (sc =? 58); [by apply on_mods_rep|].
      unfold SCAN_CODE_COUNT. rewrite (proj2 (Z.ltb_lt sc 128)) by done. cbn [fst snd]. by apply character_rep.
    + rewrite H2 by done. cbn [fst snd]. unfold release, is_shift. set (k := sc - 128).
      assert (Hstep : forall (b : bool) (f : mods -> mods) s m q, keyboard_rep s m q -> keyboard_rep (if b then on_mods f s else s) (if b then f m else m) q)
        by (intros [] ?????; [by apply on_mods_rep|done]).
      pose proof (Hstep (k =? 56) (set_alt false) _ _ _ (Hstep (k =? 29) (set_ctrl false) _ _ _ (Hstep ((k =? 42) || (k =? 54)) (set_shift false) _ _ _ Hr))) as Hf.
      match goal with |- keyboard_rep _ ?m' _ => match type of Hf with keyboard_rep _ ?m'' _ => replace m' with m''; [exact Hf|] end end.
      destruct m as [sh e c a l]. cbn in *. subst e.
      destruct (k =? 42), (k =? 54), (k =? 29), (k =? 56), sh, c, a; done.
Qed.

Fixpoint run_concrete (es : list event) s : ps2 D * list Z :=
  match es with
  | [] => (s, [])
  | e :: es' =>
      let '(s, o) := concrete_step e s in
      let '(s, os) := run_concrete es' s in (s, match o with Some c => c :: os | None => os end)
  end.
Fixpoint run_abstract (es : list event) (x : mods * list Z) : (mods * list Z) * list Z :=
  match es with
  | [] => (x, [])
  | e :: es' =>
      let '(x, o) := abstract_step e x in
      let '(x, os) := run_abstract es' x in (x, match o with Some c => c :: os | None => os end)
  end.

Lemma getc_rep s m q : keyboard_rep s m q ->
  (ps2_keyboard_getc s).1 = hd 0 q /\ keyboard_rep (ps2_keyboard_getc s).2 m (tl q).
Proof.
  intros Hk. pose proof Hk as [Hi Hm Hr]. unfold ps2_keyboard_getc. rewrite Hi. cbn [negb].
  pose proof (ring_has_key_rep 256 ltac:(done) _ _ Hr) as Hh. unfold ring_has_key in Hh. destruct q as [|c q].
  - rewrite bool_decide_true in Hh by done. apply negb_false_iff in Hh. rewrite Hh. done.
  - rewrite bool_decide_false in Hh by done. apply negb_true_iff in Hh. rewrite Hh.
    destruct (ring_getc_rep 256 ltac:(done) _ _ _ Hr) as [Hc Hr']. unfold KEY_BUFFER_SIZE. destruct (ring_getc 256 (ring s)) as [x r].
    cbn [fst snd] in *. split; [done|]. by split.
Qed.

Lemma step_rep e s m q : (forall sc, e = Scan sc -> 0 <= sc < 256) -> keyboard_rep s m q ->
  (concrete_step e s).2 = (abstract_step e (m, q)).2 /\
  keyboard_rep (concrete_step e s).1 (abstract_step e (m, q)).1.1 (abstract_step e (m, q)).1.2.
Proof.
  intros He Hk. destruct e as [sc|]; cbn [concrete_step abstract_step].
  - pose proof (scan_rep sc s m q (He sc eq_refl) Hk) as Hr. destruct (decode m sc) as [m' c]. done.
  - destruct (getc_rep s m q Hk) as [H1 H2]. destruct (ps2_keyboard_getc s) as [c s']. cbn [fst snd] in *. subst c. by destruct q.
Qed.

Definition valid_event (e : event) : Prop := match e with Scan sc => 0 <= sc < 256 | Getc => True end.
End refinement.

(** [C18] For every interleaving of scan codes and reads, the driver delivers
    the same characters as a keyboard that decodes scan codes by the modifier
    state and queues up to 255 characters: none is lost, duplicated or
    reordered while there is room, and none is invented when there is none. *)
Theorem ps2_refines_queue {D} (es : list event) (s : ps2 D) m q : Forall valid_event es -> keyboard_rep s m q ->
  (run_concrete es s).2 = (run_abstract es (m, q)).2 /\
  keyboard_rep (run_concrete es s).1 (run_abstract es (m, q)).1.1 (run_abstract es (m, q)).1.2.
Proof.
  revert s m q. induction es as [|e es IH]; intros s m q Hv Hk; [done|]. apply Forall_cons in Hv as [He Hv].
  destruct (step_rep e s m q) as [Ho Hk']; [by intros sc ->|done|]. cbn [run_concrete run_abstract].
  destruct (concrete_step e s) as [s1 o], (abstract_step e (m, q)) as [[m1 q1] o']. cbn [fst snd] in *. subst o'.
  destruct (IH s1 m1 q1 Hv Hk') as [IH1 IH2]. destruct (run_concrete es s1) as [s2 os], (run_abstract es (m1, q1)) as [[m2 q2] os'].
  cbn [fst snd] in *. subst os'. done.
Qed.
End Ps2Spec.

(** ** The USB keyboard and the input layer *)

Section hid_keys.
Context {U : Type}.
Implicit Types (s : Hid.hid U) (q : list Z).

(** The characters of the keys that are pressed now and were not before. *)
Definition new_chars (report prev : list Z) : list Z :=
  omap (fun k => if (k =? 0) || existsb (Z.eqb k) prev then None
                 else let c := Hid.hid_to_ascii k (arr_get 0 report 0) in if c =? 0 then None else Some c)
       (take 6 (drop 2 report)).
Definition push_all q (cs : list Z) : list Z := foldl (fun q c => if len q <? 63 then q ++ [c] else q) q cs.

(** While the ring has room the new characters are appended in order. *)
Lemma push_all_room cs : forall q, len q + len cs < 64 -> push_all q cs = q ++ cs.
Proof.
  induction cs as [|c cs IH]; intros q Hl; cbn [push_all foldl length] in *; [by rewrite app_nil_r|].
  rewrite (proj2 (Z.ltb_lt _ _)) by lia. fold (push_all (q ++ [c]) cs). rewrite IH by (rewrite length_app; cbn; lia).
  by rewrite <- app_assoc.
Qed.

(** A report from the USB keyboard queues the characters of exactly the
    keys that were not in the previous report, in order, up to the 63
    characters the ring holds, and remembers the keys: the same report again
    queues nothing. *)
Theorem hid_report_new_keys report s q : ring_rep 64 (Hid.ring s) q ->
  let s' := Hid.process_report report s in
  ring_rep 64 (Hid.ring s') (push_all q (new_chars report (Hid.prev_keys s))) /\
  Hid.ring (Hid.process_report report s') = Hid.ring s' /\
  Hid.hid_keyboard_get_modifiers s' = arr_get 0 report 0.
Proof.
  intros Hr. cbn zeta. split; [|split; [|done]].
  - cbn [Hid.ring Hid.process_report]. unfold new_chars. generalize (take 6 (drop 2 report)). intros keys.
    revert q Hr. generalize (Hid.ring s). induction keys as [|k keys IH]; intros r q Hr; [done|]. cbn [foldl omap list_omap].
    unfold Hid.report_key at 2. destruct (k =? 0); cbn [orb]; [by apply IH|]. destruct (existsb (Z.eqb k) _); [by apply IH|].
    destruct (_ =? 0); [by apply IH|]. cbn [push_all foldl]. apply IH. by apply (buffer_put_rep 64).
  - cbn [Hid.ring Hid.prev_keys Hid.process_report]. set (keys := take 6 (drop 2 report)).
    assert (Hold : forall r l, (forall k, k ∈ l -> k ∈ keys) -> foldl (Hid.report_key (arr_get 0 report 0) keys) r l = r).
    { intros r. induction l as [|k l IH]; intros Hl; [done|]. cbn [foldl]. rewrite <- IH at 2 by (intros x Hx; apply Hl; by right). f_equal.
      unfold Hid.report_key. destruct (k =? 0); [done|]. assert (existsb (Z.eqb k) keys = true) as ->; [|done].
      apply existsb_exists. exists k. split; [|apply Z.eqb_refl]. apply list_elem_of_In, Hl. left. }
    by apply Hold.
Qed.
End hid_keys.

Section flush.
Context {D U : Type} `{PortIO D} `{UsbOps U} (fuel : nat).
Implicit Types (s : input D U).

Record input_rep s (p h : list Z) : Prop := {
  ir_ps2 : ring_rep 256 (Ps2.ring (ps2 s)) p;
  ir_hid : ring_rep 64 (Hid.ring (hid s)) h;
  ir_init : ps2_active s = true -> Ps2.ps2_initialized (ps2 s) = true
}.

Lemma ps2_ready_rep s p h : input_rep s p h -> ps2_ready s = ps2_active s && negb (bool_decide (p = [])).
Proof. intros [H1 _ _]. unfold ps2_ready, Ps2.ps2_keyboard_has_key. by rewrite (ring_has_key_rep 256 ltac:(done) _ _ H1). Qed.
Lemma hid_ready_rep s p h : input_rep s p h -> hid_ready s = hid_active s && negb (bool_decide (h = [])).
Proof. intros [_ H1 _]. unfold hid_ready, Hid.hid_keyboard_has_key. by rewrite (ring_has_key_rep 64 ltac:(done) _ _ H1). Qed.

Lemma ps2_take s c p h : ps2_active s = true -> input_rep s (c :: p) h ->
  (Ps2.ps2_keyboard_getc (ps2 s)).1 = c /\ input_rep (set_ps2 (Ps2.ps2_keyboard_getc (ps2 s)).2 s) p h.
Proof.
  intros Ha [H1 H2 H3].
  destruct (Ps2Spec.getc_rep (ps2 s) (Ps2.kmods (ps2 s)) (c :: p)) as [Hc Hk]; [by split; [apply H3| |]|].
  split; [done|]. destruct Hk as [Hi _ Hr]. by split.
Qed.
Lemma hid_take s c p h : input_rep s p (c :: h) ->
  exists k, Hid.hid_keyboard_getc fuel (hid s) = Some (c, k) /\ input_rep (set_hid k s) p h.
Proof.
  intros [H1 H2 H3]. unfold Hid.hid_keyboard_getc.
  assert (Hp : Hid.poll_until fuel (hid s) = Some (hid s)).
  { pose proof (ring_has_key_rep 64 ltac:(done) _ _ H2) as Hh. rewrite bool_decide_false in Hh by done.
    destruct fuel; cbn [Hid.poll_until]; unfold Hid.hid_keyboard_has_key; by rewrite Hh. }
  rewrite Hp. cbn [mbind option_bind]. destruct (ring_getc_rep 64 ltac:(done) _ _ _ H2) as [Hc Hr].
  unfold Hid.KEY_BUFFER_SIZE. destruct (ring_getc 64 _) as [x r]. cbn [fst snd] in *. subst x. eexists. split; [done|]. by split.
Qed.

Lemma flush_ps2_ends n : forall s p h, input_rep s p h -> (length p <= n)%nat ->
  exists s' p', flush_ps2 n s = Some s' /\ input_rep s' p' h /\ ps2_ready s' = false.
Proof.
  induction n as [|n IH]; intros s p h Hr Hl; cbn [flush_ps2]; pose proof (ps2_ready_rep s p h Hr) as Hk;
    destruct (ps2_ready s) eqn:Er; try by (exists s, p).
  - symmetry in Hk. apply andb_true_iff in Hk as [_ Hk]. destruct p; [done|cbn in Hl; lia].
  - symmetry in Hk. apply andb_true_iff in Hk as [Ha Hk]. destruct p as [|c p]; [done|]. cbn in Hl.
    apply (IH _ p h); [|lia]. by apply (ps2_take s c).
Qed.
Lemma flush_hid_ends n : forall s p h, input_rep s p h -> (length h <= n)%nat ->
  exists s' h', flush_hid fuel n s = Some s' /\ input_rep s' p h' /\ hid_ready s' = false /\ ps2 s' = ps2 s /\ ps2_active s' = ps2_active s.
Proof.
  induction n as [|n IH]; intros s p h Hr Hl; cbn [flush_hid]; pose proof (hid_ready_rep s p h Hr) as Hk;
    destruct (hid_ready s) eqn:Er; try by (exists s, h).
  - symmetry in Hk. apply andb_true_iff in Hk as [_ Hk]. destruct h; [done|cbn in Hl; lia].
  - symmetry in Hk. apply andb_true_iff in Hk as [Ha Hk]. destruct h as [|c h]; [done|]. cbn in Hl.
    destruct (hid_take s c p h Hr) as (k & -> & Hr'). cbn [mbind option_bind].
    destruct (IH (set_hid k s) p h Hr' ltac:(lia)) as (s' & h' & H1 & H2 & H3 & H4 & H5). by exists s', h'.
Qed.

(** [input_flush_events] returns, whatever is queued on either keyboard,
    and afterwards no event is pending.  [keyboard_getc] never waits: it
    returns the oldest character of the USB keyboard, else of the PS/2
    keyboard, else 0. *)
Theorem input_drains s p h : (256 <= fuel)%nat -> input_rep s p h ->
  (exists s', input_flush_events fuel s = Some s' /\ input_has_event s' = false) /\
  exists s', keyboard_getc fuel s =
    Some (if hid_active s && negb (bool_decide (h = [])) then hd 0 h else if ps2_active s then hd 0 p else 0, s').
Proof.
  intros Hf Hr. split.
  - pose proof (rr_room _ _ _ (ir_ps2 _ _ _ Hr)). pose proof (rr_room _ _ _ (ir_hid _ _ _ Hr)).
    destruct (flush_ps2_ends fuel s p h Hr) as (s1 & p1 & E1 & Hr1 & N1); [lia|].
    destruct (flush_hid_ends fuel s1 p1 h Hr1) as (s2 & h2 & E2 & Hr2 & N2 & P2 & A2); [lia|].
    exists s2. unfold input_flush_events. rewrite E1. cbn [mbind option_bind]. split; [done|].
    unfold input_has_event. rewrite N2. unfold ps2_ready in *. by rewrite P2, A2.
  - unfold keyboard_getc. rewrite (hid_ready_rep s p h Hr). destruct (hid_active s && _) eqn:Eh.
    + apply andb_true_iff in Eh as [_ Hk]. destruct h as [|c h]; [done|]. destruct (hid_take s c p h Hr) as (k & -> & _). eauto.
    + rewrite (ps2_ready_rep s p h Hr). destruct (ps2_active s) eqn:Ea; cbn [andb]; [|eauto].
      destruct p as [|c p]; cbn [negb bool_decide]; [eauto|].
      rewrite bool_decide_false by done. cbn [negb]. destruct (ps2_take s c p h Ea Hr) as [Hc _].
      destruct (Ps2.ps2_keyboard_getc (ps2 s)) as [x k]. cbn [fst] in Hc. subst x. eauto.
Qed.
End flush.

(** ** Witnesses *)

Module Examples.
#[export] Instance silent_ports : PortIO unit := {|
  inb _ d := (0, d); outb _ _ d := d; inw _ d := (0, d); outw _ _ d := d; io_wait d := d |}.
#[export] Instance no_usb : UsbOps unit := {|
  usb_init u := Some (-1, u); usb_enumerate u := Some (0, u); usb_find_device _ _ := None;
  usb_interrupt_transfer _ _ _ u := Some (-1, [], u); usb_control_transfer _ _ _ u := Some (-1, [], u) |}.
Definition idle_keys : Ps2.ps2 unit := Ps2.Ps2State tt (KeyRing (replicate 256 0) 0 0) (Ps2.Mods false false false false false) true.
Definition idle_hid : Hid.hid unit := Hid.HidState tt (KeyRing (replicate 64 0) 0 0) 0 0 [] None.

(** Shift down, H, shift up, I, then three reads. *)
Lemma ps2_refines_queue_witness :
  (Ps2Spec.run_concrete [Ps2Spec.Scan 42; Ps2Spec.Scan 35; Ps2Spec.Scan 170; Ps2Spec.Scan 23; Ps2Spec.Getc; Ps2Spec.Getc; Ps2Spec.Getc] idle_keys).2
  = zs "Hi" ++ [0].
Proof.
  destruct (Ps2Spec.ps2_refines_queue
    [Ps2Spec.Scan 42; Ps2Spec.Scan 35; Ps2Spec.Scan 170; Ps2Spec.Scan 23; Ps2Spec.Getc; Ps2Spec.Getc; Ps2Spec.Getc]
    idle_keys (Ps2.Mods false false false false false) []) as [H _].
  - repeat (apply Forall_cons; split; [cbn; first [lia|exact I]|]). apply Forall_nil. exact I.
  - split; [reflexivity|reflexivity|]. apply ring_empty; [reflexivity|reflexivity|reflexivity|reflexivity].
  - rewrite H. vm_compute. reflexivity.
Defined.

Lemma hid_report_new_keys_witness :
  ring_rep 64 (Hid.ring (Hid.process_report [0; 0; 11; 12; 0; 0; 0; 0] idle_hid)) (zs "hi").
Proof.
  apply (hid_report_new_keys [0; 0; 11; 12; 0; 0; 0; 0] idle_hid []).
  apply ring_empty; [reflexivity|reflexivity|reflexivity|reflexivity].
Defined.

Lemma input_drains_witness :
  exists s', input_flush_events 256 (Input (Ps2.put 65 idle_keys) idle_hid true true) = Some s' /\ input_has_event s' = false.
Proof.
  apply (input_drains 256 (Input (Ps2.put 65 idle_keys) idle_hid true true) [65] []).
  - apply le_n.
  - split; [|apply ring_empty; [reflexivity|reflexivity|reflexivity|reflexivity]|reflexivity].
    apply (buffer_put_rep 256 ltac:(lia) 65 (KeyRing (replicate 256 0) 0 0) []).
    apply ring_empty; [reflexivity|reflexivity|reflexivity|reflexivity].
Defined.
End Examples.
