(* ===== verification/StateGraph.v ===== *)
(** * The state graph (src/src/kernel/state_graph.c)

    Nodes live in a bump-allocated region, here the list of nodes; a pointer
    to a node is its index.  A hash table with 1024 buckets finds a node by
    its identifier; nodes of one bucket are linked through [next_sibling_id],
    the field that also links the children of a node.  The region and the
    observers come from the kernel heap, which is the heap of the filesystem
    state.  [None] is a run that does not return: unbounded recursion of the
    lookup, a lock that is held, the halt when no memory is left for the
    region, or a string that is stored past the end of its node.  Observers'
    callbacks are recorded in [notified]. *)

From S2P Require Import Prelude KHeap Bytes Disk Part Clock Mft Fs FsSpec.

Definition NODE_TYPE_ROOT : Z := 0.
Definition NODE_TYPE_WINDOW : Z := 1.
Definition NODE_TYPE_MAX : Z := 10.
Definition NODE_ID_INVALID : Z := 0.
Definition NODE_FLAG_VISIBLE : Z := 1.
Definition NODE_FLAG_FOCUSED : Z := 2.
Definition NODE_FLAG_ENABLED : Z := 4.
Definition NODE_FLAG_DIRTY : Z := 8.
Definition NODE_FLAG_PERSISTENT : Z := 16.
Definition EVENT_CREATE : Z := 1.
Definition EVENT_DELETE : Z := 2.
Definition EVENT_UPDATE : Z := 4.
Definition EVENT_GEOMETRY : Z := 16.
Definition sizeof_node : Z := 624.
Definition sizeof_observer : Z := 24.
Definition HASH_SIZE : Z := 1024.

(** [text] and [value] are arrays of 256 bytes. *)
Record state_node : Type := StateNode {
  nd_id : Z; nd_type : Z; nd_flags : Z;
  parent_id : Z; first_child_id : Z; next_sibling_id : Z; prev_sibling_id : Z;
  geo_x : Z; geo_y : Z; geo_width : Z; geo_height : Z;
  text : list Z; value : list Z;
  mft_record_id : Z; last_sync_hash : Z
}.
Definition zeros (n : Z) : list Z := replicate (Z.to_nat n) 0.
Definition clear_node : state_node := StateNode 0 0 0 0 0 0 0 0 0 0 0 (zeros 256) (zeros 256) 0 0.

Definition set_nd_id x '(StateNode _ t f p c n v a b w h tx vl m l) := StateNode x t f p c n v a b w h tx vl m l.
Definition set_nd_flags x '(StateNode i t _ p c n v a b w h tx vl m l) := StateNode i t x p c n v a b w h tx vl m l.
Definition set_parent x '(StateNode i t f _ c n v a b w h tx vl m l) := StateNode i t f x c n v a b w h tx vl m l.
Definition set_first_child x '(StateNode i t f p _ n v a b w h tx vl m l) := StateNode i t f p x n v a b w h tx vl m l.
Definition set_next_sibling x '(StateNode i t f p c _ v a b w h tx vl m l) := StateNode i t f p c x v a b w h tx vl m l.
Definition set_geometry x y wd ht '(StateNode i t f p c n v _ _ _ _ tx vl m l) := StateNode i t f p c n v x y wd ht tx vl m l.
Definition set_strings tx vl '(StateNode i t f p c n v a b w h _ _ m l) := StateNode i t f p c n v a b w h tx vl m l.
Definition set_sync_hash x '(StateNode i t f p c n v a b w h tx vl m _) := StateNode i t f p c n v a b w h tx vl m x.

Record observer : Type := Observer { ob_addr : Z; process_id : Z; notify : option Z }.

Record state_graph (D : Type) : Type := StateGraph {
  sg_fs : fs D;
  nodes : list state_node;
  heap_size : Z;
  node_hash : list (option Z);
  root_nodes : list (option Z);
  next_id : Z;
  observers : list observer;
  lock : Z;
  notified : list (Z * Z * Z)
}.
Arguments StateGraph {D}.
Arguments sg_fs {D}.
Arguments nodes {D}.
Arguments heap_size {D}.
Arguments node_hash {D}.
Arguments root_nodes {D}.
Arguments next_id {D}.
Arguments observers {D}.
Arguments lock {D}.
Arguments notified {D}.

Definition hash_node_id (id : Z) : Z := u32 (Z.lxor id (id .>> 32)).
Definition bucket_of (id : Z) : Z := hash_node_id id mod HASH_SIZE.

Section graph.
Context {D : Type} `{PortIO D} (fuel : nat) (stack : list Z).
Abbreviation graph := (state_graph D).
Implicit Types (s : graph).

Definition set_sg_fs x s : graph := StateGraph x (nodes s) (heap_size s) (node_hash s) (root_nodes s) (next_id s) (observers s) (lock s) (notified s).
Definition set_nodes x s : graph := StateGraph (sg_fs s) x (heap_size s) (node_hash s) (root_nodes s) (next_id s) (observers s) (lock s) (notified s).
Definition set_node_hash x s : graph := StateGraph (sg_fs s) (nodes s) (heap_size s) x (root_nodes s) (next_id s) (observers s) (lock s) (notified s).
Definition set_roots x s : graph := StateGraph (sg_fs s) (nodes s) (heap_size s) (node_hash s) x (next_id s) (observers s) (lock s) (notified s).
Definition set_sg_next x s : graph := StateGraph (sg_fs s) (nodes s) (heap_size s) (node_hash s) (root_nodes s) x (observers s) (lock s) (notified s).
Definition set_observers x s : graph := StateGraph (sg_fs s) (nodes s) (heap_size s) (node_hash s) (root_nodes s) (next_id s) x (lock s) (notified s).
Definition set_lock x s : graph := StateGraph (sg_fs s) (nodes s) (heap_size s) (node_hash s) (root_nodes s) (next_id s) (observers s) x (notified s).
Definition set_notified x s : graph := StateGraph (sg_fs s) (nodes s) (heap_size s) (node_hash s) (root_nodes s) (next_id s) (observers s) (lock s) x.

Definition nd s (c : Z) : state_node := arr_get clear_node (nodes s) c.
Definition upd_nd (c : Z) (f : state_node -> state_node) s : graph := set_nodes (arr_set (nodes s) c (f (nd s c))) s.
Definition heap_used s : Z := sizeof_node * len (nodes s).
Definition bucket s (id : Z) : option Z := arr_get None (node_hash s) (bucket_of id).
Definition on_sg_fs {A} (c : FsM D A) s : option (A * graph) := '(x, f) ← c (sg_fs s); Some (x, set_sg_fs f s).

(** [while (test_and_set(lock))]: a lock that is held is never released. *)
Definition lock_acquire s : option graph := if lock s =? 0 then Some (set_lock 1 s) else None.
Definition lock_release s : graph := set_lock 0 s.

Definition allocate_node s : option Z * graph :=
  if heap_size s <? heap_used s + sizeof_node then (None, s)
  else (Some (len (nodes s)), set_nodes (nodes s ++ [clear_node]) s).

Definition hash_insert (c : Z) s : graph :=
  let h := bucket_of (nd_id (nd s c)) in
  let s := upd_nd c (set_next_sibling 0) s in
  let s := match arr_get None (node_hash s) h with
           | None => s
           | Some current => upd_nd c (set_next_sibling (nd_id (nd s current))) s
           end in
  set_node_hash (arr_set (node_hash s) h (Some c)) s.

(** The loop of [hash_lookup] from [current] on; its recursive call goes
    through [state_graph_get_node]. *)
Fixpoint lookup_from (n : nat) (id : Z) (current : option Z) s : option (option Z) :=
  match current with
  | None => Some None
  | Some c =>
      if nd_id (nd s c) =? id then Some (Some c)
      else if next_sibling_id (nd s c) =? 0 then Some None
      else match n with
           | O => None
           | S n' =>
               let next := next_sibling_id (nd s c) in
               current ← lookup_from n' next (bucket s next) s;
               lookup_from n' id current s
           end
  end.
Definition hash_lookup (id : Z) s : option (option Z) := lookup_from fuel id (bucket s id) s.
Definition state_graph_get_node (id : Z) s : option (option Z) := if id =? NODE_ID_INVALID then Some None else hash_lookup id s.

Definition state_graph_get_root (type : Z) s : option Z := if NODE_TYPE_MAX <=? type then None else arr_get None (root_nodes s) type.

Definition state_graph_add_child (parent child : Z) s : option (Z * graph) :=
  p ← state_graph_get_node parent s;
  c ← state_graph_get_node child s;
  match p, c with
  | Some p, Some c =>
      let s := upd_nd c (set_next_sibling (first_child_id (nd s p))) s in
      Some (0, upd_nd p (set_first_child child) s)
  | _, _ => Some (-1, s)
  end.

Definition state_graph_notify_observers (node event : Z) s : graph :=
  set_notified (notified s ++ omap (fun o => f ← notify o; Some (f, node, event)) (observers s)) s.

Definition state_graph_create_node (type parent : Z) s : option (Z * graph) :=
  s ← lock_acquire s;
  match allocate_node s with
  | (None, s) => Some (NODE_ID_INVALID, lock_release s)
  | (Some c, s) =>
      let id := next_id s in
      let s := set_sg_next (u64 (id + 1)) s in
      let s := upd_nd c (fun _ => StateNode id type (NODE_FLAG_VISIBLE .| NODE_FLAG_ENABLED) parent 0 0 0 0 0 0 0 (zeros 256) (zeros 256) 0 0) s in
      let s := hash_insert c s in
      '(_, s) ← (if parent =? NODE_ID_INVALID then Some (0, s) else state_graph_add_child parent id s);
      let s := state_graph_notify_observers id EVENT_CREATE s in
      Some (nd_id (nd s c), lock_release s)
  end.

Fixpoint create_roots (todo : list Z) s : option graph :=
  match todo with
  | [] => Some s
  | i :: todo' =>
      '(id, s) ← state_graph_create_node i NODE_ID_INVALID s;
      s ← (if id =? NODE_ID_INVALID then Some s
           else r ← state_graph_get_node id s;
                let s := set_roots (arr_set (root_nodes s) i r) s in
                c ← r; Some (upd_nd c (fun x => set_nd_flags (nd_flags x .| NODE_FLAG_PERSISTENT) x) s));
      create_roots todo' s
  end.
Definition state_graph_init s : option graph :=
  '(heap, s) ← on_sg_fs (malloc fuel (1024 * 1024)) s;
  if heap =? 0 then None
  else create_roots (seqZ 0 NODE_TYPE_MAX)
         (StateGraph (sg_fs s) [] (1024 * 1024) (replicate (Z.to_nat HASH_SIZE) None) (replicate (Z.to_nat NODE_TYPE_MAX) None) 1 [] 0 (notified s)).

(** The setters: look the node up under the lock, change it, mark it dirty
    and notify. *)
Definition dirty (x : state_node) : state_node := set_nd_flags (nd_flags x .| NODE_FLAG_DIRTY) x.
Definition mutate (id event : Z) (f : state_node -> option state_node) s : option (Z * graph) :=
  s ← lock_acquire s;
  r ← state_graph_get_node id s;
  match r with
  | None => Some (-1, lock_release s)
  | Some c => x ← f (nd s c); Some (0, lock_release (state_graph_notify_observers id event (upd_nd c (fun _ => dirty x) s)))
  end.
(** [k_strcpy] into the array at [off] of the 512 bytes that [text] and
    [value] occupy; [None] when it runs past them. *)
Definition strcpy_at (off : Z) (str : cstring) (x : state_node) : option state_node :=
  let all := text x ++ value x in
  if 512 <? off + len str + 1 then None
  else
    let all := take (Z.to_nat off) all ++ (str ++ [0]) ++ drop (Z.to_nat (off + len str + 1)) all in
    Some (set_strings (take 256 all) (drop 256 all) x).
Definition state_graph_set_geometry (id x y w h : Z) := mutate id EVENT_GEOMETRY (fun n => Some (set_geometry x y w h n)).
Definition state_graph_set_text (id : Z) (str : cstring) := mutate id EVENT_UPDATE (strcpy_at 0 str).
Definition state_graph_set_value (id : Z) (str : cstring) := mutate id EVENT_UPDATE (strcpy_at 256 str).
Definition state_graph_set_flags (id flags : Z) := mutate id EVENT_UPDATE (fun n => Some (set_nd_flags flags n)).

Definition state_graph_mark_dirty (id : Z) s : option (Z * graph) :=
  r ← state_graph_get_node id s;
  Some (match r with None => (-1, s) | Some c => (0, upd_nd c dirty s) end).

Definition state_graph_add_observer (pid : Z) (f : option Z) s : option (Z * graph) :=
  '(p, s) ← on_sg_fs (malloc fuel sizeof_observer) s;
  if p =? 0 then Some (-1, s) else Some (0, set_observers (Observer p pid f :: observers s) s).
Fixpoint remove_observer (pid : Z) (todo : list observer) : option (observer * list observer) :=
  match todo with
  | [] => None
  | o :: todo' => if process_id o =? pid then Some (o, todo') else '(r, rest) ← remove_observer pid todo'; Some (r, o :: rest)
  end.
Definition state_graph_remove_observer (pid : Z) s : option (Z * graph) :=
  match remove_observer pid (observers s) with
  | None => Some (-1, s)
  | Some (o, rest) => '(_, s) ← on_sg_fs (free fuel (ob_addr o)) (set_observers rest s); Some (0, s)
  end.

Definition state_graph_delete_node (id : Z) s : option (Z * graph) :=
  s ← lock_acquire s;
  r ← state_graph_get_node id s;
  match r with
  | None => Some (-1, lock_release s)
  | Some c => Some (0, lock_release (upd_nd c (set_nd_id NODE_ID_INVALID) (state_graph_notify_observers id EVENT_DELETE s)))
  end.

(** ** Saving and loading *)

Definition NODE_SERIAL_SIZE : Z := 600.
Definition node_serialize (x : state_node) : list Z :=
  le_bytes 8 (nd_id x) ++ le_bytes 4 (nd_type x) ++ le_bytes 4 (nd_flags x) ++ le_bytes 8 (parent_id x) ++
  le_bytes 8 (geo_x x) ++ le_bytes 8 (geo_y x) ++ le_bytes 8 (geo_width x) ++ le_bytes 8 (geo_height x) ++
  text x ++ value x ++ le_bytes 8 (mft_record_id x) ++ le_bytes 8 (last_sync_hash x) ++ zeros 16.
(** The little-endian number at an offset of a buffer. *)
Definition field (buf : list Z) (off n : Z) : Z := load_le (store_bytes 0 buf ∅) off n.
Definition node_deserialize (buf : list Z) (x : state_node) : state_node :=
  StateNode (field buf 0 8) (field buf 8 4) (field buf 12 4) (field buf 16 8) (first_child_id x) (next_sibling_id x) (prev_sibling_id x)
    (i32 (field buf 24 8)) (i32 (field buf 32 8)) (i32 (field buf 40 8)) (i32 (field buf 48 8))
    (take 256 (drop 56 buf)) (take 256 (drop 312 buf)) (field buf 568 8) (field buf 576 8).

Definition hex (d : Z) : Z := arr_get 0 (zs "0123456789ABCDEF") d.
Definition node_path (id : Z) : cstring := zs "sys/node_" ++ ((fun sh => hex ((id .>> sh) .& 15)) <$> [28; 24; 20; 16; 12; 8; 4; 0]).

Definition state_graph_sync_to_mft (id : Z) s : option (Z * graph) :=
  r ← state_graph_get_node id s;
  match r with
  | None => Some (-1, s)
  | Some c =>
      if nd_flags (nd s c) .& NODE_FLAG_DIRTY =? 0 then Some (0, s)
      else
        '(file, s) ← on_sg_fs (fs_open fuel (node_path id) 1) s;
        if file =? 0 then Some (-1, s)
        else
          '(written, s) ← on_sg_fs (fs_write fuel stack file (node_serialize (nd s c))) s;
          '(_, s) ← on_sg_fs (fs_close fuel file) s;
          if written =? NODE_SERIAL_SIZE
          then Some (0, upd_nd c (fun x => set_sync_hash 0 (set_nd_flags (nd_flags x .& u32 (Z.lnot NODE_FLAG_DIRTY)) x)) s)
          else Some (-1, s)
  end.

(** Loading the node of one file: [false] stops the loop. *)
Definition load_node (id : Z) s : option (bool * Z * graph) :=
  '(file, s) ← on_sg_fs (fs_open fuel (node_path id) 0) s;
  if file =? 0 then Some (true, 0, s)
  else
    '(data, s) ← on_sg_fs (fs_read stack file NODE_SERIAL_SIZE) s;
    '(_, s) ← on_sg_fs (fs_close fuel file) s;
    if len data <? 8 + 4 + 4 then Some (true, 0, s)
    else
      let buf := data ++ drop (length data) stack in
      s ← lock_acquire s;
      match allocate_node s with
      | (None, s) => Some (false, 0, lock_release s)
      | (Some c, s) =>
          let s := upd_nd c (node_deserialize buf) s in
          let x := nd s c in
          if (NODE_TYPE_ROOT <=? nd_type x) && (nd_type x <? NODE_TYPE_MAX) && (parent_id x =? NODE_ID_INVALID)
          then Some (true, 0, lock_release (set_nodes (take (Z.to_nat c) (nodes s)) s))
          else
            let s := if next_id s <=? nd_id x then set_sg_next (u64 (nd_id x + 1)) s else s in
            let s := hash_insert c s in
            let s := upd_nd c (fun x => set_nd_flags (nd_flags x .& u32 (Z.lnot NODE_FLAG_DIRTY)) x) s in
            Some (true, 1, lock_release s)
      end.
Fixpoint load_nodes (todo : list Z) (loaded : Z) s : option (Z * graph) :=
  match todo with
  | [] => Some (loaded, s)
  | id :: todo' => '(go, k, s) ← load_node id s; if go : bool then load_nodes todo' (loaded + k) s else Some (loaded, s)
  end.
Definition relink_node (id : Z) s : option graph :=
  r ← state_graph_get_node id s;
  match r with
  | None => Some s
  | Some c =>
      let p := parent_id (nd s c) in
      if (p =? NODE_ID_INVALID) || (p =? nd_id (nd s c)) then Some s
      else
        pr ← state_graph_get_node p s;
        match pr with
        | None => Some (upd_nd c (set_parent NODE_ID_INVALID) s)
        | Some _ => '(_, s) ← state_graph_add_child p id s; Some s
        end
  end.
Fixpoint relink_nodes (todo : list Z) s : option graph :=
  match todo with [] => Some s | id :: todo' => s ← relink_node id s; relink_nodes todo' s end.
(** The number of nodes loaded is what the code prints. *)
Definition state_graph_load_from_mft s : option (Z * graph) :=
  '(loaded, s) ← load_nodes (seqZ 1 1024) 0 s;
  s ← relink_nodes (seqZ 1 1024) s;
  Some (loaded, s).
End graph.

(** ** Graphs of up to 1024 nodes *)

Section young.
Context {D : Type} `{PortIO D} (fuel : nat).
Implicit Types (s : state_graph D) (log : list (Z * Z)).

Lemma bucket_of_small id : 0 <= id < 2 ^ 32 -> bucket_of id = id mod 1024.
Proof.
  intros Hid. unfold bucket_of, hash_node_id. rewrite Z.shiftr_div_pow2 by lia. rewrite Z.div_small by lia.
  rewrite Z.lxor_0_r, u32_id by done. done.
Qed.
Lemma bucket_inj a b : 1 <= a <= 1024 -> 1 <= b <= 1024 -> bucket_of a = bucket_of b -> a = b.
Proof.
  intros Ha Hb. rewrite !bucket_of_small by lia. intros E.
  assert (Hm : forall x, 1 <= x <= 1024 -> x mod 1024 = if x =? 1024 then 0 else x).
  { intros x Hx. destruct (Z.eqb_spec x 1024) as [->|]; [done|]. apply Z.mod_small. lia. }
  rewrite !Hm in E by done. destruct (Z.eqb_spec a 1024), (Z.eqb_spec b 1024); lia.
Qed.
Lemma bucket_range id : 1 <= id <= 1024 -> 0 <= bucket_of id < 1024.
Proof. intros. rewrite bucket_of_small by lia. apply Z.mod_pos_bound. lia. Qed.

(** The identifiers of the children of [p], newest first; [log] holds type and
    parent of each node in the order of creation, identifiers count from 1. *)
Definition kids_step (p : Z) (acc : Z * list Z) (e : Z * Z) : Z * list Z :=
  (acc.1 + 1, if e.2 =? p then (acc.1 + 1) :: acc.2 else acc.2).
Definition kids log (p : Z) : list Z := (foldl (kids_step p) (0, []) log).2.

Lemma kids_count log p : (foldl (kids_step p) (0, []) log).1 = len log.
Proof.
  induction log as [|e log IH] using rev_ind; [done|]. rewrite foldl_app. cbn [foldl kids_step fst]. rewrite IH, length_app. cbn. lia.
Qed.
Lemma kids_snoc log e p : kids (log ++ [e]) p = if e.2 =? p then (len log + 1) :: kids log p else kids log p.
Proof. unfold kids at 1. rewrite foldl_app. cbn [foldl]. unfold kids_step at 1. cbn [snd]. rewrite kids_count. done. Qed.
(** [kids] holds exactly the children. *)
Lemma kids_in log p id : id ∈ kids log p <-> exists t, 1 <= id /\ log !! Z.to_nat (id - 1) = Some (t, p).
Proof.
  induction log as [|[t q] log IH] using rev_ind.
  - split; [intros Hin; by apply elem_of_nil in Hin|]. intros (t & _ & Ht). by rewrite lookup_nil in Ht.
  - rewrite kids_snoc. cbn [snd]. destruct (Z.eqb_spec q p) as [->|Hne]; rewrite ?elem_of_cons, IH.
    + split.
      * intros [->|(t' & H1 & H2)].
        -- exists t. split; [lia|]. replace (Z.to_nat (len log + 1 - 1)) with (length log) by lia.
           by rewrite lookup_app_r, Nat.sub_diag by lia.
        -- exists t'. split; [done|]. by apply lookup_app_l_Some.
      * intros (t' & H1 & H2). apply lookup_app_Some in H2 as [H2|[H2 H3]]; [right; eauto|].
        left. apply list_lookup_singleton_Some in H3 as [H3 _]. lia.
    + split.
      * intros (t' & H1 & H2). exists t'. split; [done|]. by apply lookup_app_l_Some.
      * intros (t' & H1 & H2). apply lookup_app_Some in H2 as [H2|[H2 H3]]; [eauto|].
        apply list_lookup_singleton_Some in H3 as [_ H3]. congruence.
Qed.

Record young s log : Prop := {
  y_len : len (nodes s) = len log;
  y_max : len log <= 1024;
  y_next : next_id s = len log + 1;
  y_hash : len (node_hash s) = 1024;
  y_bucket : forall id, 1 <= id <= 1024 -> bucket s id = if id <=? len log then Some (id - 1) else None;
  y_node : forall i t p, log !! i = Some (t, p) ->
    let x := nd s (Z.of_nat i) in
    nd_id x = Z.of_nat i + 1 /\ nd_type x = t /\ parent_id x = p /\
    first_child_id x = hd 0 (kids log (Z.of_nat i + 1)) /\ next_sibling_id x = if p =? 0 then 0 else hd 0 (kids (take i log) p);
  y_parents : forall i t p, log !! i = Some (t, p) -> 0 <= p <= Z.of_nat i;
  y_lock : lock s = 0;
  y_size : heap_size s = 1048576
}.

Lemma young_node s log id : young s log -> 1 <= id <= len log -> nd_id (nd s (id - 1)) = id.
Proof.
  intros Hy Hid. destruct (lookup_lt_is_Some_2 log (Z.to_nat (id - 1)) ltac:(lia)) as [[t p] Ht].
  destruct (y_node _ _ Hy _ _ _ Ht) as [E _]. cbn zeta in E. rewrite Z2Nat.id in E by lia. rewrite E. lia.
Qed.

(** Every node is found at once. *)
Lemma young_lookup s log id : young s log -> 1 <= id <= len log -> state_graph_get_node fuel id s = Some (Some (id - 1)).
Proof.
  intros Hy Hid. pose proof (y_max _ _ Hy). unfold state_graph_get_node, hash_lookup, NODE_ID_INVALID.
  rewrite (proj2 (Z.eqb_neq id 0)) by lia. rewrite (y_bucket _ _ Hy) by lia. rewrite (proj2 (Z.leb_le _ _)) by lia.
  destruct fuel; cbn [lookup_from]; rewrite (young_node s log id Hy Hid), Z.eqb_refl; done.
Qed.

Lemma nd_upd_eq c f s : 0 <= c < len (nodes s) -> nd (upd_nd c f s) c = f (nd s c).
Proof. intros. unfold nd, upd_nd. cbn [nodes set_nodes]. by rewrite arr_get_set_eq. Qed.
Lemma nd_upd_ne c d f s : 0 <= c -> 0 <= d -> c <> d -> nd (upd_nd c f s) d = nd s d.
Proof. intros. unfold nd, upd_nd. cbn [nodes set_nodes]. by rewrite arr_get_set_ne by lia. Qed.
Lemma len_upd_nd c f s : length (nodes (upd_nd c f s)) = length (nodes s).
Proof. unfold upd_nd. cbn [nodes set_nodes]. apply length_arr_set. Qed.

(** The node as created, before it is linked to its parent. *)
Definition fresh_node (id t p : Z) : state_node :=
  StateNode id t (NODE_FLAG_VISIBLE .| NODE_FLAG_ENABLED) p 0 0 0 0 0 0 0 (zeros 256) (zeros 256) 0 0.

Lemma nodes_snoc (s : state_graph D) log : young s log -> forall x d, 0 <= d ->
  nd (set_nodes (nodes s ++ [x]) s) d = if d =? len log then x else nd s d.
Proof.
  intros Hy x d Hd. pose proof (y_len _ _ Hy). unfold nd, arr_get. cbn [nodes set_nodes]. destruct (Z.eqb_spec d (len log)) as [->|Hne].
  - rewrite lookup_app_r by lia. replace (Z.to_nat (len log) - length (nodes s))%nat with 0%nat by lia. done.
  - destruct (decide (Z.to_nat d < length (nodes s))%nat); [by rewrite lookup_app_l|].
    rewrite lookup_app_r by lia. rewrite (lookup_ge_None_2 (nodes s)) by lia.
    by rewrite lookup_ge_None_2 by (cbn; lia).
Qed.

(** The state in which the node [x] has been allocated and filled in. *)
Definition append_node (x : state_node) (n : Z) s log : state_graph D :=
  upd_nd (len log) (fun _ => x) (set_sg_next n (set_nodes (nodes s ++ [clear_node]) (set_lock 1 s))).
Lemma appended s log x n : young s log ->
  (forall d, 0 <= d -> nd (append_node x n s log) d = if d =? len log then x else nd s d) /\
  len (nodes (append_node x n s log)) = len log + 1.
Proof.
  intros Hy. pose proof (y_len _ _ Hy) as Y1. unfold append_node. split.
  - intros d Hd. destruct (Z.eqb_spec d (len log)) as [->|Hne].
    + rewrite nd_upd_eq; [done|]. cbn [nodes set_sg_next set_nodes]. rewrite length_app. cbn. lia.
    + rewrite nd_upd_ne by lia. change (nd (set_sg_next ?a ?b) d) with (nd b d).
      change (nd (set_nodes (nodes s ++ [clear_node]) (set_lock 1 s)) d) with (nd (set_nodes (nodes s ++ [clear_node]) s) d).
      rewrite (nodes_snoc s log Hy) by done. by rewrite (proj2 (Z.eqb_neq _ _)).
  - rewrite len_upd_nd. cbn [nodes set_sg_next set_nodes]. rewrite length_app. cbn. lia.
Qed.
(** Creating a node up to where it is linked to its parent. *)
Lemma create_unfold s log t p : young s log ->
  state_graph_create_node fuel t p s =
  '(_, s2) ← (let s1 := hash_insert (len log) (append_node (fresh_node (len log + 1) t p) (u64 (len log + 2)) s log) in
              if p =? NODE_ID_INVALID then Some (0, s1) else state_graph_add_child fuel p (len log + 1) s1);
  let s2 := state_graph_notify_observers (len log + 1) EVENT_CREATE s2 in
  Some (nd_id (nd s2 (len log)), lock_release s2).
Proof.
  intros [Y1 Y2 Y3 _ _ _ _ Y8 Y9]. unfold state_graph_create_node, lock_acquire. rewrite Y8. cbn [Z.eqb mbind option_bind].
  unfold allocate_node, heap_used, sizeof_node. cbn [heap_size nodes set_lock]. rewrite Y9, Y1.
  rewrite (proj2 (Z.ltb_ge _ _)) by lia. change (next_id (set_nodes (nodes s ++ [clear_node]) (set_lock 1 s))) with (next_id s). rewrite Y3.
  by replace (len log + 1 + 1) with (len log + 2) by lia.
Qed.

(** The new node in its bucket. *)
Lemma inserted s log t p : young s log -> len log < 1024 ->
  let id := len log + 1 in
  let s1 := hash_insert (len log) (append_node (fresh_node id t p) (u64 (len log + 2)) s log) in
  len (nodes s1) = id /\ (forall d, 0 <= d -> nd s1 d = if d =? len log then fresh_node id t p else nd s d) /\
  next_id s1 = id + 1 /\ len (node_hash s1) = 1024 /\
  (forall j, 1 <= j <= 1024 -> bucket s1 j = if j <=? id then Some (j - 1) else None) /\
  heap_size s1 = 1048576 /\ observers s1 = observers s.
Proof.
  intros Hy Hmax id. pose proof Hy as [Y1 Y2 Y3 Y4 Y5 Y6 Y7 Y8 Y9].
  destruct (appended s log (fresh_node id t p) (u64 (len log + 2)) Hy) as [Hn0 Hl0].
  set (s0 := append_node (fresh_node id t p) (u64 (len log + 2)) s log) in *. fold id in Hl0.
  assert (Hh : nd_id (nd s0 (len log)) = id) by (rewrite Hn0 by lia; by rewrite Z.eqb_refl).
  assert (Hfree : arr_get None (node_hash s0) (bucket_of id) = None).
  { change (node_hash s0) with (node_hash s). fold (bucket s id). rewrite Y5 by lia. by rewrite (proj2 (Z.leb_gt _ _)) by lia. }
  unfold hash_insert. rewrite Hh.
  change (node_hash (upd_nd (len log) (set_next_sibling 0) s0)) with (node_hash s0). rewrite Hfree. cbv zeta.
  set (s1 := set_node_hash _ _). split; [|split; [|split; [|split; [|split; [|done]]]]].
  - unfold s1. cbn [nodes set_node_hash]. by rewrite len_upd_nd.
  - intros d Hd. unfold s1. change (nd (set_node_hash ?a ?b) d) with (nd b d). destruct (Z.eqb_spec d (len log)) as [->|Hne].
    + rewrite nd_upd_eq by lia. rewrite Hn0 by lia. by rewrite Z.eqb_refl.
    + rewrite nd_upd_ne by lia. rewrite Hn0 by lia. by rewrite (proj2 (Z.eqb_neq _ _)).
  - unfold s1, s0. cbn [next_id set_node_hash upd_nd set_nodes set_sg_next append_node]. rewrite u64_id by (unfold is_u64; lia). lia.
  - unfold s1. cbn [node_hash set_node_hash]. by rewrite length_arr_set.
  - intros j Hj. unfold bucket, s1. cbn [node_hash set_node_hash].
    change (node_hash (upd_nd (len log) (set_next_sibling 0) s0)) with (node_hash s).
    pose proof (bucket_range id ltac:(lia)). pose proof (bucket_range j Hj). destruct (decide (j = id)) as [->|Hne].
    + rewrite arr_get_set_eq by lia. rewrite (proj2 (Z.leb_le _ _)) by lia. f_equal. lia.
    + rewrite arr_get_set_ne; [|lia|lia|intros E; apply Hne; symmetry; apply bucket_inj; [lia|lia|done]].
      fold (bucket s j). rewrite Y5 by done. destruct (Z.leb_spec j (len log)), (Z.leb_spec j id); done || lia.
Qed.

Lemma kids_new log : (forall i t p, log !! i = Some (t, p) -> 0 <= p <= Z.of_nat i) -> kids log (len log + 1) = [].
Proof.
  intros Hp. destruct (kids log (len log + 1)) as [|x l] eqn:E; [done|]. exfalso.
  assert (Hin : x ∈ kids log (len log + 1)) by (rewrite E; left). apply kids_in in Hin as (t & H1 & H2).
  pose proof (lookup_lt_Some _ _ _ H2). apply Hp in H2. lia.
Qed.

(** Notifying and releasing the lock changes neither nodes nor buckets. *)
Lemma young_ext s s' log : young s log -> nodes s' = nodes s -> next_id s' = next_id s -> node_hash s' = node_hash s ->
  lock s' = lock s -> heap_size s' = heap_size s -> young s' log.
Proof.
  intros [Y1 Y2 Y3 Y4 Y5 Y6 Y7 Y8 Y9] E1 E2 E3 E4 E5. unfold bucket in Y5. unfold nd in Y6.
  split; unfold bucket, nd; rewrite ?E1, ?E2, ?E3, ?E4, ?E5; try done.
Qed.

(** Linking the new node to its parent. *)
Lemma linked s log t p s1 : young s log -> len log < 1024 -> 0 <= p <= len log -> len (nodes s1) = len log + 1 ->
  (forall d, 0 <= d -> nd s1 d = if d =? len log then fresh_node (len log + 1) t p else nd s d) ->
  (forall j, 1 <= j <= 1024 -> bucket s1 j = if j <=? len log + 1 then Some (j - 1) else None) ->
  exists s2, (if p =? NODE_ID_INVALID then Some (0, s1) else state_graph_add_child fuel p (len log + 1) s1) = Some (0, s2) /\
    len (nodes s2) = len log + 1 /\ next_id s2 = next_id s1 /\ node_hash s2 = node_hash s1 /\ heap_size s2 = heap_size s1 /\
    (forall d, 0 <= d -> nd s2 d =
       if d =? len log then (if p =? 0 then fresh_node (len log + 1) t p else set_next_sibling (first_child_id (nd s (p - 1))) (fresh_node (len log + 1) t p))
       else if (d + 1 =? p) then set_first_child (len log + 1) (nd s d) else nd s d).
Proof.
  intros Hy Hmax Hp L1 N1 B1. unfold NODE_ID_INVALID. destruct (Z.eqb_spec p 0) as [->|Hpz].
  - exists s1. split; [done|]. split; [done|]. split; [done|]. split; [done|]. split; [done|]. intros d Hd. rewrite N1 by done.
    destruct (d =? len log); [done|]. by rewrite (proj2 (Z.eqb_neq (d + 1) 0)) by lia.
  - assert (Hget : forall j, 1 <= j <= len log + 1 -> nd_id (nd s1 (j - 1)) = j -> state_graph_get_node fuel j s1 = Some (Some (j - 1))).
    { intros j Hj Hid. unfold state_graph_get_node, hash_lookup, NODE_ID_INVALID. rewrite (proj2 (Z.eqb_neq j 0)) by lia.
      rewrite B1 by lia. rewrite (proj2 (Z.leb_le _ _)) by lia. destruct fuel; cbn [lookup_from]; rewrite Hid, Z.eqb_refl; done. }
    unfold state_graph_add_child. rewrite (Hget p), (Hget (len log + 1)); [|lia| |lia|].
    2:{ rewrite N1 by lia. replace (len log + 1 - 1) with (len log) by lia. by rewrite Z.eqb_refl. }
    2:{ rewrite N1 by lia. rewrite (proj2 (Z.eqb_neq _ _)) by lia. apply (young_node s log); [done|lia]. }
    cbn [mbind option_bind]. replace (len log + 1 - 1) with (len log) by lia. eexists. split; [done|].
    split; [by rewrite !len_upd_nd|]. split; [done|]. split; [done|]. split; [done|]. intros d Hd.
    assert (Hfc : nd s1 (p - 1) = nd s (p - 1)) by (rewrite N1 by lia; by rewrite (proj2 (Z.eqb_neq _ _)) by lia).
    rewrite Hfc. destruct (Z.eqb_spec (d + 1) p) as [Hdp|Hdp].
    + assert (d = p - 1) as -> by lia. rewrite nd_upd_eq by (rewrite len_upd_nd; lia). rewrite nd_upd_ne by lia.
      rewrite Hfc. rewrite (proj2 (Z.eqb_neq (p - 1) _)) by lia. done.
    + rewrite nd_upd_ne by lia. destruct (Z.eqb_spec d (len log)) as [->|Hdl].
      * rewrite nd_upd_eq by lia. rewrite N1 by lia. by rewrite Z.eqb_refl.
      * rewrite nd_upd_ne by lia. rewrite N1 by lia. by rewrite (proj2 (Z.eqb_neq d _)).
Qed.

(** Creating a node under an existing parent, or without one. *)
Lemma create_young s log t p : young s log -> len log < 1024 -> 0 <= p <= len log ->
  exists s', state_graph_create_node fuel t p s = Some (len log + 1, s') /\ young s' (log ++ [(t, p)]).
Proof.
  intros Hy Hmax Hp. pose proof Hy as [Y1 Y2 Y3 Y4 Y5 Y6 Y7 Y8 Y9].
  destruct (inserted s log t p Hy Hmax) as (L1 & N1 & X1 & H1 & B1 & Z1 & _). cbn zeta in *.
  rewrite (create_unfold s log t p Hy). cbv zeta. set (s1 := hash_insert (len log) _) in *.
  assert (Hlen : len (log ++ [(t, p)]) = len log + 1) by (rewrite length_app; cbn; lia).
  destruct (linked s log t p s1 Hy Hmax Hp L1 N1 B1) as (s2 & -> & L2 & X2 & H2 & Z2 & N2). cbn [mbind option_bind].
  assert (Hres : nd_id (nd s2 (len log)) = len log + 1).
  { rewrite N2 by lia. rewrite Z.eqb_refl. by destruct (p =? 0). }
  change (nd (state_graph_notify_observers (len log + 1) EVENT_CREATE s2) (len log)) with (nd s2 (len log)). rewrite Hres.
  eexists. split; [done|].
  split; cbn [nodes next_id node_hash lock heap_size lock_release set_lock state_graph_notify_observers set_notified]; rewrite ?Hlen.
  - done.
  - lia.
  - lia.
  - by rewrite H2.
  - intros j Hj. unfold bucket. cbn [node_hash lock_release set_lock state_graph_notify_observers set_notified]. rewrite H2. by apply B1.
  - intros i t' p' Hi. cbn zeta.
    assert (Hnd : forall d, nd (lock_release (state_graph_notify_observers (len log + 1) EVENT_CREATE s2)) d = nd s2 d) by done.
    rewrite Hnd, N2 by lia.
    apply lookup_app_Some in Hi as [Hi|[Hge Hi]].
    + pose proof (lookup_lt_Some _ _ _ Hi) as Hlt. rewrite (proj2 (Z.eqb_neq _ (len log))) by lia.
      destruct (Y6 _ _ _ Hi) as (A1 & A2 & A3 & A4 & A5). cbn zeta in *. rewrite kids_snoc, take_app_le by lia. cbn [snd].
      destruct (Z.eqb_spec (Z.of_nat i + 1) p) as [E|E].
      * destruct (nd s (Z.of_nat i)). cbn in *. rewrite (proj2 (Z.eqb_eq p _)) by lia. done.
      * rewrite (proj2 (Z.eqb_neq p _)) by lia. done.
    + apply list_lookup_singleton_Some in Hi as [Hi [= <- <-]]. assert (i = length log) as -> by lia. rewrite Z.eqb_refl.
      rewrite take_app_length, kids_snoc. cbn [snd]. rewrite (proj2 (Z.eqb_neq p (len log + 1))) by lia. rewrite (kids_new log Y7).
      destruct (Z.eqb_spec p 0); [done|]. cbn. split; [done|]. split; [done|]. split; [done|]. split; [done|].
      destruct (lookup_lt_is_Some_2 log (Z.to_nat (p - 1)) ltac:(lia)) as [[t0 p0] H0]. destruct (Y6 _ _ _ H0) as (_ & _ & _ & E & _).
      cbn zeta in E. rewrite Z2Nat.id in E by lia. rewrite E. do 2 f_equal. lia.
  - intros i t' p' Hi. apply lookup_app_Some in Hi as [Hi|[Hge Hi]]; [by apply (Y7 _ _ _ Hi)|].
    apply list_lookup_singleton_Some in Hi as [Hi [= <- <-]]. lia.
  - done.
  - by rewrite Z2.
Qed.

(** Changing contents but no links keeps the graph. *)
Lemma young_upd s log c f : young s log -> 0 <= c ->
  (forall x, nd_id (f x) = nd_id x /\ nd_type (f x) = nd_type x /\ parent_id (f x) = parent_id x /\
             first_child_id (f x) = first_child_id x /\ next_sibling_id (f x) = next_sibling_id x) -> young (upd_nd c f s) log.
Proof.
  intros [Y1 Y2 Y3 Y4 Y5 Y6 Y7 Y8 Y9] Hc Hf. split; try done; [by rewrite len_upd_nd|].
  intros i t p Hi. cbn zeta. destruct (Y6 _ _ _ Hi) as (A1 & A2 & A3 & A4 & A5). pose proof (lookup_lt_Some _ _ _ Hi).
  destruct (decide (c = Z.of_nat i)) as [->|Hne]; [|by rewrite nd_upd_ne by lia].
  rewrite nd_upd_eq by lia. destruct (Hf (nd s (Z.of_nat i))) as (E1 & E2 & E3 & E4 & E5). cbn zeta in *.
  by rewrite E1, E2, E3, E4, E5.
Qed.

Lemma roots_young todo : forall s log, young s log -> len log + len todo <= 1024 ->
  exists s', create_roots fuel todo s = Some s' /\ young s' (log ++ ((fun i => (i, 0)) <$> todo)).
Proof.
  induction todo as [|i todo IH]; intros s log Hy Hl; cbn [create_roots]; [exists s; by rewrite app_nil_r|]. cbn [length] in Hl.
  unfold NODE_ID_INVALID. destruct (create_young s log i 0 Hy ltac:(lia) ltac:(lia)) as (s1 & -> & Hy1). cbn [mbind option_bind].
  rewrite (proj2 (Z.eqb_neq (len log + 1) 0)) by lia.
  rewrite (young_lookup s1 _ (len log + 1) Hy1) by (rewrite length_app; cbn; lia). cbn [mbind option_bind].
  match goal with |- context [create_roots fuel todo ?x] => set (s2 := x) end.
  assert (Hy2 : young s2 (log ++ [(i, 0)])).
  { unfold s2. apply young_upd; [|lia|by intros []]. by apply (young_ext s1). }
  destruct (IH s2 _ Hy2) as (s3 & -> & Hy3); [rewrite length_app; cbn; lia|]. exists s3. split; [done|].
  by rewrite <- app_assoc in Hy3.
Qed.

Definition roots : list (Z * Z) := (fun i => (i, 0)) <$> seqZ 0 NODE_TYPE_MAX.

Lemma init_young s s' : state_graph_init fuel s = Some s' -> young s' roots.
Proof.
  unfold state_graph_init. intros Hr. apply bind_Some in Hr as ([heap s1] & _ & Hr). destruct (heap =? 0); [done|].
  set (s2 := StateGraph _ _ _ _ _ _ _ _ _) in Hr.
  assert (Hy : young s2 []).
  { split; try done. intros id Hid. unfold bucket, s2. cbn [node_hash]. rewrite (proj2 (Z.leb_gt _ _)) by (cbn; lia).
    apply arr_get_replicate, bucket_range. lia. }
  destruct (roots_young (seqZ 0 NODE_TYPE_MAX) s2 [] Hy) as (s3 & E & Hy3); [done|]. rewrite Hr in E. injection E as ->. exact Hy3.
Qed.

(** Creating several nodes: their identifiers. *)
Fixpoint create_all (calls : list (Z * Z)) s : option (list Z * state_graph D) :=
  match calls with
  | [] => Some ([], s)
  | (t, p) :: calls' => '(id, s) ← state_graph_create_node fuel t p s; '(ids, s) ← create_all calls' s; Some (id :: ids, s)
  end.
(** Each call names no parent or a node that exists when it is made. *)
Fixpoint valid_calls (existing : Z) (calls : list (Z * Z)) : Prop :=
  match calls with [] => True | (t, p) :: calls' => 0 <= p <= existing /\ valid_calls (existing + 1) calls' end.

Lemma create_all_young calls : forall s log, young s log -> len log + len calls <= 1024 -> valid_calls (len log) calls ->
  exists s', create_all calls s = Some (seqZ (len log + 1) (len calls), s') /\ young s' (log ++ calls).
Proof.
  induction calls as [|[t p] calls IH]; intros s log Hy Hl Hv; cbn [create_all]; [exists s; by rewrite app_nil_r|].
  cbn [length] in Hl. destruct Hv as [Hp Hv]. destruct (create_young s log t p Hy ltac:(lia) Hp) as (s1 & -> & Hy1). cbn [mbind option_bind].
  destruct (IH s1 _ Hy1) as (s2 & -> & Hy2); [rewrite length_app; cbn; lia|rewrite length_app; cbn [length]; by replace (Z.of_nat (length log + 1)) with (len log + 1) by lia|].
  cbn [mbind option_bind]. exists s2. rewrite <- app_assoc in Hy2. split; [|done]. do 2 f_equal.
  rewrite (seqZ_cons (len log + 1)) by (cbn [length]; lia). rewrite length_app. cbn [length]. repeat f_equal; lia.
Qed.

(** The children of a node, by its links. *)
Fixpoint children_from (n : nat) (id : Z) s : option (list Z) :=
  if id =? 0 then Some []
  else match n with
       | O => None
       | S n' => r ← state_graph_get_node fuel id s; c ← r; rest ← children_from n' (next_sibling_id (nd s c)) s; Some (id :: rest)
       end.

Lemma children_young s log p k : young s log -> p <> 0 -> (k <= length log)%nat -> forall n, (k <= n)%nat ->
  children_from n (hd 0 (kids (take k log) p)) s = Some (kids (take k log) p).
Proof.
  intros Hy Hp. induction k as [|k IH]; intros Hk n Hn; [by destruct n|].
  destruct (lookup_lt_is_Some_2 log k ltac:(lia)) as [[t q] Hq]. rewrite (take_S_r _ _ _ Hq), kids_snoc. cbn [snd].
  destruct (Z.eqb_spec q p) as [->|Hne]; [|apply IH; lia]. cbn [hd]. rewrite length_take_le by lia.
  destruct n as [|n]; [lia|]. cbn [children_from]. rewrite (proj2 (Z.eqb_neq (Z.of_nat k + 1) 0)) by lia.
  rewrite (young_lookup s log) by (done || lia). cbn [mbind option_bind]. replace (Z.of_nat k + 1 - 1) with (Z.of_nat k) by lia.
  destruct (y_node _ _ Hy _ _ _ Hq) as (_ & _ & _ & _ & E). cbn zeta in E. rewrite E, (proj2 (Z.eqb_neq p 0)) by done.
  rewrite IH by lia. done.
Qed.
End young.

(** [C17] After [state_graph_init], as long as there are at most 1024 nodes:
    creating nodes under existing parents gives consecutive identifiers;
    every node is then found by its identifier, with its type and parent; and
    following the links from a node visits exactly its children, newest
    first. *)
Theorem state_graph_tree {D} `{PortIO D} fuel (s0 s1 : state_graph D) calls :
  state_graph_init fuel s0 = Some s1 -> len calls <= 1014 -> valid_calls 10 calls -> (1024 <= fuel)%nat ->
  exists s', create_all fuel calls s1 = Some (seqZ 11 (len calls), s') /\
  forall i t p, (roots ++ calls) !! i = Some (t, p) ->
    state_graph_get_node fuel (Z.of_nat i + 1) s' = Some (Some (Z.of_nat i)) /\
    nd_type (nd s' (Z.of_nat i)) = t /\ parent_id (nd s' (Z.of_nat i)) = p /\
    exists l, children_from fuel fuel (first_child_id (nd s' (Z.of_nat i))) s' = Some l /\
      forall id, id ∈ l <-> exists t', 1 <= id /\ (roots ++ calls) !! Z.to_nat (id - 1) = Some (t', Z.of_nat i + 1).
Proof.
  intros Hi Hl Hv Hf. apply init_young in Hi.
  destruct (create_all_young fuel calls s1 roots Hi) as (s' & E & Hy); [change (len roots) with 10; lia|exact Hv|]. exists s'. split; [exact E|].
  intros i t p Hip. pose proof (lookup_lt_Some _ _ _ Hip). destruct (y_node _ _ Hy _ _ _ Hip) as (A1 & A2 & A3 & A4 & _). cbn zeta in *.
  pose proof (y_max _ _ Hy). split; [|split; [done|split; [done|]]].
  - rewrite (young_lookup fuel s' (roots ++ calls) (Z.of_nat i + 1) Hy) by lia. do 2 f_equal. lia.
  - rewrite A4. eexists. split; [|intros id; apply kids_in].
    pose proof (children_young fuel s' (roots ++ calls) (Z.of_nat i + 1) (length (roots ++ calls)) Hy) as Hc.
    specialize (Hc ltac:(lia) (le_n _) fuel ltac:(lia)). by rewrite firstn_all in Hc.
Qed.

(** ** The 1025th node *)

(** A bucket whose first node has another identifier and is followed by the
    one that is sought: the lookup calls itself on its own argument. *)
Lemma lookup_loops {D} (s : state_graph D) id c : bucket s id = Some c -> nd_id (nd s c) <> id ->
  next_sibling_id (nd s c) = id -> id <> 0 -> forall n, lookup_from n id (bucket s id) s = None.
Proof.
  intros Hb Hid Hnext Hz n. rewrite Hb. induction n as [|n IH]; cbn [lookup_from];
    rewrite (proj2 (Z.eqb_neq _ _) Hid), Hnext, (proj2 (Z.eqb_neq id 0) Hz); [done|]. cbn zeta. by rewrite Hb, IH.
Qed.

(** When 1024 nodes exist, creating one more root node succeeds, and after
    that looking up node 1 never returns: both share a bucket, the chain of
    the bucket goes through the lookup itself, and so the lookup of 1 calls
    the lookup of 1. *)
Theorem node_1025_hangs_lookup {D} `{PortIO D} fuel (s0 s1 s : state_graph D) calls t :
  state_graph_init fuel s0 = Some s1 -> len calls = 1014 -> valid_calls 10 calls ->
  create_all fuel calls s1 = Some (seqZ 11 1014, s) ->
  exists s', state_graph_create_node fuel t NODE_ID_INVALID s = Some (1025, s') /\
    forall n, state_graph_get_node n 1 s' = None.
Proof.
  intros Hi Hl Hv Hc. apply init_young in Hi. change (valid_calls (len roots) calls) in Hv.
  destruct (create_all_young fuel calls s1 roots Hi) as (s' & E & Hy); [change (len roots) with 10; lia|exact Hv|].
  rewrite Hc in E. assert (s' = s) as -> by congruence. clear E Hc Hi.
  assert (Hlog : len (roots ++ calls) = 1024) by (rewrite length_app; change (length roots) with 10%nat; lia).
  pose proof Hy as [Y1 Y2 Y3 Y4 Y5 _ _ Y8 Y9]. rewrite Hlog in *.
  assert (H1 : nd_id (nd s 0) = 1) by (by apply (young_node s (roots ++ calls) 1 Hy); rewrite Hlog).
  rewrite (create_unfold fuel s (roots ++ calls) t _ Hy).
  destruct (appended s (roots ++ calls) (fresh_node 1025 t NODE_ID_INVALID) (u64 (len (roots ++ calls) + 2)) Hy) as [Hn2 L2].
  rewrite Hlog in Hn2, L2 |- *. set (s2 := append_node _ _ s (roots ++ calls)) in Hn2, L2.
  change (1024 + 1) with 1025. fold s2.
  assert (Hb : arr_get None (node_hash s2) 1 = Some 0) by (apply (Y5 1); lia).
  unfold hash_insert. rewrite Hn2 by lia. change (bucket_of (nd_id (if 1024 =? 1024 then fresh_node 1025 t NODE_ID_INVALID else nd s 1024))) with 1.
  change (node_hash (upd_nd 1024 (set_next_sibling 0) s2)) with (node_hash s2). rewrite Hb. cbv zeta.
  rewrite (nd_upd_ne 1024 0) by lia. rewrite (Hn2 0) by lia. change (if 0 =? 1024 then _ else nd s 0) with (nd s 0). rewrite H1.
  set (s3 := set_node_hash _ _).
  assert (Hn3 : nd s3 1024 = set_next_sibling 1 (fresh_node 1025 t NODE_ID_INVALID)).
  { unfold s3. change (nd (set_node_hash ?a ?b) 1024) with (nd b 1024).
    rewrite nd_upd_eq by (rewrite len_upd_nd; lia). rewrite nd_upd_eq by lia. by rewrite Hn2. }
  change (NODE_ID_INVALID =? NODE_ID_INVALID) with true. cbn [mbind option_bind].
  change (nd (state_graph_notify_observers 1025 EVENT_CREATE s3) 1024) with (nd s3 1024). rewrite Hn3.
  eexists. split; [done|]. intros n. unfold state_graph_get_node, hash_lookup. change (1 =? NODE_ID_INVALID) with false. cbn iota.
  apply (lookup_loops _ 1 1024); [|change (nd (lock_release ?x) 1024) with (nd s3 1024); by rewrite Hn3..|done].
  unfold bucket. change (bucket_of 1) with 1. change (node_hash (lock_release ?x)) with (node_hash s3). unfold s3.
  cbn [node_hash set_node_hash]. apply arr_get_set_eq. change (node_hash (upd_nd _ _ _)) with (node_hash s). lia.
Qed.

(** ** The saved form *)

(** The fields of a node are within their C types. *)
Definition is_int (x : Z) : Prop := - 2 ^ 31 <= x < 2 ^ 31.
Definition node_typed (x : state_node) : Prop :=
  is_u64 (nd_id x) /\ is_u32 (nd_type x) /\ is_u32 (nd_flags x) /\ is_u64 (parent_id x) /\
  is_int (geo_x x) /\ is_int (geo_y x) /\ is_int (geo_width x) /\ is_int (geo_height x) /\
  len (text x) = 256 /\ len (value x) = 256 /\ is_u64 (mft_record_id x) /\ is_u64 (last_sync_hash x).

Lemma load_bytes_stored buf off n : 0 <= off -> 0 <= n -> off + n <= len buf ->
  load_bytes (store_bytes 0 buf ∅) off n = take (Z.to_nat n) (drop (Z.to_nat off) buf).
Proof.
  intros Ho Hn Hl. apply list_eq. intros j. unfold load_bytes. rewrite list_lookup_fmap. destruct (decide (Z.of_nat j < n)).
  - rewrite lookup_seqZ_lt by lia. cbn [fmap option_fmap option_map]. rewrite store_bytes_at.
    rewrite (proj2 (Z.leb_le _ _)), (proj2 (Z.ltb_lt _ _)) by lia. cbn [andb].
    rewrite lookup_take_lt by lia. rewrite lookup_drop.
    destruct (lookup_lt_is_Some_2 buf (Z.to_nat off + j)) as [x Hx]; [lia|]. unfold arr_get.
    replace (Z.to_nat _) with (Z.to_nat off + j)%nat by lia. by rewrite Hx.
  - rewrite lookup_seqZ_ge by lia. symmetry. apply lookup_take_ge. lia.
Qed.
Lemma take_mid {A} (pre bs post : list A) off n : off = len pre -> n = len bs ->
  take (Z.to_nat n) (drop (Z.to_nat off) (pre ++ bs ++ post)) = bs.
Proof. intros -> ->. rewrite !Nat2Z.id. by rewrite drop_app_length, take_app_length. Qed.
Lemma field_mid pre v post off (n : nat) : off = len pre -> field (pre ++ le_bytes n v ++ post) off (Z.of_nat n) = v mod 256 ^ Z.of_nat n.
Proof.
  intros ->. unfold field, load_le. rewrite load_bytes_stored by (rewrite ?length_app, ?length_le_bytes; lia).
  rewrite (take_mid pre (le_bytes n v) post) by (rewrite ?length_le_bytes; done). apply le_bytes_value.
Qed.
Lemma i32_mod64 x : is_int x -> i32 (x mod 256 ^ Z.of_nat 8) = x.
Proof.
  intros Hx. unfold is_int in Hx. unfold i32. replace (256 ^ Z.of_nat 8) with (2 ^ 32 * 2 ^ 32) by done.
  rewrite Z.rem_mul_r by lia. rewrite <- (Z.mod_add _ (- (x / 2 ^ 32 mod 2 ^ 32))) by lia.
  replace (_ + _ + _ + _) with (x mod 2 ^ 32 + 2 ^ 31) by lia. rewrite Zplus_mod_idemp_l. by apply i32_id.
Qed.

(** The saved form as a sequence of fields. *)
Definition chunks (x : state_node) : list (list Z) :=
  [le_bytes 8 (nd_id x); le_bytes 4 (nd_type x); le_bytes 4 (nd_flags x); le_bytes 8 (parent_id x);
   le_bytes 8 (geo_x x); le_bytes 8 (geo_y x); le_bytes 8 (geo_width x); le_bytes 8 (geo_height x);
   text x; value x; le_bytes 8 (mft_record_id x); le_bytes 8 (last_sync_hash x); zeros 16].
Lemma serialize_chunks x : node_serialize x = concat (chunks x).
Proof. unfold chunks. cbn [concat]. by rewrite app_nil_r. Qed.
Lemma concat_mid {A} (l : list (list A)) k c : l !! k = Some c -> concat l = concat (take k l) ++ c ++ concat (drop (S k) l).
Proof. intros Hk. rewrite <- (take_drop_middle l k c Hk) at 1. by rewrite concat_app. Qed.
Lemma chunk_field x k v n off : chunks x !! k = Some (le_bytes n v) -> off = len (concat (take k (chunks x))) ->
  field (node_serialize x) off (Z.of_nat n) = v mod 256 ^ Z.of_nat n.
Proof. intros Hk Ho. rewrite serialize_chunks, (concat_mid _ _ _ Hk). by apply field_mid. Qed.
Lemma chunk_bytes x k bs off : chunks x !! k = Some bs -> off = len (concat (take k (chunks x))) -> len bs = 256 ->
  take 256 (drop (Z.to_nat off) (node_serialize x)) = bs.
Proof. intros Hk Ho Hb. rewrite serialize_chunks, (concat_mid _ _ _ Hk). by apply (take_mid _ _ _ _ 256). Qed.

(** A node saved with [node_serialize] takes 600 bytes, and loading them
    with [node_deserialize] gives back every field that is saved, negative
    coordinates included; the links to other nodes stay those of the node
    loaded into. *)
Theorem node_serialize_roundtrip (x y : state_node) : node_typed x ->
  len (node_serialize x) = NODE_SERIAL_SIZE /\
  node_deserialize (node_serialize x) y =
  StateNode (nd_id x) (nd_type x) (nd_flags x) (parent_id x) (first_child_id y) (next_sibling_id y) (prev_sibling_id y)
    (geo_x x) (geo_y x) (geo_width x) (geo_height x) (text x) (value x) (mft_record_id x) (last_sync_hash x).
Proof.
  intros (Hi & Ht & Hf & Hp & Ha & Hb & Hw & Hh & Ltx & Lvl & Hm & Hl). unfold is_u64, is_u32 in *.
  assert (Hsum : forall k, len (concat (take k (chunks x))) =
    foldr Z.add 0 (take k [8; 4; 4; 8; 8; 8; 8; 8; 256; 256; 8; 8; 16])).
  { intros k. unfold chunks. do 14 (destruct k as [|k]; [cbn [take concat foldr]; rewrite ?length_app, ?length_le_bytes; unfold zeros; rewrite ?length_replicate; cbn [length]; lia|]).
    cbn [take firstn concat foldr]. rewrite ?length_app, ?length_le_bytes; unfold zeros; rewrite ?length_replicate. cbn [length]. lia. }
  split; [rewrite serialize_chunks; apply (Hsum 13%nat)|]. unfold node_deserialize.
  rewrite (chunk_field x 0 (nd_id x) 8) by (done || by rewrite Hsum). rewrite (chunk_field x 1 (nd_type x) 4) by (done || by rewrite Hsum).
  rewrite (chunk_field x 2 (nd_flags x) 4) by (done || by rewrite Hsum). rewrite (chunk_field x 3 (parent_id x) 8) by (done || by rewrite Hsum).
  rewrite (chunk_field x 4 (geo_x x) 8), (chunk_field x 5 (geo_y x) 8), (chunk_field x 6 (geo_width x) 8), (chunk_field x 7 (geo_height x) 8) by (done || by rewrite Hsum).
  rewrite (chunk_field x 10 (mft_record_id x) 8), (chunk_field x 11 (last_sync_hash x) 8) by (done || by rewrite Hsum).
  pose proof (chunk_bytes x 8 (text x) 56 eq_refl ltac:(by rewrite Hsum) Ltx) as Etx.
  pose proof (chunk_bytes x 9 (value x) 312 eq_refl ltac:(by rewrite Hsum) Lvl) as Evl.
  change (Z.to_nat 56) with 56%nat in Etx. change (Z.to_nat 312) with 312%nat in Evl. rewrite Etx, Evl.
  rewrite !i32_mod64 by done. by rewrite !Z.mod_small by done.
Qed.

(** Text that fits is stored with its terminator, without touching the
    value; text of 256 to 511 characters is stored as well, over the value. *)
Theorem set_text_overflow {D} fuel (s : state_graph D) id c str :
  lock s = 0 -> state_graph_get_node fuel id (set_lock 1 s) = Some (Some c) -> 0 <= c < len (nodes s) ->
  len (text (nd s c)) = 256 -> len (value (nd s c)) = 256 -> len str < 512 ->
  exists s', state_graph_set_text fuel id str s = Some (0, s') /\
    (len str < 256 -> value (nd s' c) = value (nd s c) /\ take (S (length str)) (text (nd s' c)) = str ++ [0]) /\
    (256 <= len str -> text (nd s' c) = take 256 str /\ take (S (length str) - 256) (value (nd s' c)) = drop 256 str ++ [0]).
Proof.
  intros Hl Hg Hc Ht Hv Hs. unfold state_graph_set_text, mutate, lock_acquire. rewrite Hl. cbn [Z.eqb mbind option_bind].
  rewrite Hg. cbn [mbind option_bind]. change (nd (set_lock 1 s) c) with (nd s c). unfold strcpy_at.
  rewrite (proj2 (Z.ltb_ge _ _)) by lia. cbv zeta. cbn [mbind option_bind]. eexists. split; [done|].
  match goal with |- context [lock_release (state_graph_notify_observers id EVENT_UPDATE ?x)] => 
    change (nd (lock_release (state_graph_notify_observers id EVENT_UPDATE x)) c) with (nd x c) end.
  rewrite nd_upd_eq by done. rewrite take_0. cbn [app]. set (all := text (nd s c) ++ value (nd s c)).
  assert (Hall : forall f a b x, text (set_nd_flags f (set_strings a b x)) = a /\ value (set_nd_flags f (set_strings a b x)) = b) by (by intros ??? []).
  unfold dirty. rewrite (proj1 (Hall _ _ _ _)), (proj2 (Hall _ _ _ _)). replace (Z.to_nat (0 + len str + 1)) with (S (length str)) by lia.
  assert (Hlen : length (str ++ [0]) = S (length str)) by (rewrite length_app; cbn; lia). split; intros Hb; split.
  - rewrite drop_app_ge by lia. rewrite drop_drop, Hlen. replace (S (length str) + (256 - S (length str)))%nat with 256%nat by lia.
    unfold all. rewrite drop_app_ge by lia. replace (256 - length (text (nd s c)))%nat with 0%nat by lia. done.
  - rewrite take_take, Nat.min_l by lia. by rewrite <- Hlen, take_app_length.
  - rewrite take_app_le by lia. rewrite take_app_le by lia. done.
  - rewrite drop_app_le by lia. rewrite drop_app_le by lia. rewrite take_app_le by (rewrite length_app, length_drop; cbn; lia).
    apply take_ge. rewrite length_app, length_drop. cbn. lia.
Qed.

(** ** Types *)

Section typed.
Context {D : Type} `{PortIO D} (fuel : nat).
Implicit Types (s : state_graph D).

Definition links_typed (x : state_node) : Prop :=
  is_u64 (first_child_id x) /\ is_u64 (next_sibling_id x) /\ is_u64 (prev_sibling_id x).
(** Every node has fields within their types, and every pointer of the hash
    table points to a node of the region, which holds no more than its size. *)
Record graph_typed s : Prop := {
  gt_nodes : Forall (fun x => node_typed x /\ links_typed x) (nodes s);
  gt_next : is_u64 (next_id s);
  gt_hash : len (node_hash s) = HASH_SIZE;
  gt_ptrs : Forall (fun r => forall c, r = Some c -> 0 <= c < len (nodes s)) (node_hash s);
  gt_room : sizeof_node * len (nodes s) <= heap_size s
}.

Inductive gop : Type :=
| OCreate (type parent : Z)
| OAddChild (parent child : Z)
| OGeometry (id x y w h : Z)
| OText (id : Z) (str : cstring)
| OValue (id : Z) (str : cstring)
| OFlags (id flags : Z)
| ODirty (id : Z)
| ODelete (id : Z).
Definition run_gop (o : gop) s : option (Z * state_graph D) :=
  match o with
  | OCreate t p => state_graph_create_node fuel t p s
  | OAddChild p c => state_graph_add_child fuel p c s
  | OGeometry id x y w h => state_graph_set_geometry fuel id x y w h s
  | OText id str => state_graph_set_text fuel id str s
  | OValue id str => state_graph_set_value fuel id str s
  | OFlags id f => state_graph_set_flags fuel id f s
  | ODirty id => state_graph_mark_dirty fuel id s
  | ODelete id => state_graph_delete_node fuel id s
  end.
(** The arguments are within the types of the parameters. *)
Definition gop_typed (o : gop) : Prop :=
  match o with
  | OCreate t p => is_u32 t /\ is_u64 p
  | OAddChild p c => is_u64 p /\ is_u64 c
  | OGeometry id x y w h => is_int x /\ is_int y /\ is_int w /\ is_int h
  | OFlags id f => is_u32 f
  | _ => True
  end.

Lemma bucket_valid s id c : graph_typed s -> bucket s id = Some c -> 0 <= c < len (nodes s).
Proof.
  intros Hs Hb. pose proof (arr_get_Forall None (fun r => forall c, r = Some c -> 0 <= c < len (nodes s)) (node_hash s) (bucket_of id) ltac:(done) (gt_ptrs s Hs)) as Hp.
  by apply Hp.
Qed.
Lemma lookup_valid s : graph_typed s -> forall n id cur c, (forall c, cur = Some c -> 0 <= c < len (nodes s)) ->
  lookup_from n id cur s = Some (Some c) -> 0 <= c < len (nodes s).
Proof.
  intros Hs. induction n as [|n IH]; intros id [d|] c Hc; cbn [lookup_from]; try done;
    (destruct (nd_id (nd s d) =? id); [intros [= ->]; by apply Hc|]); (destruct (_ =? 0); [done|]); [done|].
  cbv zeta. intros Hr. apply bind_Some in Hr as (cur & Hcur & Hr). apply (IH _ _ _) in Hr; [done|].
  intros e ->. apply (IH _ _ _) in Hcur; [done|]. intros e' He. by apply (bucket_valid s (next_sibling_id (nd s d))).
Qed.
Lemma get_node_valid s id c : graph_typed s -> state_graph_get_node fuel id s = Some (Some c) -> 0 <= c < len (nodes s).
Proof.
  intros Hs. unfold state_graph_get_node. destruct (_ =? _); [done|]. apply lookup_valid; [done|].
  intros e. by apply bucket_valid.
Qed.
Lemma nd_typed s c : graph_typed s -> 0 <= c < len (nodes s) -> node_typed (nd s c) /\ links_typed (nd s c).
Proof.
  intros Hs Hc. destruct (lookup_lt_is_Some_2 (nodes s) (Z.to_nat c) ltac:(lia)) as [x Hx]. unfold nd, arr_get. rewrite Hx.
  by apply (Forall_lookup_1 _ _ _ _ (gt_nodes s Hs) Hx).
Qed.

Lemma upd_typed s c f : graph_typed s -> 0 <= c < len (nodes s) ->
  (node_typed (nd s c) -> links_typed (nd s c) -> node_typed (f (nd s c)) /\ links_typed (f (nd s c))) -> graph_typed (upd_nd c f s).
Proof.
  intros Hs Hc Hf. destruct (nd_typed s c Hs Hc) as [Hn Hl]. specialize (Hf Hn Hl). destruct Hs as [H1 H2 H3 H4 H5].
  split; rewrite ?len_upd_nd; try done. unfold upd_nd. cbn [nodes set_nodes]. by apply Forall_arr_set.
Qed.
Lemma ext_typed s s' : graph_typed s -> nodes s' = nodes s -> next_id s' = next_id s -> node_hash s' = node_hash s -> heap_size s' = heap_size s -> graph_typed s'.
Proof. intros [H1 H2 H3 H4 H5] E1 E2 E3 E4. split; by rewrite ?E1, ?E2, ?E3, ?E4. Qed.
Lemma lor_u32 a b : is_u32 a -> is_u32 b -> is_u32 (a .| b).
Proof.
  unfold is_u32. intros Ha Hb. split; [apply Z.lor_nonneg; lia|]. destruct (decide (a .| b = 0)) as [->|Hz]; [lia|].
  assert (0 <= a .| b) by (apply Z.lor_nonneg; lia).
  apply Z.log2_lt_pow2; [lia|]. rewrite Z.log2_lor by lia.
  assert (Hlog : forall x, 0 <= x < 2 ^ 32 -> Z.log2 x < 32).
  { intros x Hx. destruct (decide (x = 0)) as [->|]; [done|]. apply Z.log2_lt_pow2; lia. }
  pose proof (Hlog a Ha). pose proof (Hlog b Hb). lia.
Qed.
Lemma flags_typed f x : is_u32 f -> node_typed x -> links_typed x -> node_typed (set_nd_flags f x) /\ links_typed (set_nd_flags f x).
Proof. destruct x. unfold node_typed, links_typed. cbn. tauto. Qed.
Lemma next_typed v x : is_u64 v -> node_typed x -> links_typed x -> node_typed (set_next_sibling v x) /\ links_typed (set_next_sibling v x).
Proof. destruct x. unfold node_typed, links_typed. cbn. tauto. Qed.
Lemma child_typed v x : is_u64 v -> node_typed x -> links_typed x -> node_typed (set_first_child v x) /\ links_typed (set_first_child v x).
Proof. destruct x. unfold node_typed, links_typed. cbn. tauto. Qed.
Lemma fresh_typed id t p : is_u64 id -> is_u32 t -> is_u64 p -> node_typed (fresh_node id t p) /\ links_typed (fresh_node id t p).
Proof.
  intros. assert (is_u64 0 /\ is_int 0 /\ len (zeros 256) = 256) by (repeat split; by vm_compute).
  assert (is_u32 (NODE_FLAG_VISIBLE .| NODE_FLAG_ENABLED)) by (split; by vm_compute).
  unfold node_typed, links_typed, fresh_node. cbn [nd_id nd_type nd_flags parent_id geo_x geo_y geo_width geo_height text value mft_record_id last_sync_hash first_child_id next_sibling_id prev_sibling_id].
  tauto.
Qed.
Lemma dirty_typed x : node_typed x -> links_typed x -> node_typed (dirty x) /\ links_typed (dirty x).
Proof. intros Hn Hl. apply flags_typed; [|done..]. apply lor_u32; [apply Hn|done]. Qed.
Lemma strcpy_typed off str x y : 0 <= off -> node_typed x -> links_typed x -> strcpy_at off str x = Some y -> node_typed y /\ links_typed y.
Proof.
  intros Ho Hx Hl. pose proof Hx as (_&_&_&_&_&_&_&_&Lt&Lv&_). unfold strcpy_at. destruct (Z.ltb_spec 512 (off + len str + 1)) as [|Hs]; [done|]. cbv zeta.
  intros [= <-]. set (all := _ ++ (str ++ [0]) ++ _).
  assert (Hall : length all = 512%nat).
  { unfold all. rewrite !length_app, length_take, length_drop, !length_app. cbn [length]. lia. }
  destruct x. unfold node_typed, links_typed, set_strings in *. cbn in *. rewrite length_take, length_drop, Hall. 
  split; [|done]. assert (Z.of_nat (256 `min` 512) = 256 /\ Z.of_nat (512 - 256) = 256) by lia. tauto.
Qed.
Lemma mutate_typed id event f s r s' : graph_typed s ->
  (forall x y, node_typed x -> links_typed x -> f x = Some y -> node_typed y /\ links_typed y) ->
  mutate fuel id event f s = Some (r, s') -> graph_typed s'.
Proof.
  intros Hs Hf. unfold mutate, lock_acquire. destruct (_ =? 0); [|done]. cbn [mbind option_bind]. intros Hr.
  apply bind_Some in Hr as (g & Hg & Hr). assert (Hs1 : graph_typed (set_lock 1 s)) by by apply (ext_typed s).
  destruct g as [c|]; [|injection Hr as <- <-; by apply (ext_typed s)].
  apply bind_Some in Hr as (x & Hx & Hr). injection Hr as <- <-. pose proof (get_node_valid _ _ _ Hs1 Hg) as Hc.
  eapply ext_typed; [apply (upd_typed (set_lock 1 s) c (fun _ => dirty x) Hs1 Hc)|done..].
  intros Hn Hl. destruct (Hf _ _ Hn Hl Hx). by apply dirty_typed.
Qed.
Lemma add_child_typed p c s r s' : graph_typed s -> is_u64 c -> state_graph_add_child fuel p c s = Some (r, s') -> graph_typed s'.
Proof.
  intros Hs Hu. unfold state_graph_add_child. intros Hr. apply bind_Some in Hr as ([gp|] & Hp & Hr);
    apply bind_Some in Hr as ([gc|] & Hc & Hr); try (by injection Hr as <- <-).
  injection Hr as <- <-. pose proof (get_node_valid _ _ _ Hs Hp). pose proof (get_node_valid _ _ _ Hs Hc).
  destruct (nd_typed s gp Hs ltac:(done)) as [_ (Hf & _)].
  apply upd_typed; [apply upd_typed; [done|done|]|by rewrite len_upd_nd|].
  - by apply next_typed.
  - by apply child_typed.
Qed.
Lemma insert_typed c s : graph_typed s -> 0 <= c < len (nodes s) -> graph_typed (hash_insert c s).
Proof.
  intros Hs Hc. unfold hash_insert. set (h := bucket_of _). cbv zeta.
  assert (H1 : graph_typed (upd_nd c (set_next_sibling 0) s)).
  { apply upd_typed; [done|done|]. by apply next_typed. }
  set (s1 := upd_nd c _ s) in *.
  match goal with |- graph_typed (set_node_hash _ ?x) => set (s2 := x) end.
  assert (H2 : graph_typed s2 /\ len (nodes s2) = len (nodes s)).
  { unfold s2. destruct (arr_get None (node_hash s1) h) as [cur|] eqn:E; [|unfold s1; by rewrite len_upd_nd].
    split; [|unfold s1; by rewrite !len_upd_nd]. apply upd_typed; [done|unfold s1; by rewrite len_upd_nd|].
    pose proof (arr_get_Forall None (fun r => forall c, r = Some c -> 0 <= c < len (nodes s1)) (node_hash s1) h ltac:(done) (gt_ptrs s1 H1) cur E) as Hcur.
    destruct (nd_typed s1 cur H1 Hcur) as [Hi _]. apply next_typed, Hi. }
  destruct H2 as [[G1 G2 G3 G4 G5] L]. split; try done; cbn [node_hash set_node_hash nodes].
  - by rewrite length_arr_set.
  - apply Forall_arr_set; [|done]. intros d [= <-]. by rewrite L.
Qed.
Lemma create_typed t p s r s' : graph_typed s -> is_u32 t -> is_u64 p -> state_graph_create_node fuel t p s = Some (r, s') -> graph_typed s'.
Proof.
  intros Hs Ht Hp. unfold state_graph_create_node, lock_acquire. destruct (_ =? 0); [|done]. cbn [mbind option_bind].
  unfold allocate_node. change (heap_used (set_lock 1 s)) with (heap_used s). change (heap_size (set_lock 1 s)) with (heap_size s).
  destruct (Z.ltb_spec (heap_size s) (heap_used s + sizeof_node)) as [|Hroom]; [intros [= <- <-]; by apply (ext_typed s)|].
  change (nodes (set_lock 1 s)) with (nodes s). cbv zeta.
  match goal with |- context [upd_nd (len (nodes s)) (fun _ => ?x) ?a] => set (sa := a); set (x0 := x) end.
  assert (Ha : graph_typed (upd_nd (len (nodes s)) (fun _ => x0) sa)).
  { destruct Hs as [H1 H2 H3 H4 H5]. split; rewrite ?len_upd_nd.
    - unfold upd_nd. cbn [nodes set_nodes sa set_sg_next]. unfold arr_set. rewrite Nat2Z.id, insert_app_r_alt, Nat.sub_diag by lia.
      apply Forall_app. split; [done|]. constructor; [|constructor]. by apply fresh_typed.
    - apply is_u64_wrap.
    - done.
    - unfold sa. cbn [nodes set_nodes set_sg_next]. rewrite length_app. cbn [length].
      eapply Forall_impl; [exact H4|]. intros o Ho c Hc. specialize (Ho c Hc). lia.
    - change (heap_size (upd_nd (len (nodes s)) (fun _ => x0) sa)) with (heap_size s). unfold sa. cbn [nodes set_nodes set_sg_next].
      rewrite length_app. cbn [length]. unfold heap_used in Hroom. lia. }
  set (sb := upd_nd _ _ sa) in *. intros Hr. apply bind_Some in Hr as ([k sc] & Hr & E). injection E as <- <-.
  assert (Hb : graph_typed (hash_insert (len (nodes s)) sb)) by
    (apply insert_typed; [done|]; unfold sb, sa; rewrite len_upd_nd; cbn [nodes set_nodes set_sg_next]; rewrite length_app; cbn [length]; lia).
  apply (ext_typed sc); [|done..]. destruct (_ =? _); [by injection Hr as <- <-|].
  apply (add_child_typed _ _ _ _ _ Hb) in Hr; [done|]. apply (gt_next s Hs).
Qed.

Lemma mark_dirty_typed id s r s' : graph_typed s -> state_graph_mark_dirty fuel id s = Some (r, s') -> graph_typed s'.
Proof.
  intros Hs Hr. apply bind_Some in Hr as ([c|] & Hg & Hr); injection Hr as <- <-; [|done].
  apply upd_typed; [done|by apply (get_node_valid s id)|apply dirty_typed].
Qed.
Lemma delete_typed id s r s' : graph_typed s -> state_graph_delete_node fuel id s = Some (r, s') -> graph_typed s'.
Proof.
  intros Hs. unfold state_graph_delete_node, lock_acquire. destruct (_ =? 0); [|done]. cbn [mbind option_bind]. intros Hr.
  apply bind_Some in Hr as (g & Hg & Hr). assert (Hs1 : graph_typed (set_lock 1 s)) by by apply (ext_typed s).
  destruct g as [c|]; injection Hr as <- <-; [|by apply (ext_typed s)].
  pose proof (get_node_valid _ _ _ Hs1 Hg) as Hc. eapply ext_typed; [apply (upd_typed (set_lock 1 s) c (set_nd_id NODE_ID_INVALID) Hs1 Hc)|done..].
  assert (is_u64 NODE_ID_INVALID) by (split; by vm_compute). destruct (nd _ c). unfold node_typed, links_typed. cbn. tauto.
Qed.
End typed.


(** ** Examples *)

Module Examples.
Import FsSpec.Examples.

(** A graph before [state_graph_init], on a heap of 2 MB. *)
Definition off : state_graph unit :=
  StateGraph (Fs (kheap_init 65536 2097152 ∅) quiet_disk (Volume 0 0) 0 0 0 false) [] 0 [] [] 0 [] 0 [].
Definition started : state_graph unit := default off (state_graph_init 1024 off).
Lemma off_started : state_graph_init 1024 off = Some started.
Proof. vm_compute. reflexivity. Qed.

(** The type invariant, decided. *)
Definition in_range (lo hi x : Z) : bool := (lo <=? x) && (x <? hi).
Definition node_typedb (x : state_node) : bool :=
  forallb (in_range 0 (2 ^ 64)) [nd_id x; parent_id x; mft_record_id x; last_sync_hash x; first_child_id x; next_sibling_id x; prev_sibling_id x]
  && forallb (in_range 0 (2 ^ 32)) [nd_type x; nd_flags x]
  && forallb (in_range (- 2 ^ 31) (2 ^ 31)) [geo_x x; geo_y x; geo_width x; geo_height x]
  && (len (text x) =? 256) && (len (value x) =? 256).
Lemma node_typedb_sound x : node_typedb x = true -> node_typed x /\ links_typed x.
Proof.
  unfold node_typedb, node_typed, links_typed, is_u64, is_u32, is_int, in_range. intros Hb. cbn [forallb] in Hb. zbool. lia.
Qed.
Lemma forallb_Forall {A} (f : A -> bool) (P : A -> Prop) l : (forall x, f x = true -> P x) -> forallb f l = true -> Forall P l.
Proof. intros Hf Hl. apply Forall_forall. intros x Hx. rewrite forallb_forall in Hl. by apply Hf, Hl, list_elem_of_In. Qed.
Lemma started_typed : graph_typed started.
Proof.
  split.
  - apply (forallb_Forall node_typedb); [exact node_typedb_sound|by vm_compute].
  - split; by vm_compute.
  - by vm_compute.
  - apply (forallb_Forall (fun r => match r with Some c => in_range 0 (len (nodes started)) c | None => true end)); [|by vm_compute].
    intros r Hr c ->. unfold in_range in Hr. zbool. lia.
  - by vm_compute.
Qed.
Definition some_ops : list gop := [OCreate 1 0; OGeometry 11 (-5) 2 640 480; OText 11 (zs "Notes"); ODelete 11].

(** A window with two children. *)
Lemma state_graph_tree_witness :
  exists s', create_all 1024 [(1, 0); (2, 11); (3, 11)] started = Some (seqZ 11 3, s') /\
    state_graph_get_node 1024 13 s' = Some (Some 12).
Proof.
  destruct (state_graph_tree 1024 off started [(1, 0); (2, 11); (3, 11)] off_started) as (s' & E & Hs); [cbn; lia|cbn; lia|lia|].
  exists s'. split; [exact E|]. by destruct (Hs 12%nat 3 11 eq_refl) as [Hg _].
Defined.

Definition many : list (Z * Z) := replicate 1014 (1, 0).
Lemma many_valid n : 0 <= n -> forall k, valid_calls n (replicate k (1, 0)).
Proof. intros Hn k. revert n Hn. induction k as [|k IH]; intros n Hn; cbn [replicate valid_calls]; [done|]. split; [lia|]. apply IH. lia. Qed.
Lemma node_1025_hangs_lookup_witness :
  exists full s', create_all 1024 many started = Some (seqZ 11 1014, full) /\
    state_graph_create_node 1024 1 NODE_ID_INVALID full = Some (1025, s') /\ forall n, state_graph_get_node n 1 s' = None.
Proof.
  destruct (create_all_young 1024 many started roots (init_young 1024 off started off_started)) as (full & E & _);
    [change (len roots) with 10; unfold many; rewrite length_replicate; lia|apply many_valid; lia|].
  change (len many) with 1014 in E. change (len roots + 1) with 11 in E.
  destruct (node_1025_hangs_lookup 1024 off started full many 1 off_started) as (s' & Hc & Hn); [done|apply many_valid; lia|exact E|].
  exact (ex_intro _ full (ex_intro _ s' (conj E (conj Hc Hn)))).
Defined.

Definition a_window : state_node :=
  StateNode 12 1 5 2 0 0 0 (-20) 30 640 480 (zs "Notes" ++ zeros 251) (zeros 256) 0 0.
Lemma node_serialize_roundtrip_witness : node_deserialize (node_serialize a_window) clear_node = a_window.
Proof. apply (node_serialize_roundtrip a_window clear_node). unfold node_typed, is_u64, is_u32, is_int. repeat split; by vm_compute. Defined.

Definition long_text : cstring := replicate 300 65.
Lemma set_text_overflow_witness :
  exists s', state_graph_set_text 1024 1 long_text started = Some (0, s') /\ take 45 (value (nd s' 0)) = replicate 44 65 ++ [0].
Proof.
  destruct (set_text_overflow 1024 started 1 0 long_text) as (s' & E & _ & Hs);
    [reflexivity|by vm_compute|by vm_compute|by vm_compute|by vm_compute|by vm_compute|].
  exists s'. split; [exact E|]. destruct Hs as [_ Hs]; [by vm_compute|exact Hs].
Defined.
End Examples.
