(* ===== verification/NlParser.v ===== *)
(** * The natural-language parser (src/src/ui/nl_parser.c)

    The input is the bytes of a buffer that holds a C string; bytes past its
    end read as 0.  [tokenize] overwrites the space after each token with a
    NUL and [untokenize] puts the spaces back.  A position in the token array
    is the list of the tokens from it on. *)

From S2P Require Import Prelude KString.

Definition NL_MAX_TOKENS : Z := 16.
Definition NL_WORD_LEN : Z := 32.
Definition NL_OUT_LEN : Z := 256.

(** [orig] is the offset of the token in the input buffer. *)
Record nl_token : Type := Token { orig : Z; olen : Z; lower : cstring }.

Inductive nl_id : Set :=
| NL_LIST | NL_READ | NL_CREATE | NL_DELETE | NL_WRITE | NL_APPEND | NL_COPY | NL_MOVE | NL_RENAME
| NL_MKDIR | NL_CD | NL_PWD | NL_MEMORY | NL_PROCESSES | NL_DATE | NL_UPTIME | NL_VERSION | NL_ECHO
| NL_WHOAMI | NL_ENV | NL_HISTORY | NL_CLEAR | NL_HELP | NL_REBOOT | NL_SHUTDOWN | NL_FIND | NL_EDIT
| NL_PING | NL_SYSINFO | NL_INFO | NL_OPEN_WINDOW | NL_CLOSE_WINDOW | NL_FOCUS_WINDOW | NL_MOVE_WINDOW
| NL_LIST_WINDOWS.
#[export] Instance nl_id_eq_dec : EqDecision nl_id.
Proof. solve_decision. Defined.

Inductive nl_dest : Set := NL_DEST_NONE | NL_DEST_CWD | NL_DEST_HOME | NL_DEST_PARENT.

(** ** Helpers *)

Definition weq (a b : cstring) : bool := k_strcmp a b =? 0.
Fixpoint in_list (w : cstring) (l : list cstring) : bool :=
  match l with [] => false | x :: l' => weq w x || in_list w l' end.

Definition tolower (c : Z) : Z := if (ch "A" <=? c) && (c <=? ch "Z") then c + 32 else c.
(** [left] counts down from [max - 1]. *)
Fixpoint lower_upto (src : list Z) (left : nat) : cstring :=
  match src, left with
  | c :: src', S left' => if c =? 0 then [] else tolower c :: lower_upto src' left'
  | _, _ => []
  end.
Definition tolower_copy (src : list Z) (max : Z) : cstring := lower_upto src (Z.to_nat (max - 1)).

Definition tok_eq (t : nl_token) (word : cstring) : bool := weq (lower t) word.

(** The bytes of a token. *)
Definition tok_bytes (buf : list Z) (t : nl_token) : cstring := take (Z.to_nat (olen t)) (drop (Z.to_nat (orig t)) buf).
Definition copy_token (buf : list Z) (t : nl_token) (max : Z) : cstring := take (Z.to_nat (max - 1)) (tok_bytes buf t).
Definition append_token (buf : list Z) (dst : cstring) (t : nl_token) (max : Z) : cstring :=
  let dst := if negb (len dst =? 0) && (len dst <? max - 1) then dst ++ [32] else dst in
  dst ++ take (Z.to_nat (max - 1 - len dst)) (tok_bytes buf t).
Definition join_tokens (buf : list Z) (toks : list nl_token) (max : Z) : cstring :=
  foldl (fun out t => append_token buf out t max) [] toks.
Definition join_span_verbatim (buf : list Z) (toks : list nl_token) (max : Z) : cstring :=
  foldl (fun out t => append_token buf out t max) [] toks.

(** ** Vocabulary *)

Definition fillers : list cstring :=
  [zs "the"; zs "a"; zs "an"; zs "please"; zs "kindly"; zs "would"; zs "like"; zs "want"; zs "can"; zs "could";
   zs "you"; zs "i"; zs "me"; zs "my"; zs "this"; zs "that"; zs "these"; zs "those"; zs "all"; zs "some"; zs "of";
   zs "with"; zs "for"; zs "do"; zs "does"; zs "did"; zs "yes"; zs "just"; zs "may"; zs "might"; zs "shall";
   zs "should"; zs "will"; zs "we"; zs "our"; zs "us"; zs "it"; zs "its"; zs "them"; zs "their"; zs "any"; zs "each";
   zs "every"; zs "other"; zs "another"; zs "ok"; zs "okay"; zs "alright"; zs "sure"; zs "now"; zs "then"; zs "so";
   zs "well"; zs "also"; zs "actually"; zs "really"; zs "is"; zs "are"; zs "am"; zs "what"; zs "which"; zs "who";
   zs "about"; zs "if"; zs "even"; zs "only"; zs "much"; zs "many"; zs "more"; zs "most"; zs "little"; zs "few";
   zs "please"].
Definition contexts : list cstring :=
  [zs "file"; zs "files"; zs "folder"; zs "folders"; zs "directory"; zs "directories"; zs "dir"; zs "dirs";
   zs "item"; zs "items"; zs "entry"; zs "entries"; zs "content"; zs "contents"; zs "screen"; zs "things";
   zs "stuff"; zs "everything"; zs "data"].
Definition loc_markers : list cstring :=
  [zs "in"; zs "inside"; zs "from"; zs "under"; zs "within"; zs "at"; zs "on"].
Definition name_markers : list cstring :=
  [zs "called"; zs "named"; zs "entitled"; zs "to"].

Definition special_dest (w : cstring) : nl_dest :=
  if weq w (zs "current") || weq w (zs "here") || weq w (zs "same") then NL_DEST_CWD
  else if weq w (zs "home") || weq w (zs "root") then NL_DEST_HOME
  else if weq w (zs "parent") || weq w (zs "up") || weq w (zs "back") then NL_DEST_PARENT
  else NL_DEST_NONE.

Record nl_phrase : Type := Phrase { w1 : cstring; w2 : cstring; w3 : cstring; words : Z; ph_id : nl_id }.
Definition phrases : list nl_phrase :=
  [Phrase (zs "current") (zs "date") (zs "time") 3 NL_DATE; Phrase (zs "who") (zs "am") (zs "i") 3 NL_WHOAMI;
   Phrase (zs "make") (zs "directory") [] 2 NL_MKDIR; Phrase (zs "make") (zs "folder") [] 2 NL_MKDIR;
   Phrase (zs "make") (zs "dir") [] 2 NL_MKDIR; Phrase (zs "create") (zs "directory") [] 2 NL_MKDIR;
   Phrase (zs "create") (zs "folder") [] 2 NL_MKDIR; Phrase (zs "new") (zs "directory") [] 2 NL_MKDIR;
   Phrase (zs "new") (zs "folder") [] 2 NL_MKDIR; Phrase (zs "go") (zs "to") [] 2 NL_CD;
   Phrase (zs "go") (zs "into") [] 2 NL_CD; Phrase (zs "change") (zs "directory") [] 2 NL_CD;
   Phrase (zs "open") (zs "window") [] 2 NL_OPEN_WINDOW; Phrase (zs "open") (zs "application") [] 2 NL_OPEN_WINDOW;
   Phrase (zs "launch") (zs "window") [] 2 NL_OPEN_WINDOW;
   Phrase (zs "launch") (zs "application") [] 2 NL_OPEN_WINDOW;
   Phrase (zs "close") (zs "window") [] 2 NL_CLOSE_WINDOW;
   Phrase (zs "close") (zs "application") [] 2 NL_CLOSE_WINDOW;
   Phrase (zs "focus") (zs "window") [] 2 NL_FOCUS_WINDOW; Phrase (zs "move") (zs "window") [] 2 NL_MOVE_WINDOW;
   Phrase (zs "list") (zs "windows") [] 2 NL_LIST_WINDOWS; Phrase (zs "show") (zs "windows") [] 2 NL_LIST_WINDOWS;
   Phrase (zs "display") (zs "windows") [] 2 NL_LIST_WINDOWS; Phrase (zs "show") (zs "memory") [] 2 NL_MEMORY;
   Phrase (zs "display") (zs "memory") [] 2 NL_MEMORY; Phrase (zs "view") (zs "memory") [] 2 NL_MEMORY;
   Phrase (zs "show") (zs "processes") [] 2 NL_PROCESSES; Phrase (zs "list") (zs "processes") [] 2 NL_PROCESSES;
   Phrase (zs "display") (zs "processes") [] 2 NL_PROCESSES; Phrase (zs "show") (zs "tasks") [] 2 NL_PROCESSES;
   Phrase (zs "list") (zs "tasks") [] 2 NL_PROCESSES; Phrase (zs "system") (zs "information") [] 2 NL_SYSINFO;
   Phrase (zs "system") (zs "info") [] 2 NL_SYSINFO; Phrase (zs "date") (zs "time") [] 2 NL_DATE;
   Phrase (zs "current") (zs "time") [] 2 NL_DATE; Phrase (zs "current") (zs "date") [] 2 NL_DATE;
   Phrase (zs "clear") (zs "screen") [] 2 NL_CLEAR; Phrase (zs "clean") (zs "screen") [] 2 NL_CLEAR;
   Phrase (zs "information") (zs "about") [] 2 NL_INFO; Phrase (zs "info") (zs "about") [] 2 NL_INFO;
   Phrase (zs "details") (zs "about") [] 2 NL_INFO; Phrase (zs "show") (zs "files") [] 2 NL_LIST;
   Phrase (zs "display") (zs "files") [] 2 NL_LIST; Phrase (zs "view") (zs "files") [] 2 NL_LIST;
   Phrase (zs "list") (zs "files") [] 2 NL_LIST; Phrase (zs "see") (zs "files") [] 2 NL_LIST;
   Phrase (zs "show") (zs "contents") [] 2 NL_LIST; Phrase (zs "list") (zs "contents") [] 2 NL_LIST;
   Phrase (zs "show") (zs "file") [] 2 NL_READ; Phrase (zs "display") (zs "file") [] 2 NL_READ;
   Phrase (zs "view") (zs "file") [] 2 NL_READ; Phrase (zs "see") (zs "file") [] 2 NL_READ;
   Phrase (zs "power") (zs "off") [] 2 NL_SHUTDOWN].
Definition verbs : list (cstring * nl_id) :=
  [(zs "list", NL_LIST); (zs "show", NL_LIST); (zs "display", NL_LIST); (zs "view", NL_LIST); (zs "see", NL_LIST);
   (zs "ls", NL_LIST); (zs "enumerate", NL_LIST); (zs "create", NL_CREATE); (zs "make", NL_CREATE);
   (zs "new", NL_CREATE); (zs "touch", NL_CREATE); (zs "start", NL_CREATE); (zs "generate", NL_CREATE);
   (zs "delete", NL_DELETE); (zs "remove", NL_DELETE); (zs "erase", NL_DELETE); (zs "destroy", NL_DELETE);
   (zs "drop", NL_DELETE); (zs "rm", NL_DELETE); (zs "discard", NL_DELETE); (zs "read", NL_READ);
   (zs "cat", NL_READ); (zs "open", NL_READ); (zs "dump", NL_READ); (zs "write", NL_WRITE); (zs "save", NL_WRITE);
   (zs "store", NL_WRITE); (zs "put", NL_WRITE); (zs "set", NL_WRITE); (zs "record", NL_WRITE);
   (zs "append", NL_APPEND); (zs "copy", NL_COPY); (zs "duplicate", NL_COPY); (zs "clone", NL_COPY);
   (zs "cp", NL_COPY); (zs "move", NL_MOVE); (zs "relocate", NL_MOVE); (zs "transfer", NL_MOVE);
   (zs "rename", NL_RENAME); (zs "mkdir", NL_MKDIR); (zs "md", NL_MKDIR); (zs "cd", NL_CD); (zs "go", NL_CD);
   (zs "goto", NL_CD); (zs "pwd", NL_PWD); (zs "where", NL_PWD); (zs "location", NL_PWD); (zs "memory", NL_MEMORY);
   (zs "ram", NL_MEMORY); (zs "processes", NL_PROCESSES); (zs "process", NL_PROCESSES); (zs "tasks", NL_PROCESSES);
   (zs "task", NL_PROCESSES); (zs "date", NL_DATE); (zs "time", NL_DATE); (zs "clock", NL_DATE);
   (zs "today", NL_DATE); (zs "uptime", NL_UPTIME); (zs "version", NL_VERSION); (zs "echo", NL_ECHO);
   (zs "say", NL_ECHO); (zs "repeat", NL_ECHO); (zs "print", NL_ECHO); (zs "whoami", NL_WHOAMI);
   (zs "user", NL_WHOAMI); (zs "env", NL_ENV); (zs "environment", NL_ENV); (zs "history", NL_HISTORY);
   (zs "clear", NL_CLEAR); (zs "cls", NL_CLEAR); (zs "clean", NL_CLEAR); (zs "wipe", NL_CLEAR); (zs "help", NL_HELP);
   (zs "commands", NL_HELP); (zs "usage", NL_HELP); (zs "options", NL_HELP); (zs "assistance", NL_HELP);
   (zs "reboot", NL_REBOOT); (zs "restart", NL_REBOOT); (zs "shutdown", NL_SHUTDOWN); (zs "poweroff", NL_SHUTDOWN);
   (zs "find", NL_FIND); (zs "search", NL_FIND); (zs "locate", NL_FIND); (zs "edit", NL_EDIT); (zs "ping", NL_PING);
   (zs "here", NL_PWD)].

(** ** The tokenizer *)

(** [while ( *p == ' ') p++] and [while ( *p && *p != ' ') p++], on the bytes from
    [p] on. *)
Fixpoint past_spaces (l : list Z) (p : Z) : Z :=
  match l with c :: l' => if c =? 32 then past_spaces l' (p + 1) else p | [] => p end.
Fixpoint past_word (l : list Z) (p : Z) : Z :=
  match l with c :: l' => if (c =? 0) || (c =? 32) then p else past_word l' (p + 1) | [] => p end.
Definition from (buf : list Z) (p : Z) : list Z := drop (Z.to_nat p) buf.

(** [todo] is [max - n]. *)
Fixpoint tokenize (todo : nat) (buf : list Z) (p : Z) : list nl_token * list Z :=
  match todo with
  | O => ([], buf)
  | S todo' =>
      if arr_get 0 buf p =? 0 then ([], buf)
      else
        let start := past_spaces (from buf p) p in
        if arr_get 0 buf start =? 0 then ([], buf)
        else
          let p := past_word (from buf start) start in
          let '(buf, next) := if arr_get 0 buf p =? 0 then (buf, p) else (arr_set buf p 0, p + 1) in
          let t := Token start (p - start) (tolower_copy (from buf start) NL_WORD_LEN) in
          let '(toks, buf) := tokenize todo' buf next in
          (t :: toks, buf)
  end.

(** The space after each token but the last. *)
Fixpoint untokenize (toks : list nl_token) (buf : list Z) : list Z :=
  match toks with
  | t :: ((_ :: _) as toks') => untokenize toks' (arr_set buf (orig t + olen t) 32)
  | _ => buf
  end.

(** ** Finding the verb *)

Definition filler (t : nl_token) : bool := in_list (lower t) fillers.
Fixpoint skip_fillers (toks : list nl_token) : list nl_token :=
  match toks with t :: toks' => if filler t then skip_fillers toks' else toks | [] => [] end.
(** The next word of a phrase, after fillers: what follows it. *)
Definition expect_word (w : cstring) (toks : list nl_token) : option (list nl_token) :=
  match skip_fillers toks with t :: rest => if tok_eq t w then Some rest else None | [] => None end.
Definition match_phrase_at (toks : list nl_token) (ph : nl_phrase) : option (list nl_token) :=
  match toks with
  | [] => None
  | t :: rest =>
      if negb (tok_eq t (w1 ph)) then None
      else
        rest ← expect_word (w2 ph) rest;
        if words ph =? 3 then expect_word (w3 ph) rest else Some rest
  end.
Fixpoint find_phrase (l : list nl_phrase) (toks : list nl_token) : option (nl_id * list nl_token) :=
  match l with
  | [] => None
  | ph :: l' => match match_phrase_at toks ph with Some rest => Some (ph_id ph, rest) | None => find_phrase l' toks end
  end.
Fixpoint find_word (l : list (cstring * nl_id)) (t : nl_token) : option nl_id :=
  match l with [] => None | (w, id) :: l' => if tok_eq t w then Some id else find_word l' t end.
(** [after] tells whether the token before, if any, is a filler.  The verb, its
    first token, and the tokens after it. *)
Fixpoint find_verb (after : bool) (toks : list nl_token) : option (nl_id * nl_token * list nl_token) :=
  match toks with
  | [] => None
  | t :: rest =>
      if negb after then None
      else match find_phrase phrases toks with
           | Some (id, rest') => Some (id, t, rest')
           | None => match find_word verbs t with
                     | Some id => Some (id, t, rest)
                     | None => find_verb (filler t) rest
                     end
           end
  end.

(** "show me the memory": the object word after "show", "display", ... *)
Definition show_object (rest : list nl_token) : nl_id * list nl_token :=
  match skip_fillers rest with
  | [] => (NL_LIST, rest)
  | t :: rest' =>
      if tok_eq t (zs "memory") || tok_eq t (zs "ram") then (NL_MEMORY, rest')
      else if tok_eq t (zs "processes") || tok_eq t (zs "process") || tok_eq t (zs "tasks") || tok_eq t (zs "task") then (NL_PROCESSES, rest')
      else if tok_eq t (zs "windows") then (NL_LIST_WINDOWS, rest')
      else if tok_eq t (zs "file") then (NL_READ, rest')
      else if tok_eq t (zs "files") then (NL_LIST, rest')
      else (NL_LIST, rest)
  end.
Definition show_verb (t : nl_token) : bool :=
  tok_eq t (zs "show") || tok_eq t (zs "display") || tok_eq t (zs "view") || tok_eq t (zs "see").

(** ** Extracting the arguments *)

Inductive arg_mode : Set := MBare | MLocation | MName.
Record args : Type := Args {
  mode : arg_mode; dest : nl_dest; name_marker_at : option Z;
  path_buf : cstring; name_buf : cstring; bare_toks : list nl_token
}.
Definition no_args : args := Args MBare NL_DEST_NONE None [] [] [].
(** One token, the [j]-th after the verb. *)
Definition extract_token (buf : list Z) (j : Z) (t : nl_token) (a : args) : args :=
  if filler t then a
  else if in_list (lower t) contexts then a
  else match special_dest (lower t) with
  | NL_DEST_NONE =>
      if in_list (lower t) loc_markers then Args MLocation (dest a) (name_marker_at a) (path_buf a) (name_buf a) (bare_toks a)
      else if in_list (lower t) name_markers then
        Args MName (dest a) (match name_marker_at a with None => Some j | m => m end) (path_buf a) (name_buf a) (bare_toks a)
      else match mode a with
      | MLocation => Args MLocation (dest a) (name_marker_at a) (append_token buf (path_buf a) t NL_OUT_LEN) (name_buf a) (bare_toks a)
      | MName => Args MName (dest a) (name_marker_at a) (path_buf a) (append_token buf (name_buf a) t NL_OUT_LEN) (bare_toks a)
      | MBare => Args MBare (dest a) (name_marker_at a) (path_buf a) (name_buf a)
                   (if len (bare_toks a) <? NL_MAX_TOKENS then bare_toks a ++ [t] else bare_toks a)
      end
  | d => Args (mode a) d (name_marker_at a) (path_buf a) (name_buf a) (bare_toks a)
  end.
Fixpoint extract (buf : list Z) (j : Z) (toks : list nl_token) (a : args) : args :=
  match toks with [] => a | t :: toks' => extract buf (j + 1) toks' (extract_token buf j t a) end.

(** ** The command *)

Definition verb_name (v : nl_id) : cstring :=
  match v with
  | NL_READ => zs "read" | NL_CREATE => zs "create" | NL_DELETE => zs "delete" | NL_MKDIR => zs "mkdir"
  | NL_FIND => zs "find" | NL_EDIT => zs "edit" | NL_PING => zs "ping" | NL_WRITE => zs "write" | NL_APPEND => zs "append"
  | NL_COPY => zs "copy" | NL_MOVE => zs "move" | NL_RENAME => zs "rename" | NL_PWD => zs "pwd" | NL_CLEAR => zs "clear"
  | NL_HELP => zs "help" | NL_UPTIME => zs "uptime" | NL_VERSION => zs "version" | NL_WHOAMI => zs "whoami" | NL_ENV => zs "env"
  | NL_HISTORY => zs "history" | NL_REBOOT => zs "reboot" | NL_SHUTDOWN => zs "shutdown" | _ => []
  end.
Definition nonempty (s : cstring) : bool := negb (len s =? 0).

(** The switch: result, [cmd], [arg1] and [arg2]; [rest] is the tokens after the
    verb. *)
Definition nl_command (buf : list Z) (v : nl_id) (rest : list nl_token) (a : args) : Z * cstring * cstring * cstring :=
  let bare_joined := join_tokens buf (bare_toks a) NL_OUT_LEN in
  let one k := match bare_toks a with
               | [] => (0, k, [], [])
               | [t] => (0, k, copy_token buf t NL_OUT_LEN, [])
               | _ => (-1, k, [], [])
               end in
  match v with
  | NL_LIST => if nonempty (path_buf a) then (0, zs "list", path_buf a, []) else one (zs "list")
  | NL_READ | NL_CREATE | NL_DELETE | NL_MKDIR | NL_FIND | NL_EDIT | NL_PING =>
      if nonempty (name_buf a) then (0, verb_name v, name_buf a, [])
      else if nonempty (path_buf a) then (0, verb_name v, path_buf a, [])
      else one (verb_name v)
  | NL_WRITE | NL_APPEND =>
      if nonempty (name_buf a) then
        let arg2 := match name_marker_at a with
                    | Some m => if 0 <? m then join_span_verbatim buf (take (Z.to_nat m) rest) NL_OUT_LEN else []
                    | None => []
                    end in
        (0, verb_name v, name_buf a, arg2)
      else one (verb_name v)
  | NL_COPY | NL_MOVE | NL_RENAME =>
      if nonempty (name_buf a) then (0, verb_name v, bare_joined, name_buf a)
      else match bare_toks a with
           | [t; u] => (0, verb_name v, copy_token buf t NL_OUT_LEN, copy_token buf u NL_OUT_LEN)
           | _ => (-1, verb_name v, [], [])
           end
  | NL_CD =>
      match dest a with
      | NL_DEST_PARENT => (0, zs "up", [], [])
      | NL_DEST_HOME => (0, zs "home", [], [])
      | d =>
          if nonempty (path_buf a) then (0, zs "cd", path_buf a, [])
          else if nonempty (name_buf a) then (0, zs "cd", name_buf a, [])
          else match bare_toks a, d with
               | [], NL_DEST_CWD => (0, zs "cd", zs "/", [])
               | _, _ => one (zs "cd")
               end
      end
  | NL_ECHO => (0, zs "echo", bare_joined, [])
  | NL_MEMORY => (0, zs "show", zs "memory", [])
  | NL_PROCESSES => (0, zs "show", zs "processes", [])
  | NL_SYSINFO => (0, zs "system", zs "information", [])
  | NL_INFO =>
      (0, zs "information", zs "about",
       if nonempty (name_buf a) then name_buf a
       else match bare_toks a with [t] => copy_token buf t NL_OUT_LEN | _ => [] end)
  | NL_LIST_WINDOWS => (0, zs "list", zs "windows", [])
  | NL_OPEN_WINDOW => (0, zs "open", zs "window", bare_joined)
  | NL_CLOSE_WINDOW => (0, zs "close", zs "window", bare_joined)
  | NL_FOCUS_WINDOW => (0, zs "focus", zs "window", bare_joined)
  | NL_MOVE_WINDOW => (0, zs "move", zs "window", bare_joined)
  | NL_DATE => (0, zs "date", zs "time", [])
  | NL_PWD | NL_CLEAR | NL_HELP | NL_UPTIME | NL_VERSION | NL_WHOAMI | NL_ENV | NL_HISTORY | NL_REBOOT | NL_SHUTDOWN =>
      (0, verb_name v, [], [])
  end.

(** From the tokens on; [None] when there is no verb, which leaves the output
    buffers alone. *)
Definition parse_tokens (buf : list Z) (toks : list nl_token) : option (Z * cstring * cstring * cstring) :=
  '(v, t, rest) ← find_verb true toks;
  let '(v, rest) := if bool_decide (v = NL_LIST) && show_verb t then show_object rest else (v, rest) in
  Some (nl_command buf v rest (extract buf 0 rest no_args)).

(** The result, the three output buffers, and the input buffer. *)
Definition nl_parse (input : list Z) (cmd arg1 arg2 : cstring) : Z * cstring * cstring * cstring * list Z :=
  let '(toks, buf) := tokenize (Z.to_nat NL_MAX_TOKENS) input 0 in
  let out := match parse_tokens buf toks with Some r => r | None => (-1, cmd, arg1, arg2) end in
  (out, untokenize toks buf).

(** ** The tokenizer meets its specification *)

(** The words of a string: its maximal runs of characters other than spaces. *)
Definition flush (w : cstring) : list cstring := match w with [] => [] | _ => [w] end.
Fixpoint split_acc (w s : cstring) : list cstring :=
  match s with
  | [] => flush w
  | c :: s' => if c =? 32 then flush w ++ split_acc [] s' else split_acc (w ++ [c]) s'
  end.
Definition split (s : cstring) : list cstring := split_acc [] s.
Definition spaces (k : nat) : cstring := replicate k 32.
Definition word_char (c : Z) : Prop := c <> 0 /\ c <> 32.
Definition is_word (w : cstring) : Prop := w <> [] /\ Forall word_char w.

(** What is left in the buffer once the spaces are back: the space after the
    last token stays a NUL. *)
Fixpoint cut (todo : nat) (inside : bool) (s : cstring) : list Z :=
  match s with
  | [] => []
  | c :: s' =>
      if c =? 32 then
        if inside then match todo, split s' with
                       | S (S todo'), _ :: _ => 32 :: cut (S todo') false s'
                       | _, _ => 0 :: s'
                       end
        else 32 :: cut todo false s'
      else match todo with O => s | S _ => c :: cut todo true s' end
  end.

Section tokenizer.
Implicit Types (s w pre rest : cstring).

Lemma split_acc_word w v rest : Forall word_char v -> split_acc w (v ++ rest) = split_acc (w ++ v) rest.
Proof.
  intros Hv. revert w. induction Hv as [|c v [_ Hc] Hv IH]; intros w; [by rewrite app_nil_r|]. cbn [app split_acc].
  rewrite (proj2 (Z.eqb_neq _ _) Hc), IH. by rewrite <- app_assoc.
Qed.
Lemma split_spaces k s : split (spaces k ++ s) = split s.
Proof. induction k as [|k IH]; [done|]. exact IH. Qed.
Lemma split_word w rest : is_word w -> split (w ++ 32 :: rest) = w :: split rest.
Proof. intros [Hw Hv]. unfold split. rewrite split_acc_word by done. cbn. by destruct w. Qed.
Lemma split_last w : is_word w -> split w = [w].
Proof. intros [Hw Hv]. unfold split. rewrite <- (app_nil_r w) at 1. rewrite split_acc_word by done. cbn. by destruct w. Qed.

(** Every string is spaces, possibly followed by a word and the end or a space. *)
Inductive shape : cstring -> Prop :=
| ShBlank k : shape (spaces k)
| ShLast k w : is_word w -> shape (spaces k ++ w)
| ShMore k w rest : is_word w -> is_cstr rest -> shape (spaces k ++ w ++ 32 :: rest).
Lemma word_shape s : is_cstr s -> exists w, Forall word_char w /\ (s = w \/ exists rest, s = w ++ 32 :: rest /\ is_cstr rest).
Proof.
  induction 1 as [|c s Hc Hs IH]; [exists []; split; [constructor|by left]|].
  destruct (decide (c = 32)) as [->|Hne]; [exists []; split; [constructor|right; by exists s]|].
  destruct IH as (w & Hw & IH). exists (c :: w). split; [constructor; [split; lia|done]|].
  destruct IH as [->|(rest & -> & Hr)]; [by left|right; by exists rest].
Qed.
Lemma string_shape s : is_cstr s -> shape s.
Proof.
  induction 1 as [|c s Hc Hs IH]; [apply (ShBlank 0)|]. destruct (decide (c = 32)) as [->|Hne].
  - destruct IH as [k|k w Hw|k w rest Hw Hr]; [apply (ShBlank (S k))|by apply (ShLast (S k))|by apply (ShMore (S k))].
  - destruct (word_shape s Hs) as (w & Hw & Hr). assert (Hcw : is_word (c :: w)) by (split; [done|constructor; [split; lia|done]]).
    destruct Hr as [->|(rest & -> & Hr)]; [by apply (ShLast 0)|by apply (ShMore 0 (c :: w))].
Qed.

Lemma from_app pre s : from (pre ++ s) (len pre) = s.
Proof. unfold from. by rewrite Nat2Z.id, drop_app_length. Qed.
Lemma past_spaces_word k c s p : c <> 32 -> past_spaces (spaces k ++ c :: s) p = p + Z.of_nat k.
Proof.
  intros Hc. revert p. induction k as [|k IH]; intros p; cbn [spaces replicate app past_spaces]; [rewrite (proj2 (Z.eqb_neq _ _) Hc); lia|].
  rewrite Z.eqb_refl. fold (spaces k). rewrite IH. lia.
Qed.
Lemma past_spaces_blank k p : past_spaces (spaces k) p = p + Z.of_nat k.
Proof. revert p. induction k as [|k IH]; intros p; cbn [spaces replicate past_spaces]; [lia|]. rewrite Z.eqb_refl. fold (spaces k). rewrite IH. lia. Qed.
Lemma past_word_end w s p : Forall word_char w -> hd 0 s = 0 \/ hd 0 s = 32 -> past_word (w ++ s) p = p + len w.
Proof.
  intros Hw Hs. revert p. induction Hw as [|c w [H0 H1] Hw IH]; intros p; cbn [app past_word length].
  - destruct s as [|c s]; cbn [past_word hd] in *; [lia|]. destruct Hs as [->| ->]; cbn; lia.
  - rewrite (proj2 (Z.eqb_neq _ _) H0), (proj2 (Z.eqb_neq _ _) H1). cbn [orb]. rewrite IH. lia.
Qed.
Lemma lower_upto_word w s n : Forall word_char w -> hd 0 s = 0 -> lower_upto (w ++ s) n = lower_upto w n.
Proof.
  intros Hw Hs. revert n. induction Hw as [|c w [H0 _] Hw IH]; intros n.
  - destruct s as [|c s]; [done|]. cbn [hd] in Hs. subst c. by destruct n.
  - destruct n; [done|]. cbn [app lower_upto]. rewrite (proj2 (Z.eqb_neq _ _) H0). by rewrite IH.
Qed.
Lemma arr_get_app pre s : arr_get 0 (pre ++ s) (len pre) = hd 0 s.
Proof. unfold arr_get. rewrite Nat2Z.id, lookup_app_r, Nat.sub_diag by lia. by destruct s. Qed.
Lemma arr_set_app pre c s x : arr_set (pre ++ c :: s) (len pre) x = pre ++ x :: s.
Proof. unfold arr_set. rewrite Nat2Z.id, insert_app_r_alt, Nat.sub_diag by lia. done. Qed.

Lemma cut_word todo b w s : Forall word_char w -> cut (S todo) b (w ++ s) = w ++ cut (S todo) (match w with [] => b | _ => true end) s.
Proof.
  intros Hw. revert b. induction Hw as [|c w [_ Hc] Hw IH]; intros b; [done|]. cbn [app cut].
  rewrite (proj2 (Z.eqb_neq _ _) Hc), IH. by destruct w.
Qed.
Lemma cut_spaces todo k s : cut todo false (spaces k ++ s) = spaces k ++ cut todo false s.
Proof. induction k as [|k IH]; [done|]. cbn [spaces replicate app cut]. rewrite Z.eqb_refl. f_equal. exact IH. Qed.
Lemma cut_none s : cut 0 false s = s.
Proof. induction s as [|c s IH]; [done|]. cbn [cut]. destruct (Z.eqb_spec c 32) as [->|]; [by rewrite IH|done]. Qed.

Lemma cut_blank n s : is_cstr s -> split s = [] -> cut n false s = s.
Proof.
  intros Hs He. destruct (string_shape s Hs) as [k|k w Hw|k w rest Hw Hr].
  - rewrite <- (app_nil_r (spaces k)). by rewrite cut_spaces.
  - rewrite split_spaces, split_last in He; done.
  - rewrite split_spaces, split_word in He; done.
Qed.

Lemma untokenize_cons t t2 ts buf : untokenize (t :: t2 :: ts) buf = untokenize (t2 :: ts) (arr_set buf (orig t + olen t) 32).
Proof. done. Qed.

(** A token for a word of the buffer. *)
Definition tok_is (buf : list Z) (t : nl_token) (w : cstring) : Prop :=
  tok_bytes buf t = w /\ lower t = lower_upto w 31.
Lemma tok_here pre k w s v s0 : Forall word_char w -> hd 0 s0 = 0 ->
  tok_is ((pre ++ spaces k ++ w ++ v) ++ s) (Token (len pre + Z.of_nat k) (len w) (tolower_copy (w ++ s0) NL_WORD_LEN)) w.
Proof.
  intros Hw Hs0. split; cbn [orig olen lower].
  - unfold tok_bytes. cbn [orig olen]. rewrite Nat2Z.id. replace (Z.to_nat (len pre + Z.of_nat k)) with (length (pre ++ spaces k)).
    + rewrite <- !app_assoc. rewrite (app_assoc pre), drop_app_length. by rewrite take_app_length.
    + rewrite length_app. unfold spaces. rewrite length_replicate. lia.
  - unfold tolower_copy, NL_WORD_LEN. by apply lower_upto_word.
Qed.

(** The first token of a buffer, and where the next one starts. *)
Lemma tokenize_step todo pre k w rest0 : is_word w -> (rest0 = [] \/ exists rest, rest0 = 32 :: rest) ->
  tokenize (S todo) (pre ++ spaces k ++ w ++ rest0) (len pre) =
  let rest1 := match rest0 with [] => [] | _ :: rest => 0 :: rest end in
  let '(toks, buf) := tokenize todo (pre ++ spaces k ++ w ++ rest1) (len (pre ++ spaces k ++ w ++ match rest0 with [] => [] | _ => [0] end)) in
  (Token (len pre + Z.of_nat k) (len w) (tolower_copy (w ++ rest1) NL_WORD_LEN) :: toks, buf).
Proof.
  intros [Hne Hw] Hr. cbn [tokenize]. destruct w as [|c w']; [done|]. pose proof Hw as Hw0. apply Forall_cons in Hw as [[H0 H1] Hw].
  rewrite arr_get_app. assert (Hhd : (hd 0 (spaces k ++ (c :: w') ++ rest0) =? 0) = false) by (destruct k; [by apply Z.eqb_neq|done]).
  rewrite Hhd, from_app. cbn [app]. rewrite past_spaces_word by done.
  assert (Hs : len pre + Z.of_nat k = len (pre ++ spaces k)) by (rewrite length_app; unfold spaces; rewrite length_replicate; lia).
  rewrite Hs. change (c :: w' ++ rest0) with ((c :: w') ++ rest0). rewrite (app_assoc pre). rewrite arr_get_app, from_app.
  cbn [app hd]. rewrite (proj2 (Z.eqb_neq _ _) H0). change (c :: w' ++ rest0) with ((c :: w') ++ rest0).
  rewrite past_word_end; [|done|destruct Hr as [->|[rest ->]]; cbn; tauto].
  replace (len (pre ++ spaces k) + len (c :: w') - len (pre ++ spaces k)) with (len (c :: w')) by lia.
  assert (Hp : len (pre ++ spaces k) + len (c :: w') = len ((pre ++ spaces k) ++ c :: w')) by (rewrite (length_app (pre ++ spaces k)); lia).
  rewrite Hp, (app_assoc (pre ++ spaces k)), arr_get_app. destruct Hr as [->|[rest ->]]; cbn [hd Z.eqb].
  - rewrite !app_nil_r. rewrite <- (app_assoc pre). rewrite (app_assoc pre (spaces k)). by rewrite from_app.
  - rewrite arr_set_app. rewrite <- !app_assoc. rewrite (app_assoc pre (spaces k) ((c :: w') ++ 0 :: rest)).
    rewrite from_app. rewrite <- !app_assoc.
    replace (len (pre ++ spaces k ++ c :: w') + 1) with (len (pre ++ spaces k ++ (c :: w') ++ [0])) by (rewrite !length_app; cbn [length]; lia).
    done.
Qed.

Lemma tokenize_spec todo : forall pre s, is_cstr s -> exists toks s',
  tokenize todo (pre ++ s) (len pre) = (toks, pre ++ s') /\ length s' = length s /\
  Forall2 (tok_is (pre ++ s')) toks (take todo (split s)) /\
  (forall q, length q = length pre -> untokenize toks (q ++ s') = q ++ cut todo false s).
Proof.
  induction todo as [|todo IH]; intros pre s Hs.
  { exists [], s. split; [done|]. split; [done|]. split; [constructor|]. intros q _. cbn [untokenize]. by rewrite cut_none. }
  destruct (string_shape s Hs) as [k|k w Hw|k w rest Hw Hr].
  - exists [], (spaces k). split.
    + cbn [tokenize]. rewrite arr_get_app. destruct k; [done|]. change (hd 0 (spaces (S k)) =? 0) with false. cbn iota.
      rewrite from_app, past_spaces_blank. unfold arr_get. rewrite lookup_ge_None_2; [done|]. rewrite length_app. unfold spaces. rewrite length_replicate. lia.
    + split; [done|]. rewrite <- (app_nil_r (spaces k)). rewrite split_spaces, cut_spaces. split; [constructor|]. intros q _. done.
  - pose proof (tokenize_step todo pre k w [] Hw (or_introl eq_refl)) as E. cbn zeta in E. rewrite ?app_nil_r in E.
    destruct (IH (pre ++ spaces k ++ w) []) as (toks & s' & E' & Hl & Hf & Hu); [constructor|].
    destruct s'; [|done]. rewrite ?app_nil_r in E'. rewrite E' in E. assert (toks = []) as -> by (destruct todo; inversion Hf; done).
    eexists _, (spaces k ++ w). split; [exact E|]. split; [done|]. rewrite split_spaces, (split_last w Hw). split.
    + assert (take (S todo) [w] = [w]) as -> by (by destruct todo). constructor; [|constructor]. pose proof (tok_here pre k w [] [] [] (proj2 Hw) eq_refl) as Ht.
      by rewrite !app_nil_r in Ht.
    + intros q Hq. cbn [untokenize]. rewrite cut_spaces. rewrite <- (app_nil_r w) at 2. rewrite cut_word by apply Hw. cbn [cut]. by rewrite app_nil_r.
  - pose proof (tokenize_step todo pre k w (32 :: rest) Hw (or_intror (ex_intro _ rest eq_refl))) as E. cbn zeta in E.
    destruct (IH (pre ++ spaces k ++ w ++ [0]) rest Hr) as (toks & s' & E' & Hl & Hf & Hu).
    rewrite <- !app_assoc in E'. cbn [app] in E'. cbn [app] in E. rewrite E' in E.
    eexists _, (spaces k ++ w ++ 0 :: s'). split; [exact E|].
    split; [rewrite !length_app; cbn [length]; by rewrite Hl|]. rewrite split_spaces, (split_word w rest Hw). cbn [take]. split.
    + constructor.
      * pose proof (tok_here pre k w s' [0] (0 :: rest) (proj2 Hw) eq_refl) as Ht. by rewrite <- !app_assoc in Ht.
      * by rewrite <- !app_assoc in Hf.
    + intros q Hq. rewrite cut_spaces, cut_word by apply Hw. cbn [cut]. rewrite Z.eqb_refl.
      assert (Hin : (match w with [] => false | _ => true end) = true) by (by destruct Hw, w). rewrite Hin.
      assert (Hq' : length (q ++ spaces k ++ w ++ [32]) = length (pre ++ spaces k ++ w ++ [0])) by (rewrite !length_app; cbn [length]; lia).
      specialize (Hu _ Hq'). rewrite <- !app_assoc in Hu. cbn [app] in Hu.
      destruct toks as [|t2 ts].
      * cbn [untokenize] in *. repeat apply app_inv_head in Hu. injection Hu as ->.
        destruct todo as [|todo]; [by rewrite cut_none|]. destruct (split rest) eqn:Esp; [by rewrite (cut_blank _ rest)|]. inversion Hf.
      * rewrite untokenize_cons. cbn [orig olen].
        replace (arr_set _ _ 32) with (q ++ spaces k ++ w ++ 32 :: s').
        -- rewrite Hu. destruct todo as [|todo]; [inversion Hf|]. destruct (split rest) eqn:Esp; [inversion Hf|]. done.
        -- replace (len pre + Z.of_nat k + len w) with (len (q ++ spaces k ++ w)) by (rewrite !length_app; unfold spaces; rewrite length_replicate; lia).
           pose proof (arr_set_app (q ++ spaces k ++ w) 0 s' 32) as Hset. rewrite <- !app_assoc in Hset. by rewrite Hset.
Qed.
End tokenizer.

(** ** Parsing depends on the words only

    Two token arrays are related when their tokens have the same lower-case
    form and bytes related by [rc].  Parsing them takes the same decisions. *)

Section related.
Context (rc : Z -> Z -> Prop) (rc_refl : forall c, rc c c) (buf buf' : list Z).

Abbreviation srel := (Forall2 rc).
Definition tok_rel (t t' : nl_token) : Prop := lower t = lower t' /\ srel (tok_bytes buf t) (tok_bytes buf' t').
Abbreviation trel := (Forall2 tok_rel).
Definition out_rel (x y : Z * cstring * cstring * cstring) : Prop :=
  x.1.1 = y.1.1 /\ srel x.1.2 y.1.2 /\ srel x.2 y.2.
Record args_rel (a a' : args) : Prop := {
  ar_mode : mode a = mode a'; ar_dest : dest a = dest a'; ar_marker : name_marker_at a = name_marker_at a';
  ar_path : srel (path_buf a) (path_buf a'); ar_name : srel (name_buf a) (name_buf a'); ar_bare : trel (bare_toks a) (bare_toks a')
}.

Lemma srel_refl (s : cstring) : srel s s.
Proof. by induction s; constructor. Qed.
Lemma srel_nonempty s s' : srel s s' -> nonempty s = nonempty s'.
Proof. intros Hs. unfold nonempty. by rewrite (Forall2_length _ _ _ Hs). Qed.
Lemma filler_rel t t' : tok_rel t t' -> filler t = filler t'.
Proof. intros [E _]. unfold filler. by rewrite E. Qed.
Lemma tok_eq_rel t t' w : tok_rel t t' -> tok_eq t w = tok_eq t' w.
Proof. intros [E _]. unfold tok_eq. by rewrite E. Qed.

Lemma append_rel d d' t t' max : srel d d' -> tok_rel t t' -> srel (append_token buf d t max) (append_token buf' d' t' max).
Proof.
  intros Hd [_ Ht]. unfold append_token. rewrite (Forall2_length _ _ _ Hd). destruct (_ && _).
  - cbv zeta. rewrite !length_app, (Forall2_length _ _ _ Hd). apply Forall2_app; [|by apply Forall2_take].
    apply Forall2_app; [done|]. by constructor.
  - cbv zeta. rewrite (Forall2_length _ _ _ Hd). apply Forall2_app; [done|by apply Forall2_take].
Qed.
Lemma join_rel l l' max : trel l l' -> forall d d', srel d d' ->
  srel (foldl (fun out t => append_token buf out t max) d l) (foldl (fun out t => append_token buf' out t max) d' l').
Proof. induction 1 as [|t t' l l' Ht Hl IH]; intros d d' Hd; [done|]. cbn [foldl]. apply IH. by apply append_rel. Qed.
Lemma copy_rel t t' max : tok_rel t t' -> srel (copy_token buf t max) (copy_token buf' t' max).
Proof. intros [_ Ht]. by apply Forall2_take. Qed.

Lemma skip_rel l l' : trel l l' -> trel (skip_fillers l) (skip_fillers l').
Proof.
  induction 1 as [|t t' l l' Ht Hl IH]; [constructor|]. cbn [skip_fillers]. rewrite (filler_rel _ _ Ht). destruct (filler t'); [done|by constructor].
Qed.
Lemma expect_rel w l l' : trel l l' -> option_Forall2 trel (expect_word w l) (expect_word w l').
Proof.
  intros Hl. unfold expect_word. destruct (skip_rel l l' Hl) as [|t t' r r' Ht Hr]; [constructor|].
  rewrite (tok_eq_rel _ _ _ Ht). destruct (tok_eq t' w); by constructor.
Qed.
Lemma match_rel ph l l' : trel l l' -> option_Forall2 trel (match_phrase_at l ph) (match_phrase_at l' ph).
Proof.
  intros [|t t' r r' Ht Hr]; [constructor|]. cbn [match_phrase_at]. rewrite (tok_eq_rel _ _ _ Ht). destruct (negb _); [constructor|].
  destruct (expect_rel (w2 ph) r r' Hr) as [q q' Hq|]; cbn [mbind option_bind]; [|constructor].
  destruct (_ =? 3); [by apply expect_rel|by constructor].
Qed.
Lemma find_phrase_rel ps l l' : trel l l' -> option_Forall2 (fun x y => x.1 = y.1 /\ trel x.2 y.2) (find_phrase ps l) (find_phrase ps l').
Proof.
  intros Hl. induction ps as [|ph ps IH]; cbn [find_phrase]; [constructor|]. destruct (match_rel ph l l' Hl); [by constructor|done].
Qed.
Lemma find_word_rel ws t t' : tok_rel t t' -> find_word ws t = find_word ws t'.
Proof. intros Ht. induction ws as [|[w id] ws IH]; [done|]. cbn [find_word]. by rewrite (tok_eq_rel _ _ _ Ht), IH. Qed.
Lemma find_verb_rel l l' : trel l l' -> forall b,
  option_Forall2 (fun x y => x.1.1 = y.1.1 /\ tok_rel x.1.2 y.1.2 /\ trel x.2 y.2) (find_verb b l) (find_verb b l').
Proof.
  induction 1 as [|t t' l l' Ht Hl IH]; intros b; [constructor|]. cbn [find_verb]. destruct (negb b); [constructor|].
  destruct (find_phrase_rel phrases (t :: l) (t' :: l')) as [[i r] [i' r'] [Hi Hr]|]; [by constructor|constructor; cbn in *; tauto|].
  rewrite (find_word_rel verbs _ _ Ht). destruct (find_word verbs t'); [by constructor|]. rewrite (filler_rel _ _ Ht). apply IH.
Qed.
Lemma show_rel l l' : trel l l' -> (show_object l).1 = (show_object l').1 /\ trel (show_object l).2 (show_object l').2.
Proof.
  intros Hl. unfold show_object. destruct (skip_rel l l' Hl) as [|t t' r r' Ht Hr]; [done|]. rewrite !(tok_eq_rel _ _ _ Ht).
  repeat (destruct (_ || _) || destruct (tok_eq _ _)); done.
Qed.

Lemma extract_token_rel j t t' a a' : tok_rel t t' -> args_rel a a' -> args_rel (extract_token buf j t a) (extract_token buf' j t' a').
Proof.
  intros Ht Ha. pose proof Ha as [H1 H2 H3 H4 H5 H6]. unfold extract_token. rewrite (filler_rel _ _ Ht). destruct (filler t'); [done|].
  destruct Ht as [El Hb]. rewrite El. destruct (in_list _ contexts); [done|].
  destruct (special_dest (lower t')); [|by split..]. destruct (in_list _ loc_markers); [by split|].
  destruct (in_list _ name_markers); [split; cbn; try done; by rewrite H3|]. rewrite H1.
  destruct (mode a'); split; cbn; try done.
  - rewrite (Forall2_length _ _ _ H6). destruct (_ <? _); [|done]. apply Forall2_app; [done|]. by repeat constructor.
  - by apply append_rel.
  - by apply append_rel.
Qed.
Lemma extract_rel l l' : trel l l' -> forall j a a', args_rel a a' -> args_rel (extract buf j l a) (extract buf' j l' a').
Proof. induction 1 as [|t t' l l' Ht Hl IH]; intros j a a' Ha; [done|]. cbn [extract]. apply IH. by apply extract_token_rel. Qed.

Lemma one_rel k l l' : trel l l' ->
  out_rel (match l with [] => (0, k, [], []) | [t] => (0, k, copy_token buf t NL_OUT_LEN, []) | _ => (-1, k, [], []) end)
          (match l' with [] => (0, k, [], []) | [t] => (0, k, copy_token buf' t NL_OUT_LEN, []) | _ => (-1, k, [], []) end).
Proof.
  intros [|t t' r r' Ht [|t2 t2' q q' Ht2 Hq]]; (split; [done|]); split; cbn [fst snd]; try apply srel_refl. by apply copy_rel.
Qed.
Lemma out_const x : out_rel x x.
Proof. split; [done|]. split; apply srel_refl. Qed.
Lemma two_rel k l l' : trel l l' ->
  out_rel (match l with [t; u] => (0, k, copy_token buf t NL_OUT_LEN, copy_token buf u NL_OUT_LEN) | _ => (-1, k, [], []) end)
          (match l' with [t; u] => (0, k, copy_token buf' t NL_OUT_LEN, copy_token buf' u NL_OUT_LEN) | _ => (-1, k, [], []) end).
Proof.
  intros [|t t' r r' Ht [|u u' q q' Hu [|]]]; try apply out_const. split; [done|]. split; by apply copy_rel.
Qed.
Lemma span_rel (m : option Z) l l' : trel l l' ->
  srel (match m with Some m => if 0 <? m then join_span_verbatim buf (take (Z.to_nat m) l) NL_OUT_LEN else [] | None => [] end)
       (match m with Some m => if 0 <? m then join_span_verbatim buf' (take (Z.to_nat m) l') NL_OUT_LEN else [] | None => [] end).
Proof. intros Hl. destruct m as [m|]; [|constructor]. destruct (0 <? m); [|constructor]. apply join_rel; [by apply Forall2_take|constructor]. Qed.

Lemma command_rel v l l' a a' : trel l l' -> args_rel a a' -> out_rel (nl_command buf v l a) (nl_command buf' v l' a').
Proof.
  intros Hl [H1 H2 H3 H4 H5 H6]. unfold nl_command. cbv zeta.
  pose proof (fun k => one_rel k _ _ H6) as Hone. pose proof (fun k => two_rel k _ _ H6) as Htwo.
  assert (Hj : srel (join_tokens buf (bare_toks a) NL_OUT_LEN) (join_tokens buf' (bare_toks a') NL_OUT_LEN)) by (apply join_rel; [done|constructor]).
  pose proof (fun m => span_rel m l l' Hl) as Hspan.
  rewrite (srel_nonempty _ _ H4), (srel_nonempty _ _ H5), H2, H3.
  assert (Hout : forall r k x x' y y', srel x x' -> srel y y' -> out_rel (r, k, x, y) (r, k, x', y')) by done.
  assert (Hr : forall s, srel s s) by exact srel_refl.
  destruct v; try apply out_const; try (by apply Hout);
    try (destruct (nonempty (name_buf a')); [by apply Hout|]); try (destruct (nonempty (path_buf a')); [by apply Hout|]);
    try apply Hone; try apply Htwo.
  - destruct (dest a'); try apply out_const; destruct (nonempty (path_buf a')); try (by apply Hout);
      destruct (nonempty (name_buf a')); try (by apply Hout).
    + destruct H6; [apply out_const|]. apply (Hone (zs "cd")).
    + destruct H6; [apply out_const|]. apply (Hone (zs "cd")).
  - apply Hout; [done|].
    destruct H6 as [|t t' r r' Ht [|]]; done.
Qed.

Lemma parse_rel l l' : trel l l' -> option_Forall2 out_rel (parse_tokens buf l) (parse_tokens buf' l').
Proof.
  intros Hl. unfold parse_tokens. destruct (find_verb_rel l l' Hl true) as [[[v t] r] [[v' t'] r'] (Hv & Ht & Hr)|]; [|constructor].
  cbn [fst snd mbind option_bind] in *. subst v'. assert (Hs : show_verb t = show_verb t') by (unfold show_verb; by rewrite !(tok_eq_rel _ _ _ Ht)).
  rewrite Hs. destruct (show_rel r r' Hr) as [E1 E2]. assert (Hn : args_rel no_args no_args) by (split; try done; constructor).
  destruct (_ && _).
  - destruct (show_object r) as [v1 r1], (show_object r') as [v1' r1']. cbn in E1, E2. subst v1'. constructor.
    apply command_rel; [done|]. by apply extract_rel.
  - constructor. apply command_rel; [done|]. by apply extract_rel.
Qed.
End related.

(** ** The input buffer *)

Section buffer.
Implicit Types (s w rest : cstring).

Lemma cstr_prefix w s : Forall word_char w -> cstr (w ++ s) = w ++ cstr s.
Proof. induction 1 as [|c w [H0 _] Hw IH]; [done|]. cbn [app cstr]. unfold NUL. rewrite (proj2 (Z.eqb_neq _ _) H0). by rewrite IH. Qed.
Lemma cstr_spaces k s : cstr (spaces k ++ s) = spaces k ++ cstr s.
Proof. induction k as [|k IH]; [done|]. cbn [spaces replicate app cstr]. change (32 =? NUL) with false. cbn iota. f_equal. exact IH. Qed.
Lemma split_app_word w s : is_word w -> hd 0 s = 32 \/ s = [] -> split (w ++ s) = w :: split s.
Proof.
  intros Hw [Hs| ->]; [|by rewrite app_nil_r, split_last]. destruct s as [|c s]; [done|]. cbn [hd] in Hs. subst c. by rewrite split_word.
Qed.

Lemma length_cut s : forall n b, length (cut n b s) = length s.
Proof.
  induction s as [|c s IH]; intros n b; [done|]. cbn [cut]. destruct (c =? 32), b, n as [|[|n]]; cbn [length]; rewrite ?IH; try done;
    destruct (split s); cbn [length]; by rewrite ?IH.
Qed.
(** The words that are left are the ones the parser has looked at. *)
Lemma cut_words todo : forall s, is_cstr s -> split (cstr (cut (S todo) false s)) = take (S todo) (split s).
Proof.
  induction todo as [|todo IH]; intros s Hs.
  all: destruct (string_shape s Hs) as [k|k w Hw|k w rest Hw Hr]; rewrite ?split_spaces, ?cut_spaces, ?cstr_spaces.
  all: try (rewrite <- (app_nil_r (spaces k)); rewrite cut_spaces, cstr_spaces, !split_spaces; done).
  all: rewrite ?split_spaces.
  all: try (rewrite (split_last w Hw); rewrite <- (app_nil_r w) at 1; rewrite cut_word, cstr_prefix by apply Hw; cbn [cut cstr];
            rewrite split_app_word by (done || by right); done).
  all: rewrite (split_word w rest Hw), cut_word, cstr_prefix by apply Hw.
  all: assert (Hin : (match w with [] => false | _ => true end) = true) by (by destruct Hw, w); rewrite Hin.
  all: cbn [cut]; rewrite Z.eqb_refl.
  - cbn [cstr]. change (0 =? NUL) with true. cbn iota. rewrite split_app_word by (done || by right). done.
  - destruct (split rest) as [|v vs] eqn:E.
    + cbn [cstr]. change (0 =? NUL) with true. cbn iota. rewrite split_app_word by (done || by right). done.
    + rewrite <- E. cbn [cstr]. change (32 =? NUL) with false. cbn iota. rewrite split_app_word by (done || by left).
      change (split (32 :: ?x)) with (split x). rewrite IH by done. done.
Qed.
Lemma last_spaces k : last (spaces (S k)) = Some 32.
Proof. induction k as [|k IH]; [done|]. exact IH. Qed.
(** Nothing is lost when there are not too many words and no space at the end. *)
Lemma cut_whole todo : forall s, is_cstr s -> (length (split s) <= todo)%nat -> last s <> Some 32 -> cut todo false s = s.
Proof.
  induction todo as [|todo IH]; intros s Hs Hl Hlast; [apply cut_none|].
  destruct (string_shape s Hs) as [k|k w Hw|k w rest Hw Hr].
  - rewrite <- (app_nil_r (spaces k)). by rewrite cut_spaces.
  - rewrite cut_spaces. f_equal. rewrite <- (app_nil_r w) at 1. rewrite cut_word by apply Hw. cbn [cut]. by rewrite app_nil_r.
  - rewrite split_spaces, split_word in Hl by done. cbn [length] in Hl. rewrite cut_spaces, cut_word by apply Hw. do 2 f_equal.
    assert (Hin : (match w with [] => false | _ => true end) = true) by (by destruct Hw, w). rewrite Hin.
    cbn [cut]. rewrite Z.eqb_refl. rewrite app_assoc, last_app_cons in Hlast.
    destruct (split rest) as [|v vs] eqn:E.
    + exfalso. destruct (string_shape rest Hr) as [j|j u Hu|j u r2 Hu ?].
      * apply Hlast. change (32 :: spaces j) with (spaces (S j)). apply last_spaces.
      * rewrite split_spaces, split_last in E; done.
      * rewrite split_spaces, split_word in E; done.
    + destruct todo as [|todo]; [cbn in Hl; lia|]. f_equal. apply IH; [done|rewrite E; cbn in *; lia|].
      destruct rest as [|c rest]; [done|]. done.
Qed.
End buffer.

Definition nl_words : nat := Z.to_nat NL_MAX_TOKENS.

(** What [nl_parse] looks at: tokens for the first 16 words. *)
Lemma nl_parse_tokens s cmd arg1 arg2 : is_cstr s -> exists toks buf,
  Forall2 (tok_is buf) toks (take nl_words (split s)) /\
  nl_parse s cmd arg1 arg2 = (match parse_tokens buf toks with Some r => r | None => (-1, cmd, arg1, arg2) end, cut nl_words false s).
Proof.
  intros Hs. destruct (tokenize_spec nl_words [] s Hs) as (toks & s' & E & _ & Hf & Hu). exists toks, s'. split; [done|].
  unfold nl_parse. change (Z.to_nat NL_MAX_TOKENS) with nl_words. cbn [app] in E. change (len []) with 0 in E. rewrite E.
  specialize (Hu [] eq_refl). cbn [app] in Hu. by rewrite Hu.
Qed.

(** Parsing gives the input buffer back up to its last token: the string
    in it still has the words that were looked at, the first 16, and it is the
    input when that has no more words and does not end in a space. *)
Theorem nl_parse_input_buffer s cmd arg1 arg2 : is_cstr s ->
  let buf := (nl_parse s cmd arg1 arg2).2 in
  len buf = len s /\ split (cstr buf) = take nl_words (split s) /\
  (len (split s) <= NL_MAX_TOKENS -> last s <> Some 32 -> buf = s).
Proof.
  intros Hs. cbv zeta. destruct (tokenize_spec nl_words [] s Hs) as (toks & s' & E & Hl & Hf & Hu).
  destruct (nl_parse_tokens s cmd arg1 arg2 Hs) as (toks' & buf' & _ & ->). cbn [snd].
  split; [|split; [by apply (cut_words 15)|intros Hn Hlast; apply cut_whole; [done|unfold nl_words, NL_MAX_TOKENS in *; lia|done]]].
  by rewrite length_cut.
Qed.

(** ** Spelling *)

Definition same_letter (c d : Z) : Prop := tolower c = tolower d.
Definition same_word : cstring -> cstring -> Prop := Forall2 same_letter.

Lemma tolower_zero c : tolower c = 0 <-> c = 0.
Proof. unfold tolower. destruct (_ && _) eqn:E; [|done]. apply andb_true_iff in E as [E1 E2]. vm_compute (ch "A") in E1. zbool. lia. Qed.
Lemma lower_same w w' : same_word w w' -> forall n, lower_upto w n = lower_upto w' n.
Proof.
  induction 1 as [|c d w w' Hc Hw IH]; intros n; [done|]. destruct n; [done|]. cbn [lower_upto].
  assert (Hz : (c =? 0) = (d =? 0)).
  { apply eq_bool_prop_intro. split; intros Hb; apply Is_true_true, Z.eqb_eq in Hb; apply Is_true_true, Z.eqb_eq; apply tolower_zero; [rewrite <- Hc|rewrite Hc]; by apply tolower_zero. }
  rewrite Hz. destruct (d =? 0); [done|]. by rewrite Hc, IH.
Qed.
Lemma tok_is_rel rc buf buf' t t' w w' : tok_is buf t w -> tok_is buf' t' w' -> Forall2 rc w w' -> lower_upto w 31 = lower_upto w' 31 ->
  tok_rel rc buf buf' t t'.
Proof. intros [H1 H2] [H3 H4] Hw El. split; [by rewrite H2, H4|]. by rewrite H1, H3. Qed.
Lemma toks_rel rc buf buf' toks toks' ws ws' : Forall2 (tok_is buf) toks ws -> Forall2 (tok_is buf') toks' ws' ->
  Forall2 (fun w w' => Forall2 rc w w' /\ lower_upto w 31 = lower_upto w' 31) ws ws' -> Forall2 (tok_rel rc buf buf') toks toks'.
Proof.
  intros H1 H2 Hw. revert toks toks' H1 H2. induction Hw as [|w w' ws ws' [Hr El] Hw IH]; intros toks toks' H1 H2; inversion H1; inversion H2; subst; [constructor|].
  constructor; [by eapply tok_is_rel|by apply IH].
Qed.

(** [C22] Only the words matter, and in them the case of letters matters only
    for the arguments: two inputs whose first 16 words agree up to letter case
    give the same result and command, and arguments that agree up to letter
    case. *)
Theorem nl_parse_case_insensitive s s' cmd arg1 arg2 : is_cstr s -> is_cstr s' ->
  Forall2 same_word (take nl_words (split s)) (take nl_words (split s')) ->
  let '(r, c, a, b, _) := nl_parse s cmd arg1 arg2 in
  let '(r', c', a', b', _) := nl_parse s' cmd arg1 arg2 in
  r = r' /\ c = c' /\ same_word a a' /\ same_word b b'.
Proof.
  intros Hs Hs' Hw. destruct (nl_parse_tokens s cmd arg1 arg2 Hs) as (toks & buf & Hf & ->).
  destruct (nl_parse_tokens s' cmd arg1 arg2 Hs') as (toks' & buf' & Hf' & ->).
  assert (Hrel : Forall2 (tok_rel same_letter buf buf') toks toks').
  { eapply toks_rel; [done|done|]. eapply Forall2_impl; [exact Hw|]. intros w w' Hww. split; [done|by apply lower_same]. }
  destruct (parse_rel same_letter (fun _ => eq_refl) buf buf' toks toks' Hrel) as [[[[r c] a] b] [[[r' c'] a'] b'] (E & Ha & Hb)|].
  - cbn in E. injection E as -> ->. done.
  - split; [done|]. split; [done|]. split; apply (srel_refl same_letter (fun _ => eq_refl)).
Qed.

(** ** Polite prefixes *)

Lemma weq_spec a b : is_cstr a -> is_cstr b -> weq a b = true <-> a = b.
Proof. intros Ha Hb. unfold weq. rewrite Z.eqb_eq. by apply k_strcmp_eq. Qed.
Definition cstrb (s : cstring) : bool := forallb (fun c => (0 <? c) && (c <? 256)) s.
Lemma cstrb_sound s : cstrb s = true -> is_cstr s.
Proof.
  intros Hb. apply Forall_forall. intros c Hc. unfold cstrb in Hb. rewrite forallb_forall in Hb. apply list_elem_of_In, Hb in Hc. zbool. lia.
Qed.
Lemma in_list_spec w l : is_cstr w -> forallb cstrb l = true -> in_list w l = true <-> w ∈ l.
Proof.
  intros Hw. induction l as [|x l IH]; cbn [in_list forallb]; intros Hl; [split; [done|]; intros Hin; by apply elem_of_nil in Hin|].
  apply andb_true_iff in Hl as [Hx Hl]. rewrite orb_true_iff, elem_of_cons, IH, weq_spec by (done || by apply cstrb_sound). done.
Qed.
(** A filler is never the next word of a phrase. *)
Lemma expect_filler w toks : in_list w fillers = true -> is_cstr w -> Forall (fun t => is_cstr (lower t)) toks -> expect_word w toks = None.
Proof.
  intros Hw Hc. unfold expect_word. induction 1 as [|t toks Ht Hl IH]; [done|]. cbn [skip_fillers]. destruct (filler t) eqn:E; [done|].
  destruct (tok_eq t w) eqn:Eq; [|done]. apply weq_spec in Eq; [|done|done]. unfold filler in E. rewrite Eq in E. congruence.
Qed.
Lemma find_phrase_filler t toks l : Forall (fun t => is_cstr (lower t)) toks ->
  Forall (fun ph => tok_eq t (w1 ph) = true -> in_list (w2 ph) fillers = true /\ is_cstr (w2 ph)) l -> find_phrase l (t :: toks) = None.
Proof.
  intros Ht. induction 1 as [|ph l Hp Hl IH]; [done|]. cbn [find_phrase match_phrase_at]. destruct (tok_eq t (w1 ph)) eqn:E; cbn [negb]; [|done].
  destruct Hp as [Hf Hc]; [done|]. by rewrite (expect_filler _ _ Hf Hc Ht).
Qed.
(** No filler is a verb, and the only phrase that starts with one continues
    with one. *)
Definition filler_harmless (w : cstring) : bool :=
  forallb (fun ph => negb (weq w (w1 ph)) || (in_list (w2 ph) fillers && cstrb (w2 ph))) phrases && forallb (fun v => negb (weq w v.1)) verbs.
Lemma fillers_harmless : forallb filler_harmless fillers = true.
Proof. by vm_compute. Qed.

Lemma find_verb_filler t toks : Forall (fun t => is_cstr (lower t)) (t :: toks) -> filler t = true -> find_verb true (t :: toks) = find_verb true toks.
Proof.
  intros Hc Hf. apply Forall_cons in Hc as [Ht Hc]. unfold filler in Hf. pose proof Hf as Hin.
  apply in_list_spec in Hin; [|done|by vm_compute]. pose proof fillers_harmless as Hh. rewrite forallb_forall in Hh.
  apply list_elem_of_In, Hh in Hin. unfold filler_harmless in Hin. apply andb_true_iff in Hin as [H1 H2].
  cbn [find_verb negb]. rewrite find_phrase_filler; [|done|].
  - assert (Hv : find_word verbs t = None); [|rewrite Hv; unfold filler; by rewrite Hf].
    clear -H2. induction verbs as [|[w id] l IH]; [done|]. cbn [forallb find_word fst] in *. apply andb_true_iff in H2 as [E H2].
    unfold tok_eq. apply negb_true_iff in E. by rewrite E, IH.
  - apply Forall_forall. intros ph Hp E. rewrite forallb_forall in H1. apply list_elem_of_In, H1 in Hp. unfold tok_eq in E. rewrite E in Hp.
    cbn [negb orb] in Hp. apply andb_true_iff in Hp as [? ?]. split; [done|by apply cstrb_sound].
Qed.

Lemma split_acc_cstr s : is_cstr s -> forall w, is_cstr w -> Forall is_cstr (split_acc w s).
Proof.
  assert (Hfl : forall w, is_cstr w -> Forall is_cstr (flush w)) by (intros [|c w] Hw; cbn [flush]; [constructor|constructor; [done|constructor]]).
  induction 1 as [|c s Hc Hs IH]; intros w Hw; cbn [split_acc]; [by apply Hfl|].
  destruct (c =? 32); [apply Forall_app; split; [by apply Hfl|apply IH; constructor]|]. apply IH, is_cstr_app. split; [done|].
  apply is_cstr_cons. split; [done|constructor].
Qed.
Lemma lower_cstr w : is_cstr w -> forall n, is_cstr (lower_upto w n).
Proof.
  induction 1 as [|c w Hc Hw IH]; intros n; [by constructor|]. destruct n; [by constructor|]. cbn [lower_upto]. destruct (c =? 0); [constructor|].
  apply is_cstr_cons. split; [|done]. unfold tolower. destruct (_ && _) eqn:E; [|done]. apply andb_true_iff in E as [E1 E2].
  vm_compute (ch "Z") in E2. zbool. lia.
Qed.
Lemma tokens_cstr buf toks ws : Forall2 (tok_is buf) toks ws -> Forall is_cstr ws -> Forall (fun t => is_cstr (lower t)) toks.
Proof.
  induction 1 as [|t w toks ws [_ El] Hf IH]; intros Hw; [constructor|]. apply Forall_cons in Hw as [Hw Hws]. constructor; [|by apply IH].
  rewrite El. by apply lower_cstr.
Qed.

(** A filler word in front ("please", "could", "me", ...), in any case,
    changes nothing: result, command and arguments are those of the phrase
    behind it, as long as that has fewer than 16 words. *)
Theorem nl_parse_polite w s cmd arg1 arg2 : is_cstr w -> is_word w -> in_list (lower_upto w 31) fillers = true ->
  is_cstr s -> len (split s) < NL_MAX_TOKENS ->
  (nl_parse (w ++ 32 :: s) cmd arg1 arg2).1 = (nl_parse s cmd arg1 arg2).1.
Proof.
  intros Hcw Hw Hfill Hs Hn. assert (Hws : is_cstr (w ++ 32 :: s)) by (apply is_cstr_app; split; [done|]; apply is_cstr_cons; split; [lia|done]).
  destruct (nl_parse_tokens _ cmd arg1 arg2 Hws) as (toks1 & buf1 & Hf1 & ->). destruct (nl_parse_tokens s cmd arg1 arg2 Hs) as (toks & buf & Hf & ->).
  unfold NL_MAX_TOKENS in Hn. pose proof (split_acc_cstr s Hs [] (Forall_nil_2 _)) as Hsc. fold (split s) in Hsc.
  rewrite (split_word w s Hw) in Hf1. change (take nl_words (w :: split s)) with (w :: take 15 (split s)) in Hf1.
  rewrite take_ge in Hf by (change nl_words with 16%nat; lia). rewrite take_ge in Hf1 by lia.
  destruct toks1 as [|t toks1]; [inversion Hf1|]. pose proof (tokens_cstr _ _ _ Hf1 (Forall_cons_2 _ _ _ Hcw Hsc)) as Hct.
  apply Forall2_cons in Hf1 as [Ht Hf1]. cbn [fst].
  assert (Hp : parse_tokens buf1 (t :: toks1) = parse_tokens buf1 toks1).
  { unfold parse_tokens. rewrite find_verb_filler; [done|done|]. unfold filler. destruct Ht as [_ ->]. done. }
  rewrite Hp. assert (Hrel : Forall2 (tok_rel eq buf1 buf) toks1 toks).
  { eapply toks_rel; [exact Hf1|exact Hf|]. apply Forall_Forall2_diag, Forall_forall. intros v _. split; [|done]. by apply (srel_refl eq). }
  destruct (parse_rel eq (fun _ => eq_refl) buf1 buf toks1 toks Hrel) as [[[[r c] a] b] [[[r' c'] a'] b'] (E & Ha & Hb)|]; [|done].
  cbn in E, Ha, Hb. apply list_eq_Forall2 in Ha, Hb. by rewrite Ha, Hb; injection E as -> ->.
Qed.

(** ** Output buffers *)

Section bounds.
Context (buf : list Z).
Definition fits (s : cstring) : Prop := len s < NL_OUT_LEN.
Lemma append_fits d t : fits d -> fits (append_token buf d t NL_OUT_LEN).
Proof.
  unfold fits, append_token, NL_OUT_LEN. intros Hd. destruct (_ && _) eqn:E; cbv zeta; rewrite ?length_app, length_take; cbn [length]; zbool; lia.
Qed.
Lemma join_fits l : forall d, fits d -> fits (foldl (fun out t => append_token buf out t NL_OUT_LEN) d l).
Proof. induction l as [|t l IH]; intros d Hd; [done|]. cbn [foldl]. by apply IH, append_fits. Qed.
Lemma copy_fits t : fits (copy_token buf t NL_OUT_LEN).
Proof. unfold fits, copy_token, NL_OUT_LEN. rewrite length_take. lia. Qed.
Lemma extract_fits l : forall j a, fits (path_buf a) /\ fits (name_buf a) -> fits (path_buf (extract buf j l a)) /\ fits (name_buf (extract buf j l a)).
Proof.
  induction l as [|t l IH]; intros j a Ha; [done|]. cbn [extract]. apply IH. unfold extract_token.
  destruct (filler t); [done|]. destruct (in_list _ _); [done|]. destruct (special_dest _); try done.
  destruct (in_list _ _); [done|]. destruct (in_list _ _); [done|]. destruct Ha. destruct (mode a); cbn; split; try done; by apply append_fits.
Qed.
Lemma command_fits v l a : fits (path_buf a) -> fits (name_buf a) ->
  let '(r, c, x, y) := nl_command buf v l a in len c < 32 /\ fits x /\ fits y.
Proof.
  intros Hp Hn. unfold nl_command. assert (H0 : fits []) by done. assert (Hj : fits (join_tokens buf (bare_toks a) NL_OUT_LEN)) by by apply join_fits.
  assert (Hspan : fits (match name_marker_at a with Some m => if 0 <? m then join_span_verbatim buf (take (Z.to_nat m) l) NL_OUT_LEN else [] | None => [] end)).
  { destruct (name_marker_at a) as [m|]; [|done]. destruct (0 <? m); [|done]. by apply join_fits. }
  pose proof copy_fits as Hc.
  destruct v; cbv zeta; repeat (destruct (nonempty _)); try destruct (dest a); destruct (bare_toks a) as [|t [|u [|]]];
    (split; [by vm_compute|]); split; done || (by vm_compute) || apply Hc.
Qed.
End bounds.

(** Whatever the input, the output buffers are either left alone, with
    result -1, or filled with strings that fit the buffers of the shell: less
    than 32 characters for the command and less than 256 for the arguments. *)
Theorem nl_parse_output_fits input cmd arg1 arg2 :
  let '(r, c, a, b, _) := nl_parse input cmd arg1 arg2 in
  (r = -1 /\ c = cmd /\ a = arg1 /\ b = arg2) \/ (len c < 32 /\ fits a /\ fits b).
Proof.
  unfold nl_parse. destruct (tokenize _ input 0) as [toks buf]. unfold parse_tokens.
  destruct (find_verb true toks) as [[[v t] rest]|]; cbn [mbind option_bind]; [|by left].
  destruct (if bool_decide (v = NL_LIST) && show_verb t then show_object rest else (v, rest)) as [v' rest'].
  destruct (extract_fits buf rest' 0 no_args) as [Hp Hn]; [done|].
  pose proof (command_fits buf v' rest' _ Hp Hn) as Hc. destruct (nl_command _ _ _ _) as [[[r c] a] b]. by right.
Qed.

(** ** Phrases that never match *)

Lemma find_verb_not_info toks b v t rest : Forall (fun t => is_cstr (lower t)) toks -> find_verb b toks = Some (v, t, rest) -> v <> NL_INFO.
Proof.
  intros Hc. revert b. induction Hc as [|u toks Hu Hc IH]; intros b; [done|]. cbn [find_verb]. destruct (negb b); [done|].
  destruct (find_phrase phrases (u :: toks)) as [[id r]|] eqn:E.
  - intros [= <- <- <-]. assert (Hdead : Forall (fun ph => ph_id ph = NL_INFO -> in_list (w2 ph) fillers = true /\ is_cstr (w2 ph)) phrases).
    { unfold phrases. repeat (apply Forall_cons; split; [intros Hid; first [discriminate Hid|split; [by vm_compute|apply cstrb_sound; by vm_compute]]|]). constructor. }
    clear IH. revert E. induction Hdead as [|ph l Hp Hl IH]; cbn [find_phrase match_phrase_at]; [done|].
    destruct (negb (tok_eq u (w1 ph))); [done|]. intros E Hid. destruct (decide (ph_id ph = NL_INFO)) as [Hi|Hi].
    + destruct (Hp Hi) as [Hf Hw]. rewrite (expect_filler _ _ Hf Hw Hc) in E. by apply IH.
    + match type of E with match ?x with _ => _ end = _ => destruct x end; [injection E as <- _; done|by apply IH].
  - destruct (find_word verbs u) as [id|] eqn:Ev; [|apply IH]. intros [= <- <- <-].
    assert (Hno : forallb (fun x => negb (bool_decide (x.2 = NL_INFO))) verbs = true) by by vm_compute.
    clear -Ev Hno. induction verbs as [|[w i] l IH]; [done|]. cbn [forallb find_word snd] in *. apply andb_true_iff in Hno as [H1 H2].
    destruct (tok_eq u w); [injection Ev as <-|by apply IH]. apply negb_true_iff, bool_decide_eq_false in H1. done.
Qed.

(** No phrase gives the command "information": its phrases ("information
    about", "info about", "details about") end in a filler word, and fillers
    are skipped before the second word of a phrase is compared. *)
Theorem nl_information_unreachable s arg1 arg2 : is_cstr s ->
  let '(_, c, _, _, _) := nl_parse s [] arg1 arg2 in c <> zs "information".
Proof.
  intros Hs. destruct (nl_parse_tokens s [] arg1 arg2 Hs) as (toks & buf & Hf & ->). unfold parse_tokens.
  assert (Hc : Forall (fun t => is_cstr (lower t)) toks).
  { eapply tokens_cstr; [exact Hf|]. apply Forall_take, split_acc_cstr; [done|constructor]. }
  destruct (find_verb true toks) as [[[v t] rest]|] eqn:E; cbn [mbind option_bind]; [|done].
  apply find_verb_not_info in E; [|done].
  assert (Hs2 : (show_object rest).1 <> NL_INFO).
  { unfold show_object. destruct (skip_fillers rest); [done|]. repeat (destruct (_ || _) || destruct (tok_eq _ _)); done. }
  destruct (if bool_decide (v = NL_LIST) && show_verb t then show_object rest else (v, rest)) as [v' rest'] eqn:E2.
  assert (Hv : v' <> NL_INFO) by (destruct (_ && _); [rewrite E2 in Hs2; done|injection E2 as <- _; done]).
  generalize (extract buf 0 rest' no_args) as a. intros a. unfold nl_command.
  destruct v'; cbv zeta; try done; repeat (destruct (nonempty _)); try destruct (dest a); destruct (bare_toks a) as [|? [|? [|]]]; done.
Qed.

(** ** Examples *)

Module Examples.
(** The phrases of src/tests/unit/test_nl_parser.c with the expected result,
    command and arguments. *)
Definition documented : list (string * Z * string * string * string) :=
  [("list", 0, "list", "", ""); ("ls", 0, "list", "", ""); ("list current directory", 0, "list", "", "");
   ("list the files in the current directory", 0, "list", "", "");
   ("list files in documents", 0, "list", "documents", "");
   ("list files in my documents folder", 0, "list", "documents", ""); ("list documents", 0, "list", "documents", "");
   ("please show me the files", 0, "list", "", ""); ("show the file notes.txt", 0, "read", "notes.txt", "");
   ("show memory", 0, "show", "memory", ""); ("show me the memory", 0, "show", "memory", "");
   ("display memory", 0, "show", "memory", ""); ("show processes", 0, "show", "processes", "");
   ("show me the processes", 0, "show", "processes", ""); ("show windows", 0, "list", "windows", "");
   ("system information", 0, "system", "information", ""); ("current date time", 0, "date", "time", "");
   ("create a file called notes.txt", 0, "create", "notes.txt", "");
   ("make a directory called documents", 0, "mkdir", "documents", "");
   ("delete the file notes.txt", 0, "delete", "notes.txt", ""); ("remove notes.txt", 0, "delete", "notes.txt", "");
   ("read notes.txt", 0, "read", "notes.txt", ""); ("cat notes.txt", 0, "read", "notes.txt", "");
   ("mkdir docs", 0, "mkdir", "docs", ""); ("write hello world to notes.txt", 0, "write", "notes.txt", "hello world");
   ("append more text to notes.txt", 0, "append", "notes.txt", "more text");
   ("write notes.txt", 0, "write", "notes.txt", ""); ("write a.txt hello", (-1), "", "", "");
   ("copy a.txt to b.txt", 0, "copy", "a.txt", "b.txt"); ("copy a.txt b.txt", 0, "copy", "a.txt", "b.txt");
   ("move a.txt to b.txt", 0, "move", "a.txt", "b.txt"); ("rename a.txt to b.txt", 0, "rename", "a.txt", "b.txt");
   ("move window 1 10 20", 0, "move", "window", "1 10 20"); ("cd /home/user", 0, "cd", "/home/user", "");
   ("cd to /home", 0, "cd", "/home", ""); ("go to /home", 0, "cd", "/home", ""); ("go up", 0, "up", "", "");
   ("go home", 0, "home", "", ""); ("where am i", 0, "pwd", "", "");
   ("echo hello there", 0, "echo", "hello there", ""); ("say hi", 0, "echo", "hi", "");
   ("open window calculator", 0, "open", "window", "calculator"); ("close window 2", 0, "close", "window", "2");
   ("clear the screen", 0, "clear", "", ""); ("uptime", 0, "uptime", "", ""); ("version", 0, "version", "", "");
   ("search for notes", 0, "find", "notes", ""); ("edit file.txt", 0, "edit", "file.txt", "");
   ("ping 192.168.1.1", 0, "ping", "192.168.1.1", ""); ("grep Uptime 0/system/runtime/uptime", (-1), "", "", "");
   ("grep beta grepfile.txt", (-1), "", "", ""); ("please show me the files", 0, "list", "", "")].
Definition as_expected (x : string * Z * string * string * string) : bool :=
  let '(phrase, r, c, a, b) := x in
  let '(r', c', a', b', _) := nl_parse (zs phrase) [] [] [] in
  (r =? r') && ((r =? -1) || (bool_decide (zs c = c') && bool_decide (zs a = a') && bool_decide (zs b = b'))).
Example documented_phrases : forallb as_expected documented = true.
Proof. by vm_compute. Qed.

Lemma nl_parse_input_buffer_witness : (nl_parse (zs "list the files in docs") [] [] []).2 = zs "list the files in docs".
Proof.
  destruct (nl_parse_input_buffer (zs "list the files in docs") [] [] []) as (_ & _ & H); [apply cstrb_sound; by vm_compute|].
  apply H; by vm_compute.
Defined.
(** With a space at the end, the buffer comes back without it. *)
Example trailing_space_lost : (nl_parse (zs "grep x ") [] [] []).2 = zs "grep x" ++ [0].
Proof. by vm_compute. Qed.

Lemma nl_parse_case_insensitive_witness :
  let '(r, c, a, b, _) := nl_parse (zs "READ  Notes.TXT") [] [] [] in
  let '(r', c', a', b', _) := nl_parse (zs "read notes.txt") [] [] [] in
  r = r' /\ c = c' /\ same_word a a' /\ same_word b b'.
Proof.
  apply (nl_parse_case_insensitive (zs "READ  Notes.TXT") (zs "read notes.txt") [] [] []); [apply cstrb_sound; by vm_compute..|].
  repeat constructor.
Defined.

Lemma nl_parse_polite_witness :
  (nl_parse (zs "Please show me the memory") [] [] []).1 = (nl_parse (zs "show me the memory") [] [] []).1.
Proof.
  apply (nl_parse_polite (zs "Please") (zs "show me the memory") [] [] []); [apply cstrb_sound; by vm_compute| |by vm_compute|apply cstrb_sound; by vm_compute|by vm_compute].
  split; [done|]. repeat constructor; lia || done.
Defined.

Lemma nl_information_unreachable_witness :
  let '(_, c, _, _, _) := nl_parse (zs "information about notes.txt") [] [] [] in c <> zs "information".
Proof. apply (nl_information_unreachable (zs "information about notes.txt") [] []). apply cstrb_sound. by vm_compute. Defined.
End Examples.
