(* ===== verification/Console.v ===== *)
(** * The console (src/src/drivers/vga.c) and the serial port
    (src/src/drivers/serial.c)

    The text-mode buffer is the list of its 2000 cells.  [None] is a run that
    does not return (the transmitter never gets ready) or a store outside the
    buffer.  While output is captured, [capture] holds the size of the
    caller's buffer and the bytes stored in it. *)

From S2P Require Import Prelude Disk Text.

(** ** Serial port *)

Definition COM1 : Z := 1016.            (* 0x3F8 *)
Definition SERIAL_DATA : Z := 0.
Definition SERIAL_IER : Z := 1.
Definition SERIAL_FCR : Z := 2.
Definition SERIAL_LCR : Z := 3.
Definition SERIAL_MCR : Z := 4.
Definition SERIAL_LSR : Z := 5.
Definition LSR_TX_EMPTY : Z := 32.

Section serial.
Context {D : Type} `{PortIO D} (fuel : nat).
Implicit Types (d : D).

Definition serial_is_ready d : Z * D := let '(x, d) := inb (COM1 + SERIAL_LSR) d in (x .& LSR_TX_EMPTY, d).
Definition serial_init d : D :=
  let d := outb (COM1 + SERIAL_IER) 0 d in
  let d := outb (COM1 + SERIAL_LCR) 128 d in
  let d := outb (COM1 + SERIAL_DATA) 1 d in
  let d := outb (COM1 + SERIAL_IER) 0 d in
  let d := outb (COM1 + SERIAL_LCR) 3 d in
  let d := outb (COM1 + SERIAL_FCR) 199 d in
  let d := outb (COM1 + SERIAL_MCR) 11 d in
  outb (COM1 + SERIAL_IER) 1 d.
Fixpoint serial_wait (n : nat) d : option D :=
  match n with O => None | S n' => let '(r, d) := serial_is_ready d in if r =? 0 then serial_wait n' d else Some d end.
Definition serial_putchar (c : Z) d : option D := d ← serial_wait fuel d; Some (outb (COM1 + SERIAL_DATA) (u8 c) d).
Fixpoint serial_write (data : list Z) d : option D :=
  match data with
  | [] => Some d
  | c :: data' =>
      d ← (if c =? 10 then serial_putchar 13 d else Some d);
      d ← serial_putchar c d;
      serial_write data' d
  end.
Definition serial_writestring (data : cstring) d : option D := serial_write data d.
Definition serial_received d : Z * D := let '(x, d) := inb (COM1 + SERIAL_LSR) d in (x .& 1, d).
Fixpoint serial_await (n : nat) d : option D :=
  match n with O => None | S n' => let '(r, d) := serial_received d in if r =? 0 then serial_await n' d else Some d end.
Definition serial_getchar d : option (Z * D) := d ← serial_await fuel d; Some (inb (COM1 + SERIAL_DATA) d).
End serial.

(** ** Console *)

Definition VGA_WIDTH : Z := 80.
Definition VGA_HEIGHT : Z := 25.
Definition COLOR_BLACK : Z := 0.
Definition COLOR_LIGHT_GREY : Z := 7.

Record vga_info : Type := VgaInfo { vi_width : Z; vi_height : Z; vi_colors : Z; vi_mode : Z }.

Record vga (D : Type) : Type := Vga {
  vga_buffer : list Z;
  cursor_row : Z;
  cursor_col : Z;
  terminal_color : Z;
  capture : option (Z * list Z);
  vdev : D
}.
Arguments Vga {D}.
Arguments vga_buffer {D}.
Arguments cursor_row {D}.
Arguments cursor_col {D}.
Arguments terminal_color {D}.
Arguments capture {D}.
Arguments vdev {D}.

Definition vga_entry (c color : Z) : Z := u16 (c .| (color .<< 8)).
Definition store_cell (buf : list Z) (i x : Z) : option (list Z) :=
  if (0 <=? i) && (i <? len buf) then Some (arr_set buf i x) else None.

Section console.
Context {D : Type} `{PortIO D} (fuel : nat).
Abbreviation term := (vga D).
Implicit Types (s : term).

Definition set_cells x s : term := Vga x (cursor_row s) (cursor_col s) (terminal_color s) (capture s) (vdev s).
Definition set_cursor r c s : term := Vga (vga_buffer s) r c (terminal_color s) (capture s) (vdev s).
Definition set_capture x s : term := Vga (vga_buffer s) (cursor_row s) (cursor_col s) (terminal_color s) x (vdev s).
Definition set_vdev x s : term := Vga (vga_buffer s) (cursor_row s) (cursor_col s) (terminal_color s) (capture s) x.

Definition vga_set_color (fg bg : Z) s : term :=
  Vga (vga_buffer s) (cursor_row s) (cursor_col s) (u8 (fg .| (bg .<< 4))) (capture s) (vdev s).
Definition blank s : Z := vga_entry 32 (terminal_color s).
Definition vga_clear_screen s : term :=
  set_cursor 0 0 (set_cells (replicate (Z.to_nat (VGA_HEIGHT * VGA_WIDTH)) (blank s)) s).
(** Every row moves up by one; the last one becomes blank. *)
Definition terminal_scroll s : term :=
  set_cells (drop (Z.to_nat VGA_WIDTH) (vga_buffer s) ++ replicate (Z.to_nat VGA_WIDTH) (blank s)) s.

Definition terminal_capture_begin (buf size : Z) s : term := set_capture (if buf =? 0 then None else Some (size, [])) s.
Definition terminal_capture_end s : Z * term := (match capture s with Some (_, t) => len t | None => 0 end, set_capture None s).

(** The cursor and the cell a character changes. *)
Definition put_glyph (c : Z) s : option term :=
  let row := cursor_row s in
  let col := cursor_col s in
  if c =? 10 then Some (set_cursor (row + 1) 0 s)
  else if c =? 13 then Some (set_cursor row 0 s)
  else if c =? 9 then Some (set_cursor row ((col + 8) .& Z.lnot 7) s)
  else if (32 <=? c) && (c <=? 126) then
    b ← store_cell (vga_buffer s) (row * VGA_WIDTH + col) (vga_entry c (terminal_color s));
    Some (set_cursor row (col + 1) (set_cells b s))
  else if c =? 8 then
    if 0 <? col then
      b ← store_cell (vga_buffer s) (row * VGA_WIDTH + (col - 1)) (blank s);
      Some (set_cursor row (col - 1) (set_cells b s))
    else Some s
  else Some s.
Definition wrap_line s : term := if VGA_WIDTH <=? cursor_col s then set_cursor (cursor_row s + 1) 0 s else s.
Definition keep_visible s : term :=
  if VGA_HEIGHT <=? cursor_row s then let s := terminal_scroll s in set_cursor (VGA_HEIGHT - 1) (cursor_col s) s else s.

Definition vga_putchar (c : Z) s : option term :=
  match capture s with
  | Some (size, t) => Some (if len t <? u64 (size - 1) then set_capture (Some (size, t ++ [c])) s else s)
  | None =>
      d ← serial_putchar fuel c (vdev s);
      s ← put_glyph c (set_vdev d s);
      Some (keep_visible (wrap_line s))
  end.
Fixpoint vga_write (data : list Z) s : option term :=
  match data with [] => Some s | c :: data' => s ← vga_putchar c s; vga_write data' s end.
Definition vga_writestring (data : cstring) s : option term := vga_write data s.
Definition vga_writestring_nl (data : cstring) s : option term := s ← vga_writestring data s; vga_putchar 10 s.
Definition vga_put_hex (n : Z) s : option term :=
  vga_writestring (zs "0x" ++ ((fun i => arr_get 0 (zs "0123456789ABCDEF") ((n .>> (4 * i)) .& 15)) <$> rev (seqZ 0 16))) s.
Definition vga_put_dec (n : Z) s : option term := vga_writestring (put_dec n) s.

Definition terminal_initialize s : term := vga_clear_screen (vga_set_color COLOR_LIGHT_GREY COLOR_BLACK s).
Definition vga_init s : option term :=
  s ← vga_writestring (zs "[VGA] Initializing Display System..." ++ [10]) s;
  let s := vga_clear_screen (vga_set_color COLOR_LIGHT_GREY COLOR_BLACK s) in
  s ← vga_writestring (zs "  VGA text mode 80x25" ++ [10]) s;
  s ← vga_writestring (zs "  16 colors available" ++ [10]) s;
  vga_writestring (zs "[VGA] Display System Ready!" ++ [10]) s.
Definition vga_get_info : vga_info := VgaInfo 80 25 16 0.
End console.

(** ** What the screen shows

    A page of unbounded height: rows are added below as the cursor moves past
    the last one, and nothing ever scrolls away. *)

Record page : Type := Page { p_cells : list Z; p_row : Z; p_col : Z }.
Definition p_put (color c : Z) (p : page) : page :=
  let i := p_row p * VGA_WIDTH + p_col p in
  if c =? 10 then Page (p_cells p) (p_row p + 1) 0
  else if c =? 13 then Page (p_cells p) (p_row p) 0
  else if c =? 9 then Page (p_cells p) (p_row p) (p_col p - p_col p mod 8 + 8)
  else if (32 <=? c) && (c <=? 126) then Page (arr_set (p_cells p) i (vga_entry c color)) (p_row p) (p_col p + 1)
  else if (c =? 8) && (0 <? p_col p) then Page (arr_set (p_cells p) (i - 1) (vga_entry 32 color)) (p_row p) (p_col p - 1)
  else p.
Definition p_wrap (p : page) : page := if VGA_WIDTH <=? p_col p then Page (p_cells p) (p_row p + 1) 0 else p.
Definition p_grow (color : Z) (p : page) : page :=
  if len (p_cells p) <=? p_row p * VGA_WIDTH then Page (p_cells p ++ replicate (Z.to_nat VGA_WIDTH) (vga_entry 32 color)) (p_row p) (p_col p) else p.
Definition p_char (color : Z) (p : page) (c : Z) : page := p_grow color (p_wrap (p_put color c p)).
Definition empty_page (color : Z) : page := Page (replicate 2000 (vga_entry 32 color)) 0 0.
Definition page_of (color : Z) (text : list Z) : page := foldl (p_char color) (empty_page color) text.
(** The last 25 rows of a page. *)
Definition last_rows (p : page) : list Z := drop (length (p_cells p) - 2000) (p_cells p).

Section screen.
Context {D : Type} `{PortIO D} (fuel : nat).
(** The transmitter gets ready within [fuel] polls. *)
Context (ready : forall d : D, is_Some (serial_wait fuel d)).
Implicit Types (s : vga D) (p : page).

Record shows s p : Prop := {
  sh_rows : exists k, length (p_cells p) = (2000 + 80 * k)%nat /\ vga_buffer s = drop (80 * k) (p_cells p) /\ p_row p = cursor_row s + Z.of_nat k;
  sh_row : 0 <= cursor_row s < 25;
  sh_col : p_col p = cursor_col s;
  sh_left : 0 <= cursor_col s < 80
}.

Lemma tab_stop x : (x + 8) .& Z.lnot 7 = x - x mod 8 + 8.
Proof.
  rewrite <- Z.ldiff_land. change 7 with (Z.ones 3). rewrite Z.ldiff_ones_r, Z.shiftr_div_pow2, Z.shiftl_mul_pow2 by lia.
  change (2 ^ 3) with 8. replace (x + 8) with (x + 1 * 8) by lia. rewrite Z.div_add by lia. pose proof (Z.div_mod x 8). lia.
Qed.
Lemma arr_set_drop (l : list Z) k i x : 0 <= i -> arr_set (drop k l) i x = drop k (arr_set l (i + Z.of_nat k) x).
Proof.
  intros Hi. unfold arr_set. rewrite drop_insert_ge by lia. f_equal. lia.
Qed.

(** The cursor between [put_glyph] and the end of [vga_putchar]: one column
    or one row too far. *)
Record draws s p : Prop := {
  dr_rows : exists k, length (p_cells p) = (2000 + 80 * k)%nat /\ vga_buffer s = drop (80 * k) (p_cells p) /\ p_row p = cursor_row s + Z.of_nat k;
  dr_row : 0 <= cursor_row s <= 25;
  dr_col : p_col p = cursor_col s;
  dr_left : 0 <= cursor_col s <= 80;
  dr_one : cursor_row s = 25 -> cursor_col s = 0
}.

Lemma store_shown s p i x : shows s p -> 0 <= i < 80 ->
  exists b, store_cell (vga_buffer s) (cursor_row s * VGA_WIDTH + i) x = Some b /\
    exists k, length (arr_set (p_cells p) (p_row p * VGA_WIDTH + i) x) = (2000 + 80 * k)%nat /\
      b = drop (80 * k) (arr_set (p_cells p) (p_row p * VGA_WIDTH + i) x) /\ p_row p = cursor_row s + Z.of_nat k.
Proof.
  intros [(k & Hl & Hb & Hr) Hrow Hcol Hleft] Hi. unfold store_cell, VGA_WIDTH. rewrite Hb, length_drop, Hl.
  rewrite (proj2 (Z.leb_le _ _)), (proj2 (Z.ltb_lt _ _)) by lia. cbn [andb]. eexists. split; [done|]. exists k. split; [|split; [|done]].
  - by rewrite length_arr_set.
  - rewrite arr_set_drop by lia. do 2 f_equal. lia.
Qed.

Lemma glyph_draws c s p : shows s p -> exists s', put_glyph c s = Some s' /\ draws s' (p_put (terminal_color s) c p) /\
  terminal_color s' = terminal_color s /\ capture s' = capture s /\ vdev s' = vdev s.
Proof.
  intros Hs. pose proof Hs as [(k & Hl & Hb & Hr) Hrow Hcol Hleft]. unfold put_glyph, p_put. rewrite Hcol.
  destruct (c =? 10).
  { eexists. split; [done|]. split; [|done]. split; cbn; try lia. exists k. split; [done|]. split; [done|lia]. }
  destruct (c =? 13).
  { eexists. split; [done|]. split; [|done]. split; cbn; try lia. by exists k. }
  destruct (c =? 9).
  { eexists. split; [done|]. split; [|done]. rewrite tab_stop. pose proof (Z.mod_pos_bound (cursor_col s) 8 ltac:(lia)).
    assert (cursor_col s - cursor_col s mod 8 <= 72).
    { pose proof (Z.div_mod (cursor_col s) 8 ltac:(lia)). assert (cursor_col s / 8 < 10) by (apply Z.div_lt_upper_bound; lia). lia. }
    split; cbn; try lia. by exists k. }
  destruct (_ && _).
  { destruct (store_shown s p (cursor_col s) (vga_entry c (terminal_color s)) Hs Hleft) as (b & -> & k' & Hl' & Hb' & Hr').
    cbn [mbind option_bind]. eexists. split; [done|]. split; [|done]. split; cbn; try lia. by exists k'. }
  destruct (c =? 8); cbn [andb]; [|exists s; split; [done|]; split; [|done]; split; try lia; by exists k].
  destruct (Z.ltb_spec 0 (cursor_col s)) as [Hpos|]; [|exists s; split; [done|]; split; [|done]; split; try lia; by exists k].
  destruct (store_shown s p (cursor_col s - 1) (blank s) Hs ltac:(lia)) as (b & -> & k' & Hl' & Hb' & Hr').
  cbn [mbind option_bind]. eexists. split; [done|]. split; [|done].
  replace (p_row p * VGA_WIDTH + cursor_col s - 1) with (p_row p * VGA_WIDTH + (cursor_col s - 1)) by lia. split; cbn; try lia. by exists k'.
Qed.

Lemma wrap_draws s p : draws s p -> draws (wrap_line s) (p_wrap p) /\ cursor_col (wrap_line s) < 80.
Proof.
  intros [(k & Hl & Hb & Hr) Hrow Hcol Hleft Hone]. unfold wrap_line, p_wrap, VGA_WIDTH. rewrite Hcol. destruct (Z.leb_spec 80 (cursor_col s)).
  - split; [|cbn; lia]. split; cbn; try lia. exists k. split; [done|]. split; [done|lia].
  - split; [|done]. split; try done. by exists k.
Qed.
Lemma keep_shows s p : draws s p -> cursor_col s < 80 -> shows (keep_visible s) (p_grow (terminal_color s) p).
Proof.
  intros [(k & Hl & Hb & Hr) Hrow Hcol Hleft Hone] Hc. unfold keep_visible, p_grow, VGA_HEIGHT, VGA_WIDTH. rewrite Hl, Hr.
  destruct (Z.leb_spec 25 (cursor_row s)).
  - rewrite (proj2 (Z.leb_le _ _)) by lia. split; cbn [vga_buffer cursor_row cursor_col set_cursor set_cells terminal_scroll p_cells p_row p_col]; try lia. exists (S k). split; [|split].
    + rewrite length_app, length_replicate, Hl. lia.
    + rewrite Hb, drop_drop. rewrite drop_app_le by lia. f_equal. f_equal. change (Z.to_nat VGA_WIDTH) with 80%nat. lia.
    + lia.
  - rewrite (proj2 (Z.leb_gt _ _)) by lia. split; try lia. by exists k.
Qed.

Lemma putchar_shows c s p : shows s p -> capture s = None -> exists s',
  vga_putchar fuel c s = Some s' /\ shows s' (p_char (terminal_color s) p c) /\ terminal_color s' = terminal_color s /\ capture s' = None.
Proof.
  intros Hs Hcap. unfold vga_putchar, serial_putchar. rewrite Hcap. destruct (ready (vdev s)) as [d ->]. cbn [mbind option_bind].
  destruct (glyph_draws c (set_vdev (outb (COM1 + SERIAL_DATA) (u8 c) d) s) p) as (s' & -> & Hd & Ecol & Ecap & _).
  { by destruct Hs. }
  cbn [mbind option_bind]. destruct (wrap_draws _ _ Hd) as [Hw Hc]. eexists. split; [done|].
  assert (Hcol : terminal_color (wrap_line s') = terminal_color s) by (unfold wrap_line; by destruct (_ <=? _)).
  assert (Hcp : capture (wrap_line s') = None) by (unfold wrap_line; destruct (_ <=? _); cbn; rewrite Ecap; exact Hcap).
  pose proof (keep_shows _ _ Hw Hc) as Hk. rewrite Hcol in Hk. split; [exact Hk|].
  unfold keep_visible. by destruct (_ <=? _).
Qed.
Lemma write_shows text : forall s p, shows s p -> capture s = None -> exists s',
  vga_write fuel text s = Some s' /\ shows s' (foldl (p_char (terminal_color s)) p text) /\ capture s' = None /\ terminal_color s' = terminal_color s.
Proof.
  induction text as [|c text IH]; intros s p Hs Hcap; [by exists s|]. cbn [vga_write foldl].
  destruct (putchar_shows c s p Hs Hcap) as (s1 & -> & Hs1 & E1 & Hc1). cbn [mbind option_bind].
  destruct (IH s1 _ Hs1 Hc1) as (s2 & -> & Hs2 & Hc2 & E2). exists s2. rewrite E1 in Hs2. split; [done|]. split; [done|]. split; congruence.
Qed.
Lemma clear_shows s : shows (vga_clear_screen s) (empty_page (terminal_color s)).
Proof.
  split; cbn [cursor_row cursor_col vga_clear_screen set_cursor p_col p_row empty_page p_cells vga_buffer]; try lia.
  exists 0%nat. split; [by rewrite length_replicate|done].
Qed.
End screen.

(** [C19] After the screen is cleared, writing any text returns, never stores
    outside the text buffer, leaves the cursor on the screen, and the screen
    shows the last 25 rows of an unbounded page on which the same text is
    written. *)
Theorem console_shows_last_rows {D} `{PortIO D} fuel (s : vga D) text :
  (forall d : D, is_Some (serial_wait fuel d)) -> capture s = None ->
  exists s', vga_write fuel text (vga_clear_screen s) = Some s' /\
    let p := page_of (terminal_color s) text in
    vga_buffer s' = last_rows p /\ len (vga_buffer s') = VGA_HEIGHT * VGA_WIDTH /\
    0 <= cursor_row s' < VGA_HEIGHT /\ 0 <= cursor_col s' < VGA_WIDTH /\ cursor_col s' = p_col p.
Proof.
  intros Hready Hcap. destruct (write_shows fuel Hready text (vga_clear_screen s) (empty_page (terminal_color s)) (clear_shows s) Hcap)
    as (s' & E & [(k & Hl & Hb & Hr) Hrow Hcol Hleft] & _). exists s'. split; [exact E|]. cbv zeta. unfold page_of, last_rows.
  change (terminal_color (vga_clear_screen s)) with (terminal_color s) in *.
  split; [rewrite Hb, Hl; f_equal; lia|]. split; [rewrite Hb, length_drop, Hl; unfold VGA_HEIGHT, VGA_WIDTH; lia|]. done.
Qed.

(** ** Captured output *)

Lemma captured {D} `{PortIO D} fuel text : forall (s : vga D) size t, capture s = Some (size, t) -> 0 < size < 2 ^ 64 -> len t < size ->
  exists s', vga_write fuel text s = Some s' /\ capture s' = Some (size, take (Z.to_nat (size - 1)) (t ++ text)) /\
    set_capture None s' = set_capture None s.
Proof.
  induction text as [|c text IH]; intros s size t Hc Hs Ht.
  { exists s. rewrite app_nil_r, take_ge by lia. done. }
  cbn [vga_write]. unfold vga_putchar. rewrite Hc. rewrite u64_id by (unfold is_u64; lia). cbn [mbind option_bind].
  destruct (Z.ltb_spec (len t) (size - 1)) as [Hlt|Hge].
  - destruct (IH (set_capture (Some (size, t ++ [c])) s) size (t ++ [c]) eq_refl Hs) as (s' & E & Hcap & Hrest); [rewrite length_app; cbn; lia|].
    exists s'. split; [exact E|]. by rewrite <- app_assoc in Hcap.
  - destruct (IH s size t Hc Hs Ht) as (s' & E & Hcap & Hrest). exists s'. split; [exact E|]. split; [|done].
    rewrite Hcap. do 2 f_equal. rewrite !take_app_le by lia. done.
Qed.

(** Redirected output: between [terminal_capture_begin] with a buffer of
    [size] bytes and [terminal_capture_end], the buffer receives exactly the
    first [size - 1] characters written and the screen, the cursor and the
    serial port are untouched. *)
Theorem capture_collects {D} `{PortIO D} fuel (s : vga D) buf size text : buf <> 0 -> 0 < size < 2 ^ 64 ->
  exists s', vga_write fuel text (terminal_capture_begin buf size s) = Some s' /\
    capture s' = Some (size, take (Z.to_nat (size - 1)) text) /\
    (terminal_capture_end s').1 = Z.min (len text) (size - 1) /\
    (terminal_capture_end s').2 = set_capture None s.
Proof.
  intros Hbuf Hsize. unfold terminal_capture_begin. rewrite (proj2 (Z.eqb_neq buf 0) Hbuf).
  destruct (captured fuel text (set_capture (Some (size, [])) s) size [] eq_refl Hsize) as (s' & E & Hcap & Hs); [cbn; lia|].
  exists s'. split; [exact E|]. split; [exact Hcap|]. unfold terminal_capture_end. rewrite Hcap. cbn [fst snd app]. rewrite length_take. split; [lia|done].
Qed.

(** ** Examples *)

Module Examples.
(** A port that is always ready. *)
#[local] Instance ready_ports : PortIO unit := {|
  inb _ d := (LSR_TX_EMPTY, d); outb _ _ d := d; inw _ d := (0, d); outw _ _ d := d; io_wait d := d
|}.
Definition screen : vga unit := Vga (replicate 2000 0) 3 4 7 None ().
Lemma screen_ready (d : unit) : is_Some (serial_wait 1 d).
Proof. destruct d. by vm_compute; eexists. Qed.
Lemma console_shows_last_rows_witness :
  exists s', vga_write 1 (zs "hello" ++ [10; 9] ++ zs "x") (vga_clear_screen screen) = Some s' /\
    vga_buffer s' = last_rows (page_of (terminal_color screen) (zs "hello" ++ [10; 9] ++ zs "x")).
Proof.
  destruct (console_shows_last_rows 1 screen (zs "hello" ++ [10; 9] ++ zs "x") screen_ready eq_refl) as (s' & E & Hb & _).
  exact (ex_intro _ s' (conj E Hb)).
Defined.
Lemma capture_collects_witness :
  exists s', vga_write 1 (zs "hello") (terminal_capture_begin 4096 4 screen) = Some s' /\ capture s' = Some (4, zs "hel").
Proof.
  destruct (capture_collects 1 screen 4096 4 (zs "hello")) as (s' & E & Hc & _); [done|lia|]. exists s'. split; [exact E|exact Hc].
Defined.
End Examples.
