(* ===== verification/Intent.v ===== *)
(** * Intents (src/src/kernel/intent_schema.c, src/src/kernel/intent_dispatcher.c)

    An intent is a request to change the state graph or the filesystem.  The
    schema table says which parameters it needs; the dispatcher checks it
    against its checksum, the schema and the access-control list before it
    carries it out, and prints an audit record.  The graph, the filesystem
    layer, the console and the real-time clock are the components that it
    uses; the memory of the access-control list comes from the heap of the
    filesystem layer.  [None] is a run that does not return or writes past the
    end of an array. *)

From S2P Require Import Prelude KHeap KString Bytes Disk Part Clock Mft Fs FsSpec Text Ramfs Vfs Fds Console StateGraph.

(** ** The types *)

Definition ERR_SUCCESS : Z := 0.
Definition ERR_INVALID_INTENT : Z := -1.
Definition ERR_UNAUTHORIZED : Z := -2.
Definition ERR_NODE_NOT_FOUND : Z := -3.
Definition ERR_INVALID_PARAMS : Z := -4.
Definition ERR_SYSTEM_ERROR : Z := -5.

Definition INTENT_CREATE_WINDOW : Z := 100.
Definition INTENT_DESTROY_WINDOW : Z := 101.
Definition INTENT_MOVE_WINDOW : Z := 102.
Definition INTENT_RESIZE_WINDOW : Z := 103.
Definition INTENT_SHOW_WINDOW : Z := 104.
Definition INTENT_HIDE_WINDOW : Z := 105.
Definition INTENT_FOCUS_WINDOW : Z := 106.
Definition INTENT_CREATE_NODE : Z := 200.
Definition INTENT_DESTROY_NODE : Z := 201.
Definition INTENT_MOVE_NODE : Z := 202.
Definition INTENT_RESIZE_NODE : Z := 203.
Definition INTENT_SET_NODE_TEXT : Z := 204.
Definition INTENT_SET_NODE_VALUE : Z := 205.
Definition INTENT_SET_NODE_FLAGS : Z := 206.
Definition INTENT_CLICK_NODE : Z := 300.
Definition INTENT_DOUBLE_CLICK_NODE : Z := 301.
Definition INTENT_RIGHT_CLICK_NODE : Z := 302.
Definition INTENT_KEY_PRESS : Z := 303.
Definition INTENT_TEXT_INPUT : Z := 304.
Definition INTENT_SHUTDOWN : Z := 400.
Definition INTENT_REBOOT : Z := 401.
Definition INTENT_SUSPEND : Z := 402.
Definition INTENT_DEBUG_INFO : Z := 403.
Definition INTENT_START_PROCESS : Z := 600.
Definition INTENT_STOP_PROCESS : Z := 601.
Definition INTENT_PAUSE_PROCESS : Z := 602.
Definition INTENT_RESUME_PROCESS : Z := 603.
Definition INTENT_FS_COPY_FILE : Z := 700.
Definition INTENT_FS_MOVE_FILE : Z := 701.
Definition INTENT_FS_CREATE_DIR : Z := 702.
Definition INTENT_FS_REMOVE_DIR : Z := 703.
Definition INTENT_FS_SEARCH : Z := 704.
Definition INTENT_FS_CHDIR : Z := 705.
Definition INTENT_FS_PRINT_CWD : Z := 706.
Definition INTENT_TYPE_COUNT : Z := 707.

(** [param1] and [param2] are arrays of 256 bytes. *)
Record intent : Type := Intent {
  it_type : Z; target_id : Z; param1 : list Z; param2 : list Z; int_param1 : Z; int_param2 : Z;
  source_process_id : Z; timestamp : Z; sequence_number : Z; checksum : Z; priority : Z; it_data : Z; data_size : Z
}.
Definition set_it_type x '(Intent _ g p q a b s t n c r d z) := Intent x g p q a b s t n c r d z.
Definition set_target x '(Intent y _ p q a b s t n c r d z) := Intent y x p q a b s t n c r d z.
Definition set_param1 x '(Intent y g _ q a b s t n c r d z) := Intent y g x q a b s t n c r d z.
Definition set_int_param2 x '(Intent y g p q a _ s t n c r d z) := Intent y g p q a x s t n c r d z.
Definition set_source x '(Intent y g p q a b _ t n c r d z) := Intent y g p q a b x t n c r d z.
Definition set_checksum x '(Intent y g p q a b s t n _ r d z) := Intent y g p q a b s t n x r d z.

(** The 584 bytes of the structure; padding is 0, as the initializers leave
    it. *)
Definition intent_bytes (it : intent) : list Z :=
  le_bytes 4 (it_type it) ++ zeros 4 ++ le_bytes 8 (target_id it) ++ param1 it ++ param2 it ++
  le_bytes 4 (int_param1 it) ++ le_bytes 4 (int_param2 it) ++ le_bytes 4 (source_process_id it) ++ zeros 4 ++
  le_bytes 8 (timestamp it) ++ le_bytes 4 (sequence_number it) ++ le_bytes 4 (checksum it) ++
  [u8 (priority it)] ++ zeros 7 ++ le_bytes 8 (it_data it) ++ le_bytes 8 (data_size it).
(** The C strings at the two parameters; one that is not terminated goes on. *)
Definition param1_str (it : intent) : cstring := cstr (drop 16 (intent_bytes it)).
Definition param2_str (it : intent) : cstring := cstr (drop 272 (intent_bytes it)).
(** [k_strcpy] into an array of 256 bytes. *)
Definition strcpy256 (dst : list Z) (src : cstring) : option (list Z) :=
  if 256 <=? len src then None else Some (src ++ [0] ++ drop (S (length src)) dst).

Inductive role_id : Set :=
| ROLE_SOURCE_FILE | ROLE_SOURCE_DIR | ROLE_DEST_FILE | ROLE_DEST_DIR | ROLE_PATTERN | ROLE_SCOPE | ROLE_MUTATION_DOMAIN | ROLE_COUNT.
Definition ROLE_ATTR_NONE : Z := 0.
Definition ROLE_ATTR_REQUIRED : Z := 1.
Inductive mutation_domain : Set := DOMAIN_SHELL | DOMAIN_VFS | DOMAIN_POLICY | DOMAIN_COUNT.
Inductive effect : Set := EFFECT_NONE | EFFECT_READ | EFFECT_WRITE | EFFECT_DELETE.
#[export] Instance effect_eq_dec : EqDecision effect.
Proof. solve_decision. Defined.
#[export] Instance mutation_domain_eq_dec : EqDecision mutation_domain.
Proof. solve_decision. Defined.
Record role_spec : Type := RoleSpec { sp_role : role_id; sp_attrs : Z; sp_name : cstring; sp_type_hint : cstring }.
Record intent_schema : Type := Schema { roles : list role_spec; sc_domain : mutation_domain; sc_effect : effect; description : cstring }.

(** ** The schema table *)

Definition roles_none : list role_spec := [].
Definition roles_title : list role_spec := [RoleSpec ROLE_SOURCE_FILE ROLE_ATTR_NONE (zs "title") (zs "string")].
Definition roles_text : list role_spec := [RoleSpec ROLE_PATTERN ROLE_ATTR_REQUIRED (zs "text") (zs "string")].
Definition roles_key : list role_spec := [].
Definition roles_process : list role_spec :=
  [RoleSpec ROLE_SOURCE_FILE ROLE_ATTR_REQUIRED (zs "process name") (zs "string")].
Definition roles_copy_move : list role_spec :=
  [RoleSpec ROLE_SOURCE_FILE ROLE_ATTR_REQUIRED (zs "source") (zs "path");
   RoleSpec ROLE_DEST_FILE ROLE_ATTR_REQUIRED (zs "destination") (zs "path")].
Definition roles_dir_op : list role_spec := [RoleSpec ROLE_DEST_DIR ROLE_ATTR_REQUIRED (zs "directory") (zs "path")].
Definition roles_search : list role_spec := [RoleSpec ROLE_PATTERN ROLE_ATTR_REQUIRED (zs "pattern") (zs "string")].
Definition roles_chdir : list role_spec := [RoleSpec ROLE_DEST_DIR ROLE_ATTR_NONE (zs "directory") (zs "path")].
Definition roles_print_cwd : list role_spec := [].

(** The entries that are initialized; the others have no description. *)
Definition INTENT_SCHEMAS : list (Z * intent_schema) :=
  [(INTENT_CREATE_WINDOW, Schema roles_title DOMAIN_SHELL EFFECT_WRITE (zs "Create a new window with an optional title"));
   (INTENT_DESTROY_WINDOW, Schema roles_none DOMAIN_SHELL EFFECT_DELETE (zs "Destroy an existing window"));
   (INTENT_MOVE_WINDOW, Schema roles_none DOMAIN_SHELL EFFECT_WRITE (zs "Move a window to new x,y coordinates"));
   (INTENT_RESIZE_WINDOW, Schema roles_none DOMAIN_SHELL EFFECT_WRITE (zs "Resize a window to new width,height"));
   (INTENT_SHOW_WINDOW, Schema roles_none DOMAIN_SHELL EFFECT_WRITE (zs "Show a hidden window"));
   (INTENT_HIDE_WINDOW, Schema roles_none DOMAIN_SHELL EFFECT_WRITE (zs "Hide a visible window"));
   (INTENT_FOCUS_WINDOW, Schema roles_none DOMAIN_SHELL EFFECT_WRITE (zs "Focus (select) a window"));
   (INTENT_CREATE_NODE, Schema roles_none DOMAIN_SHELL EFFECT_WRITE (zs "Create a new UI node"));
   (INTENT_DESTROY_NODE, Schema roles_none DOMAIN_SHELL EFFECT_DELETE (zs "Destroy a UI node"));
   (INTENT_MOVE_NODE, Schema roles_none DOMAIN_SHELL EFFECT_WRITE (zs "Move a node to new coordinates"));
   (INTENT_RESIZE_NODE, Schema roles_none DOMAIN_SHELL EFFECT_WRITE (zs "Resize a node"));
   (INTENT_SET_NODE_TEXT, Schema roles_text DOMAIN_SHELL EFFECT_WRITE (zs "Set the text content of a node"));
   (INTENT_SET_NODE_VALUE, Schema roles_none DOMAIN_SHELL EFFECT_WRITE (zs "Set the integer value of a node"));
   (INTENT_SET_NODE_FLAGS, Schema roles_none DOMAIN_SHELL EFFECT_WRITE (zs "Set the flags on a node"));
   (INTENT_CLICK_NODE, Schema roles_none DOMAIN_SHELL EFFECT_WRITE (zs "Click a UI node"));
   (INTENT_DOUBLE_CLICK_NODE, Schema roles_none DOMAIN_SHELL EFFECT_WRITE (zs "Double-click a UI node"));
   (INTENT_RIGHT_CLICK_NODE, Schema roles_none DOMAIN_SHELL EFFECT_WRITE (zs "Right-click a UI node"));
   (INTENT_KEY_PRESS, Schema roles_key DOMAIN_SHELL EFFECT_WRITE (zs "Simulate a key press"));
   (INTENT_TEXT_INPUT, Schema roles_text DOMAIN_SHELL EFFECT_WRITE (zs "Input text into a focused node"));
   (INTENT_SHUTDOWN, Schema roles_none DOMAIN_POLICY EFFECT_WRITE (zs "Shut down the system"));
   (INTENT_REBOOT, Schema roles_none DOMAIN_POLICY EFFECT_WRITE (zs "Reboot the system"));
   (INTENT_SUSPEND, Schema roles_none DOMAIN_POLICY EFFECT_WRITE (zs "Suspend the system"));
   (INTENT_DEBUG_INFO, Schema roles_none DOMAIN_SHELL EFFECT_READ (zs "Display kernel debug information"));
   (INTENT_START_PROCESS, Schema roles_process DOMAIN_POLICY EFFECT_WRITE (zs "Start a new process"));
   (INTENT_STOP_PROCESS, Schema roles_none DOMAIN_POLICY EFFECT_DELETE (zs "Stop a running process"));
   (INTENT_PAUSE_PROCESS, Schema roles_none DOMAIN_POLICY EFFECT_WRITE (zs "Pause a running process"));
   (INTENT_RESUME_PROCESS, Schema roles_none DOMAIN_POLICY EFFECT_WRITE (zs "Resume a paused process"));
   (INTENT_FS_COPY_FILE, Schema roles_copy_move DOMAIN_VFS EFFECT_WRITE (zs "Copy a file from source path to destination path"));
   (INTENT_FS_MOVE_FILE, Schema roles_copy_move DOMAIN_VFS EFFECT_WRITE (zs "Move (rename) a file from source path to destination path"));
   (INTENT_FS_CREATE_DIR, Schema roles_dir_op DOMAIN_VFS EFFECT_WRITE (zs "Create a new directory"));
   (INTENT_FS_REMOVE_DIR, Schema roles_dir_op DOMAIN_VFS EFFECT_DELETE (zs "Remove an empty directory"));
   (INTENT_FS_SEARCH, Schema roles_search DOMAIN_VFS EFFECT_READ (zs "Search for files matching a pattern"));
   (INTENT_FS_CHDIR, Schema roles_chdir DOMAIN_SHELL EFFECT_READ (zs "Change the current working directory"));
   (INTENT_FS_PRINT_CWD, Schema roles_print_cwd DOMAIN_SHELL EFFECT_READ (zs "Print the current working directory path"))].

Definition domain_name (d : mutation_domain) : cstring :=
  match d with DOMAIN_SHELL => zs "shell" | DOMAIN_VFS => zs "vfs" | DOMAIN_POLICY => zs "policy" | _ => zs "unknown" end.
Definition effect_name (e : effect) : cstring :=
  match e with EFFECT_NONE => zs "none" | EFFECT_READ => zs "read" | EFFECT_WRITE => zs "write" | EFFECT_DELETE => zs "delete" end.
Definition intent_names : list (Z * cstring) :=
  [(INTENT_CREATE_WINDOW, zs "create_window"); (INTENT_DESTROY_WINDOW, zs "destroy_window");
   (INTENT_MOVE_WINDOW, zs "move_window"); (INTENT_RESIZE_WINDOW, zs "resize_window");
   (INTENT_SHOW_WINDOW, zs "show_window"); (INTENT_HIDE_WINDOW, zs "hide_window");
   (INTENT_FOCUS_WINDOW, zs "focus_window"); (INTENT_CREATE_NODE, zs "create_node");
   (INTENT_DESTROY_NODE, zs "destroy_node"); (INTENT_MOVE_NODE, zs "move_node");
   (INTENT_RESIZE_NODE, zs "resize_node"); (INTENT_SET_NODE_TEXT, zs "set_node_text");
   (INTENT_SET_NODE_VALUE, zs "set_node_value"); (INTENT_SET_NODE_FLAGS, zs "set_node_flags");
   (INTENT_CLICK_NODE, zs "click_node"); (INTENT_DOUBLE_CLICK_NODE, zs "double_click_node");
   (INTENT_RIGHT_CLICK_NODE, zs "right_click_node"); (INTENT_KEY_PRESS, zs "key_press");
   (INTENT_TEXT_INPUT, zs "text_input"); (INTENT_SHUTDOWN, zs "shutdown"); (INTENT_REBOOT, zs "reboot");
   (INTENT_SUSPEND, zs "suspend"); (INTENT_DEBUG_INFO, zs "debug_info");
   (INTENT_START_PROCESS, zs "start_process"); (INTENT_STOP_PROCESS, zs "stop_process");
   (INTENT_PAUSE_PROCESS, zs "pause_process"); (INTENT_RESUME_PROCESS, zs "resume_process");
   (INTENT_FS_COPY_FILE, zs "fs_copy_file"); (INTENT_FS_MOVE_FILE, zs "fs_move_file");
   (INTENT_FS_CREATE_DIR, zs "fs_create_dir"); (INTENT_FS_REMOVE_DIR, zs "fs_remove_dir");
   (INTENT_FS_SEARCH, zs "fs_search"); (INTENT_FS_CHDIR, zs "fs_chdir"); (INTENT_FS_PRINT_CWD, zs "fs_print_cwd")].
Fixpoint assoc {A} (k : Z) (l : list (Z * A)) : option A :=
  match l with [] => None | (k', x) :: l' => if k =? k' then Some x else assoc k l' end.
Definition intent_name (type : Z) : cstring := default (zs "unknown") (assoc type intent_names).

Definition schema_for_type (type : Z) : option intent_schema := if type <? INTENT_TYPE_COUNT then assoc type INTENT_SCHEMAS else None.

(** The bytes at the value; [ROLE_MUTATION_DOMAIN] points at [int_param1]. *)
Definition extract_role_value (it : intent) (role : role_id) : option cstring :=
  match role with
  | ROLE_SOURCE_FILE | ROLE_SOURCE_DIR | ROLE_DEST_DIR | ROLE_PATTERN => Some (param1_str it)
  | ROLE_DEST_FILE | ROLE_SCOPE => Some (param2_str it)
  | ROLE_MUTATION_DOMAIN => Some (cstr (drop 528 (intent_bytes it)))
  | ROLE_COUNT => None
  end.
Fixpoint check_roles (it : intent) (l : list role_spec) : Z :=
  match l with
  | [] => ERR_SUCCESS
  | spec :: l' =>
      if sp_attrs spec .& ROLE_ATTR_REQUIRED =? 0 then check_roles it l'
      else match extract_role_value it (sp_role spec) with
           | None | Some [] => ERR_INVALID_PARAMS
           | Some _ => check_roles it l'
           end
  end.
Definition validate_intent_against_schema (it : intent) : Z :=
  match schema_for_type (it_type it) with None => ERR_SUCCESS | Some s => check_roles it (roles s) end.

Definition intent_is_dry_run_safe (type : Z) : bool :=
  match schema_for_type type with None => false | Some s => bool_decide (sc_effect s = EFFECT_READ) end.
Definition intent_requires_confirmation (type : Z) : bool :=
  match schema_for_type type with
  | None => false
  | Some s => bool_decide (sc_effect s = EFFECT_DELETE) || bool_decide (sc_domain s = DOMAIN_POLICY)
  end.

(** The help text of an intent. *)
Definition nl (s : cstring) : cstring := s ++ [10].
Definition role_help (r : role_spec) : cstring :=
  zs "      " ++ sp_name r ++ zs " " ++ [34] ++ sp_type_hint r ++ [34] ++ zs " (" ++
  (if sp_attrs r .& ROLE_ATTR_REQUIRED =? 0 then zs "optional" else zs "required") ++ nl (zs ")").
Definition help_text (type : Z) : cstring :=
  match schema_for_type type with
  | None => []
  | Some s =>
      zs "  " ++ nl (intent_name type) ++ zs "    " ++ nl (description s) ++ zs "    domain: " ++ domain_name (sc_domain s) ++
      zs "  |  effect: " ++ effect_name (sc_effect s) ++ nl [] ++
      (match roles s with [] => [] | l => nl (zs "    parameters:") ++ concat (role_help <$> l) end) ++
      (if intent_requires_confirmation type then nl (zs "    ! requires confirmation before execution") else []) ++
      (if intent_is_dry_run_safe type then nl (zs "    safe to dry-run") else [])
  end.

(** ** The dispatcher *)

Record acl_entry : Type := AclEntry { acl_addr : Z; acl_pid : Z; intent_mask : Z }.
Definition sizeof_acl_entry : Z := 16.
Definition VFS_O_TRUNC : Z := 8.

Record dispatcher (D E : Type) : Type := Dispatcher {
  acl_list : list acl_entry;
  queue_count : Z; queue_capacity : Z; last_flush : Z;
  intents_processed : Z; intents_failed : Z; next_sequence : Z; avg_process_time : Z; max_process_time : Z;
  g_cwd : cstring; search_pattern : cstring; search_match_count : Z;
  d_graph : state_graph D; d_vfs : vfs E; d_term : vga D
}.
Arguments Dispatcher {D E}.
Arguments acl_list {D E}.
Arguments queue_count {D E}.
Arguments queue_capacity {D E}.
Arguments last_flush {D E}.
Arguments intents_processed {D E}.
Arguments intents_failed {D E}.
Arguments next_sequence {D E}.
Arguments avg_process_time {D E}.
Arguments max_process_time {D E}.
Arguments g_cwd {D E}.
Arguments search_pattern {D E}.
Arguments search_match_count {D E}.
Arguments d_graph {D E}.
Arguments d_vfs {D E}.
Arguments d_term {D E}.

(** The sum of all bytes but the last four: the checksum itself is among
    them. *)
Definition calculate_checksum (it : intent) : Z := u32 (foldr Z.add 0 (take 580 (intent_bytes it))).

Section dispatch.
Context {D E : Type} `{PortIO D} `{VfsBackend E} (fuel : nat).
Abbreviation disp := (dispatcher D E).
Implicit Types (s : disp).

Definition set_acl x s : disp := Dispatcher x (queue_count s) (queue_capacity s) (last_flush s) (intents_processed s) (intents_failed s) (next_sequence s) (avg_process_time s) (max_process_time s) (g_cwd s) (search_pattern s) (search_match_count s) (d_graph s) (d_vfs s) (d_term s).
Definition set_stats p f a m s : disp := Dispatcher (acl_list s) (queue_count s) (queue_capacity s) (last_flush s) p f (next_sequence s) a m (g_cwd s) (search_pattern s) (search_match_count s) (d_graph s) (d_vfs s) (d_term s).
Definition set_next_sequence x s : disp := Dispatcher (acl_list s) (queue_count s) (queue_capacity s) (last_flush s) (intents_processed s) (intents_failed s) x (avg_process_time s) (max_process_time s) (g_cwd s) (search_pattern s) (search_match_count s) (d_graph s) (d_vfs s) (d_term s).
Definition set_cwd x s : disp := Dispatcher (acl_list s) (queue_count s) (queue_capacity s) (last_flush s) (intents_processed s) (intents_failed s) (next_sequence s) (avg_process_time s) (max_process_time s) x (search_pattern s) (search_match_count s) (d_graph s) (d_vfs s) (d_term s).
Definition set_search p n s : disp := Dispatcher (acl_list s) (queue_count s) (queue_capacity s) (last_flush s) (intents_processed s) (intents_failed s) (next_sequence s) (avg_process_time s) (max_process_time s) (g_cwd s) p n (d_graph s) (d_vfs s) (d_term s).
Definition set_graph x s : disp := Dispatcher (acl_list s) (queue_count s) (queue_capacity s) (last_flush s) (intents_processed s) (intents_failed s) (next_sequence s) (avg_process_time s) (max_process_time s) (g_cwd s) (search_pattern s) (search_match_count s) x (d_vfs s) (d_term s).
Definition set_dvfs x s : disp := Dispatcher (acl_list s) (queue_count s) (queue_capacity s) (last_flush s) (intents_processed s) (intents_failed s) (next_sequence s) (avg_process_time s) (max_process_time s) (g_cwd s) (search_pattern s) (search_match_count s) (d_graph s) x (d_term s).
Definition set_term x s : disp := Dispatcher (acl_list s) (queue_count s) (queue_capacity s) (last_flush s) (intents_processed s) (intents_failed s) (next_sequence s) (avg_process_time s) (max_process_time s) (g_cwd s) (search_pattern s) (search_match_count s) (d_graph s) (d_vfs s) x.

(** Running an operation of a component. *)
Definition on_graph {A} (f : state_graph D -> option (A * state_graph D)) s : option (A * disp) :=
  '(x, g) ← f (d_graph s); Some (x, set_graph g s).
Definition on_dvfs {A} (f : vfs E -> option (A * vfs E)) s : option (A * disp) := '(x, v) ← f (d_vfs s); Some (x, set_dvfs v s).
Definition on_term (f : vga D -> option (vga D)) s : option disp := v ← f (d_term s); Some (set_term v s).

Definition get_timestamp s : option (Z * disp) :=
  '(t, d) ← rtc_read_time fuel (vdev (d_term s));
  Some (t_second t + t_minute t * 60 + t_hour t * 3600, set_term (set_vdev d (d_term s)) s).

(** *** Access control *)

Definition acl_add_permission (pid mask : Z) s : option (Z * disp) :=
  '(p, h) ← kmalloc fuel sizeof_acl_entry (vheap (d_vfs s));
  let s := set_dvfs (set_vheap h (d_vfs s)) s in
  if p =? 0 then Some (-1, s) else Some (0, set_acl (AclEntry p pid mask :: acl_list s) s).
Fixpoint remove_acl (pid : Z) (l : list acl_entry) : option (acl_entry * list acl_entry) :=
  match l with
  | [] => None
  | e :: l' => if acl_pid e =? pid then Some (e, l') else '(r, rest) ← remove_acl pid l'; Some (r, e :: rest)
  end.
Definition acl_remove_permission (pid : Z) s : option (Z * disp) :=
  match remove_acl pid (acl_list s) with
  | None => Some (-1, s)
  | Some (e, rest) =>
      h ← kfree fuel (acl_addr e) (vheap (d_vfs s));
      Some (0, set_dvfs (set_vheap h (d_vfs s)) (set_acl rest s))
  end.
Fixpoint find_acl (pid : Z) (l : list acl_entry) : option acl_entry :=
  match l with [] => None | e :: l' => if acl_pid e =? pid then Some e else find_acl pid l' end.
Definition mask_allows (mask type : Z) : bool :=
  if (type <? 100) || (131 <? type) then negb (mask .& 1 =? 0) else negb (mask .& (1 .<< (type - 100)) =? 0).
Definition check_acl (pid type : Z) s : bool :=
  match find_acl pid (acl_list s) with Some e => mask_allows (intent_mask e) type | None => false end.

Definition intent_dispatcher_init s : option disp :=
  '(now, s) ← get_timestamp s;
  let s := Dispatcher [] 0 64 now 0 0 1 0 0 (g_cwd s) (search_pattern s) (search_match_count s) (d_graph s) (d_vfs s) (d_term s) in
  '(_, s) ← acl_add_permission 0 (2 ^ 32 - 1) s;
  '(_, s) ← acl_add_permission 1 65535 s;
  '(_, s) ← acl_add_permission 2 65535 s;
  Some s.

(** *** Validation *)

Definition validate_intent (it : intent) s : option bool :=
  if negb (checksum it =? calculate_checksum it) then Some false
  else if (it_type it <? 100) || (799 <? it_type it) then Some false
  else if target_id it =? NODE_ID_INVALID then Some true
  else r ← state_graph_get_node fuel (target_id it) (d_graph s); Some (match r with Some _ => true | None => false end).

(** *** Handlers

    They return the error code, the intent, which some of them change, and
    the state. *)

Definition outcome : Type := (Z * intent * disp)%type.

Definition handle_create_dir (it : intent) s : option outcome :=
  match param1_str it with
  | [] => Some (ERR_INVALID_PARAMS, it, s)
  | path => let '(r, v) := vfs_mkdir path (d_vfs s) in Some (if r =? 0 then ERR_SUCCESS else ERR_SYSTEM_ERROR, it, set_dvfs v s)
  end.
Definition handle_remove_dir (it : intent) s : option outcome :=
  match param1_str it with
  | [] => Some (ERR_INVALID_PARAMS, it, s)
  | path => '(r, s) ← on_dvfs (vfs_unlink fuel path) s; Some (if r =? 0 then ERR_SUCCESS else ERR_SYSTEM_ERROR, it, s)
  end.

(** The loop of [handle_copy_file]; [false] when a write fails. *)
Fixpoint copy_loop (n : nat) (src dst : Z) s : option (bool * disp) :=
  match n with
  | O => None
  | S n' =>
      '(data, k, v) ← vfs_read src 512 (d_vfs s);
      let s := set_dvfs v s in
      if k <=? 0 then Some (true, s)
      else
        '(w, s) ← on_dvfs (vfs_write fuel dst data) s;
        if w =? k then copy_loop n' src dst s else Some (false, s)
  end.
Definition vclose (fd : Z) s : disp := set_dvfs (vfs_close fd (d_vfs s)).2 s.
Definition handle_copy_file (it : intent) s : option outcome :=
  match param1_str it, param2_str it with
  | [], _ | _, [] => Some (ERR_INVALID_PARAMS, it, s)
  | src, dst =>
      '(src_fd, s) ← on_dvfs (vfs_open fuel src VFS_O_RDONLY) s;
      if src_fd <? 0 then Some (ERR_NODE_NOT_FOUND, it, s)
      else
        '(dst_fd, s) ← on_dvfs (vfs_open fuel dst ((VFS_O_WRONLY .| VFS_O_CREAT) .| VFS_O_TRUNC)) s;
        if dst_fd <? 0 then Some (ERR_SYSTEM_ERROR, it, vclose src_fd s)
        else
          '(ok, s) ← copy_loop fuel src_fd dst_fd s;
          Some (if ok : bool then ERR_SUCCESS else ERR_SYSTEM_ERROR, it, vclose dst_fd (vclose src_fd s))
  end.
Definition handle_move_file (it : intent) s : option outcome :=
  match param1_str it, param2_str it with
  | [], _ | _, [] => Some (ERR_INVALID_PARAMS, it, s)
  | src, _ =>
      '(r, it, s) ← handle_copy_file it s;
      if r =? ERR_SUCCESS then '(d, s) ← on_dvfs (vfs_unlink fuel src) s; Some (if d =? 0 then ERR_SUCCESS else ERR_SYSTEM_ERROR, it, s)
      else Some (r, it, s)
  end.

(** The directory without what follows its last slash. *)
Fixpoint walk_back (rev_path : cstring) : cstring :=
  match rev_path with [] => [] | c :: rest => if c =? ch "/" then rev_path else walk_back rest end.
Definition parent_dir (cwd : cstring) : cstring :=
  if len cwd <=? 1 then cwd
  else
    let cwd := match rev cwd with c :: r => if c =? ch "/" then rev r else cwd | [] => cwd end in
    match walk_back (rev cwd) with [] => zs "/" | r => rev r end.
Definition handle_chdir (it : intent) s : option outcome :=
  match param1_str it with
  | [] =>
      if int_param1 it =? 1 then Some (ERR_SUCCESS, it, set_cwd (parent_dir (g_cwd s)) s)
      else if int_param1 it =? 2 then Some (ERR_SUCCESS, it, set_cwd (zs "/") s)
      else Some (ERR_INVALID_PARAMS, it, s)
  | (c :: _) as target =>
      if negb (c =? ch "/") then Some (ERR_INVALID_PARAMS, it, s)
      else if 256 <=? len target then None
      else Some (ERR_SUCCESS, it, set_cwd target s)
  end.
Definition handle_print_cwd (it : intent) s : option outcome :=
  p ← strcpy256 (param1 it) (g_cwd s); Some (ERR_SUCCESS, set_param1 p it, s).

Definition search_callback_impl (pattern : cstring) (count : Z) (entry : cstring * bool * Z) : Z :=
  match k_strstr entry.1.1 pattern with Some _ => count + 1 | None => count end.
Definition handle_search (it : intent) s : option outcome :=
  match param1_str it with
  | [] => Some (ERR_INVALID_PARAMS, it, s)
  | pattern =>
      entries ← vfs_list (d_vfs s);
      let n := foldl (search_callback_impl pattern) 0 entries in
      Some (ERR_SUCCESS, set_int_param2 n it, set_search pattern n s)
  end.

Definition apply_intent_to_graph (it : intent) s : option outcome :=
  node ← (if target_id it =? NODE_ID_INVALID then Some (Some None)
          else r ← state_graph_get_node fuel (target_id it) (d_graph s); Some (match r with Some c => Some (Some c) | None => None end));
  match node with
  | None => Some (ERR_NODE_NOT_FOUND, it, s)
  | Some node =>
      let type := it_type it in
      if type =? INTENT_CREATE_WINDOW then
        '(new_id, s) ← on_graph (state_graph_create_node fuel NODE_TYPE_WINDOW (target_id it)) s;
        if new_id =? NODE_ID_INVALID then Some (ERR_SYSTEM_ERROR, it, s)
        else
          '(_, s) ← on_graph (state_graph_set_text fuel new_id (param1_str it)) s;
          '(_, s) ← on_graph (state_graph_set_geometry fuel new_id (int_param1 it) (int_param2 it) 400 300) s;
          Some (ERR_SUCCESS, it, s)
      else if type =? INTENT_MOVE_WINDOW then
        match node with
        | Some c =>
            let x := nd (d_graph s) c in
            if nd_type x =? NODE_TYPE_WINDOW then
              '(_, s) ← on_graph (state_graph_set_geometry fuel (target_id it) (int_param1 it) (int_param2 it) (geo_width x) (geo_height x)) s;
              Some (ERR_SUCCESS, it, s)
            else Some (ERR_INVALID_PARAMS, it, s)
        | None => Some (ERR_INVALID_PARAMS, it, s)
        end
      else if type =? INTENT_CLICK_NODE then
        match node with
        | Some c =>
            '(_, s) ← on_graph (state_graph_set_flags fuel (target_id it) (nd_flags (nd (d_graph s) c) .| NODE_FLAG_FOCUSED)) s;
            Some (ERR_SUCCESS, it, s)
        | None => Some (ERR_NODE_NOT_FOUND, it, s)
        end
      else if type =? INTENT_SET_NODE_TEXT then
        match node with
        | Some c => '(_, s) ← on_graph (state_graph_set_text fuel (target_id it) (param1_str it)) s; Some (ERR_SUCCESS, it, s)
        | None => Some (ERR_NODE_NOT_FOUND, it, s)
        end
      else if (type =? INTENT_DESTROY_WINDOW) || (type =? INTENT_DESTROY_NODE) then
        '(_, s) ← on_graph (state_graph_delete_node fuel (target_id it)) s; Some (ERR_SUCCESS, it, s)
      else if type =? INTENT_FS_CREATE_DIR then handle_create_dir it s
      else if type =? INTENT_FS_REMOVE_DIR then handle_remove_dir it s
      else if type =? INTENT_FS_COPY_FILE then handle_copy_file it s
      else if type =? INTENT_FS_MOVE_FILE then handle_move_file it s
      else if type =? INTENT_FS_CHDIR then handle_chdir it s
      else if type =? INTENT_FS_PRINT_CWD then handle_print_cwd it s
      else if type =? INTENT_FS_SEARCH then handle_search it s
      else Some (ERR_INVALID_INTENT, it, s)
  end.

(** *** Audit *)

(** Text to the terminal, which also sends it to the serial port, and to the
    serial port. *)
Definition output_both (t : cstring) (v : vga D) : option (vga D) :=
  v ← vga_writestring fuel t v; d ← serial_writestring fuel t (vdev v); Some (set_vdev d v).
Definition output_both_nl (t : cstring) (v : vga D) : option (vga D) :=
  v ← vga_writestring_nl fuel t v;
  d ← serial_writestring fuel t (vdev v);
  d ← serial_writestring fuel [10] d;
  Some (set_vdev d v).
Definition output_dec (n : Z) (v : vga D) : option (vga D) :=
  v ← vga_put_dec fuel n v; d ← serial_writestring fuel (put_dec n) (vdev v); Some (set_vdev d v).

Inductive audit_piece : Type := Both (t : cstring) | BothNl (t : cstring) | Dec (n : Z).
Definition audit_pieces (it : intent) : list audit_piece :=
  let schema := schema_for_type (it_type it) in
  [Both (zs "[AUDIT] "); Both (intent_name (it_type it)); Both (zs " (");
   Both (match schema with Some s => description s | None => zs "unknown" end); BothNl (zs ")");
   Both (zs "[AUDIT]   pid="); Dec (source_process_id it); Both (zs "  seq="); Dec (sequence_number it);
   Both (zs "  ts="); Dec (timestamp it); BothNl []] ++
  (match param1_str it with [] => [] | p => [Both (zs "[AUDIT]   param1=" ++ [34]); Both p; BothNl [34]] end) ++
  (match param2_str it with [] => [] | p => [Both (zs "[AUDIT]   param2=" ++ [34]); Both p; BothNl [34]] end) ++
  [Both (zs "[AUDIT]   domain="); Both (match schema with Some s => domain_name (sc_domain s) | None => zs "?" end);
   Both (zs "  effect="); Both (match schema with Some s => effect_name (sc_effect s) | None => zs "?" end); BothNl []].
Definition audit_step (p : audit_piece) (v : vga D) : option (vga D) :=
  match p with Both t => output_both t v | BothNl t => output_both_nl t v | Dec n => output_dec n v end.
Fixpoint audit_run (l : list audit_piece) (v : vga D) : option (vga D) :=
  match l with [] => Some v | p :: l' => v ← audit_step p v; audit_run l' v end.
Definition audit_intent (it : intent) s : option disp := on_term (audit_run (audit_pieces it)) s.
Definition print_help_for (type : Z) s : option disp := on_term (vga_writestring fuel (help_text type)) s.

(** *** Dispatching *)

Definition count_failed s : disp := set_stats (intents_processed s) (u64 (intents_failed s + 1)) (avg_process_time s) (max_process_time s) s.
Definition intent_dispatch (it : intent) s : option outcome :=
  '(start_time, s) ← get_timestamp s;
  valid ← validate_intent it s;
  if negb valid then Some (ERR_INVALID_INTENT, it, count_failed s)
  else
    let schema_err := validate_intent_against_schema it in
    if negb (schema_err =? ERR_SUCCESS) then Some (schema_err, it, count_failed s)
    else if negb (check_acl (source_process_id it) (it_type it) s) then Some (ERR_UNAUTHORIZED, it, count_failed s)
    else
      '(result, it, s) ← apply_intent_to_graph it s;
      s ← audit_intent it s;
      '(end_time, s) ← get_timestamp s;
      let process_time := u64 (end_time - start_time) in
      let max := if max_process_time s <? process_time then process_time else max_process_time s in
      let avg := u64 (u64 (avg_process_time s * 9) + process_time) / 10 in
      Some (result, it, set_stats (u64 (intents_processed s + 1)) (intents_failed s) avg max s).

Definition sys_intent_dispatch (it : option intent) s : option (Z * disp) :=
  match it with
  | None => Some (ERR_INVALID_PARAMS, s)
  | Some it => '(r, _, s) ← intent_dispatch (set_source 1 it) s; Some (r, s)
  end.
Definition intent_get_stats s : Z * Z * Z := (intents_processed s, intents_failed s, avg_process_time s).

(** *** Builders *)

(** The common part: the time, the sequence number and, last, the checksum. *)
Definition finish (it : Z -> Z -> intent) s : option (intent * disp) :=
  '(now, s) ← get_timestamp s;
  let n := next_sequence s in
  let it := it now n in
  Some (set_checksum (calculate_checksum it) it, set_next_sequence (u32 (n + 1)) s).
Definition no_param : list Z := zeros 256.
Definition intent_create_window (parent : Z) (title : cstring) s : option (intent * disp) :=
  p ← strcpy256 no_param title;
  finish (fun now n => Intent INTENT_CREATE_WINDOW parent p no_param 100 100 0 now n 0 1 0 0) s.
Definition intent_move_window (window x y : Z) s : option (intent * disp) :=
  finish (fun now n => Intent INTENT_MOVE_WINDOW window no_param no_param x y 0 now n 0 1 0 0) s.
Definition intent_click_node (node : Z) s : option (intent * disp) :=
  finish (fun now n => Intent INTENT_CLICK_NODE node no_param no_param 0 0 0 now n 0 2 0 0) s.
Definition intent_set_node_text (node : Z) (t : cstring) s : option (intent * disp) :=
  p ← strcpy256 no_param t;
  finish (fun now n => Intent INTENT_SET_NODE_TEXT node p no_param 0 0 0 now n 0 1 0 0) s.
Definition fs_intent_build (type : Z) (p1 p2 : option cstring) (ip1 : Z) s : option (intent * disp) :=
  p ← match p1 with Some t => strcpy256 no_param t | None => Some no_param end;
  q ← match p2 with Some t => strcpy256 no_param t | None => Some no_param end;
  finish (fun now n => Intent type 0 p q ip1 0 0 now n 0 1 0 0) s.
Definition intent_fs_create_dir (path : cstring) := fs_intent_build INTENT_FS_CREATE_DIR (Some path) None 0.
Definition intent_fs_remove_dir (path : cstring) := fs_intent_build INTENT_FS_REMOVE_DIR (Some path) None 0.
Definition intent_fs_copy_file (src dst : cstring) := fs_intent_build INTENT_FS_COPY_FILE (Some src) (Some dst) 0.
Definition intent_fs_move_file (src dst : cstring) := fs_intent_build INTENT_FS_MOVE_FILE (Some src) (Some dst) 0.
Definition intent_fs_chdir (path : cstring) := fs_intent_build INTENT_FS_CHDIR (Some path) None 0.
Definition intent_fs_chdir_parent := fs_intent_build INTENT_FS_CHDIR None None 1.
Definition intent_fs_chdir_home := fs_intent_build INTENT_FS_CHDIR None None 2.
Definition intent_fs_print_cwd := fs_intent_build INTENT_FS_PRINT_CWD None None 0.
Definition intent_fs_search (pattern : cstring) := fs_intent_build INTENT_FS_SEARCH (Some pattern) None 0.
End dispatch.

(** ** The schema table is complete *)

Definition defined_types : list Z := fst <$> INTENT_SCHEMAS.

Lemma assoc_elem {A} k (l : list (Z * A)) : is_Some (assoc k l) <-> k ∈ fst <$> l.
Proof.
  induction l as [|[k' x] l IH]; cbn [assoc fmap list_fmap fst]; [split; [by intros [? ?]|intros Hin; by apply elem_of_nil in Hin]|].
  rewrite elem_of_cons, <- IH. destruct (Z.eqb_spec k k') as [->|Hne]; [split; [by left|by eexists]|].
  split; [by right|]. by intros [->|?].
Qed.

Lemma assoc_in {A} k x (l : list (Z * A)) : assoc k l = Some x -> (k, x) ∈ l.
Proof.
  induction l as [|[k' y] l IH]; cbn [assoc]; [done|]. destruct (Z.eqb_spec k k') as [->|]; [intros [= ->]; left|intros Hx; right; by apply IH].
Qed.
Lemma NoDup_values {A} (l : list (Z * A)) a b x : NoDup (snd <$> l) -> (a, x) ∈ l -> (b, x) ∈ l -> a = b.
Proof.
  induction l as [|[k y] l IH]; cbn [fmap list_fmap snd]; intros Hnd Ha Hb; [by apply elem_of_nil in Ha|]. apply NoDup_cons in Hnd as [Hy Hnd].
  assert (Hin : forall c z, (c, z) ∈ l -> z ∈ snd <$> l) by (intros c z Hc; apply list_elem_of_fmap; by exists (c, z)).
  apply elem_of_cons in Ha as [Ha|Ha], Hb as [Hb|Hb]; simplify_eq; [done|by apply Hin in Hb|by apply Hin in Ha|by apply IH].
Qed.
Lemma names_distinct : NoDup (snd <$> intent_names).
Proof. apply (bool_decide_unpack _). by vm_compute. Qed.
Lemma name_known type : intent_name type <> zs "unknown" <-> type ∈ defined_types.
Proof.
  change defined_types with (fst <$> intent_names). rewrite <- assoc_elem. unfold intent_name. destruct (assoc type intent_names) as [n|] eqn:E; cbn [default id].
  - split; [by eexists|]. intros _ ->. apply assoc_in in E.
    assert (Hno : forallb (fun x => negb (bool_decide (x.2 = zs "unknown"))) intent_names = true) by by vm_compute.
    rewrite forallb_forall in Hno. apply list_elem_of_In, Hno in E. apply negb_true_iff, bool_decide_eq_false in E. done.
  - split; [done|by intros [? ?]].
Qed.
Lemma schema_known type : is_Some (schema_for_type type) <-> type ∈ defined_types.
Proof.
  unfold schema_for_type. destruct (Z.ltb_spec type INTENT_TYPE_COUNT) as [Hlt|Hge]; [apply assoc_elem|].
  split; [by intros [? ?]|]. intros Hin. exfalso.
  assert (Hall : forallb (fun t => t <? INTENT_TYPE_COUNT) defined_types = true) by by vm_compute.
  rewrite forallb_forall in Hall. apply list_elem_of_In, Hall in Hin. zbool. lia.
Qed.
Lemma dry_run_exclusive type : intent_is_dry_run_safe type = true -> intent_requires_confirmation type = false.
Proof.
  unfold intent_is_dry_run_safe, intent_requires_confirmation, schema_for_type. destruct (type <? _); [|done].
  destruct (assoc type INTENT_SCHEMAS) as [sc|] eqn:E; [|done]. apply assoc_in in E.
  assert (Hall : forallb (fun x => negb (bool_decide (sc_effect x.2 = EFFECT_READ)) ||
    negb (bool_decide (sc_effect x.2 = EFFECT_DELETE) || bool_decide (sc_domain x.2 = DOMAIN_POLICY))) INTENT_SCHEMAS = true) by by vm_compute.
  rewrite forallb_forall in Hall. apply list_elem_of_In, Hall in E. cbn [snd] in E. intros Hr. rewrite Hr in E. by apply negb_true_iff in E.
Qed.

(** Every intent type that has a name has a contract in the schema table,
    and every contract a name, all names being different; no type is both safe
    for a dry run and in need of a confirmation. *)
Theorem schema_complete type :
  (is_Some (schema_for_type type) <-> type ∈ defined_types) /\
  (intent_name type <> zs "unknown" <-> type ∈ defined_types) /\
  (forall type', type ∈ defined_types -> intent_name type = intent_name type' -> type = type') /\
  (intent_is_dry_run_safe type = true -> intent_requires_confirmation type = false).
Proof.
  split; [apply schema_known|]. split; [apply name_known|]. split; [|apply dry_run_exclusive].
  intros type' Hin Heq. pose proof Hin as Hk. apply name_known in Hk. rewrite Heq in Hk. apply name_known in Hk.
  change defined_types with (fst <$> intent_names) in Hin, Hk. apply assoc_elem in Hin as [n Hn], Hk as [n' Hn'].
  unfold intent_name in Heq. rewrite Hn, Hn' in Heq. cbn in Heq. subst n'. apply assoc_in in Hn, Hn'. exact (NoDup_values _ _ _ _ names_distinct Hn Hn').
Qed.

(** ** Checksums *)

Section checksums.
Definition sum (l : list Z) : Z := foldr Z.add 0 l.
Lemma sum_app l k : sum (l ++ k) = sum l + sum k.
Proof. unfold sum. induction l as [|x l IH]; cbn [foldr app]; [done|]. rewrite IH. lia. Qed.
Definition bytes (l : list Z) : Prop := Forall (fun b => 0 <= b < 256) l.
Lemma sum_bounds l : bytes l -> 0 <= sum l <= 255 * len l.
Proof. induction 1 as [|b l Hb Hl IH]; unfold sum in *; cbn [foldr length]; lia. Qed.
Lemma sum_le_pos n v : 0 < v < 256 ^ Z.of_nat n -> 0 < sum (le_bytes n v).
Proof.
  intros Hv. pose proof (sum_bounds (le_bytes n v) (le_bytes_range n v)). pose proof (le_bytes_value n v) as E. rewrite Z.mod_small in E by lia.
  assert (Hz : forall l, bytes l -> sum l = 0 -> foldr (fun b acc => b + 256 * acc) 0 l = 0).
  { induction 1 as [|b l Hb Hl IH]; [done|]. pose proof (sum_bounds l Hl). unfold sum in *. cbn [foldr]. intros Hs. rewrite IH; lia. }
  destruct (decide (sum (le_bytes n v) = 0)) as [H0|]; [|lia]. rewrite Hz in E; [lia|apply le_bytes_range|done].
Qed.

(** The bytes in front of the checksum, and the ones after it that count. *)
Definition before_checksum (it : intent) : list Z :=
  le_bytes 4 (it_type it) ++ zeros 4 ++ le_bytes 8 (target_id it) ++ param1 it ++ param2 it ++
  le_bytes 4 (int_param1 it) ++ le_bytes 4 (int_param2 it) ++ le_bytes 4 (source_process_id it) ++ zeros 4 ++
  le_bytes 8 (timestamp it) ++ le_bytes 4 (sequence_number it).
Definition after_checksum (it : intent) : list Z := [u8 (priority it)] ++ zeros 7 ++ le_bytes 8 (it_data it) ++ le_bytes 4 (data_size it).
Record arrays_ok (it : intent) : Prop := {
  ao_p1 : len (param1 it) = 256; ao_p2 : len (param2 it) = 256; ao_b1 : bytes (param1 it); ao_b2 : bytes (param2 it)
}.
Lemma le_bytes_app n k v : le_bytes (n + k) v = le_bytes n v ++ le_bytes k (v / 256 ^ Z.of_nat n).
Proof.
  revert v. induction n as [|n IH]; intros v; [by rewrite Z.div_1_r|]. cbn [Nat.add le_bytes app]. rewrite IH. do 3 f_equal.
  rewrite Nat2Z.inj_succ, Z.pow_succ_r by lia. rewrite Z.div_div by lia. done.
Qed.
Lemma checksum_sum it : arrays_ok it ->
  calculate_checksum it = u32 (sum (before_checksum it) + sum (le_bytes 4 (checksum it)) + sum (after_checksum it)).
Proof.
  intros [H1 H2 _ _]. unfold calculate_checksum. fold (sum (take 580 (intent_bytes it))). f_equal. rewrite <- Z.add_assoc, <- !sum_app. f_equal.
  assert (E : intent_bytes it = (before_checksum it ++ le_bytes 4 (checksum it) ++ after_checksum it) ++ le_bytes 4 (data_size it / 256 ^ 4)).
  { unfold intent_bytes, before_checksum, after_checksum. change (le_bytes 8 (data_size it)) with (le_bytes (4 + 4) (data_size it)). rewrite (le_bytes_app 4 4 (data_size it)). by rewrite <- !app_assoc. }
  rewrite E. apply take_app_length'. unfold before_checksum, after_checksum, zeros. rewrite !length_app, !length_le_bytes, !length_replicate. cbn [length]. lia.
Qed.

(** An intent whose checksum is the sum of its bytes while the checksum field
    was 0 does not have the checksum that validation computes, also when its
    source is then set to a process [x]. *)
Lemma checksum_sourced x k it : arrays_ok it -> checksum it = 0 -> is_u32 (it_type it) -> it_type it <> 0 ->
  sum (before_checksum (set_source x it)) = sum (before_checksum it) + k -> 0 <= k < 256 ->
  let it' := set_source x (set_checksum (calculate_checksum it) it) in checksum it' <> calculate_checksum it'.
Proof.
  intros Ho Hc Ht Hnz Hx Hk. cbv zeta. destruct it as [y g p q a b sr t n c r d z]. cbn in Hc. subst c.
  set (it := Intent y g p q a b sr t n 0 r d z) in *. set (c := calculate_checksum it).
  assert (Ho' : arrays_ok (set_source x (set_checksum c it))) by (by destruct Ho). rewrite (checksum_sum _ Ho').
  change (before_checksum (set_source x (set_checksum c it))) with (before_checksum (set_source x it)). rewrite Hx.
  change (after_checksum (set_source x (set_checksum c it))) with (after_checksum it).
  change (checksum (set_source x (set_checksum c it))) with c.
  assert (Hbefore : bytes (before_checksum it) /\ len (before_checksum it) = 556).
  { destruct Ho as [L1 L2 B1 B2]. unfold bytes, before_checksum in *. split.
    - rewrite !Forall_app. repeat split; try apply le_bytes_range; try done; unfold zeros; apply Forall_replicate; lia.
    - unfold zeros. rewrite !length_app, !length_le_bytes, !length_replicate. cbn [it_type target_id param1 param2 it] in *. lia. }
  assert (Hafter : bytes (after_checksum it) /\ len (after_checksum it) = 20).
  { unfold bytes, after_checksum. split; [|done]. rewrite !Forall_app. repeat split; try apply le_bytes_range.
    - constructor; [apply is_u8_wrap|constructor].
    - unfold zeros. apply Forall_replicate. lia. }
  destruct Hbefore as [Bb Lb], Hafter as [Ba La]. pose proof (sum_bounds _ Bb). pose proof (sum_bounds _ Ba).
  assert (Hpos : 0 < sum (before_checksum it)).
  { unfold before_checksum. rewrite sum_app. cbn [it_type it]. unfold is_u32 in Ht. cbn [it_type it] in Ht, Hnz.
    pose proof (sum_le_pos 4 y ltac:(change (256 ^ Z.of_nat 4) with (2 ^ 32); lia)).
    match goal with |- 0 < _ + sum ?l => assert (0 <= sum l); [apply sum_bounds|lia] end.
    unfold bytes, before_checksum in Bb. rewrite Forall_app in Bb. apply Bb. }
  assert (Ec : c = sum (before_checksum it) + sum (after_checksum it)).
  { unfold c. rewrite (checksum_sum _ Ho). change (sum (le_bytes 4 (checksum it))) with 0. rewrite u32_id; [lia|]. unfold is_u32. lia. }
  pose proof (sum_le_pos 4 c ltac:(change (256 ^ Z.of_nat 4) with (2 ^ 32); lia)).
  pose proof (sum_bounds (le_bytes 4 c) (le_bytes_range 4 c)) as Hs. rewrite length_le_bytes in Hs.
  rewrite u32_id by (unfold is_u32; lia). lia.
Qed.
Lemma checksum_self it : arrays_ok it -> checksum it = 0 -> is_u32 (it_type it) -> it_type it <> 0 ->
  let it' := set_checksum (calculate_checksum it) it in checksum it' <> calculate_checksum it'.
Proof.
  intros Ho Hc Ht Hnz. pose proof (checksum_sourced (source_process_id it) 0 it Ho Hc Ht Hnz) as Hs. destruct it. apply Hs; [cbn [set_source source_process_id]; lia|lia].
Qed.
Lemma source_sum x it : source_process_id it = 0 -> 0 <= x < 256 -> sum (before_checksum (set_source x it)) = sum (before_checksum it) + x.
Proof.
  intros Hs Hx. destruct it. cbn in Hs. subst. unfold before_checksum.
  cbn [set_source it_type target_id param1 param2 int_param1 int_param2 source_process_id timestamp sequence_number]. rewrite !sum_app.
  assert (E : sum (le_bytes 4 x) = x).
  { cbn [le_bytes]. rewrite (Z.div_small x 256), (Z.mod_small x 256) by lia. unfold sum. cbn [foldr]. change (0 mod 256) with 0. change (0 / 256 mod 256) with 0. change (0 / 256 / 256 mod 256) with 0. lia. }
  rewrite E. change (sum (le_bytes 4 0)) with 0. lia.
Qed.
End checksums.

(** ** Built intents are rejected *)

Inductive request : Type :=
| ReqWindow (parent : Z) (title : cstring) | ReqMove (window x y : Z) | ReqClick (node : Z) | ReqText (node : Z) (t : cstring)
| ReqMkdir (path : cstring) | ReqRmdir (path : cstring) | ReqCopy (src dst : cstring) | ReqRename (src dst : cstring)
| ReqChdir (path : cstring) | ReqParent | ReqHome | ReqCwd | ReqSearch (pattern : cstring).
Definition request_ok (r : request) : Prop :=
  match r with
  | ReqWindow _ t | ReqText _ t | ReqMkdir t | ReqRmdir t | ReqChdir t | ReqSearch t => is_cstr t
  | ReqCopy a b | ReqRename a b => is_cstr a /\ is_cstr b
  | _ => True
  end.

Section rejected.
Context {D E : Type} `{PortIO D} `{VfsBackend E} (fuel : nat).
Implicit Types (s : dispatcher D E).

Definition build (r : request) : dispatcher D E -> option (intent * dispatcher D E) :=
  match r with
  | ReqWindow p t => intent_create_window fuel p t
  | ReqMove w x y => intent_move_window fuel w x y
  | ReqClick n => intent_click_node fuel n
  | ReqText n t => intent_set_node_text fuel n t
  | ReqMkdir p => intent_fs_create_dir fuel p
  | ReqRmdir p => intent_fs_remove_dir fuel p
  | ReqCopy a b => intent_fs_copy_file fuel a b
  | ReqRename a b => intent_fs_move_file fuel a b
  | ReqChdir p => intent_fs_chdir fuel p
  | ReqParent => intent_fs_chdir_parent fuel
  | ReqHome => intent_fs_chdir_home fuel
  | ReqCwd => intent_fs_print_cwd fuel
  | ReqSearch p => intent_fs_search fuel p
  end.

Definition array_ok (p : list Z) : Prop := len p = 256 /\ bytes p.
Lemma no_param_ok : array_ok no_param.
Proof. split; [done|]. apply Forall_replicate. lia. Qed.
Lemma strcpy_any dst t p : array_ok dst -> is_cstr t -> strcpy256 dst t = Some p -> array_ok p.
Proof.
  intros [Ld Bd] Ht. unfold strcpy256. destruct (Z.leb_spec 256 (len t)); [done|]. intros [= <-]. split.
  - rewrite length_app. cbn [app length]. rewrite length_drop. lia.
  - apply Forall_app. split; [eapply Forall_impl; [exact Ht|]; cbn; lia|]. constructor; [lia|]. by apply Forall_drop.
Qed.
Lemma strcpy_ok t p : is_cstr t -> strcpy256 no_param t = Some p -> array_ok p.
Proof. apply strcpy_any, no_param_ok. Qed.
Lemma finish_bad (f : Z -> Z -> intent) s it s1 :
  (forall t n, arrays_ok (f t n) /\ checksum (f t n) = 0 /\ is_u32 (it_type (f t n)) /\ it_type (f t n) <> 0) ->
  finish fuel f s = Some (it, s1) -> checksum it <> calculate_checksum it.
Proof.
  intros Hf. unfold finish. intros Hr. apply bind_Some in Hr as ([t s'] & _ & Hr). injection Hr as <- _.
  destruct (Hf t (next_sequence s')) as (H1 & H2 & H3 & H4). by apply checksum_self.
Qed.
Lemma param_ok (o : option cstring) x : (forall t, o = Some t -> is_cstr t) ->
  match o with Some t => strcpy256 no_param t | None => Some no_param end = Some x -> array_ok x.
Proof. destruct o as [t|]; intros Ho Hx; [by apply (strcpy_ok t); [apply Ho|]|injection Hx as <-; apply no_param_ok]. Qed.
Lemma fs_build_bad type p1 p2 ip1 s it s1 : is_u32 type -> type <> 0 ->
  (forall t, p1 = Some t -> is_cstr t) -> (forall t, p2 = Some t -> is_cstr t) ->
  fs_intent_build fuel type p1 p2 ip1 s = Some (it, s1) -> checksum it <> calculate_checksum it.
Proof.
  intros Ht Hz H1 H2. unfold fs_intent_build. intros Hr. apply bind_Some in Hr as (p & Hp & Hr). apply bind_Some in Hr as (q & Hq & Hr).
  destruct (param_ok _ _ H1 Hp) as [L1 B1], (param_ok _ _ H2 Hq) as [L2 B2]. eapply finish_bad; [|exact Hr]. intros t n. by split.
Qed.
Lemma fs_build_bad_from x type p1 p2 ip1 s it s1 : is_u32 type -> type <> 0 -> 0 <= x < 256 ->
  (forall t, p1 = Some t -> is_cstr t) -> (forall t, p2 = Some t -> is_cstr t) ->
  fs_intent_build fuel type p1 p2 ip1 s = Some (it, s1) -> checksum (set_source x it) <> calculate_checksum (set_source x it).
Proof.
  intros Ht Hz Hx H1 H2 Hr. unfold fs_intent_build in Hr. apply bind_Some in Hr as (p & Hp & Hr). apply bind_Some in Hr as (q & Hq & Hr).
  destruct (param_ok _ _ H1 Hp) as [L1 B1], (param_ok _ _ H2 Hq) as [L2 B2].
  unfold finish in Hr. apply bind_Some in Hr as ([t s'] & _ & Hr). 
  set (it0 := Intent type 0 p q ip1 0 0 t (next_sequence s') 0 1 0 0) in Hr.
  assert (Eit : it = set_checksum (calculate_checksum it0) it0) by congruence. rewrite Eit.
  apply (checksum_sourced x x it0); try done. by apply source_sum.
Qed.
Lemma built_bad r s it s1 : request_ok r -> build r s = Some (it, s1) -> checksum it <> calculate_checksum it.
Proof.
  pose proof no_param_ok as [L0 B0].
  destruct r; cbn [request_ok build]; intros Hok Hr;
    unfold intent_fs_create_dir, intent_fs_remove_dir, intent_fs_copy_file, intent_fs_move_file, intent_fs_chdir,
      intent_fs_chdir_parent, intent_fs_chdir_home, intent_fs_print_cwd, intent_fs_search in Hr;
    try match type of Hr with fs_intent_build _ _ _ _ _ _ = _ =>
      apply fs_build_bad in Hr; [exact Hr|split; by vm_compute|done|..];
      intros ? Ho; first [discriminate Ho|injection Ho as <-; first [exact Hok|apply Hok]] end.
  - apply bind_Some in Hr as (p & Hp & Hr). destruct (strcpy_ok _ _ Hok Hp) as [L1 B1]. apply finish_bad in Hr; [exact Hr|]. by intros; repeat split.
  - apply finish_bad in Hr; [exact Hr|]. by intros; repeat split.
  - apply finish_bad in Hr; [exact Hr|]. by intros; repeat split.
  - apply bind_Some in Hr as (p & Hp & Hr). destruct (strcpy_ok _ _ Hok Hp) as [L1 B1]. apply finish_bad in Hr; [exact Hr|]. by intros; repeat split.
Qed.
End rejected.

(** The checksum covers its own field, but the builders compute it while
    that field is still 0.  So every intent that any builder makes is rejected
    as invalid by [intent_dispatch], whatever the state: nothing is carried
    out, only the count of failures grows. *)
Theorem built_intents_rejected {D E} `{PortIO D} `{VfsBackend E} fuel (r : request) (s : dispatcher D E) it s1 :
  request_ok r -> build fuel r s = Some (it, s1) ->
  forall s2 t s3, get_timestamp fuel s2 = Some (t, s3) ->
  intent_dispatch fuel it s2 = Some (ERR_INVALID_INTENT, it, count_failed s3).
Proof.
  intros Hok Hb s2 t s3 Ht. unfold intent_dispatch. rewrite Ht. cbn [mbind option_bind]. unfold validate_intent.
  rewrite (proj2 (Z.eqb_neq _ _) (built_bad fuel r s it s1 Hok Hb)). done.
Qed.

(** ** The current directory *)

Definition absolute (p : cstring) : Prop := hd 0 p = ch "/".
Definition cwd_ok (p : cstring) : Prop := absolute p /\ len p < 256.

Lemma walk_back_spec r : exists k, walk_back r = drop k r /\ (walk_back r = [] \/ hd 0 (walk_back r) = ch "/").
Proof.
  induction r as [|c r [k [IH1 IH2]]]; [exists 0%nat; by split; [|left]|]. cbn [walk_back]. destruct (Z.eqb_spec c (ch "/")) as [->|].
  - exists 0%nat. split; [done|by right].
  - exists (S k). done.
Qed.
Lemma walk_back_length r : (length (walk_back r) <= length r)%nat.
Proof. destruct (walk_back_spec r) as (k & -> & _). rewrite length_drop. lia. Qed.
Lemma walk_back_nonempty r : last r = Some (ch "/") -> walk_back r <> [].
Proof.
  induction r as [|c r IH]; [done|]. cbn [walk_back]. destruct (Z.eqb_spec c (ch "/")); [done|]. destruct r as [|c' r]; [intros [= ->]; done|]. apply IH.
Qed.
Lemma rev_drop_prefix {A} (l : list A) k : rev (drop k (rev l)) `prefix_of` l.
Proof. exists (rev (take k (rev l))). rewrite <- rev_app_distr, take_drop. by rewrite rev_involutive. Qed.

(** The parent of an absolute path is a shorter prefix of it that ends in a
    slash. *)
Lemma parent_dir_spec p : absolute p -> (1 < length p)%nat ->
  parent_dir p `prefix_of` p /\ absolute (parent_dir p) /\ (length (parent_dir p) < length p)%nat.
Proof.
  intros Ha Hl. unfold parent_dir. rewrite (proj2 (Z.leb_gt _ _)) by lia.
  set (q := match rev p with c :: r => if c =? ch "/" then rev r else p | [] => p end). cbv zeta.
  assert (Hq : q `prefix_of` p /\ absolute q /\ (last q <> Some (ch "/") -> True) /\
    ((length q < length p)%nat \/ (q = p /\ last q <> Some (ch "/")))).
  { unfold q. destruct (rev p) as [|c r] eqn:E; [apply (f_equal (@length Z)) in E; rewrite length_rev in E; cbn in E; lia|].
    assert (Hp : p = rev r ++ [c]) by (rewrite <- (rev_involutive p), E; done).
    assert (Hr : (1 <= length r)%nat) by (rewrite Hp, length_app, length_rev in Hl; cbn in Hl; lia).
    destruct (Z.eqb_spec c (ch "/")) as [->|Hne].
    - split; [exists [ch "/"]; done|]. split; [|split; [done|left; rewrite Hp, length_app; cbn; lia]].
      rewrite Hp in Ha. unfold absolute in *. revert Ha. destruct (rev r) eqn:Er; [intros _|done]. apply (f_equal (@length Z)) in Er. rewrite length_rev in Er. cbn in Er. lia.
    - split; [done|]. split; [done|]. split; [done|]. right. split; [done|]. rewrite Hp, last_snoc. congruence. }
  clearbody q. destruct Hq as (Hpre & Habs & _ & Hlt). destruct (walk_back_spec (rev q)) as (k & Hw & Hhd).
  assert (Hne : walk_back (rev q) <> []).
  { apply walk_back_nonempty. unfold absolute in Habs. destruct q as [|c q']; [done|]. cbn in Habs. subst c. cbn [rev]. by rewrite last_snoc. }
  destruct (walk_back (rev q)) as [|c w] eqn:Ew; [done|].
  assert (Hpq : rev (c :: w) `prefix_of` q) by (rewrite Hw; apply rev_drop_prefix).
  destruct Hhd as [|Hhd]; [done|]. cbn [hd] in Hhd. subst c. split; [by etrans|]. split.
  - destruct Hpq as [t Ht]. unfold absolute in *. rewrite Ht in Habs. revert Habs. destruct (rev (ch "/" :: w)) eqn:Er; [intros _|intros Habs; exact Habs].
    apply (f_equal (@length Z)) in Er. rewrite length_rev in Er. done.
  - pose proof (prefix_length _ _ Hpq) as Hlen. destruct Hlt as [Hlt|[-> Hlast]]; [lia|].
    destruct Hpq as [t Ht]. destruct t as [|c t]; [|rewrite Ht, length_app; cbn [length]; lia].
    rewrite app_nil_r in Ht. exfalso. apply Hlast. rewrite Ht. cbn [rev]. by rewrite last_snoc.
Qed.
Lemma parent_dir_root p : absolute p -> (length p <= 1)%nat -> p = zs "/" /\ parent_dir p = zs "/".
Proof. unfold absolute. destruct p as [|c [|]]; cbn; [done| |lia]. by intros -> _. Qed.

(** Going to the parent directory keeps the working directory absolute
    and leads to the root: from any absolute directory as many
    [INTENT_FS_CHDIR] requests to the parent as it has characters end in "/". *)
Theorem chdir_parent_reaches_root {D E} (s : dispatcher D E) it : param1_str it = [] -> int_param1 it = 1 -> cwd_ok (g_cwd s) ->
  forall n, (length (g_cwd s) <= n)%nat ->
  exists s', Nat.iter n (fun r => '(_, _, s) ← r; handle_chdir it s) (Some (ERR_SUCCESS, it, s)) = Some (ERR_SUCCESS, it, s') /\ g_cwd s' = zs "/".
Proof.
  intros Hp Hi Hc n Hn.
  assert (Hstep : forall s0 : dispatcher D E, handle_chdir it s0 = Some (ERR_SUCCESS, it, set_cwd (parent_dir (g_cwd s0)) s0)).
  { intros s0. unfold handle_chdir. rewrite Hp, Hi. done. }
  revert s Hc Hn. induction n as [|n IH]; intros s [Ha Hl] Hn; [destruct (g_cwd s); [done|cbn in Hn; lia]|].
  rewrite Nat.iter_succ_r. cbn [mbind option_bind]. rewrite Hstep.
  destruct (decide (length (g_cwd s) <= 1)%nat) as [H1|H1].
  - destruct (parent_dir_root _ Ha H1) as [_ Er].
    destruct n as [|n]; [exists (set_cwd (parent_dir (g_cwd s)) s); by rewrite Er|]. apply IH; cbn [g_cwd set_cwd]; rewrite Er; [split; [done|by vm_compute]|cbn; lia].
  - destruct (parent_dir_spec (g_cwd s) Ha ltac:(lia)) as (_ & Ha' & Hl'). apply IH; cbn [g_cwd set_cwd]; [split; [done|lia]|lia].
Qed.

(** ** Authorization *)

Section gate.
Context {D E : Type} `{PortIO D} `{VfsBackend E} (fuel : nat).
Implicit Types (s : dispatcher D E).

(** The access-control list and the counters are the same. *)
Record same_books s s' : Prop := {
  sb_acl : acl_list s' = acl_list s; sb_processed : intents_processed s' = intents_processed s; sb_failed : intents_failed s' = intents_failed s
}.
#[global] Instance same_books_preorder : PreOrder same_books.
Proof. split; [by split|]. intros a b c [A1 A2 A3] [B1 B2 B3]. split; congruence. Qed.

Lemma books_graph {A} (f : state_graph D -> option (A * state_graph D)) s x s' : on_graph f s = Some (x, s') -> same_books s s'.
Proof. intros Hr. apply bind_Some in Hr as ([y g] & _ & Hr). injection Hr as <- <-. by split. Qed.
Lemma books_dvfs {A} (f : vfs E -> option (A * vfs E)) s x s' : on_dvfs f s = Some (x, s') -> same_books s s'.
Proof. intros Hr. apply bind_Some in Hr as ([y g] & _ & Hr). injection Hr as <- <-. by split. Qed.
Lemma books_copy n src dst : forall s x s', copy_loop fuel n src dst s = Some (x, s') -> same_books s s'.
Proof.
  induction n as [|n IH]; intros s x s'; cbn [copy_loop]; [done|]. intros Hr. apply bind_Some in Hr as ([[data k] v] & _ & Hr).
  cbv zeta in Hr. destruct (k <=? 0); [injection Hr as <- <-; by split|]. apply bind_Some in Hr as ([w s1] & H1 & Hr). apply books_dvfs in H1.
  transitivity s1; [by destruct H1|]. destruct (w =? k); [by apply IH in Hr|by injection Hr as <- <-].
Qed.
Lemma books_copy_file it s r it' s' : handle_copy_file fuel it s = Some (r, it', s') -> same_books s s'.
Proof.
  unfold handle_copy_file. destruct (param1_str it); [intros [= <- <- <-]; reflexivity|]. destruct (param2_str it); [intros [= <- <- <-]; reflexivity|].
  intros Hr. apply bind_Some in Hr as ([f1 s1] & H1 & Hr). apply books_dvfs in H1. destruct (f1 <? 0); [by injection Hr as <- <- <-|].
  apply bind_Some in Hr as ([f2 s2] & H2 & Hr). apply books_dvfs in H2. destruct (f2 <? 0); [injection Hr as <- <- <-; etrans; [exact H1|by destruct H2]|].
  apply bind_Some in Hr as ([ok s3] & H3 & Hr). apply books_copy in H3. injection Hr as <- <- <-. etrans; [exact H1|]. etrans; [exact H2|]. by destruct H3.
Qed.
Lemma books_fs it s r it' s' :
  handle_create_dir it s = Some (r, it', s') \/ handle_remove_dir fuel it s = Some (r, it', s') \/ handle_move_file fuel it s = Some (r, it', s') \/
  handle_chdir it s = Some (r, it', s') \/ handle_print_cwd it s = Some (r, it', s') \/ handle_search it s = Some (r, it', s') -> same_books s s'.
Proof.
  intros [Hr|[Hr|[Hr|[Hr|[Hr|Hr]]]]].
  - unfold handle_create_dir in Hr. destruct (param1_str it); [by injection Hr as <- <- <-|]. destruct (vfs_mkdir _ _). injection Hr as <- <- <-. by split.
  - unfold handle_remove_dir in Hr. destruct (param1_str it); [by injection Hr as <- <- <-|]. apply bind_Some in Hr as ([d s1] & H1 & Hr).
    injection Hr as <- <- <-. by apply books_dvfs in H1.
  - unfold handle_move_file in Hr. destruct (param1_str it); [by injection Hr as <- <- <-|]. destruct (param2_str it); [by injection Hr as <- <- <-|].
    apply bind_Some in Hr as ([[c i] s1] & H1 & Hr). apply books_copy_file in H1. destruct (c =? _); [|by injection Hr as <- <- <-].
    apply bind_Some in Hr as ([d s2] & H2 & Hr). apply books_dvfs in H2. injection Hr as <- <- <-. by transitivity s1.
  - unfold handle_chdir in Hr. destruct (param1_str it).
    + destruct (_ =? 1); [injection Hr as <- <- <-; by split|]. destruct (_ =? 2); injection Hr as <- <- <-; by split.
    + destruct (negb _); [by injection Hr as <- <- <-|]. destruct (256 <=? _); [done|]. injection Hr as <- <- <-. by split.
  - apply bind_Some in Hr as (p & _ & Hr). by injection Hr as <- <- <-.
  - unfold handle_search in Hr. destruct (param1_str it); [by injection Hr as <- <- <-|]. apply bind_Some in Hr as (entries & _ & Hr).
    injection Hr as <- <- <-. by split.
Qed.
Lemma books_apply it s r it' s' : apply_intent_to_graph fuel it s = Some (r, it', s') -> same_books s s'.
Proof.
  unfold apply_intent_to_graph. intros Hr. apply bind_Some in Hr as ([node|] & _ & Hr); [|by injection Hr as <- <- <-]. cbv zeta in Hr.
  destruct (_ =? INTENT_CREATE_WINDOW).
  { apply bind_Some in Hr as ([id s1] & H1 & Hr). apply books_graph in H1. destruct (id =? _); [by injection Hr as <- <- <-|].
    apply bind_Some in Hr as ([r2 s2] & H2 & Hr). apply books_graph in H2. apply bind_Some in Hr as ([r3 s3] & H3 & Hr). apply books_graph in H3.
    injection Hr as <- <- <-. by transitivity s1; [|transitivity s2]. }
  destruct (_ =? INTENT_MOVE_WINDOW).
  { destruct node as [c|]; [|by injection Hr as <- <- <-]. destruct (_ =? NODE_TYPE_WINDOW); [|by injection Hr as <- <- <-].
    apply bind_Some in Hr as ([r1 s1] & H1 & Hr). injection Hr as <- <- <-. by apply books_graph in H1. }
  destruct (_ =? INTENT_CLICK_NODE).
  { destruct node as [c|]; [|by injection Hr as <- <- <-]. apply bind_Some in Hr as ([r1 s1] & H1 & Hr). injection Hr as <- <- <-. by apply books_graph in H1. }
  destruct (_ =? INTENT_SET_NODE_TEXT).
  { destruct node as [c|]; [|by injection Hr as <- <- <-]. apply bind_Some in Hr as ([r1 s1] & H1 & Hr). injection Hr as <- <- <-. by apply books_graph in H1. }
  destruct (_ || _).
  { apply bind_Some in Hr as ([r1 s1] & H1 & Hr). injection Hr as <- <- <-. by apply books_graph in H1. }
  destruct (_ =? _); [apply (books_fs it s r it'); tauto|]. destruct (_ =? _); [apply (books_fs it s r it'); tauto|].
  destruct (_ =? _); [by apply books_copy_file in Hr|]. destruct (_ =? _); [apply (books_fs it s r it'); tauto|].
  destruct (_ =? _); [apply (books_fs it s r it'); tauto|]. destruct (_ =? _); [apply (books_fs it s r it'); tauto|].
  destruct (_ =? _); [apply (books_fs it s r it'); tauto|]. by injection Hr as <- <- <-.
Qed.

(** What decides whether an intent is carried out. *)
Definition authorized (it : intent) s : Prop :=
  checksum it = calculate_checksum it /\ 100 <= it_type it <= 799 /\
  (target_id it = NODE_ID_INVALID \/ exists c, state_graph_get_node fuel (target_id it) (d_graph s) = Some (Some c)) /\
  validate_intent_against_schema it = ERR_SUCCESS /\
  exists e, find_acl (source_process_id it) (acl_list s) = Some e /\ mask_allows (intent_mask e) (it_type it) = true.
Lemma timestamp_same s t s1 : get_timestamp fuel s = Some (t, s1) ->
  same_books s s1 /\ d_graph s1 = d_graph s /\ d_vfs s1 = d_vfs s /\ g_cwd s1 = g_cwd s.
Proof. intros Hr. apply bind_Some in Hr as ([x d] & _ & Hr). injection Hr as <- <-. by split. Qed.
Lemma validate_spec it s b : validate_intent fuel it s = Some b ->
  b = true <-> checksum it = calculate_checksum it /\ 100 <= it_type it <= 799 /\
    (target_id it = NODE_ID_INVALID \/ exists c, state_graph_get_node fuel (target_id it) (d_graph s) = Some (Some c)).
Proof.
  unfold validate_intent. destruct (Z.eqb_spec (checksum it) (calculate_checksum it)) as [Ec|Ec]; cbn [negb]; [|intros [= <-]; split; [done|tauto]].
  destruct (Z.ltb_spec (it_type it) 100); cbn [orb]; [intros [= <-]; split; [done|lia]|].
  destruct (Z.ltb_spec 799 (it_type it)); [intros [= <-]; split; [done|lia]|].
  destruct (Z.eqb_spec (target_id it) NODE_ID_INVALID) as [Et|Et]; [intros [= <-]; split; [intros _; split; [done|]; split; [lia|by left]|done]|].
  intros Hr. apply bind_Some in Hr as ([c|] & Hg & Hr); injection Hr as <-; (split; [intros Hb|intros (_ & _ & Hn)]); try done.
  - split; [done|]. split; [lia|]. right. by exists c.
  - destruct Hn as [Hn|[c Hc]]; [done|]. congruence.
Qed.
End gate.


(** ** The default policy *)

Lemma add_permission_acl {D E} `{PortIO D} `{VfsBackend E} fuel pid mask (s s' : dispatcher D E) r : acl_add_permission fuel pid mask s = Some (r, s') ->
  acl_list s' = acl_list s \/ exists a, acl_list s' = AclEntry a pid mask :: acl_list s.
Proof.
  intros Hr. apply bind_Some in Hr as ([p h] & _ & Hr). cbv zeta in Hr. destruct (p =? 0); injection Hr as <- <-; [by left|right; by exists p].
Qed.
Lemma ones_allow n type : 0 < n -> mask_allows (2 ^ n - 1) type = negb ((100 + n <=? type) && (type <=? 131)).
Proof.
  intros Hn. replace (2 ^ n - 1) with (Z.ones n) by (rewrite Z.ones_equiv; lia). unfold mask_allows.
  assert (Hbit : forall k, 0 <= k -> negb (Z.ones n .& (1 .<< k) =? 0) = (k <? n)).
  { intros k Hk. rewrite land_single_eqb, negb_involutive by done. destruct (Z.ltb_spec k n); [apply Z.ones_spec_low; lia|apply Z.ones_spec_high; lia]. }
  pose proof (Hbit 0 ltac:(lia)) as H0. change (1 .<< 0) with 1 in H0. rewrite H0.
  destruct (Z.ltb_spec type 100); cbn [orb].
  { rewrite (proj2 (Z.ltb_lt 0 n)), (proj2 (Z.leb_gt (100 + n) type)) by lia. done. }
  destruct (Z.ltb_spec 131 type).
  { rewrite (proj2 (Z.ltb_lt 0 n)), (proj2 (Z.leb_gt type 131)) by lia. by rewrite andb_false_r. }
  rewrite Hbit by lia. rewrite (proj2 (Z.leb_le type 131)) by lia. rewrite andb_true_r.
  destruct (Z.ltb_spec (type - 100) n), (Z.leb_spec (100 + n) type); done || lia.
Qed.

(** After [intent_dispatcher_init], when its three entries could be
    allocated: the kernel may do everything; the GUI and the shell everything
    but the types 116 to 131, which no intent has, so that in effect nothing,
    shutting down included, is denied to them; every other process nothing. *)
Theorem acl_default_policy {D E} `{PortIO D} `{VfsBackend E} fuel (s s' : dispatcher D E) : intent_dispatcher_init fuel s = Some s' ->
  len (acl_list s') = 3 ->
  (forall pid type, check_acl pid type s' =
     (pid =? 0) || ((pid =? 1) || (pid =? 2)) && negb ((116 <=? type) && (type <=? 131))) /\
  (forall pid type, 0 <= pid <= 2 -> type ∈ defined_types -> check_acl pid type s' = true).
Proof.
  unfold intent_dispatcher_init. intros Hr. apply bind_Some in Hr as ([now s0] & _ & Hr).
  apply bind_Some in Hr as ([r1 s1] & H1 & Hr). apply bind_Some in Hr as ([r2 s2] & H2 & Hr). apply bind_Some in Hr as ([r3 s3] & H3 & Hr).
  injection Hr as <-. apply add_permission_acl in H1, H2, H3. cbn [acl_list] in H1. intros Hlen.
  destruct H1 as [H1|[a1 H1]], H2 as [H2|[a2 H2]], H3 as [H3|[a3 H3]]; rewrite H3, ?H2, ?H1 in Hlen; cbn [length] in Hlen; try lia.
  assert (Hall : forall pid type, check_acl pid type s3 =
     (pid =? 0) || ((pid =? 1) || (pid =? 2)) && negb ((116 <=? type) && (type <=? 131))).
  { intros pid type. unfold check_acl. rewrite H3, H2, H1. cbn [find_acl acl_pid]. rewrite !(Z.eqb_sym _ pid).
    change 65535 with (2 ^ 16 - 1). pose proof (ones_allow 16 type ltac:(lia)) as E16. pose proof (ones_allow 32 type ltac:(lia)) as E32.
    change (100 + 16) with 116 in E16. change (100 + 32) with 132 in E32.
    destruct (Z.eqb_spec pid 2) as [->|]; cbn [intent_mask]; [exact E16|]. destruct (Z.eqb_spec pid 1) as [->|]; cbn [intent_mask]; [exact E16|].
    destruct (Z.eqb_spec pid 0) as [->|]; cbn [intent_mask andb orb]; [|done].
    rewrite E32. destruct (Z.leb_spec 132 type), (Z.leb_spec type 131); done || lia. }
  split; [exact Hall|]. intros pid type Hp Hin. rewrite Hall.
  assert (Hno : forallb (fun t => negb ((116 <=? t) && (t <=? 131))) defined_types = true) by by vm_compute.
  rewrite forallb_forall in Hno. apply list_elem_of_In, Hno in Hin. rewrite Hin.
  destruct (Z.eqb_spec pid 0), (Z.eqb_spec pid 1), (Z.eqb_spec pid 2); try lia; done.
Qed.

(** ** Examples *)

Module Examples.
Import Fds.Examples.

(** A machine whose serial port is always ready and whose clock stands at 0. *)
#[local] Instance calm_ports : PortIO unit := {|
  inb port d := (if port =? COM1 + SERIAL_LSR then LSR_TX_EMPTY else 0, d); outb _ _ d := d; inw _ d := (0, d); outw _ _ d := d; io_wait d := d
|}.
Definition cold : dispatcher unit unit :=
  Dispatcher [] 0 0 0 0 0 0 0 0 (zs "/home/user") [] 0 StateGraph.Examples.started
    (Vfs [] (replicate 128 no_node) ∅ None (replicate 8 (VfileOpen [] false)) (replicate 16 no_pipe) []
       (Ramfs [] false (kheap_init 65536 4096 ∅)) tt)
    (Vga (replicate 2000 0) 0 0 7 None ()).
Definition warm : dispatcher unit unit := default cold (intent_dispatcher_init 50 cold).
Lemma cold_warm : intent_dispatcher_init 50 cold = Some warm.
Proof. by vm_compute. Qed.

Lemma schema_complete_witness : intent_requires_confirmation INTENT_FS_SEARCH = false.
Proof. apply (schema_complete INTENT_FS_SEARCH). by vm_compute. Defined.
Lemma acl_default_policy_witness : check_acl 1 INTENT_SHUTDOWN warm = true.
Proof.
  apply (acl_default_policy 50 cold warm cold_warm); [by vm_compute|lia|].
  apply (bool_decide_unpack _). by vm_compute.
Defined.

(** Making a directory "/x" and dispatching the intent. *)
Lemma built_intents_rejected_witness :
  exists it s1 s3, build 50 (ReqMkdir (zs "/x")) warm = Some (it, s1) /\ intent_dispatch 50 it s1 = Some (ERR_INVALID_INTENT, it, count_failed s3).
Proof.
  destruct (build 50 (ReqMkdir (zs "/x")) warm) as [[it s1]|] eqn:E; [|exfalso; revert E; by vm_compute].
  destruct (get_timestamp 50 s1) as [[t s3]|] eqn:Et.
  - exists it, s1, s3. split; [done|]. apply (built_intents_rejected 50 (ReqMkdir (zs "/x")) warm it s1) with (t := t); [|exact E|exact Et].
    repeat constructor; lia.
  - exfalso. revert Et. assert (Hs : s1 = set_next_sequence 2 warm).
    { assert (E2 : snd <$> build 50 (ReqMkdir (zs "/x")) warm = Some (set_next_sequence 2 warm)) by by vm_compute. rewrite E in E2. exact (inj Some _ _ E2). }
    rewrite Hs. by vm_compute.
Defined.

(** An intent with a checksum that validation accepts. *)
Definition ask_cwd : intent := Intent INTENT_FS_PRINT_CWD 0 no_param no_param 0 0 0 0 58 256 1 0 0.
Definition answered : Z * intent * dispatcher unit unit := default (1, ask_cwd, warm) (intent_dispatch 50 ask_cwd warm).
Lemma ask_answered : intent_dispatch 50 ask_cwd warm = Some (answered.1.1, answered.1.2, answered.2).
Proof. by vm_compute. Qed.

Definition go_up : intent := Intent INTENT_FS_CHDIR 0 no_param no_param 1 0 0 0 0 0 1 0 0.
Lemma chdir_parent_reaches_root_witness :
  exists s', Nat.iter 10 (fun r => '(_, _, s) ← r; handle_chdir go_up s) (Some (ERR_SUCCESS, go_up, warm)) = Some (ERR_SUCCESS, go_up, s') /\ g_cwd s' = zs "/".
Proof. apply (chdir_parent_reaches_root warm go_up); [by vm_compute|done|split; by vm_compute|by vm_compute; lia]. Defined.
End Examples.
