(* ===== verification/Ui.v ===== *)
(** * Windows and commands on them (src/src/ui/ui_state.c, src/src/ui/ui_command.c)

    Tables of windows, nodes and processes, changed by intents and by the
    commands of the window command line.  A slot is free when its identifier
    is empty.  Intents come from the builders of the dispatcher, which also
    holds the console.  [None] is a run that does not return or stores a
    string past the end of its array. *)

From S2P Require Import Prelude KHeap KString Disk Clock Text Vfs Fds Console StateGraph Intent.

Definition MAX_WINDOWS : Z := 64.
Definition MAX_NODES : Z := 1024.
Definition MAX_PROCESSES : Z := 64.
Definition MAX_ID_LENGTH : Z := 64.

Record window : Type := Window {
  w_id : cstring; title : cstring; w_x : Z; w_y : Z; w_width : Z; w_height : Z; w_visible : Z; w_focused : Z; w_pid : Z; w_graph : Z
}.
Record ui_node : Type := UiNode {
  n_id : cstring; n_type : Z; n_parent : cstring; n_x : Z; n_y : Z; n_width : Z; n_height : Z;
  n_visible : Z; n_focused : Z; enabled : Z; n_text : cstring; n_value : cstring; n_graph : Z
}.
Record ui_process : Type := UiProcess { up_pid : Z; up_name : cstring; active : Z; main_window_id : Z }.

Definition set_w_id x '(Window _ t a b w h v f p g) := Window x t a b w h v f p g.
Definition set_title x '(Window i _ a b w h v f p g) := Window i x a b w h v f p g.
Definition set_w_pos x y '(Window i t _ _ w h v f p g) := Window i t x y w h v f p g.
Definition set_w_size x y '(Window i t a b _ _ v f p g) := Window i t a b x y v f p g.
Definition set_w_visible x '(Window i t a b w h _ f p g) := Window i t a b w h x f p g.
Definition set_w_graph x '(Window i t a b w h v f p _) := Window i t a b w h v f p x.
Definition set_n_id x '(UiNode _ t p a b w h v f e s l g) := UiNode x t p a b w h v f e s l g.
Definition set_n_parent t' p' '(UiNode i _ _ a b w h v f e s l g) := UiNode i t' p' a b w h v f e s l g.
Definition set_n_shown v' e' '(UiNode i t p a b w h _ f _ s l g) := UiNode i t p a b w h v' f e' s l g.
Definition set_n_pos x y '(UiNode i t p _ _ w h v f e s l g) := UiNode i t p x y w h v f e s l g.
Definition set_n_strings x y '(UiNode i t p a b w h v f e _ _ g) := UiNode i t p a b w h v f e x y g.
Definition set_n_graph x '(UiNode i t p a b w h v f e s l _) := UiNode i t p a b w h v f e s l x.

Definition no_window : window := Window [] [] 0 0 0 0 0 0 0 0.
Definition no_ui_node : ui_node := UiNode [] 0 [] 0 0 0 0 0 0 0 [] [] 0.
Definition no_process : ui_process := UiProcess 0 [] 0 0.

Record ui (D E : Type) : Type := Ui {
  windows : list window; ui_nodes : list ui_node; ui_procs : list ui_process;
  focus_window : cstring; focus_node : cstring; window_count : Z; node_count : Z; process_count : Z;
  u_disp : dispatcher D E
}.
Arguments Ui {D E}.
Arguments windows {D E}.
Arguments ui_nodes {D E}.
Arguments ui_procs {D E}.
Arguments focus_window {D E}.
Arguments focus_node {D E}.
Arguments window_count {D E}.
Arguments node_count {D E}.
Arguments process_count {D E}.
Arguments u_disp {D E}.

(** [k_strcpy] into an array of [size] bytes. *)
Definition copy_str (size : Z) (src : cstring) : option cstring := if size <=? len src then None else Some src.
(** The identifier made from a graph identifier: a prefix and 16 digits. *)
Definition hex16 (g : Z) : cstring := (fun i => hex_digit (nibble_at g i)) <$> ((fun j => 60 - j * 4) <$> seqZ 0 16).

Record command_result : Type := CommandResult { cr_intent : intent; cr_error : cstring; cr_success : bool }.
Definition no_intent : intent := Intent 0 0 no_param no_param 0 0 0 0 0 0 0 0 0.
Definition failed (why : cstring) : command_result := CommandResult no_intent why false.
Definition succeeded (it : intent) : command_result := CommandResult it [] true.

Section ui.
Context {D E : Type} `{PortIO D} `{VfsBackend E} (fuel : nat).
Abbreviation st := (ui D E).
Implicit Types (s : st).

Definition set_windows x n s : st := Ui x (ui_nodes s) (ui_procs s) (focus_window s) (focus_node s) n (node_count s) (process_count s) (u_disp s).
Definition set_ui_nodes x n s : st := Ui (windows s) x (ui_procs s) (focus_window s) (focus_node s) (window_count s) n (process_count s) (u_disp s).
Definition set_procs x n s : st := Ui (windows s) (ui_nodes s) x (focus_window s) (focus_node s) (window_count s) (node_count s) n (u_disp s).
Definition set_focus w n s : st := Ui (windows s) (ui_nodes s) (ui_procs s) w n (window_count s) (node_count s) (process_count s) (u_disp s).
Definition set_disp x s : st := Ui (windows s) (ui_nodes s) (ui_procs s) (focus_window s) (focus_node s) (window_count s) (node_count s) (process_count s) x.
Definition win s (i : Z) : window := arr_get no_window (windows s) i.
Definition unode s (i : Z) : ui_node := arr_get no_ui_node (ui_nodes s) i.
Definition put_win (i : Z) (w : window) s : st := set_windows (arr_set (windows s) i w) (window_count s) s.
Definition put_node (i : Z) (n : ui_node) s : st := set_ui_nodes (arr_set (ui_nodes s) i n) (node_count s) s.
Definition with_disp {A} (f : dispatcher D E -> option (A * dispatcher D E)) s : option (A * st) := '(x, d) ← f (u_disp s); Some (x, set_disp d s).
Definition print (t : cstring) s : option st := d ← on_term (vga_writestring fuel t) (u_disp s); Some (set_disp d s).

Definition ui_state_init s : st :=
  Ui (set_w_id [] <$> windows s) (set_n_id [] <$> ui_nodes s) ((fun '(UiProcess p _ a w) => UiProcess p [] a w) <$> ui_procs s) [] [] 0 0 0 (u_disp s).

Definition all_windows : list Z := seqZ 0 MAX_WINDOWS.
Definition all_nodes : list Z := seqZ 0 MAX_NODES.
Definition all_procs : list Z := seqZ 0 MAX_PROCESSES.
Definition find_window (id : cstring) s : option Z := find_first (fun i => k_strcmp (w_id (win s i)) id =? 0) all_windows.
Definition find_node (id : cstring) s : option Z := find_first (fun i => k_strcmp (n_id (unode s i)) id =? 0) all_nodes.
Definition empty (s : cstring) : bool := match s with [] => true | _ => false end.
Definition find_window_by_graph_id (g : Z) s : option Z := find_first (fun i => negb (empty (w_id (win s i))) && (w_graph (win s i) =? g)) all_windows.
Definition find_node_by_graph_id (g : Z) s : option Z := find_first (fun i => negb (empty (n_id (unode s i))) && (n_graph (unode s i) =? g)) all_nodes.
Definition free_window s : option Z := find_first (fun i => empty (w_id (win s i))) all_windows.
Definition free_ui_node s : option Z := find_first (fun i => empty (n_id (unode s i))) all_nodes.
Definition proc s (i : Z) : ui_process := arr_get no_process (ui_procs s) i.

(** A change of the window, or node, of the intent. *)
Definition on_window (it : intent) (f : window -> window) s : Z * st :=
  match find_window_by_graph_id (target_id it) s with Some i => (0, put_win i (f (win s i)) s) | None => (-1, s) end.
Definition on_node (it : intent) (f : ui_node -> option ui_node) s : option (Z * st) :=
  match find_node_by_graph_id (target_id it) s with Some i => n ← f (unode s i); Some (0, put_node i n s) | None => Some (-1, s) end.

Definition exec_create_window (it : intent) s : option (Z * st) :=
  t ← (match find_window_by_graph_id (target_id it) s, free_window s with None, None => Some [] | _, _ => copy_str MAX_ID_LENGTH (param1_str it) end);
  match find_window_by_graph_id (target_id it) s with
  | Some i => Some (0, put_win i (set_w_visible 1 (set_title t (win s i))) s)
  | None =>
      match free_window s with
      | None => Some (-1, s)
      | Some i =>
          let w := Window (zs "gwin_" ++ hex16 (target_id it)) t (int_param1 it) (int_param2 it) 400 300 1 0 (source_process_id it) (target_id it) in
          Some (0, set_windows (arr_set (windows s) i w) (window_count s + 1) s)
      end
  end.
Definition exec_create_node (it : intent) s : option (Z * st) :=
  p ← (match find_node_by_graph_id (target_id it) s, free_ui_node s with None, None => Some [] | _, _ => copy_str MAX_ID_LENGTH (param1_str it) end);
  match find_node_by_graph_id (target_id it) s with
  | Some i => Some (0, put_node i (set_n_shown 1 1 (set_n_parent (u32 (int_param1 it)) p (unode s i))) s)
  | None =>
      match free_ui_node s with
      | None => Some (-1, s)
      | Some i =>
          let n := set_n_id (zs "gnode_" ++ hex16 (target_id it)) (set_n_strings [] [] (set_n_shown 1 1
                     (set_n_parent (u32 (int_param1 it)) p (set_n_graph (target_id it) (unode s i))))) in
          Some (0, set_ui_nodes (arr_set (ui_nodes s) i n) (node_count s + 1) s)
      end
  end.

Definition ui_state_execute_intent (it : intent) s : option (Z * st) :=
  let type := it_type it in
  if type =? INTENT_CREATE_WINDOW then exec_create_window it s
  else if type =? INTENT_DESTROY_WINDOW then
    Some (match find_window_by_graph_id (target_id it) s with
          | Some i => (0, set_windows (arr_set (windows s) i (set_w_graph 0 (set_w_id [] (set_w_visible 0 (win s i))))) (window_count s - 1) s)
          | None => (-1, s)
          end)
  else if type =? INTENT_MOVE_WINDOW then Some (on_window it (set_w_pos (int_param1 it) (int_param2 it)) s)
  else if type =? INTENT_RESIZE_WINDOW then Some (on_window it (set_w_size (int_param1 it) (int_param2 it)) s)
  else if type =? INTENT_SHOW_WINDOW then Some (on_window it (set_w_visible (int_param1 it)) s)
  else if type =? INTENT_HIDE_WINDOW then Some (on_window it (set_w_visible 0) s)
  else if type =? INTENT_CREATE_NODE then exec_create_node it s
  else if type =? INTENT_DESTROY_NODE then
    Some (match find_node_by_graph_id (target_id it) s with
          | Some i => (0, set_ui_nodes (arr_set (ui_nodes s) i (set_n_graph 0 (set_n_id [] (unode s i)))) (node_count s - 1) s)
          | None => (-1, s)
          end)
  else if type =? INTENT_MOVE_NODE then on_node it (fun n => Some (set_n_pos (int_param1 it) (int_param2 it) n)) s
  else if type =? INTENT_SET_NODE_TEXT then on_node it (fun n => t ← copy_str 256 (param1_str it); Some (set_n_strings t (n_value n) n)) s
  else if type =? INTENT_SET_NODE_VALUE then on_node it (fun n => t ← copy_str 256 (param1_str it); Some (set_n_strings (n_text n) t n)) s
  else if type =? INTENT_CLICK_NODE then
    Some (match find_node_by_graph_id (target_id it) s with
          | Some i => (if (enabled (unode s i) =? 0) || (n_visible (unode s i) =? 0) then -1 else 0, s)
          | None => (-1, s)
          end)
  else if type =? INTENT_START_PROCESS then
    match find_first (fun i => empty (up_name (proc s i))) all_procs with
    | Some i => t ← copy_str MAX_ID_LENGTH (param1_str it);
                Some (0, set_procs (arr_set (ui_procs s) i (UiProcess (u32 (int_param1 it)) t 1 0)) (process_count s + 1) s)
    | None => Some (-1, s)
    end
  else if type =? INTENT_STOP_PROCESS then
    Some (match find_first (fun i => up_pid (proc s i) =? u32 (int_param1 it)) all_procs with
          | Some i => (0, set_procs (arr_set (ui_procs s) i (UiProcess (up_pid (proc s i)) [] 0 (main_window_id (proc s i)))) (process_count s - 1) s)
          | None => (-1, s)
          end)
  else Some (-1, s).

Definition ui_state_create_window (id t : cstring) (x y w h : Z) s : option (Z * st) :=
  if MAX_WINDOWS <=? window_count s then Some (-1, s)
  else match free_window s with
       | None => Some (-1, s)
       | Some i =>
           id ← copy_str MAX_ID_LENGTH id; t ← copy_str MAX_ID_LENGTH t;
           Some (i, set_windows (arr_set (windows s) i (Window id t x y w h 1 0 0 0)) (window_count s + 1) s)
       end.
Definition ui_state_create_node (id : cstring) (type : Z) (parent : cstring) s : option (Z * st) :=
  if MAX_NODES <=? node_count s then Some (-1, s)
  else match free_ui_node s with
       | None => Some (-1, s)
       | Some i =>
           id ← copy_str MAX_ID_LENGTH id; p ← copy_str MAX_ID_LENGTH parent;
           Some (i, set_ui_nodes (arr_set (ui_nodes s) i (UiNode id type p 0 0 0 0 1 0 1 [] [] 0)) (node_count s + 1) s)
       end.
Definition ui_state_delete_node (id : cstring) s : Z * st :=
  match find_node id s with
  | Some i => (0, set_ui_nodes (arr_set (ui_nodes s) i (set_n_id [] (unode s i))) (node_count s - 1) s)
  | None => (-1, s)
  end.
Definition ui_state_set_focus (w n : cstring) s : option (Z * st) :=
  w ← copy_str MAX_ID_LENGTH w; n ← copy_str MAX_ID_LENGTH n; Some (0, set_focus w n s).
Definition ui_state_get_window := find_window.
Definition ui_state_get_node := find_node.
Definition ui_state_get_process (pid : Z) s : option Z :=
  find_first (fun i => (up_pid (proc s i) =? pid) && negb (active (proc s i) =? 0)) all_procs.

(** ** Commands *)

Definition cmd_open_window (app_id : cstring) s : option (command_result * st) :=
  if 64 <=? 4 + len app_id then None
  else
    '(r, s) ← ui_state_create_window (zs "win_" ++ app_id) app_id 100 100 400 300 s;
    if 0 <=? r then
      '(it, s) ← with_disp (intent_create_window fuel 0 app_id) s;
      s ← print (zs "Opened window: " ++ app_id ++ [10]) s;
      Some (succeeded it, s)
    else Some (failed (zs "Failed to create window"), s).
Definition cmd_close_window (id : cstring) s : option (command_result * st) :=
  match ui_state_get_window id s with
  | None => Some (failed (zs "Window not found"), s)
  | Some i =>
      '(it, s) ← with_disp (intent_create_window fuel 0 []) s;
      let it := set_target (w_graph (win s i)) (set_it_type INTENT_DESTROY_WINDOW it) in
      let s := put_win i (set_w_id [] (win s i)) s in
      s ← print (zs "Closed window: " ++ id ++ [10]) s;
      Some (succeeded it, s)
  end.
Definition cmd_move_window (id : cstring) (x y : Z) s : option (command_result * st) :=
  match ui_state_get_window id s with
  | None => Some (failed (zs "Window not found"), s)
  | Some i =>
      '(it, s) ← with_disp (intent_move_window fuel (w_graph (win s i)) x y) s;
      s ← print (zs "Moved window " ++ id ++ zs " to " ++ put_dec (u64 x) ++ zs "," ++ put_dec (u64 y) ++ [10]) s;
      Some (succeeded it, s)
  end.
Definition cmd_focus_window (id : cstring) s : option (command_result * st) :=
  match ui_state_get_window id s with
  | None => Some (failed (zs "Window not found"), s)
  | Some i =>
      '(it, s) ← with_disp (intent_create_window fuel 0 []) s;
      let it := set_target (w_graph (win s i)) (set_it_type INTENT_FOCUS_WINDOW it) in
      '(_, s) ← ui_state_set_focus id [] s;
      s ← print (zs "Focused window: " ++ id ++ [10]) s;
      Some (succeeded it, s)
  end.
Definition window_line (w : window) : cstring :=
  if empty (w_id w) || (w_visible w =? 0) then []
  else zs "  " ++ w_id w ++ zs " - " ++ title w ++ zs " (" ++ put_dec (u64 (w_x w)) ++ zs "," ++ put_dec (u64 (w_y w)) ++ zs " " ++
       put_dec (u64 (w_width w)) ++ zs "x" ++ put_dec (u64 (w_height w)) ++ zs ")" ++ [10].
Definition window_list s : cstring :=
  zs "Open Windows:" ++ [10] ++ zs "-------------" ++ [10] ++
  match concat ((fun i => window_line (win s i)) <$> all_windows) with [] => zs "  (no windows open)" ++ [10] | l => l end.
Definition cmd_list_windows s : option (command_result * st) := s ← print (window_list s) s; Some (succeeded no_intent, s).

(** The rest of a command after its first word and the spaces behind it. *)
Fixpoint past_word (s : cstring) : cstring := match s with [] => [] | c :: r => if c =? 32 then s else past_word r end.
Fixpoint past_blanks (s : cstring) : cstring := match s with [] => [] | c :: r => if c =? 32 then past_blanks r else s end.
Fixpoint first_word (s : cstring) : cstring := match s with [] => [] | c :: r => if c =? 32 then [] else c :: first_word r end.
Definition next_word (s : cstring) : cstring := past_blanks (past_word s).
Fixpoint read_int (v : Z) (s : cstring) : Z :=
  match s with c :: r => if (ch "0" <=? c) && (c <=? ch "9") then read_int (i32 (v * 10 + (c - ch "0"))) r else v | [] => v end.
Definition contains (s w : cstring) : bool := match k_strstr s w with Some _ => true | None => false end.

Definition ui_command_parse (command : option cstring) s : option (command_result * st) :=
  match command with
  | None | Some [] => Some (failed (zs "Empty command"), s)
  | Some command =>
      if 256 <=? len command then None
      else
        let t := k_trim command in
        let arg := next_word t in
        if contains t (zs "open window") || contains t (zs "open application") then
          match arg with [] => Some (failed (zs "Missing application ID"), s) | _ => cmd_open_window arg s end
        else if contains t (zs "close window") then
          match arg with [] => Some (failed (zs "Missing window ID"), s) | _ => cmd_close_window arg s end
        else if contains t (zs "move window") then
          let x_str := next_word arg in
          let y_str := next_word x_str in
          match first_word arg, first_word x_str, y_str with
          | (_ :: _) as id, (_ :: _) as xs, _ :: _ => cmd_move_window id (read_int 0 xs) (read_int 0 y_str) s
          | _, _, _ => Some (failed (zs "Usage: move window <id> <x> <y>"), s)
          end
        else if contains t (zs "focus window") then
          match arg with [] => Some (failed (zs "Missing window ID"), s) | _ => cmd_focus_window arg s end
        else if contains t (zs "list windows") || contains t (zs "show windows") then cmd_list_windows s
        else Some (failed (zs "Unknown command"), s)
  end.

(** Is the point inside the rectangle? *)
Definition inside (x y rx ry rw rh : Z) : bool := (rx <=? x) && (x <? i32 (rx + rw)) && (ry <=? y) && (y <? i32 (ry + rh)).
Definition window_hit (x y : Z) (w : window) : bool :=
  negb (empty (w_id w)) && negb (w_visible w =? 0) && inside x y (w_x w) (w_y w) (w_width w) (w_height w).
Definition node_hit (x y : Z) (w : window) (n : ui_node) : bool :=
  negb (empty (n_id n)) && negb (n_visible n =? 0) && (k_strcmp (n_parent n) (w_id w) =? 0) &&
  inside x y (i32 (w_x w + n_x n)) (i32 (w_y w + n_y n)) (n_width n) (n_height n).
Definition ui_translate_click (x y : Z) s : option (command_result * st) :=
  match find_first (fun i => window_hit x y (win s i)) all_windows with
  | None => Some (failed (zs "No window clicked"), s)
  | Some i =>
      let target := match find_first (fun j => node_hit x y (win s i) (unode s j)) all_nodes with
                    | Some j => n_graph (unode s j)
                    | None => w_graph (win s i)
                    end in
      '(it, s) ← with_disp (intent_click_node fuel target) s;
      Some (succeeded it, s)
  end.

Definition ui_command_execute (command : option cstring) s : option (Z * st) :=
  '(r, s) ← ui_command_parse command s;
  if cr_success r then ui_state_execute_intent (cr_intent r) s
  else s ← print (zs "Error: " ++ cr_error r ++ [10]) s; Some (-1, s).
Definition ui_command_execute_intent (it : option intent) s : option (Z * st) :=
  match it with Some it => ui_state_execute_intent it s | None => Some (-1, s) end.
Definition ui_command_init := ui_state_init.
End ui.

(** ** The counters *)

Section counts.
Context {D E : Type} `{PortIO D} `{VfsBackend E} (fuel : nat).
Implicit Types (s : ui D E).

Definition w_used (w : window) : bool := negb (empty (w_id w)).
Definition n_used (n : ui_node) : bool := negb (empty (n_id n)).
Record counted s : Prop := {
  ct_windows : len (windows s) = MAX_WINDOWS; ct_nodes : len (ui_nodes s) = MAX_NODES;
  ct_wcount : window_count s = countb w_used (windows s); ct_ncount : node_count s = countb n_used (ui_nodes s)
}.

Lemma counted_windows s ws n : counted s -> length ws = length (windows s) -> n = countb w_used ws -> counted (set_windows ws n s).
Proof. intros [H1 H2 H3 H4] Hl Hn. split; cbn; try done. by rewrite Hl. Qed.
Lemma counted_nodes s ns n : counted s -> length ns = length (ui_nodes s) -> n = countb n_used ns -> counted (set_ui_nodes ns n s).
Proof. intros [H1 H2 H3 H4] Hl Hn. split; cbn; try done. by rewrite Hl. Qed.
Lemma put_win_counted s i w : counted s -> 0 <= i < 64 -> w_used w = w_used (win s i) -> counted (put_win i w s).
Proof.
  intros Hs Hi Hw. pose proof Hs as [H1 _ H3 _]. unfold MAX_WINDOWS in H1. apply counted_windows; [done|by rewrite length_arr_set|].
  rewrite (countb_set w_used no_window) by lia. fold (win s i). rewrite Hw. lia.
Qed.
Lemma put_node_counted s i n : counted s -> 0 <= i < 1024 -> n_used n = n_used (unode s i) -> counted (put_node i n s).
Proof.
  intros Hs Hi Hw. pose proof Hs as [_ H2 _ H4]. unfold MAX_NODES in H2. apply counted_nodes; [done|by rewrite length_arr_set|].
  rewrite (countb_set n_used no_ui_node) by lia. fold (unode s i). rewrite Hw. lia.
Qed.
Lemma take_window s i w : counted s -> 0 <= i < 64 -> w_used (win s i) = false -> w_used w = true ->
  counted (set_windows (arr_set (windows s) i w) (window_count s + 1) s).
Proof.
  intros Hs Hi Hold Hnew. pose proof Hs as [H1 _ H3 _]. unfold MAX_WINDOWS in H1. apply counted_windows; [done|by rewrite length_arr_set|].
  rewrite (countb_set w_used no_window) by lia. fold (win s i). rewrite Hold, Hnew. cbn. lia.
Qed.
Lemma take_node s i n : counted s -> 0 <= i < 1024 -> n_used (unode s i) = false -> n_used n = true ->
  counted (set_ui_nodes (arr_set (ui_nodes s) i n) (node_count s + 1) s).
Proof.
  intros Hs Hi Hold Hnew. pose proof Hs as [_ H2 _ H4]. unfold MAX_NODES in H2. apply counted_nodes; [done|by rewrite length_arr_set|].
  rewrite (countb_set n_used no_ui_node) by lia. fold (unode s i). rewrite Hold, Hnew. cbn. lia.
Qed.
Lemma drop_window s i w : counted s -> 0 <= i < 64 -> w_used (win s i) = true -> w_used w = false ->
  counted (set_windows (arr_set (windows s) i w) (window_count s - 1) s).
Proof.
  intros Hs Hi Hold Hnew. pose proof Hs as [H1 _ H3 _]. unfold MAX_WINDOWS in H1. apply counted_windows; [done|by rewrite length_arr_set|].
  rewrite (countb_set w_used no_window) by lia. fold (win s i). rewrite Hold, Hnew. cbn. lia.
Qed.
Lemma drop_node s i n : counted s -> 0 <= i < 1024 -> n_used (unode s i) = true -> n_used n = false ->
  counted (set_ui_nodes (arr_set (ui_nodes s) i n) (node_count s - 1) s).
Proof.
  intros Hs Hi Hold Hnew. pose proof Hs as [_ H2 _ H4]. unfold MAX_NODES in H2. apply counted_nodes; [done|by rewrite length_arr_set|].
  rewrite (countb_set n_used no_ui_node) by lia. fold (unode s i). rewrite Hold, Hnew. cbn. lia.
Qed.
Lemma found_range (f : Z -> bool) n i : find_first f (seqZ 0 n) = Some i -> 0 <= i < n /\ f i = true.
Proof. intros Hf. apply find_first_Some in Hf as [Hin Hf]. apply elem_of_seqZ in Hin. split; [lia|done]. Qed.
Lemma graph_window s g i : find_window_by_graph_id g s = Some i -> 0 <= i < 64 /\ w_used (win s i) = true.
Proof. intros Hf. apply found_range in Hf as [Hi Hf]. apply andb_true_iff in Hf as [Hf _]. done. Qed.
Lemma graph_node s g i : find_node_by_graph_id g s = Some i -> 0 <= i < 1024 /\ n_used (unode s i) = true.
Proof. intros Hf. apply found_range in Hf as [Hi Hf]. apply andb_true_iff in Hf as [Hf _]. done. Qed.
Lemma free_window_spec s i : free_window s = Some i -> 0 <= i < 64 /\ w_used (win s i) = false.
Proof. intros Hf. apply found_range in Hf as [Hi Hf]. unfold w_used. by rewrite Hf. Qed.
Lemma free_node_spec s i : free_ui_node s = Some i -> 0 <= i < 1024 /\ n_used (unode s i) = false.
Proof. intros Hf. apply found_range in Hf as [Hi Hf]. unfold n_used. by rewrite Hf. Qed.

Lemma on_window_counted it f s : counted s -> (forall w, w_id (f w) = w_id w) -> counted (on_window it f s).2.
Proof.
  intros Hs Hf. unfold on_window. destruct (find_window_by_graph_id _ s) as [i|] eqn:Ef; [|done]. apply graph_window in Ef as [Hi _].
  apply put_win_counted; [done|done|]. unfold w_used. by rewrite Hf.
Qed.
Lemma on_node_counted it f s r s' : counted s -> (forall n n', f n = Some n' -> n_id n' = n_id n) -> on_node it f s = Some (r, s') -> counted s'.
Proof.
  intros Hs Hf. unfold on_node. destruct (find_node_by_graph_id _ s) as [i|] eqn:Ef; [|by intros [= <- <-]]. apply graph_node in Ef as [Hi _].
  intros Hr. apply bind_Some in Hr as (n & Hn & Hr). injection Hr as <- <-. apply put_node_counted; [done|done|]. unfold n_used. by rewrite (Hf _ _ Hn).
Qed.
Lemma create_window_counted it s r s' : counted s -> exec_create_window it s = Some (r, s') -> counted s'.
Proof.
  intros Hs. unfold exec_create_window. intros Hr. apply bind_Some in Hr as (t & _ & Hr).
  destruct (find_window_by_graph_id _ s) as [i|] eqn:Ef.
  - apply graph_window in Ef as [Hi _]. injection Hr as <- <-. apply put_win_counted; [done|done|]. by destruct (win s i).
  - destruct (free_window s) as [i|] eqn:Ew; [|by injection Hr as <- <-]. apply free_window_spec in Ew as [Hi Hu]. injection Hr as <- <-.
    by apply take_window.
Qed.
Lemma create_node_counted it s r s' : counted s -> exec_create_node it s = Some (r, s') -> counted s'.
Proof.
  intros Hs. unfold exec_create_node. intros Hr. apply bind_Some in Hr as (t & _ & Hr).
  destruct (find_node_by_graph_id _ s) as [i|] eqn:Ef.
  - apply graph_node in Ef as [Hi _]. injection Hr as <- <-. apply put_node_counted; [done|done|]. by destruct (unode s i).
  - destruct (free_ui_node s) as [i|] eqn:Ew; [|by injection Hr as <- <-]. apply free_node_spec in Ew as [Hi Hu]. injection Hr as <- <-.
    apply take_node; [done|done|done|]. by destruct (unode s i).
Qed.
Lemma execute_counted it s r s' : counted s -> ui_state_execute_intent it s = Some (r, s') -> counted s'.
Proof.
  intros Hs. unfold ui_state_execute_intent. cbv zeta.
  destruct (_ =? INTENT_CREATE_WINDOW); [by apply create_window_counted|].
  destruct (_ =? INTENT_DESTROY_WINDOW).
  { destruct (find_window_by_graph_id _ s) as [i|] eqn:Ef; [|by intros [= <- <-]]. apply graph_window in Ef as [Hi Hu]. intros Hr. injection Hr as <- <-.
    apply drop_window; [done|done|done|]. by destruct (win s i). }
  assert (Hw : forall f, (forall w, w_id (f w) = w_id w) -> Some (on_window it f s) = Some (r, s') -> counted s').
  { intros f Hf [= Hr]. pose proof (on_window_counted it f s Hs Hf) as Hc. by rewrite Hr in Hc. }
  do 4 (destruct (_ =? _); [apply Hw; by intros []|]). clear Hw.
  destruct (_ =? INTENT_CREATE_NODE); [by apply create_node_counted|].
  destruct (_ =? INTENT_DESTROY_NODE).
  { destruct (find_node_by_graph_id _ s) as [i|] eqn:Ef; [|by intros [= <- <-]]. apply graph_node in Ef as [Hi Hu]. intros Hr. injection Hr as <- <-.
    apply drop_node; [done|done|done|]. by destruct (unode s i). }
  destruct (_ =? INTENT_MOVE_NODE); [apply on_node_counted; [done|]; by intros [] n [= <-]|].
  do 2 (destruct (_ =? _); [apply on_node_counted; [done|]; intros [] n Hn; apply bind_Some in Hn as (t & _ & Hn); by injection Hn as <-|]).
  destruct (_ =? INTENT_CLICK_NODE); [destruct (find_node_by_graph_id _ s); by intros [= <- <-]|].
  destruct (_ =? INTENT_START_PROCESS).
  { destruct (find_first _ all_procs); [|by intros [= <- <-]]. intros Hr. apply bind_Some in Hr as (t & _ & Hr). injection Hr as <- <-. by destruct Hs. }
  destruct (_ =? INTENT_STOP_PROCESS); [destruct (find_first _ all_procs); intros [= <- <-]; by destruct Hs|]. by intros [= <- <-].
Qed.

(** The ways to change windows and nodes besides the commands. *)
Inductive uop : Type :=
| UIntent (it : intent) | UWindow (id t : cstring) (x y w h : Z) | UNode (id : cstring) (type : Z) (parent : cstring) | UDelete (id : cstring).
Definition run_uop (o : uop) s : option (Z * ui D E) :=
  match o with
  | UIntent it => ui_state_execute_intent it s
  | UWindow id t x y w h => ui_state_create_window id t x y w h s
  | UNode id type p => ui_state_create_node id type p s
  | UDelete id => Some (ui_state_delete_node id s)
  end.
Definition uop_named (o : uop) : Prop :=
  match o with UIntent _ => True | UWindow id _ _ _ _ _ | UNode id _ _ | UDelete id => id <> [] /\ is_cstr id end.

Lemma uop_counted o s r s' : counted s -> uop_named o -> run_uop o s = Some (r, s') -> counted s'.
Proof.
  intros Hs. assert (Hcopy : forall id x, id <> [] -> copy_str MAX_ID_LENGTH id = Some x -> empty x = false).
  { intros id x Hne. unfold copy_str. destruct (_ <=? _); [done|]. intros [= <-]. by destruct id. }
  destruct o as [it|id t x y w h|id type p|id]; cbn [uop_named run_uop].
  - intros _. by apply execute_counted.
  - intros [Hne _]. unfold ui_state_create_window. destruct (_ <=? _); [by intros [= <- <-]|].
    destruct (free_window s) as [i|] eqn:Ef; [|by intros [= <- <-]]. apply free_window_spec in Ef as [Hi Hu]. intros Hr.
    apply bind_Some in Hr as (id' & Hid & Hr). apply bind_Some in Hr as (t' & _ & Hr). injection Hr as <- <-. apply take_window; [done|done|done|].
    unfold w_used. cbn. by rewrite (Hcopy _ _ Hne Hid).
  - intros [Hne _]. unfold ui_state_create_node. destruct (_ <=? _); [by intros [= <- <-]|].
    destruct (free_ui_node s) as [i|] eqn:Ef; [|by intros [= <- <-]]. apply free_node_spec in Ef as [Hi Hu]. intros Hr.
    apply bind_Some in Hr as (id' & Hid & Hr). apply bind_Some in Hr as (p' & _ & Hr). injection Hr as <- <-. apply take_node; [done|done|done|].
    unfold n_used. cbn. by rewrite (Hcopy _ _ Hne Hid).
  - intros [Hne Hcs]. unfold ui_state_delete_node. destruct (find_node id s) as [i|] eqn:Ef; [|by intros [= <- <-]]. intros [= <- <-].
    apply found_range in Ef as [Hi Hf]. apply drop_node; [done|done| |by destruct (unode s i)].
    unfold n_used. destruct (n_id (unode s i)) as [|c l] eqn:En; [|done]. exfalso. destruct Hcs as [|c l Hc Hl]; [done|]. cbn in Hf. zbool. lia.
Qed.
End counts.

(** Whatever intents are executed, and windows and nodes created and
    nodes deleted under names that are not empty, the counters of windows and
    nodes are the numbers of used slots. *)
Theorem ui_counts_used {D E} `{PortIO D} `{VfsBackend E} (s : ui D E) ops : counted s -> Forall uop_named ops ->
  forall s', foldl (fun r o => '(_, s) ← r; run_uop o s) (Some (0, s)) ops = Some s' -> counted s'.2.
Proof.
  intros Hs. induction ops as [|o ops IH] using rev_ind; intros Hops s' Hr; [by injection Hr as <-|].
  apply Forall_app in Hops as [Hops Ho]. rewrite Forall_singleton in Ho. rewrite foldl_app in Hr. cbn [foldl] in Hr.
  apply bind_Some in Hr as ([r s1] & H1 & Hr). destruct s' as [r' s']. exact (uop_counted o s1 r' s' (IH Hops _ H1) Ho Hr).
Qed.

(** ** Closing a window *)

Section closing.
Context {D E : Type} `{PortIO D} `{VfsBackend E} (fuel : nat).
Implicit Types (s : ui D E).

Record same_tables s s' : Prop := { st_windows : windows s' = windows s; st_count : window_count s' = window_count s }.
Lemma with_disp_same {A} (f : dispatcher D E -> option (A * dispatcher D E)) s x s' : with_disp f s = Some (x, s') -> same_tables s s'.
Proof. intros Hr. apply bind_Some in Hr as ([y d] & _ & Hr). injection Hr as <- <-. done. Qed.
Lemma print_same t s s' : print fuel t s = Some s' -> same_tables s s'.
Proof. intros Hr. apply bind_Some in Hr as (d & _ & Hr). injection Hr as <-. done. Qed.

(** The intent of a closed window and the state it is executed in. *)
Lemma close_result id s i r s1 : find_window id s = Some i -> cmd_close_window fuel id s = Some (r, s1) ->
  it_type (cr_intent r) = INTENT_DESTROY_WINDOW /\ target_id (cr_intent r) = w_graph (win s i) /\
  windows s1 = arr_set (windows s) i (set_w_id [] (win s i)) /\ window_count s1 = window_count s.
Proof.
  intros Hf. unfold cmd_close_window, ui_state_get_window. rewrite Hf. intros Hr.
  apply bind_Some in Hr as ([it s2] & H2 & Hr). apply with_disp_same in H2 as [W2 C2]. cbv zeta in Hr.
  apply bind_Some in Hr as (s3 & H3 & Hr). apply print_same in H3 as [W3 C3]. injection Hr as <- <-.
  assert (Ew : win s2 i = win s i) by (unfold win; by rewrite W2). rewrite Ew in *. cbn in W3, C3.
  destruct it. cbn. split; [done|]. split; [done|]. split; [by rewrite W3, W2|congruence].
Qed.
End closing.

(** Closing a window takes another one with it: when the window that is
    closed shares its graph identifier with another open window, as all
    windows opened by the command line do, the command frees its slot and the
    intent it yields, executed next, frees the slot of the first other window
    with that identifier, while the counter goes down by one only. *)
Theorem close_window_closes_another {D E} `{PortIO D} `{VfsBackend E} fuel (s : ui D E) id i j r s1 :
  counted s -> find_window id s = Some i -> 0 <= j < MAX_WINDOWS -> j <> i -> w_used (win s j) = true -> w_graph (win s j) = w_graph (win s i) ->
  cmd_close_window fuel id s = Some (r, s1) ->
  exists k s2, ui_state_execute_intent (cr_intent r) s1 = Some (0, s2) /\ k <> i /\ w_used (win s k) = true /\
    w_used (win s2 i) = false /\ w_used (win s2 k) = false /\ window_count s2 = window_count s - 1.
Proof.
  intros Hs Hf Hj Hne Hu Hg Hc. pose proof (ct_windows s Hs) as Hl. apply found_range in Hf as Hi. destruct Hi as [Hi _]. unfold MAX_WINDOWS in *.
  destruct (close_result fuel id s i r s1 Hf Hc) as (Et & Eg & Ew & Ec).
  assert (Hwin : forall m, 0 <= m -> win s1 m = if i =? m then set_w_id [] (win s i) else win s m).
  { intros m Hm. unfold win at 1. rewrite Ew. destruct (Z.eqb_spec i m) as [->|]; [by rewrite arr_get_set_eq by lia|by rewrite arr_get_set_ne by lia]. }
  assert (Hfound : is_Some (find_window_by_graph_id (w_graph (win s i)) s1)).
  { apply (find_first_exists _ _ j); [apply elem_of_seqZ; unfold MAX_WINDOWS; lia|]. rewrite Hwin, (proj2 (Z.eqb_neq i j)) by lia. rewrite Hg, Z.eqb_refl, andb_true_r. exact Hu. }
  destruct Hfound as [k Hk]. exists k. pose proof Hk as Hk'. apply graph_window in Hk' as [Hkr Hku]. rewrite Hwin in Hku by lia.
  assert (Hki : k <> i).
  { intros ->. rewrite Z.eqb_refl in Hku. destruct (win s i). done. }
  rewrite (proj2 (Z.eqb_neq i k)) in Hku by lia.
  unfold ui_state_execute_intent. cbv zeta. rewrite Et, Eg. change (INTENT_DESTROY_WINDOW =? INTENT_CREATE_WINDOW) with false.
  rewrite Z.eqb_refl, Hk. cbn iota. eexists. split; [done|]. split; [done|]. split; [done|].
  assert (Hlen : len (windows s1) = 64) by (rewrite Ew, length_arr_set; exact Hl).
  split; [|split; [|cbn [window_count set_windows]; lia]].
  - unfold win. cbn [windows set_windows]. rewrite arr_get_set_ne by lia. fold (win s1 i). rewrite Hwin, Z.eqb_refl by lia. by destruct (win s i).
  - unfold win. cbn [windows set_windows]. rewrite arr_get_set_eq by lia. fold (win s1 k). by destruct (win s1 k).
Qed.

(** ** Opening a window *)

Lemma find_first_split {A} (f : A -> bool) l x : find_first f l = Some x <->
  exists l1 l2, l = l1 ++ x :: l2 /\ f x = true /\ forall y, y ∈ l1 -> f y = false.
Proof.
  split.
  - induction l as [|a l IH]; cbn [find_first]; [done|]. destruct (f a) eqn:Ea.
    + intros [= ->]. exists [], l. split; [done|]. split; [done|]. intros y Hy. by apply elem_of_nil in Hy.
    + intros Hx. destruct (IH Hx) as (l1 & l2 & -> & Hfx & Hall). exists (a :: l1), l2. split; [done|]. split; [done|].
      intros y Hy. apply elem_of_cons in Hy as [->|Hy]; [done|by apply Hall].
  - intros (l1 & l2 & -> & Hfx & Hall). induction l1 as [|a l1 IH]; cbn [app find_first]; [by rewrite Hfx|].
    rewrite (Hall a) by left. apply IH. intros y Hy. apply Hall. by right.
Qed.
Lemma seqZ_prefix_lt a n x (l1 l2 : list Z) : seqZ a n = l1 ++ x :: l2 -> forall y, y ∈ l1 -> a <= y < x.
Proof.
  intros Hs y Hy. assert (Hin : y ∈ seqZ a n) by (rewrite Hs; apply elem_of_app; by left). apply elem_of_seqZ in Hin.
  apply list_elem_of_lookup_1 in Hy as [k Hk]. pose proof (lookup_lt_Some _ _ _ Hk) as Hlt.
  assert (H1 : seqZ a n !! k = Some y) by (rewrite Hs; by apply lookup_app_l_Some). assert (H2 : seqZ a n !! length l1 = Some x) by (rewrite Hs; by rewrite lookup_app_r, Nat.sub_diag by lia).
  apply lookup_seqZ in H1, H2. lia.
Qed.

Lemma param1_copied it t rest : is_cstr t -> param1 it = t ++ 0 :: rest -> param1_str it = t.
Proof.
  intros Ht Hp. unfold param1_str, intent_bytes. rewrite Hp.
  rewrite (app_assoc _ (zeros 4)), (app_assoc _ (Bytes.le_bytes 8 (target_id it))).
  rewrite drop_app_length' by (by rewrite !length_app, !Bytes.length_le_bytes). rewrite <- app_assoc. by apply cstr_terminated.
Qed.
Lemma built_param1 {D E} `{PortIO D} fuel parent t (d d' : dispatcher D E) it : is_cstr t -> intent_create_window fuel parent t d = Some (it, d') ->
  it_type it = INTENT_CREATE_WINDOW /\ target_id it = parent /\ param1_str it = t.
Proof.
  intros Ht. unfold intent_create_window, strcpy256. destruct (256 <=? len t); [done|]. cbn [mbind option_bind]. intros Hr.
  apply bind_Some in Hr as ([now d1] & _ & Hr). apply (inj Some) in Hr. apply (f_equal fst) in Hr. cbn [fst] in Hr. subst it. split; [done|]. split; [done|].
  by apply (param1_copied _ t (drop (S (length t)) no_param)).
Qed.

(** Opening a window renames another one: all windows opened by the
    command line have graph identifier 0, and so has the intent of the
    command, so executing it gives the first open window the title of the new
    one when it lies before the free slot that the new one takes. *)
Theorem open_window_renames_first {D E} `{PortIO D} `{VfsBackend E} fuel (s : ui D E) app i j r s1 :
  counted s -> is_cstr app -> len app < 60 -> find_window_by_graph_id 0 s = Some i -> free_window s = Some j -> i < j ->
  cmd_open_window fuel app s = Some (r, s1) -> cr_success r = true ->
  exists s2, ui_state_execute_intent (cr_intent r) s1 = Some (0, s2) /\
    w_id (win s2 j) = zs "win_" ++ app /\ title (win s2 j) = app /\ w_id (win s2 i) = w_id (win s i) /\ title (win s2 i) = app.
Proof.
  intros Hs Happ Hlen Hf Hfree Hij Hc Hok. pose proof (ct_windows s Hs) as Hl. unfold MAX_WINDOWS in Hl. unfold cmd_open_window in Hc.
  rewrite (proj2 (Z.leb_gt _ _)) in Hc by lia. apply bind_Some in Hc as ([rr s0] & H1 & Hc).
  destruct (Z.leb_spec 0 rr) as [Hr0|]; [|injection Hc as <- _; done].
  apply bind_Some in Hc as ([it s3] & H3 & Hc). apply bind_Some in Hc as (s4 & H4 & Hc). injection Hc as <- <-. cbn [cr_intent succeeded].
  apply with_disp_same in H3 as Hsame3. destruct Hsame3 as [W3 C3]. apply print_same in H4 as [W4 C4].
  apply bind_Some in H3 as ([it' d'] & Hb & H3). injection H3 as <- <-. destruct (built_param1 fuel 0 app _ _ _ Happ Hb) as (Et & Eg & Ep).
  unfold ui_state_create_window in H1. destruct (_ <=? window_count s); [injection H1 as <- <-; lia|]. rewrite Hfree in H1.
  apply free_window_spec in Hfree as [Hj Hju].
  apply bind_Some in H1 as (id1 & Hid & H1). apply bind_Some in H1 as (t1 & Ht1 & H1). injection H1 as <- <-.
  unfold copy_str in Hid, Ht1. destruct (_ <=? _) in Hid; [done|]. destruct (_ <=? _) in Ht1; [done|]. injection Hid as <-. injection Ht1 as <-.
  cbn [windows set_windows] in W3. pose proof (graph_window _ _ _ Hf) as [Hi Hiu].
  set (nw := Window (zs "win_" ++ app) app 100 100 400 300 1 0 0 0) in *.
  assert (Hwin : forall m, 0 <= m -> win s4 m = if j =? m then nw else win s m).
  { intros m Hm. unfold win at 1. rewrite W4, W3. destruct (Z.eqb_spec j m) as [->|]; [by rewrite arr_get_set_eq by lia|by rewrite arr_get_set_ne by lia]. }
  assert (Hfirst : find_window_by_graph_id 0 s4 = Some i).
  { unfold find_window_by_graph_id, all_windows, MAX_WINDOWS in *. rewrite find_first_split in Hf |- *. destruct Hf as (l1 & l2 & El & Hi1 & Hl1).
    exists l1, l2. split; [done|]. split; [rewrite Hwin by lia; by rewrite (proj2 (Z.eqb_neq j i)) by lia|].
    intros m Hm. pose proof (seqZ_prefix_lt _ _ _ _ _ El m Hm) as Hmi. rewrite Hwin by lia. rewrite (proj2 (Z.eqb_neq j m)) by lia. by apply Hl1. }
  unfold ui_state_execute_intent. cbv zeta. rewrite Et, Z.eqb_refl. unfold exec_create_window. rewrite Eg, Hfirst, Ep.
  unfold copy_str, MAX_ID_LENGTH. rewrite (proj2 (Z.leb_gt 64 (len app))) by lia. cbn [mbind option_bind]. eexists. split; [done|].
  assert (Hlen4 : len (windows s4) = 64) by (rewrite W4, W3, length_arr_set; exact Hl).
  unfold win, put_win. cbn [windows set_windows]. rewrite (arr_get_set_ne _ _ i j) by lia. rewrite arr_get_set_eq by lia.
  fold (win s4 j) (win s4 i). rewrite !Hwin by lia. rewrite Z.eqb_refl, (proj2 (Z.eqb_neq j i)) by lia. fold (win s i). by destruct (win s i).
Qed.

(** ** Examples *)

Module Examples.
Import Fds.Examples.
#[local] Instance calm_ports : PortIO unit := Intent.Examples.calm_ports.
(** No window is open. *)
Definition blank_ui : ui unit unit :=
  ui_state_init (Ui (replicate 64 no_window) (replicate 1024 no_ui_node) (replicate 64 no_process) [] [] 0 0 0 Intent.Examples.warm).
Lemma blank_counted : counted blank_ui.
Proof. split; by vm_compute. Qed.
Definition some_uops : list uop := [UWindow (zs "a") (zs "A") 0 0 10 10; UNode (zs "n") 2 (zs "a"); UDelete (zs "n")].
Definition after_uops : Z * ui unit unit := default (1, blank_ui) (foldl (fun r o => '(_, s) ← r; run_uop o s) (Some (0, blank_ui)) some_uops).
Lemma ui_counts_used_witness : counted after_uops.2.
Proof.
  apply (ui_counts_used blank_ui some_uops blank_counted); [|by vm_compute].
  repeat constructor; try done; lia.
Defined.

(** One window open, then two. *)
Definition opened (app : cstring) (s : ui unit unit) : command_result * ui unit unit := default (failed [], s) (cmd_open_window 50 app s).
Definition one_open : ui unit unit := (opened (zs "a") blank_ui).2.
Definition two_open : ui unit unit := (opened (zs "b") one_open).2.
Lemma one_counted : counted one_open.
Proof. split; by vm_compute. Qed.
Lemma two_counted : counted two_open.
Proof. split; by vm_compute. Qed.
Lemma open_window_renames_first_witness :
  exists s2, ui_state_execute_intent (cr_intent (opened (zs "b") one_open).1) two_open = Some (0, s2) /\ title (win s2 0) = zs "b".
Proof.
  destruct (open_window_renames_first 50 one_open (zs "b") 0 1 (opened (zs "b") one_open).1 two_open one_counted) as (s2 & Hx & _ & _ & _ & Ht);
    [repeat constructor; lia|by vm_compute|by vm_compute|by vm_compute|lia|by vm_compute|by vm_compute|]. exact (ex_intro _ s2 (conj Hx Ht)).
Defined.
Definition closed_b : command_result * ui unit unit := default (failed [], two_open) (cmd_close_window 50 (zs "win_b") two_open).
Lemma close_window_closes_another_witness :
  exists k s2, ui_state_execute_intent (cr_intent closed_b.1) closed_b.2 = Some (0, s2) /\ k <> 1 /\ w_used (win two_open k) = true /\ w_used (win s2 k) = false.
Proof.
  destruct (close_window_closes_another 50 two_open (zs "win_b") 1 0 closed_b.1 closed_b.2 two_counted) as (k & s2 & Hx & Hk & Hu & _ & Hf & _);
    [by vm_compute|unfold MAX_WINDOWS; lia|lia|by vm_compute|by vm_compute|by vm_compute|]. exact (ex_intro _ k (ex_intro _ s2 (conj Hx (conj Hk (conj Hu Hf))))).
Defined.
End Examples.
