(* ===== verification/Usb.v ===== *)
(** * USB host controllers: src/src/drivers/usb_host.c and ehci.c

    The drivers share memory with the controller: every read of a transfer
    descriptor, a queue head or a buffer may see what the controller wrote
    meanwhile, so memory belongs to the device, which the class [DmaMem]
    gives access to; registers are ports.  Kernel memory is identity-mapped:
    virtual and physical addresses of the pools coincide.  Text written to
    the console is collected in [u_out], in order.  Delay loops do nothing.

    The code is written in a state monad; [None] is a loop that does not end
    within the fuel.  [Uhci] implements the interface [UsbOps] the keyboard
    driver is built on. *)

From S2P Require Import Prelude Pmm KHeap Bytes Disk Pci Text Input.
Set Warnings "-clear-no-such-hyp,-level-tolerance".

(** Little-endian accesses of [n] bytes to memory the device can reach. *)
Class DmaMem (D : Type) : Type := {
  dma_read : Z -> Z -> D -> Z * D;
  dma_write : Z -> Z -> Z -> D -> D
}.

Definition hex_text (n : Z) : list Z :=
  zs "0x" ++ ((fun i => arr_get 0 (zs "0123456789ABCDEF") ((n .>> (4 * i)) .& 15)) <$> rev (seqZ 0 16)).
Definition nl : list Z := [10].

Definition PCI_CLASS_SERIAL_BUS : Z := 12.
Definition PCI_SUBCLASS_USB : Z := 3.
Definition PCI_COMMAND : Z := 4.
Definition PCI_CMD_IO_SPACE : Z := 1.
Definition PCI_CMD_MEM_SPACE : Z := 2.
Definition PCI_CMD_BUS_MASTER : Z := 4.

Module Uhci.
Definition PCI_PROGIF_UHCI : Z := 0.
Definition MAX_DEVICES : Z := 16.
Definition FRAME_LIST_SIZE : Z := 1024.
Definition TD_POOL_SIZE : Z := 128.
Definition QH_POOL_SIZE : Z := 32.
Definition POLL_TIMEOUT : Z := 50000.
Definition TD_SIZE : Z := 32.
Definition QH_SIZE : Z := 16.

Definition UHCI_USBCMD : Z := 0.
Definition UHCI_USBSTS : Z := 2.
Definition UHCI_FRNUM : Z := 6.
Definition UHCI_FRBASEADD : Z := 8.
Definition UHCI_SOFMOD : Z := 12.
Definition UHCI_PORTSC1 : Z := 16.
Definition UHCI_PORTSC2 : Z := 18.
Definition UHCI_CMD_RS : Z := 1.
Definition UHCI_CMD_HCRESET : Z := 2.
Definition UHCI_CMD_CF : Z := 64.
Definition UHCI_STS_HCH : Z := 32.
Definition UHCI_PORT_CCS : Z := 1.
Definition UHCI_PORT_LSDA : Z := 256.
Definition UHCI_PORT_PR : Z := 512.
Definition UHCI_TD_ACTIVE : Z := 2147483648.    (* 0x80000000 *)
Definition UHCI_TD_STALLED : Z := 1073741824.   (* 0x40000000 *)
Definition UHCI_TD_BABBLE : Z := 134217728.     (* 0x08000000 *)
Definition UHCI_TD_TIMEOUT : Z := 67108864.     (* 0x04000000 *)
Definition UHCI_TD_BITSTUFF : Z := 33554432.    (* 0x02000000 *)
Definition UHCI_TD_PID_OUT : Z := 524288.       (* 0x00080000 *)
Definition UHCI_TD_PID_IN : Z := 4718592.       (* 0x00480000 *)
Definition UHCI_TD_PID_SETUP : Z := 2621440.    (* 0x00280000 *)
Definition UHCI_TD_IOC : Z := 16777216.         (* 0x01000000 *)
Definition UHCI_TD_LS : Z := 67108864.          (* 0x04000000 *)
Definition USB_SPEED_LOW : Z := 0.
Definition USB_SPEED_FULL : Z := 1.
Definition USB_DESC_DEVICE : Z := 1.
Definition USB_DESC_CONFIG : Z := 2.
Definition USB_DESC_INTERFACE : Z := 4.
Definition USB_DESC_ENDPOINT : Z := 5.
Definition USB_REQ_SET_ADDRESS : Z := 5.
Definition USB_REQ_GET_DESCRIPTOR : Z := 6.
Definition USB_REQ_SET_CONFIG : Z := 9.
Definition sizeof_device_desc : Z := 18.
(** A link with the terminate bit; the type bit of a queue head. *)
Definition TERMINATE : Z := 1.
Definition QH_TYPE : Z := 2.

Record uhci (D : Type) : Type := UhciState {
  u_dev : D;
  u_pmm : pmm;
  u_out : list Z;
  uhci_io_base : Z;
  uhci_found : bool;
  frame_list_phys : Z;
  td_pool_phys : Z;
  td_used : list Z;
  qh_pool_phys : Z;
  qh_used : list Z;
  dummy_qh_index : Z;
  devices : list usb_device;
  device_count : Z
}.
Arguments UhciState {D}.
Arguments u_dev {D}.
Arguments u_pmm {D}.
Arguments u_out {D}.
Arguments uhci_io_base {D}.
Arguments uhci_found {D}.
Arguments frame_list_phys {D}.
Arguments td_pool_phys {D}.
Arguments td_used {D}.
Arguments qh_pool_phys {D}.
Arguments qh_used {D}.
Arguments dummy_qh_index {D}.
Arguments devices {D}.
Arguments device_count {D}.

Section fields.
Context {D : Type}.
Implicit Types (s : uhci D).
Definition set_dev x s : uhci D := UhciState x (u_pmm s) (u_out s) (uhci_io_base s) (uhci_found s) (frame_list_phys s) (td_pool_phys s) (td_used s) (qh_pool_phys s) (qh_used s) (dummy_qh_index s) (devices s) (device_count s).
Definition set_pmm x s : uhci D := UhciState (u_dev s) x (u_out s) (uhci_io_base s) (uhci_found s) (frame_list_phys s) (td_pool_phys s) (td_used s) (qh_pool_phys s) (qh_used s) (dummy_qh_index s) (devices s) (device_count s).
Definition set_out x s : uhci D := UhciState (u_dev s) (u_pmm s) x (uhci_io_base s) (uhci_found s) (frame_list_phys s) (td_pool_phys s) (td_used s) (qh_pool_phys s) (qh_used s) (dummy_qh_index s) (devices s) (device_count s).
Definition set_io_base x s : uhci D := UhciState (u_dev s) (u_pmm s) (u_out s) x (uhci_found s) (frame_list_phys s) (td_pool_phys s) (td_used s) (qh_pool_phys s) (qh_used s) (dummy_qh_index s) (devices s) (device_count s).
Definition set_found x s : uhci D := UhciState (u_dev s) (u_pmm s) (u_out s) (uhci_io_base s) x (frame_list_phys s) (td_pool_phys s) (td_used s) (qh_pool_phys s) (qh_used s) (dummy_qh_index s) (devices s) (device_count s).
Definition set_frame_list x s : uhci D := UhciState (u_dev s) (u_pmm s) (u_out s) (uhci_io_base s) (uhci_found s) x (td_pool_phys s) (td_used s) (qh_pool_phys s) (qh_used s) (dummy_qh_index s) (devices s) (device_count s).
Definition set_td_pool x u s : uhci D := UhciState (u_dev s) (u_pmm s) (u_out s) (uhci_io_base s) (uhci_found s) (frame_list_phys s) x u (qh_pool_phys s) (qh_used s) (dummy_qh_index s) (devices s) (device_count s).
Definition set_qh_pool x u s : uhci D := UhciState (u_dev s) (u_pmm s) (u_out s) (uhci_io_base s) (uhci_found s) (frame_list_phys s) (td_pool_phys s) (td_used s) x u (dummy_qh_index s) (devices s) (device_count s).
Definition set_dummy x s : uhci D := UhciState (u_dev s) (u_pmm s) (u_out s) (uhci_io_base s) (uhci_found s) (frame_list_phys s) (td_pool_phys s) (td_used s) (qh_pool_phys s) (qh_used s) x (devices s) (device_count s).
Definition set_devices x n s : uhci D := UhciState (u_dev s) (u_pmm s) (u_out s) (uhci_io_base s) (uhci_found s) (frame_list_phys s) (td_pool_phys s) (td_used s) (qh_pool_phys s) (qh_used s) (dummy_qh_index s) x n.
Definition set_td_used u s : uhci D := set_td_pool (td_pool_phys s) u s.
Definition set_qh_used u s : uhci D := set_qh_pool (qh_pool_phys s) u s.
End fields.

(** The monad of the driver's code. *)
Definition M (D A : Type) : Type := uhci D -> option (A * uhci D).
#[export] Instance M_ret D : MRet (M D) := fun _ x s => Some (x, s).
#[export] Instance M_bind D : MBind (M D) := fun _ _ k m s => match m s with Some (x, s) => k x s | None => None end.

(** What the configuration descriptor told. *)
Record interface_info : Type := InterfaceInfo { ii_class : Z; ii_subclass : Z; ii_protocol : Z; ii_in : Z; ii_out : Z }.

Section driver.
Context {D : Type} `{PortIO D} `{PortIO32 D} `{DmaMem D} (fuel : nat).
Implicit Types (s : uhci D).
Local Abbreviation M := (M D).

Definition get {A} (f : uhci D -> A) : M A := fun s => Some (f s, s).
Definition modify (f : uhci D -> uhci D) : M unit := fun s => Some ((), f s).
Definition ask {A} (f : D -> A * D) : M A := fun s => let '(x, d) := f (u_dev s) in Some (x, set_dev d s).
Definition tell (f : D -> D) : M unit := modify (fun s => set_dev (f (u_dev s)) s).
Definition rd (n a : Z) : M Z := ask (dma_read n a).
Definition wr (n a v : Z) : M unit := tell (dma_write n a v).
Definition say (text : list Z) : M unit := modify (fun s => set_out (u_out s ++ text) s).
Definition alloc_page : M Z := fun s => let '(p, pm) := pmm_alloc_page (u_pmm s) in Some (p, set_pmm pm s).
Definition free_page (p : Z) : M unit := modify (fun s => set_pmm (pmm_free_page p (u_pmm s)) s).
Fixpoint each {A} (f : A -> M unit) (l : list A) : M unit := match l with [] => mret () | x :: l' => f x;; each f l' end.

(** ** The pools *)

Fixpoint first_free (used : list Z) (todo : list Z) : option Z :=
  match todo with [] => None | i :: todo' => if arr_get 0 used i =? 0 then Some i else first_free used todo' end.
Definition td_alloc : M Z :=
  used ← get td_used;
  match first_free used (seqZ 0 TD_POOL_SIZE) with
  | Some i => modify (set_td_used (arr_set used i 1));; mret i
  | None => say (zs "[USB] TD pool exhausted!" ++ nl);; mret (-1)
  end.
Definition td_free (index : Z) : M unit :=
  modify (fun s => if (0 <=? index) && (index <? TD_POOL_SIZE) then set_td_used (arr_set (td_used s) index 0) s else s).
Definition qh_alloc : M Z :=
  used ← get qh_used;
  match first_free used (seqZ 0 QH_POOL_SIZE) with
  | Some i => modify (set_qh_used (arr_set used i 1));; mret i
  | None => say (zs "[USB] QH pool exhausted!" ++ nl);; mret (-1)
  end.
Definition qh_free (index : Z) : M unit :=
  modify (fun s => if (0 <=? index) && (index <? QH_POOL_SIZE) then set_qh_used (arr_set (qh_used s) index 0) s else s).
(** The address of a descriptor, for the processor and for the controller. *)
Definition td_phys (index : Z) : M Z := get (fun s => u64 (td_pool_phys s + index * TD_SIZE)).
Definition qh_phys (index : Z) : M Z := get (fun s => u64 (qh_pool_phys s + index * QH_SIZE)).
Definition td_virt := td_phys.
Definition qh_virt := qh_phys.

(** Fields of a descriptor at [p]. *)
Definition td_link (p v : Z) : M unit := wr 4 p (u32 v).
Definition td_status (p v : Z) : M unit := wr 4 (p + 4) (u32 v).
Definition td_token (p v : Z) : M unit := wr 4 (p + 8) (u32 v).
Definition td_buffer (p v : Z) : M unit := wr 4 (p + 12) (u32 v).
Definition qh_link (p v : Z) : M unit := wr 4 p (u32 v).
Definition qh_element (p v : Z) : M unit := wr 4 (p + 4) (u32 v).

(** ** Waiting *)

Definition UHCI_REG16 (base reg : Z) : Z := u16 (base + reg).
Definition in16 (reg : Z) : M Z := base ← get uhci_io_base; ask (inw (UHCI_REG16 base reg)).
Definition out16 (reg v : Z) : M unit := base ← get uhci_io_base; tell (outw (UHCI_REG16 base reg) v).

Fixpoint wait_for_bit_clear (reg mask : Z) (timeout : nat) : M Z :=
  match timeout with
  | O => mret (-1)
  | S n => v ← in16 reg; if v .& mask =? 0 then mret 0 else wait_for_bit_clear reg mask n
  end.
Fixpoint wait_for_bit_set (reg mask : Z) (timeout : nat) : M Z :=
  match timeout with
  | O => mret (-1)
  | S n => v ← in16 reg; if negb (v .& mask =? 0) then mret 0 else wait_for_bit_set reg mask n
  end.
Fixpoint poll_td_complete (td : Z) (timeout : nat) : M Z :=
  match timeout with
  | O => mret (-2)
  | S n =>
      status ← rd 4 (td + 4);
      if status .& UHCI_TD_ACTIVE =? 0 then
        if negb (status .& (UHCI_TD_STALLED .| UHCI_TD_BABBLE .| UHCI_TD_TIMEOUT .| UHCI_TD_BITSTUFF) =? 0) then mret (-1)
        else mret ((status .>> 21) .& 2047)
      else poll_td_complete td n
  end.

(** ** usb_init *)

Definition fail (text : list Z) : M Z := say (text ++ nl);; modify (set_found false);; mret (-1).

(** The part after the pools exist: the schedule and the start. *)
Definition start_controller : M Z :=
  i ← qh_alloc;
  modify (set_dummy i);;
  dummy ← qh_virt i;
  qh_link dummy TERMINATE;;
  qh_element dummy TERMINATE;;
  fl ← get frame_list_phys;
  p ← qh_phys i;
  wr 4 fl (u32 p .| QH_TYPE);;
  base ← get uhci_io_base;
  tell (outl (UHCI_REG16 base UHCI_FRBASEADD) (u32 fl));;
  out16 UHCI_FRNUM 0;;
  tell (outb (UHCI_REG16 base UHCI_SOFMOD) 64);;
  out16 UHCI_USBCMD (UHCI_CMD_RS .| UHCI_CMD_CF);;
  _ ← wait_for_bit_clear UHCI_USBSTS UHCI_STS_HCH (Z.to_nat 10000);
  say (zs "[USB] UHCI controller running" ++ nl);;
  modify (set_found true);;
  mret 0.

Definition init_pools : M Z :=
  fl ← alloc_page;
  if fl =? 0 then fail (zs "[USB] Failed to allocate frame list page")
  else
    modify (set_frame_list fl);;
    each (fun i => wr 4 (fl + 4 * i) 1) (seqZ 0 FRAME_LIST_SIZE);;
    td ← alloc_page;
    if td =? 0 then
      say (zs "[USB] Failed to allocate TD pool" ++ nl);; free_page fl;; modify (set_found false);; mret (-1)
    else
      modify (set_td_pool td (replicate 128 0));;
      qh ← alloc_page;
      if qh =? 0 then
        say (zs "[USB] Failed to allocate QH pool" ++ nl);; free_page fl;; free_page td;; modify (set_found false);; mret (-1)
      else
        modify (set_qh_pool qh (replicate 32 0));;
        start_controller.

Definition usb_init : M Z :=
  say (zs "[USB] Scanning PCI for UHCI controller..." ++ nl);;
  found ← ask (pci_find_device PCI_CLASS_SERIAL_BUS PCI_SUBCLASS_USB PCI_PROGIF_UHCI);
  match found with
  | None => fail (zs "[USB] No UHCI controller found")
  | Some (bus, dev, func) =>
      say (zs "[USB] UHCI found at PCI " ++ hex_text bus ++ zs ":" ++ hex_text dev ++ zs "." ++ hex_text func ++ nl);;
      cmd ← ask (pci_read_word bus dev func PCI_COMMAND);
      tell (pci_write_dword bus dev func PCI_COMMAND (cmd .| (PCI_CMD_IO_SPACE .| PCI_CMD_BUS_MASTER)));;
      base ← ask (pci_get_io_bar bus dev func 0);
      modify (set_io_base base);;
      if base =? 0 then fail (zs "[USB] BAR0 is not an I/O BAR")
      else
        say (zs "[USB] I/O base: 0x" ++ hex_text base ++ nl);;
        out16 UHCI_USBCMD UHCI_CMD_HCRESET;;
        _ ← wait_for_bit_clear UHCI_USBCMD UHCI_CMD_HCRESET (Z.to_nat 10000);
        r ← wait_for_bit_set UHCI_USBSTS UHCI_STS_HCH (Z.to_nat 10000);
        (if negb (r =? 0) then say (zs "[USB] Controller not halted after reset" ++ nl) else mret ());;
        init_pools
  end.

(** ** Pieces of a transfer *)

(** [UHCI_TD_ACTIVE | (length << 21)]. *)
Definition active (length : Z) : Z := UHCI_TD_ACTIVE .| u32 (length .<< 21).
Definition token (pid addr endpoint : Z) : Z := pid .| (addr .<< 8) .| (endpoint .<< 15).

Definition setup_bytes (req : usb_request) : list Z :=
  [rq_type req; rq_request req; rq_value req .& 255; (rq_value req .>> 8) .& 255;
   rq_index req .& 255; (rq_index req .>> 8) .& 255; rq_length req .& 255; (rq_length req .>> 8) .& 255].
Definition put_bytes (p : Z) (l : list Z) : M unit :=
  each (fun ib => wr 1 (p + ib.1) ib.2) (zip (seqZ 0 (len l)) l).
Definition clear_bytes (p n : Z) : M unit := each (fun i => wr 1 (p + i) 0) (seqZ 0 n).
Fixpoint get_bytes (p : Z) (todo : list Z) : M (list Z) :=
  match todo with [] => mret [] | i :: todo' => b ← rd 1 (p + i); l ← get_bytes p todo'; mret (b :: l) end.

(** A descriptor with its fields stored in the order link, status, token, buffer. *)
Definition put_td (p link status tok buf : Z) : M unit :=
  td_link p link;; td_status p status;; td_token p tok;; td_buffer p buf.

(** [dummy_qh->link] is saved and pointed to the queue head. *)
Definition splice (qh : Z) : M (Z * Z) :=
  i ← get dummy_qh_index;
  dummy ← qh_virt i;
  old ← rd 4 dummy;
  p ← qh_phys qh;
  qh_link dummy (u32 p .| QH_TYPE);;
  mret (dummy, old).

(** ** usb_enumerate *)

Definition DEV_ADDR : Z := 1.

(** SET_ADDRESS; [false] is [continue]. *)
Definition set_address : M bool :=
  i1 ← td_alloc; i2 ← td_alloc; iq ← qh_alloc;
  if (i1 <? 0) || (i2 <? 0) || (iq <? 0) then
    say (zs "[USB] Out of TD/QH resources for SET_ADDRESS" ++ nl);; mret false
  else
    setup ← alloc_page;
    if setup =? 0 then td_free i1;; td_free i2;; qh_free iq;; mret false
    else
      put_bytes setup (setup_bytes (UsbRequest 0 USB_REQ_SET_ADDRESS DEV_ADDR 0 0));;
      t1 ← td_virt i1; t2 ← td_virt i2;
      p2 ← td_phys i2;
      put_td t1 p2 (active 2047) (token UHCI_TD_PID_SETUP DEV_ADDR 0) setup;;
      put_td t2 TERMINATE (active 2047) (token (UHCI_TD_PID_IN .| UHCI_TD_IOC) DEV_ADDR 0) setup;;
      q ← qh_virt iq;
      i ← get dummy_qh_index;
      pd ← qh_phys i; p1 ← td_phys i1;
      qh_link q (u32 pd .| QH_TYPE);;
      qh_element q p1;;
      '(dummy, old) ← splice iq;
      result ← poll_td_complete t2 (Z.to_nat 500000);
      (if result <? 0 then say (zs "[USB] SET_ADDRESS failed" ++ nl)
       else say (zs "[USB] SET_ADDRESS to " ++ put_dec DEV_ADDR ++ zs " OK" ++ nl));;
      qh_link dummy old;;
      qh_link q TERMINATE;;
      free_page setup;; td_free i1;; td_free i2;; qh_free iq;;
      mret true.

(** The three descriptors of a transfer that reads [in_len] bytes, and the
    wait: the saved link, its place and the result of the wait. *)
Definition run_in (i1 i2 i3 iq setup data : Z) (in_len : Z) : M (Z * Z * Z) :=
  t1 ← td_virt i1; t2 ← td_virt i2; t3 ← td_virt i3;
  p2 ← td_phys i2; p3 ← td_phys i3;
  put_td t1 p2 (active 2047) (token UHCI_TD_PID_SETUP DEV_ADDR 0) setup;;
  put_td t2 p3 (active in_len) (token UHCI_TD_PID_IN DEV_ADDR 0) data;;
  put_td t3 TERMINATE (active 2047) (token (UHCI_TD_PID_OUT .| UHCI_TD_IOC) DEV_ADDR 0) data;;
  q ← qh_virt iq; p1 ← td_phys i1;
  qh_link q TERMINATE;;
  qh_element q p1;;
  '(dummy, old) ← splice iq;
  result ← poll_td_complete t3 (Z.to_nat 500000);
  mret (dummy, old, result).
Definition release_in (i1 i2 i3 iq : Z) : M unit := td_free i1;; td_free i2;; td_free i3;; qh_free iq.

(** GET_DESCRIPTOR (device): the address of the data buffer, which has been
    given back, and the packet size; [None] is [continue]. *)
Definition get_device_descriptor : M (option (Z * Z)) :=
  i1 ← td_alloc; i2 ← td_alloc; i3 ← td_alloc; iq ← qh_alloc;
  if (i1 <? 0) || (i2 <? 0) || (i3 <? 0) || (iq <? 0) then
    say (zs "[USB] Out of resources for GET_DESCRIPTOR" ++ nl);; mret None
  else
    data ← alloc_page;
    if data =? 0 then release_in i1 i2 i3 iq;; mret None
    else
      setup ← alloc_page;
      if setup =? 0 then free_page data;; release_in i1 i2 i3 iq;; mret None
      else
        put_bytes setup (setup_bytes (UsbRequest 128 USB_REQ_GET_DESCRIPTOR (USB_DESC_DEVICE .<< 8) 0 sizeof_device_desc));;
        clear_bytes data 64;;
        '(dummy, old, result) ← run_in i1 i2 i3 iq setup data sizeof_device_desc;
        if result <? 0 then
          say (zs "[USB] GET_DESCRIPTOR (device) failed" ++ nl);;
          qh_link dummy old;;
          free_page data;; free_page setup;; release_in i1 i2 i3 iq;; mret None
        else
          max_pkt ← rd 1 (data + 7);
          vid ← rd 2 (data + 8);
          pid ← rd 2 (data + 10);
          say (zs "[USB] VID: 0x" ++ hex_text vid ++ zs " PID: 0x" ++ hex_text pid ++ zs " MaxPacket: " ++ put_dec max_pkt ++ nl);;
          qh_link dummy old;;
          free_page data;; free_page setup;; release_in i1 i2 i3 iq;;
          mret (Some (data, max_pkt)).

(** SET_CONFIGURATION. *)
Definition set_configuration : M bool :=
  i1 ← td_alloc; i2 ← td_alloc; iq ← qh_alloc;
  if (i1 <? 0) || (i2 <? 0) || (iq <? 0) then mret false
  else
    setup ← alloc_page;
    if setup =? 0 then td_free i1;; td_free i2;; qh_free iq;; mret false
    else
      put_bytes setup (setup_bytes (UsbRequest 0 USB_REQ_SET_CONFIG 1 0 0));;
      t1 ← td_virt i1; t2 ← td_virt i2;
      p2 ← td_phys i2;
      put_td t1 p2 (active 2047) (token UHCI_TD_PID_SETUP DEV_ADDR 0) setup;;
      put_td t2 TERMINATE (active 2047) (token (UHCI_TD_PID_IN .| UHCI_TD_IOC) DEV_ADDR 0) setup;;
      q ← qh_virt iq; p1 ← td_phys i1;
      qh_link q TERMINATE;;
      qh_element q p1;;
      '(dummy, old) ← splice iq;
      result ← poll_td_complete t2 (Z.to_nat 500000);
      qh_link dummy old;;
      free_page setup;; td_free i1;; td_free i2;; qh_free iq;;
      if result <? 0 then say (zs "[USB] SET_CONFIGURATION failed" ++ nl);; mret false else mret true.

(** The read of the configuration descriptor, up to the wait: [k] gets the
    data buffer and the result. *)
Definition get_config {A} (length clear in_len : Z) (k : Z -> Z -> M A) : M (option A) :=
  i1 ← td_alloc; i2 ← td_alloc; i3 ← td_alloc; iq ← qh_alloc;
  if (i1 <? 0) || (i2 <? 0) || (i3 <? 0) || (iq <? 0) then mret None
  else
    data ← alloc_page; setup ← alloc_page;
    if (data =? 0) || (setup =? 0) then free_page data;; free_page setup;; release_in i1 i2 i3 iq;; mret None
    else
      put_bytes setup (setup_bytes (UsbRequest 128 USB_REQ_GET_DESCRIPTOR (USB_DESC_CONFIG .<< 8) 0 length));;
      clear_bytes data clear;;
      '(dummy, old, result) ← run_in i1 i2 i3 iq setup data in_len;
      qh_link dummy old;;
      x ← k data result;
      free_page data;; free_page setup;; release_in i1 i2 i3 iq;;
      mret (Some x).

Definition total_length (data result : Z) : M Z :=
  if result <? 0 then mret 9
  else
    n ← rd 2 (data + 2);
    say (zs "[USB] Config descriptor total length: " ++ put_dec n ++ nl);;
    mret n.

(** The walk over the descriptors. *)
Definition see_interface (p desc_type desc_len : Z) (x : interface_info) : M interface_info :=
  if (desc_type =? USB_DESC_INTERFACE) && (9 <=? desc_len) then
    c ← rd 1 (p + 5); sc ← rd 1 (p + 6); pr ← rd 1 (p + 7);
    say (zs "[USB] Interface class: 0x" ++ hex_text c ++ zs " subclass: 0x" ++ hex_text sc ++ zs " protocol: 0x" ++ hex_text pr ++ nl);;
    mret (InterfaceInfo c sc pr (ii_in x) (ii_out x))
  else mret x.
Definition see_endpoint (p desc_type desc_len : Z) (x : interface_info) : M interface_info :=
  if (desc_type =? USB_DESC_ENDPOINT) && (7 <=? desc_len) then
    a ← rd 1 (p + 2);
    if negb (a .& 128 =? 0) then
      a ← rd 1 (p + 2);
      say (zs "[USB] IN endpoint: 0x" ++ hex_text a ++ nl);;
      mret (InterfaceInfo (ii_class x) (ii_subclass x) (ii_protocol x) a (ii_out x))
    else
      a ← rd 1 (p + 2);
      say (zs "[USB] OUT endpoint: 0x" ++ hex_text a ++ nl);;
      mret (InterfaceInfo (ii_class x) (ii_subclass x) (ii_protocol x) (ii_in x) a)
  else mret x.
Fixpoint parse_config (n : nat) (ptr total offset : Z) (x : interface_info) : M interface_info :=
  if offset <? total then
    match n with
    | O => fun _ => None
    | S n' =>
        desc_len ← rd 1 (ptr + offset);
        desc_type ← rd 1 (ptr + offset + 1);
        if desc_len =? 0 then mret x
        else
          x ← see_interface (ptr + offset) desc_type desc_len x;
          x ← see_endpoint (ptr + offset) desc_type desc_len x;
          parse_config n' ptr total (u16 (offset + desc_len)) x
    end
  else mret x.
Definition no_interface : interface_info := InterfaceInfo 0 0 0 129 1.

Definition add_device (speed desc max_pkt : Z) (x : interface_info) : M unit :=
  n ← get device_count;
  if n <? MAX_DEVICES then
    vid ← rd 2 (desc + 8);
    pid ← rd 2 (desc + 10);
    modify (fun s => set_devices (arr_set (devices s) n
      (UsbDevice DEV_ADDR speed 1 0 vid pid (ii_class x) (ii_subclass x) (ii_protocol x) max_pkt 2 (ii_in x) (ii_out x))) (n + 1) s);;
    say (zs "[USB] Device enumerated OK" ++ nl)
  else mret ().

(** The requests to a device that has been reset. *)
Definition enumerate_device (speed : Z) : M unit :=
  ok ← set_address;
  if negb ok then mret ()
  else
    r ← get_device_descriptor;
    match r with
    | None => mret ()
    | Some (desc, max_pkt) =>
        ok ← set_configuration;
        if negb ok then mret ()
        else
          r ← get_config 9 64 9 total_length;
          match r with
          | None => mret ()
          | Some total =>
              r ← get_config total 512 (Z.min total 2047)
                    (fun data result => if result <? 0 then mret no_interface else parse_config fuel data total 0 no_interface);
              match r with
              | None => mret ()
              | Some x => add_device speed desc max_pkt x
              end
          end
    end.

Definition enumerate_port (port : Z) : M unit :=
  let reg := if port =? 1 then UHCI_PORTSC1 else UHCI_PORTSC2 in
  port_sc ← in16 reg;
  if port_sc .& UHCI_PORT_CCS =? 0 then say (zs "[USB] Port " ++ put_dec port ++ zs ": no device" ++ nl)
  else
    say (zs "[USB] Port " ++ put_dec port ++ zs ": device detected" ++ nl);;
    out16 reg UHCI_PORT_PR;;
    out16 reg 0;;
    port_sc ← in16 reg;
    if negb (port_sc .& UHCI_PORT_LSDA =? 0) then
      say (zs "[USB] Low-speed device" ++ nl);; enumerate_device USB_SPEED_LOW
    else say (zs "[USB] Full-speed device" ++ nl);; enumerate_device USB_SPEED_FULL.

Definition usb_enumerate : M Z :=
  found ← get uhci_found;
  if negb found then mret (-1)
  else
    say (zs "[USB] Enumerating devices..." ++ nl);;
    modify (fun s => set_devices (devices s) 0 s);;
    each enumerate_port [1; 2];;
    n ← get device_count;
    say (zs "[USB] Enumeration complete: " ++ put_dec n ++ zs " device(s)" ++ nl);;
    mret n.

(** ** usb_find_device, usb_get_device *)

Fixpoint find_class (dev_class : Z) (todo : list Z) (l : list usb_device) : option usb_device :=
  match todo with
  | [] => None
  | i :: todo' => d ← l !! Z.to_nat i; if ud_class d =? dev_class then Some d else find_class dev_class todo' l
  end.
Definition usb_find_device (dev_class : Z) s : option usb_device := find_class dev_class (seqZ 0 (device_count s)) (devices s).
Definition usb_get_device_count s : Z := device_count s.
Definition usb_get_device (index : Z) s : option usb_device :=
  if (0 <=? index) && (index <? device_count s) then devices s !! Z.to_nat index else None.

(** ** usb_control_transfer *)

(** The data stage and the status stage. *)
Definition put_stages (t2 t3 p3 addr length setup data : Z) (dir_in : bool) : M unit :=
  td_link t2 p3;;
  td_buffer t2 data;;
  td_status t2 (active length);;
  td_token t2 (if dir_in then token UHCI_TD_PID_IN addr 1 else token UHCI_TD_PID_OUT addr 1);;
  td_link t3 TERMINATE;;
  td_status t3 (active 2047);;
  td_buffer t3 (if data =? 0 then setup else data);;
  td_token t3 (if dir_in || (length =? 0) then token (UHCI_TD_PID_OUT .| UHCI_TD_IOC) addr 1
               else token (UHCI_TD_PID_IN .| UHCI_TD_IOC) addr 1).

(** Setting up, waiting and copying back; the result and the caller's buffer. *)
Definition control_run (i1 i2 i3 iq setup data_phys : Z) (addr : Z) (req : usb_request) (data : option (list Z)) (length : Z)
    : M (Z * list Z) :=
  let dir_in := negb (rq_type req .& 128 =? 0) in
  t1 ← td_virt i1; t2 ← td_virt i2; t3 ← td_virt i3;
  p1 ← td_phys i1; p2 ← td_phys i2; p3 ← td_phys i3;
  put_td t1 p2 (active 2047) (token UHCI_TD_PID_SETUP addr 0) setup;;
  put_stages t2 t3 p3 addr length setup data_phys dir_in;;
  q ← qh_virt iq;
  qh_link q TERMINATE;;
  qh_element q p1;;
  '(dummy, saved) ← splice iq;
  poll_result ← poll_td_complete t3 (Z.to_nat (POLL_TIMEOUT * 2));
  qh_link dummy saved;;
  qh_link q TERMINATE;;
  let old := default [] data in
  if 0 <=? poll_result then
    if dir_in && negb (data_phys =? 0) && bool_decide (is_Some data) then
      l ← get_bytes data_phys (seqZ 0 length); mret (length, l ++ drop (Z.to_nat length) old)
    else mret (length, old)
  else mret (-1, old).

Definition usb_control_transfer (dev : option usb_device) (req : option usb_request) (data : option (list Z)) (length : Z)
    : M (Z * list Z) :=
  let old := default [] data in
  found ← get uhci_found;
  match dev, req with
  | Some dev, Some req =>
      if negb found || (ud_address dev =? 0) then mret (-1, old)
      else
        i1 ← td_alloc; i2 ← td_alloc; i3 ← td_alloc; iq ← qh_alloc;
        if (i1 <? 0) || (i2 <? 0) || (i3 <? 0) || (iq <? 0) then release_in i1 i2 i3 iq;; mret (-1, old)
        else
          setup ← alloc_page;
          if setup =? 0 then release_in i1 i2 i3 iq;; mret (-1, old)
          else
            put_bytes setup (setup_bytes req);;
            let run data_phys :=
              r ← control_run i1 i2 i3 iq setup data_phys (ud_address dev) req data length;
              free_page setup;;
              (if data_phys =? 0 then mret () else free_page data_phys);;
              release_in i1 i2 i3 iq;;
              mret r in
            match data with
            | Some bytes =>
                if 0 <? length then
                  data_phys ← alloc_page;
                  if data_phys =? 0 then free_page setup;; release_in i1 i2 i3 iq;; mret (-1, old)
                  else put_bytes data_phys (take (Z.to_nat length) bytes);; run data_phys
                else run 0
            | None => run 0
            end
  | _, _ => mret (-1, old)
  end.

(** ** usb_interrupt_transfer *)

Definition interrupt_token (dev : usb_device) (endpoint : Z) (is_in : bool) : Z :=
  let t := UHCI_TD_IOC .| (ud_address dev .<< 8) .| ((endpoint .& 15) .<< 15) in
  let t := if is_in then t .| UHCI_TD_PID_IN else t .| UHCI_TD_PID_OUT in
  if ud_speed dev =? USB_SPEED_LOW then t .| UHCI_TD_LS else t.

(** The descriptor, the queue head, the wait and the copy back. *)
Definition interrupt_run (i iq buf : Z) (dev : usb_device) (endpoint : Z) (is_in : bool) (old : list Z) (length : Z) : M (Z * list Z) :=
  t ← td_virt i;
  td_link t TERMINATE;;
  td_status t (active length);;
  td_buffer t buf;;
  td_token t (interrupt_token dev endpoint is_in);;
  q ← qh_virt iq; p ← td_phys i;
  qh_link q TERMINATE;;
  qh_element q p;;
  '(dummy, saved) ← splice iq;
  poll_result ← poll_td_complete t (Z.to_nat POLL_TIMEOUT);
  qh_link dummy saved;;
  qh_link q TERMINATE;;
  if 0 <? poll_result then
    l ← get_bytes buf (seqZ 0 (Z.min poll_result length));
    mret (poll_result, l ++ drop (Z.to_nat (Z.min poll_result length)) old)
  else mret (if poll_result =? 0 then (0, old) else (-1, old)).

Definition usb_interrupt_transfer (dev : option usb_device) (endpoint : Z) (data : option (list Z)) (length : Z)
    : M (Z * list Z) :=
  let old := default [] data in
  found ← get uhci_found;
  match dev, data with
  | Some dev, Some bytes =>
      if negb found || (length =? 0) || (64 <? length) then mret (-1, old)
      else
        i ← td_alloc; iq ← qh_alloc;
        if (i <? 0) || (iq <? 0) then td_free i;; qh_free iq;; mret (-1, old)
        else
          buf ← alloc_page;
          if buf =? 0 then td_free i;; qh_free iq;; mret (-1, old)
          else
            let is_in := negb (endpoint .& 128 =? 0) in
            (if is_in then clear_bytes buf length else put_bytes buf (take (Z.to_nat length) bytes));;
            r ← interrupt_run i iq buf dev endpoint is_in old length;
            free_page buf;; td_free i;; qh_free iq;;
            mret r
  | _, _ => mret (-1, old)
  end.
End driver.

(** What the keyboard driver sees: a transfer's length is that of its buffer. *)
#[export] Instance uhci_ops {D} `{PortIO D} `{PortIO32 D} `{DmaMem D} (fuel : nat) : UsbOps (uhci D) := {
  usb_init u := usb_init u;
  usb_enumerate u := usb_enumerate fuel u;
  usb_find_device c u := usb_find_device c u;
  usb_interrupt_transfer dev ep n u :=
    match usb_interrupt_transfer (Some dev) ep (Some (replicate (Z.to_nat n) 0)) n u with Some (r, l, u) => Some (r, l, u) | None => None end;
  usb_control_transfer dev req data u :=
    match usb_control_transfer (Some dev) (Some req) (Some data) (len data) u with Some (r, l, u) => Some (r, l, u) | None => None end
}.

(** ** Weakest preconditions of driver code *)

Definition wp {D A} (m : M D A) (Q : A -> uhci D -> Prop) (s : uhci D) : Prop :=
  match m s with Some (x, s') => Q x s' | None => False end.

Section wp.
Context {D : Type} `{PortIO D} `{PortIO32 D} `{DmaMem D}.
Implicit Types (s : uhci D).

Lemma wp_bind {A B} (m : M D A) (k : A -> M D B) Q s : wp m (fun x => wp (k x) Q) s -> wp (x ← m; k x) Q s.
Proof. unfold wp, mbind, M_bind. by destruct (m s) as [[x s']|]. Qed.
Lemma wp_mono {A} (m : M D A) (Q Q' : A -> uhci D -> Prop) s :
  wp m Q s -> (forall x s', Q x s' -> Q' x s') -> wp m Q' s.
Proof. unfold wp. destruct (m s) as [[x s']|]; [eauto|done]. Qed.
Lemma wp_each {A} (f : A -> M D unit) (I : uhci D -> Prop) l :
  (forall x s, x ∈ l -> I s -> wp (f x) (fun _ => I) s) -> forall s, I s -> wp (each f l) (fun _ => I) s.
Proof.
  induction l as [|x l IH]; intros Hf s Hs; cbn [each]; [done|]. apply wp_bind.
  eapply wp_mono; [apply Hf; [left|done]|]. intros [] s' Hs'. apply IH; [|done]. intros y s1 Hy. apply Hf. by right.
Qed.

(** Code that changes only the device and the text written. *)
Definition quiet {A} (m : M D A) : Prop := forall s, wp m (fun _ s' => s' = set_out (u_out s') (set_dev (u_dev s') s)) s.

Lemma quiet_ret {A} (x : A) : quiet (mret x).
Proof. intros []. done. Qed.
Lemma quiet_bind {A B} (m : M D A) (k : A -> M D B) : quiet m -> (forall x, quiet (k x)) -> quiet (x ← m; k x).
Proof.
  intros Hm Hk s. apply wp_bind. eapply wp_mono; [apply Hm|]. intros x s' Hs. eapply wp_mono; [apply Hk|].
  intros y s2 Hs2. cbn beta. rewrite Hs2. rewrite Hs. by destruct s2.
Qed.
Lemma quiet_get {A} (f : uhci D -> A) : quiet (get f).
Proof. intros []. done. Qed.
Lemma quiet_ask {A} (f : D -> A * D) : quiet (ask f).
Proof. intros []. unfold wp, ask. cbn. by destruct (f _). Qed.
Lemma quiet_tell (f : D -> D) : quiet (tell f).
Proof. intros []. done. Qed.
Lemma quiet_say l : quiet (say l).
Proof. intros []. done. Qed.
Lemma quiet_each {A} (f : A -> M D unit) l : (forall x, quiet (f x)) -> quiet (each f l).
Proof. intros Hf. induction l; cbn [each]; [apply quiet_ret|]. by apply quiet_bind. Qed.
End wp.

Create HintDb usb discriminated.
#[export] Hint Constants Opaque : usb.
#[export] Hint Resolve quiet_ret quiet_get quiet_ask quiet_tell quiet_say : usb.
Ltac quiet :=
  repeat (intros; cbv zeta; lazymatch goal with
    | |- quiet (_ ← _; _) => apply quiet_bind
    | |- quiet (if ?b then _ else _) => destruct b
    | |- quiet (match ?x with (_, _) => _ end) => destruct x
    | |- quiet (match ?x with Some _ => _ | None => _ end) => destruct x
    | |- quiet (each _ _) => apply quiet_each
    | |- quiet _ => solve [auto with usb]
    end).

Section quiet.
Context {D : Type} `{PortIO D} `{PortIO32 D} `{DmaMem D}.
Lemma quiet_rd n a : quiet (D:=D) (rd n a).
Proof. apply quiet_ask. Qed.
Lemma quiet_wr n a v : quiet (D:=D) (wr n a v).
Proof. apply quiet_tell. Qed.
#[local] Hint Resolve quiet_rd quiet_wr : usb.
Lemma quiet_td_phys i : quiet (D:=D) (td_phys i).
Proof. apply quiet_get. Qed.
Lemma quiet_qh_phys i : quiet (D:=D) (qh_phys i).
Proof. apply quiet_get. Qed.
Lemma quiet_td_link p v : quiet (D:=D) (td_link p v).
Proof. apply quiet_wr. Qed.
Lemma quiet_td_status p v : quiet (D:=D) (td_status p v).
Proof. apply quiet_wr. Qed.
Lemma quiet_td_token p v : quiet (D:=D) (td_token p v).
Proof. apply quiet_wr. Qed.
Lemma quiet_td_buffer p v : quiet (D:=D) (td_buffer p v).
Proof. apply quiet_wr. Qed.
#[local] Hint Resolve quiet_td_link quiet_td_status quiet_td_token quiet_td_buffer : usb.
Lemma quiet_put_td p a b c e : quiet (D:=D) (put_td p a b c e).
Proof. unfold put_td. quiet. Qed.
Lemma quiet_put_bytes p l : quiet (D:=D) (put_bytes p l).
Proof. unfold put_bytes. quiet. Qed.
Lemma quiet_clear_bytes p n : quiet (D:=D) (clear_bytes p n).
Proof. unfold clear_bytes. quiet. Qed.
Lemma quiet_get_bytes p l : quiet (D:=D) (get_bytes p l).
Proof. induction l as [|i l IH]; cbn [get_bytes]; quiet. Qed.
Lemma quiet_poll td n : quiet (D:=D) (poll_td_complete td n).
Proof. induction n as [|n IH]; cbn [poll_td_complete]; quiet. Qed.
Lemma quiet_qh_link p v : quiet (D:=D) (qh_link p v).
Proof. apply quiet_wr. Qed.
Lemma quiet_qh_element p v : quiet (D:=D) (qh_element p v).
Proof. apply quiet_wr. Qed.
#[local] Hint Resolve quiet_td_phys quiet_qh_phys quiet_qh_link : usb.
Lemma quiet_splice q : quiet (D:=D) (splice q).
Proof. unfold splice, qh_virt. quiet. Qed.
Lemma quiet_stages a b c e f g h i : quiet (D:=D) (put_stages a b c e f g h i).
Proof. unfold put_stages. quiet. Qed.
#[local] Hint Resolve quiet_put_td quiet_poll quiet_splice quiet_stages quiet_qh_element quiet_get_bytes : usb.
Lemma quiet_run_in a b c e f g h : quiet (D:=D) (run_in a b c e f g h).
Proof. unfold run_in, td_virt, qh_virt. quiet. Qed.
Lemma quiet_control_run a b c e f g h r l n : quiet (D:=D) (control_run a b c e f g h r l n).
Proof. unfold control_run, td_virt, qh_virt. quiet. Qed.
Lemma quiet_interrupt_run a b c e f g h i : quiet (D:=D) (interrupt_run a b c e f g h i).
Proof. unfold interrupt_run, td_virt, qh_virt. quiet. Qed.
Lemma quiet_total d r : quiet (D:=D) (total_length d r).
Proof. unfold total_length. quiet. Qed.
Lemma quiet_in16 reg : quiet (D:=D) (in16 reg).
Proof. unfold in16. quiet. Qed.
Lemma quiet_out16 reg v : quiet (D:=D) (out16 reg v).
Proof. unfold out16. quiet. Qed.
End quiet.
#[export] Hint Resolve quiet_rd quiet_wr quiet_td_link quiet_td_status quiet_td_token quiet_td_buffer quiet_td_phys quiet_qh_phys quiet_put_td quiet_put_bytes quiet_clear_bytes
  quiet_get_bytes quiet_poll quiet_qh_link quiet_qh_element quiet_splice quiet_stages quiet_run_in quiet_control_run quiet_interrupt_run
  quiet_total quiet_in16 quiet_out16 : usb.

#[global] Opaque poll_td_complete wait_for_bit_clear wait_for_bit_set.

(** ** What a transfer takes it gives back

    From a state [s0], code keeps [T] and [Q], the descriptors it has taken
    from the pools, and [P], the pages it has taken; the page allocator has
    gone through a legal history ([pmm_step]). *)

Definition mark (T : gset Z) (l : list Z) : list Z := imap (fun k x => if decide (Z.of_nat k ∈ T) then 1 else x) l.

Lemma lookup_mark T l k : mark T l !! k = (fun x => if decide (Z.of_nat k ∈ T) then 1 else x) <$> l !! k.
Proof. apply list_lookup_imap. Qed.
Lemma mark_empty l : mark ∅ l = l.
Proof. apply list_eq. intros k. rewrite lookup_mark. by destruct (l !! k). Qed.
Lemma mark_take T l i : 0 <= i < len l -> arr_set (mark T l) i 1 = mark ({[i]} ∪ T) l.
Proof.
  intros Hi. apply list_eq. intros k. unfold arr_set. rewrite lookup_mark.
  assert (Hl : length (mark T l) = length l) by apply length_imap.
  destruct (decide (k = Z.to_nat i)) as [->|Hne].
  - rewrite list_lookup_insert_eq by lia. destruct (lookup_lt_is_Some_2 l (Z.to_nat i)) as [x ->]; [lia|].
    cbn. rewrite decide_True; [done|]. rewrite Z2Nat.id by lia. set_solver.
  - rewrite list_lookup_insert_ne, lookup_mark by done. destruct (l !! k); [|done]. cbn. f_equal.
    apply decide_ext. rewrite elem_of_union, elem_of_singleton. split; [by right|]. intros [?|?]; [lia|done].
Qed.
Lemma mark_release T l i : l !! Z.to_nat i = Some 0 -> 0 <= i -> arr_set (mark T l) i 0 = mark (T ∖ {[i]}) l.
Proof.
  intros Hl Hi. apply list_eq. intros k. unfold arr_set. rewrite lookup_mark.
  destruct (decide (k = Z.to_nat i)) as [->|Hne].
  - rewrite list_lookup_insert_eq; [|unfold mark; rewrite length_imap; by eapply lookup_lt_Some].
    rewrite Hl. cbn. rewrite decide_False; [done|]. rewrite Z2Nat.id by lia. set_solver.
  - rewrite list_lookup_insert_ne, lookup_mark by done. destruct (l !! k); [|done]. cbn. f_equal.
    apply decide_ext. rewrite elem_of_difference, elem_of_singleton. split; [|by intros [? _]]. intros ?. split; [done|lia].
Qed.

Lemma first_free_spec used todo i : first_free used todo = Some i -> i ∈ todo /\ arr_get 0 used i = 0.
Proof.
  induction todo as [|j todo IH]; cbn [first_free]; [done|]. if_all; zbool.
  - intros [= <-]. split; [left|done].
  - intros Hi. destruct (IH Hi). split; [by right|done].
Qed.
Lemma first_free_none used todo i : first_free used todo = None -> i ∈ todo -> arr_get 0 used i <> 0.
Proof.
  induction todo as [|j todo IH]; cbn [first_free]; [by intros _ ?%elem_of_nil|]. if_all; zbool; [done|].
  intros Hn [->|Hi]%elem_of_cons; [done|]. by apply IH.
Qed.

Section resources.
Context {D : Type} `{PortIO D} `{PortIO32 D} `{DmaMem D}.
Context (s0 : uhci D) (own : gset Z) (pages : bool).
Hypothesis (Htd : length (td_used s0) = 128%nat) (Hqh : length (qh_used s0) = 32%nat)
  (Hown : pages = true -> client_inv (u_pmm s0, own)).
Implicit Types (s : uhci D) (T Q P : gset Z).

Definition free_in (l : list Z) T : Prop := forall i, i ∈ T -> 0 <= i /\ l !! Z.to_nat i = Some 0.
(** The fields no transfer changes. *)
Definition core s :=
  (uhci_io_base s, uhci_found s, frame_list_phys s, td_pool_phys s, qh_pool_phys s, (dummy_qh_index s, devices s, device_count s)).

Record holds T Q P s : Prop := {
  h_core : core s = core s0;
  h_td : td_used s = mark T (td_used s0); h_tdf : free_in (td_used s0) T;
  h_qh : qh_used s = mark Q (qh_used s0); h_qhf : free_in (qh_used s0) Q;
  h_pages : pages = true -> own ## P /\ rtc pmm_step (u_pmm s0, own) (u_pmm s, (own ∪ P))
}.

Lemma holds_start : holds ∅ ∅ ∅ s0.
Proof.
  split; rewrite ?mark_empty; try done. intros _. split; [set_solver|]. by rewrite union_empty_r_L.
Qed.

Lemma holds_quiet {A} (m : M D A) T Q P s : quiet m -> holds T Q P s -> wp m (fun _ => holds T Q P) s.
Proof. intros Hm [? ? ? ? ? ?]. eapply wp_mono; [apply Hm|]. cbn beta. intros x s' ->. by split. Qed.

Lemma free_in_take l T i n : length l = n -> free_in l T -> 0 <= i < Z.of_nat n -> arr_get 0 (mark T l) i = 0 ->
  i ∉ T /\ free_in l ({[i]} ∪ T).
Proof.
  intros Hn Hf Hi Hg. unfold arr_get in Hg. rewrite lookup_mark in Hg.
  destruct (lookup_lt_is_Some_2 l (Z.to_nat i)) as [x Hx]; [lia|]. rewrite Hx in Hg. cbn in Hg.
  rewrite Z2Nat.id in Hg by lia. destruct (decide (i ∈ T)) as [|Hni]; [done|]. split; [done|].
  intros k [->%elem_of_singleton|Hk]%elem_of_union; [|by apply Hf]. split; [lia|]. by rewrite Hx, Hg.
Qed.

(** Allocation: the pool is used up, or a descriptor is taken. *)
Lemma holds_td_alloc T Q P s : holds T Q P s ->
  wp td_alloc (fun i s' => (i = -1 /\ (forall k, 0 <= k < 128 -> arr_get 0 (mark T (td_used s0)) k <> 0) /\ holds T Q P s') \/
    (0 <= i < 128 /\ i <> -1 /\ i ∉ T /\ holds ({[i]} ∪ T) Q P s')) s.
Proof.
  intros [Hc Ht Htf Hq Hqf Hp]. unfold td_alloc. apply wp_bind. unfold wp at 1, get.
  destruct (first_free _ _) as [i|] eqn:Ei; apply wp_bind; unfold wp, say, modify, mret, M_ret; cbn.
  - apply first_free_spec in Ei as [Hi Hf]. apply elem_of_seqZ in Hi. unfold TD_POOL_SIZE in Hi. rewrite Ht in Hf.
    destruct (free_in_take _ T i _ Htd Htf) as [Hni Hf']; [lia|done|]. right. split; [lia|]. split; [lia|]. split; [done|]. split; try done.
    cbn. rewrite Ht. apply mark_take. lia.
  - left. split; [done|]. split; [|done].
    intros k Hk. rewrite <- Ht. eapply first_free_none; [done|]. apply elem_of_seqZ. unfold TD_POOL_SIZE. lia.
Qed.
Lemma holds_qh_alloc T Q P s : holds T Q P s ->
  wp qh_alloc (fun i s' => (i = -1 /\ (forall k, 0 <= k < 32 -> arr_get 0 (mark Q (qh_used s0)) k <> 0) /\ holds T Q P s') \/
    (0 <= i < 32 /\ i <> -1 /\ i ∉ Q /\ holds T ({[i]} ∪ Q) P s')) s.
Proof.
  intros [Hc Ht Htf Hq Hqf Hp]. unfold qh_alloc. apply wp_bind. unfold wp at 1, get.
  destruct (first_free _ _) as [i|] eqn:Ei; apply wp_bind; unfold wp, say, modify, mret, M_ret; cbn.
  - apply first_free_spec in Ei as [Hi Hf]. apply elem_of_seqZ in Hi. unfold QH_POOL_SIZE in Hi. rewrite Hq in Hf.
    destruct (free_in_take _ Q i _ Hqh Hqf) as [Hni Hf']; [lia|done|]. right. split; [lia|]. split; [lia|]. split; [done|]. split; try done.
    cbn. rewrite Hq. apply mark_take. lia.
  - left. split; [done|]. split; [|done].
    intros k Hk. rewrite <- Hq. eapply first_free_none; [done|]. apply elem_of_seqZ. unfold QH_POOL_SIZE. lia.
Qed.

Lemma free_in_drop l T i : free_in l T -> free_in l (T ∖ {[i]}).
Proof. intros Hf k Hk. apply Hf. set_solver. Qed.
Lemma free_in_neg l T i : free_in l T -> i < 0 -> T ∖ {[i]} = T.
Proof. intros Hf Hi. apply set_eq. intros k. split; [set_solver|]. intros Hk. destruct (Hf k Hk). set_solver by lia. Qed.
Lemma holds_td_free i T Q P s : holds T Q P s -> i ∈ T \/ i < 0 -> wp (td_free i) (fun _ => holds (T ∖ {[i]}) Q P) s.
Proof.
  intros [Hc Ht Htf Hq Hqf Hp] Hi. unfold wp, td_free, modify, TD_POOL_SIZE. destruct Hi as [Hi|Hi].
  - destruct (Htf i Hi) as [Hge Hl]. pose proof (lookup_lt_Some _ _ _ Hl).
    rewrite (proj2 (Z.leb_le 0 i)), (proj2 (Z.ltb_lt i 128)) by lia. cbn [andb].
    split; try done; [|by apply free_in_drop]. cbn. rewrite Ht. by apply mark_release.
  - rewrite (proj2 (Z.leb_gt 0 i)) by lia. cbn [andb]. rewrite (free_in_neg _ _ _ Htf) by done. done.
Qed.
Lemma holds_qh_free i T Q P s : holds T Q P s -> i ∈ Q \/ i < 0 -> wp (qh_free i) (fun _ => holds T (Q ∖ {[i]}) P) s.
Proof.
  intros [Hc Ht Htf Hq Hqf Hp] Hi. unfold wp, qh_free, modify, QH_POOL_SIZE. destruct Hi as [Hi|Hi].
  - destruct (Hqf i Hi) as [Hge Hl]. pose proof (lookup_lt_Some _ _ _ Hl).
    rewrite (proj2 (Z.leb_le 0 i)), (proj2 (Z.ltb_lt i 32)) by lia. cbn [andb].
    split; try done; [|by apply free_in_drop]. cbn. rewrite Hq. by apply mark_release.
  - rewrite (proj2 (Z.leb_gt 0 i)) by lia. cbn [andb]. rewrite (free_in_neg _ _ _ Hqf) by done. done.
Qed.

Lemma client_inv_rtc st st' : rtc pmm_step st st' -> client_inv st -> client_inv st'.
Proof. induction 1 as [|x y z Hxy _ IH]; [done|]. intros Hx. by eapply IH, client_inv_step. Qed.
Lemma holds_alloc_page T Q P s : holds T Q P s ->
  wp alloc_page (fun p s' => p = 0 /\ holds T Q P s' \/ p <> 0 /\ (pages = true -> p ∉ P) /\ holds T Q ({[p]} ∪ P) s') s.
Proof.
  intros [Hc Ht Htf Hq Hqf Hp]. unfold wp, alloc_page. destruct (pmm_alloc_page (u_pmm s)) as [p pm] eqn:Ep.
  destruct (decide (p = 0)) as [->|Hne].
  - left. split; [done|]. split; try done. intros Hpg. destruct (Hp Hpg) as [Hd Hr]. split; [done|].
    eapply rtc_r; [done|]. by apply step_alloc_fail.
  - right. split; [done|].
    assert (Hnew : pages = true -> p ∉ own ∪ P).
    { intros Hpg. destruct (Hp Hpg) as [Hd Hr]. apply (alloc_client_inv _ _ _ _ (client_inv_rtc _ _ Hr (Hown Hpg)) Ep Hne). }
    split; [set_solver|]. split; try done. intros Hpg. destruct (Hp Hpg) as [Hd Hr]. specialize (Hnew Hpg). split; [set_solver|].
    eapply rtc_r; [done|]. replace (own ∪ ({[p]} ∪ P)) with ({[p]} ∪ (own ∪ P)) by set_solver. by apply step_alloc.
Qed.
Lemma holds_free_page p T Q P s : holds T Q P s -> (pages = true -> p ∈ P) -> wp (free_page p) (fun _ => holds T Q (P ∖ {[p]})) s.
Proof.
  intros [Hc Ht Htf Hq Hqf Hp] Hin. split; try done. intros Hpg. destruct (Hp Hpg) as [Hd Hr]. specialize (Hin Hpg).
  split; [set_solver|]. eapply rtc_r; [done|].
  replace (own ∪ P ∖ {[p]}) with ((own ∪ P) ∖ {[p]}) by set_solver. apply step_free. set_solver.
Qed.
Lemma holds_end s : holds ∅ ∅ ∅ s ->
  td_used s = td_used s0 /\ qh_used s = qh_used s0 /\ core s = core s0 /\
  (pages = true -> rtc pmm_step (u_pmm s0, own) (u_pmm s, own)).
Proof.
  intros [Hc Ht _ Hq _ Hp]. rewrite mark_empty in Ht, Hq. split; [done|]. split; [done|]. split; [done|].
  intros Hpg. destruct (Hp Hpg) as [_ Hr]. by rewrite union_empty_r_L in Hr.
Qed.

Lemma holds_release_in i1 i2 i3 iq T Q P s : holds T Q P s ->
  i1 ∈ T \/ i1 < 0 -> i2 ∈ T ∖ {[i1]} \/ i2 < 0 -> i3 ∈ T ∖ {[i1]} ∖ {[i2]} \/ i3 < 0 -> iq ∈ Q \/ iq < 0 ->
  wp (release_in i1 i2 i3 iq) (fun _ => holds (T ∖ {[i1]} ∖ {[i2]} ∖ {[i3]}) (Q ∖ {[iq]}) P) s.
Proof.
  intros Hh Hi1 Hi2 Hi3 Hiq. unfold release_in.
  apply wp_bind. eapply wp_mono; [by apply holds_td_free|]. intros [] s1 Hs1.
  apply wp_bind. eapply wp_mono; [by apply holds_td_free|]. intros [] s2 Hs2.
  apply wp_bind. eapply wp_mono; [by apply holds_td_free|]. intros [] s3 Hs3.
  by apply holds_qh_free.
Qed.

(** Steps of code that takes and releases; the conditions are on sets. *)
Ltac sets :=
  repeat match goal with Hpg : pages = true, Hh : pages = true -> _ ∉ _ |- _ => specialize (Hh Hpg) end;
  try (apply set_eq; intros ?);
  repeat match goal with Hh : _ ∉ _ |- _ => revert Hh end;
  repeat first [rewrite elem_of_union | rewrite elem_of_difference | rewrite elem_of_singleton | rewrite elem_of_empty]; lia.
Ltac hstep :=
  lazymatch goal with
  | |- wp (mbind _ td_alloc) _ _ =>
      apply wp_bind; eapply wp_mono; [apply holds_td_alloc; eassumption|]; intros ? ? [(-> & ? & ?)|(? & ? & ? & ?)]
  | |- wp (mbind _ qh_alloc) _ _ =>
      apply wp_bind; eapply wp_mono; [apply holds_qh_alloc; eassumption|]; intros ? ? [(-> & ? & ?)|(? & ? & ? & ?)]
  | |- wp (mbind _ alloc_page) _ _ =>
      apply wp_bind; eapply wp_mono; [apply holds_alloc_page; eassumption|]; intros ? ? [(-> & ?)|(? & ? & ?)]
  | |- wp (mbind _ (td_free _)) _ _ =>
      apply wp_bind; eapply wp_mono; [apply holds_td_free; [eassumption|first [left; sets|right; lia]]|]; intros [] ? ?
  | |- wp (mbind _ (qh_free _)) _ _ =>
      apply wp_bind; eapply wp_mono; [apply holds_qh_free; [eassumption|first [left; sets|right; lia]]|]; intros [] ? ?
  | |- wp (mbind _ (free_page _)) _ _ =>
      apply wp_bind; eapply wp_mono; [apply holds_free_page; [eassumption|intros ?Hpg; sets]|]; intros [] ? ?
  | |- wp (mbind _ (release_in _ _ _ _)) _ _ =>
      apply wp_bind; eapply wp_mono; [apply holds_release_in; [eassumption|first [left; sets|right; lia]..]|]; intros [] ? ?
  | |- wp (match ?x with (_, _) => _ end) _ _ => destruct x
  | |- wp (mbind _ _) _ _ =>
      apply wp_bind; eapply wp_mono; [eapply holds_quiet; [|eassumption]; solve [auto with usb|quiet]|]; intros ? ? ?
  end; cbv beta in *; cbv zeta.
Ltac hcond :=
  match goal with |- wp (if ?b then _ else _) _ _ => destruct b eqn:?; zbool; try lia end.
Lemma holds_eq T Q P T' Q' P' s : holds T Q P s -> T = T' -> Q = Q' -> P = P' -> holds T' Q' P' s.
Proof. by intros ? -> -> ->. Qed.
Ltac hdone := unfold wp, mret, M_ret; cbn; eapply holds_eq; [eassumption|sets|sets|sets].

(** Both transfers give everything back, whatever the device does. *)
Lemma holds_interrupt dev ep data length :
  wp (usb_interrupt_transfer dev ep data length) (fun _ => holds ∅ ∅ ∅) s0.
Proof.
  unfold usb_interrupt_transfer. pose proof holds_start as Hs. hstep.
  destruct dev as [dev|]; [|hdone]. destruct data as [data|]; [|hdone].
  destruct (negb _ || _ || _); [hdone|]. hstep; hstep.
  all: hcond; try (repeat hstep; hdone).
  hstep; hcond; repeat hstep; hdone.
Qed.

Lemma holds_control dev req data length : wp (usb_control_transfer dev req data length) (fun _ => holds ∅ ∅ ∅) s0.
Proof.
  unfold usb_control_transfer. pose proof holds_start as Hs. hstep.
  destruct dev as [dev|]; [|hdone]. destruct req as [req|]; [|hdone]. destruct (negb _ || _); [hdone|].
  hstep; hstep; hstep; hstep.
  all: hcond; try (repeat hstep; hdone).
  hstep; hcond; try (repeat hstep; hdone).
  hstep. destruct data as [bytes|]; [destruct (0 <? length)|]; [hstep; hcond|..]; change (0 =? 0) with true; cbv match;
    repeat hstep; hdone.
Qed.
End resources.


(** ** On hardware that follows the UHCI specification

    Bits 31 and 30 of the status word of a transfer descriptor are reserved:
    the controller reports completion in bit 23 and leaves bit 31 as it was
    written. *)
Class ReservedBit (D : Type) `{DmaMem D} : Type := {
  (** The status word at the address has bit 31 set. *)
  tagged : Z -> D -> Prop;
  tagged_write a v d : a mod 4 = 0 -> Z.testbit v 31 = true -> tagged a (dma_write 4 a v d);
  tagged_other n b v a d : 0 <= n -> tagged a d -> b + n <= a \/ a + 4 <= b -> tagged a (dma_write n b v d);
  tagged_read n b a d : tagged a d -> tagged a (dma_read n b d).2;
  tagged_value a d : tagged a d -> Z.testbit (dma_read 4 a d).1 31 = true
}.

Lemma active_bit31 n : Z.testbit (u32 (active n)) 31 = true.
Proof. unfold u32, active. rewrite Z.mod_pow2_bits_low, Z.lor_spec by lia. done. Qed.

Section reserved.
Context {D : Type} `{PortIO D} `{PortIO32 D} `{DmaMem D} `{!ReservedBit D} (fuel : nat).
Implicit Types (s : uhci D).

Lemma poll_tagged td n s : tagged (td + 4) (u_dev s) -> wp (poll_td_complete td n) (fun r _ => r = -2) s.
Proof.
  revert s. induction n as [|n IH]; intros s Ht; [done|]. change (poll_td_complete td (S n)) with
    (status ← rd 4 (td + 4); if status .& UHCI_TD_ACTIVE =? 0 then
        if negb (status .& (UHCI_TD_STALLED .| UHCI_TD_BABBLE .| UHCI_TD_TIMEOUT .| UHCI_TD_BITSTUFF) =? 0) then mret (-1)
        else mret ((status .>> 21) .& 2047) else poll_td_complete td n : M D Z).
  apply wp_bind. unfold wp at 1, rd, ask. pose proof (tagged_value _ _ Ht) as Hv. pose proof (tagged_read 4 (td + 4) _ _ Ht) as Hr.
  destruct (dma_read 4 (td + 4) (u_dev s)) as [v d]. cbn [fst snd] in *. destruct (v .& UHCI_TD_ACTIVE =? 0) eqn:E; [|by apply IH].
  zbool. apply (f_equal (fun x => Z.testbit x 31)) in E. rewrite Z.land_spec, Hv in E. done.
Qed.

(** The pools are aligned and do not overlap, and the schedule's head is in its pool. *)
Definition apart (td qh dummy : Z) : Prop :=
  0 <= td /\ td mod 4 = 0 /\ td + 4096 < 2 ^ 64 /\ 0 <= qh /\ qh + 512 < 2 ^ 64 /\ (td + 4096 <= qh \/ qh + 512 <= td) /\ 0 <= dummy < 32.

Section wait.
Context (td qh dummy : Z) (Hap : apart td qh dummy).
Definition at_pools s : Prop := td_pool_phys s = td /\ qh_pool_phys s = qh /\ dummy_qh_index s = dummy.
(** The descriptor [i] is still marked active. *)
Definition waits i s : Prop := at_pools s /\ tagged (td + i * 32 + 4) (u_dev s).

Lemma at_quiet {A} (m : M D A) s : quiet m -> at_pools s -> wp m (fun _ => at_pools) s.
Proof. intros Hm Hs. eapply wp_mono; [apply Hm|]. cbn beta. by intros x s' ->. Qed.
Lemma at_td_phys i s : at_pools s -> 0 <= i < 128 -> wp (td_phys i) (fun p s' => p = td + i * 32 /\ at_pools s') s.
Proof.
  intros Hs Hi. split; [|done]. destruct Hs as [-> _], Hap as (? & ? & ? & _). unfold TD_SIZE, u64. apply Z.mod_small. lia.
Qed.
Lemma waits_qh_phys iq i s : waits i s -> 0 <= iq < 32 -> wp (qh_phys iq) (fun p s' => p = qh + iq * 16 /\ waits i s') s.
Proof.
  intros Hs Hi. split; [|done]. destruct Hs as [(_ & -> & _) _], Hap as (? & ? & ? & ? & ? & ?).
  unfold QH_SIZE, u64. apply Z.mod_small. lia.
Qed.
Lemma waits_td_phys i j s : waits i s -> wp (td_phys j) (fun _ => waits i) s.
Proof. done. Qed.
Lemma at_status i n s : at_pools s -> wp (td_status (td + i * 32) (active n)) (fun _ => waits i) s.
Proof.
  intros Hs. split; [done|]. cbn. apply tagged_write, active_bit31. destruct Hap as (_ & Ha & _).
  replace (td + i * 32 + 4) with (td + (8 * i + 1) * 4) by lia. by rewrite Z_mod_plus_full.
Qed.
Lemma waits_wr i n a v s : 0 <= n -> waits i s -> a + n <= td + i * 32 + 4 \/ td + i * 32 + 8 <= a -> wp (wr n a v) (fun _ => waits i) s.
Proof. intros Hn [Hs Ht] Hd. split; [done|]. cbn. apply tagged_other; [done|done|lia]. Qed.
Lemma waits_rd i n a s : waits i s -> wp (rd n a) (fun _ => waits i) s.
Proof.
  intros [Hs Ht]. unfold wp, rd, ask. pose proof (tagged_read n a _ _ Ht). destruct (dma_read n a (u_dev s)). by split.
Qed.
Lemma waits_splice i iq s : waits i s -> 0 <= i < 128 -> 0 <= iq < 32 -> wp (splice iq) (fun _ => waits i) s.
Proof.
  intros Hs Hi Hq. unfold splice, qh_virt. apply wp_bind. change (waits i s) in Hs. unfold wp at 1, get.
  pose proof Hs as [(_ & _ & ->) _]. apply wp_bind. eapply wp_mono; [apply (waits_qh_phys dummy i); [done|apply Hap]|]. intros p s1 [-> Hs1].
  apply wp_bind. eapply wp_mono; [by apply (waits_rd i)|]. intros old s2 Hs2.
  apply wp_bind. eapply wp_mono; [by apply (waits_qh_phys iq i)|]. intros p s3 [-> Hs3]. apply wp_bind.
  eapply wp_mono; [apply waits_wr; [done|done|destruct Hap as (? & ? & ? & ? & ? & ? & ?); lia]|]. by intros [] s4 Hs4.
Qed.
Lemma waits_poll i n s : waits i s -> wp (poll_td_complete (td + i * 32) n) (fun r _ => r = -2) s.
Proof. intros [_ Ht]. by apply poll_tagged. Qed.
End wait.

Ltac wstep Hap :=
  lazymatch goal with
  | |- wp (mbind _ (td_status ?t (active _))) _ _ =>
      apply wp_bind; eapply wp_mono; [eapply (at_status _ _ _ Hap); first [eassumption|eapply proj1; eassumption]|]; intros [] ? ?
  | |- wp (mbind _ (td_phys ?i)) _ _ =>
      apply wp_bind; eapply wp_mono;
        [first [eapply (at_td_phys _ _ _ Hap); [eassumption|lia]|eapply waits_td_phys; eassumption]|];
        first [intros ? ? [-> ?]|intros ? ? ?]
  | |- wp (mbind _ (qh_phys ?i)) _ _ =>
      apply wp_bind; eapply wp_mono;
        [first [eapply (waits_qh_phys _ _ _ Hap); [eassumption|lia]|eapply at_quiet; [auto with usb|eassumption]]|];
        first [intros ? ? [-> ?]|intros ? ? ?]
  | |- wp (mbind _ (splice _)) _ _ =>
      apply wp_bind; eapply wp_mono; [eapply (waits_splice _ _ _ Hap); [eassumption|lia|lia]|]; intros [] ? ?
  | |- wp (mbind _ (poll_td_complete _ _)) _ _ =>
      apply wp_bind; eapply wp_mono; [eapply waits_poll; eassumption|]; intros ? ? ->
  | |- wp (mbind _ (mbind _ _)) _ _ => apply wp_bind
  | |- wp (mbind _ _) _ _ =>
      apply wp_bind; eapply wp_mono;
        [first [eapply waits_wr; [lia|eassumption|lia]|eapply at_quiet; [solve [auto with usb]|eassumption]]|]; intros [] ? ?
  | |- wp _ (fun _ => wp _ _) _ => eapply wp_mono; [eapply waits_wr; [lia|eassumption|lia]|]; intros [] ? ?
  end; cbv beta in *; cbv zeta.

Lemma run_in_fails td qh dummy i1 i2 i3 iq setup data n s : apart td qh dummy -> at_pools td qh dummy s ->
  0 <= i1 < 128 -> 0 <= i2 < 128 -> 0 <= i3 < 128 -> 0 <= iq < 32 ->
  wp (run_in i1 i2 i3 iq setup data n) (fun r _ => r.2 = -2) s.
Proof.
  intros Hap Hs Hi1 Hi2 Hi3 Hq. unfold run_in, td_virt, qh_virt. pose proof Hap as (? & ? & ? & ? & ? & ? & ?).
  do 7 wstep Hap. unfold put_td. repeat wstep Hap. done.
Qed.
Lemma control_run_fails td qh dummy i1 i2 i3 iq setup data_phys addr req data n s : apart td qh dummy -> at_pools td qh dummy s ->
  0 <= i1 < 128 -> 0 <= i2 < 128 -> 0 <= i3 < 128 -> 0 <= iq < 32 ->
  wp (control_run i1 i2 i3 iq setup data_phys addr req data n) (fun r _ => r.1 = -1) s.
Proof.
  intros Hap Hs Hi1 Hi2 Hi3 Hq. unfold control_run, td_virt, qh_virt. pose proof Hap as (? & ? & ? & ? & ? & ? & ?).
  cbv zeta. do 7 wstep Hap. unfold put_stages. repeat wstep Hap. done.
Qed.
Lemma interrupt_run_fails td qh dummy i iq buf dev ep is_in old n s : apart td qh dummy -> at_pools td qh dummy s ->
  0 <= i < 128 -> 0 <= iq < 32 -> wp (interrupt_run i iq buf dev ep is_in old n) (fun r _ => r.1 = -1) s.
Proof.
  intros Hap Hs Hi Hq. unfold interrupt_run, td_virt, qh_virt. pose proof Hap as (? & ? & ? & ? & ? & ? & ?).
  repeat wstep Hap. done.
Qed.

(** What all of the driver's code leaves as it is. *)
Section kept.
Context (s0 : uhci D).
Record kept s : Prop := {
  k_td : length (td_used s) = 128%nat; k_qh : length (qh_used s) = 32%nat; k_core : core s = core s0 }.
Definition keeps {A} (m : M D A) : Prop := forall s, kept s -> wp m (fun _ => kept) s.

Lemma keeps_quiet {A} (m : M D A) : quiet m -> keeps m.
Proof. intros Hm s Hs. eapply wp_mono; [apply Hm|]. cbn beta. intros x s' ->. by destruct Hs; split. Qed.
Lemma keeps_bind {A B} (m : M D A) (k : A -> M D B) : keeps m -> (forall x, keeps (k x)) -> keeps (x ← m; k x).
Proof. intros Hm Hk s Hs. apply wp_bind. eapply wp_mono; [by apply Hm|]. intros x s'. apply Hk. Qed.
Lemma kept_td_alloc s : kept s -> wp td_alloc (fun i s' => (i = -1 \/ 0 <= i < 128) /\ kept s') s.
Proof.
  intros [Ht Hq Hc]. unfold td_alloc. apply wp_bind. unfold wp at 1, get.
  destruct (first_free _ _) as [i|] eqn:Ei; (split; [|split; try done]); [|unfold arr_set; cbn; by rewrite length_insert|by left].
  right. apply first_free_spec in Ei as [Hi _]. apply elem_of_seqZ in Hi. unfold TD_POOL_SIZE in Hi. lia.
Qed.
Lemma kept_qh_alloc s : kept s -> wp qh_alloc (fun i s' => (i = -1 \/ 0 <= i < 32) /\ kept s') s.
Proof.
  intros [Ht Hq Hc]. unfold qh_alloc. apply wp_bind. unfold wp at 1, get.
  destruct (first_free _ _) as [i|] eqn:Ei; (split; [|split; try done]); [|unfold arr_set; cbn; by rewrite length_insert|by left].
  right. apply first_free_spec in Ei as [Hi _]. apply elem_of_seqZ in Hi. unfold QH_POOL_SIZE in Hi. lia.
Qed.
Lemma keeps_td_alloc : keeps td_alloc.
Proof. intros s Hs. eapply wp_mono; [by apply kept_td_alloc|]. by intros ? ? [_ ?]. Qed.
Lemma keeps_qh_alloc : keeps qh_alloc.
Proof. intros s Hs. eapply wp_mono; [by apply kept_qh_alloc|]. by intros ? ? [_ ?]. Qed.
Lemma keeps_td_free i : keeps (td_free i).
Proof. intros s [Ht Hq Hc]. unfold wp, td_free, modify, arr_set. if_all; split; try done. cbn. by rewrite length_insert. Qed.
Lemma keeps_qh_free i : keeps (qh_free i).
Proof. intros s [Ht Hq Hc]. unfold wp, qh_free, modify, arr_set. if_all; split; try done. cbn. by rewrite length_insert. Qed.
Lemma keeps_alloc_page : keeps alloc_page.
Proof. intros s [Ht Hq Hc]. unfold wp, alloc_page. destruct (pmm_alloc_page _). by split. Qed.
Lemma keeps_free_page p : keeps (free_page p).
Proof. intros s [Ht Hq Hc]. by split. Qed.
End kept.
#[local] Hint Resolve keeps_td_alloc keeps_qh_alloc keeps_td_free keeps_qh_free keeps_alloc_page keeps_free_page : usb.
Ltac keeps :=
  repeat (intros; cbv zeta; lazymatch goal with
    | |- keeps _ (_ ← _; _) => apply keeps_bind
    | |- keeps _ (if ?b then _ else _) => destruct b
    | |- keeps _ (match ?x with (_, _) => _ end) => destruct x
    | |- keeps _ (match ?x with Some _ => _ | None => _ end) => destruct x
    | |- keeps _ _ => first [solve [auto with usb]|apply keeps_quiet; solve [auto with usb]]
    end).
Lemma keeps_release s0 i1 i2 i3 iq : keeps s0 (release_in i1 i2 i3 iq).
Proof. unfold release_in. keeps. Qed.
#[local] Hint Resolve keeps_release : usb.
Lemma keeps_set_address s0 : keeps s0 set_address.
Proof. unfold set_address, td_virt, qh_virt. keeps. Qed.
Lemma keeps_get_device_descriptor s0 : keeps s0 get_device_descriptor.
Proof. unfold get_device_descriptor. keeps. Qed.

Definition pools_ok s : Prop :=
  length (td_used s) = 128%nat /\ length (qh_used s) = 32%nat /\ apart (td_pool_phys s) (qh_pool_phys s) (dummy_qh_index s).
Lemma kept_start s : pools_ok s -> kept s s.
Proof. intros (? & ? & ?). by split. Qed.
Lemma kept_at s0 s : kept s0 s -> at_pools (td_pool_phys s0) (qh_pool_phys s0) (dummy_qh_index s0) s.
Proof. intros [_ _ Hc]. unfold core in Hc. by simplify_eq. Qed.
Lemma kept_ok s0 s : pools_ok s0 -> kept s0 s -> pools_ok s.
Proof. intros (_ & _ & Hap) Hk. unfold pools_ok. pose proof (kept_at _ _ Hk) as (-> & -> & ->). by destruct Hk. Qed.

Ltac kstep :=
  lazymatch goal with
  | |- wp (mbind _ td_alloc) _ _ => apply wp_bind; eapply wp_mono; [eapply kept_td_alloc; eassumption|]; intros ? ? [[->|?] ?]
  | |- wp (mbind _ qh_alloc) _ _ => apply wp_bind; eapply wp_mono; [eapply kept_qh_alloc; eassumption|]; intros ? ? [[->|?] ?]
  | |- wp (mbind _ (control_run _ _ _ _ _ _ _ _ _ _)) _ _ =>
      apply wp_bind; eapply wp_mono; [eapply control_run_fails; [eassumption|by eapply kept_at|lia..]|]; intros ? ? ?
  | |- wp (mbind _ (interrupt_run _ _ _ _ _ _ _ _)) _ _ =>
      apply wp_bind; eapply wp_mono; [eapply interrupt_run_fails; [eassumption|by eapply kept_at|lia..]|]; intros ? ? ?
  | |- wp (mbind _ (run_in _ _ _ _ _ _ _)) _ _ =>
      apply wp_bind; eapply wp_mono; [eapply run_in_fails; [eassumption|by eapply kept_at|lia..]|]; intros [[]] ? ?
  | |- wp (mbind _ ?m) _ _ =>
      apply wp_bind; eapply wp_mono; [let Hk := fresh in assert (Hk : forall s0, keeps s0 m) by keeps; eapply Hk; eassumption|]; intros ? ? ?
  end; cbv beta in *; cbv zeta.
(** A failed allocation ends the transfer. *)
Ltac failed := lazymatch goal with |- wp (if ?b then _ else _) _ _ => replace b with true by (by rewrite ?orb_true_r); done end.

Lemma control_fails dev req data n s : pools_ok s -> wp (usb_control_transfer dev req data n) (fun r _ => r.1 = -1) s.
Proof.
  intros Hok. pose proof (kept_start _ Hok) as Hs. pose proof Hok as (_ & _ & Hap).
  unfold usb_control_transfer. apply wp_bind. unfold wp at 1, get.
  destruct dev as [dev|]; [|done]. destruct req as [req|]; [|done]. destruct (negb _ || _); [done|].
  do 4 (kstep; [|]). all: try failed. destruct (_ || _); [done|].
  kstep. destruct (_ =? 0); [done|]. kstep. destruct data as [bytes|]; [destruct (0 <? n)|]; [|by kstep; done..].
  kstep. destruct (_ =? 0); [done|]. kstep. by kstep.
Qed.
Lemma interrupt_fails dev ep data n s : pools_ok s -> wp (usb_interrupt_transfer dev ep data n) (fun r _ => r.1 = -1) s.
Proof.
  intros Hok. pose proof (kept_start _ Hok) as Hs. pose proof Hok as (_ & _ & Hap).
  unfold usb_interrupt_transfer. apply wp_bind. unfold wp at 1, get.
  destruct dev as [dev|]; [|done]. destruct data as [data|]; [|done]. destruct (negb _ || _ || _); [done|].
  do 2 (kstep; [|]). all: try failed. destruct (_ || _); [done|]. kstep. destruct (_ =? 0); [done|]. kstep. by kstep.
Qed.
Lemma get_device_descriptor_fails s : pools_ok s -> wp get_device_descriptor (fun r _ => r = None) s.
Proof.
  intros Hok. pose proof (kept_start _ Hok) as Hs. pose proof Hok as (_ & _ & Hap).
  unfold get_device_descriptor. do 4 (kstep; [|]). all: try failed. destruct (_ || _); [done|].
  kstep. destruct (_ =? 0); [done|]. kstep. destruct (_ =? 0); [done|]. kstep. kstep. kstep.
  match goal with Hr : _ = -2 |- _ => cbn in Hr; rewrite Hr end. done.
Qed.
Lemma wp_and {A} (m : M D A) (Q1 Q2 : A -> uhci D -> Prop) s : wp m Q1 s -> wp m Q2 s -> wp m (fun x s' => Q1 x s' /\ Q2 x s') s.
Proof. unfold wp. by destruct (m s) as [[]|]. Qed.
Lemma keeps_enumerate_device s0 speed : pools_ok s0 -> keeps s0 (enumerate_device fuel speed).
Proof.
  intros Hok s Hs. unfold enumerate_device. apply wp_bind. eapply wp_mono; [by eapply keeps_set_address|].
  intros [] s1 Hs1; [|done]. apply wp_bind. eapply wp_mono.
  - apply wp_and; [by apply get_device_descriptor_fails, (kept_ok s0)|by eapply keeps_get_device_descriptor].
  - by intros r s2 [-> Hs2].
Qed.
Lemma keeps_each {A} s0 (f : A -> M D unit) l : (forall x, keeps s0 (f x)) -> keeps s0 (each f l).
Proof. intros Hf. induction l; cbn [each]; [apply keeps_quiet, quiet_ret|]. by apply keeps_bind. Qed.
Lemma keeps_enumerate_port s0 port : pools_ok s0 -> keeps s0 (enumerate_port fuel port).
Proof.
  intros Hok. unfold enumerate_port. pose proof (keeps_enumerate_device s0 USB_SPEED_LOW Hok).
  pose proof (keeps_enumerate_device s0 USB_SPEED_FULL Hok). keeps.
Qed.
Lemma enumerate_finds_none s : pools_ok s -> uhci_found s = true -> wp (usb_enumerate fuel) (fun r s' => r = 0 /\ device_count s' = 0) s.
Proof.
  intros Hok Hf. unfold usb_enumerate. apply wp_bind. unfold wp at 1, get. rewrite Hf. cbn [negb].
  set (s1 := set_devices (devices s) 0 (set_out (u_out s ++ (zs "[USB] Enumerating devices..." ++ nl)) s)).
  assert (Hok1 : pools_ok s1) by done. pose proof (kept_start _ Hok1) as Hs1.
  apply wp_bind. unfold wp at 1, say, modify. apply wp_bind. unfold wp at 1, modify. fold s1.
  apply wp_bind. eapply wp_mono; [eapply (keeps_each s1); [intros; by apply keeps_enumerate_port|done]|].
  intros [] s2 [_ _ Hc]. unfold core in Hc. simplify_eq. by match goal with Hd : device_count s2 = _ |- _ =>
    unfold wp, get, say, modify, mbind, M_bind, mret, M_ret; cbn; rewrite Hd end.
Qed.
End reserved.

(** On a controller that leaves the reserved bit 31 of the status words
    alone, with the two pools apart, every control transfer and every
    interrupt transfer ends with -1, and the enumeration returns with no
    device found: the driver takes bit 31 for the active bit. *)
Theorem uhci_finds_no_device {D} `{PortIO D} `{PortIO32 D} `{DmaMem D} `{!ReservedBit D} (fuel : nat) (s : uhci D)
    (Hok : pools_ok s) (Hf : uhci_found s = true) :
  (exists s', usb_enumerate fuel s = Some (0, s') /\ device_count s' = 0) /\
  (forall dev req data n, exists l s', usb_control_transfer dev req data n s = Some ((-1, l), s')) /\
  (forall dev ep data n, exists l s', usb_interrupt_transfer dev ep data n s = Some ((-1, l), s')).
Proof.
  split; [|split].
  - pose proof (enumerate_finds_none fuel s Hok Hf) as Hw. unfold wp in Hw. destruct (usb_enumerate fuel s) as [[r s']|]; [|done].
    destruct Hw as [-> Hd]. by exists s'.
  - intros dev req data n. pose proof (control_fails dev req data n s Hok) as Hw. unfold wp in Hw.
    destruct (usb_control_transfer dev req data n s) as [[[r l] s']|]; [|done]. cbn in Hw. subst r. by exists l, s'.
  - intros dev ep data n. pose proof (interrupt_fails dev ep data n s Hok) as Hw. unfold wp in Hw.
    destruct (usb_interrupt_transfer dev ep data n s) as [[[r l] s']|]; [|done]. cbn in Hw. subst r. by exists l, s'.
Qed.

(** ** Reading a configuration descriptor *)

(** Memory nobody else writes to. *)
#[export] Instance ram_dma : DmaMem (gmap Z Z) := {
  dma_read n a m := (load_le m a n, m);
  dma_write n a v m := store_le a n v m
}.

Section parse.
Implicit Types (s : uhci (gmap Z Z)) (d : list Z).

(** A descriptor: its length, its type, and the rest. *)
Definition descriptor d : Prop := 2 <= len d <= 255 /\ arr_get 0 d 0 = len d /\ Forall (fun b => 0 <= b < 256) d.
(** What one descriptor adds to what is known. *)
Definition see (x : interface_info) d : interface_info :=
  if (arr_get 0 d 1 =? USB_DESC_INTERFACE) && (9 <=? len d) then
    InterfaceInfo (arr_get 0 d 5) (arr_get 0 d 6) (arr_get 0 d 7) (ii_in x) (ii_out x)
  else if (arr_get 0 d 1 =? USB_DESC_ENDPOINT) && (7 <=? len d) then
    if arr_get 0 d 2 .& 128 =? 0 then InterfaceInfo (ii_class x) (ii_subclass x) (ii_protocol x) (ii_in x) (arr_get 0 d 2)
    else InterfaceInfo (ii_class x) (ii_subclass x) (ii_protocol x) (arr_get 0 d 2) (ii_out x)
  else x.

Lemma load_le_1 m a : load_le m a 1 = byte_at m a.
Proof. unfold load_le, load_bytes. change (seqZ 0 1) with [0]. cbn [fmap list_fmap foldr]. by rewrite !Z.add_0_r. Qed.
Lemma loaded_byte m p l i : load_bytes m p (len l) = l -> 0 <= i < len l -> byte_at m (p + i) = arr_get 0 l i.
Proof.
  intros Hl Hi. rewrite <- Hl at 1. unfold arr_get, load_bytes. rewrite list_lookup_fmap, lookup_seqZ_lt by lia. cbn. f_equal. lia.
Qed.
Lemma loaded_app m p l1 l2 : load_bytes m p (len (l1 ++ l2)) = l1 ++ l2 ->
  load_bytes m p (len l1) = l1 /\ load_bytes m (p + len l1) (len l2) = l2.
Proof.
  intros Hl. rewrite length_app, Nat2Z.inj_add, load_bytes_app in Hl by lia. apply app_inj_1 in Hl; [done|].
  pose proof (length_load_bytes m p (len l1)). lia.
Qed.

Definition out_only s s' : Prop := s' = set_out (u_out s') s.
Lemma out_only_trans s1 s2 s3 : out_only s1 s2 -> out_only s2 s3 -> out_only s1 s3.
Proof. unfold out_only. intros -> ->. done. Qed.
Lemma rd_byte a s : rd 1 a s = Some (byte_at (u_dev s) a, s).
Proof. unfold rd, ask. cbn. rewrite load_le_1. by destruct s. Qed.

Lemma see_step p d x s : descriptor d -> load_bytes (u_dev s) p (len d) = d ->
  wp (x ← see_interface p (arr_get 0 d 1) (len d) x; see_endpoint p (arr_get 0 d 1) (len d) x)
     (fun y s' => y = see x d /\ out_only s s') s.
Proof.
  intros (Hlen & _ & _) Hl.
  assert (Hb : forall i, 0 <= i < len d -> byte_at (u_dev s) (p + i) = arr_get 0 d i) by (intros; by apply loaded_byte).
  unfold see_interface, see_endpoint, see, wp, mbind, M_bind, mret, M_ret, say, modify, USB_DESC_INTERFACE, USB_DESC_ENDPOINT.
  destruct ((arr_get 0 d 1 =? 4) && (9 <=? len d)) eqn:E1; zbool.
  - rewrite !rd_byte, !Hb by lia. destruct ((arr_get 0 d 1 =? 5) && (7 <=? len d)) eqn:E2; zbool; [lia|]. done.
  - destruct ((arr_get 0 d 1 =? 5) && (7 <=? len d)) eqn:E2; zbool; [|by destruct s].
    rewrite !rd_byte, !Hb by lia. destruct (arr_get 0 d 2 .& 128 =? 0); cbn [negb]; by rewrite !rd_byte, ?Hb by lia.
Qed.

Lemma parse_config_spec ptr total ds : Forall descriptor ds -> total <= 65535 -> forall n offset x s,
  load_bytes (u_dev s) (ptr + offset) (len (concat ds)) = concat ds -> 0 <= offset -> offset + len (concat ds) = total ->
  (length ds <= n)%nat ->
  wp (parse_config n ptr total offset x) (fun y s' => y = foldl see x ds /\ out_only s s') s.
Proof.
  intros Hds Ht. induction Hds as [|d ds Hd Hds IH]; intros n offset x s Hl Ho Htot Hn.
  - cbn in Htot. assert (E : (offset <? total) = false) by (apply Z.ltb_ge; lia).
    destruct n; cbn [parse_config]; rewrite E; unfold wp, mret, M_ret; split; try done; by destruct s.
  - cbn [concat] in *. apply loaded_app in Hl as [Hl1 Hl2]. rewrite length_app in Htot. pose proof Hd as (Hlen & Hfst & _).
    destruct n as [|n]; [cbn in Hn; lia|]. cbn [parse_config]. rewrite (proj2 (Z.ltb_lt offset total)) by lia.
    apply wp_bind. unfold wp at 1. rewrite rd_byte. apply wp_bind. unfold wp at 1. rewrite rd_byte.
    pose proof (loaded_byte _ _ _ 0 Hl1) as H0. rewrite Z.add_0_r in H0. rewrite H0, (loaded_byte _ _ _ 1 Hl1), Hfst by lia.
    rewrite (proj2 (Z.eqb_neq (len d) 0)) by lia. pose proof (see_step (ptr + offset) d x s Hd Hl1) as Hsee.
    unfold wp in Hsee |- *. unfold mbind, M_bind in *.
    destruct (see_interface _ _ _ _ s) as [[x1 s1]|]; [|done]. destruct (see_endpoint _ _ _ _ s1) as [[x2 s2]|]; [|done].
    destruct Hsee as [-> Ho2]. assert (Hdev : u_dev s2 = u_dev s) by (rewrite Ho2; done).
    assert (Hu : u16 (offset + len d) = offset + len d) by (unfold u16; apply Z.mod_small; lia). rewrite Hu.
    specialize (IH n (offset + len d) (see x d) s2). unfold wp in IH. rewrite Hdev, Z.add_assoc in IH.
    specialize (IH Hl2 ltac:(lia) ltac:(lia) ltac:(cbn in Hn; lia)). destruct (parse_config _ _ _ _ _ s2) as [[y s3]|]; [|done].
    destruct IH as [-> Ho3]. split; [done|]. by eapply out_only_trans.
Qed.
End parse.

(** On a configuration descriptor that is a sequence of well-formed
    descriptors, of at most 65535 bytes together, the walk returns within as
    many turns as there are descriptors, having visited each once in order:
    the class is that of the last interface, each endpoint address that of
    the last endpoint of its direction, and only text has been written. *)
Theorem parse_config_correct (ptr : Z) (ds : list (list Z)) (n : nat) (x : interface_info) (s : uhci (gmap Z Z))
    (Hds : Forall descriptor ds) (Hlen : len (concat ds) <= 65535)
    (Hmem : load_bytes (u_dev s) ptr (len (concat ds)) = concat ds) (Hn : (length ds <= n)%nat) :
  exists out, parse_config n ptr (len (concat ds)) 0 x s = Some (foldl see x ds, set_out out s).
Proof.
  pose proof (parse_config_spec ptr (len (concat ds)) ds Hds Hlen n 0 x s) as Hw. rewrite Z.add_0_r in Hw.
  specialize (Hw Hmem ltac:(lia) ltac:(lia) Hn). unfold wp in Hw. destruct (parse_config _ _ _ _ _ s) as [[y s']|]; [|done].
  destruct Hw as [-> Ho]. exists (u_out s'). by rewrite <- Ho.
Qed.
End Uhci.

(** * ehci.c *)
Module Ehci.
Definition PCI_PROGIF_EHCI : Z := 32.
Definition EHCI_HCSPARAMS : Z := 4.
Definition EHCI_HCCPARAMS : Z := 8.
Definition EHCI_USBCMD : Z := 16.
Definition EHCI_USBSTS : Z := 20.
Definition EHCI_USBINTR : Z := 24.
Definition EHCI_FRINDEX : Z := 28.
Definition EHCI_PERIODICLISTBASE : Z := 36.
Definition EHCI_PORTSC : Z := 48.
Definition EHCI_CMD_RS : Z := 1.
Definition EHCI_CMD_HCRESET : Z := 2.
Definition EHCI_CMD_PSEE : Z := 16.
Definition EHCI_CMD_ASE : Z := 32.
Definition EHCI_STS_HC_HALTED : Z := 4096.
Definition EHCI_INTR_USBINT : Z := 1.
Definition EHCI_INTR_USBERR : Z := 2.
Definition EHCI_INTR_PCD : Z := 4.
Definition EHCI_PORTSC_CCS : Z := 1.
Definition EHCI_PORTSC_PR : Z := 256.

(** [g_ehci], the device with its memory-mapped registers, the page
    allocator and the text written. *)
Record ehci (D : Type) : Type := EhciState {
  e_dev : D; e_pmm : pmm; e_out : list Z;
  base : Z; hcs_params : Z; hcc_params : Z; num_ports : Z; caplen : Z
}.
Arguments EhciState {D}.
Arguments e_dev {D}.
Arguments e_pmm {D}.
Arguments e_out {D}.
Arguments base {D}.
Arguments hcs_params {D}.
Arguments hcc_params {D}.
Arguments num_ports {D}.
Arguments caplen {D}.

Section driver.
Context {D : Type} `{PortIO32 D} `{DmaMem D} (fuel : nat).
Implicit Types (s : ehci D).
Definition set_e_dev x s : ehci D := EhciState x (e_pmm s) (e_out s) (base s) (hcs_params s) (hcc_params s) (num_ports s) (caplen s).
Definition set_e_pmm x s : ehci D := EhciState (e_dev s) x (e_out s) (base s) (hcs_params s) (hcc_params s) (num_ports s) (caplen s).
Definition e_say (text : list Z) s : ehci D :=
  EhciState (e_dev s) (e_pmm s) (e_out s ++ text) (base s) (hcs_params s) (hcc_params s) (num_ports s) (caplen s).
Definition set_regs b hcs hcc ports cap s : ehci D := EhciState (e_dev s) (e_pmm s) (e_out s) b hcs hcc ports cap.

(** [op_base[reg >> 2]]. *)
Definition op_reg (reg : Z) s : Z := u64 (base s + caplen s) + 4 * (reg .>> 2).
Definition ehci_read32 (reg : Z) s : Z * ehci D := let '(v, d) := dma_read 4 (op_reg reg s) (e_dev s) in (v, set_e_dev d s).
Definition ehci_write32 (reg v : Z) s : ehci D := set_e_dev (dma_write 4 (op_reg reg s) v (e_dev s)) s.

(** [while (!done(read(reg)))]. *)
Fixpoint spin (n : nat) (done : Z -> bool) (reg : Z) s : option (ehci D) :=
  match n with
  | O => None
  | S n' => let '(v, s) := ehci_read32 reg s in if done v then Some s else spin n' done reg s
  end.

(** From the capability registers on. *)
Definition start s : option (Z * ehci D) :=
  let s := ehci_write32 EHCI_USBCMD 0 s in
  s ← spin fuel (fun v => negb (v .& EHCI_STS_HC_HALTED =? 0)) EHCI_USBSTS s;
  let s := ehci_write32 EHCI_USBCMD EHCI_CMD_HCRESET s in
  s ← spin fuel (fun v => v .& EHCI_CMD_HCRESET =? 0) EHCI_USBCMD s;
  let s := e_say (zs "[EHCI] Controller reset OK" ++ nl) s in
  let '(p, pm) := pmm_alloc_page (e_pmm s) in
  let s := set_e_pmm pm s in
  if p =? 0 then Some (-1, e_say (zs "[EHCI] Failed to allocate periodic frame list" ++ nl) s)
  else
    let s := set_e_dev (foldl (fun d i => dma_write 4 (p + 4 * i) 1 d) (e_dev s) (seqZ 0 1024)) s in
    let s := ehci_write32 EHCI_PERIODICLISTBASE (u32 p) s in
    let s := ehci_write32 EHCI_FRINDEX 0 s in
    let s := ehci_write32 EHCI_USBINTR (EHCI_INTR_PCD .| EHCI_INTR_USBINT .| EHCI_INTR_USBERR) s in
    let s := ehci_write32 EHCI_USBCMD (EHCI_CMD_RS .| EHCI_CMD_PSEE .| EHCI_CMD_ASE) s in
    Some (0, e_say (zs "[EHCI] Controller running" ++ nl) s).

Definition ehci_init s : option (Z * ehci D) :=
  let s := e_say (zs "[EHCI] Scanning PCI bus for EHCI controller..." ++ nl) s in
  let '(found, d) := pci_find_device PCI_CLASS_SERIAL_BUS PCI_SUBCLASS_USB PCI_PROGIF_EHCI (e_dev s) in
  let s := set_e_dev d s in
  match found with
  | None => Some (-1, e_say (zs "[EHCI] No EHCI controller found" ++ nl) s)
  | Some (bus, dev, func) =>
      let '(bar0, d) := pci_read_dword bus dev func PCI_BAR0 (e_dev s) in
      let s := set_e_dev d s in
      if (bar0 =? 4294967295) || (bar0 =? 0) then Some (-1, e_say (zs "[EHCI] Invalid BAR0" ++ nl) s)
      else
        let '(cmd, d) := pci_read_word bus dev func PCI_COMMAND (e_dev s) in
        let d := pci_write_dword bus dev func PCI_COMMAND (cmd .| (PCI_CMD_BUS_MASTER .| PCI_CMD_MEM_SPACE)) d in
        let b := bar0 .& u64 (Z.lnot 15) in
        let '(capreg, d) := dma_read 4 b d in
        let '(hcs, d) := dma_read 4 (b + 4 * (EHCI_HCSPARAMS .>> 2)) d in
        let '(hcc, d) := dma_read 4 (b + 4 * (EHCI_HCCPARAMS .>> 2)) d in
        let s := set_regs b hcs hcc (u8 (hcs .& 15)) (u8 (capreg .& 255)) (set_e_dev d s) in
        start (e_say (zs "[EHCI] Controller at " ++ hex_text b ++ zs ", CAPLEN " ++ put_dec (caplen s) ++
                      zs ", Ports " ++ put_dec (num_ports s) ++ nl) s)
  end.

(** [!num_ports || port < 0 || (uint32_t)port >= num_ports]. *)
Definition no_port (port : Z) s : bool := (num_ports s =? 0) || (port <? 0) || (num_ports s <=? u32 port).
Definition ehci_port_connected (port : Z) s : bool * ehci D :=
  if no_port port s then (false, s)
  else let '(portsc, s) := ehci_read32 (EHCI_PORTSC + port * 4) s in (negb (portsc .& EHCI_PORTSC_CCS =? 0), s).
Definition ehci_port_status (port : Z) s : Z * ehci D :=
  if no_port port s then (0, s) else ehci_read32 (EHCI_PORTSC + port * 4) s.
Definition ehci_reset_port (port : Z) s : option (Z * ehci D) :=
  if no_port port s then Some (-1, s)
  else
    let '(portsc, s) := ehci_read32 (EHCI_PORTSC + port * 4) s in
    let s := ehci_write32 (EHCI_PORTSC + port * 4) (portsc .| EHCI_PORTSC_PR) s in
    s ← spin fuel (fun v => v .& EHCI_PORTSC_PR =? 0) (EHCI_PORTSC + port * 4) s;
    Some (0, s).
End driver.

(** ** On a controller with the register layout of the EHCI specification

    The operational registers start [caplen] bytes after the base with the
    command register; the word [0x14] bytes further is the periodic list
    base, which is zero until it is written. *)
Section spec.
Context {D : Type} `{PortIO32 D} `{DmaMem D}.
Class PeriodicBase (at_ : Z) : Type := {
  cleared : D -> Prop;
  cleared_read d : cleared d -> (dma_read 4 at_ d).1 = 0 /\ cleared (dma_read 4 at_ d).2;
  cleared_write b v d : cleared d -> b + 4 <= at_ -> cleared (dma_write 4 b v d)
}.
Implicit Types (s : ehci D).

Lemma spin_stuck a `{!PeriodicBase a} n reg s : op_reg reg s = a -> cleared (e_dev s) ->
  spin n (fun v => negb (v .& EHCI_STS_HC_HALTED =? 0)) reg s = None.
Proof.
  revert s. induction n as [|n IH]; intros s Ha Hc; [done|].
  cbn [spin]. unfold ehci_read32. rewrite Ha. destruct (cleared_read _ Hc) as [Hv Hc'].
  destruct (dma_read 4 a (e_dev s)) as [v d]. cbn in Hv, Hc'. subst v. cbn. by apply IH.
Qed.
End spec.

(** The driver adds offsets that already count the capability registers
    to the end of these registers, so it looks for the halted bit in the
    periodic list base.  As long as that register reads as zero the start of
    the controller never returns. *)
Theorem ehci_start_hangs {D} `{PortIO32 D} `{DmaMem D} (s : ehci D) `{!PeriodicBase (D:=D) (op_reg EHCI_USBSTS s)}
    (Hc : cleared (e_dev s)) (fuel : nat) : start fuel s = None.
Proof.
  unfold start. rewrite (spin_stuck (op_reg EHCI_USBSTS s)); [done|done|]. cbn. apply cleared_write; [done|].
  unfold op_reg, EHCI_USBCMD, EHCI_USBSTS. change (16 .>> 2) with 4. change (20 .>> 2) with 5. lia.
Qed.
End Ehci.

(** * Instances *)
Module Examples.
Import Uhci.

(** A controller that, like the UHCI specification says, reports a
    descriptor as done by clearing bit 23 of its status word. *)
Record spec_hc : Type := SpecHc { sh_ram : gmap Z Z; sh_tds : Z }.
Definition is_status (h : spec_hc) (n a : Z) : bool := (n =? 4) && (a mod 4 =? 0) && (sh_tds h <=? a) && (a <? sh_tds h + 4096).
#[export] Instance spec_ports : PortIO spec_hc := {
  inb _ d := (0, d); outb _ _ d := d; inw _ d := (1, d); outw _ _ d := d; io_wait d := d }.
#[export] Instance spec_ports32 : PortIO32 spec_hc := { inl _ d := (0, d); outl _ _ d := d }.
#[export] Instance spec_dma : DmaMem spec_hc := {
  dma_read n a h :=
    let v := load_le (sh_ram h) a n in
    (v, if is_status h n a then SpecHc (store_le a n (Z.ldiff v (2 ^ 23)) (sh_ram h)) (sh_tds h) else h);
  dma_write n a v h := SpecHc (store_le a n v (sh_ram h)) (sh_tds h)
}.
Definition bit31 (a : Z) (h : spec_hc) : Prop := a mod 4 = 0 /\ Z.testbit (load_le (sh_ram h) a 4) 31 = true.
Lemma word_bit31 v : Z.testbit (v mod 256 ^ 4) 31 = Z.testbit v 31.
Proof. change (256 ^ 4) with (2 ^ 32). by apply Z.mod_pow2_bits_low. Qed.
#[export] Instance spec_reserved : ReservedBit spec_hc.
Proof.
  refine {| tagged := bit31 |}.
  - intros a v d Ha Hv. split; [done|]. cbn [dma_write spec_dma sh_ram]. by rewrite load_le_store_eq, word_bit31.
  - intros n b v a d Hn [Ha Hb] Hd. split; [done|]. cbn [dma_write spec_dma sh_ram]. by rewrite load_le_store_ne by lia.
  - intros n b a d [Ha Hb]. split; [done|]. cbn [dma_read spec_dma snd]. unfold is_status. if_all; [|done]. cbn [sh_ram].
    zbool. subst n. destruct (decide (a = b)) as [->|Hne].
    + by rewrite load_le_store_eq, word_bit31, Z.ldiff_spec, Hb.
    + rewrite load_le_store_ne; [done|done|]. Z.to_euclidean_division_equations. lia.
  - intros a d [_ Hb]. done.
Defined.

Definition pm : pmm := pmm_init 2097152 small_mbi [] [].
Lemma pm_inv : client_inv (pm, ∅).
Proof. unfold pm. eapply client_inv_reachable; [|apply rtc_refl]. lia. Qed.
Definition no_device : usb_device := UsbDevice 0 0 0 0 0 0 0 0 0 0 0 0 0.
Definition idle {D} (d : D) : uhci D :=
  UhciState d pm [] 49152 true 4096 8192 (replicate 128 0) 12288 (1 :: replicate 31 0) 0 (replicate 16 no_device) 0.
Definition spec_state : uhci spec_hc := idle (SpecHc ∅ 8192).

Lemma uhci_finds_no_device_witness :
  exists s', usb_enumerate 100 spec_state = Some (0, s') /\ device_count s' = 0.
Proof.
  apply (uhci_finds_no_device 100 spec_state); [|reflexivity].
  split; [reflexivity|]. split; [reflexivity|]. unfold apart, spec_state, idle. cbn [td_pool_phys qh_pool_phys dummy_qh_index]. split; [lia|]. split; [reflexivity|]. lia.
Defined.

Definition keyboard : usb_device := UsbDevice 1 1 1 0 1133 49948 3 1 1 8 2 129 1.

(** The configuration of a boot keyboard. *)
Definition keyboard_config : list (list Z) :=
  [[9; 2; 34; 0; 1; 1; 0; 160; 50]; [9; 4; 0; 0; 1; 3; 1; 1; 0]; [9; 33; 17; 1; 0; 1; 34; 63; 0]; [7; 5; 129; 3; 8; 0; 10]].
Lemma parse_config_correct_witness :
  exists out, parse_config 4 4096 34 0 no_interface (idle (store_bytes 4096 (concat keyboard_config) ∅)) =
    Some (InterfaceInfo 3 1 1 129 1, set_out out (idle (store_bytes 4096 (concat keyboard_config) ∅))).
Proof.
  apply (parse_config_correct 4096 keyboard_config 4 no_interface (idle (store_bytes 4096 (concat keyboard_config) ∅))).
  - unfold keyboard_config, descriptor. repeat apply Forall_cons_2; try apply Forall_nil_2; cbn;
      (split; [lia|split; [reflexivity|repeat apply Forall_cons_2; try apply Forall_nil_2; lia]]).
  - cbn. lia.
  - by vm_compute.
  - cbn. lia.
Defined.

(** Registers of an EHCI controller as memory. *)
#[export] Instance ram_ports32 : PortIO32 (gmap Z Z) := { inl _ d := (0, d); outl _ _ d := d }.
Definition ehci_state : Ehci.ehci (gmap Z Z) := Ehci.EhciState ∅ pm [] 16384 4 0 4 32.
#[export] Instance ram_periodic a : Ehci.PeriodicBase (D := gmap Z Z) a.
Proof.
  refine {| Ehci.cleared m := load_le m a 4 = 0 |}.
  - intros d Hd. done.
  - intros b v d Hd Hb. cbn [dma_write ram_dma]. by rewrite load_le_store_ne by lia.
Defined.
Lemma ehci_start_hangs_witness : Ehci.start 1000 ehci_state = None.
Proof. apply (Ehci.ehci_start_hangs ehci_state). reflexivity. Defined.
End Examples.

(** * A controller with the layout of uhci.h

    It runs the schedule whenever the driver reads a word: for every queue
    head reached from the first frame it executes the active descriptors in
    their order, with the bits where [uhci.h] has them.  One device is
    attached; its replies depend on the setup packet. *)
Module HeaderModel.
Import Uhci.

Record hc : Type := Hc { h_ram : gmap Z Z; h_frames : Z; h_cmd : Z; h_latch : Z; h_request : list Z }.
Definition set_ram x h := Hc x (h_frames h) (h_cmd h) (h_latch h) (h_request h).
Definition set_request x h := Hc (h_ram h) (h_frames h) (h_cmd h) (h_latch h) x.
Definition word (h : hc) (a : Z) : Z := load_le (h_ram h) a 4.

Section model.
Context (reply : list Z -> list Z).

Definition exec_td (a : Z) (h : hc) : hc :=
  let status := word h (a + 4) in
  let pid := word h (a + 8) .& 7864320 in
  let buf := word h (a + 12) in
  if status .& UHCI_TD_ACTIVE =? 0 then h
  else if pid =? UHCI_TD_PID_SETUP then
    set_ram (store_le (a + 4) 4 0 (h_ram h)) (set_request (load_bytes (h_ram h) buf 8) h)
  else if pid =? UHCI_TD_PID_IN then
    let data := take (Z.to_nat ((status .>> 21) .& 1023)) (reply (h_request h)) in
    set_ram (store_le (a + 4) 4 (len data .<< 21) (store_bytes buf data (h_ram h))) h
  else set_ram (store_le (a + 4) 4 0 (h_ram h)) h.
Fixpoint exec_tds (n : nat) (a : Z) (h : hc) : hc :=
  match n with
  | O => h
  | S n' => let link := word h a in
            let h := exec_td a h in
            if link .& 1 =? 0 then exec_tds n' (link .& 4294967280) h else h
  end.
Fixpoint exec_qhs (n : nat) (a : Z) (h : hc) : hc :=
  match n with
  | O => h
  | S n' => let link := word h a in
            let element := word h (a + 4) in
            let h := if element .& 1 =? 0 then exec_tds 8 (element .& 4294967280) h else h in
            if link .& 1 =? 0 then exec_qhs n' (link .& 4294967280) h else h
  end.
Definition run (h : hc) : hc :=
  if h_cmd h .& 1 =? 0 then h
  else let first := word h (h_frames h) in if first .& 1 =? 0 then exec_qhs 4 (first .& 4294967280) h else h.

Definition IO : Z := 49152.
Definition config_dword (a : Z) : Z :=
  if a =? pci_make_addr 0 0 0 0 then 32902
  else if a =? pci_make_addr 0 0 0 8 then 201523200
  else if a =? pci_make_addr 0 0 0 16 then IO + 1
  else 0.
#[export] Instance hc_ports : PortIO hc := {
  inb _ d := (0, d); outb _ _ d := d;
  inw p d := ((if p =? IO then h_cmd d .& 65533 else if p =? IO + 2 then (if h_cmd d .& 1 =? 0 then 32 else 0)
               else if p =? IO + 16 then 1 else 0), d);
  outw p v d := if p =? IO then Hc (h_ram d) (h_frames d) v (h_latch d) (h_request d) else d;
  io_wait d := d }.
#[export] Instance hc_ports32 : PortIO32 hc := {
  inl p d := ((if p =? PCI_CONFIG_DATA then config_dword (h_latch d) else 0), d);
  outl p v d := if p =? PCI_CONFIG_ADDRESS then Hc (h_ram d) (h_frames d) (h_cmd d) v (h_request d)
                else if p =? IO + 8 then Hc (h_ram d) v (h_cmd d) (h_latch d) (h_request d) else d }.
#[export] Instance hc_dma : DmaMem hc := {
  dma_read n a d := let d := if n =? 4 then run d else d in (load_le (h_ram d) a n, d);
  dma_write n a v d := set_ram (store_le a n v (h_ram d)) d }.
End model.

(** A keyboard with vendor 0x046D and product 0xC31C. *)
Definition device_descriptor : list Z := [18; 1; 16; 1; 0; 0; 0; 8; 109; 4; 28; 195; 0; 1; 1; 2; 0; 1].
Definition keyboard_reply (request : list Z) : list Z :=
  if bool_decide (take 4 request = [128; 6; 0; 1]) then device_descriptor
  else if bool_decide (take 4 request = [128; 6; 0; 2]) then take (Z.to_nat (arr_get 0 request 6)) (concat Examples.keyboard_config)
  else [].
Definition off : uhci hc :=
  UhciState (Hc ∅ 0 0 0 []) Examples.pm [] 0 false 0 0 (replicate 128 0) 0 (replicate 32 0) (-1) (replicate 16 Examples.no_device) 0.
Definition enumerated : option (Z * uhci hc) :=
  '(_, s) ← usb_init (H1 := hc_dma keyboard_reply) off;
  usb_enumerate (H1 := hc_dma keyboard_reply) 100 s.

(** On such a controller the keyboard is found and set up, but its
    vendor and product identifiers, 0x046D and 0xC31C, are entered as 0x0932
    and 4: they are read from a page that was given back and then reused for
    the configuration descriptor. *)
Theorem enumerate_reads_freed_page :
  (fun '(n, s) => (n, device_count s, hd Examples.no_device (devices s))) <$> enumerated =
  Some (1, 1, UsbDevice 1 1 1 0 2354 4 3 1 1 8 2 129 1).
Proof. by vm_compute. Qed.
End HeaderModel.
