(* ===== verification/Arch.v ===== *)
(** * Descriptor tables and interrupts (src/src/arch)

    [Pic]: the interrupt controllers, programmed through ports by pic.c and
    cpu_exceptions.c, with a model of the 8259 pair.  [Tss], [Gdt], [Idt]:
    the tables the processor reads, with the processor's decoding of their
    entries.  [Isr]: the handlers of interrupt_handlers.c, whose panic screen
    writes straight to the text buffer.  Entry points in assembly are addresses given
    as parameters. *)

From S2P Require Import Prelude Pmm KHeap Bytes Disk Text PageTable Vm Vfile.

(** * The interrupt controllers (pic.c) *)
Module Pic.
Definition PIC1_CMD : Z := 32.
Definition PIC1_DATA : Z := 33.
Definition PIC2_CMD : Z := 160.
Definition PIC2_DATA : Z := 161.
Definition PIC_EOI : Z := 32.
Definition ICW1_INIT : Z := 16.
Definition ICW1_ICW4 : Z := 1.
Definition ICW4_8086 : Z := 1.

Section driver.
Context {D : Type} `{PortIO D}.
Implicit Types (d : D).

Definition pic_remap (offset1 offset2 : Z) d : D :=
  let d := outb PIC1_CMD (ICW1_INIT .| ICW1_ICW4) d in
  let d := outb PIC2_CMD (ICW1_INIT .| ICW1_ICW4) d in
  let d := outb PIC1_DATA (u8 offset1) d in
  let d := outb PIC2_DATA (u8 offset2) d in
  let d := outb PIC1_DATA 4 d in
  let d := outb PIC2_DATA 2 d in
  let d := outb PIC1_DATA ICW4_8086 d in
  outb PIC2_DATA ICW4_8086 d.
Definition pic_mask (mask1 mask2 : Z) d : D := outb PIC2_DATA mask2 (outb PIC1_DATA mask1 d).
Definition pic_eoi (irq : Z) d : D :=
  let d := outb PIC1_CMD PIC_EOI d in
  if 8 <=? irq then outb PIC2_CMD PIC_EOI d else d.
Definition pic_init d : D := pic_mask 255 255 (pic_remap 32 40 d).

(** ** The functions of cpu_exceptions.c *)

Definition pic_send_eoi (irq : Z) d : D :=
  let d := if 8 <=? irq then outb PIC2_CMD 32 d else d in
  outb PIC1_CMD 32 d.
Definition pic_remap_std d : D :=
  let '(a1, d) := inb PIC1_DATA d in
  let '(a2, d) := inb PIC2_DATA d in
  let d := io_wait (outb PIC1_CMD 17 d) in
  let d := io_wait (outb PIC2_CMD 17 d) in
  let d := io_wait (outb PIC1_DATA 32 d) in
  let d := io_wait (outb PIC2_DATA 40 d) in
  let d := io_wait (outb PIC1_DATA 4 d) in
  let d := io_wait (outb PIC2_DATA 2 d) in
  let d := io_wait (outb PIC1_DATA 1 d) in
  let d := io_wait (outb PIC2_DATA 1 d) in
  outb PIC2_DATA a2 (outb PIC1_DATA a1 d).
(** The port and the bit of a line. *)
Definition line (irq : Z) : Z * Z := if irq <? 8 then (PIC1_DATA, irq) else (PIC2_DATA, irq - 8).
Definition irq_enable (irq : Z) d : D :=
  let '(port, b) := line irq in
  let '(v, d) := inb port d in outb port (u8 (v .& Z.lnot (1 .<< b))) d.
Definition irq_disable (irq : Z) d : D :=
  let '(port, b) := line irq in
  let '(v, d) := inb port d in outb port (u8 (v .| (1 .<< b))) d.
End driver.

(** ** The 8259 pair *)

(** One controller: mask, lines in service, vector base, cascade word, and
    the initialization word expected next (0: none). *)
Record i8259 : Type := I8259 { imr : Z; isr : Z; base : Z; cascade : Z; icw4 : Z; expects : Z }.
(** End of interrupt: the line of highest priority leaves service. *)
Definition eoi (isr : Z) : Z := isr .& (isr - 1).
Definition command (v : Z) (c : i8259) : i8259 :=
  if negb (v .& 16 =? 0) then I8259 0 0 (base c) (cascade c) 0 2
  else if v =? 32 then I8259 (imr c) (eoi (isr c)) (base c) (cascade c) (icw4 c) (expects c)
  else c.
Definition data (v : Z) (c : i8259) : i8259 :=
  if expects c =? 2 then I8259 (imr c) (isr c) (v .& 248) (cascade c) (icw4 c) 3
  else if expects c =? 3 then I8259 (imr c) (isr c) (base c) v (icw4 c) 4
  else if expects c =? 4 then I8259 (imr c) (isr c) (base c) (cascade c) v 0
  else I8259 v (isr c) (base c) (cascade c) (icw4 c) 0.
Record pics : Type := Pics { master : i8259; slave : i8259 }.
#[export] Instance pics_ports : PortIO pics := {
  inb p d := ((if p =? PIC1_DATA then imr (master d) else if p =? PIC2_DATA then imr (slave d) else 0), d);
  outb p v d :=
    if p =? PIC1_CMD then Pics (command v (master d)) (slave d)
    else if p =? PIC1_DATA then Pics (data v (master d)) (slave d)
    else if p =? PIC2_CMD then Pics (master d) (command v (slave d))
    else if p =? PIC2_DATA then Pics (master d) (data v (slave d))
    else d;
  inw _ d := (0, d); outw _ _ d := d; io_wait d := d
}.

(** The vector the processor gets for a line that is raised: none when it is
    masked, or when it is the slave's and the line between the two is. *)
Definition vector (irq : Z) (d : pics) : option Z :=
  if irq <? 8 then if Z.testbit (imr (master d)) irq then None else Some (base (master d) + irq)
  else if Z.testbit (imr (slave d)) (irq - 8) || Z.testbit (imr (master d)) 2 then None
  else Some (base (slave d) + (irq - 8)).
(** The line goes into service. *)
Definition acknowledge (irq : Z) (d : pics) : pics :=
  let serve b c := I8259 (imr c) (Z.lor (isr c) (2 ^ b)) (base c) (cascade c) (icw4 c) (expects c) in
  if irq <? 8 then Pics (serve irq (master d)) (slave d) else Pics (serve 2 (master d)) (serve (irq - 8) (slave d)).

(** Programmed as the kernel wants them. *)
Record programmed (m1 m2 : Z) (d : pics) : Prop := {
  pr_master : master d = I8259 m1 0 32 4 1 0; pr_slave : slave d = I8259 m2 0 40 2 1 0;
  pr_m1 : 0 <= m1 < 256; pr_m2 : 0 <= m2 < 256 }.

Lemma pic_init_programmed d : programmed 255 255 (pic_init d).
Proof. destruct d as [[m s b c i e] [m' s' b' c' i' e']]. by split. Qed.
Lemma pic_remap_std_programmed m1 m2 d : programmed m1 m2 d -> programmed m1 m2 (pic_remap_std d).
Proof. destruct d as [c1 c2]. intros [H1 H2 ? ?]. cbn in H1, H2. subst. by split. Qed.

Lemma mask_bit m b i : 0 <= m < 256 -> 0 <= b < 8 -> 0 <= i < 8 ->
  Z.testbit (u8 (m .& Z.lnot (1 .<< b))) i = Z.testbit m i && negb (i =? b) /\
  Z.testbit (u8 (m .| (1 .<< b))) i = Z.testbit m i || (i =? b).
Proof.
  intros Hm Hb Hi. unfold u8. rewrite !Z.mod_pow2_bits_low by lia. rewrite Z.land_spec, Z.lor_spec, Z.lnot_spec by lia.
  rewrite Z.shiftl_1_l, Z.pow2_bits_eqb by lia. by rewrite (Z.eqb_sym b i).
Qed.
Lemma u8_range x : 0 <= u8 x < 256.
Proof. unfold u8. change 256 with (2 ^ 8). by apply Z.mod_pos_bound. Qed.

(** Bit [i] of the sixteen masks. *)
Definition masked (m1 m2 i : Z) : bool := if i <? 8 then Z.testbit m1 i else Z.testbit m2 (i - 8).

Lemma irq_enable_masks m1 m2 d irq : programmed m1 m2 d -> 0 <= irq < 16 ->
  exists n1 n2, programmed n1 n2 (irq_enable irq d) /\
    forall i, 0 <= i < 16 -> masked n1 n2 i = masked m1 m2 i && negb (i =? irq).
Proof.
  destruct d as [c1 c2]. intros [Hc1 Hc2 Hm1 Hm2] Hi. cbn in Hc1, Hc2. subst. unfold irq_enable, line.
  destruct (Z.ltb_spec irq 8); cbn -[u8 Z.lnot Z.shiftl].
  - exists (u8 (m1 .& Z.lnot (1 .<< irq))), m2. split; [split; try done; apply u8_range|]. intros i Hi'. unfold masked.
    destruct (Z.ltb_spec i 8); [apply (proj1 (mask_bit m1 irq i Hm1 ltac:(lia) ltac:(lia)))|]. by rewrite (proj2 (Z.eqb_neq i irq)), andb_true_r by lia.
  - exists m1, (u8 (m2 .& Z.lnot (1 .<< (irq - 8)))). split; [split; try done; apply u8_range|]. intros i Hi'. unfold masked.
    destruct (Z.ltb_spec i 8); [by rewrite (proj2 (Z.eqb_neq i irq)), andb_true_r by lia|].
    rewrite (proj1 (mask_bit m2 (irq - 8) (i - 8) Hm2 ltac:(lia) ltac:(lia))). do 2 f_equal.
    destruct (Z.eqb_spec i irq), (Z.eqb_spec (i - 8) (irq - 8)); done || lia.
Qed.
Lemma irq_disable_masks m1 m2 d irq : programmed m1 m2 d -> 0 <= irq < 16 ->
  exists n1 n2, programmed n1 n2 (irq_disable irq d) /\
    forall i, 0 <= i < 16 -> masked n1 n2 i = masked m1 m2 i || (i =? irq).
Proof.
  destruct d as [c1 c2]. intros [Hc1 Hc2 Hm1 Hm2] Hi. cbn in Hc1, Hc2. subst. unfold irq_disable, line.
  destruct (Z.ltb_spec irq 8); cbn -[u8 Z.lnot Z.shiftl].
  - exists (u8 (m1 .| (1 .<< irq))), m2. split; [split; try done; apply u8_range|]. intros i Hi'. unfold masked.
    destruct (Z.ltb_spec i 8); [apply (proj2 (mask_bit m1 irq i Hm1 ltac:(lia) ltac:(lia)))|]. by rewrite (proj2 (Z.eqb_neq i irq)), orb_false_r by lia.
  - exists m1, (u8 (m2 .| (1 .<< (irq - 8)))). split; [split; try done; apply u8_range|]. intros i Hi'. unfold masked.
    destruct (Z.ltb_spec i 8); [by rewrite (proj2 (Z.eqb_neq i irq)), orb_false_r by lia|].
    rewrite (proj2 (mask_bit m2 (irq - 8) (i - 8) Hm2 ltac:(lia) ltac:(lia))). f_equal.
    destruct (Z.eqb_spec i irq), (Z.eqb_spec (i - 8) (irq - 8)); done || lia.
Qed.

(** Lines switched on and off in any order. *)
Inductive switch : Type := On (irq : Z) | Off (irq : Z).
Definition turn (d : pics) (x : switch) : pics := match x with On i => irq_enable i d | Off i => irq_disable i d end.
Definition of_line (x : switch) : Z := match x with On i | Off i => i end.
(** Whether the line is on after the switches: the last one decides. *)
Fixpoint is_on (i : Z) (on : bool) (l : list switch) : bool :=
  match l with
  | [] => on
  | On k :: l' => is_on i (on || (i =? k)) l'
  | Off k :: l' => is_on i (on && negb (i =? k)) l'
  end.

Lemma turns_masks l : Forall (fun x => 0 <= of_line x < 16) l -> forall m1 m2 d, programmed m1 m2 d ->
  exists n1 n2, programmed n1 n2 (foldl turn d l) /\
    forall i, 0 <= i < 16 -> masked n1 n2 i = negb (is_on i (negb (masked m1 m2 i)) l).
Proof.
  induction 1 as [|x l Hx Hl IH]; intros m1 m2 d Hd.
  - exists m1, m2. split; [done|]. intros i _. cbn [is_on]. by rewrite negb_involutive.
  - destruct x as [k|k]; cbn [foldl turn of_line is_on] in *.
    + destruct (irq_enable_masks _ _ _ k Hd Hx) as (n1 & n2 & Hn & Hm). destruct (IH _ _ _ Hn) as (o1 & o2 & Ho & Hmo).
      exists o1, o2. split; [done|]. intros i Hi. rewrite (Hmo i Hi), (Hm i Hi). do 2 f_equal. by destruct (masked m1 m2 i), (i =? k).
    + destruct (irq_disable_masks _ _ _ k Hd Hx) as (n1 & n2 & Hn & Hm). destruct (IH _ _ _ Hn) as (o1 & o2 & Ho & Hmo).
      exists o1, o2. split; [done|]. intros i Hi. rewrite (Hmo i Hi), (Hm i Hi). do 2 f_equal. by destruct (masked m1 m2 i), (i =? k).
Qed.

End Pic.

(** * The task state segment (tss.c) *)
Module Tss.
Definition sizeof_tss : Z := 104.
(** Offsets of the packed structure. *)
Definition RSP0 : Z := 4.
Definition IOPB : Z := 102.

(** The address, 0 when there is no memory. *)
Definition tss_init (fuel : nat) (h : kheap) : option (Z * kheap) :=
  '(tss, h) ← kmalloc fuel sizeof_tss h;
  if tss =? 0 then Some (0, h)
  else
    let m := store_bytes tss (replicate 104 0) (payload h) in
    let m := store_le (tss + RSP0) 8 0 m in
    Some (tss, set_payload (store_le (tss + IOPB) 2 sizeof_tss m) h).
Definition tss_set_rsp0 (tss rsp0 : Z) (h : kheap) : kheap :=
  if tss =? 0 then h else set_payload (store_le (tss + RSP0) 8 rsp0 (payload h)) h.
Definition tss_size : Z := sizeof_tss.

(** After [tss_init] and [tss_set_rsp0] the segment is clear but for the
    stack of ring 0 and the map offset, which lies at its end. *)
Lemma tss_contents fuel h tss h1 rsp0 : tss_init fuel h = Some (tss, h1) -> tss <> 0 -> is_u64 rsp0 ->
  let m := payload (tss_set_rsp0 tss rsp0 h1) in
  load_le m (tss + RSP0) 8 = rsp0 /\ load_le m (tss + IOPB) 2 = sizeof_tss /\
  forall i, 0 <= i < 104 -> ~ (4 <= i < 12) -> i < 102 -> byte_at m (tss + i) = 0.
Proof.
  unfold tss_init, tss_set_rsp0. destruct (kmalloc _ _ _) as [[p h0]|]; [|done]. cbn [mbind option_bind].
  set (z := store_bytes p (replicate 104 0) (payload h0)). destruct (Z.eqb_spec p 0) as [->|Hp]; intros E Hne Hu;
    apply (f_equal (default (0, h))) in E; cbn [from_option id] in E;
    pose proof (f_equal fst E) as E1; pose proof (f_equal snd E) as E2; cbn [fst snd] in E1, E2; clear E; subst tss h1; [done|].
  rewrite (proj2 (Z.eqb_neq p 0)) by done. cbn [payload set_payload].
  unfold RSP0, IOPB, sizeof_tss. repeat split.
  - rewrite load_le_store_eq by lia. change (256 ^ 8) with (2 ^ 64). by apply Z.mod_small.
  - rewrite load_le_store_ne, load_le_store_eq by lia. done.
  - intros i Hi H1 H2. rewrite (frame_store_le (p + 4) 8) by lia. rewrite (frame_store_le (p + 102) 2) by lia.
    rewrite (frame_store_le (p + 4) 8) by lia. unfold z. rewrite store_bytes_at. change (len (replicate 104 0)) with 104.
    rewrite (proj2 (Z.leb_le p (p + i))), (proj2 (Z.ltb_lt (p + i) (p + 104))) by lia. cbn [andb].
    unfold arr_get. by rewrite lookup_replicate_2 by lia.
Qed.
End Tss.

(** * The segment table (gdt.c) *)
Module Gdt.
Record gdt_entry : Type := GdtEntry {
  limit_low : Z; base_low : Z; base_middle : Z; access : Z; granularity : Z; base_high : Z }.
Definition tss_descriptor (tss_addr tss_limit : Z) : list gdt_entry :=
  [GdtEntry (tss_limit .& 65535) (tss_addr .& 65535) ((tss_addr .>> 16) .& 255) 137 0 ((tss_addr .>> 24) .& 255);
   GdtEntry ((tss_addr .>> 32) .& 65535) ((tss_addr .>> 48) .& 65535) 0 0 0 0].
(** The table, its limit and the selector loaded into the task register. *)
Definition gdt64_init (tss : Z) : list gdt_entry * Z * Z :=
  let tss_addr := tss in
  let tss_limit := u32 (Tss.tss_size - 1) in
  ([GdtEntry 0 0 0 0 0 0; GdtEntry 0 0 0 154 175 0; GdtEntry 0 0 0 146 207 0; GdtEntry 0 0 0 250 175 0; GdtEntry 0 0 0 242 207 0] ++
   tss_descriptor tss_addr tss_limit ++ [GdtEntry 0 0 0 0 0 0], u16 (8 * 8 - 1), 40).

(** How the processor reads the table. *)
Definition dpl (e : gdt_entry) : Z := (access e .>> 5) .& 3.
Definition present (e : gdt_entry) : bool := Z.testbit (access e) 7.
(** A code segment in 64-bit mode; a data segment. *)
Definition long_code (e : gdt_entry) : bool := present e && Z.testbit (access e) 4 && Z.testbit (access e) 3 && Z.testbit (granularity e) 5 && negb (Z.testbit (granularity e) 6).
Definition data_segment (e : gdt_entry) : bool := present e && Z.testbit (access e) 4 && negb (Z.testbit (access e) 3) && Z.testbit (access e) 1.
(** An available 64-bit task state segment spans two entries. *)
Definition tss_base (lo hi : gdt_entry) : Z :=
  base_low lo + (base_middle lo .<< 16) + (base_high lo .<< 24) + (limit_low hi .<< 32) + (base_low hi .<< 48).
Definition seg_limit (e : gdt_entry) : Z := limit_low e + ((granularity e .& 15) .<< 16).
Definition no_entry : gdt_entry := GdtEntry 0 0 0 0 0 0.
Definition select (g : list gdt_entry) (selector : Z) : gdt_entry := arr_get no_entry g (selector .>> 3).

Lemma split_base h : is_u64 h ->
  (h .& 65535) + (((h .>> 16) .& 255) .<< 16) + (((h .>> 24) .& 255) .<< 24) + (((h .>> 32) .& 65535) .<< 32) +
  (((h .>> 48) .& 65535) .<< 48) = h.
Proof.
  intros Hh. unfold is_u64 in Hh. change 65535 with (Z.ones 16). change 255 with (Z.ones 8).
  rewrite !Z.land_ones, !Z.shiftl_mul_pow2, !Z.shiftr_div_pow2 by lia.
  rewrite (Z.mod_small (h / 2 ^ 48)) by (split; [apply Z.div_pos; lia|apply Z.div_lt_upper_bound; lia]).
  Z.to_euclidean_division_equations. lia.
Qed.

(** With the task state segment at any address, the table [gdt64_init]
    loads has under the selectors the kernel uses, 0x08 and 0x10 in ring 0
    and 0x1B and 0x23 in ring 3, a 64-bit code and a data segment of that
    ring; the task register's descriptor leads back to the address, with a
    limit that leaves out the I/O permission map [tss_init] points at. *)
Theorem gdt_segments (tss : Z) (Htss : is_u64 tss) :
  let '(g, limit, tr) := gdt64_init tss in
  limit = 8 * len g - 1 /\
  long_code (select g 8) = true /\ dpl (select g 8) = 0 /\ data_segment (select g 16) = true /\ dpl (select g 16) = 0 /\
  long_code (select g 27) = true /\ dpl (select g 27) = 3 /\ data_segment (select g 35) = true /\ dpl (select g 35) = 3 /\
  present (select g tr) = true /\ access (select g tr) .& 31 = 9 /\
  tss_base (select g tr) (select g (tr + 8)) = tss /\ seg_limit (select g tr) < Tss.sizeof_tss.
Proof.
  unfold gdt64_init, tss_descriptor. repeat split.
  change (tss_base _ _) with ((tss .& 65535) + (((tss .>> 16) .& 255) .<< 16) + (((tss .>> 24) .& 255) .<< 24) +
    (((tss .>> 32) .& 65535) .<< 32) + (((tss .>> 48) .& 65535) .<< 48)). by apply split_base.
Qed.
End Gdt.

(** * The interrupt table (idt.c) *)
Module Idt.
Definition IDT_ENTRIES : Z := 256.
Definition IDT_TYPE_INTERRUPT : Z := 142.   (* 0x8E *)
Definition IDT_TYPE_SYSCALL : Z := 238.     (* 0xEE *)
Definition KERNEL_CS : Z := 8.
Record idt_entry : Type := IdtEntry {
  offset_low : Z; selector : Z; ist : Z; type_attr : Z; offset_mid : Z; offset_high : Z; reserved : Z }.
Definition no_gate : idt_entry := IdtEntry 0 0 0 0 0 0 0.
Definition gate (handler type : Z) : idt_entry :=
  IdtEntry (handler .& 65535) KERNEL_CS 0 type ((handler .>> 16) .& 65535) ((handler .>> 32) .& 4294967295) 0.
Definition idt_set_isr (n handler : Z) (idt : list idt_entry) : list idt_entry := arr_set idt n (gate handler IDT_TYPE_INTERRUPT).
Definition idt_set_syscall_gate (n handler : Z) (idt : list idt_entry) : list idt_entry := arr_set idt n (gate handler IDT_TYPE_SYSCALL).

Section init.
(** The stubs of interrupts.asm and the system call entry. *)
Context (isr irq : Z -> Z) (syscall_entry : Z).
Definition idt_init : list idt_entry * Z :=
  let idt := replicate 256 no_gate in
  let idt := foldl (fun t n => idt_set_isr n (isr n) t) idt (seqZ 0 32) in
  let idt := foldl (fun t n => idt_set_isr (32 + n) (irq n) t) idt (seqZ 0 16) in
  (idt_set_syscall_gate 128 syscall_entry idt, u16 (256 * 16 - 1)).
Definition idt_set_syscall_gate_wrapper (idt : list idt_entry) : list idt_entry := idt_set_syscall_gate 128 syscall_entry idt.
End init.

(** How the processor reads a gate: the code to run and the least privilege
    that may call it by an instruction; both an interrupt gate and a trap
    gate exist, only the former turns interrupts off. *)
Record target : Type := Target { t_code : Z; t_cs : Z; t_dpl : Z; t_masks : bool }.
Definition decode (e : idt_entry) : option target :=
  if Z.testbit (type_attr e) 7 then
    if (type_attr e .& 15 =? 14) || (type_attr e .& 15 =? 15) then
      Some (Target (offset_low e + (offset_mid e .<< 16) + (offset_high e .<< 32)) (selector e)
              ((type_attr e .>> 5) .& 3) (type_attr e .& 15 =? 14))
    else None
  else None.
Definition at_vector (idt : list idt_entry) (n : Z) : option target := decode (arr_get no_gate idt n).

Lemma gate_offset h : is_u64 h -> (h .& 65535) + (((h .>> 16) .& 65535) .<< 16) + (((h .>> 32) .& 4294967295) .<< 32) = h.
Proof.
  intros Hh. unfold is_u64 in Hh. change 65535 with (Z.ones 16). change 4294967295 with (Z.ones 32).
  rewrite !Z.land_ones, !Z.shiftl_mul_pow2, !Z.shiftr_div_pow2 by lia.
  rewrite (Z.mod_small (h / 2 ^ 32)) by (split; [apply Z.div_pos; lia|apply Z.div_lt_upper_bound; lia]).
  Z.to_euclidean_division_equations. lia.
Qed.
Lemma decode_isr h : is_u64 h -> decode (gate h IDT_TYPE_INTERRUPT) = Some (Target h 8 0 true).
Proof. intros Hh. unfold decode. cbn -[Z.shiftl Z.shiftr Z.land Z.add]. change (142 .& 15) with 14. cbn -[Z.shiftl Z.shiftr Z.land Z.add]. by rewrite gate_offset. Qed.
Lemma decode_syscall h : is_u64 h -> decode (gate h IDT_TYPE_SYSCALL) = Some (Target h 8 3 true).
Proof. intros Hh. unfold decode. cbn -[Z.shiftl Z.shiftr Z.land Z.add]. change (238 .& 15) with 14. cbn -[Z.shiftl Z.shiftr Z.land Z.add]. by rewrite gate_offset. Qed.

(** A table filled at a run of vectors. *)
Lemma fill_at (f : Z -> idt_entry) base k : 0 <= base -> forall (n : nat) t i, base + k + Z.of_nat n <= len t -> 0 <= k -> 0 <= i ->
  arr_get no_gate (foldl (fun t n => arr_set t (base + n) (f n)) t (seqZ k (Z.of_nat n))) i =
  if (base + k <=? i) && (i <? base + k + Z.of_nat n) then f (i - base) else arr_get no_gate t i.
Proof.
  intros Hb n. revert k. induction n as [|n IH]; intros k t i Hl Hk Hi.
  - change (seqZ k (Z.of_nat 0)) with (@nil Z). cbn [foldl]. destruct (_ && _) eqn:E; [zbool; lia|done].
  - rewrite seqZ_cons by lia. cbn [foldl]. replace (Z.pred (Z.of_nat (S n))) with (Z.of_nat n) by lia.
    rewrite IH by (unfold arr_set; rewrite ?length_insert; lia).
    destruct (Z.eqb_spec i (base + k)) as [->|Hne].
    + rewrite (proj2 (Z.leb_gt (base + Z.succ k) (base + k))) by lia. cbn [andb].
      rewrite (proj2 (Z.leb_le (base + k) (base + k))), (proj2 (Z.ltb_lt (base + k) _)) by lia. cbn [andb].
      replace (base + k - base) with k by lia. apply arr_get_set_eq. lia.
    + rewrite arr_get_set_ne by lia. destruct (Z.leb_spec (base + Z.succ k) i), (Z.leb_spec (base + k) i),
        (Z.ltb_spec i (base + Z.succ k + Z.of_nat n)), (Z.ltb_spec i (base + k + Z.of_nat (S n))); cbn [andb]; try lia; done.
Qed.

(** After [idt_init] every vector from 0 to 31 leads to its exception
    stub and every vector from 32 to 47 to its interrupt stub, in the kernel
    code segment and with interrupts off, and cannot be called by user code;
    vector 0x80 leads to the system call entry and can; no other vector is
    present, and the limit covers the 256 gates. *)
Theorem idt_vectors (isr irq : Z -> Z) (syscall_entry n : Z)
    (Hisr : forall k, is_u64 (isr k)) (Hirq : forall k, is_u64 (irq k)) (Hsys : is_u64 syscall_entry) (Hn : 0 <= n < 256) :
  at_vector (idt_init isr irq syscall_entry).1 n =
    (if n <? 32 then Some (Target (isr n) 8 0 true)
     else if n <? 48 then Some (Target (irq (n - 32)) 8 0 true)
     else if n =? 128 then Some (Target syscall_entry 8 3 true)
     else None) /\
  (idt_init isr irq syscall_entry).2 = 4095.
Proof.
  split; [|done]. unfold at_vector, idt_init. cbn [fst]. unfold idt_set_syscall_gate, idt_set_isr.
  set (t1 := foldl _ (replicate 256 no_gate) (seqZ 0 32)).
  assert (Hl1 : length t1 = 256%nat).
  { unfold t1. apply foldl_inv; [done|]. intros t k _ Ht. unfold arr_set. by rewrite length_insert. }
  assert (Ht1 : arr_get no_gate t1 n = if n <? 32 then gate (isr n) IDT_TYPE_INTERRUPT else no_gate).
  { unfold t1. pose proof (fill_at (fun k => gate (isr k) IDT_TYPE_INTERRUPT) 0 0 ltac:(lia) 32 (replicate 256 no_gate) n) as Hf.
    rewrite length_replicate in Hf. change (Z.of_nat 32) with 32 in Hf. etransitivity; [apply Hf; lia|]. change (0 + 0) with 0. change (0 + 32) with 32.
    rewrite Z.sub_0_r, (proj2 (Z.leb_le 0 n)) by lia. cbn [andb]. destruct (n <? 32); [done|].
    unfold arr_get. by rewrite lookup_replicate_2 by lia. }
  pose proof (fill_at (fun k => gate (irq k) IDT_TYPE_INTERRUPT) 32 0 ltac:(lia) 16 t1 n) as Hf.
  change (Z.of_nat 16) with 16 in Hf. change (32 + 0) with 32 in Hf. change (32 + 16) with 48 in Hf.
  set (t2 := foldl _ t1 (seqZ 0 16)) in *.
  assert (Hl2 : length t2 = 256%nat).
  { unfold t2. apply foldl_inv; [done|]. intros t k _ Ht. unfold arr_set. by rewrite length_insert. }
  rewrite arr_get_set by lia. destruct (Z.eqb_spec 128 n) as [<-|Hne]; [by rewrite decode_syscall|].
  rewrite Hf, Ht1 by lia. rewrite (proj2 (Z.eqb_neq n 128)) by lia.
  destruct (Z.ltb_spec n 32); [rewrite (proj2 (Z.leb_gt 32 n)) by lia; cbn [andb]; by rewrite decode_isr|].
  rewrite (proj2 (Z.leb_le 32 n)) by lia. cbn [andb]. destruct (n <? 48); [by rewrite decode_isr|done].
Qed.
End Idt.

(** * Exceptions and interrupts (interrupt_handlers.c) *)
Module Isr.
Definition exception_names : list cstring :=
  [zs "Divide Error"; zs "Debug Exception"; zs "NMI Interrupt"; zs "Breakpoint"; zs "Overflow"; zs "BOUND Range Exceeded";
   zs "Invalid Opcode"; zs "Device Not Available"; zs "Double Fault"; zs "Coprocessor Segment Overrun"; zs "Invalid TSS";
   zs "Segment Not Present"; zs "Stack-Segment Fault"; zs "General Protection"; zs "Page Fault"; zs "Reserved"; zs "x87 FPU Error";
   zs "Alignment Check"; zs "Machine Check"; zs "SIMD Exception"; zs "Virtualization"; zs "Control Protection"] ++
  replicate 8 (zs "Reserved") ++ [zs "Security"; zs "Reserved"].

Record interrupt_frame : Type := Frame {
  r15 : Z; r14 : Z; r13 : Z; r12 : Z; r11 : Z; r10 : Z; r9 : Z; r8 : Z;
  rbp : Z; rdi : Z; rsi : Z; rdx : Z; rcx : Z; rbx : Z; rax : Z;
  int_no : Z; err_code : Z; rip : Z; cs : Z; rflags : Z; rsp : Z; ss : Z }.

(** The text buffer and the position in it, the bytes sent to the serial
    port, and for each conversion of a number to decimal what the stack
    holds behind its digits. *)
Record pscreen : Type := PScreen { cells : list Z; px : Z; py : Z; serial : list Z; junk : list (list Z) }.
Implicit Types (s : pscreen) (f : interrupt_frame).

Definition scroll (l : list Z) : list Z := drop 80 l ++ replicate 80 20256.   (* 0x4F20 *)
(** [None] would be a store outside the buffer. *)
Definition panic_putch (c : Z) s : option pscreen :=
  if c =? 10 then Some (PScreen (cells s) 0 (py s + 1) (serial s) (junk s))
  else
    let '(x, y) := if 80 <=? px s then (0, py s + 1) else (px s, py s) in
    let '(l, y) := if 25 <=? y then (scroll (cells s), 24) else (cells s, y) in
    let i := y * 80 + x in
    if (0 <=? i) && (i <? len l) then Some (PScreen (arr_set l i (u16 c .| 20224)) (x + 1) y (serial s) (junk s)) else None.
Fixpoint panic_puts (t : list Z) s : option pscreen :=
  match t with [] => Some s | c :: t' => s ← panic_putch c s; panic_puts t' s end.

(** The characters of a number: hexadecimal without leading zeros. *)
Fixpoint hex_digits (n : Z) (started : bool) (shifts : list Z) : list Z :=
  match shifts with
  | [] => []
  | i :: shifts' =>
      let digit := (n .>> i) .& 15 in
      if negb (digit =? 0) || started || (i =? 0) then arr_get 0 (zs "0123456789ABCDEF") digit :: hex_digits n true shifts'
      else hex_digits n started shifts'
  end.
Definition hex_text (n : Z) : list Z := zs "0x" ++ hex_digits n false ((fun k => 60 - 4 * k) <$> seqZ 0 16).
(** [buf] is not terminated: the loop prints on until a zero byte. *)
Fixpoint until_zero (l : list Z) : option (list Z) :=
  match l with [] => None | b :: l' => if b =? 0 then Some [] else r ← until_zero l'; Some (b :: r) end.
Definition dec_text (n : Z) s : option (list Z * pscreen) :=
  if n =? 0 then Some (zs "0", s)
  else
    rest ← until_zero (hd [0] (junk s));
    Some (put_dec n ++ rest, PScreen (cells s) (px s) (py s) (serial s) (tl (junk s))).

Definition panic_put_hex (n : Z) s : option pscreen := panic_puts (hex_text n) s.
Definition panic_put_dec (n : Z) s : option pscreen := '(t, s) ← dec_text n s; panic_puts t s.
Definition serial_panic_puts (t : list Z) s : pscreen := PScreen (cells s) (px s) (py s) (serial s ++ t) (junk s).
Definition serial_panic_put_hex (n : Z) s : pscreen := serial_panic_puts (hex_text n) s.
Definition serial_panic_put_dec (n : Z) s : option pscreen := '(t, s) ← dec_text n s; Some (serial_panic_puts t s).

Section handlers.
(** The faulting address register. *)
Context (cr2 : Z).

Definition bit_text (b : Z) : list Z := if b =? 0 then zs "0" else zs "1".
Definition panic_exception f s : option pscreen :=
  if int_no f <? 32 then
    let name := arr_get [] exception_names (int_no f) in
    let s := serial_panic_puts (zs " (#") (serial_panic_puts name (serial_panic_puts (zs "Exception: ") s)) in
    s ← serial_panic_put_dec (int_no f) s;
    let s := serial_panic_puts (zs ")" ++ [10]) s in
    s ← panic_puts (zs "Exception: ") s;
    s ← panic_puts name s;
    s ← panic_puts (zs " (#") s;
    s ← panic_put_dec (int_no f) s;
    panic_puts (zs ")" ++ [10; 10]) s
  else Some s.
Definition panic_position f s : option pscreen :=
  let s := serial_panic_put_hex (rip f) (serial_panic_puts (zs "RIP:    ") s) in
  let s := serial_panic_put_hex (rsp f) (serial_panic_puts ([10] ++ zs "RSP:    ") s) in
  let s := serial_panic_put_hex (rflags f) (serial_panic_puts ([10] ++ zs "RFLAGS: ") s) in
  let s := serial_panic_put_hex (cs f) (serial_panic_puts ([10] ++ zs "CS: ") s) in
  let s := serial_panic_put_hex (ss f) (serial_panic_puts (zs "  SS: ") s) in
  let s := serial_panic_put_hex (err_code f) (serial_panic_puts (zs "  ERR: ") s) in
  s ← serial_panic_put_dec (int_no f) (serial_panic_puts (zs "  INT: ") s);
  let s := serial_panic_puts [10] s in
  s ← panic_puts (zs "RIP:    ") s; s ← panic_put_hex (rip f) s;
  s ← panic_puts ([10] ++ zs "RSP:    ") s; s ← panic_put_hex (rsp f) s;
  s ← panic_puts ([10] ++ zs "RFLAGS: ") s; s ← panic_put_hex (rflags f) s;
  s ← panic_puts ([10] ++ zs "CS: ") s; s ← panic_put_hex (cs f) s;
  s ← panic_puts (zs "  SS: ") s; s ← panic_put_hex (ss f) s;
  panic_puts [10; 10] s.
Definition panic_fault f s : option pscreen :=
  if int_no f =? 14 then
    let s := serial_panic_put_hex (err_code f) (serial_panic_puts (zs "Error Code: ") s) in
    let s := serial_panic_put_hex cr2 (serial_panic_puts ([10] ++ zs "Fault Address: ") s) in
    let s := serial_panic_puts [10] s in
    s ← panic_puts (zs "Error Code: ") s; s ← panic_put_hex (err_code f) s;
    s ← panic_puts ([10] ++ zs "Fault Address: ") s; s ← panic_put_hex cr2 s;
    s ← panic_puts ([10; 10] ++ zs "  P: ") s; s ← panic_puts (bit_text (err_code f .& 1)) s;
    s ← panic_puts (zs "  W: ") s; s ← panic_puts (bit_text (err_code f .& 2)) s;
    s ← panic_puts (zs "  U: ") s; s ← panic_puts (bit_text (err_code f .& 4)) s;
    s ← panic_puts (zs "  R: ") s; s ← panic_puts (bit_text (err_code f .& 8)) s;
    s ← panic_puts (zs "  I: ") s; s ← panic_puts (bit_text (err_code f .& 16)) s;
    panic_puts [10] s
  else Some s.
Definition panic_registers f s : option pscreen :=
  s ← panic_puts ([10] ++ zs "Registers:" ++ [10]) s;
  s ← panic_puts (zs "RAX: ") s; s ← panic_put_hex (rax f) s;
  s ← panic_puts (zs "  RBX: ") s; s ← panic_put_hex (rbx f) s;
  s ← panic_puts (zs "  RCX: ") s; s ← panic_put_hex (rcx f) s;
  s ← panic_puts ([10] ++ zs "RDX: ") s; s ← panic_put_hex (rdx f) s;
  s ← panic_puts (zs "  RSI: ") s; s ← panic_put_hex (rsi f) s;
  s ← panic_puts (zs "  RDI: ") s; s ← panic_put_hex (rdi f) s;
  s ← panic_puts ([10] ++ zs "RBP: ") s; s ← panic_put_hex (rbp f) s;
  s ← panic_puts (zs "  R8:  ") s; s ← panic_put_hex (r8 f) s;
  s ← panic_puts (zs "  R9:  ") s; s ← panic_put_hex (r9 f) s;
  s ← panic_puts ([10] ++ zs "R10: ") s; s ← panic_put_hex (r10 f) s;
  s ← panic_puts (zs "  R11: ") s; s ← panic_put_hex (r11 f) s;
  s ← panic_puts (zs "  R12: ") s; s ← panic_put_hex (r12 f) s;
  s ← panic_puts ([10] ++ zs "R13: ") s; s ← panic_put_hex (r13 f) s;
  s ← panic_puts (zs "  R14: ") s; s ← panic_put_hex (r14 f) s;
  s ← panic_puts (zs "  R15: ") s; s ← panic_put_hex (r15 f) s;
  panic_puts ([10; 10] ++ zs "System halted." ++ [10]) s.

(** Everything before the final [cli; hlt] loop. *)
Definition panic (msg : list Z) f s : option pscreen :=
  let s := PScreen (replicate 2000 20256) 0 0 (serial s) (junk s) in
  let s := serial_panic_puts ([10] ++ zs "!!! KERNEL PANIC !!!" ++ [10]) s in
  let s := serial_panic_puts [10] (serial_panic_puts msg s) in
  s ← panic_puts ([10] ++ zs "!!! KERNEL PANIC !!!" ++ [10; 10]) s;
  s ← panic_puts msg s;
  s ← panic_puts [10; 10] s;
  s ← panic_exception f s;
  s ← panic_position f s;
  s ← panic_fault f s;
  panic_registers f s.

Record machine : Type := Machine { m_screen : pscreen; m_vm : vmm }.
(** The interrupted code goes on, or the processor halts for good. *)
Inductive outcome : Type := Resumed (m : machine) | Halted (m : machine).

Definition message (n : Z) : list Z :=
  if n =? 0 then zs "Divide Error (#DE)" else if n =? 1 then zs "Debug Exception (#DB)" else if n =? 2 then zs "NMI Interrupt"
  else if n =? 4 then zs "Overflow (#OF)" else if n =? 5 then zs "BOUND Range Exceeded (#BR)" else if n =? 6 then zs "Invalid Opcode (#UD)"
  else if n =? 7 then zs "Device Not Available (#NM)" else if n =? 8 then zs "Double Fault (#DF)" else if n =? 10 then zs "Invalid TSS (#TS)"
  else if n =? 11 then zs "Segment Not Present (#NP)" else if n =? 12 then zs "Stack-Segment Fault (#SS)"
  else if n =? 13 then zs "General Protection (#GP)" else if n =? 14 then zs "Page Fault (#PF)" else if n =? 16 then zs "x87 FPU Error (#MF)"
  else if n =? 17 then zs "Alignment Check (#AC)" else if n =? 18 then zs "Machine Check (#MC)" else if n =? 19 then zs "SIMD Exception (#XM)"
  else zs "Unknown Exception".
(** [space] is the address space of the current process. *)
Definition isr_handler (space : option vm_space) f (m : machine) : option outcome :=
  let die m := s ← panic (message (int_no f)) f (m_screen m); Some (Halted (Machine s (m_vm m))) in
  if int_no f =? 3 then Some (Resumed m)
  else if int_no f =? 14 then
    let '(r, vm) := vm_handle_cow_fault space cr2 (err_code f) (m_vm m) in
    let m := Machine (m_screen m) vm in
    if r =? 0 then Some (Resumed m) else die m
  else die m.
End handlers.

(** Interrupts other than the timer's and the keyboard's, which the stub
    handles itself. *)
Definition irq_handler {D M} f (e : sysenv D M) : sysenv D M :=
  let irq := u64 (int_no f - 32) in
  if irq <? 16 then vfile_irq_tick (i32 irq) e else e.

(** ** The panic screen stays in the buffer *)

Record on_screen s : Prop := { os_cells : length (cells s) = 2000%nat; os_x : 0 <= px s <= 80; os_y : 0 <= py s }.

Lemma length_scroll l : length l = 2000%nat -> length (scroll l) = 2000%nat.
Proof. intros Hl. unfold scroll. rewrite length_app, length_drop, length_replicate. lia. Qed.
(** What is on the serial line and unread. *)
Definition rest s := (serial s, junk s).
Lemma panic_putch_ok c s : on_screen s -> exists s', panic_putch c s = Some s' /\ on_screen s' /\ rest s' = rest s.
Proof.
  intros [Hc Hx Hy]. unfold panic_putch. destruct (c =? 10).
  { eexists. split; [done|]. split; [|done]. split; cbn; done || lia. }
  assert (Hpos : exists x y, (if 80 <=? px s then (0, py s + 1) else (px s, py s)) = (x, y) /\ 0 <= x < 80 /\ 0 <= y).
  { destruct (Z.leb_spec 80 (px s)); do 2 eexists; (split; [done|]); lia. }
  destruct Hpos as (x & y & -> & Hx' & Hy').
  assert (Hl : exists l z, (if 25 <=? y then (scroll (cells s), 24) else (cells s, y)) = (l, z) /\ length l = 2000%nat /\ 0 <= z < 25).
  { destruct (Z.leb_spec 25 y); do 2 eexists; (split; [done|]); [rewrite length_scroll by done; lia|lia]. }
  destruct Hl as (l & z & -> & Hl & Hz). rewrite (proj2 (Z.leb_le 0 (z * 80 + x))), (proj2 (Z.ltb_lt (z * 80 + x) (len l))) by lia.
  cbn [andb]. eexists. split; [done|]. split; [|done]. split; cbn; unfold arr_set; rewrite ?length_insert; lia.
Qed.
Lemma panic_puts_ok t : forall s, on_screen s -> exists s', panic_puts t s = Some s' /\ on_screen s' /\ rest s' = rest s.
Proof.
  induction t as [|c t IH]; intros s Hs; cbn [panic_puts]; [by exists s|].
  destruct (panic_putch_ok c s Hs) as (s1 & -> & Hs1 & Hr1). cbn. destruct (IH s1 Hs1) as (s2 & -> & Hs2 & Hr2).
  exists s2. split; [done|]. split; [done|]. by rewrite Hr2.
Qed.

(** The decimal conversions find a zero byte in the end. *)
Definition terminated s : Prop := Forall (fun j => 0 ∈ j) (junk s).
Lemma until_zero_some l : 0 ∈ l -> exists r, until_zero l = Some r.
Proof.
  induction l as [|b l IH]; [by intros ?%elem_of_nil|]. cbn [until_zero]. destruct (b =? 0) eqn:E; [eauto|]. zbool.
  intros [?|Hl]%elem_of_cons; [done|]. destruct (IH Hl) as [r ->]. cbn. eauto.
Qed.
Lemma dec_text_ok n s : on_screen s -> terminated s ->
  exists t s', dec_text n s = Some (t, s') /\ on_screen s' /\ terminated s' /\ serial s' = serial s.
Proof.
  intros Hs Ht. unfold dec_text. destruct (n =? 0); [by exists (zs "0"), s|].
  assert (Hz : 0 ∈ hd [0] (junk s)). { unfold terminated in Ht. destruct Ht; cbn; [by left|done]. }
  destruct (until_zero_some _ Hz) as [r ->]. cbn. eexists _, _. split; [done|]. destruct Hs. split; [by split|]. split; [|done].
  unfold terminated in *. cbn. destruct Ht; cbn; [constructor|done].
Qed.

(** Steps of the panic screen: it goes on, and the serial text only grows. *)
Definition prints s s' : Prop := on_screen s' /\ terminated s' /\ serial s `prefix_of` serial s'.
Definition steps (m : pscreen -> option pscreen) : Prop := forall s, on_screen s -> terminated s -> exists s', m s = Some s' /\ prints s s'.
Lemma steps_puts t : steps (panic_puts t).
Proof.
  intros s Hs Ht. destruct (panic_puts_ok t s Hs) as (s' & E & Hs' & Hr). unfold rest in Hr. exists s'. split; [done|]. split; [done|].
  injection Hr as Hr1 Hr2. split; [unfold terminated; by rewrite Hr2|by rewrite Hr1].
Qed.
Lemma steps_serial t : steps (fun s => Some (serial_panic_puts t s)).
Proof. intros s [] Ht. eexists. split; [done|]. split; [by split|]. split; [done|]. by eexists. Qed.
Lemma steps_dec n : steps (panic_put_dec n).
Proof.
  intros s Hs Ht. unfold panic_put_dec. destruct (dec_text_ok n s Hs Ht) as (t & s1 & -> & Hs1 & Ht1 & Hr). cbn.
  destruct (steps_puts t s1 Hs1 Ht1) as (s2 & -> & Hs2 & Ht2 & Hp). exists s2. split; [done|]. split; [done|]. split; [done|]. by rewrite <- Hr.
Qed.
Lemma steps_serial_dec n : steps (serial_panic_put_dec n).
Proof.
  intros s Hs Ht. unfold serial_panic_put_dec. destruct (dec_text_ok n s Hs Ht) as (t & s1 & -> & Hs1 & Ht1 & Hr). cbn.
  destruct (steps_serial t s1 Hs1 Ht1) as (s2 & [= <-] & Hs2 & Ht2 & Hp). eexists. split; [done|]. split; [done|]. split; [done|]. by rewrite <- Hr.
Qed.
Lemma prints_refl s : on_screen s -> terminated s -> prints s s.
Proof. by split. Qed.
Lemma prints_serial s0 s t : prints s0 s -> prints s0 (serial_panic_puts t s).
Proof. intros ([] & Ht & Hp). split; [by split|]. split; [done|]. by apply prefix_app_r. Qed.
Lemma prints_step s0 s (m : pscreen -> option pscreen) : prints s0 s -> steps m -> exists s', m s = Some s' /\ prints s0 s'.
Proof.
  intros (Hs & Ht & Hp) Hm. destruct (Hm s Hs Ht) as (s' & E & Hs' & Ht' & Hp'). exists s'. split; [done|]. split; [done|]. split; [done|]. by etrans.
Qed.
Lemma prints_bind s0 s (m k : pscreen -> option pscreen) : prints s0 s -> steps m ->
  (forall s1, prints s0 s1 -> exists s', k s1 = Some s' /\ prints s0 s') -> exists s', (s ← m s; k s) = Some s' /\ prints s0 s'.
Proof. intros Hs Hm Hk. destruct (prints_step s0 s m Hs Hm) as (s1 & -> & Hs1). cbn. by apply Hk. Qed.
Create HintDb panic discriminated.
#[local] Hint Constants Opaque : panic.
#[local] Hint Resolve steps_puts steps_dec steps_serial_dec prints_serial : panic.
Ltac prints :=
  cbv zeta; unfold panic_put_hex, serial_panic_put_hex;
  repeat (apply prints_bind; [solve [auto 20 with panic]|solve [auto with panic]|intros ? ?]);
  first [apply prints_step; solve [auto 20 with panic]|eexists; split; [done|solve [auto 20 with panic]]].

Lemma steps_exception f : steps (panic_exception f).
Proof. intros s Hs Ht. pose proof (prints_refl s Hs Ht). unfold panic_exception. destruct (int_no f <? 32); prints. Qed.
Lemma steps_position f : steps (panic_position f).
Proof. intros s Hs Ht. pose proof (prints_refl s Hs Ht). unfold panic_position. prints. Qed.
Lemma steps_fault cr2 f : steps (panic_fault cr2 f).
Proof. intros s Hs Ht. pose proof (prints_refl s Hs Ht). unfold panic_fault. destruct (int_no f =? 14); prints. Qed.
Lemma steps_registers f : steps (panic_registers f).
Proof. intros s Hs Ht. pose proof (prints_refl s Hs Ht). unfold panic_registers. prints. Qed.
#[local] Hint Resolve steps_exception steps_position steps_fault steps_registers : panic.

#[local] Opaque panic_exception panic_position panic_fault panic_registers.
Definition title : list Z := [10] ++ zs "!!! KERNEL PANIC !!!" ++ [10].
Lemma panic_ok cr2 msg f s : terminated s ->
  exists s', panic cr2 msg f s = Some s' /\ on_screen s' /\ serial s ++ title ++ msg ++ [10] `prefix_of` serial s'.
Proof.
  intros Ht. unfold panic. cbv zeta. fold title. set (s1 := serial_panic_puts [10] _).
  assert (Hp : prints s1 s1) by (apply prints_refl; [split; [reflexivity|cbn; lia|cbn; lia]|done]).
  assert (H : exists s', (s ← panic_puts ([10] ++ zs "!!! KERNEL PANIC !!!" ++ [10; 10]) s1; s ← panic_puts msg s; s ← panic_puts [10; 10] s;
    s ← panic_exception f s; s ← panic_position f s; s ← panic_fault cr2 f s; panic_registers f s) = Some s' /\ prints s1 s') by prints.
  destruct H as (s' & -> & Hs' & _ & Hpre). exists s'. split; [done|]. split; [done|].
  etrans; [|exact Hpre]. unfold s1. cbn. by rewrite <- !app_assoc.
Qed.

(** [C36] The exception handler always ends: it resumes the interrupted code
    exactly for a breakpoint and for a page fault that the copy-on-write
    handler resolves, leaving the screen and the serial line alone; in every
    other case the machine halts, with the report on the serial line headed
    by the message of the exception, and the report on the screen never
    stored outside the text buffer.  (The decimal conversion prints stack
    bytes up to a zero: there must be one.) *)
Theorem isr_outcome (cr2 : Z) (space : option vm_space) (f : interrupt_frame) (m : machine) (Hj : terminated (m_screen m)) :
  let cow := vm_handle_cow_fault space cr2 (err_code f) (m_vm m) in
  let vm := if int_no f =? 14 then cow.2 else m_vm m in
  if (int_no f =? 3) || ((int_no f =? 14) && (cow.1 =? 0)) then
    isr_handler cr2 space f m = Some (Resumed (Machine (m_screen m) vm))
  else exists s', isr_handler cr2 space f m = Some (Halted (Machine s' vm)) /\ length (cells s') = 2000%nat /\
    serial (m_screen m) ++ title ++ message (int_no f) ++ [10] `prefix_of` serial s'.
Proof.
  cbv zeta. unfold isr_handler. destruct (panic_ok cr2 (message (int_no f)) f (m_screen m) Hj) as (s' & Hp & Hs' & Hpre).
  destruct (Z.eqb_spec (int_no f) 3) as [->|H3]; [by destruct m|]. cbn [orb].
  destruct (Z.eqb_spec (int_no f) 14) as [H14|H14]; cbn [andb].
  - destruct (vm_handle_cow_fault space cr2 (err_code f) (m_vm m)) as [r vm]. cbn [fst snd]. destruct (r =? 0); [done|].
    cbn [m_screen m_vm]. rewrite Hp. exists s'. split; [done|]. split; [apply Hs'|done].
  - rewrite Hp. exists s'. split; [done|]. split; [apply Hs'|done].
Qed.
End Isr.

(** * Instances *)
Module Examples.
Import Pic.
Definition cold : pics := Pics (I8259 17 3 8 0 0 3) (I8259 0 0 112 0 0 0).
Lemma gdt_segments_witness : Gdt.tss_base (Gdt.select (Gdt.gdt64_init 1193046).1.1 40) (Gdt.select (Gdt.gdt64_init 1193046).1.1 48) = 1193046.
Proof. apply (Gdt.gdt_segments 1193046). unfold is_u64. lia. Defined.
Lemma idt_vectors_witness :
  Idt.at_vector (Idt.idt_init (fun k => 1048576 + 16 * (k mod 32)) (fun k => 1052672 + 16 * (k mod 16)) 1056768).1 128 = Some (Idt.Target 1056768 8 3 true).
Proof.
  refine (proj1 (Idt.idt_vectors (fun k => 1048576 + 16 * (k mod 32)) (fun k => 1052672 + 16 * (k mod 16)) 1056768 128 _ _ _ _)).
  - intros k. unfold is_u64. pose proof (Z.mod_pos_bound k 32). lia.
  - intros k. unfold is_u64. pose proof (Z.mod_pos_bound k 16). lia.
  - unfold is_u64. lia.
  - lia.
Defined.

(** A page fault of the kernel. *)
Definition fault : Isr.interrupt_frame := Isr.Frame 0 0 0 0 0 0 0 0 0 0 0 0 0 0 0 14 0 1048576 8 2 0 0.
Definition idle_screen : Isr.pscreen := Isr.PScreen (replicate 2000 1824) 0 0 [] [[7; 0]; [0]; [0]].
Definition vm0 : vmm := Vmm ∅ (Pmm [U64_MAX] 4096 1 64 0 (replicate 64 0) 8192 12288) (kheap_init 0 65536 ∅) ∅ 0.
Lemma isr_outcome_witness :
  exists s', Isr.isr_handler 4096 None fault (Isr.Machine idle_screen vm0) = Some (Isr.Halted (Isr.Machine s' vm0)) /\
    length (Isr.cells s') = 2000%nat /\ Isr.title ++ zs "Page Fault (#PF)" ++ [10] `prefix_of` Isr.serial s'.
Proof.
  apply (Isr.isr_outcome 4096 None fault (Isr.Machine idle_screen vm0)).
  repeat apply Forall_cons_2; try apply Forall_nil_2; [right; left|left|left].
Defined.
(** The last line of the report is the last row of the screen. *)
Definition report : list Z := default [] (Isr.cells <$> Isr.panic 4096 (zs "Page Fault (#PF)") fault (Isr.PScreen [] 0 0 [] [])).
Lemma report_fits : take 14 (drop 1920 report) = (fun c => c .| 20224) <$> zs "System halted.".
Proof. by vm_compute. Qed.
End Examples.
