(* ===== verification/CpuExc.v ===== *)
(** * The handlers of src/src/arch/cpu_exceptions.c

    A second set of handlers, with tables of functions to call, next to the
    port accesses that [Arch] models.  A handler acts on the device; text
    goes to the console. *)

From S2P Require Import Prelude Disk Arch.

Definition exception_names : list cstring :=
  [zs "Divide by zero"; zs "Debug"; zs "NMI"; zs "Breakpoint"; zs "Overflow"; zs "Bound range exceeded"; zs "Invalid opcode";
   zs "Device not available"; zs "Double fault"; zs "Coprocessor segment overrun"; zs "Invalid TSS"; zs "Segment not present";
   zs "Stack fault"; zs "General protection fault"; zs "Page fault"; zs "Reserved"; zs "x87 FPU error"; zs "Alignment check";
   zs "Machine check"; zs "SIMD FPU error"] ++ replicate 10 (zs "Reserved") ++ [zs "Security exception"; zs "Reserved"].
Definition EXCEPTION_DOUBLE_FAULT : Z := 8.
Definition EXCEPTION_GPF : Z := 13.
Definition EXCEPTION_PAGE_FAULT : Z := 14.
Record cpu_state : Type := CpuState {
  gs : Z; fs : Z; es : Z; ds : Z; edi : Z; esi : Z; ebp : Z; esp : Z; ebx : Z; edx : Z; ecx : Z; eax : Z;
  c_int_no : Z; c_err_code : Z; eip : Z; c_cs : Z; eflags : Z; useresp : Z; c_ss : Z }.

Section handlers.
Context {D : Type} `{PortIO D}.
Definition handler : Type := cpu_state -> D -> D.
Record tables : Type := Tables {
  isr_handlers : list (option handler); irq_handlers : list (option handler); t_dev : D; t_out : list Z }.
Implicit Types (s : tables) (regs : cpu_state).
Definition on_dev (f : D -> D) s : tables := Tables (isr_handlers s) (irq_handlers s) (f (t_dev s)) (t_out s).
Definition write (t : list Z) s : tables := Tables (isr_handlers s) (irq_handlers s) (t_dev s) (t_out s ++ t).

(** [true]: the processor was halted. *)
Definition default_handling regs s : bool * tables :=
  if c_int_no regs <? 32 then
    let s := write (zs "EXCEPTION: ") s in
    let s := write (arr_get [] exception_names (c_int_no regs)) s in
    let s := write (zs " (") s in
    let s := write (zs ")" ++ [10]) s in
    let s := if negb (c_err_code regs =? 0) || (c_int_no regs =? EXCEPTION_PAGE_FAULT) then write [10] (write (zs "Error code: ") s) else s in
    if (c_int_no regs =? EXCEPTION_DOUBLE_FAULT) || (c_int_no regs =? EXCEPTION_GPF) || (c_int_no regs =? EXCEPTION_PAGE_FAULT)
    then (true, write (zs "SYSTEM HALTED" ++ [10]) s) else (false, s)
  else (false, s).
Definition isr_handler regs s : bool * tables :=
  match (if c_int_no regs <? 32 then arr_get None (isr_handlers s) (c_int_no regs) else None) with
  | Some h => (false, on_dev (h regs) s)
  | None => default_handling regs s
  end.
Definition irq_handler regs s : tables :=
  let irq := u8 (c_int_no regs - 32) in
  let s := match (if irq <? 16 then arr_get None (irq_handlers s) irq else None) with
           | Some h => on_dev (h regs) s
           | None => s
           end in
  on_dev (Pic.pic_send_eoi irq) s.
Definition irq_register_handler (irq : Z) (h : option handler) s : tables :=
  if irq <? 16 then Tables (isr_handlers s) (arr_set (irq_handlers s) irq h) (t_dev s) (t_out s) else s.
Definition isr_register_handler (num : Z) (h : option handler) s : tables :=
  if num <? 32 then Tables (arr_set (isr_handlers s) num h) (irq_handlers s) (t_dev s) (t_out s) else s.

(** A registered handler is called for its exception, and for no other. *)
Lemma isr_registered s num h regs : length (isr_handlers s) = 32%nat -> 0 <= num < 32 -> 0 <= c_int_no regs ->
  isr_handler regs (isr_register_handler num (Some h) s) =
  if c_int_no regs =? num then (false, on_dev (h regs) (isr_register_handler num (Some h) s))
  else (match (if c_int_no regs <? 32 then arr_get None (isr_handlers s) (c_int_no regs) else None) with
        | Some g => (false, on_dev (g regs) (isr_register_handler num (Some h) s))
        | None => default_handling regs (isr_register_handler num (Some h) s)
        end).
Proof.
  intros Hl Hn Hi. unfold isr_handler, isr_register_handler at 1. rewrite (proj2 (Z.ltb_lt num 32)) by lia. cbn [isr_handlers].
  destruct (Z.ltb_spec (c_int_no regs) 32).
  - rewrite arr_get_set, (Z.eqb_sym num) by lia. by destruct (c_int_no regs =? num).
  - by rewrite (proj2 (Z.eqb_neq (c_int_no regs) num)) by lia.
Qed.
End handlers.
