(* ===== verification/ShellText.v ===== *)
(** * Text processing of the shell (src/src/ui/shell.c)

    The parts of the shell that only compute: joining paths, counting words,
    splitting lines, the address of [ping], the command history, the line
    editor and the walk of [find].  Each comes with a definition of what it
    means and the proof that the code computes it.  [char] is signed: a byte
    from 128 on is below the space. *)

From S2P Require Import Prelude KString Text Disk Console.

Definition MAX_CMD_LEN : Z := 256.
Definition HISTORY_SIZE : Z := 16.
Definition HISTORY_MAX_LEN : Z := 256.

(** ** Paths *)

Fixpoint path_has_prefix (path prefix : cstring) : bool :=
  match prefix with
  | [] => match path with c :: _ => c =? ch "/" | [] => false end
  | q :: prefix' => match path with p :: path' => (p =? q) && path_has_prefix path' prefix' | [] => false end
  end.

(** [base] is the suffix found so far. *)
Fixpoint basename_from (base p : cstring) : cstring :=
  match p with [] => base | c :: p' => basename_from (if c =? ch "/" then p' else base) p' end.
Definition path_basename (p : cstring) : cstring := basename_from p p.

Definition path_join (cap : Z) (dir name : cstring) : cstring :=
  let dn := k_strlen dir in
  let nn := k_strlen name in
  let at_root := (dn =? 1) && (char_at dir 0 =? ch "/") in
  let need := if at_root then nn + 2 else dn + 1 + nn + 1 in
  if cap <? need then []
  else if at_root then zs "/" ++ name
  else dir ++ ch "/" :: name.

(** ** wc *)

Definition is_blank (c : Z) : bool := (c =? 32) || (c =? 9) || (c =? 10).
Record wc_counts : Type := WcCounts { wc_lines : Z; wc_words : Z; wc_in_word : bool }.
Definition wc_step (w : wc_counts) (c : Z) : wc_counts :=
  let lines := if c =? 10 then wc_lines w + 1 else wc_lines w in
  if is_blank c then WcCounts lines (wc_words w) false
  else if wc_in_word w then WcCounts lines (wc_words w) true
  else WcCounts lines (wc_words w + 1) true.
(** Lines, words and bytes. *)
Definition wc_of (content : list Z) : Z * Z * Z :=
  let w := foldl wc_step (WcCounts 0 0 false) content in
  let total := len content in
  let partial := (0 <? total) && negb (arr_get 0 content (total - 1) =? 10) in
  ((if partial then wc_lines w + 1 else wc_lines w), wc_words w, total).

(** ** grep *)

(** The distance from [line] to the newline or to the end. *)
Fixpoint line_length (line : list Z) : nat :=
  match line with [] => O | c :: rest => if c =? 10 then O else S (line_length rest) end.
(** The numbered lines that match; a line is searched and printed as the C
    string that starts it. *)
Fixpoint grep_loop (n : nat) (pattern : cstring) (line : list Z) (lineno : Z) : option (list (Z * cstring)) :=
  match line with
  | [] => Some []
  | _ =>
      match n with
      | O => None
      | S n' =>
          let end_ := line_length line in
          let lineno := lineno + 1 in
          let text := cstr (take end_ line) in
          rest ← grep_loop n' pattern (drop (S end_) line) lineno;
          Some (match k_strstr text pattern with Some _ => (lineno, text) :: rest | None => rest end)
      end
  end.

(** ** The address of ping *)

Definition octet_of (digits : list Z) : Z := u8 (foldl (fun v c => v * 10 + (c - ch "0")) 0 digits).
(** [octets] are those stored so far, [digits] at most three. *)
Fixpoint parse_addr (addr : cstring) (octets digits : list Z) : list Z * list Z :=
  match addr with
  | [] => (octets, digits)
  | c :: addr' =>
      if len octets <? 4 then
        if (ch "0" <=? c) && (c <=? ch "9") then parse_addr addr' octets (if len digits <? 3 then digits ++ [c] else digits)
        else if (c =? ch ".") && (0 <? len digits) then parse_addr addr' (octets ++ [octet_of digits]) []
        else parse_addr addr' octets digits
      else (octets, digits)
  end.
Definition ping_address (addr : cstring) : option (list Z) :=
  let '(octets, digits) := parse_addr addr [] [] in
  let octets := if (0 <? len digits) && (len octets <? 4) then octets ++ [octet_of digits] else octets in
  if len octets =? 4 then Some octets else None.

(** ** History: a ring of sixteen commands *)

Record history_t : Type := History { h_ring : list cstring; history_count : Z }.
Definition h_slot (h : history_t) (n : Z) : cstring := arr_get [] (h_ring h) (n mod HISTORY_SIZE).
(** The comparison loop with the previous command. *)
Fixpoint same_text (cmd last : cstring) : bool :=
  match cmd, last with
  | [], [] => true
  | c :: cmd', d :: last' => (c =? d) && same_text cmd' last'
  | _, _ => false
  end.
Definition history_add (cmd : cstring) (h : history_t) : history_t :=
  match cmd with
  | [] => h
  | _ =>
      if (0 <? history_count h) && same_text cmd (h_slot h (history_count h - 1)) then h
      else History (arr_set (h_ring h) (history_count h mod HISTORY_SIZE) (take (Z.to_nat (HISTORY_MAX_LEN - 1)) cmd))
                   (history_count h + 1)
  end.
Definition history_start (h : history_t) : Z := if HISTORY_SIZE <? history_count h then history_count h - HISTORY_SIZE else 0.
(** The lines of [cmd_history]: a number and the command. *)
Definition history_lines (h : history_t) : list (Z * cstring) :=
  (fun n => (n - history_start h + 1, h_slot h n)) <$> seqZ (history_start h) (history_count h - history_start h).

(** ** The line editor

    [line] is what the buffer holds before [pos]; the text is what a key
    sends to the console. *)

Record editor : Type := Editor { line : list Z; hist_pos : Z }.
Definition rub_out : list Z := [8; 32; 8].
Definition recall (h : history_t) (c : Z) (e : editor) : list Z * editor :=
  let pos := if c =? 1 then (if 0 <? hist_pos e then hist_pos e - 1 else hist_pos e)
             else if hist_pos e <? history_count h then hist_pos e + 1 else hist_pos e in
  let text := if pos <? history_count h then take (Z.to_nat (MAX_CMD_LEN - 1)) (h_slot h pos) else [] in
  let pad := (length (line e) - length text)%nat in
  (concat (replicate (length (line e) + 2) rub_out) ++ zs "> " ++ text ++ replicate pad 32 ++ replicate pad 8,
   Editor text pos).
Definition edit_key (h : history_t) (c : Z) (e : editor) : list Z * editor :=
  if (c =? 8) && (0 <? len (line e)) then (rub_out, Editor (take (length (line e) - 1) (line e)) (hist_pos e))
  else if ((c =? 1) || (c =? 2)) && (0 <? history_count h) then recall h c e
  else if (32 <=? c) && (c <? 128) && (len (line e) <? MAX_CMD_LEN - 1) then ([c], Editor (line e ++ [c]) (hist_pos e))
  else ([], e).

(** ** find *)

Section find.
(** The callbacks of [fs_readdir]: name, directory flag, size. *)
Context (readdir : cstring -> option (option (list (cstring * Z * Z)))) (find_pattern : cstring).

Record find_st : Type := FindSt { find_current_dir : cstring; find_match_count : Z; find_depth : Z; find_out : list Z }.
Definition found_line (name : cstring) (s : find_st) : list Z :=
  zs "  " ++ (if k_strcmp (find_current_dir s) (zs "/") =? 0 then [] else find_current_dir s ++ zs "/") ++ name ++ [10].
Definition report_match (name : cstring) (s : find_st) : find_st :=
  match k_strstr name find_pattern with
  | Some _ => FindSt (find_current_dir s) (find_match_count s + 1) (find_depth s) (find_out s ++ found_line name s)
  | None => s
  end.

(** [find_walk] with its callback: a directory inside is walked with a depth
    taken from the global, which the walk of the directory before it has
    changed. *)
Fixpoint find_walk (n : nat) (dir : cstring) (depth : Z) (s : find_st) : option find_st :=
  if depth <=? 0 then Some s
  else match n with
  | O => None
  | S n' =>
      let saved := find_current_dir s in
      let s := FindSt dir (find_match_count s) depth (find_out s) in
      lines ← readdir dir;
      s ← foldl (fun acc line =>
             s ← acc;
             let '(name, is_dir, _) := line in
             let s := report_match name s in
             if is_dir =? 0 then Some s
             else match path_join 256 (find_current_dir s) name with
                  | [] => Some s
                  | child => find_walk n' child (find_depth s - 1) s
                  end) (Some s) (default [] lines);
      Some (FindSt saved (find_match_count s) (find_depth s) (find_out s))
  end.
End find.

(** ** Lines and words *)

Fixpoint text_lines (s : list Z) : list (list Z) :=
  match s with
  | [] => []
  | c :: s' =>
      if c =? 10 then [] :: text_lines s'
      else match text_lines s' with [] => [[c]] | l :: ls => (c :: l) :: ls end
  end.
Definition flush_word (w : list Z) : list (list Z) := match w with [] => [] | _ => [w] end.
Fixpoint words_acc (w s : list Z) : list (list Z) :=
  match s with
  | [] => flush_word w
  | c :: s' => if is_blank c then flush_word w ++ words_acc [] s' else words_acc (w ++ [c]) s'
  end.
Definition text_words (s : list Z) : list (list Z) := words_acc [] s.
Definition numbered (ls : list (list Z)) : list (Z * cstring) := imap (fun i l => (Z.of_nat i + 1, cstr l)) ls.
Definition matches (pattern : cstring) (x : Z * cstring) : Prop := is_Some (k_strstr x.2 pattern).
#[export] Instance matches_dec pattern x : Decision (matches pattern x).
Proof. unfold matches. apply _. Defined.

Section text.
Implicit Types (s : list Z).

Lemma wc_words_acc s : forall w st, wc_in_word st = negb (bool_decide (w = [])) ->
  wc_words (foldl wc_step st s) = wc_words st + len (words_acc w s) - len (flush_word w).
Proof.
  induction s as [|x s IH]; intros w st Hw; cbn [foldl words_acc]; [lia|].
  unfold wc_step at 2. destruct (is_blank x).
  - rewrite (IH []) by done. cbn [wc_words flush_word length]. rewrite length_app. lia.
  - rewrite (IH (w ++ [x])).
    + rewrite Hw. destruct w as [|y w]; cbn; lia.
    + rewrite bool_decide_eq_false_2 by (by destruct w). by destruct (wc_in_word st).
Qed.
Lemma wc_lines_count s : forall st, wc_lines (foldl wc_step st s) = wc_lines st + countb (fun c => c =? 10) s.
Proof.
  induction s as [|x s IH]; intros st; cbn [foldl countb]; [lia|]. rewrite IH. unfold wc_step.
  destruct (is_blank x), (wc_in_word st), (x =? 10); cbn [wc_lines Z.b2z]; lia.
Qed.
Definition ends_open s : bool := match last s with Some c => negb (c =? 10) | None => false end.
Lemma text_lines_count s : len (text_lines s) = countb (fun c => c =? 10) s + Z.b2z (ends_open s).
Proof.
  unfold ends_open. induction s as [|x s IH]; [done|]. cbn [text_lines countb]. destruct s as [|y s].
  - cbn. by destruct (x =? 10).
  - rewrite last_cons_cons. destruct (x =? 10); cbn [length Z.b2z]; [lia|].
    destruct (text_lines (y :: s)) as [|l ls] eqn:E; [|cbn [length] in *; lia].
    exfalso. cbn [text_lines] in E. destruct (y =? 10); [done|]. by destruct (text_lines s).
Qed.
Lemma ends_open_last s : (0 <? len s) && negb (arr_get 0 s (len s - 1) =? 10) = ends_open s.
Proof.
  unfold ends_open. destruct s as [|x s] using rev_ind; [done|]. clear IHs. rewrite last_snoc, length_app. cbn [length].
  rewrite (proj2 (Z.ltb_lt _ _)) by lia. cbn [andb]. unfold arr_get. rewrite lookup_app_r by lia.
  by replace (Z.to_nat (Z.of_nat (length s + 1) - 1) - length s)%nat with 0%nat by lia.
Qed.

Lemma line_length_take s : text_lines s = match s with [] => [] | _ => take (line_length s) s :: text_lines (drop (S (line_length s)) s) end.
Proof.
  induction s as [|x s IH]; [done|]. cbn [text_lines line_length]. destruct (x =? 10); [done|].
  cbn [take]. rewrite IH. destruct s as [|y s]; [done|]. done.
Qed.
Lemma grep_loop_lines pattern : forall n s k, (length s <= n)%nat ->
  grep_loop n pattern s k = Some (filter (matches pattern) ((fun x => (x.1 + k, x.2)) <$> numbered (text_lines s))).
Proof.
  induction n as [|n IH]; intros s k Hn; (destruct s as [|x s']; [done|]); [cbn in Hn; lia|].
  set (s := x :: s') in *. cbn [grep_loop]. unfold s at 1.
  rewrite IH by (rewrite length_drop; unfold s in *; cbn [length] in *; lia). cbn [mbind option_bind].
  assert (Hs : text_lines s = take (line_length s) s :: text_lines (drop (S (line_length s)) s)) by exact (line_length_take s).
  rewrite Hs. unfold numbered. rewrite imap_cons, fmap_cons, filter_cons. cbn [fst snd]. replace (Z.of_nat 0 + 1 + k) with (k + 1) by lia.
  assert (E : (fun x0 : Z * cstring => (x0.1 + (k + 1), x0.2)) <$> imap (fun i l => (Z.of_nat i + 1, cstr l)) (text_lines (drop (S (line_length s)) s)) =
              (fun x0 : Z * cstring => (x0.1 + k, x0.2)) <$> imap ((fun i l => (Z.of_nat i + 1, cstr l)) ∘ S) (text_lines (drop (S (line_length s)) s))).
  { rewrite !fmap_imap. apply imap_ext. intros i l _. cbn. f_equal. lia. }
  rewrite E. destruct (k_strstr (cstr (take (line_length s) s)) pattern) as [t|] eqn:Em.
  - by rewrite decide_True by (unfold matches; cbn [snd]; by rewrite Em).
  - by rewrite decide_False by (unfold matches; cbn [snd]; rewrite Em; by intros [? ?]).
Qed.
End text.

(** [wc] counts the lines, the maximal runs of characters other than blanks
    and the bytes. *)
Lemma wc_of_correct content :
  wc_of content = (len (text_lines content), len (text_words content), len content).
Proof.
  unfold wc_of. rewrite ends_open_last, wc_lines_count, (wc_words_acc _ []) by done. rewrite text_lines_count. unfold text_words.
  cbn [wc_lines wc_words flush_word length]. f_equal. f_equal; [|lia]. destruct (ends_open content); cbn [Z.b2z]; lia.
Qed.

(** ** Addresses *)

Definition dotted (a : list Z) : cstring := concat (imap (fun i x => (if (0 <? i)%nat then zs "." else []) ++ put_dec x) a).

Section addresses.
Definition digit (c : Z) : bool := (ch "0" <=? c) && (c <=? ch "9").
Lemma octet_text x : is_u8 x -> forallb digit (put_dec x) = true /\ (length (put_dec x) <= 3)%nat /\ put_dec x <> [] /\ octet_of (put_dec x) = x.
Proof.
  intros Hx. unfold is_u8 in Hx.
  assert (Hall : forallb (fun x => forallb digit (put_dec x) && (length (put_dec x) <=? 3)%nat && negb (bool_decide (put_dec x = [])) &&
                            (octet_of (put_dec x) =? x)) (seqZ 0 256) = true) by (by vm_compute).
  rewrite forallb_forall in Hall. specialize (Hall x). ospecialize (Hall _); [apply list_elem_of_In, elem_of_seqZ; lia|].
  apply andb_true_iff in Hall as [Hall Ho]. apply andb_true_iff in Hall as [Hall Hn]. apply andb_true_iff in Hall as [Hd Hl].
  zbool. apply bool_decide_eq_false in Hn. split; [done|]. split; [by apply Nat.leb_le|done].
Qed.
(** The digits of one octet. *)
Lemma parse_digits ds rest octets : forall acc, forallb digit ds = true -> (length acc + length ds <= 3)%nat -> (length octets < 4)%nat ->
  parse_addr (ds ++ rest) octets acc = parse_addr rest octets (acc ++ ds).
Proof.
  induction ds as [|c ds IH]; intros acc Hd Hl Ho; [by rewrite app_nil_r|]. cbn [forallb] in Hd. apply andb_true_iff in Hd as [Hc Hd].
  cbn [app parse_addr]. rewrite (proj2 (Z.ltb_lt _ _)) by lia. unfold digit in Hc. rewrite Hc. cbn [length] in Hl.
  rewrite (proj2 (Z.ltb_lt (len acc) 3)) by lia. rewrite IH; [by rewrite <- app_assoc|done|rewrite length_app; cbn; lia|done].
Qed.
Lemma parse_octet x rest octets : is_u8 x -> (length octets < 4)%nat ->
  parse_addr (put_dec x ++ zs "." ++ rest) octets [] = parse_addr rest (octets ++ [x]) [].
Proof.
  intros Hx Ho. destruct (octet_text x Hx) as (Hd & Hl & Hne & Hv). rewrite parse_digits by (done || cbn; lia). cbn [app].
  change (zs "." ++ rest) with (46 :: rest). cbn [parse_addr]. rewrite (proj2 (Z.ltb_lt _ _)) by lia.
  change ((ch "0" <=? 46) && (46 <=? ch "9")) with false. change (46 =? ch ".") with true. cbn [andb].
  destruct (put_dec x) as [|c ds] eqn:E; [done|]. rewrite (proj2 (Z.ltb_lt 0 _)) by (cbn; lia). by rewrite Hv.
Qed.
End addresses.

(** The address printed with dots is read back. *)
Lemma ping_address_dotted a b c d : is_u8 a -> is_u8 b -> is_u8 c -> is_u8 d ->
  ping_address (dotted [a; b; c; d]) = Some [a; b; c; d].
Proof.
  intros Ha Hb Hc Hd. unfold ping_address, dotted. cbn [imap Nat.ltb Nat.leb concat compose app]. rewrite <- !app_assoc.
  rewrite !parse_octet by (done || cbn; lia). destruct (octet_text d Hd) as (Hdd & Hl & Hne & Hv).
  rewrite parse_digits by (done || cbn; lia). cbn [parse_addr app]. rewrite (proj2 (Z.ltb_lt 0 _)) by (destruct (put_dec d); [done|cbn; lia]).
  rewrite Hv. done.
Qed.

(** ** The history as a log *)

Definition no_history : history_t := History (replicate 16 []) 0.
(** The commands run so far, without empty ones and repetitions. *)
Definition log_add (log : list cstring) (cmd : cstring) : list cstring :=
  match cmd with [] => log | _ => if bool_decide (last log = Some cmd) then log else log ++ [cmd] end.
Definition log_of (cmds : list cstring) : list cstring := foldl log_add [] cmds.

Section history.
Implicit Types (h : history_t) (log : list cstring).

Record history_rep h log : Prop := {
  hr_ring : length (h_ring h) = 16%nat;
  hr_count : history_count h = len log;
  hr_slots : forall i c, log !! i = Some c -> (length log <= i + 16)%nat -> h_slot h (Z.of_nat i) = c
}.

Lemma same_text_eq cmd last : same_text cmd last = true <-> cmd = last.
Proof.
  revert last. induction cmd as [|c cmd IH]; intros [|d last]; cbn [same_text]; [done..|].
  rewrite andb_true_iff, Z.eqb_eq, IH. split; [by intros [-> ->]|by intros [= -> ->]].
Qed.
Lemma same_slot (i j : nat) : (i < j)%nat -> (j <= i + 15)%nat -> Z.of_nat i mod 16 <> Z.of_nat j mod 16.
Proof.
  intros Hij Hj Hm. pose proof (Z.div_mod (Z.of_nat i) 16). pose proof (Z.div_mod (Z.of_nat j) 16). lia.
Qed.
Lemma history_add_rep h log cmd : history_rep h log -> len cmd < 256 -> history_rep (history_add cmd h) (log_add log cmd).
Proof.
  intros [Hr Hc Hs] Hl. unfold history_add, log_add. destruct cmd as [|c0 cmd']; [by split|]. set (cmd := c0 :: cmd') in *.
  assert (Hsame : (0 <? history_count h) && same_text cmd (h_slot h (history_count h - 1)) = bool_decide (last log = Some cmd)).
  { rewrite Hc. destruct log as [|x log] using rev_ind; [done|]. clear IHlog. rewrite last_snoc, length_app. cbn [length].
    rewrite (proj2 (Z.ltb_lt _ _)) by lia. cbn [andb].
    replace (Z.of_nat (length log + 1) - 1) with (Z.of_nat (length log)) by lia.
    rewrite (Hs (length log) x) by (rewrite ?length_app; cbn; try lia; by rewrite list_lookup_middle).
    destruct (same_text cmd x) eqn:E; symmetry; [apply same_text_eq in E; subst x; by apply bool_decide_eq_true|].
    apply bool_decide_eq_false. intros [= ->]. rewrite (proj2 (same_text_eq cmd cmd)) in E; done. }
  rewrite Hsame. destruct (bool_decide _); [by split|].
  assert (Htake : take (Z.to_nat (HISTORY_MAX_LEN - 1)) cmd = cmd) by (apply take_ge; unfold HISTORY_MAX_LEN; lia). rewrite Htake.
  split; cbn [h_ring history_count]; [by rewrite length_arr_set|rewrite length_app; cbn [length]; lia|].
  intros i c Hi Hlen. rewrite length_app in Hlen. cbn [length] in Hlen. unfold h_slot. cbn [h_ring]. rewrite Hc. unfold HISTORY_SIZE.
  pose proof (Z.mod_pos_bound (Z.of_nat i) 16 ltac:(lia)). pose proof (Z.mod_pos_bound (len log) 16 ltac:(lia)).
  rewrite lookup_snoc_Some in Hi. destruct Hi as [[Hi Hx]|[-> ->]].
  - rewrite arr_get_set_ne by (try lia; apply not_eq_sym, same_slot; lia). apply (Hs i c Hx). lia.
  - apply arr_get_set_eq. lia.
Qed.
Lemma history_rep_cmds cmds : Forall (fun c => len c < 256) cmds -> history_rep (foldl (fun h c => history_add c h) no_history cmds) (log_of cmds).
Proof.
  unfold log_of. intros Hl. assert (H0 : history_rep no_history []) by (split; [done..|]; by intros i c Hi).
  revert H0. generalize no_history ([] : list cstring). induction Hl as [|c cmds Hc Hl IH]; intros h log Hr; [done|].
  cbn [foldl]. by apply IH, history_add_rep.
Qed.

(** The sixteen most recent commands, numbered from one. *)
Definition last_commands log : list cstring := drop (length log - 16) log.
Lemma history_lines_rep h log : history_rep h log -> history_lines h = imap (fun i c => (Z.of_nat i + 1, c)) (last_commands log).
Proof.
  intros [Hr Hc Hs]. unfold history_lines, history_start. rewrite Hc. unfold HISTORY_SIZE, last_commands.
  assert (Hst : (if 16 <? len log then len log - 16 else 0) = Z.of_nat (length log - 16)) by (destruct (Z.ltb_spec 16 (len log)); lia).
  rewrite Hst. apply list_eq. intros i. rewrite list_lookup_fmap, list_lookup_imap, lookup_drop.
  destruct (decide (length log - 16 + i < length log)%nat) as [Hi|Hi].
  - rewrite lookup_seqZ_lt by lia. destruct (lookup_lt_is_Some_2 log (length log - 16 + i) Hi) as [c Hx]. rewrite Hx. cbn [fmap option_fmap option_map].
    do 2 f_equal; [lia|]. replace (Z.of_nat (length log - 16) + Z.of_nat i) with (Z.of_nat (length log - 16 + i)) by lia. apply Hs; [done|lia].
  - rewrite lookup_seqZ_ge by lia. by rewrite lookup_ge_None_2 by lia.
Qed.

(** Pressing the up arrow [k] times on a fresh line. *)
Definition fresh h : editor := Editor [] (history_count h).
Definition press_up (k : nat) h : editor := Nat.iter k (fun e => (edit_key h 1 e).2) (fresh h).
Lemma press_up_rep h log k : history_rep h log -> Forall (fun c => len c < 256) log -> (1 <= k <= length log)%nat ->
  press_up k h = Editor (default [] (log !! (length log - 1 - (k - 1) mod 16)%nat)) (Z.of_nat (length log - k)).
Proof.
  intros [Hr Hc Hs] Hl. induction k as [|k IH]; [lia|]. intros Hk.
  assert (Hstep : press_up (S k) h = (edit_key h 1 (press_up k h)).2) by done. rewrite Hstep.
  assert (Hp : hist_pos (press_up k h) = Z.of_nat (length log - k)).
  { destruct k as [|k]; [cbn; rewrite Hc; lia|]. by rewrite IH by lia. }
  unfold edit_key. cbn [Z.eqb Pos.eqb andb orb]. rewrite Hc, (proj2 (Z.ltb_lt 0 (len log))) by lia. unfold recall. cbn [Z.eqb Pos.eqb].
  rewrite Hp, (proj2 (Z.ltb_lt 0 _)) by lia. rewrite Hc, (proj2 (Z.ltb_lt (Z.of_nat (length log - k) - 1) _)) by lia. cbn [snd].
  replace (Z.of_nat (length log - k) - 1) with (Z.of_nat (length log - S k)) by lia. f_equal.
  replace (S k - 1)%nat with k by lia.
  set (i := (length log - 1 - k mod 16)%nat). pose proof (Nat.mod_upper_bound k 16 ltac:(lia)). pose proof (Nat.Div0.mod_le k 16).
  assert (Hi : (i < length log)%nat) by lia. destruct (lookup_lt_is_Some_2 log i Hi) as [c Hx]. rewrite Hx. cbn [default]. unfold id.
  assert (Hslot : h_slot h (Z.of_nat (length log - S k)) = c).
  { rewrite <- (Hs i c Hx) by lia. unfold h_slot, HISTORY_SIZE. f_equal. pose proof (Nat.div_mod k 16 ltac:(lia)).
    replace (Z.of_nat i) with (Z.of_nat (length log - S k) + Z.of_nat (k / 16) * 16) by lia. by rewrite Z.mod_add. }
  rewrite Hslot. apply take_ge. apply (Forall_lookup_1 _ _ _ _ Hl) in Hx. cbn beta in Hx. unfold MAX_CMD_LEN. lia.
Qed.
Lemma log_of_short cmds : Forall (fun c => len c < 256) cmds -> Forall (fun c => len c < 256) (log_of cmds).
Proof.
  intros Hl. unfold log_of. assert (H0 : Forall (fun c : cstring => len c < 256) []) by done. revert H0. generalize ([] : list cstring).
  induction Hl as [|c cmds Hc Hl IH]; intros log Hlog; [done|]. cbn [foldl]. apply IH. unfold log_add. destruct c; [done|].
  destruct (bool_decide _); [done|]. apply Forall_app. split; [done|]. by apply Forall_singleton.
Qed.
End history.

(** ** What the line editor shows *)

(** The text of the current row as characters are sent to the console. *)
Definition row_step (r : list Z) (c : Z) : list Z := if c =? 8 then take (length r - 1) r else r ++ [c].
Definition printable (c : Z) : Prop := 32 <= c <= 126.
Definition prompt : list Z := zs "> ".
(** No row on the way is longer than [w] and only printable characters and
    backspaces are sent. *)
Fixpoint row_fits (w : Z) (r text : list Z) : Prop :=
  match text with
  | [] => True
  | c :: text' => (c = 8 \/ printable c) /\ len (row_step r c) <= w /\ row_fits w (row_step r c) text'
  end.

Section echo.
Implicit Types (r text : list Z) (h : history_t) (e : editor) (p : page).

Lemma row_fits_app w r t1 t2 : row_fits w r (t1 ++ t2) <-> row_fits w r t1 /\ row_fits w (foldl row_step r t1) t2.
Proof. revert r. induction t1 as [|c t1 IH]; intros r; cbn [app row_fits foldl]; [tauto|]. rewrite IH. tauto. Qed.
Lemma row_push w r text : Forall printable text -> len r + len text <= w -> row_fits w r text /\ foldl row_step r text = r ++ text.
Proof.
  intros Ht. revert r. induction Ht as [|c text Hc Ht IH]; intros r Hw; cbn [row_fits foldl]; [by rewrite app_nil_r|].
  assert (E : row_step r c = r ++ [c]) by (unfold row_step; unfold printable in Hc; destruct (Z.eqb_spec c 8); [lia|done]).
  rewrite E. cbn [length] in Hw. destruct (IH (r ++ [c])) as [H1 H2]; [rewrite length_app; cbn; lia|].
  rewrite <- app_assoc in H2. rewrite length_app. cbn [length]. split; [|done]. split; [by right|]. split; [lia|done].
Qed.
Lemma row_pops w n : forall r, len r <= w -> row_fits w r (replicate n 8) /\ foldl row_step r (replicate n 8) = take (length r - n) r.
Proof.
  induction n as [|n IH]; intros r Hw; cbn [replicate row_fits foldl]; [by rewrite Nat.sub_0_r, take_ge|].
  change (row_step r 8) with (take (length r - 1) r). destruct (IH (take (length r - 1) r)) as [H1 H2]; [rewrite length_take; lia|].
  rewrite H2, length_take, take_take. split; [split; [by left|]; split; [lia|done]|]. f_equal. lia.
Qed.
Lemma row_rub w r : len r <= w -> 1 <= w -> row_fits w r rub_out /\ foldl row_step r rub_out = take (length r - 1) r.
Proof.
  intros Hw Hw1. unfold rub_out. cbn [row_fits foldl]. change (row_step r 8) with (take (length r - 1) r).
  set (r1 := take (length r - 1) r). assert (H1 : (length r1 <= length r - 1)%nat) by (unfold r1; rewrite length_take; lia).
  change (row_step r1 32) with (r1 ++ [32]). change (row_step (r1 ++ [32]) 8) with (take (length (r1 ++ [32]) - 1) (r1 ++ [32])).
  assert (E : take (length (r1 ++ [32]) - 1) (r1 ++ [32]) = r1).
  { rewrite length_app. cbn [length]. replace (length r1 + 1 - 1)%nat with (length r1) by lia. by rewrite take_app_length. }
  rewrite E. split; [|done]. split; [by left|]. split; [lia|]. split; [right; unfold printable; lia|].
  rewrite length_app. cbn [length]. split; [lia|]. split; [by left|]. split; [lia|done].
Qed.
Lemma row_rubs w n : forall r, len r <= w -> 1 <= w ->
  row_fits w r (concat (replicate n rub_out)) /\ foldl row_step r (concat (replicate n rub_out)) = take (length r - n) r.
Proof.
  induction n as [|n IH]; intros r Hw Hw1; cbn [replicate concat]; [by rewrite Nat.sub_0_r, take_ge|].
  rewrite row_fits_app, foldl_app. destruct (row_rub w r Hw Hw1) as [H1 ->].
  destruct (IH (take (length r - 1) r)) as [H2 ->]; [rewrite length_take; lia|done|]. split; [done|].
  rewrite length_take, take_take. f_equal. lia.
Qed.

Lemma prompt_printable : Forall printable prompt.
Proof. unfold prompt, printable. cbn. rewrite !Forall_cons. by repeat split; try lia. Qed.
(** One key: the row keeps showing the prompt and the line. *)
Lemma edit_key_row h c e w : (forall n, Forall printable (h_slot h n)) -> c <> 127 ->
  len (line e) + 2 <= w -> len (line (edit_key h c e).2) + 2 <= w ->
  let '(out, e') := edit_key h c e in
  row_fits w (prompt ++ line e) out /\ foldl row_step (prompt ++ line e) out = prompt ++ line e'.
Proof.
  intros Hh Hc Hw Hw'. revert Hw'. unfold edit_key. change (length prompt) with 2%nat.
  assert (Hp : len (prompt ++ line e) <= w) by (rewrite length_app; change (length prompt) with 2%nat; lia).
  destruct ((c =? 8) && (0 <? len (line e))) eqn:E1; cbn [snd line]; intros Hw'.
  { zbool. destruct (row_rub w (prompt ++ line e) Hp) as [H1 H2]; [lia|]. split; [done|]. rewrite H2, length_app.
    change (length prompt) with 2%nat. rewrite take_app_ge by (change (length prompt) with 2%nat; lia). by do 2 f_equal. }
  revert Hw'. destruct (((c =? 1) || (c =? 2)) && (0 <? history_count h)) eqn:E2; cbn [snd].
  { unfold recall. set (pos := if c =? 1 then _ else _). clearbody pos. set (text := if pos <? _ then _ else _).
    cbn [snd line]. intros Hw'. assert (Ht : Forall printable text) by (unfold text; destruct (pos <? history_count h); [apply Forall_take, Hh|done]). clearbody text.
    set (n := length (line e)) in *. set (k := (n - length text)%nat).
    destruct (row_rubs w (n + 2) (prompt ++ line e) Hp ltac:(lia)) as [F1 E1'].
    rewrite length_app in E1'. change (length prompt) with 2%nat in E1'. fold n in E1'. replace (2 + n - (n + 2))%nat with 0%nat in E1' by lia. rewrite take_0 in E1'.
    destruct (row_push w [] prompt) as [F2 E2']; [exact prompt_printable|cbn; lia|]. rewrite app_nil_l in E2'.
    destruct (row_push w prompt text) as [F3 E3']; [done|change (length prompt) with 2%nat; lia|].
    destruct (row_push w (prompt ++ text) (replicate k 32)) as [F4 E4'];
      [apply Forall_replicate; unfold printable; lia|rewrite length_app, length_replicate; change (length prompt) with 2%nat; unfold k; lia|].
    destruct (row_pops w k ((prompt ++ text) ++ replicate k 32)) as [F5 E5'];
      [rewrite !length_app, length_replicate; change (length prompt) with 2%nat; unfold k; lia|].
    change (zs "> ") with prompt. rewrite !row_fits_app, !foldl_app, E1', E2', E3', E4'. split; [tauto|]. rewrite E5', length_app, length_replicate.
    replace (length (prompt ++ text) + k - k)%nat with (length (prompt ++ text)) by lia. apply take_app_length. }
  destruct ((32 <=? c) && (c <? 128) && (len (line e) <? MAX_CMD_LEN - 1)) eqn:E3; cbn [snd line]; intros Hw'.
  { zbool. rewrite length_app in Hw'. cbn [length] in Hw'. destruct (row_push w (prompt ++ line e) [c]) as [F1 F2];
      [apply Forall_singleton; unfold printable; lia|cbn [length]; rewrite length_app; change (length prompt) with 2%nat; lia|].
    split; [done|]. by rewrite F2, <- app_assoc. }
  split; done.
Qed.
End echo.

(** On the page of the console (as the screen shows it): the cells of the
    current row are the characters of the row's text, the rest is blank. *)
Section page_row.
Implicit Types (r text : list Z) (p : page).
Context (color : Z).
Abbreviation glyphs r := ((fun c => vga_entry c color) <$> r).
Definition row_at p (i : Z) : list Z := take 80 (drop (Z.to_nat (i * VGA_WIDTH)) (p_cells p)).
Record row_shows p r : Prop := {
  rs_col : p_col p = len r;
  rs_row : 0 <= p_row p;
  rs_here : (Z.to_nat (p_row p * VGA_WIDTH) + 80 <= length (p_cells p))%nat;
  rs_cells : row_at p (p_row p) = glyphs r ++ replicate (80 - length r) (vga_entry 32 color)
}.

(** Storing a cell of the current row. *)
Lemma row_set p x i : 0 <= p_row p -> 0 <= i < 80 ->
  take 80 (drop (Z.to_nat (p_row p * VGA_WIDTH)) (arr_set (p_cells p) (p_row p * VGA_WIDTH + i) x)) = <[Z.to_nat i := x]> (row_at p (p_row p)).
Proof.
  intros Hr Hi. unfold row_at, arr_set, VGA_WIDTH in *. rewrite drop_insert_ge by lia.
  replace (Z.to_nat (p_row p * 80 + i) - Z.to_nat (p_row p * 80))%nat with (Z.to_nat i) by lia. apply take_insert_lt. lia.
Qed.
Lemma p_char_row p r c : row_shows p r -> (c = 8 /\ r <> [] \/ printable c) -> len (row_step r c) <= 79 -> len r <= 79 ->
  row_shows (p_char color p c) (row_step r c) /\ p_row (p_char color p c) = p_row p.
Proof.
  intros [Hcol Hrow Hhere Hcells] Hc Hw Hw0.
  assert (Hput : forall cells col, length cells = length (p_cells p) -> 0 <= col < 80 ->
            p_grow color (p_wrap (Page cells (p_row p) col)) = Page cells (p_row p) col).
  { intros cells col Hl Hcl. unfold p_wrap, p_grow, VGA_WIDTH in *. cbn [p_col p_row p_cells].
    rewrite (proj2 (Z.leb_gt 80 col)) by lia. cbn [p_cells p_row p_col]. rewrite (proj2 (Z.leb_gt _ _)) by lia. done. }
  unfold p_char. destruct Hc as [[-> Hne]|Hc].
  - unfold p_put. cbn [Z.eqb Pos.eqb andb Z.leb Z.compare Pos.compare Pos.compare_cont]. rewrite Hcol.
    assert (0 < length r)%nat by (destruct r; [done|cbn; lia]). rewrite (proj2 (Z.ltb_lt _ _)) by lia.
    rewrite Hput by (rewrite ?length_arr_set; try lia; done). change (row_step r 8) with (take (length r - 1) r) in *.
    split; [|done]. split; cbn [p_col p_row p_cells]; [rewrite length_take; lia|done|by rewrite length_arr_set|].
    unfold row_at. cbn [p_cells p_row].
    replace (p_row p * VGA_WIDTH + len r - 1) with (p_row p * VGA_WIDTH + (len r - 1)) by lia. rewrite row_set by lia. rewrite Hcells.
    destruct r as [|x r] using rev_ind; [done|]. clear IHr. rewrite length_app. cbn [length].
    replace (length r + 1 - 1)%nat with (length r) by lia. rewrite take_app_length, fmap_app, <- app_assoc.
    replace (Z.to_nat (Z.of_nat (length r + 1) - 1)) with (length (glyphs r) + 0)%nat by (rewrite length_fmap; lia).
    rewrite insert_app_r. cbn [fmap list_fmap app]. f_equal.
    rewrite length_app in Hw0. cbn [length] in Hw0. replace (80 - length r)%nat with (S (80 - (length r + 1))) by lia. done.
  - assert (E : row_step r c = r ++ [c]) by (unfold row_step; unfold printable in Hc; destruct (Z.eqb_spec c 8); [lia|done]). rewrite E in *.
    rewrite length_app in Hw. cbn [length] in Hw. unfold p_put. unfold printable in Hc.
    rewrite !(proj2 (Z.eqb_neq c _)) by lia. rewrite (proj2 (Z.leb_le 32 c)), (proj2 (Z.leb_le c 126)) by lia. cbn [andb]. rewrite Hcol.
    rewrite Hput by (rewrite ?length_arr_set; try lia; done). split; [|done].
    split; cbn [p_col p_row p_cells]; [rewrite length_app; cbn; lia|done|by rewrite length_arr_set|].
    unfold row_at. cbn [p_cells p_row]. rewrite row_set by lia. rewrite Hcells, fmap_app, length_app, <- app_assoc. cbn [length].
    replace (Z.to_nat (len r)) with (length (glyphs r) + 0)%nat by (rewrite length_fmap; lia). rewrite insert_app_r. f_equal.
    replace (80 - length r)%nat with (S (80 - (length r + 1))) by lia. done.
Qed.
Lemma p_char_idle p r c : row_shows p r -> c = 8 -> r = [] -> row_shows (p_char color p c) r /\ p_row (p_char color p c) = p_row p.
Proof.
  intros Hs -> ->. pose proof Hs as [Hcol Hrow Hhere Hcells]. change (len []) with 0 in Hcol.
  assert (E : p_char color p 8 = p); [|by rewrite E]. destruct p as [cells row col]. cbn [p_col p_row p_cells] in *. subst col.
  unfold p_char, p_put, p_wrap, p_grow, VGA_WIDTH in *. cbn [p_col p_row p_cells Z.eqb Pos.eqb andb Z.leb Z.compare Pos.compare Pos.compare_cont Z.ltb].
  rewrite (proj2 (Z.leb_gt _ _)) by lia. done.
Qed.
Lemma p_text_row text : forall p r, row_shows p r -> row_fits 79 r text -> len r <= 79 ->
  row_shows (foldl (p_char color) p text) (foldl row_step r text) /\ p_row (foldl (p_char color) p text) = p_row p.
Proof.
  induction text as [|c text IH]; intros p r Hs Hf Hr; [done|]. cbn [row_fits foldl] in *. destruct Hf as (Hc & Hl & Hf).
  assert (Hstep : row_shows (p_char color p c) (row_step r c) /\ p_row (p_char color p c) = p_row p).
  { destruct (decide (c = 8 /\ r = [])) as [[-> ->]|Hne].
    - by apply (p_char_idle p [] 8).
    - apply p_char_row; try done. destruct Hc as [->|Hc]; [left|by right]. split; [done|]. intros ->. by apply Hne. }
  destruct Hstep as [Hs1 E1]. destruct (IH _ _ Hs1 Hf Hl) as [Hs2 E2]. split; [done|]. congruence.
Qed.
End page_row.

(** ** Key sequences *)

Fixpoint edit_all (h : history_t) (cs : list Z) (e : editor) : list Z * editor :=
  match cs with
  | [] => ([], e)
  | c :: cs' => let '(out, e) := edit_key h c e in let '(rest, e) := edit_all h cs' e in (out ++ rest, e)
  end.

Section keys.
Implicit Types (h : history_t) (e : editor) (cs : list Z).
Lemma edit_key_bounded h c e : len (line e) < MAX_CMD_LEN -> len (line (edit_key h c e).2) < MAX_CMD_LEN.
Proof.
  unfold edit_key, recall, MAX_CMD_LEN. intros He. repeat case_match; simplify_eq/=; zbool; rewrite ?length_take, ?length_app; cbn [length]; try lia.
Qed.
Lemma edit_all_bounded h cs : forall e, len (line e) < MAX_CMD_LEN -> len (line (edit_all h cs e).2) < MAX_CMD_LEN.
Proof.
  induction cs as [|c cs IH]; intros e He; [done|]. cbn [edit_all]. pose proof (edit_key_bounded h c e He) as H1.
  destruct (edit_key h c e) as [out e1]. cbn [snd] in H1. specialize (IH e1 H1). by destruct (edit_all h cs e1).
Qed.
Lemma edit_all_row color h cs : (forall n, Forall printable (h_slot h n)) -> Forall (fun c => c <> 127) cs -> forall p e,
  (forall k, len (line (edit_all h (take k cs) e).2) <= 77) -> row_shows color p (prompt ++ line e) ->
  row_shows color (foldl (p_char color) p (edit_all h cs e).1) (prompt ++ line (edit_all h cs e).2).
Proof.
  intros Hh Hcs. induction Hcs as [|c cs Hc Hcs IH]; intros p e Hk Hs; [done|]. cbn [edit_all].
  pose proof (Hk 0%nat) as Hk0. cbn [take edit_all snd] in Hk0.
  pose proof (Hk 1%nat) as Hk1. cbn [take edit_all] in Hk1.
  pose proof (edit_key_row h c e 79 Hh Hc) as Hrow. destruct (edit_key h c e) as [out e1] eqn:E. cbn [snd edit_all take] in *.
  rewrite take_0 in Hk1. cbn [edit_all snd] in Hk1.
  destruct Hrow as [Hf Hr]; [lia|lia|]. destruct (p_text_row color out p _ Hs Hf) as [Hs1 _]; [rewrite length_app; change (length prompt) with 2%nat; lia|].
  rewrite Hr in Hs1. specialize (IH (foldl (p_char color) p out) e1). destruct (edit_all h cs e1) as [rest e2] eqn:E2. cbn [fst snd] in *.
  rewrite foldl_app. apply IH; [|done]. intros k. specialize (Hk (S k)). cbn [take edit_all] in Hk. rewrite E in Hk.
  by destruct (edit_all h (take k cs) e1).
Qed.
End keys.

(** ** The walk of find *)

Section find_walk.
Context (readdir : cstring -> option (option (list (cstring * Z * Z)))) (pat : cstring).
Implicit Types (s : find_st).
Abbreviation entry := (cstring * Z * Z)%type.
Definition visit (n : nat) (acc : option find_st) (x : entry) : option find_st :=
  s ← acc;
  let '(name, is_dir, _) := x in
  let s := report_match pat name s in
  if is_dir =? 0 then Some s
  else match path_join 256 (find_current_dir s) name with
       | [] => Some s
       | child => find_walk readdir pat n child (find_depth s - 1) s
       end.
Lemma find_walk_S n dir depth s : find_walk readdir pat (S n) dir depth s =
  if depth <=? 0 then Some s
  else
    lines ← readdir dir;
    s' ← foldl (visit n) (Some (FindSt dir (find_match_count s) depth (find_out s))) (default [] lines);
    Some (FindSt (find_current_dir s) (find_match_count s') (find_depth s') (find_out s')).
Proof. done. Qed.
Lemma report_same name s : find_depth (report_match pat name s) = find_depth s /\ find_current_dir (report_match pat name s) = find_current_dir s.
Proof. unfold report_match. by destruct (k_strstr _ _). Qed.

(** Eight turns are enough: a directory inside is walked with a smaller depth. *)
Lemma find_walk_returns n : (forall d, is_Some (readdir d)) -> forall dir depth s, depth <= Z.of_nat n ->
  exists s', find_walk readdir pat n dir depth s = Some s' /\ (find_depth s' <= depth \/ depth <= 0 /\ s' = s).
Proof.
  intros Hr. induction n as [|n IH]; intros dir depth s Hd.
  { cbn [find_walk]. rewrite (proj2 (Z.leb_le _ _)) by lia. exists s. split; [done|]. right. split; [lia|done]. }
  rewrite find_walk_S. destruct (Z.leb_spec depth 0) as [Hz|Hz]; [exists s; split; [done|by right]|].
  destruct (Hr dir) as [lines ->]. cbn [mbind option_bind].
  assert (Hfold : forall l s0, find_depth s0 <= depth -> exists s', foldl (visit n) (Some s0) l = Some s' /\ find_depth s' <= depth).
  { induction l as [|[[name is_dir] sz] l IHl]; intros s0 H0; [by exists s0|]. cbn [foldl]. unfold visit at 2. cbn [mbind option_bind].
    destruct (report_same name s0) as [E1 E2]. set (s1 := report_match pat name s0) in *. destruct (is_dir =? 0); [apply IHl; lia|].
    destruct (path_join 256 (find_current_dir s1) name) as [|c child]; [apply IHl; lia|].
    destruct (IH (c :: child) (find_depth s1 - 1) s1) as (s2 & -> & Hs2); [lia|]. apply IHl. destruct Hs2 as [?|[_ ->]]; lia. }
  destruct (Hfold (default [] lines) (FindSt dir (find_match_count s) depth (find_out s))) as (s' & -> & Hs'); [cbn; lia|].
  cbn [mbind option_bind]. eexists. split; [done|]. left. by cbn.
Qed.

(** *** Directories one level deep *)

(** The lines printed for the matching names of one directory. *)
Definition matching (dir : cstring) (l : list entry) : list cstring :=
  concat ((fun x : entry => match k_strstr x.1.1 pat with Some _ => [found_line x.1.1 (FindSt dir 0 0 [])] | None => [] end) <$> l).
(** A listing without directories. *)
Definition flat (l : list entry) : Prop := Forall (fun x => x.1.2 = 0) l.
(** What is printed for the root's entries when [left] directories are still
    searched: the entry, and the matches inside it if it is a directory. *)
Fixpoint shallow (sub : cstring -> list entry) (left : nat) (l : list entry) : list cstring :=
  match l with
  | [] => []
  | x :: l' =>
      matching (zs "/") [x] ++
      (if x.1.2 =? 0 then shallow sub left l'
       else match left with
            | O => shallow sub O l'
            | S k => matching (zs "/" ++ x.1.1) (sub x.1.1) ++ shallow sub k l'
            end)
  end.

Definition adds s (t : list cstring) (s' : find_st) : Prop :=
  find_out s' = find_out s ++ concat t /\ find_match_count s' = find_match_count s + len t.
Lemma adds_nil s : adds s [] s.
Proof. split; [by rewrite app_nil_r|cbn; lia]. Qed.
Lemma adds_trans s1 s2 s3 t1 t2 : adds s1 t1 s2 -> adds s2 t2 s3 -> adds s1 (t1 ++ t2) s3.
Proof. intros [E1 C1] [E2 C2]. split; [by rewrite E2, E1, concat_app, <- app_assoc|rewrite C2, C1, length_app; lia]. Qed.
Lemma report_adds x s : adds s (matching (find_current_dir s) [x]) (report_match pat x.1.1 s).
Proof.
  unfold report_match, matching, adds. cbn [fmap list_fmap concat]. rewrite app_nil_r. destruct (k_strstr _ _); cbn [find_out find_match_count concat length].
  - split; [by rewrite app_nil_r|lia].
  - split; [by rewrite app_nil_r|lia].
Qed.
Lemma visit_flat n l : flat l -> forall s, exists s', foldl (visit n) (Some s) l = Some s' /\ adds s (matching (find_current_dir s) l) s' /\
  find_depth s' = find_depth s /\ find_current_dir s' = find_current_dir s.
Proof.
  induction 1 as [|x l Hx Hl IH]; intros s; [exists s; split; [done|]; split; [apply adds_nil|done]|]. cbn [foldl]. unfold visit at 2.
  destruct x as [[name is_dir] sz]. cbn [fst snd] in Hx. subst is_dir. cbn [mbind option_bind Z.eqb].
  destruct (report_same name s) as [E1 E2]. destruct (IH (report_match pat name s)) as (s' & -> & Ha & Hd & Hc). exists s'. split; [done|].
  split; [|split; congruence]. rewrite E2 in Ha. pose proof (report_adds (name, 0, sz) s) as Hr.
  pose proof (adds_trans _ _ _ _ _ Hr Ha) as Ht. unfold matching in *. cbn [fmap list_fmap concat] in *. by rewrite app_nil_r in Ht.
Qed.

Lemma find_shallow_walk (sub : cstring -> list entry) n l : forall k s, find_current_dir s = zs "/" -> find_depth s = Z.of_nat k + 1 -> (k <= n)%nat ->
  Forall (fun x => x.1.2 <> 0 -> len x.1.1 <= 254 /\ readdir (zs "/" ++ x.1.1) = Some (Some (sub x.1.1)) /\ flat (sub x.1.1)) l ->
  exists s', foldl (visit n) (Some s) l = Some s' /\ adds s (shallow sub k l) s' /\ find_current_dir s' = zs "/".
Proof.
  induction l as [|x l IH]; intros k s Hc Hd Hn Hl; [exists s; split; [done|]; split; [apply adds_nil|done]|].
  apply Forall_cons in Hl as [Hx Hl]. destruct x as [[name is_dir] sz]. cbn [foldl]. unfold visit at 2. cbn [mbind option_bind fst snd] in *.
  destruct (report_same name s) as [E1 E2]. pose proof (report_adds (name, is_dir, sz) s) as Hr. rewrite Hc in Hr. cbn [fst] in Hr.
  cbn [shallow fst snd]. destruct (is_dir =? 0) eqn:Ez; zbool.
  { destruct (IH k (report_match pat name s)) as (s' & -> & Ha & Hc'); [congruence|congruence|done|done|]. exists s'. split; [done|].
    split; [by eapply adds_trans|done]. }
  destruct (Hx Ez) as (Hlen & Hread & Hflat). rewrite E2, Hc.
  assert (Hj : path_join 256 (zs "/") name = zs "/" ++ name).
  { unfold path_join, k_strlen. change (len (zs "/")) with 1. change (char_at (zs "/") 0 =? ch "/") with true. cbn [Z.eqb Pos.eqb andb].
    by rewrite (proj2 (Z.ltb_ge _ _)) by lia. }
  rewrite Hj. change (zs "/" ++ name) with (47 :: name). cbv iota. change (47 :: name) with (zs "/" ++ name). rewrite E1, Hd.
  set (s1 := report_match pat name s) in *. destruct k as [|k].
  { assert (Ew : find_walk readdir pat n (zs "/" ++ name) (Z.of_nat 0 + 1 - 1) s1 = Some s1) by (by destruct n). rewrite Ew.
    destruct (IH 0%nat s1) as (s' & -> & Ha & Hc'); [congruence|congruence|lia|done|]. exists s'. split; [done|].
    split; [by eapply adds_trans|done]. }
  destruct n as [|n]; [lia|]. rewrite find_walk_S. rewrite (proj2 (Z.leb_gt _ _)) by lia. rewrite Hread. cbn [mbind option_bind default]. unfold id.
  destruct (visit_flat n (sub name) Hflat (FindSt (zs "/" ++ name) (find_match_count s1) (Z.of_nat (S k) + 1 - 1) (find_out s1))) as (s2 & -> & Ha2 & Hd2 & _).
  cbn [mbind option_bind find_current_dir] in *. set (s3 := FindSt (find_current_dir s1) (find_match_count s2) (find_depth s2) (find_out s2)).
  destruct (IH k s3) as (s' & -> & Ha & Hc'); [unfold s3; cbn [find_current_dir]; congruence|unfold s3; cbn [find_depth]; rewrite Hd2; cbn [find_depth]; lia|lia|done|].
  exists s'. split; [done|]. split; [|done]. eapply adds_trans; [exact Hr|]. eapply adds_trans; [|exact Ha]. exact Ha2.
Qed.
End find_walk.
