(* ===== verification/Shell.v ===== *)
(** * The shell (src/src/ui/shell.c)

    The commands run in a state monad over the components they use: the user
    interface with its dispatcher, which holds the console and the descriptor
    layer, the partition table, the keyboard, the network adapter and the
    shell's own globals.  The disk filesystem is the one mounted in the
    descriptor layer ([FsMount]).  [None] is a run that does not return or
    that stores outside an array.  Between two polls of the keyboard or of
    the network, interrupts are handled; [sh_events] lists what they do, and
    a poll beyond the end of the list waits for ever. *)

From S2P Require Import Prelude Pmm KHeap Scheduler KString Bytes Disk Part Ns Ramfs Vfs Clock Mft Fs Text Pci Timer Fds Vfile.
From S2P Require Import FsVfs Net Input StateGraph NlParser Console Intent Ui ShellText.

(** The disk filesystem behind the mount. *)
Class FsMount (D M : Type) : Type := {
  mount_fs : M -> fs D;
  set_mount_fs : fs D -> M -> M;
  mount_fs_set : forall f m, mount_fs (set_mount_fs f m) = f
}.

(** What happens between two polls: keys arrive, the clock advances. *)
Record event (D U : Type) : Type := Event { ev_keys : input D U -> input D U; ev_ticks : Z }.
Arguments Event {D U}.
Arguments ev_keys {D U}.
Arguments ev_ticks {D U}.

Record shell (D M U : Type) : Type := Shell {
  sh_ui : ui D (sysenv D M);
  sh_part : part D;
  sh_in : input D U;
  sh_nic : nic D;
  sh_ping : ping;
  sh_events : list (event D U);
  list_cur_dir : cstring;
  copy_dir_src_cur : cstring;
  copy_dir_dst_cur : cstring;
  copy_dir_errors : Z;
  copy_dir_file_count : Z;
  copy_dir_depth : Z;
  sh_find : find_st;
  sh_history : history_t
}.
Arguments Shell {D M U}.
Arguments sh_ui {D M U}.
Arguments sh_part {D M U}.
Arguments sh_in {D M U}.
Arguments sh_nic {D M U}.
Arguments sh_ping {D M U}.
Arguments sh_events {D M U}.
Arguments list_cur_dir {D M U}.
Arguments copy_dir_src_cur {D M U}.
Arguments copy_dir_dst_cur {D M U}.
Arguments copy_dir_errors {D M U}.
Arguments copy_dir_file_count {D M U}.
Arguments copy_dir_depth {D M U}.
Arguments sh_find {D M U}.
Arguments sh_history {D M U}.

Definition ShM (D M U A : Type) : Type := shell D M U -> option (A * shell D M U).
#[export] Instance shm_ret {D M U} : MRet (ShM D M U) := fun A x s => Some (x, s).
#[export] Instance shm_bind {D M U} : MBind (ShM D M U) := fun A B k m s => '(x, s) ← m s; k x s.

Definition PLAN0_FULL_NAME : cstring := zs "Plan 0 v0.4.1".

(** Memory with C strings in it. *)
Definition str_at (mem : list Z) (p : Z) : cstring := cstr (drop (Z.to_nat p) mem).
Definition strcpy_at (mem : list Z) (p : Z) (t : cstring) : option (list Z) :=
  if (p <? 0) || (len mem <? p + len t + 1) then None
  else Some (take (Z.to_nat p) mem ++ t ++ [0] ++ drop (Z.to_nat (p + len t + 1)) mem).
(** A local array: the bytes stored in it, then what was there. *)
Definition pad (n : Z) (t : cstring) : list Z := t ++ replicate (Z.to_nat n - length t) 0.
Definition le_field (bs : list Z) (f : Mft.field) : Z :=
  foldr (fun b acc => b + 256 * acc) 0 (take (Z.to_nat (f_size f)) (drop (Z.to_nat (f_off f)) bs)).

Section shell.
Context {D M U : Type} `{PortIO D} `{PortIO32 D} `{MountedOps M} `{FsMount D M} `{UsbOps U}.
(** Turns of loops, CPUID leaves, bytes of the stack, and the string behind
    the digits of [ns_describe]. *)
Context (fuel : nat) (cpuid : Z -> Z * Z * Z * Z) (stack : list Z) (junk : Z -> cstring).
#[local] Instance shell_backend : VfsBackend (sysenv D M) := vfile_backend fuel cpuid.
Abbreviation sh := (shell D M U).
Abbreviation SM := (ShM D M U).
Implicit Types (s : sh).

(** ** The components *)

Definition set_ui x s : sh := Shell x (sh_part s) (sh_in s) (sh_nic s) (sh_ping s) (sh_events s) (list_cur_dir s) (copy_dir_src_cur s) (copy_dir_dst_cur s) (copy_dir_errors s) (copy_dir_file_count s) (copy_dir_depth s) (sh_find s) (sh_history s).
Definition set_part x s : sh := Shell (sh_ui s) x (sh_in s) (sh_nic s) (sh_ping s) (sh_events s) (list_cur_dir s) (copy_dir_src_cur s) (copy_dir_dst_cur s) (copy_dir_errors s) (copy_dir_file_count s) (copy_dir_depth s) (sh_find s) (sh_history s).
Definition set_input x y s : sh := Shell (sh_ui s) (sh_part s) x (sh_nic s) (sh_ping s) y (list_cur_dir s) (copy_dir_src_cur s) (copy_dir_dst_cur s) (copy_dir_errors s) (copy_dir_file_count s) (copy_dir_depth s) (sh_find s) (sh_history s).
Definition set_net x y s : sh := Shell (sh_ui s) (sh_part s) (sh_in s) x y (sh_events s) (list_cur_dir s) (copy_dir_src_cur s) (copy_dir_dst_cur s) (copy_dir_errors s) (copy_dir_file_count s) (copy_dir_depth s) (sh_find s) (sh_history s).
Definition set_list_dir x s : sh := Shell (sh_ui s) (sh_part s) (sh_in s) (sh_nic s) (sh_ping s) (sh_events s) x (copy_dir_src_cur s) (copy_dir_dst_cur s) (copy_dir_errors s) (copy_dir_file_count s) (copy_dir_depth s) (sh_find s) (sh_history s).
Definition set_copy_dirs x y s : sh := Shell (sh_ui s) (sh_part s) (sh_in s) (sh_nic s) (sh_ping s) (sh_events s) (list_cur_dir s) x y (copy_dir_errors s) (copy_dir_file_count s) (copy_dir_depth s) (sh_find s) (sh_history s).
Definition set_copy_counts e n s : sh := Shell (sh_ui s) (sh_part s) (sh_in s) (sh_nic s) (sh_ping s) (sh_events s) (list_cur_dir s) (copy_dir_src_cur s) (copy_dir_dst_cur s) e n (copy_dir_depth s) (sh_find s) (sh_history s).
Definition set_copy_depth x s : sh := Shell (sh_ui s) (sh_part s) (sh_in s) (sh_nic s) (sh_ping s) (sh_events s) (list_cur_dir s) (copy_dir_src_cur s) (copy_dir_dst_cur s) (copy_dir_errors s) (copy_dir_file_count s) x (sh_find s) (sh_history s).
Definition set_find x s : sh := Shell (sh_ui s) (sh_part s) (sh_in s) (sh_nic s) (sh_ping s) (sh_events s) (list_cur_dir s) (copy_dir_src_cur s) (copy_dir_dst_cur s) (copy_dir_errors s) (copy_dir_file_count s) (copy_dir_depth s) x (sh_history s).
Definition set_hist x s : sh := Shell (sh_ui s) (sh_part s) (sh_in s) (sh_nic s) (sh_ping s) (sh_events s) (list_cur_dir s) (copy_dir_src_cur s) (copy_dir_dst_cur s) (copy_dir_errors s) (copy_dir_file_count s) (copy_dir_depth s) (sh_find s) x.

Definition sh_disp s : dispatcher D (sysenv D M) := u_disp (sh_ui s).
Definition sh_term s : vga D := d_term (sh_disp s).
Definition sh_vfs s : vfs (sysenv D M) := d_vfs (sh_disp s).
Definition sh_env s : sysenv D M := env (sh_vfs s).
Definition sh_fs s : fs D := mount_fs (mounted (sh_env s)).
Definition put_term (t : vga D) s : sh := set_ui (set_disp (set_term t (sh_disp s)) (sh_ui s)) s.
Definition put_vfs (v : vfs (sysenv D M)) s : sh := set_ui (set_disp (set_dvfs v (sh_disp s)) (sh_ui s)) s.
Definition put_env (e : sysenv D M) s : sh := put_vfs (set_env e (sh_vfs s)) s.
Definition put_fs (f : fs D) s : sh := put_env (set_mounted (set_mount_fs f (mounted (sh_env s))) (sh_env s)) s.

Definition gets {A} (f : sh -> A) : SM A := fun s => Some (f s, s).
Definition putm (f : sh -> sh) : SM unit := fun s => Some ((), f s).
Definition stuck {A} : SM A := fun _ => None.
Definition lift {A} (o : option A) : SM A := fun s => x ← o; Some (x, s).
Definition on_ui {A} (f : ui D (sysenv D M) -> option (A * ui D (sysenv D M))) : SM A :=
  fun s => '(x, u) ← f (sh_ui s); Some (x, set_ui u s).
Definition on_term (f : vga D -> option (vga D)) : SM unit := fun s => t ← f (sh_term s); Some ((), put_term t s).
Definition on_fs {A} (c : FsM D A) : SM A := fun s => '(x, f) ← c (sh_fs s); Some (x, put_fs f s).
(** What the layer sends to its console is shown. *)
Definition on_vfs {A} (f : vfs (sysenv D M) -> option (A * vfs (sysenv D M))) : SM A := fun s =>
  '(x, v) ← f (set_console [] (sh_vfs s));
  t ← vga_write fuel (console v) (sh_term s);
  Some (x, put_term t (put_vfs (set_console (console (sh_vfs s) ++ console v) v) s)).

(** terminal_writestring, terminal_writestring_nl, terminal_put_dec and
    terminal_putchar. *)
Definition say (t : cstring) : SM unit := on_term (vga_writestring fuel t).
Definition say_nl (t : cstring) : SM unit := on_term (vga_writestring_nl fuel t).
Definition say_dec (n : Z) : SM unit := on_term (vga_put_dec fuel (u64 n)).
Definition putc (c : Z) : SM unit := on_term (vga_putchar fuel c).
Definition terminal_clear : SM unit := on_term (fun t => Some (vga_clear_screen t)).
Fixpoint for_all {A} (l : list A) (body : A -> SM unit) : SM unit :=
  match l with [] => mret () | x :: l' => body x;; for_all l' body end.
Definition cmd_equals (input : cstring) (pattern : string) : bool := k_strcmp input (zs pattern) =? 0.

(** A buffer of [size] bytes read as a C string after [buf[n] = 0]. *)
Definition terminated (size n : Z) (bytes : list Z) : SM cstring :=
  if (0 <=? n) && (n <? size) then mret (cstr (take (Z.to_nat n) (filled bytes stack))) else stuck.
(** [vfile_read] into an array of [max] bytes. *)
Definition vfile_read_into (path : cstring) (max : Z) : SM (list Z * Z) := on_vfs (fun v =>
  '(g, v) ← vfile_generate fuel cpuid (Some (@vfs_read _ (backend_at fuel cpuid 1))) max path v;
  let '(b, r) := deliver max ∅ g in Some ((load_bytes b 0 r, r), v)).
Definition file_size (file : Z) : SM Z := gets (fun s => rd (fmem (sh_fs s)) file ff_size).

(** ** Listing *)

Definition list_callback (name : cstring) (is_dir size : Z) : SM unit :=
  dir ← gets list_cur_dir;
  let nested := match dir with [] => false | _ => negb (k_strcmp dir (zs "/") =? 0) end in
  let need := if nested then k_strlen dir + 1 + k_strlen name + 1 else k_strlen name + 2 in
  if 256 <? need then say (zs "  (name too long)" ++ [10])
  else
    let full := if nested then dir ++ ch "/" :: name else ch "/" :: name in
    say (zs "  ");;
    (if negb (is_dir =? 0) then say (zs "[DIR]  ")
     else
       ro ← on_fs (fs_is_readonly full);
       say (if ro =? 1 then zs "[RO]  " else zs "      ");;
       say_dec size;;
       say (zs " bytes  "));;
    say_nl name.

Definition cmd_list (name : cstring) : SM unit :=
  match (match name with [] => Some (zs "/") | _ => resolve_path name end) with
  | None => say_nl (zs "  Error: path too long")
  | Some path =>
      say_nl [];;
      putm (set_list_dir path);;
      v ← gets sh_vfs;
      let listing := vfile_list path v in
      for_all (default [] listing) (fun x : cstring * bool * Z => list_callback x.1.1 (Z.b2z x.1.2) x.2);;
      f ← gets sh_fs;
      lines ← lift (fs_readdir path f);
      for_all (default [] lines) (fun x : cstring * Z * Z => list_callback x.1.1 x.1.2 x.2);;
      putm (set_list_dir []);;
      let rcount := match lines with Some l => len l | None => -1 end in
      if bool_decide (is_Some listing) || (0 <? rcount) then say_nl []
      else if rcount =? 0 then say_nl (zs "  (empty)")
      else say_nl (zs "  Error: directory not found")
  end.

(** ** System state *)

Definition MB : Z := 1024 * 1024.
Definition cmd_show_memory : SM unit :=
  e ← gets sh_env;
  let total := pmm_get_total (physmem e) / MB in
  let free := pmm_get_free (physmem e) / MB in
  say_nl [];;
  say (zs "  Total RAM: ");; say_dec total;; say_nl (zs " MB");;
  say (zs "  Free RAM:  ");; say_dec free;; say_nl (zs " MB");;
  say_nl [].

Definition ps_row (t : sched) (i : Z) : SM unit :=
  match process_get_by_index i with
  | None => mret ()
  | Some p =>
      let x := get t p in
      if bool_decide (p_state x = PROC_STATE_UNUSED) then mret ()
      else
        say (zs "  ");; say_dec (p_pid x);; say (zs "  ");; say (p_name x);;
        for_all (seqZ (k_strlen (p_name x)) (10 - k_strlen (p_name x))) (fun _ => putc 32);;
        say (if bool_decide (p_state x = PROC_STATE_RUNNING) then zs "YES       " else zs "NO        ");;
        say_dec 0;;
        say_nl []
  end.
Definition cmd_ps : SM unit :=
  say_nl [];;
  say_nl (zs "  PID  Name        Active    Window");;
  say_nl (zs "  ---  ----------  --------  ------");;
  t ← gets (fun s => procs (sh_env s));
  for_all (seqZ 0 64) (ps_row t);;
  say (10 :: zs "  ");;
  say_dec (countb (fun i => match process_get_by_index i with
                            | Some p => negb (bool_decide (p_state (get t p) = PROC_STATE_UNUSED))
                            | None => false
                            end) (seqZ 0 64));;
  say_nl (zs " processes total");;
  say_nl [].

Definition two_digits (n : Z) : SM unit := (if n <? 10 then putc (ch "0") else mret ());; say_dec n.
Definition read_clock : SM rtc_time := fun s =>
  '(t, d) ← rtc_read_time fuel (vdev (sh_term s)); Some (t, put_term (set_vdev d (sh_term s)) s).
Definition say_date (t : rtc_time) : SM unit :=
  say_dec (t_month t);; putc (ch "/");; say_dec (t_day t);; putc (ch "/");; say_dec (t_century t);; say_dec (t_year t).
Definition say_time (t : rtc_time) : SM unit :=
  two_digits (t_hour t);; putc (ch ":");; two_digits (t_minute t);; putc (ch ":");; two_digits (t_second t).
Definition cmd_date : SM unit :=
  t ← read_clock;
  say_nl [];; say (zs "  ");; say_date t;; say (zs "  ");; say_time t;; say_nl [];; say_nl [].
Definition cmd_system_info : SM unit :=
  say_nl [];;
  say_nl (zs "  System Information:");;
  say_nl (zs "  ------------------");;
  e ← gets sh_env;
  say (zs "  Total RAM: ");; say_dec (pmm_get_total (physmem e) / MB);;
  say (zs " MB, Free: ");; say_dec (pmm_get_free (physmem e) / MB);; say_nl (zs " MB");;
  say (zs "  Running processes: ");; say_dec (process_get_count (procs e));; say_nl [];;
  t ← read_clock;
  say (zs "  Date: ");; say_date t;; say (zs "  Time: ");; say_time t;; say_nl [];; say_nl [].
Definition cmd_uptime : SM unit :=
  e ← gets sh_env;
  let seconds := timer_get_ticks (system_ticks e) / 1000 in
  let minutes := seconds / 60 in
  say_nl [];;
  say (zs "  Uptime: ");; say_dec (minutes / 60);; say (zs " hours, ");; say_dec (minutes mod 60);;
  say (zs " minutes, ");; say_dec (seconds mod 60);; say_nl (zs " seconds");;
  say_nl [].

(** ** Partitions and the namespace *)

Definition part_row (x : part_info) : SM unit :=
  say (zs "  ");; say_dec (partition_number x);; say (zs "    ");; say_dec (pi_start_lba x);;
  say (zs "          ");; say_dec (size_sectors x / 2);; say (zs "          ");; say_nl (pi_label x).
Definition probe_part (x : part_info) : SM unit := fun s =>
  let '(_, r, p) := part_read_sectors (partition_number x) 0 1 (sh_part s) in
  (say (zs "  read p");; say_dec (partition_number x);;
   say_nl (if r =? 0 then zs " sector 0: ok" else zs " sector 0: FAILED")) (set_part p s).
Definition cmd_parts : SM unit :=
  say_nl [];;
  p ← gets sh_part;
  if negb (disk_is_ready (pdisk p)) then say_nl (zs "  No disk present")
  else if negb (part_is_ready p) then say_nl (zs "  No GPT partition table")
  else match part_list_partitions 32 p with
  | None | Some [] => say_nl (zs "  (no partitions)")
  | Some l =>
      say_nl (zs "  #   Start LBA      Size (KB)  Label");;
      say_nl (zs "  --  -------------  ---------  -----");;
      for_all l part_row;;
      for_all l probe_part;;
      say_nl []
  end.

(** The lines of a text, at most 127 characters each. *)
Fixpoint take_line (room : nat) (p : cstring) : cstring * cstring :=
  match p, room with
  | c :: p', S k => if c =? 10 then ([], p) else let '(l, rest) := take_line k p' in (c :: l, rest)
  | _, _ => ([], p)
  end.
Fixpoint ns_lines (n : nat) (p : cstring) : option (list cstring) :=
  match p with
  | [] => Some []
  | _ =>
      match n with
      | O => None
      | S n' =>
          let '(line, rest) := take_line 127 p in
          let rest := match rest with c :: r => if c =? 10 then r else rest | [] => [] end in
          ls ← ns_lines n' rest; Some (line :: ls)
      end
  end.
Definition cmd_ns (path : cstring) : SM unit :=
  p ← gets sh_part;
  e ← gets sh_env;
  let '(rc, text) := ns_describe junk 1024 path p (physmem e) in
  say_nl [];;
  if rc =? -1 then say (zs "  Error: invalid path syntax")
  else if rc =? -2 then say_nl (zs "  Unknown resource")
  else ls ← lift (ns_lines (length text) text); for_all ls (fun l => say (zs "  ");; say_nl l).

(** ** The descriptor layer *)

Definition vclose (fd : Z) : SM Z := on_vfs (fun v => Some (vfs_close fd v)).
Definition vread (fd size : Z) : SM (list Z * Z) := on_vfs (fun v => '(out, r, v) ← vfs_read fd size v; Some ((out, r), v)).
Definition vwrite (fd : Z) (data : list Z) : SM Z := on_vfs (vfs_write fuel fd data).
Definition vopen (path : cstring) (flags : Z) : SM Z := on_vfs (vfs_open fuel path flags).
Definition vdup (fd : Z) : SM Z := on_vfs (fun v => Some (vfs_dup fd v)).
Definition vdup2 (a b : Z) : SM Z := on_vfs (fun v => Some (vfs_dup2 a b v)).
Definition vpipe : SM (Z * option (Z * Z)) := on_vfs (fun v => Some (vfs_pipe v)).

Definition cmd_pipe : SM unit :=
  '(r, fds) ← vpipe;
  if r <? 0 then say_nl (zs "  Error: could not create pipe")
  else
    '(fd0, fd1) ← lift fds;
    say (zs "  Pipe created: read fd=");; say_dec fd0;; say (zs ", write fd=");; say_dec fd1;; say_nl [];;
    w ← vwrite fd1 (zs "hello through pipe");
    say (zs "  Wrote ");; say_dec w;; say_nl (zs " bytes to pipe");;
    '(out, n) ← vread fd0 64;
    text ← terminated 64 n out;
    say (zs "  Read ");; say_dec n;; say (zs " bytes: " ++ [34]);; say text;; say_nl [34];;
    '(_, n2) ← vread fd0 64;
    say (zs "  Second read: ");; say_dec n2;; say_nl (zs " bytes (empty pipe)");;
    vclose fd0;; vclose fd1;;
    say_nl (zs "  Pipe closed").

Definition cmd_dup : SM unit :=
  let name := zs "dup_test.txt" in
  fd ← vopen name (VFS_O_CREAT .| FsVfs.VFS_O_RDWR);
  if fd <? 0 then say_nl (zs "  Error: could not create dup_test.txt")
  else
    w ← vwrite fd (zs "dup test payload");
    if w <? 0 then say_nl (zs "  Error: write failed");; vclose fd;; mret ()
    else
      say (zs "  Wrote ");; say_dec w;; say_nl (zs " bytes");;
      on_vfs (fun v => Some (vfs_seek fd VFS_SEEK_SET 0 v));;
      dupfd ← vdup fd;
      if dupfd <? 0 then say_nl (zs "  Error: dup failed");; vclose fd;; mret ()
      else
        say (zs "  dup(");; say_dec fd;; say (zs ") = ");; say_dec dupfd;; say_nl [];;
        '(out, n) ← vread dupfd 63;
        text ← terminated 64 n out;
        say (zs "  Read via dup fd ");; say_dec dupfd;; say (zs ": " ++ [34]);; say text;; say_nl [34];;
        vclose fd;;
        '(_, n2) ← vread dupfd 63;
        say (zs "  After closing original, dup fd read returns ");; say_dec n2;; say_nl (zs " (0 = survived close)");;
        vclose dupfd;;
        on_vfs (vfs_unlink fuel name);;
        say_nl (zs "  Dup test complete").

Definition cmd_stdio : SM unit :=
  '(r, fds) ← vpipe;
  if r <? 0 then say_nl (zs "  Error: could not create pipe")
  else
    '(fd0, fd1) ← lift fds;
    saved_stdout ← vdup 1;
    failed ← (if saved_stdout <? 0 then mret true else d ← vdup2 fd1 1; mret (d <? 0));
    if (failed : bool) then say_nl (zs "  Error: dup2 onto stdout failed");; vclose fd0;; vclose fd1;; mret ()
    else
      w ← vwrite 1 (zs "hello via stdout");
      vdup2 saved_stdout 1;;
      vclose saved_stdout;;
      '(out, n) ← vread fd0 63;
      text ← terminated 64 n out;
      vclose fd0;; vclose fd1;;
      say (zs "  Wrote ");; say_dec w;; say (zs " bytes to fd 1 (stdout) -> pipe; read back " ++ [34]);; say text;; say_nl [34].

(** The loop of [cmd_vcat]; the result is the total. *)
Fixpoint vcat_loop (n : nat) (fd total : Z) : SM Z :=
  match n with
  | O => stuck
  | S n' =>
      '(out, r) ← vread fd 511;
      if 0 <? r then text ← terminated 512 r out; say text;; vcat_loop n' fd (i32 (total + r)) else mret total
  end.
Definition with_path (name usage : cstring) (k : cstring -> SM unit) : SM unit :=
  match name with
  | [] => say_nl usage
  | _ => match resolve_path name with None => say_nl (zs "  Error: path too long") | Some path => k path end
  end.
Definition cmd_vcat (name : cstring) : SM unit := with_path name (zs "  Usage: vcat <path>") (fun path =>
  fd ← vopen path VFS_O_RDONLY;
  if fd <? 0 then say_nl (zs "  Error: could not open (fd layer)")
  else
    say_nl [];;
    total ← vcat_loop fuel fd 0;
    say_nl [];;
    vclose fd;;
    say (zs "  (");; say_dec total;; say (zs " bytes via fd ");; say_dec fd;; say_nl (zs ")")).

(** ** Files *)

Definition cmd_create_file (name : cstring) : SM unit := with_path name (zs "  Usage: create <filename>") (fun path =>
  file ← on_fs (fs_open fuel path 1);
  if file =? 0 then say_nl (zs "  Error: Could not create file")
  else on_fs (fs_close fuel file);; say (zs "  Created: ");; say_nl name).
Definition cmd_mkdir (name : cstring) : SM unit := with_path name (zs "  Usage: mkdir <dirname>") (fun path =>
  r ← on_fs (fs_mkdir fuel path);
  if r <? 0 then say_nl (zs "  Error: Could not create directory")
  else say (zs "  Created directory: ");; say_nl name).
Definition cmd_delete (name : cstring) : SM unit := with_path name (zs "  Usage: delete <filename>") (fun path =>
  r ← on_fs (fs_unlink path);
  if r =? 0 then say (zs "  Deleted: ");; say_nl name
  else
    r ← on_fs (fs_rmdir path);
    if r =? 0 then say (zs "  Deleted directory: ");; say_nl name
    else
      ro ← on_fs (fs_is_readonly path);
      say_nl (if ro =? 1 then zs "  Error: File is read-only (chmod +w to unprotect)"
              else zs "  Error: File not found (or directory not empty)")).

Definition say_written (n : Z) (name : cstring) : SM unit :=
  say (zs "  Wrote ");; say_dec n;; say (zs " bytes to ");; say_nl name.
Definition cmd_write_file (name content : cstring) : SM unit := with_path name (zs "  Usage: write <filename> <content>") (fun path =>
  e ← gets sh_env;
  if vfile_is_virtual path e then
    if negb (vfile_is_writable path e) then say_nl (zs "  Error: Virtual file is read-only")
    else
      written ← on_vfs (fun v => Some (vfile_write_to path content v));
      if written <? 0 then say_nl (zs "  Error: Write failed") else say_written written name
  else
    file ← on_fs (fs_open fuel path 1);
    if file =? 0 then
      ro ← on_fs (fs_is_readonly path);
      say_nl (if ro =? 1 then zs "  Error: File is read-only (chmod +w to unprotect)" else zs "  Error: Could not open file for writing")
    else
      written ← on_fs (fs_write fuel stack file content);
      on_fs (fs_close fuel file);;
      say_written written name).

(** The chunks of [cmd_read_file]. *)
Fixpoint read_chunks (n : nat) (file off : Z) : SM unit :=
  match n with
  | O => stuck
  | S n' =>
      size ← file_size file;
      if off <? size then
        bytes ← on_fs (fs_read stack file (if 255 <? u64 (size - off) then 255 else u64 (size - off)));
        if len bytes =? 0 then mret ()
        else say (cstr bytes);; read_chunks n' file (u64 (off + len bytes))
      else mret ()
  end.
Definition cmd_read_file (name : cstring) : SM unit := with_path name (zs "  Usage: read <filename>") (fun path =>
  '(vbuf, vlen) ← vfile_read_into path VFILE_MAX_CONTENT;
  if 0 <=? vlen then
    text ← terminated VFILE_MAX_CONTENT vlen vbuf;
    say_nl [];; say_nl text;; say_nl []
  else
    file ← on_fs (fs_open fuel path 0);
    if file =? 0 then say_nl (zs "  Error: File not found")
    else
      size ← file_size file;
      if size =? 0 then say_nl (zs "  (empty file)");; on_fs (fs_close fuel file);; mret ()
      else
        say_nl [];;
        read_chunks fuel file 0;;
        on_fs (fs_close fuel file);;
        say_nl []).

(** ** Searching and counting *)

(** At most 4095 bytes of a virtual or real file; [None] when there is none. *)
Fixpoint slurp_loop (n : nat) (file off : Z) (content : list Z) : SM (list Z) :=
  match n with
  | O => stuck
  | S n' =>
      size ← file_size file;
      if (off <? size) && (len content <? 4095) then
        bytes ← on_fs (fs_read stack file (if 256 <? u64 (size - off) then 256 else u64 (size - off)));
        if len bytes =? 0 then mret content
        else slurp_loop n' file (u64 (off + len bytes)) (take 4095 (content ++ bytes))
      else mret content
  end.
Definition slurp (path : cstring) : SM (option (list Z)) :=
  '(vbuf, vlen) ← vfile_read_into path VFILE_MAX_CONTENT;
  if 0 <=? vlen then mret (Some (take (Z.to_nat (if vlen <? 4095 then vlen else 4095)) vbuf))
  else
    file ← on_fs (fs_open fuel path 0);
    if file =? 0 then mret None
    else
      content ← slurp_loop fuel file 0 [];
      on_fs (fs_close fuel file);;
      mret (Some content).

Definition say_match (x : Z * cstring) : SM unit := say (zs "  ");; say_dec x.1;; say (zs ": ");; say_nl x.2.
Definition cmd_grep (pattern name : cstring) : SM unit :=
  let usage := zs "  Usage: grep <pattern> <file>" in
  match pattern with
  | [] => say_nl usage
  | _ => with_path name usage (fun path =>
      content ← slurp path;
      match content with
      | None => say_nl (zs "  Error: File not found")
      | Some content =>
          found ← lift (grep_loop (length content) pattern content 0);
          for_all found say_match;;
          (if len found =? 0 then say_nl (zs "  (no matches)") else mret ());;
          say_nl []
      end)
  end.
Definition cmd_wc (name : cstring) : SM unit := with_path name (zs "  Usage: wc <file>") (fun path =>
  content ← slurp path;
  match content with
  | None => say_nl (zs "  Error: File not found")
  | Some content =>
      let '(lines, words, total) := wc_of content in
      say (zs "  ");; say_dec lines;; say (zs " lines, ");; say_dec words;; say (zs " words, ");;
      say_dec total;; say (zs " bytes  ");; say_nl name
  end).

Definition cmd_find (pattern : cstring) : SM unit :=
  match pattern with
  | [] => say_nl (zs "  Usage: find <pattern>")
  | _ =>
      say_nl [];;
      say (zs "  Searching for: " ++ [34]);; say pattern;; say_nl [34];;
      f ← gets sh_fs;
      old ← gets sh_find;
      st ← lift (find_walk (fun dir => fs_readdir dir f) pattern 8 (zs "/") 8
                   (FindSt (find_current_dir old) 0 (find_depth old) []));
      say (find_out st);;
      putm (set_find (FindSt (find_current_dir st) (find_match_count st) (find_depth st) []));;
      say (zs "  Found ");; say_dec (find_match_count st);; say_nl (zs " matching files");;
      say_nl []
  end.

(** ** Copying *)

(** The loop that copies the bytes of an open file; the flag says that no
    write failed, the number is what was copied. *)
Fixpoint copy_bytes (n : nat) (src dst total : Z) : SM (bool * Z) :=
  match n with
  | O => stuck
  | S n' =>
      size ← file_size src;
      if total <? size then
        bytes ← on_fs (fs_read stack src (if 256 <? u64 (size - total) then 256 else u64 (size - total)));
        if len bytes =? 0 then mret (true, total)
        else
          written ← on_fs (fs_write fuel stack dst bytes);
          if written =? len bytes then copy_bytes n' src dst (u64 (total + written)) else mret (false, total)
      else mret (true, total)
  end.

Definition copy_error : SM unit := putm (fun s => set_copy_counts (copy_dir_errors s + 1) (copy_dir_file_count s) s).

(** [fs_readdir] with a callback that changes the filesystem while it is
    being listed. *)
Definition call_all (cb : cstring -> Z -> Z -> SM unit) (l : list (cstring * Z * Z)) : SM unit :=
  for_all l (fun x => cb x.1.1 x.1.2 x.2).
Fixpoint each_index (turns : nat) (ptr end_ : Z) (cb : cstring -> Z -> Z -> SM unit) : SM unit :=
  match turns with
  | O => stuck
  | S k =>
      f ← gets sh_fs;
      if ptr + sizeof_index_entry <=? end_ then
        if rd (fmem f) ptr ie_length <? sizeof_index_entry then mret ()
        else
          here ← lift (index_line ptr f);
          call_all cb here;;
          if has_flag (rd (fmem f) ptr ie_flags) 1 then mret ()
          else f ← gets sh_fs; each_index k (ptr + rd (fmem f) ptr ie_length) end_ cb
      else mret ()
  end.
Definition each_child (dir : Z) (cb : cstring -> Z -> Z -> SM unit) (i : Z) : SM unit :=
  f ← gets sh_fs; here ← lift (list_children [i] dir f); call_all cb here.
Definition readdir_each (path : cstring) (cb : cstring -> Z -> Z -> SM unit) : SM unit :=
  f ← gets sh_fs;
  dir_mft ← lift (find_file_in path f);
  if dir_mft =? NOT_FOUND then mret ()
  else
    let dir_entry := mft_addr f dir_mft in
    index_attr ← lift (find_attr (fmem f) dir_entry ATTR_INDEX_ROOT);
    if index_attr =? 0 then for_all (user_entries f) (each_child dir_mft cb)
    else each_index INDEX_TURNS (index_attr + sizeof_attr_header + sizeof_index_root)
           (Z.min (index_attr + rd (fmem f) index_attr at_length) (dir_entry + MFT_ENTRY_SIZE)) cb.

Definition copy_dir_file (src_child dst_child : cstring) : SM unit :=
  sf ← on_fs (fs_open fuel src_child 0);
  if sf =? 0 then copy_error
  else
    df ← on_fs (fs_open fuel dst_child 1);
    if df =? 0 then on_fs (fs_close fuel sf);; copy_error
    else
      on_fs (fs_truncate fuel df 0);;
      '(ok, _) ← copy_bytes fuel sf df 0;
      (if (ok : bool) then mret () else copy_error);;
      on_fs (fs_close fuel sf);;
      on_fs (fs_close fuel df);;
      putm (fun s => set_copy_counts (copy_dir_errors s) (copy_dir_file_count s + 1) s).
(** [copy_dir_walk] with its callback. *)
Fixpoint copy_dir_walk (n : nat) (src dst : cstring) (depth : Z) : SM unit :=
  if depth <=? 0 then mret ()
  else match n with
  | O => stuck
  | S n' =>
      src_saved ← gets copy_dir_src_cur;
      dst_saved ← gets copy_dir_dst_cur;
      putm (fun s => set_copy_depth depth (set_copy_dirs src dst s));;
      readdir_each src (fun name is_dir _ =>
        cur_src ← gets copy_dir_src_cur;
        cur_dst ← gets copy_dir_dst_cur;
        let src_child := path_join 256 cur_src name in
        let dst_child := path_join 256 cur_dst name in
        if negb (is_dir =? 0) then
          exists_ ← on_fs (fs_is_directory dst_child);
          made ← (if exists_ =? 1 then mret 0 else on_fs (fs_mkdir fuel dst_child));
          if negb (made =? 0) then copy_error
          else d ← gets copy_dir_depth; copy_dir_walk n' src_child dst_child (d - 1)
        else copy_dir_file src_child dst_child);;
      putm (set_copy_dirs src_saved dst_saved)
  end.

Definition cmd_copy_dir (src_path dst_path : cstring) : SM unit :=
  into ← on_fs (fs_is_directory dst_path);
  let dst_root := if into =? 1 then path_join 256 dst_path (path_basename src_path) else dst_path in
  if (k_strcmp dst_root src_path =? 0) || path_has_prefix dst_root src_path then
    say_nl (zs "  Error: cannot copy a directory into itself")
  else
    exists_ ← on_fs (fs_is_directory dst_root);
    made ← (if exists_ =? 1 then mret 0 else on_fs (fs_mkdir fuel dst_root));
    if negb (made =? 0) then say_nl (zs "  Error: could not create destination directory")
    else
      putm (set_copy_counts 0 0);;
      copy_dir_walk 8 src_path dst_root 8;;
      errors ← gets copy_dir_errors;
      if 0 <? errors then say (zs "  Error: ");; say_dec errors;; say_nl (zs " entries failed during directory copy")
      else
        count ← gets copy_dir_file_count;
        say (zs "  Copied directory: ");; say dst_root;; say (zs " (");; say_dec count;; say_nl (zs " files)").
Definition cmd_copy_file (src_path dst_path : cstring) : SM unit :=
  src_file ← on_fs (fs_open fuel src_path 0);
  if src_file =? 0 then say_nl (zs "  Error: Source file not found")
  else
    dst_file ← on_fs (fs_open fuel dst_path 1);
    if dst_file =? 0 then on_fs (fs_close fuel src_file);; say_nl (zs "  Error: Could not create destination file")
    else
      on_fs (fs_truncate fuel dst_file 0);;
      '(ok, total) ← copy_bytes fuel src_file dst_file 0;
      (if (ok : bool) then mret () else say_nl (zs "  Error: Write failed during copy"));;
      on_fs (fs_close fuel src_file);;
      on_fs (fs_close fuel dst_file);;
      say (zs "  Copied: ");; say_dec total;; say_nl (zs " bytes").
Definition with_paths (src dst usage : cstring) (k : cstring -> cstring -> SM unit) : SM unit :=
  match src, dst with
  | [], _ | _, [] => say_nl usage
  | _, _ =>
      match resolve_path src, resolve_path dst with
      | Some a, Some b => k a b
      | _, _ => say_nl (zs "  Error: path too long")
      end
  end.
Definition cmd_copy (src dst : cstring) : SM unit := with_paths src dst (zs "  Usage: copy <source> <destination>") (fun src_path dst_path =>
  is_dir ← on_fs (fs_is_directory src_path);
  if is_dir =? 1 then cmd_copy_dir src_path dst_path else cmd_copy_file src_path dst_path).
Definition cmd_move (src dst : cstring) : SM unit := with_paths src dst (zs "  Usage: move <source> <destination>") (fun src_path dst_path =>
  r ← on_fs (fs_rename fuel stack src_path dst_path);
  if r =? 0 then say (zs "  Moved: ");; say src;; say (zs " -> ");; say_nl dst
  else
    cmd_copy src dst;;
    r ← on_fs (fs_unlink src_path);
    say_nl (if 0 <=? r then zs "  Move completed (copy+delete)" else zs "  Warning: Original file not deleted")).
Definition cmd_rename (old_name new_name : cstring) : SM unit :=
  match old_name, new_name with
  | [], _ | _, [] => say_nl (zs "  Usage: rename <oldname> <newname>")
  | _, _ => cmd_move old_name new_name
  end.
Definition cmd_append (name content : cstring) : SM unit := with_path name (zs "  Usage: append <filename> <content>") (fun path =>
  file ← on_fs (fs_open fuel path 2);
  if file =? 0 then say_nl (zs "  Error: Could not open file")
  else match content with
  | [] => on_fs (fs_close fuel file);; say_nl (zs "  No content to append")
  | _ =>
      written ← on_fs (fs_write fuel stack file content);
      on_fs (fs_close fuel file);;
      say (zs "  Appended ");; say_dec written;; say_nl (zs " bytes")
  end).

(** ** The working directory *)

Definition dispatch_intent (build : dispatcher D (sysenv D M) -> option (intent * dispatcher D (sysenv D M))) : SM (Z * intent) :=
  on_ui (with_disp (fun d =>
    '(it, d) ← build d;
    '(r, it, d) ← intent_dispatch fuel (set_source 2 it) d;
    Some ((r, it), d))).
Definition cmd_chdir (path : cstring) : SM unit :=
  match path with
  | [] => say_nl (zs "  Usage: go to <path>  (or: here / up / home)")
  | _ =>
      '(r, _) ← dispatch_intent (intent_fs_chdir fuel path);
      if r =? ERR_SUCCESS then mret () else say_nl (zs "  cd: path must be absolute (start with /)")
  end.
Definition cmd_cd_parent : SM unit := dispatch_intent (intent_fs_chdir_parent fuel);; mret ().
Definition cmd_cd_home : SM unit := dispatch_intent (intent_fs_chdir_home fuel);; mret ().
Definition cmd_pwd : SM unit :=
  '(r, it) ← dispatch_intent (intent_fs_print_cwd fuel);
  if r =? ERR_SUCCESS then say (zs "  ");; say_nl (param1_str it) else mret ().

(** ** Fixed texts *)

Definition cmd_echo (text : cstring) : SM unit := match text with [] => putc 10 | _ => say (zs "  ");; say_nl text end.
Definition cmd_version : SM unit :=
  say_nl [];;
  say (zs " " ++ PLAN0_FULL_NAME ++ [10]);;
  for_all [zs "  Plan 0 - 64-bit Operating System"; zs "  FS - NTFS-style filesystem"; zs "  Shell - Natural language interface";
           zs "  Copyright (C) 2026 CazyUndee"; zs "  Licensed under GNU AGPLv3"; []] say_nl.
Definition cmd_whoami : SM unit := say_nl (zs "  root").
Definition cmd_uname : SM unit := say (zs "  " ++ PLAN0_FULL_NAME).
Definition cmd_env : SM unit :=
  for_all [[]; zs "  PATH=/bin:/usr/bin"; zs "  HOME=/"; zs "  USER=root"; zs "  TERM=shell"; []] say_nl.
Definition help_text : list cstring :=
  [zs "";
   zs "  Plan 0 understands natural language:";
   zs "    list files in documents";
   zs "    list current directory";
   zs "    create a file called notes.txt";
   zs "    write hello world to notes.txt";
   zs "    delete the file notes.txt";
   zs "    show me the memory";
   zs "";
   zs "  Commands:";
   zs "  ---------";
   zs "  File Operations:";
   zs "    list              - show all files";
   zs "    create <name>     - create new file";
   zs "    make directory <name> - create directory";
   zs "    delete <name>     - delete file or directory";
   zs "    copy <source> <destination> - copy file";
   zs "    move <source> <destination> - move file";
   zs "    rename <old> <new> - rename file";
   zs "    write <name> <text> - write text to file";
   zs "    append <name> <text> - add text to file";
   zs "    read <name>       - display file contents";
   zs "    information about <name> - show file details";
   zs "    find <pattern>    - search for files";
   zs "    grep <pat> <file> - print matching lines";
   zs "    wc <file>          - line/word/byte counts";
   zs "    go to <path>      - change directory";
   zs "    here              - print working directory";
   zs "    up                - go to parent directory";
   zs "    home              - go to home (root)";
   zs "";
   zs "  Window Management:";
   zs "    open window <app> - open application window";
   zs "    close window <id> - close window";
   zs "    move window <id> <x> <y> - move window";
   zs "    focus window <id> - focus window";
   zs "    list windows     - show all open windows";
   zs "";
   zs "  System Commands:";
   zs "    show processes    - list running processes";
   zs "    show memory       - display memory usage";
   zs "    system information - detailed system status";
   zs "    current date time - show date and time";
   zs "    version          - show OS version";
   zs "";
   zs "  Shell Utilities:";
   zs "    echo <text>       - display text";
   zs "    stdio             - redirect fd 1 (stdout) into a pipe via dup2";
   zs "    vcat <path>       - read a file through the fd layer (incl. /proc, /sys, /dev)";
   zs "    chmod <file>      - show read-only status";
   zs "    chmod -w <file>   - protect file (read-only)";
   zs "    chmod +w <file>   - unprotect file (writable)";
   zs "    <cmd> > <file>    - redirect command output to a file";
   zs "    <cmd> >> <file>   - append command output to a file";
   zs "    clear screen      - clear terminal";
   zs "    help              - show this help";
   zs "";
   zs "  Aliases & Short Commands:";
   zs "    ls                - list files";
   zs "    cat <name>        - read file (alias for read)";
   zs "    mkdir <name>      - make directory (alias)";
   zs "    touch <name>      - create empty file (alias)";
   zs "    rm <name>         - delete file (alias)";
   zs "    cp <src> <dst>    - copy file (alias)";
   zs "    mv <src> <dst>    - move file (alias)";
   zs "    cd <path>         - change directory (alias)";
   zs "    pwd               - print working directory (alias)";
   zs "    edit <name>       - simple text editor";
   zs " ping <addr> - ping an address";
   zs "    uptime            - show system uptime";
   zs "    mount             - show mounted filesystems";
   zs "    df                - disk free (filesystem usage)";
   zs "    ps                - list processes (alias for show processes)";
   zs "    parts             - list GPT partitions";
   zs "    ns <path>         - describe a namespace resource (0/...)";
   zs "    Paths accept the Plan0 namespace: <vol> = 0/hsh/partitions/1";
   zs "    e.g. cat 0/user/notes.txt, write hi to 0/hsh/partitions/1/a.txt";
   zs "    reboot            - reboot the system";
   zs "    shutdown          - shutdown the system";
   zs "    whoami            - show current user";
   zs "    uname             - show system name";
   zs "    env               - show environment variables";
   zs "    history           - show command history";
   zs "    clear             - clear the screen";
   zs ""].
Definition show_help : SM unit := for_all help_text say_nl.

Definition cmd_file_info (name : cstring) : SM unit := with_path name (zs "  Usage: info <filename>") (fun path =>
  st ← on_fs (fs_stat path);
  match st with
  | None => say_nl (zs "  Error: File not found")
  | Some st =>
      say_nl [];;
      say (zs "  Name:   ");; say_nl name;;
      say (zs "  Size:   ");; say_dec (le_field st fn_real_size);; say_nl (zs " bytes");;
      say (zs "  Type:   ");;
      d ← on_fs (fs_is_directory path);
      say_nl (if d =? 1 then zs "Directory" else zs "File");;
      say (zs "  Access: ");;
      ro ← on_fs (fs_is_readonly path);
      say_nl (if ro =? 1 then zs "read-only" else zs "read-write");;
      say (zs "  Parent: ");; say_dec (le_field st fn_parent_mft);; say_nl []
  end).

Definition cmd_history : SM unit :=
  say_nl [];;
  h ← gets sh_history;
  for_all (history_lines h) (fun x => say (zs "  ");; say_dec x.1;; say (zs "  ");; say_nl x.2);;
  say_nl [].

(** ** Keys *)

(** Interrupts are handled. *)
Definition wait : SM unit := fun s =>
  match sh_events s with
  | [] => None
  | ev :: rest =>
      let e := sh_env s in
      let e := SysEnv (entries e) (hostname_buf e) (irq_counts e) (vfile_scratch e) (u64 (system_ticks e + ev_ticks ev))
                      (physmem e) (procs e) (ports e) (mounted e) in
      Some ((), put_env e (set_input (ev_keys ev (sh_in s)) rest s))
  end.
(** One turn of a polling loop: the key, if there is one. *)
Definition poll : SM (option Z) :=
  wait;;
  i ← gets sh_in;
  if keyboard_has_key i then
    '(c, i) ← lift (keyboard_getc fuel i);
    putm (fun s => set_input i (sh_events s) s);;
    mret (Some c)
  else mret None.

Fixpoint edit_loop (turns : nat) (file : Z) (line_buf : list Z) : SM unit :=
  match turns with
  | O => stuck
  | S n =>
      key ← poll;
      match key with
      | None => edit_loop n file line_buf
      | Some c =>
          if c =? 10 then
            if bool_decide (line_buf = [ch "."]) then mret ()
            else on_fs (fs_write fuel stack file (line_buf ++ [10]));; say (zs "  ");; edit_loop n file []
          else if (c =? 8) && (0 <? len line_buf) then
            say rub_out;; edit_loop n file (take (length line_buf - 1) line_buf)
          else if (32 <=? c) && (c <? 128) && (len line_buf <? 254) then putc c;; edit_loop n file (line_buf ++ [c])
          else edit_loop n file line_buf
      end
  end.
Definition cmd_edit (filename : cstring) : SM unit := with_path filename (zs "  Usage: edit <filename>") (fun path =>
  file ← on_fs (fs_open fuel path 1);
  if file =? 0 then say_nl (zs "  Error: Could not open file for editing")
  else
    say (zs "  Editing: ");; say filename;; say_nl (zs " (type a single '.' on a line to finish)");;
    say_nl (zs "  ");;
    n ← gets (fun s => length (sh_events s));
    edit_loop (S n) file [];;
    on_fs (fs_close fuel file);;
    say_nl [];;
    say_nl (zs "  Done.")).

(** ** Power, network, mounts, protection *)

Definition on_ports (f : D -> D) : SM unit := on_term (fun t => Some (set_vdev (f (vdev t)) t)).
Definition cmd_reboot : SM unit := say_nl (zs "  Rebooting...");; on_ports (outb 100 254);; stuck.
Definition cmd_shutdown : SM unit := say_nl (zs "  Shutting down...");; on_ports (fun d => outw 45060 8192 (outw 1540 8192 d));; stuck.

Definition now_ms : SM Z := gets (fun s => timer_get_ms (system_ticks (sh_env s))).
(** [false] when two seconds passed without a reply. *)
Fixpoint ping_loop (turns : nat) (start : Z) : SM bool :=
  match turns with
  | O => stuck
  | S n =>
      now ← now_ms;
      if u64 (now - start) <? 2000 then
        nic ← gets sh_nic;
        '(pkt_len, out, nic) ← lift (net_recv_packet fuel false 256 nic);
        putm (fun s => set_net nic (sh_ping s) s);;
        replied ← (if 0 <? pkt_len then
                     p ← gets sh_ping;
                     p ← lift (net_handle_packet (filled out stack) (u16 pkt_len) p);
                     putm (fun s => set_net (sh_nic s) p s);;
                     mret (negb (icmp_ping_has_reply p =? 0))
                   else mret false);
        if (replied : bool) then mret true else wait;; ping_loop n start
      else mret false
  end.
Definition cmd_ping (addr : cstring) : SM unit :=
  match addr with
  | [] => say_nl (zs " Usage: ping <ip-address>")
  | _ =>
      match ping_address addr with
      | None => say_nl (zs " Usage: ping <ip-address>  e.g. ping 192.168.1.1")
      | Some dst =>
          say (zs " Pinging ");; say addr;; say_nl (zs "...");;
          putm (fun s => set_net (sh_nic s) (icmp_ping_start 1) s);;
          nic ← gets sh_nic;
          '(r, nic) ← lift (icmp_send_echo_request fuel dst 43981 1 nic);
          putm (fun s => set_net nic (sh_ping s) s);;
          if r <? 0 then say_nl (zs " Failed to send echo request")
          else
            start ← now_ms;
            n ← gets (fun s => length (sh_events s));
            replied ← ping_loop (S n) (u32 start);
            if (replied : bool) then say (zs " Reply from ");; say addr;; say_nl (zs ": time ok")
            else say (zs " No reply from ");; say addr;; say_nl (zs " (timeout)")
      end
  end.

Definition cmd_clear : SM unit := terminal_clear.
Definition cmd_mount : SM unit :=
  '(buf, size) ← vfile_read_into (zs "/proc/mounts") 512;
  if 0 <? size then text ← terminated 512 size buf; say_nl [];; say_nl text
  else say_nl (zs "  Error: could not read mount table").
Definition df_row (name : cstring) (total used free : Z) : SM unit :=
  say name;; say_dec (total / 1024);; say (zs " KB    ");; say_dec (used / 1024);; say (zs " KB    ");;
  say_dec (free / 1024);; say (zs " KB    /" ++ [10]).
Definition cmd_df : SM unit :=
  say_nl [];;
  say_nl (zs "  Filesystem      Size      Used      Avail     Mount");;
  say_nl (zs "  --------------  --------  --------  --------  -------");;
  f ← gets sh_fs;
  (match fs_get_stats f with
   | Some st =>
       df_row (zs "  fs              ") (fst_total_bytes st) (fst_used_bytes st) (fst_free_bytes st);;
       say (zs "  ");; say_dec (fst_file_count st);; say (zs " files, ");; say_dec (fst_dir_count st);; say (zs " directories" ++ [10])
   | None =>
       v ← gets sh_vfs;
       let rs := ramfs_get_stats (rfs v) in
       df_row (zs "  ramfs           ") (total_capacity rs) (used_bytes rs) (free_bytes rs)
   end);;
  say (zs "  vfile           0 KB      0 KB      0 KB      /proc,/sys,/dev" ++ [10]);;
  say_nl [].

Definition cmd_chmod (arg1 arg2 : cstring) : SM unit :=
  let usage := zs "  Usage: chmod <file> | chmod +w <file> | chmod -w <file>" in
  let request := match arg2 with
                 | [] => Some (-1, arg1)
                 | _ => if k_strcmp arg1 (zs "+w") =? 0 then Some (0, arg2)
                        else if k_strcmp arg1 (zs "-w") =? 0 then Some (1, arg2)
                        else None
                 end in
  match request with
  | None => say_nl usage
  | Some (set_ro, target) => with_path target usage (fun path =>
      r ← (if 0 <=? set_ro then on_fs (fs_set_readonly path set_ro) else mret 0);
      if r <? 0 then say_nl (zs "  Error: file not found")
      else
        ro ← on_fs (fs_is_readonly path);
        if ro <? 0 then say_nl (zs "  Error: file not found")
        else say (zs "  ");; say target;; say (if ro =? 0 then zs ": writable" else zs ": read-only");; say_nl [])
  end.

(** ** Dispatch *)

Definition ns_arg_error (rc : Z) : SM unit :=
  say_nl (if rc =? NS_FS_EPARSE then zs "  Error: invalid namespace path syntax"
          else if rc =? NS_FS_EUNKNOWN then zs "  Error: unknown namespace resource"
          else if rc =? NS_FS_EVOLUME then zs "  Error: storage volume not mounted"
          else zs "  Error: resource has no filesystem").
(** One argument: the memory with its translation; [false] after an error. *)
Definition translate_arg (mem : list Z) (p cap : Z) : SM (bool * list Z) :=
  pt ← gets sh_part;
  f ← gets sh_fs;
  let '(rc, tbuf) := ns_to_fs_path (str_at mem p) (if cap <? 256 then u64 cap else 256) pt (fvol f) in
  if (rc =? NS_FS_OK) && (0 <? cap) then mem ← lift (strcpy_at mem p tbuf); mret (true, mem)
  else if rc <? 0 then ns_arg_error rc;; mret (false, mem)
  else mret (true, mem).

Definition ui_cmd (f : ui D (sysenv D M) -> option (command_result * ui D (sysenv D M))) : SM unit := on_ui f;; mret ().
Definition move_window (arg : cstring) : SM unit :=
  let x_str := next_word arg in
  let y_str := next_word x_str in
  match first_word arg, first_word x_str, y_str with
  | (_ :: _) as win_id, (_ :: _) as xs, _ :: _ => ui_cmd (cmd_move_window fuel win_id (read_int 0 xs) (read_int 0 y_str))
  | _, _, _ => say_nl (zs "  Usage: move window <id> <x> <y>")
  end.

(** A command named by its first word. *)
Definition run_word (cmd arg1 arg2 : cstring) : SM unit :=
  let is_cmd := cmd_equals cmd in
  if is_cmd "list" then cmd_list arg1
  else if is_cmd "create" then cmd_create_file arg1
  else if is_cmd "delete" then cmd_delete arg1
  else if is_cmd "copy" then cmd_copy arg1 arg2
  else if is_cmd "move" then cmd_move arg1 arg2
  else if is_cmd "rename" then cmd_rename arg1 arg2
  else if is_cmd "write" then cmd_write_file arg1 arg2
  else if is_cmd "append" then cmd_append arg1 arg2
  else if is_cmd "read" then cmd_read_file arg1
  else if is_cmd "grep" then cmd_grep arg1 arg2
  else if is_cmd "wc" then cmd_wc arg1
  else if is_cmd "find" then cmd_find arg1
  else if is_cmd "here" then cmd_pwd
  else if is_cmd "up" then cmd_cd_parent
  else if is_cmd "home" then cmd_cd_home
  else if is_cmd "echo" then cmd_echo arg1
  else if is_cmd "version" then cmd_version
  else if is_cmd "ls" then cmd_list arg1
  else if is_cmd "cat" then cmd_read_file arg1
  else if is_cmd "mkdir" then cmd_mkdir arg1
  else if is_cmd "touch" then cmd_create_file arg1
  else if is_cmd "rm" then cmd_delete arg1
  else if is_cmd "cp" then cmd_copy arg1 arg2
  else if is_cmd "mv" then cmd_move arg1 arg2
  else if is_cmd "cd" then cmd_chdir arg1
  else if is_cmd "pwd" then cmd_pwd
  else if is_cmd "edit" then cmd_edit arg1
  else if is_cmd "ping" then cmd_ping arg1
  else if is_cmd "uptime" then cmd_uptime
  else if is_cmd "reboot" then cmd_reboot
  else if is_cmd "shutdown" then cmd_shutdown
  else if is_cmd "whoami" then cmd_whoami
  else if is_cmd "uname" then cmd_uname
  else if is_cmd "env" then cmd_env
  else if is_cmd "history" then cmd_history
  else if is_cmd "mount" then cmd_mount
  else if is_cmd "df" then cmd_df
  else if is_cmd "ps" then cmd_ps
  else if is_cmd "parts" then cmd_parts
  else if is_cmd "ns" then cmd_ns arg1
  else if is_cmd "pipe" then cmd_pipe
  else if is_cmd "dup" then cmd_dup
  else if is_cmd "stdio" then cmd_stdio
  else if is_cmd "vcat" then cmd_vcat arg1
  else if is_cmd "chmod" then cmd_chmod arg1 arg2
  else if is_cmd "clear" then cmd_clear
  else if is_cmd "help" then show_help
  else
    say (zs "  Unknown command: " ++ [34]);; say cmd;; say_nl [34];;
    say_nl (zs "  Type 'help' for available commands.").

(** The command for a triple of words. *)
Definition run_command (cmd arg1 arg2 : cstring) : SM unit :=
  let is_cmd := cmd_equals cmd in
  let is_arg1 w := k_strcmp arg1 (zs w) =? 0 in
  if is_cmd "open" && (is_arg1 "window" || is_arg1 "application") then ui_cmd (cmd_open_window fuel arg2)
  else if is_cmd "close" && is_arg1 "window" then ui_cmd (cmd_close_window fuel arg2)
  else if is_cmd "move" && is_arg1 "window" then move_window arg2
  else if is_cmd "focus" && is_arg1 "window" then ui_cmd (cmd_focus_window fuel arg2)
  else if (is_cmd "list" || is_cmd "show") && is_arg1 "windows" then ui_cmd (cmd_list_windows fuel)
  else if is_cmd "show" && is_arg1 "processes" then cmd_ps
  else if is_cmd "show" && is_arg1 "partitions" then cmd_parts
  else if is_cmd "show" && is_arg1 "memory" then cmd_show_memory
  else if is_cmd "system" && is_arg1 "information" then cmd_system_info
  else if is_cmd "current" && is_arg1 "date" && (k_strcmp arg2 (zs "time") =? 0) then cmd_date
  else if is_cmd "date" && is_arg1 "time" then cmd_date
  else if is_cmd "make" && is_arg1 "directory" then cmd_mkdir arg2
  else if is_cmd "information" && is_arg1 "about" then cmd_file_info arg2
  else if is_cmd "info" && (0 <? len arg1) && (len arg2 =? 0) then cmd_file_info arg1
  else if is_cmd "clear" && is_arg1 "screen" then terminal_clear
  else if is_cmd "go" && is_arg1 "to" then cmd_chdir arg2
  else run_word cmd arg1 arg2.

(** The three words are at [cmd], [arg1] and [arg2] in [mem]; the result is
    the memory afterwards. *)
Definition dispatch (mem : list Z) (cmd arg1 arg2 cap1 cap2 : Z) : SM (list Z) :=
  '(ready, mem) ← (if cmd_equals (str_at mem cmd) "ns" then mret (true, mem)
                   else
                     '(ok, mem) ← translate_arg mem arg1 cap1;
                     if (ok : bool) then translate_arg mem arg2 cap2 else mret (false, mem));
  if (ready : bool) then run_command (str_at mem cmd) (str_at mem arg1) (str_at mem arg2);; mret mem else mret mem.

(** ** Command lines *)

(** [k_trim] on the string at [p]: the memory without the spaces behind it
    and the address of its first other character. *)
Definition trim_at (mem : list Z) (p : Z) : list Z * Z :=
  let t := str_at mem p in
  let q := p + (len t - len (skip_spaces t)) in
  let kept := k_trim t in
  (take (Z.to_nat q + length kept) mem ++ replicate (length (skip_spaces t) - length kept) 0 ++
     drop (Z.to_nat q + length (skip_spaces t)) mem, q).

(** The position of the first ['>'] that starts a word. *)
Fixpoint find_redir (prev : option Z) (t : cstring) : option Z :=
  match t with
  | [] => None
  | c :: t' =>
      if (c =? ch ">") && (match prev with None => true | Some x => x =? 32 end) then Some 0
      else i ← find_redir (Some c) t'; Some (i + 1)
  end.
Fixpoint skip_gt (t : cstring) : Z := match t with c :: t' => if c =? ch ">" then 1 + skip_gt t' else 0 | [] => 0 end.

(** The next word: its start is behind the spaces that end this one. *)
Definition next_arg (mem : list Z) (p : Z) : list Z * Z :=
  let t := str_at mem p in
  let q := p + (len t - len (past_word t)) in
  match past_word t with
  | [] => (mem, q)
  | _ => (arr_set mem q 0, q + (len (past_word t) - len (past_blanks (past_word t))))
  end.

Definition redirect_output (append : bool) (file_part : cstring) (cap : list Z) : SM unit :=
  match resolve_path file_part with
  | None => say_nl (zs "  Error: path too long")
  | Some path =>
      let report written := say (zs "  Redirected ");; say_dec written;; say (zs " bytes to ");; say_nl file_part in
      e ← gets sh_env;
      if vfile_is_virtual path e then
        if negb (vfile_is_writable path e) then say_nl (zs "  Error: virtual target is read-only")
        else written ← on_vfs (fun v => Some (vfile_write_to path cap v)); report written
      else
        file ← on_fs (fs_open fuel path (if append then 2 else 1));
        if file =? 0 then say_nl (zs "  Error: could not open target for writing")
        else
          written ← on_fs (fs_write fuel stack file cap);
          on_fs (fs_close fuel file);;
          report written
  end.
(** What was captured since [terminal_capture_begin]. *)
Definition capture_end : SM (list Z) := fun s =>
  Some (match capture (sh_term s) with Some (_, t) => t | None => [] end, put_term (terminal_capture_end (sh_term s)).2 s).

Fixpoint process_command (depth : nat) (mem : list Z) (cmd cap : Z) : SM (list Z) :=
  match depth with
  | O => stuck
  | S depth' =>
      let '(mem, cmd) := trim_at mem cmd in
      let t := str_at mem cmd in
      if len t =? 0 then mret mem
      else match find_redir None t with
      | Some i =>
          let redir := cmd + i in
          let append := arr_get 0 mem (redir + 1) =? ch ">" in
          let mem := arr_set mem redir 0 in
          let file_part := redir + 1 + Z.b2z append in
          let file_part := file_part + skip_gt (str_at mem file_part) in
          let '(mem, file_part) := trim_at mem file_part in
          if len (str_at mem file_part) =? 0 then say_nl (zs "  Error: redirection needs a target file");; mret mem
          else
            on_term (fun t => Some (terminal_capture_begin 1 8192 t));;
            mem ← process_command depth' mem cmd 8;
            captured ← capture_end;
            redirect_output append (str_at mem file_part) captured;;
            mret mem
      | None =>
          let '(r, nl_cmd, nl_arg1, nl_arg2, rest) := nl_parse (drop (Z.to_nat cmd) mem) [] [] [] in
          let mem := take (Z.to_nat cmd) mem ++ rest in
          if r =? 0 then dispatch (pad 32 nl_cmd ++ pad 256 nl_arg1 ++ pad 256 nl_arg2) 0 32 288 256 256;; mret mem
          else
            let '(mem, arg1) := next_arg mem cmd in
            let '(mem, arg2) := next_arg mem arg1 in
            dispatch mem cmd arg1 arg2 (cap - (arg1 - cmd)) (cap - (arg2 - cmd))
      end
  end.

(** ** The loop *)

Fixpoint read_line (turns : nat) (e : editor) : SM (list Z) :=
  match turns with
  | O => stuck
  | S n =>
      key ← poll;
      match key with
      | None => read_line n e
      | Some c =>
          if c =? 10 then putc 10;; mret (line e)
          else h ← gets sh_history; let '(out, e) := edit_key h c e in say out;; read_line n e
      end
  end.
Definition shell_turn : SM unit :=
  say (zs "> ");;
  h ← gets sh_history;
  n ← gets (fun s => length (sh_events s));
  text ← read_line (S n) (fresh h);
  putm (fun s => set_hist (history_add text (sh_history s)) s);;
  process_command 2 (pad MAX_CMD_LEN text) 0 MAX_CMD_LEN;;
  mret ().
Fixpoint shell_turns (n : nat) : SM unit := match n with O => mret () | S k => shell_turn;; shell_turns k end.
(** The first [n] turns of the loop. *)
Definition shell_run (n : nat) : SM unit :=
  on_ui (fun u => Some ((), ui_command_init u));;
  terminal_clear;;
  say_nl PLAN0_FULL_NAME;;
  say_nl (zs "Filesystem ready.");;
  say_nl (zs "Unified UI system initialized.");;
  say_nl (zs "Type 'help' for commands." ++ [10]);;
  shell_turns n.
End shell.
