(* ===== verification/ShellProps.v ===== *)
(** * What the shell's commands do

    The effect of a command is given by the text it sends to the console
    ([vga_write]) and by the filesystem it leaves. *)

From S2P Require Import Prelude Pmm KHeap Scheduler KString Bytes Disk Part Ns Ramfs Vfs Clock Mft Fs FsTree FsSpec FsData FsOpen Text Pci Timer Fds Vfile.
From S2P Require Import FsVfs Net Input StateGraph NlParser Console Intent Ui ShellText Shell.

Section props.
Context {D M U : Type} `{PortIO D} `{PortIO32 D} `{MountedOps M} `{FsMount D M} `{UsbOps U}.
Context (fuel : nat) (cpuid : Z -> Z * Z * Z * Z) (stack : list Z) (junk : Z -> cstring).
Context (clock : forall ready (d : D), is_Some (get_time fuel ready d)).
Abbreviation sh := (shell D M U).
Implicit Types (s : sh) (t : list Z).

(** ** Running programs *)

Lemma sbind_run {A B} (c : ShM D M U A) (k : A -> ShM D M U B) s a s' : c s = Some (a, s') -> (c ≫= k) s = k a s'.
Proof. intros E. unfold mbind, shm_bind. by rewrite E. Qed.
Lemma sbind_gets {A B} (f : sh -> A) (k : A -> ShM D M U B) s : (Shell.gets f ≫= k) s = k (f s) s.
Proof. done. Qed.
Lemma vga_write_app t1 t2 (v : vga D) : vga_write fuel (t1 ++ t2) v = vga_write fuel t1 v ≫= vga_write fuel t2.
Proof. revert v. induction t1 as [|c t1 IH]; intros v; [done|]. cbn [app vga_write]. destruct (vga_putchar fuel c v); [apply IH|done]. Qed.
Lemma vga_write_nl t (v : vga D) : vga_writestring_nl fuel t v = vga_write fuel (t ++ [10]) v.
Proof.
  rewrite vga_write_app. unfold vga_writestring_nl, vga_writestring. destruct (vga_write fuel t v) as [v'|]; [|done]. cbn [mbind option_bind vga_write].
  by destruct (vga_putchar fuel 10 v').
Qed.

(** [s'] is [s] after [t] was sent to the console and the filesystem became
    [f]; the virtual files are the same. *)
Record after s t (f : fs D) (s' : sh) : Prop := {
  af_term : vga_write fuel t (sh_term s) = Some (sh_term s');
  af_fs : sh_fs s' = f;
  af_entries : entries (sh_env s') = entries (sh_env s);
  af_history : sh_history s' = sh_history s
}.
Lemma after_refl s : after s [] (sh_fs s) s.
Proof. done. Qed.
Lemma after_trans s t f s1 t' f' s2 : after s t f s1 -> after s1 t' f' s2 -> after s (t ++ t') f' s2.
Proof. intros [A1 A2 A3 A4] [B1 B2 B3 B4]. split; [rewrite vga_write_app, A1; exact B1|done|congruence|congruence]. Qed.

(** The rest of a text that is known to be accepted. *)
Lemma write_split t t' (v v' : vga D) : vga_write fuel (t ++ t') v = Some v' -> exists w, vga_write fuel t v = Some w /\ vga_write fuel t' w = Some v'.
Proof. rewrite vga_write_app. intros E. by apply bind_Some in E. Qed.

Lemma say_after t s v : vga_write fuel t (sh_term s) = Some v -> exists s', say fuel t s = Some ((), s') /\ after s t (sh_fs s) s' /\ sh_term s' = v.
Proof.
  intros E. exists (put_term v s). unfold say, Shell.on_term, vga_writestring. rewrite E. cbn [mbind option_bind]. done.
Qed.
Lemma say_nl_after t s v : vga_write fuel (t ++ [10]) (sh_term s) = Some v -> exists s', say_nl fuel t s = Some ((), s') /\ after s (t ++ [10]) (sh_fs s) s' /\ sh_term s' = v.
Proof.
  intros E. exists (put_term v s). unfold say_nl, Shell.on_term. rewrite vga_write_nl, E. cbn [mbind option_bind]. done.
Qed.
Lemma say_dec_after n s v : vga_write fuel (put_dec (u64 n)) (sh_term s) = Some v ->
  exists s', say_dec fuel n s = Some ((), s') /\ after s (put_dec (u64 n)) (sh_fs s) s' /\ sh_term s' = v.
Proof.
  intros E. exists (put_term v s). unfold say_dec, Shell.on_term, vga_put_dec, vga_writestring. rewrite E. cbn [mbind option_bind]. done.
Qed.
Lemma on_fs_after {A} (c : FsM D A) s x f : c (sh_fs s) = Some (x, f) -> exists s', Shell.on_fs c s = Some (x, s') /\ after s [] f s'.
Proof.
  intros E. exists (put_fs f s). unfold Shell.on_fs. rewrite E. cbn [mbind option_bind]. split; [done|]. split; [done| |done|done].
  unfold sh_fs, put_fs. cbn. apply mount_fs_set.
Qed.
(** A path that is not virtual. *)
Definition real_path (path : cstring) s : Prop := vfile_is_virtual path (sh_env s) = false /\ is_self_fd path = false.
Lemma not_virtual_no_entry path (e : sysenv D M) : vfile_is_virtual path e = false -> find_entry path e = None.
Proof.
  unfold vfile_is_virtual, find_entry. induction (entries e) as [|x l IH]; [done|]. cbn [existsb find_first]. intros Hb.
  apply orb_false_iff in Hb as [Hx Hl]. rewrite Hx, andb_false_r. by apply IH.
Qed.
Lemma vfile_read_real path max s : real_path path s ->
  exists s', vfile_read_into fuel cpuid path max s = Some (([], -1), s') /\ after s [] (sh_fs s) s'.
Proof.
  intros [Hf%not_virtual_no_entry Hs]. unfold vfile_read_into, on_vfs.
  assert (E : vfile_generate fuel cpuid (Some (@vfs_read _ (backend_at fuel cpuid 1))) max path (set_console [] (sh_vfs s)) = Some (Failed, set_console [] (sh_vfs s))).
  { unfold vfile_generate. change (env (set_console [] (sh_vfs s))) with (sh_env s). by rewrite Hf, Hs. }
  rewrite E. cbn [mbind option_bind deliver]. change (vga_write fuel (console (set_console [] (sh_vfs s))) (sh_term s)) with (Some (sh_term s)).
  cbn [mbind option_bind]. eexists. split; [done|]. done.
Qed.
Lemma real_path_same path s s' : entries (sh_env s') = entries (sh_env s) -> real_path path s -> real_path path s'.
Proof. unfold real_path, vfile_is_virtual. by intros ->. Qed.

(** ** Sequences of messages *)

(** [c] sends [t] to the console and changes nothing else. *)
Definition sends (c : ShM D M U unit) t : Prop := forall s v, vga_write fuel t (sh_term s) = Some v ->
  exists s', c s = Some ((), s') /\ after s t (sh_fs s) s' /\ sh_term s' = v.
Lemma sends_then c k t t' : sends c t -> sends k t' -> sends (c ≫= fun _ => k) (t ++ t').
Proof.
  intros Hc Hk s v Hv. apply write_split in Hv as (w & Hw & Hv). destruct (Hc s w Hw) as (s1 & R1 & A1 & T1). rewrite <- T1 in Hv.
  destruct (Hk s1 v Hv) as (s2 & R2 & A2 & T2). exists s2. rewrite (sbind_run _ _ _ _ _ R1). split; [done|]. split; [|done].
  rewrite (af_fs _ _ _ _ A1) in A2. by eapply after_trans.
Qed.
Lemma sends_say t : sends (say fuel t) t.
Proof. intros s v. apply say_after. Qed.
Lemma sends_nl t : sends (say_nl fuel t) (t ++ [10]).
Proof. intros s v. apply say_nl_after. Qed.
Lemma sends_dec n : 0 <= n < 2 ^ 64 -> sends (say_dec fuel n) (put_dec n).
Proof. intros Hn s v Hv. pose proof (say_dec_after n s v) as E. rewrite u64_id in E by done. by apply E. Qed.
Lemma sends_all {A} (body : A -> ShM D M U unit) (text : A -> list Z) l : Forall (fun x => sends (body x) (text x)) l -> sends (for_all l body) (concat (text <$> l)).
Proof.
  induction 1 as [|x l Hx Hl IH]; cbn [for_all fmap list_fmap concat]; [|by apply sends_then].
  intros s v [= <-]. exists s. split; [done|]. split; [apply after_refl|done].
Qed.

(** ** Reading a file *)

Lemma cstr_whole t : is_cstr t -> cstr t = t.
Proof. induction 1 as [|c l Hc Hl IH]; cbn [cstr]; [done|]. unfold NUL. destruct (Z.eqb_spec c 0); [lia|]. by rewrite IH. Qed.

Lemma read_chunks_streams i c mode : is_cstr c -> forall n f off s v, fs_ok (sh_fs s) -> open_file (sh_fs s) f i off c mode ->
  (length c < n + Z.to_nat off)%nat -> vga_write fuel (drop (Z.to_nat off) c) (sh_term s) = Some v ->
  exists s', read_chunks fuel stack n f off s = Some ((), s') /\ after s (drop (Z.to_nat off) c) (sh_fs s') s' /\ sh_term s' = v /\
    fs_ok (sh_fs s') /\ open_file (sh_fs s') f i (len c) c mode /\ tree (sh_fs s') = tree (sh_fs s) /\ step none (sh_fs s) (sh_fs s').
Proof.
  intros Hc. induction n as [|n IH]; intros f off s v Hok Hof Hn Hv; [pose proof (of_bounds _ _ _ _ _ _ Hof); lia|].
  pose proof (of_bounds _ _ _ _ _ _ Hof) as Hb. pose proof (holds_length _ _ _ (of_holds _ _ _ _ _ _ Hof)) as Hl.
  cbn [read_chunks]. unfold file_size. rewrite sbind_gets, (of_size _ _ _ _ _ _ Hof).
  destruct (Z.ltb_spec off (len c)) as [Hlt|Hge].
  2: { assert (off = len c) as -> by lia. rewrite drop_ge in Hv |- * by lia. exists s. cbn [vga_write] in Hv. injection Hv as <-.
       split; [done|]. split; [apply after_refl|]. split; [done|]. split; [done|]. split; [done|]. split; [done|apply step_refl]. }
  rewrite u64_id by (unfold is_u64; lia). set (k := if 255 <? len c - off then 255 else len c - off).
  assert (Hk : 0 < k <= 255 /\ off + k <= len c /\ k < 2 ^ 63) by (unfold k; destruct (Z.ltb_spec 255 (len c - off)); lia).
  destruct (fs_read_runs stack (sh_fs s) f i off c mode k Hok Hof ltac:(lia)) as (f1 & E1 & Hok1 & [Ht1 Hst1] & Hof1).
  set (bytes := take (Z.to_nat k) (drop (Z.to_nat off) c)) in *.
  assert (Hlen : len bytes = k) by (unfold bytes; rewrite length_take, length_drop; lia).
  destruct (on_fs_after (fs_read stack f k) s bytes f1 E1) as (s1 & R1 & A1). rewrite (sbind_run _ _ _ _ _ R1).
  rewrite Hlen. destruct (Z.eqb_spec k 0); [lia|].
  assert (Hcs : cstr bytes = bytes) by (apply cstr_whole; unfold bytes; apply Forall_take, Forall_drop, Hc).
  assert (Hsplit : drop (Z.to_nat off) c = bytes ++ drop (Z.to_nat (off + k)) c).
  { unfold bytes. rewrite <- (take_drop (Z.to_nat k) (drop (Z.to_nat off) c)) at 1. rewrite drop_drop. do 2 f_equal. lia. }
  rewrite Hsplit in Hv. apply write_split in Hv as (w & Hw & Hv). rewrite Hcs.
  destruct A1 as [T1 F1 N1 GF1]. cbn [vga_write] in T1. assert (Et1 : sh_term s1 = sh_term s) by congruence. rewrite <- Et1 in Hw.
  destruct (say_after bytes s1 w Hw) as (s2 & R2 & A2 & T2). rewrite (sbind_run _ _ _ _ _ R2).
  rewrite u64_id by (unfold is_u64; lia). destruct A2 as [T2' F2 N2 GF2]. rewrite F1 in F2. rewrite <- T2 in Hv.
  replace (Z.min (off + k) (len c)) with (off + k) in Hof1 by lia. rewrite <- F2 in Hok1, Hof1.
  destruct (IH f (off + k) s2 v Hok1 Hof1 ltac:(lia) Hv) as (s3 & R3 & A3 & T3 & Hok3 & Hof3 & Ht3 & Hst3).
  exists s3. split; [exact R3|]. split.
  { rewrite Hsplit. eapply after_trans; [|exact A3]. split; [rewrite <- Et1; exact T2'|exact F2|congruence|congruence]. }
  split; [done|]. split; [done|]. split; [done|]. rewrite F2 in Ht3, Hst3. split; [congruence|]. eapply step_trans; [exact Hok|exact Hst1|exact Hst3].
Qed.

(** The path names the file [i], which holds [c]; there is room in the heap,
    whose blocks are [bs], for a handle. *)
Record file_at (path : cstring) (i : Z) (c : list Z) (bs : list kheap_block) (e : Z) s : Prop := {
  fa_real : real_path path s;
  fa_ok : fs_ok (sh_fs s);
  fa_find : t_find (tree (sh_fs s)) path = Some i;
  fa_holds : file_holds (sh_fs s) i c;
  fa_heap : fs_heap (sh_fs s) bs e;
  fa_room : room_for_handle fuel (sh_fs s) bs
}.
Lemma file_at_same path i c bs e s s' : sh_fs s' = sh_fs s -> entries (sh_env s') = entries (sh_env s) -> file_at path i c bs e s -> file_at path i c bs e s'.
Proof. intros F N []. split; rewrite ?F; try done. by apply (real_path_same path s). Qed.
(** The file is open: [f] is a live allocation of the heap. *)
Record opened (f got : Z) (bs : list kheap_block) (e i off : Z) (c : list Z) (mode : Z) s : Prop := {
  op_ok : fs_ok (sh_fs s);
  op_open : open_file (sh_fs s) f i off c mode;
  op_heap : fs_heap (sh_fs s) bs e;
  op_alloc : (f, got) ∈ allocs (heap_first (fheap (sh_fs s))) bs;
  op_fuel : (length bs < fuel)%nat
}.
Lemma opened_same f got bs e i off c mode s s' : sh_fs s' = sh_fs s -> opened f got bs e i off c mode s -> opened f got bs e i off c mode s'.
Proof. intros E []. split; rewrite ?E; done. Qed.
Lemma opened_step hard f got bs e i off off' c c' mode s s' : opened f got bs e i off c mode s -> step hard (sh_fs s) (sh_fs s') ->
  fs_ok (sh_fs s') -> open_file (sh_fs s') f i off' c' mode -> opened f got bs e i off' c' mode s'.
Proof.
  intros [Hok Hof Hh Ha Hf] Hst Hok' Hof'. split; [done|done|exact (step_fs_heap _ _ _ _ _ Hok Hst Hh)| |done]. by rewrite (st_heap _ _ _ Hst).
Qed.
Lemma open_after path i c mode bs e s : file_at path i c bs e s -> is_u8 mode ->
  (mode <> 0 -> forall nd, arr_get None (tree (sh_fs s)) i = Some nd -> nd_ro nd = false) ->
  exists f s' got bs', Shell.on_fs (fs_open fuel path mode) s = Some (f, s') /\ after s [] (sh_fs s') s' /\ f <> 0 /\
    tree (sh_fs s') = tree (sh_fs s) /\ opened f got bs' e i 0 c mode s'.
Proof.
  intros [_ Hok Hfind Hh Hp Hroom] Hm Hro.
  destruct (fs_open_opens fuel (sh_fs s) path i c mode bs e Hok Hfind Hh Hp Hroom Hm Hro) as (f & f1 & bs1 & got & E1 & Hok1 & Ht1 & Hof1 & Hp1 & Hin1 & Hl1).
  destruct (on_fs_after _ s f f1 E1) as (s1 & R1 & A1). pose proof (af_fs _ _ _ _ A1) as F1. pose proof (of_addr _ _ _ _ _ _ Hof1).
  exists f, s1, got, bs1. split; [done|]. rewrite F1. split; [done|]. split; [lia|]. split; [done|]. split; by rewrite ?F1.
Qed.
Lemma close_after f got bs e i off c mode s : opened f got bs e i off c mode s ->
  exists s', Shell.on_fs (fs_close fuel f) s = Some (0, s') /\ after s [] (sh_fs s') s' /\
    fs_ok (sh_fs s') /\ tree (sh_fs s') = tree (sh_fs s) /\ file_holds (sh_fs s') i c.
Proof.
  intros [Hok Hof Hp Hin Hl]. pose proof (of_addr _ _ _ _ _ _ Hof).
  destruct (fs_close_closes fuel (sh_fs s) f got i c bs e Hok Hp Hin ltac:(lia) (open_file_holds _ _ _ _ _ _ Hof) ltac:(lia)) as (f1 & E1 & Hok1 & Ht1 & Hh1).
  destruct (on_fs_after _ s 0 f1 E1) as (s1 & R1 & A1). pose proof (af_fs _ _ _ _ A1) as F1. exists s1. by rewrite F1.
Qed.
Lemma after_quiet s f s' : after s [] f s' -> sh_term s' = sh_term s.
Proof. intros [T _ _ _]. cbn [vga_write] in T. congruence. Qed.

Lemma read_file_runs name path i c bs e s v : name <> [] -> resolve_path name = Some path -> file_at path i c bs e s ->
  c <> [] -> is_cstr c -> (length c < fuel)%nat -> vga_write fuel ([10] ++ c ++ [10]) (sh_term s) = Some v ->
  exists s', cmd_read_file fuel cpuid stack name s = Some ((), s') /\ sh_term s' = v /\
    fs_ok (sh_fs s') /\ tree (sh_fs s') = tree (sh_fs s) /\ file_holds (sh_fs s') i c.
Proof.
  intros Hname Hpath Hat Hne Hc Hfuel Hv. unfold cmd_read_file, with_path. destruct name as [|n0 name']; [done|]. rewrite Hpath.
  destruct (vfile_read_real path VFILE_MAX_CONTENT s (fa_real _ _ _ _ _ _ Hat)) as (s1 & R1 & A1). rewrite (sbind_run _ _ _ _ _ R1).
  cbn [Z.leb Z.compare]. pose proof (af_fs _ _ _ _ A1) as F1.
  assert (Hat1 : file_at path i c bs e s1) by (apply (file_at_same path i c bs e s); [done|apply A1|done]).
  destruct (open_after path i c 0 bs e s1 Hat1) as (f & s2 & got & bs2 & R2 & A2 & Hf & Ht2 & Hop2); [unfold is_u8; lia|done|].
  rewrite (sbind_run _ _ _ _ _ R2). destruct (Z.eqb_spec f 0); [lia|].
  unfold file_size. rewrite sbind_gets, (of_size _ _ _ _ _ _ (op_open _ _ _ _ _ _ _ _ _ Hop2)).
  destruct (Z.eqb_spec (len c) 0) as [Hz|_]; [destruct c; [done|cbn in Hz; lia]|].
  apply write_split in Hv as (w1 & Hw1 & Hv). apply write_split in Hv as (w2 & Hw2 & Hv).
  destruct (say_nl_after [] s2 w1) as (s3 & R3 & A3 & T3); [by rewrite (after_quiet _ _ _ A2), (after_quiet _ _ _ A1)|]. rewrite (sbind_run _ _ _ _ _ R3).
  rewrite <- T3 in Hw2. pose proof (af_fs _ _ _ _ A3) as F3. pose proof (opened_same _ _ _ _ _ _ _ _ _ _ F3 Hop2) as Hop3.
  destruct (read_chunks_streams i c 0 Hc fuel f 0 s3 w2 (op_ok _ _ _ _ _ _ _ _ _ Hop3) (op_open _ _ _ _ _ _ _ _ _ Hop3) ltac:(lia) Hw2) as (s4 & R4 & A4 & T4 & Hok4 & Hof4 & Ht4 & Hst4).
  rewrite (sbind_run _ _ _ _ _ R4).
  destruct (close_after _ _ _ _ _ _ _ _ s4 (opened_step _ _ _ _ _ _ _ _ _ _ _ _ _ Hop3 Hst4 Hok4 Hof4)) as (s5 & R5 & A5 & Hok5 & Ht5 & Hh5).
  rewrite (sbind_run _ _ _ _ _ R5). rewrite <- T4, <- (after_quiet _ _ _ A5) in Hv.
  destruct (say_nl_after [] s5 v Hv) as (s6 & R6 & A6 & T6). exists s6. split; [exact R6|]. split; [done|]. rewrite (af_fs _ _ _ _ A6).
  split; [done|]. split; [|done]. by rewrite Ht5, Ht4, F3, Ht2, F1.
Qed.

(** ** Writing a file *)

Definition written_text (n : Z) (name : cstring) : cstring := zs "  Wrote " ++ put_dec n ++ zs " bytes to " ++ name ++ [10].
Lemma say_written_sends n name : 0 <= n < 2 ^ 64 -> sends (say_written fuel n name) (written_text n name).
Proof. intros Hn. apply sends_then; [apply sends_say|]. apply sends_then; [by apply sends_dec|]. apply sends_then; [apply sends_say|apply sends_nl]. Qed.

(** Opening for writing (mode 1) or appending (mode 2), writing, closing. *)
Lemma store_runs {B} path content mode i c bs e s (k : Z -> ShM D M U B) : file_at path i c bs e s -> mode = 1 \/ mode = 2 ->
  (forall nd, arr_get None (tree (sh_fs s)) i = Some nd -> nd_ro nd = false) -> 0 < len content -> write_position mode 0 c + len content <= 3703 ->
  exists f s1 s', Shell.on_fs (fs_open fuel path mode) s = Some (f, s1) /\ f <> 0 /\
    (Shell.on_fs (fs_write fuel stack f content) ≫= fun written => Shell.on_fs (fs_close fuel f) ≫= fun _ => k written) s1 = k (len content) s' /\
    sh_term s' = sh_term s /\ fs_ok (sh_fs s') /\ tree (sh_fs s') = tree (sh_fs s) /\
    file_holds (sh_fs s') i (take (Z.to_nat (write_position mode 0 c)) c ++ content).
Proof.
  intros Hat Hm Hro Hlen Hmax.
  destruct (open_after path i c mode bs e s Hat) as (f & s1 & got & bs1 & R1 & A1 & Hf & Ht1 & Hop1); [unfold is_u8; lia|by intros _|].
  destruct (fs_write_runs fuel stack clock (sh_fs s1) f i 0 c content mode (op_ok _ _ _ _ _ _ _ _ _ Hop1) (op_open _ _ _ _ _ _ _ _ _ Hop1) Hlen Hmax) as (f2 & E2 & Hok2 & [Ht2 Hst2] & Hof2).
  destruct (on_fs_after _ s1 _ f2 E2) as (s2 & R2 & A2). pose proof (af_fs _ _ _ _ A2) as F2. rewrite <- F2 in Hok2, Ht2, Hst2, Hof2.
  destruct (close_after _ _ _ _ _ _ _ _ s2 (opened_step _ _ _ _ _ _ _ _ _ _ _ _ _ Hop1 Hst2 Hok2 Hof2)) as (s3 & R3 & A3 & Hok3 & Ht3 & Hh3).
  exists f, s1, s3. split; [done|]. split; [done|]. rewrite (sbind_run _ _ _ _ _ R2), (sbind_run _ _ _ _ _ R3). split; [done|].
  split; [by rewrite (after_quiet _ _ _ A3), (after_quiet _ _ _ A2), (after_quiet _ _ _ A1)|]. split; [done|]. split; [congruence|done].
Qed.
Lemma write_file_runs name path content i c bs e s v : name <> [] -> resolve_path name = Some path -> file_at path i c bs e s ->
  (forall nd, arr_get None (tree (sh_fs s)) i = Some nd -> nd_ro nd = false) -> 0 < len content <= 3703 ->
  vga_write fuel (written_text (len content) name) (sh_term s) = Some v ->
  exists s', cmd_write_file fuel stack name content s = Some ((), s') /\ sh_term s' = v /\
    fs_ok (sh_fs s') /\ tree (sh_fs s') = tree (sh_fs s) /\ file_holds (sh_fs s') i content.
Proof.
  intros Hname Hpath Hat Hro Hlen Hv. unfold cmd_write_file, with_path. destruct name as [|n0 name']; [done|].
  rewrite Hpath, sbind_gets. destruct (fa_real _ _ _ _ _ _ Hat) as [-> _].
  destruct (store_runs path content 1 i c bs e s (fun n => say_written fuel n (n0 :: name')) Hat ltac:(by left) Hro ltac:(lia) ltac:(cbn; lia))
    as (f & s1 & s2 & R1 & Hf & R2 & T2 & Hok2 & Ht2 & Hh2).
  rewrite (sbind_run _ _ _ _ _ R1). destruct (Z.eqb_spec f 0); [lia|]. rewrite R2. rewrite <- T2 in Hv.
  destruct (say_written_sends (len content) (n0 :: name') ltac:(lia) s2 v Hv) as (s3 & R3 & A3 & T3).
  exists s3. split; [exact R3|]. split; [done|]. rewrite (af_fs _ _ _ _ A3). done.
Qed.
Definition appended_text (n : Z) : cstring := zs "  Appended " ++ put_dec n ++ zs " bytes" ++ [10].
Lemma append_runs name path content i c bs e s v : name <> [] -> resolve_path name = Some path -> file_at path i c bs e s ->
  (forall nd, arr_get None (tree (sh_fs s)) i = Some nd -> nd_ro nd = false) -> 0 < len content -> len c + len content <= 3703 ->
  vga_write fuel (appended_text (len content)) (sh_term s) = Some v ->
  exists s', cmd_append fuel stack name content s = Some ((), s') /\ sh_term s' = v /\
    fs_ok (sh_fs s') /\ tree (sh_fs s') = tree (sh_fs s) /\ file_holds (sh_fs s') i (c ++ content).
Proof.
  intros Hname Hpath Hat Hro Hlen Hmax Hv. unfold cmd_append, with_path. destruct name as [|n0 name']; [done|]. rewrite Hpath.
  set (k := fun n => say fuel (zs "  Appended ");; say_dec fuel n;; say_nl fuel (zs " bytes") : ShM D M U unit).
  destruct (store_runs path content 2 i c bs e s k Hat ltac:(by right) Hro Hlen Hmax) as (f & s1 & s2 & R1 & Hf & R2 & T2 & Hok2 & Ht2 & Hh2).
  rewrite (sbind_run _ _ _ _ _ R1). destruct (Z.eqb_spec f 0); [lia|]. destruct content as [|b content']; [cbn in Hlen; lia|].
  set (content := b :: content') in *. rewrite <- T2 in Hv.
  change (write_position 2 0 c) with (len c) in Hh2. rewrite take_ge in Hh2 by lia.
  assert (Hs : sends (k (len content)) (appended_text (len content))).
  { apply sends_then; [apply sends_say|]. apply sends_then; [apply sends_dec; lia|apply sends_nl]. }
  destruct (Hs s2 v Hv) as (s3 & R3 & A3 & T3). exists s3. split; [by transitivity (k (len content) s2)|]. split; [done|]. rewrite (af_fs _ _ _ _ A3). done.
Qed.

(** ** The working directory *)

(** Nothing was printed and the working directory is the same. *)
Definition unmoved s s' : Prop := g_cwd (sh_disp s') = g_cwd (sh_disp s) /\ vga_buffer (sh_term s') = vga_buffer (sh_term s).

Section clock.
Context (rtc : forall d : D, is_Some (rtc_read_time fuel d)).

Lemma timestamp_returns (d : dispatcher D (sysenv D M)) :
  exists now d', get_timestamp fuel d = Some (now, d') /\ g_cwd d' = g_cwd d /\ vga_buffer (d_term d') = vga_buffer (d_term d).
Proof.
  unfold get_timestamp. destruct (rtc (vdev (d_term d))) as [[t x] E]. rewrite E. cbn [mbind option_bind]. eexists _, _. split; [done|].
  by destruct d as [????????????? ? []].
Qed.
Lemma build_returns type (p1 : option cstring) ip1 (d : dispatcher D (sysenv D M)) : (forall t, p1 = Some t -> len t < 256) ->
  exists it d', fs_intent_build fuel type p1 None ip1 d = Some (it, d') /\ g_cwd d' = g_cwd d /\ vga_buffer (d_term d') = vga_buffer (d_term d).
Proof.
  intros Hp. unfold fs_intent_build.
  assert (E : exists p, match p1 with Some t => strcpy256 no_param t | None => Some no_param end = Some p).
  { destruct p1 as [t|]; [|by eexists]. unfold strcpy256. specialize (Hp t eq_refl). destruct (Z.leb_spec 256 (len t)); [lia|by eexists]. }
  destruct E as [p ->]. cbn [mbind option_bind]. unfold finish. destruct (timestamp_returns d) as (t & d' & -> & Hc & Hv). cbn [mbind option_bind].
  eexists _, _. split; [done|]. split; [by destruct d'|by destruct d'].
Qed.
(** What the shell builds is never accepted. *)
Lemma shell_intent_rejected type (p1 : option cstring) ip1 s : is_u32 type -> type <> 0 -> (forall t, p1 = Some t -> is_cstr t /\ len t < 256) ->
  exists it s', dispatch_intent fuel cpuid (fs_intent_build fuel type p1 None ip1) s = Some ((ERR_INVALID_INTENT, it), s') /\ unmoved s s'.
Proof.
  intros Ht Hz Hp. unfold dispatch_intent, on_ui, with_disp.
  destruct (build_returns type p1 ip1 (u_disp (sh_ui s))) as (it & d1 & E1 & C1 & V1); [intros t Et; by apply Hp|].
  pose proof (fs_build_bad_from fuel 2 type p1 None ip1 _ it d1 Ht Hz ltac:(lia) (fun t Et => proj1 (Hp t Et)) ltac:(done) E1) as Hbad.
  destruct (timestamp_returns d1) as (t2 & d2 & E2 & C2 & V2). exists (set_source 2 it). rewrite E1. cbn [mbind option_bind].
  unfold intent_dispatch. rewrite E2. cbn [mbind option_bind]. unfold validate_intent. rewrite (proj2 (Z.eqb_neq _ _) Hbad). cbn [negb mbind option_bind].
  eexists. split; [done|]. unfold unmoved, sh_term, sh_disp. cbn [u_disp sh_ui set_ui set_disp].
  split; [transitivity (g_cwd d2); [by destruct d2|by rewrite C2]|transitivity (vga_buffer (d_term d2)); [by destruct d2|by rewrite V2]].
Qed.

Definition cd_error : cstring := zs "  cd: path must be absolute (start with /)".
(** [C39] The commands on the working directory never work: [cd], [up], [home]
    and [pwd] each send an intent to the dispatcher whose checksum does not
    match, so [cd] reports that the path must be absolute, whatever the path
    is, the other three print nothing, and the directory never changes. *)
Theorem working_directory_fixed path s : is_cstr path -> 0 < len path < 256 ->
  (exists s1, cmd_chdir fuel cpuid path s = say_nl fuel cd_error s1 /\ unmoved s s1) /\
  (exists s1, cmd_cd_parent fuel cpuid s = Some ((), s1) /\ unmoved s s1) /\
  (exists s1, cmd_cd_home fuel cpuid s = Some ((), s1) /\ unmoved s s1) /\
  (exists s1, cmd_pwd fuel cpuid s = Some ((), s1) /\ unmoved s s1).
Proof.
  intros Hc Hl.
  assert (Hcd : is_u32 INTENT_FS_CHDIR) by (split; by vm_compute). assert (Hpr : is_u32 INTENT_FS_PRINT_CWD) by (split; by vm_compute).
  split; [|split; [|split]].
  - unfold cmd_chdir, intent_fs_chdir. destruct path as [|c path]; [cbn in Hl; lia|].
    destruct (shell_intent_rejected INTENT_FS_CHDIR (Some (c :: path)) 0 s Hcd ltac:(done)) as (it & s1 & E & Hm); [intros t [= <-]; split; [done|lia]|].
    rewrite (sbind_run _ _ _ _ _ E). by exists s1.
  - destruct (shell_intent_rejected INTENT_FS_CHDIR None 1 s Hcd ltac:(done) ltac:(done)) as (it & s1 & E & Hm).
    unfold cmd_cd_parent, intent_fs_chdir_parent. rewrite (sbind_run _ _ _ _ _ E). by exists s1.
  - destruct (shell_intent_rejected INTENT_FS_CHDIR None 2 s Hcd ltac:(done) ltac:(done)) as (it & s1 & E & Hm).
    unfold cmd_cd_home, intent_fs_chdir_home. rewrite (sbind_run _ _ _ _ _ E). by exists s1.
  - destruct (shell_intent_rejected INTENT_FS_PRINT_CWD None 0 s Hpr ltac:(done) ltac:(done)) as (it & s1 & E & Hm).
    unfold cmd_pwd, intent_fs_print_cwd. rewrite (sbind_run _ _ _ _ _ E). by exists s1.
Qed.
End clock.

(** ** The history *)

Definition history_text (x : Z * cstring) : list Z := zs "  " ++ put_dec x.1 ++ zs "  " ++ x.2 ++ [10].
(** The screen text of [history] for a log of commands. *)
Definition history_page (log : list cstring) : list Z := [10] ++ concat (history_text <$> imap (fun i c => (Z.of_nat i + 1, c)) (last_commands log)) ++ [10].
Lemma history_text_sent x : 0 <= x.1 < 2 ^ 64 ->
  sends (say fuel (zs "  ");; say_dec fuel x.1;; say fuel (zs "  ");; say_nl fuel x.2) (history_text x).
Proof. intros Hx. unfold history_text. apply sends_then; [apply sends_say|]. apply sends_then; [by apply sends_dec|]. apply sends_then; [apply sends_say|apply sends_nl]. Qed.
Lemma last_commands_length log : (length (last_commands log) <= 16)%nat.
Proof. unfold last_commands. rewrite length_drop. lia. Qed.

Lemma history_runs cmds s v : Forall (fun c => len c < 256) cmds ->
  sh_history s = foldl (fun h c => history_add c h) no_history cmds ->
  vga_write fuel (history_page (log_of cmds)) (sh_term s) = Some v ->
  exists s', cmd_history fuel s = Some ((), s') /\ sh_term s' = v /\ sh_fs s' = sh_fs s.
Proof.
  intros Hc Hh Hv. pose proof (history_rep_cmds cmds Hc) as Hrep. rewrite <- Hh in Hrep. unfold cmd_history, history_page in *.
  apply write_split in Hv as (w & Hw & Hv). destruct (sends_nl [] s w Hw) as (s1 & R1 & A1 & T1). rewrite <- T1 in Hv.
  rewrite (sbind_run _ _ _ _ _ R1), sbind_gets, (af_history _ _ _ _ A1).
  assert (Hs : sends (for_all (history_lines (sh_history s)) (fun x => say fuel (zs "  ");; say_dec fuel x.1;; say fuel (zs "  ");; say_nl fuel x.2);; say_nl fuel [])
                 (concat (history_text <$> imap (fun i c => (Z.of_nat i + 1, c)) (last_commands (log_of cmds))) ++ [10])).
  { apply (sends_then _ _ _ [10]); [|apply (sends_nl [])].
    rewrite (history_lines_rep _ _ Hrep). apply sends_all, Forall_forall. intros x Hx. apply history_text_sent.
    apply elem_of_lookup_imap in Hx as (i & c & -> & Hi). cbn [fst]. apply lookup_lt_Some in Hi. pose proof (last_commands_length (log_of cmds)). lia. }
  destruct (Hs s1 v Hv) as (s' & R & A & T). exists s'. split; [done|]. split; [done|]. by rewrite (af_fs _ _ _ _ A), (af_fs _ _ _ _ A1).
Qed.

(** ** Entering a line *)

(** Between the polls the characters [cs] become available one after the
    other, with any number of polls without a key between them. *)
Inductive typed : list (event D U) -> input D U -> list Z -> Prop :=
| typed_nil evs i : typed evs i []
| typed_idle ev evs i cs : keyboard_has_key (ev_keys ev i) = false -> typed evs (ev_keys ev i) cs -> typed (ev :: evs) i cs
| typed_key ev evs i c i' cs : keyboard_has_key (ev_keys ev i) = true -> keyboard_getc fuel (ev_keys ev i) = Some (c, i') ->
    typed evs i' cs -> typed (ev :: evs) i (c :: cs).

Lemma wait_after ev evs s : sh_events s = ev :: evs ->
  exists s', wait s = Some ((), s') /\ after s [] (sh_fs s) s' /\ sh_events s' = evs /\ sh_in s' = ev_keys ev (sh_in s).
Proof. intros He. unfold wait. rewrite He. by eexists. Qed.
Lemma poll_idle ev evs s : sh_events s = ev :: evs -> keyboard_has_key (ev_keys ev (sh_in s)) = false ->
  exists s', poll fuel s = Some (None, s') /\ after s [] (sh_fs s) s' /\ sh_events s' = evs /\ sh_in s' = ev_keys ev (sh_in s).
Proof.
  intros He Hk. unfold poll. destruct (wait_after ev evs s He) as (s1 & R & A & Ee & Ei).
  rewrite (sbind_run _ _ _ _ _ R), sbind_gets, Ei, Hk. by exists s1.
Qed.
Lemma poll_key ev evs s c i : sh_events s = ev :: evs -> keyboard_has_key (ev_keys ev (sh_in s)) = true ->
  keyboard_getc fuel (ev_keys ev (sh_in s)) = Some (c, i) ->
  exists s', poll fuel s = Some (Some c, s') /\ after s [] (sh_fs s) s' /\ sh_events s' = evs /\ sh_in s' = i.
Proof.
  intros He Hk Hg. unfold poll. destruct (wait_after ev evs s He) as (s1 & R & [A1 A2 A3 A4] & Ee & Ei).
  rewrite (sbind_run _ _ _ _ _ R), sbind_gets, Ei, Hk. unfold mbind at 1, shm_bind at 1, Shell.lift. rewrite Hg. cbn [mbind option_bind].
  eexists. split; [done|]. split; [by split|]. by split.
Qed.
Lemma say_keeps t s s' : say fuel t s = Some ((), s') -> sh_events s' = sh_events s /\ sh_in s' = sh_in s.
Proof. unfold say, Shell.on_term. destruct (vga_writestring fuel t (sh_term s)); [|done]. cbn [mbind option_bind]. by intros [= <-]. Qed.
Lemma sends_putc c : sends (putc fuel c) [c].
Proof.
  intros s v Hv. exists (put_term v s). unfold putc, Shell.on_term. cbn [vga_write] in Hv. destruct (vga_putchar fuel c (sh_term s)) as [w|] eqn:E; [|done].
  injection Hv as ->. cbn [mbind option_bind]. split; [done|]. split; [|done]. split; try done. cbn [vga_write]. by rewrite E.
Qed.

(** Keys other than Enter are edited; Enter ends the line. *)
Lemma read_line_edits h cs : Forall (fun c => c <> 10) cs -> forall evs i e s v, typed evs i (cs ++ [10]) ->
  sh_events s = evs -> sh_in s = i -> sh_history s = h -> vga_write fuel ((edit_all h cs e).1 ++ [10]) (sh_term s) = Some v ->
  exists s', read_line fuel (length evs) e s = Some (line (edit_all h cs e).2, s') /\
    after s ((edit_all h cs e).1 ++ [10]) (sh_fs s) s' /\ sh_term s' = v.
Proof.
  intros Hcs evs i e s v Ht. remember (cs ++ [10]) as keys eqn:Ek. revert cs Hcs Ek e s v.
  induction Ht as [evs i|ev evs i keys Hk Ht IH|ev evs i c i' keys Hk Hg Ht IH]; intros cs Hcs Ek e s v He Hi Hh Hv; [by destruct cs| |].
  - cbn [length read_line]. subst i. destruct (poll_idle ev evs s He Hk) as (s1 & R1 & A1 & E1 & I1). rewrite (sbind_run _ _ _ _ _ R1).
    assert (Et : sh_term s1 = sh_term s) by (pose proof (af_term _ _ _ _ A1) as T; cbn [vga_write] in T; congruence). rewrite <- Et in Hv.
    destruct (IH cs Hcs Ek e s1 v E1 I1) as (s2 & R2 & A2 & T2); [by rewrite (af_history _ _ _ _ A1)|done|].
    exists s2. split; [done|]. split; [|done]. rewrite (af_fs _ _ _ _ A1) in A2. by apply (after_trans _ [] _ _ _ _ _ A1).
  - cbn [length read_line]. subst i. destruct (poll_key ev evs s c i' He Hk Hg) as (s1 & R1 & A1 & E1 & I1). rewrite (sbind_run _ _ _ _ _ R1).
    assert (Et : sh_term s1 = sh_term s) by (pose proof (af_term _ _ _ _ A1) as T; cbn [vga_write] in T; congruence). rewrite <- Et in Hv.
    destruct cs as [|c' cs]; cbn [app] in Ek; injection Ek as -> Ek.
    + cbn [Z.eqb Pos.eqb]. cbn [edit_all fst snd app] in *. destruct (sends_putc 10 s1 v Hv) as (s2 & R2 & A2 & T2).
      rewrite (sbind_run _ _ _ _ _ R2). exists s2. split; [done|]. split; [|done]. rewrite (af_fs _ _ _ _ A1) in A2. by apply (after_trans _ [] _ _ _ _ _ A1).
    + apply Forall_cons in Hcs as [Hc Hcs]. rewrite (proj2 (Z.eqb_neq c' 10)) by done. rewrite sbind_gets, (af_history _ _ _ _ A1), Hh.
      cbn [edit_all] in *. destruct (edit_key h c' e) as [out e1]. destruct (edit_all h cs e1) as [rest e2] eqn:Er. cbn [fst snd] in *.
      rewrite <- app_assoc in Hv |- *. apply write_split in Hv as (w & Hw & Hv).
      destruct (say_after out s1 w Hw) as (s2 & R2 & A2 & T2). rewrite (sbind_run _ _ _ _ _ R2). destruct (say_keeps _ _ _ R2) as [E2 I2].
      rewrite <- T2 in Hv. destruct (IH cs Hcs Ek e1 s2 v) as (s3 & R3 & A3 & T3); [congruence|congruence|by rewrite (af_history _ _ _ _ A2), (af_history _ _ _ _ A1)|by rewrite Er|].
      rewrite Er in R3, A3. cbn [fst snd] in *. exists s3. split; [done|]. split; [|done].
      rewrite (af_fs _ _ _ _ A2), (af_fs _ _ _ _ A1) in A3. rewrite (af_fs _ _ _ _ A1) in A2.
      apply (after_trans _ [] _ _ _ _ _ A1). by eapply after_trans.
Qed.

(** ** Counting and searching in a file *)

Lemma slurp_streams i c mode : len c <= 4095 -> forall n f off s, fs_ok (sh_fs s) -> open_file (sh_fs s) f i off c mode -> (length c < n + Z.to_nat off)%nat ->
  exists s', slurp_loop stack n f off (take (Z.to_nat off) c) s = Some (c, s') /\ after s [] (sh_fs s') s' /\
    fs_ok (sh_fs s') /\ open_file (sh_fs s') f i (len c) c mode /\ tree (sh_fs s') = tree (sh_fs s) /\ step none (sh_fs s) (sh_fs s').
Proof.
  intros Hc. induction n as [|n IH]; intros f off s Hok Hof Hn; [pose proof (of_bounds _ _ _ _ _ _ Hof); lia|].
  pose proof (of_bounds _ _ _ _ _ _ Hof) as Hb. pose proof (holds_length _ _ _ (of_holds _ _ _ _ _ _ Hof)) as Hl.
  cbn [slurp_loop]. unfold file_size. rewrite sbind_gets, (of_size _ _ _ _ _ _ Hof), length_take.
  destruct (Z.ltb_spec off (len c)) as [Hlt|Hge].
  2: { assert (off = len c) as -> by lia. rewrite take_ge by lia. exists s. split; [done|]. split; [apply after_refl|].
       split; [done|]. split; [done|]. split; [done|apply step_refl]. }
  rewrite (proj2 (Z.ltb_lt _ 4095)) by lia. cbn [andb]. rewrite u64_id by (unfold is_u64; lia).
  set (k := if 256 <? len c - off then 256 else len c - off).
  assert (Hk : 0 < k <= 256 /\ off + k <= len c) by (unfold k; destruct (Z.ltb_spec 256 (len c - off)); lia).
  destruct (fs_read_runs stack (sh_fs s) f i off c mode k Hok Hof ltac:(lia)) as (f1 & E1 & Hok1 & [Ht1 Hst1] & Hof1).
  set (bytes := take (Z.to_nat k) (drop (Z.to_nat off) c)) in *.
  assert (Hlen : len bytes = k) by (unfold bytes; rewrite length_take, length_drop; lia).
  destruct (on_fs_after _ s bytes f1 E1) as (s1 & R1 & A1). rewrite (sbind_run _ _ _ _ _ R1), Hlen. destruct (Z.eqb_spec k 0); [lia|].
  rewrite u64_id by (unfold is_u64; lia).
  assert (Et : take 4095 (take (Z.to_nat off) c ++ bytes) = take (Z.to_nat (off + k)) c).
  { unfold bytes. rewrite take_take_drop, take_take. f_equal. lia. }
  rewrite Et. pose proof (af_fs _ _ _ _ A1) as F1. replace (Z.min (off + k) (len c)) with (off + k) in Hof1 by lia.
  rewrite <- F1 in Hok1, Hof1, Ht1, Hst1. destruct (IH f (off + k) s1 Hok1 Hof1 ltac:(lia)) as (s2 & R2 & A2 & Hok2 & Hof2 & Ht2 & Hst2).
  exists s2. split; [exact R2|]. split; [by apply (after_trans _ [] _ _ _ _ _ A1)|]. split; [done|]. split; [done|]. split; [congruence|].
  eapply step_trans; [exact Hok|exact Hst1|exact Hst2].
Qed.
Lemma slurp_runs path i c bs e s : file_at path i c bs e s -> len c <= 4095 -> (length c < fuel)%nat ->
  exists s', slurp fuel cpuid stack path s = Some (Some c, s') /\ after s [] (sh_fs s') s' /\
    fs_ok (sh_fs s') /\ tree (sh_fs s') = tree (sh_fs s) /\ file_holds (sh_fs s') i c.
Proof.
  intros Hat Hc Hfuel. unfold slurp.
  destruct (vfile_read_real path VFILE_MAX_CONTENT s (fa_real _ _ _ _ _ _ Hat)) as (s1 & R1 & A1). rewrite (sbind_run _ _ _ _ _ R1).
  cbn [Z.leb Z.compare]. pose proof (af_fs _ _ _ _ A1) as F1.
  assert (Hat1 : file_at path i c bs e s1) by (apply (file_at_same path i c bs e s); [done|apply A1|done]).
  destruct (open_after path i c 0 bs e s1 Hat1) as (f & s2 & got & bs2 & R2 & A2 & Hf & Ht2 & Hop2); [unfold is_u8; lia|done|].
  rewrite (sbind_run _ _ _ _ _ R2). destruct (Z.eqb_spec f 0); [lia|].
  destruct (slurp_streams i c 0 Hc fuel f 0 s2 (op_ok _ _ _ _ _ _ _ _ _ Hop2) (op_open _ _ _ _ _ _ _ _ _ Hop2) ltac:(lia)) as (s3 & R3 & A3 & Hok3 & Hof3 & Ht3 & Hst3).
  cbn [Z.to_nat take] in R3. rewrite (sbind_run _ _ _ _ _ R3).
  destruct (close_after _ _ _ _ _ _ _ _ s3 (opened_step _ _ _ _ _ _ _ _ _ _ _ _ _ Hop2 Hst3 Hok3 Hof3)) as (s4 & R4 & A4 & Hok4 & Ht4 & Hh4).
  rewrite (sbind_run _ _ _ _ _ R4). exists s4. split; [done|]. split; [|split; [done|]; split; [congruence|done]].
  apply (after_trans _ [] _ _ [] _ _ A1), (after_trans _ [] _ _ [] _ _ A2), (after_trans _ [] _ _ [] _ _ A3), A4.
Qed.

(** ** On the screen *)

Section screen.
Context (ready : forall d : D, is_Some (serial_wait fuel d)).

(** The console is not captured and shows the last rows of the page. *)
Definition screen s (p : page) : Prop := shows (sh_term s) p /\ capture (sh_term s) = None.
(** The page after more text. *)
Definition printed s (p : page) t : page := foldl (p_char (terminal_color (sh_term s))) p t.
Lemma screen_write s p t : screen s p -> exists v, vga_write fuel t (sh_term s) = Some v /\ forall s', sh_term s' = v -> screen s' (printed s p t).
Proof.
  intros [Hs Hc]. destruct (write_shows fuel ready t _ _ Hs Hc) as (v & E & Hv & Hcv & _). exists v. split; [done|]. intros s' <-. done.
Qed.



Definition wc_text (c : list Z) (name : cstring) : cstring :=
  zs "  " ++ put_dec (len (text_lines c)) ++ zs " lines, " ++ put_dec (len (text_words c)) ++ zs " words, " ++ put_dec (len c) ++ zs " bytes  " ++ name ++ [10].
Definition match_text (x : Z * cstring) : cstring := zs "  " ++ put_dec x.1 ++ zs ": " ++ x.2 ++ [10].
Definition grep_text (pattern c : list Z) : cstring :=
  let found := filter (matches pattern) (numbered (text_lines c)) in
  concat (match_text <$> found) ++ (if len found =? 0 then zs "  (no matches)" ++ [10] else []) ++ [10].
Lemma text_lines_length c : (length (text_lines c) <= length c)%nat.
Proof.
  enough (Hn : forall n d, (length d <= n)%nat -> (length (text_lines d) <= length d)%nat) by (by apply (Hn (length c))).
  induction n as [|n IH]; intros d Hd; rewrite line_length_take; (destruct d as [|x d]; [done|]); cbn [length] in *; [lia|].
  specialize (IH (drop (S (line_length (x :: d))) (x :: d))). rewrite length_drop in IH. cbn [length] in IH. lia.
Qed.
Lemma words_acc_length c : forall w, (length (words_acc w c) <= length c + 1)%nat.
Proof.
  induction c as [|x c IH]; intros w; cbn [words_acc length]; [by destruct w; cbn [flush_word length]; lia|].
  destruct (is_blank x); [rewrite length_app; specialize (IH []); destruct w; cbn [flush_word length]; lia|]. specialize (IH (w ++ [x])). lia.
Qed.
Lemma wc_sends c name : len c <= 4095 ->
  sends (let '(lines, words, total) := wc_of c in
         say fuel (zs "  ");; say_dec fuel lines;; say fuel (zs " lines, ");; say_dec fuel words;; say fuel (zs " words, ");;
         say_dec fuel total;; say fuel (zs " bytes  ");; say_nl fuel name) (wc_text c name).
Proof.
  intros Hc. rewrite wc_of_correct. pose proof (text_lines_length c). pose proof (words_acc_length c []). unfold wc_text, text_words.
  repeat (apply sends_then; [first [apply sends_say|apply sends_dec; lia]|]). apply sends_nl.
Qed.
Lemma grep_sends pattern c : len c <= 4095 ->
  let found := filter (matches pattern) (numbered (text_lines c)) in
  sends (for_all found (say_match fuel);; (if len found =? 0 then say_nl fuel (zs "  (no matches)") else mret ());; say_nl fuel []) (grep_text pattern c).
Proof.
  intros Hc. cbv zeta. unfold grep_text. apply sends_then; [|apply sends_then; [|apply (sends_nl [])]].
  - apply sends_all, Forall_forall. intros x Hx. apply list_elem_of_filter in Hx as [_ Hx]. unfold numbered in Hx.
    apply elem_of_lookup_imap in Hx as (i & l & -> & Hi). apply lookup_lt_Some in Hi. pose proof (text_lines_length c).
    unfold say_match, match_text. cbn [fst snd]. repeat (apply sends_then; [first [apply sends_say|apply sends_dec; lia]|]). apply sends_nl.
  - destruct (_ =? 0); [apply sends_nl|]. intros s v [= <-]. exists s. split; [done|]. split; [apply after_refl|done].
Qed.


(** [C27] After any commands, each shorter than a line, were entered, the
    command [history] prints the last 16 of them, numbered from 1, without the
    empty ones and the ones equal to the command before; and the line editor
    shows after [k] presses of Up the command [k] back, but counted modulo 16:
    the seventeenth press shows the newest command again. *)
Theorem history_shows_log cmds p s : Forall (fun c => len c < 256) cmds ->
  sh_history s = foldl (fun h c => history_add c h) no_history cmds -> screen s p ->
  (exists s', cmd_history fuel s = Some ((), s') /\ screen s' (printed s p (history_page (log_of cmds))) /\ sh_fs s' = sh_fs s) /\
  forall k, (1 <= k <= length (log_of cmds))%nat ->
    line (press_up k (sh_history s)) = default [] (log_of cmds !! (length (log_of cmds) - 1 - (k - 1) mod 16)%nat).
Proof.
  intros Hc Hh Hs. split.
  - destruct (screen_write s p (history_page (log_of cmds)) Hs) as (v & Hv & Hs').
    destruct (history_runs cmds s v Hc Hh Hv) as (s' & R & T & Hf). exists s'. auto.
  - intros k Hk. pose proof (history_rep_cmds cmds Hc) as Hrep. rewrite <- Hh in Hrep. by rewrite (press_up_rep _ _ _ Hrep (log_of_short _ Hc) Hk).
Qed.

(** [C28] Whatever keys are typed before Enter, with polls in between that find
    none, [read_line] returns, and the line it returns is shorter than its
    buffer.  As long as the line fits into the row (77 characters) and only
    printable commands are recalled, the row shows after every key the prompt
    followed by exactly the line. *)
Theorem line_editor_shows cs p s : let h := sh_history s in let color := terminal_color (sh_term s) in
  Forall (fun c => c <> 10 /\ c <> 127) cs -> typed (sh_events s) (sh_in s) (cs ++ [10]) -> screen s p ->
  (exists s', read_line fuel (length (sh_events s)) (fresh h) s = Some (line (edit_all h cs (fresh h)).2, s') /\
     screen s' (p_char color (printed s p (edit_all h cs (fresh h)).1) 10) /\ sh_fs s' = sh_fs s) /\
  len (line (edit_all h cs (fresh h)).2) < MAX_CMD_LEN /\
  ((forall n, Forall printable (h_slot h n)) -> (forall k, len (line (edit_all h (take k cs) (fresh h)).2) <= 77) -> row_shows color p prompt ->
   forall k, row_shows color (printed s p (edit_all h (take k cs) (fresh h)).1) (prompt ++ line (edit_all h (take k cs) (fresh h)).2)).
Proof.
  intros h color Hcs Ht Hs. split; [|split].
  - destruct (screen_write s p ((edit_all h cs (fresh h)).1 ++ [10]) Hs) as (v & Hv & Hs').
    destruct (read_line_edits h cs) with (evs := sh_events s) (i := sh_in s) (e := fresh h) (s := s) (v := v) as (s' & R & A & T); try done.
    { eapply Forall_impl; [exact Hcs|]. by intros c [? _]. }
    exists s'. split; [done|]. split; [|apply A]. specialize (Hs' s' T). unfold printed in Hs' |- *. by rewrite foldl_app in Hs'.
  - apply edit_all_bounded. by vm_compute.
  - intros Hp Hk Hrow k. apply edit_all_row; [done| | |change (line (fresh h)) with (@nil Z); by rewrite app_nil_r].
    + apply Forall_take. eapply Forall_impl; [exact Hcs|]. by intros c [_ ?].
    + intros j. rewrite take_take. apply Hk.
Qed.

(** Messages on the screen, one after the other. *)
Lemma screen_sends c t s p : sends c t -> screen s p ->
  exists s', c s = Some ((), s') /\ after s t (sh_fs s) s' /\ screen s' (printed s p t) /\ forall q t', printed s' q t' = printed s q t'.
Proof.
  intros Hc [Hs Hcap]. destruct (write_shows fuel ready t _ _ Hs Hcap) as (v & E & Hv & Hcv & Hcol).
  destruct (Hc s v E) as (s' & R & A & T). exists s'. split; [done|]. split; [done|]. unfold screen, printed. rewrite T. split; [done|]. by rewrite Hcol.
Qed.
Lemma printed_app s p t t' : printed s p (t ++ t') = printed s (printed s p t) t'.
Proof. apply foldl_app. Qed.

(** The text of [find]: the matches and their number. *)
Definition find_page (pattern found : cstring) (n : Z) : cstring :=
  [10] ++ (zs "  Searching for: " ++ [34]) ++ pattern ++ ([34] ++ [10]) ++ found ++ zs "  Found " ++ put_dec (u64 n) ++ (zs " matching files" ++ [10]) ++ [10].
Lemma sends_wrapped n : sends (say_dec fuel n) (put_dec (u64 n)).
Proof. intros s v. apply say_dec_after. Qed.
Lemma sends_put (f : sh -> sh) : (forall s, sh_term (f s) = sh_term s /\ sh_fs (f s) = sh_fs s /\ entries (sh_env (f s)) = entries (sh_env s) /\ sh_history (f s) = sh_history s) -> sends (putm f) [].
Proof.
  intros Hf s v [= <-]. destruct (Hf s) as (H1' & H2' & H3' & H4'). exists (f s). split; [done|]. split; [|done]. split; [by rewrite <- H1'|done..].
Qed.
Lemma run_prefix {B} (a b c d : ShM D M U unit) (k : ShM D M U B) s s1 : (a;; b;; c;; d) s = Some ((), s1) -> (a;; b;; c;; d;; k) s = k s1.
Proof.
  unfold mbind, shm_bind. destruct (a s) as [[[] sa]|]; [|done]. cbn. destruct (b sa) as [[[] sb]|]; [|done]. cbn.
  destruct (c sb) as [[[] sc]|]; [|done]. cbn. by intros ->.
Qed.
Definition find_report (st : find_st) : ShM D M U unit :=
  say fuel (find_out st);;
  putm (set_find (FindSt (find_current_dir st) (find_match_count st) (find_depth st) []));;
  say fuel (zs "  Found ");; say_dec fuel (find_match_count st);; say_nl fuel (zs " matching files");;
  say_nl fuel [].
Lemma find_report_sends st : sends (find_report st) (find_out st ++ [] ++ zs "  Found " ++ put_dec (u64 (find_match_count st)) ++ (zs " matching files" ++ [10]) ++ [10]).
Proof.
  unfold find_report. apply sends_then; [apply sends_say|]. apply sends_then; [by apply sends_put|]. apply sends_then; [apply sends_say|].
  apply sends_then; [apply sends_wrapped|]. apply sends_then; [apply sends_nl|apply (sends_nl [])].
Qed.
Lemma walk_root (f : fs D) pattern l (sub : cstring -> list (cstring * Z * Z)) old : fs_readdir (zs "/") f = Some (Some l) ->
  Forall (fun x => x.1.2 <> 0 -> len x.1.1 <= 254 /\ fs_readdir (zs "/" ++ x.1.1) f = Some (Some (sub x.1.1)) /\ flat (sub x.1.1)) l ->
  exists st, find_walk (fun dir => fs_readdir dir f) pattern 8 (zs "/") 8 (FindSt (find_current_dir old) 0 (find_depth old) []) = Some st /\
    find_out st = concat (shallow pattern sub 7 l) /\ find_match_count st = len (shallow pattern sub 7 l).
Proof.
  intros Hl Hsub. rewrite find_walk_S, Hl. cbn [Z.leb Z.compare mbind option_bind default find_match_count find_out]. unfold id.
  destruct (find_shallow_walk (fun dir => fs_readdir dir f) pattern sub 7 l 7 (FindSt (zs "/") 0 8 [])) as (st & -> & [Ho Hn] & _); [done|done|lia|done|].
  cbn [mbind option_bind]. eexists. by split.
Qed.

(** [C38] The command [find] returns on every well-formed filesystem, prints
    the matches it found and their number and changes nothing on disk.  In a
    root whose directories hold only files, the matches are those in the root
    and in its first seven directories: the depth that is lowered for a
    directory is not raised again behind it, so the eighth is not searched. *)
Theorem find_command pattern p s : pattern <> [] -> fs_ok (sh_fs s) -> screen s p ->
  exists s' found n, cmd_find fuel pattern s = Some ((), s') /\ screen s' (printed s p (find_page pattern found n)) /\ sh_fs s' = sh_fs s /\
    forall l sub, fs_readdir (zs "/") (sh_fs s) = Some (Some l) ->
      Forall (fun x => x.1.2 <> 0 -> len x.1.1 <= 254 /\ fs_readdir (zs "/" ++ x.1.1) (sh_fs s) = Some (Some (sub x.1.1)) /\ flat (sub x.1.1)) l ->
      found = concat (shallow pattern sub 7 l) /\ n = len (shallow pattern sub 7 l).
Proof.
  intros Hpat Hok Hs. set (banner := [10] ++ (zs "  Searching for: " ++ [34]) ++ pattern ++ ([34] ++ [10])).
  assert (Hhead : sends (say_nl fuel [];; say fuel (zs "  Searching for: " ++ [34]);; say fuel pattern;; say_nl fuel [34]) banner).
  { apply (sends_then _ _ [10]); [apply (sends_nl [])|]. repeat (apply sends_then; [apply sends_say|]). apply sends_nl. }
  destruct (screen_sends _ _ s p Hhead Hs) as (s1 & R1 & A1 & Hs1 & Hp1). pose proof (af_fs _ _ _ _ A1) as F1.
  set (init := FindSt (find_current_dir (sh_find s1)) 0 (find_depth (sh_find s1)) []).
  destruct (find_walk_returns (fun dir => fs_readdir dir (sh_fs s)) pattern 8 (fun d => fs_readdir_returns d _ Hok) (zs "/") 8 init ltac:(lia)) as (st & Ew & _).
  destruct (screen_sends _ _ s1 _ (find_report_sends st) Hs1) as (s2 & R2 & A2 & Hs2 & _).
  exists s2, (find_out st), (find_match_count st). split; [|split; [|split]].
  - unfold cmd_find. destruct pattern as [|c0 pattern']; [done|]. set (pattern := c0 :: pattern') in *. rewrite <- R2.
    transitivity ((Shell.gets sh_fs ≫= fun f => Shell.gets sh_find ≫= fun old =>
      Shell.lift (find_walk (fun dir => fs_readdir dir f) pattern 8 (zs "/") 8 (FindSt (find_current_dir old) 0 (find_depth old) [])) ≫= find_report) s1).
    + exact (run_prefix _ _ _ _ _ _ _ R1).
    + rewrite !sbind_gets, F1. unfold mbind at 1, shm_bind at 1, Shell.lift. fold init. by rewrite Ew.
  - rewrite Hp1, <- printed_app in Hs2.
    assert (Et : find_page pattern (find_out st) (find_match_count st) =
      banner ++ find_out st ++ [] ++ zs "  Found " ++ put_dec (u64 (find_match_count st)) ++ (zs " matching files" ++ [10]) ++ [10]) by (unfold find_page, banner; by rewrite <- !app_assoc).
    by rewrite Et.
  - by rewrite (af_fs _ _ _ _ A2).
  - intros l sub Hl Hsub. destruct (walk_root (sh_fs s) pattern l sub (sh_find s1) Hl Hsub) as (st' & E & Ho & Hn). fold init in E. rewrite Ew in E. by injection E as <-.
Qed.

(** ** Directories and deletion *)

Definition mkdir_text (r : Z) (name : cstring) : cstring :=
  if r <? 0 then zs "  Error: Could not create directory" ++ [10] else zs "  Created directory: " ++ name ++ [10].
Definition rmdir_text (r ro : Z) (name : cstring) : cstring :=
  if r =? 0 then zs "  Deleted directory: " ++ name ++ [10]
  else (if ro =? 1 then zs "  Error: File is read-only (chmod +w to unprotect)" else zs "  Error: File not found (or directory not empty)") ++ [10].
Lemma sends_two t name : sends (say fuel t;; say_nl fuel name) (t ++ name ++ [10]).
Proof. apply sends_then; [apply sends_say|apply sends_nl]. Qed.
(** An operation of the filesystem, as the shell runs it. *)
Lemma fop_after op s : refines fuel op (sh_fs s) ->
  exists r s', Shell.on_fs (run_fop fuel op) s = Some (r, s') /\ after s [] (sh_fs s') s' /\ fs_ok (sh_fs s') /\ tree_spec op (tree (sh_fs s)) r (tree (sh_fs s')).
Proof.
  intros (r & f & E & Hok & Ht). destruct (on_fs_after _ s r f E) as (s' & R & A). pose proof (af_fs _ _ _ _ A) as F. exists r, s'. by rewrite F.
Qed.
Lemma screen_after s p s1 c t : screen s p -> after s [] (sh_fs s1) s1 -> sends c t ->
  exists s', c s1 = Some ((), s') /\ screen s' (printed s p t) /\ sh_fs s' = sh_fs s1 /\ forall q t', printed s' q t' = printed s q t'.
Proof.
  intros Hs A Hc. pose proof (after_quiet _ _ _ A) as Et. assert (Hs1 : screen s1 p) by (unfold screen; by rewrite Et).
  destruct (screen_sends c t s1 p Hc Hs1) as (s' & R & A' & Hs' & Hp). exists s'. split; [done|].
  unfold printed in Hp, Hs' |- *. rewrite Et in Hp, Hs'. split; [done|]. split; [apply A'|done].
Qed.


(** ** Moving to a directory that does not exist *)

(** The path [dst] is free, and so is its directory [dir]. *)
Record no_directory (t : ftree) (dst dir : cstring) : Prop := {
  nd_abs : char_at dst 0 = ch "/";
  nd_free : t_find t dst = None;
  nd_parent_of : parent_path dst = Some dir;
  nd_rename_of : rename_parent stack dst = Some dir;
  nd_missing : t_find t dir = None
}.
Lemma rename_refused src dst dir i (f : fs D) : fs_ok f -> t_find (tree f) src = Some i -> no_directory (tree f) dst dir ->
  fs_rename fuel stack src dst f = Some (-1, f).
Proof.
  intros Hok Hi [Ha _ _ Hr Hm]. unfold fs_rename.
  assert (Hs : char_at src 0 = ch "/") by (unfold t_find in Hi; destruct src as [|c src]; [done|]; destruct (Z.eqb_spec c (ch "/")); [by subst|done]).
  rewrite Hs, Ha, Z.eqb_refl. cbn [andb negb]. rewrite bind_find by done. rewrite Hi. cbn [default]. unfold id. rewrite (found_index _ _ _ Hok Hi).
  cbv zeta. destruct (len (base_name dst) =? 0); [done|]. rewrite Hr, bind_lift, bind_find, Hm by done. cbn [default]. by rewrite Z.eqb_refl.
Qed.
Lemma open_refused dst dir (f : fs D) : fs_ok f -> no_directory (tree f) dst dir -> fs_open fuel dst 1 f = Some (0, f).
Proof.
  intros Hok [_ Hn Hp _ Hm]. unfold fs_open. rewrite bind_find, Hn by done. cbn [default]. unfold id. rewrite Z.eqb_refl. cbn [Z.eqb negb andb].
  assert (E : open_create fuel dst f = Some (NOT_FOUND, f)).
  { unfold open_create. rewrite bind_alloc by done. destruct (t_free (tree f)) as [i|] eqn:Ef; cbn [default]; unfold id; [|by rewrite Z.eqb_refl].
    rewrite (free_index _ _ Hok Ef), Hp, bind_lift, bind_find, Hm by done. cbn [default]. by rewrite Z.eqb_refl. }
  rewrite (bind_run _ _ _ _ _ E), Z.eqb_refl. done.
Qed.

Definition lost_text (r : Z) : cstring :=
  (zs "  Error: Could not create destination file" ++ [10]) ++ (if 0 <=? r then zs "  Move completed (copy+delete)" else zs "  Warning: Original file not deleted") ++ [10].
Lemma with_paths_run src dst a b usage (k : cstring -> cstring -> ShM D M U unit) : src <> [] -> dst <> [] -> resolve_path src = Some a -> resolve_path dst = Some b ->
  with_paths fuel src dst usage k = k a b.
Proof. intros Hs Hd Ea Eb. unfold with_paths. destruct src; [done|]. destruct dst; [done|]. by rewrite Ea, Eb. Qed.
(** The copy of a file to a missing directory: a message, nothing else. *)
Lemma copy_refused src dst a b dir i c bs e nd s p : src <> [] -> dst <> [] -> resolve_path src = Some a -> resolve_path dst = Some b ->
  file_at a i c bs e s -> arr_get None (tree (sh_fs s)) i = Some nd -> nd_dir nd = false -> no_directory (tree (sh_fs s)) b dir -> screen s p ->
  exists s', cmd_copy fuel stack src dst s = Some ((), s') /\ fs_ok (sh_fs s') /\ tree (sh_fs s') = tree (sh_fs s) /\
    screen s' (printed s p (zs "  Error: Could not create destination file" ++ [10])) /\ forall q t, printed s' q t = printed s q t.
Proof.
  intros Hs Hd Ea Eb Hat Hnd Hdir Hno Hscr. unfold cmd_copy. rewrite (with_paths_run _ _ a b) by done.
  destruct (on_fs_after _ s _ _ (is_directory_flag a _ (fa_ok _ _ _ _ _ _ Hat))) as (s1 & R1 & A1). rewrite (sbind_run _ _ _ _ _ R1).
  assert (Ef : tree_flag nd_dir (tree (sh_fs s)) a = 0) by (unfold tree_flag; rewrite (fa_find _ _ _ _ _ _ Hat); cbn [mbind option_bind]; by rewrite Hnd, Hdir).
  rewrite Ef. cbn [Z.eqb]. unfold cmd_copy_file. pose proof (af_fs _ _ _ _ A1) as F1.
  assert (Hat1 : file_at a i c bs e s1) by (apply (file_at_same a i c bs e s); [done|apply A1|done]).
  destruct (open_after a i c 0 bs e s1 Hat1) as (f & s2 & got & bs2 & R2 & A2 & Hf & Ht2 & Hop2); [unfold is_u8; lia|done|].
  rewrite (sbind_run _ _ _ _ _ R2). destruct (Z.eqb_spec f 0); [lia|].
  assert (Hno2 : no_directory (tree (sh_fs s2)) b dir) by (by rewrite Ht2, F1).
  destruct (on_fs_after _ s2 _ _ (open_refused b dir _ (op_ok _ _ _ _ _ _ _ _ _ Hop2) Hno2)) as (s3 & R3 & A3). rewrite (sbind_run _ _ _ _ _ R3).
  pose proof (af_fs _ _ _ _ A3) as F3. cbn [Z.eqb].
  destruct (close_after _ _ _ _ _ _ _ _ s3 (opened_same _ _ _ _ _ _ _ _ _ _ F3 Hop2)) as (s4 & R4 & A4 & Hok4 & Ht4 & _). rewrite (sbind_run _ _ _ _ _ R4).
  assert (A : after s [] (sh_fs s4) s4) by (rewrite <- F3 in A3; exact (after_trans _ [] _ _ [] _ _ (after_trans _ [] _ _ [] _ _ (after_trans _ [] _ _ [] _ _ A1 A2) A3) A4)).
  destruct (screen_after s p s4 _ _ Hscr A (sends_nl (zs "  Error: Could not create destination file"))) as (s5 & R5 & Hs5 & F5 & CF5).
  exists s5. split; [exact R5|]. rewrite F5. split; [done|]. split; [by rewrite Ht4, F3, Ht2, F1|]. done.
Qed.


(** ** Redirected commands *)

(** A word of a command: no spaces, no '>' and no NUL. *)
Record plain (w : cstring) : Prop := { pl_some : w <> []; pl_cstr : is_cstr w; pl_chars : Forall (fun c => c <> 32 /\ c <> ch ">") w }.
(** A text between spaces: it starts and ends with another character. *)
Record inner (t : cstring) : Prop := { in_cstr : is_cstr t; in_head : hd 32 t <> 32; in_last : last t <> Some 32 }.
Lemma plain_inner w : plain w -> inner w.
Proof.
  intros [Hn Hc Hw]. split; [done|destruct Hw as [|c w [? _]]; [done|by cbn]|]. intros Hl. apply last_Some_elem_of in Hl.
  by destruct (proj1 (Forall_forall _ _) Hw _ Hl).
Qed.
Lemma inner_join a b : plain a -> plain b -> inner (a ++ 32 :: b).
Proof.
  intros Ha Hb. pose proof (plain_inner _ Ha) as [A1 A2 _]. pose proof (plain_inner _ Hb) as [B1 _ B3]. split.
  - apply is_cstr_app. split; [done|]. apply is_cstr_cons. split; [lia|done].
  - destruct a; [by destruct Ha|done].
  - destruct b as [|c b]; [by destruct Hb|]. rewrite last_app_cons, last_cons_cons. done.
Qed.
Lemma cstr_spaces_is n : is_cstr (spaces n).
Proof. apply Forall_replicate. lia. Qed.
Lemma str_at_app pre w rest : is_cstr w -> str_at (pre ++ w ++ 0 :: rest) (len pre) = w.
Proof. intros Hw. unfold str_at. rewrite Nat2Z.id, drop_app_length. by apply cstr_terminated. Qed.
Lemma skip_spaces_lead j t : hd 32 t <> 32 -> skip_spaces (spaces j ++ t) = t.
Proof.
  intros Hh. induction j as [|j IH]; [|exact IH]. cbn [spaces replicate app]. destruct t as [|c t]; [done|]. cbn [skip_spaces hd] in *. unfold SPACE.
  by rewrite (proj2 (Z.eqb_neq c 32)).
Qed.
Lemma drop_trailing_spaces k c r : c <> 32 -> drop_trailing (spaces k ++ c :: r) = c :: r.
Proof.
  intros Hc. induction k as [|k IH].
  - cbn [spaces replicate app drop_trailing]. unfold SPACE. rewrite (proj2 (Z.eqb_neq c 32)) by done. by destruct r.
  - cbn [spaces replicate app]. cbn [drop_trailing]. fold (spaces k). rewrite IH. by destruct k.
Qed.
Lemma k_trim_inner j k t : inner t -> k_trim (spaces j ++ t ++ spaces k) = t.
Proof.
  intros [_ Hh Hl]. unfold k_trim. rewrite skip_spaces_lead by (by destruct t). rewrite rev_app_distr.
  assert (Hr : rev (spaces k) = spaces k).
  { clear. induction k as [|k IH]; [done|]. unfold spaces in *. cbn [replicate rev]. rewrite IH. by rewrite <- replicate_S_end. }
  rewrite Hr.
  destruct t as [|c t _] using rev_ind; [done|]. rewrite last_snoc in Hl. rewrite rev_app_distr. cbn [rev app].
  rewrite drop_trailing_spaces by congruence. cbn [rev]. by rewrite rev_involutive.
Qed.
Lemma trim_at_inner pre j t k rest : inner t ->
  trim_at (pre ++ spaces j ++ t ++ spaces k ++ 0 :: rest) (len pre) = (pre ++ spaces j ++ t ++ replicate k 0 ++ 0 :: rest, len pre + Z.of_nat j).
Proof.
  intros Ht. unfold trim_at. pose proof Ht as [Hc Hh _].
  assert (Hstr : str_at (pre ++ spaces j ++ t ++ spaces k ++ 0 :: rest) (len pre) = spaces j ++ t ++ spaces k).
  { rewrite <- (str_at_app pre (spaces j ++ t ++ spaces k) rest); [by rewrite <- !app_assoc|].
    apply is_cstr_app. split; [apply cstr_spaces_is|]. apply is_cstr_app. split; [done|apply cstr_spaces_is]. }
  rewrite Hstr, k_trim_inner, skip_spaces_lead by (done || by destruct t). rewrite !length_app. unfold spaces. rewrite !length_replicate.
  replace (len pre + (Z.of_nat (j + (length t + k)) - Z.of_nat (length t + k))) with (len pre + Z.of_nat j) by lia. f_equal.
  replace (Z.to_nat (len pre + Z.of_nat j)) with (length pre + j)%nat by lia. replace (length t + k - length t)%nat with k by lia.
  rewrite !(app_assoc pre). set (q := pre ++ replicate j 32). assert (Hq : length q = (length pre + j)%nat) by (unfold q; by rewrite length_app, length_replicate).
  rewrite !(app_assoc q). rewrite take_app_length' by (rewrite length_app; lia). f_equal. f_equal.
  rewrite (app_assoc (q ++ t)). apply drop_app_length'. rewrite !length_app, length_replicate. lia.
Qed.
Lemma past_word_plain w rest : plain w -> Ui.past_word (w ++ 32 :: rest) = 32 :: rest /\ Ui.past_word w = [].
Proof.
  intros [_ _ Hw]. induction Hw as [|c w [Hc _] Hw [IH1 IH2]]; [done|]. cbn [app Ui.past_word]. by rewrite (proj2 (Z.eqb_neq c 32)).
Qed.
Lemma find_redir_none t : forall prev, Forall (fun c => c <> ch ">") t -> find_redir prev t = None.
Proof.
  induction t as [|c t IH]; intros prev Ht; [done|]. apply Forall_cons in Ht as [Hc Ht]. cbn [find_redir]. rewrite (proj2 (Z.eqb_neq c _)) by done.
  cbn [andb]. by rewrite IH.
Qed.
Lemma find_redir_at w t : forall prev, Forall (fun c => c <> ch ">") w -> find_redir prev (w ++ 32 :: ch ">" :: t) = Some (len w + 1).
Proof.
  induction w as [|c w IH]; intros prev Hw; [done|]. apply Forall_cons in Hw as [Hc Hw]. cbn [app find_redir]. rewrite (proj2 (Z.eqb_neq c _)) by done.
  cbn [andb]. rewrite IH by done. cbn [mbind option_bind length]. f_equal. lia.
Qed.
Lemma words_no_redir a b : plain a -> plain b -> Forall (fun c => c <> ch ">") (a ++ 32 :: b).
Proof.
  intros [_ _ Ha] [_ _ Hb]. apply Forall_app. split; [|apply Forall_cons; split; [done|]]; eapply Forall_impl; try eassumption; by intros c [_ ?].
Qed.
Lemma next_arg_words pre a b rest : plain a -> plain b ->
  next_arg (pre ++ a ++ 32 :: b ++ 0 :: rest) (len pre) = (pre ++ a ++ 0 :: b ++ 0 :: rest, len pre + len a + 1).
Proof.
  intros Ha Hb. unfold next_arg.
  assert (Hstr : str_at (pre ++ a ++ 32 :: b ++ 0 :: rest) (len pre) = a ++ 32 :: b).
  { rewrite <- (str_at_app pre (a ++ 32 :: b) rest); [by rewrite <- !app_assoc|]. apply inner_join; done. }
  rewrite Hstr. destruct (past_word_plain a b Ha) as [-> _]. rewrite length_app. cbn [length].
  replace (len pre + (Z.of_nat (length a + S (length b)) - Z.of_nat (S (length b)))) with (len pre + len a) by lia.
  assert (Hb' : past_blanks (32 :: b) = b).
  { cbn [past_blanks Z.eqb Pos.eqb]. pose proof (plain_inner _ Hb) as [_ Hh _]. destruct b as [|c b]; [done|]. cbn [past_blanks hd] in *. by rewrite (proj2 (Z.eqb_neq c 32)). }
  rewrite Hb'. f_equal; [|lia]. unfold arr_set. rewrite !(app_assoc pre). replace (Z.to_nat (len pre + len a)) with (length (pre ++ a) + 0)%nat by (rewrite length_app; lia).
  by rewrite insert_app_r.
Qed.
Lemma next_arg_last pre b rest : plain b -> next_arg (pre ++ b ++ 0 :: rest) (len pre) = (pre ++ b ++ 0 :: rest, len pre + len b).
Proof.
  intros Hb. unfold next_arg. rewrite str_at_app by apply Hb. destruct (past_word_plain b [] Hb) as [_ ->]. f_equal. cbn [length]. lia.
Qed.

Definition column_error : cstring := zs "  Error: invalid namespace path syntax".
(** The command between the spaces: its second argument, the empty string
    behind the first, is at distance 8. *)
Lemma column_eight_refused d a b rest s : plain a -> plain b -> len a + len b = 7 -> a <> zs "ns" -> is_digit (char_at b 0) = false ->
  let mem := a ++ 32 :: b ++ 0 :: 0 :: rest in nl_parse mem [] [] [] = (-1, [], [], [], mem) ->
  process_command fuel cpuid stack junk (S d) (a ++ 32 :: b ++ 32 :: 0 :: rest) 0 8 s =
    (say_nl fuel column_error;; mret (a ++ 0 :: b ++ 0 :: 0 :: rest)) s.
Proof.
  intros Ha Hb Hlen Hns Hdig mem Hnl. cbn [process_command]. pose proof (inner_join a b Ha Hb) as Hin.
  pose proof (trim_at_inner [] 0 (a ++ 32 :: b) 1 rest Hin) as Et. cbn [app length spaces replicate] in Et. rewrite <- !app_assoc in Et. cbn [app] in Et.
  change (Z.of_nat 0) with 0 in Et. change (0 + 0) with 0 in Et. rewrite Et. fold mem.
  assert (Hstr : str_at mem 0 = a ++ 32 :: b).
  { rewrite <- (str_at_app [] (a ++ 32 :: b) (0 :: rest)) by apply Hin. unfold mem. by rewrite <- app_assoc. }
  rewrite Hstr, find_redir_none by (by apply words_no_redir). rewrite length_app. cbn [length]. rewrite (proj2 (Z.eqb_neq _ 0)) by lia.
  change (drop (Z.to_nat 0) mem) with mem. rewrite Hnl. change (take (Z.to_nat 0) mem ++ mem) with mem. change (-1 =? 0) with false. cbv iota.
  pose proof (next_arg_words [] a b (0 :: rest) Ha Hb) as E1. cbn [app length] in E1. change (Z.of_nat 0) with 0 in E1. fold mem in E1. rewrite E1.
  pose proof (next_arg_last (a ++ [0]) b (0 :: rest) Hb) as E2. rewrite length_app in E2. cbn [length] in E2. rewrite <- app_assoc in E2. cbn [app] in E2.
  replace (0 + len a + 1) with (Z.of_nat (length a + 1)) by lia. rewrite E2. replace (Z.of_nat (length a + 1) + len b) with 8 by lia.
  unfold dispatch. set (m := a ++ 0 :: b ++ 0 :: 0 :: rest).
  assert (S0 : str_at m 0 = a) by (apply (str_at_app [] a (b ++ 0 :: 0 :: rest)), Ha).
  assert (S1 : str_at m (Z.of_nat (length a + 1)) = b).
  { pose proof (str_at_app (a ++ [0]) b (0 :: rest) (pl_cstr _ Hb)) as E. rewrite length_app, <- app_assoc in E. exact E. }
  rewrite S0. assert (En : cmd_equals a "ns" = false).
  { unfold cmd_equals. apply Z.eqb_neq. intros E. apply k_strcmp_eq in E; [done|apply Ha|]. apply cstrb_sound. by vm_compute. }
  rewrite En.
  assert (T1 : translate_arg fuel m (Z.of_nat (length a + 1)) (8 - (Z.of_nat (length a + 1) - 0)) s = Some ((true, m), s)).
  { unfold translate_arg. rewrite !sbind_gets, S1. assert (len b <> 0) by (destruct Hb as [Hb _ _]; destruct b; [done|cbn; lia]).
    rewrite (proj2 (Z.ltb_lt _ 256)) by lia. unfold ns_to_fs_path. rewrite u64_id by (unfold is_u64; lia). rewrite (proj2 (Z.eqb_neq _ 0)) by lia. by rewrite Hdig. }
  assert (T2 : translate_arg fuel m 8 (8 - (8 - 0)) s = (say_nl fuel column_error;; mret (false, m)) s) by done.
  unfold mbind, shm_bind in *. rewrite T1. cbn [mbind option_bind]. rewrite T2. destruct (say_nl fuel column_error s) as [[[] s1]|]; done.
Qed.

(** The text a message sends while output is captured. *)
Lemma put_term_same s : put_term (sh_term s) s = s.
Proof. by destruct s as [[????????[]]]. Qed.
Lemma captured_say t s : capture (sh_term s) = None -> len t + 1 < 8192 ->
  exists s1 s2, (Shell.on_term (fun x => Some (terminal_capture_begin 1 8192 x)) : ShM D M U unit) s = Some ((), s1) /\
    say_nl fuel t s1 = Some ((), s2) /\ capture_end s2 = Some (t ++ [10], s).
Proof.
  intros Hc Ht. eexists (put_term (terminal_capture_begin 1 8192 (sh_term s)) s). set (s1 := put_term _ s).
  assert (Hb : capture (sh_term s1) = Some (8192, [])) by done.
  destruct (captured fuel (t ++ [10]) (sh_term s1) 8192 [] Hb) as (v & E & Hcap & Hrest); [lia|cbn; lia|].
  exists (put_term v s1). split; [done|]. split; [unfold say_nl, Shell.on_term; by rewrite vga_write_nl, E|].
  unfold capture_end. change (sh_term (put_term v s1)) with v. rewrite Hcap. cbn [app]. rewrite take_ge by (rewrite length_app; cbn [length]; lia). do 2 f_equal.
  change (put_term (set_capture None v) s = s). rewrite Hrest. change (set_capture None (sh_term s1)) with (set_capture None (sh_term s)).
  assert (Es : set_capture None (sh_term s) = sh_term s) by (destruct (sh_term s); cbn in Hc; by subst). rewrite Es. apply put_term_same.
Qed.

(** A line with [" > file"] behind the command: the command is handled again
    with capacity 8 while its output is captured. *)
Lemma redirect_unfolds d head file rest cap s : inner head -> head <> [] -> Forall (fun c => c <> ch ">") head -> plain file ->
  process_command fuel cpuid stack junk (S d) (head ++ 32 :: 62 :: 32 :: file ++ 0 :: rest) 0 cap s =
    (Shell.on_term (fun x => Some (terminal_capture_begin 1 8192 x));;
     mem ← process_command fuel cpuid stack junk d (head ++ 32 :: 0 :: 32 :: file ++ 0 :: rest) 0 8;
     captured ← capture_end;
     redirect_output fuel stack false (str_at mem (len head + 3)) captured;;
     mret mem) s.
Proof.
  intros [I1 I2 _] Hne Hgt Hf. pose proof (plain_inner _ Hf) as [F1 _ F3]. cbn [process_command].
  assert (Hin : inner (head ++ 32 :: 62 :: 32 :: file)).
  { split.
    - apply is_cstr_app. split; [done|]. rewrite !is_cstr_cons. repeat split; try lia. done.
    - by destruct head.
    - destruct file as [|c file]; [by destruct Hf|]. by rewrite last_app_cons, !last_cons_cons. }
  set (mem := head ++ 32 :: 62 :: 32 :: file ++ 0 :: rest). set (mem2 := head ++ 32 :: 0 :: 32 :: file ++ 0 :: rest).
  assert (Et : trim_at mem 0 = (mem, 0)).
  { pose proof (trim_at_inner [] 0 (head ++ 32 :: 62 :: 32 :: file) 0 rest Hin) as E. cbn [app length spaces replicate] in E.
    rewrite <- !app_assoc in E. exact E. }
  assert (S0 : str_at mem 0 = head ++ 32 :: 62 :: 32 :: file).
  { rewrite <- (str_at_app [] (head ++ 32 :: 62 :: 32 :: file) rest) by apply Hin. unfold mem. by rewrite <- app_assoc. }
  rewrite Et, S0, (proj2 (Z.eqb_neq _ 0)) by (rewrite length_app; destruct head; [done|cbn; lia]).
  change (32 :: 62 :: 32 :: file) with (32 :: ch ">" :: 32 :: file). rewrite find_redir_at by done.
  assert (G : arr_get 0 mem (0 + (len head + 1) + 1) = 32).
  { unfold arr_get, mem. rewrite lookup_app_r by lia. by replace (Z.to_nat (0 + (len head + 1) + 1) - length head)%nat with 2%nat by lia. }
  assert (E2 : arr_set mem (0 + (len head + 1)) 0 = mem2).
  { unfold arr_set, mem, mem2. replace (Z.to_nat (0 + (len head + 1))) with (length head + 1)%nat by lia. by rewrite insert_app_r. }
  rewrite G, E2. change (32 =? ch ">") with false. cbn [Z.b2z].
  assert (Hp : 0 + (len head + 1) + 1 + 0 = Z.of_nat (length (head ++ [32; 0]))) by (rewrite length_app; cbn [length]; lia). rewrite Hp.
  assert (Em2 : mem2 = (head ++ [32; 0]) ++ spaces 1 ++ file ++ spaces 0 ++ 0 :: rest) by (unfold mem2; by rewrite <- app_assoc).
  assert (S1 : str_at mem2 (len (head ++ [32; 0])) = 32 :: file).
  { rewrite <- (str_at_app (head ++ [32; 0]) (32 :: file) rest); [by rewrite Em2|]. apply is_cstr_cons. split; [lia|apply Hf]. }
  rewrite S1. cbn [skip_gt]. change (32 =? ch ">") with false. cbv iota. rewrite Z.add_0_r.
  assert (E3 : trim_at mem2 (len (head ++ [32; 0])) = (mem2, len head + 3)).
  { rewrite Em2, trim_at_inner by (by apply plain_inner). f_equal. rewrite length_app. cbn [length]. lia. }
  assert (S2 : str_at mem2 (len head + 3) = file).
  { rewrite <- (str_at_app (head ++ [32; 0; 32]) file rest) by apply Hf. rewrite length_app. cbn [length]. rewrite <- app_assoc. f_equal. lia. }
  rewrite E3, S2, (proj2 (Z.eqb_neq _ 0)) by (destruct Hf as [Hf _ _]; destruct file; [done|cbn; lia]). done.
Qed.

(** ** Two nested calls are enough *)

Lemma find_redir_bound t : forall prev i, find_redir prev t = Some i -> 0 <= i < len t.
Proof.
  induction t as [|x t IH]; intros prev i Hi; [done|]. cbn [find_redir length] in *. destruct (_ && _); [injection Hi as <-; lia|].
  apply bind_Some in Hi as (y & Hy & Hi). injection Hi as <-. specialize (IH _ _ Hy). lia.
Qed.
Lemma find_redir_prefix t : forall prev i k, find_redir prev t = Some i -> (k <= Z.to_nat i)%nat -> find_redir prev (take k t) = None.
Proof.
  induction t as [|c t IH]; intros prev i k Hi Hk; [done|]. cbn [find_redir] in Hi. destruct k as [|k]; [done|]. cbn [take find_redir].
  destruct ((c =? ch ">") && _); [injection Hi as <-; cbn in Hk; lia|]. apply bind_Some in Hi as (j & Hj & Hi). injection Hi as <-.
  pose proof (find_redir_bound _ _ _ Hj). by rewrite (IH _ _ k Hj) by lia.
Qed.
(** Trimming keeps a prefix of a text that starts with a character. *)
Lemma k_trim_prefix t : hd 32 t <> 32 -> exists k, k_trim t = take k t.
Proof.
  intros Hh. assert (Es : skip_spaces t = t) by (by apply (skip_spaces_lead 0)). unfold k_trim. rewrite Es.
  assert (Hd : forall r, exists j, drop_trailing r = drop j r).
  { induction r as [|c r [j IH]]; [by exists 0%nat|]. cbn [drop_trailing]. destruct r as [|c' r]; [by exists 0%nat|].
    destruct (c =? SPACE); [by exists (S j)|by exists 0%nat]. }
  destruct (Hd (rev t)) as [j ->]. exists (length t - j)%nat. rewrite skipn_rev, rev_involutive. done.
Qed.
Lemma skip_spaces_split t : exists j, t = spaces j ++ skip_spaces t.
Proof.
  induction t as [|c t [j IH]]; [by exists 0%nat|]. cbn [skip_spaces]. unfold SPACE. destruct (Z.eqb_spec c 32) as [->|]; [|by exists 0%nat].
  exists (S j). cbn [spaces replicate app]. by f_equal.
Qed.
(** What [k_trim] leaves of a text: some of it from the first character on. *)
Lemma k_trim_split t : exists k, k_trim t = take k (skip_spaces t) /\ (k_trim t = [] \/ hd 32 (k_trim t) <> 32).
Proof.
  pose proof (skip_spaces_head t) as Hh. unfold SPACE in Hh. destruct (skip_spaces t) as [|c u] eqn:E; [exists 0%nat; unfold k_trim; rewrite E; split; [done|by left]|].
  destruct (k_trim_prefix (c :: u)) as [k Hk]; [done|].
  assert (Ek : k_trim t = k_trim (c :: u)) by (unfold k_trim; rewrite E; by rewrite (skip_spaces_lead 0 (c :: u) Hh : skip_spaces (c :: u) = c :: u)).
  exists k. rewrite Ek, Hk. split; [done|]. destruct k; [by left|by right].
Qed.
Lemma cstr_split l : exists rest, l = cstr l ++ rest /\ (rest = [] \/ exists r, rest = 0 :: r) /\ Forall (fun c => c <> 0) (cstr l).
Proof.
  induction l as [|c l (rest & IH1 & IH2 & IH3)]; [exists []; split; [done|]; split; [by left|done]|]. cbn [cstr]. unfold NUL.
  destruct (Z.eqb_spec c 0) as [->|Hc]; [exists (0 :: l); split; [done|]; split; [right; by exists l|done]|].
  exists rest. split; [cbn [app]; by f_equal|]. split; [done|by constructor].
Qed.
Lemma cstr_stop a r : Forall (fun c => c <> 0) a -> r = [] \/ (exists x, r = 0 :: x) -> cstr (a ++ r) = a.
Proof.
  intros Ha Hr. induction Ha as [|c a Hc Ha IH]; [by destruct Hr as [->|[x ->]]|]. cbn [app cstr]. unfold NUL. rewrite (proj2 (Z.eqb_neq c 0)) by done. by rewrite IH.
Qed.
Lemma str_at_trim mem p : 0 <= p -> (Z.to_nat p <= length mem)%nat -> let '(m, q) := trim_at mem p in
  str_at m q = k_trim (str_at mem p) /\ p <= q /\ forall n, (n <= Z.to_nat p)%nat -> take n m = take n mem.
Proof.
  intros Hp Hm. unfold trim_at. destruct (cstr_split (drop (Z.to_nat p) mem)) as (rest & El & Hrest & Hnz).
  change (cstr (drop (Z.to_nat p) mem)) with (str_at mem p) in El, Hnz. set (t := str_at mem p) in *.
  destruct (skip_spaces_split t) as [j Ej]. destruct (k_trim_split t) as (k & Ek & _). set (u := skip_spaces t) in *. set (kept := k_trim t) in *.
  assert (Ht : length t = (j + length u)%nat) by (rewrite Ej; unfold spaces; by rewrite length_app, length_replicate).
  replace (p + (len t - len u)) with (p + Z.of_nat j) by lia. replace (Z.to_nat (p + Z.of_nat j)) with (Z.to_nat p + j)%nat by lia.
  assert (Emem : mem = (take (Z.to_nat p) mem ++ spaces j) ++ u ++ rest) by (rewrite <- app_assoc, (app_assoc (spaces j)), <- Ej, <- El; by rewrite take_drop).
  set (pre := take (Z.to_nat p) mem ++ spaces j) in *.
  assert (Hpre : length pre = (Z.to_nat p + j)%nat) by (unfold pre, spaces; rewrite length_app, length_take, length_replicate; lia).
  assert (Hk : (length kept <= length u)%nat) by (rewrite Ek, length_take; lia).
  assert (Eu : u = kept ++ drop (length kept) u) by (rewrite Ek at 1; rewrite Ek, length_take; destruct (decide (k <= length u)%nat);
    [replace (k `min` length u)%nat with k by lia; by rewrite take_drop|replace (k `min` length u)%nat with (length u) by lia; rewrite drop_all, app_nil_r; by rewrite take_ge by lia]).
  assert (E1 : take (Z.to_nat p + j + length kept) mem = pre ++ kept).
  { rewrite Emem, Eu, <- !app_assoc, app_assoc. apply take_app_length'. rewrite length_app. lia. }
  assert (E2 : drop (Z.to_nat p + j + length u) mem = rest).
  { rewrite Emem, app_assoc. apply drop_app_length'. rewrite length_app. lia. }
  rewrite E1, E2. split; [|split; [lia|]].
  - unfold str_at. replace (Z.to_nat (p + Z.of_nat j)) with (length pre) by lia. rewrite <- app_assoc, drop_app_length. apply cstr_stop.
    + rewrite Ek. apply Forall_take. rewrite Ej in Hnz. by apply Forall_app in Hnz as [_ ?].
    + destruct (length u - length kept)%nat; [done|]. right. by eexists.
  - intros n Hn. unfold pre. rewrite <- !app_assoc, take_app_le, take_take by (rewrite length_take; lia). f_equal. lia.
Qed.
Lemma cstr_length l : (length (cstr l) <= length l)%nat.
Proof. induction l as [|c l IH]; cbn [cstr]; [done|]. destruct (c =? NUL); cbn [length]; lia. Qed.
Lemma skip_gt_bounds t : 0 <= skip_gt t <= len t.
Proof. induction t as [|c t IH]; cbn [skip_gt length]; [lia|]. destruct (c =? ch ">"); lia. Qed.
Lemma no_redir_depth d d' mem cmd cap s : find_redir None (str_at (trim_at mem cmd).1 (trim_at mem cmd).2) = None ->
  process_command fuel cpuid stack junk (S d) mem cmd cap s = process_command fuel cpuid stack junk (S d') mem cmd cap s.
Proof. cbn [process_command]. destruct (trim_at mem cmd) as [m q]. cbn [fst snd]. intros ->. done. Qed.
(** The command in front of the first '>' holds no other. *)
Lemma cut_no_redir mem cmd i fp : 0 <= cmd -> (Z.to_nat cmd <= length mem)%nat -> hd 32 (str_at mem cmd) <> 32 -> find_redir None (str_at mem cmd) = Some i -> cmd + i < fp ->
  (Z.to_nat fp <= length mem)%nat ->
  let mem2 := (trim_at (arr_set mem (cmd + i) 0) fp).1 in find_redir None (str_at (trim_at mem2 cmd).1 (trim_at mem2 cmd).2) = None.
Proof.
  intros Hc Hm Hh Hr Hfp Hfl. cbv zeta. set (t := str_at mem cmd) in *. pose proof (find_redir_bound _ _ _ Hr) as Hi.
  set (mem' := arr_set mem (cmd + i) 0).
  assert (Hl' : length mem' = length mem) by (unfold mem', arr_set; apply length_insert).
  pose proof (str_at_trim mem' fp ltac:(lia) ltac:(lia)) as Ht. destruct (trim_at mem' fp) as [mem2 q]. cbn [fst]. destruct Ht as (_ & _ & Hpre).
  destruct (cstr_split (drop (Z.to_nat cmd) mem)) as (rest & El & _ & Hnz). change (cstr (drop (Z.to_nat cmd) mem)) with t in El, Hnz.
  assert (Hmem : mem = (take (Z.to_nat cmd) mem ++ take (Z.to_nat i) t) ++ drop (Z.to_nat i) t ++ rest) by (rewrite <- app_assoc, (app_assoc (take _ t)), take_drop, <- El; by rewrite take_drop).
  set (a := take (Z.to_nat cmd) mem ++ take (Z.to_nat i) t) in *.
  assert (Ha : length a = Z.to_nat (cmd + i)) by (unfold a; rewrite length_app, !length_take; lia).
  assert (E1 : take (S (length a)) mem' = a ++ [0]).
  { unfold mem', arr_set. rewrite <- Ha, insert_take_drop by lia. assert (Eta : take (length a) mem = a) by (rewrite Hmem; apply take_app_length).
    rewrite Eta, cons_middle, app_assoc. apply take_app_length'. rewrite length_app. cbn [length]. lia. }
  assert (E2 : exists y, mem2 = a ++ 0 :: y).
  { exists (drop (S (length a)) mem2). rewrite <- (take_drop (S (length a)) mem2) at 1. rewrite (Hpre (S (length a))), E1 by lia. by rewrite <- app_assoc. }
  destruct E2 as [y ->].
  assert (Hlen2 : (Z.to_nat cmd <= length (a ++ 0%Z :: y))%nat) by (rewrite length_app; lia).
  pose proof (str_at_trim (a ++ 0 :: y) cmd Hc Hlen2) as Ht2. destruct (trim_at (a ++ 0 :: y) cmd) as [m3 q3]. cbn [fst snd]. destruct Ht2 as (-> & _).
  assert (Es : str_at (a ++ 0 :: y) cmd = take (Z.to_nat i) t).
  { unfold str_at, a. rewrite <- app_assoc. rewrite drop_app_length' by (rewrite length_take; lia). apply cstr_stop; [by apply Forall_take|right; by eexists]. }
  rewrite Es. destruct (Z.to_nat i) as [|n] eqn:En; [done|]. destruct t as [|c t]; [done|].
  destruct (k_trim_prefix (take (S n) (c :: t))) as [k ->]; [done|]. rewrite take_take. eapply find_redir_prefix; [exact Hr|lia].
Qed.

(** The line buffer holds the text it starts with at [cmd], with a NUL behind
    it: more than two nested calls never happen. *)
Lemma process_command_depth d mem cmd cap s : 0 <= cmd -> (Z.to_nat cmd <= length mem)%nat ->
  process_command fuel cpuid stack junk (S (S d)) mem cmd cap s = process_command fuel cpuid stack junk 2 mem cmd cap s.
Proof.
  intros Hc Hm. pose proof (str_at_trim mem cmd Hc Hm) as Ht. remember (S d) as d1 eqn:Ed1. remember 1%nat as d2 eqn:Ed2. cbn [process_command].
  destruct (trim_at mem cmd) as [m q]. destruct Ht as (Hk & Hq & _). set (t := str_at m q) in *. destruct (len t =? 0) eqn:El; [done|].
  destruct (find_redir None t) as [i|] eqn:Hr; [|done]. pose proof (find_redir_bound _ _ _ Hr) as Hi.
  assert (Hh : hd 32 t <> 32) by (destruct (k_trim_split (str_at mem cmd)) as (_ & _ & [Hn|Hn]); rewrite <- Hk in Hn; [rewrite Hn in Hi; cbn in Hi; lia|done]).
  assert (Hlm : (Z.to_nat q + Z.to_nat i < length m)%nat).
  { pose proof (cstr_length (drop (Z.to_nat q) m)) as Hl. rewrite length_drop in Hl. change (cstr (drop (Z.to_nat q) m)) with t in Hl. lia. }
  set (more := arr_get 0 m (q + i + 1) =? ch ">"). set (fp := q + i + 1 + Z.b2z more). set (m1 := arr_set m (q + i) 0).
  assert (Hl1 : length m1 = length m) by apply length_insert.
  assert (Hfp : cmd <= q + i < fp /\ (Z.to_nat fp <= length m)%nat).
  { unfold fp. split; [destruct more; cbn; lia|]. destruct more eqn:Em; cbn [Z.b2z]; [|lia]. unfold more, arr_get in Em.
    destruct (m !! Z.to_nat (q + i + 1)) as [x|] eqn:Ex; [|done]. apply lookup_lt_Some in Ex. lia. }
  assert (Hgt : 0 <= skip_gt (str_at m1 fp) /\ (Z.to_nat (fp + skip_gt (str_at m1 fp)) <= length m)%nat).
  { pose proof (cstr_length (drop (Z.to_nat fp) m1)) as Hl. rewrite length_drop in Hl. change (cstr (drop (Z.to_nat fp) m1)) with (str_at m1 fp) in Hl.
    pose proof (skip_gt_bounds (str_at m1 fp)). lia. }
  pose proof (cut_no_redir m q i (fp + skip_gt (str_at m1 fp)) ltac:(lia) ltac:(lia) Hh Hr ltac:(lia) ltac:(lia)) as Hcut. fold m1 in Hcut. cbv zeta in Hcut.
  destruct (trim_at m1 (fp + skip_gt (str_at m1 fp))) as [m2 fp2]. cbn [fst] in Hcut. destruct (len (str_at m2 fp2) =? 0); [done|].
  assert (E : forall s', process_command fuel cpuid stack junk d1 m2 q 8 s' = process_command fuel cpuid stack junk d2 m2 q 8 s') by (intros s'; subst d1 d2; by apply no_redir_depth).
  unfold mbind, shm_bind, Shell.on_term. cbn [mbind option_bind]. by rewrite E.
Qed.

(** A redirected command whose two words take exactly eight characters
    is not run (unless the natural-language parser accepts it): the line is
    cut at the '>' and handled again with the size of a pointer, 8, as the
    capacity of its buffer, the second argument, the empty string behind the
    first, is then left with none, and the file that was to get the output
    gets the message that a path is malformed. *)
Theorem redirected_command_refused a b file rest s : plain a -> plain b -> plain file -> len a + len b = 7 -> a <> zs "ns" -> is_digit (char_at b 0) = false ->
  let left := a ++ 32 :: b ++ 0 :: 0 :: 32 :: file ++ 0 :: rest in nl_parse left [] [] [] = (-1, [], [], [], left) ->
  capture (sh_term s) = None ->
  process_command fuel cpuid stack junk 2 ((a ++ 32 :: b) ++ zs " > " ++ file ++ 0 :: rest) 0 MAX_CMD_LEN s =
    (redirect_output fuel stack false file (column_error ++ [10]);; mret (a ++ 0 :: b ++ 0 :: 0 :: 32 :: file ++ 0 :: rest)) s.
Proof.
  intros Ha Hb Hf Hlen Hns Hdig left Hnl Hcap. change (zs " > ") with [32; 62; 32]. cbn [app].
  rewrite redirect_unfolds; [|by apply inner_join|by destruct a|by apply words_no_redir|done]. rewrite <- app_assoc. cbn [app].
  destruct (captured_say column_error s Hcap) as (s1 & s2 & R1 & R2 & R3); [by vm_compute|]. rewrite (sbind_run _ _ _ _ _ R1).
  pose proof (column_eight_refused 0 a b (32 :: file ++ 0 :: rest) s1 Ha Hb Hlen Hns Hdig Hnl) as E. rewrite (sbind_run _ _ _ _ _ R2) in E.
  rewrite (sbind_run _ _ _ _ _ E), (sbind_run _ _ _ _ _ R3).
  assert (Es : str_at (a ++ 0 :: b ++ 0 :: 0 :: 32 :: file ++ 0 :: rest) (len (a ++ 32 :: b) + 3) = file).
  { pose proof (str_at_app (a ++ 0 :: b ++ [0; 0; 32]) file rest (pl_cstr _ Hf)) as E0. rewrite <- app_assoc in E0. cbn [app] in E0. rewrite <- app_assoc in E0.
    rewrite length_app in E0 |- *. cbn [length] in E0 |- *. rewrite length_app in E0. cbn [length] in E0.
    replace (Z.of_nat (length a + S (length b)) + 3) with (Z.of_nat (length a + S (length b + 3))) by lia. exact E0. }
  by rewrite Es.
Qed.
End screen.
End props.

(** ** A shell with one file *)

Module Examples.
#[local] Instance ports : PortIO unit := {|
  inb port d := (if port =? COM1 + SERIAL_LSR then LSR_TX_EMPTY else if port =? ATA_STATUS then 72 else 0, d);
  outb _ _ d := d; inw _ d := (0, d); outw _ _ d := d; io_wait d := d
|}.
#[local] Instance ports32 : PortIO32 unit := {| inl _ d := (2 ^ 32 - 1, d); outl _ _ d := d |}.
#[local] Instance mount_ops : MountedOps (fs unit) := {|
  mo_open _ _ m := (-1, m); mo_close _ m := (-1, m); mo_read _ _ _ m := ([], -1, m); mo_write _ _ m := (-1, m);
  mo_mkdir _ m := (-1, m); mo_unlink _ m := (-1, m); mo_list _ := []; mo_size _ _ := 0
|}.
#[local] Instance mount : FsMount unit (fs unit) := {| mount_fs m := m; set_mount_fs f _ := f; mount_fs_set _ _ := eq_refl |}.
#[local] Existing Instance Input.Examples.no_usb.
Abbreviation turns := 20%nat.

(** A formatted volume of 1 MB with the file /a. *)
Definition make_file : FsM unit unit := fs_format turns 1048576;; f ← fs_open turns (zs "/a") 1; fs_write turns [] f (zs "one two");; fs_close turns f;; mret ().
Definition volume0 : fs unit := match make_file FsSpec.Examples.blank with Some (_, s) => s | None => FsSpec.Examples.blank end.
Definition vfs0 : vfs (sysenv unit (fs unit)) :=
  Vfs [] (replicate 8 no_node) ∅ None [] [] [] (Ramfs [] false (kheap_init 65536 4096 ∅))
    (SysEnv [] [] [] ∅ 0 (Pmm [] 0 0 0 0 [] 0 0) Vfile.Examples.idle_sched tt volume0).
Definition disp0 : dispatcher unit (sysenv unit (fs unit)) :=
  Dispatcher [] 0 0 0 0 0 0 0 0 (zs "/") [] 0 StateGraph.Examples.started vfs0 (vga_clear_screen (Vga (replicate 2000 0) 0 0 7 None ())).
Definition shell0 : shell unit (fs unit) unit :=
  Shell (Ui [] [] [] [] [] 0 0 0 disp0) (Part FsSpec.Examples.quiet_disk (kheap_init 65536 4096 ∅) 0 0 0 0 false)
    (Input Input.Examples.idle_keys Input.Examples.idle_hid true false) (Nic tt (Pmm [] 0 0 0 0 [] 0 0) ∅ 0 0 0 [] []) (Ping 0 0) []
    [] [] [] 0 0 0 (FindSt [] 0 0 []) (foldl (fun h c => history_add c h) no_history [zs "ls"; zs "ls"; zs "df"]).
Definition page0 : page := empty_page 7.

(** The blocks of a heap, read from its headers. *)
Fixpoint blocks_from (n : nat) (m : gmap Z kheap_block) (a : Z) : list kheap_block :=
  match n, m !! a with S k, Some b => b :: (if kb_next b =? 0 then [] else blocks_from k m (kb_next b)) | _, _ => [] end.
Definition blocks0 : list kheap_block := blocks_from 8 (hdrs (fheap volume0)) (heap_first (fheap volume0)).

Lemma clock0 rdy (d : unit) : is_Some (get_time turns rdy d).
Proof. by destruct rdy, d; vm_compute; eexists. Qed.
Lemma rtc0 (d : unit) : is_Some (rtc_read_time turns d).
Proof. by destruct d; vm_compute; eexists. Qed.
Lemma ready0 (d : unit) : is_Some (serial_wait turns d).
Proof. by destruct d; vm_compute; eexists. Qed.
Lemma screen0 : screen shell0 page0.
Proof. split; [apply clear_shows|done]. Qed.
Lemma volume_ok : fs_ok volume0.
Proof. apply FsSpec.Examples.fs_okb_sound. by vm_compute. Qed.
Lemma volume_holds : file_holds volume0 16 (zs "one two").
Proof.
  split.
  - vm_compute. split; [discriminate|reflexivity].
  - by vm_compute.
  - right. repeat split; vm_compute; (reflexivity || discriminate).
  - by vm_compute.
Qed.
Lemma volume_heap : fs_heap volume0 blocks0 1065536.
Proof.
  split.
  - split; [by vm_compute..| |by vm_compute|by vm_compute].
    vm_compute. repeat split; first [reflexivity|discriminate|left; reflexivity|right; reflexivity].
  - exists 524288. split; [by vm_compute|]. apply (bool_decide_unpack _). by vm_compute.
  - exists 512. split; [by vm_compute|]. apply (bool_decide_unpack _). by vm_compute.
Qed.
Lemma volume_room : room_for_handle turns volume0 blocks0.
Proof.
  split.
  - vm_compute. repeat constructor; intros; first [discriminate|vm_compute; discriminate].
  - apply (bool_decide_unpack _). by vm_compute.
  - vm_compute. lia.
Qed.
Lemma file0 : file_at turns (zs "/a") 16 (zs "one two") blocks0 1065536 shell0.
Proof. split; [split; by vm_compute|exact volume_ok|by vm_compute|exact volume_holds|exact volume_heap|exact volume_room]. Qed.
Abbreviation cpuid0 := Vfile.Examples.no_cpuid.

Lemma working_directory_fixed_witness :
  (exists s1, cmd_chdir turns cpuid0 (zs "/etc") shell0 = say_nl turns cd_error s1) /\ (exists s1, cmd_pwd turns cpuid0 shell0 = Some ((), s1)).
Proof.
  destruct (working_directory_fixed turns cpuid0 rtc0 (zs "/etc") shell0) as ((s1 & E1 & _) & _ & _ & s2 & E2 & _);
    [apply cstrb_sound; by vm_compute|by vm_compute|]. split; [exists s1; exact E1|exists s2; exact E2].
Defined.
Lemma history_shows_log_witness :
  (exists s', cmd_history turns shell0 = Some ((), s') /\ screen s' (printed shell0 page0 ([10] ++ zs "  1  ls" ++ [10] ++ zs "  2  df" ++ [10; 10]))) /\
  line (press_up 2 (sh_history shell0)) = zs "ls".
Proof.
  destruct (history_shows_log turns ready0 [zs "ls"; zs "ls"; zs "df"] page0 shell0) as [(s' & E & Hs & _) Hup];
    [by repeat (apply Forall_cons; split; [by vm_compute|])|done|exact screen0|].
  split; [exists s'; split; [exact E|exact Hs]|]. rewrite (Hup 2%nat); [by vm_compute|by vm_compute; lia].
Defined.
(** The keys a, b, backspace, c and Enter, with a poll without a key. *)
Definition key (c : Z) : event unit unit := Event (fun i => set_ps2 (Ps2.put c (ps2 i)) i) 0.
Definition typing : shell unit (fs unit) unit := set_input (sh_in shell0) [key 97; key 98; Event id 1; key 8; key 99; key 10] shell0.
Lemma line_editor_shows_witness : exists s', read_line turns 6 (fresh (sh_history typing)) typing = Some (zs "ac", s').
Proof.
  destruct (line_editor_shows turns ready0 (zs "ab" ++ [8] ++ zs "c") page0 typing) as [(s' & E & _) _].
  - repeat (apply Forall_cons; split; [by split; vm_compute|]). by apply Forall_nil.
  - do 2 (eapply typed_key; [by vm_compute|by vm_compute|]). apply typed_idle; [by vm_compute|].
    do 3 (eapply typed_key; [by vm_compute|by vm_compute|]). apply typed_nil.
  - exact screen0.
  - exists s'. exact E.
Defined.
Lemma find_command_witness : exists s' found n, cmd_find turns (zs "a") shell0 = Some ((), s') /\ screen s' (printed shell0 page0 (find_page (zs "a") found n)).
Proof.
  destruct (find_command turns ready0 (zs "a") page0 shell0) as (s' & found & n & E & Hs & _); [done|exact volume_ok|exact screen0|].
  exists s', found, n. split; [exact E|exact Hs].
Defined.
Lemma redirected_command_refused_witness :
  process_command turns cpuid0 [] (fun _ => []) 2 (zs "wc abcde > out" ++ 0 :: replicate 241 0) 0 256 shell0 =
    (redirect_output turns [] false (zs "out") (column_error ++ [10]);; mret (zs "wc" ++ 0 :: zs "abcde" ++ 0 :: 0 :: 32 :: zs "out" ++ 0 :: replicate 241 0)) shell0.
Proof.
  apply (redirected_command_refused turns cpuid0 [] (fun _ => []) (zs "wc") (zs "abcde") (zs "out") (replicate 241 0) shell0);
    [split; [done|apply cstrb_sound; by vm_compute|repeat (apply Forall_cons; split; [by split|]); by apply Forall_nil]..|done|done|done|by vm_compute|done].
Defined.
End Examples.
